(* ===== verification/_CoqProject ===== *)
-Q . S2P
Prelude.v
GoFloat.v
GoLib.v
GoStrings.v
FailureTracker.v
Models.v
Errors.v
Interfaces.v
Database.v
SessionTable.v
Lifecycle.v
Provisioner.v
Disk.v
CreateSession.v
Verify.v
GoText.v
Programs.v
SshOutput.v
SshOutputFacts.v
SshExec.v
SshFacts.v
SshVerifier.v
DestroyLocks.v
Workers.v
CostTable.v
CostTracker.v
FailureTable.v
Inventory.v
InventoryFacts.v
Reconciler.v
Startup.v
ModelsFacts.v
Template.v
CircuitBreaker.v
ApiClient.v
VastTypes.v
Vast.v
VastFacts.v
BlueLobster.v
BlueLobsterFacts.v
TensorDock.v
TensorDockFacts.v
Api.v
ApiFacts.v
Server.v
Tables.v
Manifest.v
BenchStore.v
BenchParser.v
Runner.v
BenchRuns.v
RunnerFacts.v
BenchRunsFacts.v
BenchService.v
Scheduler.v
SchedulerFacts.v
BenchApi.v
Config.v
Cleanup.v
CleanupFacts.v
FileTransfer.v
FileTransferFacts.v
Cli.v
Orchestrator.v
OrchestratorFacts.v
Commands.v
CommandsFacts.v
Metrics.v
Deployment.v
Loader.v
Logging.v
Simulation.v
Scenarios.v
FleetScenarios.v
ProviderScenarios.v
ApiScenarios.v
BenchScenarios.v
SshScenarios.v
CliScenarios.v
MetricsScenarios.v
