(* ===== verification/Prelude.v ===== *)
(** * Verification of the GPU shopper's core services

    The program (Go, under [src/]) rents GPU instances on marketplaces for consumers.
    Its services share one SQLite database, one account per provider, the clock and the
    Prometheus registry:
    - [internal/storage] stores sessions, costs and offer failures;
    - [internal/service/inventory] lists offers of all providers, caches and ranks them
      and remembers which offers failed;
    - [internal/service/provisioner] creates a session in phases (record, instance,
      instance recorded, verification), retries with comparable offers, and destroys
      sessions with verification;
    - [internal/service/lifecycle] runs the periodic checks (hard maximum, reservation,
      stuck sessions, failed destroys), reconciles the table with the providers'
      lists, recovers after a crash and shuts down;
    - [internal/service/cost] bills running sessions by the hour;
    - [internal/provider] holds one HTTP client per marketplace (Vast.ai, Blue Lobster,
      TensorDock), each behind a circuit breaker;
    - [internal/service/benchmark] runs benchmarks of models on rented machines, with the
      manifest, the results and the parsers of [internal/benchmark];
    - [internal/ssh] verifies that a machine answers, runs commands on it and reads what
      its tools print;
    - [internal/metrics] counts what happens, [internal/config] loads the settings;
    - [internal/api] serves all of it over HTTP, and [cmd/server] wires the parts;
    - [cmd/cli] talks to that server, and to the providers for the clean-up, and
      [internal/filetransfer] copies files for it.

    ** How the code is modelled

    A method that reads or writes shared state is a function [W -> A * W] ([M W A]) over
    an arbitrary state [W] of the outside world, and its specification a weakest
    precondition ([wp]).  A Go interface is a class of such operations with a class of
    laws (file Interfaces): [SessionStore]/[StoreLaws], [Env]/[EnvLaws] (the clock, waits,
    fresh ids, key generation, recorded effects), [Provider] (one marketplace account; its
    answers are arbitrary functions of the state, its calls touch no session),
    [SessionDestroyer], [InventoryFinder], [CostRecorder], [CostStore].  Services are
    proved against the interfaces; SessionTable, CostTable, Provisioner, InventoryFacts and
    CostTracker discharge the laws for the implementations, and Simulation instantiates all of them at once
    with a concrete world that evaluates, where the witnesses run.  A [go] statement is a
    recorded effect that names the goroutine ([Go]); the goroutine's body is a method of
    its own, to be run at any later state.  The benchmark runner, whose goroutines share a
    gate and run for hours, the SSH code and the commands are programs over an inductive type of effects
    instead (Programs: [prog], with the monitors that say which effects are allowed), and the start
    and stop of services is a step relation (Workers).  Log messages are left out; audit records, metrics
    and callbacks are recorded effects, and Metrics says what the metric calls do to the series.

    - GoFloat: [float64] as IEEE binary64 ([SpecFloat]), constants correctly rounded.
    - GoLib: 64-bit integers with wrap-around, [time] with the proleptic UTC calendar,
      [strings] on bytes; GoStrings: more of [strings], [strconv] and [fmt].
    - Models, ModelsFacts: [pkg/models] (session, offer, tags, cost records).
    - Errors: the sentinel and typed errors of all packages as one inductive type,
      [errors.Is]/[errors.As], the classification functions.
    - Interfaces: [internal/provider/interface.go], [registry.go], the services' interfaces.
    - Database, SessionTable, CostTable, FailureTable: [internal/storage]; tables are finite
      maps and lists, one function per statement, the partial unique index included.  Which
      statements the driver fails is an input ([DB.faults]).
    - FailureTracker: [inventory/failure_tracker.go] on finite maps; [Spec] is the abstract
      history of failures that it refines.
    - Inventory, InventoryFacts: [inventory/service.go]; [InvState] is the cache, the
      tracker and the shutdown flag.
    - Provisioner, CreateSession, Verify, Disk, DestroyLocks: [provisioner/service.go] and
      [disk.go]: destruction, creation with retries, the verification loops, the disk
      estimate, and the per-session mutexes as a step relation over goroutines.
    - SshVerifier: the verifiers that [provisioner.New] builds, the SSH one by running the
      programs of SshExec on a network, as instances of the interfaces of Verify,
      and the doubles of the tests ([provisioner/mock_ssh_verifier.go]).
    - Lifecycle, Reconciler, Startup: [lifecycle/manager.go], [reconciler.go], [startup.go].
    - CostTracker: [cost/tracker.go].
    - Template: [pkg/models/template.go], filters matched against the properties of a
      machine, which are dynamically typed values.
    - CircuitBreaker, ApiClient: the breaker that each client holds a copy of, and what
      surrounds every API call: the test of the circuit, the record of its outcome.
    - VastTypes, Vast, VastFacts: [provider/vastai/types.go] and [client.go];
      BlueLobster, BlueLobsterFacts: [provider/bluelobster]; TensorDock, TensorDockFacts:
      [provider/tensordock].  Each client ends in a [Provider.t], the record the services
      take, and keeps its state (circuit, caches, statistics) in a lens of the world.
    - Api, ApiFacts: [internal/api/handlers.go] and the middleware of [server.go]: a handler
      is a function of the parsed request over the class [Backend] of the services, its
      answer a status code with a typed body; [BackendLaws] is what the theorems ask of the
      services.
    - Server: [cmd/server/main.go]: the services wired together are a [Backend] that keeps
      [BackendLaws]; requests followed from the route to the store.
    - Workers: [Start], [Stop] and [run] of the manager, the reconciler and the cost tracker.
    - Tables, Manifest, BenchStore: the tables of [internal/benchmark] ([manifest.go],
      [models.go], [store.go]), each behind a lens with the laws [TableLaws].
    - GoText, BenchParser: [internal/benchmark/parser.go].
    - Programs, Runner, BenchRuns: [service/benchmark/runner.go], the worker of one entry and
      the dispatcher of a run; RunnerFacts, BenchRunsFacts: what every execution of them
      does; BenchService: their effects on the database and on the class [Backend].
    - Scheduler, SchedulerFacts: [service/benchmark/scheduler.go].
    - BenchApi: [internal/api/benchmark_handlers.go].
    - SshOutput, SshOutputFacts: [ssh/gpu_status.go], [disk_status.go], [oom_status.go]:
      what the tools of a machine print and what is read from it; SshExec, SshFacts:
      [ssh/verifier.go], [executor.go] and the checks of the provisioner that use them, as
      programs over the dialer, the client and its sessions.
    - Config: [config/config.go] over a class [Viper] of the calls of the configuration
      library; Deployment: what [cmd/server/main.go] builds from a
      configuration through the options of the packages, and what it does before it is ready
      and when it stops.
    - Metrics: [metrics/metrics.go] over a registry of series, the counts of the sessions
      that initialise it, and what the services tell the gauge of sessions as they run
      ([served], [ReportLaws]).
    - Logging: [logging/logging.go], over what [log/slog] does with handlers and attributes.
    - Loader: [cmd/benchmark-loader].
    - Cleanup, CleanupFacts: the command [cli/cmd/cleanup_orphans.go]; FileTransfer, FileTransferFacts:
      [filetransfer/transfer.go]; Cli: what the commands of [cli/cmd] share, [transfer.go];
      Orchestrator, OrchestratorFacts: [cli/cmd/orchestrator.go], whose answers are bodies of
      Api; Commands, CommandsFacts: the commands that send a request and print its answer.
    - Simulation, Scenarios, FleetScenarios, ProviderScenarios, ApiScenarios,
      BenchScenarios, SshScenarios, CliScenarios, MetricsScenarios: concrete worlds, one
      witness per theorem with hypotheses, and concrete runs that exhibit the behaviours
      listed below; its network answers from a script.

    ** What the theorems show

    - Lifecycle checks: [checkHardMax_enforces], [checkReservationExpiry_enforces],
      [checkStuckSessions_fails_stuck] say that on a database that answers, every session
      a check is about is stopped, failed or carries the note of the failed destroy;
      [runChecks_keeps_unchecked] that a whole pass changes no other; [ExtendSession_extends]
      covers the branches of an extension.
    - Creation: [CreateSession_adds] bounds what a request may store,
      [CreateSession_refuses_duplicate] and [store_keeps_one_active] say a consumer never
      has two active sessions for an offer, [createSessionWithRetry_fuel] that the
      retries end; [shellQuote_one_word] that no value breaks out of its shell quotes.
    - Verification: [verification_outcome] for every verifier that keeps the laws (it ends, and
      how), [ssh_verification_outcome] for the one that is built: a session that comes to run
      has a machine that answered ([machine_answered]); [failing_double_never_runs].
    - Destruction: [DestroySession_confirms], [destroyWithVerification_gives_up],
      [destroy_mutex_exclusive].
    - Fleet: [reconcileProvider_destroys_orphans], [reconcileProvider_stops_ghosts],
      [RecoverStuckSessions_settles], [GracefulShutdown_honest].
    - Inventory: [filterAndSort_ranks], [getOffersWithCache_serves], [cache_stays_ok],
      [fresh_entry_asks_nobody], [FindComparableOffers_best], [EvictOffer_evicts_one].
    - Failures: [tracker_refines_history], [restart_agrees], [RecordFailure_suppresses],
      [multiplier_range], [prune_keeps_recent].
    - Money: [RecordFinalCost_bills_hours], [aggregation_bills_running], [Record_upserts].
    - Disk and models: [ValidateDiskSpace_estimate], [parseParamCount_reads],
      [SelectFromTopN_picks], [ParseLabel_inverts_ToLabel].
    - Clients: [refusal_has_reason] and [open_circuit_sends_nothing] (the breaker),
      [getBackoff_doubles], [doWithRetry_attempts], [poll_task_ends] (requests and waits are
      bounded), [BlueLobster_provider_laws], [TensorDock_provider_laws] and the frames of
      VastFacts (they are providers in the sense of the services);
      [handleError_classified], [mapHTTPError_classified], [create_error_retries],
      [status_not_found], [DestroyInstance_idempotent] (what an error tells the services);
      [offer_id_roundtrip], [bluelobster_offer_roundtrip], [tensordock_offer_roundtrip],
      [instance_name_leads_back] (identifiers come back); [buildCreateRequest_on_demand],
      [cloud_init_writes_key], [ParsePortMappings_binds], [ListOffers_matches_and_caches],
      [locationStats_tally], [redactQueryParam_hides].
    - Templates: [containsIgnoreCase_lower], [MatchesHost_decides],
      [compatible_templates_total], [IsHeavyImage_patterns].
    - Requests: [get_requests_read_only], [creation_status_tells] (the statuses of a
      creation say what was stored), [duplicate_request_conflicts],
      [extend_request_decides], [delete_request_confirms]; what reaches the services is
      valid ([handleCreateSession_asks_wellformed], [inventory_params_bounds]), what is
      echoed is harmless ([sanitizeInput_safe]), the pages are the list ([pages_cover]).
    - Start and stop: [sequential_calls_return].
    - Benchmarks: [processEntry_gives_back] (no machine is left rented),
      [one_worker_rents] (for every interleaving of the workers), [processEntry_settles],
      [processRun_starts_once], [processRun_ends], [entry_claimed_once], [Save_Get],
      [GetBestForModel_best], [stats_of_ordered], [cron_means_fields],
      [Schedule_Create_Get], [bench_get_read_only].
    - Machines: [ssh_closes] (connections and sessions are closed on every execution),
      [Verify_ends], [Verify_reports], [SCPWrite_delivers], [nvidia_smi_roundtrip],
      [ParseOOMOutput_tells].
    - Commands: [cleanup_destroys_listed] (what the clean-up destroys), [transfer_closes],
      [Download_settles]; of the orchestrator [worker_never_completes] (a worker against the
      server's own answers), [worker_returns], [tests_accounted_for] (at every point of a run) and
      [worker_states_guarded] (no data race, for every interleaving of the loop and the workers);
      of the commands that ask the server [session_commands_report] (success is reported exactly
      when the service succeeded, for an id of unreserved bytes), [provision_delivers_key],
      [json_saves_nothing] and [inventory_filter_agrees].
    - Around the services: [gauge_counts_sessions] (the gauge of sessions is the number of rows
      of the table through the calls of the services), [deployment_agrees] (created
      instances carry the identifier the reconciler looks for), [env_file_overrides] (which
      source of a setting wins), [loader_stores], [messages_carry_ids], [migrate_required].
    - Clients and reconciler together: [vast_reconciliation_blind],
      [tensordock_outage_stops_sessions].
    - Behaviours the code has and does not mean to have: [destroy_exclusion_fails] (three
      callers break the per-session exclusion), [DestroySession_forgets_instance],
      [api_verification_never_succeeds], [ssh_timeout_fails_any], and in FleetScenarios
      [ExtendSession_past_hard_max], [reconcile_destroys_new_instance],
      [recovery_forgets_instance], [small_disk_leaves_pending],
      [tensordock_verification_never_times_out]; in the clients the two theorems above,
      [deploy_prefix_lost], [half_open_allows_all], [num_gpus_never_numeric],
      [refusal_not_retried], [create_asks_one_gpu], [odd_ids_accepted]; in the API
      [readiness_gates_nothing], and the examples [delete_again_lies], [nan_passes],
      [ssh_error_misread] and [end_date_alone]; in the services' loops [two_stops_crash],
      [restart_after_cancel_crashes], [cancelled_tracker_stays]; in the benchmarks
      [update_erases_claim], [round_ignores_budget], [refused_claims_spin],
      [early_cancel_lost], [all_failed_is_nan], [unsupported_never_runs],
      [schedules_unavailable], [unstopped_loops]; on machines [cuda_minor_ten], and in the commands
      [unlisted_account_is_clean], [execute_destroys], [same_id_loses_test],
      [budget_abandons_sessions], [cheapest_is_not], [tiny_price_is_no_limit], [key_lost],
      [session_cost_without_hours], [delete_cuts_id], [another_session_destroyed],
      [bad_escape_panics]; around the services [recovered_session_goes_negative],
      [failed_cleanup_unreported], [failed_destroy_written_back], [poll_while_stopping],
      [disabled_providers_built], [zero_interval_valid],
      [migrate_without_index], [audit_follows_level], [with_loses_context].

    ** Bounds and fuel

    - [createSessionWithRetry] recurses with the retries left as fuel;
      [createSessionWithRetry_fuel] shows any more gives the same run.
    - [record_hours] has the number of hours between the two instants plus two as fuel
      ([hours_fuel]); [record_hours_fuel] shows it is enough.
    - [destroy_attempts] recurses on the configured number of attempts, as the loop does.
    - The verification loops take the fuel as the number of polls.
      [ssh_verification_outcome] shows that the timeout over the smallest polling interval,
      plus one, is enough; what a [select] answers is the environment's
      ([TimerLaws]).  The statement on [waitForAPIVerifyAsync] holds for every fuel: its
      ticker may be ready together with the timeout, and Go chooses between ready cases
      at random, so it has no such bound.
    - [multiplier_range] is stated for at most a hundred recent failures of an offer, and
      evaluates the powers of 0.7 up to there.

    - [poll_task] has 102 rounds as fuel, one more than three-second waits fit into the
      five minutes of its deadline ([poll_task_ends]); [retry_loop] recurses on the
      constant [maxRetries]; [redact_loop] on the length of the text
      ([redact_fuel]: each round consumes the prefix it finds).
    - [rounds] of the dispatcher has its rounds as fuel; [processRun_ends] shows that one more
      than there are pending entries is enough while the database claims what it reports as
      pending, [refused_claims_spin] that none is enough otherwise.  The polling loops of a
      worker recurse on the number of ticks that the runtime delivers before the timeout.
    - [verify_loop] has its rounds as fuel; [Verify_ends] shows that the timeout over the
      interval, plus two, is enough (22 with the defaults).
    - [wait_ready] has its polls as fuel, and [worker_returns] shows that 41 are enough;
      [orchestration] has its rounds, and [tests_accounted_for] holds for every number of
      them: a run lasts as long as its workers do.

    ** What is abstracted

    - An HTTP request is its method, its URL without the query and its payload as data
      (the body or query before it is encoded); headers are left out.  A response is its
      status code and the text of its body.  The session commands paste an id of the user into
      their URL: what [net/url] and the router make of it is in Cli ([session_target]); an id in
      a URL of the orchestrator is one that the server gave.  The same holds on the server's side: gin's
      binding and the encoding of answers are parameters.  JSON decoding, RFC 3339 and the SSH key parser
      are parameters, with no hypotheses; timeouts belong to the transport, which may
      fail at any call.

    - A program of the benchmark runner says nothing about the answers of its effects: a
      theorem on all its executions holds for all of them, or assumes in its monitor
      ([assumed]) the answers it needs.  The contexts of the requests and of a run are one
      context, which may end at any statement.

    - Each statement and each critical section is atomic; within one method the steps run
      in program order.  Concurrent fetches of providers and the goroutines of a shutdown
      run one after the other, in an arbitrary order (a parameter).  DestroyLocks, Workers
      and the threads of Programs are the exception: they interleave goroutines step by step.
    - The order of a map iteration, of equal elements after [sort.Slice] and of the random
      choice are parameters with the guarantees Go gives.
    - Cancellation of contexts appears where the code tests it ([ctx.Done]).
    - [time.Time] is the number of nanoseconds since year 1, UTC, without monotonic
      readings; zero is the zero time.
    - The ghost state [destroy_calls] records the calls of [DestroyInstance], for
      statements only.

    ** Not modelled

    Libraries: gin, the SSH and SFTP protocols, SQLite's engine, viper, Prometheus, JSON; where
    the code relies on them they are parameters.  Left out because they are input, output or
    glue: the registration of metrics, the layout of printed tables, the
    listener and the signals of [cmd/server], the tree of commands and the status and abort
    commands of the orchestrator, which only print.  [SupportsFeature] and the options that set a
    logger, a clock, an address or a transport have no effect on what is stated.  The counters
    that the services keep of themselves ([GetMetrics]) are recorded effects and are never read
    back.  The statements of the migrations are data definition, run once before the tables are
    used, which the tables of Database and Tables take for granted ([Migrate] of Deployment
    says which of them may fail).  The mock marketplace under [src/test] and
    the live tests are tests of the program, not parts of it. *)
From stdpp Require Export base tactics list gmap strings fin_maps sorting pretty.
From Stdlib Require Export ZArith Lia.

#[global] Set Default Goal Selector "!".

Declare Scope go_scope.
Delimit Scope go_scope with go.

(** ** State-passing computations

    A Go method that reads and writes shared state (the database, a provider
    account, the clock, a metric counter) is a function of the whole state [W];
    it returns its Go result and the new state. *)
Definition M (W A : Type) : Type := W -> A * W.

Definition ret {W A} (a : A) : M W A := fun w => (a, w).

Definition bind {W A B} (m : M W A) (k : A -> M W B) : M W B :=
  fun w => let (a, w') := m w in k a w'.

Notation "'let!' x ':=' m 'in' k" := (bind m (fun x => k))
  (at level 10, x name, m at level 100, k at level 200) : go_scope.
Notation "'do!' m 'in' k" := (bind m (fun _ => k))
  (at level 10, m at level 100, k at level 200) : go_scope.
Open Scope go_scope.

Definition pure_state {W A} (f : W -> A) : M W A := fun w => (f w, w).

Definition skip {W} : M W unit := ret tt.

Definition when {W} (b : bool) (m : M W unit) : M W unit := if b then m else skip.

(** A Go [for _, x := range l] loop whose body never leaves the loop
    ([continue] ends the body). *)
Fixpoint for_each {W A} (l : list A) (body : A -> M W unit) : M W unit :=
  match l with
  | [] => skip
  | x :: l' => do! body x in for_each l' body
  end.

(** ** Go results: a value or an error *)
Inductive res (E A : Type) : Type :=
| Ok (a : A)
| Err (e : E).
Arguments Ok {E A} a.
Arguments Err {E A} e.

(** ** Weakest preconditions *)
Definition wp {W A} (m : M W A) (Q : A -> W -> Prop) (w : W) : Prop :=
  Q (fst (m w)) (snd (m w)).

Section WP.
Context {W : Type}.

Lemma wp_ret {A} (a : A) (Q : A -> W -> Prop) w : wp (ret a) Q w <-> Q a w.
Proof. done. Qed.

Lemma wp_bind {A B} (m : M W A) (k : A -> M W B) Q w :
  wp (bind m k) Q w <-> wp m (fun a w' => wp (k a) Q w') w.
Proof. unfold wp, bind. by destruct (m w). Qed.

Lemma wp_mono {A} (m : M W A) (P Q : A -> W -> Prop) w :
  wp m P w -> (forall a w', P a w' -> Q a w') -> wp m Q w.
Proof. unfold wp. auto. Qed.

Lemma wp_and {A} (m : M W A) (P Q : A -> W -> Prop) w :
  wp m P w -> wp m Q w -> wp m (fun a w' => P a w' /\ Q a w') w.
Proof. unfold wp. auto. Qed.

Lemma wp_true {A} (m : M W A) (Q : A -> W -> Prop) w :
  (forall a w', Q a w') -> wp m Q w.
Proof. unfold wp. auto. Qed.

Lemma wp_run {A} (m : M W A) (Q : A -> W -> Prop) w a w' :
  m w = (a, w') -> wp m Q w -> Q a w'.
Proof. unfold wp. by intros ->. Qed.

(** Loop rule: the invariant speaks of the elements already visited. *)
Lemma wp_for_each {A} (Inv : list A -> W -> Prop) (body : A -> M W unit)
    (l : list A) (w : W) :
  Inv [] w ->
  (forall pre x post v, l = pre ++ x :: post -> Inv pre v ->
     wp (body x) (fun _ v' => Inv (pre ++ [x]) v') v) ->
  wp (for_each l body) (fun _ w' => Inv l w') w.
Proof.
  intros H0 Hstep.
  assert (forall suf pre v, l = pre ++ suf -> Inv pre v ->
            wp (for_each suf body) (fun _ w' => Inv l w') v) as Hgen.
  { induction suf as [|x suf IH]; intros pre v Hl Hv; simpl.
    - rewrite app_nil_r in Hl. by rewrite Hl.
    - apply wp_bind. eapply wp_mono; [by eapply Hstep|].
      intros u v' Hv'. simpl in Hv'. apply (IH (pre ++ [x])); [|done].
      by rewrite <-app_assoc. }
  by apply (Hgen l []).
Qed.

(** An invariant that does not look at the visited elements. *)
Lemma wp_for_each_inv {A} (Inv : W -> Prop) (body : A -> M W unit) l w :
  Inv w ->
  (forall x v, x ∈ l -> Inv v -> wp (body x) (fun _ v' => Inv v') v) ->
  wp (for_each l body) (fun _ w' => Inv w') w.
Proof.
  intros H0 Hstep. apply (wp_for_each (fun _ => Inv)); [done|].
  intros pre x post v -> Hv. apply Hstep; [set_solver|done].
Qed.
End WP.

Ltac wp_step :=
  first
    [ apply wp_bind; cbv beta
    | apply wp_ret; cbv beta
    | progress cbn [when] ].

Lemma Forall_filter_bool {A} (P : A -> Prop) (f : A -> bool) l :
  Forall P l -> Forall P (List.filter f l).
Proof.
  rewrite !Forall_forall. intros H x Hx%list_elem_of_In%List.filter_In.
  apply H, list_elem_of_In, Hx.
Qed.

(** Decide a closed decidable proposition. *)
Ltac by_dec := apply (bool_decide_unpack _); vm_compute; exact I.
