(* ===== verification/GoFloat.v ===== *)
(** Go's [float64]: IEEE-754 binary64, as the executable specification of the
    standard library ([SpecFloat], precision 53, exponent 1024).  Every
    operation below is the rounded operation the Go compiler emits; a decimal
    constant such as [0.7] is the double nearest to it, obtained by one correctly
    rounded division of two exactly represented integers. *)
From S2P Require Import Prelude.
From Stdlib Require Export SpecFloat.

Definition f64 := spec_float.

Definition fmul : f64 -> f64 -> f64 := SFmul 53 1024.
Definition fadd : f64 -> f64 -> f64 := SFadd 53 1024.
Definition fsub : f64 -> f64 -> f64 := SFsub 53 1024.
Definition fdiv : f64 -> f64 -> f64 := SFdiv 53 1024.
Definition feqb : f64 -> f64 -> bool := SFeqb.
Definition fltb : f64 -> f64 -> bool := SFltb.
Definition fleb : f64 -> f64 -> bool := SFleb.
(** Go writes [a > b] and [a >= b]; IEEE gives them as the swapped tests. *)
Definition fgtb (a b : f64) : bool := fltb b a.
Definition fgeb (a b : f64) : bool := fleb b a.

(** [float64(n)] for an integer [n]. *)
Definition f64_of_Z (n : Z) : f64 := binary_normalize 53 1024 n 0 false.
(** The literal [n/d]. *)
Definition f64_lit (n d : Z) : f64 := fdiv (f64_of_Z n) (f64_of_Z d).

Definition f0 : f64 := S754_zero false.
Definition f1 : f64 := Eval vm_compute in f64_of_Z 1.

Definition is_nan (x : f64) : bool :=
  match x with S754_nan => true | _ => false end.

(** Truncation towards zero, Go's conversion of a finite [float64] to [int]
    (the values converted by the code fit 64 bits). *)
Definition Z_of_f64_trunc (x : f64) : Z :=
  match x with
  | S754_finite s m e =>
      let a := if (0 <=? e)%Z then (Z.pos m * 2 ^ e)%Z else (Z.pos m / 2 ^ (- e))%Z in
      if s then (- a)%Z else a
  | _ => 0%Z
  end.

(** [int(math.Ceil(x))]. *)
Definition Z_of_f64_ceil (x : f64) : Z :=
  match x with
  | S754_finite s m e =>
      let a := (if s then - Z.pos m else Z.pos m)%Z in
      if (0 <=? e)%Z then (a * 2 ^ e)%Z else (- ((- a) / 2 ^ (- e)))%Z
  | _ => 0%Z
  end.

(** [int(x)] for a [float64] whose integer part is [z]: a value outside 64 bits, an
    infinity or NaN converts to the smallest integer (the amd64 instruction). *)
Definition int64_indefinite : Z := (- 2 ^ 63)%Z.
Definition int_of_f64 (x : f64) (z : Z) : Z :=
  match x with
  | S754_infinity _ | S754_nan => int64_indefinite
  | _ => if ((- 2 ^ 63 <=? z) && (z <? 2 ^ 63))%Z then z else int64_indefinite
  end.

(** The double nearest to [n / 10^k] for [n >= 0], ties to even: the quotient is
    computed to 64 significant bits and a sticky bit before the one rounding. *)
Definition decimal_f64 (n : Z) (k : nat) : f64 :=
  let d := (10 ^ Z.of_nat k)%Z in
  let s := (66 + Z.log2 d)%Z in
  let q := (n * 2 ^ s / d)%Z in
  let sticky := if (n * 2 ^ s mod d =? 0)%Z then 0%Z else 1%Z in
  binary_normalize 53 1024 (2 * q + sticky) (- (s + 1)) false.

(** [math.Frexp] and [math.Ldexp] on finite values. *)
Definition math_Frexp (x : f64) : f64 * Z := SFfrexp 53 1024 x.
Definition math_Ldexp (x : f64) (e : Z) : f64 := SFldexp 53 1024 x e.

(** The integer-exponent part of the standard library's [math.Pow(x, float64(i))]
    for finite [x > 0], [x <> 1] and [i >= 0]: repeated squaring of the
    fraction of [math.Frexp x], the exponents added apart. *)
Fixpoint pow_loop (fuel : nat) (i : Z) (a1 : f64) (ae : Z) (x1 : f64) (xe : Z) : f64 * Z :=
  match fuel with
  | O => (a1, ae)
  | S fuel' =>
      if (i =? 0)%Z then (a1, ae)
      else if ((xe <? - 4096) || (4096 <? xe))%Z then (a1, ae + xe)%Z
      else
        let '(a1, ae) := if Z.odd i then (fmul a1 x1, ae + xe)%Z else (a1, ae) in
        let x1 := fmul x1 x1 in
        let xe := (2 * xe)%Z in
        let '(x1, xe) :=
          if fltb x1 (f64_lit 1 2) then (fadd x1 x1, xe - 1)%Z else (x1, xe) in
        pow_loop fuel' (i / 2)%Z a1 ae x1 xe
  end.

Definition math_Pow_nat (x : f64) (n : nat) : f64 :=
  match n with
  | 0 => f1
  | 1 => x
  | _ =>
      let '(x1, xe) := math_Frexp x in
      let '(a1, ae) := pow_loop 64 (Z.of_nat n) f1 0 x1 xe in
      math_Ldexp a1 ae
  end.

(** ** The order of the non-NaN values

    [SFcompare] is the lexicographic order of a key (class, exponent, mantissa);
    every order fact follows from the key. *)
Section Order.
Local Open Scope Z_scope.

Definition fkey (x : f64) : Z * Z * Z :=
  match x with
  | S754_zero _ | S754_nan => (0, 0, 0)
  | S754_infinity false => (2, 0, 0)
  | S754_infinity true => (-2, 0, 0)
  | S754_finite false m e => (1, e, Z.pos m)
  | S754_finite true m e => (-1, - e, - Z.pos m)
  end.

Definition key_lt (a b : Z * Z * Z) : Prop :=
  let '(a1, a2, a3) := a in
  let '(b1, b2, b3) := b in
  a1 < b1 \/ (a1 = b1 /\ (a2 < b2 \/ (a2 = b2 /\ a3 < b3))).

Lemma fltb_key (a b : f64) :
  is_nan a = false -> is_nan b = false -> fltb a b = true <-> key_lt (fkey a) (fkey b).
Proof.
  unfold fltb, SFltb, key_lt.
  destruct a as [sa|[]| |[] ma ea], b as [sb|[]| |[] mb eb]; intros; try discriminate;
    simpl; try (split; intros; (discriminate || reflexivity || lia)).
  - fold (Pos.compare ma mb).
    destruct (Z.compare_spec ea eb); destruct (Pos.compare_spec ma mb);
      simpl; split; intros; try discriminate; try reflexivity; lia.
  - fold (Pos.compare ma mb).
    destruct (Z.compare_spec ea eb); destruct (Pos.compare_spec ma mb);
      simpl; split; intros; try discriminate; try reflexivity; lia.
Qed.

Lemma fleb_key (a b : f64) :
  is_nan a = false -> is_nan b = false -> fleb a b = true <-> ~ key_lt (fkey b) (fkey a).
Proof.
  unfold fleb, SFleb, key_lt.
  destruct a as [sa|[]| |[] ma ea], b as [sb|[]| |[] mb eb]; intros; try discriminate;
    simpl; try (split; intros; (discriminate || reflexivity || lia)).
  - fold (Pos.compare ma mb).
    destruct (Z.compare_spec ea eb); destruct (Pos.compare_spec ma mb);
      simpl; split; intros; try discriminate; try reflexivity; lia.
  - fold (Pos.compare ma mb).
    destruct (Z.compare_spec ea eb); destruct (Pos.compare_spec ma mb);
      simpl; split; intros; try discriminate; try reflexivity; lia.
Qed.

Lemma feqb_key (a b : f64) :
  is_nan a = false -> is_nan b = false -> feqb a b = true <-> fkey a = fkey b.
Proof.
  unfold feqb, SFeqb.
  destruct a as [sa|[]| |[] ma ea], b as [sb|[]| |[] mb eb]; intros; try discriminate;
    simpl; try (split; intros; (discriminate || reflexivity)).
  - fold (Pos.compare ma mb).
    destruct (Z.compare_spec ea eb); destruct (Pos.compare_spec ma mb);
      simpl; split; intros; simplify_eq; try discriminate; try reflexivity; lia.
  - fold (Pos.compare ma mb).
    destruct (Z.compare_spec ea eb); destruct (Pos.compare_spec ma mb);
      simpl; split; intros; simplify_eq; try discriminate; try reflexivity; lia.
Qed.
End Order.

Section OrderFacts.
Context (a b c : f64).
Hypothesis Ha : is_nan a = false.
Hypothesis Hb : is_nan b = false.

Lemma fltb_irrefl : fltb a a = false.
Proof.
  apply not_true_iff_false. rewrite fltb_key by done. unfold key_lt.
  destruct (fkey a) as [[? ?] ?]. lia.
Qed.

Lemma fltb_asym : fltb a b = true -> fltb b a = false.
Proof.
  rewrite <-not_true_iff_false, !fltb_key by done. unfold key_lt.
  destruct (fkey a) as [[? ?] ?], (fkey b) as [[? ?] ?]. lia.
Qed.

Lemma fleb_negb_fltb : fleb a b = negb (fltb b a).
Proof.
  apply eq_true_iff_eq.
  rewrite negb_true_iff, <-not_true_iff_false, fleb_key, fltb_key; done.
Qed.

Lemma feqb_fleb : feqb a b = fleb a b && fleb b a.
Proof.
  apply eq_true_iff_eq. rewrite andb_true_iff, !fleb_key, feqb_key by done.
  unfold key_lt. destruct (fkey a) as [[? ?] ?], (fkey b) as [[? ?] ?].
  split; [intros [= -> -> ->]; lia|intros [??]].
  rewrite !pair_equal_spec. lia.
Qed.

Hypothesis Hc : is_nan c = false.

Lemma fltb_trans : fltb a b = true -> fltb b c = true -> fltb a c = true.
Proof.
  rewrite !fltb_key by done. unfold key_lt.
  destruct (fkey a) as [[? ?] ?], (fkey b) as [[? ?] ?], (fkey c) as [[? ?] ?]. lia.
Qed.

Lemma fleb_trans : fleb a b = true -> fleb b c = true -> fleb a c = true.
Proof.
  rewrite !fleb_key by done. unfold key_lt.
  destruct (fkey a) as [[? ?] ?], (fkey b) as [[? ?] ?], (fkey c) as [[? ?] ?]. lia.
Qed.

Lemma feqb_sym : feqb a b = feqb b a.
Proof.
  apply eq_true_iff_eq. rewrite !feqb_key by done. split; congruence.
Qed.

Lemma feqb_trans : feqb a b = true -> feqb b c = true -> feqb a c = true.
Proof. rewrite !feqb_key by done. congruence. Qed.
End OrderFacts.

Lemma fltb_nan_l x y : is_nan x = true -> fltb x y = false.
Proof. by destruct x. Qed.

Example f64_lit_07 : f64_lit 7 10 = S754_finite false 6305039478318694 (-53).
Proof. reflexivity. Qed.

(** 0.7 squared rounds to 0.48999999999999994. *)
Example pow_07_2 : math_Pow_nat (f64_lit 7 10) 2 = fmul (f64_lit 7 10) (f64_lit 7 10).
Proof. reflexivity. Qed.

(** ** [fmt.Sprintf("%.df", x)]: the exact decimal value rounded half to even. *)
Definition round_half_even (num den : Z) : Z :=
  let q := (num / den)%Z in
  let r := (num mod den)%Z in
  if (2 * r <? den)%Z then q
  else if (den <? 2 * r)%Z then (q + 1)%Z
  else if Z.even q then q else (q + 1)%Z.

Fixpoint zeros (n : nat) : string :=
  match n with O => "" | S n' => "0" +:+ zeros n' end.

(** [n] as a decimal string padded with zeros on the left to [d] digits. *)
Definition pad_left (d : nat) (n : Z) : string :=
  let s := pretty n in (zeros (d - String.length s)) +:+ s.

Definition fmt_decimal (neg : bool) (d : nat) (scaled : Z) : string :=
  let p := (10 ^ Z.of_nat d)%Z in
  (if neg then "-" else "") +:+ pretty (scaled / p)%Z +:+
  (match d with O => "" | _ => "." +:+ pad_left d (scaled mod p)%Z end).

Definition fmt_fixed (d : nat) (x : f64) : string :=
  match x with
  | S754_nan => "NaN"
  | S754_infinity s => if s then "-Inf" else "+Inf"
  | S754_zero s => fmt_decimal s d 0
  | S754_finite s m e =>
      let p := (10 ^ Z.of_nat d)%Z in
      let scaled :=
        if (0 <=? e)%Z then (Z.pos m * 2 ^ e * p)%Z
        else round_half_even (Z.pos m * p) (2 ^ (- e)) in
      fmt_decimal s d scaled
  end.

Example fmt_1_5 : fmt_fixed 1 (f64_lit 25 2) = "12.5".
Proof. reflexivity. Qed.
Example fmt_half_even : fmt_fixed 1 (f64_lit 1 4) = "0.2".
Proof. reflexivity. Qed.
