(* ===== verification/GoLib.v ===== *)
(** The parts of Go's standard library the program relies on: 64-bit integers,
    [time.Time] and [time.Duration], and the byte-string functions of [strings]. *)
From S2P Require Import Prelude.
From Stdlib Require Import Ascii.

(** ** 64-bit integers *)
Section Int64.
Local Open Scope Z_scope.
Definition min_int64 : Z := - 2 ^ 63.
Definition max_int64 : Z := 2 ^ 63 - 1.
(** Two's complement wrap-around of [int] and [time.Duration] arithmetic. *)
Definition wrap64 (z : Z) : Z := (z + 2 ^ 63) mod 2 ^ 64 - 2 ^ 63.
Definition in_int64 (z : Z) : Prop := min_int64 <= z <= max_int64.

Lemma wrap64_id z : in_int64 z -> wrap64 z = z.
Proof.
  unfold in_int64, wrap64, min_int64, max_int64. intros H.
  rewrite Z.mod_small; lia.
Qed.

Lemma wrap64_range z : in_int64 (wrap64 z).
Proof.
  unfold in_int64, wrap64, min_int64, max_int64.
  pose proof (Z.mod_pos_bound (z + 2 ^ 63) (2 ^ 64)). lia.
Qed.
End Int64.

(** ** Time

    A [time.Time] is the number of nanoseconds since Go's zero time (1 January of
    year 1, UTC), so that the zero value is [0]; a [time.Duration] is a number of
    nanoseconds in 64 bits. *)
Section Time.
Local Open Scope Z_scope.
Definition time := Z.
Definition duration := Z.
Definition zero_time : time := 0.

Definition Second : duration := 1000000000.
Definition Minute : duration := 60 * Second.
Definition Hour : duration := 60 * Minute.

Definition IsZero (t : time) : bool := t =? 0.
Definition After (t u : time) : bool := u <? t.
Definition Before (t u : time) : bool := t <? u.
Definition Add (t : time) (d : duration) : time := t + d.
(** [t.Sub(u)] saturates at the ends of the [Duration] range. *)
Definition Sub (t u : time) : duration := Z.max min_int64 (Z.min max_int64 (t - u)).
(** [t.Truncate(d)] rounds down to a multiple of [d] since the zero time. *)
Definition Truncate (t : time) (d : duration) : time := t - t mod d.
(** [time.Duration(n) * unit]. *)
Definition dur_mul (n : Z) (unit : duration) : duration := wrap64 (n * unit).

Definition Day : duration := 24 * Hour.
(** The day of the month of [t] in UTC, in the proleptic Gregorian calendar: counted in
    years that begin in March, in eras of 400 years. *)
Definition MonthDay (t : time) : Z :=
  let z := t / Day + 306 in
  let doe := z mod 146097 in
  let yoe := (doe - doe / 1460 + doe / 36524 - doe / 146096) / 365 in
  let doy := doe - (365 * yoe + yoe / 4 - yoe / 100) in
  let mp := (5 * doy + 2) / 153 in
  doy - (153 * mp + 2) / 5 + 1.
(** [time.Date(t.Year(), t.Month(), 1, 0, 0, 0, 0, UTC)], and [AddDate(0, 1, 0)] of it: a
    month has at most 31 days. *)
Definition startOfMonth (t : time) : time := (t / Day - (MonthDay t - 1)) * Day.
Definition nextMonth (t : time) : time := startOfMonth (startOfMonth t + 31 * Day).

Lemma Sub_exact t u : in_int64 (t - u) -> Sub t u = t - u.
Proof. unfold Sub, in_int64. lia. Qed.

Lemma Sub_gt t u d : d < max_int64 -> min_int64 <= d -> (d <? Sub t u) = (d <? t - u).
Proof. unfold Sub. intros. apply eq_true_iff_eq. rewrite !Z.ltb_lt. lia. Qed.

Lemma Truncate_le t d : 0 < d -> Truncate t d <= t < Truncate t d + d.
Proof.
  intros Hd. unfold Truncate. pose proof (Z.mod_pos_bound t d Hd). lia.
Qed.

Lemma Truncate_mult t d : 0 < d -> Truncate t d mod d = 0.
Proof.
  intros Hd. unfold Truncate. rewrite Zminus_mod, Z.mod_mod by lia.
  by rewrite Z.sub_diag, Z.mod_0_l by lia.
Qed.

(** 15 February 2024 lies between 1 February and 1 March of that year. *)
Example months_2024 :
  let t := 63843552000 * Second in
  startOfMonth t = t - 14 * Day /\ nextMonth t = t + 15 * Day.
Proof. split; reflexivity. Qed.

Lemma MonthDay_range t : 1 <= MonthDay t <= 31.
Proof.
  unfold MonthDay. set (doy := _ - (365 * _ + _ - _)). clearbody doy.
  pose proof (Z.div_mod (5 * doy + 2) 153). pose proof (Z.mod_pos_bound (5 * doy + 2) 153).
  pose proof (Z.div_mod (153 * ((5 * doy + 2) / 153) + 2) 5).
  pose proof (Z.mod_pos_bound (153 * ((5 * doy + 2) / 153) + 2) 5). lia.
Qed.

Lemma startOfMonth_le t : startOfMonth t <= t < startOfMonth t + 31 * Day.
Proof.
  unfold startOfMonth. pose proof (MonthDay_range t). pose proof (Z.div_mod t Day).
  pose proof (Z.mod_pos_bound t Day). unfold Day, Hour, Minute, Second in *. lia.
Qed.
End Time.

(** ** Strings: byte strings, as in Go *)
Fixpoint HasPrefix (s p : string) : bool :=
  match p, s with
  | EmptyString, _ => true
  | String c p', String d s' => Ascii.eqb c d && HasPrefix s' p'
  | String _ _, EmptyString => false
  end.

(** [strings.Contains(s, sub)]. *)
Fixpoint Contains (s sub : string) : bool :=
  HasPrefix s sub ||
  match s with
  | EmptyString => false
  | String _ s' => Contains s' sub
  end.

(** [strings.ToLower] and [strings.ToUpper] on the ASCII range; other bytes are
    kept (the patterns the code looks for are ASCII). *)
Definition ascii_lower (c : ascii) : ascii :=
  let n := nat_of_ascii c in
  if (65 <=? n) && (n <=? 90) then ascii_of_nat (n + 32) else c.
Definition ascii_upper (c : ascii) : ascii :=
  let n := nat_of_ascii c in
  if (97 <=? n) && (n <=? 122) then ascii_of_nat (n - 32) else c.
Fixpoint map_string (f : ascii -> ascii) (s : string) : string :=
  match s with
  | EmptyString => EmptyString
  | String c s' => String (f c) (map_string f s')
  end.
Definition ToLower : string -> string := map_string ascii_lower.
Definition ToUpper : string -> string := map_string ascii_upper.

(** [strings.Join]. *)
Fixpoint Join (l : list string) (sep : string) : string :=
  match l with
  | [] => ""
  | [x] => x
  | x :: l' => x +:+ sep +:+ Join l' sep
  end.

(** [strings.Split(s, sep)] for a one-byte separator. *)
Fixpoint Split (s : string) (sep : ascii) : list string :=
  match s with
  | EmptyString => [""]
  | String c s' =>
      if Ascii.eqb c sep then "" :: Split s' sep
      else match Split s' sep with
           | w :: ws => String c w :: ws
           | [] => [String c ""]
           end
  end.

Fixpoint drop_string (n : nat) (s : string) : string :=
  match n, s with
  | S n', String _ s' => drop_string n' s'
  | _, _ => s
  end.

Fixpoint take_string (n : nat) (s : string) : string :=
  match n, s with
  | S n', String c s' => String c (take_string n' s')
  | _, _ => ""
  end.

(** The byte does not occur in the string. *)
Fixpoint free_of (sep : ascii) (s : string) : bool :=
  match s with
  | EmptyString => true
  | String c s' => negb (Ascii.eqb c sep) && free_of sep s'
  end.

(** [strconv.Itoa]. *)
Definition Itoa (n : Z) : string := pretty n.

Section Strings.
Lemma append_assoc (s t u : string) : (s +:+ t) +:+ u = s +:+ t +:+ u.
Proof.
  induction s as [|c s IH]; [done|].
  change (String c ((s +:+ t) +:+ u) = String c (s +:+ t +:+ u)). by rewrite IH.
Qed.

Lemma HasPrefix_app p s : HasPrefix (p +:+ s) p = true.
Proof. induction p as [|c p IH]; simpl; [by destruct s|]. by rewrite Ascii.eqb_refl. Qed.

Lemma HasPrefix_spec s p : HasPrefix s p = true <-> exists t, s = p +:+ t.
Proof.
  split; [|intros [t ->]; apply HasPrefix_app].
  revert s. induction p as [|c p IH]; intros s; [by exists s|].
  destruct s as [|d s]; simpl; [done|]. rewrite andb_true_iff, Ascii.eqb_eq.
  intros [-> [t ->]%IH]. by exists t.
Qed.

Lemma Contains_prefix s sub : HasPrefix s sub = true -> Contains s sub = true.
Proof. intros H. destruct s; apply orb_true_iff; by left. Qed.

Lemma Contains_spec s sub :
  Contains s sub = true <-> exists pre post, s = pre +:+ sub +:+ post.
Proof.
  split.
  - induction s as [|c s IH].
    + intros H. apply orb_true_iff in H as [H|H]; [|done].
      apply HasPrefix_spec in H as [t Ht]. by exists "", t.
    + intros H. apply orb_true_iff in H as [H|H].
      * apply HasPrefix_spec in H as [t Ht]. by exists "", t.
      * destruct (IH H) as (pre & post & ->). by exists (String c pre), post.
  - intros (pre & post & ->). induction pre as [|c pre IH].
    + apply Contains_prefix. change (HasPrefix (sub +:+ post) sub = true). apply HasPrefix_app.
    + apply orb_true_iff. by right.
Qed.

Lemma Split_free sep s : free_of sep s = true -> Split s sep = [s].
Proof.
  induction s as [|c s IH]; simpl; [done|].
  rewrite andb_true_iff, negb_true_iff. intros [-> H]. by rewrite IH.
Qed.

Lemma Split_app sep s t :
  free_of sep s = true -> Split (s +:+ String sep t) sep = s :: Split t sep.
Proof.
  induction s as [|c s IH]; simpl; [by rewrite Ascii.eqb_refl|].
  rewrite andb_true_iff, negb_true_iff. intros [-> H]. by rewrite IH.
Qed.

(** Splitting undoes joining when no element contains the separator. *)
Lemma Split_Join sep l :
  l <> [] -> Forall (fun s => free_of sep s = true) l ->
  Split (Join l (String sep "")) sep = l.
Proof.
  induction l as [|x l IH]; [done|]. intros _ [Hx Hl]%Forall_cons.
  destruct l as [|y l]; [by apply Split_free|].
  change (Join (x :: y :: l) (String sep ""))
    with (x +:+ String sep (Join (y :: l) (String sep ""))).
  rewrite Split_app by done. by rewrite IH.
Qed.
End Strings.
