(* ===== verification/GoStrings.v ===== *)
(** More of Go's standard library: decimal numbers ([strconv]), searching and trimming
    ([strings]), the text of a [time.Duration], instants of the Unix epoch, UTF-8, dates. *)
From S2P Require Import Prelude GoFloat GoLib.
From Stdlib Require Import Ascii.

(** ** Decimal digits *)
Definition is_digit (c : ascii) : bool :=
  let n := nat_of_ascii c in (48 <=? n) && (n <=? 57).
Definition digit_value (c : ascii) : Z := (Z.of_nat (nat_of_ascii c) - 48)%Z.

(** The run of digits at the head: its value continued from [acc], its number of digits
    added to [n], and the rest. *)
Fixpoint digits (s : string) (acc : Z) (n : nat) : Z * nat * string :=
  match s with
  | String c s' => if is_digit c then digits s' (10 * acc + digit_value c) (S n) else (acc, n, s)
  | EmptyString => (acc, n, s)
  end.

Lemma digits_pretty_go x : forall s, exists k,
  ((0 < x)%N -> 0 < k) /\
  forall acc n, digits (pretty_N_go x s) acc n = digits s (acc * 10 ^ Z.of_nat k + Z.of_N x) (n + k).
Proof.
  induction (N.lt_wf_0 x) as [x _ IH]. intros s.
  destruct (decide (0 < x)%N) as [Hx|Hx].
  2: { exists 0. replace x with 0%N by lia. rewrite pretty_N_go_0. split; [lia|].
       intros. f_equal; lia. }
  destruct (IH (x / 10)%N ltac:(apply N.div_lt; lia)
              (String (pretty_N_char (x mod 10)) s)) as (k & _ & Hk).
  exists (S k). split; [lia|]. intros acc n. rewrite pretty_N_go_step, Hk by done.
  assert (x mod 10 < 10)%N as Hd by (apply N.mod_lt; lia).
  cbn [digits].
  assert (is_digit (pretty_N_char (x mod 10)) = true /\
          digit_value (pretty_N_char (x mod 10)) = Z.of_N (x mod 10)) as [-> ->].
  { destruct (x mod 10)%N as [|p]; [done|].
    do 9 (destruct p as [p|p|] || idtac); try done; lia. }
  f_equal; [|lia]. pose proof (N.div_mod' x 10) as Hdm.
  rewrite Nat2Z.inj_succ, Z.pow_succ_r by lia. lia.
Qed.

Lemma pretty_N_go_app x s t : pretty_N_go x s +:+ t = pretty_N_go x (s +:+ t).
Proof.
  revert s t. induction x as [x IH] using (well_founded_induction N.lt_wf_0). intros s t.
  destruct (decide (0 < x)%N) as [Hx|Hx].
  - rewrite !(pretty_N_go_step x) by done. rewrite IH by (apply N.div_lt; lia). done.
  - replace x with 0%N by lia. by rewrite !pretty_N_go_0.
Qed.

Lemma Itoa_pos n : (0 < n)%Z -> Itoa n = pretty_N_go (Z.to_N n) "".
Proof. intros Hn. unfold Itoa. destruct n as [|p|p]; try lia. done. Qed.

(** ** [strconv.Atoi] *)
Inductive num_error := ErrSyntax | ErrRange.

Definition in_int64b (z : Z) : bool := (min_int64 <=? z)%Z && (z <=? max_int64)%Z.

(** At least one digit and nothing else, the sign already read. *)
Definition atoi_digits (neg : bool) (s : string) : res num_error Z :=
  match digits s 0 0 with
  | (v, S _, EmptyString) =>
      let v := if neg then (- v)%Z else v in
      if in_int64b v then Ok v else Err ErrRange
  | _ => Err ErrSyntax
  end.

Definition Atoi (s : string) : res num_error Z :=
  match s with
  | String c s' =>
      if Ascii.eqb c "-" then atoi_digits true s'
      else if Ascii.eqb c "+" then atoi_digits false s'
      else atoi_digits false s
  | EmptyString => Err ErrSyntax
  end.

Lemma in_int64b_spec z : in_int64b z = true <-> in_int64 z.
Proof. unfold in_int64b, in_int64. rewrite andb_true_iff, !Z.leb_le. done. Qed.

Lemma digits_Itoa n : (0 < n)%Z -> exists k, digits (Itoa n) 0 0 = (n, S k, "").
Proof.
  intros Hn. rewrite Itoa_pos by done.
  destruct (digits_pretty_go (Z.to_N n) "") as (k & Hk & ->).
  destruct k as [|k]; [specialize (Hk ltac:(lia)); lia|]. exists k. cbn. by rewrite Z2N.id by lia.
Qed.

Lemma Itoa_head n : (0 < n)%Z -> exists c s, Itoa n = String c s /\ is_digit c = true.
Proof.
  intros Hn. destruct (digits_Itoa n Hn) as [k Hk].
  destruct (Itoa n) as [|c s]; [discriminate|]. exists c, s. split; [done|].
  cbn in Hk. by destruct (is_digit c).
Qed.

Lemma Itoa_nonempty n : Itoa n <> "".
Proof.
  destruct n as [|p|p]; [done| |done]. intros He.
  destruct (digits_Itoa (Z.pos p)) as [k Hk]; [lia|]. by rewrite He in Hk.
Qed.
Lemma append_empty s : s +:+ "" = s.
Proof. induction s as [|c s IH]; [done|]. change (String c (s +:+ "") = String c s). by rewrite IH. Qed.

Lemma Atoi_Itoa n : in_int64 n -> Atoi (Itoa n) = Ok n.
Proof.
  intros Hn. destruct (Z.lt_trichotomy n 0) as [Hneg|[->|Hpos]]; [|done|].
  - destruct n as [|p|p]; try lia. change (Itoa (Z.neg p)) with (String "-" (Itoa (Z.pos p))).
    cbn [Atoi Ascii.eqb]. unfold atoi_digits.
    destruct (digits_Itoa (Z.pos p)) as [k ->]; [lia|]. apply in_int64b_spec in Hn.
    change (- Z.pos p)%Z with (Z.neg p). by rewrite Hn.
  - destruct (Itoa_head n Hpos) as (c & s & Hs & Hc). unfold Atoi. rewrite Hs.
    destruct (Ascii.eqb_spec c "-") as [->|_]; [done|].
    destruct (Ascii.eqb_spec c "+") as [->|_]; [done|]. rewrite <-Hs. unfold atoi_digits.
    destruct (digits_Itoa n Hpos) as [k ->]. apply in_int64b_spec in Hn. by rewrite Hn.
Qed.

(** ** [strings] *)

(** [strings.Index]; [None] is Go's -1. *)
Fixpoint Index (s sub : string) : option nat :=
  if HasPrefix s sub then Some O
  else match s with
       | EmptyString => None
       | String _ s' => S <$> Index s' sub
       end.

(** [strings.LastIndex]; [None] is Go's -1. *)
Fixpoint LastIndex (s sub : string) : option nat :=
  match s with
  | EmptyString => if HasPrefix s sub then Some O else None
  | String _ s' =>
      match LastIndex s' sub with
      | Some i => Some (S i)
      | None => if HasPrefix s sub then Some O else None
      end
  end.

(** [strings.TrimPrefix]. *)
Definition TrimPrefix (s prefix : string) : string :=
  if HasPrefix s prefix then drop_string (String.length prefix) s else s.

(** [strings.SplitN(s, sep, n)] for a one-byte separator and [0 < n]. *)
Fixpoint SplitN (s : string) (sep : ascii) (n : nat) : list string :=
  match n with
  | O | 1 => [s]
  | S n' =>
      match Index s (String sep "") with
      | None => [s]
      | Some i => take_string i s :: SplitN (drop_string (S i) s) sep n'
      end
  end.

(** [strings.Trim(s, c)] for a one-byte cutset. *)
Fixpoint TrimLeftByte (c : ascii) (s : string) : string :=
  match s with
  | String d s' => if Ascii.eqb d c then TrimLeftByte c s' else s
  | EmptyString => ""
  end.
Fixpoint TrimRightByte (c : ascii) (s : string) : string :=
  match s with
  | String d s' =>
      match TrimRightByte c s' with
      | EmptyString => if Ascii.eqb d c then "" else String d ""
      | t => String d t
      end
  | EmptyString => ""
  end.
Definition TrimByte (c : ascii) (s : string) : string := TrimRightByte c (TrimLeftByte c s).

(** The bytes that satisfy [p], in order. *)
Fixpoint filter_bytes (p : ascii -> bool) (s : string) : string :=
  match s with
  | EmptyString => ""
  | String c s' => if p c then String c (filter_bytes p s') else filter_bytes p s'
  end.

(** [strings.ReplaceAll(s, old, new)] for a non-empty [old]; [n] bounds the scan. *)
Fixpoint replace_from (n : nat) (s old new : string) : string :=
  match n with
  | O => s
  | S n' =>
      if HasPrefix s old
      then new +:+ replace_from n' (drop_string (String.length old) s) old new
      else match s with
           | EmptyString => ""
           | String c s' => String c (replace_from n' s' old new)
           end
  end.
Definition ReplaceAll (s old new : string) : string := replace_from (String.length s) s old new.

(** [strings.TrimSpace] on ASCII white space. *)
Definition is_space (c : ascii) : bool :=
  let n := nat_of_ascii c in (n =? 32) || ((9 <=? n) && (n <=? 13)).
Fixpoint trim_left (s : string) : string :=
  match s with
  | String c s' => if is_space c then trim_left s' else s
  | EmptyString => ""
  end.
Fixpoint trim_right (s : string) : string :=
  match s with
  | String c s' =>
      match trim_right s' with
      | EmptyString => if is_space c then "" else String c ""
      | t => String c t
      end
  | EmptyString => ""
  end.
Definition TrimSpace (s : string) : string := trim_right (trim_left s).

(** Every byte of the string satisfies [p]. *)
Fixpoint all_bytes (p : ascii -> bool) (s : string) : bool :=
  match s with
  | EmptyString => true
  | String c s' => p c && all_bytes p s'
  end.

Lemma all_bytes_app p s t : all_bytes p (s +:+ t) = all_bytes p s && all_bytes p t.
Proof. induction s as [|c s IH]; [done|]. cbn. by rewrite <-andb_assoc, <-IH. Qed.

Lemma all_bytes_mono (p q : ascii -> bool) s :
  (forall c, p c = true -> q c = true) -> all_bytes p s = true -> all_bytes q s = true.
Proof.
  intros Hpq. induction s as [|c s IH]; [done|]. cbn. rewrite !andb_true_iff.
  intros [Hc Hs]. auto.
Qed.

Lemma digits_all s a n v k : digits s a n = (v, k, "") -> all_bytes is_digit s = true.
Proof.
  revert a n. induction s as [|c s IH]; intros a n; [done|]. cbn.
  destruct (is_digit c); [|done]. apply IH.
Qed.

Definition is_number_byte (c : ascii) : bool := is_digit c || Ascii.eqb c "-".

Lemma Itoa_bytes n : all_bytes is_number_byte (Itoa n) = true.
Proof.
  assert (forall m, (0 < m)%Z -> all_bytes is_number_byte (Itoa m) = true) as Hpos.
  { intros m [k Hk%digits_all]%digits_Itoa. eapply all_bytes_mono; [|exact Hk].
    intros c Hc. unfold is_number_byte. by rewrite Hc. }
  destruct n as [|p|p]; [done|by apply Hpos|].
  change (Itoa (Z.neg p)) with (String "-" (Itoa (Z.pos p))).
  cbn [all_bytes]. rewrite Hpos by lia. done.
Qed.

Lemma number_byte_neq c d : is_number_byte c = true -> is_number_byte d = false -> Ascii.eqb d c = false.
Proof. intros Hc Hd. destruct (Ascii.eqb_spec d c) as [->|]; congruence. Qed.

Lemma trim_left_id s : all_bytes (fun c => negb (is_space c)) s = true -> trim_left s = s.
Proof. destruct s as [|c s]; [done|]. cbn. by destruct (is_space c). Qed.

Lemma trim_right_id s : all_bytes (fun c => negb (is_space c)) s = true -> trim_right s = s.
Proof.
  induction s as [|c s IH]; [done|]. cbn. rewrite andb_true_iff, negb_true_iff.
  intros [-> Hs]. rewrite (IH Hs). by destruct s.
Qed.

Lemma TrimSpace_id s : all_bytes (fun c => negb (is_space c)) s = true -> TrimSpace s = s.
Proof. intros Hs. unfold TrimSpace. by rewrite trim_left_id, trim_right_id. Qed.

Lemma number_byte_not_space c : is_number_byte c = true -> negb (is_space c) = true.
Proof.
  unfold is_number_byte, is_digit, is_space. destruct (Ascii.eqb_spec c "-") as [->|_]; [done|].
  rewrite orb_false_r, andb_true_iff, !Nat.leb_le. intros [H1 H2].
  destruct (Nat.eqb_spec (nat_of_ascii c) 32); [lia|].
  destruct (Nat.leb_spec (nat_of_ascii c) 13); [lia|]. by rewrite andb_false_r.
Qed.

Lemma Itoa_no_space n : all_bytes (fun c => negb (is_space c)) (Itoa n) = true.
Proof. eapply all_bytes_mono, Itoa_bytes. apply number_byte_not_space. Qed.

(** [strconv.Quote] and the verb [%q] on ASCII; a byte above 127 is kept, as the bytes of
    a printable rune are. *)
Definition hex_digit (n : nat) : ascii :=
  ascii_of_nat (if n <? 10 then 48 + n else 87 + n).
Definition quote_byte (c : ascii) : string :=
  let n := nat_of_ascii c in
  let esc d := String (ascii_of_nat 92) (String d "") in
  if (n =? 34) || (n =? 92) then esc c
  else if n =? 7 then esc "a"%char
  else if n =? 8 then esc "b"%char
  else if n =? 9 then esc "t"%char
  else if n =? 10 then esc "n"%char
  else if n =? 11 then esc "v"%char
  else if n =? 12 then esc "f"%char
  else if n =? 13 then esc "r"%char
  else if (n <? 32) || (n =? 127)
  then esc "x"%char +:+ String (hex_digit (n / 16)) (String (hex_digit (n mod 16)) "")
  else String c "".
Fixpoint quote_bytes (s : string) : string :=
  match s with
  | EmptyString => ""
  | String c s' => quote_byte c +:+ quote_bytes s'
  end.
Definition dquote : string := String (ascii_of_nat 34) "".
Definition Quote (s : string) : string := dquote +:+ quote_bytes s +:+ dquote.

(** ** Lengths, prefixes and suffixes *)
Lemma length_app_string s t : String.length (s +:+ t) = String.length s + String.length t.
Proof. induction s as [|c s IH]; [done|]. change (S (String.length (s +:+ t)) = S (String.length s) + String.length t). lia. Qed.

Lemma drop_app_string s t : drop_string (String.length s) (s +:+ t) = t.
Proof. induction s as [|c s IH]; [by destruct t|]. exact IH. Qed.

Lemma take_app_string s t : take_string (String.length s) (s +:+ t) = s.
Proof. induction s as [|c s IH]; [by destruct t|]. cbn. f_equal. exact IH. Qed.

Lemma HasPrefix_take_string n s : HasPrefix s (take_string n s) = true.
Proof. revert s. induction n as [|n IH]; intros [|c s]; try done. cbn. by rewrite Ascii.eqb_refl, IH. Qed.

Lemma length_take_string n s : String.length (take_string n s) = Nat.min n (String.length s).
Proof. revert s. induction n as [|n IH]; intros [|c s]; try done. cbn. by rewrite IH. Qed.

(** ** Durations and instants *)

(** A fraction of [digits] digits without its trailing zeros, its point included. *)
Fixpoint fraction (width : nat) (v : Z) (trailing : bool) (acc : string) : string :=
  match width with
  | O => if trailing then acc else "." +:+ acc
  | S w =>
      let d := (v mod 10)%Z in
      if trailing && (d =? 0)%Z then fraction w (v / 10)%Z true acc
      else fraction w (v / 10)%Z false (Itoa d +:+ acc)
  end.

(** [Duration.String()]; the sign of micro is two bytes. *)
Definition micro : string := String (ascii_of_nat 194) (String (ascii_of_nat 181) "s").
Definition Duration_String (d : duration) : string :=
  let u := Z.abs d in
  let part unit width := Itoa (u / unit)%Z +:+ fraction width (u mod unit)%Z true "" in
  let body :=
    if (u =? 0)%Z then "0s"
    else if (u <? 1000)%Z then Itoa u +:+ "ns"
    else if (u <? 1000000)%Z then part 1000%Z 3 +:+ micro
    else if (u <? Second)%Z then part 1000000%Z 6 +:+ "ms"
    else
      let s := Itoa (u / Second mod 60)%Z +:+ fraction 9 (u mod Second)%Z true "" +:+ "s" in
      let m := (u / Minute)%Z in
      if (m =? 0)%Z then s
      else
        let s := Itoa (m mod 60)%Z +:+ "m" +:+ s in
        if (m / 60 =? 0)%Z then s else Itoa (m / 60)%Z +:+ "h" +:+ s in
  if (d <? 0)%Z then "-" +:+ body else body.

Example durations :
  Duration_String <$> [0; 1500; 1500000; Second; 90 * Second; 2 * Minute; Hour + 1; - Second]%Z =
    ["0s"; "1.5" +:+ micro; "1.5ms"; "1s"; "1m30s"; "2m0s"; "1h0m0.000000001s"; "-1s"].
Proof. vm_compute. reflexivity. Qed.

(** [time.Unix(sec, 0)]: the epoch is 62135596800 seconds after the zero time. *)
Definition Unix (sec : Z) : time := ((sec + 62135596800) * Second)%Z.

(** ** UTF-8 *)
Definition byte_in (lo hi : nat) (c : ascii) : bool :=
  (lo <=? nat_of_ascii c) && (nat_of_ascii c <=? hi).

(** The next [n] bytes continue a sequence. *)
Fixpoint continues (n : nat) (s : string) : bool :=
  match n, s with
  | O, _ => true
  | S n', String c s' => byte_in 128 191 c && continues n' s'
  | _, _ => false
  end.

(** The length of the encoding the string begins with, [0] where it is invalid
    ([utf8.DecodeRuneInString] gives [RuneError] of width 1 there). *)
Definition rune_width (s : string) : nat :=
  match s with
  | EmptyString => 0
  | String c s' =>
      let second lo hi := match s' with String d _ => byte_in lo hi d | EmptyString => false end in
      if byte_in 0 127 c then 1
      else if byte_in 194 223 c then if continues 1 s' then 2 else 0
      else if byte_in 224 239 c then
        let lo := if byte_in 224 224 c then 160 else 128 in
        let hi := if byte_in 237 237 c then 159 else 191 in
        if second lo hi && continues 2 s' then 3 else 0
      else if byte_in 240 244 c then
        let lo := if byte_in 240 240 c then 144 else 128 in
        let hi := if byte_in 244 244 c then 143 else 191 in
        if second lo hi && continues 3 s' then 4 else 0
      else 0
  end.

(** The encoding of U+FFFD. *)
Definition rune_error : string :=
  String (ascii_of_nat 239) (String (ascii_of_nat 191) (String (ascii_of_nat 189) "")).

(** [for _, r := range s { if drop(r) { continue }; b.WriteRune(r) }] for a [drop] that
    only drops ASCII runes; [k] is the number of bytes left of the present rune. *)
Fixpoint filter_runes (drop : ascii -> bool) (k : nat) (s : string) : string :=
  match s with
  | EmptyString => ""
  | String c s' =>
      match k with
      | S k' => String c (filter_runes drop k' s')
      | O =>
          match rune_width s with
          | O => rune_error +:+ filter_runes drop 0 s'
          | 1 => if drop c then filter_runes drop 0 s' else String c (filter_runes drop 0 s')
          | S n => String c (filter_runes drop n s')
          end
      end
  end.

(** A sequence of several bytes begins with no ASCII byte and its rest continues it. *)
Lemma rune_width_long c s n :
  rune_width (String c s) = S (S n) -> 194 <= nat_of_ascii c /\ continues (S n) s = true.
Proof.
  unfold rune_width, byte_in.
  destruct ((0 <=? nat_of_ascii c) && _) eqn:H1; [done|].
  destruct ((194 <=? nat_of_ascii c) && _) eqn:H2.
  { apply andb_true_iff in H2 as [H2%Nat.leb_le _]. destruct (continues 1 s) eqn:Hc; [|done].
    by intros [= <-]. }
  destruct ((224 <=? nat_of_ascii c) && (nat_of_ascii c <=? 239)) eqn:H3.
  { apply andb_true_iff in H3 as [H3%Nat.leb_le _]. destruct (_ && continues 2 s) eqn:Hc; [|done].
    apply andb_true_iff in Hc as [_ Hc]. intros [= <-]. split; [lia|done]. }
  destruct ((240 <=? nat_of_ascii c) && (nat_of_ascii c <=? 244)) eqn:H4; [|done].
  apply andb_true_iff in H4 as [H4%Nat.leb_le _]. destruct (_ && continues 3 s) eqn:Hc; [|done].
  apply andb_true_iff in Hc as [_ Hc]. intros [= <-]. split; [lia|done].
Qed.

(** What is kept satisfies [p], when [p] holds of the bytes above 127 and of every byte
    that is not dropped. *)
Lemma filter_runes_bytes drop (p : ascii -> bool) k s :
  (forall c, 128 <= nat_of_ascii c -> p c = true) ->
  (forall c, drop c = false -> p c = true) ->
  continues k s = true -> all_bytes p (filter_runes drop k s) = true.
Proof.
  intros Hhigh Hdrop. revert k. induction s as [|c s IH]; intros k Hk; [done|].
  destruct k as [|k]; cbn [filter_runes].
  - destruct (rune_width (String c s)) as [|[|n]] eqn:Hw.
    + rewrite all_bytes_app, IH by done. unfold rune_error. cbn [all_bytes]. by rewrite !Hhigh by (by apply Nat.leb_le; vm_compute).
    + destruct (drop c) eqn:Hd; [by apply IH|]. cbn [all_bytes]. by rewrite Hdrop, IH.
    + apply rune_width_long in Hw as [Hc Hn]. cbn [all_bytes]. by rewrite Hhigh, IH by (done || lia).
  - cbn [continues] in Hk. apply andb_true_iff in Hk as [Hc Hk].
    apply andb_true_iff in Hc as [Hc%Nat.leb_le _]. cbn [all_bytes]. by rewrite Hhigh, IH.
Qed.

(** An invalid byte becomes three bytes. *)
Lemma filter_runes_length drop k s : String.length (filter_runes drop k s) <= 3 * String.length s.
Proof.
  revert k. induction s as [|c s IH]; intros k; [done|]. pose proof (IH 0).
  destruct k as [|k]; cbn [filter_runes].
  - destruct (rune_width (String c s)) as [|[|n]]; [rewrite length_app_string; cbn; lia| |pose proof (IH (S n)); cbn; lia].
    destruct (drop c); cbn; lia.
  - pose proof (IH k). cbn. lia.
Qed.

Lemma filter_runes_ascii drop s :
  all_bytes (fun c => byte_in 0 127 c && negb (drop c)) s = true -> filter_runes drop 0 s = s.
Proof.
  induction s as [|c s IH]; [done|]. cbn [all_bytes]. intros [[Hc Hd]%andb_true_iff Hs]%andb_true_iff.
  cbn [filter_runes rune_width]. rewrite Hc. apply negb_true_iff in Hd. by rewrite Hd, IH.
Qed.

(** ** Dates *)

(** The number of days of a year and a month before the given one, from 1 January of year 1. *)
Definition is_leap (y : Z) : bool :=
  ((y mod 4 =? 0) && (negb (y mod 100 =? 0) || (y mod 400 =? 0)))%Z.
Definition daysIn (m y : Z) : Z :=
  if (m =? 2)%Z then if is_leap y then 29 else 28
  else if existsb (Z.eqb m) [4; 6; 9; 11]%Z then 30 else 31.
Definition days_before (m y : Z) : Z :=
  fold_left (fun acc i => acc + (if Z.of_nat i <? m then daysIn (Z.of_nat i) y else 0))%Z (seq 1 12) 0%Z.
(** Midnight UTC of a date. *)
Definition Date (y m d : Z) : time :=
  let y' := (y - 1)%Z in
  ((365 * y' + y' / 4 - y' / 100 + y' / 400 + days_before m y + d - 1) * Day)%Z.

(** [time.Parse("2006-01-02", s)]; [None] is an error. *)
Definition ParseDate (s : string) : option time :=
  match digits (take_string 4 s) 0 0, digits (take_string 2 (drop_string 5 s)) 0 0,
        digits (drop_string 8 s) 0 0 with
  | (y, 4, _), (m, 2, _), (d, 2, rest) =>
      if bool_decide (take_string 1 (drop_string 4 s) = "-") &&
         bool_decide (take_string 1 (drop_string 7 s) = "-") && bool_decide (rest = "") &&
         (1 <=? m)%Z && (m <=? 12)%Z && (1 <=? d)%Z && (d <=? daysIn m y)%Z
      then Some (Date y m d) else None
  | _, _, _ => None
  end.

Example ParseDate_leap : ParseDate "2024-02-29" = Some (startOfMonth (63843552000 * Second) + 28 * Day)%Z.
Proof. reflexivity. Qed.
Example ParseDate_rejects : ParseDate "2023-02-29" = None /\ ParseDate "2024-1-01" = None /\ ParseDate "2024-01-011" = None.
Proof. by vm_compute. Qed.
