(* ===== verification/FailureTracker.v ===== *)
(** [internal/service/inventory/failure_tracker.go]: the memory of which offers
    failed lately.  The tracker's maps are finite maps from offer ids and from
    ["provider:GPUType"]; each method is a function of the tracker and of the instant
    its [time.Now] returns, under the tracker's lock.  Writes to the persistent store
    are goroutines: the methods return the list they start. *)
From S2P Require Import Prelude GoFloat GoLib.

Section Constants.
Local Open Scope Z_scope.
Definition SuppressionThreshold : Z := 3.
Definition SuppressionWindow : duration := 30 * Minute.
Definition SuppressionCooldown : duration := 30 * Minute.
Definition FailureDecayPeriod : duration := 1 * Hour.
Definition GPUTypeFailureThreshold : Z := 3.
End Constants.

Module failureEvent.
Record t := mk { FailureType : string; Timestamp : time; Reason : string }.
End failureEvent.

Module offerFailureRecord.
Record t := mk {
  Provider : string;
  GPUType : string;
  Failures : list failureEvent.t;
  SuppressedAt : time
}.
End offerFailureRecord.

Module StoredFailure.
Record t := mk {
  OfferID : string;
  Provider : string;
  GPUType : string;
  FailureType : string;
  Reason : string;
  CreatedAt : time
}.
End StoredFailure.

Module StoredSuppression.
Record t := mk { OfferID : string; Provider : string; GPUType : string; SuppressedAt : time }.
End StoredSuppression.

(** [OfferHealthInfo] and [GPUTypeHealthInfo]; a pointer field is an option. *)
Module OfferHealthInfo.
Record t := mk {
  OfferID : string;
  Provider : string;
  GPUType : string;
  RecentFailures : Z;
  IsSuppressed : bool;
  SuppressedAt : option time;
  SuppressedUntil : option time;
  ConfidenceMultiplier : f64;
  LastFailure : option failureEvent.t
}.
End OfferHealthInfo.

Module GPUTypeHealthInfo.
Record t := mk {
  GPUTypeKey : string;
  FailedOfferCount : Z;
  IsDegraded : bool;
  DegradationApplied : f64
}.
End GPUTypeHealthInfo.

(** The goroutines that write to the store: one prunes it, one records a failure
    and, when the offer has just been suppressed, the suppression. *)
Inductive StoreTask :=
| PruneStore (expiredSuppressions : list string) (decayCutoff : time)
| PersistFailure (offerID provider gpuType failureType reason : string)
    (newSuppression : option time).

Module OfferFailureTracker.
Record t := mk {
  offers : gmap string offerFailureRecord.t;
  (** [FailedOfferIDs] of each ["provider:GPUType"] *)
  gpuTypes : gmap string (gmap string time);
  (** a persistent store is attached *)
  store : bool
}.

Definition new : t := mk ∅ ∅ false.

Definition SetStore (tr : t) : t := mk (offers tr) (gpuTypes tr) true.
End OfferFailureTracker.

Abbreviation tracker := OfferFailureTracker.t.

Section Tracker.
Local Open Scope Z_scope.

Definition gpu_key (providerName gpuType : string) : string := providerName +:+ ":" +:+ gpuType.

Definition countRecentFailuresLocked (r : offerFailureRecord.t) (now : time) : Z :=
  let cutoff := Add now (- SuppressionWindow) in
  Z.of_nat (length (List.filter (fun f => After (failureEvent.Timestamp f) cutoff)
                      (offerFailureRecord.Failures r))).

(** The number of distinct offers of a GPU type that failed in the decay period. *)
Definition activeCount (failed : gmap string time) (now : time) : Z :=
  let cutoff := Add now (- FailureDecayPeriod) in
  Z.of_nat (size (filter (fun kv : string * time => After kv.2 cutoff = true) failed)).

(** A suppression that is set and still in its cooldown, and one that has run out. *)
Definition suppression_holds (at_ now : time) : bool :=
  negb (IsZero at_) && Before now (Add at_ SuppressionCooldown).
Definition suppression_expired (at_ now : time) : bool :=
  negb (IsZero at_) && After now (Add at_ SuppressionCooldown).

Definition IsSuppressed (tr : tracker) (offerID : string) (now : time) : bool :=
  match OfferFailureTracker.offers tr !! offerID with
  | None => false
  | Some r => if IsZero (offerFailureRecord.SuppressedAt r) then false
              else Before now (Add (offerFailureRecord.SuppressedAt r) SuppressionCooldown)
  end.

(** The formula at the end of [GetConfidenceMultiplier]. *)
Definition combine_multipliers (recentCount : Z) (degraded : bool) : f64 :=
  let offerMultiplier :=
    if 0 <? recentCount then math_Pow_nat (f64_lit 7 10) (Z.to_nat recentCount) else f1 in
  let gpuMultiplier := if degraded then f64_lit 3 10 else f1 in
  let result := fmul offerMultiplier gpuMultiplier in
  if fltb result (f64_lit 5 100) && fgtb result f0 then f64_lit 5 100 else result.

Definition getConfidenceMultiplierLocked (tr : tracker) (offerID gpuType providerName : string)
    (now : time) : f64 :=
  let record := OfferFailureTracker.offers tr !! offerID in
  let held := match record with
              | Some r => suppression_holds (offerFailureRecord.SuppressedAt r) now
              | None => false
              end in
  if held then f0
  else
    let recentCount := match record with
                       | Some r => countRecentFailuresLocked r now
                       | None => 0
                       end in
    let degraded := match OfferFailureTracker.gpuTypes tr !! gpu_key providerName gpuType with
                    | Some failed => GPUTypeFailureThreshold <=? activeCount failed now
                    | None => false
                    end in
    combine_multipliers recentCount degraded.

(** [GetConfidenceMultiplier] repeats that body under the read lock. *)
Definition GetConfidenceMultiplier := getConfidenceMultiplierLocked.

(** [cleanupLocked]: one offer record, one GPU-type record, the whole. *)
Definition clean_record (now : time) (r : offerFailureRecord.t) : option offerFailureRecord.t :=
  let decayCutoff := Add now (- FailureDecayPeriod) in
  let kept := List.filter (fun f => After (failureEvent.Timestamp f) decayCutoff)
                (offerFailureRecord.Failures r) in
  let at_ := offerFailureRecord.SuppressedAt r in
  let at_ := if suppression_expired at_ now then zero_time else at_ in
  if (length kept =? 0)%nat && IsZero at_ then None
  else Some (offerFailureRecord.mk (offerFailureRecord.Provider r) (offerFailureRecord.GPUType r)
               kept at_).

Definition clean_gpu (now : time) (failed : gmap string time) : option (gmap string time) :=
  let decayCutoff := Add now (- FailureDecayPeriod) in
  let kept := filter (fun kv : string * time => Before kv.2 decayCutoff = false) failed in
  if (size kept =? 0)%nat then None else Some kept.

Definition cleanupLocked (now : time) (tr : tracker) : tracker * list StoreTask :=
  let expired := filter (fun kv : string * offerFailureRecord.t =>
                   suppression_expired (offerFailureRecord.SuppressedAt kv.2) now = true)
                   (OfferFailureTracker.offers tr) in
  (OfferFailureTracker.mk (omap (clean_record now) (OfferFailureTracker.offers tr))
     (omap (clean_gpu now) (OfferFailureTracker.gpuTypes tr)) (OfferFailureTracker.store tr),
   if OfferFailureTracker.store tr
   then [PruneStore ((map_to_list expired).*1) (Add now (- FailureDecayPeriod))]
   else []).

Definition add_event (tr : tracker) (offerID providerName gpuType : string)
    (f : failureEvent.t) : offerFailureRecord.t :=
  let r := default (offerFailureRecord.mk providerName gpuType [] zero_time)
             (OfferFailureTracker.offers tr !! offerID) in
  offerFailureRecord.mk (offerFailureRecord.Provider r) (offerFailureRecord.GPUType r)
    (offerFailureRecord.Failures r ++ [f]) (offerFailureRecord.SuppressedAt r).

Definition set_SuppressedAt (v : time) (r : offerFailureRecord.t) : offerFailureRecord.t :=
  offerFailureRecord.mk (offerFailureRecord.Provider r) (offerFailureRecord.GPUType r)
    (offerFailureRecord.Failures r) v.

Definition RecordFailure (tr : tracker) (offerID providerName gpuType failureType reason : string)
    (now : time) : tracker * list StoreTask :=
  let record := add_event tr offerID providerName gpuType (failureEvent.mk failureType now reason) in
  let recentCount := countRecentFailuresLocked record now in
  let newSuppression :=
    (SuppressionThreshold <=? recentCount) && IsZero (offerFailureRecord.SuppressedAt record) in
  let record := if newSuppression then set_SuppressedAt now record else record in
  let gpuKey := gpu_key providerName gpuType in
  let gpuRec := default ∅ (OfferFailureTracker.gpuTypes tr !! gpuKey) in
  let tr := OfferFailureTracker.mk (<[offerID := record]> (OfferFailureTracker.offers tr))
              (<[gpuKey := <[offerID := now]> gpuRec]> (OfferFailureTracker.gpuTypes tr))
              (OfferFailureTracker.store tr) in
  let '(tr, tasks) := cleanupLocked now tr in
  (tr, tasks ++
       (if OfferFailureTracker.store tr
        then [PersistFailure offerID providerName gpuType failureType reason
                (if newSuppression then Some now else None)]
        else [])).

(** [LoadFromStore]: one stored failure, one stored suppression, the whole. *)
Definition load_failure (tr : tracker) (f : StoredFailure.t) : tracker :=
  let id := StoredFailure.OfferID f in
  let record := add_event tr id (StoredFailure.Provider f) (StoredFailure.GPUType f)
    (failureEvent.mk (StoredFailure.FailureType f) (StoredFailure.CreatedAt f)
       (StoredFailure.Reason f)) in
  let gpuKey := gpu_key (StoredFailure.Provider f) (StoredFailure.GPUType f) in
  let gpuRec := default ∅ (OfferFailureTracker.gpuTypes tr !! gpuKey) in
  let newer := match gpuRec !! id with
               | Some existing => After (StoredFailure.CreatedAt f) existing
               | None => true
               end in
  let gpuRec := if newer then <[id := StoredFailure.CreatedAt f]> gpuRec else gpuRec in
  OfferFailureTracker.mk (<[id := record]> (OfferFailureTracker.offers tr))
    (<[gpuKey := gpuRec]> (OfferFailureTracker.gpuTypes tr)) (OfferFailureTracker.store tr).

Definition load_suppression (tr : tracker) (s : StoredSuppression.t) : tracker :=
  let id := StoredSuppression.OfferID s in
  let r := default (offerFailureRecord.mk (StoredSuppression.Provider s)
                      (StoredSuppression.GPUType s) [] zero_time)
             (OfferFailureTracker.offers tr !! id) in
  OfferFailureTracker.mk
    (<[id := set_SuppressedAt (StoredSuppression.SuppressedAt s) r]> (OfferFailureTracker.offers tr))
    (OfferFailureTracker.gpuTypes tr) (OfferFailureTracker.store tr).

Definition LoadFromStore (tr : tracker) (failures : list StoredFailure.t)
    (suppressions : list StoredSuppression.t) (now : time) : tracker * list StoreTask :=
  cleanupLocked now (fold_left load_suppression suppressions (fold_left load_failure failures tr)).

(** [GetAllHealth], in the iteration order of the maps. *)
Definition offer_health (tr : tracker) (now : time) (kv : string * offerFailureRecord.t)
    : option OfferHealthInfo.t :=
  let '(offerID, r) := kv in
  let recentCount := countRecentFailuresLocked r now in
  let at_ := offerFailureRecord.SuppressedAt r in
  if (recentCount =? 0) && IsZero at_ then None
  else Some (OfferHealthInfo.mk offerID (offerFailureRecord.Provider r)
               (offerFailureRecord.GPUType r) recentCount (suppression_holds at_ now)
               (if IsZero at_ then None else Some at_)
               (if IsZero at_ then None else Some (Add at_ SuppressionCooldown))
               (getConfidenceMultiplierLocked tr offerID (offerFailureRecord.GPUType r)
                  (offerFailureRecord.Provider r) now)
               (last (offerFailureRecord.Failures r))).

Definition gpu_health (now : time) (kv : string * gmap string time) : option GPUTypeHealthInfo.t :=
  let '(gpuKey, failed) := kv in
  let n := activeCount failed now in
  if n =? 0 then None
  else let isDegraded := GPUTypeFailureThreshold <=? n in
       Some (GPUTypeHealthInfo.mk gpuKey n isDegraded
               (if isDegraded then f64_lit 3 10 else f0)).

Definition GetAllHealth (tr : tracker) (now : time)
    : list OfferHealthInfo.t * list GPUTypeHealthInfo.t :=
  (omap (offer_health tr now) (map_to_list (OfferFailureTracker.offers tr)),
   omap (gpu_health now) (map_to_list (OfferFailureTracker.gpuTypes tr))).
End Tracker.

(** ** The specification: the whole history of failures

    [Spec.run] forgets nothing: it keeps every failure and the standing suppressions;
    the queries count over the history. *)
Module Spec.
Record event := Event {
  offer : string;
  provider : string;
  gpu : string;
  kind : string;
  reason : string;
  at_ : time
}.

Record t := mk { history : list event; suppressed : gmap string time }.

Section Queries.
Local Open Scope Z_scope.

Definition recent (h : list event) (id : string) (now : time) : Z :=
  Z.of_nat (length (List.filter (fun e => bool_decide (offer e = id) &&
                                   (now - SuppressionWindow <? at_ e)) h)).

(** The offers of a GPU type that failed in the last decay period. *)
Definition failed_offers (h : list event) (key : string) (now : time) : gset string :=
  list_to_set (offer <$> List.filter (fun e => bool_decide (gpu_key (provider e) (gpu e) = key) &&
                                       (now - FailureDecayPeriod <? at_ e)) h).

Definition is_suppressed (s : t) (id : string) (now : time) : bool :=
  match suppressed s !! id with
  | Some since => now <? since + SuppressionCooldown
  | None => false
  end.

Definition multiplier (s : t) (id gpu provider : string) (now : time) : f64 :=
  if is_suppressed s id now then f0
  else combine_multipliers (recent (history s) id now)
         (GPUTypeFailureThreshold <=?
            Z.of_nat (size (failed_offers (history s) (gpu_key provider gpu) now))).

Definition record (s : t) (e : event) : t :=
  let h := history s ++ [e] in
  let sup := suppressed s in
  let sup := if bool_decide (sup !! offer e = None) &&
                (SuppressionThreshold <=? recent h (offer e) (at_ e))
             then <[offer e := at_ e]> sup else sup in
  mk h (filter (fun kv : string * time => ~ (kv.2 + SuppressionCooldown < at_ e)) sup).

Definition run (evs : list event) : t := fold_left record evs (mk [] ∅).
End Queries.
End Spec.

(** The tracker after the same calls of [RecordFailure]. *)
Definition record_event (tr : tracker) (e : Spec.event) : tracker :=
  fst (RecordFailure tr (Spec.offer e) (Spec.provider e) (Spec.gpu e) (Spec.kind e)
         (Spec.reason e) (Spec.at_ e)).
Definition run_tracker (tr : tracker) (evs : list Spec.event) : tracker := fold_left record_event evs tr.

(** The instants of a history: after Go's zero time, and never going back. *)
Fixpoint in_order (from : time) (evs : list Spec.event) : Prop :=
  match evs with
  | [] => True
  | e :: evs' => (0 < Spec.at_ e /\ from <= Spec.at_ e)%Z /\ in_order (Spec.at_ e) evs'
  end.

(** ** What the queries see of a tracker *)
Section Views.
Local Open Scope Z_scope.

Definition events (tr : tracker) (id : string) : list failureEvent.t :=
  match OfferFailureTracker.offers tr !! id with
  | Some r => offerFailureRecord.Failures r
  | None => []
  end.
Definition suppr (tr : tracker) (id : string) : time :=
  match OfferFailureTracker.offers tr !! id with
  | Some r => offerFailureRecord.SuppressedAt r
  | None => zero_time
  end.
Definition fails (tr : tracker) (key : string) : gmap string time :=
  default ∅ (OfferFailureTracker.gpuTypes tr !! key).

Definition recent_events (l : list failureEvent.t) (cutoff : time) : list failureEvent.t :=
  List.filter (fun f => After (failureEvent.Timestamp f) cutoff) l.

Lemma IsSuppressed_view tr id now :
  IsSuppressed tr id now = suppression_holds (suppr tr id) now.
Proof.
  unfold IsSuppressed, suppr, suppression_holds.
  destruct (OfferFailureTracker.offers tr !! id) as [r|]; [|done]. by destruct (IsZero _).
Qed.

Lemma multiplier_view tr id gpu provider now :
  GetConfidenceMultiplier tr id gpu provider now =
  if suppression_holds (suppr tr id) now then f0
  else combine_multipliers
         (Z.of_nat (length (recent_events (events tr id) (Add now (- SuppressionWindow)))))
         (GPUTypeFailureThreshold <=? activeCount (fails tr (gpu_key provider gpu)) now).
Proof.
  unfold GetConfidenceMultiplier, getConfidenceMultiplierLocked, suppr, events, fails.
  destruct (OfferFailureTracker.offers tr !! id) as [r|], (OfferFailureTracker.gpuTypes tr !! _);
    cbn; try (destruct (suppression_holds (offerFailureRecord.SuppressedAt r) now); [done|]);
    unfold activeCount; try rewrite map_filter_empty, map_size_empty; done.
Qed.

Lemma events_cleanup now tr id :
  events (fst (cleanupLocked now tr)) id = recent_events (events tr id) (Add now (- FailureDecayPeriod)).
Proof.
  unfold events. cbn. rewrite lookup_omap.
  destruct (OfferFailureTracker.offers tr !! id) as [r|]; cbn; [|done].
  unfold clean_record. fold (recent_events (offerFailureRecord.Failures r) (Add now (- FailureDecayPeriod))).
  destruct (recent_events _ _); cbn; [by destruct (IsZero _)|done].
Qed.

Lemma suppr_cleanup now tr id :
  suppr (fst (cleanupLocked now tr)) id =
  if suppression_expired (suppr tr id) now then zero_time else suppr tr id.
Proof.
  unfold suppr. cbn. rewrite lookup_omap.
  destruct (OfferFailureTracker.offers tr !! id) as [r|]; cbn; [|done].
  unfold clean_record.
  destruct (length _ =? 0)%nat; cbn; [|done].
  destruct (IsZero (if suppression_expired _ _ then _ else _)) eqn:Hz; cbn; [|done].
  by apply Z.eqb_eq in Hz.
Qed.

Lemma fails_cleanup now tr key :
  fails (fst (cleanupLocked now tr)) key =
  filter (fun kv : string * time => Before kv.2 (Add now (- FailureDecayPeriod)) = false) (fails tr key).
Proof.
  unfold fails. cbn. rewrite lookup_omap.
  destruct (OfferFailureTracker.gpuTypes tr !! key) as [m|]; cbn; [|by rewrite map_filter_empty].
  unfold clean_gpu. destruct (Nat.eqb_spec (size (filter (fun kv : string * time =>
    Before kv.2 (Add now (- FailureDecayPeriod)) = false) m)) 0) as [Hs|]; cbn; [|done].
  by apply map_size_empty_inv in Hs.
Qed.

Lemma events_insert tr id k r g b :
  events (OfferFailureTracker.mk (<[k := r]> (OfferFailureTracker.offers tr)) g b) id =
  if decide (id = k) then offerFailureRecord.Failures r else events tr id.
Proof.
  unfold events. cbn. destruct (decide (id = k)) as [->|];
    [by rewrite lookup_insert_eq|by rewrite lookup_insert_ne].
Qed.

Lemma suppr_insert tr id k r g b :
  suppr (OfferFailureTracker.mk (<[k := r]> (OfferFailureTracker.offers tr)) g b) id =
  if decide (id = k) then offerFailureRecord.SuppressedAt r else suppr tr id.
Proof.
  unfold suppr. cbn. destruct (decide (id = k)) as [->|];
    [by rewrite lookup_insert_eq|by rewrite lookup_insert_ne].
Qed.

Lemma fails_insert tr key k m o b :
  fails (OfferFailureTracker.mk o (<[k := m]> (OfferFailureTracker.gpuTypes tr)) b) key =
  if decide (key = k) then m else fails tr key.
Proof.
  unfold fails. cbn. destruct (decide (key = k)) as [->|];
    [by rewrite lookup_insert_eq|by rewrite lookup_insert_ne].
Qed.

(** The tracker as [RecordFailure] leaves it, through the same views. *)
Section Record.
Context (tr : tracker) (e : Spec.event).
Abbreviation now := (Spec.at_ e).
Abbreviation event := (failureEvent.mk (Spec.kind e) now (Spec.reason e)).

Definition newly_suppressed : bool :=
  (SuppressionThreshold <=? Z.of_nat (length (recent_events (events tr (Spec.offer e) ++ [event])
                                          (Add now (- SuppressionWindow))))) &&
  IsZero (suppr tr (Spec.offer e)).

Lemma record_views :
  (forall id, events (record_event tr e) id =
     recent_events (events tr id ++ if decide (id = Spec.offer e) then [event] else [])
       (Add now (- FailureDecayPeriod))) /\
  (forall id, suppr (record_event tr e) id =
     let at_ := if bool_decide (id = Spec.offer e) && newly_suppressed then now else suppr tr id in
     if suppression_expired at_ now then zero_time else at_) /\
  (forall key, fails (record_event tr e) key =
     filter (fun kv : string * time => Before kv.2 (Add now (- FailureDecayPeriod)) = false)
       (if decide (key = gpu_key (Spec.provider e) (Spec.gpu e))
        then <[Spec.offer e := now]> (fails tr key) else fails tr key)).
Proof.
  unfold record_event, RecordFailure.
  destruct (cleanupLocked _ _) as [tr' tasks] eqn:Hc. cbn [fst].
  apply (f_equal fst) in Hc. cbn [fst] in Hc. subst tr'.
  assert (Hev : offerFailureRecord.Failures (add_event tr (Spec.offer e) (Spec.provider e) (Spec.gpu e) event) =
            events tr (Spec.offer e) ++ [event]).
  { unfold add_event, events. by destruct (_ !! _). }
  assert (Hsu : offerFailureRecord.SuppressedAt (add_event tr (Spec.offer e) (Spec.provider e) (Spec.gpu e) event) =
            suppr tr (Spec.offer e)).
  { unfold add_event, suppr. by destruct (_ !! _). }
  assert (Hn : (SuppressionThreshold <=? countRecentFailuresLocked
             (add_event tr (Spec.offer e) (Spec.provider e) (Spec.gpu e) event) now) &&
             IsZero (suppr tr (Spec.offer e)) = newly_suppressed).
  { unfold countRecentFailuresLocked. by rewrite Hev. }
  rewrite Hsu, Hn. split; [|split].
  - intros id. rewrite events_cleanup, events_insert. f_equal.
    destruct (decide (id = Spec.offer e)) as [->|Hne]; [|by rewrite app_nil_r].
    by destruct newly_suppressed.
  - intros id. rewrite suppr_cleanup, suppr_insert.
    destruct (decide (id = Spec.offer e)) as [->|Hne].
    + rewrite bool_decide_true by done. destruct newly_suppressed; [done|]. rewrite <-Hsu. done.
    + by rewrite bool_decide_false.
  - intros key. rewrite fails_cleanup, fails_insert. by destruct (decide (key = _)) as [->|].
Qed.
End Record.
End Views.

(** ** The tracker implements the specification *)
Section Simulation.
Local Open Scope Z_scope.

(** The last time an offer failed under a key. *)
Definition hit (key id : string) (e : Spec.event) : bool :=
  bool_decide (gpu_key (Spec.provider e) (Spec.gpu e) = key) && bool_decide (Spec.offer e = id).
Definition last_time (h : list Spec.event) (key id : string) : option time :=
  Spec.at_ <$> last (List.filter (hit key id) h).

Definition of_event (e : Spec.event) : failureEvent.t :=
  failureEvent.mk (Spec.kind e) (Spec.at_ e) (Spec.reason e).

Definition about (id : string) (h : list Spec.event) : list Spec.event :=
  List.filter (fun e => bool_decide (Spec.offer e = id)) h.

Definition sorted (h : list Spec.event) : Prop := StronglySorted (fun a b => Spec.at_ a <= Spec.at_ b) h.

Record simulates (now : time) (tr : tracker) (s : Spec.t) : Prop := {
  sim_sorted : sorted (Spec.history s);
  sim_past : Forall (fun e => Spec.at_ e <= now) (Spec.history s);
  sim_events : forall id,
    events tr id = recent_events (of_event <$> about id (Spec.history s)) (now - FailureDecayPeriod);
  sim_suppr : forall id, suppr tr id = default zero_time (Spec.suppressed s !! id);
  sim_since : forall id since, Spec.suppressed s !! id = Some since -> 0 < since;
  sim_fails : forall key id t,
    fails tr key !! id = Some t <->
    last_time (Spec.history s) key id = Some t /\ now - FailureDecayPeriod <= t
}.

(** Filters on instants: a later cutoff absorbs an earlier one. *)
Lemma recent_events_twice l c c' : c <= c' ->
  recent_events (recent_events l c) c' = recent_events l c'.
Proof.
  intros Hc. induction l as [|f l IH]; [done|]. unfold recent_events, After in *. cbn.
  destruct (Z.ltb_spec c (failureEvent.Timestamp f)); cbn; [by rewrite IH|].
  rewrite IH. destruct (Z.ltb_spec c' (failureEvent.Timestamp f)); [lia|done].
Qed.

Lemma recent_events_app l1 l2 c :
  recent_events (l1 ++ l2) c = recent_events l1 c ++ recent_events l2 c.
Proof. apply List.filter_app. Qed.

Lemma about_app id h1 h2 :
  of_event <$> about id (h1 ++ h2) = (of_event <$> about id h1) ++ (of_event <$> about id h2).
Proof. unfold about. by rewrite List.filter_app, fmap_app. Qed.

Lemma recent_length id h c :
  length (recent_events (of_event <$> about id h) c) =
  length (List.filter (fun e => bool_decide (Spec.offer e = id) && (c <? Spec.at_ e)) h).
Proof.
  induction h as [|e h IH]; [done|]. unfold recent_events, about, After in *. cbn.
  destruct (bool_decide (Spec.offer e = id)); cbn; [|done].
  destruct (c <? Spec.at_ e); cbn; by rewrite IH.
Qed.

Lemma last_time_snoc h e key id :
  last_time (h ++ [e]) key id = if hit key id e then Some (Spec.at_ e) else last_time h key id.
Proof.
  unfold last_time. rewrite List.filter_app. cbn. destruct (hit key id e); cbn.
  - by rewrite last_snoc.
  - by rewrite app_nil_r.
Qed.

(** When the events are in order the last one is the latest. *)
Lemma last_time_latest h key id e :
  sorted h -> e ∈ h -> hit key id e = true ->
  exists t, last_time h key id = Some t /\ Spec.at_ e <= t.
Proof.
  intros Hs He Hh. unfold last_time. set (l := List.filter (hit key id) h).
  assert (Hl : e ∈ l) by by apply list_elem_of_In, List.filter_In; rewrite <-list_elem_of_In.
  assert (Hsl : StronglySorted (fun a b => Spec.at_ a <= Spec.at_ b) l).
  { subst l. clear Hl He. induction Hs as [|x h Hs IH Hx]; cbn; [constructor|].
    destruct (hit key id x); [|done]. constructor; [done|].
    rewrite Forall_forall in Hx |- *. intros y Hy. apply Hx.
    apply list_elem_of_In in Hy. apply list_elem_of_In. by apply List.filter_In in Hy as []. }
  destruct (last l) as [x|] eqn:Hx.
  - exists (Spec.at_ x). split; [done|]. apply last_Some in Hx as [l' ->].
    clear -Hl Hsl. apply elem_of_app in Hl as [Hl| ->%list_elem_of_singleton]; [|lia].
    apply (StronglySorted_app _ l' [x]) in Hsl as (Hall & _ & _). apply Hall; [done|]. by left.
  - apply last_None in Hx. rewrite Hx in Hl. by apply elem_of_nil in Hl.
Qed.

Lemma recent_view now tr s id t :
  simulates now tr s -> now <= t ->
  Z.of_nat (length (recent_events (events tr id) (Add t (- SuppressionWindow)))) =
  Spec.recent (Spec.history s) id t.
Proof.
  intros Hs Ht. rewrite (sim_events _ _ _ Hs), recent_events_twice.
  - by rewrite recent_length.
  - unfold Add, SuppressionWindow, FailureDecayPeriod, Hour, Minute, Second. lia.
Qed.

Lemma suppr_view now tr s id t :
  simulates now tr s -> suppression_holds (suppr tr id) t = Spec.is_suppressed s id t.
Proof.
  intros Hs. rewrite (sim_suppr _ _ _ Hs). unfold Spec.is_suppressed, suppression_holds, Before, Add, IsZero.
  destruct (Spec.suppressed s !! id) as [since|] eqn:Hi; [|done]. cbn.
  apply (sim_since _ _ _ Hs) in Hi. by destruct (Z.eqb_spec since 0); [lia|].
Qed.

Lemma failed_view now tr s key t :
  simulates now tr s -> now <= t ->
  activeCount (fails tr key) t = Z.of_nat (size (Spec.failed_offers (Spec.history s) key t)).
Proof.
  intros Hs Ht. unfold activeCount. rewrite <-size_dom. do 2 f_equal. apply set_eq. intros id.
  rewrite elem_of_dom. unfold Spec.failed_offers. rewrite elem_of_list_to_set, list_elem_of_fmap.
  unfold After, Add. split.
  - intros [u [Hu Hc]%map_lookup_filter_Some]. apply (sim_fails _ _ _ Hs) in Hu as [Hl _].
    unfold last_time in Hl. apply fmap_Some in Hl as (e & He & ->). cbn in Hc.
    apply last_Some_elem_of, list_elem_of_In, List.filter_In in He as [He Hh].
    unfold hit in Hh. apply andb_true_iff in Hh as [Hk Hid]. apply bool_decide_eq_true in Hid.
    exists e. split; [done|]. apply list_elem_of_In, List.filter_In. split; [done|].
    rewrite Hk. cbn. by rewrite <-Z.add_opp_r.
  - intros (e & -> & He). apply list_elem_of_In, List.filter_In in He as [He Hh].
    apply andb_true_iff in Hh as [Hk Hc]. apply list_elem_of_In in He. apply Z.ltb_lt in Hc.
    destruct (last_time_latest (Spec.history s) key (Spec.offer e) e) as (u & Hu & Hle).
    + apply (sim_sorted _ _ _ Hs).
    + done.
    + unfold hit. by rewrite Hk, bool_decide_true.
    + exists u. apply map_lookup_filter_Some. split; [|cbn; apply Z.ltb_lt; lia].
      apply (sim_fails _ _ _ Hs). split; [done|]. lia.
Qed.

Lemma simulates_new : simulates 0 OfferFailureTracker.new (Spec.mk [] ∅).
Proof.
  split.
  - constructor.
  - constructor.
  - done.
  - done.
  - intros id since. cbn. by rewrite lookup_empty.
  - intros key id t. split; [|by intros [? _]]. by unfold fails; cbn; rewrite !lookup_empty.
Qed.

Lemma expired_guard u now : 0 < u ->
  (if suppression_expired u now then zero_time else u) =
  default zero_time (guard (~ (u + SuppressionCooldown < now));; Some u).
Proof.
  intros Hu. unfold suppression_expired, IsZero, After, Add.
  rewrite (proj2 (Z.eqb_neq u 0)) by lia. cbn.
  destruct (Z.ltb_spec (u + SuppressionCooldown) now).
  - by rewrite option_guard_False by lia.
  - by rewrite option_guard_True by lia.
Qed.

Lemma simulates_record_suppr now tr s e id :
  simulates now tr s -> now <= Spec.at_ e -> 0 < Spec.at_ e ->
  (let at_ := if bool_decide (id = Spec.offer e) && newly_suppressed tr e
              then Spec.at_ e else suppr tr id in
   if suppression_expired at_ (Spec.at_ e) then zero_time else at_) =
  default zero_time (Spec.suppressed (Spec.record s e) !! id).
Proof.
  intros Hs Hnow Hpos. cbn.
  assert (Hn : newly_suppressed tr e =
    bool_decide (Spec.suppressed s !! Spec.offer e = None) &&
    (SuppressionThreshold <=? Spec.recent (Spec.history s ++ [e]) (Spec.offer e) (Spec.at_ e))).
  { unfold newly_suppressed. rewrite andb_comm. f_equal.
    - rewrite (sim_suppr _ _ _ Hs).
      destruct (Spec.suppressed s !! Spec.offer e) as [u|] eqn:Hu; [|done]. cbn.
      apply (sim_since _ _ _ Hs) in Hu. apply Z.eqb_neq. lia.
    - f_equal. rewrite recent_events_app, length_app, Nat2Z.inj_add, (recent_view now _ s) by done.
      unfold Spec.recent; rewrite List.filter_app, length_app, Nat2Z.inj_add. cbn. rewrite bool_decide_true by done. cbn. unfold recent_events, After, Add. cbn. rewrite Z.add_opp_r. by destruct (Spec.at_ e - SuppressionWindow <? Spec.at_ e). }
  rewrite <-Hn, map_lookup_filter, andb_comm. clear Hn.
  assert (Hl : (if newly_suppressed tr e then <[Spec.offer e := Spec.at_ e]> (Spec.suppressed s)
                else Spec.suppressed s) !! id =
    if newly_suppressed tr e && bool_decide (id = Spec.offer e) then Some (Spec.at_ e)
    else Spec.suppressed s !! id).
  { destruct (newly_suppressed tr e); [cbn|done]. case_bool_decide as Hi.
    - subst. by rewrite lookup_insert_eq.
    - by rewrite lookup_insert_ne. }
  rewrite Hl. clear Hl.
  destruct (newly_suppressed tr e && bool_decide (id = Spec.offer e)); [by apply expired_guard|].
  rewrite (sim_suppr _ _ _ Hs). destruct (Spec.suppressed s !! id) as [u|] eqn:Hu; [|done].
  apply expired_guard. by apply (sim_since _ _ _ Hs) in Hu.
Qed.

Lemma simulates_record now tr s e :
  simulates now tr s -> now <= Spec.at_ e -> 0 < Spec.at_ e ->
  simulates (Spec.at_ e) (record_event tr e) (Spec.record s e).
Proof.
  intros Hs Hnow Hpos. destruct (record_views tr e) as (Hev & Hsu & Hfa).
  assert (Hpast : Forall (fun x => Spec.at_ x <= Spec.at_ e) (Spec.history s)).
  { eapply Forall_impl; [apply (sim_past _ _ _ Hs)|]. cbn. lia. }
  split.
  - cbn. apply StronglySorted_app. split; [|split; [apply Hs|by repeat constructor]].
    rewrite Forall_forall in Hpast. intros x y Hx ->%list_elem_of_singleton. by apply Hpast.
  - cbn. apply Forall_app. split; [done|]. by repeat constructor.
  - intros id. rewrite Hev, (sim_events _ _ _ Hs), recent_events_app. cbn [Spec.record Spec.history].
    rewrite about_app, recent_events_app, recent_events_twice by (unfold Add; lia).
    rewrite <-Z.add_opp_r. f_equal. unfold about. cbn.
    destruct (decide (id = Spec.offer e)) as [->|Hne].
    + by rewrite bool_decide_true.
    + by rewrite bool_decide_false.
  - intros id. rewrite Hsu. cbn [Spec.record Spec.suppressed].
    apply (simulates_record_suppr now); done.
  - intros id since. cbn. intros [Hl _]%map_lookup_filter_Some.
    case_match; [|by apply (sim_since _ _ _ Hs) in Hl].
    apply lookup_insert_Some in Hl as [[_ <-]|[_ Hl]]; [done|by apply (sim_since _ _ _ Hs) in Hl].
  - intros key id t. rewrite Hfa, map_lookup_filter_Some. cbn [Spec.record Spec.history snd].
    rewrite last_time_snoc. unfold hit, Before, Add.
    assert (Hold : forall m, m = fails tr key ->
      (m !! id = Some t /\ (t <? Spec.at_ e + - FailureDecayPeriod) = false) <->
      (last_time (Spec.history s) key id = Some t /\ Spec.at_ e - FailureDecayPeriod <= t)).
    { intros m ->. rewrite (sim_fails _ _ _ Hs), Z.ltb_ge. intuition lia. }
    destruct (decide (key = gpu_key (Spec.provider e) (Spec.gpu e))) as [->|Hk].
    + rewrite (bool_decide_true (gpu_key _ _ = _)) by done. cbn.
      destruct (decide (Spec.offer e = id)) as [->|Hi].
      * rewrite lookup_insert_eq, bool_decide_true, Z.ltb_ge by done.
        split; intros [[= <-] ?]; (split; [done|lia]).
      * rewrite lookup_insert_ne, bool_decide_false by done. by apply Hold.
    + rewrite bool_decide_false by done. by apply Hold.
Qed.

Lemma simulates_run evs : forall now tr s,
  simulates now tr s -> in_order now evs ->
  exists now', simulates now' (run_tracker tr evs) (fold_left Spec.record evs s) /\
    forall t, now <= t -> Forall (fun e => Spec.at_ e <= t) evs -> now' <= t.
Proof.
  induction evs as [|e evs IH]; intros now tr s Hs; [intros _; by exists now|].
  intros [[Hpos Hle] Hin]. destruct (IH _ _ _ (simulates_record _ _ _ _ Hs Hle Hpos) Hin) as (n & Hn & Ht).
  exists n. split; [done|]. intros t _ [He Hf]%Forall_cons. by apply Ht.
Qed.

(** The answers of a tracker that simulates. *)
Lemma simulates_answers now tr s t :
  simulates now tr s -> now <= t ->
  (forall id, IsSuppressed tr id t = Spec.is_suppressed s id t) /\
  (forall id gpu provider,
     GetConfidenceMultiplier tr id gpu provider t = Spec.multiplier s id gpu provider t).
Proof.
  intros Hs Ht. split.
  - intros id. by rewrite IsSuppressed_view, (suppr_view now _ s).
  - intros id gpu provider. rewrite multiplier_view, (suppr_view now _ s) by done.
    unfold Spec.multiplier. by rewrite (recent_view now _ s), (failed_view now _ s).
Qed.

(** C11.  The tracker, which prunes its maps at every failure it records, answers as the
    specification that remembers the whole history: after any sequence of failures in
    the order of their instants and at any later instant, an offer is suppressed, and
    gets the confidence multiplier, that the history says. *)
Theorem tracker_refines_history (evs : list Spec.event) (t : time) :
  in_order 0 evs -> Forall (fun e => Spec.at_ e <= t) evs -> 0 <= t ->
  let tr := run_tracker OfferFailureTracker.new evs in
  (forall id, IsSuppressed tr id t = Spec.is_suppressed (Spec.run evs) id t) /\
  (forall id gpu provider,
     GetConfidenceMultiplier tr id gpu provider t = Spec.multiplier (Spec.run evs) id gpu provider t).
Proof.
  intros Hin Hall Ht. destruct (simulates_run evs _ _ _ simulates_new Hin) as (n & Hn & Hle).
  apply (simulates_answers n); [done|by apply Hle].
Qed.

(** Three failures of an offer within thirty minutes suppress it: when an offer
    that is not suppressed has already failed twice in the window, the next failure
    hides it, with multiplier 0, for the thirty minutes that follow. *)
Theorem RecordFailure_suppresses (tr : tracker) (id provider gpu kind reason : string) (now t : time) :
  0 < now -> suppr tr id = zero_time ->
  (2 <= length (recent_events (events tr id) (now - SuppressionWindow)%Z))%nat ->
  now <= t < now + SuppressionCooldown ->
  let tr' := fst (RecordFailure tr id provider gpu kind reason now) in
  IsSuppressed tr' id t = true /\
  forall gpu' provider', GetConfidenceMultiplier tr' id gpu' provider' t = f0.
Proof.
  intros Hpos Hsu Hlen Ht. set (e := Spec.Event id provider gpu kind reason now).
  change (fst (RecordFailure tr id provider gpu kind reason now)) with (record_event tr e). cbv zeta.
  assert (Hn : newly_suppressed tr e = true).
  { unfold newly_suppressed. cbn. rewrite Hsu, andb_true_r, recent_events_app, length_app.
    rewrite Z.add_opp_r. apply Z.leb_le. cbn. unfold After. cbn.
    rewrite (proj2 (Z.ltb_lt (now - SuppressionWindow) now)) by reflexivity || (unfold SuppressionWindow, Minute, Second; lia).
    cbn. unfold SuppressionThreshold. lia. }
  assert (Hs : suppression_holds (suppr (record_event tr e) id) t = true).
  { destruct (record_views tr e) as (_ & Hv & _). rewrite Hv, Hn. cbn.
    rewrite bool_decide_true by done. cbn.
    unfold suppression_expired, suppression_holds, IsZero, After, Before, Add.
    rewrite (proj2 (Z.eqb_neq now 0)) by lia. cbn.
    rewrite (proj2 (Z.ltb_ge _ now)) by lia.
    rewrite (proj2 (Z.eqb_neq now 0)) by lia. cbn. apply Z.ltb_lt. lia. }
  split; [by rewrite IsSuppressed_view|]. intros gpu' provider'. by rewrite multiplier_view, Hs.
Qed.

(** A suppression that has run out but is still recorded shields the offer from
    the next one: the failure that clears it suppresses nothing, however many recent
    failures there are. *)
Theorem expired_suppression_shields (tr : tracker) (id provider gpu kind reason : string) (now t : time) :
  suppression_expired (suppr tr id) now = true ->
  IsSuppressed (fst (RecordFailure tr id provider gpu kind reason now)) id t = false.
Proof.
  intros He. set (e := Spec.Event id provider gpu kind reason now).
  change (fst (RecordFailure tr id provider gpu kind reason now)) with (record_event tr e).
  rewrite IsSuppressed_view. destruct (record_views tr e) as (_ & Hv & _). rewrite Hv.
  assert (Hn : newly_suppressed tr e = false).
  { unfold newly_suppressed. cbn. unfold suppression_expired in He.
    apply andb_true_iff in He as [Hz%negb_true_iff _]. by rewrite Hz, andb_false_r. }
  rewrite Hn, andb_false_r. cbn. by rewrite He.
Qed.

(** The multiplier of an offer that is not suppressed, by number of recent failures. *)
Definition multiplier_ok (n : nat) (degraded : bool) : bool :=
  let m := combine_multipliers (Z.of_nat n) degraded in
  fleb (f64_lit 5 100) m && fleb m f1.

Lemma multiplier_table : forallb (fun n => multiplier_ok n true && multiplier_ok n false) (seq 0 101) = true.
Proof. vm_compute. reflexivity. Qed.

Lemma combine_bounds n degraded : (n <= 100)%nat ->
  fleb (f64_lit 5 100) (combine_multipliers (Z.of_nat n) degraded) = true /\
  fleb (combine_multipliers (Z.of_nat n) degraded) f1 = true.
Proof.
  intros Hn. pose proof multiplier_table as Ht. rewrite forallb_forall in Ht. specialize (Ht n).
  apply andb_true_iff in Ht as [Hd Hu]; [|apply in_seq; lia].
  destruct degraded; by apply andb_true_iff.
Qed.

(** The confidence multiplier is 0 exactly when the offer is suppressed, and
    otherwise, for up to 100 recent failures, between 0.05 and 1. *)
Theorem multiplier_range (tr : tracker) (id gpu provider : string) (now : time) :
  (length (recent_events (events tr id) (now - SuppressionWindow)%Z) <= 100)%nat ->
  let m := GetConfidenceMultiplier tr id gpu provider now in
  if IsSuppressed tr id now then m = f0
  else fleb (f64_lit 5 100) m = true /\ fleb m f1 = true.
Proof.
  intros Hlen. cbv zeta. rewrite IsSuppressed_view, multiplier_view.
  destruct (suppression_holds (suppr tr id) now); [done|]. rewrite Z.add_opp_r.
  by apply combine_bounds.
Qed.

(** ** Restart: the tracker rebuilt from the store *)

(** The row [PersistFailure] inserts, carrying the instant of the failure, as
    [LoadRecentFailures] hands it back. *)
Definition stored (e : Spec.event) : StoredFailure.t :=
  StoredFailure.mk (Spec.offer e) (Spec.provider e) (Spec.gpu e) (Spec.kind e) (Spec.reason e)
    (Spec.at_ e).

(** What has been replayed, before the cleanup. *)
Record loaded (tr : tracker) (h : list Spec.event) (sup : gmap string time) : Prop := {
  loaded_events : forall id, events tr id = of_event <$> about id h;
  loaded_suppr : forall id, suppr tr id = default zero_time (sup !! id);
  loaded_fails : forall key id, fails tr key !! id = last_time h key id
}.

Lemma loaded_failure tr h e :
  sorted (h ++ [e]) -> loaded tr h ∅ -> loaded (load_failure tr (stored e)) (h ++ [e]) ∅.
Proof.
  intros Hso [Hev Hsu Hfa]. unfold load_failure, stored. cbn. split.
  - intros id. rewrite events_insert, about_app, <-Hev. unfold add_event, about. cbn.
    destruct (decide (id = Spec.offer e)) as [->|Hne].
    + rewrite bool_decide_true by done. unfold events. by destruct (_ !! _).
    + by rewrite bool_decide_false, app_nil_r.
  - intros id. rewrite suppr_insert, <-Hsu. destruct (decide (id = Spec.offer e)) as [->|]; [|done].
    unfold add_event, suppr. cbn. by destruct (_ !! _).
  - intros key id. rewrite fails_insert, last_time_snoc. unfold hit.
    destruct (decide (key = gpu_key (Spec.provider e) (Spec.gpu e))) as [->|Hne].
    2: { by rewrite bool_decide_false. }
    fold (fails tr (gpu_key (Spec.provider e) (Spec.gpu e))).
    rewrite (bool_decide_true (gpu_key _ _ = _)) by done. cbn.
    rewrite Hfa. destruct (decide (Spec.offer e = id)) as [->|Hi].
    2: { rewrite bool_decide_false, <-Hfa by done. case_match; [|done]. by rewrite lookup_insert_ne. }
    rewrite bool_decide_true by done.
    destruct (last_time h _ id) as [u|] eqn:Hu; [|by rewrite lookup_insert_eq].
    unfold After. destruct (Z.ltb_spec u (Spec.at_ e)); [by rewrite lookup_insert_eq|].
    rewrite Hfa, Hu. f_equal. apply fmap_Some in Hu as (x & Hx & ->).
    apply last_Some_elem_of, list_elem_of_In, List.filter_In in Hx as [Hx _].
    apply StronglySorted_app in Hso as (Hall & _ & _). apply list_elem_of_In in Hx.
    specialize (Hall x e Hx). cbn in *. assert (Spec.at_ x <= Spec.at_ e) by (apply Hall; by left). lia.
Qed.

Lemma loaded_failures post : forall tr pre,
  sorted (pre ++ post) -> loaded tr pre ∅ ->
  loaded (fold_left load_failure (stored <$> post) tr) (pre ++ post) ∅.
Proof.
  induction post as [|e post IH]; intros tr pre Hs Hl; [by rewrite app_nil_r|].
  change (e :: post) with ([e] ++ post). rewrite (assoc_L (++)). apply IH.
  - by rewrite <-(assoc_L (++)).
  - apply loaded_failure; [|done]. change (e :: post) with ([e] ++ post) in Hs.
    rewrite (assoc_L (++)) in Hs. by apply StronglySorted_app in Hs as (_ & ? & _).
Qed.

(** The map a list of stored suppressions stands for: the later entry wins. *)
Definition suppressions_map (l : list StoredSuppression.t) (m : gmap string time) : gmap string time :=
  fold_left (fun m s => <[StoredSuppression.OfferID s := StoredSuppression.SuppressedAt s]> m) l m.

Lemma loaded_suppressions l : forall tr h sup,
  loaded tr h sup -> loaded (fold_left load_suppression l tr) h (suppressions_map l sup).
Proof.
  induction l as [|s l IH]; intros tr h sup [Hev Hsu Hfa]; [done|]. apply IH.
  unfold load_suppression. split.
  - intros id. rewrite events_insert, <-Hev. destruct (decide _) as [->|]; [|done].
    cbn. unfold events. by destruct (_ !! _).
  - intros id. rewrite suppr_insert. cbn. destruct (decide (id = StoredSuppression.OfferID s)) as [->|].
    + by rewrite lookup_insert_eq.
    + by rewrite lookup_insert_ne.
  - intros key id. by rewrite <-Hfa.
Qed.

Definition live_suppressions (now : time) (m : gmap string time) : gmap string time :=
  filter (fun kv : string * time => ~ (kv.2 + SuppressionCooldown < now)) m.

Lemma LoadFromStore_sim (h : list Spec.event) (l : list StoredSuppression.t) (now : time) :
  sorted h -> Forall (fun e => Spec.at_ e <= now) h ->
  Forall (fun s => 0 < StoredSuppression.SuppressedAt s) l ->
  simulates now (fst (LoadFromStore OfferFailureTracker.new (stored <$> h) l now))
    (Spec.mk h (live_suppressions now (suppressions_map l ∅))).
Proof.
  intros Hso Hall Hpos. unfold LoadFromStore.
  set (tr1 := fold_left load_failure _ _).
  assert (Hl1 : loaded tr1 h ∅).
  { apply (loaded_failures h _ []); [done|]. split; [done|done|]. intros key id.
    unfold fails. cbn. by rewrite lookup_empty. }
  apply (loaded_suppressions l) in Hl1 as [Hev Hsu Hfa].
  assert (Hsince : forall id u, suppressions_map l ∅ !! id = Some u -> 0 < u).
  { intros id. assert (Hm : forall u, (∅ : gmap string time) !! id = Some u -> 0 < u) by done.
    revert Hm. generalize (∅ : gmap string time). clear -Hpos.
    induction Hpos as [|s l Hs Hl IH]; intros m Hm u; [apply Hm|]. apply IH. intros v.
    destruct (decide (StoredSuppression.OfferID s = id)) as [->|].
    - rewrite lookup_insert_eq. by intros [= <-].
    - rewrite lookup_insert_ne by done. apply Hm. }
  split; cbn [Spec.history Spec.suppressed].
  - done.
  - done.
  - intros id. rewrite events_cleanup, Hev. by rewrite <-Z.add_opp_r.
  - intros id. rewrite suppr_cleanup, Hsu. unfold live_suppressions. rewrite map_lookup_filter.
    destruct (suppressions_map l ∅ !! id) as [u|] eqn:Hu; cbn [default mbind option_bind]; [|done].
    by apply expired_guard, (Hsince id).
  - intros id since [Hl _]%map_lookup_filter_Some. by eapply Hsince.
  - intros key id u. rewrite fails_cleanup, map_lookup_filter_Some, Hfa. cbn. unfold Before, Add.
    rewrite Z.ltb_ge. intuition lia.
Qed.

(** Loading the stored rows into an empty tracker rebuilds it: at any later instant
    it answers as the specification whose history is the stored failures and whose
    suppressions are the stored ones that have not run out. *)
Theorem LoadFromStore_rebuilds (h : list Spec.event) (l : list StoredSuppression.t) (now t : time) :
  sorted h -> Forall (fun e => Spec.at_ e <= now) h ->
  Forall (fun s => 0 < StoredSuppression.SuppressedAt s) l -> now <= t ->
  let tr := fst (LoadFromStore OfferFailureTracker.new (stored <$> h) l now) in
  let s := Spec.mk h (live_suppressions now (suppressions_map l ∅)) in
  (forall id, IsSuppressed tr id t = Spec.is_suppressed s id t) /\
  (forall id gpu provider, GetConfidenceMultiplier tr id gpu provider t = Spec.multiplier s id gpu provider t).
Proof.
  intros Hso Hall Hpos Ht. apply (simulates_answers now); [|done]. by apply LoadFromStore_sim.
Qed.

(** The queries look at nothing older than the cutoff of the load. *)
Definition since (c : time) (h : list Spec.event) : list Spec.event :=
  List.filter (fun e => c <? Spec.at_ e) h.

Lemma filter_since {P : Spec.event -> bool} c d h :
  c <= d ->
  List.filter (fun e => P e && (d <? Spec.at_ e)) (since c h) =
  List.filter (fun e => P e && (d <? Spec.at_ e)) h.
Proof.
  intros Hc. induction h as [|e h IH]; [done|]. unfold since in *. cbn.
  destruct (Z.ltb_spec c (Spec.at_ e)); cbn; [by rewrite IH|].
  destruct (Z.ltb_spec d (Spec.at_ e)); [lia|]. by rewrite andb_false_r.
Qed.

Lemma answers_since c now t h sup :
  c <= now - FailureDecayPeriod -> now <= t ->
  let s := Spec.mk h sup in
  let s' := Spec.mk (since c h) (live_suppressions now sup) in
  (forall id, Spec.is_suppressed s' id t = Spec.is_suppressed s id t) /\
  (forall id gpu provider, Spec.multiplier s' id gpu provider t = Spec.multiplier s id gpu provider t).
Proof.
  intros Hc Ht. cbn.
  assert (Hs : forall id, Spec.is_suppressed (Spec.mk (since c h) (live_suppressions now sup)) id t =
                     Spec.is_suppressed (Spec.mk h sup) id t).
  { intros id. unfold Spec.is_suppressed. cbn. unfold live_suppressions. rewrite (map_lookup_filter (A:=time)).
    destruct (sup !! id) as [u|]; simpl; [|done].
    destruct (Z.ltb_spec (u + SuppressionCooldown) now).
    - rewrite option_guard_False by lia. symmetry. apply Z.ltb_ge. lia.
    - by rewrite option_guard_True by lia. }
  split; [done|]. intros id gpu provider. unfold Spec.multiplier. rewrite Hs. cbn.
  unfold Spec.recent, Spec.failed_offers. rewrite !filter_since; [done|lia|].
  unfold SuppressionWindow, FailureDecayPeriod, Hour, Minute, Second in *. lia.
Qed.

Lemma in_order_sorted evs : forall from, in_order from evs ->
  sorted evs /\ Forall (fun e => from <= Spec.at_ e /\ 0 < Spec.at_ e) evs.
Proof.
  induction evs as [|e evs IH]; intros from; [by repeat constructor|].
  intros [[Hp Hle] Hin]. destruct (IH _ Hin) as [Hs Hf]. split.
  - constructor; [done|]. eapply Forall_impl; [exact Hf|]. cbn. lia.
  - constructor; [done|]. eapply Forall_impl; [exact Hf|]. cbn. lia.
Qed.

Lemma history_run evs s : Spec.history (fold_left Spec.record evs s) = Spec.history s ++ evs.
Proof.
  revert s. induction evs as [|e evs IH]; intros s; cbn; [by rewrite app_nil_r|].
  rewrite IH. cbn. by rewrite <-(assoc_L (++)).
Qed.

(** A restart forgets nothing that counts: the tracker rebuilt from the failures
    stored after a cutoff at least an hour old and from the standing suppressions gives
    the answers of the tracker that never stopped, from the load on. *)
Theorem restart_agrees (evs : list Spec.event) (l : list StoredSuppression.t) (c now t : time) :
  in_order 0 evs -> Forall (fun e => Spec.at_ e <= now) evs ->
  suppressions_map l ∅ = Spec.suppressed (Spec.run evs) ->
  Forall (fun s => 0 < StoredSuppression.SuppressedAt s) l ->
  c <= now - FailureDecayPeriod -> 0 <= now <= t ->
  let running := run_tracker OfferFailureTracker.new evs in
  let restarted := fst (LoadFromStore OfferFailureTracker.new (stored <$> since c evs) l now) in
  (forall id, IsSuppressed restarted id t = IsSuppressed running id t) /\
  (forall id gpu provider, GetConfidenceMultiplier restarted id gpu provider t =
                      GetConfidenceMultiplier running id gpu provider t).
Proof.
  intros Hin Hall Hl Hpos Hc Ht. cbv zeta.
  destruct (in_order_sorted _ _ Hin) as [Hso _].
  assert (Hsince : sorted (since c evs) /\ Forall (fun e => Spec.at_ e <= now) (since c evs)).
  { unfold since. split.
    - clear -Hso. induction Hso as [|e l Hl IH He]; cbn; [constructor|].
      destruct (c <? Spec.at_ e); [|done]. constructor; [done|]. by apply Forall_filter_bool.
    - by apply Forall_filter_bool. }
  pose proof (LoadFromStore_sim (since c evs) l now (proj1 Hsince) (proj2 Hsince) Hpos) as Hsim.
  destruct (simulates_answers now _ _ t Hsim) as [Hs Hm]; [lia|].
  destruct (simulates_run evs _ _ _ simulates_new Hin) as (n & Hn & Hle).
  destruct (simulates_answers n _ _ t Hn) as [Hs' Hm'].
  { apply Hle; [lia|]. eapply Forall_impl; [exact Hall|]. cbn. lia. }
  destruct (answers_since c now t evs (Spec.suppressed (Spec.run evs))) as [Ha Hb]; [done|lia|].
  assert (Hrun : Spec.mk evs (Spec.suppressed (Spec.run evs)) = Spec.run evs).
  { unfold Spec.run. rewrite <-(history_run evs (Spec.mk [] ∅)) at 1. by destruct (fold_left _ _ _). }
  rewrite Hrun in Ha, Hb. rewrite Hl in Hs, Hm. split.
  - intros id. by rewrite Hs, Hs', Ha.
  - intros id gpu provider. by rewrite Hm, Hm', Hb.
Qed.
End Simulation.
