(* ===== verification/Models.v ===== *)
(** [pkg/models]: the data the services exchange.  Each Go struct is a record in
    a module of its own, with the struct's field names; [set_F] is the assignment
    [x.F = v]. *)
From S2P Require Import Prelude GoFloat GoLib.

(** ** [session.go] *)
Inductive SessionStatus :=
| StatusPending
| StatusProvisioning
| StatusRunning
| StatusStopping
| StatusStopped
| StatusFailed.

#[export] Instance SessionStatus_eq_dec : EqDecision SessionStatus.
Proof. solve_decision. Defined.

Definition status_string (s : SessionStatus) : string :=
  match s with
  | StatusPending => "pending"
  | StatusProvisioning => "provisioning"
  | StatusRunning => "running"
  | StatusStopping => "stopping"
  | StatusStopped => "stopped"
  | StatusFailed => "failed"
  end.

Definition ValidWorkloadTypes : list string :=
  ["llm"; "llm_vllm"; "llm_tgi"; "training"; "batch"; "interactive"; "inference"; "ssh";
   "benchmark"].

Definition WorkloadType_IsValid (w : string) : bool :=
  bool_decide (w ∈ ValidWorkloadTypes).

Definition ValidRetryScopes : list string := ["same_gpu"; "same_vram"; "any"].

Definition IsValidRetryScope (scope : string) : bool :=
  bool_decide (scope = "") || bool_decide (scope ∈ ValidRetryScopes).

Definition StoragePreserve : string := "preserve".
Definition StorageDestroy : string := "destroy".
Definition LaunchModeSSH : string := "ssh".
Definition LaunchModeEntrypoint : string := "entrypoint".

Module Session.
Record t := mk {
  ID : string;
  ConsumerID : string;
  Provider : string;
  ProviderID : string;
  OfferID : string;
  GPUType : string;
  GPUCount : Z;
  Status : SessionStatus;
  Error : string;
  SSHHost : string;
  SSHPort : Z;
  SSHUser : string;
  SSHPrivateKey : string;
  SSHPublicKey : string;
  LaunchMode : string;
  APIEndpoint : string;
  APIPort : Z;
  DockerImage : string;
  ModelID : string;
  Quantization : string;
  ExposedPorts : list Z;
  TemplateHashID : string;
  TemplateName : string;
  DiskGB : Z;
  AutoRetry : bool;
  MaxRetries : Z;
  RetryScope : string;
  RetryCount : Z;
  RetryParentID : string;
  RetryChildID : string;
  FailedOffers : string;
  WorkloadType : string;
  ReservationHrs : Z;
  HardMaxOverride : bool;
  IdleThreshold : Z;
  StoragePolicy : string;
  PricePerHour : f64;
  CreatedAt : time;
  ExpiresAt : time;
  StoppedAt : time
}.

Definition set_ProviderID (v : string) (s : t) : t :=
  mk (ID s) (ConsumerID s) (Provider s) v (OfferID s) (GPUType s) (GPUCount s) (Status s)
    (Error s) (SSHHost s) (SSHPort s) (SSHUser s) (SSHPrivateKey s) (SSHPublicKey s)
    (LaunchMode s) (APIEndpoint s) (APIPort s) (DockerImage s) (ModelID s) (Quantization s)
    (ExposedPorts s) (TemplateHashID s) (TemplateName s) (DiskGB s) (AutoRetry s)
    (MaxRetries s) (RetryScope s) (RetryCount s) (RetryParentID s) (RetryChildID s)
    (FailedOffers s) (WorkloadType s) (ReservationHrs s) (HardMaxOverride s) (IdleThreshold
    s) (StoragePolicy s) (PricePerHour s) (CreatedAt s) (ExpiresAt s) (StoppedAt s).

Definition set_Status (v : SessionStatus) (s : t) : t :=
  mk (ID s) (ConsumerID s) (Provider s) (ProviderID s) (OfferID s) (GPUType s) (GPUCount s)
    v (Error s) (SSHHost s) (SSHPort s) (SSHUser s) (SSHPrivateKey s) (SSHPublicKey s)
    (LaunchMode s) (APIEndpoint s) (APIPort s) (DockerImage s) (ModelID s) (Quantization s)
    (ExposedPorts s) (TemplateHashID s) (TemplateName s) (DiskGB s) (AutoRetry s)
    (MaxRetries s) (RetryScope s) (RetryCount s) (RetryParentID s) (RetryChildID s)
    (FailedOffers s) (WorkloadType s) (ReservationHrs s) (HardMaxOverride s) (IdleThreshold
    s) (StoragePolicy s) (PricePerHour s) (CreatedAt s) (ExpiresAt s) (StoppedAt s).

Definition set_Error (v : string) (s : t) : t :=
  mk (ID s) (ConsumerID s) (Provider s) (ProviderID s) (OfferID s) (GPUType s) (GPUCount s)
    (Status s) v (SSHHost s) (SSHPort s) (SSHUser s) (SSHPrivateKey s) (SSHPublicKey s)
    (LaunchMode s) (APIEndpoint s) (APIPort s) (DockerImage s) (ModelID s) (Quantization s)
    (ExposedPorts s) (TemplateHashID s) (TemplateName s) (DiskGB s) (AutoRetry s)
    (MaxRetries s) (RetryScope s) (RetryCount s) (RetryParentID s) (RetryChildID s)
    (FailedOffers s) (WorkloadType s) (ReservationHrs s) (HardMaxOverride s) (IdleThreshold
    s) (StoragePolicy s) (PricePerHour s) (CreatedAt s) (ExpiresAt s) (StoppedAt s).

Definition set_SSHHost (v : string) (s : t) : t :=
  mk (ID s) (ConsumerID s) (Provider s) (ProviderID s) (OfferID s) (GPUType s) (GPUCount s)
    (Status s) (Error s) v (SSHPort s) (SSHUser s) (SSHPrivateKey s) (SSHPublicKey s)
    (LaunchMode s) (APIEndpoint s) (APIPort s) (DockerImage s) (ModelID s) (Quantization s)
    (ExposedPorts s) (TemplateHashID s) (TemplateName s) (DiskGB s) (AutoRetry s)
    (MaxRetries s) (RetryScope s) (RetryCount s) (RetryParentID s) (RetryChildID s)
    (FailedOffers s) (WorkloadType s) (ReservationHrs s) (HardMaxOverride s) (IdleThreshold
    s) (StoragePolicy s) (PricePerHour s) (CreatedAt s) (ExpiresAt s) (StoppedAt s).

Definition set_SSHPort (v : Z) (s : t) : t :=
  mk (ID s) (ConsumerID s) (Provider s) (ProviderID s) (OfferID s) (GPUType s) (GPUCount s)
    (Status s) (Error s) (SSHHost s) v (SSHUser s) (SSHPrivateKey s) (SSHPublicKey s)
    (LaunchMode s) (APIEndpoint s) (APIPort s) (DockerImage s) (ModelID s) (Quantization s)
    (ExposedPorts s) (TemplateHashID s) (TemplateName s) (DiskGB s) (AutoRetry s)
    (MaxRetries s) (RetryScope s) (RetryCount s) (RetryParentID s) (RetryChildID s)
    (FailedOffers s) (WorkloadType s) (ReservationHrs s) (HardMaxOverride s) (IdleThreshold
    s) (StoragePolicy s) (PricePerHour s) (CreatedAt s) (ExpiresAt s) (StoppedAt s).

Definition set_SSHUser (v : string) (s : t) : t :=
  mk (ID s) (ConsumerID s) (Provider s) (ProviderID s) (OfferID s) (GPUType s) (GPUCount s)
    (Status s) (Error s) (SSHHost s) (SSHPort s) v (SSHPrivateKey s) (SSHPublicKey s)
    (LaunchMode s) (APIEndpoint s) (APIPort s) (DockerImage s) (ModelID s) (Quantization s)
    (ExposedPorts s) (TemplateHashID s) (TemplateName s) (DiskGB s) (AutoRetry s)
    (MaxRetries s) (RetryScope s) (RetryCount s) (RetryParentID s) (RetryChildID s)
    (FailedOffers s) (WorkloadType s) (ReservationHrs s) (HardMaxOverride s) (IdleThreshold
    s) (StoragePolicy s) (PricePerHour s) (CreatedAt s) (ExpiresAt s) (StoppedAt s).

Definition set_APIEndpoint (v : string) (s : t) : t :=
  mk (ID s) (ConsumerID s) (Provider s) (ProviderID s) (OfferID s) (GPUType s) (GPUCount s)
    (Status s) (Error s) (SSHHost s) (SSHPort s) (SSHUser s) (SSHPrivateKey s) (SSHPublicKey
    s) (LaunchMode s) v (APIPort s) (DockerImage s) (ModelID s) (Quantization s)
    (ExposedPorts s) (TemplateHashID s) (TemplateName s) (DiskGB s) (AutoRetry s)
    (MaxRetries s) (RetryScope s) (RetryCount s) (RetryParentID s) (RetryChildID s)
    (FailedOffers s) (WorkloadType s) (ReservationHrs s) (HardMaxOverride s) (IdleThreshold
    s) (StoragePolicy s) (PricePerHour s) (CreatedAt s) (ExpiresAt s) (StoppedAt s).

Definition set_TemplateHashID (v : string) (s : t) : t :=
  mk (ID s) (ConsumerID s) (Provider s) (ProviderID s) (OfferID s) (GPUType s) (GPUCount s)
    (Status s) (Error s) (SSHHost s) (SSHPort s) (SSHUser s) (SSHPrivateKey s) (SSHPublicKey
    s) (LaunchMode s) (APIEndpoint s) (APIPort s) (DockerImage s) (ModelID s) (Quantization
    s) (ExposedPorts s) v (TemplateName s) (DiskGB s) (AutoRetry s) (MaxRetries s)
    (RetryScope s) (RetryCount s) (RetryParentID s) (RetryChildID s) (FailedOffers s)
    (WorkloadType s) (ReservationHrs s) (HardMaxOverride s) (IdleThreshold s) (StoragePolicy
    s) (PricePerHour s) (CreatedAt s) (ExpiresAt s) (StoppedAt s).

Definition set_DiskGB (v : Z) (s : t) : t :=
  mk (ID s) (ConsumerID s) (Provider s) (ProviderID s) (OfferID s) (GPUType s) (GPUCount s)
    (Status s) (Error s) (SSHHost s) (SSHPort s) (SSHUser s) (SSHPrivateKey s) (SSHPublicKey
    s) (LaunchMode s) (APIEndpoint s) (APIPort s) (DockerImage s) (ModelID s) (Quantization
    s) (ExposedPorts s) (TemplateHashID s) (TemplateName s) v (AutoRetry s) (MaxRetries s)
    (RetryScope s) (RetryCount s) (RetryParentID s) (RetryChildID s) (FailedOffers s)
    (WorkloadType s) (ReservationHrs s) (HardMaxOverride s) (IdleThreshold s) (StoragePolicy
    s) (PricePerHour s) (CreatedAt s) (ExpiresAt s) (StoppedAt s).

Definition set_RetryCount (v : Z) (s : t) : t :=
  mk (ID s) (ConsumerID s) (Provider s) (ProviderID s) (OfferID s) (GPUType s) (GPUCount s)
    (Status s) (Error s) (SSHHost s) (SSHPort s) (SSHUser s) (SSHPrivateKey s) (SSHPublicKey
    s) (LaunchMode s) (APIEndpoint s) (APIPort s) (DockerImage s) (ModelID s) (Quantization
    s) (ExposedPorts s) (TemplateHashID s) (TemplateName s) (DiskGB s) (AutoRetry s)
    (MaxRetries s) (RetryScope s) v (RetryParentID s) (RetryChildID s) (FailedOffers s)
    (WorkloadType s) (ReservationHrs s) (HardMaxOverride s) (IdleThreshold s) (StoragePolicy
    s) (PricePerHour s) (CreatedAt s) (ExpiresAt s) (StoppedAt s).

Definition set_RetryChildID (v : string) (s : t) : t :=
  mk (ID s) (ConsumerID s) (Provider s) (ProviderID s) (OfferID s) (GPUType s) (GPUCount s)
    (Status s) (Error s) (SSHHost s) (SSHPort s) (SSHUser s) (SSHPrivateKey s) (SSHPublicKey
    s) (LaunchMode s) (APIEndpoint s) (APIPort s) (DockerImage s) (ModelID s) (Quantization
    s) (ExposedPorts s) (TemplateHashID s) (TemplateName s) (DiskGB s) (AutoRetry s)
    (MaxRetries s) (RetryScope s) (RetryCount s) (RetryParentID s) v (FailedOffers s)
    (WorkloadType s) (ReservationHrs s) (HardMaxOverride s) (IdleThreshold s) (StoragePolicy
    s) (PricePerHour s) (CreatedAt s) (ExpiresAt s) (StoppedAt s).

Definition set_FailedOffers (v : string) (s : t) : t :=
  mk (ID s) (ConsumerID s) (Provider s) (ProviderID s) (OfferID s) (GPUType s) (GPUCount s)
    (Status s) (Error s) (SSHHost s) (SSHPort s) (SSHUser s) (SSHPrivateKey s) (SSHPublicKey
    s) (LaunchMode s) (APIEndpoint s) (APIPort s) (DockerImage s) (ModelID s) (Quantization
    s) (ExposedPorts s) (TemplateHashID s) (TemplateName s) (DiskGB s) (AutoRetry s)
    (MaxRetries s) (RetryScope s) (RetryCount s) (RetryParentID s) (RetryChildID s) v
    (WorkloadType s) (ReservationHrs s) (HardMaxOverride s) (IdleThreshold s) (StoragePolicy
    s) (PricePerHour s) (CreatedAt s) (ExpiresAt s) (StoppedAt s).

Definition set_ReservationHrs (v : Z) (s : t) : t :=
  mk (ID s) (ConsumerID s) (Provider s) (ProviderID s) (OfferID s) (GPUType s) (GPUCount s)
    (Status s) (Error s) (SSHHost s) (SSHPort s) (SSHUser s) (SSHPrivateKey s) (SSHPublicKey
    s) (LaunchMode s) (APIEndpoint s) (APIPort s) (DockerImage s) (ModelID s) (Quantization
    s) (ExposedPorts s) (TemplateHashID s) (TemplateName s) (DiskGB s) (AutoRetry s)
    (MaxRetries s) (RetryScope s) (RetryCount s) (RetryParentID s) (RetryChildID s)
    (FailedOffers s) (WorkloadType s) v (HardMaxOverride s) (IdleThreshold s) (StoragePolicy
    s) (PricePerHour s) (CreatedAt s) (ExpiresAt s) (StoppedAt s).

Definition set_HardMaxOverride (v : bool) (s : t) : t :=
  mk (ID s) (ConsumerID s) (Provider s) (ProviderID s) (OfferID s) (GPUType s) (GPUCount s)
    (Status s) (Error s) (SSHHost s) (SSHPort s) (SSHUser s) (SSHPrivateKey s) (SSHPublicKey
    s) (LaunchMode s) (APIEndpoint s) (APIPort s) (DockerImage s) (ModelID s) (Quantization
    s) (ExposedPorts s) (TemplateHashID s) (TemplateName s) (DiskGB s) (AutoRetry s)
    (MaxRetries s) (RetryScope s) (RetryCount s) (RetryParentID s) (RetryChildID s)
    (FailedOffers s) (WorkloadType s) (ReservationHrs s) v (IdleThreshold s) (StoragePolicy
    s) (PricePerHour s) (CreatedAt s) (ExpiresAt s) (StoppedAt s).

Definition set_PricePerHour (v : f64) (s : t) : t :=
  mk (ID s) (ConsumerID s) (Provider s) (ProviderID s) (OfferID s) (GPUType s) (GPUCount s)
    (Status s) (Error s) (SSHHost s) (SSHPort s) (SSHUser s) (SSHPrivateKey s) (SSHPublicKey
    s) (LaunchMode s) (APIEndpoint s) (APIPort s) (DockerImage s) (ModelID s) (Quantization
    s) (ExposedPorts s) (TemplateHashID s) (TemplateName s) (DiskGB s) (AutoRetry s)
    (MaxRetries s) (RetryScope s) (RetryCount s) (RetryParentID s) (RetryChildID s)
    (FailedOffers s) (WorkloadType s) (ReservationHrs s) (HardMaxOverride s) (IdleThreshold
    s) (StoragePolicy s) v (CreatedAt s) (ExpiresAt s) (StoppedAt s).

Definition set_ExpiresAt (v : time) (s : t) : t :=
  mk (ID s) (ConsumerID s) (Provider s) (ProviderID s) (OfferID s) (GPUType s) (GPUCount s)
    (Status s) (Error s) (SSHHost s) (SSHPort s) (SSHUser s) (SSHPrivateKey s) (SSHPublicKey
    s) (LaunchMode s) (APIEndpoint s) (APIPort s) (DockerImage s) (ModelID s) (Quantization
    s) (ExposedPorts s) (TemplateHashID s) (TemplateName s) (DiskGB s) (AutoRetry s)
    (MaxRetries s) (RetryScope s) (RetryCount s) (RetryParentID s) (RetryChildID s)
    (FailedOffers s) (WorkloadType s) (ReservationHrs s) (HardMaxOverride s) (IdleThreshold
    s) (StoragePolicy s) (PricePerHour s) (CreatedAt s) v (StoppedAt s).

Definition set_StoppedAt (v : time) (s : t) : t :=
  mk (ID s) (ConsumerID s) (Provider s) (ProviderID s) (OfferID s) (GPUType s) (GPUCount s)
    (Status s) (Error s) (SSHHost s) (SSHPort s) (SSHUser s) (SSHPrivateKey s) (SSHPublicKey
    s) (LaunchMode s) (APIEndpoint s) (APIPort s) (DockerImage s) (ModelID s) (Quantization
    s) (ExposedPorts s) (TemplateHashID s) (TemplateName s) (DiskGB s) (AutoRetry s)
    (MaxRetries s) (RetryScope s) (RetryCount s) (RetryParentID s) (RetryChildID s)
    (FailedOffers s) (WorkloadType s) (ReservationHrs s) (HardMaxOverride s) (IdleThreshold
    s) (StoragePolicy s) (PricePerHour s) (CreatedAt s) (ExpiresAt s) v.

Definition IsActive (s : t) : bool :=
  bool_decide (Status s = StatusPending) ||
  bool_decide (Status s = StatusProvisioning) ||
  bool_decide (Status s = StatusRunning).

Definition IsTerminal (s : t) : bool :=
  bool_decide (Status s = StatusStopped) || bool_decide (Status s = StatusFailed).

End Session.

Module CreateSessionRequest.
Record t := mk {
  ConsumerID : string;
  OfferID : string;
  WorkloadType : string;
  ReservationHrs : Z;
  IdleThreshold : Z;
  StoragePolicy : string;
  LaunchMode : string;
  DockerImage : string;
  ModelID : string;
  ExposedPorts : list Z;
  Quantization : string;
  TemplateHashID : string;
  DiskGB : Z;
  AutoRetry : bool;
  MaxRetries : Z;
  RetryScope : string;
  OnStartCmd : string;
  SSHTimeoutMinutes : Z;
  TemplateRecommendedDiskGB : Z;
  TemplateRecommendedSSHTimeout : duration
}.

Definition set_OfferID (v : string) (s : t) : t :=
  mk (ConsumerID s) v (WorkloadType s) (ReservationHrs s) (IdleThreshold s) (StoragePolicy
    s) (LaunchMode s) (DockerImage s) (ModelID s) (ExposedPorts s) (Quantization s)
    (TemplateHashID s) (DiskGB s) (AutoRetry s) (MaxRetries s) (RetryScope s) (OnStartCmd s)
    (SSHTimeoutMinutes s) (TemplateRecommendedDiskGB s) (TemplateRecommendedSSHTimeout s).

Definition set_MaxRetries (v : Z) (s : t) : t :=
  mk (ConsumerID s) (OfferID s) (WorkloadType s) (ReservationHrs s) (IdleThreshold s)
    (StoragePolicy s) (LaunchMode s) (DockerImage s) (ModelID s) (ExposedPorts s)
    (Quantization s) (TemplateHashID s) (DiskGB s) (AutoRetry s) v (RetryScope s)
    (OnStartCmd s) (SSHTimeoutMinutes s) (TemplateRecommendedDiskGB s)
    (TemplateRecommendedSSHTimeout s).

Definition set_RetryScope (v : string) (s : t) : t :=
  mk (ConsumerID s) (OfferID s) (WorkloadType s) (ReservationHrs s) (IdleThreshold s)
    (StoragePolicy s) (LaunchMode s) (DockerImage s) (ModelID s) (ExposedPorts s)
    (Quantization s) (TemplateHashID s) (DiskGB s) (AutoRetry s) (MaxRetries s) v
    (OnStartCmd s) (SSHTimeoutMinutes s) (TemplateRecommendedDiskGB s)
    (TemplateRecommendedSSHTimeout s).

End CreateSessionRequest.

Module SessionResponse.
Record t := mk {
  ID : string;
  ConsumerID : string;
  Provider : string;
  GPUType : string;
  GPUCount : Z;
  Status : SessionStatus;
  Error : string;
  SSHHost : string;
  SSHPort : Z;
  SSHUser : string;
  LaunchMode : string;
  APIEndpoint : string;
  APIPort : Z;
  ModelID : string;
  TemplateHashID : string;
  TemplateName : string;
  DiskGB : Z;
  WorkloadType : string;
  ReservationHrs : Z;
  PricePerHour : f64;
  CreatedAt : time;
  ExpiresAt : time;
  AutoRetry : bool;
  RetryCount : Z;
  RetryParentID : string;
  RetryChildID : string;
  FailedOffers : string
}.

Definition of_session (s : Session.t) : t :=
  mk (Session.ID s)
     (Session.ConsumerID s)
     (Session.Provider s)
     (Session.GPUType s)
     (Session.GPUCount s)
     (Session.Status s)
     (Session.Error s)
     (Session.SSHHost s)
     (Session.SSHPort s)
     (Session.SSHUser s)
     (Session.LaunchMode s)
     (Session.APIEndpoint s)
     (Session.APIPort s)
     (Session.ModelID s)
     (Session.TemplateHashID s)
     (Session.TemplateName s)
     (Session.DiskGB s)
     (Session.WorkloadType s)
     (Session.ReservationHrs s)
     (Session.PricePerHour s)
     (Session.CreatedAt s)
     (Session.ExpiresAt s)
     (Session.AutoRetry s)
     (Session.RetryCount s)
     (Session.RetryParentID s)
     (Session.RetryChildID s)
     (Session.FailedOffers s).

End SessionResponse.

(** [SessionListFilter]: the criteria of a list request. *)
Module SessionListFilter.
Record t := mk {
  ConsumerID : string;
  Status : string;
  Provider : string;
  Limit : Z
}.
End SessionListFilter.

(** ** [gpu.go] *)
Module GPUOffer.
Record t := mk {
  ID : string;
  Provider : string;
  ProviderID : string;
  GPUType : string;
  GPUCount : Z;
  VRAM : Z;
  PricePerHour : f64;
  Location : string;
  Reliability : f64;
  Available : bool;
  MaxDuration : Z;
  FetchedAt : time;
  AvailabilityConfidence : f64;
  CUDAVersion : f64;
  MachineID : string;
  Interruptible : bool;
  MinBid : f64
}.

Definition set_AvailabilityConfidence (v : f64) (s : t) : t :=
  mk (ID s) (Provider s) (ProviderID s) (GPUType s) (GPUCount s) (VRAM s) (PricePerHour s)
    (Location s) (Reliability s) (Available s) (MaxDuration s) (FetchedAt s) v (CUDAVersion
    s) (MachineID s) (Interruptible s) (MinBid s).

Definition GetEffectiveAvailabilityConfidence (o : t) : f64 :=
  if feqb (AvailabilityConfidence o) f0 then f1 else AvailabilityConfidence o.

End GPUOffer.

Module OfferFilter.
Record t := mk {
  Provider : string;
  GPUType : string;
  MinVRAM : Z;
  MaxPrice : f64;
  Location : string;
  MinReliability : f64;
  MinGPUCount : Z;
  MinAvailabilityConfidence : f64;
  MinCUDAVersion : f64
}.

Definition empty : t := mk "" "" 0 f0 "" f0 0 f0 f0.

(** One clause of the filter: when the criterion is set, the offer must not fail it. *)
Definition MatchesFilter (o : GPUOffer.t) (f : t) : bool :=
  if negb (bool_decide (Provider f = "")) && negb (bool_decide (GPUOffer.Provider o = Provider f))
  then false
  else if negb (bool_decide (GPUType f = "")) && negb (bool_decide (GPUOffer.GPUType o = GPUType f))
  then false
  else if (0 <? MinVRAM f)%Z && (GPUOffer.VRAM o <? MinVRAM f)%Z then false
  else if fgtb (MaxPrice f) f0 && fgtb (GPUOffer.PricePerHour o) (MaxPrice f) then false
  else if negb (bool_decide (Location f = "")) && negb (Contains (GPUOffer.Location o) (Location f))
  then false
  else if fgtb (MinReliability f) f0 && fltb (GPUOffer.Reliability o) (MinReliability f) then false
  else if (0 <? MinGPUCount f)%Z && (GPUOffer.GPUCount o <? MinGPUCount f)%Z then false
  else if fgtb (MinAvailabilityConfidence f) f0 &&
          fltb (GPUOffer.AvailabilityConfidence o) (MinAvailabilityConfidence f) then false
  else if fgtb (MinCUDAVersion f) f0 && fltb (GPUOffer.CUDAVersion o) (MinCUDAVersion f)
  then false
  else true.

End OfferFilter.

(** What [SelectFromTopN] does: [nil], a pointer to an offer, or a run-time panic
    ([rand.IntN] panics on a bound that is not positive). *)
Inductive Selection :=
| SelNil
| SelOffer (o : GPUOffer.t)
| SelPanic.

(** The loop that counts the offers within the price tolerance and breaks at the
    first one beyond it. *)
Fixpoint count_within (maxPrice : f64) (offers : list GPUOffer.t) : Z :=
  match offers with
  | [] => 0
  | o :: offers' =>
      if fleb (GPUOffer.PricePerHour o) maxPrice then 1 + count_within maxPrice offers' else 0
  end.

(** [rand.IntN] is the argument [IntN]. *)
Definition SelectFromTopN (IntN : Z -> Z) (offers : list GPUOffer.t) (maxN : Z)
    (priceTolerance : f64) : Selection :=
  match offers with
  | [] => SelNil
  | [o] => SelOffer o
  | o :: _ =>
      let cheapest := GPUOffer.PricePerHour o in
      let maxPrice := fmul cheapest priceTolerance in
      let n := count_within maxPrice offers in
      let n := if (maxN <? n)%Z then maxN else n in
      if (n <=? 0)%Z then SelPanic
      else match offers !! Z.to_nat (IntN n) with
           | Some o => SelOffer o
           | None => SelPanic
           end
  end.

(** ** [tags.go] *)
Module InstanceTags.
Record t := mk {
  ShopperSessionID : string;
  ShopperDeploymentID : string;
  ShopperExpiresAt : time;
  ShopperConsumerID : string
}.

Definition ToLabel (tg : t) : string := "shopper-" +:+ ShopperSessionID tg.

(** [ParseLabel]: the session id and [ok]. *)
Definition ParseLabel (label : string) : string * bool :=
  let prefix := "shopper-" in
  if (String.length prefix <? String.length label) && HasPrefix label prefix
  then (drop_string (String.length prefix) label, true)
  else ("", false).

End InstanceTags.

(** ** [cost.go] *)
Module CostRecord.
Record t := mk {
  ID : string;
  SessionID : string;
  ConsumerID : string;
  Provider : string;
  GPUType : string;
  Hour : time;
  Amount : f64;
  Currency : string
}.
End CostRecord.

Module CostQuery.
Record t := mk {
  ConsumerID : string;
  SessionID : string;
  Provider : string;
  StartTime : time;
  EndTime : time
}.
End CostQuery.

Module CostSummary.
Record t := mk {
  ConsumerID : string;
  TotalCost : f64;
  SessionCount : Z;
  HoursUsed : Z;
  ByProvider : gmap string f64;
  ByGPUType : gmap string f64;
  PeriodStart : time;
  PeriodEnd : time
}.
End CostSummary.

Module Consumer.
Record t := mk {
  ID : string;
  Name : string;
  BudgetLimit : f64;
  CurrentSpend : f64;
  AlertSent : bool
}.
End Consumer.
