(* ===== verification/Errors.v ===== *)
(** The program's Go errors: the sentinel values, the typed errors of
    [internal/provider/errors.go], [internal/storage/errors.go],
    [internal/service/*/errors.go], wrapping by [fmt.Errorf("...: %w", err)], and
    the classification functions that inspect them. *)
From S2P Require Import Prelude GoFloat GoLib GoStrings Models.

(** [DiskEstimation] of [internal/service/provisioner/disk.go], which
    [InsufficientDiskError] carries. *)
Module DiskEstimation.
Record t := mk {
  ModelWeightGB : f64;
  DownloadBuffer : f64;
  DockerImageGB : f64;
  SystemOverhead : f64;
  MinimumGB : Z;
  RecommendedGB : Z;
  TemplateFloorGB : Z;
  ModelID : string;
  Quantization : string;
  ParamCount : f64
}.

Definition FormatBreakdown (e : t) : string :=
  Join
    ((if fgtb (ModelWeightGB e) f0
      then ["model weights: " +:+ fmt_fixed 1 (ModelWeightGB e) +:+ " GB"] else []) ++
     (if fgtb (DownloadBuffer e) f0
      then ["download buffer: " +:+ fmt_fixed 1 (DownloadBuffer e) +:+ " GB"] else []) ++
     ["docker image: " +:+ fmt_fixed 0 (DockerImageGB e) +:+ " GB"] ++
     ["system overhead: " +:+ fmt_fixed 0 (SystemOverhead e) +:+ " GB"] ++
     (if (0 <? TemplateFloorGB e)%Z
      then ["template recommendation: " +:+ Itoa (TemplateFloorGB e) +:+ " GB"] else []))
    ", ".
End DiskEstimation.

#[local] Set Warnings "-register-all".

(** A Go [error] value that is not [nil].  [EOpaque] is an error made by code
    outside the repository (the database driver, the network), known by its text;
    [EWrap p e] is [fmt.Errorf(p + ": %w", e)] and [ESuffix e s] is
    [fmt.Errorf("%w" + s, e)]. *)
Inductive error :=
(* storage *)
| ErrNotFound
| ErrAlreadyExists
(* provisioner's own sentinel of the same text *)
| ErrNotFound_provisioner
(* provider sentinels *)
| ErrProviderRateLimit
| ErrProviderAuth
| ErrInstanceNotFound
| ErrTemplateNotFound
| ErrOfferUnavailable
| ErrOfferStaleInventory
| ErrProviderError
| ErrInvalidResponse
| ErrBalanceNotSupported
(* the providers' packages; each has a circuit breaker of its own *)
| ErrCircuitOpen (provider : string)
| ErrInvalidInstanceID
| ErrInvalidSSHKey
(* typed errors *)
| ProviderError (Provider Operation : string) (StatusCode : Z) (Message : string)
    (Err : option error)
| ProviderNotFoundError (Name : string)
| SessionNotFoundError (ID : string)
| SessionTerminalError (ID : string) (Status : SessionStatus)
| HardMaxExceededError (SessionID : string) (CurrentDuration : duration)
    (RequestedHours HardMaxHours : Z)
| DestroyVerificationError (SessionID ProviderID : string) (Attempts : Z)
| DuplicateSessionError (ConsumerID OfferID SessionID Status : string)
| StaleInventoryError (OfferID Provider : string) (OriginalErr : error)
| InsufficientDiskError (RequestedGB MinimumGB RecommendedGB : Z)
    (Estimation : option DiskEstimation.t)
| OfferNotFoundError (ID : string)
| AllProvidersFailed (Errors : list error)
| ShutdownError (TotalSessions DestroyedSessions FailedSessions : Z)
(** a run-time panic that unwinds the calls above: they pass it on unread *)
| GoPanic (msg : string)
| EContext (msg : string)
| EOpaque (msg : string)
(** a [*strconv.NumError] of [Atoi] *)
| ENumError (num : string) (e : num_error)
| EWrap (prefix : string) (e : error)
| ESuffix (e : error) (suffix : string).

(** [fmt.Errorf("%w: " + s, e)]. *)
Abbreviation EDetail e s := (ESuffix e (": " +:+ s)).

(** [Duration.Hours()]. *)
Definition Hours (d : duration) : f64 :=
  fadd (f64_of_Z (Z.quot d Hour)) (fdiv (f64_of_Z (Z.rem d Hour)) (f64_of_Z Hour)).

(** [err.Error()]. *)
Fixpoint Error (e : error) : string :=
  match e with
  | ErrNotFound | ErrNotFound_provisioner => "record not found"
  | ErrAlreadyExists => "record already exists"
  | ErrProviderRateLimit => "provider rate limit exceeded"
  | ErrProviderAuth => "provider authentication failed"
  | ErrInstanceNotFound => "instance not found"
  | ErrTemplateNotFound => "template not found"
  | ErrOfferUnavailable => "offer no longer available"
  | ErrOfferStaleInventory =>
      "offer unavailable due to stale inventory - retry with different offer recommended"
  | ErrProviderError => "provider API error"
  | ErrInvalidResponse => "invalid provider response"
  | ErrBalanceNotSupported => "balance checking not supported by this provider"
  | ErrCircuitOpen _ => "circuit breaker is open"
  | ErrInvalidInstanceID => "invalid instance ID"
  | ErrInvalidSSHKey => "invalid SSH public key"
  | ProviderError p op code msg _ =>
      if (0 <? code)%Z
      then p +:+ " " +:+ op +:+ " failed (HTTP " +:+ Itoa code +:+ "): " +:+ msg
      else p +:+ " " +:+ op +:+ " failed: " +:+ msg
  | ProviderNotFoundError n => "provider not found: " +:+ n
  | SessionNotFoundError id => "session not found: " +:+ id
  | SessionTerminalError id st =>
      "session " +:+ id +:+ " is in terminal state: " +:+ status_string st
  | HardMaxExceededError id cur req hmax =>
      "extension would exceed " +:+ Itoa hmax +:+ "-hour hard max: session " +:+ id +:+
      " has been running for " +:+ fmt_fixed 1 (Hours cur) +:+ " hours, requested " +:+
      Itoa req +:+ " more hours"
  | DestroyVerificationError sid pid n =>
      "failed to verify destruction of session " +:+ sid +:+ " (provider: " +:+ pid +:+
      ") after " +:+ Itoa n +:+ " attempts"
  | DuplicateSessionError c o sid st =>
      "consumer " +:+ c +:+ " already has active session " +:+ sid +:+ " for offer " +:+ o +:+
      " (status: " +:+ st +:+ ")"
  | StaleInventoryError o p orig =>
      "offer " +:+ o +:+ " from " +:+ p +:+ " unavailable (stale inventory): " +:+ Error orig +:+
      " - consider retrying with a different offer"
  | InsufficientDiskError req mn rc est =>
      "insufficient disk space: " +:+ Itoa req +:+ " GB requested, minimum " +:+ Itoa mn +:+
      " GB required (recommended: " +:+ Itoa rc +:+ " GB)" +:+
      match est with
      | Some d => " — breakdown: " +:+ DiskEstimation.FormatBreakdown d
      | None => ""
      end
  | OfferNotFoundError id => "offer not found: " +:+ id
  | AllProvidersFailed errs => "all providers failed: " +:+ Join (map Error errs) "; "
  | ShutdownError _ _ _ => "graceful shutdown incomplete: failed to destroy some sessions"
  | GoPanic msg | EContext msg | EOpaque msg => msg
  | ENumError num e =>
      "strconv.Atoi: parsing " +:+ Quote num +:+ ": " +:+
      match e with ErrSyntax => "invalid syntax" | ErrRange => "value out of range" end
  | EWrap p e => p +:+ ": " +:+ Error e
  | ESuffix e s => Error e +:+ s
  end.

(** The [Unwrap] methods: the errors directly below. *)
Definition Unwrap (e : error) : list error :=
  match e with
  | ProviderError _ _ _ _ (Some e') => [e']
  | StaleInventoryError _ _ e' => [e']
  | AllProvidersFailed es => es
  | EWrap _ e' | ESuffix e' _ => [e']
  | _ => []
  end.

(** Some error of the tree under [e] satisfies [p]: the walk of [errors.Is] and
    [errors.As]. *)
Fixpoint error_exists (p : error -> bool) (e : error) : bool :=
  p e ||
  match e with
  | ProviderError _ _ _ _ (Some e') => error_exists p e'
  | StaleInventoryError _ _ e' => error_exists p e'
  | AllProvidersFailed es => existsb (error_exists p) es
  | EWrap _ e' | ESuffix e' _ => error_exists p e'
  | _ => false
  end.

(** The first [*ProviderError] of the chain, [errors.As(err, &pe)]. *)
Fixpoint As_ProviderError (e : error) : option (Z * error) :=
  match e with
  | ProviderError _ _ code _ _ => Some (code, e)
  | StaleInventoryError _ _ e' => As_ProviderError e'
  | AllProvidersFailed es =>
      fold_right (fun x acc => match As_ProviderError x with Some r => Some r | None => acc end)
        None es
  | EWrap _ e' | ESuffix e' _ => As_ProviderError e'
  | _ => None
  end.

Definition is_rate_limit (e : error) : bool := match e with ErrProviderRateLimit => true | _ => false end.
Definition is_auth (e : error) : bool := match e with ErrProviderAuth => true | _ => false end.
Definition is_instance_not_found (e : error) : bool :=
  match e with ErrInstanceNotFound => true | _ => false end.
Definition is_stale (e : error) : bool :=
  match e with ErrOfferStaleInventory => true | _ => false end.
Definition is_unavailable (e : error) : bool :=
  match e with ErrOfferUnavailable => true | _ => false end.
Definition is_not_found (e : error) : bool := match e with ErrNotFound => true | _ => false end.
Definition is_not_found_provisioner (e : error) : bool :=
  match e with ErrNotFound_provisioner => true | _ => false end.
Definition is_context (e : error) : bool := match e with EContext _ => true | _ => false end.
Definition is_circuit_open (provider : string) (e : error) : bool :=
  match e with ErrCircuitOpen p => bool_decide (p = provider) | _ => false end.
Definition is_already_exists (e : error) : bool :=
  match e with ErrAlreadyExists => true | _ => false end.

(** ** [internal/provider/errors.go] *)
Definition status_of (e : error) (test : Z -> bool) : bool :=
  match As_ProviderError e with Some (code, _) => test code | None => false end.

Definition IsRateLimitError (e : error) : bool :=
  if error_exists is_rate_limit e then true
  else status_of e (fun code => (code =? 429)%Z).

Definition IsAuthError (e : error) : bool :=
  if error_exists is_auth e then true
  else status_of e (fun code => (code =? 401)%Z || (code =? 403)%Z).

Definition IsNotFoundError (e : error) : bool :=
  if error_exists is_instance_not_found e then true
  else status_of e (fun code => (code =? 404)%Z).

Definition IsRetryable (e : error) : bool :=
  if IsRateLimitError e then true
  else status_of e (fun code => (500 <=? code)%Z && (code <? 600)%Z).

Definition IsStaleInventoryError (e : error) : bool :=
  if error_exists is_stale e then true
  else if error_exists is_unavailable e then true
  else false.

Definition ShouldRetryWithDifferentOffer (e : error) : bool := IsStaleInventoryError e.

(** [provisioner.IsRetryableWithDifferentOffer]. *)
Definition IsRetryableWithDifferentOffer (e : error) : bool :=
  error_exists (fun x => match x with StaleInventoryError _ _ _ => true | _ => false end) e.

(** ** [provisioner/service.go]: the texts of SSH errors and stop reasons *)
Definition classifySSHError (err : option error) : string :=
  match err with
  | None => "none"
  | Some e =>
      let errStr := Error e in
      let has := Contains errStr in
      if has "connection refused" then "connection_refused"
      else if has "i/o timeout" || has "connection timed out" || has "deadline exceeded"
      then "timeout"
      else if has "no route to host" || has "network is unreachable"
      then "network_unreachable"
      else if has "no such host" || has "lookup" then "dns_failed"
      else if has "SSH handshake failed" || has "unable to authenticate" ||
              has "permission denied"
      then "auth_failed"
      else if has "failed to parse private key" then "key_parse_failed"
      else if has "failed to create session" || has "verify command failed"
      then "command_failed"
      else if has "unexpected packet" then "connection_closed"
      else if has "EOF" then "connection_closed"
      else "unknown"
  end.

Definition classifyInstanceStopReason (status errorMsg : string) : string :=
  let base := "instance stopped unexpectedly: " +:+ status in
  let base := if bool_decide (errorMsg = "") then base
              else base +:+ " (" +:+ errorMsg +:+ ")" in
  let lower := ToLower (status +:+ " " +:+ errorMsg) in
  if Contains lower "loading"
  then base +:+ " — likely cause: image pull failed, disk full, or driver incompatibility"
  else if Contains lower "error"
  then base +:+ " — likely cause: runtime crash, OOM, or configuration error"
  else if Contains lower "exited"
  then base +:+ " — likely cause: entrypoint failed or OOM kill"
  else base.
