(* ===== verification/Interfaces.v ===== *)
(** What the services promise to one another.  Each Go interface is a class of
    state-passing operations over an arbitrary state [W] of the outside world
    (database, provider accounts, clock, metric registry); the laws a client may
    rely on are a class of their own, proved once for the SQLite-backed store and
    assumed by the services. *)
From S2P Require Import Prelude GoFloat GoLib FailureTracker Models Errors.

Abbreviation result := (res error).

(** A part of the state that one object owns. *)
Record lens (W S : Type) := mk_lens { view : W -> S; set : S -> W -> W }.
Arguments mk_lens {W S}.
Arguments view {W S}.
Arguments set {W S}.

Definition read {W S} (l : lens W S) : M W S := pure_state (view l).
Definition write {W S} (l : lens W S) (s : S) : M W unit := fun w => (tt, set l s w).

(** The order in which one [range] of Go visits the entries of a map. *)
Class MapRange := range_map : forall A, gmap string A -> list (string * A).
Class MapRangeLaws `{MapRange} : Prop :=
  range_map_perm : forall A (m : gmap string A), range_map A m ≡ₚ map_to_list m.

(** ** [internal/provider/interface.go] *)
Module WorkloadConfig.
Record t := mk {
  Type_ : string;
  ModelID : string;
  GPUMemoryUtil : f64;
  Quantization : string;
  MaxModelLen : Z;
  TensorParallel : Z
}.
End WorkloadConfig.

Module CreateInstanceRequest.
Record t := mk {
  OfferID : string;
  SessionID : string;
  SSHPublicKey : string;
  DockerImage : string;
  EnvVars : gmap string string;
  OnStartCmd : string;
  Tags : InstanceTags.t;
  LaunchMode : string;
  ExposedPorts : list Z;
  WorkloadConfig : option WorkloadConfig.t;
  TemplateHashID : string;
  BidPrice : f64;
  DiskGB : Z
}.
End CreateInstanceRequest.

Module InstanceInfo.
Record t := mk {
  ProviderInstanceID : string;
  SSHHost : string;
  SSHPort : Z;
  SSHUser : string;
  Status : string;
  ActualPricePerHour : f64;
  APIHost : string;
  APIPort : Z;
  APIPorts : gmap Z Z
}.
End InstanceInfo.

Module InstanceStatus.
Record t := mk {
  Status : string;
  Running : bool;
  StartedAt : time;
  Error : string;
  SSHHost : string;
  SSHPort : Z;
  SSHUser : string;
  PublicIP : string;
  Ports : gmap Z Z
}.
End InstanceStatus.

Module ProviderInstance.
Record t := mk {
  ID : string;
  Name : string;
  Status : string;
  StartedAt : time;
  Tags : InstanceTags.t;
  PricePerHour : f64
}.

Definition IsOurs (p : t) (deploymentID : string) : bool :=
  let tag := InstanceTags.ShopperDeploymentID (Tags p) in
  if bool_decide (tag = "") || bool_decide (deploymentID = "")
  then bool_decide (tag = deploymentID)
  else if (String.length tag <=? String.length deploymentID)
  then HasPrefix deploymentID tag
  else HasPrefix tag deploymentID.

(** [IsExpired], at the instant [now] that [time.Now] returns. *)
Definition IsExpired (p : t) (now : time) : bool :=
  negb (IsZero (InstanceTags.ShopperExpiresAt (Tags p))) &&
  After now (InstanceTags.ShopperExpiresAt (Tags p)).
End ProviderInstance.

Module AccountBalance.
Record t := mk { Balance : f64; Currency : string }.
End AccountBalance.

Module Provider.
Record t (W : Type) := mk {
  Name : string;
  ListOffers : OfferFilter.t -> M W (result (list GPUOffer.t));
  ListAllInstances : M W (result (list ProviderInstance.t));
  CreateInstance : CreateInstanceRequest.t -> M W (result InstanceInfo.t);
  DestroyInstance : string -> M W (option error);
  GetInstanceStatus : string -> M W (result InstanceStatus.t);
  (** [Some] when the provider also implements [BalanceProvider]. *)
  GetAccountBalance : option (M W (result AccountBalance.t))
}.
Arguments Name {W}.
Arguments ListOffers {W}.
Arguments ListAllInstances {W}.
Arguments CreateInstance {W}.
Arguments DestroyInstance {W}.
Arguments GetInstanceStatus {W}.
Arguments GetAccountBalance {W}.
End Provider.

(** [SimpleProviderRegistry] of [provisioner/registry.go]: a map from names. *)
Module Registry.
Definition t (W : Type) := gmap string (Provider.t W).

Definition NewSimpleProviderRegistry {W} (providers : list (Provider.t W)) : gmap string (Provider.t W) :=
  fold_left (fun r p => <[Provider.Name p := p]> r) providers ∅.

Definition Get {W} (r : gmap string (Provider.t W)) (name : string) : result (Provider.t W) :=
  match r !! name with
  | Some p => Ok p
  | None => Err (ProviderNotFoundError name)
  end.

Definition List {W} (r : gmap string (Provider.t W)) : list string := (map_to_list r).*1.
End Registry.

(** ** Effects other services observe

    Counter increments of a service's own [Metrics] struct, calls of the
    [internal/metrics] package (Prometheus), audit records and event-handler
    callbacks.  Log lines are not modelled. *)
Inductive Counter :=
| ChecksRun | SessionsExpired | HardMaxEnforced | OrphansDetected | DestroySuccesses
| DestroyFailures | SSHHealthChecksRun | SSHHealthChecksFailed | FailedDestroysRecovered
| ReconciliationsRun | OrphansFound | OrphansDestroyed | GhostsFound | GhostsFixed
| ReconcileErrors
| AggregationsRun | CostsRecorded | BudgetWarnings | BudgetExceeded | CostErrors.

#[export] Instance Counter_eq_dec : EqDecision Counter.
Proof. solve_decision. Defined.

Inductive Task :=
| VerifyAPI (sessionID provider : string)
| VerifySSH (sessionID privateKey provider : string) (timeout : duration)
    (req : CreateSessionRequest.t)
(** the inventory's background refresh of one cache entry *)
| RefreshOffers (provider : string) (filter : OfferFilter.t)
(** a write of the failure tracker to its store *)
| WriteFailureStore (t : StoreTask)
(** the last attempt of a shutdown to destroy an instance *)
| FireAndForget (sessionID provider providerID : string).

Inductive Effect :=
(** a goroutine started by the code *)
| Go (t : Task)
| Count (c : Counter)
| Prom (name : string) (labels : list string)
| Audit (operation : string) (subject : list string)
| OnSessionExpired (id : string)
| OnHardMaxReached (id : string)
| OnOrphanDetected (id : string)
| OnOrphanFound (provider instance session : string)
| OnGhostFound (id : string)
| OnReconcileError (provider : string) (e : error)
(** the startup manager's flag *)
| SweepComplete.

(** The clock, the context, random identifiers and the effect sinks. *)
Class Env (W : Type) := {
  (** the service's [now] function ([time.Now] in production) *)
  now : M W time;
  (** [time.Now] itself *)
  time_Now : M W time;
  (** [select { case <-time.After(d): case <-ctx.Done(): }]: [Some ctx.Err()] when
      the context ends first *)
  wait : duration -> M W (option error);
  new_uuid : M W string;
  emit : Effect -> M W unit
}.

(** ** The session store ([provisioner.SessionStore], [lifecycle.SessionStore],
       [lifecycle.ReconcileStore], [cost.SessionStore]) *)
Module SessionFilter.
Record t := mk {
  ConsumerID : string;
  Provider : string;
  Status : string;
  Statuses : list SessionStatus;
  ExpiresBeforeTime : time;
  HasProviderID : bool;
  Limit : Z
}.

Definition by_statuses (l : list SessionStatus) : t := mk "" "" "" l zero_time false 0.

(** The [WHERE] clause [ListInternal] builds. *)
Definition matches (f : t) (s : Session.t) : bool :=
  (bool_decide (ConsumerID f = "") || bool_decide (Session.ConsumerID s = ConsumerID f)) &&
  (bool_decide (Provider f = "") || bool_decide (Session.Provider s = Provider f)) &&
  (bool_decide (Status f = "") || bool_decide (status_string (Session.Status s) = Status f)) &&
  (bool_decide (Statuses f = []) || bool_decide (Session.Status s ∈ Statuses f)) &&
  (IsZero (ExpiresBeforeTime f) || Before (Session.ExpiresAt s) (ExpiresBeforeTime f)) &&
  (negb (HasProviderID f) || negb (bool_decide (Session.ProviderID s = ""))).
End SessionFilter.

Class SessionStore (W : Type) := {
  Create : Session.t -> M W (option error);
  Get : string -> M W (result Session.t);
  Update : Session.t -> M W (option error);
  ListInternal : SessionFilter.t -> M W (result (list Session.t));
  GetActiveSessionByConsumerAndOffer : string -> string -> M W (result Session.t)
}.

Section StoreQueries.
Context {W : Type} `{SessionStore W} `{Env W}.

Definition active_statuses : list SessionStatus :=
  [StatusPending; StatusProvisioning; StatusRunning].

Definition GetActiveSessions : M W (result (list Session.t)) :=
  ListInternal (SessionFilter.by_statuses active_statuses).

Definition GetActiveSessionsByProvider (provider : string) : M W (result (list Session.t)) :=
  ListInternal (SessionFilter.mk "" provider "" active_statuses zero_time false 0).

Definition GetExpiredSessions : M W (result (list Session.t)) :=
  let! t := time_Now in
  ListInternal (SessionFilter.mk "" "" "" [StatusRunning] t false 0).

Definition GetFailedSessionsWithInstances : M W (result (list Session.t)) :=
  ListInternal (SessionFilter.mk "" "" "" [StatusFailed] zero_time true 0).

Definition GetSessionsByStatus (statuses : list SessionStatus) : M W (result (list Session.t)) :=
  ListInternal (SessionFilter.by_statuses statuses).

Definition List (filter : SessionListFilter.t) : M W (result (list Session.t)) :=
  ListInternal
    (SessionFilter.mk (SessionListFilter.ConsumerID filter) (SessionListFilter.Provider filter)
       (SessionListFilter.Status filter) [] zero_time false (SessionListFilter.Limit filter)).
End StoreQueries.

(** What [Update] writes: the columns of its [UPDATE] statement, over the stored
    session [old]. *)
Definition updated_by (old s : Session.t) : Session.t :=
  let u := old in
  let u := Session.set_ProviderID (Session.ProviderID s) u in
  let u := Session.set_Status (Session.Status s) u in
  let u := Session.set_Error (Session.Error s) u in
  let u := Session.set_SSHHost (Session.SSHHost s) u in
  let u := Session.set_SSHPort (Session.SSHPort s) u in
  let u := Session.set_SSHUser (Session.SSHUser s) u in
  let u := Session.set_HardMaxOverride (Session.HardMaxOverride s) u in
  let u := Session.set_ReservationHrs (Session.ReservationHrs s) u in
  let u := Session.set_ExpiresAt (Session.ExpiresAt s) u in
  let u := Session.set_StoppedAt (Session.StoppedAt s) u in
  let u := Session.set_RetryCount (Session.RetryCount s) u in
  let u := Session.set_RetryChildID (Session.RetryChildID s) u in
  Session.set_FailedOffers (Session.FailedOffers s) u.

(** What a reader gets back of a created session: the fields that have no column
    come back as zero values. *)
Definition persisted (s : Session.t) : Session.t :=
  Session.mk (Session.ID s) (Session.ConsumerID s) (Session.Provider s) (Session.ProviderID s)
    (Session.OfferID s) (Session.GPUType s) (Session.GPUCount s) (Session.Status s)
    (Session.Error s) (Session.SSHHost s) (Session.SSHPort s) (Session.SSHUser s)
    "" (Session.SSHPublicKey s) "" "" 0 "" "" "" [] "" "" 0
    (Session.AutoRetry s) (Session.MaxRetries s) (Session.RetryScope s) (Session.RetryCount s)
    (Session.RetryParentID s) (Session.RetryChildID s) (Session.FailedOffers s)
    (Session.WorkloadType s) (Session.ReservationHrs s) (Session.HardMaxOverride s)
    (Session.IdleThreshold s) (Session.StoragePolicy s) (Session.PricePerHour s)
    (Session.CreatedAt s) (Session.ExpiresAt s) (Session.StoppedAt s).

(** ** The offer inventory ([provisioner.InventoryFinder]) *)
Module InventoryFinder.
Record t (W : Type) := mk {
  FindComparableOffers :
    GPUOffer.t -> string -> list string -> list string -> M W (result (list GPUOffer.t));
  GetOffer : string -> M W (result GPUOffer.t);
  (** offer, provider, GPU type, failure type, reason *)
  RecordOfferFailure : string -> string -> string -> string -> string -> M W unit;
  EvictOffer : string -> M W unit
}.
Arguments FindComparableOffers {W}.
Arguments GetOffer {W}.
Arguments RecordOfferFailure {W}.
Arguments EvictOffer {W}.
End InventoryFinder.

(** Key generation and randomness: [crypto/rsa] with [golang.org/x/crypto/ssh]
    (private key in PEM, public key in OpenSSH format), and the function one call of
    [rand.IntN] uses. *)
Class Random (W : Type) := {
  generateSSHKeyPair : M W (result (string * string));
  rand_IntN : M W (Z -> Z)
}.

(** ** Laws

    [sess_view] is the set of sessions a reader of the store can see, [clock] the
    present instant; both are for specifications only. *)
Class Ghost (W : Type) := {
  sess_view : W -> gmap string Session.t;
  clock : W -> time;
  (** the tables satisfy their constraints and no statement fails from here on *)
  healthy : W -> Prop
}.

Definition active_for (c o : string) (s : Session.t) : Prop :=
  Session.ConsumerID s = c /\ Session.OfferID s = o /\ Session.IsActive s = true.

(** At most one active session per consumer and offer. *)
Definition unique_active (v : gmap string Session.t) : Prop :=
  forall c o i j a b, v !! i = Some a -> v !! j = Some b ->
    active_for c o a -> active_for c o b -> i = j.

(** Time does not go back, and a healthy database stays healthy. *)
Definition later {W} `{Ghost W} (w w' : W) : Prop :=
  (clock w <= clock w')%Z /\ (healthy w -> healthy w').

#[export] Instance later_preorder {W} `{Ghost W} : PreOrder later.
Proof.
  split; [by split|]. intros u v w [? ?] [? ?]. split; [lia|auto].
Qed.

(** The stored sessions are the same. *)
Definition quiet {W} `{Ghost W} (w w' : W) : Prop :=
  sess_view w' = sess_view w /\ later w w'.

#[export] Instance quiet_preorder {W} `{Ghost W} : PreOrder quiet.
Proof.
  split; [by split|]. intros u v w [??] [??]. split; [congruence|by etrans].
Qed.

(** The operation leaves the stored sessions alone. *)
Definition frame {W A} `{Ghost W} (m : M W A) : Prop :=
  forall w, wp m (fun _ w' => quiet w w') w.

Class StoreLaws (W : Type) `{SessionStore W} `{Ghost W} : Prop := {
  view_id : forall w id s, sess_view w !! id = Some s -> Session.ID s = id;
  (** the fields that have no column read back as zero values *)
  view_stored : forall w id s, sess_view w !! id = Some s -> persisted s = s;
  view_unique : forall w, healthy w -> unique_active (sess_view w);
  Get_spec : forall id w,
    wp (Get id) (fun r w' =>
      quiet w w' /\
      match r with
      | Ok s => sess_view w !! id = Some s
      | Err e => (healthy w -> e = ErrNotFound) /\
                 (error_exists is_not_found e = true -> sess_view w !! id = None)
      end) w;
  Update_spec : forall s w,
    wp (Update s) (fun r w' =>
      later w w' /\
      match r with
      | None => exists old, sess_view w !! Session.ID s = Some old /\
                  sess_view w' = <[Session.ID s := updated_by old s]> (sess_view w)
      | Some _ => sess_view w' = sess_view w /\
          (healthy w -> forall old, sess_view w !! Session.ID s = Some old ->
           Session.IsActive old = false /\ Session.IsActive s = true)
      end) w;
  List_spec : forall f w,
    wp (ListInternal f) (fun r w' =>
      quiet w w' /\
      match r with
      | Ok l =>
          NoDup (Session.ID <$> l) /\
          (forall s, s ∈ l -> sess_view w !! Session.ID s = Some s /\
                         SessionFilter.matches f s = true) /\
          ((SessionFilter.Limit f <= 0)%Z ->
             forall id s, sess_view w !! id = Some s -> SessionFilter.matches f s = true -> s ∈ l)
      | Err _ => ~ healthy w
      end) w;
  Create_spec : forall s w,
    wp (Create s) (fun r w' =>
      later w w' /\
      match r with
      | None => sess_view w !! Session.ID s = None /\
                sess_view w' = <[Session.ID s := persisted s]> (sess_view w) /\
                (Session.IsActive s = true ->
                 forall id o, sess_view w !! id = Some o ->
                   ~ active_for (Session.ConsumerID s) (Session.OfferID s) o)
      | Some _ => sess_view w' = sess_view w
      end) w;
  GetActive_spec : forall c o w,
    wp (GetActiveSessionByConsumerAndOffer c o) (fun r w' =>
      quiet w w' /\
      match r with
      | Ok s => sess_view w !! Session.ID s = Some s /\ active_for c o s
      | Err e => (healthy w -> e = ErrNotFound) /\
                 (error_exists is_not_found e = true ->
                  forall id s, sess_view w !! id = Some s -> ~ active_for c o s)
      end) w
}.

Class EnvLaws (W : Type) `{Env W} `{Ghost W} : Prop := {
  now_spec : forall w,
    wp now (fun t w' => quiet w w' /\ (clock w <= t <= clock w')%Z) w;
  time_Now_spec : forall w,
    wp time_Now (fun t w' => quiet w w' /\ (clock w <= t <= clock w')%Z) w;
  wait_frame : forall d, frame (wait d);
  uuid_frame : frame new_uuid;
  emit_frame : forall e, frame (emit e)
}.

Class RandomLaws (W : Type) `{Random W} `{Ghost W} : Prop := {
  keys_frame : frame generateSSHKeyPair;
  IntN_spec : forall w,
    wp rand_IntN (fun f w' => quiet w w' /\ forall n, (0 < n)%Z -> (0 <= f n < n)%Z) w
}.

(** The inventory keeps its failure records apart from the sessions. *)
Class InventoryLaws (W : Type) `{Ghost W} (inv : InventoryFinder.t W) : Prop := {
  comparable_frame : forall o sc ids ms,
    frame (InventoryFinder.FindComparableOffers inv o sc ids ms);
  get_offer_frame : forall id, frame (InventoryFinder.GetOffer inv id);
  record_failure_frame : forall a b c d e,
    frame (InventoryFinder.RecordOfferFailure inv a b c d e);
  evict_frame : forall id, frame (InventoryFinder.EvictOffer inv id)
}.

(** The object keeps its part of the state apart from the sessions. *)
Class LensLaws {W S : Type} `{Ghost W} (l : lens W S) : Prop := {
  view_set : forall s w, view l (set l s w) = s;
  set_quiet : forall s w, quiet w (set l s w)
}.

(** The providers' operations do not touch the session database. *)
Class ProviderLaws (W : Type) `{Ghost W} (reg : gmap string (Provider.t W)) : Prop := {
  prov_frame : forall n p, reg !! n = Some p ->
    (forall f, frame (Provider.ListOffers p f)) /\
    frame (Provider.ListAllInstances p) /\
    (forall r, frame (Provider.CreateInstance p r)) /\
    (forall i, frame (Provider.DestroyInstance p i)) /\
    (forall i, frame (Provider.GetInstanceStatus p i)) /\
    (forall m, Provider.GetAccountBalance p = Some m -> frame m)
}.

(** ** Reasoning with the laws *)
Create HintDb frame.

Section Facts.
Context {W : Type} `{Ghost W}.

Lemma wp_frame {A} (m : M W A) (Q : A -> W -> Prop) w :
  frame m -> (forall a w', quiet w w' -> Q a w') -> wp m Q w.
Proof. intros Hm HQ. eapply wp_mono; [apply Hm|]. auto. Qed.

Lemma frame_ret {A} (a : A) : frame (ret a).
Proof. intros w. by apply wp_ret. Qed.

Lemma frame_bind {A B} (m : M W A) (k : A -> M W B) :
  frame m -> (forall a, frame (k a)) -> frame (bind m k).
Proof.
  intros Hm Hk w. apply wp_bind, wp_frame; [done|]. intros a v Hv.
  apply wp_frame; [apply Hk|]. intros ?? Hv'. by etrans.
Qed.

Lemma frame_read {S} (l : lens W S) : frame (read l).
Proof. intros w. unfold wp. cbn. reflexivity. Qed.

Lemma frame_write {S} (l : lens W S) `{!LensLaws l} s : frame (write l s).
Proof. intros w. apply set_quiet. Qed.

Lemma frame_when b (m : M W unit) : frame m -> frame (when b m).
Proof. intros Hm. destruct b; [done|apply frame_ret]. Qed.

Lemma frame_for_each {A} (l : list A) (body : A -> M W unit) :
  (forall x, x ∈ l -> frame (body x)) -> frame (for_each l body).
Proof.
  intros Hb w. apply (wp_for_each_inv (fun v => quiet w v)); [done|].
  intros x v Hx Hv. apply wp_frame; [by apply Hb|]. intros ?? Hv'. by etrans.
Qed.

(** Listed sessions of the same id are the same session. *)
Lemma listed_same (w : W) (l : list Session.t) s1 s :
  (forall s, s ∈ l -> sess_view w !! Session.ID s = Some s) ->
  s1 ∈ l -> sess_view w !! Session.ID s = Some s -> Session.ID s = Session.ID s1 -> s1 = s.
Proof. intros Hin Hs1%Hin Hs Heq. rewrite Heq in Hs. by simplify_eq. Qed.

Lemma listed_dec (w : W) (l : list Session.t) s :
  (forall s, s ∈ l -> sess_view w !! Session.ID s = Some s) ->
  sess_view w !! Session.ID s = Some s -> s ∈ l \/ s ∉ l.
Proof.
  intros Hin Hs. destruct (decide (Session.ID s ∈ Session.ID <$> l)) as [Hi|Hi].
  - left. apply list_elem_of_fmap in Hi as (s1 & Heq & Hs1).
    by rewrite <-(listed_same w l s1 s).
  - right. intros Hs1. apply Hi. by apply list_elem_of_fmap_2.
Qed.

(** A loop over distinct stored sessions whose body touches only its own session
    and relates its old and new value by [R]. *)
Lemma wp_for_each_session (R : Session.t -> Session.t -> Prop)
    (body : Session.t -> M W unit) (l : list Session.t) (w : W) :
  NoDup (Session.ID <$> l) ->
  (forall s, s ∈ l -> sess_view w !! Session.ID s = Some s) ->
  (forall s v, s ∈ l -> later w v -> sess_view v !! Session.ID s = Some s ->
     wp (body s) (fun _ v' =>
       later v v' /\
       (forall j, j <> Session.ID s -> sess_view v' !! j = sess_view v !! j) /\
       exists s', sess_view v' !! Session.ID s = Some s' /\ R s s') v) ->
  wp (for_each l body) (fun _ w' =>
    later w w' /\
    (forall s, s ∈ l -> exists s', sess_view w' !! Session.ID s = Some s' /\ R s s') /\
    (forall s, sess_view w !! Session.ID s = Some s -> s ∉ l ->
       sess_view w' !! Session.ID s = Some s)) w.
Proof.
  intros Hnd Hin Hbody.
  eapply (wp_mono _ (fun _ v =>
    later w v /\
    (forall s, s ∈ l -> exists s', sess_view v !! Session.ID s = Some s' /\ R s s') /\
    (forall j, j ∉ Session.ID <$> l -> sess_view v !! j = sess_view w !! j))).
  2: { intros _ v (Hl & Hdone & Hrest). split_and!; [done..|]. intros s Hs Hn.
    rewrite Hrest; [done|]. intros (s1 & Heq & Hs1)%list_elem_of_fmap. apply Hn.
    by rewrite <-(listed_same w l s1 s). }
  apply (wp_for_each (fun pre v =>
    later w v /\
    (forall s, s ∈ pre -> exists s', sess_view v !! Session.ID s = Some s' /\ R s s') /\
    (forall j, j ∉ Session.ID <$> pre -> sess_view v !! j = sess_view w !! j))).
  { split_and!; [done|set_solver|done]. }
  intros pre x post v -> (Hl & Hpre & Hrest).
  rewrite fmap_app, fmap_cons, NoDup_app, NoDup_cons in Hnd.
  destruct Hnd as (_ & Hdis & Hx & _).
  assert (Session.ID x ∉ Session.ID <$> pre) as Hxpre.
  { intros Hx'. apply (Hdis _ Hx'). by left. }
  eapply wp_mono; [apply Hbody; [set_solver|done|]|].
  { rewrite Hrest by done. apply Hin. set_solver. }
  intros _ v' (Hl' & Hother & Hself). split_and!; [by etrans| |].
  - intros s [Hs| ->%list_elem_of_singleton]%elem_of_app; [|done].
    rewrite Hother; [by apply Hpre|]. intros Heq. apply Hxpre. rewrite <-Heq.
    by apply list_elem_of_fmap_2.
  - intros j. rewrite fmap_app, elem_of_app. intros Hj.
    rewrite Hother; [apply Hrest; tauto|]. intros ->. apply Hj. right. by left.
Qed.
End Facts.

#[export] Hint Resolve frame_ret frame_bind frame_for_each : frame.
#[export] Hint Resolve emit_frame wait_frame uuid_frame : frame.

(** Pass the quiet operations at the head of a computation: [Hq] relates the state
    before the first to the state after the last. *)
Lemma wp_quiet_seq {W A B} `{Ghost W} (w0 : W) (m : M W A) (k : A -> M W B) Q w :
  frame m -> quiet w0 w -> (forall a v, quiet w0 v -> wp (k a) Q v) -> wp (bind m k) Q w.
Proof.
  intros Hm Hw Hk. apply wp_bind, wp_frame; [done|]. intros a v Hv. apply Hk. by etrans.
Qed.

Ltac wp_emit :=
  match goal with
  | |- wp _ _ ?w0 =>
      let Hq := fresh "Hq" in
      assert (quiet w0 w0) as Hq by reflexivity;
      repeat (eapply (wp_quiet_seq w0); [by eauto with frame|exact Hq|];
              clear Hq; intros ? ?v Hq)
  end.

Section Queries.
Context {W : Type} `{SessionStore W} `{Env W} `{Ghost W} `{!StoreLaws W} `{!EnvLaws W}.

(** What a query by statuses returns. *)
Lemma wp_by_statuses (l : list SessionStatus) (Q : result (list Session.t) -> W -> Prop) w :
  l <> [] ->
  (forall e w', quiet w w' -> ~ healthy w -> Q (Err e) w') ->
  (forall ss w', quiet w w' -> NoDup (Session.ID <$> ss) ->
     (forall s, s ∈ ss <-> sess_view w !! Session.ID s = Some s /\ Session.Status s ∈ l) ->
     Q (Ok ss) w') ->
  wp (GetSessionsByStatus l) Q w.
Proof.
  intros Hl He Ho. eapply wp_mono; [apply List_spec|].
  intros [ss|e] w' (Hq & Hr); [|by apply He].
  destruct Hr as (Hnd & Hs & Hc). apply Ho; [done|done|]. intros s.
  assert (SessionFilter.matches (SessionFilter.by_statuses l) s =
          bool_decide (Session.Status s ∈ l)) as Hm.
  { unfold SessionFilter.matches, SessionFilter.by_statuses. cbn.
    by rewrite (bool_decide_false (l = [])), !andb_true_r by done. }
  split.
  - intros [Hv Hm']%Hs. rewrite Hm, bool_decide_eq_true in Hm'. done.
  - intros [Hv Hin]. eapply Hc; [done|done|]. by rewrite Hm, bool_decide_eq_true.
Qed.

(** The write at the end of an operation on the session [s] just read. *)
Lemma wp_write_back s s' (Q : option error -> W -> Prop) w :
  sess_view w !! Session.ID s = Some s -> Session.ID s' = Session.ID s ->
  (forall w', later w w' -> sess_view w' = <[Session.ID s := updated_by s s']> (sess_view w) ->
     Q None w') ->
  (forall e w', later w w' -> sess_view w' = sess_view w ->
     (healthy w -> Session.IsActive s = false /\ Session.IsActive s' = true) -> Q (Some e) w') ->
  wp (Update s') Q w.
Proof.
  intros Hs Hid Hok Herr. eapply wp_mono; [apply Update_spec|]. rewrite Hid.
  intros [e|] w' (Hl & Hr).
  - destruct Hr as [Hv Hh]. apply Herr; [done|done|]. intros Hw.
    by apply (Hh Hw).
  - destruct Hr as (old & Hold & Hv). rewrite Hs in Hold. injection Hold as <-. by apply Hok.
Qed.
End Queries.

(** ** Computations that only touch sessions of their own making *)

(** Every session stored before is still stored, unchanged. *)
Definition grows {W} `{Ghost W} (w w' : W) : Prop :=
  later w w' /\ forall j x, sess_view w !! j = Some x -> sess_view w' !! j = Some x.

#[export] Instance grows_preorder {W} `{Ghost W} : PreOrder grows.
Proof.
  split; [split; [done|auto]|]. intros u v w [? Huv] [? Hvw]. split; [by etrans|auto].
Qed.

Lemma quiet_grows {W} `{Ghost W} (w w' : W) : quiet w w' -> grows w w'.
Proof. intros [Hv Hl]. split; [done|]. by rewrite Hv. Qed.

(** ** The calls of [DestroyInstance], for specifications *)
Class CallLog (W : Type) := destroy_calls : W -> gset string.

Definition silent {W A} `{CallLog W} (m : M W A) : Prop :=
  forall w, wp m (fun _ w' => destroy_calls w' = destroy_calls w) w.

Class CallLogLaws (W : Type) `{CallLog W} `{SessionStore W} `{Env W}
    (registry : gmap string (Provider.t W)) : Prop := {
  list_silent : forall f, silent (ListInternal f);
  update_silent : forall s, silent (Update s);
  now_silent : silent now;
  emit_silent : forall e, silent (emit e);
  instances_silent : forall n p, registry !! n = Some p -> silent (Provider.ListAllInstances p);
  destroy_logged : forall n p, registry !! n = Some p -> forall i w,
    wp (Provider.DestroyInstance p i) (fun _ w' => destroy_calls w' = {[i]} ∪ destroy_calls w) w
}.

(** Nor does a read of a session, or a wait, or a question about an instance. *)
Class DestroySilent (W : Type) `{CallLog W} `{SessionStore W} `{Env W} : Prop := {
  get_silent : forall id, silent (Get id);
  wait_silent : forall d, silent (wait d)
}.
Class StatusSilent (W : Type) `{CallLog W} (registry : gmap string (Provider.t W)) : Prop :=
  status_silent : forall n p, registry !! n = Some p -> forall i, silent (Provider.GetInstanceStatus p i).

Lemma silent_ret {W A} `{CallLog W} (a : A) : silent (ret a).
Proof. intros w. by apply wp_ret. Qed.
Lemma silent_bind {W A B} `{CallLog W} (m : M W A) (k : A -> M W B) :
  silent m -> (forall a, silent (k a)) -> silent (bind m k).
Proof.
  intros Hm Hk w. apply wp_bind. eapply wp_mono; [apply Hm|]. intros a v Hv.
  eapply wp_mono; [apply Hk|]. intros b v' Hv'. congruence.
Qed.

(** ** The cost store ([cost.CostStore]) *)
Class CostStore (W : Type) := {
  Record_cost : CostRecord.t -> M W (option error);
  RecordHourlyForSession : Session.t -> M W (option error);
  GetSessionCost : string -> M W (result f64);
  GetConsumerCost : string -> time -> time -> M W (result f64);
  GetSummary : CostQuery.t -> M W (result CostSummary.t)
}.

(** What a cost row says besides its identifier and its key. *)
Definition cost_entry : Type := string * string * string * f64 * string.

Definition entry_of (r : CostRecord.t) : cost_entry :=
  (CostRecord.ConsumerID r, CostRecord.Provider r, CostRecord.GPUType r,
   CostRecord.Amount r, CostRecord.Currency r).

(** The row of one hour of a session. *)
Definition hourly (s : Session.t) : cost_entry :=
  (Session.ConsumerID s, Session.Provider s, Session.GPUType s, Session.PricePerHour s, "USD").

(** The cost rows by session and hour, for specifications. *)
Class Bill (W : Type) := bill : W -> gmap (string * time) cost_entry.

Class CostStoreLaws (W : Type) `{CostStore W} `{SessionStore W} `{Env W} `{Ghost W} `{Bill W} : Prop := {
  Record_spec : forall r w,
    wp (Record_cost r) (fun e w' => quiet w w' /\
      bill w' = match e with
                | None => <[(CostRecord.SessionID r, CostRecord.Hour r) := entry_of r]> (bill w)
                | Some _ => bill w
                end) w;
  RecordHourly_spec : forall s w,
    wp (RecordHourlyForSession s) (fun e w' => quiet w w' /\
      exists t, (clock w <= t <= clock w')%Z /\
      bill w' = match e with
                | None => <[(Session.ID s, Truncate t GoLib.Hour) := hourly s]> (bill w)
                | Some _ => bill w
                end) w;
  list_bill : forall f w, wp (ListInternal f) (fun _ w' => bill w' = bill w) w;
  now_bill : forall w, wp now (fun _ w' => bill w' = bill w) w;
  emit_bill : forall e w, wp (emit e) (fun _ w' => bill w' = bill w) w;
  session_cost_frame : forall id, frame (GetSessionCost id);
  summary_frame : forall q, frame (GetSummary q)
}.
