(* ===== verification/Database.v ===== *)
(** The SQLite database of [internal/storage/db.go]: its tables as the
    migrations create them, and the execution of one SQL statement.  The engine is
    a third-party package: a statement either fails with a driver error and
    changes nothing, or takes effect as the SQL says.  Which statements fail is
    an input, [faults]: the driver's answers to the next statements. *)
From S2P Require Import Prelude GoFloat GoLib Models Errors Interfaces.

(** The columns of table [sessions] other than its primary key [id]; a nullable
    column is an [option]. *)
Module SessionRow.
Record t := mk {
  consumer_id : string;
  provider : string;
  provider_instance_id : option string;
  offer_id : string;
  gpu_type : string;
  gpu_count : Z;
  status : SessionStatus;
  error : option string;
  ssh_host : option string;
  ssh_port : option Z;
  ssh_user : option string;
  ssh_public_key : option string;
  workload_type : string;
  reservation_hours : Z;
  hard_max_override : bool;
  idle_threshold_minutes : Z;
  storage_policy : string;
  price_per_hour : f64;
  created_at : time;
  expires_at : time;
  stopped_at : option time;
  auto_retry : bool;
  max_retries : Z;
  retry_scope : option string;
  retry_count : Z;
  retry_parent_id : option string;
  retry_child_id : option string;
  failed_offers : option string
}.
End SessionRow.

(** Table [offer_failures] (without its row number). *)
Module FailureRow.
Record t := mk {
  offer_id : string;
  provider : string;
  gpu_type : string;
  failure_type : string;
  reason : string;
  created_at : time
}.
End FailureRow.

(** Table [offer_suppressions] other than its primary key [offer_id]. *)
Module SuppressionRow.
Record t := mk { provider : string; gpu_type : string; suppressed_at : time }.
End SuppressionRow.

Module DB.
Record t := mk {
  sessions : gmap string SessionRow.t;
  costs : list CostRecord.t;
  offer_failures : list FailureRow.t;
  offer_suppressions : gmap string SuppressionRow.t;
  faults : list (option string)
}.

Definition set_sessions (v : gmap string SessionRow.t) (d : t) : t :=
  mk v (costs d) (offer_failures d) (offer_suppressions d) (faults d).
Definition set_costs (v : list CostRecord.t) (d : t) : t :=
  mk (sessions d) v (offer_failures d) (offer_suppressions d) (faults d).
Definition set_offer_failures (v : list FailureRow.t) (d : t) : t :=
  mk (sessions d) (costs d) v (offer_suppressions d) (faults d).
Definition set_offer_suppressions (v : gmap string SuppressionRow.t) (d : t) : t :=
  mk (sessions d) (costs d) (offer_failures d) v (faults d).
Definition pop_fault (d : t) : t :=
  mk (sessions d) (costs d) (offer_failures d) (offer_suppressions d) (tail (faults d)).
End DB.

(** The state holds a database. *)
Class HasDB (W : Type) := {
  get_db : W -> DB.t;
  set_db : DB.t -> W -> W;
  (** the present instant, for specifications *)
  db_clock : W -> time
}.

Class HasDBLaws (W : Type) `{HasDB W} : Prop := {
  get_set_db : forall d w, get_db (set_db d w) = d;
  set_set_db : forall d d' w, set_db d (set_db d' w) = set_db d w;
  clock_set_db : forall d w, db_clock (set_db d w) = db_clock w
}.

(** One statement: [stmt] computes its result and the new tables. *)
Definition sql {W A} `{HasDB W} (stmt : DB.t -> result A * DB.t) : M W (result A) :=
  fun w =>
    let d := get_db w in
    match head (DB.faults d) with
    | Some (Some msg) => (Err (EOpaque msg), set_db (DB.pop_fault d) w)
    | _ => let (r, d') := stmt (DB.pop_fault d) in (r, set_db d' w)
    end.

Section SQL.
Context {W : Type} `{HasDB W} `{!HasDBLaws W}.

(** Case analysis on a statement: a driver error with unchanged tables, or the
    statement's own effect. *)
Lemma wp_sql {A} (stmt : DB.t -> result A * DB.t) (Q : result A -> W -> Prop) w :
  (forall msg, DB.faults (get_db w) <> [] ->
     Q (Err (EOpaque msg)) (set_db (DB.pop_fault (get_db w)) w)) ->
  Q (fst (stmt (DB.pop_fault (get_db w))))
    (set_db (snd (stmt (DB.pop_fault (get_db w)))) w) ->
  wp (sql stmt) Q w.
Proof.
  intros Hf Ho. unfold wp, sql.
  destruct (DB.faults (get_db w)) as [|[msg|] l]; cbn; [|by apply Hf|];
    by destruct (stmt (DB.pop_fault (get_db w))).
Qed.
End SQL.
