(* ===== verification/SessionTable.v ===== *)
(** [internal/storage/sessions.go]: the session store over the database, and the
    proof that it keeps the laws of [Interfaces.StoreLaws] its clients rely on. *)
From S2P Require Import Prelude GoFloat GoLib Models Errors Interfaces Database.

(** The driver's messages for the two uniqueness violations of [sessions]. *)
Class Driver := {
  text_unique_id : string;
  text_unique_active : string
}.

(** [nullTime]. *)
Definition nullTime (t : time) : option time := if IsZero t then None else Some t.

(** The parameters of the [INSERT] of [Create], in column order. *)
Definition insert_row (s : Session.t) : SessionRow.t :=
  SessionRow.mk (Session.ConsumerID s) (Session.Provider s) (Some (Session.ProviderID s))
    (Session.OfferID s) (Session.GPUType s) (Session.GPUCount s) (Session.Status s)
    (Some (Session.Error s)) (Some (Session.SSHHost s)) (Some (Session.SSHPort s))
    (Some (Session.SSHUser s)) (Some (Session.SSHPublicKey s)) (Session.WorkloadType s)
    (Session.ReservationHrs s) (Session.HardMaxOverride s) (Session.IdleThreshold s)
    (Session.StoragePolicy s) (Session.PricePerHour s) (Session.CreatedAt s)
    (Session.ExpiresAt s) (nullTime (Session.StoppedAt s)) (Session.AutoRetry s)
    (Session.MaxRetries s) (Some (Session.RetryScope s)) (Session.RetryCount s)
    (Some (Session.RetryParentID s)) (Some (Session.RetryChildID s))
    (Some (Session.FailedOffers s)).

(** [scanSession]: a fresh [Session] with the columns read; NULL reads as the zero
    value and the fields that have no column keep their zero value. *)
Definition scanSession (id : string) (r : SessionRow.t) : Session.t :=
  let str := default "" in
  Session.mk id (SessionRow.consumer_id r) (SessionRow.provider r)
    (str (SessionRow.provider_instance_id r)) (SessionRow.offer_id r) (SessionRow.gpu_type r)
    (SessionRow.gpu_count r) (SessionRow.status r) (str (SessionRow.error r))
    (str (SessionRow.ssh_host r)) (default 0%Z (SessionRow.ssh_port r))
    (str (SessionRow.ssh_user r)) "" (str (SessionRow.ssh_public_key r))
    "" "" 0 "" "" "" [] "" "" 0
    (SessionRow.auto_retry r) (SessionRow.max_retries r) (str (SessionRow.retry_scope r))
    (SessionRow.retry_count r) (str (SessionRow.retry_parent_id r))
    (str (SessionRow.retry_child_id r)) (str (SessionRow.failed_offers r))
    (SessionRow.workload_type r) (SessionRow.reservation_hours r)
    (SessionRow.hard_max_override r) (SessionRow.idle_threshold_minutes r)
    (SessionRow.storage_policy r) (SessionRow.price_per_hour r) (SessionRow.created_at r)
    (SessionRow.expires_at r) (default zero_time (SessionRow.stopped_at r)).

(** The [SET] list of the [UPDATE] of [Update]. *)
Definition update_row (r : SessionRow.t) (s : Session.t) : SessionRow.t :=
  SessionRow.mk (SessionRow.consumer_id r) (SessionRow.provider r)
    (Some (Session.ProviderID s)) (SessionRow.offer_id r) (SessionRow.gpu_type r)
    (SessionRow.gpu_count r) (Session.Status s) (Some (Session.Error s))
    (Some (Session.SSHHost s)) (Some (Session.SSHPort s)) (Some (Session.SSHUser s))
    (SessionRow.ssh_public_key r) (SessionRow.workload_type r) (Session.ReservationHrs s)
    (Session.HardMaxOverride s) (SessionRow.idle_threshold_minutes r)
    (SessionRow.storage_policy r) (SessionRow.price_per_hour r) (SessionRow.created_at r)
    (Session.ExpiresAt s) (nullTime (Session.StoppedAt s)) (SessionRow.auto_retry r)
    (SessionRow.max_retries r) (SessionRow.retry_scope r) (Session.RetryCount s)
    (SessionRow.retry_parent_id r) (Some (Session.RetryChildID s))
    (Some (Session.FailedOffers s)).

(** The predicate of the partial unique index [idx_sessions_consumer_offer_active]. *)
Definition in_active_index (r : SessionRow.t) : bool :=
  bool_decide (SessionRow.status r ∈ active_statuses).

(** Another row than [id] holds the index key of [r]. *)
Definition active_key_taken (tbl : gmap string SessionRow.t) (id : string) (r : SessionRow.t)
    : bool :=
  in_active_index r &&
  existsb (fun '(id', r') =>
      negb (bool_decide (id' = id)) && in_active_index r' &&
      bool_decide (SessionRow.consumer_id r' = SessionRow.consumer_id r) &&
      bool_decide (SessionRow.offer_id r' = SessionRow.offer_id r))
    (map_to_list tbl).

(** The [WHERE] clause of [ListInternal] on a row; a comparison with NULL is not
    true. *)
Definition where_clause (f : SessionFilter.t) (r : SessionRow.t) : bool :=
  (bool_decide (SessionFilter.ConsumerID f = "") ||
   bool_decide (SessionRow.consumer_id r = SessionFilter.ConsumerID f)) &&
  (bool_decide (SessionFilter.Provider f = "") ||
   bool_decide (SessionRow.provider r = SessionFilter.Provider f)) &&
  (bool_decide (SessionFilter.Status f = "") ||
   bool_decide (status_string (SessionRow.status r) = SessionFilter.Status f)) &&
  (bool_decide (SessionFilter.Statuses f = []) ||
   bool_decide (SessionRow.status r ∈ SessionFilter.Statuses f)) &&
  (IsZero (SessionFilter.ExpiresBeforeTime f) ||
   Before (SessionRow.expires_at r) (SessionFilter.ExpiresBeforeTime f)) &&
  (negb (SessionFilter.HasProviderID f) ||
   match SessionRow.provider_instance_id r with
   | Some p => negb (bool_decide (p = ""))
   | None => false
   end).

(** [ORDER BY created_at DESC] (rows created at the same instant: in some order). *)
Definition newer_first (a b : Session.t) : Prop :=
  (Session.CreatedAt b <= Session.CreatedAt a)%Z.
#[export] Instance newer_first_dec : RelDecision newer_first.
Proof. intros a b. unfold newer_first. apply _. Defined.

Definition select (p : SessionRow.t -> bool) (tbl : gmap string SessionRow.t) : list Session.t :=
  merge_sort newer_first
    ((fun '(id, r) => scanSession id r) <$>
     List.filter (fun '(_, r) => p r) (map_to_list tbl)).

(** [LIMIT n], added when [n > 0]. *)
Definition limit (n : Z) (l : list Session.t) : list Session.t :=
  if (0 <? n)%Z then take (Z.to_nat n) l else l.

Section SessionTable.
Context {W : Type} `{HasDB W} `{Driver}.

Definition insert_stmt (s : Session.t) (d : DB.t) : result unit * DB.t :=
  let tbl := DB.sessions d in
  let r := insert_row s in
  if bool_decide (is_Some (tbl !! Session.ID s)) then (Err (EOpaque text_unique_id), d)
  else if active_key_taken tbl (Session.ID s) r then (Err (EOpaque text_unique_active), d)
  else (Ok tt, DB.set_sessions (<[Session.ID s := r]> tbl) d).

(** [SessionStore.Create]. *)
Definition table_Create (s : Session.t) : M W (option error) :=
  let! r := sql (insert_stmt s) in
  ret match r with
      | Ok _ => None
      | Err e =>
          if Contains (Error e) "UNIQUE constraint failed" &&
             Contains (Error e) "idx_sessions_consumer_offer_active"
          then Some ErrAlreadyExists
          else Some (EWrap "failed to create session" e)
      end.

(** [SessionStore.Get]; no row is [sql.ErrNoRows]. *)
Definition table_Get (id : string) : M W (result Session.t) :=
  let! r := sql (fun d => (Ok (DB.sessions d !! id), d)) in
  ret match r with
      | Ok (Some row) => Ok (scanSession id row)
      | Ok None => Err ErrNotFound
      | Err e => Err (EWrap "failed to get session" e)
      end.

(** The [UPDATE] and its number of affected rows. *)
Definition update_stmt (s : Session.t) (d : DB.t) : result Z * DB.t :=
  let tbl := DB.sessions d in
  match tbl !! Session.ID s with
  | None => (Ok 0%Z, d)
  | Some r =>
      let r' := update_row r s in
      if active_key_taken tbl (Session.ID s) r'
      then (Err (EOpaque text_unique_active), d)
      else (Ok 1%Z, DB.set_sessions (<[Session.ID s := r']> tbl) d)
  end.

(** [SessionStore.Update]. *)
Definition table_Update (s : Session.t) : M W (option error) :=
  let! r := sql (update_stmt s) in
  ret match r with
      | Ok rows => if (rows =? 0)%Z then Some ErrNotFound else None
      | Err e => Some (EWrap "failed to update session" e)
      end.

(** [SessionStore.ListInternal]. *)
Definition table_ListInternal (f : SessionFilter.t) : M W (result (list Session.t)) :=
  let! r := sql (fun d =>
    (Ok (limit (SessionFilter.Limit f) (select (where_clause f) (DB.sessions d))), d)) in
  ret match r with
      | Ok l => Ok l
      | Err e => Err (EWrap "failed to list sessions" e)
      end.

(** [SessionStore.GetActiveSessionByConsumerAndOffer]. *)
Definition table_GetActive (consumerID offerID : string) : M W (result Session.t) :=
  let! r := sql (fun d =>
    (Ok (head (select (fun r => bool_decide (SessionRow.consumer_id r = consumerID) &&
                                bool_decide (SessionRow.offer_id r = offerID) &&
                                in_active_index r) (DB.sessions d))), d)) in
  ret match r with
      | Ok (Some s) => Ok s
      | Ok None => Err ErrNotFound
      | Err e => Err (EWrap "failed to get active session" e)
      end.

#[export] Instance table_store : SessionStore W := {
  Create := table_Create;
  Get := table_Get;
  Update := table_Update;
  ListInternal := table_ListInternal;
  GetActiveSessionByConsumerAndOffer := table_GetActive
}.
End SessionTable.

(** ** Rows and sessions *)
Section Rows.
Lemma nullTime_default t : default zero_time (nullTime t) = t.
Proof.
  unfold nullTime, IsZero. destruct (Z.eqb_spec t 0); [by subst|done].
Qed.

Lemma scan_insert s : scanSession (Session.ID s) (insert_row s) = persisted s.
Proof. unfold scanSession, persisted. cbn. by rewrite nullTime_default. Qed.

Lemma scan_update id r s : scanSession id (update_row r s) = updated_by (scanSession id r) s.
Proof. unfold scanSession, updated_by. cbn. by rewrite nullTime_default. Qed.

Lemma where_matches f id r : where_clause f r = SessionFilter.matches f (scanSession id r).
Proof.
  unfold where_clause, SessionFilter.matches. cbn.
  do 2 f_equal. destruct (SessionRow.provider_instance_id r); [done|].
  by rewrite bool_decide_true.
Qed.

Lemma in_active_index_scan id r : in_active_index r = Session.IsActive (scanSession id r).
Proof.
  unfold in_active_index, Session.IsActive, active_statuses. cbn.
  by destruct (SessionRow.status r).
Qed.

Lemma elem_of_filter_pair (p : SessionRow.t -> bool) (tbl : gmap string SessionRow.t) id r :
  (id, r) ∈ List.filter (fun '(_, r) => p r) (map_to_list tbl) <->
  tbl !! id = Some r /\ p r = true.
Proof.
  rewrite list_elem_of_In, filter_In, <-list_elem_of_In, elem_of_map_to_list. done.
Qed.

Lemma elem_of_select p tbl s :
  s ∈ select p tbl <->
  exists r, tbl !! Session.ID s = Some r /\ p r = true /\ s = scanSession (Session.ID s) r.
Proof.
  unfold select. rewrite merge_sort_Permutation, list_elem_of_fmap. split.
  - intros ([id r] & -> & [Hr Hp]%elem_of_filter_pair). by exists r.
  - intros (r & Hr & Hp & Hs). exists (Session.ID s, r).
    by rewrite elem_of_filter_pair.
Qed.

Lemma NoDup_select p tbl : NoDup (Session.ID <$> select p tbl).
Proof.
  unfold select. rewrite merge_sort_Permutation, <-list_fmap_compose.
  assert (forall l : list (string * SessionRow.t), NoDup l.*1 ->
    NoDup ((Session.ID ∘ (fun '(id, r) => scanSession id r)) <$>
           List.filter (fun '(_, r) => p r) l)) as H; [|apply H, NoDup_fst_map_to_list].
  induction l as [|[id r] l IH]; cbn; [by constructor|].
  rewrite NoDup_cons. intros [Hid Hl]. destruct (p r); cbn; [|by auto].
  rewrite NoDup_cons. split; [|by auto].
  intros ([id' r'] & -> & Hin)%list_elem_of_fmap. apply Hid. cbn.
  rewrite list_elem_of_In, filter_In, <-list_elem_of_In in Hin. destruct Hin as [Hin _].
  apply list_elem_of_fmap. by exists (id', r').
Qed.

Lemma active_key_free tbl id r :
  active_key_taken tbl id r = false -> in_active_index r = true ->
  forall id' r', tbl !! id' = Some r' -> id' <> id -> in_active_index r' = true ->
    ~ (SessionRow.consumer_id r' = SessionRow.consumer_id r /\
       SessionRow.offer_id r' = SessionRow.offer_id r).
Proof.
  unfold active_key_taken. intros Ht Hr id' r' Hr' Hne Ha [Hc Ho]. rewrite Hr in Ht. cbn in Ht.
  apply not_true_iff_false in Ht. apply Ht, existsb_exists. exists (id', r').
  rewrite <-list_elem_of_In, elem_of_map_to_list. split; [done|].
  rewrite Ha, (bool_decide_false _ Hne), !bool_decide_true by done. done.
Qed.
End Rows.

(** ** The store keeps its laws *)
Section Laws.
Context {W : Type} `{HDB : HasDB W} `{!HasDBLaws W} `{Driver}.

#[export] Instance table_ghost : Ghost W := {
  sess_view := fun w => map_imap (fun id r => Some (scanSession id r)) (DB.sessions (get_db w));
  clock := db_clock;
  healthy := fun w => DB.faults (get_db w) = [] /\
    unique_active (map_imap (fun id r => Some (scanSession id r)) (DB.sessions (get_db w)))
}.

Lemma view_lookup w id :
  sess_view w !! id = scanSession id <$> (DB.sessions (get_db w) !! id).
Proof. cbn. rewrite map_lookup_imap. by destruct (DB.sessions (get_db w) !! id). Qed.

(** A statement that keeps the table of sessions. *)
Lemma view_set_db_same d w :
  DB.sessions d = DB.sessions (get_db w) -> sess_view (set_db d w) = sess_view w.
Proof. cbn. rewrite get_set_db. by intros ->. Qed.

Lemma view_insert d w id r :
  DB.sessions d = <[id := r]> (DB.sessions (get_db w)) ->
  sess_view (set_db d w) = <[id := scanSession id r]> (sess_view w).
Proof.
  intros Hd. apply map_eq. intros i. rewrite view_lookup, get_set_db, Hd.
  destruct (decide (i = id)) as [->|Hi].
  - by rewrite !lookup_insert_eq.
  - by rewrite !lookup_insert_ne, view_lookup by done.
Qed.

Lemma later_set_sessions d w :
  DB.faults d = tail (DB.faults (get_db w)) ->
  (unique_active (sess_view w) -> unique_active (sess_view (set_db d w))) ->
  later w (set_db d w).
Proof.
  intros Hd Hu. split; cbn; [by rewrite clock_set_db|]. cbn in Hu. rewrite get_set_db, Hd in *.
  intros [-> ?]. auto.
Qed.

Lemma later_set d w :
  DB.faults d = tail (DB.faults (get_db w)) -> DB.sessions d = DB.sessions (get_db w) ->
  later w (set_db d w).
Proof. intros Hd Hs. apply later_set_sessions; [done|]. by rewrite view_set_db_same. Qed.

(** Writing a row whose index key is free keeps the index unique. *)
Lemma unique_insert w id r :
  active_key_taken (DB.sessions (get_db w)) id r = false ->
  unique_active (sess_view w) ->
  unique_active (<[id := scanSession id r]> (sess_view w)).
Proof.
  intros Hk Hu.
  assert (forall c o j b, j <> id -> sess_view w !! j = Some b -> active_for c o b ->
    ~ active_for c o (scanSession id r)) as Hfree.
  { intros c o j b Hne Hb (Hc & Ho & Ha) (Hc' & Ho' & Ha').
    rewrite view_lookup in Hb. apply fmap_Some in Hb as (r' & Hr' & ->).
    rewrite <-in_active_index_scan in Ha, Ha'.
    eapply (active_key_free _ _ _ Hk Ha' _ _ Hr' Hne Ha). cbn in *. by subst. }
  intros c o i j a b Hi Hj Ha Hb.
  destruct (decide (i = id)) as [->|Hni], (decide (j = id)) as [->|Hnj]; [done| | |].
  - rewrite lookup_insert_eq in Hi. rewrite lookup_insert_ne in Hj by done. simplify_eq.
    by destruct (Hfree c o j b).
  - rewrite lookup_insert_eq in Hj. rewrite lookup_insert_ne in Hi by done. simplify_eq.
    by destruct (Hfree c o i a).
  - rewrite lookup_insert_ne in Hi, Hj by done. by eapply Hu.
Qed.

Ltac same_view := split; [split; [by apply view_set_db_same|by apply later_set]|].

Lemma table_view_id w id s : sess_view w !! id = Some s -> Session.ID s = id.
Proof. rewrite view_lookup. by intros (r & _ & ->)%fmap_Some. Qed.

Lemma table_view_stored w id s : sess_view w !! id = Some s -> persisted s = s.
Proof. rewrite view_lookup. by intros (r & _ & ->)%fmap_Some. Qed.

Lemma table_Get_spec id w :
  wp (table_Get id) (fun r w' =>
    quiet w w' /\
    match r with
    | Ok s => sess_view w !! id = Some s
    | Err e => (healthy w -> e = ErrNotFound) /\
               (error_exists is_not_found e = true -> sess_view w !! id = None)
    end) w.
Proof.
  apply wp_bind, wp_sql; intros; apply wp_ret; cbn -[sess_view clock healthy].
  { same_view. by split; [intros [??]|]. }
  same_view.
  rewrite view_lookup. cbn. by destruct (DB.sessions (get_db w) !! id).
Qed.

(** The index refuses an update only to a session that comes back to life. *)
Lemma update_refused s r w old :
  unique_active (sess_view w) ->
  DB.sessions (get_db w) !! Session.ID s = Some r ->
  active_key_taken (DB.sessions (get_db w)) (Session.ID s) (update_row r s) = true ->
  sess_view w !! Session.ID s = Some old ->
  Session.IsActive old = false /\ Session.IsActive s = true.
Proof.
  intros Hu Hr Hk Hold. unfold active_key_taken in Hk. apply andb_true_iff in Hk as [Ha Hk].
  rewrite (in_active_index_scan (Session.ID s)), scan_update in Ha.
  change (Session.IsActive (updated_by _ s)) with (Session.IsActive s) in Ha. split; [|done].
  apply existsb_exists in Hk as ([id' r'] & Hin & Hk).
  rewrite <-list_elem_of_In, elem_of_map_to_list in Hin.
  rewrite !andb_true_iff, negb_true_iff, bool_decide_eq_false, !bool_decide_eq_true in Hk.
  destruct Hk as [[[Hne Ha'] Hc] Ho]. rewrite (in_active_index_scan id') in Ha'.
  rewrite view_lookup, Hr in Hold. injection Hold as <-.
  destruct (Session.IsActive (scanSession (Session.ID s) r)) eqn:Hact; [|done].
  destruct Hne. eapply (Hu (SessionRow.consumer_id r) (SessionRow.offer_id r) id' (Session.ID s)
    (scanSession id' r') (scanSession (Session.ID s) r)).
  - by rewrite view_lookup, Hin.
  - by rewrite view_lookup, Hr.
  - done.
  - done.
Qed.

Lemma table_Update_spec s w :
  wp (table_Update s) (fun r w' =>
    later w w' /\
    match r with
    | None => exists old, sess_view w !! Session.ID s = Some old /\
                sess_view w' = <[Session.ID s := updated_by old s]> (sess_view w)
    | Some _ => sess_view w' = sess_view w /\
        (healthy w -> forall old, sess_view w !! Session.ID s = Some old ->
           Session.IsActive old = false /\ Session.IsActive s = true)
    end) w.
Proof.
  apply wp_bind, wp_sql; intros; apply wp_ret.
  { split; [by apply later_set|]. split; [by apply view_set_db_same|].
    intros [Hf _]. congruence. }
  unfold update_stmt. cbn -[sess_view clock healthy].
  destruct (DB.sessions (get_db w) !! Session.ID s) as [r|] eqn:Hr; cbn -[sess_view clock healthy].
  - destruct (active_key_taken _ _ _) eqn:Hk; cbn -[sess_view clock healthy].
    + split; [by apply later_set|]. split; [by apply view_set_db_same|].
      intros [_ Hu] old Hold. exact (update_refused s r w old Hu Hr Hk Hold).
    + assert (sess_view (set_db (DB.set_sessions (<[Session.ID s := update_row r s]>
                (DB.sessions (get_db w))) (DB.pop_fault (get_db w))) w) =
              <[Session.ID s := scanSession (Session.ID s) (update_row r s)]> (sess_view w)) as Hv
        by (by apply view_insert).
      split; [apply later_set_sessions; [done|]; rewrite Hv; by apply unique_insert|].
      exists (scanSession (Session.ID s) r).
      rewrite view_lookup, Hr, <-scan_update. by split.
  - split; [by apply later_set|]. split; [by apply view_set_db_same|].
    intros _ old. by rewrite view_lookup, Hr.
Qed.

Lemma table_List_spec f w :
  wp (table_ListInternal f) (fun r w' =>
    quiet w w' /\
    match r with
    | Ok l =>
        NoDup (Session.ID <$> l) /\
        (forall s, s ∈ l -> sess_view w !! Session.ID s = Some s /\
                       SessionFilter.matches f s = true) /\
        ((SessionFilter.Limit f <= 0)%Z ->
           forall id s, sess_view w !! id = Some s -> SessionFilter.matches f s = true -> s ∈ l)
    | Err _ => ~ healthy w
    end) w.
Proof.
  apply wp_bind, wp_sql; intros; apply wp_ret; cbn -[sess_view clock healthy].
  { same_view. by intros [??]. }
  same_view.
  set (l := select _ _). assert (limit (SessionFilter.Limit f) l `sublist_of` l) as Hsub.
  { unfold limit. destruct (0 <? _)%Z; [apply sublist_take|done]. }
  split_and!.
  - eapply sublist_NoDup; [apply NoDup_select|by apply fmap_sublist].
  - intros s Hs. pose proof (elem_of_submseteq _ _ _ Hs (sublist_submseteq _ _ Hsub)) as (r & Hr & Hp & Hsc)%elem_of_select.
    rewrite view_lookup. cbn in Hr. rewrite Hr. split; [cbn; by f_equal|].
    by rewrite Hsc, <-where_matches.
  - intros Hlim id s Hs Hm. unfold limit. rewrite (proj2 (Z.ltb_ge _ _)) by done.
    pose proof (table_view_id _ _ _ Hs) as <-.
    rewrite view_lookup in Hs. apply fmap_Some in Hs as (r & Hr & Hsc).
    apply elem_of_select. exists r. split_and!; [done| |done].
    by rewrite (where_matches _ (Session.ID s)), <-Hsc.
Qed.

Lemma table_Create_spec s w :
  wp (table_Create s) (fun r w' =>
    later w w' /\
    match r with
    | None => sess_view w !! Session.ID s = None /\
              sess_view w' = <[Session.ID s := persisted s]> (sess_view w) /\
              (Session.IsActive s = true ->
               forall id o, sess_view w !! id = Some o ->
                 ~ active_for (Session.ConsumerID s) (Session.OfferID s) o)
    | Some _ => sess_view w' = sess_view w
    end) w.
Proof.
  assert (forall e w', sess_view w' = sess_view w -> later w w' ->
    later w w' /\
    match (if Contains (Error e) "UNIQUE constraint failed" &&
             Contains (Error e) "idx_sessions_consumer_offer_active"
          then Some ErrAlreadyExists
          else Some (EWrap "failed to create session" e)) with
    | None => sess_view w !! Session.ID s = None /\
              sess_view w' = <[Session.ID s := persisted s]> (sess_view w) /\
              (Session.IsActive s = true ->
               forall id o, sess_view w !! id = Some o ->
                 ~ active_for (Session.ConsumerID s) (Session.OfferID s) o)
    | Some _ => sess_view w' = sess_view w
    end) as Hfail.
  { intros e w' Hv Hc. split; [done|]. by destruct (_ && _). }
  apply wp_bind, wp_sql; intros; apply wp_ret.
  { apply Hfail; [by apply view_set_db_same|]. by apply later_set. }
  unfold insert_stmt. cbn -[sess_view clock healthy].
  destruct (DB.sessions (get_db w) !! Session.ID s) as [r|] eqn:Hr.
  { rewrite bool_decide_true by done. cbn -[sess_view clock healthy].
    apply (Hfail (EOpaque _)); [by apply view_set_db_same|]. by apply later_set. }
  rewrite bool_decide_false by (by intros [??]).
  destruct (active_key_taken _ _ _) eqn:Hk; cbn -[sess_view clock healthy].
  { apply (Hfail (EOpaque _)); [by apply view_set_db_same|]. by apply later_set. }
  assert (sess_view (set_db (DB.set_sessions (<[Session.ID s := insert_row s]>
            (DB.sessions (get_db w))) (DB.pop_fault (get_db w))) w) =
          <[Session.ID s := scanSession (Session.ID s) (insert_row s)]> (sess_view w)) as Hv
    by (by apply view_insert).
  split; [apply later_set_sessions; [done|]; rewrite Hv; by apply unique_insert|]. split_and!.
  - by rewrite view_lookup, Hr.
  - by rewrite <-scan_insert.
  - intros Ha id o Ho (Hc & Hof & Hact).
    rewrite view_lookup in Ho. apply fmap_Some in Ho as (r' & Hr' & ->).
    rewrite <-in_active_index_scan in Hact.
    eapply (active_key_free _ _ _ Hk); [|exact Hr'| |exact Hact|done].
    + rewrite (in_active_index_scan (Session.ID s)), scan_insert. done.
    + intros ->. congruence.
Qed.

Lemma table_GetActive_spec c o w :
  wp (table_GetActive c o) (fun r w' =>
    quiet w w' /\
    match r with
    | Ok s => sess_view w !! Session.ID s = Some s /\ active_for c o s
    | Err e => (healthy w -> e = ErrNotFound) /\
               (error_exists is_not_found e = true ->
                forall id s, sess_view w !! id = Some s -> ~ active_for c o s)
    end) w.
Proof.
  apply wp_bind, wp_sql; intros; apply wp_ret; cbn -[sess_view clock healthy].
  { same_view. by split; [intros [??]|]. }
  same_view.
  set (l := select _ _). destruct (head l) as [s|] eqn:Hl.
  - assert (s ∈ l) as (r & Hr & Hp & Hs)%elem_of_select.
    { destruct l; simplify_eq/=. by left. }
    rewrite !andb_true_iff, !bool_decide_eq_true in Hp. destruct Hp as [[Hc Ho] Ha].
    rewrite view_lookup. cbn in Hr. rewrite Hr. split; [cbn; by f_equal|].
    rewrite Hs. unfold active_for. rewrite <-in_active_index_scan. done.
  - split; [done|]. intros _ id s Hs (Hc & Ho & Ha). destruct l as [|?? ] eqn:El; [|done].
    pose proof (table_view_id _ _ _ Hs) as <-.
    rewrite view_lookup in Hs. apply fmap_Some in Hs as (r & Hr & Hsc).
    apply (not_elem_of_nil s). rewrite <-El. apply elem_of_select. exists r.
    split_and!; [done| |done]. rewrite Hsc in Hc, Ho, Ha. cbn in Hc, Ho.
    rewrite (in_active_index_scan (Session.ID s)), Ha.
    by rewrite !bool_decide_true.
Qed.

#[export] Instance table_laws : StoreLaws W := {
  view_id := table_view_id;
  view_stored := table_view_stored;
  view_unique := fun w Hw => proj2 Hw;
  Get_spec := table_Get_spec;
  Update_spec := table_Update_spec;
  List_spec := table_List_spec;
  Create_spec := table_Create_spec;
  GetActive_spec := table_GetActive_spec
}.
End Laws.

(** ** The partial unique index *)
Section Index.
Context {W : Type} `{HDB : HasDB W} `{!HasDBLaws W} `{Driver}.

(** C7.  The store never holds two active sessions of one consumer for one offer:
    whatever the engine answers, [Create] and [Update] keep the sessions as they were
    or write one row that leaves the index unique. *)
Theorem store_keeps_one_active s w :
  unique_active (sess_view w) ->
  wp (Create s) (fun _ w' => unique_active (sess_view w')) w /\
  wp (Update s) (fun _ w' => unique_active (sess_view w')) w.
Proof.
  intros Hu. split; apply wp_bind, wp_sql; intros; apply wp_ret; try by rewrite view_set_db_same.
  - unfold insert_stmt. case_bool_decide; [by rewrite view_set_db_same|].
    destruct (active_key_taken _ _ _) eqn:Hk; [by rewrite view_set_db_same|].
    erewrite view_insert by reflexivity. by apply unique_insert.
  - unfold update_stmt. destruct (DB.sessions _ !! _) eqn:Hr; [|by rewrite view_set_db_same].
    destruct (active_key_taken _ _ _) eqn:Hk; [by rewrite view_set_db_same|].
    erewrite view_insert by reflexivity. by apply unique_insert.
Qed.
End Index.
