(* ===== verification/Lifecycle.v ===== *)
(** [internal/service/lifecycle/manager.go]: the periodic lifecycle checks and the
    session operations of the manager, against the store and the destroyer it is
    given. *)
From S2P Require Import Prelude GoFloat GoLib Models Errors Interfaces.

(** [lifecycle.SessionDestroyer], implemented by the provisioner. *)
Class SessionDestroyer (W : Type) := DestroySession : string -> M W (option error).

(** The manager's configuration. *)
Module Config.
Record t := mk {
  hardMaxHours : Z;
  orphanGracePeriod : duration;
  stuckSessionTimeout : duration;
  sshHealthCheckEnabled : bool;
  (** [sshExecutor != nil] *)
  sshExecutor : bool;
  sshHealthCheckInterval : duration
}.

(** The defaults of [New]; no SSH executor is configured. *)
Definition default : t :=
  mk 12 (15 * Minute)%Z (10 * Minute)%Z false false (2 * Minute)%Z.
End Config.

Section Manager.
Context {W : Type} `{SessionStore W} `{Env W} `{SessionDestroyer W}.
Context (m : Config.t).

Definition audit (op : string) (s : Session.t) : M W unit := emit (Audit op [Session.ID s]).

(** [destroySession]: on failure the session fetched earlier is written back with
    the error text. *)
Definition destroySession (s : Session.t) (reason : string) : M W unit :=
  let! e := DestroySession (Session.ID s) in
  match e with
  | Some err =>
      do! emit (Count DestroyFailures) in
      let s := Session.set_Error (reason +:+ ": destroy failed: " +:+ Error err) s in
      do! Update s in
      skip
  | None => emit (Count DestroySuccesses)
  end.

Definition hardMaxDuration : duration := dur_mul (Config.hardMaxHours m) Hour.

(** The body of the loop of [checkHardMax] at the instant [t]. *)
Definition hard_max_body (t : time) (s : Session.t) : M W unit :=
  if Session.HardMaxOverride s then skip
  else if negb (bool_decide (Session.Status s = StatusRunning)) then skip
  else if (hardMaxDuration <? Sub t (Session.CreatedAt s))%Z then
    do! emit (Count HardMaxEnforced) in
    do! audit "hard_max_enforced" s in
    do! emit (Prom "RecordHardMaxEnforced" []) in
    do! emit (Prom "RecordSessionDestroyed" [Session.Provider s; "hard_max"]) in
    do! emit (OnHardMaxReached (Session.ID s)) in
    destroySession s "hard max duration exceeded"
  else skip.

Definition checkHardMax : M W unit :=
  let! r := GetActiveSessions in
  match r with
  | Err _ => skip
  | Ok sessions => let! t := now in for_each sessions (hard_max_body t)
  end.

Definition expiry_body (s : Session.t) : M W unit :=
  do! emit (Count SessionsExpired) in
  do! audit "session_expired" s in
  do! emit (Prom "RecordSessionDestroyed" [Session.Provider s; "expired"]) in
  do! emit (OnSessionExpired (Session.ID s)) in
  destroySession s "reservation expired".

Definition checkReservationExpiry : M W unit :=
  let! r := GetExpiredSessions in
  match r with
  | Err _ => skip
  | Ok sessions => for_each sessions expiry_body
  end.

Definition orphan_body (t : time) (s : Session.t) : M W unit :=
  let orphanThreshold := Add (Session.ExpiresAt s) (Config.orphanGracePeriod m) in
  if After t orphanThreshold then
    do! emit (Count OrphansDetected) in
    emit (OnOrphanDetected (Session.ID s))
  else skip.

Definition checkOrphans : M W unit :=
  let! r := GetSessionsByStatus [StatusRunning] in
  match r with
  | Err _ => skip
  | Ok sessions => let! t := now in for_each sessions (orphan_body t)
  end.

(** The session a stuck one is turned into at the instant [t]. *)
Definition stuck_failed (t : time) (s : Session.t) : Session.t :=
  let oldStatus := Session.Status s in
  let s := Session.set_Status StatusFailed s in
  let s := Session.set_Error
    (if bool_decide (oldStatus = StatusStopping)
     then "Session stuck in stopping state - manual cleanup may be required"
     else "Session stuck in provisioning state - provisioning timeout") s in
  Session.set_StoppedAt t s.

Definition stuck_body (t : time) (s : Session.t) : M W unit :=
  let stuckDuration := Sub t (Session.CreatedAt s) in
  if (Config.stuckSessionTimeout m <? stuckDuration)%Z then
    let! e := Update (stuck_failed t s) in
    match e with
    | Some _ => skip
    | None =>
        do! audit "stuck_session_failed" s in
        emit (Prom "UpdateSessionStatus"
                [Session.Provider s; status_string (Session.Status s);
                 status_string StatusFailed])
    end
  else skip.

Definition checkStuckSessions : M W unit :=
  let! r := GetSessionsByStatus [StatusStopping; StatusProvisioning] in
  match r with
  | Err _ => skip
  | Ok sessions => let! t := now in for_each sessions (stuck_body t)
  end.

Definition failed_destroy_body (s : Session.t) : M W unit :=
  let! e := DestroySession (Session.ID s) in
  match e with
  | Some _ => skip
  | None =>
      do! emit (Count FailedDestroysRecovered) in
      audit "failed_destroy_recovered" s
  end.

Definition checkFailedDestroys : M W unit :=
  let! r := GetFailedSessionsWithInstances in
  match r with
  | Err _ => skip
  | Ok sessions => for_each sessions failed_destroy_body
  end.

(** [checkSSHHealth] only counts itself: the private keys are not stored, so the
    loop over the sessions does nothing but log. *)
Definition checkSSHHealth : M W unit :=
  let! r := GetSessionsByStatus [StatusRunning] in
  match r with
  | Err _ => skip
  | Ok _ => emit (Count SSHHealthChecksRun)
  end.

(** [runChecks]; the argument and result are [lastSSHHealthCheck]. *)
Definition runChecks (lastSSHHealthCheck : time) : M W time :=
  do! emit (Count ChecksRun) in
  do! checkHardMax in
  do! checkReservationExpiry in
  do! checkOrphans in
  do! checkStuckSessions in
  do! checkFailedDestroys in
  if Config.sshHealthCheckEnabled m && Config.sshExecutor m then
    let! t := now in
    if (Config.sshHealthCheckInterval m <=? Sub t lastSSHHealthCheck)%Z then
      do! checkSSHHealth in ret t
    else ret lastSSHHealthCheck
  else ret lastSSHHealthCheck.

Definition SignalDone (sessionID : string) : M W (option error) :=
  let! r := Get sessionID in
  match r with
  | Err e => ret (Some e)
  | Ok s =>
      if Session.IsTerminal s
      then ret (Some (SessionTerminalError sessionID (Session.Status s)))
      else DestroySession sessionID
  end.

Definition ExtendSession (sessionID : string) (additionalHours : Z) : M W (option error) :=
  let! r := Get sessionID in
  match r with
  | Err e => ret (Some e)
  | Ok s =>
      if Session.IsTerminal s || bool_decide (Session.Status s = StatusStopping)
      then ret (Some (SessionTerminalError sessionID (Session.Status s)))
      else
        let! t := now in
        let totalDuration :=
          wrap64 (Sub t (Session.CreatedAt s) + dur_mul additionalHours Hour) in
        if negb (Session.HardMaxOverride s) && (hardMaxDuration <? totalDuration)%Z
        then ret (Some (HardMaxExceededError sessionID (Sub t (Session.CreatedAt s))
                          additionalHours (Config.hardMaxHours m)))
        else
          let s := Session.set_ExpiresAt
                     (Add (Session.ExpiresAt s) (dur_mul additionalHours Hour)) s in
          let s := Session.set_ReservationHrs
                     (wrap64 (Session.ReservationHrs s + additionalHours)) s in
          Update s
  end.

Definition SetHardMaxOverride (sessionID : string) (override : bool) : M W (option error) :=
  let! r := Get sessionID in
  match r with
  | Err e => ret (Some e)
  | Ok s =>
      if Session.IsTerminal s
      then ret (Some (SessionTerminalError sessionID (Session.Status s)))
      else Update (Session.set_HardMaxOverride override s)
  end.
End Manager.

(** ** What the manager relies on from the destroyer *)

(** How [DestroySession] may change the stored session: mark it stopping, stop it,
    or clean up a failed one. *)
Inductive destroy_change (s : Session.t) : Session.t -> Prop :=
| dc_same : destroy_change s s
| dc_stopping :
    Session.IsActive s = true -> destroy_change s (Session.set_Status StatusStopping s)
| dc_stopped t :
    Session.IsActive s = true ->
    destroy_change s (Session.set_StoppedAt t (Session.set_Status StatusStopped s))
| dc_cleaned t :
    Session.Status s = StatusFailed ->
    destroy_change s
      (Session.set_StoppedAt t (Session.set_Status StatusStopped (Session.set_ProviderID "" s))).

Class DestroyerLaws (W : Type) `{SessionDestroyer W} `{Ghost W} : Prop :=
  DestroySession_spec : forall id w,
    wp (DestroySession id) (fun _ w' =>
      later w w' /\
      (forall j, j <> id -> sess_view w' !! j = sess_view w !! j) /\
      match sess_view w !! id with
      | None => sess_view w' !! id = None
      | Some s => exists s', sess_view w' !! id = Some s' /\ destroy_change s s' /\
                    (healthy w -> Session.IsActive s' = false)
      end) w.

Section ManagerProofs.
Context {W : Type} `{SessionStore W} `{Env W} `{SessionDestroyer W} `{Ghost W}.
Context `{!StoreLaws W} `{!EnvLaws W} `{!DestroyerLaws W}.
Context (m : Config.t).

(** The session carries the note of a destroy that failed. *)
Definition destroy_failed_note (reason : string) (s s' : Session.t) : Prop :=
  exists err, s' = Session.set_Error (reason +:+ ": destroy failed: " +:+ err) s.

(** [destroySession] on a stored session: the destroyer's change, or the session as
    it was fetched with the failure note. *)
Definition enforced (ok : Prop) (reason : string) (s s' : Session.t) : Prop :=
  (destroy_change s s' \/ destroy_failed_note reason s s') /\
  (ok -> Session.IsActive s' = false \/ destroy_failed_note reason s s').

Lemma updated_by_destroy_change s s1 reason :
  destroy_change s s1 -> updated_by s1 (Session.set_Error reason s) = Session.set_Error reason s.
Proof. by destruct s; destruct 1. Qed.

Lemma wp_destroySession reason s w :
  sess_view w !! Session.ID s = Some s ->
  wp (destroySession s reason) (fun _ w' =>
    later w w' /\
    (forall j, j <> Session.ID s -> sess_view w' !! j = sess_view w !! j) /\
    exists s', sess_view w' !! Session.ID s = Some s' /\ enforced (healthy w) reason s s') w.
Proof.
  intros Hs. apply wp_bind. eapply wp_mono; [apply DestroySession_spec|].
  intros e w1 (Hl & Hother & Hself). rewrite Hs in Hself.
  destruct Hself as (s1 & Hs1 & Hch & Hact). destruct e as [err|].
  - wp_emit. apply wp_bind. eapply wp_mono; [apply Update_spec|].
    intros r w2 (Hl2 & Hr). apply wp_ret. destruct Hq as [Hv Hlv].
    change (Session.ID (Session.set_Error _ s)) with (Session.ID s) in Hr.
    split; [by etrans; [|etrans]|]. destruct r as [e|].
    + destruct Hr as [Hr _]. rewrite Hr, Hv. split; [done|]. exists s1.
      split; [done|]. split; [by left|]. intros ?. left. auto.
    + destruct Hr as (old & Hold & ->). rewrite Hv in Hold |- *. simplify_eq.
      split; [intros j Hj; rewrite lookup_insert_ne by done; auto|].
      exists (Session.set_Error (reason +:+ ": destroy failed: " +:+ Error err) s).
      rewrite lookup_insert_eq, (updated_by_destroy_change s) by done.
      split; [done|]. split; [right|right]; by exists (Error err).
  - apply wp_frame; [auto with frame|]. intros _ w2 [Hv Hl2]. rewrite Hv.
    split; [by etrans|]. split; [done|]. exists s1. split; [done|].
    split; [by left|]. intros ?. left. auto.
Qed.

(** A checked session that is not due is left as it is. *)
Definition outcome (due : Prop) (ok : Prop) (reason : string) (s s' : Session.t) : Prop :=
  (due -> enforced ok reason s s') /\ (~ due -> s' = s).

Lemma wp_hard_max_body t s w :
  sess_view w !! Session.ID s = Some s ->
  wp (hard_max_body m t s) (fun _ w' =>
    later w w' /\
    (forall j, j <> Session.ID s -> sess_view w' !! j = sess_view w !! j) /\
    exists s', sess_view w' !! Session.ID s = Some s' /\
      outcome (Session.HardMaxOverride s = false /\ Session.Status s = StatusRunning /\
               (hardMaxDuration m < Sub t (Session.CreatedAt s))%Z)
        (healthy w) "hard max duration exceeded" s s') w.
Proof.
  intros Hs. unfold hard_max_body.
  assert (forall P : Prop, ~ P -> wp skip (fun _ w' => later w w' /\
    (forall j, j <> Session.ID s -> sess_view w' !! j = sess_view w !! j) /\
    exists s', sess_view w' !! Session.ID s = Some s' /\
      outcome P (healthy w) "hard max duration exceeded" s s') w) as Hskip.
  { intros P HP. apply wp_ret. split_and!; [done|done|]. by exists s. }
  destruct (Session.HardMaxOverride s) eqn:Ho; [apply Hskip; intros (?&?&?); congruence|].
  case_bool_decide as Hrun; cbn [negb]; [|apply Hskip; intros (?&?&?); congruence].
  destruct (Z.ltb_spec (hardMaxDuration m) (Sub t (Session.CreatedAt s))) as [Hd|Hd];
    [|apply Hskip; lia].
  unfold audit. wp_emit. destruct Hq as [Hv Hlv].
  eapply wp_mono; [apply wp_destroySession; by rewrite Hv|].
  intros _ w' (Hl & Hother & s' & Hs' & He). rewrite Hv in Hother.
  split_and!; [by etrans|done|]. exists s'. split; [done|].
  split; [|intros Hn; by destruct Hn]. intros _. destruct He as [He1 He2].
  split; [done|]. intros Hok. apply He2, Hlv, Hok.
Qed.
Lemma Sub_mono t u c : (t <= u)%Z -> (Sub t c <= Sub u c)%Z.
Proof. unfold Sub. lia. Qed.

(** A loop over listed sessions whose body has an [outcome]: due sessions are
    enforced, every other stored session is as before. *)
Lemma wp_enforce (due : Session.t -> Prop) reason (body : Session.t -> M W unit) l w :
  NoDup (Session.ID <$> l) ->
  (forall s, s ∈ l -> sess_view w !! Session.ID s = Some s) ->
  (forall s v, s ∈ l -> later w v -> sess_view v !! Session.ID s = Some s ->
     wp (body s) (fun _ v' =>
       later v v' /\
       (forall j, j <> Session.ID s -> sess_view v' !! j = sess_view v !! j) /\
       exists s', sess_view v' !! Session.ID s = Some s' /\
         outcome (due s) (healthy v) reason s s') v) ->
  wp (for_each l body) (fun _ w' =>
    later w w' /\
    (forall s, s ∈ l -> due s -> exists s', sess_view w' !! Session.ID s = Some s' /\
       enforced (healthy w) reason s s') /\
    (forall id s, sess_view w !! id = Some s -> (s ∈ l -> ~ due s) ->
       sess_view w' !! id = Some s)) w.
Proof.
  intros Hnd Hin Hbody. eapply wp_mono.
  - apply (wp_for_each_session (fun s s' => outcome (due s) (healthy w) reason s s'));
      [done|done|].
    intros s v Hs Hl Hv. eapply wp_mono; [by apply Hbody|].
    intros _ v' (Hl' & Ho & s' & Hs' & Hout & Hskip). split_and!; [done..|].
    exists s'. split; [done|]. split; [|done]. intros Hd.
    destruct (Hout Hd) as [H1' H2']. split; [done|]. intros Hok. apply H2', Hl, Hok.
  - intros _ w' (Hl & Hdone & Hrest). split_and!; [done| |].
    + intros s Hs Hd. destruct (Hdone s Hs) as (s' & Hs' & Hout & _). eauto.
    + intros id s Hs Hnd'. pose proof (view_id _ _ _ Hs) as <-.
      destruct (listed_dec w l s Hin Hs) as [Hsl|Hsl]; [|by apply Hrest].
      destruct (Hdone s Hsl) as (s' & Hs' & _ & Hskip). rewrite Hs'.
      f_equal. by apply Hskip, Hnd'.
Qed.

(** A running session past the hard maximum at the instant [t], without override. *)
Definition over_hard_max (t : time) (s : Session.t) : Prop :=
  Session.HardMaxOverride s = false /\ Session.Status s = StatusRunning /\
  (hardMaxDuration m < Sub t (Session.CreatedAt s))%Z.

(** C1.  The hard-max check enforces the maximum session duration: when the
    database answers, every running session without override that was past the
    maximum when the pass began is afterwards no longer active, or carries the note
    that its destruction failed; and, whatever the database does, a session that is
    not past the maximum by the end of the pass (or has the override, or is not
    running) is left exactly as it was. *)
Theorem checkHardMax_enforces w :
  wp (checkHardMax m) (fun _ w' =>
    (healthy w -> forall id s, sess_view w !! id = Some s -> over_hard_max (clock w) s ->
       exists s', sess_view w' !! id = Some s' /\
         (Session.IsActive s' = false \/
          destroy_failed_note "hard max duration exceeded" s s')) /\
    (forall id s, sess_view w !! id = Some s -> ~ over_hard_max (clock w') s ->
       sess_view w' !! id = Some s)) w.
Proof.
  apply wp_bind, (wp_by_statuses active_statuses); [done| |].
  { intros e w1 [Hv _] Hh. apply wp_ret. rewrite Hv. split; [by intros|done]. }
  intros ss w1 [Hv Hl1] Hnd Hss. apply wp_bind. eapply wp_mono; [apply now_spec|].
  intros t w2 ([Hv2 Hl2] & Ht). eapply wp_mono.
  { apply (wp_enforce (over_hard_max t) "hard max duration exceeded"); [done| |].
    - intros s [Hs _]%Hss. by rewrite Hv2, Hv.
    - intros s v _ _ Hs. by apply wp_hard_max_body. }
  intros _ w3 (Hl3 & Hdue & Hrest). rewrite Hv2, Hv in Hrest.
  assert (clock w <= t <= clock w3)%Z as Htb
    by (destruct Hl1, Hl2, Hl3; lia).
  split.
  - intros Hh id s Hs (Ho & Hrun & Hmax). pose proof (view_id _ _ _ Hs) as <-.
    destruct (Hdue s) as (s' & Hs' & _ & He).
    + apply Hss. rewrite Hrun. split; [done|]. do 2 right. left.
    + split_and!; [done..|]. eapply Z.lt_le_trans; [done|]. apply Sub_mono. lia.
    + exists s'. split; [done|]. apply He, Hl2, Hl1, Hh.
  - intros id s Hs Hno. apply Hrest; [done|]. intros _ (Ho & Hrun & Hmax). apply Hno.
    split_and!; [done..|]. eapply Z.lt_le_trans; [done|]. apply Sub_mono. lia.
Qed.
Lemma wp_expiry_body s w :
  sess_view w !! Session.ID s = Some s ->
  wp (expiry_body s) (fun _ w' =>
    later w w' /\
    (forall j, j <> Session.ID s -> sess_view w' !! j = sess_view w !! j) /\
    exists s', sess_view w' !! Session.ID s = Some s' /\
      outcome True (healthy w) "reservation expired" s s') w.
Proof.
  intros Hs. unfold expiry_body, audit. wp_emit. destruct Hq as [Hv Hlv].
  eapply wp_mono; [apply wp_destroySession; by rewrite Hv|].
  intros _ w' (Hl & Hother & s' & Hs' & He1 & He2). rewrite Hv in Hother.
  split_and!; [by etrans|done|]. exists s'. split; [done|].
  split; [|intros Hn; by destruct Hn]. intros _. split; [done|].
  intros Hok. apply He2, Hlv, Hok.
Qed.

Definition expired (t : time) (s : Session.t) : Prop :=
  Session.Status s = StatusRunning /\ (Session.ExpiresAt s < t)%Z.

Lemma wp_GetExpiredSessions (Q : result (list Session.t) -> W -> Prop) w :
  (0 < clock w)%Z ->
  (forall e w', quiet w w' -> ~ healthy w -> Q (Err e) w') ->
  (forall ss t w', quiet w w' -> NoDup (Session.ID <$> ss) -> (clock w <= t <= clock w')%Z ->
     (forall s, s ∈ ss <-> sess_view w !! Session.ID s = Some s /\ expired t s) ->
     Q (Ok ss) w') ->
  wp GetExpiredSessions Q w.
Proof.
  intros Hpos He Ho. apply wp_bind. eapply wp_mono; [apply time_Now_spec|].
  intros t w1 ([Hv Hl] & Ht). eapply wp_mono; [apply List_spec|].
  intros [ss|e] w' ([Hv' Hl'] & Hr).
  2: { apply He; [split; [congruence|by etrans]|]. intros Hh. apply Hr, Hl, Hh. }
  destruct Hr as (Hnd & Hs & Hc).
  assert (forall s, SessionFilter.matches
            (SessionFilter.mk "" "" "" [StatusRunning] t false 0) s = true <-> expired t s) as Hm.
  { intros s. unfold SessionFilter.matches, expired, IsZero, Before. cbn -[bool_decide].
    rewrite (proj2 (Z.eqb_neq t 0)) by lia. cbn -[bool_decide].
    rewrite (bool_decide_false ([StatusRunning] = [])) by done. cbn -[bool_decide].
    rewrite !andb_true_iff, bool_decide_eq_true, Z.ltb_lt, list_elem_of_singleton. tauto. }
  apply (Ho ss t); [split; [congruence|by etrans]|done|destruct Hl, Hl'; lia|].
  intros s. rewrite <-Hm. rewrite Hv in Hs, Hc. split; [apply Hs|].
  intros [Hs' Hms]. by eapply Hc.
Qed.

(** The reservation check enforces expiry: when the database answers, every
    running session whose reservation ended before the pass began is afterwards no
    longer active, or carries the note that its destruction failed; a session that
    is not running, or whose reservation has not ended when the pass is over, is
    left exactly as it was. *)
Theorem checkReservationExpiry_enforces w :
  (0 < clock w)%Z ->
  wp checkReservationExpiry (fun _ w' =>
    (healthy w -> forall id s, sess_view w !! id = Some s -> expired (clock w) s ->
       exists s', sess_view w' !! id = Some s' /\
         (Session.IsActive s' = false \/
          destroy_failed_note "reservation expired" s s')) /\
    (forall id s, sess_view w !! id = Some s -> ~ expired (clock w') s ->
       sess_view w' !! id = Some s)) w.
Proof.
  intros Hpos. apply wp_bind, wp_GetExpiredSessions; [done| |].
  { intros e w1 [Hv _] Hh. apply wp_ret. rewrite Hv. split; [by intros|done]. }
  intros ss t w1 [Hv Hl1] Hnd Ht Hss. eapply wp_mono.
  { apply (wp_enforce (fun _ => True) "reservation expired"); [done| |].
    - intros s [Hs _]%Hss. by rewrite Hv.
    - intros s v _ _ Hs. by apply wp_expiry_body. }
  intros _ w3 (Hl3 & Hdue & Hrest). rewrite Hv in Hrest.
  assert (clock w <= t <= clock w3)%Z as Htb by (destruct Hl1, Hl3; lia).
  split.
  - intros Hh id s Hs [Hrun Hexp]. pose proof (view_id _ _ _ Hs) as <-.
    destruct (Hdue s) as (s' & Hs' & _ & He); [|done|].
    + apply Hss. split; [done|]. split; [done|lia].
    + exists s'. split; [done|]. apply He, Hl1, Hh.
  - intros id s Hs Hno. apply Hrest; [done|]. intros [_ [Hrun Hexp]]%Hss. exfalso.
    apply Hno. split; [done|lia].
Qed.

(** A transitional session older than the timeout at [t]. *)
Definition stuck (t : time) (s : Session.t) : Prop :=
  (Session.Status s = StatusStopping \/ Session.Status s = StatusProvisioning) /\
  (Config.stuckSessionTimeout m < Sub t (Session.CreatedAt s))%Z.

Lemma wp_stuck_body t s w :
  sess_view w !! Session.ID s = Some s ->
  wp (stuck_body m t s) (fun _ w' =>
    later w w' /\
    (forall j, j <> Session.ID s -> sess_view w' !! j = sess_view w !! j) /\
    exists s', sess_view w' !! Session.ID s = Some s' /\
      ((Config.stuckSessionTimeout m < Sub t (Session.CreatedAt s))%Z ->
         (s' = s \/ s' = stuck_failed t s) /\ (healthy w -> s' = stuck_failed t s)) /\
      (~ (Config.stuckSessionTimeout m < Sub t (Session.CreatedAt s))%Z -> s' = s)) w.
Proof.
  intros Hs. unfold stuck_body, audit.
  destruct (Z.ltb_spec (Config.stuckSessionTimeout m) (Sub t (Session.CreatedAt s))) as [Hd|Hd].
  2: { apply wp_ret. split_and!; [done|done|]. exists s. split_and!; [done| |done]. lia. }
  apply wp_bind. eapply wp_mono; [apply Update_spec|].
  intros [e|] w1 (Hl & Hr); change (Session.ID (stuck_failed t s)) with (Session.ID s) in Hr.
  - apply wp_ret. destruct Hr as [Hv Hun]. rewrite Hv. split_and!; [done|done|].
    exists s. split_and!; [done| |done]. intros _. split; [by left|]. intros Hh.
    by destruct (Hun Hh s Hs).
  - destruct Hr as (old & Hold & Hv). rewrite Hs in Hold. injection Hold as <-.
    wp_emit. apply wp_frame; [auto with frame|]. intros _ w2 Hq2.
    assert (quiet w1 w2) as [Hv2 Hl2] by (by etrans).
    rewrite Hv2, Hv. split_and!; [by etrans| |].
    { intros j Hj. by rewrite lookup_insert_ne. }
    exists (stuck_failed t s). rewrite lookup_insert_eq.
    split_and!; [by destruct s| |done]. intros _. split; [by right|done].
Qed.
(** The stuck-session check: when the database answers, every session that was
    stopping or provisioning and older than the timeout when the pass began is
    afterwards failed, with the message of its old status and a stop time read
    during the pass; a session in another status, or still within the timeout when
    the pass is over, is left exactly as it was. *)
Theorem checkStuckSessions_fails_stuck w :
  wp (checkStuckSessions m) (fun _ w' =>
    (healthy w -> forall id s, sess_view w !! id = Some s -> stuck (clock w) s ->
       exists t, (clock w <= t <= clock w')%Z /\
         sess_view w' !! id = Some (stuck_failed t s)) /\
    (forall id s, sess_view w !! id = Some s -> ~ stuck (clock w') s ->
       sess_view w' !! id = Some s)) w.
Proof.
  apply wp_bind, wp_by_statuses; [done| |].
  { intros e w1 [Hv _] Hh. apply wp_ret. rewrite Hv. split; [by intros|done]. }
  intros ss w1 [Hv Hl1] Hnd Hss. apply wp_bind. eapply wp_mono; [apply now_spec|].
  intros t w2 ([Hv2 Hl2] & Ht). eapply wp_mono.
  { apply (wp_for_each_session (fun s s' =>
      ((Config.stuckSessionTimeout m < Sub t (Session.CreatedAt s))%Z ->
         (s' = s \/ s' = stuck_failed t s) /\ (healthy w2 -> s' = stuck_failed t s)) /\
      (~ (Config.stuckSessionTimeout m < Sub t (Session.CreatedAt s))%Z -> s' = s)));
      [done| |].
    - intros s [Hs _]%Hss. by rewrite Hv2, Hv.
    - intros s v _ Hlv Hs. eapply wp_mono; [by apply wp_stuck_body|].
      intros _ v' (Hl & Ho & s' & Hs' & Hd & Hn). split_and!; [done..|].
      exists s'. split; [done|]. split; [|done]. intros Hdue.
      destruct (Hd Hdue) as [Hd1 Hd2]. split; [done|]. intros Hh. apply Hd2, Hlv, Hh. }
  intros _ w3 (Hl3 & Hin & Hout). rewrite Hv2, Hv in Hout.
  assert (clock w <= t <= clock w3)%Z as Htb by (destruct Hl1, Hl2, Hl3; lia).
  split.
  - intros Hh id s Hs [Hst Hd]. pose proof (view_id _ _ _ Hs) as <-.
    assert (s ∈ ss) as Hsl.
    { apply Hss. split; [done|]. destruct Hst as [-> | ->]; [left|right; left]. }
    destruct (Hin s Hsl) as (s' & Hs' & Hd' & _). exists t. split; [lia|].
    rewrite Hs'. f_equal. apply Hd'; [|apply Hl2, Hl1, Hh].
    eapply Z.lt_le_trans; [done|]. apply Sub_mono. lia.
  - intros id s Hs Hn. pose proof (view_id _ _ _ Hs) as <-.
    destruct (listed_dec w ss s) as [Hsl|Hsl]; [by intros ? [? _]%Hss|done| |by apply Hout].
    destruct (Hin s Hsl) as (s' & Hs' & _ & Hsame). rewrite Hs'. f_equal. apply Hsame.
    intros Hd. apply Hn. split.
    + pose proof (proj2 (proj1 (Hss _) Hsl)) as Hst.
      rewrite elem_of_cons, list_elem_of_singleton in Hst. done.
    + eapply Z.lt_le_trans; [done|]. apply Sub_mono. lia.
Qed.
(** The computation leaves the session stored under [id] as it is. *)
Definition keeps {A} (id : string) (p : Session.t) (c : M W A) : Prop :=
  forall w, sess_view w !! id = Some p -> wp c (fun _ w' => sess_view w' !! id = Some p) w.

Lemma keeps_frame {A} id p (c : M W A) : frame c -> keeps id p c.
Proof. intros Hc w Hw. apply wp_frame; [done|]. by intros _ w' [-> _]. Qed.

Lemma keeps_bind {A B} id p (c : M W A) (k : A -> M W B) :
  keeps id p c -> (forall a, keeps id p (k a)) -> keeps id p (bind c k).
Proof.
  intros Hc Hk w Hw. apply wp_bind. eapply wp_mono; [by apply Hc|]. intros a v. apply Hk.
Qed.

Lemma keeps_for_each id p (body : Session.t -> M W unit) ss :
  (forall s, s ∈ ss -> keeps id p (body s)) -> keeps id p (for_each ss body).
Proof. intros Hb w Hw. apply wp_for_each_inv; [done|]. intros s v Hs. by apply Hb. Qed.

Lemma keeps_Update id p s : Session.ID s <> id -> keeps id p (Update s).
Proof.
  intros Hne w Hw. eapply wp_mono; [apply Update_spec|].
  intros [e|] w' (_ & Hr); [by destruct Hr as [-> _]|].
  destruct Hr as (old & _ & ->). by rewrite lookup_insert_ne.
Qed.

Lemma keeps_DestroySession id p i : i <> id -> keeps id p (DestroySession i).
Proof.
  intros Hne w Hw. eapply wp_mono; [apply DestroySession_spec|].
  intros e w' (_ & Ho & _). by rewrite Ho.
Qed.

(** A query followed by a loop over what it returned; a listed session of the kept
    id is the kept session and matches the query. *)
Lemma keeps_list id p f (k : result (list Session.t) -> M W unit) :
  (forall e, keeps id p (k (Err e))) ->
  (forall ss, (forall s, s ∈ ss -> Session.ID s <> id \/ s = p /\ SessionFilter.matches f p = true) ->
     keeps id p (k (Ok ss))) ->
  keeps id p (bind (ListInternal f) k).
Proof.
  intros He Ho w Hw. apply wp_bind. eapply wp_mono; [apply List_spec|].
  intros [ss|e] w' ([Hv _] & Hr); [|apply He; by rewrite Hv].
  apply Ho; [|by rewrite Hv]. destruct Hr as (_ & Hss & _). intros s [Hs Hm]%Hss.
  destruct (decide (Session.ID s = id)) as [<-|]; [right|by left].
  rewrite Hw in Hs. by injection Hs as ->.
Qed.

Lemma keeps_skip id p : keeps id p skip.
Proof. by apply keeps_frame, frame_ret. Qed.
Lemma keeps_ret {A} id p (a : A) : keeps id p (ret a).
Proof. by apply keeps_frame, frame_ret. Qed.
Lemma keeps_emit id p e : keeps id p (emit e).
Proof. apply keeps_frame, emit_frame. Qed.
Lemma keeps_now id p : keeps id p now.
Proof. intros w Hw. eapply wp_mono; [apply now_spec|]. by intros t w' ([-> _] & _). Qed.
Lemma keeps_time_Now id p : keeps id p time_Now.
Proof. intros w Hw. eapply wp_mono; [apply time_Now_spec|]. by intros t w' ([-> _] & _). Qed.
End ManagerProofs.

(** Walk through a computation that leaves one session alone: each operation is a
    quiet one, or an update or a destruction of another session. *)
Ltac keeps_step :=
  first
    [ assumption
    | apply keeps_bind; [|intros ?]
    | apply keeps_skip | apply keeps_ret | apply keeps_emit
    | apply keeps_now | apply keeps_time_Now
    | apply keeps_Update; cbn; assumption
    | apply keeps_DestroySession; assumption
    | match goal with |- keeps _ _ (match ?x with _ => _ end) => destruct x end ].
Ltac keeps_solve := repeat keeps_step.

Section PendingProofs.
Context {W : Type} `{SessionStore W} `{Env W} `{SessionDestroyer W} `{Ghost W}.
Context `{!StoreLaws W} `{!EnvLaws W} `{!DestroyerLaws W}.
Context (m : Config.t).

Lemma keeps_destroySession id p s reason :
  Session.ID s <> id -> keeps id p (destroySession s reason).
Proof. intros Hne. unfold destroySession. keeps_solve. Qed.
Lemma keeps_hard_max_body id p t s : Session.ID s <> id -> keeps id p (hard_max_body m t s).
Proof. intros Hne. unfold hard_max_body, audit. keeps_solve; by apply keeps_destroySession. Qed.
Lemma keeps_expiry_body id p s : Session.ID s <> id -> keeps id p (expiry_body s).
Proof. intros Hne. unfold expiry_body, audit. keeps_solve; by apply keeps_destroySession. Qed.
Lemma keeps_stuck_body id p t s : Session.ID s <> id -> keeps id p (stuck_body m t s).
Proof. intros Hne. unfold stuck_body, audit. keeps_solve. Qed.
Lemma keeps_failed_destroy_body id p s :
  Session.ID s <> id -> keeps id p (failed_destroy_body s).
Proof. intros Hne. unfold failed_destroy_body, audit. keeps_solve. Qed.
Lemma keeps_orphan_body id p t s : keeps id p (orphan_body m t s).
Proof. unfold orphan_body. keeps_solve. Qed.

(** What no lifecycle check acts on: a pending session, a stopped one, a failed one
    without a provider instance. *)
Definition unchecked (p : Session.t) : Prop :=
  Session.Status p = StatusPending \/ Session.Status p = StatusStopped \/
  (Session.Status p = StatusFailed /\ Session.ProviderID p = "").

Lemma keeps_checkHardMax id p : unchecked p -> keeps id p (checkHardMax m).
Proof.
  intros Hp. apply keeps_list; [intros e; keeps_solve|]. intros ss Hss. keeps_solve.
  apply keeps_for_each. intros s Hs. destruct (Hss s Hs) as [Hne| [-> _]]; [by apply keeps_hard_max_body|].
  unfold hard_max_body. case_match; [keeps_solve|].
  rewrite bool_decide_false; [keeps_solve|]. destruct Hp as [->|[->|[-> _]]]; done.
Qed.

(** A loop after a query that [p] does not match. *)
Lemma keeps_unlisted id p f (k : result (list Session.t) -> M W unit) :
  SessionFilter.matches f p = false ->
  (forall e, keeps id p (k (Err e))) ->
  (forall ss, (forall s, s ∈ ss -> Session.ID s <> id) -> keeps id p (k (Ok ss))) ->
  keeps id p (bind (ListInternal f) k).
Proof.
  intros Hm He Ho. apply keeps_list; [done|]. intros ss Hss. apply Ho. intros s Hs.
  destruct (Hss s Hs) as [?|[_ Hm']]; [done|congruence].
Qed.

(** A query whose statuses are none of those of an unchecked session. *)
Lemma unchecked_unlisted p st l t :
  unchecked p -> l <> [] -> StatusPending ∉ l -> StatusStopped ∉ l -> StatusFailed ∉ l ->
  SessionFilter.matches (SessionFilter.mk "" "" st l t false 0) p = false.
Proof.
  intros Hp Hl ???. unfold SessionFilter.matches. cbn -[bool_decide].
  rewrite (bool_decide_false (l = [])), (bool_decide_false (Session.Status p ∈ l)); [|
    by destruct Hp as [->|[->|[-> _]]]|done].
  by rewrite !andb_false_r.
Qed.

Lemma unchecked_failed_unlisted p t :
  unchecked p ->
  SessionFilter.matches (SessionFilter.mk "" "" "" [StatusFailed] t true 0) p = false.
Proof.
  intros Hp. unfold SessionFilter.matches. cbn -[bool_decide].
  destruct Hp as [->|[->|[-> ->]]]; cbn; by rewrite ?andb_false_r.
Qed.

Lemma keeps_assoc {A B C} id p (c : M W A) (d : A -> M W B) (k : B -> M W C) :
  keeps id p (let! a := c in bind (d a) k) -> keeps id p (bind (bind c d) k).
Proof.
  intros Hk w Hw. apply Hk in Hw. apply wp_bind in Hw. apply wp_bind, wp_bind.
  eapply wp_mono; [exact Hw|]. intros a v Hv. by apply wp_bind in Hv.
Qed.

Lemma keeps_checkReservationExpiry id p :
  unchecked p -> keeps id p checkReservationExpiry.
Proof.
  intros Hp. apply keeps_assoc, keeps_bind; [keeps_solve|]. intros t.
  apply keeps_unlisted; [apply unchecked_unlisted; solve [assumption | by_dec]|by intros; keeps_solve|].
  intros ss Hss. apply keeps_for_each. intros s Hs. by apply keeps_expiry_body, Hss.
Qed.

Lemma keeps_checkOrphans id p : unchecked p -> keeps id p (checkOrphans m).
Proof.
  intros Hp. apply keeps_unlisted; [apply unchecked_unlisted; solve [assumption | by_dec]|
    by intros; keeps_solve|].
  intros ss Hss. keeps_solve. apply keeps_for_each. intros. apply keeps_orphan_body.
Qed.

Lemma keeps_checkStuckSessions id p : unchecked p -> keeps id p (checkStuckSessions m).
Proof.
  intros Hp. apply keeps_unlisted; [apply unchecked_unlisted; solve [assumption | by_dec]|
    by intros; keeps_solve|].
  intros ss Hss. keeps_solve. apply keeps_for_each. intros. by apply keeps_stuck_body, Hss.
Qed.

Lemma keeps_checkFailedDestroys id p : unchecked p -> keeps id p checkFailedDestroys.
Proof.
  intros Hp. apply keeps_unlisted; [by apply unchecked_failed_unlisted|
    by intros; keeps_solve|].
  intros ss Hss. apply keeps_for_each. intros. by apply keeps_failed_destroy_body, Hss.
Qed.

Lemma keeps_checkSSHHealth id p : unchecked p -> keeps id p checkSSHHealth.
Proof.
  intros Hp. apply keeps_unlisted; [apply unchecked_unlisted; solve [assumption | by_dec]|
    by intros; keeps_solve|intros; keeps_solve].
Qed.

(** No pass of the lifecycle checks changes a session that is stopped, or failed
    without a provider instance, or still pending: a pending session whose creation
    was interrupted is never failed by the stuck-session check. *)
Theorem runChecks_keeps_unchecked id p last w :
  sess_view w !! id = Some p -> unchecked p ->
  wp (runChecks m last) (fun _ w' => sess_view w' !! id = Some p) w.
Proof.
  intros Hw Hp. revert w Hw. change (keeps id p (runChecks m last)). unfold runChecks.
  pose proof (keeps_checkHardMax id p Hp). pose proof (keeps_checkReservationExpiry id p Hp).
  pose proof (keeps_checkOrphans id p Hp). pose proof (keeps_checkStuckSessions id p Hp).
  pose proof (keeps_checkFailedDestroys id p Hp). pose proof (keeps_checkSSHHealth id p Hp).
  keeps_solve.
Qed.
End PendingProofs.

Section OperationProofs.
Context {W : Type} `{SessionStore W} `{Env W} `{SessionDestroyer W} `{Ghost W}.
Context `{!StoreLaws W} `{!EnvLaws W} `{!DestroyerLaws W}.
Context (m : Config.t).

Definition extended (h : Z) (s : Session.t) : Session.t :=
  Session.set_ReservationHrs (wrap64 (Session.ReservationHrs s + h))
    (Session.set_ExpiresAt (Add (Session.ExpiresAt s) (dur_mul h Hour)) s).

Definition cannot_extend (s : Session.t) : Prop :=
  Session.IsTerminal s = true \/ Session.Status s = StatusStopping.

(** The duration [ExtendSession] compares with the maximum at the instant [t]: the
    age of the session plus the hours asked for. *)
Definition total_duration (t : time) (h : Z) (s : Session.t) : duration :=
  wrap64 (Sub t (Session.CreatedAt s) + dur_mul h Hour).

Lemma updated_by_extended h s : updated_by s (extended h s) = extended h s.
Proof. by destruct s. Qed.

(** The decision [ExtendSession] takes at the instant [t], and what it leaves stored. *)
Definition extension (t : time) (id : string) (h : Z) (s : Session.t) (v : gmap string Session.t)
    : option error * gmap string Session.t :=
  if Session.IsTerminal s || bool_decide (Session.Status s = StatusStopping)
  then (Some (SessionTerminalError id (Session.Status s)), v)
  else if negb (Session.HardMaxOverride s) && (hardMaxDuration m <? total_duration t h s)%Z
  then (Some (HardMaxExceededError id (Sub t (Session.CreatedAt s)) h (Config.hardMaxHours m)), v)
  else (None, <[id := extended h s]> v).

Lemma cannot_extend_dec s :
  Session.IsTerminal s || bool_decide (Session.Status s = StatusStopping) = true <-> cannot_extend s.
Proof. unfold cannot_extend. by rewrite orb_true_iff, bool_decide_eq_true. Qed.

(** On a database that answers, the outcome is that decision at an instant of the call. *)
Lemma wp_ExtendSession id h s w :
  sess_view w !! id = Some s -> healthy w ->
  wp (ExtendSession m id h) (fun r w' => later w w' /\
    exists t, (clock w <= t <= clock w')%Z /\ (r, sess_view w') = extension t id h s (sess_view w)) w.
Proof.
  intros Hs Hh. pose proof (view_id _ _ _ Hs) as Hid. apply wp_bind.
  eapply wp_mono; [apply Get_spec|]. intros [s1|e] w1 ([Hv Hl1] & Hr).
  2: { destruct Hr as [He Hn]. rewrite He in Hn by done. rewrite Hn in Hs by done. done. }
  rewrite Hs in Hr. injection Hr as <-. unfold extension.
  destruct (Session.IsTerminal s || _) eqn:Hc.
  { apply wp_ret. split; [done|]. exists (clock w). destruct Hl1. rewrite Hv. split; [lia|done]. }
  apply wp_bind. eapply wp_mono; [apply now_spec|]. intros t w2 ([Hv2 Hl2] & Ht). cbv zeta.
  assert (later w w2) as Hl by by etrans. destruct Hl1 as [Hc1 Hh1].
  fold (total_duration t h s).
  destruct (negb (Session.HardMaxOverride s) && (hardMaxDuration m <? total_duration t h s)%Z) eqn:Hmax.
  - apply wp_ret. split; [done|]. exists t. rewrite Hv2, Hv, Hmax. split; [lia|done].
  - apply (wp_write_back s); [congruence|done| |].
    + intros w3 Hl3 Hw3. split; [by etrans|]. exists t. destruct Hl3. split; [lia|].
      rewrite Hmax, Hw3, Hv2, Hv, <-Hid. by rewrite <-(updated_by_extended h s) at 1.
    + intros e w3 _ _ Hw3. destruct Hw3 as [Ha Hb]; [by apply Hl|].
      exfalso. revert Ha Hb. unfold Session.IsActive. cbn. congruence.
Qed.

(** Extending a session, on every branch.  On success the session was neither
    terminal nor stopping, had the override or would not exceed the maximum counted
    from its age, and exactly its expiry and reserved hours grow by the hours asked
    for.  On an error nothing is stored; a terminal or stopping session is refused
    with its status, and the maximum with the age it had. *)
Theorem ExtendSession_extends id h s w :
  sess_view w !! id = Some s -> healthy w ->
  wp (ExtendSession m id h) (fun r w' =>
    match r with
    | None => exists t, (clock w <= t <= clock w')%Z /\ ~ cannot_extend s /\
        (Session.HardMaxOverride s = true \/ (total_duration t h s <= hardMaxDuration m)%Z) /\
        sess_view w' = <[id := extended h s]> (sess_view w)
    | Some e => sess_view w' = sess_view w /\
        (cannot_extend s -> e = SessionTerminalError id (Session.Status s)) /\
        (~ cannot_extend s -> Session.HardMaxOverride s = false ->
         (forall t, (clock w <= t <= clock w')%Z -> (hardMaxDuration m < total_duration t h s)%Z) ->
         exists t, (clock w <= t <= clock w')%Z /\
           e = HardMaxExceededError id (Sub t (Session.CreatedAt s)) h (Config.hardMaxHours m))
    end) w.
Proof.
  intros Hs Hh. eapply wp_mono; [by apply wp_ExtendSession|].
  intros r w' (_ & t & Ht & Hr). revert Hr. unfold extension. pose proof (cannot_extend_dec s) as Hce.
  destruct (Session.IsTerminal s || _); [|assert (~ cannot_extend s) by (intros Hx%Hce; done)].
  { intros [= -> ->]. split_and!; [done..|]. intros Hn. destruct Hn. by apply Hce. }
  destruct (negb (Session.HardMaxOverride s) && _) eqn:Hmax; intros [= -> ->].
  - split_and!; [done..|]. intros _ _ _. by exists t.
  - exists t. split_and!; [lia..|done| |done].
    apply andb_false_iff in Hmax as [Hm|Hm]; [left; by apply negb_false_iff|right; by apply Z.ltb_ge].
Qed.
End OperationProofs.
