(* ===== verification/Provisioner.v ===== *)
(** [internal/service/provisioner/service.go]: the provisioner's configuration, the
    destruction of sessions ([DestroySession], [destroyWithVerification]) and
    [failSession]. *)
From S2P Require Import Prelude GoFloat GoLib Models Errors Interfaces Lifecycle.

(** The fields of [Service] that are configuration. *)
Module Service.
Record t := mk {
  deploymentID : string;
  sshVerifyTimeout : duration;
  sshCheckInterval : duration;
  sshMaxInterval : duration;
  sshBackoffMultiplier : f64;
  apiVerifyTimeout : duration;
  apiCheckInterval : duration;
  destroyRetries : Z;
  lowBalanceThreshold : f64
}.

(** The defaults of [New], with the generated deployment identifier. *)
Definition New (deploymentID : string) : t :=
  mk deploymentID (8 * Minute)%Z (15 * Second)%Z (60 * Second)%Z (f64_lit 15 10)
    (10 * Minute)%Z (15 * Second)%Z 10 (f64_of_Z 5).
End Service.

(** [provisioner.CostRecorder]; [None] when none is configured. *)
Class CostRecorder (W : Type) :=
  RecordFinalCost : option (Session.t -> M W (option error)).

(** ** Destruction *)
Section Destroy.
Context {W : Type} `{SessionStore W} `{Env W}.
Context (cfg : Service.t) (reg : gmap string (Provider.t W)).

(** The status answers that end [destroyWithVerification]. *)
Definition gone (r : result InstanceStatus.t) : bool :=
  match r with
  | Err e => error_exists is_instance_not_found e
  | Ok st => negb (InstanceStatus.Running st)
  end.

Definition destroy_delay (attempt : Z) : duration :=
  dur_mul (dur_mul (attempt + 1) 5%Z) Second.

(** The attempts left, from number [attempt] on; [n] is [destroyRetries - attempt]. *)
Fixpoint destroy_attempts (s : Session.t) (prov : Provider.t W) (n : nat) (attempt : Z)
    : M W (option error) :=
  match n with
  | O =>
      do! emit (Prom "RecordDestroyFailure" []) in
      ret (Some (DestroyVerificationError (Session.ID s) (Session.ProviderID s)
                   (Service.destroyRetries cfg)))
  | S n' =>
      do! Provider.DestroyInstance prov (Session.ProviderID s) in
      let! cancelled := wait (destroy_delay attempt) in
      match cancelled with
      | Some e => ret (Some e)
      | None =>
          let! status := Provider.GetInstanceStatus prov (Session.ProviderID s) in
          if gone status then ret None
          else destroy_attempts s prov n' (attempt + 1)
      end
  end.

Definition destroyWithVerification (s : Session.t) (prov : Provider.t W)
    : M W (option error) :=
  if bool_decide (Session.ProviderID s = "") then ret None
  else destroy_attempts s prov (Z.to_nat (Service.destroyRetries cfg)) 0.

(** The branch of [DestroySession] for a failed session that still has a provider
    instance. *)
Definition cleanup_failed (s : Session.t) : M W unit :=
  do! match Registry.Get reg (Session.Provider s) with
      | Ok prov => do! Provider.DestroyInstance prov (Session.ProviderID s) in skip
      | Err _ => skip
      end in
  let s := Session.set_ProviderID "" s in
  let s := Session.set_Status StatusStopped s in
  let! t := now in
  do! Update (Session.set_StoppedAt t s) in
  skip.

(** The rest of [DestroySession], for a session that is pending, provisioning or
    running. *)
Definition destroy_live (s : Session.t) : M W (option error) :=
  let preDestroyStatus := Session.Status s in
  let s := Session.set_Status StatusStopping s in
  do! Update s in
  do! emit (Prom "UpdateSessionStatus"
         [Session.Provider s; status_string preDestroyStatus;
          status_string StatusStopping]) in
  match Registry.Get reg (Session.Provider s) with
  | Err e => ret (Some (EWrap "provider not found" e))
  | Ok prov =>
      let! e := destroyWithVerification s prov in
      match e with
      | Some err => ret (Some err)
      | None =>
          let oldStatus := Session.Status s in
          let s := Session.set_Status StatusStopped s in
          let! t := now in
          let s := Session.set_StoppedAt t s in
          do! Update s in
          do! emit (Audit "session_destroyed"
                [Session.ID s; Session.ConsumerID s; Session.Provider s;
                 Session.ProviderID s; "user_requested"]) in
          do! emit (Prom "RecordSessionDestroyed"
                [Session.Provider s; "user_requested"]) in
          do! emit (Prom "UpdateSessionStatus"
                [Session.Provider s; status_string oldStatus;
                 status_string StatusStopped]) in
          ret None
      end
  end.

(** [DestroySession], as the holder of the session's destroy lock runs it. *)
Definition DestroySession (sessionID : string) : M W (option error) :=
  let! r := Get sessionID in
  match r with
  | Err e => ret (Some (EWrap "session not found" e))
  | Ok s =>
      if Session.IsTerminal s || bool_decide (Session.Status s = StatusStopping) then
        do! when (bool_decide (Session.Status s = StatusFailed) &&
                  negb (bool_decide (Session.ProviderID s = ""))) (cleanup_failed s) in
        ret None
      else
        destroy_live s
  end.

(** [failSession]; the result is the session the caller's pointer now holds. *)
Definition failSession `{CostRecorder W} (s : Session.t) (reason : string)
    : M W Session.t :=
  do! when (negb (bool_decide (Session.ProviderID s = "")))
        match Registry.Get reg (Session.Provider s) with
        | Ok prov =>
            let! e := Provider.DestroyInstance prov (Session.ProviderID s) in
            match e with
            | Some _ => skip
            | None => emit (Audit "instance_destroyed_on_fail"
                       [Session.ID s; Session.ProviderID s; Session.Provider s])
            end
        | Err _ => skip
        end in
  let oldStatus := Session.Status s in
  let s := Session.set_Status StatusFailed s in
  let s := Session.set_Error reason s in
  let! t := now in
  let s := Session.set_StoppedAt t s in
  do! Update s in
  do! emit (Prom "UpdateSessionStatus"
        [Session.Provider s; status_string oldStatus; status_string StatusFailed]) in
  match RecordFinalCost with
  | Some record => do! record s in ret s
  | None => ret s
  end.
End Destroy.

(** The provisioner is the lifecycle manager's destroyer. *)
Definition provisioner_destroyer {W} `{SessionStore W} `{Env W}
    (cfg : Service.t) (reg : gmap string (Provider.t W)) : SessionDestroyer W :=
  DestroySession cfg reg.

Section DestroyProofs.
Context {W : Type} `{SessionStore W} `{Env W} `{Ghost W}.
Context `{!StoreLaws W} `{!EnvLaws W}.
Context (cfg : Service.t) (reg : gmap string (Provider.t W)) `{!ProviderLaws W reg}.

Lemma frame_now : frame now.
Proof. intros w. eapply wp_mono; [apply now_spec|]. by intros t w' [Hq _]. Qed.

Lemma frame_destroy n p i : reg !! n = Some p -> frame (Provider.DestroyInstance p i).
Proof. intros Hp. by apply (prov_frame _ _ Hp). Qed.
Lemma frame_status n p i : reg !! n = Some p -> frame (Provider.GetInstanceStatus p i).
Proof. intros Hp. by apply (prov_frame _ _ Hp). Qed.

(** A status query that ended here confirmed that the instance is gone. *)
Definition confirmed_gone (p : Provider.t W) (pid : string) (w' : W) : Prop :=
  exists v, gone (fst (Provider.GetInstanceStatus p pid v)) = true /\ w' = snd (Provider.GetInstanceStatus p pid v).

Lemma wp_destroy_attempts n p s k a w :
  reg !! n = Some p ->
  wp (destroy_attempts cfg s p k a) (fun r w' => quiet w w' /\ (r = None -> confirmed_gone p (Session.ProviderID s) w')) w.
Proof.
  intros Hp. revert a w. induction k as [|k IH]; intros a w; simpl.
  { apply (wp_quiet_seq w); [auto with frame|done|]. intros _ v Hq. by apply wp_ret. }
  apply (wp_quiet_seq w); [by eapply frame_destroy|done|]. intros _ v Hq.
  apply (wp_quiet_seq w); [auto with frame|done|]. intros [e|] v2 Hq2; [by apply wp_ret|].
  apply wp_bind. pose proof (frame_status n p (Session.ProviderID s) Hp v2) as Hst.
  destruct (gone (fst (Provider.GetInstanceStatus p (Session.ProviderID s) v2))) eqn:Hg.
  - unfold wp at 1. rewrite Hg. apply wp_ret. split; [by etrans|]. intros _. by exists v2.
  - unfold wp at 1. rewrite Hg. eapply wp_mono; [apply IH|]. intros r w' [Hq' Hr].
    split; [|done]. etrans; [done|]. by etrans.
Qed.

Lemma wp_destroyWithVerification n p s w :
  reg !! n = Some p ->
  wp (destroyWithVerification cfg s p) (fun r w' => quiet w w' /\ (r = None -> Session.ProviderID s = "" \/ confirmed_gone p (Session.ProviderID s) w')) w.
Proof.
  intros Hp. unfold destroyWithVerification. case_bool_decide as Hid.
  - apply wp_ret. split; [done|]. by left.
  - eapply wp_mono; [by apply (wp_destroy_attempts n)|]. intros r w' [Hq Hr].
    split; [done|]. intros Hn. right. by apply Hr.
Qed.

Definition stopped_at (t : time) (s : Session.t) : Session.t :=
  Session.set_StoppedAt t (Session.set_Status StatusStopped s).

(** What [DestroySession] makes of a session that is pending, provisioning or
    running: on success it is stopped, and it had no provider instance or its
    provider confirmed that the instance is gone; on an error it is left stopping. *)
Definition destroyed (s s' : Session.t) (r : option error) (w w' : W) : Prop :=
  match r with
  | None => (exists t, (clock w <= t <= clock w')%Z /\ s' = stopped_at t s) /\
      (Session.ProviderID s = "" \/
       exists p v, reg !! Session.Provider s = Some p /\ confirmed_gone p (Session.ProviderID s) v)
  | Some _ => s' = Session.set_Status StatusStopping s
  end.

(** [Update] of a session that is no longer active, in a state where the stored
    session is [s1]. *)
Lemma wp_update_inactive s1 s' (Q : option error -> W -> Prop) w :
  sess_view w !! Session.ID s1 = Some s1 -> Session.ID s' = Session.ID s1 ->
  Session.IsActive s' = false ->
  (forall r w' s2, later w w' -> sess_view w' = <[Session.ID s1 := s2]> (sess_view w) ->
     (s2 = s1 \/ s2 = updated_by s1 s') -> (healthy w -> s2 = updated_by s1 s') -> Q r w') ->
  wp (Update s') Q w.
Proof.
  intros Hs Hid Ha HQ. apply (wp_write_back s1); [done|done| |].
  - intros w' Hl Hv. eapply HQ; [done|done|by right|done].
  - intros e w' Hl Hv Hh. eapply (HQ _ _ s1); [done| |by left|].
    + by rewrite insert_id.
    + intros Hw. destruct (Hh Hw). congruence.
Qed.

Lemma stopped_change t s s1 :
  Session.IsActive s = true -> s1 = s \/ s1 = Session.set_Status StatusStopping s ->
  updated_by s1 (stopped_at t (Session.set_Status StatusStopping s)) = stopped_at t s.
Proof. intros _ [->| ->]; by destruct s. Qed.

Lemma wp_destroy_live s w :
  sess_view w !! Session.ID s = Some s -> Session.IsActive s = true ->
  wp (destroy_live cfg reg s) (fun r w' => later w w' /\
    (forall j, j <> Session.ID s -> sess_view w' !! j = sess_view w !! j) /\
    exists s', sess_view w' !! Session.ID s = Some s' /\ destroy_change s s' /\
      (healthy w -> destroyed s s' r w w')) w.
Proof.
  intros Hs Ha. unfold destroy_live. apply wp_bind, (wp_update_inactive s); [done..|].
  intros _ w1 s1 Hl1 Hv1 Hs1 Hh1.
  assert (updated_by s (Session.set_Status StatusStopping s) =
          Session.set_Status StatusStopping s) as Hup by (by destruct s).
  rewrite Hup in Hs1, Hh1. clear Hup.
  assert (destroy_change s s1) as Hch by (destruct Hs1 as [->| ->]; by constructor).
  assert (forall e w', quiet w1 w' -> later w w' /\
    (forall j, j <> Session.ID s -> sess_view w' !! j = sess_view w !! j) /\
    exists s', sess_view w' !! Session.ID s = Some s' /\ destroy_change s s' /\
      (healthy w -> destroyed s s' (Some e) w w')) as Hfail.
  { intros e w' [Hv Hl]. rewrite Hv, Hv1. split_and!; [by etrans| |].
    - intros j Hj. by rewrite lookup_insert_ne.
    - exists s1. by rewrite lookup_insert_eq. }
  apply (wp_quiet_seq w1); [auto with frame|done|]. intros _ w2 Hq2.
  unfold Registry.Get. cbn [Session.Provider Session.set_Status].
  destruct (reg !! Session.Provider s) as [p|] eqn:Hp; [|apply wp_ret; by apply Hfail].
  apply wp_bind. eapply wp_mono; [by eapply wp_destroyWithVerification|].
  intros [e|] w3 [Hq3 Hr]; [apply wp_ret, Hfail; by etrans|].
  apply wp_bind. eapply wp_mono; [apply now_spec|]. intros t w4 [Hq4 Ht].
  assert (quiet w1 w4) as [Hv4 Hl4] by (etrans; [done|]; by etrans).
  apply wp_bind, (wp_update_inactive s1).
  - rewrite Hv4, Hv1. destruct Hs1 as [->| ->]; apply lookup_insert_eq.
  - by destruct Hs1 as [->| ->].
  - done.
  - intros _ w5 s5 Hl5 Hv5 Hs5 Hh5. fold (stopped_at t (Session.set_Status StatusStopping s)) in *.
    rewrite (stopped_change t s) in Hs5, Hh5 by done. wp_emit. apply wp_ret.
    destruct Hq as [Hv Hl]. rewrite Hv, Hv5, Hv4, Hv1.
    assert (Session.ID s1 = Session.ID s) as -> by (by destruct Hs1 as [->| ->]).
    split_and!; [etrans; [done|]; etrans; [done|]; by etrans| |].
    + intros j Hj. by rewrite !lookup_insert_ne.
    + exists s5. rewrite lookup_insert_eq. split_and!; [done| |].
      * destruct Hs5 as [->| ->]; [done|]. by constructor.
      * intros Hw. split; [|].
        -- exists t. destruct Hl1 as [Hc1 Hw1], Hl4 as [Hc4 Hw4], Hl5, Hl, Hq3 as [_ [Hc3 _]].
           destruct Hq2 as [_ [Hc2 _]]. split; [lia|auto].
        -- destruct (Hr eq_refl) as [He|Hg]; [by left|right]. exists p, w3. by split.
Qed.

(** A failed session that still has a provider instance. *)
Definition needs_cleanup (s : Session.t) : Prop :=
  Session.Status s = StatusFailed /\ Session.ProviderID s <> "".

Definition cleaned_at (t : time) (s : Session.t) : Session.t :=
  stopped_at t (Session.set_ProviderID "" s).

Lemma wp_cleanup_failed s w :
  sess_view w !! Session.ID s = Some s ->
  wp (cleanup_failed reg s) (fun _ w' => later w w' /\
    (forall j, j <> Session.ID s -> sess_view w' !! j = sess_view w !! j) /\
    exists t s', (clock w <= t <= clock w')%Z /\ sess_view w' !! Session.ID s = Some s' /\
      (s' = s \/ s' = cleaned_at t s) /\ (healthy w -> s' = cleaned_at t s)) w.
Proof.
  intros Hs. unfold cleanup_failed.
  apply (wp_quiet_seq w); [|done|].
  { unfold Registry.Get. destruct (reg !! Session.Provider s) eqn:Hp; [|apply frame_ret].
    apply frame_bind; [by eapply frame_destroy|]. intros _. apply frame_ret. }
  intros _ w1 [Hv1 Hl1]. cbv zeta. apply wp_bind. eapply wp_mono; [apply now_spec|].
  intros t w2 ([Hv2 Hl2] & Ht). apply wp_bind, (wp_update_inactive s); [by rewrite Hv2, Hv1|done..|].
  intros _ w3 s3 Hl3 Hv3 Hs3 Hh3. apply wp_ret. rewrite Hv3, Hv2, Hv1.
  assert (forall s', updated_by s (Session.set_StoppedAt t (Session.set_Status StatusStopped
            (Session.set_ProviderID "" s))) = s' -> s' = cleaned_at t s) as Hup.
  { intros s' <-. by destruct s. }
  split_and!; [etrans; [done|]; by etrans| |].
  - intros j Hj. by rewrite lookup_insert_ne.
  - exists t, s3. rewrite lookup_insert_eq. destruct Hl1, Hl2, Hl3.
    split_and!; [lia|lia|done| |].
    + destruct Hs3 as [->|Hs3]; [by left|right]. by apply Hup.
    + intros Hw. apply Hup. symmetry. auto.
Qed.

(** [DestroySession] on every stored session. *)
Lemma wp_DestroySession id w :
  wp (DestroySession cfg reg id) (fun r w' => later w w' /\
    (forall j, j <> id -> sess_view w' !! j = sess_view w !! j) /\
    match sess_view w !! id with
    | None => sess_view w' !! id = None /\ r <> None
    | Some s => exists s', sess_view w' !! id = Some s' /\ destroy_change s s' /\
        (healthy w ->
           (Session.IsActive s = true -> destroyed s s' r w w') /\
           (needs_cleanup s -> r = None /\
              exists t, (clock w <= t <= clock w')%Z /\ s' = cleaned_at t s) /\
           (Session.IsActive s = false -> ~ needs_cleanup s -> r = None /\ s' = s))
    end) w.
Proof.
  apply wp_bind. eapply wp_mono; [apply Get_spec|].
  intros [s|e] w1 ([Hv1 Hl1] & Hr).
  2: { apply wp_ret. rewrite Hv1. split_and!; [done|done|]. destruct (sess_view w !! id) eqn:Hs.
    - eexists. split_and!; [done|by constructor|]. intros Hh. destruct Hr as [He Hn].
      rewrite He in Hn by done. by discriminate Hn.
    - done. }
  pose proof (view_id _ _ _ Hr) as Hid. rewrite Hr. rewrite <-Hid, <-Hv1 in Hr.
  destruct (Session.IsTerminal s || bool_decide (Session.Status s = StatusStopping)) eqn:Ht.
  - assert (Session.IsActive s = false) as Hina.
    { revert Ht. unfold Session.IsTerminal, Session.IsActive. by destruct (Session.Status s). }
    destruct (bool_decide (Session.Status s = StatusFailed) &&
              negb (bool_decide (Session.ProviderID s = ""))) eqn:Hf; cbn [when].
    + apply andb_true_iff in Hf as [Hf1 Hf2]. apply bool_decide_eq_true in Hf1.
      apply negb_true_iff, bool_decide_eq_false in Hf2.
      apply wp_bind. eapply wp_mono; [by apply wp_cleanup_failed|].
      intros _ w2 (Hl2 & Ho & t & s' & Htb & Hs' & Hc & Hh). apply wp_ret.
      rewrite Hv1, Hid in *. split_and!; [by etrans|done|]. exists s'. split_and!; [done| |].
      { destruct Hc as [->| ->]; [constructor|]. by apply dc_cleaned. }
      intros Hw. split_and!; [congruence| |by intros ? []].
      intros _. split; [done|]. exists t. destruct Hl1 as [? Hl1]. split; [lia|auto].
    + apply wp_bind, wp_ret, wp_ret. rewrite Hv1, Hid in *. split_and!; [done..|]. exists s.
      split_and!; [done|constructor|]. intros _. split_and!; [congruence| |done].
      intros [Hn1 Hn2]. rewrite bool_decide_true, bool_decide_false in Hf; done.
  - assert (Session.IsActive s = true) as Hact.
    { revert Ht. unfold Session.IsTerminal, Session.IsActive. by destruct (Session.Status s). }
    eapply wp_mono; [by apply wp_destroy_live|].
    intros r w2 (Hl2 & Ho & s' & Hs' & Hc & Hd). rewrite Hv1, Hid in *.
    split_and!; [by etrans|done|]. exists s'. split_and!; [done..|]. intros Hw.
    split_and!; [|intros [Hn _]|congruence].
    + intros _. destruct Hl1 as [Hc1 Hh1]. specialize (Hd (Hh1 Hw)). revert Hd.
      unfold destroyed. destruct r; [done|]. intros [(t & ? & ->) Hg]. split; [|done].
      exists t. split; [lia|done].
    + revert Hact. unfold Session.IsActive. by rewrite Hn.
Qed.

(** The provisioner keeps what the lifecycle manager relies on. *)
Lemma provisioner_destroyer_laws : @DestroyerLaws W (DestroySession cfg reg) _.
Proof.
  intros id w. eapply wp_mono; [apply wp_DestroySession|].
  intros r w' (Hl & Ho & Hr). split_and!; [done..|].
  destruct (sess_view w !! id) as [s|] eqn:Hs; [|tauto].
  destruct Hr as (s' & Hs' & Hc & Hh). exists s'. split_and!; [done..|].
  intros Hw. specialize (Hh Hw) as (Ha & Hn & Hi).
  destruct (Session.IsActive s) eqn:Hact.
  - specialize (Ha eq_refl). unfold destroyed in Ha. destruct r; [by subst|].
    by destruct Ha as [(t & _ & ->) _].
  - destruct (decide (Session.Status s = StatusFailed)) as [Hf|Hf];
      [destruct (decide (Session.ProviderID s = "")) as [Hp|Hp]|].
    + destruct Hi as [_ ->]; [done|by intros []|done].
    + by destruct Hn as (_ & t & _ & ->).
    + destruct Hi as [_ ->]; [done|by intros []|done].
Qed.

(** Destroying a failed session that still has a provider instance always
    succeeds, whatever the provider answered: the session becomes stopped and its
    instance identifier is erased, confirmed gone or not. *)
Theorem DestroySession_forgets_instance id s w :
  healthy w -> sess_view w !! id = Some s -> needs_cleanup s ->
  wp (DestroySession cfg reg id) (fun r w' => r = None /\
    exists t, (clock w <= t <= clock w')%Z /\ sess_view w' !! id = Some (cleaned_at t s)) w.
Proof.
  intros Hw Hs Hc. eapply wp_mono; [apply wp_DestroySession|].
  intros r w' (_ & _ & Hr). rewrite Hs in Hr. destruct Hr as (s' & Hs' & _ & Hh).
  destruct (Hh Hw) as (_ & Hn & _). destruct (Hn Hc) as (-> & t & Ht & ->). eauto.
Qed.

(** An instance that never goes away: when the context does not end and no
    status answer ever shows the instance gone, destruction with verification gives
    up after the configured number of attempts with that count in its error. *)
Theorem destroyWithVerification_gives_up p s w :
  Session.ProviderID s <> "" ->
  (forall d v, fst (wait d v) = None) ->
  (forall v, gone (fst (Provider.GetInstanceStatus p (Session.ProviderID s) v)) = false) ->
  fst (destroyWithVerification cfg s p w) =
    Some (DestroyVerificationError (Session.ID s) (Session.ProviderID s)
            (Service.destroyRetries cfg)).
Proof.
  intros Hid Hwait Hst. unfold destroyWithVerification. rewrite bool_decide_false by done.
  generalize 0%Z. revert w. induction (Z.to_nat _) as [|n IH]; intros w a; simpl; unfold bind.
  { by destruct (emit _ w). }
  destruct (Provider.DestroyInstance _ _ w) as [d v].
  pose proof (Hwait (destroy_delay a) v) as Hc. destruct (wait _ v) as [c v2]. simpl in Hc.
  subst c. pose proof (Hst v2) as Hg.
  destruct (Provider.GetInstanceStatus _ _ v2) as [st v3]. simpl in Hg. rewrite Hg. apply IH.
Qed.
End DestroyProofs.

(** ** What the provider is asked *)
Section DestroyCalls.
Context {W : Type} `{SessionStore W} `{Env W} `{Ghost W} `{CallLog W}.
Context `{!StoreLaws W} `{!EnvLaws W}.
Context (cfg : Service.t) (reg : gmap string (Provider.t W)) `{!ProviderLaws W reg}.
Context `{!CallLogLaws W reg} `{!StatusSilent W reg} `{!DestroySilent W}.

(** Between two states the destruction of the session's instance was asked for, and of no
    other; or of none. *)
Definition asked_for (s : Session.t) (w w' : W) : Prop :=
  destroy_calls w' = {[Session.ProviderID s]} ∪ destroy_calls w.
Definition asked_none (w w' : W) : Prop := destroy_calls w' = destroy_calls w.

(** What follows a call that asks for nothing. *)
Lemma wp_silent {A B} (m : M W A) (k : A -> M W B) (Q : B -> W -> Prop) w :
  silent m -> (forall a v, asked_none w v -> wp (k a) Q v) -> wp (bind m k) Q w.
Proof. intros Hm Hk. apply wp_bind. eapply wp_mono; [apply Hm|]. exact Hk. Qed.
Lemma wp_silent_end {A} (m : M W A) (P : W -> Prop) w :
  silent m -> (forall v, asked_none w v -> P v) -> wp m (fun _ v => P v) w.
Proof. intros Hm HP. eapply wp_mono; [apply Hm|]. intros a v. apply HP. Qed.

Lemma asks_destroyWithVerification n p s w :
  reg !! n = Some p ->
  wp (destroyWithVerification cfg s p) (fun r w' =>
    if bool_decide (Session.ProviderID s = "") then asked_none w w'
    else asked_for s w w' \/ (r <> None /\ asked_none w w')) w.
Proof.
  intros Hp. unfold destroyWithVerification. case_bool_decide; [by apply wp_ret|].
  assert (forall k a v, asked_for s w v \/ asked_none w v ->
    wp (destroy_attempts cfg s p k a) (fun r w' => asked_for s w w' \/ (r <> None /\ asked_none w w')) v) as Hloop;
    [|by apply Hloop; right].
  induction k as [|k IH]; intros a v Hv; cbn [destroy_attempts].
  { apply wp_silent; [apply emit_silent|]. intros u v1 Hv1. apply wp_ret. unfold asked_for, asked_none in *.
    rewrite Hv1. destruct Hv; [by left|by right]. }
  apply wp_bind. eapply wp_mono; [by apply (destroy_logged (registry := reg) n)|]. intros e v1 Hv1.
  assert (asked_for s w v1) as Ha.
  { unfold asked_for, asked_none in *. rewrite Hv1. destruct Hv as [->| ->]; [by rewrite union_assoc_L, union_idemp_L|done]. }
  apply wp_silent; [apply wait_silent|]. intros [c|] v2 Hv2;
    (assert (asked_for s w v2) as Ha2 by (unfold asked_for, asked_none in *; congruence)); [apply wp_ret; by left|].
  apply wp_silent; [by eapply status_silent|]. intros st v3 Hv3.
  assert (asked_for s w v3) as Ha3 by (unfold asked_for, asked_none in *; congruence).
  destruct (gone st); [apply wp_ret; by left|]. apply IH. by left.
Qed.

(** A live session: the destruction of its instance is asked for, or the call fails. *)
Lemma asks_destroy_live s w :
  wp (destroy_live cfg reg s) (fun r w' =>
    asked_none w w' /\ (r = None -> Session.ProviderID s = "") \/
    asked_for s w w' /\ Session.ProviderID s <> "") w.
Proof.
  unfold destroy_live. cbv zeta. apply wp_silent; [apply update_silent|]. intros _ w1 Hw1.
  apply wp_silent; [apply emit_silent|]. intros _ w2 Hw2.
  assert (asked_none w w2) as Hw by (unfold asked_none in *; congruence).
  unfold Registry.Get. cbn [Session.Provider Session.set_Status].
  destruct (reg !! Session.Provider s) as [p|] eqn:Hp; [|apply wp_ret; by left].
  apply wp_bind. eapply wp_mono; [by eapply asks_destroyWithVerification|]. cbn [Session.ProviderID Session.set_Status].
  intros r w3 Hr. assert (forall v, asked_none w3 v ->
    asked_none w v /\ (r = None -> Session.ProviderID s = "") \/ asked_for s w v /\ Session.ProviderID s <> "") as Hend.
  { intros v Hv. unfold asked_none, asked_for in *. cbn [Session.ProviderID Session.set_Status] in Hr. rewrite Hv.
    case_bool_decide; [left; split; [congruence|done]|].
    destruct Hr as [Hr|[Hr Hn]]; [right|left]; (split; [congruence|done]). }
  destruct r as [e|]; [apply wp_ret; by apply Hend|].
  repeat (apply wp_silent; [first [apply now_silent|apply update_silent|apply emit_silent]|]; intros ? ? ?).
  apply wp_ret, Hend. unfold asked_none in *. congruence.
Qed.
Lemma asks_cleanup_failed s w :
  wp (cleanup_failed reg s) (fun _ w' =>
    if decide (is_Some (reg !! Session.Provider s)) then asked_for s w w' else asked_none w w') w.
Proof.
  unfold cleanup_failed. cbv zeta.
  assert (forall v (P : W -> Prop), (forall v', asked_none v v' -> P v') ->
    wp (let! t := now in do! Update (Session.set_StoppedAt t (Session.set_Status StatusStopped (Session.set_ProviderID "" s))) in skip)
      (fun _ => P) v) as Hrest.
  { intros v P HP. apply wp_silent_end; [|done]. apply silent_bind; [apply now_silent|intros t].
    apply silent_bind; [apply update_silent|intros; apply silent_ret]. }
  unfold Registry.Get. apply wp_bind. destruct (decide (is_Some (reg !! Session.Provider s))) as [[p Hp]|Hn].
  - rewrite Hp. apply wp_bind. eapply wp_mono; [by eapply (destroy_logged (registry := reg))|].
    intros e v Hv. apply wp_ret, Hrest. intros v' Hv'. unfold asked_for, asked_none in *. congruence.
  - apply eq_None_not_Some in Hn as ->. by apply wp_ret, Hrest.
Qed.

Lemma asks_DestroySession id w :
  healthy w ->
  wp (DestroySession cfg reg id) (fun r w' =>
    match sess_view w !! id with
    | None => asked_none w w'
    | Some s =>
        (Session.IsActive s = true ->
           asked_none w w' /\ (r = None -> Session.ProviderID s = "") \/
           asked_for s w w' /\ Session.ProviderID s <> "") /\
        (needs_cleanup s ->
           if decide (is_Some (reg !! Session.Provider s)) then asked_for s w w' else asked_none w w') /\
        (Session.IsActive s = false -> ~ needs_cleanup s -> asked_none w w')
    end) w.
Proof.
  intros Hw. unfold DestroySession. apply wp_bind.
  eapply wp_mono; [apply wp_and; [apply Get_spec|apply get_silent]|]. intros [s|e] v [[_ Hr] Hv].
  2: { apply wp_ret. destruct Hr as [He Hn]. rewrite Hn; [done|]. by rewrite He. }
  rewrite Hr. assert (forall s w', asked_for s v w' -> asked_for s w w') as Hfor
    by (unfold asked_for; intros ? ?; by rewrite Hv).
  assert (forall w', asked_none v w' -> asked_none w w') as Hnone by (unfold asked_none; intros ?; by rewrite Hv).
  destruct (_ || _) eqn:Ht.
  - assert (Session.IsActive s = false) as Hina
      by (revert Ht; unfold Session.IsTerminal, Session.IsActive; by destruct (Session.Status s)).
    clear Ht. apply wp_bind. unfold when. case_bool_decide as Hf; cbn [andb]; [case_bool_decide as Hid; cbn [negb]|].
    + apply wp_ret, wp_ret. split_and!; [congruence|intros [_ Hne]; by destruct Hne|intros _ _; by apply Hnone].
    + eapply wp_mono; [apply asks_cleanup_failed|]. intros u w' Hu. apply wp_ret.
      split_and!; [congruence| |by intros _ []]. intros _. case_decide; auto.
    + apply wp_ret, wp_ret. split_and!; [congruence|by intros []|intros _ _; by apply Hnone].
  - assert (Session.IsActive s = true) as Hact
      by (revert Ht; unfold Session.IsTerminal, Session.IsActive; by destruct (Session.Status s)).
    eapply wp_mono; [apply asks_destroy_live|]. intros r w' Hl. split_and!; [|intros [Hn _]|congruence].
    + intros _. destruct Hl as [[? ?]|[? ?]]; auto.
    + revert Hact. unfold Session.IsActive. by rewrite Hn.
Qed.

(** C5.  [DestroySession] on a database that answers.  An unknown session is an
    error.  A pending, provisioning or running session is stopped on success, and
    then it had no provider instance, or the destruction of its instance was asked for
    and its provider confirmed that it is gone; on an error it is left in the stopping
    state.  A failed session that still has a provider instance becomes stopped at a
    time during the call, its instance identifier erased, and the call succeeds,
    confirmed gone or not; the destruction was asked for if its provider is registered.
    A session that is stopping or stopped, or failed without a provider instance, is left
    as it is, nothing is asked for, and the call succeeds.  No other session changes, and
    no other instance is asked to be destroyed. *)
Theorem DestroySession_confirms id w :
  healthy w ->
  wp (DestroySession cfg reg id) (fun r w' =>
    (forall j, j <> id -> sess_view w' !! j = sess_view w !! j) /\
    match sess_view w !! id with
    | None => r <> None /\ sess_view w' !! id = None /\ asked_none w w'
    | Some s =>
        (Session.IsActive s = true ->
           (exists s', sess_view w' !! id = Some s' /\ destroyed reg s s' r w w') /\
           (asked_none w w' /\ (r = None -> Session.ProviderID s = "") \/
            asked_for s w w' /\ Session.ProviderID s <> "")) /\
        (needs_cleanup s ->
           r = None /\ (exists t, (clock w <= t <= clock w')%Z /\
             sess_view w' !! id = Some (cleaned_at t s)) /\
           if decide (is_Some (reg !! Session.Provider s)) then asked_for s w w' else asked_none w w') /\
        (Session.IsActive s = false -> ~ needs_cleanup s ->
           r = None /\ sess_view w' !! id = Some s /\ asked_none w w')
    end) w.
Proof.
  intros Hw. eapply wp_mono; [exact (wp_and _ _ _ _ (wp_DestroySession cfg reg id w) (asks_DestroySession id w Hw))|].
  intros r w' [(_ & Ho & Hr) Hq]. split; [done|]. destruct (sess_view w !! id) as [s|]; [|tauto].
  destruct Hr as (s' & Hs' & _ & Hh). specialize (Hh Hw) as (Ha & Hn & Hi). destruct Hq as (Hqa & Hqn & Hqi). split_and!.
  - intros Hact. split; [exists s'; by split; [|apply Ha]|by apply Hqa].
  - intros Hc. destruct (Hn Hc) as (-> & t & Ht & ->). split; [done|]. split; [by exists t|by apply Hqn].
  - intros Hna Hnc. destruct (Hi Hna Hnc) as [-> ->]. split; [done|]. split; [done|by apply Hqi].
Qed.
End DestroyCalls.
