(* ===== verification/Disk.v ===== *)
(** [internal/service/provisioner/disk.go]: the estimation of the disk space a model
    needs, from its identifier, its quantization and a template's recommendation. *)
From S2P Require Import Prelude GoFloat GoLib GoStrings Models Errors.
From Stdlib Require Import Ascii.

Definition dockerImageVLLM : f64 := f64_of_Z 15.
Definition dockerImageDefault : f64 := f64_of_Z 10.
Definition systemOverhead : f64 := f64_of_Z 5.

Definition knownModels : gmap string Z :=
  list_to_map
    [("deepseek-ai/deepseek-r1", 671%Z); ("deepseek-ai/deepseek-v3", 671%Z);
     ("deepseek-ai/deepseek-v2", 236%Z); ("deepseek-ai/deepseek-coder-v2", 236%Z);
     ("mistralai/mixtral-8x22b-v0.1", 176%Z); ("mistralai/mixtral-8x22b-instruct", 176%Z);
     ("meta-llama/llama-2-70b-hf", 70%Z); ("meta-llama/meta-llama-3-70b", 70%Z);
     ("meta-llama/meta-llama-3.1-70b", 70%Z); ("meta-llama/meta-llama-3.1-405b", 405%Z);
     ("meta-llama/meta-llama-3.1-405b-fp8", 405%Z); ("01-ai/yi-34b", 34%Z);
     ("tiiuae/falcon-180b", 180%Z)].

(** ** The two regular expressions

    Both are deterministic once the first separator is fixed: a run of digits is
    followed by a byte that is not a digit, so the greedy run is the only one that
    can match.  A match is the leftmost. *)
(** [\d+] *)
Definition match_int (s : string) : option (Z * string) :=
  match digits s 0 0 with
  | (_, O, _) => None
  | (v, _, rest) => Some (v, rest)
  end.

(** [\d+(?:\.\d+)?]: the digits without the point, the number of decimals. *)
Definition match_decimal (s : string) : option (Z * nat * string) :=
  match match_int s with
  | None => None
  | Some (v, rest) =>
      match rest with
      | String "." frac =>
          match digits frac v 0 with
          | (_, O, _) => Some (v, O, rest)
          | (v', k, rest') => Some (v', k, rest')
          end
      | _ => Some (v, O, rest)
      end
  end.

Definition is_sep (c : ascii) : bool := Ascii.eqb c "-" || Ascii.eqb c "_".

(** [(?i)b(?:[\-_.]|$)] *)
Definition match_b_end (s : string) : bool :=
  match s with
  | String c s' =>
      Ascii.eqb (ascii_lower c) "b" &&
      match s' with
      | EmptyString => true
      | String d _ => is_sep d || Ascii.eqb d "."
      end
  | EmptyString => false
  end.

(** [(\d+)x(\d+(?:\.\d+)?)b(?:[\-_.]|$)] after the separator. *)
Definition match_param (s : string) : option (Z * (Z * nat)) :=
  match match_int s with
  | Some (mult, String x rest) =>
      if Ascii.eqb (ascii_lower x) "x" then
        match match_decimal rest with
        | Some (v, k, rest') => if match_b_end rest' then Some (mult, (v, k)) else None
        | None => None
        end
      else None
  | _ => None
  end.

(** [(\d+(?:\.\d+)?)b(?:[\-_.]|$)] after the separator. *)
Definition match_simple (s : string) : option (Z * nat) :=
  match match_decimal s with
  | Some (v, k, rest) => if match_b_end rest then Some (v, k) else None
  | None => None
  end.

(** The leftmost match of [[\-_]] followed by [m]. *)
Fixpoint find_after_sep {A} (m : string -> option A) (s : string) : option A :=
  match s with
  | EmptyString => None
  | String c s' =>
      match (if is_sep c then m s' else None) with
      | Some r => Some r
      | None => find_after_sep m s'
      end
  end.

(** [strconv.ParseFloat] of matched digits: an error when the value overflows. *)
Definition ParseFloat (v : Z) (decimals : nat) : option f64 :=
  match decimal_f64 v decimals with
  | S754_infinity _ | S754_nan => None
  | x => Some x
  end.

Definition parseParamCount (modelID : string) : f64 :=
  if bool_decide (modelID = "") then f0
  else match knownModels !! ToLower modelID with
  | Some count => f64_of_Z count
  | None =>
      let simple :=
        match find_after_sep match_simple modelID with
        | Some (v, k) => match ParseFloat v k with Some count => count | None => f0 end
        | None => f0
        end in
      match find_after_sep match_param modelID with
      | Some (mult, (v, k)) =>
          match ParseFloat mult 0, ParseFloat v k with
          | Some multiplier, Some base => fmul multiplier base
          | _, _ => simple
          end
      | None => simple
      end
  end.

Definition bytesPerParam (quantization : string) : f64 :=
  let q := ToUpper quantization in
  let eqs x := bool_decide (q = x) in
  if eqs "FP32" then f64_of_Z 4
  else if eqs "FP16" || eqs "BF16" || eqs "" then f64_of_Z 2
  else if eqs "FP8" then f64_of_Z 1
  else if eqs "INT8" then f64_of_Z 1
  else if eqs "AWQ" || eqs "GPTQ" then f64_lit 5625 10000
  else if eqs "INT4" || eqs "GGUF-Q4" then f64_lit 1 2
  else f64_of_Z 2.

Definition inferQuantization (modelID : string) : string :=
  let has := Contains (ToUpper modelID) in
  if has "-AWQ" || has "_AWQ" then "AWQ"
  else if has "-GPTQ" || has "_GPTQ" then "GPTQ"
  else if has "-FP8" || has "_FP8" then "FP8"
  else if has "-INT8" || has "_INT8" then "INT8"
  else if has "-INT4" || has "_INT4" then "INT4"
  else "".

Definition ceil_int (x : f64) : Z := int_of_f64 x (Z_of_f64_ceil x).

Definition roundUpTo5 (n : Z) : Z :=
  if (Z.rem n 5 =? 0)%Z then n else wrap64 (n + (5 - Z.rem n 5)).

Definition EstimateDiskRequirements (modelID quantization templateHashID : string)
    (templateRecommendedDiskGB : Z) : option DiskEstimation.t :=
  let paramCount := parseParamCount modelID in
  if feqb paramCount f0 && (templateRecommendedDiskGB =? 0)%Z then None
  else
    let quantization :=
      if bool_decide (quantization = "") then inferQuantization modelID else quantization in
    let dockerImage :=
      if bool_decide (templateHashID = "") then dockerImageDefault else dockerImageVLLM in
    let weight := if fgtb paramCount f0 then fmul paramCount (bytesPerParam quantization) else f0 in
    let buffer := if fgtb paramCount f0 then fmul weight (f64_lit 1 2) else f0 in
    let minimum := fadd (fadd (fadd weight buffer) dockerImage) systemOverhead in
    let minimumGB := ceil_int minimum in
    let recommendedGB := roundUpTo5 (ceil_int (fmul minimum (f64_lit 12 10))) in
    let recommendedGB :=
      if (recommendedGB <? templateRecommendedDiskGB)%Z then templateRecommendedDiskGB
      else recommendedGB in
    let minimumGB :=
      if (minimumGB <? templateRecommendedDiskGB)%Z then templateRecommendedDiskGB
      else minimumGB in
    Some (DiskEstimation.mk weight buffer dockerImage systemOverhead minimumGB recommendedGB
            templateRecommendedDiskGB modelID quantization paramCount).

Definition ValidateDiskSpace (requestedDiskGB : Z) (estimation : option DiskEstimation.t)
    : option error :=
  match estimation with
  | None => None
  | Some est =>
      if (requestedDiskGB =? 0)%Z then None
      else if (requestedDiskGB <? DiskEstimation.MinimumGB est)%Z
      then Some (InsufficientDiskError requestedDiskGB (DiskEstimation.MinimumGB est)
                   (DiskEstimation.RecommendedGB est) (Some est))
      else None
  end.

Example estimate_llama70 :
  (fun e => (DiskEstimation.MinimumGB e, DiskEstimation.RecommendedGB e)) <$>
    EstimateDiskRequirements "meta-llama/Llama-2-70b-hf" "" "" 0 = Some (225, 270)%Z.
Proof. vm_compute. reflexivity. Qed.

Example parse_moe : parseParamCount "org/Mixtral-8x7B-Instruct-v0.1" = f64_of_Z 56.
Proof. vm_compute. reflexivity. Qed.
Example parse_decimal : parseParamCount "TinyLlama-1.1B-Chat" = f64_lit 11 10.
Proof. vm_compute. reflexivity. Qed.

(** ** Rounding and floors *)

(** [roundUpTo5] returns the least multiple of five that is not below its
    argument. *)
Theorem roundUpTo5_least n :
  (0 <= n)%Z -> (n <= max_int64 - 5)%Z ->
  (roundUpTo5 n mod 5 = 0)%Z /\ (n <= roundUpTo5 n)%Z /\
  (forall k, (k mod 5 = 0)%Z -> (n <= k)%Z -> (roundUpTo5 n <= k)%Z).
Proof.
  intros H0 Hm. unfold roundUpTo5. rewrite Z.rem_mod_nonneg by lia.
  pose proof (Z.mod_pos_bound n 5 ltac:(lia)). pose proof (Z.div_mod n 5 ltac:(lia)).
  destruct (Z.eqb_spec (n mod 5) 0) as [Hz|Hz]; [split_and!; lia|].
  rewrite wrap64_id by (unfold in_int64, min_int64, max_int64 in *; lia). split_and!.
  - replace (n + (5 - n mod 5))%Z with ((n / 5 + 1) * 5)%Z by lia. apply Z.mod_mul. lia.
  - lia.
  - intros k Hk Hn. pose proof (Z.div_mod k 5 ltac:(lia)). nia.
Qed.

Lemma EstimateDiskRequirements_floor modelID q tpl floor e :
  EstimateDiskRequirements modelID q tpl floor = Some e ->
  (floor <= DiskEstimation.MinimumGB e)%Z /\ (floor <= DiskEstimation.RecommendedGB e)%Z /\
  DiskEstimation.TemplateFloorGB e = floor.
Proof.
  unfold EstimateDiskRequirements. case_match; [done|]. intros [= <-]. cbn -[Z.ltb].
  split_and!; [case_match eqn:Hc|case_match eqn:Hc|done]; try lia; apply Z.ltb_ge in Hc; lia.
Qed.

(** Disk validation against the estimation: there is no estimation exactly when
    neither a parameter count nor a template recommendation is known, and otherwise a
    positive request is accepted exactly from the estimated minimum on, which is never
    below the template's recommendation; a rejected request carries the estimation. *)
Theorem ValidateDiskSpace_estimate modelID q tpl floor req :
  (0 < req)%Z ->
  match EstimateDiskRequirements modelID q tpl floor with
  | None => feqb (parseParamCount modelID) f0 = true /\ floor = 0%Z
  | Some e =>
      (floor <= DiskEstimation.MinimumGB e)%Z /\ (floor <= DiskEstimation.RecommendedGB e)%Z /\
      (ValidateDiskSpace req (Some e) = None <-> (DiskEstimation.MinimumGB e <= req)%Z) /\
      ((req < DiskEstimation.MinimumGB e)%Z ->
         ValidateDiskSpace req (Some e) =
           Some (InsufficientDiskError req (DiskEstimation.MinimumGB e)
                   (DiskEstimation.RecommendedGB e) (Some e)))
  end.
Proof.
  intros Hreq. destruct (EstimateDiskRequirements _ _ _ _) as [e|] eqn:He.
  - destruct (EstimateDiskRequirements_floor _ _ _ _ _ He) as (Hm & Hr & _).
    unfold ValidateDiskSpace. rewrite (proj2 (Z.eqb_neq req 0)) by lia.
    destruct (Z.ltb_spec req (DiskEstimation.MinimumGB e)); split_and!; try done; try lia.
    split; [done|lia].
  - revert He. unfold EstimateDiskRequirements. case_match eqn:Hc; [|done]. intros _.
    apply andb_true_iff in Hc as [Hc ->%Z.eqb_eq]. done.
Qed.

(** ** Reading back a parameter count *)
Lemma match_int_Itoa n c rest :
  (0 < n)%Z -> is_digit c = false ->
  match_int (Itoa n +:+ String c rest) = Some (n, String c rest).
Proof.
  intros Hn Hc. unfold match_int.
  rewrite Itoa_pos by done.
  rewrite pretty_N_go_app. destruct (digits_pretty_go (Z.to_N n) ("" +:+ String c rest)) as (k & Hk & ->).
  change ("" +:+ String c rest) with (String c rest). cbn [digits]. rewrite Hc.
  destruct k; [specialize (Hk ltac:(lia)); lia|]. rewrite Z2N.id by lia. do 2 f_equal.
Qed.

(** What may follow the [b] of a parameter count. *)
Definition count_end (t : string) : bool :=
  match t with
  | EmptyString => true
  | String d _ => is_sep d || Ascii.eqb d "."
  end.

Definition sep_free (s : string) : bool := free_of "-" s && free_of "_" s.

Lemma find_after_sep_skip {A} (m : string -> option A) p s :
  sep_free p = true -> find_after_sep m (p +:+ s) = find_after_sep m s.
Proof.
  unfold sep_free. rewrite andb_true_iff. induction p as [|c p IH]; [done|].
  change (String c p +:+ s) with (String c (p +:+ s)).
  cbn [free_of find_after_sep]. rewrite !andb_true_iff, !negb_true_iff.
  intros [[Hd Hp] [Hu Hp']]. unfold is_sep. rewrite Hd, Hu. cbn. apply IH. done.
Qed.

Lemma match_decimal_Itoa n b rest :
  (0 < n)%Z -> Ascii.eqb (ascii_lower b) "b" = true ->
  match_decimal (Itoa n +:+ String b rest) = Some (n, O, String b rest).
Proof.
  intros Hn Hb%Ascii.eqb_eq. unfold match_decimal.
  assert (b = "b"%char \/ b = "B"%char) as Hb'.
  { destruct b as [[] [] [] [] [] [] [] []]; try discriminate Hb; auto. }
  rewrite match_int_Itoa by (destruct Hb' as [->| ->]; done).
  by destruct Hb' as [->| ->].
Qed.

(** The parameter count is read back from a model identifier: after a prefix
    without separators, the mixture form [-AxNb] gives the product of its two numbers
    and the plain form [-Nb] its number, in either case of the letters and whatever
    follows, unless the identifier is one of the known models. *)
Theorem parseParamCount_reads p a n x b t :
  sep_free p = true -> (0 < a)%Z -> (0 < n)%Z -> count_end t = true ->
  Ascii.eqb (ascii_lower x) "x" = true -> Ascii.eqb (ascii_lower b) "b" = true ->
  let plain := p +:+ "-" +:+ Itoa n +:+ String b t in
  let moe := p +:+ "-" +:+ Itoa a +:+ String x (Itoa n +:+ String b t) in
  (knownModels !! ToLower plain = None -> find_after_sep match_param (Itoa n +:+ String b t) = None ->
   forall c, ParseFloat n 0 = Some c -> parseParamCount plain = c) /\
  (knownModels !! ToLower moe = None ->
   forall c d, ParseFloat a 0 = Some d -> ParseFloat n 0 = Some c ->
     parseParamCount moe = fmul d c).
Proof.
  intros Hp Ha Hn Ht Hx Hb plain moe.
  assert (forall s r, bool_decide (s +:+ "-" +:+ r = "") = false) as Hne
    by (intros s r; apply bool_decide_eq_false; by destruct s).
  assert (match_b_end (String b t) = true) as Hend by (cbn; rewrite Hb; by destruct t).
  assert (is_digit b = false /\ Ascii.eqb (ascii_lower b) "x" = false) as [Hbd Hbx]
    by (by destruct b as [[] [] [] [] [] [] [] []]).
  assert (is_digit x = false) as Hxd by (by destruct x as [[] [] [] [] [] [] [] []]).
  assert (match_simple (Itoa n +:+ String b t) = Some (n, O)) as Hs
    by (unfold match_simple; rewrite match_decimal_Itoa by done; by rewrite Hend).
  assert (match_param (Itoa n +:+ String b t) = None) as Hm
    by (unfold match_param; rewrite match_int_Itoa by done; by rewrite Hbx).
  assert (match_param (Itoa a +:+ String x (Itoa n +:+ String b t)) = Some (a, (n, O))) as Hx2.
  { unfold match_param. rewrite match_int_Itoa by done. rewrite Hx.
    rewrite match_decimal_Itoa by done. by rewrite Hend. }
  assert (forall A (m : string -> option A) s,
            find_after_sep m ("-" +:+ s) = match m s with
                                           | Some r => Some r
                                           | None => find_after_sep m s
                                           end) as Hsep by done.
  split.
  - intros Hk Hno c Hc. unfold parseParamCount. subst plain.
    rewrite Hne, Hk, (find_after_sep_skip match_param), Hsep, Hm, Hno by done.
    by rewrite (find_after_sep_skip match_simple), Hsep, Hs, Hc by done.
  - intros Hk c d Hd Hc. unfold parseParamCount. subst moe.
    by rewrite Hne, Hk, (find_after_sep_skip match_param), Hsep, Hx2, Hd, Hc by done.
Qed.
