(* ===== verification/CreateSession.v ===== *)
(** [internal/service/provisioner/service.go]: [CreateSession] and
    [createSessionWithRetry], the two-phase provisioning with automatic retries, and
    [triggerAsyncRetry].  The verification goroutines it starts are [Go] effects; their
    bodies are in [Verify]. *)
From S2P Require Import Prelude GoFloat GoLib Models Errors Interfaces Lifecycle Provisioner Disk.
From Stdlib Require Import Ascii.

(** [shellQuote]: single quotes around the text, with each inner quote written as
    quote, backslash, quote, quote. *)
Fixpoint escape_quotes (s : string) : string :=
  match s with
  | EmptyString => ""
  | String c s' =>
      if Ascii.eqb c "'" then "'\''" +:+ escape_quotes s' else String c (escape_quotes s')
  end.

Definition shellQuote (s : string) : string := "'" +:+ escape_quotes s +:+ "'".

Definition buildBenchmarkOnStart (sessionID : string) (offer : GPUOffer.t) : string :=
  "echo 'benchmark_pending' > /tmp/benchmark_status && echo " +:+ shellQuote sessionID +:+
  " " +:+ shellQuote "${MODEL:-unknown}" +:+ " " +:+ fmt_fixed 4 (GPUOffer.PricePerHour offer) +:+
  " " +:+ shellQuote (GPUOffer.Provider offer) +:+ " " +:+ shellQuote (GPUOffer.Location offer) +:+
  " > /tmp/benchmark_args".

Definition ollamaOnStartScript : string := "#!/bin/bash
curl -fsSL https://ollama.com/install.sh | sh
nohup ollama serve > /var/log/ollama.log 2>&1 &
sleep 3
echo " +:+ String "034" "Ollama installed and serving on port 11434" +:+ String "034" "
".

Definition buildWorkloadConfig (req : CreateSessionRequest.t) : WorkloadConfig.t :=
  let w := CreateSessionRequest.WorkloadType req in
  WorkloadConfig.mk
    (if bool_decide (w = "llm_vllm") then "vllm"
     else if bool_decide (w = "llm_tgi") then "tgi" else "custom")
    (CreateSessionRequest.ModelID req) f0 (CreateSessionRequest.Quantization req) 0%Z 0%Z.

Section Create.
Context {W : Type} `{SessionStore W} `{Env W} `{Random W} `{CostRecorder W}.
Context (cfg : Service.t) (reg : gmap string (Provider.t W)).
Context (inventory : option (InventoryFinder.t W)).

Definition buildInstanceTags (sessionID consumerID : string) (expiresAt : time) : InstanceTags.t :=
  InstanceTags.mk sessionID (Service.deploymentID cfg) expiresAt consumerID.

(** The balance check only logs. *)
Definition check_balance (provider : string) : M W unit :=
  match Registry.Get reg provider with
  | Ok prov =>
      match Provider.GetAccountBalance prov with
      | Some balance => do! balance in skip
      | None => skip
      end
  | Err _ => skip
  end.

Definition duplicate (c o : string) (existing : Session.t) : error :=
  DuplicateSessionError c o (Session.ID existing) (status_string (Session.Status existing)).

(** The check for an existing active session, on the first attempt only. *)
Definition check_existing (req : CreateSessionRequest.t) (retryCount : Z) : M W (option error) :=
  let c := CreateSessionRequest.ConsumerID req in
  let o := CreateSessionRequest.OfferID req in
  if (retryCount =? 0)%Z then
    let! r := GetActiveSessionByConsumerAndOffer c o in
    match r with
    | Ok existing => ret (Some (duplicate c o existing))
    | Err e =>
        if negb (error_exists is_not_found_provisioner e) && negb (error_exists is_not_found e)
        then ret (Some (EWrap "failed to check for existing session" e))
        else ret None
    end
  else ret None.

(** The session record of phase 1. *)
Definition new_session (req : CreateSessionRequest.t) (offer : GPUOffer.t)
    (id privateKey publicKey : string) (t : time) (failedOffers : list string)
    (retryCount : Z) (retryParentID : string) : Session.t :=
  let storagePolicy :=
    if bool_decide (CreateSessionRequest.StoragePolicy req = "") then StorageDestroy
    else CreateSessionRequest.StoragePolicy req in
  Session.mk id (CreateSessionRequest.ConsumerID req) (GPUOffer.Provider offer) ""
    (CreateSessionRequest.OfferID req) (GPUOffer.GPUType offer) (GPUOffer.GPUCount offer)
    StatusPending "" "" 0 "" privateKey publicKey "" "" 0 "" "" "" [] "" "" 0
    (CreateSessionRequest.AutoRetry req) (CreateSessionRequest.MaxRetries req)
    (CreateSessionRequest.RetryScope req) retryCount retryParentID ""
    (Join failedOffers ",") (CreateSessionRequest.WorkloadType req)
    (CreateSessionRequest.ReservationHrs req) false (CreateSessionRequest.IdleThreshold req)
    storagePolicy (GPUOffer.PricePerHour offer) t
    (Add t (dur_mul (CreateSessionRequest.ReservationHrs req) Hour)) zero_time.

(** Phase 1: the record is stored before anything else happens. *)
Definition create_record (req : CreateSessionRequest.t) (s : Session.t) : M W (option error) :=
  let c := CreateSessionRequest.ConsumerID req in
  let o := CreateSessionRequest.OfferID req in
  let! e := Create s in
  match e with
  | None => ret None
  | Some err =>
      if error_exists is_already_exists err then
        let! r := GetActiveSessionByConsumerAndOffer c o in
        match r with
        | Ok existing => ret (Some (duplicate c o existing))
        | Err _ => ret (Some (DuplicateSessionError c o "" ""))
        end
      else ret (Some (EWrap "failed to create session record" err))
  end.

(** The disk size of the instance, or the error of a request below the minimum. *)
Definition choose_disk (req : CreateSessionRequest.t) : result Z :=
  let requested := CreateSessionRequest.DiskGB req in
  let est := EstimateDiskRequirements (CreateSessionRequest.ModelID req)
               (CreateSessionRequest.Quantization req) (CreateSessionRequest.TemplateHashID req)
               (CreateSessionRequest.TemplateRecommendedDiskGB req) in
  match est with
  | Some e =>
      if (0 <? requested)%Z then
        match ValidateDiskSpace requested est with
        | Some err => Err err
        | None => Ok requested
        end
      else Ok (DiskEstimation.RecommendedGB e)
  | None => if (0 <? requested)%Z then Ok requested else Ok 0%Z
  end.

Definition onstart_cmd (req : CreateSessionRequest.t) (offer : GPUOffer.t) (id : string) : string :=
  let given := CreateSessionRequest.OnStartCmd req in
  let workload := CreateSessionRequest.WorkloadType req in
  if negb (bool_decide (given = "")) then given
  else if bool_decide (workload = "llm") &&
          bool_decide (CreateSessionRequest.TemplateHashID req = "") then ollamaOnStartScript
  else if bool_decide (workload = "benchmark") then buildBenchmarkOnStart id offer
  else "".

(** The provider request of phase 2. *)
Definition instance_request (req : CreateSessionRequest.t) (offer : GPUOffer.t)
    (s : Session.t) (disk : Z) : CreateInstanceRequest.t :=
  let entry := bool_decide (CreateSessionRequest.LaunchMode req = LaunchModeEntrypoint) in
  CreateInstanceRequest.mk (GPUOffer.ID offer) (Session.ID s) (Session.SSHPublicKey s)
    (if entry then CreateSessionRequest.DockerImage req else "") ∅
    (onstart_cmd req offer (Session.ID s))
    (buildInstanceTags (Session.ID s) (CreateSessionRequest.ConsumerID req) (Session.ExpiresAt s))
    (if entry then LaunchModeEntrypoint else "")
    (if entry then CreateSessionRequest.ExposedPorts req else [])
    (if entry then Some (buildWorkloadConfig req) else None)
    (CreateSessionRequest.TemplateHashID req)
    (if GPUOffer.Interruptible offer && fgtb (GPUOffer.PricePerHour offer) f0
     then GPUOffer.PricePerHour offer else f0)
    disk.

(** The session with what the provider answered. *)
Definition with_instance (i : InstanceInfo.t) (s : Session.t) : Session.t :=
  let s := Session.set_ProviderID (InstanceInfo.ProviderInstanceID i) s in
  let s := Session.set_SSHHost (InstanceInfo.SSHHost i) s in
  let s := Session.set_SSHPort (InstanceInfo.SSHPort i) s in
  let s := Session.set_SSHUser
    (if bool_decide (InstanceInfo.SSHUser i = "") then "root" else InstanceInfo.SSHUser i) s in
  if fgtb (InstanceInfo.ActualPricePerHour i) f0
  then Session.set_PricePerHour (InstanceInfo.ActualPricePerHour i) s
  else s.

(** Phases 3 and 4: record the instance, or destroy it when the record fails, and
    start the verification. *)
Definition record_instance (req : CreateSessionRequest.t) (prov : Provider.t W)
    (i : InstanceInfo.t) (s : Session.t) : M W (result Session.t) :=
  let s := with_instance i s in
  let! e := Update s in
  match e with
  | Some err =>
      let! d := Provider.DestroyInstance prov (InstanceInfo.ProviderInstanceID i) in
      do! when (match d with Some _ => true | None => false end)
            (emit (Prom "RecordOrphanDetected" [])) in
      ret (Err (EWrap "failed to update session" err))
  | None =>
      do! emit (Audit "session_provisioned"
            [Session.ID s; Session.ConsumerID s; Session.Provider s;
             InstanceInfo.ProviderInstanceID i; Session.GPUType s]) in
      do! emit (Prom "RecordSessionCreated" [Session.Provider s]) in
      do! emit (Go
            (if bool_decide (CreateSessionRequest.LaunchMode req = LaunchModeEntrypoint)
             then VerifyAPI (Session.ID s) (Provider.Name prov)
             else VerifySSH (Session.ID s) (Session.SSHPrivateKey s) (Provider.Name prov)
                    (if (0 <? CreateSessionRequest.TemplateRecommendedSSHTimeout req)%Z
                     then CreateSessionRequest.TemplateRecommendedSSHTimeout req
                     else Service.sshVerifyTimeout cfg) req)) in
      ret (Ok s)
  end.

(** [SelectFromTopN(alternatives, 3, 1.3)]; dereferencing nil panics. *)
Definition select_alternative (alternatives : list GPUOffer.t) : M W (result GPUOffer.t) :=
  let! f := rand_IntN in
  ret match SelectFromTopN f alternatives 3 (f64_lit 13 10) with
      | SelOffer o => Ok o
      | SelNil => Err (GoPanic "invalid memory address or nil pointer dereference")
      | SelPanic => Err (GoPanic "invalid argument to IntN")
      end.

Definition on_inventory (f : InventoryFinder.t W -> M W unit) : M W unit :=
  match inventory with Some inv => f inv | None => skip end.

(** The failure record and the eviction that follow a failed provisioning. *)
Definition blame_offer (offerID provider gpuType failType reason : string) : M W unit :=
  on_inventory (fun inv =>
    do! InventoryFinder.RecordOfferFailure inv offerID provider gpuType failType reason in
    InventoryFinder.EvictOffer inv offerID).

(** The error returned for a failed creation that is not retried. *)
Definition creation_error (offer : GPUOffer.t) (err : error) : error :=
  if ShouldRetryWithDifferentOffer err
  then StaleInventoryError (GPUOffer.ID offer) (GPUOffer.Provider offer) err
  else EWrap "failed to create instance" err.

(** The recursive call of [createSessionWithRetry]. *)
Definition retry_call : Type :=
  CreateSessionRequest.t -> GPUOffer.t -> list string -> list string -> Z -> string ->
  M W (result Session.t).

(** What follows a failed [CreateInstance]: the session [s] has been failed; another
    offer is tried by [retry] when the error, the request and the count allow it. *)
Definition retry_or_fail (retry : option retry_call) (req : CreateSessionRequest.t)
    (offer : GPUOffer.t) (failedOfferIDs failedMachineIDs : list string) (retryCount : Z)
    (s : Session.t) (err : error) : M W (result Session.t) :=
  match inventory with
  | Some inv =>
      if ShouldRetryWithDifferentOffer err && CreateSessionRequest.AutoRetry req &&
         (retryCount <? CreateSessionRequest.MaxRetries req)%Z then
        let scope := CreateSessionRequest.RetryScope req in
        do! emit (Prom "RecordRetryAttempt" [GPUOffer.Provider offer; scope; "stale_inventory"]) in
        let newFailedOffers := failedOfferIDs ++ [GPUOffer.ID offer] in
        let newFailedMachines :=
          if bool_decide (GPUOffer.MachineID offer = "") then failedMachineIDs
          else failedMachineIDs ++ [GPUOffer.MachineID offer] in
        let! found := InventoryFinder.FindComparableOffers inv offer scope
                        newFailedOffers newFailedMachines in
        match found, retry with
        | Ok ((_ :: _) as alternatives), Some retry =>
            let! next := select_alternative alternatives in
            match next with
            | Err panic => ret (Err panic)
            | Ok nextOffer =>
                let req := CreateSessionRequest.set_OfferID (GPUOffer.ID nextOffer) req in
                let! retried := retry req nextOffer newFailedOffers newFailedMachines
                                  (retryCount + 1)%Z (Session.ID s) in
                match retried with
                | Ok retrySession =>
                    let s := Session.set_RetryChildID (Session.ID retrySession) s in
                    let s := Session.set_FailedOffers (Join newFailedOffers ",") s in
                    do! Update s in
                    do! emit (Prom "RecordRetrySuccess" [GPUOffer.Provider offer; scope]) in
                    ret (Ok retrySession)
                | Err retryErr => ret (Err retryErr)
                end
            end
        | _, _ =>
            do! emit (Prom "RecordRetryExhausted" [GPUOffer.Provider offer; scope]) in
            ret (Err (creation_error offer err))
        end
      else ret (Err (creation_error offer err))
  | None => ret (Err (creation_error offer err))
  end.

(** Phase 2 for the stored session [s]: call the provider. *)
Definition provision (retry : option retry_call) (req : CreateSessionRequest.t)
    (offer : GPUOffer.t) (failedOfferIDs failedMachineIDs : list string) (retryCount : Z)
    (s : Session.t) : M W (result Session.t) :=
  match Registry.Get reg (GPUOffer.Provider offer) with
  | Err e =>
      do! failSession reg s ("provider not found: " +:+ GPUOffer.Provider offer) in
      ret (Err e)
  | Ok prov =>
      match choose_disk req with
      | Err err => ret (Err err)
      | Ok disk =>
          let s := Session.set_TemplateHashID (CreateSessionRequest.TemplateHashID req) s in
          let s := Session.set_DiskGB disk s in
          let instanceReq := instance_request req offer s disk in
          let s := Session.set_Status StatusProvisioning s in
          do! Update s in
          do! emit (Prom "UpdateSessionStatus"
                [Session.Provider s; status_string StatusPending;
                 status_string StatusProvisioning]) in
          let! created := Provider.CreateInstance prov instanceReq in
          match created with
          | Ok instance => record_instance req prov instance s
          | Err err =>
              let! s := failSession reg s ("provider create failed: " +:+ Error err) in
              do! blame_offer (GPUOffer.ID offer) (GPUOffer.Provider offer)
                    (GPUOffer.GPUType offer)
                    (if ShouldRetryWithDifferentOffer err then "stale_inventory" else "unknown")
                    (Error err) in
              retry_or_fail retry req offer failedOfferIDs failedMachineIDs retryCount s err
          end
      end
  end.

(** One attempt: the checks, the key pair, phase 1, then phase 2. *)
Definition attempt (retry : option retry_call) (req : CreateSessionRequest.t)
    (offer : GPUOffer.t) (failedOfferIDs failedMachineIDs : list string) (retryCount : Z)
    (retryParentID : string) : M W (result Session.t) :=
  do! check_balance (GPUOffer.Provider offer) in
  let! dup := check_existing req retryCount in
  match dup with
  | Some e => ret (Err e)
  | None =>
      let! keys := generateSSHKeyPair in
      match keys with
      | Err e => ret (Err (EWrap "failed to generate SSH key" e))
      | Ok (privateKey, publicKey) =>
          let! t := now in
          let! id := new_uuid in
          let s := new_session req offer id privateKey publicKey t failedOfferIDs retryCount
                     retryParentID in
          let! e := create_record req s in
          match e with
          | Some err => ret (Err err)
          | None =>
              do! emit (Prom "UpdateSessionStatus"
                    [Session.Provider s; ""; status_string StatusPending]) in
              provision retry req offer failedOfferIDs failedMachineIDs retryCount s
          end
      end
  end.

(** [createSessionWithRetry].  [fuel] bounds the retries that may still follow:
    [MaxRetries - retryCount] is enough, since the recursive call is guarded by
    [retryCount < MaxRetries]; see [createSessionWithRetry_fuel]. *)
Fixpoint createSessionWithRetry (fuel : nat) : retry_call :=
  attempt (match fuel with O => None | S fuel' => Some (createSessionWithRetry fuel') end).

(** [CreateSession] caps the retries it is asked for. *)
Definition capped_retries (req : CreateSessionRequest.t) : Z :=
  let n := CreateSessionRequest.MaxRetries req in
  let n := if CreateSessionRequest.AutoRetry req && (n <=? 0)%Z then 3%Z else n in
  if (5 <? n)%Z then 5%Z else n.

Definition CreateSession (req : CreateSessionRequest.t) (offer : GPUOffer.t)
    : M W (result Session.t) :=
  let req := CreateSessionRequest.set_MaxRetries (capped_retries req) req in
  let req :=
    if bool_decide (CreateSessionRequest.RetryScope req = "")
    then CreateSessionRequest.set_RetryScope "same_gpu" req else req in
  createSessionWithRetry (Z.to_nat (CreateSessionRequest.MaxRetries req)) req offer [] [] 0%Z "".

(** The offer rebuilt from a session when the inventory no longer knows it. *)
Definition synthetic_offer (s : Session.t) : GPUOffer.t :=
  GPUOffer.mk (Session.OfferID s) (Session.Provider s) "" (Session.GPUType s)
    (Session.GPUCount s) 0 (Session.PricePerHour s) "" f0 false 0 zero_time f0 f0 "" false f0.

(** [triggerAsyncRetry]: the result is [Some] when the goroutine panics. *)
Definition triggerAsyncRetry (inv : InventoryFinder.t W) (failed : Session.t)
    (originalReq : CreateSessionRequest.t) : M W (option error) :=
  let scope := Session.RetryScope failed in
  let reason :=
    if Contains (Session.Error failed) "instance stopped" then "instance_stopped"
    else "ssh_timeout" in
  do! emit (Prom "RecordRetryAttempt" [Session.Provider failed; scope; reason]) in
  let failedOfferIDs :=
    (if bool_decide (Session.FailedOffers failed = "") then []
     else Split (Session.FailedOffers failed) ",") ++ [Session.OfferID failed] in
  let! o := InventoryFinder.GetOffer inv (Session.OfferID failed) in
  let originalOffer := match o with Ok o => o | Err _ => synthetic_offer failed end in
  let failedMachineIDs :=
    if bool_decide (GPUOffer.MachineID originalOffer = "") then []
    else [GPUOffer.MachineID originalOffer] in
  let! found := InventoryFinder.FindComparableOffers inv originalOffer scope
                  failedOfferIDs failedMachineIDs in
  match found with
  | Ok ((_ :: _) as alternatives) =>
      let! next := select_alternative alternatives in
      match next with
      | Err panic => ret (Some panic)
      | Ok nextOffer =>
          let req := CreateSessionRequest.set_OfferID (GPUOffer.ID nextOffer) originalReq in
          let retryCount := (Session.RetryCount failed + 1)%Z in
          let! r := createSessionWithRetry
                      (Z.to_nat (CreateSessionRequest.MaxRetries req - retryCount)) req nextOffer
                      failedOfferIDs failedMachineIDs retryCount (Session.ID failed) in
          match r with
          | Err (GoPanic msg) => ret (Some (GoPanic msg))
          | Err _ => ret None
          | Ok newSession =>
              let s := Session.set_RetryChildID (Session.ID newSession) failed in
              let s := Session.set_FailedOffers (Join failedOfferIDs ",") s in
              do! Update s in
              do! emit (Prom "RecordRetrySuccess" [Session.Provider failed; scope]) in
              ret None
          end
      end
  | _ =>
      do! emit (Prom "RecordRetryExhausted" [Session.Provider failed; scope]) in
      ret None
  end.
End Create.

(** The cost recorder writes its own table. *)
Class CostRecorderLaws (W : Type) `{CostRecorder W} `{Ghost W} : Prop :=
  record_cost_frame : forall record s, RecordFinalCost = Some record -> frame (record s).

Section CreateProofs.
Context {W : Type} `{SessionStore W} `{Env W} `{Random W} `{CostRecorder W} `{Ghost W}.
Context `{!StoreLaws W} `{!EnvLaws W} `{!RandomLaws W} `{!CostRecorderLaws W}.
Context (cfg : Service.t) (reg : gmap string (Provider.t W)) `{!ProviderLaws W reg}.
Context (inventory : option (InventoryFinder.t W)).
Context `{Hinv : !forall inv, inventory = Some inv -> InventoryLaws W inv}.

Lemma frame_check_balance p : frame (check_balance reg p).
Proof.
  unfold check_balance, Registry.Get. destruct (reg !! p) as [prov|] eqn:Hp; [|apply frame_ret].
  destruct (prov_frame _ _ Hp) as (_ & _ & _ & _ & _ & Hb).
  destruct (Provider.GetAccountBalance prov) eqn:Hm; [|apply frame_ret].
  apply frame_bind; [by apply Hb|]. intros. apply frame_ret.
Qed.

Lemma frame_check_existing req rc : frame (check_existing req rc).
Proof.
  unfold check_existing. case_match; [|apply frame_ret].
  intros w. apply wp_bind. eapply wp_mono; [apply GetActive_spec|].
  intros r w' [Hq _]. destruct r; [by apply wp_ret|]. case_match; by apply wp_ret.
Qed.

Lemma frame_blame_offer a b c d e : frame (blame_offer inventory a b c d e).
Proof.
  unfold blame_offer, on_inventory. destruct inventory as [inv|] eqn:Hi; [|apply frame_ret].
  pose proof (Hinv inv eq_refl). apply frame_bind; [apply record_failure_frame|].
  intros. apply evict_frame.
Qed.

Lemma frame_select l : frame (select_alternative l).
Proof.
  intros w. apply wp_bind. eapply wp_mono; [apply IntN_spec|].
  intros f w' [Hq _]. by apply wp_ret.
Qed.

(** [failSession] on a session whose stored value is [s1]. *)
Lemma wp_failSession s1 s reason w :
  sess_view w !! Session.ID s = Some s1 ->
  wp (failSession reg s reason) (fun s' w' =>
    later w w' /\ (forall j, j <> Session.ID s -> sess_view w' !! j = sess_view w !! j) /\
    exists t, (clock w <= t <= clock w')%Z /\
      s' = Session.set_StoppedAt t (Session.set_Error reason (Session.set_Status StatusFailed s)) /\
      exists s2, sess_view w' !! Session.ID s = Some s2 /\
        (s2 = s1 \/ s2 = updated_by s1 s') /\ (healthy w -> s2 = updated_by s1 s')) w.
Proof.
  intros Hs. unfold failSession. apply (wp_quiet_seq w); [|done|].
  { unfold when. case_match; [|apply frame_ret].
    unfold Registry.Get. destruct (reg !! Session.Provider s) eqn:Hp; [|apply frame_ret].
    apply frame_bind; [by eapply frame_destroy|]. intros [e|]; [apply frame_ret|apply emit_frame]. }
  intros _ w1 [Hv1 Hl1]. cbv zeta. apply wp_bind. eapply wp_mono; [apply now_spec|].
  intros t w2 ([Hv2 Hl2] & Ht). apply wp_bind.
  eapply (wp_update_inactive s1); [|by rewrite (view_id _ _ _ Hs)|done|].
  { by rewrite (view_id _ _ _ Hs), Hv2, Hv1. }
  rewrite (view_id _ _ _ Hs). intros _ w3 s2 Hl3 Hv3 Hs2 Hh2.
  apply (wp_quiet_seq w3); [auto with frame|done|]. intros _ w4 [Hv4 Hl4].
  set (s' := Session.set_StoppedAt t _) in *.
  assert (forall w5, quiet w4 w5 -> later w w5 /\
    (forall j, j <> Session.ID s -> sess_view w5 !! j = sess_view w !! j) /\
    exists t, (clock w <= t <= clock w5)%Z /\
      s' = Session.set_StoppedAt t (Session.set_Error reason (Session.set_Status StatusFailed s)) /\
      exists s2, sess_view w5 !! Session.ID s = Some s2 /\
        (s2 = s1 \/ s2 = updated_by s1 s') /\ (healthy w -> s2 = updated_by s1 s')) as Hend.
  { intros w5 [Hv5 Hl5]. rewrite Hv5, Hv4, Hv3, Hv2, Hv1.
    destruct Hl1 as [? Hh1], Hl2 as [? Hh12], Hl3, Hl4, Hl5. split; [split; [lia|tauto]|]. split.
    - intros j Hj. by rewrite lookup_insert_ne.
    - exists t. split_and!; [lia|lia|done|]. exists s2. rewrite lookup_insert_eq. auto 8. }
  destruct RecordFinalCost as [record|] eqn:Hr; [|apply wp_ret; by apply Hend].
  apply (wp_quiet_seq w4); [by apply record_cost_frame|done|]. intros e w5 Hq5.
  apply wp_ret. by apply Hend.
Qed.

(** Since [w], the only session written is the new one [id], now stored as [x]. *)
Definition own (w : W) (id : string) (x : Session.t) (v : W) : Prop :=
  later w v /\ sess_view v = <[id := x]> (sess_view w).

Lemma own_quiet w id x v v' : own w id x v -> quiet v v' -> own w id x v'.
Proof. intros [Hl Hv] [Hv' Hl']. split; [by etrans|congruence]. Qed.

Lemma own_lookup w id x v : own w id x v -> sess_view v !! id = Some x.
Proof. intros [_ ->]. apply lookup_insert_eq. Qed.

Lemma own_grows w id x v : sess_view w !! id = None -> own w id x v -> grows w v.
Proof.
  intros Hid [Hl Hv]. split; [done|]. intros j y Hj.
  rewrite Hv, lookup_insert_ne; [done|congruence].
Qed.

Lemma wp_own_Update w id x s v (Q : option error -> W -> Prop) :
  own w id x v -> Session.ID s = id ->
  (forall v', own w id (updated_by x s) v' -> Q None v') ->
  (forall e v', own w id x v' ->
     (healthy w -> Session.IsActive x = false /\ Session.IsActive s = true) -> Q (Some e) v') ->
  wp (Update s) Q v.
Proof.
  intros Ho Hid Hok Herr. pose proof (own_lookup _ _ _ _ Ho) as Hx.
  pose proof (view_id _ _ _ Hx) as Hxid. destruct Ho as [Hl Hv].
  apply (wp_write_back x); [by rewrite Hxid|by rewrite Hxid| |].
  - intros v' Hl' Hv'. apply Hok. split; [by etrans|]. by rewrite Hv', Hv, Hxid, insert_insert_eq.
  - intros e v' Hl' Hv' Hh. apply Herr; [split; [by etrans|congruence]|]. intros Hw.
    apply Hh, Hl, Hw.
Qed.

Lemma wp_own_failSession w id x s reason v :
  own w id x v -> Session.ID s = id ->
  wp (failSession reg s reason) (fun s' v' =>
    Session.ID s' = id /\ Session.Status s' = StatusFailed /\
    exists x', own w id x' v' /\ (healthy w -> Session.Status x' = StatusFailed)) v.
Proof.
  intros Ho <-. eapply wp_mono; [eapply wp_failSession; by eapply own_lookup|].
  intros s' v' (Hl & Hj & t & _ & -> & x' & Hx' & _ & Hh). split_and!; [done..|].
  exists x'. destruct Ho as [Hlw Hv]. split; [split; [by etrans|]|].
  - apply map_eq. intros j. destruct (decide (j = Session.ID s)) as [->|Hne].
    + by rewrite Hx', lookup_insert_eq.
    + by rewrite Hj, Hv, !lookup_insert_ne.
  - intros Hw. rewrite Hh by (apply Hlw, Hw). done.
Qed.

(** ** What provisioning leaves behind *)

(** The outcome of creating a session from the state [w], with at most [n] attempts. *)
Record created (w : W) (n : nat) (req : CreateSessionRequest.t) (r : result Session.t)
    (w' : W) : Prop := {
  created_grows : grows w w';
  created_bound : size (sess_view w') <= size (sess_view w) + n;
  created_ok : forall s, r = Ok s ->
    sess_view w !! Session.ID s = None /\ Session.Status s = StatusProvisioning /\
    Session.ConsumerID s = CreateSessionRequest.ConsumerID req /\
    exists p, sess_view w' !! Session.ID s = Some (Session.set_PricePerHour p (persisted s));
  created_rest : healthy w -> forall j x, sess_view w !! j = None -> sess_view w' !! j = Some x ->
    (exists s, r = Ok s /\ j = Session.ID s) \/
    Session.Status x = StatusFailed \/
    (Session.Status x = StatusPending /\ exists e, choose_disk req = Err e /\ r = Err e)
}.

Lemma created_nothing w n req e w' : quiet w w' -> created w n req (Err e) w'.
Proof.
  intros Hq. pose proof (quiet_grows _ _ Hq). destruct Hq as [Hv Hl].
  split; [done|rewrite Hv; lia|done|]. intros _ j x Hj. rewrite Hv. congruence.
Qed.

Lemma own_size w id x v :
  sess_view w !! id = None -> own w id x v -> size (sess_view v) = S (size (sess_view w)).
Proof. intros Hid [_ ->]. by apply map_size_insert_None. Qed.

Lemma created_own_err w n req e id x v :
  sess_view w !! id = None -> own w id x v ->
  (healthy w -> Session.Status x = StatusFailed \/
     (Session.Status x = StatusPending /\ choose_disk req = Err e)) ->
  created w (S n) req (Err e) v.
Proof.
  intros Hid Ho Hx. split; [by eapply own_grows|rewrite (own_size _ _ _ _ Hid Ho); lia|done|].
  intros Hw j y Hj Hy. destruct Ho as [_ Hv]. rewrite Hv in Hy.
  apply lookup_insert_Some in Hy as [[<- <-]|[_ ?]]; [|congruence].
  right. destruct (Hx Hw) as [?|[??]]; [by left|right]. eauto.
Qed.

Lemma created_own_ok w n req s x v :
  sess_view w !! Session.ID s = None -> own w (Session.ID s) x v ->
  Session.Status s = StatusProvisioning ->
  Session.ConsumerID s = CreateSessionRequest.ConsumerID req ->
  (exists p, x = Session.set_PricePerHour p (persisted s)) ->
  created w (S n) req (Ok s) v.
Proof.
  intros Hid Ho Hst Hc [p Hx]. split; [by eapply own_grows|
    rewrite (own_size _ _ _ _ Hid Ho); lia| |].
  - intros s' [= <-]. split_and!; [done..|]. exists p. rewrite <-Hx. by eapply own_lookup.
  - intros Hw j y Hj Hy. destruct Ho as [_ Hv]. rewrite Hv in Hy.
    apply lookup_insert_Some in Hy as [[<- <-]|[_ ?]]; [|congruence]. left. eauto.
Qed.

(** The session just before the provider is called. *)
Definition provisioning (req : CreateSessionRequest.t) (disk : Z) (s : Session.t) : Session.t :=
  Session.set_Status StatusProvisioning
    (Session.set_DiskGB disk (Session.set_TemplateHashID (CreateSessionRequest.TemplateHashID req) s)).

(** The stored record before the instance is recorded: as created, or with the
    provisioning status. *)
Definition before_instance (req : CreateSessionRequest.t) (disk : Z) (s x : Session.t) : Prop :=
  x = persisted s \/ x = updated_by (persisted s) (provisioning req disk s).

Lemma stored_instance i req disk s x :
  before_instance req disk s x ->
  updated_by x (with_instance i (provisioning req disk s)) =
    Session.set_PricePerHour (Session.PricePerHour s)
      (persisted (with_instance i (provisioning req disk s))).
Proof.
  unfold with_instance. destruct (fgtb (InstanceInfo.ActualPricePerHour i) f0);
    intros [->| ->]; destruct s, req, i; vm_compute; reflexivity.
Qed.

Lemma with_instance_same i s :
  Session.ID (with_instance i s) = Session.ID s /\
  Session.Status (with_instance i s) = Session.Status s /\
  Session.ConsumerID (with_instance i s) = Session.ConsumerID s.
Proof. unfold with_instance. by destruct (fgtb (InstanceInfo.ActualPricePerHour i) f0). Qed.

Lemma wp_record_instance w n name prov i req disk s x v :
  reg !! name = Some prov ->
  sess_view w !! Session.ID s = None -> own w (Session.ID s) x v ->
  before_instance req disk s x -> Session.Status s = StatusPending ->
  Session.ConsumerID s = CreateSessionRequest.ConsumerID req ->
  wp (record_instance cfg req prov i (provisioning req disk s)) (created w (S n) req) v.
Proof.
  intros Hp Hid Ho Hx Hst Hc.
  assert (Session.IsActive x = true) as Hact.
  { unfold Session.IsActive. destruct Hx as [->| ->]; cbn; [by rewrite Hst|done]. }
  destruct (with_instance_same i (provisioning req disk s)) as (Hi & Hs & Hcs).
  unfold record_instance. apply wp_bind. eapply wp_own_Update; [done|done| |].
  - intros v' Ho'. rewrite stored_instance in Ho' by done.
    apply (wp_quiet_seq v'); [auto with frame|done|]. intros _ v2 Hq2.
    apply (wp_quiet_seq v'); [auto with frame|done|]. intros _ v3 Hq3.
    apply (wp_quiet_seq v'); [auto with frame|done|]. intros _ v4 Hq4.
    apply wp_ret. eapply created_own_ok.
    + by rewrite Hi.
    + rewrite Hi. by eapply own_quiet.
    + by rewrite Hs.
    + by rewrite Hcs.
    + eauto.
  - intros e v' Ho' Hh. destruct (prov_frame _ _ Hp) as (_ & _ & _ & Hd & _).
    apply (wp_quiet_seq v'); [apply Hd|done|]. intros d v2 Hq2.
    apply (wp_quiet_seq v'); [|done|].
    { unfold when. case_match; [apply emit_frame|apply frame_ret]. }
    intros _ v3 Hq3. apply wp_ret. eapply created_own_err; [done|by eapply own_quiet|].
    intros Hw. destruct (Hh Hw). congruence.
Qed.

(** Storing the new record. *)
Lemma wp_create_record req s v (Q : option error -> W -> Prop) w :
  quiet w v ->
  (forall e v', quiet w v' -> Q (Some e) v') ->
  (forall v', sess_view w !! Session.ID s = None -> own w (Session.ID s) (persisted s) v' ->
     Q None v') ->
  wp (create_record req s) Q v.
Proof.
  intros [Hvw Hl] He Ho. apply wp_bind. eapply wp_mono; [apply Create_spec|].
  intros [e|] v' [Hl' Hr].
  - assert (quiet w v') as Hq by (split; [congruence|by etrans]).
    case_match; [|by apply wp_ret, He].
    apply wp_bind. eapply wp_mono; [apply GetActive_spec|].
    intros [x|e'] v2 [Hq2 _]; apply wp_ret, He; by etrans.
  - destruct Hr as (Hn & Hv & _). rewrite Hvw in Hn, Hv. apply wp_ret. apply Ho; [done|].
    split; [by etrans|done].
Qed.

(** A failed attempt followed by the attempt [r] of the retry, created from [v1]. *)
Lemma created_retry w n req req' id x v1 r v2 :
  sess_view w !! id = None -> own w id x v1 -> (healthy w -> Session.Status x = StatusFailed) ->
  created v1 n req' r v2 ->
  CreateSessionRequest.ConsumerID req' = CreateSessionRequest.ConsumerID req ->
  choose_disk req' = choose_disk req ->
  created w (S n) req r v2 /\ sess_view v2 !! id = Some x /\
  (forall s, r = Ok s -> Session.ID s <> id).
Proof.
  intros Hid Ho Hx [Hg Hb Hok Hr] Hc Hd.
  pose proof (own_lookup _ _ _ _ Ho) as Hxv. pose proof (proj2 Hg _ _ Hxv) as Hx2.
  pose proof (own_size _ _ _ _ Hid Ho) as Hsz.
  assert (forall j, sess_view v1 !! j = None -> sess_view w !! j = None) as Hnew.
  { intros j Hj. destruct Ho as [_ Hv]. rewrite Hv in Hj.
    apply lookup_insert_None in Hj. tauto. }
  split_and!; [|done|].
  - split; [etrans; [by eapply own_grows|done]|lia| |].
    + intros s ->. destruct (Hok s eq_refl) as (Hs & Hst & Hsc & Hp).
      rewrite <-Hc. auto.
    + intros Hw j y Hj Hy. destruct (decide (j = id)) as [->|Hne].
      * right. left. rewrite Hx2 in Hy. injection Hy as <-. auto.
      * rewrite <-Hd. apply Hr; [apply Ho, Hw| |done]. destruct Ho as [_ Hv].
        by rewrite Hv, lookup_insert_ne.
  - intros s -> Heq. destruct (Hok s eq_refl) as (Hs & _). congruence.
Qed.

(** Linking the failed parent to its child. *)
Lemma created_link w n req s x id v v' x' :
  created w n req (Ok s) v -> sess_view w !! id = None -> Session.ID s <> id ->
  sess_view v !! id = Some x -> later v v' -> sess_view v' = <[id := x']> (sess_view v) ->
  (healthy w -> Session.Status x' = StatusFailed) ->
  created w n req (Ok s) v'.
Proof.
  intros [Hg Hb Hok Hr] Hid Hne Hx Hl Hv Hf. split.
  - destruct Hg as [Hlw Hg]. split; [by etrans|]. intros j y Hj. rewrite Hv.
    rewrite lookup_insert_ne; [auto|congruence].
  - rewrite Hv, map_size_insert_Some; [done|by rewrite Hx].
  - intros s' [= <-]. rewrite Hv, lookup_insert_ne by done. by apply Hok.
  - intros Hw j y Hj Hy. rewrite Hv in Hy. apply lookup_insert_Some in Hy as [[<- <-]|[_ Hy]].
    + right. left. auto.
    + by apply Hr.
Qed.

(** The recursive calls of an attempt with at most [n] attempts to follow. *)
Definition retry_ok (n : nat) (retry : option (retry_call (W := W))) : Prop :=
  forall f, retry = Some f -> forall req offer fo fm rc parent w,
    wp (f req offer fo fm rc parent) (created w n req) w.

Lemma wp_retry_or_fail n retry req offer fo fm rc s err w x v :
  retry_ok n retry -> sess_view w !! Session.ID s = None -> own w (Session.ID s) x v ->
  Session.Status s = StatusFailed -> (healthy w -> Session.Status x = StatusFailed) ->
  wp (retry_or_fail inventory retry req offer fo fm rc s err) (created w (S n) req) v.
Proof.
  intros Hretry Hid Ho Hs Hx. unfold retry_or_fail.
  assert (forall v' e, quiet v v' -> created w (S n) req (Err e) v') as Herr.
  { intros v' e Hq. eapply created_own_err; [done|by eapply own_quiet|]. intros Hw. left. auto. }
  destruct inventory as [inv|] eqn:Hi; [|by apply wp_ret, Herr].
  case_match; [|by apply wp_ret, Herr]. cbv zeta.
  apply (wp_quiet_seq v); [auto with frame|done|]. intros _ v1 Hq1.
  pose proof (Hinv inv eq_refl).
  apply (wp_quiet_seq v); [apply comparable_frame|done|]. intros found v2 Hq2.
  assert (forall e, wp (do! emit e in ret (Err (creation_error offer err)))
            (created w (S n) req) v2) as Hex.
  { intros e. apply (wp_quiet_seq v); [auto with frame|done|]. intros _ v3 Hq3.
    by apply wp_ret, Herr. }
  destruct found as [[|o os]|e]; [apply Hex| |apply Hex].
  destruct retry as [f|]; [|apply Hex].
  apply (wp_quiet_seq v); [apply frame_select|done|]. intros [next|panic] v3 Hq3;
    [|by apply wp_ret, Herr].
  apply wp_bind. eapply wp_mono; [by apply Hretry|]. intros r v4 Hc.
  destruct (created_retry w n req _ (Session.ID s) x v3 r v4 Hid
              (own_quiet _ _ _ _ _ Ho Hq3) Hx Hc eq_refl eq_refl) as (Hcr & Hx4 & Hne).
  destruct r as [child|e]; [|by apply wp_ret].
  pose proof (view_id _ _ _ Hx4) as Hxid.
  apply wp_bind, (wp_write_back x); [by rewrite Hxid|by rewrite Hxid| |].
  - intros v5 Hl5 Hv5. apply (wp_quiet_seq v5); [auto with frame|done|].
    intros _ v6 [Hv6 Hl6]. apply wp_ret.
    eapply (created_link _ _ _ _ x (Session.ID s) v4 v6); [done|done|by apply Hne|done|by etrans| |].
    + by rewrite Hv6, Hv5, Hxid.
    + intros _. exact Hs.
  - intros e v5 Hl5 Hv5 _. apply (wp_quiet_seq v5); [auto with frame|done|].
    intros _ v6 [Hv6 Hl6]. apply wp_ret.
    eapply (created_link _ _ _ _ x (Session.ID s) v4 v6); [done|done|by apply Hne|done|by etrans| |done].
    by rewrite Hv6, Hv5, insert_id.
Qed.

Lemma wp_provision n retry req offer fo fm rc s w v :
  retry_ok n retry -> sess_view w !! Session.ID s = None ->
  own w (Session.ID s) (persisted s) v -> Session.Status s = StatusPending ->
  Session.ConsumerID s = CreateSessionRequest.ConsumerID req ->
  wp (provision cfg reg inventory retry req offer fo fm rc s) (created w (S n) req) v.
Proof.
  intros Hretry Hid Ho Hst Hc. unfold provision, Registry.Get.
  destruct (reg !! GPUOffer.Provider offer) as [prov|] eqn:Hp.
  2: { apply wp_bind. eapply wp_mono; [by eapply wp_own_failSession|].
    intros s' v' (_ & _ & x' & Ho' & Hx'). apply wp_ret.
    eapply created_own_err; [done|done|]. intros Hw. left. auto. }
  destruct (choose_disk req) as [disk|err] eqn:Hd.
  2: { apply wp_ret. eapply created_own_err; [done|done|]. intros _. by right. }
  cbv zeta. fold (provisioning req disk s).
  apply wp_bind.
  assert (forall r x v', before_instance req disk s x -> own w (Session.ID s) x v' ->
    wp ((fun _ => do! emit (Prom "UpdateSessionStatus"
          [Session.Provider (provisioning req disk s); status_string StatusPending;
           status_string StatusProvisioning]) in
        let! created := Provider.CreateInstance prov
          (instance_request cfg req offer (Session.set_DiskGB disk (Session.set_TemplateHashID
             (CreateSessionRequest.TemplateHashID req) s)) disk) in
        match created with
        | Ok instance => record_instance cfg req prov instance (provisioning req disk s)
        | Err err =>
            let! s := failSession reg (provisioning req disk s)
                        ("provider create failed: " +:+ Error err) in
            do! blame_offer inventory (GPUOffer.ID offer) (GPUOffer.Provider offer)
                  (GPUOffer.GPUType offer)
                  (if ShouldRetryWithDifferentOffer err then "stale_inventory" else "unknown")
                  (Error err) in
            retry_or_fail inventory retry req offer fo fm rc s err
        end) (r : option error)) (created w (S n) req) v') as Hrest.
  { intros _ x v1 Hx Ho1. cbv beta.
    apply (wp_quiet_seq v1); [auto with frame|done|]. intros _ v2 Hq2.
    destruct (prov_frame _ _ Hp) as (_ & _ & Hci & _).
    apply (wp_quiet_seq v1); [apply Hci|done|]. intros [i|err] v3 Hq3;
      pose proof (own_quiet _ _ _ _ _ Ho1 Hq3) as Ho3; [by eapply wp_record_instance|].
    apply wp_bind. eapply wp_mono; [by eapply (wp_own_failSession w (Session.ID s) x)|].
    intros s' v4 (Hi4 & Hs4 & x4 & Ho4 & Hx4).
    apply (wp_quiet_seq v4); [apply frame_blame_offer|done|]. intros _ v5 Hq5.
    eapply wp_retry_or_fail; [done|by rewrite Hi4| |done|exact Hx4].
    rewrite Hi4. by eapply own_quiet. }
  eapply wp_own_Update; [done|done| |].
  - intros v' Ho'. eapply (Hrest None); [by right|exact Ho'].
  - intros e v' Ho' _. eapply (Hrest (Some e)); [by left|exact Ho'].
Qed.

Lemma wp_attempt n retry req offer fo fm rc parent w :
  retry_ok n retry ->
  wp (attempt cfg reg inventory retry req offer fo fm rc parent) (created w (S n) req) w.
Proof.
  intros Hretry. unfold attempt.
  apply (wp_quiet_seq w); [apply frame_check_balance|done|]. intros _ w1 Hq1.
  apply (wp_quiet_seq w); [apply frame_check_existing|done|]. intros [e|] w2 Hq2;
    [by apply wp_ret, created_nothing|].
  apply (wp_quiet_seq w); [apply keys_frame|done|]. intros [[priv pub]|e] w3 Hq3;
    [|by apply wp_ret, created_nothing].
  apply (wp_quiet_seq w); [apply frame_now|done|]. intros t w4 Hq4.
  apply (wp_quiet_seq w); [apply uuid_frame|done|]. intros id w5 Hq5.
  cbv zeta. apply wp_bind, (wp_create_record _ _ _ _ w);
    [done|by intros; apply wp_ret, created_nothing|].
  intros v Hid Ho. apply (wp_quiet_seq v); [auto with frame|done|]. intros _ v2 Hq2'.
  apply wp_provision; [done|done|by eapply own_quiet|done|done].
Qed.

Lemma wp_createSessionWithRetry fuel req offer fo fm rc parent w :
  wp (createSessionWithRetry cfg reg inventory fuel req offer fo fm rc parent)
    (created w (S fuel) req) w.
Proof.
  revert req offer fo fm rc parent w. induction fuel as [|fuel IH]; intros;
    cbn [createSessionWithRetry].
  - by apply wp_attempt.
  - apply wp_attempt. intros f [= <-]. exact IH.
Qed.

(** ** The retry bound *)
Lemma bind_ext {A B} (c : M W A) (k1 k2 : A -> M W B) w :
  (forall a v, k1 a v = k2 a v) -> bind c k1 w = bind c k2 w.
Proof. intros Hk. unfold bind. destruct (c w). apply Hk. Qed.

(** Two recursive calls that agree on the next count. *)
Definition agree (req : CreateSessionRequest.t) (rc : Z) (r1 r2 : option (retry_call (W := W))) : Prop :=
  (rc < CreateSessionRequest.MaxRetries req)%Z ->
  match r1, r2 with
  | Some f1, Some f2 => forall o offer fo fm parent w,
      f1 (CreateSessionRequest.set_OfferID o req) offer fo fm (rc + 1)%Z parent w =
      f2 (CreateSessionRequest.set_OfferID o req) offer fo fm (rc + 1)%Z parent w
  | None, None => True
  | _, _ => False
  end.

Lemma retry_or_fail_agree r1 r2 req offer fo fm rc s err w :
  agree req rc r1 r2 ->
  retry_or_fail inventory r1 req offer fo fm rc s err w =
  retry_or_fail inventory r2 req offer fo fm rc s err w.
Proof.
  intros Hag. unfold retry_or_fail. destruct inventory as [inv|]; [|done].
  destruct (_ && (rc <? _)%Z) eqn:Hg; [|done].
  apply andb_true_iff in Hg as [_ Hlt%Z.ltb_lt]. specialize (Hag Hlt).
  do 2 (apply bind_ext; intros ??). destruct a0 as [[|o os]|e]; [done| |done].
  destruct r1 as [f1|], r2 as [f2|]; [|done..].
  apply bind_ext. intros [next|panic] v1; [|done]. unfold bind. by rewrite Hag.
Qed.

Lemma attempt_agree r1 r2 req offer fo fm rc parent w :
  agree req rc r1 r2 ->
  attempt cfg reg inventory r1 req offer fo fm rc parent w =
  attempt cfg reg inventory r2 req offer fo fm rc parent w.
Proof.
  intros Hag. unfold attempt. do 2 (apply bind_ext; intros ??). case_match; [done|].
  apply bind_ext. intros [[priv pub]|e] v2; [|done].
  do 3 (apply bind_ext; intros ??). case_match; [done|].
  apply bind_ext. intros _ v6. unfold provision. case_match; [|done]. case_match; [|done].
  do 3 (apply bind_ext; intros ??). case_match; [done|].
  do 2 (apply bind_ext; intros ??). by apply retry_or_fail_agree.
Qed.

(** The retries end: from retry number [rc] on, [MaxRetries - rc] recursive calls
    are enough, and more change nothing, for every provider, inventory and store. *)
Theorem createSessionWithRetry_fuel fuel req offer fo fm rc parent w :
  Z.to_nat (CreateSessionRequest.MaxRetries req - rc) <= fuel ->
  createSessionWithRetry cfg reg inventory fuel req offer fo fm rc parent w =
  createSessionWithRetry cfg reg inventory
    (Z.to_nat (CreateSessionRequest.MaxRetries req - rc)) req offer fo fm rc parent w.
Proof.
  remember (Z.to_nat (CreateSessionRequest.MaxRetries req - rc)) as n eqn:Hn.
  revert fuel req offer fo fm rc parent w Hn. induction n as [|n IH];
    intros fuel req offer fo fm rc parent w Hn Hle.
  - destruct fuel; cbn [createSessionWithRetry]; apply attempt_agree; intros ?; lia.
  - destruct fuel as [|fuel]; [lia|]. cbn [createSessionWithRetry]. apply attempt_agree.
    intros Hlt o offer' fo' fm' parent' w'.
    apply IH; [|lia]. change (CreateSessionRequest.MaxRetries (CreateSessionRequest.set_OfferID o req))
      with (CreateSessionRequest.MaxRetries req). lia.
Qed.

(** ** What [CreateSession] promises *)
Lemma capped_retries_bound req : (capped_retries req <= 5)%Z.
Proof. unfold capped_retries. case_match; lia. Qed.

Lemma wp_CreateSession req offer w :
  wp (CreateSession cfg reg inventory req offer) (created w 6 req) w.
Proof.
  unfold CreateSession. cbv zeta. pose proof (capped_retries_bound req) as Hb.
  set (req' := if bool_decide _ then _ else _).
  assert (forall A (f : CreateSessionRequest.t -> A),
    (forall r s, f (CreateSessionRequest.set_RetryScope r s) = f s) ->
    f req' = f (CreateSessionRequest.set_MaxRetries (capped_retries req) req)) as Hproj
    by (intros A f Hf; subst req'; by case_bool_decide).
  eapply wp_mono; [apply wp_createSessionWithRetry|].
  intros r w' [Hg Hs Hok Hr].
  rewrite (Hproj _ CreateSessionRequest.MaxRetries) in Hs by done.
  rewrite (Hproj _ CreateSessionRequest.ConsumerID) in Hok by done.
  rewrite (Hproj _ choose_disk) in Hr by done. cbn in Hs.
  split; [exact Hg|lia|exact Hok|exact Hr].
Qed.

(** C2.  [CreateSession] only adds sessions: every session stored before is still
    there unchanged, and at most six are added (the retries are capped at five).  On
    success the returned session is new, provisioning, of the requesting consumer, and
    stored as returned up to its price and its unstored fields; and when the database
    answers, every other added session is failed, except that a request refused for
    its disk size leaves its record pending. *)
Theorem CreateSession_adds req offer w :
  wp (CreateSession cfg reg inventory req offer) (fun r w' =>
    grows w w' /\ size (sess_view w') <= size (sess_view w) + 6 /\
    (forall s, r = Ok s ->
       sess_view w !! Session.ID s = None /\ Session.Status s = StatusProvisioning /\
       Session.ConsumerID s = CreateSessionRequest.ConsumerID req /\
       exists p, sess_view w' !! Session.ID s = Some (Session.set_PricePerHour p (persisted s))) /\
    (healthy w -> forall j x, sess_view w !! j = None -> sess_view w' !! j = Some x ->
       (exists s, r = Ok s /\ j = Session.ID s) \/ Session.Status x = StatusFailed \/
       (Session.Status x = StatusPending /\ exists e, choose_disk req = Err e /\ r = Err e))) w.
Proof.
  eapply wp_mono; [apply wp_CreateSession|]. by intros r w' [Hg Hs Hok Hr].
Qed.

(** The call was refused for an active session of the consumer [c] for the offer [o],
    and ended with the lookup that found it. *)
Definition refused (c o : string) (w : W) (r : result Session.t) (w' : W) : Prop :=
  quiet w w' /\ (exists v, w' = snd (GetActiveSessionByConsumerAndOffer c o v)) /\
  exists y, active_for c o y /\ sess_view w !! Session.ID y = Some y /\
    r = Err (DuplicateSessionError c o (Session.ID y) (status_string (Session.Status y))).

Lemma attempt_refuses retry req offer fo fm parent id x w :
  healthy w -> sess_view w !! id = Some x ->
  active_for (CreateSessionRequest.ConsumerID req) (CreateSessionRequest.OfferID req) x ->
  wp (attempt cfg reg inventory retry req offer fo fm 0%Z parent)
    (refused (CreateSessionRequest.ConsumerID req) (CreateSessionRequest.OfferID req) w) w.
Proof.
  intros Hw Hx Hact. unfold attempt. apply (wp_quiet_seq w); [apply frame_check_balance|done|].
  intros _ v [Hv Hl]. unfold check_existing. cbn [Z.eqb]. apply wp_bind, wp_bind.
  pose proof (GetActive_spec (CreateSessionRequest.ConsumerID req)
                (CreateSessionRequest.OfferID req) v) as Hg.
  unfold wp in Hg |- * at 1. destruct Hg as [Hq2 Hr].
  destruct (fst (GetActiveSessionByConsumerAndOffer _ _ v)) as [y|e] eqn:He.
  - destruct Hr as [Hy Hya]. rewrite Hv in Hy.
    apply wp_ret, wp_ret. split; [etrans; [by split|done]|]. eauto 8.
  - destruct Hr as [Hh Hn]. rewrite Hh in Hn by (apply Hl, Hw).
    exfalso. eapply (Hn eq_refl id x); [by rewrite Hv|done].
Qed.

(** While a consumer has an active session for an offer, and the database answers,
    asking for another is refused with the identifier and status of an active one,
    before any record is stored or any provider asked for an instance: the call ends
    with the lookup. *)
Theorem CreateSession_refuses_duplicate req offer id x w :
  healthy w -> sess_view w !! id = Some x ->
  active_for (CreateSessionRequest.ConsumerID req) (CreateSessionRequest.OfferID req) x ->
  wp (CreateSession cfg reg inventory req offer)
    (refused (CreateSessionRequest.ConsumerID req) (CreateSessionRequest.OfferID req) w) w.
Proof.
  intros Hw Hx Hact. unfold CreateSession. cbv zeta.
  set (req' := if bool_decide _ then _ else _).
  assert (CreateSessionRequest.ConsumerID req' = CreateSessionRequest.ConsumerID req /\
          CreateSessionRequest.OfferID req' = CreateSessionRequest.OfferID req) as [Hc Ho]
    by (subst req'; by case_bool_decide).
  rewrite <-Hc, <-Ho in Hact |- *. clearbody req'.
  destruct (Z.to_nat _); cbn [createSessionWithRetry]; by eapply attempt_refuses.
Qed.
End CreateProofs.

(** ** Shell quoting *)

(** How a POSIX shell reads one word, up to the end or an unquoted blank: single quotes
    keep every byte, a backslash outside them keeps the next one.  Any other unquoted
    byte is refused here, since the shell could act on it.  [None] also stands for an
    unterminated quote. *)
Fixpoint sh_word (quoted : bool) (s : string) : option (string * string) :=
  match s with
  | EmptyString => if quoted then None else Some ("", "")
  | String c s' =>
      if quoted then
        if Ascii.eqb c "'" then sh_word false s'
        else match sh_word true s' with Some (w, r) => Some (String c w, r) | None => None end
      else if Ascii.eqb c " " then Some ("", s)
      else if Ascii.eqb c "'" then sh_word true s'
      else if Ascii.eqb c "\" then
        match s' with
        | EmptyString => None
        | String d s'' =>
            match sh_word false s'' with Some (w, r) => Some (String d w, r) | None => None end
        end
      else None
  end.

Lemma sh_word_escape s rest :
  (rest = "" \/ exists r, rest = String " " r) ->
  sh_word true (escape_quotes s +:+ "'" +:+ rest) = Some (s, rest).
Proof.
  intros Hrest. induction s as [|c s IH].
  - by destruct Hrest as [->|[r ->]].
  - cbn [escape_quotes]. destruct (Ascii.eqb_spec c "'") as [->|Hc].
    + change (sh_word true (("'\''" +:+ escape_quotes s) +:+ "'" +:+ rest)) with
        (match sh_word true (escape_quotes s +:+ "'" +:+ rest) with
         | Some (w, r) => Some (String "'" w, r)
         | None => None
         end). by rewrite IH.
    + change (String c (escape_quotes s) +:+ "'" +:+ rest)
        with (String c (escape_quotes s +:+ "'" +:+ rest)).
      cbn [sh_word]. by rewrite (proj2 (Ascii.eqb_neq c "'") Hc), IH.
Qed.

(** [shellQuote] protects any text: a shell reads the quoted text back as one word
    with exactly the original bytes, at the end of the command or before a blank. *)
Theorem shellQuote_one_word s rest :
  (rest = "" \/ exists r, rest = String " " r) ->
  sh_word false (shellQuote s +:+ rest) = Some (s, rest).
Proof.
  intros Hrest. rewrite <-(sh_word_escape s rest Hrest). unfold shellQuote.
  rewrite <-append_assoc. by rewrite <-append_assoc.
Qed.
