(* ===== verification/Verify.v ===== *)
(** [internal/service/provisioner/service.go]: the background verification of a new
    session, over SSH ([waitForSSHVerifyAsyncWithTimeout] and its retrying wrapper) and
    over HTTP ([waitForAPIVerifyAsync]), with the progressive backoff of its polling. *)
From S2P Require Import Prelude GoFloat GoLib Models Errors Interfaces Lifecycle Provisioner.
From S2P Require Import Disk CreateSession.

(** ** [ProgressiveBackoff] *)
Module Backoff.
Record t := mk { Initial : duration; Max : duration; Multiplier : f64; current : duration }.

Definition NewProgressiveBackoff (initial max : duration) (multiplier : f64) : t :=
  mk initial max multiplier initial.

(** [time.Duration(float64(d) * m)]. *)
Definition scale (d : duration) (m : f64) : duration :=
  let x := fmul (f64_of_Z d) m in int_of_f64 x (Z_of_f64_trunc x).

(** [Next]: the current interval, and the state after. *)
Definition Next (pb : t) : duration * t :=
  let next := scale (current pb) (Multiplier pb) in
  let next := if (Max pb <? next)%Z then Max pb else next in
  (current pb, mk (Initial pb) (Max pb) (Multiplier pb) next).

Definition Reset (pb : t) : t := mk (Initial pb) (Max pb) (Multiplier pb) (Initial pb).

Fixpoint intervals (n : nat) (pb : t) : list duration :=
  match n with
  | O => []
  | S n' => let (d, pb') := Next pb in d :: intervals n' pb'
  end.

(** The intervals of the default configuration, in seconds and milliseconds. *)
Example default_intervals :
  intervals 6 (NewProgressiveBackoff (15 * Second)%Z (60 * Second)%Z (f64_lit 15 10)) =
    (Z.mul 1000000 <$> [15000; 22500; 33750; 50625; 60000; 60000])%Z.
Proof. vm_compute. reflexivity. Qed.

(** The backoff only ever takes intervals of the list [l], none below [lo]. *)
Definition bounded (lo : duration) (l : list duration) (pb : t) : Prop :=
  Forall (fun d => lo <= d)%Z l /\ Initial pb ∈ l /\ current pb ∈ l /\
  Forall (fun d => current (snd (Next (mk (Initial pb) (Max pb) (Multiplier pb) d))) ∈ l) l.

Lemma bounded_Next lo l pb :
  bounded lo l pb -> (lo <= fst (Next pb))%Z /\ bounded lo l (snd (Next pb)).
Proof.
  intros (Hlo & Hi & Hc & Hn). split; [by eapply Forall_forall in Hlo|].
  split; [done|]. split; [done|]. split; [|done].
  eapply Forall_forall in Hn; [|exact Hc]. by destruct pb.
Qed.

Lemma bounded_Reset lo l pb : bounded lo l pb -> bounded lo l (Reset pb).
Proof. by intros (Hlo & Hi & Hc & Hn). Qed.
End Backoff.

(** ** The polling loop *)

(** Which case of the [select] runs: the poll timer, the timeout, the context. *)
Inductive Event := EvPoll | EvTimeout | EvCancelled.

(** The interfaces [SSHVerifier] and [HTTPVerifier]. *)
Class Verifiers (W : Type) := {
  VerifyOnce : string -> Z -> string -> string -> M W (option error);
  CheckHealth : string -> M W (option error)
}.

Class Timers (W : Type) := {
  (** [time.After] of a delay against the context's deadline; [false] when the context
      ended first *)
  after_or_done : time -> duration -> M W bool;
  (** the next ready case, given the context's deadline, the instant the timeout fires,
      and the interval the poll timer has just been set to *)
  select_event : time -> time -> duration -> M W Event;
  (** the same with a ticker of the given period instead of the poll timer *)
  select_tick : time -> time -> duration -> M W Event
}.

(** Connection attempts and health checks write no session. *)
Class VerifierLaws (W : Type) `{Verifiers W} `{Ghost W} : Prop := {
  verify_frame : forall h p u k, frame (VerifyOnce h p u k);
  health_frame : forall u, frame (CheckHealth u)
}.

(** Nor do timers.  A timer does not fire early; the poll timer, set just before the
    [select], is not ready when the [select] starts, so a context or timeout that is ready
    then is taken. *)
Class TimerLaws (W : Type) `{Timers W} `{Ghost W} : Prop := {
  tick_frame : forall ctx deadline d, frame (select_tick ctx deadline d);
  after_spec : forall ctx d w,
    wp (after_or_done ctx d) (fun elapsed w' => quiet w w' /\
      if elapsed : bool then (clock w + d <= clock w')%Z else (ctx <= clock w')%Z) w;
  select_spec : forall ctx deadline d w,
    wp (select_event ctx deadline d) (fun ev w' => quiet w w' /\
      match ev with
      | EvPoll => (clock w < ctx /\ clock w < deadline /\ clock w + d <= clock w')%Z
      | EvTimeout => (deadline <= clock w')%Z
      | EvCancelled => (ctx <= clock w')%Z
      end) w
}.

Section Verify.
Context {W : Type} `{SessionStore W} `{Env W} `{Random W} `{CostRecorder W} `{Verifiers W} `{Timers W}.
Context (cfg : Service.t) (reg : gmap string (Provider.t W)).
Context (inventory : option (InventoryFinder.t W)).

(** The variables of the loop that survive an iteration. *)
Record poll_state := {
  attemptCount : Z;
  lastSSHErr : bool;
  consecutivePermanentErrors : Z;
  consecutiveOK : Z;
  backoff : Backoff.t;
  nextInterval : duration
}.

Definition TensorDockCloudInitDelay : duration := (90 * Second)%Z.
Definition BlueLobsterBootDelay : duration := (60 * Second)%Z.

(** Statuses of an instance that is still starting. *)
Definition transient (status : string) : bool :=
  bool_decide (status ∈ [""; "created"; "creating"; "starting"; "provisioning"; "booting"; "loading"]).

(** Go on polling after the next backoff interval. *)
Definition again (st : poll_state) : M W (option poll_state) :=
  let (d, b) := Backoff.Next (backoff st) in
  ret (Some {| attemptCount := attemptCount st; lastSSHErr := lastSSHErr st;
               consecutivePermanentErrors := consecutivePermanentErrors st;
               consecutiveOK := consecutiveOK st; backoff := b; nextInterval := d |}).

Definition set_ok (ok : Z) (st : poll_state) : poll_state :=
  {| attemptCount := attemptCount st; lastSSHErr := false;
     consecutivePermanentErrors := consecutivePermanentErrors st; consecutiveOK := ok;
     backoff := backoff st; nextInterval := nextInterval st |}.
Definition set_failed (permanent : Z) (st : poll_state) : poll_state :=
  {| attemptCount := attemptCount st; lastSSHErr := true;
     consecutivePermanentErrors := permanent; consecutiveOK := 0;
     backoff := backoff st; nextInterval := nextInterval st |}.
Definition reset_backoff (st : poll_state) : poll_state :=
  {| attemptCount := attemptCount st; lastSSHErr := lastSSHErr st;
     consecutivePermanentErrors := consecutivePermanentErrors st;
     consecutiveOK := consecutiveOK st; backoff := Backoff.Reset (backoff st);
     nextInterval := nextInterval st |}.
Definition quick_recheck (st : poll_state) : poll_state :=
  {| attemptCount := attemptCount st; lastSSHErr := lastSSHErr st;
     consecutivePermanentErrors := consecutivePermanentErrors st;
     consecutiveOK := consecutiveOK st; backoff := backoff st;
     nextInterval := (5 * Second)%Z |}.
Definition count_attempt (st : poll_state) : poll_state :=
  {| attemptCount := attemptCount st + 1; lastSSHErr := lastSSHErr st;
     consecutivePermanentErrors := consecutivePermanentErrors st;
     consecutiveOK := consecutiveOK st; backoff := backoff st;
     nextInterval := nextInterval st |}.

(** The session with the connection details the provider reports. *)
Definition with_ssh_info (status : InstanceStatus.t) (s : Session.t) : Session.t :=
  let s := Session.set_SSHHost (InstanceStatus.SSHHost status) s in
  let s := if (InstanceStatus.SSHPort status =? 0)%Z then s
           else Session.set_SSHPort (InstanceStatus.SSHPort status) s in
  if bool_decide (InstanceStatus.SSHUser status = "") then s
  else Session.set_SSHUser (InstanceStatus.SSHUser status) s.

Definition blame_session (s : Session.t) (failType reason : string) : M W unit :=
  blame_offer inventory (Session.OfferID s) (Session.Provider s) (Session.GPUType s)
    failType reason.

(** The failed offers with the session's own added, for a permanent error. *)
Definition add_failed_offer (s : Session.t) : Session.t :=
  let o := Session.OfferID s in
  let f := Session.FailedOffers s in
  if bool_decide (o = "") then s
  else if bool_decide (f = "") then Session.set_FailedOffers o s
  else if Contains f o then s
  else Session.set_FailedOffers (f +:+ "," +:+ o) s.

(** One SSH attempt on a session with connection details. *)
Definition try_ssh (consecutiveNeeded : Z) (privateKey : string) (st : poll_state)
    (s : Session.t) : M W (option poll_state) :=
  let! e := VerifyOnce (Session.SSHHost s) (Session.SSHPort s) (Session.SSHUser s) privateKey in
  match e with
  | None =>
      let st := set_ok (consecutiveOK st + 1) st in
      if (consecutiveOK st <? consecutiveNeeded)%Z then ret (Some (quick_recheck st))
      else
        let oldStatus := Session.Status s in
        let s := Session.set_Status StatusRunning s in
        do! Update s in
        do! emit (Prom "UpdateSessionStatus"
              [Session.Provider s; status_string oldStatus; status_string StatusRunning]) in
        do! emit (Prom "RecordSSHVerifyDuration" [Session.Provider s]) in
        do! emit (Prom "RecordSSHVerifyAttempts" [Session.Provider s; Itoa (attemptCount st)]) in
        do! emit (Prom "RecordProvisioningDuration" [Session.Provider s]) in
        ret None
  | Some err =>
      let errorType := classifySSHError (Some err) in
      let permanent := bool_decide (errorType = "auth_failed") ||
                       bool_decide (errorType = "key_parse_failed") in
      let st := set_failed (if permanent then consecutivePermanentErrors st + 1 else 0)%Z st in
      do! emit (Prom "RecordSSHVerifyError" [Session.Provider s; errorType]) in
      if permanent && (3 <=? consecutivePermanentErrors st)%Z then
        let reason := "permanent SSH error: " +:+ errorType in
        let! s := failSession reg (add_failed_offer s) reason in
        do! blame_session s "auth_failed" reason in
        do! emit (Prom "RecordSSHVerifyFailure" []) in
        do! emit (Prom "RecordSessionDestroyed" [Session.Provider s; "permanent_ssh_error"]) in
        ret None
      else again st
  end.

(** After the status check: attempt SSH when the session can be reached. *)
Definition try_connect (consecutiveNeeded : Z) (privateKey : string) (st : poll_state)
    (s : Session.t) : M W (option poll_state) :=
  if negb (bool_decide (Session.SSHHost s = "")) && (0 <? Session.SSHPort s)%Z
  then try_ssh consecutiveNeeded privateKey st s
  else again st.

(** [case <-pollTimer.C]: [None] when the loop returns. *)
Definition ssh_poll (sessionID privateKey : string) (prov : Provider.t W)
    (consecutiveNeeded : Z) (st : poll_state) : M W (option poll_state) :=
  let st := count_attempt st in
  let! r := Get sessionID in
  match r with
  | Err _ => again st
  | Ok s =>
      if Session.IsTerminal s then ret None
      else
        let needStatusCheck := bool_decide (Session.SSHHost s = "") || lastSSHErr st in
        if needStatusCheck && negb (bool_decide (Session.ProviderID s = "")) then
          let! r := Provider.GetInstanceStatus prov (Session.ProviderID s) in
          match r with
          | Err e =>
              if error_exists is_instance_not_found e then
                let! s := failSession reg s "instance_vanished: no longer exists on provider" in
                do! emit (Prom "RecordSessionDestroyed" [Session.Provider s; "instance_vanished"]) in
                do! blame_session s "instance_vanished" "instance not found during SSH verification" in
                ret None
              else again st
          | Ok status =>
              if negb (InstanceStatus.Running status) &&
                 negb (transient (InstanceStatus.Status status)) then
                do! Provider.DestroyInstance prov (Session.ProviderID s) in
                let failReason := classifyInstanceStopReason (InstanceStatus.Status status)
                                    (InstanceStatus.Error status) in
                let! s := failSession reg s failReason in
                do! emit (Prom "RecordSessionDestroyed" [Session.Provider s; "instance_stopped"]) in
                do! blame_session s "instance_stopped" failReason in
                ret None
              else if bool_decide (Session.SSHHost s = "") &&
                      negb (bool_decide (InstanceStatus.SSHHost status = "")) then
                let s := with_ssh_info status s in
                let! e := Update s in
                let st := match e with None => reset_backoff st | Some _ => st end in
                try_connect consecutiveNeeded privateKey st s
              else try_connect consecutiveNeeded privateKey st s
          end
        else try_connect consecutiveNeeded privateKey st s
  end.

(** [case <-timeout.C] of the SSH verification. *)
Definition ssh_timeout (sessionID : string) (prov : Provider.t W) : M W unit :=
  let! r := Get sessionID in
  match r with
  | Err _ => skip
  | Ok s =>
      do! when (negb (bool_decide (Session.ProviderID s = "")))
            (do! Provider.DestroyInstance prov (Session.ProviderID s) in skip) in
      let! s := failSession reg s "SSH verification timeout" in
      do! emit (Prom "RecordSSHVerifyFailure" []) in
      do! emit (Prom "RecordSessionDestroyed" [Session.Provider s; "ssh_verify_timeout"]) in
      blame_session s "ssh_timeout" "SSH verification timeout"
  end.

(** The loop; [true] when it returned within [fuel] iterations. *)
Fixpoint ssh_loop (fuel : nat) (ctx timeout : time) (sessionID privateKey : string) (prov : Provider.t W)
    (consecutiveNeeded : Z) (st : poll_state) : M W bool :=
  match fuel with
  | O => ret false
  | S fuel' =>
      let! ev := select_event ctx timeout (nextInterval st) in
      match ev with
      | EvTimeout => do! ssh_timeout sessionID prov in ret true
      | EvCancelled => ret true
      | EvPoll =>
          let! r := ssh_poll sessionID privateKey prov consecutiveNeeded st in
          match r with
          | None => ret true
          | Some st' => ssh_loop fuel' ctx timeout sessionID privateKey prov consecutiveNeeded st'
          end
      end
  end.

(** The loop's variables at its entry. *)
Definition ssh_start : poll_state :=
  let b := Backoff.NewProgressiveBackoff (Service.sshCheckInterval cfg)
             (Service.sshMaxInterval cfg) (Service.sshBackoffMultiplier cfg) in
  let (d, b) := Backoff.Next b in
  {| attemptCount := 0; lastSSHErr := false; consecutivePermanentErrors := 0;
     consecutiveOK := 0; backoff := b; nextInterval := d |}.

Definition provider_is (name : string) (r : result Session.t) : bool :=
  match r with Ok s => bool_decide (Session.Provider s = name) | Err _ => false end.

(** [waitForSSHVerifyAsyncWithTimeout]; [ctx] is the context's deadline. *)
Definition waitForSSHVerifyAsyncWithTimeout (fuel : nat) (ctx : time)
    (sessionID privateKey : string) (prov : Provider.t W) (sshTimeout : duration) : M W bool :=
  let! r := Get sessionID in
  let! c1 := if provider_is "tensordock" r then after_or_done ctx TensorDockCloudInitDelay
             else ret true in
  if negb c1 then ret true
  else
    let! c2 := if provider_is "bluelobster" r then after_or_done ctx BlueLobsterBootDelay
               else ret true in
    if negb c2 then ret true
    else
      let consecutiveNeeded := if provider_is "bluelobster" r then 2%Z else 1%Z in
      let! t := time_Now in
      ssh_loop fuel ctx (Add t sshTimeout) sessionID privateKey prov consecutiveNeeded ssh_start.

(** [waitForSSHVerifyAsyncWithRetry]: the result is [Some] when the goroutine panics. *)
Definition waitForSSHVerifyAsyncWithRetry (fuel : nat) (ctx : time) (sessionID privateKey : string)
    (prov : Provider.t W) (sshTimeout : duration) (req : CreateSessionRequest.t)
    : M W (option error) :=
  do! waitForSSHVerifyAsyncWithTimeout fuel ctx sessionID privateKey prov sshTimeout in
  let! r := Get sessionID in
  match r, inventory with
  | Ok s, Some inv =>
      if bool_decide (Session.Status s = StatusFailed) && Session.AutoRetry s &&
         (Session.RetryCount s <? Session.MaxRetries s)%Z
      then triggerAsyncRetry cfg reg inventory inv s req
      else ret None
  | _, _ => ret None
  end.

(** The goroutine of phase 4: its context ends five seconds after the timeout. *)
Definition verify_ssh (fuel : nat) (sessionID privateKey : string) (prov : Provider.t W)
    (sshTimeout : duration) (req : CreateSessionRequest.t) : M W (option error) :=
  let! t := time_Now in
  waitForSSHVerifyAsyncWithRetry fuel (Add t (sshTimeout + 5 * Second)%Z) sessionID privateKey prov
    sshTimeout req.

(** ** API verification *)
Definition health_url (s : Session.t) : string :=
  "http://" +:+ Session.SSHHost s +:+ ":" +:+ Itoa (Session.APIPort s).

(** After the connection details: [true] when the loop returns. *)
Definition try_api (s : Session.t) : M W bool :=
  if negb (bool_decide (Session.SSHHost s = "")) && (0 <? Session.APIPort s)%Z then
    let! e := CheckHealth (health_url s +:+ "/health") in
    match e with
    | None =>
        let oldStatus := Session.Status s in
        let s := Session.set_Status StatusRunning s in
        let s := Session.set_APIEndpoint (health_url s) s in
        do! Update s in
        do! emit (Prom "UpdateSessionStatus"
              [Session.Provider s; status_string oldStatus; status_string StatusRunning]) in
        do! emit (Prom "RecordAPIVerifyDuration" [Session.Provider s]) in
        do! emit (Prom "RecordProvisioningDuration" [Session.Provider s]) in
        ret true
    | Some _ => ret false
    end
  else ret false.

(** [case <-ticker.C]. *)
Definition api_poll (sessionID : string) (prov : Provider.t W) : M W bool :=
  let! r := Get sessionID in
  match r with
  | Err _ => ret false
  | Ok s =>
      if Session.IsTerminal s then ret true
      else if bool_decide (Session.SSHHost s = "") && negb (bool_decide (Session.ProviderID s = ""))
      then
        let! r := Provider.GetInstanceStatus prov (Session.ProviderID s) in
        match r with
        | Err _ => ret false
        | Ok status =>
            if bool_decide (InstanceStatus.SSHHost status = "") then try_api s
            else
              let s := with_ssh_info status s in
              do! Update s in
              try_api s
        end
      else try_api s
  end.

(** [case <-timeout.C] of the API verification. *)
Definition api_timeout (sessionID : string) (prov : Provider.t W) : M W unit :=
  let! r := Get sessionID in
  match r with
  | Err _ => skip
  | Ok s =>
      do! when (negb (bool_decide (Session.ProviderID s = "")))
            (do! Provider.DestroyInstance prov (Session.ProviderID s) in skip) in
      let! s := failSession reg s "API verification timeout" in
      do! emit (Prom "RecordAPIVerifyFailure" []) in
      emit (Prom "RecordSessionDestroyed" [Session.Provider s; "api_verify_timeout"])
  end.

(** The loop; [true] when it returned within [fuel] iterations. *)
Fixpoint api_loop (fuel : nat) (ctx timeout : time) (sessionID : string) (prov : Provider.t W)
    : M W bool :=
  match fuel with
  | O => ret false
  | S fuel' =>
      let! ev := select_tick ctx timeout (Service.apiCheckInterval cfg) in
      match ev with
      | EvTimeout => do! api_timeout sessionID prov in ret true
      | EvCancelled => ret true
      | EvPoll =>
          let! finished := api_poll sessionID prov in
          if finished then ret true else api_loop fuel' ctx timeout sessionID prov
      end
  end.

(** [waitForAPIVerifyAsync]. *)
Definition waitForAPIVerifyAsync (fuel : nat) (ctx : time) (sessionID : string)
    (prov : Provider.t W) : M W bool :=
  let! t := time_Now in
  api_loop fuel ctx (Add t (Service.apiVerifyTimeout cfg)) sessionID prov.
End Verify.

Section VerifyProofs.
Context {W : Type} `{SessionStore W} `{Env W} `{Random W} `{CostRecorder W} `{Verifiers W} `{Timers W} `{Ghost W}.
Context `{!StoreLaws W} `{!EnvLaws W} `{!RandomLaws W} `{!CostRecorderLaws W} `{!VerifierLaws W} `{!TimerLaws W}.
Context (cfg : Service.t) (reg : gmap string (Provider.t W)) `{!ProviderLaws W reg}.
Context (inventory : option (InventoryFinder.t W)).
Context `{Hinv : !forall inv, inventory = Some inv -> InventoryLaws W inv}.

(** How verification may change a status: not at all, to failed, or to running when
    [V] holds. *)
Definition may_become (V : Prop) (a b : SessionStatus) : Prop :=
  b = a \/ b = StatusFailed \/ (b = StatusRunning /\ V).

(** Since [w0] only the session [id] was written, and its status satisfies [R]. *)
Definition touched (R : SessionStatus -> Prop) (w0 : W) (id : string) (w : W) : Prop :=
  later w0 w /\ exists x, sess_view w = <[id := x]> (sess_view w0) /\ R (Session.Status x).

Lemma touched_weaken (R R' : SessionStatus -> Prop) w0 id w :
  (forall b, R b -> R' b) -> touched R w0 id w -> touched R' w0 id w.
Proof. intros Hr [Hl (x & Hv & Hx)]. split; [done|]. exists x. auto. Qed.

Lemma touched_quiet R w0 id w w' : touched R w0 id w -> quiet w w' -> touched R w0 id w'.
Proof.
  intros [Hl (x & Hv & Hs)] [Hv' Hl']. split; [by etrans|]. exists x. by rewrite Hv'.
Qed.

(** Pass an operation that writes no session. *)
Lemma touched_seq {A B} R w0 id (c : M W A) (k : A -> M W B) (Q : B -> W -> Prop) w :
  frame c -> touched R w0 id w -> (forall a w', touched R w0 id w' -> wp (k a) Q w') ->
  wp (bind c k) Q w.
Proof.
  intros Hc Hw Hk. apply wp_bind, wp_frame; [done|]. intros a w' Hq. apply Hk.
  by eapply touched_quiet.
Qed.

Context (V : Prop) (w0 : W) (id : string) (x0 : Session.t).
Context (Hx0 : sess_view w0 !! id = Some x0).

(** The session's status is the one it had; or verification has ended, and on a healthy
    database does not leave the session provisioning. *)
Local Abbreviation a0 := (Session.Status x0).
Local Abbreviation steady := (touched (fun b => b = a0) w0 id).
Definition ending_status (b : SessionStatus) : Prop :=
  may_become V a0 b /\ (healthy w0 -> a0 = StatusProvisioning -> b <> StatusProvisioning).
Local Abbreviation ended := (touched ending_status w0 id).

Lemma touched_refl : steady w0.
Proof. split; [done|]. exists x0. by rewrite insert_id. Qed.

Lemma ending_failed : ending_status StatusFailed.
Proof. split; [by right; left|done]. Qed.

Lemma steady_lookup w : steady w -> exists x, sess_view w !! id = Some x /\ Session.Status x = a0.
Proof. intros [_ (x & Hv & Hs)]. exists x. by rewrite Hv, lookup_insert_eq. Qed.

Lemma touched_Update w s :
  steady w -> Session.ID s = id -> Session.Status s = a0 -> wp (Update s) (fun _ w' => steady w') w.
Proof.
  intros [Hl (x & Hv & Hs)] Hid Hst. eapply wp_mono; [apply Update_spec|].
  rewrite Hid. intros [e|] w' [Hl' Hr]; (split; [by etrans|]).
  - exists x. destruct Hr as [Hr _]. by rewrite Hr.
  - destruct Hr as (old & _ & Hr). exists (updated_by old s).
    by rewrite Hr, Hv, insert_insert_eq.
Qed.

Lemma touched_running w s :
  V -> steady w -> Session.ID s = id -> Session.Status s = StatusRunning ->
  wp (Update s) (fun _ w' => ended w') w.
Proof.
  intros HV [Hl (x & Hv & Hs)] Hid Hst. eapply wp_mono; [apply Update_spec|].
  rewrite Hid. intros [e|] w' [Hl' Hr]; (split; [by etrans|]).
  - exists x. destruct Hr as [Hr Hh]. split; [by rewrite Hr|]. rewrite Hs.
    split; [by left|]. intros Hw Ha.
    destruct (Hh (proj2 Hl Hw) x) as [Hact _]; [by rewrite Hv, lookup_insert_eq|].
    unfold Session.IsActive in Hact. by rewrite Hs, Ha in Hact.
  - destruct Hr as (old & _ & Hr). exists (updated_by old s).
    split; [by rewrite Hr, Hv, insert_insert_eq|]. cbn. rewrite Hst. split; [|done]. right. by right.
Qed.

Lemma touched_failSession w s reason :
  steady w -> Session.ID s = id -> wp (failSession reg s reason) (fun _ w' => ended w') w.
Proof.
  intros [Hl (x & Hv & Hs)] Hid. eapply wp_mono.
  { apply (wp_failSession reg x). by rewrite Hid, Hv, lookup_insert_eq. }
  intros s' w' (Hl' & Ho & t & _ & -> & x2 & Hx2 & Hx2' & Hh). split; [by etrans|].
  exists x2. split.
  - apply map_eq. intros j. destruct (decide (j = id)) as [->|Hne].
    + rewrite <-Hid at 1. by rewrite Hx2, lookup_insert_eq.
    + rewrite Ho, Hv, !lookup_insert_ne by congruence. done.
  - destruct Hx2' as [->| ->]; [|apply ending_failed]. split; [left; congruence|].
    intros Hw _. rewrite (Hh (proj2 Hl Hw)). done.
Qed.

(** A session read in such a state. *)
Lemma touched_Get w (Q : result Session.t -> W -> Prop) :
  steady w ->
  (forall e w', steady w' -> ~ healthy w0 -> Q (Err e) w') ->
  (forall s w', steady w' -> Session.ID s = id -> Session.APIPort s = 0%Z ->
     Session.Status s = a0 -> Q (Ok s) w') ->
  wp (Get id) Q w.
Proof.
  intros Hw He Ho. pose proof (steady_lookup w Hw) as (x & Hx & Hs).
  eapply wp_mono; [apply Get_spec|]. intros [s|e] w' [Hq Hr].
  - rewrite Hx in Hr. injection Hr as <-.
    apply Ho; [by eapply touched_quiet|by eapply view_id| |done].
    pose proof (view_stored _ _ _ Hx) as Hp. by rewrite <-Hp.
  - apply He; [by eapply touched_quiet|]. intros Hh. destruct Hw as [[_ Hl] _], Hr as [Hr Hn].
    rewrite (Hr (Hl Hh)) in Hn. rewrite Hn in Hx by done. done.
Qed.

Lemma frame_blame_session s a b : frame (blame_session inventory s a b).
Proof. by apply frame_blame_offer. Qed.

Lemma with_ssh_info_same st s :
  Session.ID (with_ssh_info st s) = Session.ID s /\
  Session.Status (with_ssh_info st s) = Session.Status s /\
  Session.APIPort (with_ssh_info st s) = Session.APIPort s.
Proof. unfold with_ssh_info. by repeat case_match. Qed.

Lemma add_failed_offer_id s : Session.ID (add_failed_offer s) = Session.ID s.
Proof. unfold add_failed_offer. by repeat case_match. Qed.

(** The intervals of the poll timer are at least [lo]. *)
Context (lo : duration) (ivs : list duration) (Hlo : (0 < lo <= 5 * Second)%Z).

Definition paced (st : poll_state) : Prop :=
  (lo <= nextInterval st)%Z /\ Backoff.bounded lo ivs (backoff st).

(** After an iteration: the loop goes on, or has ended. *)
Definition polled (r : option poll_state) (w : W) : Prop :=
  match r with Some st => steady w /\ paced st | None => ended w end.

Lemma polled_again st w : steady w -> paced st -> wp (again (W := W) st) polled w.
Proof.
  intros Hw [_ Hp]. unfold again. apply Backoff.bounded_Next in Hp as [Hd Hp].
  destruct (Backoff.Next _) as [d b]. by apply wp_ret.
Qed.

Local Ltac touched_emits :=
  cbv beta in *;
  repeat (eapply touched_seq; [apply emit_frame|eassumption|];
          let u := fresh in let w' := fresh "w" in intros u w' ?).

Lemma polled_try_ssh n key st s w :
  (forall h p u v, fst (VerifyOnce h p u key v) = None -> V) -> paced st ->
  steady w -> Session.ID s = id -> wp (try_ssh reg inventory n key st s) polled w.
Proof.
  intros HV Hp Hw Hid. unfold try_ssh. apply wp_bind.
  pose proof (verify_frame (Session.SSHHost s) (Session.SSHPort s) (Session.SSHUser s) key w) as Hq.
  pose proof (HV (Session.SSHHost s) (Session.SSHPort s) (Session.SSHUser s) w) as HVw.
  unfold wp in Hq |- * at 1. pose proof (touched_quiet _ _ _ _ _ Hw Hq) as Hw1.
  destruct (fst (VerifyOnce _ _ _ key w)) as [err|].
  - cbv zeta. eapply touched_seq; [apply emit_frame|exact Hw1|]. intros _ w2 Hw2.
    case_match; [|by apply polled_again].
    apply wp_bind. eapply wp_mono; [apply touched_failSession; [done|by rewrite add_failed_offer_id]|].
    intros s' w3 Hw3. eapply touched_seq; [apply frame_blame_session|exact Hw3|].
    intros _ w4 Hw4. touched_emits. by apply wp_ret.
  - cbv zeta. destruct Hp as [Hnx Hb].
    case_match; [apply wp_ret; split; [done|split; [apply Hlo|done]]|].
    apply wp_bind. eapply wp_mono; [apply touched_running; [by apply HVw|done|exact Hid|reflexivity]|].
    intros r w2 Hw2. touched_emits. by apply wp_ret.
Qed.

Lemma polled_try_connect n key st s w :
  (forall h p u v, fst (VerifyOnce h p u key v) = None -> V) -> paced st ->
  steady w -> Session.ID s = id -> wp (try_connect reg inventory n key st s) polled w.
Proof.
  intros. unfold try_connect. case_match; [by apply polled_try_ssh|by apply polled_again].
Qed.

Lemma steady_terminal s w :
  steady w -> Session.Status s = a0 -> Session.IsTerminal s = true -> ended w.
Proof.
  intros Hw Hs Ht. apply (touched_weaken (fun b => b = a0)); [|done]. intros b ->.
  split; [by left|]. intros _ Ha. unfold Session.IsTerminal in Ht. by rewrite Hs, Ha in Ht.
Qed.

Lemma polled_ssh_poll name prov n key st w :
  reg !! name = Some prov ->
  (forall h p u v, fst (VerifyOnce h p u key v) = None -> V) -> paced st ->
  steady w -> wp (ssh_poll reg inventory id key prov n st) polled w.
Proof.
  intros Hp HV Hst Hw. destruct (prov_frame _ _ Hp) as (_ & _ & _ & Hd & Hg & _).
  assert (Hst1 : paced (count_attempt st)) by done.
  unfold ssh_poll. apply wp_bind, touched_Get; [done|by intros; apply polled_again|].
  intros s w1 Hw1 Hid _ Hs. case_match; [by apply wp_ret, (steady_terminal s)|]. cbv zeta.
  case_match; [|by apply polled_try_connect].
  eapply touched_seq; [apply Hg|exact Hw1|]. intros [status|e] w2 Hw2.
  - case_match.
    + eapply touched_seq; [apply Hd|exact Hw2|]. intros _ w3 Hw3. apply wp_bind.
      eapply wp_mono; [by apply touched_failSession|]. intros s' w4 Hw4. touched_emits.
      eapply touched_seq; [apply frame_blame_session|eassumption|]. intros. by apply wp_ret.
    + case_match; [|by apply polled_try_connect].
      destruct (with_ssh_info_same status s) as (Hi & Hsi & _).
      apply wp_bind. eapply wp_mono; [apply touched_Update; [done|by rewrite Hi|by rewrite Hsi]|].
      intros r w3 Hw3. apply polled_try_connect; [done| |done|by rewrite Hi].
      destruct r; [done|]. destruct Hst1 as [Hnx Hb]. split; [done|by apply Backoff.bounded_Reset].
  - case_match; [|by apply polled_again].
    apply wp_bind. eapply wp_mono; [by apply touched_failSession|]. intros s' w3 Hw3.
    touched_emits. eapply touched_seq; [apply frame_blame_session|eassumption|]. intros.
    by apply wp_ret.
Qed.

(** The session a timeout found, failed. *)
Lemma touched_timeout name prov reason (k : Session.t -> M W unit) w :
  reg !! name = Some prov -> steady w -> (forall s, frame (k s)) ->
  wp (let! r := Get id in
      match r with
      | Err _ => skip
      | Ok s =>
          do! when (negb (bool_decide (Session.ProviderID s = "")))
                (do! Provider.DestroyInstance prov (Session.ProviderID s) in skip) in
          let! s := failSession reg s reason in
          k s
      end) (fun _ w' => ended w') w.
Proof.
  intros Hp Hw Hk. destruct (prov_frame _ _ Hp) as (_ & _ & _ & Hd & _).
  apply wp_bind, touched_Get; [done| |].
  { intros e w' Hw' Hn. apply wp_ret. apply (touched_weaken (fun b => b = a0)); [|done].
    intros b ->. by split; [left|]. }
  intros s w1 Hw1 Hid _ _. eapply touched_seq; [|exact Hw1|].
  { unfold when. case_match; [|apply frame_ret]. apply frame_bind; [apply Hd|].
    intros. apply frame_ret. }
  intros _ w2 Hw2. apply wp_bind. eapply wp_mono. { apply touched_failSession; [exact Hw2|exact Hid]. }
  intros s' w3 Hw3. apply wp_frame; [apply Hk|]. intros u w4 Hq. exact (touched_quiet _ _ _ _ _ Hw3 Hq).
Qed.

End VerifyProofs.

(** Enough iterations, at least [lo] apart, to reach an instant [left] away. *)
Definition polls (lo left : duration) : nat := Z.to_nat ((left + lo - 1) / lo).

Lemma polls_poll lo left left' :
  (0 < lo)%Z -> (0 < left)%Z -> (left' <= left - lo)%Z -> S (polls lo left') <= polls lo left.
Proof.
  intros Hlo Hl Hl'. unfold polls.
  assert (((left' + lo - 1) / lo + 1 <= (left + lo - 1) / lo)%Z) as Hd.
  { rewrite <-Z.div_add by lia. apply Z.div_le_mono; lia. }
  assert ((1 <= (left + lo - 1) / lo)%Z) as Hp by (apply Z.div_le_lower_bound; lia).
  lia.
Qed.

Lemma polls_mono lo left left' : (0 < lo)%Z -> (left <= left')%Z -> polls lo left <= polls lo left'.
Proof.
  intros Hlo Hl. unfold polls.
  assert (((left + lo - 1) / lo <= (left' + lo - 1) / lo)%Z) by (apply Z.div_le_mono; lia). lia.
Qed.

Section VerifyLoops.
Context {W : Type} `{SessionStore W} `{Env W} `{Random W} `{CostRecorder W} `{Verifiers W} `{Timers W} `{Ghost W}.
Context `{!StoreLaws W} `{!EnvLaws W} `{!RandomLaws W} `{!CostRecorderLaws W} `{!VerifierLaws W} `{!TimerLaws W}.
Context (cfg : Service.t) (reg : gmap string (Provider.t W)) `{!ProviderLaws W reg}.
Context (inventory : option (InventoryFinder.t W)).
Context `{Hinv : !forall inv, inventory = Some inv -> InventoryLaws W inv}.
Context (V : Prop) (w0 : W) (id : string) (x0 : Session.t).
Context (Hx0 : sess_view w0 !! id = Some x0).
Context (lo : duration) (ivs : list duration) (Hlo : (0 < lo <= 5 * Second)%Z).
Local Abbreviation a0 := (Session.Status x0).
Local Abbreviation steady := (touched (fun b => b = a0) w0 id).
Local Abbreviation ended := (touched (ending_status V w0 x0) w0 id).

(** From a later state of the same session on. *)
Lemma touched_rebase (R : SessionStatus -> Prop) w w' :
  steady w -> touched R w id w' -> touched R w0 id w'.
Proof.
  intros [Hl (x & Hv & _)] [Hl' (x' & Hv' & Hr)]. split; [by etrans|]. exists x'.
  by rewrite Hv', Hv, insert_insert_eq.
Qed.

Lemma ended_any w : ended w -> touched (may_become V a0) w0 id w.
Proof. apply touched_weaken. by intros b []. Qed.
Lemma steady_any w : steady w -> touched (may_become V a0) w0 id w.
Proof. apply touched_weaken. intros b ->. by left. Qed.

(** One iteration from [w]. *)
Lemma steady_ssh_poll name prov n key st w :
  reg !! name = Some prov ->
  (forall h p u v, fst (VerifyOnce h p u key v) = None -> V) -> paced lo ivs st -> steady w ->
  wp (ssh_poll reg inventory id key prov n st) (fun r w' => later w w' /\
    match r with Some st' => steady w' /\ paced lo ivs st' | None => ended w' end) w.
Proof.
  intros Hp HV Hst Hw. pose proof Hw as [Hl _].
  destruct (steady_lookup w0 id x0 w Hw) as (x & Hx & Hs).
  eapply wp_mono; [eapply (polled_ssh_poll reg inventory V w id x lo ivs Hlo); try done;
    by apply touched_refl|].
  intros [st'|] w' Hr; cbn in Hr.
  - destruct Hr as [Ht Hst']. split; [apply Ht|]. split; [|done]. rewrite Hs in Ht.
    by apply (touched_rebase _ w).
  - split; [apply Hr|]. apply (touched_rebase _ w); [done|].
    apply (touched_weaken (ending_status V w x)); [|done]. unfold ending_status. rewrite Hs.
    intros b [Hb Hh]. split; [done|]. intros Hw0. by apply Hh, Hl.
Qed.

(** What a loop promises: no other session changes; once it has returned, verification
    has ended or the context has; and it returns. *)
Definition loop_post (ctx : time) (enough : Prop) (returned : bool) (w : W) : Prop :=
  touched (may_become V a0) w0 id w /\
  (returned = true -> ended w \/ (steady w /\ (ctx <= clock w)%Z)) /\
  (enough -> returned = true).

Lemma loop_post_ended ctx (enough : Prop) w : ended w -> loop_post ctx enough true w.
Proof. intros Hw. split; [by apply ended_any|]. split; [by left|done]. Qed.

Lemma loop_post_cancelled ctx (enough : Prop) w :
  steady w -> (ctx <= clock w)%Z -> loop_post ctx enough true w.
Proof. intros Hw Hc. split; [by apply steady_any|]. split; [by right|done]. Qed.

Lemma loop_post_ssh fuel ctx deadline name prov n key st w :
  reg !! name = Some prov ->
  (forall h p u v, fst (VerifyOnce h p u key v) = None -> V) -> paced lo ivs st -> steady w ->
  wp (ssh_loop reg inventory fuel ctx deadline id key prov n st)
    (loop_post ctx (polls lo (deadline - clock w)%Z < fuel)) w.
Proof.
  intros Hp HV. revert st w. induction fuel as [|fuel IH]; intros st w Hst Hw; cbn [ssh_loop].
  { apply wp_ret. split; [by apply steady_any|]. split; [done|lia]. }
  apply wp_bind. eapply wp_mono; [apply select_spec|]. intros [| |] w1 [Hq Hev];
    pose proof (touched_quiet _ _ _ _ _ Hw Hq) as Hw1.
  - apply wp_bind. eapply wp_mono; [by eapply steady_ssh_poll|].
    intros [st'|] w2 [[Hc2 _] Hr]; [|by apply wp_ret, loop_post_ended].
    destruct Hr as [Hw2 Hst2]. eapply wp_mono; [by apply IH|]. intros r w3 (Ha & Hb & He).
    split; [done|]. split; [done|]. intros Hen. apply He.
    destruct Hst as [Hn _].
    pose proof (polls_poll lo (deadline - clock w)%Z (deadline - clock w2)%Z). lia.
  - apply wp_bind. eapply wp_mono; [eapply (touched_timeout reg V w0 id x0 name); [done|done|]|].
    + intros s. apply frame_bind; [apply emit_frame|]. intros _.
      apply frame_bind; [apply emit_frame|]. intros _. by apply frame_blame_session.
    + intros u w2 Hw2. by apply wp_ret, loop_post_ended.
  - by apply wp_ret, loop_post_cancelled.
Qed.

Lemma frame_elapsed ctx d (b : bool) :
  frame (if b then after_or_done ctx d else ret true : M W bool).
Proof.
  destruct b; [|apply frame_ret]. intros w. eapply wp_mono; [apply after_spec|]. by intros ? ? [].
Qed.

(** A delay before the loop. *)
Lemma loop_post_delay (b : bool) ctx d (enough : Prop) (k : M W bool) w :
  steady w -> (forall w', steady w' -> wp k (loop_post ctx enough) w') ->
  wp (let! c := if b then after_or_done ctx d else ret true in if negb c then ret true else k)
    (loop_post ctx enough) w.
Proof.
  intros Hw Hk. apply wp_bind. destruct b; [|by apply wp_ret, Hk].
  eapply wp_mono; [apply after_spec|]. intros [] w' [Hq Hc]; cbn [negb].
  - apply Hk. by eapply touched_quiet.
  - apply wp_ret, loop_post_cancelled; [|done]. by eapply touched_quiet.
Qed.

Lemma paced_start :
  Backoff.bounded lo ivs (Backoff.NewProgressiveBackoff (Service.sshCheckInterval cfg)
    (Service.sshMaxInterval cfg) (Service.sshBackoffMultiplier cfg)) ->
  paced lo ivs (ssh_start cfg).
Proof.
  intros Hb%Backoff.bounded_Next. unfold ssh_start. by destruct (Backoff.Next _) as [d b].
Qed.

Lemma loop_post_verify fuel ctx name prov key sshTimeout :
  Backoff.bounded lo ivs (Backoff.NewProgressiveBackoff (Service.sshCheckInterval cfg)
    (Service.sshMaxInterval cfg) (Service.sshBackoffMultiplier cfg)) ->
  reg !! name = Some prov ->
  (forall h p u v, fst (VerifyOnce h p u key v) = None -> V) ->
  wp (waitForSSHVerifyAsyncWithTimeout cfg reg inventory fuel ctx id key prov sshTimeout)
    (loop_post ctx (polls lo sshTimeout < fuel)) w0.
Proof.
  intros Hb Hp HV. unfold waitForSSHVerifyAsyncWithTimeout.
  pose proof (touched_refl w0 id x0 Hx0) as Hw.
  apply wp_bind, wp_frame.
  { intros w. eapply wp_mono; [apply Get_spec|]. by intros ? ? []. }
  intros r w1 Hq. apply (touched_quiet _ _ _ _ _ Hw) in Hq.
  apply loop_post_delay; [done|]. intros w2 Hw2. apply loop_post_delay; [done|]. intros w3 Hw3.
  cbv zeta. apply wp_bind. eapply wp_mono; [apply time_Now_spec|]. intros t w4 (Hq4 & Ht).
  eapply wp_mono; [eapply loop_post_ssh; try done|].
  - by apply paced_start.
  - by eapply touched_quiet.
  - intros b w5 (Ha & Hb' & He). split; [done|]. split; [done|]. intros Hen. apply He.
    eapply Nat.le_lt_trans; [|exact Hen]. apply polls_mono; [lia|]. unfold Add. lia.
Qed.

(** API verification reads a port that is not stored. *)
Lemma steady_try_api s w :
  steady w -> Session.APIPort s = 0%Z -> wp (try_api s) (fun _ w' => steady w') w.
Proof. intros Hw Hport. unfold try_api. rewrite Hport, andb_false_r. by apply wp_ret. Qed.

Lemma steady_api_poll name prov w :
  reg !! name = Some prov -> steady w -> wp (api_poll id prov) (fun _ w' => steady w') w.
Proof.
  intros Hp Hw. destruct (prov_frame _ _ Hp) as (_ & _ & _ & _ & Hg & _).
  unfold api_poll. apply wp_bind, (touched_Get w0 id x0); [done|by intros; apply wp_ret|].
  intros s w2 Hw2 Hid Hport Hs. case_match; [by apply wp_ret|]. case_match; [|by apply steady_try_api].
  eapply touched_seq; [apply Hg|exact Hw2|]. intros [status|e] w3 Hw3; [|by apply wp_ret].
  case_match; [by apply steady_try_api|]. destruct (with_ssh_info_same status s) as (Hi & Hst & Hap).
  apply wp_bind. eapply wp_mono; [apply touched_Update; [done|by rewrite Hi|by rewrite Hst]|].
  intros r w4 Hw4. apply steady_try_api; [done|by rewrite Hap].
Qed.

Lemma touched_api_loop fuel ctx deadline name prov w :
  reg !! name = Some prov -> steady w ->
  wp (api_loop cfg reg fuel ctx deadline id prov)
    (fun _ w' => touched (may_become False a0) w0 id w') w.
Proof.
  intros Hp. assert (forall w', steady w' -> touched (may_become False a0) w0 id w') as Hany.
  { intros w' Hw'. apply (touched_weaken (fun b => b = a0)); [|done]. intros b ->. by left. }
  revert w. induction fuel as [|fuel IH]; intros w Hw; cbn [api_loop]; [by apply wp_ret, Hany|].
  eapply touched_seq; [apply tick_frame|exact Hw|].
  intros [| |] w1 Hw1; [| |by apply wp_ret, Hany].
  - apply wp_bind. eapply wp_mono; [by eapply steady_api_poll|].
    intros [] w2 Hw2; [by apply wp_ret, Hany|by apply IH].
  - apply wp_bind. eapply wp_mono; [eapply (touched_timeout reg False w0 id x0 name); [done|done|]|].
    + intros s. apply frame_bind; [apply emit_frame|]. intros _. apply emit_frame.
    + intros u w2 Hw2. apply wp_ret. eapply touched_weaken; [|exact Hw2]. by intros b [].
Qed.
End VerifyLoops.

Section VerifyTheorems.
Context {W : Type} `{SessionStore W} `{Env W} `{Random W} `{CostRecorder W} `{Verifiers W} `{Timers W} `{Ghost W}.
Context `{!StoreLaws W} `{!EnvLaws W} `{!RandomLaws W} `{!CostRecorderLaws W} `{!VerifierLaws W} `{!TimerLaws W}.
Context (cfg : Service.t) (reg : gmap string (Provider.t W)) `{!ProviderLaws W reg}.
Context (inventory : option (InventoryFinder.t W)).
Context `{Hinv : !forall inv, inventory = Some inv -> InventoryLaws W inv}.

(** SSH verification ends: when its polling intervals are at least [lo], it returns within
    [polls lo sshTimeout] iterations after the first.  It writes only its session, which
    becomes running only when [V] holds, what a successful connection with the session's key
    shows; and on a healthy database a provisioning session is left provisioning only when
    the context ended first. *)
Lemma verification_outcome (V : Prop) fuel ctx name prov id key sshTimeout lo intervals s w :
  (forall h p u v, fst (VerifyOnce h p u key v) = None -> V) ->
  (0 < lo <= 5 * Second)%Z ->
  Backoff.bounded lo intervals (Backoff.NewProgressiveBackoff (Service.sshCheckInterval cfg)
    (Service.sshMaxInterval cfg) (Service.sshBackoffMultiplier cfg)) ->
  reg !! name = Some prov -> sess_view w !! id = Some s -> polls lo sshTimeout < fuel ->
  wp (waitForSSHVerifyAsyncWithTimeout cfg reg inventory fuel ctx id key prov sshTimeout)
    (fun returned w' => returned = true /\
      (forall j, j <> id -> sess_view w' !! j = sess_view w !! j) /\
      exists s', sess_view w' !! id = Some s' /\
        (Session.Status s' = Session.Status s \/ Session.Status s' = StatusFailed \/
         (Session.Status s' = StatusRunning /\ V)) /\
        (healthy w -> Session.Status s = StatusProvisioning ->
         Session.Status s' = StatusProvisioning -> (ctx <= clock w')%Z)) w.
Proof.
  intros HV Hlo Hb Hp Hs Hfuel.
  eapply wp_mono; [eapply (loop_post_verify cfg reg inventory V w id s Hs lo intervals Hlo fuel); done|].
  intros r w' ([_ (x & Hv & Hx)] & Hend & Henough). pose proof (Henough Hfuel) as ->.
  split; [done|]. split; [intros j Hj; by rewrite Hv, lookup_insert_ne|].
  exists x. split; [by rewrite Hv, lookup_insert_eq|]. split; [done|]. intros Hh Ha Hx'.
  destruct (Hend eq_refl) as [[_ (y & Hy & _ & Hn)]|[_ Hc]]; [|done].
  assert (x = y) as <-; [|by destruct (Hn Hh Ha)].
  rewrite Hy in Hv. apply (f_equal (lookup id)) in Hv. rewrite !lookup_insert_eq in Hv. congruence.
Qed.

(** API verification can never succeed: its loop reads the session from the
    store, where the API port has no column, so whatever the endpoint answers and
    however long it runs, it never makes a session running. *)
Theorem api_verification_never_succeeds fuel ctx name prov id s w :
  reg !! name = Some prov -> sess_view w !! id = Some s ->
  wp (waitForAPIVerifyAsync cfg reg fuel ctx id prov) (fun _ w' =>
    exists s', sess_view w' !! id = Some s' /\
      (Session.Status s' = Session.Status s \/ Session.Status s' = StatusFailed)) w.
Proof.
  intros Hp Hs. unfold waitForAPIVerifyAsync. apply wp_bind.
  eapply wp_mono; [apply time_Now_spec|]. intros t w1 [Hq _].
  assert (touched (fun b => b = Session.Status s) w id w1) as Hw1.
  { eapply touched_quiet; [by apply touched_refl|exact Hq]. }
  eapply wp_mono; [by eapply touched_api_loop|].
  intros _ w' [_ (x & Hv & Hst)]. exists x. rewrite Hv, lookup_insert_eq. split; [done|].
  destruct Hst as [?|[?|[_ []]]]; auto.
Qed.

(** The verification timeout fails the stored session whatever its status is, even
    when it was stopped in the meantime: nothing checks that it is still provisioning. *)
Theorem ssh_timeout_fails_any name prov id s w :
  reg !! name = Some prov -> sess_view w !! id = Some s -> healthy w ->
  wp (ssh_timeout reg inventory id prov) (fun _ w' =>
    exists t, (clock w <= t <= clock w')%Z /\
      sess_view w' !! id =
        Some (Session.set_StoppedAt t (Session.set_Error "SSH verification timeout"
                (Session.set_Status StatusFailed s)))) w.
Proof.
  intros Hp Hs Hh. destruct (prov_frame _ _ Hp) as (_ & _ & _ & Hd & _).
  pose proof (view_id _ _ _ Hs) as Hid.
  unfold ssh_timeout. apply wp_bind. eapply wp_mono; [apply Get_spec|].
  intros [s1|e] w1 [Hq Hr].
  2: { destruct Hr as [He Hn]. rewrite He in Hn by done. rewrite Hn in Hs by done. done. }
  rewrite Hs in Hr. injection Hr as <-.
  apply (wp_quiet_seq w); [|done|].
  { unfold when. case_match; [|apply frame_ret]. apply frame_bind; [apply Hd|].
    intros. apply frame_ret. }
  intros _ w2 [Hv2 Hl2]. apply wp_bind. eapply wp_mono.
  { apply (wp_failSession reg s). by rewrite Hid, Hv2. }
  intros s' w3 ([Hc3 _] & _ & t & Ht & -> & x2 & Hx2 & _ & Hx2'). rewrite Hid in Hx2.
  apply wp_frame.
  { apply frame_bind; [apply emit_frame|]. intros _. apply frame_bind; [apply emit_frame|].
    intros _. by apply frame_blame_offer. }
  intros u w4 [Hv4 [Hc4 _]]. exists t. destruct Hl2 as [Hc2 Hh2]. split; [lia|].
  rewrite Hv4, Hx2, Hx2' by auto. by destruct s.
Qed.
End VerifyTheorems.
