(* ===== verification/GoText.v ===== *)
(** More of Go's standard library, for the parsers and the scheduler: [strings.Fields],
    [strings.TrimSuffix] and the calendar fields of a [time.Time]. *)
From S2P Require Import Prelude GoLib GoStrings.
From Stdlib Require Import Ascii.

(** [strings.Fields] on ASCII white space. *)
Fixpoint Fields (s : string) : list string :=
  match s with
  | EmptyString => []
  | String c s' =>
      if is_space c then Fields s'
      else match s' with
           | EmptyString => [String c ""]
           | String d _ =>
               if is_space d then String c "" :: Fields s'
               else match Fields s' with
                    | w :: ws => String c w :: ws
                    | [] => [String c ""]
                    end
           end
  end.

Definition TrimSuffix (s suffix : string) : string :=
  let n := String.length s - String.length suffix in
  if (String.length suffix <=? String.length s) && bool_decide (drop_string n s = suffix)
  then take_string n s else s.

(** ** Facts *)

(** Every field is a word: not empty, and without white space. *)
Definition word (w : string) : Prop := w <> "" /\ all_bytes (fun c => negb (is_space c)) w = true.

Lemma Fields_words s : Forall word (Fields s).
Proof.
  induction s as [|c s IH]; cbn [Fields]; [done|].
  destruct (is_space c) eqn:Hc; [exact IH|].
  assert (word (String c "")) as Hw by (split; [done|]; cbn; by rewrite Hc).
  destruct s as [|d s]; [by constructor|]. destruct (is_space d); [by constructor|].
  destruct (Fields (String d s)) as [|w ws]; [by constructor|].
  apply Forall_cons in IH as [[_ Hall] Hws]. constructor; [|exact Hws]. split; [done|]. cbn. by rewrite Hc.
Qed.

(** A word followed by white space is the first field. *)
Lemma Fields_word w s :
  word w -> Fields (w +:+ String " " s) = w :: Fields s.
Proof.
  intros [Hne Hall]. induction w as [|c w IH]; [done|]. cbn in Hall. apply andb_true_iff in Hall as [Hc Hall].
  apply negb_true_iff in Hc. destruct w as [|d w].
  - change (String c "" +:+ String " " s) with (String c (String " " s)). cbn [Fields]. rewrite Hc. done.
  - change (String c (String d w) +:+ String " " s) with (String c ((String d w) +:+ String " " s)).
    assert (Hd : is_space d = false) by (cbn in Hall; apply andb_true_iff in Hall as [Hd _]; by apply negb_true_iff).
    change (Fields (String c (String d w +:+ String " " s))) with
      (if is_space c then Fields (String d w +:+ String " " s)
       else if is_space d then String c "" :: Fields (String d w +:+ String " " s)
       else match Fields (String d w +:+ String " " s) with
            | w' :: ws => String c w' :: ws | [] => [String c ""] end).
    rewrite Hc, Hd, IH by done. done.
Qed.
Lemma Fields_last w : word w -> Fields w = [w].
Proof.
  intros [Hne Hall]. induction w as [|c w IH]; [done|]. cbn in Hall. apply andb_true_iff in Hall as [Hc Hall].
  apply negb_true_iff in Hc. cbn [Fields]. rewrite Hc. destruct w as [|d w]; [done|].
  assert (Hd : is_space d = false) by (cbn in Hall; apply andb_true_iff in Hall as [Hd _]; by apply negb_true_iff).
  by rewrite Hd, IH.
Qed.

(** Joining words with spaces and splitting them again. *)
Lemma Fields_Join ws : Forall word ws -> Fields (Join ws " ") = ws.
Proof.
  induction 1 as [|w ws Hw Hws IH]; [done|]. destruct ws as [|w' ws]; [by apply Fields_last|].
  change (Join (w :: w' :: ws) " ") with (w +:+ String " " (Join (w' :: ws) " ")).
  by rewrite Fields_word, IH.
Qed.

Lemma TrimSuffix_app s suffix : TrimSuffix (s +:+ suffix) suffix = s.
Proof.
  unfold TrimSuffix. rewrite length_app_string.
  replace (String.length s + String.length suffix - String.length suffix) with (String.length s) by lia.
  rewrite drop_app_string, bool_decide_true, take_app_string by done.
  destruct (Nat.leb_spec (String.length suffix) (String.length s + String.length suffix)); [done|lia].
Qed.

(** ** Calendar fields of an instant in UTC *)
Section Calendar.
Local Open Scope Z_scope.
Definition TimeMinute (t : time) : Z := (t / Minute) mod 60.
Definition TimeHour (t : time) : Z := (t / Hour) mod 24.
(** As [MonthDay], counting from March. *)
Definition TimeMonth (t : time) : Z :=
  let z := t / Day + 306 in
  let doe := z mod 146097 in
  let yoe := (doe - doe / 1460 + doe / 36524 - doe / 146096) / 365 in
  let doy := doe - (365 * yoe + yoe / 4 - yoe / 100) in
  let mp := (5 * doy + 2) / 153 in
  if mp <? 10 then mp + 3 else mp - 9.
(** Sunday is 0; 1 January of year 1 was a Monday. *)
Definition TimeWeekday (t : time) : Z := (t / Day + 1) mod 7.

(** 29 February 2024, a Thursday, at 13:45. *)
Example leap_day_fields :
  let t := 63843552000 * Second + 14 * Day + 13 * Hour + 45 * Minute in
  (TimeMinute t, TimeHour t, MonthDay t, TimeMonth t, TimeWeekday t) = (45, 13, 29, 2, 4).
Proof. reflexivity. Qed.
End Calendar.
