(* ===== verification/Programs.v ===== *)
(** Goroutines as programs over effects: a finite tree that performs one effect at a time
    and goes on with its answer.  What holds for every answer holds whatever the other
    goroutines do in between; an interpreter runs a program on a state. *)
From S2P Require Import Prelude.
#[local] Set Warnings "-clear-no-such-hyp".

(** [E A] is an effect that is answered by an [A]. *)
Inductive prog (E : Type -> Type) (A : Type) : Type :=
| Return (a : A)
| Perform (B : Type) (e : E B) (k : B -> prog E A).
Arguments Return {E A}.
Arguments Perform {E A B}.

Definition trigger {E B} (e : E B) : prog E B := Perform e Return.

Fixpoint pbind {E A B} (p : prog E A) (q : A -> prog E B) : prog E B :=
  match p with
  | Return a => q a
  | Perform e k => Perform e (fun b => pbind (k b) q)
  end.

Notation "'let*' x ':=' p 'in' q" := (pbind p (fun x => q))
  (at level 10, x name, p at level 100, q at level 200) : go_scope.
Notation "'do*' p 'in' q" := (pbind p (fun _ => q))
  (at level 10, p at level 100, q at level 200) : go_scope.

(** [for _, x := range l] with a body that leaves the loop with [Some r]. *)
Fixpoint pfor {E A R} (l : list A) (body : A -> prog E (option R)) : prog E (option R) :=
  match l with
  | [] => Return None
  | x :: l' =>
      let* r := body x in
      match r with Some r => Return (Some r) | None => pfor l' body end
  end.

(** An effect and its answer. *)
Inductive event (E : Type -> Type) : Type := Ev (B : Type) (e : E B) (answer : B).
Arguments Ev {E B}.

(** ** Monitors

    A monitor watches the events of a program: [next] is the state it is in afterwards,
    [allowed] what it demands of the program, [assumed] what it grants about the answers. *)
Record monitor (E : Type -> Type) (S : Type) := mk_monitor {
  next : event E -> S -> S;
  allowed : event E -> S -> Prop;
  assumed : event E -> S -> Prop
}.
Arguments mk_monitor {E S}.
Arguments next {E S}.
Arguments allowed {E S}.
Arguments assumed {E S}.

Section Watch.
Context {E : Type -> Type} {S : Type} (mon : monitor E S).

(** From the monitor state [s], every execution of [p] does only what is allowed, and ends
    in [Q], as long as the answers are as assumed. *)
Fixpoint watch {A} (p : prog E A) (Q : A -> S -> Prop) (s : S) : Prop :=
  match p with
  | Return a => Q a s
  | Perform e k =>
      forall b, assumed mon (Ev e b) s -> allowed mon (Ev e b) s /\ watch (k b) Q (next mon (Ev e b) s)
  end.

Lemma watch_ret {A} (a : A) (Q : A -> S -> Prop) s : Q a s -> watch (Return a) Q s.
Proof. done. Qed.

Lemma watch_bind {A B} (p : prog E A) (q : A -> prog E B) Q s :
  watch p (fun a s' => watch (q a) Q s') s -> watch (pbind p q) Q s.
Proof.
  revert s. induction p as [a|C e k IH]; intros s; [done|]; cbn.
  intros Hp b Hb. destruct (Hp b Hb). auto.
Qed.

Lemma watch_mono {A} (p : prog E A) (Q Q' : A -> S -> Prop) s :
  watch p Q s -> (forall a s', Q a s' -> Q' a s') -> watch p Q' s.
Proof.
  intros Hp HQ. revert s Hp. induction p as [a|C e k IH]; cbn; [eauto|].
  intros s Hp b Hb. destruct (Hp b Hb). eauto.
Qed.

(** A program after another one of which only [R] is known. *)
Lemma watch_seq {A B} (R : A -> S -> Prop) (p : prog E A) (q : A -> prog E B) Q s :
  watch p R s -> (forall a s', R a s' -> watch (q a) Q s') -> watch (pbind p q) Q s.
Proof. intros Hp Hq. apply watch_bind. by eapply watch_mono. Qed.

Lemma watch_trigger {B} (e : E B) (Q : B -> S -> Prop) s :
  (forall b, assumed mon (Ev e b) s -> allowed mon (Ev e b) s /\ Q b (next mon (Ev e b) s)) ->
  watch (trigger e) Q s.
Proof. intros HQ. exact HQ. Qed.

Lemma watch_and {A} (p : prog E A) (Q Q' : A -> S -> Prop) s :
  watch p Q s -> watch p Q' s -> watch p (fun a s' => Q a s' /\ Q' a s') s.
Proof.
  revert s. induction p as [a|C e k IH]; cbn; [done|].
  intros s Hp Hp' b Hb. destruct (Hp b Hb), (Hp' b Hb). auto.
Qed.

(** The rule of a loop: [P] holds of the elements visited. *)
Lemma watch_pfor {A R} (P : list A -> S -> Prop) (body : A -> prog E (option R)) l Q s :
  P [] s ->
  (forall pre x post s, l = pre ++ x :: post -> P pre s ->
     watch (body x) (fun r s' => match r with Some r => Q (Some r) s' | None => P (pre ++ [x]) s' end) s) ->
  (forall s, P l s -> Q None s) ->
  watch (pfor l body) Q s.
Proof.
  intros Hstart Hbody Hend.
  assert (forall post pre s, l = pre ++ post -> P pre s -> watch (pfor post body) Q s) as Hgen.
  { induction post as [|x post IH]; intros pre s' Hl HP; cbn.
    - rewrite app_nil_r in Hl. subst. by apply Hend.
    - apply watch_bind. eapply watch_mono; [by eapply Hbody|].
      intros [r|] s'' Hr; [exact Hr|]. eapply (IH (pre ++ [x])); [|exact Hr]. by rewrite <-app_assoc. }
  by apply (Hgen l []).
Qed.

(** A property of the monitor state that every event keeps. *)
Lemma watch_stable {A} (P : S -> Prop) (p : prog E A) s :
  (forall x s, assumed mon x s -> P s -> allowed mon x s /\ P (next mon x s)) ->
  P s -> watch p (fun _ s' => P s') s.
Proof.
  intros HP. revert s. induction p as [a|B e k IH]; cbn; [eauto|].
  intros s Hs b Hb. destruct (HP _ _ Hb Hs). eauto.
Qed.
End Watch.

(** ** Programs that perform only some effects *)
Section Only.
Context {E : Type -> Type} (allowed_effect : forall B, E B -> bool).

Fixpoint only {A} (p : prog E A) : Prop :=
  match p with
  | Return _ => True
  | Perform e k => allowed_effect _ e = true /\ forall b, only (k b)
  end.

Lemma only_bind {A B} (p : prog E A) (q : A -> prog E B) :
  only p -> (forall a, only (q a)) -> only (pbind p q).
Proof. intros Hp Hq. induction p as [a|C e k IH]; cbn in *; [auto|]. destruct Hp. auto. Qed.

Lemma only_trigger {B} (e : E B) : allowed_effect _ e = true -> only (trigger e).
Proof. by split. Qed.

(** What each of these effects keeps, the program keeps. *)
Lemma only_watch {S} (mon : monitor E S) (Inv : S -> Prop) {A} (p : prog E A) s :
  (forall B (e : E B) b s, allowed_effect _ e = true -> assumed mon (Ev e b) s -> Inv s ->
     allowed mon (Ev e b) s /\ Inv (next mon (Ev e b) s)) ->
  only p -> Inv s -> watch mon p (fun _ s' => Inv s') s.
Proof.
  intros Hkeep. revert s. induction p as [a|B e k IH]; cbn; [done|].
  intros s [He Hk] Hs b Hb. destruct (Hkeep B e b s He Hb Hs). eauto.
Qed.
End Only.

Lemma only_weaken {E : Type -> Type} (P Q : forall B, E B -> bool) {A} (p : prog E A) :
  (forall B e, P B e = true -> Q B e = true) -> only P p -> only Q p.
Proof. intros HPQ. induction p as [a|C e k IH]; cbn; [done|]. intros [He Hk]. auto. Qed.

(** The monitor that remembers everything, the newest event first. *)
Definition recorder {E} : monitor E (list (event E)) :=
  mk_monitor cons (fun _ _ => True) (fun _ _ => True).
Lemma recorder_all {E} (h : list (event E)) : foldr (next recorder) [] h = h.
Proof. induction h as [|x h IH]; cbn; [done|]. f_equal. exact IH. Qed.

(** ** Resources

    [opens] names what an event opens, [closes] what it closes, [uses] what must be open. *)
Section Resources.
Context {E : Type -> Type} {R : Type} `{Countable R} (opens closes : event E -> option R) (uses : event E -> list R).

(** What is opened is new; only what is open is used. *)
Definition resources : monitor E (gset R) :=
  mk_monitor
    (fun x s =>
       match opens x with
       | Some r => {[r]} ∪ s
       | None => match closes x with Some r => s ∖ {[r]} | None => s end
       end)
    (fun x s => Forall (fun r => r ∈ s) (uses x))
    (fun x s => match opens x with Some r => r ∉ s | None => True end).

(** Whatever is open before is open afterwards, and nothing else. *)
Definition tidy {A} (p : prog E A) (s : gset R) : Prop := watch resources p (fun _ s' => s' = s) s.

Lemma tidy_ret {A} (a : A) s : tidy (Return a) s.
Proof. done. Qed.
Lemma tidy_bind {A B} (p : prog E A) (q : A -> prog E B) s :
  tidy p s -> (forall a, tidy (q a) s) -> tidy (pbind p q) s.
Proof. intros Hp Hq. eapply watch_seq; [exact Hp|]. intros a s' ->. apply Hq. Qed.
(** An effect that opens and closes nothing. *)
Lemma tidy_effect {B} (e : E B) s :
  (forall b, opens (Ev e b) = None /\ closes (Ev e b) = None /\ Forall (fun r => r ∈ s) (uses (Ev e b))) ->
  tidy (trigger e) s.
Proof. intros He. apply watch_trigger. intros b _. destruct (He b) as (Ho & Hc & Hu). cbn. by rewrite Ho, Hc. Qed.
(** What is done with a resource that was just opened, and its close. *)
Lemma tidy_close {C A} (c : E C) r (body : prog E A) s :
  (forall x, opens (Ev c x) = None /\ closes (Ev c x) = Some r) -> r ∉ s ->
  watch resources body (fun _ s' => s' ∖ {[r]} = s /\ forall x, Forall (fun r => r ∈ s') (uses (Ev c x))) ({[r]} ∪ s) ->
  watch resources (let* a := body in do* trigger c in Return a) (fun _ s' => s' = s) ({[r]} ∪ s).
Proof.
  intros Hc Hnew Hbody. eapply watch_seq; [exact Hbody|]. intros a s' [Hs' Hu]. apply watch_bind, watch_trigger.
  intros x _. destruct (Hc x) as [Hxo Hxc]. cbn. by rewrite Hxo, Hxc.
Qed.
Lemma tidy_inside {C A} (c : E C) r (body : prog E A) s :
  r ∉ s -> (forall x, Forall (fun q => q = r) (uses (Ev c x))) -> tidy body ({[r]} ∪ s) ->
  watch resources body (fun _ s' => s' ∖ {[r]} = s /\ forall x, Forall (fun r => r ∈ s') (uses (Ev c x))) ({[r]} ∪ s).
Proof.
  intros Hnew Hu Hb. eapply watch_mono; [exact Hb|]. intros a s' ->. split; [set_solver|].
  intros x. eapply Forall_impl; [apply Hu|]. intros q ->. set_solver.
Qed.
End Resources.

(** ** Running a program

    [handle] performs an effect on the state; [None] when the process does not come back from
    it. *)
Section Run.
Context {E : Type -> Type} {W : Type} (handle : forall B, E B -> W -> option (B * W)).

Fixpoint run {A} (p : prog E A) (h : list (event E)) (w : W) : option (A * list (event E) * W) :=
  match p with
  | Return a => Some (a, h, w)
  | Perform e k =>
      match handle _ e w with
      | Some (b, w') => run (k b) (Ev e b :: h) w'
      | None => None
      end
  end.

(** A run is one of the executions: its events lead the monitor to [Q]. *)
Lemma run_watch {A S} (mon : monitor E S) (p : prog E A) Q s0 h w a h' w' :
  (forall x s, assumed mon x s) ->
  watch mon p Q (foldr (next mon) s0 h) ->
  run p h w = Some (a, h', w') -> Q a (foldr (next mon) s0 h').
Proof.
  intros Has. revert h w. induction p as [x|B e k IH]; intros h w Hp Hr; cbn in *.
  - by simplify_eq.
  - destruct (handle B e w) as [[b v]|]; [|done]. eapply (IH b); [|exact Hr]. by apply (Hp b).
Qed.
End Run.

(** Running a program whose effects all come back. *)
Section Interpret.
Context {E : Type -> Type} {W : Type} (handle : forall B, E B -> M W B).

Fixpoint interp {A} (p : prog E A) : M W A :=
  match p with
  | Return a => ret a
  | Perform e k => let! b := handle _ e in interp (k b)
  end.
(** What the run did, the newest event first, after [h]. *)
Fixpoint events {A} (p : prog E A) (h : list (event E)) (w : W) : list (event E) :=
  match p with
  | Return _ => h
  | Perform e k => let (b, w') := handle _ e w in events (k b) (Ev e b :: h) w'
  end.

Lemma interp_watch {A S} (mon : monitor E S) (p : prog E A) Q s0 h w :
  (forall x s, assumed mon x s) -> watch mon p Q (foldr (next mon) s0 h) ->
  Q (fst (interp p w)) (foldr (next mon) s0 (events p h w)).
Proof.
  intros Has. revert h w. induction p as [a|B e k IH]; intros h w Hp; cbn in *; [exact Hp|].
  unfold bind. destruct (handle B e w) as [b v]. apply IH. by apply (Hp b).
Qed.
End Interpret.

(** ** Many goroutines and one lock

    [takes] and [gives] say which events take the lock and give it back; a lock is taken
    only while nobody holds it. *)
Section Threads.
Context {E : Type -> Type} (takes gives needs : event E -> bool).

(** A thread takes the lock only without it, gives it back only with it, and does what
    [needs] it only with it. *)
Definition lock_monitor : monitor E bool :=
  mk_monitor (fun x held => if takes x then true else if gives x then false else held)
    (fun x held => (takes x = true -> held = false) /\ (gives x = true -> held = true) /\
                   (needs x = true -> held = true))
    (fun _ _ => True).

Record thread := mk_thread { code : prog E unit; holds : bool }.

(** The threads, and whether the lock is taken; the label is the thread that moves and the
    event. *)
Inductive thread_step (i : nat) (x : event E) : list thread * bool -> list thread * bool -> Prop :=
| step_thread ts B (e : E B) k held b locked :
    x = Ev e b -> ts !! i = Some (mk_thread (Perform e k) held) ->
    (takes x = true -> locked = false) ->
    thread_step i x (ts, locked)
      (<[i := mk_thread (k b) (next lock_monitor x held)]> ts, next lock_monitor x locked).

Definition disciplined (t : thread) : Prop := watch lock_monitor (code t) (fun _ held => held = false) (holds t).
Definition holders (ts : list thread) : list thread := List.filter holds ts.

(** At most one thread holds the lock, and one does exactly when it is taken. *)
Definition locked_inv (s : list thread * bool) : Prop :=
  Forall disciplined s.1 /\ length (holders s.1) = if s.2 then 1 else 0.

Lemma holders_replace ts i t t' :
  ts !! i = Some t ->
  length (holders (<[i := t']> ts)) + (if holds t then 1 else 0) =
  length (holders ts) + (if holds t' then 1 else 0).
Proof.
  intros Hi. rewrite <-(take_drop_middle _ _ _ Hi) at 2.
  rewrite insert_take_drop by (by eapply lookup_lt_Some).
  unfold holders. rewrite !List.filter_app, !length_app. cbn.
  destruct (holds t), (holds t'); cbn; lia.
Qed.

Lemma locked_inv_step i x s s' : locked_inv s -> thread_step i x s s' -> locked_inv s'.
Proof.
  intros [Hd Hn] Hs. destruct Hs as [ts B e k held b locked Hx0 Hi Hfree]; subst x. cbn [fst snd] in *.
  pose proof Hd as Hd'. rewrite Forall_lookup in Hd'.
  destruct (Hd' _ _ Hi b I) as [(Htake & Hgive & _) Hk].
  split; cbn [fst snd]; [by apply Forall_insert|].
  pose proof (holders_replace _ _ _ (mk_thread (k b) (next lock_monitor (Ev e b) held)) Hi) as Hr.
  cbn [holds] in *. cbn [next lock_monitor] in *.
  destruct (takes (Ev e b)).
  - rewrite Htake in Hr by done. rewrite Hfree in Hn by done. lia.
  - destruct (gives (Ev e b)); [rewrite Hgive in Hr by done|]; destruct locked, held; lia.
Qed.

Definition some_step (s s' : list thread * bool) : Prop := exists i x, thread_step i x s s'.

Lemma locked_inv_start ts :
  Forall (fun p => watch lock_monitor p (fun _ held => held = false) false) ts ->
  locked_inv ((fun p => mk_thread p false) <$> ts, false).
Proof.
  intros Hts. split; [by apply Forall_fmap|]. cbn.
  clear Hts. induction ts as [|t l IH]; [done|]. exact IH.
Qed.

Lemma locked_inv_reachable s s' : rtc some_step s s' -> locked_inv s -> locked_inv s'.
Proof.
  induction 1 as [|s1 s2 s3 (i & x & H12) H23 IH]; [done|]. intros Hi. apply IH.
  by eapply locked_inv_step.
Qed.

(** However the steps are interleaved: a thread that does what needs the lock holds it, and
    it is the only one. *)
Lemma only_holder s s' i x :
  locked_inv s -> thread_step i x s s' -> needs x = true ->
  exists t, s.1 !! i = Some t /\ holders s.1 = [t].
Proof.
  intros [Hd Hn] Hs Hx. destruct Hs as [ts B e k held b locked Hx0 Hi Hfree]; subst x. cbn [fst snd] in *.
  rewrite Forall_lookup in Hd. destruct (Hd _ _ Hi b I) as [(_ & _ & Hneed) _].
  specialize (Hneed Hx). cbn in Hneed. subst held. exists (mk_thread (Perform e k) true). split; [done|].
  assert (mk_thread (Perform e k) true ∈ holders ts) as Hin.
  { apply list_elem_of_In, List.filter_In. split; [|done]. by eapply list_elem_of_In, list_elem_of_lookup_2. }
  destruct (holders ts) as [|t [|t' l]]; cbn in Hn.
  - by apply not_elem_of_nil in Hin.
  - by apply list_elem_of_singleton in Hin as <-.
  - destruct locked; lia.
Qed.

Lemma holds_alone s i t : locked_inv s -> s.1 !! i = Some t -> holds t = true -> holders s.1 = [t].
Proof.
  intros [_ Hn] Hi Ht.
  assert (t ∈ holders s.1) as Hin.
  { apply list_elem_of_In, List.filter_In. split; [|done]. by eapply list_elem_of_In, list_elem_of_lookup_2. }
  destruct (holders s.1) as [|t' [|t2 l]]; cbn in Hn.
  - by apply not_elem_of_nil in Hin.
  - by apply list_elem_of_singleton in Hin as <-.
  - destruct s.2; lia.
Qed.

(** *** What a thread keeps to

    A thread performs only events that [P] allows, given whether it holds the lock. *)
Definition confined (P : event E -> bool -> Prop) (t : thread) : Prop :=
  watch (mk_monitor (next lock_monitor) P (fun _ _ => True)) (code t) (fun _ _ => True) (holds t).
Definition all_confined (P : nat -> event E -> bool -> Prop) (s : list thread * bool) : Prop :=
  forall i t, s.1 !! i = Some t -> confined (P i) t.

Lemma confined_step P i x s s' :
  all_confined P s -> thread_step i x s s' ->
  all_confined P s' /\ exists t, s.1 !! i = Some t /\ P i x (holds t).
Proof.
  intros Hc Hs. destruct Hs as [ts B e k held b locked Hx0 Hi Hfree]; subst x.
  destruct (Hc _ _ Hi b I) as [Hp Hk]. split; [|by eexists].
  intros j t. cbn [fst]. destruct (decide (i = j)) as [<-|Hne].
  - rewrite list_lookup_insert_eq by (by eapply lookup_lt_Some). by intros [= <-].
  - rewrite list_lookup_insert_ne by done. apply Hc.
Qed.
Lemma confined_reachable P s s' : rtc some_step s s' -> all_confined P s -> all_confined P s'.
Proof.
  induction 1 as [|s1 s2 s3 (i & x & H12) H23 IH]; [done|]. intros Hc. apply IH. by eapply confined_step.
Qed.
End Threads.

(** A thread that follows a discipline of the lock, whatever that asks the lock for, and
    performs only effects that are [ok]. *)
Lemma confined_only {E : Type -> Type} (takes gives needs needs' : event E -> bool)
    (ok : forall B, E B -> bool) (P : event E -> bool -> Prop) (p : prog E unit) Q held :
  watch (lock_monitor takes gives needs') p Q held -> only ok p ->
  (forall B (e : E B) b held, ok B e = true -> (needs' (Ev e b) = true -> held = true) -> P (Ev e b) held) ->
  confined takes gives needs P (mk_thread p held).
Proof.
  intros Hp Hok HP. unfold confined. cbn [code holds]. revert held Hp Hok.
  induction p as [a|B e k IH]; intros held Hp Hok; [done|]. destruct Hok as [He Hk]. intros b _.
  destruct (Hp b I) as [(_ & _ & Hneed) Hb]. split; [by apply HP|]. by apply IH.
Qed.

(** ** Two kinds of effects *)
Inductive either (E F : Type -> Type) (B : Type) : Type := Left (e : E B) | Right (f : F B).
Arguments Left {E F B}.
Arguments Right {E F B}.

(** A program with one kind of effects among programs with both. *)
Fixpoint inject {E F : Type -> Type} {A} (p : prog F A) : prog (either E F) A :=
  match p with
  | Return a => Return a
  | Perform e k => Perform (Right e) (fun b => inject (k b))
  end.
