(* ===== verification/SshOutput.v ===== *)
(** [internal/ssh]: what the output of [nvidia-smi], [df] and [dmesg] on a rented machine is
    read as ([gpu_status.go], [disk_status.go], [oom_status.go]). *)
From S2P Require Import Prelude GoFloat GoLib GoStrings GoText Models Errors.
From Stdlib Require Import Ascii.

(** ** Matching text, for the regular expressions

    The expressions of the package read from left to right without backtracking: after
    each repetition comes a byte that it cannot take. *)
Definition lit (p s : string) : option string :=
  if HasPrefix s p then Some (drop_string (String.length p) s) else None.
(** The longest prefix of such bytes, and the rest. *)
Fixpoint span (p : ascii -> bool) (s : string) : string * string :=
  match s with
  | String c s' => if p c then let (a, b) := span p s' in (String c a, b) else ("", s)
  | EmptyString => ("", "")
  end.
Definition some_of (p : ascii -> bool) (s : string) : option (string * string) :=
  match span p s with (EmptyString, _) => None | r => Some r end.
Fixpoint exactly (n : nat) (p : ascii -> bool) (s : string) : option string :=
  match n, s with
  | O, _ => Some s
  | S n', String c s' => if p c then exactly n' p s' else None
  | S _, EmptyString => None
  end.
(** The leftmost position that matches. *)
Fixpoint first_match {A} (m : string -> option A) (s : string) : option A :=
  match m s with
  | Some a => Some a
  | None => match s with String _ s' => first_match m s' | EmptyString => None end
  end.

Definition is_upper (c : ascii) : bool := byte_in 65 90 c.
Definition is_lower (c : ascii) : bool := byte_in 97 122 c.
(** [\s], which has no vertical tab. *)
Definition re_space (c : ascii) : bool := is_space c && negb (Ascii.eqb c (ascii_of_nat 11)).

(** [strconv.Atoi] with its error, and with the error ignored. *)
Definition atoi_error (s : string) (e : num_error) : error :=
  EOpaque ("strconv.Atoi: parsing " +:+ Quote s +:+ ": " +:+
           match e with ErrSyntax => "invalid syntax" | ErrRange => "value out of range" end).
Definition atoi_value (s : string) : Z :=
  match Atoi s with
  | Ok v => v
  | Err ErrSyntax => 0
  | Err ErrRange => if HasPrefix s "-" then min_int64 else max_int64
  end.

(** ** [gpu_status.go] *)
Module GPUStatus.
Record t := mk {
  Name : string;
  MemoryUsedMB : Z;
  MemoryTotalMB : Z;
  UtilizationPct : Z;
  TemperatureC : Z;
  PowerDrawW : Z
}.
Definition MemoryUsedPct (g : t) : f64 :=
  if (MemoryTotalMB g =? 0)%Z then f0
  else fmul (fdiv (f64_of_Z (MemoryUsedMB g)) (f64_of_Z (MemoryTotalMB g))) (f64_of_Z 100).
Definition IsHealthy (g : t) : bool := (TemperatureC g <? 90)%Z && (MemoryUsedMB g <? MemoryTotalMB g)%Z.
Definition String_ (g : t) : string :=
  Name g +:+ ": " +:+ Itoa (MemoryUsedMB g) +:+ "MB/" +:+ Itoa (MemoryTotalMB g) +:+ "MB (" +:+
  fmt_fixed 1 (MemoryUsedPct g) +:+ "%), " +:+ Itoa (UtilizationPct g) +:+ "% util, " +:+
  Itoa (TemperatureC g) +:+ "C, " +:+ Itoa (PowerDrawW g) +:+ "W".
End GPUStatus.

Module CUDAInfo.
Record t := mk { CUDAVersion : string; CUDAMajor : Z; CUDAMinor : Z; DriverVersion : string }.
Definition CUDAVersionFloat (c : t) : f64 :=
  fadd (f64_of_Z (CUDAMajor c)) (fdiv (f64_of_Z (CUDAMinor c)) (f64_of_Z 10)).
End CUDAInfo.

(** One line of [df]. *)
Module MountInfo.
Record t := mk {
  Filesystem : string;
  TotalGB : f64;
  UsedGB : f64;
  AvailGB : f64;
  UsePct : Z;
  MountPoint : string
}.
End MountInfo.

Definition not_available (s : string) : bool :=
  bool_decide (s = "") || bool_decide (s = "[N/A]") || bool_decide (s = "N/A").
Definition field_error (fieldName s : string) (e : error) : error :=
  EWrap ("failed to parse " +:+ fieldName +:+ " " +:+ Quote s) e.

Definition parseIntField (s fieldName : string) : res error Z :=
  let s := TrimSpace s in
  if not_available s then Ok 0%Z
  else match Atoi s with
       | Ok v => Ok v
       | Err e => Err (field_error fieldName s (atoi_error s e))
       end.

Section Floats.
Context (ParseFloat : string -> res error f64).

Definition parseFloatAsInt (s fieldName : string) : res error Z :=
  let s := TrimSpace s in
  if not_available s then Ok 0%Z
  else match ParseFloat s with
       | Ok val => Ok (int_of_f64 val (Z_of_f64_trunc val))
       | Err e => match Atoi s with Ok v => Ok v | Err _ => Err (field_error fieldName s e) end
       end.

Definition too_few_fields (n : nat) (line : string) : error :=
  EOpaque ("invalid nvidia-smi output format: expected 6 fields, got " +:+ Itoa (Z.of_nat n) +:+
           " (output: " +:+ Quote line +:+ ")").

(** The six fields of a line, in the order in which they are read. *)
Definition gpu_fields (name used total util temp power : string) : res error GPUStatus.t :=
  if bool_decide (TrimSpace name = "") then Err (EOpaque "empty GPU name in nvidia-smi output")
  else
    match parseIntField used "memory.used" with
    | Err e => Err e
    | Ok memUsed =>
        match parseIntField total "memory.total" with
        | Err e => Err e
        | Ok memTotal =>
            match parseIntField util "utilization.gpu" with
            | Err e => Err e
            | Ok util =>
                match parseIntField temp "temperature.gpu" with
                | Err e => Err e
                | Ok temp =>
                    match parseFloatAsInt power "power.draw" with
                    | Err e => Err e
                    | Ok power => Ok (GPUStatus.mk (TrimSpace name) memUsed memTotal util temp power)
                    end
                end
            end
        end
    end.

(** The first line that is not blank. *)
Definition ParseNvidiaSMI (output : string) : res error GPUStatus.t :=
  let output := TrimSpace output in
  if bool_decide (output = "") then Err (EOpaque "empty nvidia-smi output")
  else
    let line := TrimSpace (default "" (head (Split output "010"%char))) in
    match Split line ","%char with
    | name :: used :: total :: util :: temp :: power :: _ => gpu_fields name used total util temp power
    | parts => Err (too_few_fields (length parts) line)
    end.

(** The lines from the [i]-th on. *)
Fixpoint gpu_lines (i : Z) (lines : list string) : res error (list GPUStatus.t) :=
  match lines with
  | [] => Ok []
  | line :: lines' =>
      let line := TrimSpace line in
      if bool_decide (line = "") then gpu_lines (i + 1) lines'
      else
        match ParseNvidiaSMI line with
        | Err e => Err (EWrap ("failed to parse GPU " +:+ Itoa i) e)
        | Ok status =>
            match gpu_lines (i + 1) lines' with
            | Ok statuses => Ok (status :: statuses)
            | Err e => Err e
            end
        end
  end.
Definition ParseMultiGPUNvidiaSMI (output : string) : res error (list GPUStatus.t) :=
  let output := TrimSpace output in
  if bool_decide (output = "") then Err (EOpaque "empty nvidia-smi output")
  else match gpu_lines 0 (Split output "010"%char) with
       | Ok [] => Err (EOpaque "no GPUs found in nvidia-smi output")
       | r => r
       end.

(** *** Versions *)
(** [CUDA Version:\s*(\d+)\.(\d+)] at the start of the text, and [^(\d+)\.(\d+)$]. *)
Definition dotted (s : string) : option (string * string * string) :=
  '(major, s) ← some_of is_digit s; s ← lit "." s; '(minor, s) ← some_of is_digit s;
  Some (major, minor, s).
Definition cuda_match (s : string) : option (string * string) :=
  s ← lit "CUDA Version:" s; '(major, minor, _) ← dotted (span re_space s).2; Some (major, minor).
Definition simple_match (s : string) : option (string * string) :=
  '(major, minor, s) ← dotted s; if bool_decide (s = "") then Some (major, minor) else None.
(** [Driver Version:\s*([\d.]+)]. *)
Definition driver_match (s : string) : option string :=
  s ← lit "Driver Version:" s;
  '(version, _) ← some_of (fun c => is_digit c || Ascii.eqb c ".") (span re_space s).2; Some version.

Definition cuda_info (major minor driver : string) : CUDAInfo.t :=
  let major := atoi_value major in
  let minor := atoi_value minor in
  CUDAInfo.mk (Itoa major +:+ "." +:+ Itoa minor) major minor driver.
Definition ParseCUDAVersion (nvidiaSmiOutput : string) : res error CUDAInfo.t :=
  let output := TrimSpace nvidiaSmiOutput in
  if bool_decide (output = "") then Err (EOpaque "empty nvidia-smi output")
  else
    let driver := default "" (first_match driver_match output) in
    match first_match cuda_match output with
    | Some (major, minor) => Ok (cuda_info major minor driver)
    | None =>
        match simple_match output with
        | Some (major, minor) => Ok (cuda_info major minor driver)
        | None => Err (EOpaque ("could not parse CUDA version from output: " +:+ Quote output))
        end
    end.

(** ** [disk_status.go] *)

Definition IsLow (mounts : list MountInfo.t) : bool := existsb (fun m => (90 <? MountInfo.UsePct m)%Z) mounts.

Definition largest_avail (m : MountInfo.t) (mounts : list MountInfo.t) : f64 :=
  fold_left (fun best m => if fgtb (MountInfo.AvailGB m) best then MountInfo.AvailGB m else best) mounts
    (MountInfo.AvailGB m).
Definition AvailableGB (mounts : list MountInfo.t) : f64 :=
  match mounts with
  | [] => f0
  | m :: rest =>
      match List.find (fun m => bool_decide (MountInfo.MountPoint m = "/")) mounts with
      | Some root => MountInfo.AvailGB root
      | None => largest_avail m rest
      end
  end.

Definition mount_text (m : MountInfo.t) : string :=
  MountInfo.Filesystem m +:+ ": " +:+ fmt_fixed 1 (MountInfo.UsedGB m) +:+ "GB/" +:+
  fmt_fixed 1 (MountInfo.TotalGB m) +:+ "GB (" +:+ Itoa (MountInfo.UsePct m) +:+ "%) on " +:+
  MountInfo.MountPoint m.
Definition DiskStatus_String (mounts : list MountInfo.t) : string :=
  match mounts with [] => "no mounts" | _ => Join (mount_text <$> mounts) "; " end.

Definition parseGBField (s : string) : res error f64 :=
  let s := TrimSuffix (TrimSpace s) "G" in
  if bool_decide (s = "") || bool_decide (s = "-") then Ok f0 else ParseFloat s.

Definition parseDFLine (line : string) : res error MountInfo.t :=
  match Fields line with
  | filesystem :: total :: used :: avail :: pct :: mount :: more =>
      match parseGBField total with
      | Err e => Err (EWrap "parse total" e)
      | Ok total =>
          match parseGBField used with
          | Err e => Err (EWrap "parse used" e)
          | Ok used =>
              match parseGBField avail with
              | Err e => Err (EWrap "parse avail" e)
              | Ok avail =>
                  let pctStr := TrimSuffix pct "%" in
                  match Atoi pctStr with
                  | Err e => Err (EWrap ("parse pct " +:+ Quote pct) (atoi_error pctStr e))
                  | Ok usePct => Ok (MountInfo.mk filesystem total used avail usePct (List.last more mount))
                  end
              end
          end
      end
  | fields => Err (EOpaque ("expected at least 6 fields, got " +:+ Itoa (Z.of_nat (length fields))))
  end.

Definition is_header (line : string) : bool :=
  let lower := ToLower line in Contains lower "filesystem" || Contains lower "mounted on".
(** The mount of a line, if it is one. *)
Definition df_mount (line : string) : option MountInfo.t :=
  let line := TrimSpace line in
  if bool_decide (line = "") then None
  else if is_header line then None
  else match parseDFLine line with Ok m => Some m | Err _ => None end.
Definition ParseDiskOutput (output : string) : list MountInfo.t :=
  let output := TrimSpace output in
  if bool_decide (output = "") then [] else omap df_mount (Split output "010"%char).
End Floats.

(** ** [oom_status.go] *)
Module OOMStatus.
Record t := mk {
  OOMDetected : bool;
  KilledProcs : list string;
  LastOOMTime : string;
  RawOutput : string
}.
Definition String_ (o : t) : string :=
  if OOMDetected o then
    "OOM detected" +:+
    (match KilledProcs o with [] => "" | l => ": killed " +:+ Join l ", " end) +:+
    (if bool_decide (LastOOMTime o = "") then "" else " (last: " +:+ LastOOMTime o +:+ ")")
  else "no OOM events detected".
End OOMStatus.

(** [Killed process \d+ \(([^)]+)\)]. *)
Definition killed_match (s : string) : option string :=
  s ← lit "Killed process " s; '(_, s) ← some_of is_digit s; s ← lit " (" s;
  '(proc, s) ← some_of (fun c => negb (Ascii.eqb c ")")) s; _ ← lit ")" s; Some proc.
(** [\[([A-Z][a-z]{2} [A-Z][a-z]{2} +\d+ \d{2}:\d{2}:\d{2} \d{4})\]]: the text in brackets. *)
Definition dmesg_time (s : string) : option string :=
  s ← exactly 1 is_upper s; s ← exactly 2 is_lower s; s ← lit " " s;
  s ← exactly 1 is_upper s; s ← exactly 2 is_lower s; '(_, s) ← some_of (Ascii.eqb " ") s;
  '(_, s) ← some_of is_digit s; s ← lit " " s;
  s ← exactly 2 is_digit s; s ← lit ":" s; s ← exactly 2 is_digit s; s ← lit ":" s;
  s ← exactly 2 is_digit s; s ← lit " " s; exactly 4 is_digit s.
Definition timestamp_match (s : string) : option string :=
  s ← lit "[" s; rest ← dmesg_time s; _ ← lit "]" rest;
  Some (take_string (String.length s - String.length rest) s).

Definition tells_oom (line : string) : bool :=
  let lower := ToLower line in
  Contains lower "oom" || Contains lower "out of memory" || Contains lower "killed process".
Definition seen (proc : string) (procs : list string) : list string :=
  if bool_decide (proc ∈ procs) then procs else procs ++ [proc].
Definition oom_line (status : OOMStatus.t) (line : string) : OOMStatus.t :=
  let line := TrimSpace line in
  if bool_decide (line = "") then status
  else
    OOMStatus.mk (OOMStatus.OOMDetected status || tells_oom line)
      (match first_match killed_match line with
       | Some proc => seen proc (OOMStatus.KilledProcs status)
       | None => OOMStatus.KilledProcs status
       end)
      (default (OOMStatus.LastOOMTime status) (first_match timestamp_match line))
      (OOMStatus.RawOutput status).
Definition ParseOOMOutput (output : string) : OOMStatus.t :=
  let output := TrimSpace output in
  let status := OOMStatus.mk false [] "" output in
  if bool_decide (output = "") then status else fold_left oom_line (Split output "010"%char) status.

(** ** Examples *)
Example cuda_header :
  ParseCUDAVersion "| NVIDIA-SMI 580.126.09        Driver Version: 580.126.09     CUDA Version: 12.9     |" =
  Ok (CUDAInfo.mk "12.9" 12 9 "580.126.09").
Proof. reflexivity. Qed.
Example oom_event :
  ParseOOMOutput "[Thu Feb  6 12:34:56 2026] Killed process 1234 (python3) total-vm:12345kB" =
  OOMStatus.mk true ["python3"] "Thu Feb  6 12:34:56 2026"
    "[Thu Feb  6 12:34:56 2026] Killed process 1234 (python3) total-vm:12345kB".
Proof. reflexivity. Qed.
(** Version 12.10 is greater than 12.9, and reads as 13. *)
Example cuda_minor_ten : CUDAInfo.CUDAVersionFloat (CUDAInfo.mk "12.10" 12 10 "") = f64_of_Z 13.
Proof. reflexivity. Qed.
