(* ===== verification/SshOutputFacts.v ===== *)
(** The output of the tools on a machine is read back as what was printed, and what the
    parser of the kernel log reports. *)
From S2P Require Import Prelude GoFloat GoLib GoStrings GoText Models Errors SshOutput.
From Stdlib Require Import Ascii.
#[local] Set Warnings "-clear-no-such-hyp".

(** ** Trimmed text *)
Definition trimmed (s : string) : Prop := trim_left s = s /\ trim_right s = s.

Lemma TrimSpace_trimmed s : trimmed s -> TrimSpace s = s.
Proof. intros [Hl Hr]. unfold TrimSpace. by rewrite Hl, Hr. Qed.
Lemma TrimSpace_blank s : TrimSpace (String " " s) = TrimSpace s.
Proof. done. Qed.

Lemma trim_left_app s t : s <> "" -> trim_left s = s -> trim_left (s +:+ t) = s +:+ t.
Proof.
  destruct s as [|c s]; [done|]. intros _ Hs. change (String c s +:+ t) with (String c (s +:+ t)).
  cbn [trim_left] in *. destruct (is_space c); [|done]. exfalso.
  assert (forall u, String.length (trim_left u) <= String.length u) as Hlen.
  { induction u as [|d u IH]; cbn; [lia|]. destruct (is_space d); cbn; lia. }
  specialize (Hlen s). rewrite Hs in Hlen. cbn in Hlen. lia.
Qed.
Lemma trim_right_app s t : t <> "" -> trim_right t = t -> trim_right (s +:+ t) = s +:+ t.
Proof.
  intros Hne Ht. induction s as [|c s IH]; [done|].
  change (String c s +:+ t) with (String c (s +:+ t)). cbn [trim_right]. rewrite IH.
  destruct (s +:+ t) as [|d u] eqn:E; [|done]. destruct s; [by rewrite <-E in Hne|done].
Qed.
(** A text between two trimmed ones. *)
Lemma trimmed_app s m t : s <> "" -> t <> "" -> trimmed s -> trimmed t -> trimmed (s +:+ m +:+ t).
Proof.
  intros Hs Ht [Hl _] [_ Hr]. split; [by apply trim_left_app|].
  rewrite <-append_assoc. by apply trim_right_app.
Qed.

(** Texts with neither space at their ends, and something in them. *)
Definition field (s : string) : Prop := s <> "" /\ trimmed s.
Lemma field_Join s l sep : field s -> Forall field l -> field (Join (s :: l) sep).
Proof.
  intros Hs Hl. revert s Hs. induction Hl as [|x l Hx Hl IH]; intros s [Hne Ht]; [done|].
  destruct (IH x Hx) as [Hne' Ht'].
  change (Join (s :: x :: l) sep) with (s +:+ sep +:+ Join (x :: l) sep).
  split; [|by apply trimmed_app]. by destruct s.
Qed.
Lemma trim_right_newline s : trim_right (s +:+ String "010" "") = trim_right s.
Proof.
  induction s as [|c s IH]; [done|].
  change (String c s +:+ String "010" "") with (String c (s +:+ String "010" "")). cbn [trim_right]. by rewrite IH.
Qed.
Lemma TrimSpace_newline s : field s -> TrimSpace (s +:+ String "010" "") = s.
Proof. intros [Hne [Hl Hr]]. unfold TrimSpace. by rewrite trim_left_app, trim_right_newline, Hr. Qed.

Lemma free_of_append sep s t : free_of sep (s +:+ t) = free_of sep s && free_of sep t.
Proof.
  induction s as [|c s IH]; [done|].
  change (String c s +:+ t) with (String c (s +:+ t)). cbn [free_of]. by rewrite IH, andb_assoc.
Qed.
Lemma free_of_Join sep s l d :
  free_of sep d = true -> Forall (fun x => free_of sep x = true) (s :: l) -> free_of sep (Join (s :: l) d) = true.
Proof.
  intros Hd. revert s. induction l as [|x l IH]; intros s [Hs Hl]%Forall_cons; [done|].
  change (Join (s :: x :: l) d) with (s +:+ d +:+ Join (x :: l) d).
  by rewrite !free_of_append, Hs, Hd, IH.
Qed.
(** A comma and a space between the fields: the space is read with the next one. *)
Lemma Join_comma s l : Join (s :: l) ", " = Join (s :: (String " " <$> l)) ",".
Proof.
  revert s. induction l as [|x l IH]; intros s; [done|].
  change (s +:+ ", " +:+ Join (x :: l) ", " =
          s +:+ "," +:+ Join (String " " x :: (String " " <$> l)) ",").
  rewrite IH. f_equal. by destruct l.
Qed.

(** ** [nvidia-smi] *)
Section Smi.
Context (ParseFloat : string -> res error f64).

(** The fields of a machine's GPU, the power as the tool prints it. *)
Definition smi_fields (g : GPUStatus.t) (power : string) : list string :=
  [GPUStatus.Name g; Itoa (GPUStatus.MemoryUsedMB g); Itoa (GPUStatus.MemoryTotalMB g);
   Itoa (GPUStatus.UtilizationPct g); Itoa (GPUStatus.TemperatureC g); power].
Definition smi_line (x : GPUStatus.t * string) : string := Join (smi_fields x.1 x.2) ", ".
Definition plain (s : string) : Prop := field s /\ free_of "," s = true /\ free_of "010" s = true.
Definition printable (x : GPUStatus.t * string) : Prop :=
  plain (GPUStatus.Name x.1) /\ plain x.2 /\
  Forall in_int64 [GPUStatus.MemoryUsedMB x.1; GPUStatus.MemoryTotalMB x.1;
                   GPUStatus.UtilizationPct x.1; GPUStatus.TemperatureC x.1] /\
  forall what, parseFloatAsInt ParseFloat x.2 what = Ok (GPUStatus.PowerDrawW x.1).

Lemma number_free n c : is_number_byte c = false -> free_of c (Itoa n) = true.
Proof.
  intros Hc. pose proof (Itoa_bytes n) as Hb. induction (Itoa n) as [|d s IH]; [done|].
  cbn in *. apply andb_true_iff in Hb as [Hd Hs]. rewrite IH by done.
  destruct (Ascii.eqb_spec d c) as [->|]; [by rewrite Hd in Hc|done].
Qed.
Lemma Itoa_plain n : plain (Itoa n).
Proof.
  split; [|split; by apply number_free].
  pose proof (Itoa_no_space n) as Hn. split; [|split; [by apply trim_left_id|by apply trim_right_id]].
  intros He.
  destruct (Z.lt_trichotomy n 0) as [Hlt|[->|Hgt]]; [|done|].
  - unfold Itoa in He. by destruct n.
  - by destruct (Itoa_head n Hgt) as (c & s & Hs & _); rewrite Hs in He.
Qed.

Lemma parseIntField_Itoa n what : in_int64 n -> parseIntField (String " " (Itoa n)) what = Ok n.
Proof.
  intros Hn. unfold parseIntField. rewrite TrimSpace_blank, TrimSpace_id by apply Itoa_no_space.
  assert (not_available (Itoa n) = false) as ->; [|by rewrite Atoi_Itoa].
  pose proof (Itoa_bytes n) as Hb. destruct (Itoa_plain n) as [[Hne _] _].
  unfold not_available. rewrite !bool_decide_false; [done|..]; [| |exact Hne]; intros He; by rewrite He in Hb.
Qed.
Lemma parseFloat_blank s what : parseFloatAsInt ParseFloat (String " " s) what = parseFloatAsInt ParseFloat s what.
Proof. done. Qed.

Lemma smi_line_field x : printable x -> field (smi_line x).
Proof.
  intros ([Hn _] & [Hp _] & _ & _). apply field_Join; [done|].
  repeat constructor; try apply Itoa_plain; apply Hp.
Qed.
Lemma smi_line_one x : printable x -> free_of "010" (smi_line x) = true.
Proof.
  intros ((_ & _ & Hn) & (_ & _ & Hp) & _ & _). apply free_of_Join; [done|].
  repeat constructor; try done; by apply number_free.
Qed.
Lemma ParseNvidiaSMI_line x : printable x -> ParseNvidiaSMI ParseFloat (smi_line x) = Ok x.1.
Proof.
  intros Hx. pose proof (smi_line_field x Hx) as [Hne Ht]. unfold ParseNvidiaSMI.
  rewrite TrimSpace_trimmed, bool_decide_false by done.
  rewrite (Split_free "010"%char) by by apply smi_line_one. cbn [head default from_option]. unfold id. rewrite TrimSpace_trimmed by done.
  destruct Hx as (([Hn Hnt] & Hnc & _) & (_ & Hpc & _) & Hi & Hpow). destruct x as [g power]. cbn [fst snd] in *.
  unfold smi_line, smi_fields. cbn [fst snd]. rewrite Join_comma.
  rewrite (Split_Join ","%char); [|done|].
  - cbn [fmap list_fmap]. unfold gpu_fields. rewrite TrimSpace_trimmed, bool_decide_false by done.
    rewrite !Forall_cons in Hi. destruct Hi as (? & ? & ? & ? & _).
    rewrite !parseIntField_Itoa, parseFloat_blank, Hpow by done. by destruct g.
  - repeat constructor; try done; cbn; by apply number_free.
Qed.

Lemma gpu_lines_printed i l : Forall printable l -> gpu_lines ParseFloat i (smi_line <$> l) = Ok l.*1.
Proof.
  intros Hl. revert i. induction Hl as [|x l Hx Hl IH]; intros i; [done|].
  pose proof (smi_line_field x Hx) as [Hne Ht]. cbn [fmap list_fmap gpu_lines].
  by rewrite TrimSpace_trimmed, bool_decide_false, ParseNvidiaSMI_line, IH.
Qed.

(** C35.  What the query prints for the GPUs of a machine, a line for each of them, is read back
    as those GPUs, in their order. *)
Theorem nvidia_smi_roundtrip l :
  l <> [] -> Forall printable l ->
  ParseMultiGPUNvidiaSMI ParseFloat (Join (smi_line <$> l) (String "010" "") +:+ String "010" "") = Ok l.*1.
Proof.
  intros Hne Hl. destruct l as [|x l]; [done|].
  assert (Forall field (smi_line <$> x :: l)) as Hf.
  { apply Forall_fmap. eapply Forall_impl; [exact Hl|]. apply smi_line_field. }
  pose proof (field_Join (smi_line x) (fmap (M:=list) smi_line l) (String "010" "")
    (Forall_inv Hf) (Forall_inv_tail Hf)) as Hj.
  unfold ParseMultiGPUNvidiaSMI. rewrite TrimSpace_newline by done. cbv zeta.
  rewrite bool_decide_false by apply Hj. rewrite Split_Join; [|done|].
  - by rewrite gpu_lines_printed.
  - apply Forall_fmap. eapply Forall_impl; [exact Hl|]. apply smi_line_one.
Qed.
End Smi.

(** ** [dmesg] *)

(** The lines that are looked at. *)
Definition kernel_lines (output : string) : list string :=
  List.filter (fun line => negb (bool_decide (line = ""))) (TrimSpace <$> Split (TrimSpace output) "010"%char).

Lemma lit_spec p s t : lit p s = Some t -> s = p +:+ t.
Proof.
  unfold lit. destruct (HasPrefix s p) eqn:E; [|done]. apply HasPrefix_spec in E as [u ->].
  intros [= <-]. by rewrite drop_app_string.
Qed.
Lemma first_match_spec {A} (m : string -> option A) s a :
  first_match m s = Some a -> exists pre t, s = pre +:+ t /\ m t = Some a.
Proof.
  induction s as [|c s IH]; cbn [first_match]; [exists "", ""; by destruct (m "")|].
  destruct (m (String c s)) as [b|] eqn:E; [intros [= <-]; by exists "", (String c s)|].
  intros (pre & t & -> & Ht)%IH. by exists (String c pre), t.
Qed.
Lemma ToLower_append s t : ToLower (s +:+ t) = ToLower s +:+ ToLower t.
Proof.
  induction s as [|c s IH]; [done|].
  change (String (ascii_lower c) (ToLower (s +:+ t)) = String (ascii_lower c) (ToLower s +:+ ToLower t)).
  by rewrite IH.
Qed.
(** A line that names a killed process tells of running out of memory. *)
Lemma killed_tells line proc : first_match killed_match line = Some proc -> tells_oom line = true.
Proof.
  intros (pre & t & -> & Ht)%first_match_spec. unfold killed_match in Ht.
  destruct (lit "Killed process " t) as [u|] eqn:E; [|done]. apply lit_spec in E as ->.
  unfold tells_oom. apply orb_true_iff. right. apply Contains_spec.
  exists (ToLower pre), (String " " (ToLower u)). by rewrite !ToLower_append.
Qed.

(** What the status says of the lines read so far. *)
Definition tells (o : OOMStatus.t) (lines : list string) : Prop :=
  OOMStatus.OOMDetected o = existsb tells_oom lines /\ NoDup (OOMStatus.KilledProcs o) /\
  forall proc, proc ∈ OOMStatus.KilledProcs o <-> exists line, line ∈ lines /\ first_match killed_match line = Some proc.

Lemma seen_spec proc procs q : q ∈ seen proc procs <-> q ∈ procs \/ q = proc.
Proof. unfold seen. case_bool_decide; [set_solver|]. rewrite elem_of_app. set_solver. Qed.
Lemma seen_NoDup proc procs : NoDup procs -> NoDup (seen proc procs).
Proof.
  intros Hn. unfold seen. case_bool_decide; [done|]. apply NoDup_app. split_and!; [done|set_solver|apply NoDup_singleton].
Qed.
Lemma oom_line_tells o lines line :
  TrimSpace line <> "" -> tells o lines -> tells (oom_line o line) (lines ++ [TrimSpace line]).
Proof.
  intros Hne (Hd & Hn & Hk). unfold oom_line. rewrite bool_decide_false by done. split; [|split]; cbn.
  - by rewrite existsb_app, Hd; cbn; rewrite orb_false_r.
  - destruct (first_match _ _); [by apply seen_NoDup|done].
  - intros q. setoid_rewrite elem_of_app. setoid_rewrite list_elem_of_singleton.
    destruct (first_match killed_match (TrimSpace line)) as [proc|] eqn:E.
    + rewrite seen_spec, Hk. naive_solver.
    + rewrite Hk. naive_solver.
Qed.
Lemma oom_lines_tell l o lines :
  tells o lines ->
  tells (fold_left oom_line l o)
    (lines ++ List.filter (fun line => negb (bool_decide (line = ""))) (TrimSpace <$> l)).
Proof.
  revert o lines. induction l as [|line l IH]; intros o lines Ho; cbn [fold_left fmap list_fmap List.filter].
  { by rewrite app_nil_r. }
  case_bool_decide as He; cbn [negb].
  - assert (oom_line o line = o) as -> by (unfold oom_line; by rewrite bool_decide_true). by apply IH.
  - rewrite cons_middle, (assoc_L (++)). by apply IH, oom_line_tells.
Qed.

(** Memory has run out exactly when a line of the kernel log says so; the killed processes
    are those that a line names, each of them once; and with a killed process memory has run
    out. The log itself is kept. *)
Theorem ParseOOMOutput_tells output :
  let o := ParseOOMOutput output in
  tells o (kernel_lines output) /\ OOMStatus.RawOutput o = TrimSpace output /\
  (OOMStatus.KilledProcs o <> [] -> OOMStatus.OOMDetected o = true).
Proof.
  cbv zeta. assert (tells (ParseOOMOutput output) (kernel_lines output)) as Ht.
  { unfold ParseOOMOutput, kernel_lines. cbv zeta.
    assert (tells (OOMStatus.mk false [] "" (TrimSpace output)) []) as H0'.
    { split; [done|]. split; [constructor|]. cbn. set_solver. }
    case_bool_decide as He; [by rewrite He|]. by apply (oom_lines_tell _ _ []). }
  split; [exact Ht|]. split.
  - unfold ParseOOMOutput. case_bool_decide; [done|]. generalize (Split (TrimSpace output) "010"%char) as l.
    intros l. assert (forall o, OOMStatus.RawOutput (fold_left oom_line l o) = OOMStatus.RawOutput o) as Hr; [|by rewrite Hr].
    induction l as [|line l IH]; intros o; [done|]. cbn [fold_left]. rewrite IH. unfold oom_line. by case_bool_decide.
  - destruct Ht as (Hd & _ & Hk). intros Hne. rewrite Hd. apply existsb_exists.
    destruct (OOMStatus.KilledProcs _) as [|proc procs] eqn:E; [done|].
    destruct (Hk proc) as [(line & Hl & Hm) _]; [by left|]. exists line. split; [by apply list_elem_of_In|].
    by apply killed_tells in Hm.
Qed.
