(* ===== verification/SshExec.v ===== *)
(** [internal/ssh]: connections to rented machines ([verifier.go], [executor.go]) as programs
    over the network, the clock and the context, and the checks that the provisioner makes
    with them. *)
From S2P Require Import Prelude GoFloat GoLib GoStrings Models Errors CreateSession Programs SshOutput.
From Stdlib Require Import Ascii.

(** ** Effects

    Connections and sessions are numbered; a client takes over the connection it is made on,
    and closing it closes that one. *)
Inductive sshE : Type -> Type :=
| ParsePrivateKey (key : string) : sshE (option error)
| Dial (timeout : duration) (addr : string) : sshE (res error nat)
| NewClientConn (conn : nat) (addr user key : string) : sshE (option error)
| CloseConn (conn : nat) : sshE (option error)
| NewSession (conn : nat) : sshE (res error nat)
| CloseSession (session : nat) : sshE unit
(** [session.Run]: stdout, stderr and the error; [None] when the context, or the given
    timeout, ends first *)
| RunSession (session : nat) (limit : option duration) (cmd : string) : sshE (option (string * string * option error))
| SignalKill (session : nat) : sshE unit
(** [ctx.Err()], and whether the context has a deadline *)
| CtxErr : sshE (option error)
| HasDeadline : sshE bool
| SshNow : sshE time
(** [time.After] against [ctx.Done]: whether the context ends first *)
| WaitOrDone (d : duration) : sshE bool
(** [metrics.RecordDiskAvailable] *)
| RecordDiskAvailable (provider : string) (gb : f64) : sshE unit.
Definition ssh_program (A : Type) : Type := prog sshE A.
Abbreviation call := (@trigger sshE _).

(** The error of an ended context. *)
Definition ended_error : ssh_program error :=
  let* e := call CtxErr in Return (default (EContext "context canceled") e).

(** ** [verifier.go] *)
Definition DefaultVerifyTimeout : duration := (5 * Minute)%Z.
Definition DefaultCheckInterval : duration := (15 * Second)%Z.
Definition DefaultConnectTimeout : duration := (30 * Second)%Z.
Definition VerifyCommand : string := "echo ok".

Module VerifyResult.
Record t := mk { Success : bool; Duration : duration; Attempts : Z; LastError : string }.
End VerifyResult.
Module Verifier.
Record t := mk { verifyTimeout : duration; checkInterval : duration; connectTimeout : duration }.
Definition NewVerifier : t := mk DefaultVerifyTimeout DefaultCheckInterval DefaultConnectTimeout.
End Verifier.

Definition addr (host : string) (port : Z) : string := host +:+ ":" +:+ Itoa port.

(** The guards at the start of [Verify], [VerifyOnce] and [Connect]. *)
Definition check_target (host : string) (port : Z) (user privateKey : string) : option error :=
  if bool_decide (host = "") then Some (EOpaque "host cannot be empty")
  else if (port <=? 0)%Z then Some (EOpaque "port must be positive")
  else if bool_decide (user = "") then Some (EOpaque "user cannot be empty")
  else if bool_decide (privateKey = "") then Some (EOpaque "private key cannot be empty")
  else None.
Definition key_error (e : error) : error := EWrap "failed to parse private key" e.

(** Dial and handshake; a connection whose handshake fails is closed. *)
Definition open_client (timeout : duration) (host : string) (port : Z) (user key : string)
    : ssh_program (res error nat) :=
  let* r := call (Dial timeout (addr host port)) in
  match r with
  | Err e => Return (Err (EWrap ("failed to connect to " +:+ addr host port) e))
  | Ok conn =>
      let* e := call (NewClientConn conn (addr host port) user key) in
      match e with
      | Some e => let* _ := call (CloseConn conn) in Return (Err (EWrap "SSH handshake failed" e))
      | None => Return (Ok conn)
      end
  end.

(** A session on the client for [body], both closed afterwards. *)
Definition on_session {A} (conn : nat) (fail : error -> A) (body : nat -> ssh_program A) : ssh_program A :=
  let* r := call (NewSession conn) in
  match r with
  | Err e => Return (fail (EWrap "failed to create session" e))
  | Ok session =>
      let* a := body session in
      do* call (CloseSession session) in Return a
  end.
Definition on_client {A} (timeout : duration) (host : string) (port : Z) (user key : string)
    (fail : error -> A) (body : nat -> ssh_program A) : ssh_program A :=
  let* r := open_client timeout host port user key in
  match r with
  | Err e => Return (fail e)
  | Ok conn =>
      let* a := on_session conn fail body in
      let* _ := call (CloseConn conn) in Return a
  end.

Definition with_stderr (what : string) (e : error) (stderr : string) : error :=
  ESuffix (EWrap what e) (" (stderr: " +:+ stderr +:+ ")").

Definition verify_body (session : nat) : ssh_program (option error) :=
  let* r := call (RunSession session None VerifyCommand) in
  match r with
  | Some (_, stderr, Some e) => Return (Some (with_stderr "verify command failed" e (TrimSpace stderr)))
  | Some (stdout, _, None) =>
      let output := TrimSpace stdout in
      Return (if bool_decide (output = "ok") then None
              else Some (EOpaque ("unexpected verify output: " +:+ Quote output)))
  | None => do* call (SignalKill session) in let* e := ended_error in Return (Some e)
  end.
Definition tryConnect (v : Verifier.t) (host : string) (port : Z) (user key : string)
    : ssh_program (option error) :=
  on_client (Verifier.connectTimeout v) host port user key Some verify_body.

Section Verify.
Context (v : Verifier.t) (host : string) (port : Z) (user key : string).

Definition verify_cancelled (start : time) (attempts : Z)
    : ssh_program (option VerifyResult.t * option error) :=
  let* now := call SshNow in
  let* e := ended_error in
  Return (Some (VerifyResult.mk false (Sub now start) attempts (Error e)), Some e).
Definition verify_timeout (attempts : Z) (lastError : string) : error :=
  EOpaque ("SSH verification timeout after " +:+ Itoa attempts +:+ " attempts: " +:+ lastError).

(** [None] when the fuel is spent. *)
Fixpoint verify_loop (fuel : nat) (start deadline : time) (attempts : Z) (lastError : string)
    : ssh_program (option (option VerifyResult.t * option error)) :=
  match fuel with
  | O => Return None
  | S fuel' =>
      let attempts := (attempts + 1)%Z in
      let* now := call SshNow in
      if (deadline <? now)%Z then
        let* now := call SshNow in
        Return (Some (Some (VerifyResult.mk false (Sub now start) attempts lastError),
                      Some (verify_timeout attempts lastError)))
      else
        let* done := call CtxErr in
        match done with
        | Some _ => let* r := verify_cancelled start attempts in Return (Some r)
        | None =>
            let* e := tryConnect v host port user key in
            match e with
            | None =>
                let* now := call SshNow in
                Return (Some (Some (VerifyResult.mk true (Sub now start) attempts ""), None))
            | Some e =>
                let* now := call SshNow in
                let left := Sub deadline now in
                if (left <=? 0)%Z then verify_loop fuel' start deadline attempts (Error e)
                else
                  let* ended := call (WaitOrDone (Z.min (Verifier.checkInterval v) left)) in
                  if ended then let* r := verify_cancelled start attempts in Return (Some r)
                  else verify_loop fuel' start deadline attempts (Error e)
            end
        end
  end.

Definition Verify (fuel : nat) : ssh_program (option (option VerifyResult.t * option error)) :=
  match check_target host port user key with
  | Some e => Return (Some (None, Some e))
  | None =>
      let* e := call (ParsePrivateKey key) in
      match e with
      | Some e =>
          Return (Some (Some (VerifyResult.mk false 0%Z 0%Z ("failed to parse private key: " +:+ Error e)),
                        Some (key_error e)))
      | None =>
          let* start := call SshNow in
          verify_loop fuel start (start + Verifier.verifyTimeout v)%Z 0%Z ""
      end
  end.

Definition VerifyOnce : ssh_program (option error) :=
  match check_target host port user key with
  | Some e => Return (Some e)
  | None =>
      let* e := call (ParsePrivateKey key) in
      match e with
      | Some e => Return (Some (key_error e))
      | None => tryConnect v host port user key
      end
  end.
End Verify.

(** [RunCommand]: the output and the error. *)
Definition command_body (command : string) (session : nat) : ssh_program (string * option error) :=
  let* r := call (RunSession session None command) in
  match r with
  | Some (stdout, stderr, Some e) => Return (stdout, Some (with_stderr "command failed" e (TrimSpace stderr)))
  | Some (stdout, _, None) => Return (stdout, None)
  | None => do* call (SignalKill session) in let* e := ended_error in Return ("", Some e)
  end.
Definition RunCommand (host : string) (port : Z) (user key command : string)
    : ssh_program (string * option error) :=
  match check_target host port user key with
  | Some _ => Return ("", Some (EOpaque "invalid SSH parameters"))
  | None =>
      let* e := call (ParsePrivateKey key) in
      match e with
      | Some e => Return ("", Some (key_error e))
      | None =>
          on_client (30 * Second)%Z host port user key (fun e => ("", Some e)) (command_body command)
      end
  end.

(** *** [base64.StdEncoding] *)
Definition b64_char (n : nat) : ascii :=
  if n <? 26 then ascii_of_nat (65 + n)
  else if n <? 52 then ascii_of_nat (97 + (n - 26))
  else if n <? 62 then ascii_of_nat (48 + (n - 52))
  else if n =? 62 then "+"%char else "/"%char.
Fixpoint base64Encode (s : string) : string :=
  match s with
  | String a (String b (String c s')) =>
      let '(a, b, c) := (nat_of_ascii a, nat_of_ascii b, nat_of_ascii c) in
      String (b64_char (a / 4)) (String (b64_char (a mod 4 * 16 + b / 16))
        (String (b64_char (b mod 16 * 4 + c / 64)) (String (b64_char (c mod 64)) (base64Encode s'))))
  | String a (String b EmptyString) =>
      let '(a, b) := (nat_of_ascii a, nat_of_ascii b) in
      String (b64_char (a / 4)) (String (b64_char (a mod 4 * 16 + b / 16))
        (String (b64_char (b mod 16 * 4)) "="))
  | String a EmptyString =>
      let a := nat_of_ascii a in
      String (b64_char (a / 4)) (String (b64_char (a mod 4 * 16)) "==")
  | EmptyString => ""
  end.

Definition scp_command (remotePath content : string) : string :=
  "echo '" +:+ base64Encode content +:+ "' | base64 -d > " +:+ shellQuote remotePath.
Definition SCPWrite (host : string) (port : Z) (user key remotePath content : string)
    : ssh_program (option error) :=
  let* r := RunCommand host port user key (scp_command remotePath content) in Return r.2.

(** ** [executor.go] *)
Module Connection.
Record t := mk { client : option nat; host : string; port : Z; user : string }.
End Connection.
Module Executor.
Record t := mk { connectTimeout : duration; commandTimeout : duration }.
Definition NewExecutor : t := mk (30 * Second)%Z (60 * Second)%Z.
End Executor.

(** [Close]: the error, and the connection as it is left. *)
Definition Connection_Close (c : Connection.t) : ssh_program (option error * Connection.t) :=
  match Connection.client c with
  | Some conn =>
      let* e := call (CloseConn conn) in
      Return (e, Connection.mk None (Connection.host c) (Connection.port c) (Connection.user c))
  | None => Return (None, c)
  end.

Section Executor.
Context (e : Executor.t) (ParseFloat : string -> res error f64).

Definition Connect (host : string) (port : Z) (user key : string) : ssh_program (res error Connection.t) :=
  match check_target host port user key with
  | Some e => Return (Err e)
  | None =>
      let* bad := call (ParsePrivateKey key) in
      match bad with
      | Some e => Return (Err (key_error e))
      | None =>
          let* r := open_client (Executor.connectTimeout e) host port user key in
          Return match r with
                 | Err e => Err e
                 | Ok conn => Ok (Connection.mk (Some conn) host port user)
                 end
      end
  end.

Definition timed_out (e : error) : error := EWrap "command timed out" e.
Definition exec_body (cmd : string) (session : nat) : ssh_program (string * string * option error) :=
  let* deadline := call HasDeadline in
  let* r := call (RunSession session (if deadline then None else Some (Executor.commandTimeout e)) cmd) in
  match r with
  | Some (stdout, stderr, runErr) => Return (TrimSpace stdout, TrimSpace stderr, runErr)
  | None =>
      do* call (SignalKill session) in
      let* err := call CtxErr in
      Return ("", "", Some (timed_out (default (EContext "context deadline exceeded") err)))
  end.
(** Standard output, standard error and the error. *)
Definition exec_RunCommand (conn : Connection.t) (cmd : string) : ssh_program (string * string * option error) :=
  match Connection.client conn with
  | None => Return ("", "", Some (EOpaque "connection is nil or closed"))
  | Some c => on_session c (fun e => ("", "", Some e)) (exec_body cmd)
  end.

Definition CheckHealth (conn : Connection.t) : ssh_program (option error) :=
  let* r := exec_RunCommand conn "echo ok" in
  let '(stdout, stderr, err) := r in
  Return match err with
         | Some err => Some (with_stderr "health check failed" err stderr)
         | None =>
             if bool_decide (stdout = "ok") then None
             else Some (EOpaque ("health check returned unexpected output: " +:+ Quote stdout))
         end.

(** Run, and parse the output. *)
Definition queried {A} (what failed : string) (parse : string -> res error A) (conn : Connection.t) (cmd : string)
    : ssh_program (res error A) :=
  let* r := exec_RunCommand conn cmd in
  let '(stdout, stderr, err) := r in
  Return match err with
         | Some err => Err (with_stderr what err stderr)
         | None => match parse stdout with Ok a => Ok a | Err e => Err (EWrap failed e) end
         end.
Definition GetGPUStatus (conn : Connection.t) : ssh_program (res error GPUStatus.t) :=
  queried "nvidia-smi failed" "failed to parse nvidia-smi output" (ParseNvidiaSMI ParseFloat) conn
    "nvidia-smi --query-gpu=name,memory.used,memory.total,utilization.gpu,temperature.gpu,power.draw --format=csv,noheader,nounits".
Definition grep_none : string := "grep -v " +:+ dquote +:+ "^none" +:+ dquote.
Definition GetDiskStatus (conn : Connection.t) : ssh_program (res error (list MountInfo.t)) :=
  queried "df failed" "failed to parse df output" (fun out => Ok (ParseDiskOutput ParseFloat out)) conn
    ("df -BG 2>/dev/null | grep -v tmpfs | " +:+ grep_none).
Definition GetCUDAVersion (conn : Connection.t) : ssh_program (res error CUDAInfo.t) :=
  queried "nvidia-smi failed" "failed to parse CUDA version" ParseCUDAVersion conn "nvidia-smi".

Definition ReadFile (conn : Connection.t) (path : string) : ssh_program (res error string) :=
  if bool_decide (path = "") then Return (Err (EOpaque "path cannot be empty"))
  else
    let* r := exec_RunCommand conn ("cat " +:+ Quote path) in
    let '(stdout, stderr, err) := r in
    Return match err with
           | Some err => Err (with_stderr ("failed to read file " +:+ path) err stderr)
           | None => Ok stdout
           end.
Definition FileExists (conn : Connection.t) (path : string) : ssh_program (res error bool) :=
  if bool_decide (path = "") then Return (Err (EOpaque "path cannot be empty"))
  else
    let* r := exec_RunCommand conn ("test -f " +:+ Quote path) in
    Return (Ok (bool_decide (r.2 = None))).
Definition RunCommandWithCombinedOutput (conn : Connection.t) (cmd : string)
    : ssh_program (string * option error) :=
  let* r := exec_RunCommand conn cmd in
  let '(stdout, stderr, err) := r in
  Return (stdout,
          match err with
          | Some err => Some (if bool_decide (stderr = "") then err else EDetail err stderr)
          | None => None
          end).
Definition grep_oom : string :=
  "grep -i " +:+ dquote +:+ "oom\|out of memory\|killed process" +:+ dquote.
Definition CheckOOM (conn : Connection.t) : ssh_program OOMStatus.t :=
  let* r := exec_RunCommand conn ("dmesg -T 2>/dev/null | " +:+ grep_oom +:+ " | tail -5") in
  let '(stdout, stderr, err) := r in
  Return match err with
         | Some _ => OOMStatus.mk false [] "" ""
         | None => ParseOOMOutput stdout
         end.
End Executor.

(** ** The checks of the provisioner ([provisioner/service.go]) *)
Definition check_executor : Executor.t := Executor.mk (10 * Second)%Z (15 * Second)%Z.

(** [Connect], a use of the connection, and the deferred [Close]. *)
Definition with_connection {A} (session : Session.t) (privateKey : string) (none : A)
    (use : Connection.t -> ssh_program A) : ssh_program A :=
  let* r := Connect check_executor (Session.SSHHost session) (Session.SSHPort session) (Session.SSHUser session)
              privateKey in
  match r with
  | Err _ => Return none
  | Ok conn => let* a := use conn in let* _ := Connection_Close conn in Return a
  end.

Section Checks.
Context (ParseFloat : string -> res error f64).

(** What is only logged is the result. *)
Definition validateCUDAVersionAsync (session : Session.t) (privateKey : string)
    : ssh_program (option CUDAInfo.t) :=
  with_connection session privateKey None (fun conn =>
    let* info := GetCUDAVersion check_executor conn in
    Return match info with Ok info => Some info | Err _ => None end).

Definition validateDiskSpaceAsync (session : Session.t) (privateKey : string)
    : ssh_program (option (f64 * bool * OOMStatus.t)) :=
  with_connection session privateKey None (fun conn =>
    let* disk := GetDiskStatus check_executor ParseFloat conn in
    match disk with
    | Err _ => Return None
    | Ok mounts =>
        let availGB := AvailableGB mounts in
        do* call (RecordDiskAvailable (Session.Provider session) availGB) in
        let* oom := CheckOOM check_executor conn in
        Return (Some (availGB, IsLow mounts, oom))
    end).
End Checks.
