(* ===== verification/SshFacts.v ===== *)
(** What the programs of [internal/ssh] do on every execution: what they open they close,
    the verification of a machine ends, and a file arrives as it was sent. *)
From S2P Require Import Prelude GoFloat GoLib GoStrings Models Errors CreateSession Programs SshOutput SshExec.
From Stdlib Require Import Ascii ZifyNat.
#[local] Set Warnings "-clear-no-such-hyp".

(** ** Connections and sessions *)

Inductive handle := AConn (n : nat) | ASession (n : nat).
#[export] Instance handle_eq_dec : EqDecision handle.
Proof. solve_decision. Defined.
#[export] Instance handle_countable : Countable handle.
Proof.
  refine (inj_countable' (fun h => match h with AConn n => inl n | ASession n => inr n end)
    (fun x => match x with inl n => AConn n | inr n => ASession n end) _). by intros [].
Defined.

Definition opens (x : event sshE) : option handle :=
  match x with
  | Ev e b =>
      match e in sshE B return B -> option handle with
      | Dial _ _ => fun r => match r with Ok c => Some (AConn c) | Err _ => None end
      | NewSession _ => fun r => match r with Ok n => Some (ASession n) | Err _ => None end
      | _ => fun _ => None
      end b
  end.
Definition closes (x : event sshE) : option handle :=
  match x with
  | Ev (CloseConn c) _ => Some (AConn c)
  | Ev (CloseSession n) _ => Some (ASession n)
  | _ => None
  end.
Definition uses (x : event sshE) : list handle :=
  match x with
  | Ev (NewClientConn c _ _ _) _ | Ev (CloseConn c) _ | Ev (NewSession c) _ => [AConn c]
  | Ev (RunSession n _ _) _ | Ev (CloseSession n) _ | Ev (SignalKill n) _ => [ASession n]
  | _ => []
  end.
(** The monitor of what is open, and the programs that leave it as it was. *)
Abbreviation open_things := (resources opens closes uses).
Abbreviation leaves := (tidy opens closes uses).

Ltac open_red := cbn [next allowed assumed resources opens closes uses].
Ltac open_step :=
  match goal with
  | |- leaves (pbind _ _) _ => apply tidy_bind; [|intros ?]
  | |- leaves (Return _) _ => apply tidy_ret
  | |- leaves (trigger _) _ => apply tidy_effect; intros ?; split_and!; [done|done|by repeat constructor]
  | |- leaves (match ?x with _ => _ end) _ => destruct x eqn:?
  | |- leaves (let _ := _ in _) _ => cbv zeta
  end.
Abbreviation leaves_bind := (tidy_bind opens closes uses).

Lemma leaves_ended s : leaves ended_error s.
Proof. unfold ended_error. by repeat open_step. Qed.

Lemma leaves_session {A} conn (fail : error -> A) body s :
  AConn conn ∈ s -> (forall n s', ASession n ∈ s' -> leaves (body n) s') -> leaves (on_session conn fail body) s.
Proof.
  intros Hc Hbody. unfold on_session. apply watch_bind, watch_trigger. open_red.
  intros [n|e] Hnew; (split; [by repeat constructor|]); [|done].
  apply tidy_close; [done|done|]. apply tidy_inside; [done|by repeat constructor|]. apply Hbody. set_solver.
Qed.

(** A connection is open after [open_client], unless that fails. *)
Lemma opened_client timeout host port user key (Q : res error nat -> gset handle -> Prop) s :
  (forall e, Q (Err e) s) -> (forall n, AConn n ∉ s -> Q (Ok n) ({[AConn n]} ∪ s)) ->
  watch open_things (open_client timeout host port user key) Q s.
Proof.
  intros Hfail Hopen. unfold open_client. apply watch_bind, watch_trigger. open_red.
  intros [conn|e] Hnew; (split; [by repeat constructor|]); [|apply watch_ret, Hfail].
  apply watch_bind, watch_trigger. open_red. intros [e|] _; (split; [repeat constructor; set_solver|]).
  - apply watch_bind, watch_trigger. open_red. intros u _. split; [repeat constructor; set_solver|]. apply watch_ret.
    replace (({[AConn conn]} ∪ s) ∖ {[AConn conn]}) with s by set_solver. apply Hfail.
  - by apply watch_ret, Hopen.
Qed.
Lemma leaves_client {A} timeout host port user key (fail : error -> A) body s :
  (forall n s', ASession n ∈ s' -> leaves (body n) s') -> leaves (on_client timeout host port user key fail body) s.
Proof.
  intros Hbody. unfold on_client. apply watch_bind, opened_client; [done|]. intros conn Hnew.
  apply tidy_close; [done|exact Hnew|]. apply tidy_inside; [exact Hnew|by repeat constructor|].
  apply leaves_session; [set_solver|exact Hbody].
Qed.

(** A session that is used and, if its context ends, told to stop. *)
Lemma leaves_run {A} n limit cmd (k : option (string * string * option error) -> ssh_program A) s :
  ASession n ∈ s -> (forall r, leaves (k r) s) -> leaves (pbind (call (RunSession n limit cmd)) k) s.
Proof. intros Hn Hk. by open_step; [open_step|]. Qed.
Lemma leaves_kill {A} n (k : ssh_program A) s : ASession n ∈ s -> leaves k s -> leaves (do* call (SignalKill n) in k) s.
Proof. intros Hn Hk. by open_step; [open_step|]. Qed.

Lemma leaves_verify_body n s : ASession n ∈ s -> leaves (verify_body n) s.
Proof.
  intros Hn. apply leaves_run; [exact Hn|]. intros [[[out err] [e|]]|]; [done..|].
  apply leaves_kill; [exact Hn|]. apply leaves_bind; [apply leaves_ended|done].
Qed.
Lemma leaves_command_body command n s : ASession n ∈ s -> leaves (command_body command n) s.
Proof.
  intros Hn. apply leaves_run; [exact Hn|]. intros [[[out err] [e|]]|]; [done..|].
  apply leaves_kill; [exact Hn|]. apply leaves_bind; [apply leaves_ended|done].
Qed.
Lemma leaves_exec_body e cmd n s : ASession n ∈ s -> leaves (exec_body e cmd n) s.
Proof.
  intros Hn. unfold exec_body. apply leaves_bind; [by open_step|]. intros deadline.
  apply leaves_run; [exact Hn|]. intros [[[out err] r]|]; [done|].
  apply leaves_kill; [exact Hn|]. by repeat open_step.
Qed.

Lemma leaves_tryConnect v host port user key s : leaves (tryConnect v host port user key) s.
Proof. apply leaves_client. apply leaves_verify_body. Qed.

Lemma leaves_cancelled start attempts s : leaves (verify_cancelled start attempts) s.
Proof.
  unfold verify_cancelled. apply leaves_bind; [by open_step|]. intros now.
  apply leaves_bind; [apply leaves_ended|done].
Qed.

Lemma leaves_verify_loop v host port user key fuel start deadline attempts lastError s :
  leaves (verify_loop v host port user key fuel start deadline attempts lastError) s.
Proof.
  revert attempts lastError. induction fuel as [|fuel IH]; intros attempts lastError; cbn [verify_loop]; [done|].
  cbv zeta. apply leaves_bind; [by open_step|]. intros now. destruct (deadline <? now)%Z; [by repeat open_step|].
  apply leaves_bind; [by open_step|]. intros [e|].
  { apply leaves_bind; [apply leaves_cancelled|done]. }
  apply leaves_bind; [apply leaves_tryConnect|]. intros [e|]; [|by repeat open_step].
  apply leaves_bind; [by open_step|]. intros now'. destruct (Sub deadline now' <=? 0)%Z; [apply IH|].
  apply leaves_bind; [by open_step|]. intros [|]; [|apply IH].
  apply leaves_bind; [apply leaves_cancelled|done].
Qed.

(** The connection of the executor: the one that was opened stays open until it is closed. *)
Lemma leaves_exec e conn c cmd s :
  Connection.client conn = Some c -> AConn c ∈ s -> leaves (exec_RunCommand e conn cmd) s.
Proof.
  intros Hc Hin. unfold exec_RunCommand. rewrite Hc. apply leaves_session; [exact Hin|].
  intros n s'. apply leaves_exec_body.
Qed.
Lemma leaves_queried {A} e what failed (parse : string -> res error A) conn c cmd s :
  Connection.client conn = Some c -> AConn c ∈ s -> leaves (queried e what failed parse conn cmd) s.
Proof.
  intros Hc Hin. apply leaves_bind; [by eapply leaves_exec|]. by intros [[out err] [|]].
Qed.

(** [Connect], some use of the connection, and [Close]. *)
Lemma leaves_connection {A} session privateKey (none : A) use s :
  (forall conn c s', Connection.client conn = Some c -> AConn c ∈ s' -> leaves (use conn) s') ->
  leaves (with_connection session privateKey none use) s.
Proof.
  intros Huse. unfold with_connection, Connect.
  destruct (check_target _ _ _ privateKey) as [bad|]; [done|].
  apply watch_bind, watch_bind, watch_trigger. intros [bad|] _; (split; [by constructor|]); [done|].
  apply watch_bind, opened_client; [done|]. intros conn Hnew. apply watch_ret.
  eapply watch_seq; [eapply Huse; [done|set_solver]|]. intros a s' ->. unfold Connection_Close. cbn [Connection.client].
  apply watch_bind, watch_bind, watch_trigger. intros u _. split; [repeat constructor; set_solver|].
  change (({[AConn conn]} ∪ s) ∖ {[AConn conn]} = s). set_solver.
Qed.

Lemma leaves_target {A} host port user key (k : ssh_program A) (bad : error -> A) s :
  leaves k s ->
  leaves (match check_target host port user key with
          | Some e => Return (bad e)
          | None =>
              let* e := call (ParsePrivateKey key) in
              match e with Some e => Return (bad (key_error e)) | None => k end
          end) s.
Proof.
  intros Hk. destruct (check_target _ _ _ _) as [e|]; [done|].
  apply leaves_bind; [by open_step|]. by intros [e|].
Qed.

Lemma leaves_RunCommand host port user key command s : leaves (RunCommand host port user key command) s.
Proof.
  unfold RunCommand. destruct (check_target _ _ _ _) as [e|]; [done|].
  apply leaves_bind; [by open_step|]. intros [e|]; [done|]. apply leaves_client. apply leaves_command_body.
Qed.
Lemma leaves_Verify v host port user key fuel s : leaves (Verify v host port user key fuel) s.
Proof.
  unfold Verify. destruct (check_target _ _ _ _) as [e|]; [done|].
  apply leaves_bind; [by open_step|]. intros [e|]; [done|].
  apply leaves_bind; [by open_step|]. intros start. apply leaves_verify_loop.
Qed.
Lemma leaves_disk_check ParseFloat session privateKey s :
  leaves (validateDiskSpaceAsync ParseFloat session privateKey) s.
Proof.
  apply leaves_connection. intros conn c s' Hc Hin.
  apply leaves_bind; [by eapply leaves_queried|]. intros [mounts|e]; [|done]. cbv zeta.
  apply leaves_bind; [by open_step|]. intros u. unfold CheckOOM.
  apply leaves_bind; [|done]. apply leaves_bind; [by eapply leaves_exec|]. by intros [[out err] [|]].
Qed.

(** C33.  Every connection and every session that is opened is closed again by the time the method
    returns, none that is not open is used or closed, and what others have open stays so:
    whatever fails, and whenever the context ends. *)
Theorem ssh_closes v host port user key s :
  (forall fuel, leaves (Verify v host port user key fuel) s) /\
  leaves (VerifyOnce v host port user key) s /\
  (forall command, leaves (RunCommand host port user key command) s) /\
  (forall path content, leaves (SCPWrite host port user key path content) s) /\
  (forall session, leaves (validateCUDAVersionAsync session key) s) /\
  (forall ParseFloat session, leaves (validateDiskSpaceAsync ParseFloat session key) s).
Proof.
  split_and!.
  - intros fuel. apply leaves_Verify.
  - apply leaves_target, leaves_tryConnect.
  - intros command. apply leaves_RunCommand.
  - intros path content. apply leaves_bind; [apply leaves_RunCommand|done].
  - intros session. apply leaves_connection. intros conn c s' Hc Hin.
    apply leaves_bind; [by eapply leaves_queried|done].
  - intros ParseFloat session. apply leaves_disk_check.
Qed.

(** ** The verification ends *)

(** The time that has passed at least: the clock does not go back, a wait that is not
    interrupted lasts as long as it was asked to, and a connection attempt takes time. *)
Definition passing : monitor sshE Z :=
  mk_monitor
    (fun x t =>
       match x with
       | Ev e b =>
           match e in sshE B return B -> Z with
           | SshNow => fun now => now
           | Dial _ _ => fun _ => (t + 1)%Z
           | WaitOrDone d => fun ended => if ended : bool then t else (t + d)%Z
           | _ => fun _ => t
           end b
       end)
    (fun _ _ => True)
    (fun x t =>
       match x with
       | Ev e b => match e in sshE B return B -> Prop with SshNow => fun now => (t <= now)%Z | _ => fun _ => True end b
       end).

Ltac pass_step := apply watch_bind, watch_trigger; cbn [passing next allowed assumed]; intros ? ?; split; [done|].

(** No time is needed but by the attempt itself. *)
Definition instant (B : Type) (e : sshE B) : bool :=
  match e with SshNow | Dial _ _ | WaitOrDone _ => false | _ => true end.
Lemma passing_instant {A} (p : ssh_program A) t : only instant p -> watch passing p (fun _ t' => t' = t) t.
Proof.
  intros Hp. apply (only_watch instant); [|done|done]. by intros B [] b s ? ? ->.
Qed.

Lemma instant_verify_body n : only instant (verify_body n).
Proof.
  unfold verify_body. apply only_bind; [by apply only_trigger|]. intros [[[out err] [e|]]|]; [done..|].
  apply only_bind; [by apply only_trigger|]. intros u. apply only_bind; [|done].
  unfold ended_error. apply only_bind; [by apply only_trigger|done].
Qed.
Lemma passing_tryConnect v host port user key t :
  watch passing (tryConnect v host port user key) (fun _ t' => t' = (t + 1)%Z) t.
Proof.
  unfold tryConnect, on_client. eapply (watch_seq _ (fun _ t' => t' = (t + 1)%Z)).
  - unfold open_client. pass_step. apply passing_instant. destruct b as [conn|e]; [|done].
    apply only_bind; [by apply only_trigger|]. intros [e|]; [by apply only_bind; [apply only_trigger|]|done].
  - intros [conn|e] t' ->; [|done]. apply passing_instant. apply only_bind; [|intros e; by apply only_bind; [apply only_trigger|]].
    unfold on_session. apply only_bind; [by apply only_trigger|]. intros [n|e]; [|done].
    apply only_bind; [apply instant_verify_body|]. intros e. by apply only_bind; [apply only_trigger|].
Qed.

(** Rounds enough for the time that is left. *)
Definition enough (interval left : Z) (fuel : nat) : Prop :=
  1 <= fuel /\ ((0 <= left)%Z -> 2 <= fuel) /\
  ((0 < left)%Z -> 3 <= fuel /\ (left <= interval * (Z.of_nat fuel - 2))%Z).

Lemma enough_less interval left left' fuel :
  (0 < interval)%Z -> enough interval left (S fuel) ->
  ((left' < 0)%Z \/ (left' <= 0 < left)%Z \/ (left' <= left - interval)%Z) -> (left' < left)%Z ->
  (0 <= left)%Z -> enough interval left' fuel.
Proof.
  intros Hi (_ & H2 & H3) Hl Hlt H0. specialize (H2 H0). split; [lia|]. split.
  - intros Hl'. destruct H3 as [H3 _]; lia.
  - intros Hl'. destruct H3 as [H3 H4]; [lia|]. split; nia.
Qed.

Lemma Sub_sign a b : (Sub a b <=? 0)%Z = (a <=? b)%Z.
Proof. unfold Sub, min_int64, max_int64. apply Bool.eq_iff_eq_true. rewrite !Z.leb_le. lia. Qed.

Lemma verify_loop_ends v host port user key fuel start deadline attempts lastError t :
  (0 < Verifier.checkInterval v <= max_int64)%Z ->
  enough (Verifier.checkInterval v) (deadline - t) fuel ->
  watch passing (verify_loop v host port user key fuel start deadline attempts lastError)
    (fun r _ => is_Some r) t.
Proof.
  intros Hi. revert attempts lastError t. induction fuel as [|fuel IH]; intros attempts lastError t Hf.
  { destruct Hf as [Hf _]. lia. }
  cbn [verify_loop]. cbv zeta. apply watch_bind, watch_trigger. cbn [passing next allowed assumed].
  intros now Hnow. split; [done|]. destruct (Z.ltb_spec deadline now) as [Hlate|Hearly].
  { pass_step. apply watch_ret. by eexists. }
  pass_step. destruct b as [e|].
  { apply watch_bind. eapply watch_mono; [apply (watch_stable _ (fun _ => True)); [by split|done]|].
    intros r t' _. by eexists. }
  eapply watch_seq; [apply passing_tryConnect|]. intros [e|] t' ->; [|pass_step; apply watch_ret; by eexists].
  apply watch_bind, watch_trigger. cbn [passing next allowed assumed]. intros now' Hnow'. split; [done|].
  rewrite Sub_sign. destruct (Z.leb_spec deadline now') as [Hdue|Hleft].
  - apply IH. eapply enough_less; [|exact Hf|..]; lia.
  - apply watch_bind, watch_trigger. cbn [passing next allowed assumed]. intros [|] _; (split; [done|]).
    + apply watch_bind. eapply watch_mono; [apply (watch_stable _ (fun _ => True)); [by split|done]|].
      intros r t' _. by eexists.
    + apply IH. eapply enough_less; [|exact Hf|..]; unfold Sub, max_int64, min_int64 in *; lia.
Qed.

(** [Verify] returns: with a positive interval, after at most the timeout over the interval
    and two rounds, as long as the clock does not go back, waits are not cut short and a
    connection attempt takes time. *)
Theorem Verify_ends v host port user key fuel t :
  (0 < Verifier.checkInterval v <= max_int64)%Z -> 3 <= fuel ->
  (Verifier.verifyTimeout v <= Verifier.checkInterval v * (Z.of_nat fuel - 2))%Z ->
  watch passing (Verify v host port user key fuel) (fun r _ => is_Some r) t.
Proof.
  intros Hi Hf Hlong. unfold Verify. destruct (check_target _ _ _ _) as [e|]; [apply watch_ret; by eexists|].
  pass_step. destruct b as [e|]; [apply watch_ret; by eexists|].
  apply watch_bind, watch_trigger. cbn [passing next allowed assumed]. intros start Hstart. split; [done|].
  apply verify_loop_ends; [exact Hi|].
  replace (start + Verifier.verifyTimeout v - start)%Z with (Verifier.verifyTimeout v) by lia.
  split; [lia|]. split; [lia|]. intros _. split; [exact Hf|exact Hlong].
Qed.

(** ** The attempts it reports *)
Definition dialled : monitor sshE Z :=
  mk_monitor (fun x n => match x with Ev (Dial _ _) _ => (n + 1)%Z | _ => n end)
    (fun _ _ => True) (fun _ _ => True).
Definition undialled (B : Type) (e : sshE B) : bool := match e with Dial _ _ => false | _ => true end.
Lemma dialled_other {A} (p : ssh_program A) n : only undialled p -> watch dialled p (fun _ n' => n' = n) n.
Proof. intros Hp. apply (only_watch undialled); [|done|done]. by intros B [] b s ? ? ->. Qed.
Lemma instant_undialled {A} (p : ssh_program A) : only instant p -> only undialled p.
Proof. apply only_weaken. by intros B []. Qed.

Lemma dialled_tryConnect v host port user key n :
  watch dialled (tryConnect v host port user key) (fun _ n' => n' = (n + 1)%Z) n.
Proof.
  unfold tryConnect, on_client. eapply (watch_seq _ (fun _ n' => n' = (n + 1)%Z)).
  - unfold open_client. apply watch_bind, watch_trigger. intros b _. split; [done|]. apply dialled_other.
    destruct b as [conn|e]; [|done].
    apply only_bind; [by apply only_trigger|]. intros [e|]; [by apply only_bind; [apply only_trigger|]|done].
  - intros [conn|e] n' ->; [|done]. apply dialled_other, only_bind; [|intros e; by apply only_bind; [apply only_trigger|]].
    unfold on_session. apply only_bind; [by apply only_trigger|]. intros [m|e]; [|done].
    apply only_bind; [apply instant_undialled, instant_verify_body|]. intros e. by apply only_bind; [apply only_trigger|].
Qed.

Lemma dialled_cancelled start attempts n :
  watch dialled (verify_cancelled start attempts)
    (fun r n' => n' = n /\ exists d e, r = (Some (VerifyResult.mk false d attempts (Error e)), Some e)) n.
Proof.
  unfold verify_cancelled. apply watch_bind, watch_trigger. intros now _. split; [done|].
  unfold ended_error. apply watch_bind, watch_bind, watch_trigger. intros e _. split; [done|].
  apply watch_ret, watch_ret. split; [done|]. by eexists _, _.
Qed.

(** A success reports the connections tried; a failure as many, or one more. *)
Definition reported (r : option (option VerifyResult.t * option error)) (n : Z) : Prop :=
  match r with
  | Some (Some r, e) =>
      VerifyResult.Success r = bool_decide (e = None) /\
      (VerifyResult.Attempts r = n \/ VerifyResult.Success r = false /\ VerifyResult.Attempts r = (n + 1)%Z)
  | Some (None, e) => e <> None /\ n = 0%Z
  | None => True
  end.
Lemma verify_loop_reports v host port user key fuel start deadline attempts lastError :
  watch dialled (verify_loop v host port user key fuel start deadline attempts lastError) reported attempts.
Proof.
  revert attempts lastError. induction fuel as [|fuel IH]; intros attempts lastError; cbn [verify_loop]; [done|].
  cbv zeta. apply watch_bind, watch_trigger. intros now _. split; [done|]. cbn [dialled next].
  destruct (deadline <? now)%Z.
  { apply watch_bind, watch_trigger. intros now' _. split; [done|]. apply watch_ret. split; [done|]. by right. }
  apply watch_bind, watch_trigger. intros [e|] _; (split; [done|]); cbn [dialled next].
  { eapply watch_seq; [apply dialled_cancelled|]. intros r n [-> (d & e' & ->)]. split; [done|]. by right. }
  eapply watch_seq; [apply dialled_tryConnect|]. intros [e|] n ->.
  - apply watch_bind, watch_trigger. intros now' _. split; [done|]. cbn [dialled next].
    destruct (Sub deadline now' <=? 0)%Z; [apply IH|].
    apply watch_bind, watch_trigger. intros [|] _; (split; [done|]); cbn [dialled next]; [|apply IH].
    eapply watch_seq; [apply dialled_cancelled|]. intros r n [-> (d & e' & ->)]. split; [done|]. by left.
  - apply watch_bind, watch_trigger. intros now' _. split; [done|]. apply watch_ret. split; [done|]. by left.
Qed.

(** On every execution [Verify] says "success" exactly when it returns no error, and then it
    reports as many attempts as connections it tried; a failure may report one more than
    that, since an attempt is counted before it is known that the time is over. *)
Theorem Verify_reports v host port user key fuel :
  watch dialled (Verify v host port user key fuel) reported 0%Z.
Proof.
  unfold Verify. destruct (check_target _ _ _ _) as [e|]; [done|].
  apply watch_bind, watch_trigger. intros [e|] _; (split; [done|]).
  - apply watch_ret. split; [done|]. by left.
  - apply watch_bind, watch_trigger. intros start _. split; [done|]. cbn [dialled next].
    apply verify_loop_reports.
Qed.

(** ** Files *)

(** [base64 -d]: line feeds are skipped, four characters stand for three bytes, padding only
    at the end. *)
Definition b64_value (c : ascii) : option nat :=
  List.find (fun n => Ascii.eqb (b64_char n) c) (seq 0 64).
Definition byte (n : nat) : ascii := ascii_of_nat n.
Fixpoint decode_groups (s : string) : option string :=
  match s with
  | EmptyString => Some ""
  | String a (String b (String c (String d s'))) =>
      a ← b64_value a; b ← b64_value b;
      if Ascii.eqb c "=" then
        if Ascii.eqb d "=" && bool_decide (s' = "") then Some (String (byte (a * 4 + b / 16)) "") else None
      else
        c ← b64_value c;
        if Ascii.eqb d "=" then
          if bool_decide (s' = "")
          then Some (String (byte (a * 4 + b / 16)) (String (byte (b mod 16 * 16 + c / 4)) ""))
          else None
        else
          d ← b64_value d; rest ← decode_groups s';
          Some (String (byte (a * 4 + b / 16)) (String (byte (b mod 16 * 16 + c / 4))
                  (String (byte (c mod 4 * 64 + d)) rest)))
  | _ => None
  end.
Definition line_feed : string := String "010" "".
Definition base64_d (s : string) : option string :=
  decode_groups (filter_bytes (fun c => negb (Ascii.eqb c "010")) s).

Lemma b64_value_char n : n < 64 -> b64_value (b64_char n) = Some n.
Proof.
  intros Hn. assert (forallb (fun n => bool_decide (b64_value (b64_char n) = Some n)) (seq 0 64) = true) as Hall
    by (vm_compute; reflexivity).
  rewrite forallb_forall in Hall. apply (bool_decide_unpack _), Is_true_true, Hall, in_seq. lia.
Qed.
(** No character of the alphabet is a padding, a line feed or a quote. *)
Definition plain_char (c : ascii) : bool :=
  negb (Ascii.eqb c "=") && negb (Ascii.eqb c "010") && negb (Ascii.eqb c "'").
Lemma b64_char_plain n : n < 64 -> plain_char (b64_char n) = true.
Proof.
  intros Hn. assert (forallb (fun n => plain_char (b64_char n)) (seq 0 64) = true) as Hall
    by (vm_compute; reflexivity).
  rewrite forallb_forall in Hall. apply Hall, in_seq. lia.
Qed.
Lemma b64_char_not_pad n : n < 64 -> Ascii.eqb (b64_char n) "=" = false.
Proof.
  intros Hn. apply b64_char_plain in Hn. unfold plain_char in Hn.
  by destruct (Ascii.eqb (b64_char n) "=").
Qed.

Lemma byte_lt c : nat_of_ascii c < 256.
Proof. apply nat_ascii_bounded. Qed.
#[local] Ltac Zify.zify_post_hook ::= Z.to_euclidean_division_equations.
Lemma byte_is n c : n = nat_of_ascii c -> byte n = c.
Proof. intros ->. apply ascii_nat_embedding. Qed.

(** Induction on three characters at a time. *)
Lemma string_ind3 (P : string -> Prop) :
  P "" -> (forall a, P (String a "")) -> (forall a b, P (String a (String b ""))) ->
  (forall a b c s, P s -> P (String a (String b (String c s)))) -> forall s, P s.
Proof.
  intros H0' H1' H2' H3'. fix IH 1. intros [|a [|b [|c s]]]; [done|apply H1'|apply H2'|apply H3', IH].
Qed.

#[local] Arguments b64_value : simpl never.
#[local] Arguments b64_char : simpl never.
#[local] Arguments byte : simpl never.
#[local] Arguments Nat.div : simpl never.
#[local] Arguments Nat.modulo : simpl never.
Lemma decode_encode s : decode_groups (base64Encode s) = Some s.
Proof.
  induction s as [|a|a b|a b c s IH] using string_ind3; [done|..];
    pose proof (byte_lt a); try pose proof (byte_lt b); try pose proof (byte_lt c);
    cbn; rewrite ?b64_value_char, ?b64_char_not_pad by lia; cbn;
    rewrite ?b64_value_char, ?IH by lia; cbn; repeat f_equal; apply byte_is; lia.
Qed.

(** The text has no line feed and no quote. *)
Definition text_char (c : ascii) : bool := negb (Ascii.eqb c "010") && negb (Ascii.eqb c "'").
Lemma b64_char_text n : n < 64 -> text_char (b64_char n) = true.
Proof.
  intros Hn. apply b64_char_plain in Hn. unfold plain_char, text_char in *.
  by destruct (Ascii.eqb (b64_char n) "=").
Qed.
Lemma base64Encode_text s : all_bytes text_char (base64Encode s) = true.
Proof.
  induction s as [|a|a b|a b c s IH] using string_ind3; [done|..];
    pose proof (byte_lt a); try pose proof (byte_lt b); try pose proof (byte_lt c);
    cbn [base64Encode all_bytes]; rewrite ?b64_char_text, ?IH by lia; done.
Qed.
Lemma filter_all p s t : all_bytes p s = true -> filter_bytes p (s +:+ t) = s +:+ filter_bytes p t.
Proof.
  induction s as [|c s IH]; [done|]. cbn [all_bytes]. intros [Hc Hs]%andb_true_iff.
  change (filter_bytes p (String c (s +:+ t)) = String c (s +:+ filter_bytes p t)). cbn [filter_bytes].
  rewrite Hc. by f_equal; apply IH.
Qed.
Lemma escape_quotes_id s : all_bytes text_char s = true -> escape_quotes s = s.
Proof.
  induction s as [|c s IH]; [done|]. cbn. intros [Hc Hs]%andb_true_iff.
  unfold text_char in Hc. destruct (Ascii.eqb c "'"); [by rewrite andb_false_r in Hc|]. by rewrite IH.
Qed.


(** C34.  The command of [SCPWrite] writes the content under the path, whatever the bytes of both:
    a shell reads two quoted words in it, the second being the path, and what [base64 -d]
    makes of the first, as [echo] prints it, is the content. *)
Theorem SCPWrite_delivers remotePath content :
  exists quoted path, scp_command remotePath content = "echo " +:+ quoted +:+ " | base64 -d > " +:+ path /\
    sh_word false path = Some (remotePath, "") /\
    exists word, sh_word false (quoted +:+ " | base64 -d > " +:+ path) = Some (word, " | base64 -d > " +:+ path) /\
      base64_d (word +:+ line_feed) = Some content.
Proof.
  exists (shellQuote (base64Encode content)), (shellQuote remotePath).
  pose proof (base64Encode_text content) as Ht.
  assert (forall s rest, rest = "" \/ (exists r, rest = String " " r) ->
            sh_word false (shellQuote s +:+ rest) = Some (s, rest)) as Hword.
  { intros s rest Hrest. unfold shellQuote. rewrite <-(sh_word_escape s rest Hrest).
    by rewrite !append_assoc. }
  split; [|split; [|exists (base64Encode content); split]].
  - unfold scp_command, shellQuote. rewrite (escape_quotes_id _ Ht). by rewrite !append_assoc.
  - rewrite <-(append_empty (shellQuote remotePath)). apply Hword. by left.
  - apply Hword. right. by eexists.
  - unfold base64_d. rewrite filter_all.
    + cbn [filter_bytes line_feed]. cbn. rewrite append_empty. apply decode_encode.
    + eapply all_bytes_mono; [|exact Ht]. unfold text_char. intros c. by intros [? _]%andb_true_iff.
Qed.
