(* ===== verification/SshVerifier.v ===== *)
(** The verifiers that the provisioner is built with: the connection attempt of
    [internal/ssh] as the [SSHVerifier] and [DefaultHTTPVerifier] of
    [provisioner/service.go] as the [HTTPVerifier], run on a network; and what a session
    that verification made running shows about its machine.  At the end, the doubles of
    [provisioner/mock_ssh_verifier.go]. *)
From S2P Require Import Prelude GoFloat GoLib GoStrings Models Errors Interfaces Provisioner CreateSession.
From S2P Require Import Verify Programs SshExec SshFacts.
#[local] Set Warnings "-clear-no-such-hyp".

(** [golang.org/x/crypto/ssh] and [net/http] on the network of a world. *)
Class Network (W : Type) := {
  ssh_do : forall A, sshE A -> M W A;
  (** [http.NewRequestWithContext] of a GET, which may refuse the URL *)
  new_request : string -> option error;
  (** [client.Do]: the status code; the response's body is closed unread *)
  http_get : string -> M W (res error Z)
}.
Class NetworkLaws (W : Type) `{Network W} `{Ghost W} : Prop := {
  ssh_frame : forall A (e : sshE A), frame (ssh_do A e);
  http_frame : forall url, frame (http_get url)
}.

(** ** The verifiers *)
Section Verifiers.
Context {W : Type} `{Network W} (cfg : Service.t).

(** The verifier that [New] builds when none is given. *)
Definition service_verifier : Verifier.t :=
  Verifier.mk (Service.sshVerifyTimeout cfg) (Service.sshCheckInterval cfg) DefaultConnectTimeout.

(** [DefaultHTTPVerifier.CheckHealth]; a 404 counts as alive. *)
Definition healthy_status (code : Z) : bool := ((200 <=? code) && (code <? 300) || (code =? 404))%Z.
Definition DefaultHTTPVerifier_CheckHealth (url : string) : M W (option error) :=
  match new_request url with
  | Some e => ret (Some (EWrap "failed to create request" e))
  | None =>
      let! r := http_get url in
      ret match r with
          | Err e => Some (EWrap "request failed" e)
          | Ok code =>
              if healthy_status code then None
              else Some (EOpaque ("unhealthy status: " +:+ Itoa code))
          end
  end.

Definition network_verifiers : Verifiers W := {|
  Verify.VerifyOnce := fun host port user key => interp ssh_do (VerifyOnce service_verifier host port user key);
  Verify.CheckHealth := DefaultHTTPVerifier_CheckHealth
|}.

Lemma frame_interp `{Ghost W} `{!NetworkLaws W} {A} (p : ssh_program A) : frame (interp ssh_do p).
Proof.
  induction p as [a|B e k IH]; cbn [interp]; [apply frame_ret|]. apply frame_bind; [apply ssh_frame|exact IH].
Qed.

Lemma network_verifier_laws `{Ghost W} `{!NetworkLaws W} : VerifierLaws (H := network_verifiers) W.
Proof.
  split.
  - intros. apply frame_interp.
  - intros url. cbn. unfold DefaultHTTPVerifier_CheckHealth. destruct (new_request url); [apply frame_ret|].
    apply frame_bind; [apply http_frame|]. intros. apply frame_ret.
Qed.
End Verifiers.

(** ** What a success shows *)

(** A connection to the machine was authenticated with the key, and in a session on it the
    machine answered "ok" to the command. *)
Definition answered_ok (host : string) (port : Z) (user key : string) (h : list (event sshE)) : Prop :=
  exists conn session out err,
    Ev (NewClientConn conn (addr host port) user key) None ∈ h /\
    Ev (NewSession conn) (Ok session) ∈ h /\
    Ev (RunSession session None VerifyCommand) (Some (out, err, None)) ∈ h /\ TrimSpace out = "ok".

(** What has happened stays in the history. *)
Definition grown (h h' : list (event sshE)) : Prop := forall x, x ∈ h -> x ∈ h'.
Lemma watch_grown {A} (p : ssh_program A) h : watch recorder p (fun _ h' => grown h h') h.
Proof.
  apply (watch_stable recorder (grown h)); [|by intros x].
  intros x h' _ Hh. split; [done|]. intros y Hy. apply list_elem_of_further, Hh, Hy.
Qed.
Ltac record_step := apply watch_bind, watch_trigger; cbn [recorder next allowed assumed]; intros ? _; split; [done|].

Lemma watch_verify_body session h :
  watch recorder (verify_body session)
    (fun r h' => grown h h' /\ (r = None -> exists out err,
       Ev (RunSession session None VerifyCommand) (Some (out, err, None)) ∈ h' /\ TrimSpace out = "ok")) h.
Proof.
  apply watch_and; [apply watch_grown|]. unfold verify_body. record_step.
  destruct b as [[[out err] [e|]]|]; [by apply watch_ret| |].
  - apply watch_ret. case_bool_decide; [|done]. intros _. exists out, err. split; [apply list_elem_of_here|done].
  - record_step. apply watch_bind. unfold ended_error. by record_step.
Qed.

Lemma watch_tryConnect v host port user key h :
  watch recorder (tryConnect v host port user key) (fun r h' => r = None -> answered_ok host port user key h') h.
Proof.
  unfold tryConnect, on_client. apply watch_bind. unfold open_client. record_step.
  destruct b as [conn|e]; [|by apply watch_ret]. record_step. destruct b as [e|]; [by record_step|].
  apply watch_ret. unfold on_session. apply watch_bind. record_step. destruct b as [session|e].
  2: { apply watch_ret. by record_step. }
  eapply watch_seq; [apply watch_verify_body|]. intros r h' [Hh Hr]. record_step. apply watch_ret. record_step.
  apply watch_ret. intros Hn. destruct (Hr Hn) as (out & err & Hrun & Hok).
  exists conn, session, out, err. repeat split; [| | |exact Hok]; do 2 apply list_elem_of_further;
    [apply Hh; set_solver|apply Hh; set_solver|exact Hrun].
Qed.

Lemma watch_VerifyOnce v host port user key h :
  watch recorder (VerifyOnce v host port user key) (fun r h' => r = None -> answered_ok host port user key h') h.
Proof.
  unfold VerifyOnce. destruct (check_target _ _ _ _); [by apply watch_ret|]. record_step.
  destruct b; [by apply watch_ret|]. apply watch_tryConnect.
Qed.

(** ** The session that verification made running *)
Section Outcome.
Context {W : Type} `{SessionStore W} `{Env W} `{Random W} `{CostRecorder W} `{Timers W} `{Network W} `{Ghost W}.
Context `{!StoreLaws W} `{!EnvLaws W} `{!RandomLaws W} `{!CostRecorderLaws W} `{!NetworkLaws W} `{!TimerLaws W}.
Context (cfg : Service.t) (reg : gmap string (Provider.t W)) `{!ProviderLaws W reg}.
Context (inventory : option (InventoryFinder.t W)).
Context `{Hinv : !forall inv, inventory = Some inv -> InventoryLaws W inv}.

#[local] Instance deployed_verifiers : Verifiers W := network_verifiers cfg.
#[local] Instance deployed_verifier_laws : VerifierLaws W := network_verifier_laws cfg.

(** In some world of the run, an attempt with the key reached a machine that answered. *)
Definition machine_answered (key : string) : Prop :=
  exists host port user (v : W),
    answered_ok host port user key (events ssh_do (VerifyOnce (service_verifier cfg) host port user key) [] v).

Lemma attempt_answered host port user key (v : W) :
  fst (interp ssh_do (VerifyOnce (service_verifier cfg) host port user key) v) = None -> machine_answered key.
Proof.
  intros Hr. exists host, port, user, v.
  pose proof (interp_watch ssh_do recorder _ _ [] [] v (fun _ _ => I)
    (watch_VerifyOnce (service_verifier cfg) host port user key [])) as Hw.
  rewrite recorder_all in Hw. by apply Hw.
Qed.

(** C23.  SSH verification ends: when its polling intervals are at least [lo], it returns
    within [polls lo sshTimeout] iterations after the first.  It only ever writes its
    session, whose status stays as it was, becomes failed, or becomes running, the latter
    only when a connection was authenticated with the session's key and the machine at its
    other end answered "ok" to [echo ok]; and on a healthy database a provisioning session
    is left provisioning only when the context ended first. *)
Theorem ssh_verification_outcome fuel ctx name prov id key sshTimeout lo intervals s w :
  (0 < lo <= 5 * Second)%Z ->
  Backoff.bounded lo intervals (Backoff.NewProgressiveBackoff (Service.sshCheckInterval cfg)
    (Service.sshMaxInterval cfg) (Service.sshBackoffMultiplier cfg)) ->
  reg !! name = Some prov -> sess_view w !! id = Some s -> polls lo sshTimeout < fuel ->
  wp (waitForSSHVerifyAsyncWithTimeout cfg reg inventory fuel ctx id key prov sshTimeout)
    (fun returned w' => returned = true /\
      (forall j, j <> id -> sess_view w' !! j = sess_view w !! j) /\
      exists s', sess_view w' !! id = Some s' /\
        (Session.Status s' = Session.Status s \/ Session.Status s' = StatusFailed \/
         (Session.Status s' = StatusRunning /\ machine_answered key)) /\
        (healthy w -> Session.Status s = StatusProvisioning ->
         Session.Status s' = StatusProvisioning -> (ctx <= clock w')%Z)) w.
Proof.
  intros Hlo Hb Hp Hs Hfuel. eapply verification_outcome; try done.
  intros host port user v. apply attempt_answered.
Qed.
End Outcome.

(** ** The doubles *)
(** [MockSSHError]. *)
Definition MockSSHError (message : string) : error := EOpaque message.

Module MockVerifyCall.
Record t := mk { Host : string; Port : Z; User : string; PrivateKey : string; Timestamp : time }.
End MockVerifyCall.
Module Mock.
Record t := mk {
  shouldSucceed : bool;
  delay : duration;
  failureError : option error;
  verifyCalls : list MockVerifyCall.t
}.
Definition NewMockSSHVerifier : t := mk true 0%Z None [].
Definition SetSucceed (succeed : bool) (m : t) : t := mk succeed (delay m) (failureError m) (verifyCalls m).
Definition SetDelay (d : duration) (m : t) : t := mk (shouldSucceed m) d (failureError m) (verifyCalls m).
Definition SetFailureError (e : option error) (m : t) : t := mk (shouldSucceed m) (delay m) e (verifyCalls m).
Definition record (c : MockVerifyCall.t) (m : t) : t :=
  mk (shouldSucceed m) (delay m) (failureError m) (verifyCalls m ++ [c]).
Definition GetVerifyCalls (m : t) : list MockVerifyCall.t := verifyCalls m.
Definition Reset (m : t) : t := NewMockSSHVerifier.
(** The error that an attempt ends with. *)
Definition verdict (m : t) : option error :=
  if shouldSucceed m then None
  else Some (default (MockSSHError "mock SSH verification failed") (failureError m)).
End Mock.

(** The state holds the double. *)
Class HasMock (W : Type) := { get_mock : W -> Mock.t; set_mock : Mock.t -> W -> W }.
Class HasMockLaws (W : Type) `{HasMock W} `{Env W} `{Ghost W} : Prop := {
  get_set_mock : forall m w, get_mock (set_mock m w) = m;
  set_mock_quiet : forall m w, quiet w (set_mock m w);
  time_Now_mock : forall w, get_mock (snd (time_Now w)) = get_mock w;
  wait_mock : forall d w, get_mock (snd (wait d w)) = get_mock w
}.

Section Mock.
Context {W : Type} `{HasMock W} `{Env W}.

(** The call is recorded and the configuration read under one lock. *)
Definition record_call (c : MockVerifyCall.t) : M W Mock.t :=
  fun w => (get_mock w, set_mock (Mock.record c (get_mock w)) w).

(** [MockSSHVerifier.VerifyOnce]. *)
Definition Mock_VerifyOnce (host : string) (port : Z) (user privateKey : string) : M W (option error) :=
  let! t := time_Now in
  let! m := record_call (MockVerifyCall.mk host port user privateKey t) in
  let! ended := if (0 <? Mock.delay m)%Z then wait (Mock.delay m) else ret None in
  ret match ended with Some e => Some e | None => Mock.verdict m end.

(** [AlwaysSucceedSSHVerifier] and [AlwaysFailSSHVerifier], whose field is [failure]. *)
Definition AlwaysSucceed_VerifyOnce (host : string) (port : Z) (user privateKey : string) : M W (option error) :=
  ret None.
Definition AlwaysFail_VerifyOnce (failure : option error) (host : string) (port : Z) (user privateKey : string)
    : M W (option error) :=
  ret (Some (default (MockSSHError "SSH verification always fails") failure)).
End Mock.

(** ** What the tests may rely on *)
Section Records.
Context {W : Type} `{HasMock W} `{Env W} `{Ghost W} `{!HasMockLaws W} `{!EnvLaws W}.

Lemma Mock_VerifyOnce_frame h p u k : frame (Mock_VerifyOnce h p u k).
Proof.
  unfold Mock_VerifyOnce. apply frame_bind.
  { intros w. eapply wp_mono; [apply time_Now_spec|]. by intros ? ? []. }
  intros t. apply frame_bind; [intros w; apply set_mock_quiet|]. intros m.
  apply frame_bind; [case_match; [apply wait_frame|apply frame_ret]|]. intros. apply frame_ret.
Qed.

(** An attempt appends one call with its arguments and leaves the configuration; it succeeds
    exactly when the double is set to, unless the context ends during its delay. *)
Theorem Mock_VerifyOnce_records h p u k w :
  wp (Mock_VerifyOnce h p u k) (fun e w' =>
    (exists t, get_mock w' = Mock.record (MockVerifyCall.mk h p u k t) (get_mock w)) /\
    ((Mock.delay (get_mock w) <= 0)%Z -> e = Mock.verdict (get_mock w)) /\
    (e = None -> Mock.shouldSucceed (get_mock w) = true)) w.
Proof.
  unfold wp, Mock_VerifyOnce, bind. pose proof (time_Now_mock w) as Ht.
  destruct (time_Now w) as [t w1]. cbn [snd] in Ht. unfold record_call. rewrite Ht.
  destruct (Z.ltb_spec 0 (Mock.delay (get_mock w))) as [Hd|Hd].
  - pose proof (wait_mock (Mock.delay (get_mock w))
      (set_mock (Mock.record (MockVerifyCall.mk h p u k t) (get_mock w)) w1)) as Hw.
    destruct (wait _ _) as [[e|] w2]; cbn in *; rewrite Hw, get_set_mock; (split; [by exists t|]); (split; [lia|]).
    + done.
    + unfold Mock.verdict. by destruct (Mock.shouldSucceed _).
  - cbn. rewrite get_set_mock. split; [by exists t|]. split; [done|].
    unfold Mock.verdict. by destruct (Mock.shouldSucceed _).
Qed.
End Records.

Section Never.
Context {W : Type} `{SessionStore W} `{Env W} `{Random W} `{CostRecorder W} `{Timers W} `{Ghost W}.
Context `{!StoreLaws W} `{!EnvLaws W} `{!RandomLaws W} `{!CostRecorderLaws W} `{!TimerLaws W}.
Context (cfg : Service.t) (reg : gmap string (Provider.t W)) `{!ProviderLaws W reg}.
Context (inventory : option (InventoryFinder.t W)).
Context `{Hinv : !forall inv, inventory = Some inv -> InventoryLaws W inv}.
Context (failure : option error) (health : string -> M W (option error)).

(** The service with the double that always fails. *)
#[local] Instance failing_verifiers : Verifiers W := {|
  Verify.VerifyOnce := AlwaysFail_VerifyOnce failure;
  Verify.CheckHealth := health
|}.

(** With it no session becomes running: verification returns, and the session keeps its status
    or has failed. *)
Theorem failing_double_never_runs fuel ctx name prov id key sshTimeout lo intervals s w :
  (forall u, frame (health u)) -> (0 < lo <= 5 * Second)%Z ->
  Backoff.bounded lo intervals (Backoff.NewProgressiveBackoff (Service.sshCheckInterval cfg)
    (Service.sshMaxInterval cfg) (Service.sshBackoffMultiplier cfg)) ->
  reg !! name = Some prov -> sess_view w !! id = Some s -> polls lo sshTimeout < fuel ->
  wp (waitForSSHVerifyAsyncWithTimeout cfg reg inventory fuel ctx id key prov sshTimeout)
    (fun returned w' => returned = true /\ exists s', sess_view w' !! id = Some s' /\
       (Session.Status s' = Session.Status s \/ Session.Status s' = StatusFailed)) w.
Proof.
  intros Hh Hlo Hb Hp Hs Hfuel.
  assert (VerifierLaws W) as Hlaws by (split; [intros; apply frame_ret|exact Hh]).
  eapply wp_mono.
  { eapply (verification_outcome cfg reg inventory (Hinv := Hinv) False); try done. }
  intros r w' (Hr & _ & s' & Hs' & [Hx|[Hx|[_ []]]] & _); (split; [done|]); exists s'; auto.
Qed.
End Never.
