(* ===== verification/DestroyLocks.v ===== *)
(** [internal/service/provisioner/service.go]: the per-session destroy locks
    ([getDestroyLock], [cleanupDestroyLock]) that [DestroySession] takes, as a step
    relation over the goroutines that destroy one session.  The deferred calls run in
    reverse order: the map entry is deleted before the mutex is unlocked. *)
From S2P Require Import Prelude.

(** Where a goroutine is in [DestroySession]. *)
Inductive Phase :=
| Arrived                 (* before getDestroyLock *)
| Waiting (lock : nat)    (* has the mutex, blocked in lock.Lock() *)
| Destroying (lock : nat) (* holds the mutex: the body *)
| Unlocking (lock : nat)  (* after cleanupDestroyLock, before lock.Unlock() *)
| Finished.

#[export] Instance Phase_eq_dec : EqDecision Phase.
Proof. solve_decision. Defined.

(** [destroyLocks[sessionID]], the mutexes that are locked, the goroutines, and the
    next mutex to allocate. *)
Module Locks.
Record t := mk {
  entry : option nat;
  locked : gset nat;
  threads : gmap nat Phase;
  next : nat
}.

Definition set_thread (i : nat) (p : Phase) (s : t) : t :=
  mk (entry s) (locked s) (<[i := p]> (threads s)) (next s).

(** [getDestroyLock], under [destroyLocksMu]. *)
Definition getDestroyLock (s : t) : nat * t :=
  match entry s with
  | Some l => (l, s)
  | None => (next s, mk (Some (next s)) (locked s) (threads s) (S (next s)))
  end.

(** [cleanupDestroyLock], under [destroyLocksMu]. *)
Definition cleanupDestroyLock (s : t) : t := mk None (locked s) (threads s) (next s).

Definition Lock (l : nat) (s : t) : t :=
  mk (entry s) ({[l]} ∪ locked s) (threads s) (next s).
Definition Unlock (l : nat) (s : t) : t :=
  mk (entry s) (locked s ∖ {[l]}) (threads s) (next s).

Inductive step : t -> t -> Prop :=
| step_get i s l s' :
    threads s !! i = Some Arrived -> getDestroyLock s = (l, s') ->
    step s (set_thread i (Waiting l) s')
| step_lock i l s :
    threads s !! i = Some (Waiting l) -> l ∉ locked s ->
    step s (set_thread i (Destroying l) (Lock l s))
| step_cleanup i l s :
    threads s !! i = Some (Destroying l) ->
    step s (set_thread i (Unlocking l) (cleanupDestroyLock s))
| step_unlock i l s :
    threads s !! i = Some (Unlocking l) ->
    step s (set_thread i Finished (Unlock l s)).

(** [n] goroutines arrive with no lock allocated. *)
Definition start (n : nat) : t :=
  mk None ∅ (list_to_map ((fun i => (i, Arrived)) <$> seq 0 n)) 0.
End Locks.

(** The mutex a goroutine holds, between [lock.Lock()] and [lock.Unlock()]. *)
Definition held (p : Phase) : option nat :=
  match p with Destroying l | Unlocking l => Some l | _ => None end.

(** The mutex a goroutine has obtained from the map. *)
Definition obtained (p : Phase) : option nat :=
  match p with Waiting l | Destroying l | Unlocking l => Some l | _ => None end.

(** Another goroutine than [i] holds [l]. *)
Definition held_elsewhere (s : Locks.t) (i l : nat) : Prop :=
  exists j p, j <> i /\ Locks.threads s !! j = Some p /\ held p = Some l.

Module LockProofs.
Import Locks.

Record inv (s : t) : Prop := {
  inv_next : forall i l p, threads s !! i = Some p -> obtained p = Some l -> l < next s;
  inv_entry : forall l, entry s = Some l -> l < next s;
  inv_locked : forall i l, held_elsewhere s i l -> l ∈ locked s;
  inv_excl : forall i l p, threads s !! i = Some p -> held p = Some l -> ~ held_elsewhere s i l
}.

Lemma inv_start n : inv (start n).
Proof.
  assert (forall i p, threads (start n) !! i = Some p -> p = Arrived) as Ha.
  { intros i p Hp%elem_of_list_to_map_2. by apply list_elem_of_fmap in Hp as (k & [= -> ->] & _). }
  split.
  - intros i l p Hp%Ha. by subst.
  - done.
  - intros i l (j & p & _ & Hp%Ha & ?). by subst.
  - intros i l p Hp%Ha. by subst.
Qed.

(** The goroutine [i] moves to [q]. *)
Lemma inv_move i q s s' :
  inv s -> threads s' = <[i := q]> (threads s) -> next s <= next s' ->
  (forall l, entry s' = Some l -> l < next s') ->
  (forall l, obtained q = Some l -> l < next s') ->
  (forall l, l ∈ locked s -> l ∈ locked s' \/ ~ held_elsewhere s i l) ->
  (forall l, held q = Some l -> l ∈ locked s' /\ ~ held_elsewhere s i l) ->
  inv s'.
Proof.
  intros [Hn He Hl Hx] Ht Hnx He' Hq Hk Hh.
  split.
  - intros j l p Hj. rewrite Ht in Hj. apply lookup_insert_Some in Hj as [[<- <-]|[_ Hj]]; [auto|].
    intros Hp. specialize (Hn _ _ _ Hj Hp). lia.
  - exact He'.
  - intros k l (j & p & Hne & Hj & Hp). rewrite Ht in Hj.
    apply lookup_insert_Some in Hj as [[<- <-]|[Hji Hj]]; [by apply Hh|].
    assert (held_elsewhere s i l) as Hel by (exists j, p; auto).
    by destruct (Hk l (Hl i l Hel)).
  - intros k l p Hp Hlp (j & r & Hne & Hj & Hr). rewrite Ht in Hp, Hj.
    apply lookup_insert_Some in Hp as [[<- <-]|[Hki Hp]];
      apply lookup_insert_Some in Hj as [[<- <-]|[Hji Hj]].
    + done.
    + apply (Hh l Hlp). exists j, r. auto.
    + apply (Hh l Hr). exists k, p. auto.
    + apply (Hx k l p Hp Hlp). exists j, r. auto.
Qed.

Lemma inv_step s s' : step s s' -> inv s -> inv s'.
Proof.
  intros Hst Hs. pose proof Hs as [Hn He Hl Hx].
  destruct Hst as [i s l s' Hi Hg|i l s Hi Hfree|i l s Hi|i l s Hi].
  - assert (threads s' = threads s /\ locked s' = locked s /\ l < next s' /\ next s <= next s' /\
            (forall k, entry s' = Some k -> k < next s')) as (Ht & Hk & Hls & Hns & He').
    { unfold getDestroyLock in Hg. destruct (entry s) as [k|] eqn:Hs'; injection Hg as <- <-; cbn.
      - split_and!; [done|done|auto|lia|]. intros k'. rewrite Hs'. auto.
      - split_and!; [done|done|lia|lia|]. intros k [= <-]. lia. }
    apply (inv_move i (Waiting l) s); cbn; [done|by rewrite Ht|lia|done| | |done].
    + by intros m [= <-].
    + intros m Hm. left. by rewrite Hk.
  - apply (inv_move i (Destroying l) s); cbn; [done|done|lia|exact He| | |].
    + intros m [= <-]. by eapply Hn.
    + intros m Hm. left. set_solver.
    + intros m [= <-]. split; [set_solver|]. intros Hel. by apply Hfree, (Hl i).
  - apply (inv_move i (Unlocking l) s); cbn; [done|done|lia|done| |auto|].
    + intros m [= <-]. by eapply Hn.
    + intros m [= <-]. split; [|by eapply Hx].
      apply (Hl (S i)). exists i, (Destroying l). split; [lia|auto].
  - apply (inv_move i Finished s); cbn; [done|done|lia|exact He|done| |done].
    intros m Hm. destruct (decide (m = l)) as [->|Hne]; [right; by eapply Hx|left; set_solver].
Qed.

Lemma inv_reachable n s : rtc step (start n) s -> inv s.
Proof.
  intros Hr. assert (inv (start n)) as Hi by apply inv_start.
  induction Hr as [|u v w Hs Hr IH]; [done|]. by apply IH, (inv_step u).
Qed.
End LockProofs.

(** A destroy mutex is exclusive: whatever the interleaving of any number of
    goroutines, no two of them are ever between [Lock] and [Unlock] of one mutex. *)
Theorem destroy_mutex_exclusive n s i j p q l :
  rtc Locks.step (Locks.start n) s ->
  Locks.threads s !! i = Some p -> Locks.threads s !! j = Some q ->
  held p = Some l -> held q = Some l -> i = j.
Proof.
  intros Hr Hi Hj Hp Hq. destruct (decide (i = j)) as [|Hne]; [done|].
  destruct (LockProofs.inv_excl s (LockProofs.inv_reachable _ _ Hr) i l p Hi Hp).
  exists j, q. auto.
Qed.

(** The per-session exclusion fails with three callers: a session's map entry is
    deleted while a second caller waits on its mutex, so a third one allocates a fresh
    mutex, and the second and third are in the body of [DestroySession] together. *)
Theorem destroy_exclusion_fails :
  exists s l1 l2, rtc Locks.step (Locks.start 3) s /\
    Locks.threads s !! 1 = Some (Destroying l1) /\ Locks.threads s !! 2 = Some (Destroying l2).
Proof.
  eexists _, 0, 1. split.
  - eapply rtc_l; [by apply (Locks.step_get 0)|].
    eapply rtc_l; [by apply (Locks.step_lock 0 0)|].
    eapply rtc_l; [by apply (Locks.step_get 1)|].
    eapply rtc_l; [by apply (Locks.step_cleanup 0 0)|].
    eapply rtc_l; [by apply (Locks.step_get 2)|].
    eapply rtc_l; [apply (Locks.step_lock 2 1); [done|by vm_compute; set_solver]|].
    eapply rtc_l; [by apply (Locks.step_unlock 0 0)|].
    eapply rtc_l; [apply (Locks.step_lock 1 0); [done|]|apply rtc_refl].
    apply (bool_decide_unpack _). by vm_compute.
  - split; reflexivity.
Qed.
