(* ===== verification/Workers.v ===== *)
(** The [Start]/[Stop] protocol of the background services: the lifecycle manager and the
    reconciler ([lifecycle/manager.go], [reconciler.go]) and the cost tracker
    ([cost/tracker.go]), as a step relation over the goroutines that call the two methods
    and the loops they start.  A critical section of the mutex is one step; so is closing a
    channel, and passing a receive from one. *)
From S2P Require Import Prelude.
#[local] Set Warnings "-clear-no-such-hyp".

(** Who clears [running]: the loop as it ends, before it closes the [doneCh] field
    (manager, reconciler), or [Stop] after the loop has ended; the tracker's loop closes
    the channel that [defer close(t.doneCh)] saw at its start. *)
Inductive Kind := LoopClears | StopClears.
Inductive Op := CallStart | CallStop.

(** Where a caller is.  Channels are numbers. *)
Inductive Call :=
| Ready                       (* between two calls *)
| Spawning                    (* in Start, before [go run(ctx)] *)
| ClosingStop (stop done : nat)  (* in Stop, with both channels captured *)
| AwaitingDone (done : nat)   (* in Stop, at [<-doneCh] *)
| ClearingRunning.            (* in Stop of the tracker, before [running = false] *)

(** Where a loop is. *)
Inductive Loop :=
| Launched
| Looping (done : nat)        (* with the channel of its deferred close *)
| Leaving (done : nat)        (* out of the select *)
| Announcing (done : nat).    (* [running] cleared, before the close *)

#[export] Instance Kind_eq_dec : EqDecision Kind.
Proof. solve_decision. Defined.
#[export] Instance Op_eq_dec : EqDecision Op.
Proof. solve_decision. Defined.
#[export] Instance Call_eq_dec : EqDecision Call.
Proof. solve_decision. Defined.
#[export] Instance Loop_eq_dec : EqDecision Loop.
Proof. solve_decision. Defined.

Module Worker.
Record t := mk {
  running : bool;
  stopCh : option nat;
  doneCh : option nat;
  closed : gset nat;
  next : nat;
  (** the callers, with the calls they have still to make *)
  callers : gmap nat (Call * list Op);
  loops : gmap nat Loop;
  (** a channel was closed twice: the process is gone *)
  crashed : bool
}.
Definition set_running (b : bool) (s : t) : t :=
  mk b (stopCh s) (doneCh s) (closed s) (next s) (callers s) (loops s) (crashed s).
Definition set_caller (i : nat) (c : Call * list Op) (s : t) : t :=
  mk (running s) (stopCh s) (doneCh s) (closed s) (next s) (<[i := c]> (callers s)) (loops s) (crashed s).
Definition set_loops (l : gmap nat Loop) (s : t) : t :=
  mk (running s) (stopCh s) (doneCh s) (closed s) (next s) (callers s) l (crashed s).

(** [close(ch)]. *)
Definition close (ch : nat) (s : t) : t :=
  if bool_decide (ch ∈ closed s)
  then mk (running s) (stopCh s) (doneCh s) (closed s) (next s) (callers s) (loops s) true
  else mk (running s) (stopCh s) (doneCh s) ({[ch]} ∪ closed s) (next s) (callers s) (loops s) (crashed s).

(** The critical section of [Start] when it is not running. *)
Definition begin_run (s : t) : t :=
  mk true (Some (next s)) (Some (S (next s))) (closed s) (S (S (next s))) (callers s) (loops s) (crashed s).

(** The channel a loop closes as it ends. *)
Definition done_of (k : Kind) (captured : nat) (s : t) : option nat :=
  match k with LoopClears => doneCh s | StopClears => Some captured end.

(** [ctx_ends]: the contexts given to [Start] may end. *)
Inductive step (k : Kind) (ctx_ends : bool) : t -> t -> Prop :=
| start_again i ops s :
    crashed s = false -> callers s !! i = Some (Ready, CallStart :: ops) -> running s = true ->
    step k ctx_ends s (set_caller i (Ready, ops) s)
| start_first i ops s :
    crashed s = false -> callers s !! i = Some (Ready, CallStart :: ops) -> running s = false ->
    step k ctx_ends s (set_caller i (Spawning, ops) (begin_run s))
| spawn i ops s :
    crashed s = false -> callers s !! i = Some (Spawning, ops) ->
    step k ctx_ends s (set_caller i (Ready, ops)
      (set_loops (<[fresh (dom (loops s)) := Launched]> (loops s)) s))
| stop_idle i ops s :
    crashed s = false -> callers s !! i = Some (Ready, CallStop :: ops) -> running s = false ->
    step k ctx_ends s (set_caller i (Ready, ops) s)
| stop_capture i ops st d s :
    crashed s = false -> callers s !! i = Some (Ready, CallStop :: ops) -> running s = true ->
    stopCh s = Some st -> doneCh s = Some d ->
    step k ctx_ends s (set_caller i (ClosingStop st d, ops) s)
| stop_close i ops st d s :
    crashed s = false -> callers s !! i = Some (ClosingStop st d, ops) ->
    step k ctx_ends s (close st (set_caller i (AwaitingDone d, ops) s))
| stop_joined i ops d s :
    crashed s = false -> callers s !! i = Some (AwaitingDone d, ops) -> d ∈ closed s ->
    step k ctx_ends s
      (set_caller i (match k with LoopClears => Ready | StopClears => ClearingRunning end, ops) s)
| stop_clear i ops s :
    crashed s = false -> callers s !! i = Some (ClearingRunning, ops) ->
    step k ctx_ends s (set_caller i (Ready, ops) (set_running false s))
| enter l d s :
    crashed s = false -> loops s !! l = Some Launched -> doneCh s = Some d ->
    step k ctx_ends s (set_loops (<[l := Looping d]> (loops s)) s)
| leave_stopped l d st s :
    crashed s = false -> loops s !! l = Some (Looping d) -> stopCh s = Some st -> st ∈ closed s ->
    step k ctx_ends s (set_loops (<[l := Leaving d]> (loops s)) s)
| leave_cancelled l d s :
    crashed s = false -> loops s !! l = Some (Looping d) -> ctx_ends = true ->
    step k ctx_ends s (set_loops (<[l := Leaving d]> (loops s)) s)
| announce l d s :
    crashed s = false -> loops s !! l = Some (Leaving d) ->
    step k ctx_ends s
      (set_loops (<[l := Announcing d]> (loops s))
         (match k with LoopClears => set_running false s | StopClears => s end))
| finish l d ch s :
    crashed s = false -> loops s !! l = Some (Announcing d) -> done_of k d s = Some ch ->
    step k ctx_ends s (close ch (set_loops (delete l (loops s)) s)).

(** Nothing has been started; caller [i] makes the calls [calls !! i]. *)
Definition init (calls : list (list Op)) : t :=
  mk false None None ∅ 0 (list_to_map (imap (fun i ops => (i, (Ready, ops))) calls)) ∅ false.
End Worker.

(** ** One caller, contexts that do not end *)
Module WorkerProofs.
Import Worker.

(** Where caller and loop can be together: [c] is the caller, [b] is [running], [l] the
    loop, [st] and [dn] whether the present stop and done channels are closed. *)
Definition together (k : Kind) (c : Call) (b : bool) (l : option Loop) (s d : nat) (st dn : bool) : Prop :=
  match c with
  | Ready =>
      (b = false /\ l = None) \/
      (b = true /\ (l = Some Launched \/ l = Some (Looping d)) /\ st = false /\ dn = false)
  | Spawning => b = true /\ l = None /\ st = false /\ dn = false
  | ClosingStop s' d' =>
      s' = s /\ d' = d /\ b = true /\ (l = Some Launched \/ l = Some (Looping d)) /\ st = false /\ dn = false
  | AwaitingDone d' =>
      d' = d /\ st = true /\
      ((b = true /\ (l = Some Launched \/ l = Some (Looping d) \/ l = Some (Leaving d)) /\ dn = false) \/
       (b = bool_decide (k = StopClears) /\ l = Some (Announcing d) /\ dn = false) \/
       (b = bool_decide (k = StopClears) /\ l = None /\ dn = true))
  | ClearingRunning => k = StopClears /\ l = None
  end.

(** One caller, at [c] with [ops] still to make, and the loop [l]. *)
Record inv (k : Kind) (c : Call) (ops : list Op) (l : option Loop) (st d : nat) (s : t) : Prop := {
  inv_ok : crashed s = false;
  inv_fresh : forall ch, ch ∈ closed s -> ch < next s;
  inv_caller : callers s = {[0 := (c, ops)]};
  inv_loop : exists i, loops s = match l with Some x => {[i := x]} | None => ∅ end;
  inv_together : together k c (running s) l st d (bool_decide (st ∈ closed s)) (bool_decide (d ∈ closed s));
  inv_channels : running s = true \/ l <> None \/ c <> Ready ->
    stopCh s = Some st /\ doneCh s = Some d /\ st <> d /\ st < next s /\ d < next s
}.

Definition call_weight (c : Call) : nat :=
  match c with Ready => 0 | ClearingRunning => 1 | AwaitingDone _ => 2 | ClosingStop _ _ => 3 | Spawning => 5 end.
Definition loop_weight (l : option Loop) : nat :=
  match l with
  | None => 0 | Some (Announcing _) => 1 | Some (Leaving _) => 2 | Some (Looping _) => 3 | Some Launched => 4
  end.
Definition weight (c : Call) (ops : list Op) (l : option Loop) : nat :=
  call_weight c + 6 * length ops + loop_weight l.

Lemma caller_alone k c ops l st d s i x :
  inv k c ops l st d s -> callers s !! i = Some x -> i = 0 /\ x = (c, ops).
Proof. intros Hi. rewrite (inv_caller _ _ _ _ _ _ _ Hi). by intros [<- <-]%lookup_singleton_Some. Qed.

Lemma loop_alone k c ops l st d s i x :
  inv k c ops l st d s -> loops s !! i = Some x -> l = Some x /\ loops s = {[i := x]}.
Proof.
  intros Hi. destruct (inv_loop _ _ _ _ _ _ _ Hi) as [j ->]. destruct l as [y|].
  - by intros [<- <-]%lookup_singleton_Some.
  - by rewrite lookup_empty.
Qed.

(** A step of the caller that leaves the channels and the loop alone. *)
Lemma inv_call k c ops l st d s c' ops' b :
  inv k c ops l st d s ->
  together k c' b l st d (bool_decide (st ∈ closed s)) (bool_decide (d ∈ closed s)) ->
  (b = true \/ l <> None \/ c' <> Ready -> running s = true \/ l <> None \/ c <> Ready) ->
  inv k c' ops' l st d (set_caller 0 (c', ops') (set_running b s)).
Proof.
  intros [H1 H2 H3 H4 H5 H6] Ht Hb. split; cbn; [done|done| |done|done|auto].
  by rewrite H3, insert_singleton_eq.
Qed.

(** A step of the loop that leaves the caller and the channels alone. *)
Lemma inv_run k c ops l st d s i x b :
  inv k c ops l st d s -> loops s = {[i := default Launched l]} ->
  together k c b (Some x) st d (bool_decide (st ∈ closed s)) (bool_decide (d ∈ closed s)) ->
  l <> None -> inv k c ops (Some x) st d (set_loops (<[i := x]> (loops s)) (set_running b s)).
Proof.
  intros [H1 H2 H3 H4 H5 H6] Hl Ht Hn. split; cbn; [done|done|done| |done|auto].
  exists i. by rewrite Hl, insert_singleton_eq.
Qed.

(** Split what is known of caller and loop. *)
Ltac cases := repeat match goal with
  | H : _ /\ _ |- _ => destruct H
  | H : _ \/ _ |- _ => destruct H
  end; simplify_eq; try done.

Lemma same_running s : set_running (running s) s = s.
Proof. by destruct s. Qed.

(** Closing an open channel. *)
Lemma close_open ch s :
  ch ∉ closed s ->
  close ch s = mk (running s) (stopCh s) (doneCh s) ({[ch]} ∪ closed s) (next s) (callers s) (loops s) (crashed s).
Proof. intros Hch. unfold close. by rewrite bool_decide_false. Qed.

Lemma bool_close ch ch' (X : gset nat) :
  ch <> ch' -> bool_decide (ch' ∈ {[ch]} ∪ X) = bool_decide (ch' ∈ X).
Proof. intros Hn. apply bool_decide_ext. rewrite elem_of_union, elem_of_singleton. naive_solver. Qed.

(** The result of a step: some caller and loop that weigh less. *)
Definition next_inv (k : Kind) (n : nat) (s : t) : Prop :=
  exists c ops l st d, inv k c ops l st d s /\ weight c ops l < n.

Lemma worker_inv_start k c ops l st d s i :
  inv k c (CallStart :: ops) l st d s -> callers s !! i = Some (Ready, CallStart :: ops) ->
  running s = false -> next_inv k (weight c (CallStart :: ops) l) (set_caller i (Spawning, ops) (begin_run s)).
Proof.
  intros Hi Hc Hr. destruct (caller_alone _ _ _ _ _ _ _ _ _ Hi Hc) as [-> [= <-]].
  destruct Hi as [H1 H2 H3 H4 H5 H6]. rewrite Hr in H5.
  destruct H5 as [[_ ->]|[? _]]; [|done].
  exists Spawning, ops, None, (next s), (S (next s)). split; [|unfold weight; cbn; lia].
  assert (next s ∉ closed s /\ S (next s) ∉ closed s) as [Hs Hd]
    by (split; intros Hx%H2; lia).
  split; cbn.
  - done.
  - intros ch Hch%H2. lia.
  - by rewrite H3, insert_singleton_eq.
  - exact H4.
  - by rewrite !bool_decide_false.
  - intros _. split_and!; [done|done|lia|lia|lia].
Qed.

(** *** One lemma for each step *)
Lemma inv_spawn k c ops l st d s i ops' :
  inv k c ops l st d s -> callers s !! i = Some (Spawning, ops') ->
  next_inv k (weight c ops l) (set_caller i (Ready, ops') (set_loops (<[fresh (dom (loops s)) := Launched]> (loops s)) s)).
Proof.
  intros Hi Hc. pose proof Hi as [H1 H2 H3 H4 H5 H6].
  destruct (caller_alone _ _ _ _ _ _ _ _ _ Hi Hc) as [-> [= <- <-]].
  destruct H5 as (Hr & -> & Hns & Hnd).
  exists Ready, ops', (Some Launched), st, d. split; [|unfold weight; cbn; lia].
  split; cbn.
  - done.
  - done.
  - by rewrite H3, insert_singleton_eq.
  - destruct H4 as [j ->]. by eexists.
  - right. auto.
  - intros _. apply H6. auto.
Qed.

Lemma inv_capture k c ops l st d s i ops' st' d' :
  inv k c ops l st d s -> callers s !! i = Some (Ready, CallStop :: ops') -> running s = true ->
  stopCh s = Some st' -> doneCh s = Some d' ->
  next_inv k (weight c ops l) (set_caller i (ClosingStop st' d', ops') s).
Proof.
  intros Hi Hc Hr Hs' Hd'. pose proof Hi as [H1 H2 H3 H4 H5 H6].
  destruct (caller_alone _ _ _ _ _ _ _ _ _ Hi Hc) as [-> [= <- <-]].
  destruct H6 as (Hfs & Hfd & _); [by left|].
  exists (ClosingStop st' d'), ops', l, st, d. split; [|unfold weight; cbn; lia].
  destruct H5 as [[H5 _]|(_ & Hlp & Ho)]; [congruence|].
  pose proof (inv_call k Ready _ l st d s (ClosingStop st' d') ops' (running s) Hi) as Hn.
  rewrite same_running in Hn. apply Hn; [|by left].
  split_and!; [congruence|congruence|done|done|apply Ho..].
Qed.

Lemma inv_stop_close k c ops l st d s i ops' st' d' :
  inv k c ops l st d s -> callers s !! i = Some (ClosingStop st' d', ops') ->
  next_inv k (weight c ops l) (close st' (set_caller i (AwaitingDone d', ops') s)).
Proof.
  intros Hi Hc. pose proof Hi as [H1 H2 H3 H4 H5 H6].
  destruct (caller_alone _ _ _ _ _ _ _ _ _ Hi Hc) as [-> [= <- <-]].
  destruct H5 as (-> & -> & Hr & Hlp & Ho & Hod). destruct H6 as (Hfs & Hfd & Hne & Hls & Hld); [by left|].
  exists (AwaitingDone d), ops', l, st, d. split; [|unfold weight; cbn; lia].
  apply bool_decide_eq_false in Ho. rewrite close_open by done.
  split; cbn.
  - done.
  - intros ch [->%elem_of_singleton|Hch]%elem_of_union; auto.
  - by rewrite H3, insert_singleton_eq.
  - done.
  - split_and!; [done|by apply bool_decide_eq_true; set_solver|]. left. rewrite bool_close by done. tauto.
  - done.
Qed.

Lemma inv_joined k c ops l st d s i ops' d' :
  inv k c ops l st d s -> callers s !! i = Some (AwaitingDone d', ops') -> d' ∈ closed s ->
  next_inv k (weight c ops l) (set_caller i (match k with LoopClears => Ready | StopClears => ClearingRunning end, ops') s).
Proof.
  intros Hi Hc Hd'. pose proof Hi as [H1 H2 H3 H4 H5 H6].
  destruct (caller_alone _ _ _ _ _ _ _ _ _ Hi Hc) as [-> [= <- <-]].
  destruct H5 as (-> & Hst' & Hq). rewrite bool_decide_true in Hq by done.
  assert (running s = bool_decide (k = StopClears) /\ l = None) as [Hr ->] by naive_solver.
  exists (match k with LoopClears => Ready | StopClears => ClearingRunning end), ops', None, st, d.
  split; [|unfold weight; destruct k; cbn; lia].
  pose proof (inv_call k _ _ None st d s (match k with LoopClears => Ready | StopClears => ClearingRunning end)
    ops' (running s) Hi) as Hn.
  rewrite same_running in Hn. apply Hn; [|right; by right]. destruct k; [by left|done].
Qed.

Lemma inv_leave_stopped k c ops l st d s j d' st' :
  inv k c ops l st d s -> loops s !! j = Some (Looping d') -> stopCh s = Some st' -> st' ∈ closed s ->
  next_inv k (weight c ops l) (set_loops (<[j := Leaving d']> (loops s)) s).
Proof.
  intros Hi Hl Hs' Hcl. pose proof Hi as [H1 H2 H3 H4 H5 H6].
  destruct (loop_alone _ _ _ _ _ _ _ _ _ Hi Hl) as [-> Hls].
  destruct H6 as (Hfs & Hfd & _); [right; by left|]. rewrite Hfs in Hs'. injection Hs' as <-.
  exists c, ops, (Some (Leaving d')), st, d. split; [|unfold weight; cbn; lia].
  pose proof (inv_run k c ops _ st d s j (Leaving d') (running s) Hi Hls) as Hn.
  rewrite same_running in Hn. apply Hn; [|done].
  rewrite (bool_decide_true (st ∈ closed s)) in * by done.
  destruct c; cbn in *; clear - H5; [cases..|cases]. split_and!; [done..|]. left. auto.
Qed.

Lemma inv_announce k c ops l st d s j d' :
  inv k c ops l st d s -> loops s !! j = Some (Leaving d') ->
  next_inv k (weight c ops l) (set_loops (<[j := Announcing d']> (loops s))
    (match k with LoopClears => set_running false s | StopClears => s end)).
Proof.
  intros Hi Hl. pose proof Hi as [H1 H2 H3 H4 H5 H6].
  destruct (loop_alone _ _ _ _ _ _ _ _ _ Hi Hl) as [-> Hls].
  exists c, ops, (Some (Announcing d')), st, d. split; [|unfold weight; cbn; lia].
  destruct c; cbn in H5; [by cases..| |by cases].
  destruct H5 as (-> & Hst & Hq).
  assert (running s = true /\ d' = d /\ bool_decide (d ∈ closed s) = false) as (Hr & -> & Hop) by naive_solver.
  destruct k.
  - apply (inv_run LoopClears _ _ _ _ _ s j (Announcing d) false Hi Hls); [|done]. cbn. naive_solver.
  - pose proof (inv_run StopClears _ ops _ st d s j (Announcing d) (running s) Hi Hls) as Hn.
    rewrite same_running in Hn. apply Hn; [|done]. cbn. naive_solver.
Qed.

Lemma inv_finish k c ops l st d s j d' ch :
  inv k c ops l st d s -> loops s !! j = Some (Announcing d') -> done_of k d' s = Some ch ->
  next_inv k (weight c ops l) (close ch (set_loops (delete j (loops s)) s)).
Proof.
  intros Hi Hl Hd'. pose proof Hi as [H1 H2 H3 H4 H5 H6].
  destruct (loop_alone _ _ _ _ _ _ _ _ _ Hi Hl) as [-> Hls].
  destruct H6 as (Hfs & Hfd & Hne & Hlts & Hltd); [right; by left|].
  destruct c; cbn in H5; [by cases..| |by cases].
  destruct H5 as (-> & Hst & Hq).
  assert (running s = bool_decide (k = StopClears) /\ d' = d /\ bool_decide (d ∈ closed s) = false)
    as (Hr & -> & Hop) by naive_solver.
  assert (ch = d) as -> by (destruct k; cbn in Hd'; congruence).
  exists (AwaitingDone d), ops, None, st, d. split; [|unfold weight; cbn; lia].
  apply bool_decide_eq_false in Hop. rewrite close_open by done.
  split; cbn.
  - done.
  - intros ch [->%elem_of_singleton|Hch]%elem_of_union; auto.
  - done.
  - exists 0. by rewrite Hls, delete_singleton_eq.
  - split_and!; [done|by rewrite bool_close|]. right. right. split_and!; [done|done|].
    apply bool_decide_eq_true. set_solver.
  - done.
Qed.

Lemma worker_inv_step k c ops l st d s s' :
  inv k c ops l st d s -> step k false s s' -> next_inv k (weight c ops l) s'.
Proof.
  intros Hi Hst. pose proof Hi as [H1 H2 H3 H4 H5 H6].
  destruct Hst as [i ops' s _ Hc Hr|i ops' s _ Hc Hr|i ops' s _ Hc|i ops' s _ Hc Hr
    |i ops' st' d' s _ Hc Hr Hs' Hd'|i ops' st' d' s _ Hc|i ops' d' s _ Hc Hd'|i ops' s _ Hc
    |j d' s _ Hl Hd'|j d' st' s _ Hl Hs' Hcl|j d' s _ Hl Hx|j d' s _ Hl|j d' ch s _ Hl Hd'].
  - destruct (caller_alone _ _ _ _ _ _ _ _ _ Hi Hc) as [-> [= <- <-]].
    exists Ready, ops', l, st, d. split; [|unfold weight; cbn; lia].
    pose proof (inv_call k Ready _ l st d s Ready ops' (running s) Hi H5) as Hn.
    rewrite same_running in Hn. auto.
  - destruct (caller_alone _ _ _ _ _ _ _ _ _ Hi Hc) as [-> [= <- <-]]. by eapply worker_inv_start.
  - by eapply inv_spawn.
  - destruct (caller_alone _ _ _ _ _ _ _ _ _ Hi Hc) as [-> [= <- <-]].
    exists Ready, ops', l, st, d. split; [|unfold weight; cbn; lia].
    pose proof (inv_call k Ready _ l st d s Ready ops' (running s) Hi H5) as Hn.
    rewrite same_running in Hn. auto.
  - by eapply inv_capture.
  - by eapply inv_stop_close.
  - by eapply inv_joined.
  - destruct (caller_alone _ _ _ _ _ _ _ _ _ Hi Hc) as [-> [= <- <-]].
    destruct H5 as (-> & ->).
    exists Ready, ops', None, st, d. split; [|unfold weight; cbn; lia].
    apply (inv_call _ _ _ _ _ _ _ _ _ false Hi); [by left|]. intros [?|[?|?]]; done.
  - destruct (loop_alone _ _ _ _ _ _ _ _ _ Hi Hl) as [-> Hls].
    destruct H6 as (Hfs & Hfd & _); [right; by left|]. rewrite Hfd in Hd'. injection Hd' as <-.
    exists c, ops, (Some (Looping d)), st, d. split; [|unfold weight; cbn; lia].
    pose proof (inv_run k c ops _ st d s j (Looping d) (running s) Hi Hls) as Hn.
    rewrite same_running in Hn. apply Hn; [|done].
    destruct c; cbn in *; clear - H5; cases; tauto.
  - by eapply inv_leave_stopped.
  - done.
  - by eapply inv_announce.
  - by eapply inv_finish.
Qed.

(** A caller with a call to make, or in one, or a loop that has been told to stop, can go on. *)
Lemma inv_progress k c ops l st d s :
  inv k c ops l st d s -> (c = Ready /\ ops = []) \/ exists s', step k false s s'.
Proof.
  intros [H1 H2 H3 [j H4] H5 H6].
  assert (forall x, l = Some x -> loops s !! j = Some x) as Hl
    by (intros x ->; by rewrite H4, lookup_singleton_eq).
  assert (callers s !! 0 = Some (c, ops)) as Hc by (by rewrite H3, lookup_singleton_eq).
  destruct c as [| |s0 d0|d0|].
  - destruct ops as [|[] ops]; [by left|right..]; destruct (running s) eqn:Hr.
    + eexists. by eapply start_again.
    + eexists. by eapply start_first.
    + destruct H6 as (? & ? & _); [by left|]. eexists. by eapply stop_capture.
    + eexists. by eapply stop_idle.
  - right. eexists. by eapply spawn.
  - right. eexists. by eapply stop_close.
  - right. destruct H6 as (Hs & Hd & _); [by right; right|].
    destruct H5 as (-> & Hst%bool_decide_eq_true & Hq).
    destruct Hq as [(_ & [->|[->| ->]] & _)|[(_ & -> & _)|(_ & _ & Hdn%bool_decide_eq_true)]].
    + eexists. eapply enter; [done|by apply Hl|done].
    + eexists. eapply leave_stopped; [done|by apply Hl|done|done].
    + eexists. eapply announce; [done|by apply Hl].
    + eexists. eapply finish; [done|by apply Hl|]. by destruct k.
    + eexists. by eapply stop_joined.
  - right. eexists. by eapply stop_clear.
Qed.

Lemma inv_init k ops : inv k Ready ops None 0 0 (init [ops]).
Proof.
  split; cbn; [done|set_solver|done|by exists 0|by left|]. intros [?|[?|?]]; done.
Qed.

Lemma inv_runs k n s0 s c ops l st d :
  inv k c ops l st d s0 -> nsteps (step k false) n s0 s ->
  exists c' ops' l' st' d', inv k c' ops' l' st' d' s /\ n + weight c' ops' l' <= weight c ops l.
Proof.
  intros Hi Hn. revert c ops l st d Hi. induction Hn as [s|n s s1 s2 Hs Hn IH]; intros c ops l st d Hi.
  - exists c, ops, l, st, d. split; [done|lia].
  - destruct (worker_inv_step _ _ _ _ _ _ _ _ Hi Hs) as (c1 & o1 & l1 & st1 & d1 & Hi1 & Hw).
    destruct (IH _ _ _ _ _ Hi1) as (c2 & o2 & l2 & st2 & d2 & Hi2 & Hw2).
    exists c2, o2, l2, st2, d2. split; [done|lia].
Qed.
End WorkerProofs.

(** C36.  One goroutine that makes any calls of [Start] and [Stop], one after the other, with
    contexts that do not end, as [main] does: no channel is closed twice; the run is at most
    six steps per call; it stops only when all calls have returned; and between two calls
    there is a loop exactly when the service says that it is running, and never two.  A
    context that ends is excluded: see [restart_after_cancel_crashes]. *)
Theorem sequential_calls_return k ops n s :
  nsteps (Worker.step k false) n (Worker.init [ops]) s ->
  Worker.crashed s = false /\ n <= 6 * length ops /\
  ((forall s', ~ Worker.step k false s s') -> Worker.callers s !! 0 = Some (Ready, [])) /\
  (forall rest, Worker.callers s !! 0 = Some (Ready, rest) ->
     size (Worker.loops s) = if Worker.running s then 1 else 0).
Proof.
  intros Hn.
  destruct (WorkerProofs.inv_runs _ _ _ _ _ _ _ _ _ (WorkerProofs.inv_init k ops) Hn)
    as (c & o & l & st & d & Hi & Hw).
  pose proof (WorkerProofs.inv_caller _ _ _ _ _ _ _ Hi) as Hc.
  assert (Worker.callers s !! 0 = Some (c, o)) as Hc0 by (by rewrite Hc, lookup_singleton_eq).
  split_and!.
  - apply Hi.
  - unfold WorkerProofs.weight in Hw. cbn in Hw. lia.
  - intros Hstuck. rewrite Hc0.
    destruct (WorkerProofs.inv_progress _ _ _ _ _ _ _ Hi) as [[-> ->]|[s' Hs']]; [done|].
    by destruct (Hstuck s').
  - intros rest Hr. rewrite Hc0 in Hr. injection Hr as -> ->.
    destruct (WorkerProofs.inv_loop _ _ _ _ _ _ _ Hi) as [i ->].
    destruct (WorkerProofs.inv_together _ _ _ _ _ _ _ Hi) as [[-> ->]|(-> & [->| ->] & _)];
      [apply map_size_empty|apply map_size_singleton..].
Qed.

(** ** What other callers can do *)
(** Two goroutines that stop a running service together crash the process: both capture
    the channel while [running] is still set, and both close it. *)
Theorem two_stops_crash k :
  exists s, rtc (Worker.step k false) (Worker.init [[CallStart; CallStop]; [CallStop]]) s /\
    Worker.crashed s = true.
Proof.
  eexists. split.
  - eapply rtc_l; [by apply (Worker.start_first _ _ 0)|].
    eapply rtc_l; [by eapply (Worker.spawn _ _ 0)|].
    eapply rtc_l; [by eapply (Worker.stop_capture _ _ 0)|].
    eapply rtc_l; [by eapply (Worker.stop_capture _ _ 1)|].
    eapply rtc_l; [by eapply (Worker.stop_close _ _ 0)|].
    eapply rtc_l; [by eapply (Worker.stop_close _ _ 1)|apply rtc_refl].
  - by vm_compute.
Qed.

(** Restarting a manager or a reconciler whose context has ended can crash the process: the
    old loop has cleared [running] and closes the channel of the new one, whose own close
    is then the second. *)
Theorem restart_after_cancel_crashes :
  exists s, rtc (Worker.step LoopClears true) (Worker.init [[CallStart; CallStart; CallStop]]) s /\
    Worker.crashed s = true.
Proof.
  eexists. split.
  - eapply rtc_l; [by apply (Worker.start_first _ _ 0)|].
    eapply rtc_l; [by eapply (Worker.spawn _ _ 0)|].
    eapply rtc_l; [by eapply (Worker.enter _ _ 0)|].
    eapply rtc_l; [by eapply (Worker.leave_cancelled _ _ 0)|].
    eapply rtc_l; [by eapply (Worker.announce _ _ 0)|].
    eapply rtc_l; [by eapply (Worker.start_first _ _ 0)|].
    eapply rtc_l; [by eapply (Worker.spawn _ _ 0)|].
    eapply rtc_l; [by eapply (Worker.enter _ _ 1)|].
    eapply rtc_l; [by eapply (Worker.finish _ _ 0)|].
    eapply rtc_l; [by eapply (Worker.stop_capture _ _ 0)|].
    eapply rtc_l; [by eapply (Worker.stop_close _ _ 0)|].
    eapply rtc_l; [eapply (Worker.leave_stopped _ _ 1); [done..|by_dec]|].
    eapply rtc_l; [by eapply (Worker.announce _ _ 1)|].
    eapply rtc_l; [by eapply (Worker.finish _ _ 1)|apply rtc_refl].
  - by vm_compute.
Qed.

(** A cost tracker whose context has ended says that it is running, and another [Start]
    does nothing. *)
Theorem cancelled_tracker_stays :
  exists s, rtc (Worker.step StopClears true) (Worker.init [[CallStart; CallStart]]) s /\
    Worker.callers s !! 0 = Some (Ready, []) /\ Worker.running s = true /\ Worker.loops s = ∅.
Proof.
  eexists. split.
  - eapply rtc_l; [by apply (Worker.start_first _ _ 0)|].
    eapply rtc_l; [by eapply (Worker.spawn _ _ 0)|].
    eapply rtc_l; [by eapply (Worker.enter _ _ 0)|].
    eapply rtc_l; [by eapply (Worker.leave_cancelled _ _ 0)|].
    eapply rtc_l; [by eapply (Worker.announce _ _ 0)|].
    eapply rtc_l; [by eapply (Worker.finish _ _ 0)|].
    eapply rtc_l; [by eapply (Worker.start_again _ _ 0)|apply rtc_refl].
  - by vm_compute.
Qed.

Lemma sequential_calls_return_witness :
  exists s, nsteps (Worker.step LoopClears false) 2 (Worker.init [[CallStart]]) s /\
    Worker.running s = true /\ size (Worker.loops s) = 1.
Proof.
  assert (exists s, nsteps (Worker.step LoopClears false) 2 (Worker.init [[CallStart]]) s /\
    Worker.callers s !! 0 = Some (Ready, []) /\ Worker.running s = true) as (s & Hn & Hc & Hr).
  { eexists. split.
    - eapply nsteps_l; [by apply (Worker.start_first _ _ 0)|].
      eapply nsteps_l; [by eapply (Worker.spawn _ _ 0)|apply nsteps_O].
    - by vm_compute. }
  exists s. split; [exact Hn|]. split; [exact Hr|].
  destruct (sequential_calls_return LoopClears [CallStart] 2 s Hn) as (_ & _ & _ & Hs).
  specialize (Hs [] Hc). rewrite Hr in Hs. exact Hs.
Defined.
