(* ===== verification/CostTable.v ===== *)
(** [internal/storage/costs.go] on table [costs]: the upsert of [Record], the totals
    and the summary.  The engine's sum of a column of reals and the texts of its errors
    are parameters. *)
From S2P Require Import Prelude GoFloat GoLib Models Errors Interfaces Database SessionTable.

Class CostEngine := {
  text_cost_id : string;
  text_foreign_key : string;
  (** [SUM] over the rows of a group, in the engine's order and arithmetic *)
  sum_amounts : list f64 -> f64
}.

Definition cost_key (r : CostRecord.t) : string * time := (CostRecord.SessionID r, CostRecord.Hour r).

(** [ON CONFLICT(session_id, hour) DO UPDATE SET ...]: the old row keeps its [id]. *)
Definition excluded_into (new old : CostRecord.t) : CostRecord.t :=
  CostRecord.mk (CostRecord.ID old) (CostRecord.SessionID old) (CostRecord.ConsumerID new)
    (CostRecord.Provider new) (CostRecord.GPUType new) (CostRecord.Hour old)
    (CostRecord.Amount new) (CostRecord.Currency new).

Definition has_key (k : string * time) (r : CostRecord.t) : bool := bool_decide (cost_key r = k).

Definition set_ID (id : string) (r : CostRecord.t) : CostRecord.t :=
  CostRecord.mk id (CostRecord.SessionID r) (CostRecord.ConsumerID r) (CostRecord.Provider r)
    (CostRecord.GPUType r) (CostRecord.Hour r) (CostRecord.Amount r) (CostRecord.Currency r).

(** The conditions of [buildCostFilterClause] and of [buildBreakdownFilterClause],
    which leaves out the session and the provider. *)
Definition buildCostFilterClause (q : CostQuery.t) (r : CostRecord.t) : bool :=
  (bool_decide (CostQuery.ConsumerID q = "") || bool_decide (CostRecord.ConsumerID r = CostQuery.ConsumerID q)) &&
  (bool_decide (CostQuery.SessionID q = "") || bool_decide (CostRecord.SessionID r = CostQuery.SessionID q)) &&
  (bool_decide (CostQuery.Provider q = "") || bool_decide (CostRecord.Provider r = CostQuery.Provider q)) &&
  (IsZero (CostQuery.StartTime q) || (CostQuery.StartTime q <=? CostRecord.Hour r)%Z) &&
  (IsZero (CostQuery.EndTime q) || (CostRecord.Hour r <? CostQuery.EndTime q)%Z).

Definition buildBreakdownFilterClause (q : CostQuery.t) (r : CostRecord.t) : bool :=
  (bool_decide (CostQuery.ConsumerID q = "") || bool_decide (CostRecord.ConsumerID r = CostQuery.ConsumerID q)) &&
  (IsZero (CostQuery.StartTime q) || (CostQuery.StartTime q <=? CostRecord.Hour r)%Z) &&
  (IsZero (CostQuery.EndTime q) || (CostRecord.Hour r <? CostQuery.EndTime q)%Z).

Section CostTable.
Context {W : Type} `{HasDB W} `{Env W} `{CostEngine}.

Definition record_stmt (r : CostRecord.t) (d : DB.t) : result unit * DB.t :=
  let rows := DB.costs d in
  if existsb (has_key (cost_key r)) rows then
    (Ok tt, DB.set_costs ((fun old => if has_key (cost_key r) old then excluded_into r old else old) <$> rows) d)
  else if existsb (fun old => bool_decide (CostRecord.ID old = CostRecord.ID r)) rows
  then (Err (EOpaque text_cost_id), d)
  else match DB.sessions d !! CostRecord.SessionID r with
       | None => (Err (EOpaque text_foreign_key), d)
       | Some _ => (Ok tt, DB.set_costs (rows ++ [r]) d)
       end.

(** [CostStore.Record]. *)
Definition table_Record (r : CostRecord.t) : M W (option error) :=
  let! id := if bool_decide (CostRecord.ID r = "") then new_uuid else ret (CostRecord.ID r) in
  let! e := sql (record_stmt (set_ID id r)) in
  ret match e with
      | Ok _ => None
      | Err e => Some (EWrap "failed to record cost" e)
      end.

(** [COALESCE(SUM(amount), 0)]. *)
Definition coalesce_sum (rows : list CostRecord.t) : f64 :=
  match rows with [] => f0 | _ => sum_amounts (CostRecord.Amount <$> rows) end.

Definition query_sum (msg : string) (p : CostRecord.t -> bool) : M W (result f64) :=
  let! r := sql (fun d => (Ok (coalesce_sum (List.filter p (DB.costs d))), d)) in
  ret match r with Ok x => Ok x | Err e => Err (EWrap msg e) end.

Definition table_GetSessionCost (sessionID : string) : M W (result f64) :=
  query_sum "failed to get session cost" (fun r => bool_decide (CostRecord.SessionID r = sessionID)).

Definition table_GetConsumerCost (consumerID : string) (start end_ : time) : M W (result f64) :=
  query_sum "failed to get consumer cost"
    (fun r => bool_decide (CostRecord.ConsumerID r = consumerID) &&
              (start <=? CostRecord.Hour r)%Z && (CostRecord.Hour r <? end_)%Z).

Definition table_RecordHourlyForSession (s : Session.t) : M W (option error) :=
  let! id := new_uuid in
  let! t := time_Now in
  table_Record (CostRecord.mk id (Session.ID s) (Session.ConsumerID s) (Session.Provider s)
                  (Session.GPUType s) (Truncate t Hour) (Session.PricePerHour s) "USD").

(** [aggregateCostsByColumn]. *)
Definition aggregateCostsByColumn (column : CostRecord.t -> string) (q : CostQuery.t)
    : M W (result (gmap string f64)) :=
  let! r := sql (fun d =>
    let rows := List.filter (buildBreakdownFilterClause q) (DB.costs d) in
    (Ok (list_to_map ((fun k => (k, coalesce_sum
           (List.filter (fun r => bool_decide (column r = k)) rows))) <$> (column <$> rows))
         : gmap string f64), d)) in
  ret r.

(** [GetSummary]: three statements. *)
Definition table_GetSummary (q : CostQuery.t) : M W (result CostSummary.t) :=
  let! r := sql (fun d =>
    let rows := List.filter (buildCostFilterClause q) (DB.costs d) in
    (Ok (coalesce_sum rows,
         Z.of_nat (length (remove_dups (CostRecord.SessionID <$> rows))),
         Z.of_nat (length rows)), d)) in
  match r with
  | Err e => ret (Err (EWrap "failed to get cost summary" e))
  | Ok (total, sessions, hours) =>
      let! p := aggregateCostsByColumn CostRecord.Provider q in
      match p with
      | Err e => ret (Err (EWrap "failed to get provider breakdown" e))
      | Ok byProvider =>
          let! g := aggregateCostsByColumn CostRecord.GPUType q in
          match g with
          | Err e => ret (Err (EWrap "failed to get GPU breakdown" e))
          | Ok byGPU =>
              ret (Ok (CostSummary.mk (CostQuery.ConsumerID q) total sessions hours byProvider
                         byGPU (CostQuery.StartTime q) (CostQuery.EndTime q)))
          end
      end
  end.

#[export] Instance table_cost_store : CostStore W := {
  Record_cost := table_Record;
  RecordHourlyForSession := table_RecordHourlyForSession;
  GetSessionCost := table_GetSessionCost;
  GetConsumerCost := table_GetConsumerCost;
  GetSummary := table_GetSummary
}.
End CostTable.

(** ** The rows as a map from session and hour *)
Definition rows_bill (rows : list CostRecord.t) : gmap (string * time) cost_entry :=
  list_to_map ((fun r => (cost_key r, entry_of r)) <$> rows).

Lemma has_key_spec k r : has_key k r = true <-> cost_key r = k.
Proof. apply bool_decide_eq_true. Qed.

Lemma rows_bill_app rows r :
  existsb (has_key (cost_key r)) rows = false ->
  rows_bill (rows ++ [r]) = <[cost_key r := entry_of r]> (rows_bill rows).
Proof.
  intros Hn. unfold rows_bill. rewrite fmap_app. apply list_to_map_snoc. intros Hin.
  rewrite <-list_fmap_compose in Hin. apply list_elem_of_fmap in Hin as (x & Hx & Hin).
  apply not_true_iff_false in Hn. apply Hn, existsb_exists. exists x.
  rewrite <-list_elem_of_In. split; [done|]. by apply has_key_spec.
Qed.

Lemma rows_bill_update r rows :
  existsb (has_key (cost_key r)) rows = true ->
  rows_bill ((fun old => if has_key (cost_key r) old then excluded_into r old else old) <$> rows) =
  <[cost_key r := entry_of r]> (rows_bill rows).
Proof.
  unfold rows_bill. induction rows as [|x rows IH]; [done|]. cbn.
  destruct (has_key (cost_key r) x) eqn:Hx; cbn.
  - intros _. apply has_key_spec in Hx.
    change (cost_key (excluded_into r x)) with (cost_key x). rewrite Hx.
    change (entry_of (excluded_into r x)) with (entry_of r).
    rewrite insert_insert_eq. destruct (existsb (has_key (cost_key r)) rows) eqn:He.
    + cbn in IH. rewrite IH by done. by rewrite insert_insert_eq.
    + f_equal. f_equal. rewrite <-list_fmap_compose. apply list_fmap_ext.
      intros i y Hy. cbn. destruct (has_key (cost_key r) y) eqn:Hk; [|done].
      apply not_true_iff_false in He. destruct He. apply existsb_exists. exists y.
      rewrite <-list_elem_of_In. split; [by eapply list_elem_of_lookup_2|done].
  - intros He. cbn in IH. rewrite IH by done. apply insert_insert_ne.
    intros Heq. apply not_true_iff_false in Hx. by apply Hx, has_key_spec.
Qed.


(** ** The laws of the cost store *)
Section Laws.
Context {W : Type} `{HDB : HasDB W} `{!HasDBLaws W} `{Driver} `{CostEngine} `{Env W} `{!EnvLaws W}.

#[export] Instance table_bill : Bill W := fun w => rows_bill (DB.costs (get_db w)).

(** The environment does not write the database. *)
Class EnvDB : Prop := {
  uuid_db : forall w, wp new_uuid (fun _ w' => get_db w' = get_db w) w;
  now_db : forall w, wp now (fun _ w' => get_db w' = get_db w) w;
  time_Now_db : forall w, wp time_Now (fun _ w' => get_db w' = get_db w) w;
  emit_db : forall e w, wp (emit e) (fun _ w' => get_db w' = get_db w) w
}.
Context `{!EnvDB}.

Lemma set_db_costs_quiet d w :
  DB.sessions d = DB.sessions (get_db w) -> DB.faults d = tail (DB.faults (get_db w)) ->
  quiet w (set_db d w).
Proof. intros Hs Hf. split; [by apply view_set_db_same|by apply later_set]. Qed.

Lemma table_Record_spec r w :
  wp (table_Record r) (fun e w' => quiet w w' /\
    bill w' = match e with
              | None => <[(CostRecord.SessionID r, CostRecord.Hour r) := entry_of r]> (bill w)
              | Some _ => bill w
              end) w.
Proof.
  unfold table_Record. apply wp_bind.
  assert (wp (if bool_decide (CostRecord.ID r = "") then new_uuid else ret (CostRecord.ID r))
            (fun _ w' => quiet w w' /\ get_db w' = get_db w) w) as Hid.
  { case_match; [|by apply wp_ret]. apply wp_and; [apply uuid_frame|apply uuid_db]. }
  eapply wp_mono; [exact Hid|]. intros id w1 [Hq Hdb].
  unfold bill, table_bill. rewrite <-Hdb.
  apply wp_bind, wp_sql; intros; apply wp_ret.
  { split; [etrans; [exact Hq|by apply set_db_costs_quiet]|]. by rewrite get_set_db. }
  unfold record_stmt. change (cost_key (set_ID id r)) with (cost_key r).
  change (CostRecord.SessionID (set_ID id r)) with (CostRecord.SessionID r). cbn [DB.costs DB.pop_fault].
  destruct (existsb (has_key (cost_key r)) _) eqn:Hk; cbn [fst snd].
  { split; [etrans; [exact Hq|by apply set_db_costs_quiet]|]. cbn. rewrite get_set_db.
    by apply (rows_bill_update (set_ID id r)). }
  destruct (existsb (fun old => bool_decide (CostRecord.ID old = CostRecord.ID (set_ID id r))) _);
    cbn [fst snd].
  { split; [etrans; [exact Hq|by apply set_db_costs_quiet]|]. cbn. by rewrite get_set_db. }
  destruct (DB.sessions _ !! _); cbn [fst snd].
  - split; [etrans; [exact Hq|by apply set_db_costs_quiet]|]. cbn. rewrite get_set_db.
    by apply (rows_bill_app _ (set_ID id r)).
  - split; [etrans; [exact Hq|by apply set_db_costs_quiet]|]. cbn. by rewrite get_set_db.
Qed.

Lemma table_RecordHourly_spec s w :
  wp (table_RecordHourlyForSession s) (fun e w' => quiet w w' /\
    exists t, (clock w <= t <= clock w')%Z /\
    bill w' = match e with
              | None => <[(Session.ID s, Truncate t Hour) := hourly s]> (bill w)
              | Some _ => bill w
              end) w.
Proof.
  unfold table_RecordHourlyForSession. apply wp_bind.
  eapply wp_mono; [apply (wp_and _ _ _ _ (uuid_frame w) (uuid_db w))|]. intros id w1 [Hq1 Hd1].
  apply wp_bind. eapply wp_mono; [apply (wp_and _ _ _ _ (time_Now_spec w1) (time_Now_db w1))|].
  intros t w2 [[Hq2 Ht] Hd2].
  eapply wp_mono; [apply table_Record_spec|]. intros e w3 [Hq3 Hb].
  assert (bill w2 = bill w) as Hbw by (unfold bill, table_bill; congruence).
  rewrite Hbw in Hb. split; [etrans; [done|]; by etrans|]. exists t. split; [|exact Hb].
  destruct Hq1 as [_ [? _]], Hq2 as [_ [? _]], Hq3 as [_ [? _]]. lia.
Qed.

Lemma table_list_bill f w : wp (ListInternal f) (fun _ w' => bill w' = bill w) w.
Proof.
  apply wp_bind, wp_sql; intros; apply wp_ret; unfold bill, table_bill; by rewrite get_set_db.
Qed.

Lemma bill_of_db {A} (c : M W A) w :
  wp c (fun _ w' => get_db w' = get_db w) w -> wp c (fun _ w' => bill w' = bill w) w.
Proof. intros Hc. eapply wp_mono; [exact Hc|]. unfold bill, table_bill. by intros _ w' ->. Qed.

(** A statement that only reads keeps the sessions. *)
Lemma read_frame {A} (q : DB.t -> result A) : frame (sql (fun d => (q d, d))).
Proof. intros w. apply wp_sql; intros; by apply set_db_costs_quiet. Qed.

Lemma query_sum_frame msg p : frame (query_sum msg p).
Proof. apply frame_bind; [apply read_frame|]. intros []; apply frame_ret. Qed.

Lemma breakdown_frame c q : frame (aggregateCostsByColumn c q).
Proof. apply frame_bind; [apply read_frame|]. intros; apply frame_ret. Qed.

Lemma table_GetSummary_frame q : frame (table_GetSummary q).
Proof.
  apply frame_bind; [apply read_frame|]. intros [[[total sessions] hours]|e]; [|apply frame_ret].
  apply frame_bind; [apply breakdown_frame|]. intros [p|e]; [|apply frame_ret].
  apply frame_bind; [apply breakdown_frame|]. intros [g|e]; apply frame_ret.
Qed.

#[export] Instance table_cost_laws : CostStoreLaws W := {
  Record_spec := table_Record_spec;
  RecordHourly_spec := table_RecordHourly_spec;
  list_bill := table_list_bill;
  now_bill := fun w => bill_of_db _ _ (now_db w);
  emit_bill := fun e w => bill_of_db _ _ (emit_db e w);
  session_cost_frame := fun id => query_sum_frame _ _;
  summary_frame := table_GetSummary_frame
}.
End Laws.

Section Upsert.
Context {W : Type} `{HDB : HasDB W} `{!HasDBLaws W} `{Driver} `{CostEngine} `{Env W} `{!EnvLaws W}.
Context `{!EnvDB (W := W)}.

Lemma update_keys r (rows : list CostRecord.t) :
  cost_key <$> ((fun old => if has_key (cost_key r) old then excluded_into r old else old) <$> rows) =
  cost_key <$> rows.
Proof.
  rewrite <-list_fmap_compose. apply list_fmap_ext. intros i x _. cbn. by case_match.
Qed.

(** [Record] bills each hour of a session once: it keeps at most one row per session
    and hour, a success sets the row of the record's session and hour (a repeated
    record replaces the amount, it never adds to it), an error changes nothing, and no
    other hour and no session is touched. *)
Theorem Record_upserts r w :
  NoDup (cost_key <$> DB.costs (get_db w)) ->
  wp (Record_cost r) (fun e w' =>
    NoDup (cost_key <$> DB.costs (get_db w')) /\ quiet w w' /\
    bill w' = match e with
              | None => <[(CostRecord.SessionID r, CostRecord.Hour r) := entry_of r]> (bill w)
              | Some _ => bill w
              end) w.
Proof.
  intros Hnd. apply wp_and; [|apply table_Record_spec].
  apply wp_bind. eapply (wp_mono _ (fun _ w' => get_db w' = get_db w)).
  { case_match; [apply uuid_db|by apply wp_ret]. }
  intros id w1 Hdb. rewrite <-Hdb in Hnd.
  apply wp_bind, wp_sql; intros; apply wp_ret; rewrite get_set_db; [done|].
  unfold record_stmt. cbn [DB.costs DB.pop_fault].
  destruct (existsb (has_key _) _) eqn:Hk; [by cbn; rewrite (update_keys (set_ID id r))|].
  destruct (existsb (fun old => bool_decide (CostRecord.ID old = CostRecord.ID (set_ID id r))) _);
    [done|].
  destruct (DB.sessions _ !! _); [|done]. cbn. rewrite fmap_app, NoDup_app. split_and!; [done| |].
  - intros k Hin ->%list_elem_of_singleton.
    apply list_elem_of_fmap in Hin as (x & Hx & Hin).
    apply not_true_iff_false in Hk. apply Hk, existsb_exists. exists x.
    rewrite <-list_elem_of_In. split; [done|]. by apply has_key_spec.
  - apply NoDup_singleton.
Qed.
End Upsert.
