(* ===== verification/CostTracker.v ===== *)
(** [internal/service/cost/tracker.go]: the hourly aggregation, the final cost of a
    session, and the budget alerts, against the cost store's interface. *)
From S2P Require Import Prelude GoFloat GoLib Models Errors Interfaces Provisioner.

(** [models.BudgetAlert]. *)
Module BudgetAlert.
Record t := mk {
  ConsumerID : string;
  ConsumerName : string;
  BudgetLimit : f64;
  CurrentSpend : f64;
  Percentage : f64;
  AlertType : string;
  Timestamp : time
}.
End BudgetAlert.

(** [cost.ConsumerStore] and [cost.AlertSender]; none is configured in the server. *)
Module Consumers.
Record t (W : Type) := mk {
  GetAll : M W (result (list Consumer.t));
  Update : Consumer.t -> M W (option error);
  SendBudgetAlert : BudgetAlert.t -> M W (option error)
}.
Arguments GetAll {W}.
Arguments Update {W}.
Arguments SendBudgetAlert {W}.
End Consumers.

Module Tracker.
Record t := mk { budgetWarningThreshold : f64; budgetExceededThreshold : f64 }.
Definition default : t := mk (f64_lit 8 10) (f64_of_Z 1).
End Tracker.

Section Tracker.
Context {W : Type} `{SessionStore W} `{Env W} `{CostStore W}.
Context (cfg : Tracker.t) (consumers : option (Consumers.t W)).

Definition record_session_body (s : Session.t) : M W unit :=
  if negb (bool_decide (Session.Status s = StatusRunning)) then skip
  else
    let! e := RecordHourlyForSession s in
    match e with
    | Some _ => emit (Count CostErrors)
    | None =>
        do! emit (Prom "RecordCost" [Session.Provider s]) in
        emit (Count CostsRecorded)
    end.

Definition recordCostsForRunningSessions : M W unit :=
  let! r := GetActiveSessions in
  match r with
  | Err _ => emit (Count CostErrors)
  | Ok sessions => for_each sessions record_session_body
  end.

(** The loop of [RecordFinalCost] from [currentHour]; [fuel] bounds its iterations. *)
Fixpoint record_hours (fuel : nat) (s : Session.t) (currentHour endTime : time)
    : M W (option error) :=
  match fuel with
  | O => ret None
  | S fuel' =>
      if After currentHour endTime then ret None
      else
        let! e := Record_cost (CostRecord.mk "" (Session.ID s) (Session.ConsumerID s)
                                 (Session.Provider s) (Session.GPUType s) currentHour
                                 (Session.PricePerHour s) "USD") in
        match e with
        | Some err => ret (Some (EWrap "failed to record cost for hour" err))
        | None =>
            do! emit (Prom "RecordCost" [Session.Provider s]) in
            record_hours fuel' s (Add currentHour Hour) endTime
        end
  end.

(** Enough iterations for the loop to end; see [record_hours_fuel]. *)
Definition hours_fuel (currentHour endTime : time) : nat :=
  Z.to_nat ((endTime - currentHour) / Hour + 2).

(** [Tracker.RecordFinalCost]. *)
Definition Tracker_RecordFinalCost (s : Session.t) : M W (option error) :=
  if fleb (Session.PricePerHour s) f0 then ret None
  else
    let! endTime := if IsZero (Session.StoppedAt s) then now else ret (Session.StoppedAt s) in
    let startTime := Session.CreatedAt s in
    if IsZero startTime || negb (After endTime startTime) then ret None
    else
      let currentHour := Truncate startTime Hour in
      record_hours (hours_fuel currentHour endTime) s currentHour endTime.

Definition sendAlert (c : Consumers.t W) (consumer : Consumer.t) (alertType : string)
    (percentage : f64) : M W unit :=
  let! t := now in
  let alert := BudgetAlert.mk (Consumer.ID consumer) (Consumer.Name consumer) (Consumer.BudgetLimit consumer)
                 (Consumer.CurrentSpend consumer) (fmul percentage (f64_of_Z 100)) alertType t in
  do! emit (Prom "RecordBudgetAlert" [alertType]) in
  do! when (bool_decide (alertType = "warning")) (emit (Count BudgetWarnings)) in
  do! Consumers.SendBudgetAlert c alert in
  skip.

Definition budget_body (c : Consumers.t W) (t : time) (consumer : Consumer.t) : M W unit :=
  if fleb (Consumer.BudgetLimit consumer) f0 then skip
  else
    let! r := GetConsumerCost (Consumer.ID consumer) (startOfMonth t) (nextMonth t) in
    match r with
    | Err _ => skip
    | Ok spend =>
        let consumer := Consumer.mk (Consumer.ID consumer) (Consumer.Name consumer)
                          (Consumer.BudgetLimit consumer) spend (Consumer.AlertSent consumer) in
        let percentage := fdiv spend (Consumer.BudgetLimit consumer) in
        if fgeb percentage (Tracker.budgetExceededThreshold cfg) && negb (Consumer.AlertSent consumer)
        then
          do! sendAlert c consumer "exceeded" percentage in
          do! Consumers.Update c
                (Consumer.mk (Consumer.ID consumer) (Consumer.Name consumer)
                   (Consumer.BudgetLimit consumer) spend true) in
          emit (Count BudgetExceeded)
        else if fgeb percentage (Tracker.budgetWarningThreshold cfg) && negb (Consumer.AlertSent consumer)
        then sendAlert c consumer "warning" percentage
        else skip
    end.

(** ** Queries *)
Definition Tracker_GetSessionCost (sessionID : string) : M W (result f64) := GetSessionCost sessionID.
Definition Tracker_GetConsumerCost (consumerID : string) (start end_ : time) : M W (result f64) :=
  GetConsumerCost consumerID start end_.
Definition Tracker_GetSummary (query : CostQuery.t) : M W (result CostSummary.t) := GetSummary query.

Definition GetPeriodSummary (consumerID : string) (start end_ : time) : M W (result CostSummary.t) :=
  GetSummary (CostQuery.mk consumerID "" "" start end_).

(** The server's clock is taken to be in UTC, where a day has 24 hours. *)
Definition GetDailySummary (consumerID : string) : M W (result CostSummary.t) :=
  let! now := now in
  let startOfDay := Truncate now Day in
  GetPeriodSummary consumerID startOfDay (Add startOfDay Day).

Definition GetMonthlySummary (consumerID : string) : M W (result CostSummary.t) :=
  let! now := now in
  GetPeriodSummary consumerID (startOfMonth now) (nextMonth now).

Definition checkBudgetThresholds : M W unit :=
  match consumers with
  | None => skip
  | Some c =>
      let! r := Consumers.GetAll c in
      match r with
      | Err _ => skip
      | Ok l => let! t := now in for_each l (budget_body c t)
      end
  end.

Definition runAggregation : M W unit :=
  do! emit (Count AggregationsRun) in
  do! recordCostsForRunningSessions in
  checkBudgetThresholds.
End Tracker.

Section TrackerProofs.
Context {W : Type} `{SessionStore W} `{Env W} `{CostStore W} `{Ghost W} `{Bill W}.
Context `{!StoreLaws W} `{!EnvLaws W} `{!CostStoreLaws W}.

(** ** The final cost *)

(** The hours from [h] on that [n] iterations record. *)
Definition hours_from (h : time) (n : nat) : list time :=
  (fun k => (h + Z.of_nat k * Hour)%Z) <$> seq 0 n.

Lemma hours_from_S h n : hours_from h (S n) = h :: hours_from (h + Hour)%Z n.
Proof.
  unfold hours_from. cbn [seq fmap list_fmap]. f_equal; [lia|].
  rewrite <-seq_shift, <-list_fmap_compose. apply list_fmap_ext. intros i k _. cbn. lia.
Qed.

(** The bill with the hours [hs] of [s] set. *)
Definition billed (s : Session.t) (hs : list time) (b : gmap (string * time) cost_entry)
    : gmap (string * time) cost_entry :=
  foldl (fun b h => <[(Session.ID s, h) := hourly s]> b) b hs.

Lemma billed_lookup s hs b k :
  billed s hs b !! k =
    if bool_decide (k.1 = Session.ID s /\ k.2 ∈ hs) then Some (hourly s) else b !! k.
Proof.
  destruct k as [i t]. cbn [fst snd]. revert b. induction hs as [|h hs IH]; intros b.
  - cbn. rewrite bool_decide_false; [done|]. intros [_ Hin]. by apply elem_of_nil in Hin.
  - change (billed s (h :: hs) b) with (billed s hs (<[(Session.ID s, h) := hourly s]> b)).
    rewrite IH. destruct (decide (i = Session.ID s /\ t = h)) as [[Hi Ht]|Hne].
    + subst i t. rewrite lookup_insert_eq.
      rewrite (bool_decide_true (_ /\ h ∈ h :: hs)) by set_solver.
      by case_bool_decide.
    + rewrite lookup_insert_ne by (intros [= Hi Ht]; by apply Hne).
      erewrite bool_decide_ext; [done|]. rewrite elem_of_cons. tauto.
Qed.

Lemma wp_record_hours fuel s h endTime w :
  wp (record_hours fuel s h endTime) (fun e w' => quiet w w' /\
    exists n, n <= fuel /\ bill w' = billed s (hours_from h n) (bill w) /\
      (forall k, k < n -> (h + Z.of_nat k * Hour <= endTime)%Z) /\
      (e = None -> n < fuel -> (endTime < h + Z.of_nat n * Hour)%Z)) w.
Proof.
  revert h w. induction fuel as [|fuel IH]; intros h w; cbn [record_hours].
  { apply wp_ret. split; [done|]. exists 0. split_and!; [done|done|lia|lia]. }
  unfold After. destruct (Z.ltb_spec endTime h) as [Hlt|Hle].
  { apply wp_ret. split; [done|]. exists 0. split_and!; [lia|done|lia|]. intros _ _. lia. }
  apply wp_bind. eapply wp_mono; [apply Record_spec|]. intros [err|] w1 [Hq1 Hb1].
  { apply wp_ret. split; [done|]. exists 0. split_and!; [lia|done|lia|done]. }
  apply wp_bind.
  eapply wp_mono; [apply (wp_and _ _ _ _ (emit_frame _ w1) (emit_bill _ w1))|].
  intros _ w2 [Hq2 Hb2].
  eapply wp_mono; [apply IH|]. intros e w3 (Hq3 & n & Hn & Hb & Hbefore & Hend).
  split; [etrans; [done|]; by etrans|]. exists (S n). split_and!; [lia| | |].
  - rewrite Hb, hours_from_S, Hb2, Hb1. done.
  - intros [|k] Hk; [lia|]. specialize (Hbefore k ltac:(lia)). unfold Add in Hbefore. lia.
  - intros He Hnf. specialize (Hend He ltac:(lia)). unfold Add in Hend. lia.
Qed.

(** The cost recorder the provisioner is given leaves the sessions alone. *)
Lemma Tracker_RecordFinalCost_frame s : frame (Tracker_RecordFinalCost s).
Proof.
  unfold Tracker_RecordFinalCost. destruct (fleb _ _); [apply frame_ret|].
  apply frame_bind.
  - destruct (IsZero _); [|apply frame_ret]. intros w. eapply wp_mono; [apply now_spec|]. by intros t w' [].
  - intros t. destruct (_ || _); [apply frame_ret|]. intros w.
    eapply wp_mono; [apply wp_record_hours|]. by intros e w' [].
Qed.

(** The loop of [RecordFinalCost] ends: [hours_fuel] iterations are enough, and more
    change nothing, for every store. *)
Theorem record_hours_fuel extra s h endTime w :
  record_hours (hours_fuel h endTime + extra) s h endTime w =
  record_hours (hours_fuel h endTime) s h endTime w.
Proof.
  assert (forall fuel h w, (endTime < h + Z.of_nat fuel * Hour)%Z ->
    record_hours (fuel + extra) s h endTime w = record_hours fuel s h endTime w) as Hgen.
  { induction fuel as [|fuel IH]; intros h' w' Hlt.
    - destruct extra; [done|]. cbn [record_hours Nat.add]. unfold After.
      by rewrite (proj2 (Z.ltb_lt _ _)) by lia.
    - cbn [record_hours Nat.add]. destruct (After h' endTime); [done|].
      unfold bind. destruct (Record_cost _ w') as [[e|] w1]; [done|].
      destruct (emit _ w1) as [u w2]. apply IH. unfold Add. lia. }
  apply Hgen. unfold hours_fuel.
  pose proof (Z.div_mod (endTime - h) Hour ltac:(done)).
  pose proof (Z.mod_pos_bound (endTime - h) Hour ltac:(done)).
  unfold Hour, Minute, Second in *. lia.
Qed.

(** The hours a session is billed for when it ends at [endTime]. *)
Definition final_hour (s : Session.t) (endTime h : time) : Prop :=
  (Truncate (Session.CreatedAt s) Hour <= h <= endTime)%Z /\ (h mod Hour = 0)%Z.

(** C16.  The final cost of a stopped session with a price, created before it stopped:
    when the recording succeeds, exactly the full hours from the one it was created in
    up to and including its stop time are billed at its price, and every other row is
    as it was; on an error the rows written are hours of that range. *)
Theorem RecordFinalCost_bills_hours s w :
  fleb (Session.PricePerHour s) f0 = false ->
  (0 < Session.CreatedAt s < Session.StoppedAt s)%Z ->
  wp (Tracker_RecordFinalCost s) (fun e w' =>
    forall k, bill w' !! k <> bill w !! k \/ (e = None /\ k.1 = Session.ID s /\
                                          final_hour s (Session.StoppedAt s) k.2) ->
      k.1 = Session.ID s /\ final_hour s (Session.StoppedAt s) k.2 /\
      bill w' !! k = Some (hourly s)) w.
Proof.
  intros Hp [Hc Hs]. unfold Tracker_RecordFinalCost. rewrite Hp. unfold IsZero, After.
  rewrite (proj2 (Z.eqb_neq (Session.StoppedAt s) 0)) by lia.
  apply wp_bind, wp_ret. rewrite (proj2 (Z.eqb_neq (Session.CreatedAt s) 0)) by lia.
  rewrite (proj2 (Z.ltb_lt _ _) Hs). cbn [negb orb].
  set (h0 := Truncate (Session.CreatedAt s) Hour).
  assert (h0 <= Session.CreatedAt s)%Z as Hh0 by (apply Truncate_le; done).
  assert (h0 mod Hour = 0)%Z as Hh0m by (by apply Truncate_mult).
  eapply wp_mono; [apply wp_record_hours|]. intros e w' (_ & n & Hn & Hb & Hbefore & Hend) k Hk.
  assert (forall h, h ∈ hours_from h0 n -> final_hour s (Session.StoppedAt s) h) as Hin.
  { intros h (i & -> & Hi)%list_elem_of_fmap. apply elem_of_seq in Hi. split.
    - specialize (Hbefore i ltac:(lia)). fold h0. unfold Hour, Minute, Second in *. lia.
    - rewrite Z.add_mod, Z.mod_mul, Hh0m by done. done. }
  rewrite Hb, billed_lookup in Hk |- *. case_bool_decide as Hd; [destruct Hd; auto|].
  destruct Hk as [Hk|(He & Hid & Hf)]; [done|]. exfalso. apply Hd. split; [done|].
  destruct Hf as [Hrange Hmod]. fold h0 in Hrange.
  assert ((k.2 - h0) mod Hour = 0)%Z as Hm.
  { rewrite Zminus_mod, Hmod, Hh0m. done. }
  apply Z.mod_divide in Hm as [i Hi]; [|done].
  assert (0 <= i)%Z as Hi0 by (unfold Hour, Minute, Second in *; nia).
  assert (Z.to_nat i < n)%nat as Hin'.
  { destruct (decide (n < hours_fuel h0 (Session.StoppedAt s))) as [Hlt|Hge].
    - specialize (Hend He Hlt). unfold Hour, Minute, Second in *. nia.
    - specialize (Hbefore (pred n)). unfold hours_fuel in *.
      pose proof (Z.div_mod (Session.StoppedAt s - h0) Hour ltac:(done)).
      pose proof (Z.mod_pos_bound (Session.StoppedAt s - h0) Hour ltac:(done)).
      unfold Hour, Minute, Second in *. nia. }
  apply list_elem_of_fmap. exists (Z.to_nat i). split; [|apply elem_of_seq; lia].
  rewrite Z2Nat.id by done. lia.
Qed.

(** ** The hourly aggregation *)

(** The bill changed since [w] only for running sessions, at an hour read since. *)
Definition billed_running (w w' : W) : Prop :=
  quiet w w' /\ forall k, bill w' !! k = bill w !! k \/
    exists s t, sess_view w !! k.1 = Some s /\ Session.Status s = StatusRunning /\
      (clock w <= t <= clock w')%Z /\ k.2 = Truncate t Hour /\ bill w' !! k = Some (hourly s).

Lemma billed_running_step w w1 w2 : billed_running w w1 -> quiet w1 w2 -> bill w2 = bill w1 ->
  billed_running w w2.
Proof.
  intros [Hq Hb] Hq2 Hb2. split; [by etrans|]. intros k. rewrite Hb2.
  destruct (Hb k) as [|(s & t & ? & ? & [? ?] & ? & ?)]; [by left|right].
  exists s, t. destruct Hq2 as [_ [Hc _]]. split_and!; done || lia.
Qed.

Lemma wp_emit_running e w w1 : billed_running w w1 ->
  wp (emit e) (fun _ w' => billed_running w w') w1.
Proof.
  intros Hb. eapply wp_mono; [apply (wp_and _ _ _ _ (emit_frame e w1) (emit_bill e w1))|].
  intros _ w2 [Hq Hb2]. by eapply billed_running_step.
Qed.

(** One aggregation pass bills only sessions that are running, each at most for the
    current hour and at its stored price; repeated within the hour it replaces the row
    instead of adding one, and it changes no session. *)
Theorem aggregation_bills_running w :
  wp recordCostsForRunningSessions (fun _ w' => billed_running w w') w.
Proof.
  assert (billed_running w w) as Hrefl by (split; [done|by left]).
  apply wp_bind. eapply wp_mono.
  { apply (wp_and _ _ _ _ (List_spec (SessionFilter.by_statuses active_statuses) w)
                          (list_bill _ w)). }
  intros [ss|e] w1 [[Hq Hr] Hb]; [|by apply wp_emit_running; eapply billed_running_step].
  destruct Hr as (_ & Hss & _).
  apply wp_for_each_inv; [by eapply billed_running_step|].
  intros s v Hs Hv. unfold record_session_body. case_bool_decide as Hrun; cbn [negb]; [|by apply wp_ret].
  destruct (Hss s Hs) as [Hvs _].
  apply wp_bind. eapply wp_mono; [apply RecordHourly_spec|]. intros e v1 (Hq1 & t & Ht & Hb1).
  assert (billed_running w v1) as Hv1.
  { destruct e as [err|]; [by eapply billed_running_step|].
    destruct Hv as [Hqv Hbv]. split; [by etrans|]. intros k. rewrite Hb1.
    destruct Hqv as [_ [Hc _]], Hq1 as [_ [Hc1 _]].
    destruct (decide (k = (Session.ID s, Truncate t Hour))) as [->|Hne].
    - right. exists s, t. rewrite lookup_insert_eq. cbn. split_and!; done || lia.
    - rewrite lookup_insert_ne by done. destruct (Hbv k) as [|(s' & t' & ? & ? & [? ?] & ? & ?)];
        [by left|right]. exists s', t'. split_and!; done || lia. }
  destruct e; [by apply wp_emit_running|].
  apply wp_bind. eapply wp_mono; [by apply wp_emit_running|]. intros u v2 Hv2.
  by apply wp_emit_running.
Qed.
End TrackerProofs.
