(* ===== verification/FailureTable.v ===== *)
(** [internal/storage/failures.go] on tables [offer_failures] and
    [offer_suppressions], and the goroutines with which the failure tracker writes
    them ([FailureTracker.StoreTask]). *)
From S2P Require Import Prelude GoFloat GoLib Models Errors Interfaces Database FailureTracker.

Definition created_le (a b : FailureRow.t) : Prop := (FailureRow.created_at a <= FailureRow.created_at b)%Z.

#[export] Instance created_le_dec : RelDecision created_le.
Proof. intros a b. unfold created_le. apply _. Defined.

#[export] Instance created_le_total : Total created_le.
Proof. intros a b. unfold created_le. lia. Qed.

#[export] Instance created_le_trans : Transitive created_le.
Proof. intros a b c. unfold created_le. lia. Qed.

Section FailureTable.
Context {W : Type} `{HasDB W} `{Env W}.
Local Open Scope Z_scope.

(** An [Exec] whose error is wrapped. *)
Definition exec {A} (msg : string) (stmt : DB.t -> A * DB.t) : M W (result A) :=
  let! r := sql (fun d => let (a, d') := stmt d in (Ok a, d')) in
  ret match r with Ok a => Ok a | Err e => Err (EWrap msg e) end.

Definition error_of {A} (r : result A) : option error :=
  match r with Ok _ => None | Err e => Some e end.

Definition table_RecordFailure (offerID provider gpuType failureType reason : string)
    : M W (option error) :=
  let! t := time_Now in
  let! r := exec "failed to record offer failure" (fun d =>
    (tt, DB.set_offer_failures
           (DB.offer_failures d ++ [FailureRow.mk offerID provider gpuType failureType reason t]) d)) in
  ret (error_of r).

(** [ON CONFLICT(offer_id) DO UPDATE SET suppressed_at]: the old row keeps its
    provider and GPU type. *)
Definition table_SetSuppression (offerID provider gpuType : string) (suppressedAt : time)
    : M W (option error) :=
  let! r := exec "failed to set offer suppression" (fun d =>
    let row := match DB.offer_suppressions d !! offerID with
               | Some old => SuppressionRow.mk (SuppressionRow.provider old)
                               (SuppressionRow.gpu_type old) suppressedAt
               | None => SuppressionRow.mk provider gpuType suppressedAt
               end in
    (tt, DB.set_offer_suppressions (<[offerID := row]> (DB.offer_suppressions d)) d)) in
  ret (error_of r).

Definition table_ClearSuppression (offerID : string) : M W (option error) :=
  let! r := exec "failed to clear offer suppression" (fun d =>
    (tt, DB.set_offer_suppressions (delete offerID (DB.offer_suppressions d)) d)) in
  ret (error_of r).

(** [ORDER BY created_at ASC]. *)
Definition LoadRecentFailures (since : time) : M W (result (list FailureRow.t)) :=
  exec "failed to load recent failures" (fun d =>
    (merge_sort created_le
       (filter (fun r => since < FailureRow.created_at r) (DB.offer_failures d)), d)).

Definition LoadActiveSuppressions (cooldownExpiry : time)
    : M W (result (list (string * SuppressionRow.t))) :=
  exec "failed to load active suppressions" (fun d =>
    (map_to_list (filter (fun kv : string * SuppressionRow.t =>
       cooldownExpiry < SuppressionRow.suppressed_at kv.2) (DB.offer_suppressions d)), d)).

(** The result is the number of deleted rows. *)
Definition CleanupOldFailures (before : time) : M W (result Z) :=
  exec "failed to cleanup old failures" (fun d =>
    let kept := filter (fun r => ~ (FailureRow.created_at r < before)) (DB.offer_failures d) in
    (Z.of_nat (length (DB.offer_failures d)) - Z.of_nat (length kept),
     DB.set_offer_failures kept d)).

Definition CleanupExpiredSuppressions (before : time) : M W (result Z) :=
  exec "failed to cleanup expired suppressions" (fun d =>
    let kept := filter (fun kv : string * SuppressionRow.t =>
                  ~ (SuppressionRow.suppressed_at kv.2 < before)) (DB.offer_suppressions d) in
    (Z.of_nat (size (DB.offer_suppressions d)) - Z.of_nat (size kept),
     DB.set_offer_suppressions kept d)).

Definition CountByOfferID (since : time) : M W (result (gmap string Z)) :=
  exec "failed to count failures by offer" (fun d =>
    let recent := filter (fun r => since < FailureRow.created_at r) (DB.offer_failures d) in
    (list_to_map ((fun id => (id, Z.of_nat (length (filter (fun r => FailureRow.offer_id r = id) recent))))
       <$> (FailureRow.offer_id <$> recent)), d)).

(** The goroutines of the tracker; a failed write is logged and dropped. *)
Definition run_store_task (task : StoreTask) : M W unit :=
  match task with
  | PruneStore expired cutoff =>
      do! for_each expired (fun id => let! _e := table_ClearSuppression id in skip) in
      let! _n := CleanupOldFailures cutoff in skip
  | PersistFailure id provider gpuType failureType reason newSuppression =>
      let! _e := table_RecordFailure id provider gpuType failureType reason in
      match newSuppression with
      | Some t => let! _e := table_SetSuppression id provider gpuType t in skip
      | None => skip
      end
  end.
End FailureTable.

Section Facts.
Context {W : Type} `{HasDB W} `{!HasDBLaws W} `{Env W}.
Local Open Scope Z_scope.

Lemma wp_exec {A} msg (stmt : DB.t -> A * DB.t) (Q : result A -> W -> Prop) w :
  (forall e, Q (Err (EWrap msg e)) (set_db (DB.pop_fault (get_db w)) w)) ->
  (let d := DB.pop_fault (get_db w) in Q (Ok (fst (stmt d))) (set_db (snd (stmt d)) w)) ->
  wp (exec msg stmt) Q w.
Proof.
  intros He Ho. unfold exec. apply wp_bind, wp_sql; intros; apply wp_ret; [apply He|].
  cbn in Ho. by destruct (stmt _).
Qed.

(** The failures newer than an instant, oldest first. *)
Definition recent_rows (since : time) (w : W) : list FailureRow.t :=
  merge_sort created_le
    (filter (fun r => since < FailureRow.created_at r) (DB.offer_failures (get_db w))).

(** A load of recent failures returns the rows newer than the cutoff, each once and
    oldest first, or an error; either way the rows stay as they were. *)
Theorem LoadRecentFailures_ordered (since : time) (w : W) :
  wp (LoadRecentFailures since) (fun r w' =>
    DB.offer_failures (get_db w') = DB.offer_failures (get_db w) /\
    match r with
    | Ok rows => Sorted created_le rows /\
        rows ≡ₚ filter (fun r => since < FailureRow.created_at r) (DB.offer_failures (get_db w))
    | Err _ => True
    end) w.
Proof.
  apply wp_exec; [|cbv zeta]; intros; rewrite get_set_db; split; try done.
  cbn [fst]. split; [apply Sorted_merge_sort, _|apply merge_sort_Permutation].
Qed.

(** Pruning the store behind a decay cutoff removes no row that a load of the
    failures newer than that cutoff, or any later one, would return, whatever the
    statements answer. *)
Theorem prune_keeps_recent (expired : list string) (cutoff since : time) (w : W) :
  cutoff <= since ->
  wp (run_store_task (PruneStore expired cutoff)) (fun _ w' =>
    recent_rows since w' = recent_rows since w) w.
Proof.
  intros Hc. unfold run_store_task. apply wp_bind.
  eapply wp_mono; [apply (wp_for_each_inv (fun v => recent_rows since v = recent_rows since w)); [done|]|].
  - intros id v _ Hv. apply wp_bind. unfold table_ClearSuppression. apply wp_bind.
    apply wp_exec; intros; cbv zeta; unfold skip; rewrite !wp_ret, <-Hv; unfold recent_rows;
      by rewrite get_set_db.
  - intros u v Hv. cbv beta in Hv. apply wp_bind. unfold CleanupOldFailures.
    apply wp_exec; intros; cbv zeta; unfold skip; rewrite wp_ret, <-Hv; unfold recent_rows;
      rewrite get_set_db; [done|]. cbn. f_equal.
    rewrite list_filter_filter. apply list_filter_iff. intros r. lia.
Qed.
End Facts.
