(* ===== verification/Inventory.v ===== *)
(** [internal/service/inventory/service.go]: the offers of every provider, cached per
    provider and query, filtered and ranked.  The state the methods share is
    [InvState]; each critical section of the code is one state change here, provider
    calls happen between them.  What Go leaves open is a parameter of the section
    ([Runtime]): the iteration order of a map, the order in which concurrent fetches
    deliver, and the order [sort.Slice] gives to equal elements. *)
From S2P Require Import Prelude GoFloat GoLib FailureTracker Models Errors Interfaces.

Section Constants.
Local Open Scope Z_scope.
Definition DefaultCacheTTL : duration := 1 * Minute.
Definition BackoffCacheTTL : duration := 5 * Minute.
Definition StaleInventoryThreshold : duration := 2 * Minute.
Definition MaxStaleAge : duration := 5 * Minute.
End Constants.
Definition StaleConfidenceMultiplier : f64 := f64_lit 1 2.

Module providerCache.
Record t := mk {
  offers : list GPUOffer.t;
  fetchedAt : time;
  expiresAt : time;
  softExpiry : time;
  err : option error;
  inBackoff : bool;
  refreshing : bool
}.

Definition set_offers (v : list GPUOffer.t) (c : t) : t :=
  mk v (fetchedAt c) (expiresAt c) (softExpiry c) (err c) (inBackoff c) (refreshing c).
Definition set_refreshing (v : bool) (c : t) : t :=
  mk (offers c) (fetchedAt c) (expiresAt c) (softExpiry c) (err c) (inBackoff c) v.
End providerCache.

Module CacheStatus.
Record t := mk {
  OfferCount : Z;
  FetchedAt : time;
  ExpiresAt : time;
  IsExpired : bool;
  InBackoff : bool;
  HasError : bool;
  Age : duration;
  IsStale : bool
}.
End CacheStatus.

(** The fields of [Service] that do not change after [New]. *)
Module InvConfig.
Record t := mk {
  cacheTTL : duration;
  providerCacheTTL : gmap string duration;
  backoffTTL : duration
}.

Definition default : t := mk DefaultCacheTTL ∅ BackoffCacheTTL.
Definition WithCacheTTL (d : duration) (c : t) : t := mk d (providerCacheTTL c) (backoffTTL c).
Definition WithBackoffTTL (d : duration) (c : t) : t := mk (cacheTTL c) (providerCacheTTL c) d.
Definition WithProviderCacheTTL (providerName : string) (d : duration) (c : t) : t :=
  mk (cacheTTL c) (<[providerName := d]> (providerCacheTTL c)) (backoffTTL c).
End InvConfig.

Definition getCacheTTL (cfg : InvConfig.t) (providerName : string) : duration :=
  match InvConfig.providerCacheTTL cfg !! providerName with
  | Some ttl => ttl
  | None => InvConfig.cacheTTL cfg
  end.

Module InvState.
Record t := mk {
  cache : gmap string providerCache.t;
  (** [shutdownCh] is closed *)
  shutdown : bool;
  failureTracker : tracker
}.

Definition set_cache (v : gmap string providerCache.t) (s : t) : t :=
  mk v (shutdown s) (failureTracker s).
Definition set_shutdown (s : t) : t := mk (cache s) true (failureTracker s).
Definition set_tracker (v : tracker) (s : t) : t := mk (cache s) (shutdown s) v.
End InvState.

Class HasInventory (W : Type) := {
  get_inv : W -> InvState.t;
  set_inv : InvState.t -> W -> W
}.

Class Runtime (W : Type) := {
  range_cache : gmap string providerCache.t -> list (string * providerCache.t);
  arrival : list (Provider.t W) -> list (Provider.t W);
  sort_Slice : (GPUOffer.t -> GPUOffer.t -> bool) -> list GPUOffer.t -> list GPUOffer.t
}.

Definition cacheKey (providerName : string) (filter : OfferFilter.t) : string :=
  let key := providerName in
  let key := if bool_decide (OfferFilter.GPUType filter = "") then key
             else key +:+ ":gpu=" +:+ OfferFilter.GPUType filter in
  if bool_decide (OfferFilter.Location filter = "") then key
  else key +:+ ":loc=" +:+ OfferFilter.Location filter.

(** [applyStalenessDegradation], [now] being the instant [time.Since] reads. *)
Definition degradationFactor (age : duration) : f64 :=
  if (MaxStaleAge <=? age)%Z then StaleConfidenceMultiplier
  else
    let progress := fdiv (f64_of_Z (age - StaleInventoryThreshold))
                         (f64_of_Z (MaxStaleAge - StaleInventoryThreshold)) in
    fsub f1 (fmul progress (fsub f1 StaleConfidenceMultiplier)).

Definition applyStalenessDegradation (o : GPUOffer.t) (now : time) : GPUOffer.t :=
  let age := Sub now (GPUOffer.FetchedAt o) in
  if (age <? StaleInventoryThreshold)%Z then o
  else
    let baseConfidence := GPUOffer.GetEffectiveAvailabilityConfidence o in
    GPUOffer.set_AvailabilityConfidence (fmul baseConfidence (degradationFactor age)) o.

(** The comparison both sorts use: confidence descending, then price ascending. *)
Definition better (a b : GPUOffer.t) : bool :=
  let ci := GPUOffer.GetEffectiveAvailabilityConfidence a in
  let cj := GPUOffer.GetEffectiveAvailabilityConfidence b in
  if negb (feqb ci cj) then fgtb ci cj
  else fltb (GPUOffer.PricePerHour a) (GPUOffer.PricePerHour b).

(** The body of [filterAndSort]'s loop on one offer, [t1], [t2] and [t3] being the
    instants the staleness, the suppression and the multiplier are computed at. *)
Definition consider (tr : tracker) (filter : OfferFilter.t) (o : GPUOffer.t) (t1 t2 t3 : time)
    : option GPUOffer.t :=
  let adjusted := applyStalenessDegradation o t1 in
  if IsSuppressed tr (GPUOffer.ID adjusted) t2 then None
  else
    let multiplier := GetConfidenceMultiplier tr (GPUOffer.ID adjusted) (GPUOffer.GPUType adjusted)
                        (GPUOffer.Provider adjusted) t3 in
    let adjusted :=
      if fltb multiplier f1
      then GPUOffer.set_AvailabilityConfidence
             (fmul (GPUOffer.AvailabilityConfidence adjusted) multiplier) adjusted
      else adjusted in
    if OfferFilter.MatchesFilter adjusted filter && GPUOffer.Available adjusted
    then Some adjusted else None.

(** [cached.offers[i] = cached.offers[len-1]; cached.offers = cached.offers[:len-1]] at
    the first offer of that id. *)
Definition evict_slice (offerID : string) (offers : list GPUOffer.t) : option (list GPUOffer.t) :=
  match list_find (fun o => GPUOffer.ID o = offerID) offers, last offers with
  | Some (i, _), Some z => Some (take (length offers - 1) (<[i := z]> offers))
  | _, _ => None
  end.

(** The filter of a scope ([FindComparableOffers]'s switch). *)
Definition comparable_filter (original : GPUOffer.t) (scope : string) : OfferFilter.t :=
  let gpu := OfferFilter.mk (GPUOffer.Provider original) (GPUOffer.GPUType original) 0
               (fmul (GPUOffer.PricePerHour original) (f64_lit 12 10)) "" f0 0 f0 f0 in
  if bool_decide (scope = "same_gpu") then gpu
  else if bool_decide (scope = "same_vram")
  then OfferFilter.mk (GPUOffer.Provider original) "" (GPUOffer.VRAM original)
         (fmul (GPUOffer.PricePerHour original) (f64_lit 15 10)) "" f0 0 f0 f0
  else if bool_decide (scope = "any")
  then OfferFilter.mk "" "" (GPUOffer.VRAM original)
         (fmul (GPUOffer.PricePerHour original) (f64_lit 2 1)) "" f0 0 f0 f0
  else gpu.

Section Service.
Context {W : Type} `{Env W} `{HasInventory W} `{Runtime W}.
Context (cfg : InvConfig.t) (providers : list (Provider.t W)).

Definition inv_state : M W InvState.t := pure_state get_inv.
Definition modify_inv (f : InvState.t -> InvState.t) : M W unit :=
  fun w => (tt, set_inv (f (get_inv w)) w).
Definition modify_cache (f : gmap string providerCache.t -> gmap string providerCache.t) : M W unit :=
  modify_inv (fun s => InvState.set_cache (f (InvState.cache s)) s).

(** The entry a successful and a failed fetch leave. *)
Definition fetched_entry (providerName : string) (offers : list GPUOffer.t) (now : time)
    : providerCache.t :=
  let ttl := getCacheTTL cfg providerName in
  providerCache.mk offers now (Add now ttl) (Add now (Z.quot (wrap64 (ttl * 3)) 4)) None false false.
Definition backoff_entry (e : error) (now : time) : providerCache.t :=
  providerCache.mk [] now (Add now (InvConfig.backoffTTL cfg)) (Add now (InvConfig.backoffTTL cfg))
    (Some e) true false.

Definition fetchOffersSync (p : Provider.t W) (filter : OfferFilter.t)
    : M W (result (list GPUOffer.t)) :=
  let providerName := Provider.Name p in
  let key := cacheKey providerName filter in
  let! r := Provider.ListOffers p filter in
  let! now := time_Now in
  match r with
  | Err e => do! modify_cache (<[key := backoff_entry e now]>) in ret (Err e)
  | Ok offers => do! modify_cache (<[key := fetched_entry providerName offers now]>) in ret (Ok offers)
  end.

Definition stop_refreshing (key : string) : M W unit :=
  modify_cache (alter (providerCache.set_refreshing false) key).

(** [triggerBackgroundRefresh]; the goroutine is [RefreshOffers], its body
    [background_refresh]. *)
Definition triggerBackgroundRefresh (p : Provider.t W) (filter : OfferFilter.t) : M W unit :=
  let key := cacheKey (Provider.Name p) filter in
  let! s := inv_state in
  if InvState.shutdown s then skip
  else
    match InvState.cache s !! key with
    | Some cached =>
        if providerCache.refreshing cached then skip
        else do! modify_cache (<[key := providerCache.set_refreshing true cached]>) in
             emit (Go (RefreshOffers (Provider.Name p) filter))
    | None => emit (Go (RefreshOffers (Provider.Name p) filter))
    end.

Definition background_refresh (p : Provider.t W) (filter : OfferFilter.t) : M W unit :=
  let providerName := Provider.Name p in
  let key := cacheKey providerName filter in
  let! s := inv_state in
  if InvState.shutdown s then stop_refreshing key
  else
    let! r := Provider.ListOffers p filter in
    let! now := time_Now in
    match r with
    | Err _ => stop_refreshing key
    | Ok offers => modify_cache (<[key := fetched_entry providerName offers now]>)
    end.

Definition getOffersWithCache (p : Provider.t W) (filter : OfferFilter.t)
    : M W (result (list GPUOffer.t)) :=
  let key := cacheKey (Provider.Name p) filter in
  let! now := time_Now in
  let! s := inv_state in
  match InvState.cache s !! key with
  | None => fetchOffersSync p filter
  | Some cached =>
      if Before now (providerCache.softExpiry cached) then
        ret match providerCache.err cached with
            | Some e => Err e
            | None => Ok (providerCache.offers cached)
            end
      else if Before now (providerCache.expiresAt cached) &&
              bool_decide (providerCache.err cached = None) &&
              (0 <? length (providerCache.offers cached))
      then do! triggerBackgroundRefresh p filter in ret (Ok (providerCache.offers cached))
      else fetchOffersSync p filter
  end.

Definition tracker_read {A} (f : tracker -> time -> A) : M W A :=
  let! now := time_Now in
  let! s := inv_state in
  ret (f (InvState.failureTracker s) now).

(** [filterAndSort]: the loop, then the sort. *)
Definition consider_offer (filter : OfferFilter.t) (o : GPUOffer.t) : M W (option GPUOffer.t) :=
  let! t1 := time_Now in
  let adjusted := applyStalenessDegradation o t1 in
  let! suppressed := tracker_read (fun tr t2 => IsSuppressed tr (GPUOffer.ID adjusted) t2) in
  if suppressed : bool then ret None
  else
    let! multiplier := tracker_read (fun tr t3 =>
      GetConfidenceMultiplier tr (GPUOffer.ID adjusted) (GPUOffer.GPUType adjusted)
        (GPUOffer.Provider adjusted) t3) in
    let adjusted :=
      if fltb multiplier f1
      then GPUOffer.set_AvailabilityConfidence
             (fmul (GPUOffer.AvailabilityConfidence adjusted) multiplier) adjusted
      else adjusted in
    ret (if OfferFilter.MatchesFilter adjusted filter && GPUOffer.Available adjusted
         then Some adjusted else None).

Fixpoint filter_offers (filter : OfferFilter.t) (offers : list GPUOffer.t)
    : M W (list GPUOffer.t) :=
  match offers with
  | [] => ret []
  | o :: offers' =>
      let! r := consider_offer filter o in
      let! rest := filter_offers filter offers' in
      ret match r with Some x => x :: rest | None => rest end
  end.

Definition filterAndSort (offers : list GPUOffer.t) (filter : OfferFilter.t)
    : M W (list GPUOffer.t) :=
  let! filtered := filter_offers filter offers in
  ret (sort_Slice better filtered).

Definition fetchFromProvider (providerName : string) (filter : OfferFilter.t)
    : M W (result (list GPUOffer.t)) :=
  match List.find (fun p => bool_decide (Provider.Name p = providerName)) providers with
  | None => ret (Err (ProviderNotFoundError providerName))
  | Some p =>
      let! r := getOffersWithCache p filter in
      match r with
      | Err e => ret (Err e)
      | Ok offers => let! l := filterAndSort offers filter in ret (Ok l)
      end
  end.

(** The goroutines of [fetchFromAllProviders], run one after the other in their order
    of arrival; what they delivered. *)
Fixpoint collect (filter : OfferFilter.t) (ps : list (Provider.t W))
    : M W (list GPUOffer.t * list error) :=
  match ps with
  | [] => ret ([], [])
  | p :: ps' =>
      let! r := getOffersWithCache p filter in
      let! rest := collect filter ps' in
      ret match r with
          | Err e => (rest.1, e :: rest.2)
          | Ok offers => (offers ++ rest.1, rest.2)
          end
  end.

Definition fetchFromAllProviders (filter : OfferFilter.t) : M W (result (list GPUOffer.t)) :=
  let! r := collect filter (arrival providers) in
  let '(allOffers, errors) := r in
  if (length errors =? length providers)%nat then ret (Err (AllProvidersFailed errors))
  else let! l := filterAndSort allOffers filter in ret (Ok l).

Definition ListOffers (filter : OfferFilter.t) : M W (result (list GPUOffer.t)) :=
  if bool_decide (OfferFilter.Provider filter = "") then fetchFromAllProviders filter
  else fetchFromProvider (OfferFilter.Provider filter) filter.

(** The first offer of that id in the entries without error. *)
Definition cached_offer (cache : gmap string providerCache.t) (offerID : string) : option GPUOffer.t :=
  head (omap (fun kv : string * providerCache.t =>
                if bool_decide (providerCache.err kv.2 = None)
                then List.find (fun o => bool_decide (GPUOffer.ID o = offerID)) (providerCache.offers kv.2)
                else None)
          (range_cache cache)).

Definition GetOffer (offerID : string) : M W (result GPUOffer.t) :=
  let! s := inv_state in
  match cached_offer (InvState.cache s) offerID with
  | Some o => let! t := time_Now in ret (Ok (applyStalenessDegradation o t))
  | None =>
      let! r := ListOffers OfferFilter.empty in
      match r with
      | Err e => ret (Err e)
      | Ok allOffers =>
          match List.find (fun o => bool_decide (GPUOffer.ID o = offerID)) allOffers with
          | Some o => let! t := time_Now in ret (Ok (applyStalenessDegradation o t))
          | None => ret (Err (OfferNotFoundError offerID))
          end
      end
  end.

Definition InvalidateCache (providerName : string) : M W unit :=
  modify_cache (fun c =>
    if bool_decide (providerName = "") then ∅
    else filter (fun kv : string * providerCache.t =>
           (bool_decide (kv.1 = providerName) || HasPrefix kv.1 (providerName +:+ ":")) = false) c).

Definition GetCacheStatus : M W (gmap string CacheStatus.t) :=
  let! now := time_Now in
  let! s := inv_state in
  ret ((fun c =>
    let age := Sub now (providerCache.fetchedAt c) in
    CacheStatus.mk (Z.of_nat (length (providerCache.offers c))) (providerCache.fetchedAt c)
      (providerCache.expiresAt c) (After now (providerCache.expiresAt c)) (providerCache.inBackoff c)
      (negb (bool_decide (providerCache.err c = None))) age (StaleInventoryThreshold <=? age)%Z)
    <$> InvState.cache s).

Definition Shutdown : M W unit := modify_inv InvState.set_shutdown.

(** The first entry, in the order of the map, that holds an offer of that id. *)
Definition evict_target (cache : gmap string providerCache.t) (offerID : string)
    : option (string * providerCache.t) :=
  head (omap (fun kv : string * providerCache.t =>
                l ← evict_slice offerID (providerCache.offers kv.2);
                Some (kv.1, providerCache.set_offers l kv.2))
          (range_cache cache)).

Definition EvictOffer (offerID : string) : M W unit :=
  modify_cache (fun c =>
    match evict_target c offerID with
    | Some (key, entry) => <[key := entry]> c
    | None => c
    end).

Definition RecordOfferFailure (offerID providerName gpuType failureType reason : string) : M W unit :=
  let! now := time_Now in
  let! s := inv_state in
  let '(tr, tasks) := RecordFailure (InvState.failureTracker s) offerID providerName gpuType
                        failureType reason now in
  do! modify_inv (InvState.set_tracker tr) in
  do! for_each tasks (fun t => emit (Go (WriteFailureStore t))) in
  emit (Prom "RecordOfferFailure" [providerName; gpuType; failureType]).

Definition GetAllOfferHealth : M W (list OfferHealthInfo.t * list GPUTypeHealthInfo.t) :=
  tracker_read GetAllHealth.

Definition LoadFailureData (failures : list StoredFailure.t) (suppressions : list StoredSuppression.t)
    : M W unit :=
  let! now := time_Now in
  let! s := inv_state in
  let '(tr, tasks) := LoadFromStore (InvState.failureTracker s) failures suppressions now in
  do! modify_inv (InvState.set_tracker tr) in
  for_each tasks (fun t => emit (Go (WriteFailureStore t))).

(** [FindComparableOffers]: the exclusions, the second look at suppressions, the sort
    and the cut. *)
Definition excluded (original : GPUOffer.t) (excludeIDs excludeMachineIDs : list string)
    (o : GPUOffer.t) : bool :=
  if bool_decide (GPUOffer.ID o ∈ excludeIDs) || bool_decide (GPUOffer.ID o = GPUOffer.ID original)
  then true
  else if negb (bool_decide (GPUOffer.MachineID o = "")) &&
          bool_decide (GPUOffer.MachineID o ∈ List.filter (fun m => negb (bool_decide (m = ""))) excludeMachineIDs)
  then true
  else negb (GPUOffer.Available o).

Fixpoint candidates (original : GPUOffer.t) (excludeIDs excludeMachineIDs : list string)
    (offers : list GPUOffer.t) : M W (list GPUOffer.t) :=
  match offers with
  | [] => ret []
  | o :: offers' =>
      if excluded original excludeIDs excludeMachineIDs o
      then candidates original excludeIDs excludeMachineIDs offers'
      else
        let! suppressed := tracker_read (fun tr t => IsSuppressed tr (GPUOffer.ID o) t) in
        let! rest := candidates original excludeIDs excludeMachineIDs offers' in
        ret (if suppressed : bool then rest else o :: rest)
  end.

Definition FindComparableOffers (original : option GPUOffer.t) (scope : string)
    (excludeIDs excludeMachineIDs : list string) : M W (result (list GPUOffer.t)) :=
  match original with
  | None => ret (Err (EOpaque "original offer is nil"))
  | Some original =>
      let! r := ListOffers (comparable_filter original scope) in
      match r with
      | Err e => ret (Err (EWrap "failed to list comparable offers" e))
      | Ok offers =>
          let! l := candidates original excludeIDs excludeMachineIDs offers in
          let sorted := sort_Slice better l in
          ret (Ok (if (5 <? length sorted)%nat then take 5 sorted else sorted))
      end
  end.

Definition ProviderCount : Z := Z.of_nat (length providers).
Definition ProviderNames : list string := Provider.Name <$> providers.

(** What the provisioner sees of the service. *)
Definition inventory_finder : InventoryFinder.t W :=
  InventoryFinder.mk W
    (fun o scope ids machines => FindComparableOffers (Some o) scope ids machines)
    GetOffer RecordOfferFailure EvictOffer.
End Service.
