(* ===== verification/InventoryFacts.v ===== *)
(** What the inventory promises: the ranking of offers, the cache and its invariant,
    evictions, comparable offers, and the provisioner's interface to it. *)
From S2P Require Import Prelude GoFloat GoLib FailureTracker Models Errors Interfaces Inventory.

(** The inventory is a part of the state of its own: the clock and the effects leave it
    alone, and changing it touches no session. *)
Class InvLaws (W : Type) `{Env W} `{Ghost W} `{HasInventory W} : Prop := {
  get_set_inv : forall s w, get_inv (set_inv s w) = s;
  set_inv_quiet : forall s w, quiet w (set_inv s w);
  time_Now_inv : forall w, wp time_Now (fun _ w' => get_inv w' = get_inv w) w;
  emit_inv : forall e w, wp (emit e) (fun _ w' => get_inv w' = get_inv w) w
}.

(** A strict weak order on the elements of a list, what [sort.Slice] asks of [less]. *)
Definition strict_weak_on (less : GPUOffer.t -> GPUOffer.t -> bool) (l : list GPUOffer.t) : Prop :=
  (forall a, a ∈ l -> less a a = false) /\
  (forall a b c, a ∈ l -> b ∈ l -> c ∈ l -> less a b = true -> less b c = true -> less a c = true) /\
  (forall a b c, a ∈ l -> b ∈ l -> c ∈ l ->
     less a b = false -> less b a = false -> less b c = false -> less c b = false ->
     less a c = false /\ less c a = false).

(** ** What the list of offers promises, said without the code's loop and comparator *)

(** An offer whose confidence is unset (zero) counts as certain. *)
Definition believed (o : GPUOffer.t) : f64 :=
  if feqb (GPUOffer.AvailabilityConfidence o) f0 then f1 else GPUOffer.AvailabilityConfidence o.

(** [a] may stand before [b]: it is more confident, or as confident and not dearer. *)
Definition precedes (a b : GPUOffer.t) : Prop :=
  fltb (believed b) (believed a) = true \/
  (feqb (believed a) (believed b) = true /\
   fltb (GPUOffer.PricePerHour b) (GPUOffer.PricePerHour a) = false).

(** Every offer of the list may stand before each one at a later position. *)
Definition ranked (l : list GPUOffer.t) : Prop :=
  forall i j a b, (i < j)%nat -> l !! i = Some a -> l !! j = Some b -> precedes a b.

(** What the criteria of a filter ask of an offer; a criterion that is empty or not
    positive asks nothing. *)
Definition fits (f : OfferFilter.t) (o : GPUOffer.t) : Prop :=
  (OfferFilter.Provider f <> "" -> GPUOffer.Provider o = OfferFilter.Provider f) /\
  (OfferFilter.GPUType f <> "" -> GPUOffer.GPUType o = OfferFilter.GPUType f) /\
  (OfferFilter.Location f <> "" -> Contains (GPUOffer.Location o) (OfferFilter.Location f) = true) /\
  ((0 < OfferFilter.MinVRAM f)%Z -> (OfferFilter.MinVRAM f <= GPUOffer.VRAM o)%Z) /\
  ((0 < OfferFilter.MinGPUCount f)%Z -> (OfferFilter.MinGPUCount f <= GPUOffer.GPUCount o)%Z) /\
  (fltb f0 (OfferFilter.MaxPrice f) = true ->
     fltb (OfferFilter.MaxPrice f) (GPUOffer.PricePerHour o) = false) /\
  (fltb f0 (OfferFilter.MinReliability f) = true ->
     fltb (GPUOffer.Reliability o) (OfferFilter.MinReliability f) = false) /\
  (fltb f0 (OfferFilter.MinAvailabilityConfidence f) = true ->
     fltb (GPUOffer.AvailabilityConfidence o) (OfferFilter.MinAvailabilityConfidence f) = false) /\
  (fltb f0 (OfferFilter.MinCUDAVersion f) = true ->
     fltb (GPUOffer.CUDAVersion o) (OfferFilter.MinCUDAVersion f) = false).

(** The confidence an offer is left with at [t], when it was fetched a while ago:
    untouched for two minutes, then falling in a line to one half at five minutes,
    where it stays. *)
Inductive aged (o : GPUOffer.t) (t : time) : f64 -> Prop :=
| aged_fresh :
    (Sub t (GPUOffer.FetchedAt o) < 2 * Minute)%Z ->
    aged o t (GPUOffer.AvailabilityConfidence o)
| aged_falling :
    (2 * Minute <= Sub t (GPUOffer.FetchedAt o) < 5 * Minute)%Z ->
    aged o t (fmul (believed o)
      (fsub f1 (fmul (fdiv (f64_of_Z (Sub t (GPUOffer.FetchedAt o) - 2 * Minute)) (f64_of_Z (3 * Minute)))
                     (f64_lit 1 2))))
| aged_old :
    (5 * Minute <= Sub t (GPUOffer.FetchedAt o))%Z ->
    aged o t (fmul (believed o) (f64_lit 1 2)).

(** The offer with the confidence its age and its recent failures leave it, failures
    counting at [t3]. *)
Definition degraded (tr : tracker) (o : GPUOffer.t) (c : f64) (t3 : time) : GPUOffer.t :=
  let m := GetConfidenceMultiplier tr (GPUOffer.ID o) (GPUOffer.GPUType o) (GPUOffer.Provider o) t3 in
  GPUOffer.set_AvailabilityConfidence (if fltb m f1 then fmul c m else c) o.

(** What becomes of one offer between the instants [lo] and [hi]: it is listed with the
    confidence it is left with when it is not suppressed, available, and fits the
    filter with that confidence; else it is dropped. *)
Definition listed (filter : OfferFilter.t) (tr : tracker) (lo hi : time) (o : GPUOffer.t)
    (r : option GPUOffer.t) : Prop :=
  exists t1 t2 t3 c, (lo <= t1 <= hi /\ lo <= t2 <= hi /\ lo <= t3 <= hi)%Z /\ aged o t1 c /\
    match r with
    | Some x =>
        x = degraded tr o c t3 /\
        IsSuppressed tr (GPUOffer.ID o) t2 = false /\ fits filter x /\ GPUOffer.Available o = true
    | None =>
        IsSuppressed tr (GPUOffer.ID o) t2 = true \/
        ~ fits filter (degraded tr o c t3) \/ GPUOffer.Available o = false
    end.

Class RuntimeLaws (W : Type) `{Runtime W} : Prop := {
  range_perm : forall m, range_cache m ≡ₚ map_to_list m;
  arrival_perm : forall ps, arrival ps ≡ₚ ps;
  sort_perm : forall less l, sort_Slice less l ≡ₚ l;
  sort_sorted : forall less l, strict_weak_on less l ->
    StronglySorted (fun a b => less b a = false) (sort_Slice less l)
}.

(** ** The ranking is a strict weak order when no number is NaN *)
Definition numeric (o : GPUOffer.t) : Prop :=
  is_nan (GPUOffer.GetEffectiveAvailabilityConfidence o) = false /\
  is_nan (GPUOffer.PricePerHour o) = false.

Section Better.
Local Open Scope Z_scope.

Definition rank (o : GPUOffer.t) : (Z * Z * Z) * (Z * Z * Z) :=
  (fkey (GPUOffer.GetEffectiveAvailabilityConfidence o), fkey (GPUOffer.PricePerHour o)).

Definition key_dec (a b : Z * Z * Z) : {a = b} + {a <> b}.
Proof. decide equality; [apply Z.eq_dec|]. decide equality; apply Z.eq_dec. Defined.

(** Higher confidence first, then lower price. *)
Lemma better_rank a b : numeric a -> numeric b ->
  better a b = true <->
  key_lt (rank b).1 (rank a).1 \/ ((rank a).1 = (rank b).1 /\ key_lt (rank a).2 (rank b).2).
Proof.
  intros [Ha Hpa] [Hb Hpb]. unfold better, fgtb, rank. cbn.
  destruct (feqb _ _) eqn:He; cbn.
  - apply feqb_key in He; [|done..]. rewrite fltb_key by done. rewrite He.
    split; [by right|]. intros [Hl|[_ Hl]]; [|done].
    unfold key_lt in Hl. destruct (fkey (GPUOffer.GetEffectiveAvailabilityConfidence b)) as [[??]?]. lia.
  - rewrite fltb_key by done. split; [by left|]. intros [Hl|[Heq _]]; [done|].
    apply feqb_key in Heq; [|done..]. congruence.
Qed.

Lemma better_strict_weak (l : list GPUOffer.t) : Forall numeric l -> strict_weak_on better l.
Proof.
  rewrite Forall_forall. intros Hn.
  assert (Hf : forall a b, a ∈ l -> b ∈ l -> better a b = false <-> ~ better a b = true)
    by (intros; by rewrite not_true_iff_false).
  split; [|split].
  - intros a Ha. rewrite Hf, better_rank by auto. unfold key_lt.
    destruct (rank a) as [[[??]?] [[??]?]]. cbn. rewrite !pair_equal_spec. lia.
  - intros a b c Ha Hb Hc. rewrite !better_rank by auto. unfold key_lt.
    destruct (rank a) as [[[??]?] [[??]?]], (rank b) as [[[??]?] [[??]?]],
      (rank c) as [[[??]?] [[??]?]]. cbn. rewrite !pair_equal_spec. lia.
  - intros a b c Ha Hb Hc. rewrite !Hf, !better_rank by auto. unfold key_lt.
    destruct (rank a) as [[[??]?] [[??]?]], (rank b) as [[[??]?] [[??]?]],
      (rank c) as [[[??]?] [[??]?]]. cbn. rewrite !pair_equal_spec. lia.
Qed.

(** A list no element of which stands before a better one is ranked. *)
Lemma sorted_ranked (l : list GPUOffer.t) : Forall numeric l ->
  StronglySorted (fun a b => better b a = false) l -> ranked l.
Proof.
  intros Hn Hs i j a b Hij Ha Hb. rewrite Forall_forall in Hn.
  assert (numeric a /\ numeric b) as [Na Nb]
    by (split; apply Hn; eapply list_elem_of_lookup_2; eauto).
  assert (better b a = false) as Hba.
  { clear Hn Na Nb. revert i j Hij Ha Hb. induction Hs as [|x l Hs IH Hx]; intros i j Hij Ha Hb; [done|].
    destruct j as [|j]; [lia|]. destruct i as [|i]; cbn in Ha, Hb.
    - injection Ha as ->. rewrite Forall_forall in Hx. apply Hx. by eapply list_elem_of_lookup_2.
    - apply (IH i j); [lia|done..]. }
  revert Hba. unfold better, fgtb. change GPUOffer.GetEffectiveAvailabilityConfidence with believed.
  destruct Na as [Ca Pa], Nb as [Cb Pb].
  change GPUOffer.GetEffectiveAvailabilityConfidence with believed in Ca, Cb. unfold precedes.
  destruct (feqb (believed b) (believed a)) eqn:He; cbn [negb]; intros Hlt.
  - right. split; [|done]. apply feqb_key; [done..|]. symmetry. by apply feqb_key.
  - left. apply fltb_key; [done..|]. apply not_true_iff_false in He, Hlt.
    rewrite feqb_key in He by done. rewrite fltb_key in Hlt by done. revert He Hlt. unfold key_lt.
    destruct (fkey (believed a)) as [[??]?], (fkey (believed b)) as [[??]?].
    rewrite !pair_equal_spec. lia.
Qed.

End Better.

Section Facts.
Context {W : Type} `{Env W} `{Ghost W} `{HasInventory W} `{Runtime W}.
Context `{!EnvLaws W} `{!InvLaws W} `{!RuntimeLaws W}.

(** ** Reads of the inventory *)
Definition keeps {A} (m : M W A) : Prop :=
  forall w, wp m (fun _ w' => quiet w w' /\ get_inv w' = get_inv w) w.

Lemma wp_keeps {A} (m : M W A) (Q : A -> W -> Prop) w :
  keeps m -> (forall a w', quiet w w' -> get_inv w' = get_inv w -> Q a w') -> wp m Q w.
Proof. intros Hm HQ. eapply wp_mono; [apply Hm|]. intros a w' []. auto. Qed.

Lemma wp_now_inv (Q : time -> W -> Prop) w :
  (forall t w', quiet w w' -> get_inv w' = get_inv w -> (clock w <= t <= clock w')%Z -> Q t w') ->
  wp time_Now Q w.
Proof.
  intros HQ. eapply wp_mono; [apply wp_and; [apply time_Now_spec|apply time_Now_inv]|].
  intros t w' [[] ]. auto.
Qed.

Lemma wp_tracker_read {A} (f : tracker -> time -> A) (Q : A -> W -> Prop) w :
  (forall t w', quiet w w' -> get_inv w' = get_inv w -> (clock w <= t <= clock w')%Z ->
     Q (f (InvState.failureTracker (get_inv w)) t) w') ->
  wp (tracker_read f) Q w.
Proof.
  intros HQ. apply wp_bind, wp_now_inv. intros t w' Hq Hi Ht.
  apply wp_bind. unfold inv_state, pure_state, wp. cbn. rewrite Hi. by apply HQ.
Qed.

(** ** Filtering and ranking *)

(** What the loop does with one offer between the states [w] and [w']. *)
Definition considered (filter : OfferFilter.t) (w w' : W) (o : GPUOffer.t)
    (r : option GPUOffer.t) : Prop :=
  exists t1 t2 t3, (clock w <= t1 <= clock w' /\ clock w <= t2 <= clock w' /\ clock w <= t3 <= clock w')%Z /\
    r = consider (InvState.failureTracker (get_inv w)) filter o t1 t2 t3.

Lemma considered_within filter u v w w' o r :
  later u v -> later w w' -> get_inv v = get_inv u -> considered filter v w o r -> considered filter u w' o r.
Proof.
  intros [Hu _] [Hw _] Hi (t1 & t2 & t3 & Ht & ->). exists t1, t2, t3. split; [lia|]. by rewrite Hi.
Qed.

Lemma wp_consider filter o (Q : option GPUOffer.t -> W -> Prop) w :
  (forall r w', quiet w w' -> get_inv w' = get_inv w -> considered filter w w' o r -> Q r w') ->
  wp (consider_offer filter o) Q w.
Proof.
  intros HQ. apply wp_bind, wp_now_inv. intros t1 w1 Hq1 Hi1 Ht1.
  apply wp_bind, wp_tracker_read. intros t2 w2 Hq2 Hi2 Ht2.
  pose proof (proj1 (proj2 Hq1)) as Hc1. pose proof (proj1 (proj2 Hq2)) as Hc2.
  destruct (IsSuppressed _ _ t2) eqn:Hs.
  - apply wp_ret, HQ; [by etrans|congruence|]. exists t1, t2, t2.
    split; [lia|]. unfold consider. rewrite Hi1 in Hs. by rewrite Hs.
  - apply wp_bind, wp_tracker_read. intros t3 w3 Hq3 Hi3 Ht3.
    pose proof (proj1 (proj2 Hq3)) as Hc3.
    apply wp_ret, HQ; [etrans; [done|by etrans]|congruence|]. exists t1, t2, t3.
    split; [lia|]. unfold consider. rewrite Hi1 in Hs. rewrite Hs, Hi2, Hi1. done.
Qed.

Lemma wp_filter_offers filter offers (Q : list GPUOffer.t -> W -> Prop) w :
  (forall picked w', quiet w w' -> get_inv w' = get_inv w ->
     Forall2 (considered filter w w') offers picked -> Q (omap id picked) w') ->
  wp (filter_offers filter offers) Q w.
Proof.
  revert w Q. induction offers as [|o offers IH]; intros w Q HQ.
  - apply wp_ret. by apply (HQ [] w).
  - apply wp_bind, wp_consider. intros r w1 Hq1 Hi1 Hr. apply wp_bind, IH.
    intros picked w2 Hq2 Hi2 Hp. apply wp_ret.
    assert (HQ' : Q (omap id (r :: picked)) w2); [|by destruct r].
    apply HQ; [by etrans|congruence|]. constructor.
    + eapply considered_within; [done|apply Hq2|done|exact Hr].
    + eapply Forall2_impl; [exact Hp|]. intros o' r'. apply considered_within; [apply Hq1|done|done].
Qed.

(** The code's test of an offer against a filter. *)
Lemma MatchesFilter_fits f o : OfferFilter.MatchesFilter o f = true <-> fits f o.
Proof.
  assert (forall (b c : bool), ((if b then false else c) = true <-> b = false /\ c = true)) as Hif
    by (intros [] []; cbn; intuition congruence).
  assert (forall s u : string, negb (bool_decide (s = "")) && negb (bool_decide (u = s)) = false <->
            (s <> "" -> u = s)) as Hs.
  { intros s u. rewrite andb_false_iff, !negb_false_iff, !bool_decide_eq_true.
    destruct (decide (s = "")); intuition congruence. }
  assert (forall m v, (0 <? m)%Z && (v <? m)%Z = false <-> ((0 < m)%Z -> (m <= v)%Z)) as Hz by lia.
  assert (forall b c : bool, b && c = false <-> (b = true -> c = false)) as Hb
    by (intros [] []; intuition congruence).
  unfold OfferFilter.MatchesFilter, fits, fgtb. rewrite !Hif, !Hs, !Hz, !Hb.
  rewrite negb_true_iff, bool_decide_eq_false, negb_false_iff. tauto.
Qed.

Lemma staleness_aged o t :
  exists c, aged o t c /\ applyStalenessDegradation o t = GPUOffer.set_AvailabilityConfidence c o.
Proof.
  unfold applyStalenessDegradation, degradationFactor, StaleInventoryThreshold, MaxStaleAge.
  destruct (Z.ltb_spec (Sub t (GPUOffer.FetchedAt o)) (2 * Minute)).
  { eexists. split; [by apply aged_fresh|]. by destruct o. }
  destruct (Z.leb_spec (5 * Minute) (Sub t (GPUOffer.FetchedAt o)));
    (eexists; split; [|reflexivity]); [by apply aged_old|].
  apply aged_falling. lia.
Qed.

Lemma considered_listed filter w w' o r :
  considered filter w w' o r ->
  listed filter (InvState.failureTracker (get_inv w)) (clock w) (clock w') o r.
Proof.
  intros (t1 & t2 & t3 & Ht & ->). destruct (staleness_aged o t1) as (c & Hc & Ho).
  exists t1, t2, t3, c. split; [done|]. split; [done|].
  unfold consider. rewrite Ho. cbn [GPUOffer.ID GPUOffer.GPUType GPUOffer.Provider
    GPUOffer.AvailabilityConfidence GPUOffer.set_AvailabilityConfidence].
  set (tr := InvState.failureTracker _).
  destruct (IsSuppressed tr (GPUOffer.ID o) t2); [by left|].
  match goal with |- context [OfferFilter.MatchesFilter ?x _] =>
    assert (x = degraded tr o c t3) as ->
  end.
  { unfold degraded. by destruct (fltb _ f1). }
  change (GPUOffer.Available (degraded tr o c t3)) with (GPUOffer.Available o).
  destruct (OfferFilter.MatchesFilter _ filter && GPUOffer.Available o) eqn:Hm.
  - apply andb_true_iff in Hm as [Hm Ha]. by rewrite MatchesFilter_fits in Hm.
  - right. apply andb_false_iff in Hm as [Hm|Hm]; [left|by right].
    rewrite <-MatchesFilter_fits. by rewrite Hm.
Qed.

(** C15.  Filtering and ranking: each offer that is not suppressed, available and fits
    the filter with the confidence its age and its recent failures leave it is
    returned once with that confidence, and no other; an offer stands before another
    when it is more confident, or as confident and not dearer (no confidence or price
    being NaN): the list is not sorted by price.  The inventory and the sessions stay
    as they are. *)
Theorem filterAndSort_ranks (offers : list GPUOffer.t) (filter : OfferFilter.t) (w : W) :
  wp (filterAndSort offers filter) (fun l w' =>
    quiet w w' /\ get_inv w' = get_inv w /\
    (exists picked,
       Forall2 (listed filter (InvState.failureTracker (get_inv w)) (clock w) (clock w')) offers picked /\
       l ≡ₚ omap id picked) /\
    (Forall numeric l -> ranked l)) w.
Proof.
  apply wp_bind, wp_filter_offers. intros picked w' Hq Hi Hp. apply wp_ret.
  split; [done|]. split; [done|]. split.
  { exists picked. split; [|apply sort_perm]. eapply Forall2_impl; [done|]. intros. by apply considered_listed. }
  intros Hn. apply sorted_ranked; [done|]. apply sort_sorted, better_strict_weak. by rewrite <-sort_perm.
Qed.

(** ** The cache *)
Section Cache.
Context (cfg : InvConfig.t) (providers : list (Provider.t W)).
Local Open Scope Z_scope.

(** Times to live that are not negative and whose three quarters fit 64 bits. *)
Definition cfg_ok : Prop :=
  (forall name, 0 <= getCacheTTL cfg name /\ getCacheTTL cfg name * 3 <= max_int64) /\
  0 <= InvConfig.backoffTTL cfg.

(** An entry runs from its fetch to its soft and then its hard expiry; it is in backoff
    exactly when it holds an error, and then it holds no offer and has one expiry. *)
Definition entry_ok (c : providerCache.t) : Prop :=
  providerCache.fetchedAt c <= providerCache.softExpiry c <= providerCache.expiresAt c /\
  match providerCache.err c with
  | None => providerCache.inBackoff c = false
  | Some _ => providerCache.inBackoff c = true /\ providerCache.offers c = [] /\
              providerCache.softExpiry c = providerCache.expiresAt c
  end.

Definition cache_ok (s : InvState.t) : Prop := map_Forall (fun _ c => entry_ok c) (InvState.cache s).

Definition preserves {A} (m : M W A) : Prop :=
  forall w, cache_ok (get_inv w) -> wp m (fun _ w' => cache_ok (get_inv w')) w.

Lemma preserves_ret {A} (a : A) : preserves (ret a).
Proof. intros w Hw. by apply wp_ret. Qed.

Lemma preserves_bind {A B} (m : M W A) (k : A -> M W B) :
  preserves m -> (forall a, preserves (k a)) -> preserves (bind m k).
Proof.
  intros Hm Hk w Hw. apply wp_bind. eapply wp_mono; [by apply Hm|]. intros a v Hv. by apply Hk.
Qed.

Lemma preserves_now : preserves time_Now.
Proof. intros w Hw. eapply wp_mono; [apply time_Now_inv|]. by intros t w' ->. Qed.

Lemma preserves_emit e : preserves (emit e).
Proof. intros w Hw. eapply wp_mono; [apply emit_inv|]. by intros t w' ->. Qed.

Lemma preserves_for_each {A} (l : list A) (body : A -> M W unit) :
  (forall x, x ∈ l -> preserves (body x)) -> preserves (for_each l body).
Proof. intros Hb w Hw. apply (wp_for_each_inv (fun v => cache_ok (get_inv v))); [done|]. intros; by apply Hb. Qed.

Lemma preserves_modify f : (forall s, cache_ok s -> cache_ok (f s)) -> preserves (modify_inv f).
Proof. intros Hf w Hw. unfold wp, modify_inv. cbn. rewrite get_set_inv. by apply Hf. Qed.

(** Read the state, with what is known of it. *)
Lemma preserves_state {A} (k : InvState.t -> M W A) :
  (forall s, cache_ok s -> preserves (k s)) -> preserves (bind inv_state k).
Proof. intros Hk w Hw. apply wp_bind. by apply Hk. Qed.

Lemma preserves_tracker_read {A} (f : tracker -> time -> A) : preserves (tracker_read f).
Proof.
  apply preserves_bind; [apply preserves_now|]. intros t. apply preserves_state. intros s _. apply preserves_ret.
Qed.

Lemma cache_ok_insert s key c : cache_ok s -> entry_ok c -> cache_ok (InvState.set_cache (<[key := c]> (InvState.cache s)) s).
Proof. intros Hs Hc. by apply map_Forall_insert_2. Qed.

Lemma preserves_insert key c : entry_ok c -> preserves (modify_cache (<[key := c]>)).
Proof. intros Hc. apply preserves_modify. intros s Hs. by apply cache_ok_insert. Qed.

Lemma entry_ok_refreshing b c : entry_ok (providerCache.set_refreshing b c) <-> entry_ok c.
Proof. done. Qed.

Context (Hcfg : cfg_ok).

Lemma fetched_entry_ok name offers now : entry_ok (fetched_entry cfg name offers now).
Proof.
  destruct Hcfg as [Hc _]. destruct (Hc name) as [Hge Hle]. unfold entry_ok, fetched_entry. cbn.
  split; [|done]. rewrite wrap64_id by (unfold in_int64, min_int64; lia). unfold Add.
  rewrite Z.quot_div_nonneg by lia.
  pose proof (Z.div_pos (getCacheTTL cfg name * 3) 4).
  pose proof (Z.div_le_upper_bound (getCacheTTL cfg name * 3) 4 (getCacheTTL cfg name)). lia.
Qed.

Lemma backoff_entry_ok e now : entry_ok (backoff_entry cfg e now).
Proof. destruct Hcfg as [_ Hb]. unfold entry_ok, backoff_entry, Add. cbn. split; [lia|done]. Qed.

(** Whatever runs while a provider answers leaves a well-formed cache. *)
Context (Hlist : forall p f, p ∈ providers -> preserves (Provider.ListOffers p f)).

Lemma preserves_fetch p filter : p ∈ providers -> preserves (fetchOffersSync cfg p filter).
Proof.
  intros Hp. apply preserves_bind; [by apply Hlist|]. intros r.
  apply preserves_bind; [apply preserves_now|]. intros now.
  destruct r; (apply preserves_bind; [apply preserves_insert|intros; apply preserves_ret]).
  - apply fetched_entry_ok.
  - apply backoff_entry_ok.
Qed.

Lemma preserves_stop key : preserves (stop_refreshing key).
Proof.
  apply preserves_modify. intros s Hs. unfold cache_ok. cbn. intros k c.
  rewrite lookup_alter_Some. intros [(-> & x & Hx & ->)|[_ Hc]]; [|by apply (Hs k)].
  apply entry_ok_refreshing, (Hs _ _ Hx).
Qed.

Lemma preserves_trigger p filter : preserves (triggerBackgroundRefresh p filter).
Proof.
  apply preserves_state. intros s Hs. destruct (InvState.shutdown s); [apply preserves_ret|].
  destruct (InvState.cache s !! _) as [c|] eqn:Hc; [|apply preserves_emit].
  destruct (providerCache.refreshing c); [apply preserves_ret|].
  apply preserves_bind; [|intros; apply preserves_emit].
  apply preserves_insert, entry_ok_refreshing, (Hs _ _ Hc).
Qed.

Lemma preserves_background p filter : p ∈ providers -> preserves (background_refresh cfg p filter).
Proof.
  intros Hp. apply preserves_state. intros s Hs.
  destruct (InvState.shutdown s); [apply preserves_stop|].
  apply preserves_bind; [by apply Hlist|]. intros r.
  apply preserves_bind; [apply preserves_now|]. intros now.
  destruct r; [|apply preserves_stop]. apply preserves_insert, fetched_entry_ok.
Qed.

Lemma preserves_get p filter : p ∈ providers -> preserves (getOffersWithCache cfg p filter).
Proof.
  intros Hp. apply preserves_bind; [apply preserves_now|]. intros now.
  apply preserves_state. intros s Hs. destruct (InvState.cache s !! _) as [c|]; [|by apply preserves_fetch].
  destruct (Before _ _); [apply preserves_ret|]. destruct (_ && _); [|by apply preserves_fetch].
  apply preserves_bind; [apply preserves_trigger|]. intros. apply preserves_ret.
Qed.

Lemma preserves_filter filter offers : preserves (filter_offers filter offers).
Proof.
  induction offers as [|o offers IH]; [apply preserves_ret|].
  apply preserves_bind.
  - apply preserves_bind; [apply preserves_now|]. intros t.
    apply preserves_bind; [apply preserves_tracker_read|]. intros [|]; [apply preserves_ret|].
    apply preserves_bind; [apply preserves_tracker_read|]. intros. apply preserves_ret.
  - intros r. apply preserves_bind; [done|]. intros. apply preserves_ret.
Qed.

Lemma preserves_filterAndSort filter offers : preserves (filterAndSort offers filter).
Proof. apply preserves_bind; [apply preserves_filter|]. intros. apply preserves_ret. Qed.

Lemma preserves_collect filter ps : (forall p, p ∈ ps -> p ∈ providers) -> preserves (collect cfg filter ps).
Proof.
  induction ps as [|p ps IH]; intros Hps; [apply preserves_ret|].
  apply preserves_bind; [apply preserves_get, Hps; by left|]. intros r.
  apply preserves_bind; [apply IH; intros q Hq; apply Hps; by right|]. intros. apply preserves_ret.
Qed.

Lemma preserves_ListOffers filter : preserves (ListOffers cfg providers filter).
Proof.
  unfold ListOffers. case_bool_decide.
  - apply preserves_bind; [apply preserves_collect; intros p; by rewrite arrival_perm|].
    intros [offers errs]. destruct (_ =? _)%nat; [apply preserves_ret|].
    apply preserves_bind; [apply preserves_filterAndSort|]. intros. apply preserves_ret.
  - unfold fetchFromProvider. destruct (List.find _ providers) as [p|] eqn:Hf; [|apply preserves_ret].
    apply List.find_some in Hf as [Hp _]. apply list_elem_of_In in Hp.
    apply preserves_bind; [by apply preserves_get|]. intros [l|e]; [|apply preserves_ret].
    apply preserves_bind; [apply preserves_filterAndSort|]. intros. apply preserves_ret.
Qed.

Lemma preserves_candidates o ids ms offers : preserves (candidates o ids ms offers).
Proof.
  induction offers as [|x offers IH]; [apply preserves_ret|]. cbn. destruct (excluded _ _ _ _); [done|].
  apply preserves_bind; [apply preserves_tracker_read|]. intros b.
  apply preserves_bind; [done|]. intros. apply preserves_ret.
Qed.

(** ** Every method *)
Inductive Op :=
| OpListOffers (filter : OfferFilter.t)
| OpGetOffer (id : string)
| OpFindComparable (original : option GPUOffer.t) (scope : string) (ids machines : list string)
| OpRefresh (n : nat) (filter : OfferFilter.t)
| OpInvalidate (providerName : string)
| OpEvict (id : string)
| OpRecordFailure (id providerName gpuType failureType reason : string)
| OpLoad (failures : list StoredFailure.t) (suppressions : list StoredSuppression.t)
| OpShutdown.

Definition run_op (op : Op) : M W unit :=
  match op with
  | OpListOffers f => let! _r := ListOffers cfg providers f in skip
  | OpGetOffer id => let! _r := GetOffer cfg providers id in skip
  | OpFindComparable o sc ids ms => let! _r := FindComparableOffers cfg providers o sc ids ms in skip
  | OpRefresh n f =>
      match providers !! n with Some p => background_refresh cfg p f | None => skip end
  | OpInvalidate n => InvalidateCache n
  | OpEvict id => EvictOffer id
  | OpRecordFailure id p g k r => RecordOfferFailure id p g k r
  | OpLoad fs ss => LoadFailureData fs ss
  | OpShutdown => Shutdown
  end.

Lemma preserves_get_offer id : preserves (GetOffer cfg providers id).
Proof.
  apply preserves_state. intros s Hs. destruct (cached_offer _ _).
  - apply preserves_bind; [apply preserves_now|]. intros. apply preserves_ret.
  - apply preserves_bind; [apply preserves_ListOffers|]. intros [l|e]; [|apply preserves_ret].
    destruct (List.find _ _); [|apply preserves_ret].
    apply preserves_bind; [apply preserves_now|]. intros. apply preserves_ret.
Qed.

Lemma preserves_comparable o sc ids ms : preserves (FindComparableOffers cfg providers o sc ids ms).
Proof.
  destruct o as [o|]; [|apply preserves_ret].
  apply preserves_bind; [apply preserves_ListOffers|]. intros [l|e]; [|apply preserves_ret].
  apply preserves_bind; [apply preserves_candidates|]. intros. apply preserves_ret.
Qed.

Lemma evict_slice_nil id : evict_slice id [] = None.
Proof. done. Qed.

Lemma preserves_evict id : preserves (EvictOffer id).
Proof.
  apply preserves_modify. intros s Hs.
  destruct (evict_target (InvState.cache s) id) as [[key c]|] eqn:He; [|by destruct s].
  apply cache_ok_insert; [done|]. unfold evict_target in He.
  apply head_Some_elem_of, list_elem_of_omap in He as ([k c0] & Hin & Ho). cbn in Ho.
  rewrite range_perm, elem_of_map_to_list in Hin.
  destruct (evict_slice id (providerCache.offers c0)) as [l|] eqn:Hl; [|done]. injection Ho as <- <-.
  destruct (Hs _ _ Hin) as [Ht Hb]. split; [done|]. cbn.
  destruct (providerCache.err c0); [|done]. destruct Hb as (_ & Hn & _). by rewrite Hn in Hl.
Qed.

(** C22.  The cache stays well formed: whatever sequence of the service's methods and
    background refreshes runs, every entry's expiries follow its fetch in order and an
    entry is in backoff exactly when it holds an error and no offers, as long as what
    runs while a provider answers keeps it so too. *)
Theorem cache_stays_ok (ops : list Op) (w : W) :
  cache_ok (get_inv w) -> wp (for_each ops run_op) (fun _ w' => cache_ok (get_inv w')) w.
Proof.
  revert w. change (preserves (for_each ops run_op)). apply preserves_for_each. intros op _.
  destruct op; cbn [run_op].
  - apply preserves_bind; [apply preserves_ListOffers|]. intros. apply preserves_ret.
  - apply preserves_bind; [apply preserves_get_offer|]. intros. apply preserves_ret.
  - apply preserves_bind; [apply preserves_comparable|]. intros. apply preserves_ret.
  - destruct (providers !! n) as [p|] eqn:Hp; [|apply preserves_ret].
    apply preserves_background. by eapply list_elem_of_lookup_2.
  - apply preserves_modify. intros s Hs. unfold cache_ok. cbn. case_bool_decide; [done|].
    intros k c [Hc _]%map_lookup_filter_Some. by apply (Hs k).
  - apply preserves_evict.
  - apply preserves_bind; [apply preserves_now|]. intros now. apply preserves_state. intros s _.
    destruct (RecordFailure _ _ _ _ _ _ _) as [tr tasks].
    apply preserves_bind; [by apply preserves_modify|]. intros _.
    apply preserves_bind; [apply preserves_for_each; intros; apply preserves_emit|].
    intros _. apply preserves_emit.
  - apply preserves_bind; [apply preserves_now|]. intros now. apply preserves_state. intros s _.
    destruct (LoadFromStore _ _ _ _) as [tr tasks].
    apply preserves_bind; [by apply preserves_modify|]. intros _.
    apply preserves_for_each; intros; apply preserves_emit.
  - by apply preserves_modify.
Qed.
End Cache.

(** ** What a lookup serves *)
Section Serve.
Context (cfg : InvConfig.t) (p : Provider.t W) (filter : OfferFilter.t).
Local Open Scope Z_scope.
Abbreviation key := (cacheKey (Provider.Name p) filter).

(** The answer an entry stands for. *)
Definition answer (c : providerCache.t) : result (list GPUOffer.t) :=
  match providerCache.err c with Some e => Err e | None => Ok (providerCache.offers c) end.

(** The entry of the key after the call, when the answer came out of a fetch. *)
Definition just_fetched (w w' : W) (c : providerCache.t) : Prop :=
  clock w <= providerCache.fetchedAt c <= clock w' /\ providerCache.refreshing c = false.

Lemma wp_modify_cache f (Q : unit -> W -> Prop) w :
  (forall w', quiet w w' -> get_inv w' = InvState.set_cache (f (InvState.cache (get_inv w))) (get_inv w) ->
     Q tt w') ->
  wp (modify_cache f) Q w.
Proof.
  intros HQ. unfold wp, modify_cache, modify_inv. cbn. apply HQ; [apply set_inv_quiet|apply get_set_inv].
Qed.

Lemma wp_fetch w :
  frame (Provider.ListOffers p filter) ->
  wp (fetchOffersSync cfg p filter) (fun r w' =>
    quiet w w' /\ exists c, InvState.cache (get_inv w') !! key = Some c /\ r = answer c /\ just_fetched w w' c) w.
Proof.
  intros Hp. apply wp_bind, wp_frame; [done|]. intros r w1 Hq1.
  apply wp_bind, wp_now_inv. intros t w2 Hq2 _ Ht.
  pose proof (proj1 (proj2 Hq1)). 
  destruct r as [l|e]; apply wp_bind, wp_modify_cache; intros w3 Hq3 Hi; apply wp_ret;
    pose proof (proj1 (proj2 Hq3)); (split; [etrans; [done|by etrans]|]);
    eexists; rewrite Hi; cbn; rewrite lookup_insert_eq; (split; [done|split; [done|]]);
    (split; [cbn; lia|done]).
Qed.

Lemma wp_trigger c w :
  InvState.cache (get_inv w) !! key = Some c ->
  wp (triggerBackgroundRefresh p filter) (fun _ w' =>
    quiet w w' /\ exists b, InvState.cache (get_inv w') !! key = Some (providerCache.set_refreshing b c)) w.
Proof.
  intros Hc. assert (Hself : providerCache.set_refreshing (providerCache.refreshing c) c = c) by by destruct c.
  unfold triggerBackgroundRefresh. apply wp_bind. unfold inv_state, pure_state. unfold wp at 1. cbn [fst snd].
  destruct (InvState.shutdown (get_inv w)).
  { apply wp_ret. split; [done|]. exists (providerCache.refreshing c). by rewrite Hself. }
  rewrite Hc. destruct (providerCache.refreshing c) eqn:Hr.
  { apply wp_ret. split; [done|]. exists true. by rewrite Hself. }
  apply wp_bind, wp_modify_cache. intros w1 Hq1 Hi1.
  eapply wp_mono; [apply wp_and; [apply emit_frame|apply emit_inv]|]. intros u w2 [Hq2 Hi2].
  split; [by etrans|]. exists true. rewrite Hi2, Hi1. cbn. by rewrite lookup_insert_eq.
Qed.

(** C21.  The cache serves what it holds and never past its time: a lookup answers with
    the offers, or the error, of the entry that stands under its key when it returns;
    that entry had not expired when the call looked, or was fetched during the call. *)
Theorem getOffersWithCache_serves (w : W) :
  cache_ok (get_inv w) -> frame (Provider.ListOffers p filter) ->
  wp (getOffersWithCache cfg p filter) (fun r w' =>
    quiet w w' /\
    exists c, InvState.cache (get_inv w') !! key = Some c /\ r = answer c /\
      ((exists t, clock w <= t <= clock w' /\ t < providerCache.expiresAt c) \/ just_fetched w w' c)) w.
Proof.
  intros Hok Hp. apply wp_bind, wp_now_inv. intros t w1 Hq1 Hi1 Ht.
  pose proof (proj1 (proj2 Hq1)) as Hc1.
  apply wp_bind. unfold inv_state, pure_state. unfold wp at 1. cbn [fst snd].
  assert (Hfetch : wp (fetchOffersSync cfg p filter) (fun r w' => quiet w w' /\
    exists c, InvState.cache (get_inv w') !! key = Some c /\ r = answer c /\
      ((exists t, clock w <= t <= clock w' /\ t < providerCache.expiresAt c) \/ just_fetched w w' c)) w1).
  { eapply wp_mono; [by apply wp_fetch|]. intros r w' (Hq & c & Hc & Hr & Hf & Hb).
    split; [by etrans|]. exists c. split; [done|split; [done|right]]. split; [|done].
    cbn in *. lia. }
  destruct (InvState.cache (get_inv w1) !! key) as [c|] eqn:Hc; [|done].
  assert (Hexp : entry_ok c) by (rewrite Hi1 in Hc; apply (Hok _ _ Hc)).
  destruct Hexp as [Hexp _]. unfold Before.
  destruct (Z.ltb_spec t (providerCache.softExpiry c)).
  { apply wp_ret. split; [done|]. exists c. split; [done|split; [done|left]]. exists t. lia. }
  destruct (Z.ltb_spec t (providerCache.expiresAt c)); cbn [andb]; [|done].
  case_bool_decide as He; cbn [andb]; [|done]. destruct (0 <? length _)%nat; [|done].
  apply wp_bind. eapply wp_mono; [by apply (wp_trigger c)|]. intros u w2 (Hq2 & b & Hb).
  pose proof (proj1 (proj2 Hq2)) as Hc2.
  apply wp_ret. split; [by etrans|]. exists (providerCache.set_refreshing b c). split; [done|].
  split; [|left; exists t; cbn; lia]. unfold answer. cbn. by rewrite He.
Qed.

(** A fresh entry is answered without asking the provider, an error in backoff
    included: the call is one reading of the clock. *)
Theorem fresh_entry_asks_nobody (c : providerCache.t) (w : W) :
  InvState.cache (get_inv w) !! key = Some c ->
  fst (time_Now w) < providerCache.softExpiry c ->
  getOffersWithCache cfg p filter w = (answer c, snd (time_Now w)).
Proof.
  intros Hc Ht. pose proof (time_Now_inv w) as Hi. unfold wp in Hi.
  unfold getOffersWithCache, bind, inv_state, pure_state, Before.
  destruct (time_Now w) as [t w1]. cbn in *. rewrite Hi, Hc.
  by rewrite (proj2 (Z.ltb_lt _ _) Ht).
Qed.
End Serve.

(** ** Evictions *)
Section Evict.
Lemma evict_slice_perm id l l' :
  evict_slice id l = Some l' -> exists o, GPUOffer.ID o = id /\ l ≡ₚ o :: l'.
Proof.
  unfold evict_slice. destruct (list_find _ l) as [[i o]|] eqn:Hf; [|done].
  apply list_find_Some in Hf as (Hi & Hid & _). apply list_elem_of_split_length in Hi as (l1 & l2 & -> & ->).
  intros Hl. exists o. split; [done|].
  destruct l2 as [|z l3 _] using rev_ind.
  - rewrite last_snoc in Hl. injection Hl as <-. rewrite length_app, insert_app_r_alt, Nat.sub_diag by done.
    cbn. rewrite Nat.add_sub, take_app_length. symmetry. apply Permutation_cons_append.
  - change (l1 ++ o :: l3 ++ [z]) with (l1 ++ (o :: l3) ++ [z]) in *.
    rewrite (assoc_L (++)), last_snoc in Hl. injection Hl as <-.
    rewrite <-(assoc_L (++)), insert_app_r_alt, Nat.sub_diag by done. cbn.
    rewrite length_app. cbn. rewrite length_app. cbn.
    replace (length l1 + S (length l3 + 1) - 1)%nat with (length (l1 ++ z :: l3)) by (rewrite length_app; cbn; lia).
    change (l1 ++ z :: l3 ++ [z]) with (l1 ++ (z :: l3) ++ [z]). rewrite (assoc_L (++)), take_app_length.
    change (o :: l3 ++ [z]) with ([o] ++ l3 ++ [z]). solve_Permutation.
Qed.

Lemma evict_slice_none id l : evict_slice id l = None -> forall o, o ∈ l -> GPUOffer.ID o <> id.
Proof.
  unfold evict_slice. destruct (list_find _ l) as [[i o]|] eqn:Hf.
  - destruct (last l) eqn:Hl; [done|]. apply last_None in Hl. by subst.
  - intros _ o Ho. apply list_find_None in Hf. rewrite Forall_forall in Hf. by apply Hf.
Qed.

(** An eviction takes exactly one offer out of exactly one entry: every other entry,
    those that hold the same offer included, stays as it was; with no such offer in the
    cache nothing changes. *)
Theorem EvictOffer_evicts_one (id : string) (w : W) :
  wp (EvictOffer id) (fun _ w' =>
    let cache := InvState.cache (get_inv w) in
    let cache' := InvState.cache (get_inv w') in
    quiet w w' /\
    ((cache' = cache /\ forall k c o, cache !! k = Some c -> o ∈ providerCache.offers c -> GPUOffer.ID o <> id) \/
     exists k c o l, cache !! k = Some c /\ GPUOffer.ID o = id /\ providerCache.offers c ≡ₚ o :: l /\
       cache' = <[k := providerCache.set_offers l c]> cache)) w.
Proof.
  apply wp_modify_cache. intros w' Hq ->. cbv zeta. split; [done|]. cbn [InvState.set_cache InvState.cache].
  set (cache := InvState.cache (get_inv w)).
  destruct (evict_target cache id) as [[k c']|] eqn:He; unfold evict_target in He.
  - right. apply head_Some_elem_of, list_elem_of_omap in He as ([k0 c] & Hin & Ho). cbn in Ho.
    rewrite range_perm, elem_of_map_to_list in Hin.
    destruct (evict_slice id (providerCache.offers c)) as [l|] eqn:Hl; [|done]. injection Ho as <- <-.
    apply evict_slice_perm in Hl as (o & Hid & Hp). by exists k0, c, o, l.
  - left. split; [done|]. intros k c o Hc Ho. apply head_None in He.
    assert (Hin : (k, c) ∈ range_cache cache) by by rewrite range_perm, elem_of_map_to_list.
    destruct (evict_slice id (providerCache.offers c)) as [l|] eqn:Hl.
    + exfalso. apply (not_elem_of_nil (k, providerCache.set_offers l c)). rewrite <-He.
      apply list_elem_of_omap. exists (k, c). split; [done|]. cbn. by rewrite Hl.
    + by eapply evict_slice_none.
Qed.
End Evict.

(** ** Comparable offers *)
Section Comparable.
Context (cfg : InvConfig.t) (providers : list (Provider.t W)).

Definition suitable (filter : OfferFilter.t) (o : GPUOffer.t) : Prop :=
  OfferFilter.MatchesFilter o filter = true /\ GPUOffer.Available o = true.

Lemma considered_suitable filter w w' offers picked :
  Forall2 (considered filter w w') offers picked -> Forall (suitable filter) (omap id picked).
Proof.
  induction 1 as [|o r offers picked (t1 & t2 & t3 & _ & ->) _ IH]; [constructor|].
  cbn. unfold consider at 1. destruct (IsSuppressed _ _ _); [done|].
  destruct (OfferFilter.MatchesFilter _ _ && _) eqn:Hm; cbn; [|done].
  constructor; [|done]. by apply andb_true_iff.
Qed.

Lemma wp_filterAndSort offers filter (Q : list GPUOffer.t -> W -> Prop) w :
  (forall l w', Forall (suitable filter) l -> Q l w') -> wp (filterAndSort offers filter) Q w.
Proof.
  intros HQ. apply wp_bind, wp_filter_offers. intros picked w' _ _ Hp. apply wp_ret, HQ.
  rewrite sort_perm. by eapply considered_suitable.
Qed.

Lemma wp_ListOffers filter (Q : result (list GPUOffer.t) -> W -> Prop) w :
  (forall r w', match r with Ok l => Forall (suitable filter) l | Err _ => True end -> Q r w') ->
  wp (ListOffers cfg providers filter) Q w.
Proof.
  intros HQ. unfold ListOffers. case_bool_decide.
  - apply wp_bind, wp_true. intros [offers errs] w1. destruct (_ =? _)%nat; [by apply wp_ret, HQ|].
    apply wp_bind, wp_filterAndSort. intros l w2 Hl. by apply wp_ret, HQ.
  - unfold fetchFromProvider. destruct (List.find _ _); [|by apply wp_ret, HQ].
    apply wp_bind, wp_true. intros [offers|e] w1; [|by apply wp_ret, HQ].
    apply wp_bind, wp_filterAndSort. intros l w2 Hl. by apply wp_ret, HQ.
Qed.

(** What a replacement for a failed offer has to be. *)
Definition comparable (original : GPUOffer.t) (scope : string) (ids machines : list string)
    (o : GPUOffer.t) : Prop :=
  suitable (comparable_filter original scope) o /\
  GPUOffer.ID o ∉ ids /\ GPUOffer.ID o <> GPUOffer.ID original /\
  (GPUOffer.MachineID o <> "" -> GPUOffer.MachineID o ∉ machines).

Lemma wp_candidates original scope ids machines offers (Q : list GPUOffer.t -> W -> Prop) w :
  Forall (suitable (comparable_filter original scope)) offers ->
  (forall l w', Forall (comparable original scope ids machines) l -> Q l w') ->
  wp (candidates original ids machines offers) Q w.
Proof.
  revert w Q. induction offers as [|o offers IH]; intros w Q Ho HQ; [by apply wp_ret, HQ|].
  apply Forall_cons in Ho as [Ho Hoffers]. cbn. destruct (excluded original ids machines o) eqn:He; [by apply IH|].
  apply wp_bind, wp_true. intros b w1. apply wp_bind, IH; [done|]. intros l w2 Hl. apply wp_ret, HQ.
  destruct b; [done|]. constructor; [|done]. unfold excluded in He.
  destruct (bool_decide (GPUOffer.ID o ∈ ids) || _) eqn:Hx; [done|].
  apply orb_false_iff in Hx as [Hids Horig]. apply bool_decide_eq_false in Hids, Horig.
  split; [done|split; [done|split; [done|]]]. intros Hm Hin.
  rewrite (bool_decide_false (GPUOffer.MachineID o = "")), bool_decide_true in He; [done| |done].
  apply list_elem_of_In, List.filter_In. split; [by apply list_elem_of_In|]. by rewrite bool_decide_false.
Qed.

(** The offers proposed in place of a failed one are at most five, each of them
    within the scope's filter, available, not excluded by id or by machine and not the
    failed offer itself; they are the head of a ranking of such offers, cut short only
    at five. *)
Theorem FindComparableOffers_best (original : GPUOffer.t) (scope : string)
    (ids machines : list string) (w : W) :
  wp (FindComparableOffers cfg providers (Some original) scope ids machines) (fun r _ =>
    match r with
    | Err _ => True
    | Ok l => exists rest,
        Forall (comparable original scope ids machines) (l ++ rest) /\
        (length l <= 5)%nat /\ (rest = [] \/ length l = 5%nat) /\
        (Forall numeric (l ++ rest) -> ranked (l ++ rest))
    end) w.
Proof.
  apply wp_bind, wp_ListOffers. intros [offers|e] w1 Ho; [|by apply wp_ret].
  apply wp_bind, (wp_candidates _ scope); [done|]. intros l w2 Hl. apply wp_ret.
  assert (Hs : Forall (comparable original scope ids machines) (sort_Slice better l)) by by rewrite sort_perm.
  assert (Hr : Forall numeric (sort_Slice better l) -> ranked (sort_Slice better l)).
  { intros Hn. apply sorted_ranked; [done|]. apply sort_sorted, better_strict_weak.
    by rewrite <-(sort_perm better). }
  destruct (Nat.ltb_spec 5 (length (sort_Slice better l))) as [Hlt|Hge].
  - exists (drop 5 (sort_Slice better l)). rewrite take_drop, length_take.
    split; [done|]. split; [lia|]. split; [right; lia|done].
  - exists []. rewrite app_nil_r. split; [done|]. split; [done|]. split; [by left|done].
Qed.

(** ** The provisioner's interface *)
Context (Hframe : forall p f, p ∈ providers -> frame (Provider.ListOffers p f)).

Lemma frame_modify f : frame (modify_inv f).
Proof. intros w. unfold wp, modify_inv. cbn. apply set_inv_quiet. Qed.

Lemma frame_time_Now : frame time_Now.
Proof. intros w. eapply wp_mono; [apply time_Now_spec|]. by intros t w' []. Qed.

Lemma frame_state : frame inv_state.
Proof. intros w. by unfold wp. Qed.

#[local] Hint Resolve frame_modify frame_time_Now frame_state : frame.

Lemma frame_tracker_read {A} (f : tracker -> time -> A) : frame (tracker_read f).
Proof. unfold tracker_read. eauto with frame. Qed.

#[local] Hint Resolve frame_tracker_read : frame.

Lemma frame_fetch p f : p ∈ providers -> frame (fetchOffersSync cfg p f).
Proof.
  intros Hp. apply frame_bind; [by apply Hframe|]. intros [l|e]; unfold modify_cache; eauto with frame.
Qed.

Lemma frame_trigger p f : frame (triggerBackgroundRefresh p f).
Proof.
  apply frame_bind; [eauto with frame|]. intros s. destruct (InvState.shutdown s); [apply frame_ret|].
  destruct (_ !! _) as [c|]; [|eauto with frame]. destruct (providerCache.refreshing c); [apply frame_ret|].
  unfold modify_cache. eauto with frame.
Qed.

Lemma frame_get p f : p ∈ providers -> frame (getOffersWithCache cfg p f).
Proof.
  intros Hp. apply frame_bind; [eauto with frame|]. intros t. apply frame_bind; [eauto with frame|]. intros s.
  destruct (_ !! _) as [c|]; [|by apply frame_fetch].
  destruct (Before _ _); [apply frame_ret|]. destruct (_ && _); [|by apply frame_fetch].
  apply frame_bind; [apply frame_trigger|eauto with frame].
Qed.

Lemma frame_filterAndSort offers f : frame (filterAndSort offers f).
Proof.
  apply frame_bind; [|intros; apply frame_ret]. induction offers as [|o offers IH]; [apply frame_ret|].
  apply frame_bind; [|intros; apply frame_bind; [done|intros; apply frame_ret]].
  apply frame_bind; [eauto with frame|]. intros t. apply frame_bind; [eauto with frame|].
  intros [|]; eauto with frame.
Qed.

Lemma frame_ListOffers f : frame (ListOffers cfg providers f).
Proof.
  unfold ListOffers. case_bool_decide.
  - apply frame_bind.
    + assert (Hps : forall p, p ∈ arrival providers -> p ∈ providers) by (intros p; by rewrite arrival_perm).
      induction (arrival providers) as [|p ps IH]; [apply frame_ret|].
      apply frame_bind; [apply frame_get, Hps; by left|]. intros r.
      apply frame_bind; [apply IH; intros q Hq; apply Hps; by right|intros; apply frame_ret].
    + intros [offers errs]. destruct (_ =? _)%nat; [apply frame_ret|].
      apply frame_bind; [apply frame_filterAndSort|eauto with frame].
  - unfold fetchFromProvider. destruct (List.find _ providers) as [p|] eqn:Hf; [|apply frame_ret].
    apply List.find_some in Hf as [Hp%list_elem_of_In _].
    apply frame_bind; [by apply frame_get|]. intros [l|e]; [|apply frame_ret].
    apply frame_bind; [apply frame_filterAndSort|eauto with frame].
Qed.

Lemma frame_candidates o ids ms offers : frame (candidates o ids ms offers).
Proof.
  induction offers as [|x offers IH]; [apply frame_ret|]. cbn. destruct (excluded _ _ _ _); [done|].
  eauto with frame.
Qed.

(** The service keeps the interface's laws. *)
Lemma inventory_finder_laws : InventoryLaws W (inventory_finder cfg providers).
Proof.
  split.
  - intros o sc ids ms. apply frame_bind; [apply frame_ListOffers|]. intros [l|e]; [|apply frame_ret].
    apply frame_bind; [apply frame_candidates|eauto with frame].
  - intros id. apply frame_bind; [eauto with frame|]. intros s. destruct (cached_offer _ _); [eauto with frame|].
    apply frame_bind; [apply frame_ListOffers|]. intros [l|e]; [|apply frame_ret].
    destruct (List.find _ _); eauto with frame.
  - intros a b c d e. apply frame_bind; [eauto with frame|]. intros t.
    apply frame_bind; [eauto with frame|]. intros s. destruct (RecordFailure _ _ _ _ _ _ _) as [tr tasks].
    eauto 10 with frame.
  - intros id. unfold inventory_finder. cbn. unfold EvictOffer, modify_cache. eauto with frame.
Qed.
End Comparable.

(** ** An offer whose confidence is not set *)

Lemma fmul_0_in_range m :
  fleb (f64_lit 5 100) m = true -> fleb m f1 = true -> feqb (fmul f0 m) f0 = true.
Proof. by destruct m as [[]|[]| |[] ? ?]. Qed.

(** Failures do not degrade an offer whose confidence is unset: a fresh offer that
    comes with confidence 0, which stands for 1, keeps the effective confidence 1
    through the loop, whatever the multiplier of its failures is (for up to 100 recent
    ones). *)
Theorem unset_confidence_not_degraded (tr : tracker) (filter : OfferFilter.t) (o x : GPUOffer.t)
    (t1 t2 t3 : time) :
  GPUOffer.AvailabilityConfidence o = f0 ->
  (Sub t1 (GPUOffer.FetchedAt o) < StaleInventoryThreshold)%Z ->
  (length (recent_events (events tr (GPUOffer.ID o)) (t3 - SuppressionWindow)%Z) <= 100)%nat ->
  consider tr filter o t1 t2 t3 = Some x ->
  GPUOffer.GetEffectiveAvailabilityConfidence x = f1.
Proof.
  intros Hc Ht Hlen. unfold consider, applyStalenessDegradation.
  rewrite (proj2 (Z.ltb_lt _ _) Ht). destruct (IsSuppressed tr (GPUOffer.ID o) t2); [done|].
  destruct (OfferFilter.MatchesFilter _ _ && _); [|done]. intros [= <-].
  destruct (fltb _ f1); unfold GPUOffer.GetEffectiveAvailabilityConfidence; [|by rewrite Hc].
  cbn. rewrite Hc, multiplier_view. destruct (suppression_holds _ t3); [done|].
  destruct (combine_bounds _ (GPUTypeFailureThreshold <=? activeCount (fails tr (gpu_key
    (GPUOffer.Provider o) (GPUOffer.GPUType o))) t3)%Z Hlen).
  unfold Add. rewrite Z.add_opp_r. by rewrite fmul_0_in_range.
Qed.
End Facts.
