(* ===== verification/Reconciler.v ===== *)
(** [internal/service/lifecycle/reconciler.go]: the provider's list of instances
    against the session table.  [MapRange] is the order in which Go iterates over a
    map. *)
From S2P Require Import Prelude GoFloat GoLib Models Errors Interfaces.
#[local] Set Warnings "-clear-no-such-hyp".

Module ReconcilerConfig.
Record t := mk { deploymentID : string; autoDestroyOrphans : bool }.
Definition default : t := mk "" true.
End ReconcilerConfig.

Definition ghostGracePeriod : duration := (10 * Minute)%Z.

Section Reconciler.
Context {W : Type} `{SessionStore W} `{Env W} `{MapRange}.
Context (cfg : ReconcilerConfig.t) (registry : gmap string (Provider.t W)).

(** The two maps [reconcileProvider] compares. *)
Definition localMap (sessions : list Session.t) : gmap string Session.t :=
  fold_left (fun m s => if bool_decide (Session.ProviderID s = "") then m
                   else <[Session.ProviderID s := s]> m) sessions ∅.

Definition ours (p : ProviderInstance.t) : bool :=
  bool_decide (ReconcilerConfig.deploymentID cfg = "") ||
  ProviderInstance.IsOurs p (ReconcilerConfig.deploymentID cfg).

Definition providerMap (instances : list ProviderInstance.t) : gmap string ProviderInstance.t :=
  fold_left (fun m p => if ours p then <[ProviderInstance.ID p := p]> m else m) instances ∅.

Definition handleOrphan (prov : Provider.t W) (providerID : string) (instance : ProviderInstance.t)
    : M W unit :=
  let session := InstanceTags.ShopperSessionID (ProviderInstance.Tags instance) in
  do! emit (Count OrphansFound) in
  do! emit (Audit "orphan_detected" [Provider.Name prov; providerID; session]) in
  do! emit (Prom "RecordOrphanDetected" []) in
  do! emit (OnOrphanFound (Provider.Name prov) providerID session) in
  if ReconcilerConfig.autoDestroyOrphans cfg then
    let! e := Provider.DestroyInstance prov providerID in
    match e with
    | Some _ => emit (Prom "RecordDestroyFailure" [])
    | None =>
        do! emit (Audit "orphan_destroyed" [Provider.Name prov; providerID; session]) in
        emit (Count OrphansDestroyed)
    end
  else skip.

(** The session a ghost is turned into. *)
Definition ghost_stopped (t : time) (s : Session.t) : Session.t :=
  let s := Session.set_Status StatusStopped s in
  let s := Session.set_Error "Instance not found on provider during reconciliation" s in
  Session.set_StoppedAt t s.

Definition handleGhost (s : Session.t) : M W unit :=
  if negb (bool_decide (Session.Status s = StatusRunning)) &&
     negb (bool_decide (Session.Status s = StatusProvisioning))
  then skip
  else
    let! t := now in
    if (Sub t (Session.CreatedAt s) <? ghostGracePeriod)%Z then skip
    else
      do! emit (Count GhostsFound) in
      do! emit (Audit "ghost_detected" [Session.ID s]) in
      do! emit (Prom "RecordGhostDetected" []) in
      do! emit (OnGhostFound (Session.ID s)) in
      let! t' := now in
      let! e := Update (ghost_stopped t' s) in
      match e with
      | Some _ => skip
      | None =>
          do! emit (Audit "ghost_fixed" [Session.ID s]) in
          do! emit (Prom "UpdateSessionStatus"
                      [Session.Provider s; status_string (Session.Status s);
                       status_string StatusStopped]) in
          emit (Count GhostsFixed)
      end.

Definition reconcileProvider (providerName : string) : M W (option error) :=
  match Registry.Get registry providerName with
  | Err e => ret (Some e)
  | Ok prov =>
      let! r := Provider.ListAllInstances prov in
      match r with
      | Err e => ret (Some e)
      | Ok instances =>
          let! r := GetActiveSessionsByProvider providerName in
          match r with
          | Err e => ret (Some e)
          | Ok sessions =>
              let locals := localMap sessions in
              let remotes := providerMap instances in
              do! for_each (range_map _ remotes) (fun kv =>
                    if bool_decide (locals !! kv.1 = None) then handleOrphan prov kv.1 kv.2 else skip) in
              do! for_each (range_map _ locals) (fun kv =>
                    if bool_decide (remotes !! kv.1 = None) then handleGhost kv.2 else skip) in
              ret None
          end
      end
  end.

Definition RunReconciliation : M W unit :=
  do! emit (Count ReconciliationsRun) in
  for_each (Registry.List registry) (fun providerName =>
    let! e := reconcileProvider providerName in
    match e with
    | Some err => do! emit (Count ReconcileErrors) in emit (OnReconcileError providerName err)
    | None => skip
    end).

(** [RecoverStuckSessions]: one stuck session, one failed session, the whole.  The
    errors of [Update] are dropped, as in the code. *)
Definition update_ignored (s : Session.t) : M W unit := let! _e := Update s in skip.

(** What a running instance's status says of its SSH address. *)
Definition recovered_ssh (status : InstanceStatus.t) (s : Session.t) : Session.t :=
  let s := Session.set_Status StatusRunning s in
  let s := if bool_decide (InstanceStatus.SSHHost status = "") then s
           else Session.set_SSHHost (InstanceStatus.SSHHost status) s in
  let s := if (InstanceStatus.SSHPort status =? 0)%Z then s
           else Session.set_SSHPort (InstanceStatus.SSHPort status) s in
  if bool_decide (InstanceStatus.SSHUser status = "") then s
  else Session.set_SSHUser (InstanceStatus.SSHUser status) s.

Definition recover_stuck_body (s : Session.t) : M W unit :=
  match Registry.Get registry (Session.Provider s) with
  | Err _ => skip
  | Ok prov =>
      if bool_decide (Session.ProviderID s = "") then
        let! t := now in
        update_ignored (Session.set_StoppedAt t
          (Session.set_Error "Provisioning failed - no provider instance ID"
             (Session.set_Status StatusFailed s)))
      else
        let! r := Provider.GetInstanceStatus prov (Session.ProviderID s) in
        match r with
        | Err _ =>
            let! t := now in
            update_ignored (Session.set_StoppedAt t
              (if bool_decide (Session.Status s = StatusProvisioning)
               then Session.set_Error "Instance not found after restart"
                      (Session.set_Status StatusFailed s)
               else Session.set_Status StatusStopped s))
        | Ok status =>
            if InstanceStatus.Running status then
              if bool_decide (Session.Status s = StatusProvisioning)
              then update_ignored (recovered_ssh status s)
              else let! _e := Provider.DestroyInstance prov (Session.ProviderID s) in skip
            else
              let! t := now in
              update_ignored (Session.set_StoppedAt t (Session.set_Status StatusStopped s))
        end
  end.

Definition recover_failed_body (s : Session.t) : M W unit :=
  if bool_decide (Session.ProviderID s = "") then skip
  else
    match Registry.Get registry (Session.Provider s) with
    | Err _ => skip
    | Ok prov =>
        let! r := Provider.GetInstanceStatus prov (Session.ProviderID s) in
        match r with
        | Err _ => update_ignored (Session.set_ProviderID "" s)
        | Ok status =>
            if InstanceStatus.Running status then
              let! e := Provider.DestroyInstance prov (Session.ProviderID s) in
              match e with
              | Some _ => skip
              | None =>
                  let! t := now in
                  update_ignored (Session.set_StoppedAt t
                    (Session.set_Status StatusStopped (Session.set_ProviderID "" s)))
              end
            else update_ignored (Session.set_ProviderID "" s)
        end
    end.

Definition RecoverStuckSessions : M W (option error) :=
  let! r := GetSessionsByStatus [StatusProvisioning; StatusStopping] in
  match r with
  | Err e => ret (Some e)
  | Ok stuckSessions =>
      do! for_each stuckSessions recover_stuck_body in
      let! r := GetSessionsByStatus [StatusFailed] in
      match r with
      | Err _ => ret None
      | Ok failedSessions => do! for_each failedSessions recover_failed_body in ret None
      end
  end.
End Reconciler.

Lemma elem_of_keys {A} (m : gmap string A) i : i ∈ (map_to_list m).*1 <-> is_Some (m !! i).
Proof.
  rewrite list_elem_of_fmap. split.
  - intros ([j x] & -> & Hx%elem_of_map_to_list). by exists x.
  - intros [x Hx%elem_of_map_to_list]. by exists (i, x).
Qed.

(** ** The two maps *)
Section Maps.
Context (cfg : ReconcilerConfig.t).

Lemma localMap_fold sessions (m : gmap string Session.t) pid s :
  fold_left (fun m s => if bool_decide (Session.ProviderID s = "") then m
               else <[Session.ProviderID s := s]> m) sessions m !! pid = Some s ->
  m !! pid = Some s \/ (s ∈ sessions /\ Session.ProviderID s = pid /\ pid <> "").
Proof.
  revert m. induction sessions as [|x sessions IH]; intros m; [by left|]. intros Hf.
  destruct (IH _ Hf) as [Hm|(Hs & Hp)]; [|right; split; [by right|done]].
  case_bool_decide as Hx; [by left|].
  apply lookup_insert_Some in Hm as [[<- <-]|[_ Hm]]; [|by left]. right. split; [by left|done].
Qed.

Lemma localMap_Some sessions pid s :
  localMap sessions !! pid = Some s -> s ∈ sessions /\ Session.ProviderID s = pid /\ pid <> "".
Proof. intros [Hm|H]%localMap_fold; [by rewrite lookup_empty in Hm|done]. Qed.

Lemma localMap_is_Some sessions s :
  s ∈ sessions -> Session.ProviderID s <> "" -> is_Some (localMap sessions !! Session.ProviderID s).
Proof.
  intros Hs Hp. unfold localMap.
  assert (Hgen : forall l (m : gmap string Session.t), s ∈ l \/ is_Some (m !! Session.ProviderID s) ->
    is_Some (fold_left (fun m s => if bool_decide (Session.ProviderID s = "") then m
               else <[Session.ProviderID s := s]> m) l m !! Session.ProviderID s)); [|by apply Hgen; left].
  clear Hs. induction l as [|x l IH]; intros m Hm; [destruct Hm as [Hm|]; [by apply elem_of_nil in Hm|done]|].
  apply IH. destruct Hm as [Hm|Hm].
  - apply elem_of_cons in Hm as [<-|Hm]; [|by left]. right. rewrite bool_decide_false by done.
    rewrite lookup_insert_eq. by eexists.
  - right. case_bool_decide; [done|]. rewrite lookup_insert_is_Some'. by right.
Qed.

(** An instance of the account that the reconciler takes for this deployment's. *)
Definition listed (instances : list ProviderInstance.t) (i : string) : Prop :=
  exists p, p ∈ instances /\ ours cfg p = true /\ ProviderInstance.ID p = i.

Lemma providerMap_is_Some instances i :
  is_Some (providerMap cfg instances !! i) <-> listed instances i.
Proof.
  unfold providerMap, listed.
  assert (Hgen : forall l (m : gmap string ProviderInstance.t), is_Some (fold_left (fun m p => if ours cfg p then
      <[ProviderInstance.ID p := p]> m else m) l m !! i) <->
    is_Some (m !! i) \/ exists p, p ∈ l /\ ours cfg p = true /\ ProviderInstance.ID p = i).
  { induction l as [|x l IH]; intros m; cbn.
    - split; [by left|]. intros [|(p & Hp & _)]; [done|]. by apply elem_of_nil in Hp.
    - rewrite IH. destruct (ours cfg x) eqn:Ho.
      + rewrite lookup_insert_is_Some'. split.
        * intros [[Hx|Hm]|(p & Hp & Hq)]; [right; exists x; split; [by left|done]|by left|].
          right. exists p. split; [by right|done].
        * intros [Hm|(p & [->|Hp]%elem_of_cons & Hq & Hi)]; [by left; right|by left; left|right; by exists p].
      + split.
        * intros [Hm|(p & Hp & Hq)]; [by left|]. right. exists p. split; [by right|done].
        * intros [Hm|(p & [->|Hp]%elem_of_cons & Hq & Hi)]; [by left|congruence|right; by exists p]. }
  rewrite Hgen, lookup_empty. split; [intros [[? [=]]|]; done|by right].
Qed.
End Maps.

Section ForEach.
Context {W A : Type}.
Lemma for_each_ext (l : list A) (f g : A -> M W unit) :
  (forall x, x ∈ l -> f x = g x) -> for_each l f = for_each l g.
Proof.
  induction l as [|x l IH]; intros Hx; [done|]. cbn. rewrite Hx by by left.
  f_equal. rewrite IH; [done|]. intros y Hy. apply Hx. by right.
Qed.

Lemma for_each_fmap {B} (h : B -> A) (l : list B) (f : A -> M W unit) :
  for_each (h <$> l) f = for_each l (fun x => f (h x)).
Proof. induction l as [|x l IH]; [done|]. cbn. by rewrite IH. Qed.
End ForEach.

Section Proofs.
Context {W : Type} `{SessionStore W} `{Env W} `{MapRange} `{Ghost W} `{CallLog W}.
Context (cfg : ReconcilerConfig.t) (registry : gmap string (Provider.t W)).
Context `{!StoreLaws W} `{!EnvLaws W} `{!MapRangeLaws} `{!ProviderLaws W registry}.
Context `{!CallLogLaws W registry}.

(** The provider of an active session counts its instance as accounted for. *)
Definition accounted (w : W) (name i : string) : Prop :=
  exists id s, sess_view w !! id = Some s /\ Session.IsActive s = true /\
    Session.Provider s = name /\ Session.ProviderID s = i /\ i <> "".

Definition active_of (w : W) (name : string) (l : list Session.t) : Prop :=
  NoDup (Session.ID <$> l) /\
  forall s, s ∈ l <-> sess_view w !! Session.ID s = Some s /\ Session.IsActive s = true /\
                 Session.Provider s = name.

Lemma active_status s : Session.IsActive s = bool_decide (Session.Status s ∈ active_statuses).
Proof. by destruct s as [? ? ? ? ? ? ? []]. Qed.

Lemma wp_active_by_provider name (Q : result (list Session.t) -> W -> Prop) w :
  name <> "" ->
  (forall e w', quiet w w' -> destroy_calls w' = destroy_calls w -> ~ healthy w -> Q (Err e) w') ->
  (forall l w', quiet w w' -> destroy_calls w' = destroy_calls w -> active_of w name l -> Q (Ok l) w') ->
  wp (GetActiveSessionsByProvider name) Q w.
Proof.
  intros Hn He Ho. eapply wp_mono; [apply wp_and; [apply List_spec|apply list_silent]|].
  intros [l|e] w' [[Hq Hr] Hd]; [|by apply He]. destruct Hr as (Hnd & Hs & Hc). apply Ho; [done|done|].
  split; [done|]. intros s.
  assert (Hm : SessionFilter.matches (SessionFilter.mk "" name "" active_statuses zero_time false 0) s =
            bool_decide (Session.Provider s = name) && Session.IsActive s).
  { unfold SessionFilter.matches. cbn. rewrite (bool_decide_false (name = "")) by done. cbn.
    by rewrite !andb_true_r, active_status. }
  split.
  - intros [Hv Hx]%Hs. rewrite Hm in Hx. apply andb_true_iff in Hx as [Hx Ha].
    by apply bool_decide_eq_true in Hx.
  - intros (Hv & Ha & Hx). eapply Hc; [done|exact Hv|]. by rewrite Hm, Ha, bool_decide_true.
Qed.

Lemma localMap_accounted w name l i :
  active_of w name l -> localMap l !! i = None <-> ~ accounted w name i.
Proof.
  intros [_ Hl]. rewrite eq_None_not_Some. apply not_iff_compat. split.
  - intros [s (Hs & Hp & Hi)%localMap_Some]. apply Hl in Hs as (Hv & Ha & Hn).
    by exists (Session.ID s), s.
  - intros (id & s & Hv & Ha & Hn & <- & Hi). apply localMap_is_Some; [|done]. apply Hl.
    by rewrite (view_id _ _ _ Hv).
Qed.

(** *** Orphans *)
Lemma wp_handleOrphan n prov i p (Q : unit -> W -> Prop) w :
  registry !! n = Some prov ->
  (forall w', quiet w w' ->
     destroy_calls w' = (if ReconcilerConfig.autoDestroyOrphans cfg then {[i]} ∪ destroy_calls w
                         else destroy_calls w) -> Q tt w') ->
  wp (handleOrphan cfg prov i p) Q w.
Proof.
  intros Hp HQ. unfold handleOrphan.
  assert (Hemit : forall e (k : M W unit) v P, quiet w v -> destroy_calls v = destroy_calls w ->
    (forall v', quiet w v' -> destroy_calls v' = destroy_calls w -> wp k P v') ->
    wp (do! emit e in k) P v).
  { intros e k v P Hv Hd Hk. apply wp_bind.
    eapply wp_mono; [apply wp_and; [apply emit_frame|apply emit_silent]|].
    intros u v' [Hq Hs]. apply Hk; [by etrans|congruence]. }
  apply Hemit; [done|done|]. intros w1 Hq1 Hd1. apply Hemit; [done|done|]. intros w2 Hq2 Hd2.
  apply Hemit; [done|done|]. intros w3 Hq3 Hd3. apply Hemit; [done|done|]. intros w4 Hq4 Hd4.
  destruct (ReconcilerConfig.autoDestroyOrphans cfg); [|by apply wp_ret, HQ].
  apply wp_bind. destruct (prov_frame _ _ Hp) as (_ & _ & _ & Hfr & _).
  eapply wp_mono; [apply wp_and; [apply Hfr|by eapply destroy_logged]|].
  intros e w5 [Hq5 Hd5]. rewrite Hd4 in Hd5.
  assert (Hlast : forall ev v, quiet w v -> destroy_calls v = {[i]} ∪ destroy_calls w -> wp (emit ev) Q v).
  { intros ev v Hv Hdv. eapply wp_mono; [apply wp_and; [apply emit_frame|apply emit_silent]|].
    intros [] v' [Hq Hs]. apply HQ; [by etrans|congruence]. }
  assert (Hq5' : quiet w w5) by by etrans.
  destruct e as [e|]; [by apply Hlast|].
  apply wp_bind. eapply wp_mono; [apply wp_and; [apply emit_frame|apply emit_silent]|].
  intros u w6 [Hq6 Hd6]. apply Hlast; [by etrans|congruence].
Qed.

Lemma wp_orphans n prov locals (l : list (string * ProviderInstance.t)) w :
  registry !! n = Some prov ->
  wp (for_each l (fun kv => if bool_decide ((locals : gmap string Session.t) !! kv.1 = None)
                       then handleOrphan cfg prov kv.1 kv.2 else skip))
    (fun _ w' => quiet w w' /\
       forall i, i ∈ destroy_calls w' <-> i ∈ destroy_calls w \/
         (ReconcilerConfig.autoDestroyOrphans cfg = true /\ i ∈ l.*1 /\ locals !! i = None)) w.
Proof.
  intros Hp. apply (wp_for_each (fun pre w' => quiet w w' /\
    forall i, i ∈ destroy_calls w' <-> i ∈ destroy_calls w \/
      (ReconcilerConfig.autoDestroyOrphans cfg = true /\ i ∈ pre.*1 /\ locals !! i = None))).
  { split; [done|]. intros i. split; [by left|]. intros [|(_ & Hi & _)]; [done|by apply elem_of_nil in Hi]. }
  intros pre [i p] post v -> [Hq Hd]. cbn [fst snd]. case_bool_decide as Hl.
  - eapply wp_handleOrphan; [exact Hp|]. intros v' Hq' Hd'. split; [by etrans|]. intros j.
    rewrite Hd', fmap_app, elem_of_app. cbn. rewrite list_elem_of_singleton.
    destruct (ReconcilerConfig.autoDestroyOrphans cfg).
    + rewrite elem_of_union, elem_of_singleton, Hd. destruct (decide (j = i)) as [->|]; tauto.
    + rewrite Hd. split; (intros [?|[[=] _]]; by left).
  - apply wp_ret. split; [done|]. intros j. rewrite Hd, fmap_app, elem_of_app. cbn.
    rewrite list_elem_of_singleton. destruct (decide (j = i)) as [->|]; tauto.
Qed.

(** *** Ghosts *)
Definition ghost_at (remotes : gmap string ProviderInstance.t) (t : time) (s : Session.t) : Prop :=
  remotes !! Session.ProviderID s = None /\
  (Session.Status s = StatusRunning \/ Session.Status s = StatusProvisioning) /\
  (ghostGracePeriod <= Sub t (Session.CreatedAt s))%Z.

(** A session the loop over the ghosts meets from the state [w] on. *)
Definition ghost_outcome (w : W) (remotes : gmap string ProviderInstance.t) (s s' : Session.t) : Prop :=
  (s' = s /\ (healthy w -> ~ ghost_at remotes (clock w) s)) \/
  exists t t', (clock w <= t <= t')%Z /\ ghost_at remotes t s /\ s' = ghost_stopped t' s.

Lemma ghost_at_mono remotes t u s : (t <= u)%Z -> ghost_at remotes t s -> ghost_at remotes u s.
Proof. unfold ghost_at, Sub. intros Ht (Hr & Hs & Ha). split; [done|split; [done|lia]]. Qed.

Lemma wp_handleGhost remotes s v :
  sess_view v !! Session.ID s = Some s ->
  wp (if bool_decide (remotes !! Session.ProviderID s = None) then handleGhost s else skip)
    (fun _ v' => later v v' /\
       (forall j, j <> Session.ID s -> sess_view v' !! j = sess_view v !! j) /\
       exists s', sess_view v' !! Session.ID s = Some s' /\ ghost_outcome v remotes s s') v.
Proof.
  intros Hs.
  assert (Hskip : forall v', quiet v v' -> ~ ghost_at remotes (clock v) s ->
    later v v' /\ (forall j, j <> Session.ID s -> sess_view v' !! j = sess_view v !! j) /\
    exists s', sess_view v' !! Session.ID s = Some s' /\ ghost_outcome v remotes s s').
  { intros v' [Hv Hl] Hn. split; [done|]. split; [by rewrite Hv|]. exists s. rewrite Hv.
    split; [done|]. by left. }
  case_bool_decide as Hr; [|apply wp_ret, Hskip; [done|by intros (? & _)]].
  unfold handleGhost.
  destruct (negb (bool_decide (Session.Status s = StatusRunning)) && _) eqn:Hst.
  { apply wp_ret, Hskip; [done|]. intros (_ & Hx & _). apply andb_true_iff in Hst as [Hn1 Hn2].
    apply negb_true_iff, bool_decide_eq_false in Hn1, Hn2. tauto. }
  apply wp_bind. eapply wp_mono; [apply now_spec|]. intros t v1 [Hq1 Ht1].
  destruct (Z.ltb_spec (Sub t (Session.CreatedAt s)) ghostGracePeriod) as [Hyoung|Hold].
  { apply wp_ret, Hskip; [done|]. intros (_ & _ & Ha). unfold Sub in *. lia. }
  assert (Hghost : ghost_at remotes t s).
  { split; [done|]. split; [|done]. apply andb_false_iff in Hst as [Hx|Hx];
    apply negb_false_iff, bool_decide_eq_true in Hx; auto. }
  wp_emit. assert (Hq' : quiet v v4 /\ (clock v1 <= clock v4)%Z) by (split; [by etrans|apply Hq]).
  apply wp_bind. eapply wp_mono; [apply now_spec|]. intros t' v5 [Hq5 Ht5].
  destruct Hq' as [[Hv Hl] Hc]. destruct Hq5 as [Hv5 Hl5].
  assert (Hold5 : sess_view v5 !! Session.ID s = Some s) by congruence.
  assert (Hlv5 : later v v5) by by etrans.
  assert (Hout : ghost_outcome v remotes s (ghost_stopped t' s)).
  { right. exists t, t'. split; [|done]. destruct Hl as [Hl _]. lia. }
  apply wp_bind. eapply (wp_write_back s); [done|done| |].
  - intros v6 Hl6 Hv6.
    assert (Hst6 : updated_by s (ghost_stopped t' s) = ghost_stopped t' s) by by destruct s.
    rewrite Hst6 in Hv6. wp_emit. eapply wp_mono; [apply emit_frame|].
    intros u v9 Hq9. destruct (transitivity Hq0 Hq9) as [Hv9 Hl9].
    split; [by etrans; [|etrans]|]. rewrite Hv9, Hv6, Hv5, Hv. split.
    + intros j Hj. by rewrite lookup_insert_ne.
    + exists (ghost_stopped t' s). by rewrite lookup_insert_eq.
  - intros e v6 Hl6 Hv6 Hh. apply wp_ret. split; [by etrans|]. rewrite Hv6, Hv5, Hv. split; [done|].
    exists s. split; [done|]. left. split; [done|]. intros Hw _.
    destruct Hlv5 as [_ Hlv5]. by destruct (Hh (Hlv5 Hw)).
Qed.

Lemma silent_for_each {A} (l : list A) (body : A -> M W unit) :
  (forall x, x ∈ l -> silent (body x)) -> silent (for_each l body).
Proof.
  intros Hb w. apply (wp_for_each_inv (fun v => destroy_calls v = destroy_calls w)); [done|].
  intros x v Hx Hv. eapply wp_mono; [by apply Hb|]. intros u v' Hv'. congruence.
Qed.

Lemma handleGhost_silent s : silent (handleGhost s).
Proof.
  unfold handleGhost. destruct (_ && _); [apply silent_ret|].
  apply silent_bind; [apply now_silent|]. intros t. destruct (_ <? _)%Z; [apply silent_ret|].
  repeat (apply silent_bind; [apply emit_silent|intros _]).
  apply silent_bind; [apply now_silent|]. intros t'.
  apply silent_bind; [apply update_silent|]. intros [e|]; [apply silent_ret|].
  repeat (apply silent_bind; [apply emit_silent|intros _]). apply emit_silent.
Qed.

Lemma NoDup_ghosts l (r : list (string * Session.t)) :
  NoDup (Session.ID <$> l) -> r ≡ₚ map_to_list (localMap l) -> NoDup (Session.ID <$> r.*2).
Proof.
  intros Hl ->. rewrite <-list_fmap_compose.
  assert (Hin : forall kv, kv ∈ map_to_list (localMap l) -> kv.2 ∈ l /\ Session.ProviderID kv.2 = kv.1).
  { intros [i s] Hx%elem_of_map_to_list. by apply localMap_Some in Hx as (? & ? & _). }
  pose proof (NoDup_map_to_list (localMap l)) as Hnd.
  apply NoDup_fmap_2_strong; [|done]. intros [i s] [j u] Hi Hj Heq. cbn in Heq.
  apply Hin in Hi as [Hi Hip], Hj as [Hj Hjp]. cbn in *.
  assert (s = u) as ->; [|congruence].
  clear -Hl Hi Hj Heq. induction l as [|x l IH]; [by apply elem_of_nil in Hi|].
  apply NoDup_cons in Hl as [Hx Hl]. apply elem_of_cons in Hi as [->|Hi], Hj as [->|Hj]; auto.
  - destruct Hx. rewrite Heq. by apply list_elem_of_fmap_2.
  - destruct Hx. rewrite <-Heq. by apply list_elem_of_fmap_2.
Qed.

(** The loop over the ghosts, on the sessions of the map. *)
Lemma wp_ghosts name l remotes w :
  active_of w name l ->
  wp (for_each (range_map _ (localMap l)) (fun kv =>
        if bool_decide ((remotes : gmap string ProviderInstance.t) !! kv.1 = None)
        then handleGhost kv.2 else skip))
    (fun _ w' => later w w' /\ destroy_calls w' = destroy_calls w /\
       (forall i s, localMap l !! i = Some s ->
          exists s' v, later w v /\ sess_view w' !! Session.ID s = Some s' /\ ghost_outcome v remotes s s') /\
       (forall s, sess_view w !! Session.ID s = Some s ->
          (forall i, localMap l !! i <> Some s) -> sess_view w' !! Session.ID s = Some s)) w.
Proof.
  intros [Hnd Hl].
  assert (Hin : forall i s, (i, s) ∈ range_map _ (localMap l) <-> localMap l !! i = Some s).
  { intros i s. by rewrite range_map_perm, elem_of_map_to_list. }
  assert (Heq : for_each (range_map _ (localMap l)) (fun kv =>
            if bool_decide (remotes !! kv.1 = None) then handleGhost kv.2 else skip) =
          for_each (range_map _ (localMap l)).*2 (fun s =>
            if bool_decide (remotes !! Session.ProviderID s = None) then handleGhost s else skip)).
  { rewrite for_each_fmap. apply for_each_ext. intros [i s] (_ & <- & _)%Hin%localMap_Some. done. }
  rewrite Heq. clear Heq.
  assert (Hmem : forall s, s ∈ (range_map _ (localMap l)).*2 <-> exists i, localMap l !! i = Some s).
  { intros s. rewrite list_elem_of_fmap. split.
    - intros ([i s'] & -> & Hx). exists i. by apply Hin.
    - intros [i Hx]. exists (i, s). split; [done|]. by apply Hin. }
  eapply wp_mono.
  { apply wp_and.
    - apply (wp_for_each_session (fun s s' => exists v, later w v /\ ghost_outcome v remotes s s')).
      + apply (NoDup_ghosts l); [done|apply range_map_perm].
      + intros s [i Hx]%Hmem. apply localMap_Some in Hx as (Hx & _ & _). by apply Hl.
      + intros s v _ Hv Hs. eapply wp_mono; [by apply wp_handleGhost|].
        intros u v' (Hl' & Ho & s' & Hs' & Hg). split; [done|]. split; [done|].
        exists s'. split; [done|]. by exists v.
    - apply silent_for_each. intros s _. case_bool_decide; [apply handleGhost_silent|apply silent_ret]. }
  intros u w' [(Hlater & Hdone & Hrest) Hd]. split; [done|]. split; [done|]. split.
  - intros i s Hx. destruct (Hdone s) as (s' & Hs' & v & Hv & Hg); [apply Hmem; by exists i|].
    by exists s', v.
  - intros s Hs Hn. apply Hrest; [done|]. intros [i Hx]%Hmem. by apply (Hn i).
Qed.

Lemma wp_reconcile name prov instances w :
  name <> "" -> registry !! name = Some prov ->
  fst (Provider.ListAllInstances prov w) = Ok instances ->
  wp (reconcileProvider cfg registry name) (fun e w' =>
    later w w' /\ (healthy w -> e = None) /\
    (e = None ->
       (forall i, i ∈ destroy_calls w' <-> i ∈ destroy_calls w \/
          (ReconcilerConfig.autoDestroyOrphans cfg = true /\ listed cfg instances i /\ ~ accounted w name i)) /\
       exists l, active_of w name l /\
       (forall i s, localMap l !! i = Some s -> exists s' v, later w v /\
          sess_view w' !! Session.ID s = Some s' /\ ghost_outcome v (providerMap cfg instances) s s') /\
       (forall s, sess_view w !! Session.ID s = Some s ->
          (forall i, localMap l !! i <> Some s) -> sess_view w' !! Session.ID s = Some s))) w.
Proof.
  intros Hn Hp Hi. unfold reconcileProvider, Registry.Get. rewrite Hp.
  destruct (prov_frame _ _ Hp) as (_ & Hfl & _). apply wp_bind.
  assert (Hr : wp (Provider.ListAllInstances prov) (fun r _ => r = Ok instances) w) by done.
  eapply wp_mono; [apply wp_and; [exact Hr|apply wp_and; [apply Hfl|by eapply instances_silent]]|].
  intros r w1 (-> & [Hv1 Hl1] & Hd1). apply wp_bind, wp_active_by_provider; [done| |].
  - intros e w2 [Hv2 Hl2] _ Hh. apply wp_ret. split; [by etrans|]. split; [|done].
    intros Hw. destruct Hh. by apply Hl1.
  - intros l w2 [Hv2 Hl2] Hd2 Ha. apply wp_bind.
    assert (Ha' : active_of w name l) by (unfold active_of in *; by rewrite <-Hv1).
    eapply wp_mono; [by eapply wp_orphans|]. intros u w3 [[Hv3 Hl3] Hd3]. apply wp_bind.
    assert (Ha3 : active_of w3 name l) by (unfold active_of in *; by rewrite Hv3, Hv2).
    eapply wp_mono; [by apply (wp_ghosts name)|]. intros u' w4 (Hl4 & Hd4 & Hg & Hrest).
    assert (Hw3 : later w w3) by (etrans; [done|by etrans]).
    apply wp_ret. split; [by etrans|]. split; [done|]. intros _. split.
    + intros i. rewrite Hd4, Hd3, Hd2, Hd1, (localMap_accounted w name) by done.
      rewrite range_map_perm, elem_of_keys, providerMap_is_Some. done.
    + exists l. split; [done|]. split.
      * intros i s Hx. destruct (Hg i s Hx) as (s' & v & Hv & Hs' & Ho). exists s', v.
        split; [by etrans|done].
      * intros s Hs. apply Hrest. by rewrite Hv3, Hv2, Hv1.
Qed.

(** C6.  Orphans: one pass over a provider destroys exactly the listed instances of this
    deployment that no active session of the provider names as its own, and, unless
    destroying orphans is switched off, all of them; on a healthy database it
    succeeds. *)
Theorem reconcileProvider_destroys_orphans (name : string) (prov : Provider.t W)
    (instances : list ProviderInstance.t) (w : W) :
  name <> "" -> registry !! name = Some prov ->
  fst (Provider.ListAllInstances prov w) = Ok instances ->
  wp (reconcileProvider cfg registry name) (fun e w' =>
    (healthy w -> e = None) /\
    (e = None -> forall i, i ∈ destroy_calls w' <-> i ∈ destroy_calls w \/
       (ReconcilerConfig.autoDestroyOrphans cfg = true /\ listed cfg instances i /\ ~ accounted w name i))) w.
Proof.
  intros Hn Hp Hi. eapply wp_mono; [by eapply wp_reconcile|].
  intros e w' (_ & Hh & He). split; [done|]. intros Hx. by apply He.
Qed.

(** What a pass does to the sessions. *)
Lemma reconcile_ghosts (name : string) (prov : Provider.t W)
    (instances : list ProviderInstance.t) (w : W) :
  name <> "" -> registry !! name = Some prov ->
  fst (Provider.ListAllInstances prov w) = Ok instances ->
  wp (reconcileProvider cfg registry name) (fun e w' =>
    e = None -> forall s, sess_view w !! Session.ID s = Some s ->
      let ghost t := Session.Provider s = name /\ Session.ProviderID s <> "" /\
                     ~ listed cfg instances (Session.ProviderID s) /\
                     (Session.Status s = StatusRunning \/ Session.Status s = StatusProvisioning) /\
                     (ghostGracePeriod <= Sub t (Session.CreatedAt s))%Z in
      let stopped s' := exists t t', (clock w <= t <= t')%Z /\ ghost t /\ s' = ghost_stopped t' s in
      exists s', sess_view w' !! Session.ID s = Some s' /\
        (s' = s \/ stopped s') /\
        (healthy w -> ghost (clock w) ->
         (forall x, sess_view w !! Session.ID x = Some x -> Session.IsActive x = true ->
            Session.Provider x = name -> Session.ProviderID x = Session.ProviderID s -> x = s) ->
         stopped s')) w.
Proof.
  intros Hn Hp Hi. eapply wp_mono; [by eapply wp_reconcile|].
  intros e w' (_ & _ & He) Hnone s Hs. destruct (He Hnone) as (_ & l & [Hnd Hl] & Hg & Hrest). cbv zeta.
  assert (Hlisted : providerMap cfg instances !! Session.ProviderID s = None <->
    ~ listed cfg instances (Session.ProviderID s)).
  { by rewrite <-providerMap_is_Some, eq_None_not_Some. }
  assert (Hdec : localMap l !! Session.ProviderID s = Some s \/ localMap l !! Session.ProviderID s <> Some s).
  { destruct (localMap l !! Session.ProviderID s) as [x|] eqn:Hx; [|by right].
    destruct (decide (Session.ID x = Session.ID s)) as [Heq|]; [|right; congruence].
    left. apply localMap_Some in Hx as (Hx & _ & _). apply Hl in Hx as (Hx & _ & _).
    rewrite Heq, Hs in Hx. congruence. }
  destruct Hdec as [Hin|Hout].
  - destruct (Hg _ _ Hin) as (s' & v & [Hv Hvh] & Hs' & Ho). exists s'. split; [done|].
    apply localMap_Some in Hin as (Hin & _ & Hpid). apply Hl in Hin as (_ & _ & Hname).
    destruct Ho as [[-> Hno]|(t & t' & Ht & (Hr & Hst & Hage) & ->)].
    + split; [by left|]. intros Hw (_ & _ & Hnl & Hst & Hage) _. exfalso. apply Hno; [auto|].
      split; [by apply Hlisted|]. split; [done|]. unfold Sub in *. lia.
    + split; [right|intros _ _ _]; exists t, t'; (split; [lia|]); by rewrite <-Hlisted.
  - exists s. split; [|split; [by left|]].
    + apply Hrest; [done|]. intros i Hx. pose proof Hx as Hy. apply localMap_Some in Hx as (_ & <- & _). done.
    + intros _ (Hname & Hpid & _ & Hst & _) Huniq. exfalso.
      assert (Ha : Session.IsActive s = true).
      { unfold Session.IsActive. by destruct Hst as [-> | ->]. }
      assert (Hsl : s ∈ l) by by apply Hl.
      destruct (localMap_is_Some l s Hsl Hpid) as [x Hx]. apply Hout. rewrite Hx. f_equal.
      apply localMap_Some in Hx as (Hxl & Hxp & _). apply Hl in Hxl as (Hxv & Hxa & Hxn). by apply Huniq.
Qed.

(** C17.  Ghosts: a pass over a provider changes no session except that it stops running
    and provisioning sessions of that provider, at least ten minutes old, whose
    instance is not listed; on a healthy database every such session is stopped (when
    no other active session of the provider names the same instance). *)
Theorem reconcileProvider_stops_ghosts (name : string) (prov : Provider.t W)
    (instances : list ProviderInstance.t) (w : W) :
  name <> "" -> registry !! name = Some prov ->
  fst (Provider.ListAllInstances prov w) = Ok instances ->
  wp (reconcileProvider cfg registry name) (fun e w' =>
    e = None -> forall s, sess_view w !! Session.ID s = Some s ->
      let ghost t := Session.Provider s = name /\ Session.ProviderID s <> "" /\
                     ~ listed cfg instances (Session.ProviderID s) /\
                     (Session.Status s = StatusRunning \/ Session.Status s = StatusProvisioning) /\
                     (ghostGracePeriod <= Sub t (Session.CreatedAt s))%Z in
      let stopped s' := exists t t', (clock w <= t <= t')%Z /\ ghost t /\ s' = ghost_stopped t' s in
      exists s', sess_view w' !! Session.ID s = Some s' /\
        (s' = s \/ stopped s') /\
        (healthy w -> ghost (clock w) ->
         (forall x, sess_view w !! Session.ID x = Some x -> Session.IsActive x = true ->
            Session.Provider x = name -> Session.ProviderID x = Session.ProviderID s -> x = s) ->
         stopped s')) w.
Proof. apply reconcile_ghosts. Qed.

(** A session that is old enough and keeps an instance of its own. *)
Definition stands_alone (name : string) (w : W) (s : Session.t) : Prop :=
  sess_view w !! Session.ID s = Some s /\ Session.Provider s = name /\ Session.ProviderID s <> "" /\
  (Session.Status s = StatusRunning \/ Session.Status s = StatusProvisioning) /\
  (ghostGracePeriod <= Sub (clock w) (Session.CreatedAt s))%Z /\
  (forall x, sess_view w !! Session.ID x = Some x -> Session.IsActive x = true ->
     Session.Provider x = name -> Session.ProviderID x = Session.ProviderID s -> x = s).

(** A list in which nothing counts as ours: no instance is destroyed, and every session
    that is old enough is stopped. *)
Lemma reconcile_unlisted name prov l w :
  name <> "" -> registry !! name = Some prov -> fst (Provider.ListAllInstances prov w) = Ok l ->
  (forall i, ~ listed cfg l i) ->
  wp (reconcileProvider cfg registry name) (fun e w' => e = None ->
    destroy_calls w' = destroy_calls w /\
    (healthy w -> forall s, stands_alone name w s ->
       exists s', sess_view w' !! Session.ID s = Some s' /\ Session.Status s' = StatusStopped)) w.
Proof.
  intros Hn Hreg Hok Hnot.
  eapply wp_mono; [apply wp_and; [by eapply wp_reconcile|by eapply reconcile_ghosts]|].
  intros e w' [(_ & _ & Hr) Hg] He. destruct (Hr He) as [Hd _]. split.
  - apply set_eq. intros i. rewrite Hd. split; [|by left]. intros [?|(_ & Hi & _)]; [done|by apply Hnot in Hi].
  - intros Hh s (Hs & Hp & Hid & Hst & Hage & Huniq). destruct (Hg He s Hs) as (s' & Hs' & _ & Hstop).
    destruct (Hstop Hh ltac:(by split_and!) Huniq) as (t & t' & _ & _ & ->). by exists (ghost_stopped t' s).
Qed.

(** *** Recovery after a restart *)

Context `{!StatusSilent W registry}.

(** The state of the outside world when the recovery starts. *)
Section Recovery.
Context (w0 : W).

(** Whether the destruction of the session's instance was asked for between two states. *)
Definition asked (s : Session.t) (d : bool) (v v' : W) : Prop :=
  destroy_calls v' = if d then {[Session.ProviderID s]} ∪ destroy_calls v else destroy_calls v.

(** The body of a recovery loop on the stored session [s]: nothing else changes, the
    session becomes some [s'], and the destruction of its instance is asked for or not
    ([d]), with [P s' d]; a database that fails leaves the session as it is. *)
Definition recovers (body : M W unit) (s : Session.t) (P : Session.t -> bool -> Prop) : Prop :=
  forall v, later w0 v -> sess_view v !! Session.ID s = Some s ->
    wp body (fun _ v' => later v v' /\
      (forall j, j <> Session.ID s -> sess_view v' !! j = sess_view v !! j) /\
      exists s' d, sess_view v' !! Session.ID s = Some s' /\ asked s d v v' /\
        (P s' d \/ (s' = s /\ ~ healthy v))) v.

Lemma recovers_skip s (P : Session.t -> bool -> Prop) : P s false -> recovers skip s P.
Proof.
  intros Hp v _ Hs. apply wp_ret. split; [done|]. split; [done|].
  exists s, false. split; [done|]. split; [done|by left].
Qed.

(** A call that leaves sessions and instances alone. *)
Lemma recovers_ask {A} (m : M W A) (k : A -> M W unit) s P :
  frame m -> silent m -> (forall v, later w0 v -> recovers (k (fst (m v))) s P) ->
  recovers (bind m k) s P.
Proof.
  intros Hm Hq Hk v Hw Hs. apply wp_bind. destruct (Hm v) as [Hv1 Hl1].
  pose proof (Hq v) as Hd. unfold wp in Hd.
  unfold wp at 1. eapply wp_mono; [apply (Hk v Hw); [by etrans|by rewrite Hv1]|].
  intros u v2 (Hl2 & Ho & s' & d & Hs' & Ha & HP).
  split; [by etrans|]. split; [intros j Hj; by rewrite Ho, Hv1|]. exists s', d. split; [done|].
  split; [by unfold asked in *; rewrite <-Hd|].
  destruct HP as [|[-> Hn]]; [by left|right]. split; [done|]. intros Hv. by apply Hn, Hl1.
Qed.

Lemma now_frame : frame now.
Proof. intros w. eapply wp_mono; [apply now_spec|]. by intros t w' []. Qed.

Lemma recovers_now (k : time -> M W unit) s P :
  (forall t, recovers (k t) s P) -> recovers (bind now k) s P.
Proof. intros Hk. apply recovers_ask; [apply now_frame|apply now_silent|done]. Qed.

Lemma recovers_update s s' (P : Session.t -> bool -> Prop) :
  Session.ID s' = Session.ID s -> updated_by s s' = s' ->
  (Session.IsActive s' = true -> Session.IsActive s = true) -> P s' false ->
  recovers (update_ignored s') s P.
Proof.
  intros Hid Hu Ha HP v _ Hs. apply wp_bind.
  eapply wp_mono; [apply wp_and; [apply (wp_write_back s s' (fun _ v' => later v v' /\
    exists s2, sess_view v' = <[Session.ID s := s2]> (sess_view v) /\
      (s2 = s' \/ (s2 = s /\ ~ healthy v))))|apply update_silent]|].
  - done.
  - done.
  - intros v1 Hl1 Hv1. rewrite Hu in Hv1. split; [done|]. exists s'. split; [done|by left].
  - intros e v1 Hl1 Hv1 Hh. split; [done|]. exists s. rewrite Hv1, insert_id by done.
    split; [done|]. right. split; [done|]. intros Hv. destruct (Hh Hv) as [Hx Hy].
    rewrite (Ha Hy) in Hx. done.
  - intros e v1 [(Hl1 & s2 & Hv1 & Hs2) Hd]. apply wp_ret. split; [done|]. rewrite Hv1. split.
    + intros j Hj. by rewrite lookup_insert_ne.
    + exists s2, false. rewrite lookup_insert_eq. split; [done|]. split; [done|].
      destruct Hs2 as [->|]; [by left|by right].
Qed.

(** Asking for the destruction, then something that leaves the instances alone. *)
Lemma recovers_destroy prov (k : option error -> M W unit) s (P : Session.t -> bool -> Prop) :
  registry !! Session.Provider s = Some prov ->
  (forall v, later w0 v ->
     recovers (k (fst (Provider.DestroyInstance prov (Session.ProviderID s) v))) s
              (fun s' d => d = false /\ P s' true)) ->
  recovers (bind (Provider.DestroyInstance prov (Session.ProviderID s)) k) s P.
Proof.
  intros Hp Hk v Hw Hs. apply wp_bind.
  destruct (prov_frame _ _ Hp) as (_ & _ & _ & Hf & _).
  destruct (Hf (Session.ProviderID s) v) as [Hv1 Hl1].
  pose proof (destroy_logged _ _ Hp (Session.ProviderID s) v) as Hd. unfold wp in Hd.
  unfold wp at 1. eapply wp_mono; [apply (Hk v Hw); [by etrans|by rewrite Hv1]|].
  intros u v2 (Hl2 & Ho & s' & d & Hs' & Ha & HP).
  split; [by etrans|]. split; [intros j Hj; by rewrite Ho, Hv1|].
  destruct HP as [[-> HP]|[-> Hn]].
  - exists s', true. split; [done|]. split; [|by left]. unfold asked in *. by rewrite Ha.
  - exists s. unfold asked in *. exists true. split; [done|].
    destruct d; (split; [rewrite Ha, Hd; set_solver|]); (right; split; [done|]);
      intros Hv; by apply Hn, Hl1.
Qed.

Definition registered (s : Session.t) : Prop := is_Some (registry !! Session.Provider s).

(** What the provider answered, at some point of the recovery, when asked about the
    session's instance. *)
Definition status_answer (s : Session.t) (r : result InstanceStatus.t) : Prop :=
  exists prov v, registry !! Session.Provider s = Some prov /\ later w0 v /\
    fst (Provider.GetInstanceStatus prov (Session.ProviderID s) v) = r.

Definition destroy_answer (s : Session.t) (e : option error) : Prop :=
  exists prov v, registry !! Session.Provider s = Some prov /\ later w0 v /\
    fst (Provider.DestroyInstance prov (Session.ProviderID s) v) = e.

Definition provision_failed (msg : string) (t : time) (s : Session.t) : Session.t :=
  Session.set_StoppedAt t (Session.set_Error msg (Session.set_Status StatusFailed s)).

Definition over (t : time) (s : Session.t) : Session.t :=
  Session.set_StoppedAt t (Session.set_Status StatusStopped s).

(** The provider says of an instance, at some point of the recovery, that it runs. *)
Definition still_runs (s : Session.t) : Prop :=
  Session.ProviderID s <> "" /\
  exists st, status_answer s (Ok st) /\ InstanceStatus.Running st = true.

(** The session [s'] that the recovery makes of a provisioning or stopping session, and
    whether it asks for the destruction of its instance. *)
Inductive stuck_outcome (s : Session.t) : Session.t -> bool -> Prop :=
| so_unregistered : ~ registered s -> stuck_outcome s s false
| so_no_instance t : registered s -> Session.ProviderID s = "" ->
    stuck_outcome s (provision_failed "Provisioning failed - no provider instance ID" t s) false
| so_lost e t : Session.ProviderID s <> "" -> status_answer s (Err e) ->
    stuck_outcome s (if bool_decide (Session.Status s = StatusProvisioning)
                     then provision_failed "Instance not found after restart" t s else over t s) false
| so_up st : Session.Status s = StatusProvisioning ->
    Session.ProviderID s <> "" -> status_answer s (Ok st) -> InstanceStatus.Running st = true ->
    stuck_outcome s (recovered_ssh st s) false
| so_asked : Session.Status s = StatusStopping -> still_runs s -> stuck_outcome s s true
| so_stopped st t : Session.ProviderID s <> "" -> status_answer s (Ok st) ->
    InstanceStatus.Running st = false -> stuck_outcome s (over t s) false.

(** The session [s'] that it makes of a failed session. *)
Inductive failed_outcome (s : Session.t) : Session.t -> bool -> Prop :=
| fo_nothing : Session.ProviderID s = "" \/ ~ registered s -> failed_outcome s s false
| fo_gone r : Session.ProviderID s <> "" -> status_answer s r ->
    (forall st, r = Ok st -> InstanceStatus.Running st = false) ->
    failed_outcome s (Session.set_ProviderID "" s) false
| fo_kept e : still_runs s -> destroy_answer s (Some e) -> failed_outcome s s true
| fo_destroyed t : still_runs s -> destroy_answer s None ->
    failed_outcome s (over t (Session.set_ProviderID "" s)) true.

(** The two loops in turn: a session failed by the first is seen by the second. *)
Definition recovered (s s' : Session.t) (d : bool) : Prop :=
  exists s2 d1 d2, d = d1 || d2 /\
    (if bool_decide (Session.Status s ∈ [StatusProvisioning; StatusStopping])
     then stuck_outcome s s2 d1 else s2 = s /\ d1 = false) /\
    (if bool_decide (Session.Status s2 ∈ [StatusFailed])
     then failed_outcome s2 s' d2 else s' = s2 /\ d2 = false).

Lemma recovered_ssh_same st s :
  Session.ID (recovered_ssh st s) = Session.ID s /\
  updated_by s (recovered_ssh st s) = recovered_ssh st s.
Proof.
  unfold recovered_ssh. repeat first [case_bool_decide | destruct (_ =? _)%Z]; by destruct s.
Qed.

Lemma recovers_stuck_body s :
  Session.Status s = StatusProvisioning \/ Session.Status s = StatusStopping ->
  recovers (recover_stuck_body registry s) s (stuck_outcome s).
Proof.
  intros Hst. unfold recover_stuck_body, Registry.Get.
  destruct (registry !! Session.Provider s) as [prov|] eqn:Hp.
  2: { apply recovers_skip. constructor. intros [x Hx]. congruence. }
  destruct (prov_frame _ _ Hp) as (_ & _ & _ & _ & Hfg & _).
  assert (Hreg : registered s) by (by exists prov).
  case_bool_decide as Hpid.
  { apply recovers_now. intros t. apply recovers_update; try by destruct s. by constructor. }
  apply recovers_ask; [done|by eapply status_silent|]. intros v Hv.
  destruct (fst (Provider.GetInstanceStatus prov (Session.ProviderID s) v)) as [st|e] eqn:Ha.
  - assert (Hans : status_answer s (Ok st)) by (by exists prov, v).
    destruct (InstanceStatus.Running st) eqn:Hrun.
    + case_bool_decide as Hprov.
      * destruct (recovered_ssh_same st s) as [Hid Hu]. apply recovers_update; [done|done| |by apply so_up].
        intros _. unfold Session.IsActive. by rewrite Hprov.
      * destruct Hst as [|Hst]; [done|]. apply recovers_destroy; [done|]. intros _ _.
        apply recovers_skip. split; [done|]. apply so_asked; [done|]. split; [done|by exists st].
    + apply recovers_now. intros t. apply recovers_update; try by destruct s. by apply so_stopped with st.
  - apply recovers_now. intros t.
    pose proof (so_lost s e t Hpid (ex_intro _ prov (ex_intro _ v (conj Hp (conj Hv Ha))))) as Hout.
    case_bool_decide; apply recovers_update; try by destruct s.
Qed.

Lemma recovers_failed_body s :
  Session.Status s = StatusFailed -> recovers (recover_failed_body registry s) s (failed_outcome s).
Proof.
  intros Hst. unfold recover_failed_body, Registry.Get.
  case_bool_decide as Hpid; [apply recovers_skip; constructor; auto|].
  destruct (registry !! Session.Provider s) as [prov|] eqn:Hp.
  2: { apply recovers_skip. constructor. right. intros [x Hx]. congruence. }
  destruct (prov_frame _ _ Hp) as (_ & _ & _ & _ & Hfg & _).
  apply recovers_ask; [done|by eapply status_silent|]. intros v Hv.
  assert (Hclear : forall r, status_answer s r ->
    (forall st, r = Ok st -> InstanceStatus.Running st = false) ->
    recovers (update_ignored (Session.set_ProviderID "" s)) s (failed_outcome s)).
  { intros r Hr Hn. apply recovers_update; try by destruct s. by apply fo_gone with r. }
  destruct (fst (Provider.GetInstanceStatus prov (Session.ProviderID s) v)) as [st|e] eqn:Ha.
  2: { apply (Hclear (Err e)); [by exists prov, v|done]. }
  assert (Hans : status_answer s (Ok st)) by (by exists prov, v).
  destruct (InstanceStatus.Running st) eqn:Hrun; [|by apply (Hclear _ Hans); intros ? [= <-]].
  assert (Hrs : still_runs s) by (split; [done|by exists st]).
  apply recovers_destroy; [done|]. intros v' Hv'.
  destruct (fst (Provider.DestroyInstance prov (Session.ProviderID s) v')) as [e|] eqn:Hd.
  - apply recovers_skip. split; [done|]. apply fo_kept with e; [done|]. by exists prov, v'.
  - apply recovers_now. intros t. apply recovers_update; try by destruct s.
    split; [done|]. apply fo_destroyed; [done|]. by exists prov, v'.
Qed.

(** What a recovery loop makes of the sessions of a list. *)
Definition loop_outcome (P : Session.t -> Session.t -> bool -> Prop) (l : list Session.t) (v v' : W) : Prop :=
  (forall s, s ∈ l -> exists s' d, sess_view v' !! Session.ID s = Some s' /\
     (P s s' d \/ (s' = s /\ ~ healthy v)) /\ (d = true -> Session.ProviderID s ∈ destroy_calls v')) /\
  destroy_calls v ⊆ destroy_calls v' /\
  (forall i, i ∈ destroy_calls v' -> i ∈ destroy_calls v \/
     exists s s', s ∈ l /\ Session.ProviderID s = i /\ sess_view v' !! Session.ID s = Some s' /\
       (P s s' true \/ ~ healthy v)) /\
  (forall j, j ∉ Session.ID <$> l -> sess_view v' !! j = sess_view v !! j).

(** A recovery loop over sessions that are stored. *)
Lemma wp_recovery_loop (P : Session.t -> Session.t -> bool -> Prop) (body : Session.t -> M W unit) l w :
  later w0 w -> NoDup (Session.ID <$> l) ->
  (forall s, s ∈ l -> sess_view w !! Session.ID s = Some s /\ recovers (body s) s (P s)) ->
  wp (for_each l body) (fun _ w' => later w w' /\ loop_outcome P l w w') w.
Proof.
  intros Hw Hnd Hb.
  apply (wp_for_each (fun pre v => later w v /\ loop_outcome P pre w v)).
  { split; [done|]. split; [by intros s []%elem_of_nil|]. split; [done|]. split; [by left|done]. }
  intros pre x post v -> (Hl & Hpre & Hup & Hcalls & Hrest).
  rewrite fmap_app, fmap_cons, NoDup_app, NoDup_cons in Hnd. destruct Hnd as (_ & Hdis & Hx & _).
  assert (Session.ID x ∉ Session.ID <$> pre) as Hxpre by (intros Hx'; apply (Hdis _ Hx'); by left).
  destruct (Hb x) as [Hxs Hxb]; [set_solver|].
  eapply wp_mono; [apply Hxb; [by etrans|by rewrite Hrest]|].
  intros _ v' (Hl' & Ho & x' & d & Hx' & Ha & HP). split; [by etrans|].
  assert (forall s, s ∈ pre -> sess_view v' !! Session.ID s = sess_view v !! Session.ID s) as Hsame.
  { intros s Hs. apply Ho. intros Heq. apply Hxpre. rewrite <-Heq. by apply list_elem_of_fmap_2. }
  assert (destroy_calls v ⊆ destroy_calls v') as Hmono by (rewrite Ha; destruct d; set_solver).
  assert (P x x' d \/ (x' = x /\ ~ healthy w)) as HPw.
  { destruct HP as [|[-> Hn]]; [by left|right]. split; [done|]. intros Hh. by apply Hn, Hl. }
  split_and!.
  - intros s [Hs| ->%list_elem_of_singleton]%elem_of_app.
    + destruct (Hpre s Hs) as (s' & ds & Hs' & Hps & Hds). exists s', ds. rewrite Hsame by done.
      split; [done|]. split; [done|]. intros Hd. by apply Hmono, Hds.
    + exists x', d. split; [done|]. split; [done|]. intros ->. rewrite Ha. set_solver.
  - by etrans.
  - intros i Hi. assert (i ∈ destroy_calls v \/ (d = true /\ i = Session.ProviderID x)) as [Hiv|[-> ->]].
    { rewrite Ha in Hi. destruct d; [|by left]. apply elem_of_union in Hi as [->%elem_of_singleton|]; auto. }
    + destruct (Hcalls i Hiv) as [|(s & s' & Hs & Hi' & Hs' & Hps)]; [by left|right].
      exists s, s'. rewrite Hsame by done. split; [by apply elem_of_app; left|done].
    + right. exists x, x'. split; [by apply elem_of_app; right; left|]. split; [done|]. split; [done|].
      destruct HPw as [|[_ Hn]]; [by left|by right].
  - intros j. rewrite fmap_app, elem_of_app. intros Hj. rewrite Ho; [apply Hrest; tauto|].
    intros ->. apply Hj. right. by left.
Qed.

(** Where the recovery leaves a session, read off the outcomes. *)
Definition settled (w' : W) (s s' : Session.t) : Prop :=
  (~ registered s -> s' = s) /\
  (registered s ->
   match Session.Status s with
   | StatusProvisioning =>
       Session.Status s' = StatusRunning \/ Session.Status s' = StatusFailed \/ Session.Status s' = StatusStopped
   | StatusStopping =>
       (Session.Status s' = StatusFailed /\ Session.ProviderID s = "") \/ Session.Status s' = StatusStopped \/
       (s' = s /\ still_runs s /\ Session.ProviderID s ∈ destroy_calls w')
   | StatusFailed =>
       Session.ProviderID s' = "" \/
       (s' = s /\ still_runs s /\ Session.ProviderID s ∈ destroy_calls w')
   | _ => s' = s
   end).

Lemma recovered_settled w' s s' d :
  recovered s s' d -> (d = true -> Session.ProviderID s ∈ destroy_calls w') -> settled w' s s'.
Proof.
  intros (s2 & d1 & d2 & -> & Hs2 & Hs4) Hd.
  assert (Hc : s' = s2 \/ (Session.Status s2 = StatusFailed /\ registered s2 /\
    (Session.Status s' = StatusFailed \/ Session.Status s' = StatusStopped) /\
    (Session.ProviderID s' = "" \/ (s' = s2 /\ still_runs s2 /\ d2 = true)))).
  { case_bool_decide as Hf; [|by destruct Hs4; left]. apply list_elem_of_singleton in Hf.
    destruct Hs4 as [|r Hp (p & v & Hr & _)|e Hr|t Hr]; cbn; [by left|right..].
    - split_and!; [done|by exists p|by left|by left].
    - split_and!; [done|destruct Hr as (_ & st & (p & v & Hr & _) & _); by exists p|by left|by right].
    - split_and!; [done|destruct Hr as (_ & st & (p & v & Hr & _) & _); by exists p|by right|by left]. }
  assert (Hprov : Session.Provider s2 = Session.Provider s).
  { clear Hc Hs4. case_bool_decide; [|by destruct Hs2 as [-> _]].
    destruct Hs2; unfold recovered_ssh; repeat first [case_bool_decide | destruct (_ =? _)%Z]; done. }
  assert (Hreg : registered s2 <-> registered s) by (unfold registered; by rewrite Hprov).
  split.
  - intros Hn. assert (s2 = s) as ->.
    { revert Hs2. assert (forall r, ~ status_answer s r) as Hna by (intros r (p & v & Hp & _); apply Hn; by exists p).
      intros Hs2. clear Hc Hs4. case_bool_decide; [|by destruct Hs2 as [-> _]].
      destruct Hs2 as [| |e t _ Ha|st _ _ Ha|_ (_ & st & Ha & _)|st t _ Ha]; try done; by apply Hna in Ha. }
    destruct Hc as [->|(_ & Hr & _)]; [done|by apply Hreg in Hr].
  - intros Hr. destruct (Session.Status s) eqn:Hs;
      first [rewrite bool_decide_false in Hs2 by by_dec | rewrite bool_decide_true in Hs2 by by_dec].
    1, 3, 5: destruct Hs2 as [-> _]; destruct Hc as [->|[? _]]; [done|congruence].
    + destruct Hc as [->|(_ & _ & [] & _)]; [|auto..].
      destruct Hs2 as [Hn| | |st| |]; rewrite ?Hs, ?bool_decide_true by done; cbn; auto; [by destruct Hn| |congruence].
      unfold recovered_ssh. repeat first [case_bool_decide | destruct (_ =? _)%Z]; cbn; auto.
    + destruct Hs2 as [Hn|t _ Hp|e t _ _|st Hst|_ Hrun|st t]; cbn in *; rewrite ?Hs in *;
        repeat rewrite bool_decide_false in * by done; cbn in *.
      * by destruct Hn.
      * destruct Hc as [->|(_ & _ & [?|?] & _)]; cbn; auto.
      * destruct Hc as [->|(? & _)]; [auto|done].
      * done.
      * destruct Hc as [->|(? & _)]; [|congruence]. right. right. split; [done|]. split; [done|]. by apply Hd.
      * destruct Hc as [->|(? & _)]; [auto|done].
    + destruct Hs2 as [-> ->]. rewrite bool_decide_true in Hs4 by (rewrite Hs; by_dec).
      destruct Hs4 as [[Hp|Hn]|r|e Hrun|t]; cbn in *; [by left|by destruct Hn|by left| |by left].
      right. split; [done|]. split; [done|]. by apply Hd.
Qed.
End Recovery.

(** The sessions of some statuses; listing them asks for no destruction. *)
Lemma wp_statuses_silent (sts : list SessionStatus) (Q : result (list Session.t) -> W -> Prop) w :
  sts <> [] ->
  (forall e w', quiet w w' -> ~ healthy w -> Q (Err e) w') ->
  (forall ss w', quiet w w' -> destroy_calls w' = destroy_calls w -> NoDup (Session.ID <$> ss) ->
     (forall s, s ∈ ss <-> sess_view w !! Session.ID s = Some s /\ Session.Status s ∈ sts) ->
     Q (Ok ss) w') ->
  wp (GetSessionsByStatus sts) Q w.
Proof.
  intros Hn He Ho. eapply wp_mono; [apply wp_and; [apply (wp_by_statuses sts (fun r w' =>
    match r with
    | Err e => quiet w w' /\ ~ healthy w
    | Ok ss => quiet w w' /\ NoDup (Session.ID <$> ss) /\
        forall s, s ∈ ss <-> sess_view w !! Session.ID s = Some s /\ Session.Status s ∈ sts
    end)); [done|intros e w' ? ?; by split|intros ss w' ? ? ?; by split_and!]|apply list_silent]|].
  intros [ss|e] w' [Hr Hd]; [|destruct Hr as [Hq Hnh]; by apply He]. destruct Hr as (Hq & Hnd & Hs). by apply Ho.
Qed.

(** One pass over the sessions of some statuses, on a healthy database: each of them has
    its outcome, the others stay, and what is asked is asked for one of them. *)
Definition pass (P : Session.t -> Session.t -> bool -> Prop) (sts : list SessionStatus) (v v' : W) : Prop :=
  (forall s, sess_view v !! Session.ID s = Some s -> exists s' d, sess_view v' !! Session.ID s = Some s' /\
     (d = true -> Session.ProviderID s ∈ destroy_calls v') /\
     (if bool_decide (Session.Status s ∈ sts) then P s s' d else s' = s /\ d = false)) /\
  destroy_calls v ⊆ destroy_calls v' /\
  (forall i, i ∈ destroy_calls v' -> i ∈ destroy_calls v \/
     exists s s', sess_view v !! Session.ID s = Some s /\ Session.Status s ∈ sts /\
       Session.ProviderID s = i /\ sess_view v' !! Session.ID s = Some s' /\ P s s' true) /\
  (forall j x, sess_view v' !! j = Some x -> exists s, sess_view v !! j = Some s).

Lemma loop_pass P sts l w v v' :
  quiet w v -> destroy_calls v = destroy_calls w -> healthy w ->
  (forall s, s ∈ l <-> sess_view w !! Session.ID s = Some s /\ Session.Status s ∈ sts) ->
  loop_outcome P l v v' -> pass P sts w v'.
Proof.
  intros [Hv [_ Hh]] Hd Hw Hl (Hdone & Hup & Hnew & Hrest). specialize (Hh Hw). unfold pass.
  rewrite Hd in Hup, Hnew. setoid_rewrite Hv in Hrest. split_and!; [|done| |].
  - intros s Hs. case_bool_decide as Hst.
    + destruct (Hdone s) as (s' & d & Hs' & [HP|[_ Hn]] & Ha); [by apply Hl| |done]. eauto.
    + exists s, false. rewrite Hrest; [done|]. intros (x & Hx & [Hxs ?]%Hl)%list_elem_of_fmap.
      rewrite <-Hx, Hs in Hxs. congruence.
  - intros i Hi. destruct (Hnew i Hi) as [|(s & s' & [Hs Hst]%Hl & Hp & Hs' & [HP|])]; [by left| |done].
    right. by exists s, s'.
  - intros j x Hx. destruct (decide (j ∈ Session.ID <$> l)) as [(s & -> & [Hs _]%Hl)%list_elem_of_fmap|Hj]; [eauto|].
    rewrite <-Hrest by done. eauto.
Qed.

(** The session that a stuck one becomes names the same instance. *)
Lemma stuck_same w s s2 d :
  stuck_outcome w s s2 d -> Session.ID s2 = Session.ID s /\ Session.ProviderID s2 = Session.ProviderID s.
Proof.
  intros []; unfold recovered_ssh; repeat first [case_bool_decide | destruct (_ =? _)%Z]; done.
Qed.

(** The two passes in turn. *)
Lemma passes_recover w w2 w4 :
  pass (stuck_outcome w) [StatusProvisioning; StatusStopping] w w2 ->
  pass (failed_outcome w) [StatusFailed] w2 w4 ->
  (forall s, sess_view w !! Session.ID s = Some s ->
     exists s' d, sess_view w4 !! Session.ID s = Some s' /\ recovered w s s' d /\
       (d = true -> Session.ProviderID s ∈ destroy_calls w4) /\ settled w w4 s s') /\
  (forall i, i ∈ destroy_calls w4 -> i ∈ destroy_calls w \/
     exists s s', sess_view w !! Session.ID s = Some s /\ Session.ProviderID s = i /\
       sess_view w4 !! Session.ID s = Some s' /\ recovered w s s' true).
Proof.
  intros (Hp1 & _ & Hn1 & Hb1) (Hp2 & Hm2 & Hn2 & _).
  (* the second pass on the session that the first has made of [s] *)
  assert (Hnext : forall s s2 d1, sess_view w2 !! Session.ID s = Some s2 ->
    (if bool_decide (Session.Status s ∈ [StatusProvisioning; StatusStopping])
     then stuck_outcome w s s2 d1 else s2 = s /\ d1 = false) ->
    exists s' d2, sess_view w4 !! Session.ID s = Some s' /\ recovered w s s' (d1 || d2) /\
      Session.ProviderID s2 = Session.ProviderID s /\
      (d2 = true -> Session.ProviderID s ∈ destroy_calls w4)).
  { intros s s2 d1 Hs2 Hst.
    assert (Session.ID s2 = Session.ID s /\ Session.ProviderID s2 = Session.ProviderID s) as [Hid Hp].
    { revert Hst. case_bool_decide; [by intros ?%stuck_same|by intros [-> _]]. }
    rewrite <-Hid in Hs2. destruct (Hp2 s2 Hs2) as (s' & d2 & Hs' & Ha & Hf). rewrite Hid in Hs'. rewrite Hp in Ha.
    exists s', d2. split; [done|]. split; [|done]. by exists s2, d1, d2. }
  split.
  - intros s Hs. destruct (Hp1 s Hs) as (s2 & d1 & Hs2 & Ha1 & Hst).
    destruct (Hnext s s2 d1 Hs2 Hst) as (s' & d2 & Hs' & Hr & _ & Ha2). exists s', (d1 || d2).
    assert (d1 || d2 = true -> Session.ProviderID s ∈ destroy_calls w4) as Ha.
    { intros [|]%orb_true_iff; [by apply Hm2, Ha1|by apply Ha2]. }
    split_and!; [done..|]. by eapply recovered_settled.
  - intros i Hi. destruct (Hn2 i Hi) as [Hi2|(s2 & s' & Hs2 & Hst2 & Hpi & Hs' & HP)].
    + destruct (Hn1 i Hi2) as [|(s & s2 & Hs & Hst & Hpi & Hs2 & HP)]; [by left|right].
      destruct (Hnext s s2 true Hs2) as (s' & d2 & Hs' & Hr & _); [by rewrite bool_decide_true|].
      by exists s, s'.
    + right. destruct (Hb1 _ _ Hs2) as [s Hs]. assert (Session.ID s = Session.ID s2) as Hid by apply (view_id _ _ _ Hs).
      rewrite <-Hid in Hs, Hs2. destruct (Hp1 s Hs) as (s2' & d1 & Hs2' & _ & Hst). rewrite Hs2 in Hs2'.
      injection Hs2' as <-. exists s, s'. rewrite Hid. split; [by rewrite <-Hid|]. split.
      * rewrite <-Hpi. revert Hst. case_bool_decide; [by intros [_ ->]%stuck_same|by intros [-> _]].
      * split; [done|]. exists s2, d1, true. split; [by rewrite orb_true_r|]. split; [done|].
        by rewrite bool_decide_true.
Qed.

(** C20.  Recovery settles what a crash left behind.  On a healthy database it succeeds, and
    makes of every session what the provider's answers say ([recovered], branch by branch),
    asking for the destruction of exactly the instances of stopping and failed sessions of
    which the provider says that they run.  So, when its provider is registered, a
    provisioning session is running, failed or stopped afterwards; a stopping one is stopped,
    or failed if it named no instance, or it is unchanged and the destruction of its running
    instance was asked for; a failed one names no instance any more, or likewise.  No other
    session changes. *)
Theorem RecoverStuckSessions_settles (w : W) :
  wp (RecoverStuckSessions registry) (fun e w' =>
    healthy w -> e = None /\
    (forall s, sess_view w !! Session.ID s = Some s ->
       exists s' d, sess_view w' !! Session.ID s = Some s' /\ recovered w s s' d /\
         (d = true -> Session.ProviderID s ∈ destroy_calls w') /\ settled w w' s s') /\
    (forall i, i ∈ destroy_calls w' -> i ∈ destroy_calls w \/
       exists s s', sess_view w !! Session.ID s = Some s /\ Session.ProviderID s = i /\
         sess_view w' !! Session.ID s = Some s' /\ recovered w s s' true)) w.
Proof.
  apply wp_bind, wp_statuses_silent; [done| |].
  { intros e w' _ Hn. by apply wp_ret. }
  intros l w1 Hq1 Hd1 Hnd Hl. apply wp_bind. eapply wp_mono.
  { apply (wp_recovery_loop w (stuck_outcome w)); [apply Hq1|exact Hnd|]. intros s [Hs Hst]%Hl.
    destruct Hq1 as [Hv1 _]. split; [by rewrite Hv1|]. apply recovers_stuck_body.
    apply elem_of_cons in Hst as [|Hst%list_elem_of_singleton]; auto. }
  intros u w2 [Hl2 Hfirst]. assert (later w w2) as Hlw2 by (etrans; [apply Hq1|done]).
  apply wp_bind, wp_statuses_silent; [done| |].
  { intros e w' _ Hn. apply wp_ret. intros Hw. destruct Hn. by apply Hlw2. }
  intros l2 w3 Hq3 Hd3 Hnd2 Hlf. apply wp_bind. eapply wp_mono.
  { apply (wp_recovery_loop w (failed_outcome w)); [etrans; [done|apply Hq3]|exact Hnd2|].
    intros s [Hs Hst%list_elem_of_singleton]%Hlf. destruct Hq3 as [Hv3 _]. split; [by rewrite Hv3|].
    by apply recovers_failed_body. }
  intros u' w4 [_ Hsecond]. apply wp_ret. intros Hw. split; [done|].
  apply (loop_pass _ [StatusProvisioning; StatusStopping] _ w) in Hfirst; [|done..].
  apply (loop_pass _ [StatusFailed] _ w2) in Hsecond; [|done|done|by apply Hlw2|done].
  by apply (passes_recover w w2).
Qed.
End Proofs.
