(* ===== verification/Startup.v ===== *)
(** [internal/service/lifecycle/startup.go]: the sweep at startup and the graceful
    shutdown.  The shutdown destroys the active sessions in goroutines under a deadline;
    when each of them ends, and in which order, is the scheduler's: [timing] and
    [order]. *)
From S2P Require Import Prelude GoFloat GoLib Models Errors Interfaces.
From S2P Require Import Reconciler.

(** A goroutine of the shutdown ends before the deadline is noticed, between that and
    the final count, or not by then (cancelled while it waits for its turn, or its
    provider call still pending). *)
Inductive finish := InTime | Late | Never.

#[export] Instance finish_eq_dec : EqDecision finish.
Proof. solve_decision. Defined.

Section Startup.
Context {W : Type} `{SessionStore W} `{Env W} `{MapRange}.
Context (cfg : ReconcilerConfig.t) (registry : gmap string (Provider.t W)).

Definition RunStartupSweep : M W (option error) :=
  do! emit (Audit "startup_sweep_started" []) in
  let! _e := RecoverStuckSessions registry in
  do! RunReconciliation cfg registry in
  do! emit SweepComplete in
  do! emit (Audit "startup_sweep_completed" []) in
  ret None.

(** [destroySession] of the startup manager. *)
Definition shutdown_destroySession (s : Session.t) : M W (option error) :=
  if bool_decide (Session.ProviderID s = "") then ret None
  else
    match Registry.Get registry (Session.Provider s) with
    | Err e => ret (Some e)
    | Ok prov => Provider.DestroyInstance prov (Session.ProviderID s)
    end.

(** The body of the goroutine [FireAndForget]. *)
Definition fireAndForgetDestroy (s : Session.t) : M W unit :=
  if bool_decide (Session.ProviderID s = "") then skip
  else
    match Registry.Get registry (Session.Provider s) with
    | Err _ => skip
    | Ok prov => let! _e := Provider.DestroyInstance prov (Session.ProviderID s) in skip
    end.

Context (timing : Session.t -> finish) (order : list Session.t -> list Session.t).

(** The goroutines of [l]: the ids they add to [destroyedSet]. *)
Fixpoint run_destroys (l : list Session.t) : M W (gset string) :=
  match l with
  | [] => ret ∅
  | s :: l' =>
      let! e := shutdown_destroySession s in
      let! rest := run_destroys l' in
      ret match e with None => {[Session.ID s]} ∪ rest | Some _ => rest end
  end.

Definition ending (f : finish) (sessions : list Session.t) : list Session.t :=
  order (List.filter (fun s => bool_decide (timing s = f)) sessions).

Definition GracefulShutdown : M W (option error) :=
  do! emit (Audit "graceful_shutdown_started" []) in
  let! r := GetActiveSessions in
  match r with
  | Err e => ret (Some e)
  | Ok [] => ret None
  | Ok sessions =>
      let! inTime := run_destroys (ending InTime sessions) in
      let timedOut := existsb (fun s => negb (bool_decide (timing s = InTime))) sessions in
      let remaining := List.filter (fun s => negb (bool_decide (Session.ID s ∈ inTime))) sessions in
      do! when timedOut (for_each remaining (fun s =>
            emit (Go (FireAndForget (Session.ID s) (Session.Provider s) (Session.ProviderID s))))) in
      let! late := run_destroys (ending Late sessions) in
      let destroyed := Z.of_nat (size (inTime ∪ late)) in
      let failed := (Z.of_nat (length sessions) - destroyed)%Z in
      do! emit (Audit "graceful_shutdown_completed" []) in
      ret (if (0 <? failed)%Z
           then Some (ShutdownError (Z.of_nat (length sessions)) destroyed failed)
           else None)
  end.
End Startup.

(** A subset of a duplicate-free list that is as large as the list has all of it. *)
Lemma covers_all (d : gset string) (l : list string) i :
  NoDup l -> (forall x, x ∈ d -> x ∈ l) -> (length l <= size d)%nat -> i ∈ l -> i ∈ d.
Proof.
  intros Hnd Hsub Hlen Hi. destruct (decide (i ∈ d)) as [|Hn]; [done|].
  assert (Hlt : (size d < size (list_to_set l : gset string))%nat).
  { apply subset_size. split.
    - intros x Hx. apply elem_of_list_to_set. auto.
    - intros Hs. apply Hn, Hs. by apply elem_of_list_to_set. }
  rewrite size_list_to_set in Hlt by done. lia.
Qed.

Section Proofs.
Context {W : Type} `{SessionStore W} `{Env W} `{MapRange} `{Ghost W} `{CallLog W}.
Context (registry : gmap string (Provider.t W)).
Context `{!StoreLaws W} `{!EnvLaws W} `{!CallLogLaws W registry}.
Context (timing : Session.t -> finish) (order : list Session.t -> list Session.t).

(** The destroy call of a session's instance has been made. *)
Definition called (w : W) (s : Session.t) : Prop :=
  Session.ProviderID s = "" \/ Session.ProviderID s ∈ destroy_calls w.

Lemma wp_shutdown_destroy s w :
  wp (shutdown_destroySession registry s) (fun e w' =>
    destroy_calls w ⊆ destroy_calls w' /\ (e = None -> called w' s)) w.
Proof.
  unfold shutdown_destroySession, Registry.Get. case_bool_decide as Hp.
  { apply wp_ret. split; [done|]. intros _. by left. }
  destruct (registry !! Session.Provider s) as [prov|] eqn:Hr; [|by apply wp_ret].
  eapply wp_mono; [by eapply destroy_logged|]. intros e w' Hc. rewrite Hc.
  split; [apply union_subseteq_r|]. intros _. right. rewrite Hc. by apply elem_of_union_l, elem_of_singleton.
Qed.

Lemma wp_run_destroys l w :
  wp (run_destroys registry l) (fun d w' =>
    destroy_calls w ⊆ destroy_calls w' /\
    forall id, id ∈ d -> exists s, s ∈ l /\ Session.ID s = id /\ called w' s) w.
Proof.
  revert w. induction l as [|s l IH]; intros w; [apply wp_ret; split; [done|set_solver]|].
  apply wp_bind. eapply wp_mono; [apply wp_shutdown_destroy|]. intros e w1 [Hsub He].
  apply wp_bind. eapply wp_mono; [apply IH|]. intros rest w2 [Hsub2 Hr]. apply wp_ret.
  split; [by etrans|]. intros id Hid.
  assert (Hrest : id ∈ rest -> exists x, x ∈ s :: l /\ Session.ID x = id /\ called w2 x).
  { intros (x & Hx & Hxid & Hc)%Hr. exists x. split; [by right|done]. }
  destruct e as [e|]; [auto|]. apply elem_of_union in Hid as [->%elem_of_singleton|Hid]; [|auto].
  exists s. split; [by left|]. split; [done|]. destruct (He eq_refl) as [|Hc]; [by left|right; set_solver].
Qed.

(** C40.  A graceful shutdown that reports success has asked for the destruction of every
    active session's instance, whatever the order and the timing of its goroutines;
    one that reports failure reports at least one session not destroyed, and its
    numbers add up. *)
Theorem GracefulShutdown_honest (w : W) :
  (forall l, order l ≡ₚ l) ->
  wp (GracefulShutdown registry timing order) (fun e w' =>
    match e with
    | None => forall s, sess_view w !! Session.ID s = Some s -> Session.IsActive s = true -> called w' s
    | Some err => ~ healthy w \/ exists total destroyed failed,
        err = ShutdownError total destroyed failed /\
        (0 < failed /\ total = destroyed + failed /\ 0 <= destroyed)%Z
    end) w.
Proof.
  intros Hord. apply wp_bind. eapply wp_mono; [apply emit_frame|]. intros u w1 [Hv1 [_ Hl1]].
  apply wp_bind, wp_by_statuses; [done| |].
  { intros e w2 _ Hn. apply wp_ret. left. intros Hw. by apply Hn, Hl1. }
  intros l w2 [Hv2 _] Hnd Hl. destruct l as [|x l'].
  { apply wp_ret. intros s Hs Ha. rewrite active_status, bool_decide_eq_true in Ha.
    assert (Hin : s ∈ @nil Session.t) by (apply Hl; by rewrite Hv1). by apply elem_of_nil in Hin. }
  remember (x :: l') as l eqn:Hcons. clear Hcons x l'.
  apply wp_bind. eapply wp_mono; [apply wp_run_destroys|]. intros d1 w3 [Hs3 Hd1]. apply wp_bind.
  eapply (wp_mono _ (fun _ w4 => destroy_calls w4 = destroy_calls w3)).
  { destruct (existsb _ l); [|by apply wp_ret].
    apply (wp_for_each_inv (fun v => destroy_calls v = destroy_calls w3)); [done|].
    intros s v _ Hv. eapply wp_mono; [apply emit_silent|]. intros u' v' Hv'. congruence. }
  intros u' w4 Hc4. apply wp_bind. eapply wp_mono; [apply wp_run_destroys|]. intros d2 w5 [Hs5 Hd2].
  apply wp_bind. eapply wp_mono; [apply emit_silent|]. intros u'' w6 Hc6. apply wp_ret.
  assert (Hd : forall id, id ∈ d1 ∪ d2 -> exists s, s ∈ l /\ Session.ID s = id /\ called w6 s).
  { assert (Hend : forall f s, s ∈ ending timing order f l -> s ∈ l).
    { intros f s. unfold ending. rewrite Hord. intros Hs%list_elem_of_In%List.filter_In%proj1.
      by apply list_elem_of_In. }
    intros id [Hi|Hi]%elem_of_union.
    - destruct (Hd1 id Hi) as (s & Hs & Hid & Hc). exists s. split; [by eapply Hend|]. split; [done|].
      destruct Hc as [|Hc]; [by left|right; rewrite Hc6; apply Hs5; by rewrite Hc4].
    - destruct (Hd2 id Hi) as (s & Hs & Hid & Hc). exists s. split; [by eapply Hend|]. split; [done|].
      destruct Hc as [|Hc]; [by left|right; by rewrite Hc6]. }
  destruct (Z.ltb_spec 0 (Z.of_nat (length l) - Z.of_nat (size (d1 ∪ d2)))) as [Hf|Hf].
  { right. eexists _, _, _. split; [done|]. lia. }
  intros s Hs Ha. rewrite active_status, bool_decide_eq_true in Ha.
  assert (Hin : s ∈ l) by (apply Hl; by rewrite Hv1).
  assert (Hid : Session.ID s ∈ d1 ∪ d2).
  { apply (covers_all (d1 ∪ d2) (Session.ID <$> l)); [done| | |by apply list_elem_of_fmap_2].
    - intros id (y & Hy & <- & _)%Hd. by apply list_elem_of_fmap_2.
    - rewrite length_fmap. lia. }
  destruct (Hd _ Hid) as (y & Hy & Hyid & Hc). apply Hl in Hy as [Hyv _].
  rewrite Hyid, Hv1, Hs in Hyv. by injection Hyv as <-.
Qed.
End Proofs.
