(* ===== verification/ModelsFacts.v ===== *)
(** What the helpers of [pkg/models] promise: the random choice among the cheapest
    offers, and the labels that carry a session id. *)
From S2P Require Import Prelude GoFloat GoLib GoStrings Models.

Section Selection.
Local Open Scope Z_scope.

Definition within (maxPrice : f64) (o : GPUOffer.t) : bool := fleb (GPUOffer.PricePerHour o) maxPrice.

Lemma count_within_range maxPrice offers : 0 <= count_within maxPrice offers <= Z.of_nat (length offers).
Proof. induction offers as [|o l IH]; cbn; [lia|]. destruct (fleb _ _); lia. Qed.

Lemma count_within_lookup maxPrice offers n :
  (Z.of_nat n < count_within maxPrice offers) ->
  exists o, offers !! n = Some o /\ within maxPrice o = true.
Proof.
  revert n. induction offers as [|o l IH]; cbn; [lia|]. intros n Hn.
  destruct (fleb (GPUOffer.PricePerHour o) maxPrice) eqn:Ho; [|lia].
  destruct n as [|n]; [by exists o|]. cbn. apply IH. lia.
Qed.

(** The choice among the cheapest: with at least one offer, a positive limit and a
    tolerance that the first offer itself is within, the choice does not panic; it
    returns one of the first [maxN] offers, and among several one whose price is within
    the tolerance of the first. *)
Theorem SelectFromTopN_picks (IntN : Z -> Z) (offers : list GPUOffer.t) (maxN : Z) (tolerance : f64)
    (first : GPUOffer.t) :
  (forall n, 0 < n -> 0 <= IntN n < n) -> 0 < maxN ->
  head offers = Some first ->
  within (fmul (GPUOffer.PricePerHour first) tolerance) first = true ->
  exists o n, SelectFromTopN IntN offers maxN tolerance = SelOffer o /\
    offers !! n = Some o /\ Z.of_nat n < maxN /\
    (n <> 0%nat -> within (fmul (GPUOffer.PricePerHour first) tolerance) o = true).
Proof.
  intros Hrand Hmax Hhead Hw. destruct offers as [|o l]; [done|]. cbn in Hhead. injection Hhead as ->.
  destruct l as [|o2 l]; [exists first, 0%nat; split; [done|split; [done|split; [lia|done]]]|].
  unfold SelectFromTopN. set (maxPrice := fmul _ _) in *. set (offers := first :: o2 :: l).
  assert (Hc : 0 < count_within maxPrice offers).
  { unfold offers. cbn. unfold within in Hw. rewrite Hw.
    pose proof (count_within_range maxPrice (o2 :: l)). cbn in *. lia. }
  set (n := if maxN <? count_within maxPrice offers then maxN else count_within maxPrice offers).
  assert (Hn : 0 < n <= maxN /\ n <= count_within maxPrice offers).
  { unfold n. destruct (Z.ltb_spec maxN (count_within maxPrice offers)); lia. }
  rewrite (proj2 (Z.leb_gt n 0)) by lia.
  destruct (Hrand n) as [H0 H1]; [lia|].
  destruct (count_within_lookup maxPrice offers (Z.to_nat (IntN n))) as (o & Ho & Hwo); [lia|].
  rewrite Ho. exists o, (Z.to_nat (IntN n)). split; [done|]. split; [done|]. split; [lia|done].
Qed.

(** The choice can panic: on several offers whose first one is not within its own
    tolerance (a tolerance below 1, say), whatever the random source answers. *)
Theorem SelectFromTopN_panics (IntN : Z -> Z) (offers : list GPUOffer.t) (maxN : Z) (tolerance : f64)
    (first second : GPUOffer.t) (rest : list GPUOffer.t) :
  offers = first :: second :: rest ->
  within (fmul (GPUOffer.PricePerHour first) tolerance) first = false ->
  SelectFromTopN IntN offers maxN tolerance = SelPanic.
Proof.
  intros -> Hw. unfold within in Hw. unfold SelectFromTopN. cbn [count_within]. rewrite Hw.
  by destruct (Z.ltb_spec maxN 0); [rewrite (proj2 (Z.leb_le maxN 0)) by lia|].
Qed.
End Selection.

Section Labels.
(** Labels round trip: reading back the label of a tagged instance gives its session
    id, and a label reads as a session's exactly when it is the label of some session
    with a non-empty id. *)
Theorem ParseLabel_inverts_ToLabel (label id : string) :
  InstanceTags.ParseLabel label = (id, true) <->
  id <> "" /\ forall deployment expires consumer,
    InstanceTags.ToLabel (InstanceTags.mk id deployment expires consumer) = label.
Proof.
  unfold InstanceTags.ParseLabel, InstanceTags.ToLabel. cbn [InstanceTags.ShopperSessionID]. split.
  - destruct ((_ <? _) && HasPrefix label "shopper-") eqn:Hc; [|done].
    apply andb_true_iff in Hc as [Hlen%Nat.ltb_lt Hp]. apply HasPrefix_spec in Hp as [t ->].
    rewrite drop_app_string. intros [= <-]. split; [|done]. intros ->.
    rewrite length_app_string in Hlen. cbn in Hlen. lia.
  - intros [Hid Hl]. rewrite <-(Hl "" zero_time ""), HasPrefix_app, drop_app_string.
    rewrite (proj2 (Nat.ltb_lt _ _)); [done|]. rewrite length_app_string.
    destruct id; [done|]. cbn. lia.
Qed.
End Labels.
