(* ===== verification/Template.v ===== *)
(** [pkg/models/template.go]: Vast.ai templates, the filters a template puts on its
    machines, and the waiting time a template's image deserves.

    Go's [interface{}] is the inductive type [value].  Comparing two interface values
    that hold slices or maps panics; [None] stands for that panic. *)
From S2P Require Import Prelude GoFloat GoLib GoStrings Models Errors Interfaces.
From Stdlib Require Import Ascii.

Module VastTemplate.
Record t := mk {
  ID : Z;
  HashID : string;
  Name : string;
  Image : string;
  Tag : string;
  Env : string;
  OnStart : string;
  RunType : string;
  ArgsStr : string;
  UseSSH : bool;
  SSHDirect : bool;
  Recommended : bool;
  RecommendedDiskSpace : Z;
  ExtraFilters : string;
  CreatorID : Z;
  CreatedAt : time;
  CountCreated : Z
}.
End VastTemplate.

Module TemplateFilter.
Record t := mk {
  Recommended : bool;
  UseSSH : bool;
  Name : string;
  Image : string
}.
End TemplateFilter.

Module CompatibleTemplate.
Record t := mk { HashID : string; Name : string; Image : string }.
End CompatibleTemplate.

(** ** Searching without regard to case *)

(** [a[i]] folded to lower case: [ca += 'a' - 'A'] between ['A'] and ['Z']. *)
Definition fold_byte (c : ascii) : nat :=
  let n := nat_of_ascii c in
  if (65 <=? n) && (n <=? 90) then n + (97 - 65) else n.

Fixpoint matchesIgnoreCase (a b : string) : bool :=
  match a, b with
  | EmptyString, EmptyString => true
  | String ca a', String cb b' => (fold_byte ca =? fold_byte cb) && matchesIgnoreCase a' b'
  | _, _ => false
  end.

(** The loop [for i := ...; i <= len(s)-len(substr); i++], [n] iterations left. *)
Fixpoint findIgnoreCase_loop (n i : nat) (s substr : string) : Z :=
  match n with
  | O => (-1)%Z
  | S n' =>
      if matchesIgnoreCase (take_string (String.length substr) (drop_string i s)) substr
      then Z.of_nat i
      else findIgnoreCase_loop n' (S i) s substr
  end.

Definition findIgnoreCase (s substr : string) : Z :=
  if String.length substr =? 0 then 0%Z
  else if String.length s <? String.length substr then (-1)%Z
  else findIgnoreCase_loop (S (String.length s - String.length substr)) 0 s substr.

Definition containsIgnoreCase (s substr : string) : bool :=
  (String.length substr <=? String.length s) &&
  (bool_decide (s = substr) || (String.length substr =? 0) || (0 <=? findIgnoreCase s substr)%Z).

Definition VastTemplate_MatchesFilter (t : VastTemplate.t) (filter : TemplateFilter.t) : bool :=
  if TemplateFilter.Recommended filter && negb (VastTemplate.Recommended t) then false
  else if TemplateFilter.UseSSH filter && negb (VastTemplate.UseSSH t) then false
  else if negb (bool_decide (TemplateFilter.Name filter = "")) &&
          negb (containsIgnoreCase (VastTemplate.Name t) (TemplateFilter.Name filter)) then false
  else if negb (bool_decide (TemplateFilter.Image filter = "")) &&
          negb (containsIgnoreCase (VastTemplate.Image t) (TemplateFilter.Image filter)) then false
  else true.

(** ** Filters on machines *)
#[local] Set Warnings "-register-all".

(** A value of type [interface{}] by its dynamic type. *)
Inductive value :=
| VNil
| VBool (b : bool)
| VString (s : string)
| VFloat64 (x : f64)
| VFloat32 (x : f64)
| VInt (n : Z)
| VInt64 (n : Z)
| VInt32 (n : Z)
| VSlice (l : list value)
| VMap (m : list (string * value)).

(** [provider.TemplateProvider], what it adds to [Provider]. *)
Module TemplateProvider.
Record t (W : Type) := mk {
  ListTemplates : TemplateFilter.t -> M W (result (list VastTemplate.t));
  GetTemplate : string -> M W (result VastTemplate.t);
  GetCompatibleTemplates : string -> M W (result (list CompatibleTemplate.t))
}.
Arguments ListTemplates {W}.
Arguments GetTemplate {W}.
Arguments GetCompatibleTemplates {W}.
End TemplateProvider.

Module ExtraFilter.
Record t := mk {
  Eq : value;
  Neq : value;
  Gt : option f64;
  Gte : option f64;
  Lt : option f64;
  Lte : option f64;
  In : list value;
  NotIn : list value
}.
End ExtraFilter.

Definition ExtraFilters : Type := gmap string ExtraFilter.t.

Definition toFloat64 (v : value) : option f64 :=
  match v with
  | VFloat64 x | VFloat32 x => Some x
  | VInt n | VInt64 n | VInt32 n => Some (f64_of_Z n)
  | _ => None
  end.

Definition toString (v : value) : option string :=
  match v with VString s => Some s | _ => None end.

(** Go's [a == b] on interface values: the dynamic types and then the values;
    [None] is the panic on an uncomparable type. *)
Definition interface_eq (a b : value) : option bool :=
  match a, b with
  | VNil, VNil => Some true
  | VBool x, VBool y => Some (Bool.eqb x y)
  | VString x, VString y => Some (bool_decide (x = y))
  | VFloat64 x, VFloat64 y | VFloat32 x, VFloat32 y => Some (feqb x y)
  | VInt x, VInt y | VInt64 x, VInt64 y | VInt32 x, VInt32 y => Some (x =? y)%Z
  | VSlice _, VSlice _ | VMap _, VMap _ => None
  | _, _ => Some false
  end.

Definition valuesEqual (a b : value) : option bool :=
  match toString a, toString b with
  | Some x, Some y => Some (bool_decide (x = y))
  | _, _ =>
      match toFloat64 a, toFloat64 b with
      | Some x, Some y => Some (feqb x y)
      | _, _ => interface_eq a b
      end
  end.

Fixpoint valueInSet (v : value) (set : list value) : option bool :=
  match set with
  | [] => Some false
  | x :: set' =>
      match valuesEqual v x with
      | Some false => valueInSet v set'
      | r => r
      end
  end.

(** One early return of [matches]: go on when the test passes. *)
Definition pass (test k : option bool) : option bool :=
  match test with Some true => k | r => r end.

Definition numeric_test (bound : option f64) (host : option f64) (fails : f64 -> f64 -> bool)
    : option bool :=
  match bound with
  | None => Some true
  | Some b => Some (match host with None => false | Some h => negb (fails h b) end)
  end.

Definition is_nil (v : value) : bool := match v with VNil => true | _ => false end.

Definition matches (f : ExtraFilter.t) (hostValue : value) : option bool :=
  pass (if is_nil (ExtraFilter.Eq f) then Some true else valuesEqual hostValue (ExtraFilter.Eq f))
  (pass (if is_nil (ExtraFilter.Neq f) then Some true
         else negb <$> valuesEqual hostValue (ExtraFilter.Neq f))
  (let hostNum := toFloat64 hostValue in
   pass (numeric_test (ExtraFilter.Gt f) hostNum fleb)
  (pass (numeric_test (ExtraFilter.Gte f) hostNum fltb)
  (pass (numeric_test (ExtraFilter.Lt f) hostNum fgeb)
  (pass (numeric_test (ExtraFilter.Lte f) hostNum fgtb)
  (pass (if bool_decide (ExtraFilter.In f = []) then Some true
         else valueInSet hostValue (ExtraFilter.In f))
  (pass (if bool_decide (ExtraFilter.NotIn f = []) then Some true
         else negb <$> valueInSet hostValue (ExtraFilter.NotIn f))
  (Some true)))))))).

(** [json.Unmarshal] of [extra_filters] into [ExtraFilters]; [None] is a nil map. *)
Class FilterDecoder := Unmarshal_ExtraFilters : string -> result (option ExtraFilters).

Definition ParseExtraFilters `{FilterDecoder} (t : VastTemplate.t) : result (option ExtraFilters) :=
  let s := VastTemplate.ExtraFilters t in
  if bool_decide (s = "") || bool_decide (s = "null") then Ok None
  else match Unmarshal_ExtraFilters s with
       | Ok filters => Ok filters
       | Err e => Err e
       end.

Section Range.
Context `{MapRange}.

(** The loop of [MatchesHost], with its early returns. *)
Fixpoint match_each (l : list (string * ExtraFilter.t)) (hostProps : gmap string value)
    : option bool :=
  match l with
  | [] => Some true
  | (propName, filter) :: l' =>
      match hostProps !! propName with
      | None => match_each l' hostProps
      | Some hostValue => pass (matches filter hostValue) (match_each l' hostProps)
      end
  end.

Definition MatchesHost (f : ExtraFilters) (hostProps : gmap string value) : option bool :=
  if bool_decide (f = ∅) then Some true
  else match_each (range_map ExtraFilter.t f) hostProps.

(** ** Heavy images *)
Definition DefaultSSHTimeout : duration := (10 * Minute)%Z.

Definition heavyImageTimeouts : gmap string duration :=
  list_to_map [("vllm", 15 * Minute); ("tgi", 12 * Minute); ("tensorrt", 12 * Minute);
               ("deepspeed", 12 * Minute); ("triton", 12 * Minute); ("nemo", 15 * Minute);
               ("megatron", 15 * Minute); ("ollama", 12 * Minute)]%Z.

Fixpoint first_match (l : list (string * duration)) (image : string) : duration :=
  match l with
  | [] => DefaultSSHTimeout
  | (pattern, timeout) :: l' =>
      if Contains image pattern then timeout else first_match l' image
  end.

Definition GetRecommendedSSHTimeout (t : VastTemplate.t) : duration :=
  first_match (range_map duration heavyImageTimeouts) (ToLower (VastTemplate.Image t)).

Definition IsHeavyImage (t : VastTemplate.t) : bool :=
  (DefaultSSHTimeout <? GetRecommendedSSHTimeout t)%Z.
End Range.

(** ** Searching: the loop against [strings.Contains] of the lowered strings *)
Section Search.
Lemma fold_byte_lower c : fold_byte c = nat_of_ascii (ascii_lower c).
Proof.
  unfold fold_byte, ascii_lower. destruct (_ && _) eqn:Hc; [|done].
  apply andb_true_iff in Hc as [H1%Nat.leb_le H2%Nat.leb_le].
  rewrite nat_ascii_embedding; lia.
Qed.

Lemma matchesIgnoreCase_lower a b : matchesIgnoreCase a b = bool_decide (ToLower a = ToLower b).
Proof.
  revert b. induction a as [|ca a IH]; intros [|cb b]; try done.
  cbn [matchesIgnoreCase]. rewrite IH, !fold_byte_lower. unfold ToLower. cbn [map_string].
  destruct (Nat.eqb_spec (nat_of_ascii (ascii_lower ca)) (nat_of_ascii (ascii_lower cb))) as [He|He].
  - assert (ascii_lower ca = ascii_lower cb) as ->
      by (rewrite <-(ascii_nat_embedding (ascii_lower ca)), He; apply ascii_nat_embedding).
    apply bool_decide_ext. split; congruence.
  - symmetry. apply bool_decide_eq_false. congruence.
Qed.

Lemma length_ToLower s : String.length (ToLower s) = String.length s.
Proof. induction s as [|c s IH]; [done|]. cbn. by rewrite <-IH. Qed.

Lemma length_drop_string n s : String.length (drop_string n s) = String.length s - n.
Proof. revert s. induction n as [|n IH]; intros [|c s]; try done. cbn. apply IH. Qed.

Lemma HasPrefix_take s p : String.length p <= String.length s ->
  HasPrefix s p = bool_decide (take_string (String.length p) s = p).
Proof.
  revert s. induction p as [|c p IH]; intros [|d s] Hl; try done.
  cbn in Hl |- *. rewrite IH by lia.
  destruct (Ascii.eqb_spec c d) as [->|Hne]; cbn.
  - apply bool_decide_ext. split; congruence.
  - symmetry. apply bool_decide_eq_false. congruence.
Qed.

Lemma HasPrefix_short s p : String.length s < String.length p -> HasPrefix s p = false.
Proof.
  revert s. induction p as [|c p IH]; intros [|d s] Hl; try (cbn in Hl; lia); [done|].
  cbn in Hl |- *. rewrite IH by lia. apply andb_false_r.
Qed.

Lemma Contains_short s p : String.length s < String.length p -> Contains s p = false.
Proof.
  induction s as [|c s IH]; intros Hl; cbn [Contains]; rewrite HasPrefix_short by done; [done|].
  apply IH. cbn in Hl. lia.
Qed.

Lemma ToLower_take n s : ToLower (take_string n s) = take_string n (ToLower s).
Proof. revert s. induction n as [|n IH]; intros [|c s]; try done. cbn. unfold ToLower in *. congruence. Qed.

Lemma ToLower_drop n s : ToLower (drop_string n s) = drop_string n (ToLower s).
Proof. revert s. induction n as [|n IH]; intros [|c s]; try done. cbn. apply IH. Qed.

(** The window test at offset [i]. *)
Lemma window_lower i s sub : String.length sub <= String.length s - i ->
  matchesIgnoreCase (take_string (String.length sub) (drop_string i s)) sub =
  HasPrefix (drop_string i (ToLower s)) (ToLower sub).
Proof.
  intros Hl. rewrite matchesIgnoreCase_lower, HasPrefix_take.
  - by rewrite ToLower_take, ToLower_drop, length_ToLower.
  - by rewrite length_ToLower, length_drop_string, length_ToLower.
Qed.

Lemma Contains_step s p : 0 < String.length p ->
  Contains s p = HasPrefix s p || Contains (drop_string 1 s) p.
Proof.
  intros Hp. destruct s as [|c s]; [|done]. cbn. destruct p; [cbn in Hp; lia|done].
Qed.

Lemma drop_string_S i s : drop_string 1 (drop_string i s) = drop_string (S i) s.
Proof. revert s. induction i as [|i IH]; intros [|c s]; try done. cbn. apply IH. Qed.

Lemma find_loop_Contains n i s sub :
  0 < String.length sub -> i + (n + String.length sub) = S (String.length s) ->
  (0 <=? findIgnoreCase_loop n i s sub)%Z = Contains (drop_string i (ToLower s)) (ToLower sub).
Proof.
  intros Hs. revert i. induction n as [|n IH]; intros i Hi.
  - rewrite Contains_short; [done|]. rewrite length_drop_string, !length_ToLower. lia.
  - cbn [findIgnoreCase_loop]. rewrite window_lower by lia.
    rewrite Contains_step by (by rewrite length_ToLower).
    destruct (HasPrefix _ _); [apply Z.leb_le; lia|].
    rewrite drop_string_S. apply IH. lia.
Qed.

(** The byte-by-byte search of the template filters finds a substring exactly when
    [strings.Contains] finds it in the lowered strings. *)
Theorem containsIgnoreCase_lower (s substr : string) :
  containsIgnoreCase s substr = Contains (ToLower s) (ToLower substr).
Proof.
  unfold containsIgnoreCase.
  destruct (Nat.leb_spec (String.length substr) (String.length s)) as [Hl|Hl].
  2: { symmetry. apply Contains_short. rewrite !length_ToLower. lia. }
  cbn [andb]. destruct (bool_decide_reflect (s = substr)) as [->|_].
  { symmetry. apply Contains_spec. exists "", "". induction (ToLower substr) as [|c t IH]; [done|].
    change (String c t = String c (t +:+ "")). by f_equal. }
  unfold findIgnoreCase. destruct (Nat.eqb_spec (String.length substr) 0) as [H0|H0].
  { destruct substr; [|done]. symmetry. apply Contains_spec. by exists "", (ToLower s). }
  destruct (Nat.ltb_spec (String.length s) (String.length substr)) as [|_]; [lia|].
  cbn [orb]. rewrite find_loop_Contains by lia. done.
Qed.
End Search.

(** ** Machines *)

(** Values of the dynamic types [ToHostProperties] uses. *)
Definition comparable (v : value) : bool :=
  match v with VSlice _ | VMap _ => false | _ => true end.

Section Machines.
Context `{MapRangeLaws}.

Lemma valuesEqual_comparable v x : comparable v = true -> is_Some (valuesEqual v x).
Proof. destruct v; try discriminate; destruct x; by eexists. Qed.

Lemma valueInSet_comparable v l : comparable v = true -> is_Some (valueInSet v l).
Proof.
  intros Hv. induction l as [|x l IH]; cbn; [by eexists|].
  destruct (valuesEqual_comparable v x Hv) as [[|] ->]; [by eexists|done].
Qed.

Lemma pass_total t k : is_Some t -> is_Some k -> is_Some (pass t k).
Proof. intros [[|] ->]; [done|]. intros _. by eexists. Qed.

Lemma matches_comparable f v : comparable v = true -> is_Some (matches f v).
Proof.
  intros Hv.
  assert (forall x, is_Some (valuesEqual v x)) as He by (intros; by apply valuesEqual_comparable).
  assert (forall l, is_Some (valueInSet v l)) as Hi by (intros; by apply valueInSet_comparable).
  unfold matches.
  repeat apply pass_total; repeat case_match; try apply fmap_is_Some; auto;
    by (unfold numeric_test; repeat case_match).
Qed.

Lemma match_each_spec l host :
  map_Forall (fun _ v => comparable v = true) host ->
  match_each l host =
  Some (forallb (fun x => match host !! x.1 with
                          | None => true
                          | Some v => bool_decide (matches x.2 v = Some true)
                          end) l).
Proof.
  intros Hh. induction l as [|[p f] l IH]; [done|]. cbn.
  destruct (host !! p) as [v|] eqn:Hv; [|done].
  destruct (matches_comparable f v) as [b Hb]; [by eapply Hh|]. rewrite Hb. cbn.
  destruct b; cbn; [by rewrite IH|done].
Qed.

(** On a machine whose properties are scalars, matching never panics and does not
    depend on the order of the map: it says whether every filter on a property the
    machine has accepts the value. *)
Theorem MatchesHost_decides (f : ExtraFilters) (host : gmap string value)
    (Hscalar : map_Forall (fun _ v => comparable v = true) host) :
  exists b, MatchesHost f host = Some b /\
    (b = true <-> forall p flt v, f !! p = Some flt -> host !! p = Some v ->
                  matches flt v = Some true).
Proof.
  unfold MatchesHost. destruct (bool_decide_reflect (f = ∅)) as [->|_].
  { exists true. split; [done|]. split; [|done]. intros _ p flt v Hp. discriminate Hp. }
  eexists. split; [by apply match_each_spec|]. rewrite forallb_forall. split.
  - intros Ha p flt v Hp Hv. specialize (Ha (p, flt)). cbn in Ha. rewrite Hv in Ha.
    eapply bool_decide_eq_true, Ha, list_elem_of_In.
    by rewrite range_map_perm, elem_of_map_to_list.
  - intros Ha [p flt] Hin%list_elem_of_In. rewrite range_map_perm, elem_of_map_to_list in Hin.
    cbn. destruct (host !! p) as [v|] eqn:Hv; [|done]. apply bool_decide_eq_true. by eapply Ha.
Qed.

(** ** Heavy images *)
Lemma first_match_In l image :
  (exists p, (p, first_match l image) ∈ l /\ Contains image p = true) \/
  (first_match l image = DefaultSSHTimeout /\ Forall (fun x => Contains image x.1 = false) l).
Proof.
  induction l as [|[p d] l IH]; cbn; [by right|].
  destruct (Contains image p) eqn:Hp; [left; exists p; split; [left|done]|].
  destruct IH as [(q & Hq & Hc)|[He Hf]]; [left; exists q; split; [by right|done]|].
  right. split; [done|]. by constructor.
Qed.

Lemma heavy_timeouts_longer :
  map_Forall (fun _ d => (DefaultSSHTimeout < d <= 15 * Minute)%Z) heavyImageTimeouts.
Proof. by_dec. Qed.

(** Whether an image counts as heavy does not depend on the order of the map: it
    does when its name contains one of the patterns, in any case of letters; and the
    recommended timeout then lies between ten and fifteen minutes. *)
Theorem IsHeavyImage_patterns (t : VastTemplate.t) :
  (IsHeavyImage t = true <->
   exists p d, heavyImageTimeouts !! p = Some d /\ Contains (ToLower (VastTemplate.Image t)) p = true) /\
  (DefaultSSHTimeout <= GetRecommendedSSHTimeout t <= 15 * Minute)%Z.
Proof.
  unfold IsHeavyImage, GetRecommendedSSHTimeout.
  pose proof (range_map_perm duration heavyImageTimeouts) as Hp.
  assert (forall p d, (p, d) ∈ range_map duration heavyImageTimeouts <->
                      heavyImageTimeouts !! p = Some d) as Hin
    by (intros; by rewrite Hp, elem_of_map_to_list).
  pose proof heavy_timeouts_longer as Hlong.
  destruct (first_match_In (range_map duration heavyImageTimeouts)
              (ToLower (VastTemplate.Image t))) as [(p & Hm%Hin & Hc)|[-> Hf]].
  - pose proof (Hlong _ _ Hm) as [Hlt Hle]. split; [|cbn in *; lia]. rewrite Z.ltb_lt. split; [|done].
    intros _. by eauto.
  - split; [|unfold DefaultSSHTimeout, Minute, Second; lia]. rewrite Z.ltb_irrefl.
    split; [done|]. intros (p & d & Hm%Hin & Hc). rewrite Forall_forall in Hf.
    specialize (Hf _ Hm). cbn in Hf. congruence.
Qed.
End Machines.
