(* ===== verification/CircuitBreaker.v ===== *)
(** The circuit breaker of [internal/provider/vastai/client.go] ([tensordock] and
    [bluelobster] hold copies of the same text).  The transitions are functions of the
    instants they read; the methods read them from the clock, under the mutex. *)
From S2P Require Import Prelude GoFloat GoLib GoStrings Models Errors Interfaces.

Inductive CircuitBreakerState := CircuitClosed | CircuitOpen | CircuitHalfOpen.

#[export] Instance CircuitBreakerState_eq_dec : EqDecision CircuitBreakerState.
Proof. solve_decision. Defined.

(** [int(state)], by [iota]. *)
Definition state_number (s : CircuitBreakerState) : Z :=
  match s with CircuitClosed => 0 | CircuitOpen => 1 | CircuitHalfOpen => 2 end.

Module CircuitBreakerConfig.
Record t := mk {
  FailureThreshold : Z;
  ResetTimeout : duration;
  MaxBackoff : duration;
  BaseBackoff : duration
}.
End CircuitBreakerConfig.

Definition DefaultCircuitBreakerConfig : CircuitBreakerConfig.t :=
  CircuitBreakerConfig.mk 5 (30 * Second)%Z (2 * Minute)%Z (1 * Second)%Z.

Module circuitBreaker.
Record t := mk {
  state : CircuitBreakerState;
  failures : Z;
  lastFailure : time;
  lastStateChange : time;
  config : CircuitBreakerConfig.t;
  consecutiveWaits : Z
}.
End circuitBreaker.

Definition newCircuitBreaker (config : CircuitBreakerConfig.t) : circuitBreaker.t :=
  circuitBreaker.mk CircuitClosed 0 zero_time zero_time config 0.

(** [allow], [t] being the instant [time.Since] reads and [t'] that of [time.Now]. *)
Definition cb_allow (t t' : time) (cb : circuitBreaker.t) : bool * circuitBreaker.t :=
  let c := circuitBreaker.config cb in
  match circuitBreaker.state cb with
  | CircuitClosed => (true, cb)
  | CircuitOpen =>
      if (CircuitBreakerConfig.ResetTimeout c <? Sub t (circuitBreaker.lastStateChange cb))%Z
      then (true, circuitBreaker.mk CircuitHalfOpen (circuitBreaker.failures cb)
                    (circuitBreaker.lastFailure cb) t' c (circuitBreaker.consecutiveWaits cb))
      else (false, cb)
  | CircuitHalfOpen => (true, cb)
  end.

Definition cb_recordSuccess (t : time) (cb : circuitBreaker.t) : circuitBreaker.t :=
  let half := bool_decide (circuitBreaker.state cb = CircuitHalfOpen) in
  circuitBreaker.mk (if half then CircuitClosed else circuitBreaker.state cb) 0
    (circuitBreaker.lastFailure cb)
    (if half then t else circuitBreaker.lastStateChange cb) (circuitBreaker.config cb) 0.

(** [t] is the instant of the failure, [t'] that of the change of state. *)
Definition cb_recordFailure (t t' : time) (cb : circuitBreaker.t) : circuitBreaker.t :=
  let c := circuitBreaker.config cb in
  let failures := wrap64 (circuitBreaker.failures cb + 1) in
  let opened := circuitBreaker.mk CircuitOpen failures t t' c
                  (wrap64 (circuitBreaker.consecutiveWaits cb + 1)) in
  if bool_decide (circuitBreaker.state cb = CircuitHalfOpen) then opened
  else if (CircuitBreakerConfig.FailureThreshold c <=? failures)%Z then opened
  else circuitBreaker.mk (circuitBreaker.state cb) failures t
         (circuitBreaker.lastStateChange cb) c (circuitBreaker.consecutiveWaits cb).

(** [1 << uint(n)] in 64 bits: a negative [n] is a huge count. *)
Definition shl1 (n : Z) : Z :=
  let count := (n mod 2 ^ 64)%Z in
  if (64 <=? count)%Z then 0%Z else wrap64 (2 ^ count).

Definition maxShift : Z := 10.

Definition cb_getBackoff (cb : circuitBreaker.t) : duration :=
  let c := circuitBreaker.config cb in
  if (circuitBreaker.consecutiveWaits cb =? 0)%Z then CircuitBreakerConfig.BaseBackoff c
  else
    let waits := circuitBreaker.consecutiveWaits cb in
    let waits := if (maxShift <? waits)%Z then maxShift else waits in
    let backoff := dur_mul (CircuitBreakerConfig.BaseBackoff c) (shl1 (waits - 1)) in
    if (CircuitBreakerConfig.MaxBackoff c <? backoff)%Z
    then CircuitBreakerConfig.MaxBackoff c else backoff.

(** ** The methods *)
Section Methods.
Context {W : Type} `{Env W} (breaker : lens W circuitBreaker.t).

Definition allow : M W bool :=
  let! cb := read breaker in
  match circuitBreaker.state cb with
  | CircuitOpen =>
      let! t := time_Now in
      if (CircuitBreakerConfig.ResetTimeout (circuitBreaker.config cb) <?
          Sub t (circuitBreaker.lastStateChange cb))%Z
      then let! t' := time_Now in do! write breaker (snd (cb_allow t t' cb)) in ret true
      else ret false
  | CircuitClosed | CircuitHalfOpen => ret true
  end.

Definition recordSuccess : M W unit :=
  let! cb := read breaker in
  if bool_decide (circuitBreaker.state cb = CircuitHalfOpen)
  then let! t := time_Now in write breaker (cb_recordSuccess t cb)
  else write breaker (cb_recordSuccess zero_time cb).

Definition recordFailure : M W unit :=
  let! cb := read breaker in
  let! t := time_Now in
  let! t' := time_Now in
  write breaker (cb_recordFailure t t' cb).

Definition getBackoff : M W duration := let! cb := read breaker in ret (cb_getBackoff cb).

Definition State : M W CircuitBreakerState :=
  let! cb := read breaker in ret (circuitBreaker.state cb).
End Methods.

Section MethodFacts.
Context {W : Type} `{EnvLaws W} (breaker : lens W circuitBreaker.t) `{!LensLaws breaker}.

Lemma time_Now_frame : frame time_Now.
Proof. intros w. eapply wp_mono; [apply time_Now_spec|]. by intros t w' []. Qed.

Lemma allow_frame : frame (allow breaker).
Proof.
  unfold allow. apply frame_bind; [apply frame_read|]. intros cb.
  case_match; try apply frame_ret. apply frame_bind; [apply time_Now_frame|]. intros t.
  case_match; [|apply frame_ret]. apply frame_bind; [apply time_Now_frame|]. intros t'.
  apply frame_bind; [by apply frame_write|]. intros. apply frame_ret.
Qed.

Lemma recordSuccess_frame : frame (recordSuccess breaker).
Proof.
  unfold recordSuccess. apply frame_bind; [apply frame_read|]. intros cb.
  case_bool_decide; [|by apply frame_write].
  apply frame_bind; [apply time_Now_frame|]. intros. by apply frame_write.
Qed.

Lemma recordFailure_frame : frame (recordFailure breaker).
Proof.
  unfold recordFailure. apply frame_bind; [apply frame_read|]. intros cb.
  do 2 (apply frame_bind; [apply time_Now_frame|]; intros). by apply frame_write.
Qed.
End MethodFacts.

(** ** Histories *)

(** The calls a breaker has received, with the instants they read. *)
Inductive event :=
| EvAllow (t t' : time)
| EvSuccess (t : time)
| EvFailure (t t' : time).

Definition step (cb : circuitBreaker.t) (e : event) : circuitBreaker.t :=
  match e with
  | EvAllow t t' => snd (cb_allow t t' cb)
  | EvSuccess t => cb_recordSuccess t cb
  | EvFailure t t' => cb_recordFailure t t' cb
  end.

Definition run (config : CircuitBreakerConfig.t) (trace : list event) : circuitBreaker.t :=
  fold_left step trace (newCircuitBreaker config).

(** The failures recorded since the last success. *)
Definition streak_step (n : Z) (e : event) : Z :=
  match e with EvAllow _ _ => n | EvSuccess _ => 0 | EvFailure _ _ => n + 1 end.
Definition streak (trace : list event) : Z := fold_left streak_step trace 0%Z.

(** Some part of the history holds [threshold] failures in a row, and the last change
    of state happened at a recorded failure. *)
Definition tripped (threshold : Z) (trace : list event) : Prop :=
  exists pre post, trace = pre ++ post /\ (threshold <= streak pre)%Z.

Definition opened_at (trace : list event) (t' : time) : Prop := exists t, EvFailure t t' ∈ trace.

Definition breaker_inv (config : CircuitBreakerConfig.t) (trace : list event)
    (cb : circuitBreaker.t) : Prop :=
  let threshold := CircuitBreakerConfig.FailureThreshold config in
  circuitBreaker.config cb = config /\ in_int64 (circuitBreaker.failures cb) /\
  (circuitBreaker.failures cb <= streak trace)%Z /\
  match circuitBreaker.state cb with
  | CircuitClosed => True
  | CircuitHalfOpen => tripped threshold trace
  | CircuitOpen => tripped threshold trace /\ opened_at trace (circuitBreaker.lastStateChange cb)
  end.

Section History.
Context (config : CircuitBreakerConfig.t).
Local Abbreviation threshold := (CircuitBreakerConfig.FailureThreshold config).

Lemma streak_nonneg trace : (0 <= streak trace)%Z.
Proof.
  induction trace as [|e l IH] using rev_ind; [done|]. unfold streak in *. rewrite fold_left_app.
  destruct e; cbn; lia.
Qed.

Lemma tripped_snoc trace e : tripped threshold trace -> tripped threshold (trace ++ [e]).
Proof. intros (pre & post & -> & Hp). exists pre, (post ++ [e]). by rewrite app_assoc. Qed.

Lemma tripped_now trace : (threshold <= streak trace)%Z -> tripped threshold trace.
Proof. intros Ht. exists trace, []. by rewrite app_nil_r. Qed.

Lemma opened_snoc trace e t : opened_at trace t -> opened_at (trace ++ [e]) t.
Proof. intros [u Hu]. exists u. apply elem_of_app. by left. Qed.

Lemma opened_now trace t t' : opened_at (trace ++ [EvFailure t t']) t'.
Proof. exists t. apply elem_of_app. right. by apply list_elem_of_singleton. Qed.

Lemma wrap64_le z : (min_int64 <= z)%Z -> (wrap64 z <= z)%Z.
Proof.
  unfold wrap64, min_int64. intros Hz. pose proof (Z.mod_le (z + 2 ^ 63) (2 ^ 64)). lia.
Qed.

Lemma step_inv trace cb e : breaker_inv config trace cb -> breaker_inv config (trace ++ [e]) (step cb e).
Proof.
  intros (Hc & Hi & Hs & Hst). unfold breaker_inv.
  assert (streak (trace ++ [e]) = streak_step (streak trace) e) as Hsn
    by (unfold streak; by rewrite fold_left_app).
  destruct cb as [st n lf lc c cw]. cbn in *. subst c.
  destruct e as [t t'|t|t t']; cbn [step streak_step] in *; rewrite Hsn.
  - unfold cb_allow. cbn.
    destruct st; cbn; [done| |split_and!; try done; by apply tripped_snoc].
    destruct Hst as [Ht Ho]. case_match; cbn; split_and!; try done; try apply opened_snoc;
      by try apply tripped_snoc.
  - unfold cb_recordSuccess. cbn. split; [done|]. split; [done|]. split; [done|].
    destruct st; cbn; [done| |done]. destruct Hst. split; [by apply tripped_snoc|by apply opened_snoc].
  - assert (wrap64 (n + 1) <= streak trace + 1)%Z as Hle.
    { pose proof (wrap64_le (n + 1)). unfold in_int64, min_int64, max_int64 in *. lia. }
    unfold cb_recordFailure. cbn.
    case_bool_decide as Hhalf; [subst st|].
    + cbn. split_and!; [done|apply wrap64_range|done|by apply tripped_snoc|apply opened_now].
    + destruct (Z.leb_spec threshold (wrap64 (n + 1))) as [Hth|Hth]; cbn.
      * split_and!; [done|apply wrap64_range|done| |apply opened_now].
        apply tripped_now. rewrite Hsn. lia.
      * split_and!; [done|apply wrap64_range|done|].
        destruct st; [done| |done]. destruct Hst. split; [by apply tripped_snoc|by apply opened_snoc].
Qed.

Lemma run_inv trace : breaker_inv config trace (run config trace).
Proof.
  induction trace as [|e l IH] using rev_ind; [by repeat split|].
  unfold run in *. rewrite fold_left_app. by apply step_inv.
Qed.

(** C24.  The breaker refuses a request only for a reason: at some moment the failures
    since the last success had reached the threshold, and the circuit was (re)opened by
    a failure recorded no longer than [ResetTimeout] ago. *)
Theorem refusal_has_reason (trace : list event) (t t' : time)
    (Hno : fst (cb_allow t t' (run config trace)) = false) :
  tripped threshold trace /\
  exists u u', EvFailure u u' ∈ trace /\ (Sub t u' <= CircuitBreakerConfig.ResetTimeout config)%Z.
Proof.
  destruct (run_inv trace) as (Hc & _ & _ & Hst). revert Hno Hst. unfold cb_allow. rewrite Hc.
  destruct (circuitBreaker.state (run config trace)); try done.
  destruct (Z.ltb_spec (CircuitBreakerConfig.ResetTimeout config)
              (Sub t (circuitBreaker.lastStateChange (run config trace)))) as [|Hle]; [done|].
  intros _ [Ht [u Hu]]. split; [done|]. by exists u, (circuitBreaker.lastStateChange (run config trace)).
Qed.

(** A half-open circuit lets every request through, not one. *)
Lemma half_open_allows_all cb t t' :
  circuitBreaker.state cb = CircuitHalfOpen -> cb_allow t t' cb = (true, cb).
Proof. intros Hs. unfold cb_allow. by rewrite Hs. Qed.

(** A success while half open closes the circuit; a failure opens it again. *)
Lemma half_open_resolves cb t t' :
  circuitBreaker.state cb = CircuitHalfOpen ->
  circuitBreaker.state (cb_recordSuccess t cb) = CircuitClosed /\
  circuitBreaker.state (cb_recordFailure t t' cb) = CircuitOpen.
Proof. intros Hs. unfold cb_recordSuccess, cb_recordFailure. by rewrite !Hs. Qed.
End History.

(** ** The backoff *)
Lemma shl1_small n : (0 <= n <= 62)%Z -> shl1 n = (2 ^ n)%Z.
Proof.
  intros Hn. unfold shl1. rewrite Z.mod_small by lia.
  destruct (Z.leb_spec 64 n); [lia|]. apply wrap64_id. unfold in_int64, min_int64, max_int64.
  pose proof (Z.pow_le_mono_r 2 n 62). pose proof (Z.pow_nonneg 2 n). lia.
Qed.

(** With a positive base that can be shifted nine times without overflow, the backoff
    is the base doubled once per opening of the circuit after the first, ten at most, and
    never more than [MaxBackoff]. *)
Theorem getBackoff_doubles (cb : circuitBreaker.t)
    (Hbase : (0 < CircuitBreakerConfig.BaseBackoff (circuitBreaker.config cb) < 2 ^ 54)%Z)
    (Hwaits : (0 < circuitBreaker.consecutiveWaits cb)%Z) :
  cb_getBackoff cb =
    Z.min (CircuitBreakerConfig.MaxBackoff (circuitBreaker.config cb))
      (CircuitBreakerConfig.BaseBackoff (circuitBreaker.config cb) *
       2 ^ (Z.min 10 (circuitBreaker.consecutiveWaits cb) - 1)).
Proof.
  unfold cb_getBackoff, maxShift. destruct (Z.eqb_spec (circuitBreaker.consecutiveWaits cb) 0); [lia|].
  set (k := if (10 <? circuitBreaker.consecutiveWaits cb)%Z then 10%Z
            else circuitBreaker.consecutiveWaits cb).
  assert (k = Z.min 10 (circuitBreaker.consecutiveWaits cb)) as <-.
  { unfold k. destruct (Z.ltb_spec 10 (circuitBreaker.consecutiveWaits cb)); lia. }
  assert (1 <= k <= 10)%Z as Hk by (unfold k; case_match; lia).
  rewrite shl1_small by lia. unfold dur_mul.
  assert (0 <= 2 ^ (k - 1) <= 2 ^ 9)%Z as Hp
    by (split; [apply Z.pow_nonneg; lia|apply Z.pow_le_mono_r; lia]).
  rewrite wrap64_id by (unfold in_int64, min_int64, max_int64; change (2 ^ 9)%Z with 512%Z in Hp; nia).
  case_match; lia.
Qed.
