(* ===== verification/ApiClient.v ===== *)
(** What the clients of the marketplaces have in common: the HTTP transport with its rate
    limiter ([HttpClient], outside the program), and the guard of the circuit breaker
    around every API call ([checkCircuitBreaker], [recordAPIResult], [recordAPIMetrics] of
    [internal/provider/vastai/client.go]; [bluelobster/client.go] holds a copy).

    A request is its method, its URL without the query, and a typed payload: the query or
    the body before it is marshalled.  A response is its status code and the text of its
    body; decoding that text is a parameter of each client. *)
From S2P Require Import Prelude GoFloat GoLib GoStrings Models Errors Interfaces CircuitBreaker.

Module Request.
Record t (B : Type) := mk { Method : string; URL : string; Payload : B }.
Arguments mk {B}.
Arguments Method {B}.
Arguments URL {B}.
Arguments Payload {B}.
End Request.

Module Response.
Record t := mk { StatusCode : Z; Body : string }.
End Response.

(** [client] is the provider whose client is meant; the URLs [http.NewRequest] refuses are
    those [url.Parse] refuses. *)
Class HttpClient (W B : Type) := {
  NewRequest_error : Request.t B -> option error;
  Do : Request.t B -> M W (result Response.t);
  limiter_Wait : M W (option error)
}.

(** Requests sent, for specifications: the transport appends the one it is given. *)
Class RequestLog (W B : Type) := requests : W -> list (Request.t B).

(** The requests sent are those sent before and [l]. *)
Definition sends {W B A} `{RequestLog W B} (m : M W A) (P : list (Request.t B) -> Prop) : Prop :=
  forall w, exists l, requests (snd (m w)) = requests w ++ l /\ P l.

Definition no_request {W B A} `{RequestLog W B} (m : M W A) : Prop := sends m (fun l => l = []).

Class HttpLaws (W B : Type) `{HttpClient W B} `{Env W} `{Ghost W} `{RequestLog W B} : Prop := {
  Do_frame : forall r, frame (Do r);
  limiter_frame : frame limiter_Wait;
  Do_sends : forall r, sends (Do r) (fun l => l = [r]);
  limiter_sends : no_request limiter_Wait;
  time_Now_sends : no_request time_Now;
  wait_sends : forall d, no_request (wait d);
  emit_sends : forall e, no_request (emit e)
}.

(** The object is the only one to change its part of the state. *)
Definition keeps {W S A} (l : lens W S) (m : M W A) : Prop :=
  forall w, view l (snd (m w)) = view l w.

Class Owned {W S : Type} (B : Type) `{Env W} `{HttpClient W B} (l : lens W S) : Prop := {
  time_Now_keeps : keeps l time_Now;
  wait_keeps : forall d, keeps l (wait d);
  emit_keeps : forall e, keeps l (emit e);
  Do_keeps : forall r, keeps l (Do r);
  limiter_keeps : keeps l limiter_Wait
}.

Lemma keeps_seq {W S A C} (l : lens W S) (m : M W A) (k : A -> M W C) :
  keeps l m -> (forall a, keeps l (k a)) -> keeps l (bind m k).
Proof.
  intros Hm Hk w. specialize (Hm w). unfold bind. destruct (m w) as [a v]. cbn in Hm.
  by rewrite Hk.
Qed.

Lemma keeps_pure {W S A} (l : lens W S) (a : A) : keeps l (ret a).
Proof. done. Qed.

Lemma keeps_read {W S T} (l : lens W S) (l' : lens W T) : keeps l (read l').
Proof. done. Qed.

Create HintDb keeps.
#[export] Hint Resolve keeps_pure keeps_read : keeps.

Section Sends.
Context {W B : Type} `{RequestLog W B}.

Lemma sends_mono {A} (m : M W A) (P Q : list (Request.t B) -> Prop) :
  sends m P -> (forall l, P l -> Q l) -> sends m Q.
Proof. intros Hm HPQ w. destruct (Hm w) as (l & Hl & HP). eauto. Qed.

Lemma no_request_ret {A} (a : A) : no_request (ret a).
Proof. intros w. exists []. by rewrite app_nil_r. Qed.

Lemma sends_bind {A C} (m : M W A) (k : A -> M W C) (P Q R : list (Request.t B) -> Prop) :
  sends m P -> (forall a, sends (k a) Q) -> (forall l l', P l -> Q l' -> R (l ++ l')) ->
  sends (bind m k) R.
Proof.
  intros Hm Hk HR w. destruct (Hm w) as (l & Hl & HP). unfold bind.
  destruct (m w) as [a v]. destruct (Hk a v) as (l' & Hl' & HQ). cbn in *.
  exists (l ++ l'). rewrite Hl', Hl, app_assoc. auto.
Qed.

Lemma sends_after {A C} (m : M W A) (k : A -> M W C) (P : list (Request.t B) -> Prop) :
  no_request m -> (forall a, sends (k a) P) -> sends (bind m k) P.
Proof. intros Hm Hk. eapply sends_bind; [exact Hm|exact Hk|]. by intros ? l' ->. Qed.

Lemma sends_before {A C} (m : M W A) (k : A -> M W C) (P : list (Request.t B) -> Prop) :
  sends m P -> (forall a, no_request (k a)) -> sends (bind m k) P.
Proof. intros Hm Hk. eapply sends_bind; [exact Hm|exact Hk|]. intros l ? Hl ->. by rewrite app_nil_r. Qed.
End Sends.

(** ** The guard of the circuit breaker *)
Section Guard.
Context {W : Type} `{Env W} (client : string) (breaker : lens W circuitBreaker.t).

Definition checkCircuitBreaker : M W (option error) :=
  let! ok := allow breaker in
  if negb ok then
    let! backoff := getBackoff breaker in
    ret (Some (EDetail (ErrCircuitOpen client) ("retry after " +:+ Duration_String backoff)))
  else ret None.

(** The failures that count. *)
Definition counts_status (code : Z) : bool := (500 <=? code)%Z || (code =? 429)%Z.
Definition counts_text (msg : string) : bool :=
  Contains msg "connection refused" || Contains msg "no such host" ||
  Contains msg "network is unreachable".

Definition recordAPIResult (err : option error) : M W unit :=
  match err with
  | None => recordSuccess breaker
  | Some e =>
      if status_of e counts_status then recordFailure breaker
      else if error_exists is_context e then skip
      else if counts_text (Error e) then recordFailure breaker
      else skip
  end.

Definition recordAPIMetrics (operation : string) (startTime : time) (err : option error) : M W unit :=
  let! t := time_Now in
  let duration := Sub t startTime in
  do! emit (Prom "RecordProviderAPIResponseTime" [client; operation; Duration_String duration]) in
  let status := match err with
                | None => "success"
                | Some e => if error_exists (is_circuit_open client) e then "circuit_open" else "error"
                end in
  do! emit (Prom "RecordProviderAPICall" [client; operation; status]) in
  let! state := State breaker in
  emit (Prom "UpdateProviderCircuitBreakerState" [client; Itoa (state_number state)]).

Definition error_of {A} (r : result A) : option error :=
  match r with Ok _ => None | Err e => Some e end.

(** The deferred call that records the outcome [err] when a method returns. *)
Definition recorded {A} (operation : string) (startTime : time) (err : A -> option error)
    (body : M W A) : M W A :=
  let! r := body in
  do! recordAPIResult (err r) in
  do! recordAPIMetrics operation startTime (err r) in
  ret r.

(** The head of every method of the Vast.ai client: nothing is sent while the circuit is
    open, and what the rest returns is recorded. *)
Definition guarded {A} (operation : string) (body : M W (result A)) : M W (result A) :=
  let! startTime := time_Now in
  let! blocked := checkCircuitBreaker in
  match blocked with
  | Some e => do! recordAPIMetrics operation startTime (Some e) in ret (Err e)
  | None => recorded operation startTime error_of body
  end.
End Guard.

Section GuardFacts.
Context {W : Type} `{EnvLaws W} (client : string) (breaker : lens W circuitBreaker.t)
  `{!LensLaws breaker}.

Lemma checkCircuitBreaker_frame : frame (checkCircuitBreaker client breaker).
Proof.
  unfold checkCircuitBreaker. apply frame_bind; [by apply allow_frame|]. intros ok.
  destruct ok; cbn; [apply frame_ret|]. apply frame_bind; [|intros; apply frame_ret].
  apply frame_bind; [apply frame_read|]. intros. apply frame_ret.
Qed.

Lemma recordAPIResult_frame err : frame (recordAPIResult breaker err).
Proof.
  unfold recordAPIResult. destruct err as [e|]; [|by apply recordSuccess_frame].
  repeat case_match; try apply frame_ret; by apply recordFailure_frame.
Qed.

Lemma recordAPIMetrics_frame op t err : frame (recordAPIMetrics client breaker op t err).
Proof.
  unfold recordAPIMetrics. apply frame_bind; [apply time_Now_frame|]. intros t'. cbv zeta.
  do 2 (apply frame_bind; [apply emit_frame|intros]).
  apply frame_bind; [|intros; apply emit_frame]. apply frame_bind; [apply frame_read|].
  intros. apply frame_ret.
Qed.

Lemma recorded_frame {A} op t (err : A -> option error) (body : M W A) :
  frame body -> frame (recorded client breaker op t err body).
Proof.
  intros Hb. unfold recorded. apply frame_bind; [done|]. intros r.
  apply frame_bind; [apply recordAPIResult_frame|]. intros.
  apply frame_bind; [apply recordAPIMetrics_frame|]. intros. apply frame_ret.
Qed.

Lemma guarded_frame {A} op (body : M W (result A)) :
  frame body -> frame (guarded client breaker op body).
Proof.
  intros Hb. unfold guarded. apply frame_bind; [apply time_Now_frame|]. intros t.
  apply frame_bind; [apply checkCircuitBreaker_frame|]. intros [e|]; [|by apply recorded_frame].
  apply frame_bind; [apply recordAPIMetrics_frame|]. intros. apply frame_ret.
Qed.
End GuardFacts.

(** With the circuit closed, a guarded method answers what its body answers. *)
Lemma guarded_closed {W A : Type} `{Env W} client (breaker : lens W circuitBreaker.t) op
    (body : M W (result A)) w :
  circuitBreaker.state (view breaker (snd (time_Now w))) = CircuitClosed ->
  fst (guarded client breaker op body w) = fst (body (snd (time_Now w))).
Proof.
  intros Hc. unfold guarded, checkCircuitBreaker, allow, bind. destruct (time_Now w) as [t w1].
  cbn [snd] in *. unfold read, pure_state. rewrite Hc. cbn [ret negb]. unfold recorded, bind.
  destruct (body w1) as [r w2]. destruct (recordAPIResult breaker (error_of r) w2) as [u w3].
  by destruct (recordAPIMetrics client breaker op t (error_of r) w3).
Qed.

(** A part of the state that neither the clock nor the sinks nor the breaker touch is kept
    by the guard. *)
Section GuardKeeps.
Context {W S : Type} `{Env W} (client : string) (breaker : lens W circuitBreaker.t) (l : lens W S).
Hypothesis clock_keeps : keeps l time_Now.
Hypothesis sinks_keep : forall e, keeps l (emit e).
Hypothesis breaker_keeps : forall c, keeps l (write breaker c).

Ltac kept :=
  repeat match goal with
  | |- keeps _ (bind _ _) => apply keeps_seq; [|intros]
  | |- keeps _ (match ?x with _ => _ end) => destruct x
  | |- keeps _ (let _ := _ in _) => cbv zeta
  | |- keeps _ _ => solve [eauto with keeps]
  end.

Lemma recordAPIResult_keeps err : keeps l (recordAPIResult breaker err).
Proof. unfold recordAPIResult, recordFailure, recordSuccess, skip. kept. Qed.

Lemma recordAPIMetrics_keeps op t err : keeps l (recordAPIMetrics client breaker op t err).
Proof. unfold recordAPIMetrics, State. kept. Qed.

Lemma recorded_keeps {A} op t (err : A -> option error) (body : M W A) :
  keeps l body -> keeps l (recorded client breaker op t err body).
Proof.
  intros Hb. unfold recorded. kept; [apply recordAPIResult_keeps|apply recordAPIMetrics_keeps].
Qed.

Lemma guarded_keeps {A} op (body : M W (result A)) :
  keeps l body -> keeps l (guarded client breaker op body).
Proof.
  intros Hb. unfold guarded, checkCircuitBreaker, allow, getBackoff.
  kept; try apply recordAPIMetrics_keeps; by apply recorded_keeps.
Qed.
End GuardKeeps.
