(* ===== verification/VastTypes.v ===== *)
(** [internal/provider/vastai/types.go]: the data of the Vast.ai API, its conversion to
    the program's own, and the texts a create request is made of. *)
From S2P Require Import Prelude GoFloat GoLib GoStrings Models Errors Interfaces Template.
From Stdlib Require Import Ascii.

Definition ImageSSHBase : string := "nvidia/cuda:12.6.3-runtime-ubuntu22.04".
Definition ImageVLLM : string := "vllm/vllm-openai:latest".
Definition ImageTGI : string := "ghcr.io/huggingface/text-generation-inference:latest".
Definition DefaultVLLMPort : Z := 8000.
Definition DefaultTGIPort : Z := 80.

Definition WorkloadTypeVLLM : string := "vllm".
Definition WorkloadTypeTGI : string := "tgi".

Module Bundle.
Record t := mk {
  ID : Z;
  AskContractID : Z;
  BundleID : Z;
  MachineID : Z;
  HostID : Z;
  GPUName : string;
  GPURam : f64;
  GPUTotalRam : f64;
  NumGPUs : Z;
  GPUFrac : f64;
  GPUArch : string;
  ComputeCap : Z;
  CPUName : string;
  CPUCores : Z;
  CPUCoresEffective : f64;
  CPUGhz : f64;
  CPURam : Z;
  CPUArch : string;
  DiskSpace : f64;
  DiskName : string;
  DiskBw : f64;
  InetDown : f64;
  InetUp : f64;
  InetDownCost : f64;
  InetUpCost : f64;
  DphBase : f64;
  DphTotal : f64;
  MinBid : f64;
  StorageCost : f64;
  Geolocation : string;
  Geolocode : Z;
  Rentable : bool;
  Rented : bool;
  Reliability : f64;
  DriverVersion : string;
  OSVersion : string;
  CudaMaxGood : f64;
  Verified : bool;
  Verification : string;
  StaticIP : bool;
  PublicIPAddr : string;
  StartDate : f64;
  EndDate : f64;
  Duration : f64
}.
End Bundle.

Module PortBinding.
Record t := mk { HostIP : string; HostPort : string }.
End PortBinding.

(** [Ports] is [None] for a nil map. *)
Module Instance.
Record t := mk {
  ID : Z;
  MachineID : Z;
  HostID : Z;
  Label : string;
  ActualStatus : string;
  IntendedStatus : string;
  CurState : string;
  SSHHost : string;
  SSHPort : Z;
  PublicIP : string;
  Ports : option (gmap string (list PortBinding.t));
  DirectPortCount : Z;
  DirectPortStart : Z;
  DirectPortEnd : Z;
  GPUName : string;
  NumGPUs : Z;
  GPURam : f64;
  DphTotal : f64;
  StartDate : f64;
  Duration : f64;
  ImageUUID : string;
  ImageRuntype : string;
  JupyterURL : string;
  JupyterToken : string
}.
End Instance.

(** The body of a create request; an empty field is left out of the JSON. *)
Module VastCreateRequest.
Record t := mk {
  ClientID : string;
  Image : string;
  DiskSpace : Z;
  Label : string;
  OnStart : string;
  Env : gmap string string;
  RunType : string;
  SSHKey : string;
  Args : string;
  Ports : string;
  TemplateHashID : string;
  Price : f64
}.
End VastCreateRequest.

Module CreateInstanceResponse.
Record t := mk { Success : bool; NewContract : Z; Error : string }.
End CreateInstanceResponse.

Module ApiTemplate.
Record t := mk {
  ID : Z;
  HashID : string;
  Name : string;
  Image : string;
  Tag : string;
  Env : string;
  OnStart : string;
  RunType : string;
  ArgsStr : string;
  UseSSH : bool;
  SSHDirect : bool;
  Recommended : bool;
  RecommendedDiskSpace : f64;
  ExtraFilters : string;
  CreatorID : Z;
  CreatedAt : f64;
  CountCreated : Z
}.
End ApiTemplate.

(** [int(x)] of a [float64]. *)
Definition int_of (x : f64) : Z := int_of_f64 x (Z_of_f64_trunc x).

Definition ToHostProperties (b : Bundle.t) : gmap string value :=
  list_to_map [
    ("cuda_max_good", VFloat64 (Bundle.CudaMaxGood b));
    ("compute_cap", VInt (Bundle.ComputeCap b));
    ("gpu_total_ram", VFloat64 (Bundle.GPUTotalRam b));
    ("gpu_ram", VFloat64 (Bundle.GPURam b));
    ("cpu_arch", VString (Bundle.CPUArch b));
    ("num_gpus", VString (Itoa (Bundle.NumGPUs b)));
    ("gpu_name", VString (Bundle.GPUName b));
    ("disk_space", VFloat64 (Bundle.DiskSpace b));
    ("reliability2", VFloat64 (Bundle.Reliability b));
    ("verified", VBool (Bundle.Verified b));
    ("rentable", VBool (Bundle.Rentable b));
    ("static_ip", VBool (Bundle.StaticIP b));
    ("driver_version", VString (Bundle.DriverVersion b));
    ("inet_down", VFloat64 (Bundle.InetDown b));
    ("inet_up", VFloat64 (Bundle.InetUp b));
    ("dph_total", VFloat64 (Bundle.DphTotal b));
    ("geolocation", VString (Bundle.Geolocation b));
    ("cpu_cores_effective", VFloat64 (Bundle.CPUCoresEffective b))].

Section Range.
Context `{MapRange}.

Definition gpu_name_replacements : gmap string string :=
  list_to_map [("GeForce RTX ", "RTX "); ("NVIDIA ", ""); ("Tesla ", "")].

Definition normalizeGPUName (name : string) : string :=
  fold_left (fun n r => ReplaceAll n (fst r) (snd r)) (range_map string gpu_name_replacements)
    (TrimSpace name).

Definition bidSafety (b : Bundle.t) : f64 :=
  if negb (fgtb (Bundle.MinBid b) f0) then f1
  else if fgtb (Bundle.DphTotal b) f0 then
    let s := fdiv (Bundle.MinBid b) (Bundle.DphTotal b) in
    if fgtb s f1 then f1 else s
  else f0.

(** [now] is the instant [FetchedAt] reads. *)
Definition ToGPUOffer (now : time) (b : Bundle.t) : GPUOffer.t :=
  let interruptible := fgtb (Bundle.MinBid b) f0 in
  let confidence := fadd (fmul (f64_lit 6 10) (Bundle.Reliability b))
                         (fmul (f64_lit 4 10) (bidSafety b)) in
  GPUOffer.mk ("vastai-" +:+ Itoa (Bundle.ID b)) "vastai" (Itoa (Bundle.ID b))
    (normalizeGPUName (Bundle.GPUName b)) (Bundle.NumGPUs b)
    (int_of (fdiv (Bundle.GPURam b) (f64_of_Z 1024)))
    (Bundle.DphTotal b) (Bundle.Geolocation b) (Bundle.Reliability b)
    (Bundle.Rentable b && negb (Bundle.Rented b)) 0 now confidence (Bundle.CudaMaxGood b)
    ("vastai-machine-" +:+ Itoa (Bundle.MachineID b)) interruptible (Bundle.MinBid b).

(** ** Ports *)
Definition parsePortNumber (s : string) : Z :=
  match Atoi s with Ok port => port | Err _ => 0%Z end.

Definition parsePortFromSpec (spec : string) : Z :=
  match Split spec "/"%char with
  | [] => 0%Z
  | p :: _ => match Atoi p with Ok port => port | Err _ => 0%Z end
  end.

(** The body of the loop of [ParsePortMappings]. *)
Definition add_mapping (r : gmap Z Z) (x : string * list PortBinding.t) : gmap Z Z :=
  match snd x with
  | [] => r
  | b :: _ =>
      let containerPort := parsePortFromSpec (fst x) in
      if (containerPort <=? 0)%Z then r
      else
        let externalPort := parsePortNumber (PortBinding.HostPort b) in
        if (externalPort <=? 0)%Z then r else <[containerPort := externalPort]> r
  end.

(** A nil map and an empty one read the same. *)
Definition ParsePortMappings (inst : Instance.t) : gmap Z Z :=
  match Instance.Ports inst with
  | None => ∅
  | Some ports => fold_left add_mapping (range_map (list PortBinding.t) ports) ∅
  end.
End Range.

Definition FormatPortsString (ports : list Z) : string :=
  if bool_decide (ports = []) then ""
  else Join (map (fun p => Itoa p +:+ "/http") ports) ",".

(** ** Templates *)
Definition ToModel (t : ApiTemplate.t) : VastTemplate.t :=
  let createdAt := if fgtb (ApiTemplate.CreatedAt t) f0
                   then Unix (int_of (ApiTemplate.CreatedAt t)) else zero_time in
  VastTemplate.mk (ApiTemplate.ID t) (ApiTemplate.HashID t) (ApiTemplate.Name t)
    (ApiTemplate.Image t) (ApiTemplate.Tag t) (ApiTemplate.Env t) (ApiTemplate.OnStart t)
    (ApiTemplate.RunType t) (ApiTemplate.ArgsStr t) (ApiTemplate.UseSSH t)
    (ApiTemplate.SSHDirect t) (ApiTemplate.Recommended t)
    (int_of (ApiTemplate.RecommendedDiskSpace t)) (ApiTemplate.ExtraFilters t)
    (ApiTemplate.CreatorID t) createdAt (ApiTemplate.CountCreated t).

(** ** Workloads *)
Definition gpu_memory (c : WorkloadConfig.t) : f64 :=
  let u := WorkloadConfig.GPUMemoryUtil c in
  if fleb u f0 then f64_lit 9 10 else u.

Definition when_set (s : string) (args : list string) : list string :=
  if bool_decide (s = "") then [] else args.
Definition when_above (n bound : Z) (args : list string) : list string :=
  if (bound <? n)%Z then args else [].

Definition BuildVLLMArgs (config : option WorkloadConfig.t) : string :=
  match config with
  | None => ""
  | Some c =>
      if bool_decide (WorkloadConfig.ModelID c = "") then ""
      else
        Join
          (["--model"; WorkloadConfig.ModelID c; "--host"; "0.0.0.0"; "--port"; Itoa DefaultVLLMPort] ++
           ["--gpu-memory-utilization"; fmt_fixed 2 (gpu_memory c)] ++
           when_set (WorkloadConfig.Quantization c) ["--quantization"; WorkloadConfig.Quantization c] ++
           when_above (WorkloadConfig.MaxModelLen c) 0
             ["--max-model-len"; Itoa (WorkloadConfig.MaxModelLen c)] ++
           when_above (WorkloadConfig.TensorParallel c) 1
             ["--tensor-parallel-size"; Itoa (WorkloadConfig.TensorParallel c)]) " "
  end.

(** A nil map for a nil configuration and for one without a model. *)
Definition BuildVLLMEnvVars (config : option WorkloadConfig.t) : gmap string string :=
  match config with
  | None => ∅
  | Some c =>
      if bool_decide (WorkloadConfig.ModelID c = "") then ∅
      else
        let args :=
          ["--gpu-memory-utilization " +:+ fmt_fixed 2 (gpu_memory c)] ++
          when_set (WorkloadConfig.Quantization c) ["--quantization " +:+ WorkloadConfig.Quantization c] ++
          when_above (WorkloadConfig.MaxModelLen c) 0
            ["--max-model-len " +:+ Itoa (WorkloadConfig.MaxModelLen c)] ++
          when_above (WorkloadConfig.TensorParallel c) 1
            ["--tensor-parallel-size " +:+ Itoa (WorkloadConfig.TensorParallel c)] in
        let env := {["VLLM_MODEL" := WorkloadConfig.ModelID c]} in
        if bool_decide (args = []) then env else <["VLLM_ARGS" := Join args " "]> env
  end.

Definition BuildTGIArgs (config : option WorkloadConfig.t) : string :=
  match config with
  | None => ""
  | Some c =>
      if bool_decide (WorkloadConfig.ModelID c = "") then ""
      else
        let n := WorkloadConfig.MaxModelLen c in
        Join
          (["--model-id"; WorkloadConfig.ModelID c; "--hostname"; "0.0.0.0"; "--port"; Itoa DefaultTGIPort] ++
           when_set (WorkloadConfig.Quantization c) ["--quantize"; WorkloadConfig.Quantization c] ++
           when_above n 0 ["--max-input-length"; Itoa (Z.quot n 2); "--max-total-tokens"; Itoa n] ++
           when_above (WorkloadConfig.TensorParallel c) 1
             ["--num-shard"; Itoa (WorkloadConfig.TensorParallel c)]) " "
  end.

Definition GetImageForWorkload (workloadType : string) : string :=
  if bool_decide (workloadType = WorkloadTypeVLLM) then ImageVLLM
  else if bool_decide (workloadType = WorkloadTypeTGI) then ImageTGI
  else ImageSSHBase.

Definition GetPortForWorkload (workloadType : string) : Z :=
  if bool_decide (workloadType = WorkloadTypeVLLM) then DefaultVLLMPort
  else if bool_decide (workloadType = WorkloadTypeTGI) then DefaultTGIPort
  else 0%Z.
