(* ===== verification/Vast.v ===== *)
(** [internal/provider/vastai/client.go]: the client of the Vast.ai marketplace.  Its
    state is the circuit breaker and two caches ([VastState]); the transport is
    [HttpClient], and the decoders of response bodies are parameters ([VastDecoder]). *)
From S2P Require Import Prelude GoFloat GoLib GoStrings Models Errors Interfaces Template.
From S2P Require Import CircuitBreaker ApiClient VastTypes.
From Stdlib Require Import Ascii.

Definition templateCacheTTL : duration := (1 * Hour)%Z.

Module VastState.
Record t := mk {
  circuit : circuitBreaker.t;
  templates : list VastTemplate.t;
  templates_fetchedAt : time;
  bundles : gmap Z Bundle.t;
  bundles_fetchedAt : time
}.

Definition set_circuit (c : circuitBreaker.t) (s : t) : t :=
  mk c (templates s) (templates_fetchedAt s) (bundles s) (bundles_fetchedAt s).
Definition set_templates (l : list VastTemplate.t) (at_ : time) (s : t) : t :=
  mk (circuit s) l at_ (bundles s) (bundles_fetchedAt s).
Definition set_bundles (m : gmap Z Bundle.t) (at_ : time) (s : t) : t :=
  mk (circuit s) (templates s) (templates_fetchedAt s) m at_.

(** The state [NewClient] starts with. *)
Definition NewClient : t :=
  mk (newCircuitBreaker DefaultCircuitBreakerConfig) [] zero_time ∅ zero_time.
End VastState.

(** The condition a search puts on one property. *)
Inductive condition :=
| CondBool (op : string) (b : bool)
| CondString (op s : string)
| CondInt (op : string) (n : Z)
| CondFloat (op : string) (x : f64)
| CondList (op : string) (l : list string)
(** a plain value *)
| CondValue (s : string).

Inductive VastPayload :=
| NoPayload
| OffersQuery (q : gmap string condition)
| TemplatesQuery (select_filters : gmap string condition)
| CreateBody (r : VastCreateRequest.t)
| SSHKeyBody (ssh_key : string).

(** [json.NewDecoder(resp.Body).Decode] into the structs of the client. *)
Class VastDecoder := {
  decode_bundles : Response.t -> result (list Bundle.t);
  decode_instances : Response.t -> result (list Instance.t);
  decode_created : Response.t -> result CreateInstanceResponse.t;
  (** the field [instances] of the wrapper: [None] for null *)
  decode_instance : Response.t -> result (option Instance.t);
  decode_templates : Response.t -> result (list ApiTemplate.t);
  decode_credit : Response.t -> result f64
}.

(** [json.Marshal] of the query fails on a float that is no number. *)
Definition finite (x : f64) : bool :=
  match x with S754_infinity _ | S754_nan => false | _ => true end.
Definition marshal_error (c : condition) : option error :=
  match c with
  | CondFloat _ x =>
      if finite x then None
      else Some (EOpaque ("json: unsupported value: " +:+
                          (if is_nan x then "NaN" else if fltb x f0 then "-Inf" else "+Inf")))
  | _ => None
  end.

(** Keys are marshalled in increasing order; the first failure is the error. *)
Definition marshal_query (q : list (string * condition)) : option error :=
  fold_right (fun x acc => match marshal_error (snd x) with Some e => Some e | None => acc end)
    None q.

Definition set_if {A} (b : bool) (k : string) (v : A) (m : gmap string A) : gmap string A :=
  if b then <[k := v]> m else m.

Definition offers_query (filter : OfferFilter.t) : gmap string condition :=
  let q := <["type" := CondValue "on-demand"]> {["rentable" := CondBool "eq" true]} in
  let q := set_if (negb (bool_decide (OfferFilter.GPUType filter = ""))) "gpu_name"
             (CondString "eq" (OfferFilter.GPUType filter)) q in
  let q := set_if (0 <? OfferFilter.MinVRAM filter)%Z "gpu_ram"
             (CondInt "gte" (wrap64 (OfferFilter.MinVRAM filter * 1024))) q in
  let q := set_if (fgtb (OfferFilter.MaxPrice filter) f0) "dph_total"
             (CondFloat "lte" (OfferFilter.MaxPrice filter)) q in
  let minReliability := if fleb (OfferFilter.MinReliability filter) f0 then f64_lit 95 100
                        else OfferFilter.MinReliability filter in
  let q := <["reliability2" := CondFloat "gte" minReliability]> q in
  let q := set_if (fgtb (OfferFilter.MinCUDAVersion filter) f0) "cuda_max_good"
             (CondFloat "gte" (OfferFilter.MinCUDAVersion filter)) q in
  set_if (negb (bool_decide (OfferFilter.Location filter = ""))) "geolocation"
    (CondList "in" [OfferFilter.Location filter]) q.

(** The keys of the query in the order [json.Marshal] writes them. *)
Definition query_keys : list string :=
  ["cuda_max_good"; "dph_total"; "geolocation"; "gpu_name"; "gpu_ram"; "reliability2";
   "rentable"; "type"].
Definition in_order (q : gmap string condition) : list (string * condition) :=
  omap (fun k => (fun c => (k, c)) <$> q !! k) query_keys.

(** ** Requests *)
Definition parseOfferID (offerID : string) : result Z :=
  let offerID := TrimSpace offerID in
  let offerID := if HasPrefix (ToLower offerID) "vastai-" then drop_string 7 offerID else offerID in
  match Atoi offerID with
  | Ok n => Ok n
  | Err e => Err (ENumError offerID e)
  end.

Definition buildSSHRequest (createReq : VastCreateRequest.t) (req : CreateInstanceRequest.t)
    : VastCreateRequest.t :=
  let image := CreateInstanceRequest.DockerImage req in
  let image := if bool_decide (image = "") then ImageSSHBase else image in
  VastCreateRequest.mk (VastCreateRequest.ClientID createReq) image
    (VastCreateRequest.DiskSpace createReq) (VastCreateRequest.Label createReq)
    (if bool_decide (CreateInstanceRequest.OnStartCmd req = "")
     then VastCreateRequest.OnStart createReq else CreateInstanceRequest.OnStartCmd req)
    (if bool_decide (CreateInstanceRequest.EnvVars req = ∅)
     then VastCreateRequest.Env createReq else CreateInstanceRequest.EnvVars req)
    "ssh_proxy" (CreateInstanceRequest.SSHPublicKey req)
    (VastCreateRequest.Args createReq) (VastCreateRequest.Ports createReq)
    (VastCreateRequest.TemplateHashID createReq) (VastCreateRequest.Price createReq).

(** The environment of an entrypoint: the caller's variables, then the workload's over them. *)
Definition entrypoint_env (env : gmap string string) (req : CreateInstanceRequest.t)
    : gmap string string :=
  let env := CreateInstanceRequest.EnvVars req ∪ env in
  match CreateInstanceRequest.WorkloadConfig req with
  | None => env
  | Some c =>
      if bool_decide (WorkloadConfig.Type_ c = WorkloadTypeVLLM)
      then BuildVLLMEnvVars (Some c) ∪ env
      else if bool_decide (WorkloadConfig.Type_ c = WorkloadTypeTGI)
      then
        let env := <["MODEL_ID" := WorkloadConfig.ModelID c]> env in
        set_if (negb (bool_decide (WorkloadConfig.Quantization c = ""))) "QUANTIZE"
          (WorkloadConfig.Quantization c) env
      else env
  end.

Definition entrypoint_ports (req : CreateInstanceRequest.t) : list Z :=
  let ports := CreateInstanceRequest.ExposedPorts req in
  match CreateInstanceRequest.WorkloadConfig req with
  | Some c =>
      if bool_decide (ports = []) then
        let defaultPort := GetPortForWorkload (WorkloadConfig.Type_ c) in
        if (0 <? defaultPort)%Z then [defaultPort] else ports
      else ports
  | None => ports
  end.

Definition buildEntrypointRequest (createReq : VastCreateRequest.t) (req : CreateInstanceRequest.t)
    : VastCreateRequest.t :=
  let image := CreateInstanceRequest.DockerImage req in
  let image := match CreateInstanceRequest.WorkloadConfig req with
               | Some c => if bool_decide (image = "")
                           then GetImageForWorkload (WorkloadConfig.Type_ c) else image
               | None => image
               end in
  let image := if bool_decide (image = "") then ImageSSHBase else image in
  let ports := entrypoint_ports req in
  VastCreateRequest.mk (VastCreateRequest.ClientID createReq) image
    (VastCreateRequest.DiskSpace createReq) (VastCreateRequest.Label createReq)
    (VastCreateRequest.OnStart createReq) (entrypoint_env (VastCreateRequest.Env createReq) req)
    "ssh_proxy"
    (if bool_decide (CreateInstanceRequest.SSHPublicKey req = "")
     then VastCreateRequest.SSHKey createReq else CreateInstanceRequest.SSHPublicKey req)
    (VastCreateRequest.Args createReq)
    (if bool_decide (ports = []) then VastCreateRequest.Ports createReq else FormatPortsString ports)
    (VastCreateRequest.TemplateHashID createReq) (VastCreateRequest.Price createReq).

Definition buildCreateRequest (req : CreateInstanceRequest.t) : VastCreateRequest.t :=
  let diskSpace := if (0 <? CreateInstanceRequest.DiskGB req)%Z
                   then CreateInstanceRequest.DiskGB req else 50%Z in
  let createReq := VastCreateRequest.mk "me" "" diskSpace
                     (InstanceTags.ToLabel (CreateInstanceRequest.Tags req)) "" ∅ "" "" "" "" "" f0 in
  if negb (bool_decide (CreateInstanceRequest.TemplateHashID req = "")) then
    VastCreateRequest.mk "me" "" diskSpace (VastCreateRequest.Label createReq)
      (CreateInstanceRequest.OnStartCmd req) (CreateInstanceRequest.EnvVars req)
      "ssh_proxy" (CreateInstanceRequest.SSHPublicKey req) "" ""
      (CreateInstanceRequest.TemplateHashID req) f0
  else if bool_decide (CreateInstanceRequest.LaunchMode req = LaunchModeEntrypoint)
  then buildEntrypointRequest createReq req
  else buildSSHRequest createReq req.

(** ** Responses *)
Definition handleError (resp : Response.t) (operation : string) : error :=
  let message := Response.Body resp in
  let code := Response.StatusCode resp in
  let baseErr :=
    if (code =? 400)%Z && Contains message "no_such_ask" then ErrOfferStaleInventory
    else if (code =? 429)%Z then ErrProviderRateLimit
    else if (code =? 401)%Z || (code =? 403)%Z then ErrProviderAuth
    else if (code =? 404)%Z then ErrInstanceNotFound
    else ErrProviderError in
  ProviderError "vastai" operation code message (Some baseErr).

(** An instance of the account that carries the program's label. *)
Definition labelled_instance (inst : Instance.t) : option ProviderInstance.t :=
  let (sessionID, ok) := InstanceTags.ParseLabel (Instance.Label inst) in
  if ok then
    Some (ProviderInstance.mk (Itoa (Instance.ID inst)) (Instance.Label inst)
            (Instance.ActualStatus inst) (Unix (int_of (Instance.StartDate inst)))
            (InstanceTags.mk sessionID "" zero_time "") (Instance.DphTotal inst))
  else None.

Definition filterTemplates (templates : list VastTemplate.t) (filter : TemplateFilter.t)
    : list VastTemplate.t :=
  if bool_decide (TemplateFilter.Name filter = "") && bool_decide (TemplateFilter.Image filter = "") &&
     negb (TemplateFilter.Recommended filter) && negb (TemplateFilter.UseSSH filter)
  then templates
  else List.filter (fun t => VastTemplate_MatchesFilter t filter) templates.

Definition find_template (hashID : string) (l : list VastTemplate.t) : option VastTemplate.t :=
  List.find (fun t => bool_decide (VastTemplate.HashID t = hashID)) l.

(** ** The client *)
Class HasVast (W : Type) := vast : lens W VastState.t.

Section Client.
Context {W : Type} `{Env W} `{HttpClient W VastPayload} `{VastDecoder} `{FilterDecoder} `{MapRange}
  `{HasVast W}.
(** the configured base URL *)
Context (baseURL : string).

Definition vast_breaker : lens W circuitBreaker.t :=
  mk_lens (fun w => VastState.circuit (view vast w))
          (fun c w => set vast (VastState.set_circuit c (view vast w)) w).

Definition vast_guarded {A} (operation : string) (body : M W (result A)) : M W (result A) :=
  guarded "vastai" vast_breaker operation body.

(** [limiter.Wait], then the rest. *)
Definition rateLimited {A} (k : M W (result A)) : M W (result A) :=
  let! err := limiter_Wait in
  match err with
  | Some e => ret (Err (EWrap "rate limit wait" e))
  | None => k
  end.

(** The loop of [doWithRetry], [n] iterations left; then the final attempt. *)
Fixpoint retry_loop (n : nat) (attempt : Z) (req : Request.t VastPayload) : M W (result Response.t) :=
  match n with
  | O => Do req
  | S n' =>
      let! stop := if (0 <? attempt)%Z then wait (dur_mul (shl1 (attempt - 1)) Second)
                   else ret None in
      match stop with
      | Some e => ret (Err e)
      | None =>
          let! resp := Do req in
          match resp with
          | Err e => ret (Err e)
          | Ok r => if (Response.StatusCode r =? 429)%Z then retry_loop n' (attempt + 1)%Z req
                    else ret (Ok r)
          end
      end
  end.

Definition maxRetries : nat := 3.
Definition doWithRetry (req : Request.t VastPayload) : M W (result Response.t) :=
  retry_loop (S maxRetries) 0 req.

(** [http.NewRequestWithContext] and the call of [transport] ([doWithRetry] or
    [httpClient.Do]), then the rest on the response. *)
Definition exchange {A} (transport : Request.t VastPayload -> M W (result Response.t))
    (req : Request.t VastPayload) (k : Response.t -> M W (result A)) : M W (result A) :=
  match NewRequest_error req with
  | Some e => ret (Err (EWrap "failed to create request" e))
  | None =>
      let! resp := transport req in
      match resp with
      | Err e => ret (Err (EWrap "request failed" e))
      | Ok r => k r
      end
  end.

Definition code_in (codes : list Z) (r : Response.t) : bool :=
  existsb (Z.eqb (Response.StatusCode r)) codes.

Definition decoded {A B} (r : result A) (k : A -> M W (result B)) : M W (result B) :=
  match r with
  | Err e => ret (Err (EWrap "failed to decode response" e))
  | Ok a => k a
  end.

(** [bundle.ToGPUOffer()] and the filter, bundle by bundle. *)
Fixpoint convert_bundles (filter : OfferFilter.t) (l : list Bundle.t) : M W (list GPUOffer.t) :=
  match l with
  | [] => ret []
  | b :: l' =>
      let! t := time_Now in
      let offer := ToGPUOffer t b in
      let! rest := convert_bundles filter l' in
      ret (if OfferFilter.MatchesFilter offer filter then offer :: rest else rest)
  end.

Definition cache_bundles (l : list Bundle.t) : M W unit :=
  let! t := time_Now in
  let! s := read vast in
  write vast (VastState.set_bundles
                (fold_left (fun m b => <[Bundle.ID b := b]> m) l (VastState.bundles s)) t s).

Definition Vast_ListOffers (filter : OfferFilter.t) : M W (result (list GPUOffer.t)) :=
  vast_guarded "ListOffers" (rateLimited (
    let query := offers_query filter in
    match marshal_query (in_order query) with
    | Some e => ret (Err (EWrap "failed to marshal query" e))
    | None =>
        exchange doWithRetry (Request.mk "GET" (baseURL +:+ "/bundles/") (OffersQuery query))
        (fun resp =>
          if negb (code_in [200%Z] resp) then ret (Err (handleError resp "ListOffers"))
          else decoded (decode_bundles resp) (fun bundles =>
            do! cache_bundles bundles in
            let! offers := convert_bundles filter bundles in
            ret (Ok offers)))
    end)).

Definition Vast_ListAllInstances : M W (result (list ProviderInstance.t)) :=
  vast_guarded "ListAllInstances" (rateLimited (
    exchange Do (Request.mk "GET" (baseURL +:+ "/instances/") NoPayload) (fun resp =>
      if negb (code_in [200%Z] resp) then ret (Err (handleError resp "ListAllInstances"))
      else decoded (decode_instances resp) (fun instances =>
        ret (Ok (omap labelled_instance instances)))))).

Definition Vast_AttachSSHKey (instanceID sshPublicKey : string) : M W (option error) :=
  let! r := vast_guarded "AttachSSHKey" (rateLimited (
    exchange doWithRetry
      (Request.mk "POST" (baseURL +:+ "/instances/" +:+ instanceID +:+ "/ssh/") (SSHKeyBody sshPublicKey))
      (fun resp =>
        if negb (code_in [200%Z] resp) then ret (Err (handleError resp "AttachSSHKey"))
        else ret (Ok tt)))) in
  ret (error_of r).

Definition created_info (instanceID : string) (req : CreateInstanceRequest.t) : InstanceInfo.t :=
  let ports := CreateInstanceRequest.ExposedPorts req in
  let '(apiPort, apiPorts) :=
    match ports with
    | p :: _ =>
        if bool_decide (CreateInstanceRequest.LaunchMode req = LaunchModeEntrypoint)
        then (p, fold_left (fun m q => <[q := q]> m) ports ∅) else (0%Z, ∅)
    | [] => (0%Z, ∅)
    end in
  InstanceInfo.mk instanceID "" 22 "root" "creating" f0 "" apiPort apiPorts.

Definition Vast_CreateInstance (req : CreateInstanceRequest.t) : M W (result InstanceInfo.t) :=
  vast_guarded "CreateInstance" (rateLimited (
    let createReq := buildCreateRequest req in
    match parseOfferID (CreateInstanceRequest.OfferID req) with
    | Err e => ret (Err (EWrap "invalid offer ID" e))
    | Ok bundleID =>
        exchange doWithRetry
          (Request.mk "PUT" (baseURL +:+ "/asks/" +:+ Itoa bundleID +:+ "/") (CreateBody createReq))
        (fun resp =>
          if negb (code_in [200%Z; 201%Z] resp) then ret (Err (handleError resp "CreateInstance"))
          else decoded (decode_created resp) (fun created =>
            if (CreateInstanceResponse.NewContract created =? 0)%Z then
              let errMsg := CreateInstanceResponse.Error created in
              let errMsg := if bool_decide (errMsg = "") then "no contract created" else errMsg in
              ret (Err (ProviderError "vastai" "CreateInstance" 0 errMsg None))
            else
              let instanceID := Itoa (CreateInstanceResponse.NewContract created) in
              let key := CreateInstanceRequest.SSHPublicKey req in
              do! when (negb (bool_decide (key = "")))
                    (let! _ignored := Vast_AttachSSHKey instanceID key in skip) in
              ret (Ok (created_info instanceID req))))
    end)).

Definition Vast_DestroyInstance (instanceID : string) : M W (option error) :=
  let! r := vast_guarded "DestroyInstance" (rateLimited (
    exchange doWithRetry
      (Request.mk "DELETE" (baseURL +:+ "/instances/" +:+ instanceID +:+ "/") NoPayload)
      (fun resp =>
        if negb (code_in [200%Z; 204%Z] resp) then ret (Err (handleError resp "DestroyInstance"))
        else ret (Ok tt)))) in
  ret (error_of r).

Definition instance_status (i : Instance.t) : InstanceStatus.t :=
  InstanceStatus.mk (Instance.ActualStatus i) (bool_decide (Instance.ActualStatus i = "running"))
    (Unix (int_of (Instance.StartDate i))) "" (Instance.SSHHost i) (Instance.SSHPort i) "root"
    (Instance.PublicIP i) (ParsePortMappings i).

(** What the response to a status query means. *)
Definition status_of_response (resp : Response.t) : result InstanceStatus.t :=
  if (Response.StatusCode resp =? 404)%Z then Err ErrInstanceNotFound
  else if negb (code_in [200%Z] resp) then Err (handleError resp "GetInstanceStatus")
  else match decode_instance resp with
       | Err e => Err (EWrap "failed to decode response" e)
       | Ok None => Err ErrInstanceNotFound
       | Ok (Some i) => Ok (instance_status i)
       end.

Definition Vast_GetInstanceStatus (instanceID : string) : M W (result InstanceStatus.t) :=
  vast_guarded "GetInstanceStatus" (rateLimited (
    exchange Do (Request.mk "GET" (baseURL +:+ "/instances/" +:+ instanceID +:+ "/") NoPayload)
      (fun resp => ret (status_of_response resp)))).

(** The cached templates, when they are fresh. *)
Definition fresh_templates : M W (option (list VastTemplate.t)) :=
  let! s := read vast in
  if bool_decide (VastState.templates s = []) then ret None
  else
    let! t := time_Now in
    ret (if (Sub t (VastState.templates_fetchedAt s) <? templateCacheTTL)%Z
         then Some (VastState.templates s) else None).

Definition Vast_ListTemplates (filter : TemplateFilter.t) : M W (result (list VastTemplate.t)) :=
  vast_guarded "ListTemplates" (
    let! cached := fresh_templates in
    match cached with
    | Some l => ret (Ok (filterTemplates l filter))
    | None => rateLimited (
        exchange Do (Request.mk "GET" (baseURL +:+ "/template/") (TemplatesQuery {["recommended" := CondBool "eq" true]}))
        (fun resp =>
          if negb (code_in [200%Z] resp) then ret (Err (handleError resp "ListTemplates"))
          else decoded (decode_templates resp) (fun l =>
            let allTemplates := map ToModel l in
            let! t := time_Now in
            let! s := read vast in
            do! write vast (VastState.set_templates allTemplates t s) in
            ret (Ok (filterTemplates allTemplates filter)))))
    end).

Definition Vast_GetTemplate (hashID : string) : M W (result VastTemplate.t) :=
  let! cached := fresh_templates in
  match l ← cached; find_template hashID l with
  | Some t => ret (Ok t)
  | None =>
      let! templates := Vast_ListTemplates (TemplateFilter.mk false false "" "") in
      match templates with
      | Err e => ret (Err e)
      | Ok l =>
          match find_template hashID l with
          | Some t => ret (Ok t)
          | None => ret (Err (EDetail ErrTemplateNotFound hashID))
          end
      end
  end.

Definition Vast_GetAccountBalance : M W (result AccountBalance.t) :=
  rateLimited (
    let req := Request.mk "GET" (baseURL +:+ "/users/current/") NoPayload in
    match NewRequest_error req with
    | Some e => ret (Err (EWrap "create request" e))
    | None =>
        let! resp := Do req in
        match resp with
        | Err e => ret (Err (EWrap "request failed" e))
        | Ok r =>
            if negb (code_in [200%Z] r)
            then ret (Err (EOpaque ("balance check failed: status " +:+ Itoa (Response.StatusCode r))))
            else match decode_credit r with
                 | Err e => ret (Err (EWrap "decode response" e))
                 | Ok credit => ret (Ok (AccountBalance.mk credit "USD"))
                 end
        end
    end).

(** ** Templates for an offer *)

(** The loop over the templates; a template whose filters do not parse is skipped. *)
Fixpoint compatible_templates (hostProps : gmap string value) (l : list VastTemplate.t)
    : result (list CompatibleTemplate.t) :=
  match l with
  | [] => Ok []
  | t :: l' =>
      match ParseExtraFilters t with
      | Err _ => compatible_templates hostProps l'
      | Ok filters =>
          match (match filters with None => Some true | Some f => MatchesHost f hostProps end) with
          | None => Err (GoPanic "runtime error: comparing uncomparable type")
          | Some b =>
              match compatible_templates hostProps l' with
              | Err e => Err e
              | Ok rest =>
                  Ok (if b
                      then CompatibleTemplate.mk (VastTemplate.HashID t) (VastTemplate.Name t)
                             (VastTemplate.Image t) :: rest
                      else rest)
              end
          end
      end
  end.

Definition cached_bundle (bundleID : Z) : M W (option Bundle.t) :=
  let! s := read vast in ret (VastState.bundles s !! bundleID).

(** The bundle of an offer, from the cache or after one search that fills it. *)
Definition find_bundle (offerID : string) (bundleID : Z) : M W (result Bundle.t) :=
  let! cached := cached_bundle bundleID in
  match cached with
  | Some b => ret (Ok b)
  | None =>
      let! offers := Vast_ListOffers OfferFilter.empty in
      match offers with
      | Err e => ret (Err (EWrap "failed to fetch offers" e))
      | Ok _ =>
          let! again := cached_bundle bundleID in
          match again with
          | Some b => ret (Ok b)
          | None => ret (Err (EOpaque ("offer not found: " +:+ offerID)))
          end
      end
  end.

Definition Vast_GetCompatibleTemplates (offerID : string)
    : M W (result (list CompatibleTemplate.t)) :=
  match parseOfferID offerID with
  | Err e => ret (Err (EWrap ("invalid offer ID " +:+ Quote offerID) e))
  | Ok bundleID =>
      let! bundle := find_bundle offerID bundleID in
      match bundle with
      | Err e => ret (Err e)
      | Ok b =>
          let! templates := Vast_ListTemplates (TemplateFilter.mk true false "" "") in
          match templates with
          | Err e => ret (Err (EWrap "failed to fetch templates" e))
          | Ok l => ret (compatible_templates (ToHostProperties b) l)
          end
      end
  end.

(** The client as the services see it. *)
Definition Vast_Provider : Provider.t W :=
  Provider.mk W "vastai" Vast_ListOffers Vast_ListAllInstances Vast_CreateInstance
    Vast_DestroyInstance Vast_GetInstanceStatus (Some Vast_GetAccountBalance).
Definition Vast_TemplateProvider : TemplateProvider.t W :=
  TemplateProvider.mk W Vast_ListTemplates Vast_GetTemplate Vast_GetCompatibleTemplates.
End Client.
