(* ===== verification/VastFacts.v ===== *)
(** What the Vast.ai client guarantees: it keeps the promises of the provider interface
    ([ProviderLaws]), bounds its requests, classifies errors, and its offers, labels and
    templates fit the rest of the program. *)
From S2P Require Import Prelude GoFloat GoLib GoStrings Models Errors Interfaces Template.
From S2P Require Import CircuitBreaker ApiClient VastTypes Vast Reconciler.
From Stdlib Require Import Ascii.

Section Frames.
Context {W : Type} `{Env W} `{HttpClient W VastPayload} `{RequestLog W VastPayload} `{Ghost W}.
Context `{VastDecoder} `{FilterDecoder} `{MapRange} `{HasVast W}.
Context `{!EnvLaws W} `{!HttpLaws W VastPayload} `{!LensLaws vast}.
Context (baseURL : string).

#[export] Instance vast_breaker_laws : LensLaws vast_breaker.
Proof.
  split; [|intros s w; apply (set_quiet (l := vast))]. intros s w. cbn. by rewrite view_set.
Qed.

#[local] Hint Resolve frame_ret frame_read frame_when Do_frame limiter_frame wait_frame : frame.
#[local] Hint Resolve time_Now_frame : frame.

Lemma frame_write_vast s : frame (write vast s).
Proof. by apply frame_write. Qed.
#[local] Hint Resolve frame_write_vast : frame.

(** One step of a computation in program order. *)
Ltac frames :=
  repeat match goal with
  | |- frame (bind _ _) => apply frame_bind; [|intros]
  | |- frame (match ?x with _ => _ end) => destruct x
  | |- frame (let _ := _ in _) => cbv zeta
  | |- frame _ => solve [eauto with frame]
  end.

Lemma rateLimited_frame {A} (k : M W (result A)) : frame k -> frame (rateLimited k).
Proof. intros Hk. unfold rateLimited. frames. Qed.

Lemma retry_loop_frame n attempt req : frame (retry_loop n attempt req).
Proof.
  revert attempt. induction n as [|n IH]; intros attempt; cbn [retry_loop]; frames.
Qed.

Lemma doWithRetry_frame req : frame (doWithRetry req).
Proof. apply retry_loop_frame. Qed.

Lemma exchange_frame {A} transport req (k : Response.t -> M W (result A)) :
  frame (transport req) -> (forall r, frame (k r)) -> frame (exchange transport req k).
Proof. intros Ht Hk. unfold exchange. frames. Qed.

Lemma vast_guarded_frame {A} op (body : M W (result A)) : frame body -> frame (vast_guarded op body).
Proof. intros Hb. apply guarded_frame; [apply _|done]. Qed.

Lemma decoded_frame {A B} (r : result A) (k : A -> M W (result B)) :
  (forall a, frame (k a)) -> frame (decoded r k).
Proof. intros Hk. unfold decoded. frames. Qed.

Lemma convert_bundles_frame f l : frame (convert_bundles f l).
Proof. induction l as [|b l IH]; cbn [convert_bundles]; frames. Qed.

Lemma cache_bundles_frame l : frame (cache_bundles l).
Proof. unfold cache_bundles. frames. Qed.
#[local] Hint Resolve doWithRetry_frame convert_bundles_frame cache_bundles_frame : frame.

Ltac client :=
  repeat first
    [ apply vast_guarded_frame | apply rateLimited_frame | apply decoded_frame; intros
    | apply exchange_frame; [solve [eauto with frame]|intros]
    | progress frames ].

Lemma Vast_ListOffers_frame f : frame (Vast_ListOffers baseURL f).
Proof. unfold Vast_ListOffers. client. Qed.

Lemma Vast_ListAllInstances_frame : frame (Vast_ListAllInstances baseURL).
Proof. unfold Vast_ListAllInstances. client. Qed.

Lemma Vast_AttachSSHKey_frame i k : frame (Vast_AttachSSHKey baseURL i k).
Proof. unfold Vast_AttachSSHKey. client. Qed.
#[local] Hint Resolve Vast_AttachSSHKey_frame : frame.

Lemma Vast_CreateInstance_frame r : frame (Vast_CreateInstance baseURL r).
Proof. unfold Vast_CreateInstance, when. client. Qed.

Lemma Vast_DestroyInstance_frame i : frame (Vast_DestroyInstance baseURL i).
Proof. unfold Vast_DestroyInstance. client. Qed.

Lemma Vast_GetInstanceStatus_frame i : frame (Vast_GetInstanceStatus baseURL i).
Proof. unfold Vast_GetInstanceStatus. client. Qed.

Lemma Vast_GetAccountBalance_frame : frame (Vast_GetAccountBalance baseURL).
Proof. unfold Vast_GetAccountBalance. client. Qed.
End Frames.

(** ** Requests *)
Section Requests.
Context {W : Type} `{Env W} `{HttpClient W VastPayload} `{RequestLog W VastPayload} `{Ghost W}.
Context `{!EnvLaws W} `{!HttpLaws W VastPayload}.

Lemma Do_run req w : exists r w', Do req w = (r, w') /\ requests w' = requests w ++ [req].
Proof.
  destruct (Do_sends req w) as (l & Hl & ->). destruct (Do req w) as [r w'] eqn:Hd. by exists r, w'.
Qed.

Lemma retry_run n attempt req w : (0 <= attempt)%Z ->
  exists r w' k, retry_loop n attempt req w = (r, w') /\ k <= S n /\ (attempt = 0%Z -> 1 <= k) /\
    requests w' = requests w ++ replicate k req /\
    (forall resp, r = Ok resp -> Response.StatusCode resp = 429%Z -> k = S n).
Proof.
  revert attempt w. induction n as [|n IH]; intros attempt w Ha; cbn [retry_loop].
  { destruct (Do_run req w) as (r & w' & -> & Hr). exists r, w', 1. by split_and!; try lia. }
  set (pre := if (0 <? attempt)%Z then wait (dur_mul (shl1 (attempt - 1)) Second) else ret None).
  assert (exists stop v, pre w = (stop, v) /\ requests v = requests w /\ (attempt = 0%Z -> stop = None))
    as (stop & v & Hp & Hv & Hz).
  { unfold pre. destruct (Z.ltb_spec 0 attempt) as [Hlt|Hle].
    - destruct (wait_sends (dur_mul (shl1 (attempt - 1)) Second) w) as (l & Hl & ->).
      rewrite app_nil_r in Hl. destruct (wait _ w) as [s v]. exists s, v. cbn in Hl.
      split; [done|]. split; [done|]. lia.
    - by exists None, w. }
  unfold bind at 1. rewrite Hp. destruct stop as [e|].
  { exists (Err e), v, 0. rewrite app_nil_r. split_and!; [done|lia|by intros ?%Hz|done|done]. }
  unfold bind. destruct (Do_run req v) as (r & w1 & -> & Hr). rewrite Hv in Hr.
  destruct r as [resp|e]; [|by exists (Err e), w1, 1; split_and!; try lia].
  destruct (Z.eqb_spec (Response.StatusCode resp) 429) as [|Hne].
  - destruct (IH (attempt + 1)%Z w1 ltac:(lia)) as (r & w' & k & -> & Hk & _ & Hrq & Hlast).
    exists r, w', (S k). split_and!; [done|lia|lia| |].
    + by rewrite Hrq, Hr, <-app_assoc.
    + intros resp' Hok Hc. by rewrite (Hlast _ Hok Hc).
  - exists (Ok resp), w1, 1. split_and!; [done|lia|lia|done|]. by intros ? [= <-].
Qed.

(** [doWithRetry] sends the request at least once and at most five times, and hands a
    429 to its caller only when the fifth attempt was refused too. *)
Theorem doWithRetry_attempts (req : Request.t VastPayload) (w : W) :
  exists k, 1 <= k <= 5 /\
    requests (snd (doWithRetry req w)) = requests w ++ replicate k req /\
    (forall resp, fst (doWithRetry req w) = Ok resp -> Response.StatusCode resp = 429%Z -> k = 5).
Proof.
  destruct (retry_run (S maxRetries) 0 req w) as (r & w' & k & Hrun & Hk & Hk1 & Hrq & Hlast); [done|].
  unfold doWithRetry. rewrite Hrun. exists k. unfold maxRetries in *. split; [lia|]. by split.
Qed.
End Requests.

(** ** Errors *)

(** What the error of a refused call tells the program: its class follows from the
    status code, and a 400 that says [no_such_ask] sends the caller to another offer. *)
Theorem handleError_classified (resp : Response.t) (operation : string) :
  let code := Response.StatusCode resp in
  let e := handleError resp operation in
  (IsRateLimitError e = true <-> code = 429%Z) /\
  (IsAuthError e = true <-> (code = 401 \/ code = 403)%Z) /\
  (IsNotFoundError e = true <-> code = 404%Z) /\
  (IsRetryable e = true <-> (code = 429 \/ 500 <= code < 600)%Z) /\
  (ShouldRetryWithDifferentOffer e = true <->
     code = 400%Z /\ Contains (Response.Body resp) "no_such_ask" = true).
Proof.
  destruct resp as [code body]. cbv zeta. unfold handleError. cbn [Response.StatusCode Response.Body].
  unfold IsRateLimitError, IsAuthError, IsNotFoundError, IsRetryable, ShouldRetryWithDifferentOffer,
    IsStaleInventoryError, IsRateLimitError, status_of.
  destruct (Contains body "no_such_ask");
  destruct (Z.eqb_spec code 400); destruct (Z.eqb_spec code 429); destruct (Z.eqb_spec code 401);
    destruct (Z.eqb_spec code 403); destruct (Z.eqb_spec code 404); try lia; cbn;
    repeat match goal with
           | |- context [(code =? ?k)%Z] => destruct (Z.eqb_spec code k); try lia
           end;
    rewrite ?orb_true_iff, ?andb_true_iff, ?Z.eqb_eq, ?Z.leb_le, ?Z.ltb_lt;
    intuition (try lia; try congruence).
Qed.

(** A status query reports an instance as gone only on a 404 or on the null instance
    of a successful answer (or when the decoder itself says so); any other refusal,
    a 5xx in particular, is another error, so that no destruction is confirmed by it. *)
Theorem status_not_found `{VastDecoder} `{MapRange} (resp : Response.t) (e : error) :
  status_of_response resp = Err e ->
  (IsNotFoundError e = true <->
   Response.StatusCode resp = 404%Z \/
   (Response.StatusCode resp = 200%Z /\
    (decode_instance resp = Ok None \/
     exists e', decode_instance resp = Err e' /\ IsNotFoundError e' = true))).
Proof.
  unfold status_of_response, code_in. cbn [existsb]. rewrite orb_false_r.
  destruct (Z.eqb_spec (Response.StatusCode resp) 404) as [H4|H4].
  { intros [= <-]. split; [by left|done]. }
  destruct (Z.eqb_spec (Response.StatusCode resp) 200) as [H2|H2]; cbn [negb].
  - destruct (decode_instance resp) as [[i|]|e'] eqn:Hd.
    + done.
    + intros [= <-]. split; [|done]. intros _. right. split; [done|by left].
    + intros [= <-]. change (IsNotFoundError (EWrap "failed to decode response" e'))
        with (IsNotFoundError e').
      split; [intros He; right; split; [done|right; by exists e']|].
      intros [Hc|[_ [[=]|(e & [= <-] & He)]]]; [lia|done].
  - intros [= <-]. destruct (handleError_classified resp "GetInstanceStatus") as (_ & _ & -> & _).
    split; [by left|]. by intros [Hc|[Hc _]].
Qed.

(** ** Offer identifiers and ports *)

(** ** Offer identifiers *)
Lemma parseOfferID_number n : in_int64 n -> parseOfferID (Itoa n) = Ok n.
Proof.
  intros Hn. unfold parseOfferID. rewrite TrimSpace_id by apply Itoa_no_space.
  assert (HasPrefix (ToLower (Itoa n)) "vastai-" = false) as ->.
  { pose proof (Itoa_bytes n) as Hb. destruct (Itoa n) as [|c s]; [done|].
    cbn [all_bytes] in Hb. apply andb_true_iff in Hb as [Hc _].
    unfold ToLower. cbn [map_string HasPrefix].
    destruct (Ascii.eqb_spec "v" (ascii_lower c)) as [He|]; [|done]. exfalso.
    revert Hc He. unfold is_number_byte, is_digit, ascii_lower.
    destruct (Ascii.eqb_spec c "-") as [->|_]; [discriminate|]. rewrite orb_false_r, andb_true_iff, !Nat.leb_le.
    intros [H1 H2]. destruct (Nat.leb_spec 65 (nat_of_ascii c)); [lia|]. cbn.
    intros <-. vm_compute in H2. lia. }
  by rewrite Atoi_Itoa.
Qed.

Lemma parseOfferID_prefixed n : in_int64 n -> parseOfferID ("vastai-" +:+ Itoa n) = Ok n.
Proof.
  intros Hn. unfold parseOfferID.
  assert (TrimSpace ("vastai-" +:+ Itoa n) = "vastai-" +:+ Itoa n) as ->.
  { apply TrimSpace_id. rewrite all_bytes_app, Itoa_no_space. reflexivity. }
  assert (HasPrefix (ToLower ("vastai-" +:+ Itoa n)) "vastai-" = true) as ->.
  { apply HasPrefix_spec. by exists (ToLower (Itoa n)). }
  change (drop_string 7 ("vastai-" +:+ Itoa n)) with (Itoa n).
  by rewrite Atoi_Itoa.
Qed.

(** The identifier an offer is listed under, and the bare number too, lead
    [CreateInstance] and [GetCompatibleTemplates] back to the bundle it was made of. *)
Theorem offer_id_roundtrip `{MapRange} (t : time) (b : Bundle.t) (Hid : in_int64 (Bundle.ID b)) :
  parseOfferID (GPUOffer.ID (ToGPUOffer t b)) = Ok (Bundle.ID b) /\
  parseOfferID (GPUOffer.ProviderID (ToGPUOffer t b)) = Ok (Bundle.ID b).
Proof. split; [by apply parseOfferID_prefixed|by apply parseOfferID_number]. Qed.

(** ** Ports *)
Lemma free_of_number c s : is_number_byte c = false -> all_bytes is_number_byte s = true -> free_of c s = true.
Proof.
  intros Hc. induction s as [|d s IH]; [done|]. cbn. rewrite !andb_true_iff, negb_true_iff.
  intros [Hd Hs]. split; [|auto]. destruct (Ascii.eqb_spec d c) as [->|]; congruence.
Qed.

Lemma parsePortFromSpec_roundtrip p protocol : in_int64 p ->
  parsePortFromSpec (Itoa p +:+ String "/" protocol) = p.
Proof.
  intros Hp. unfold parsePortFromSpec. rewrite Split_app, Atoi_Itoa; [done|done|].
  apply free_of_number, Itoa_bytes. done.
Qed.

Definition binds (ports : gmap string (list PortBinding.t)) (container external : Z) : Prop :=
  exists spec b bs, ports !! spec = Some (b :: bs) /\ parsePortFromSpec spec = container /\
    parsePortNumber (PortBinding.HostPort b) = external /\ (0 < container)%Z /\ (0 < external)%Z.

Lemma add_mapping_lookup m x k v : add_mapping m x !! k = Some v ->
  m !! k = Some v \/ exists b bs, x.2 = b :: bs /\ parsePortFromSpec x.1 = k /\
    parsePortNumber (PortBinding.HostPort b) = v /\ (0 < k)%Z /\ (0 < v)%Z.
Proof.
  unfold add_mapping. destruct x as [spec [|b bs]]; [by left|]. cbn.
  destruct (Z.leb_spec (parsePortFromSpec spec) 0); [by left|].
  destruct (Z.leb_spec (parsePortNumber (PortBinding.HostPort b)) 0); [by left|].
  rewrite lookup_insert_Some. intros [[<- <-]|[_ Hm]]; [right|by left]. by exists b, bs.
Qed.

Lemma add_mapping_keeps m x k : is_Some (m !! k) -> is_Some (add_mapping m x !! k).
Proof.
  unfold add_mapping. intros Hm. destruct x as [spec [|b bs]]; [done|]. cbn.
  repeat case_match; try done. rewrite lookup_insert_is_Some'. by right.
Qed.

Lemma fold_mapping_keeps l m k : is_Some (m !! k) -> is_Some (fold_left add_mapping l m !! k).
Proof. revert m. induction l as [|x l IH]; intros m Hm; [done|]. by apply IH, add_mapping_keeps. Qed.

Lemma fold_mapping_sound l m k v : fold_left add_mapping l m !! k = Some v ->
  m !! k = Some v \/ exists x b bs, x ∈ l /\ x.2 = b :: bs /\ parsePortFromSpec x.1 = k /\
    parsePortNumber (PortBinding.HostPort b) = v /\ (0 < k)%Z /\ (0 < v)%Z.
Proof.
  revert m. induction l as [|x l IH]; intros m; [by left|]. cbn. intros [Hm|He]%IH.
  - apply add_mapping_lookup in Hm as [|(b & bs & Hx & Hrest)]; [by left|]. right.
    exists x, b, bs. split; [by left|by split].
  - destruct He as (y & b & bs & Hy & Hrest). right. exists y, b, bs. split; [by right|done].
Qed.

Lemma fold_mapping_complete l m spec b bs k : (spec, b :: bs) ∈ l ->
  parsePortFromSpec spec = k -> (0 < k)%Z -> (0 < parsePortNumber (PortBinding.HostPort b))%Z ->
  is_Some (fold_left add_mapping l m !! k).
Proof.
  intros Hin <- Hk Hv. revert m. induction l as [|y l IH]; intros m; [by apply not_elem_of_nil in Hin|].
  apply elem_of_cons in Hin as [<-|Hin]; [|by apply IH].
  cbn. apply fold_mapping_keeps. unfold add_mapping. cbn.
  destruct (Z.leb_spec (parsePortFromSpec spec) 0); [lia|].
  destruct (Z.leb_spec (parsePortNumber (PortBinding.HostPort b)) 0); [lia|].
  by rewrite lookup_insert_eq.
Qed.

(** The parsed port map holds positive ports only, each pair comes from a binding
    of the instance, and every container port with a usable first binding is in it. *)
Theorem ParsePortMappings_binds `{MapRangeLaws} (inst : Instance.t)
    (ports : gmap string (list PortBinding.t)) (Hports : Instance.Ports inst = Some ports) :
  (forall k v, ParsePortMappings inst !! k = Some v -> binds ports k v) /\
  (forall k v, binds ports k v -> is_Some (ParsePortMappings inst !! k)).
Proof.
  unfold ParsePortMappings. rewrite Hports. split.
  - intros k v [Hm|(x & b & bs & Hx & He & Hrest)]%fold_mapping_sound; [by rewrite lookup_empty in Hm|].
    rewrite range_map_perm in Hx. destruct x as [spec l]. cbn in *. subst l.
    apply elem_of_map_to_list in Hx. by exists spec, b, bs.
  - intros k v (spec & b & bs & Hp & Hk & Hv & Hk0 & Hv0).
    eapply fold_mapping_complete; [|exact Hk|done|by rewrite Hv].
    rewrite range_map_perm. by apply elem_of_map_to_list.
Qed.

(** ** Create requests *)

(** Whatever the caller asks for, the request is for an on-demand instance with SSH
    access: no bid is sent, the run type is [ssh_proxy], the disk is positive, the
    caller's key is in it, and its label reads back as the session. *)
Theorem buildCreateRequest_on_demand (req : CreateInstanceRequest.t) :
  let r := buildCreateRequest req in
  let session := InstanceTags.ShopperSessionID (CreateInstanceRequest.Tags req) in
  VastCreateRequest.Price r = f0 /\ VastCreateRequest.RunType r = "ssh_proxy" /\
  (0 < VastCreateRequest.DiskSpace r)%Z /\
  VastCreateRequest.SSHKey r = CreateInstanceRequest.SSHPublicKey req /\
  (session <> "" -> InstanceTags.ParseLabel (VastCreateRequest.Label r) = (session, true)).
Proof.
  cbv zeta. unfold buildCreateRequest.
  assert (Hd : (0 < if (0 <? CreateInstanceRequest.DiskGB req)%Z
                    then CreateInstanceRequest.DiskGB req else 50)%Z).
  { destruct (Z.ltb_spec 0 (CreateInstanceRequest.DiskGB req)); lia. }
  assert (Hl : InstanceTags.ShopperSessionID (CreateInstanceRequest.Tags req) <> "" ->
    InstanceTags.ParseLabel (InstanceTags.ToLabel (CreateInstanceRequest.Tags req)) =
      (InstanceTags.ShopperSessionID (CreateInstanceRequest.Tags req), true)).
  { unfold InstanceTags.ParseLabel, InstanceTags.ToLabel.
    destruct (InstanceTags.ShopperSessionID _) as [|c s]; [done|]. intros _.
    rewrite HasPrefix_app. by cbn. }
  case_bool_decide; cbn [negb]; [|by split_and!].
  case_bool_decide; cbn; split_and!; try done. by case_bool_decide.
Qed.

(** The bid the provisioner computed has no influence on the request. *)
Lemma buildCreateRequest_ignores_bid o s k i e c t m p wc th b b' d :
  buildCreateRequest (CreateInstanceRequest.mk o s k i e c t m p wc th b d) =
  buildCreateRequest (CreateInstanceRequest.mk o s k i e c t m p wc th b' d).
Proof. done. Qed.

(** ** Templates for an offer *)
Lemma host_properties_scalar b : map_Forall (fun _ v => comparable v = true) (ToHostProperties b).
Proof.
  unfold ToHostProperties. cbn [list_to_map foldr].
  repeat (apply map_Forall_insert_2; [done|]). apply map_Forall_empty.
Qed.

(** Matching templates against a machine never panics: every template whose filters
    parse and accept the machine is returned, in order, and no other. *)
Theorem compatible_templates_total `{FilterDecoder} `{MapRangeLaws} (b : Bundle.t)
    (l : list VastTemplate.t) :
  exists cs, compatible_templates (ToHostProperties b) l = Ok cs /\
    CompatibleTemplate.HashID <$> cs =
    VastTemplate.HashID <$> List.filter (fun t =>
      match ParseExtraFilters t with
      | Err _ => false
      | Ok None => true
      | Ok (Some f) => bool_decide (MatchesHost f (ToHostProperties b) = Some true)
      end) l.
Proof.
  induction l as [|t l (cs & Hl & IH)]; [by exists []|].
  cbn [compatible_templates List.filter]. rewrite Hl.
  destruct (ParseExtraFilters t) as [[f|]|e].
  - destruct (MatchesHost_decides f (ToHostProperties b) (host_properties_scalar b)) as ([|] & -> & _).
    + rewrite bool_decide_true by done. eexists. split; [done|]. cbn. by f_equal.
    + rewrite bool_decide_false by done. by exists cs.
  - eexists. split; [done|]. cbn. by f_equal.
  - by exists cs.
Qed.

(** A numeric condition on the number of GPUs rejects every machine: the host property is
    a string. *)
Lemma num_gpus_never_numeric b f v :
  ToHostProperties b !! "num_gpus" = Some v -> ExtraFilter.Gte f = Some (f64_of_Z 1) ->
  is_nil (ExtraFilter.Eq f) = true -> is_nil (ExtraFilter.Neq f) = true ->
  ExtraFilter.Gt f = None -> matches f v = Some false.
Proof.
  assert (ToHostProperties b !! "num_gpus" = Some (VString (Itoa (Bundle.NumGPUs b)))) as -> by reflexivity.
  intros [= <-] Hf He Hn Hg. unfold matches. by rewrite He, Hn, Hg, Hf.
Qed.

(** ** The circuit *)
Section Circuit.
Context {W B : Type} `{Env W} `{HttpClient W B} `{RequestLog W B} `{Ghost W}.
Context `{!EnvLaws W} `{!HttpLaws W B} (client : string) (breaker : lens W circuitBreaker.t)
  `{!LensLaws breaker} `{!Owned B breaker}.

Lemma no_request_run {A} (m : M W A) w : no_request (B := B) m ->
  requests (B := B) (snd (m w)) = requests w.
Proof. intros Hm. destruct (Hm w) as (l & Hl & ->). by rewrite app_nil_r in Hl. Qed.

Lemma recordAPIMetrics_sends op t err : no_request (B := B) (recordAPIMetrics client breaker op t err).
Proof.
  unfold recordAPIMetrics. apply sends_after; [apply time_Now_sends|]. intros t'. cbv zeta.
  do 2 (apply sends_after; [apply emit_sends|intros]).
  apply sends_after; [|intros; apply emit_sends].
  intros w. exists []. unfold State, bind, read, pure_state, ret. cbn. by rewrite app_nil_r.
Qed.

(** The check while the circuit is open: refused within the reset timeout. *)
Lemma checkCircuitBreaker_open w : circuitBreaker.state (view breaker w) = CircuitOpen ->
  wp (checkCircuitBreaker client breaker) (fun e w' =>
    later w w' /\
    ((Sub (clock w') (circuitBreaker.lastStateChange (view breaker w)) <=
        CircuitBreakerConfig.ResetTimeout (circuitBreaker.config (view breaker w)))%Z ->
     requests (B := B) w' = requests w /\
     exists text, e = Some (EDetail (ErrCircuitOpen client) text))) w.
Proof.
  intros Ho. set (cb := view breaker w) in *. unfold checkCircuitBreaker, allow.
  apply wp_bind, wp_bind. unfold wp at 1, read, pure_state. cbn [fst snd]. fold cb. rewrite Ho.
  apply wp_bind.
  assert (Hq : wp time_Now (fun _ w' => requests (B := B) w' = requests w) w)
    by (unfold wp; by apply no_request_run, time_Now_sends).
  eapply wp_mono; [apply wp_and; [apply time_Now_spec|exact Hq]|].
  intros t w1 (([_ Hl1] & Ht) & Hr1).
  destruct (Z.ltb_spec (CircuitBreakerConfig.ResetTimeout (circuitBreaker.config cb))
              (Sub t (circuitBreaker.lastStateChange cb))) as [Hlt|Hle].
  - apply wp_bind. eapply wp_mono; [apply time_Now_spec|]. intros t' w2 ([_ Hl2] & _).
    apply wp_bind. eapply wp_mono; [apply (frame_write breaker)|]. intros u w3 [_ Hl3].
    apply wp_ret. cbn [negb]. apply wp_ret. assert (later w1 w3) as Hl by (by etrans).
    split; [by etrans|]. intros Hle. exfalso. destruct Hl as [Hc _]. unfold Sub in *. lia.
  - apply wp_ret. cbn [negb]. unfold wp, getBackoff, bind, read, pure_state, ret. cbn.
    split; [done|]. intros _. split; [done|]. by eexists.
Qed.

(** While the circuit is open and its reset timeout has not run out when the method
    returns, a guarded method sends nothing and fails with [ErrCircuitOpen]. *)
Theorem open_circuit_sends_nothing {A} (operation : string) (body : M W (result A)) (w : W)
    (Hbody : frame body)
    (Hopen : circuitBreaker.state (view breaker w) = CircuitOpen)
    (Hsoon : (Sub (clock (snd (guarded client breaker operation body w)))
                  (circuitBreaker.lastStateChange (view breaker w)) <=
              CircuitBreakerConfig.ResetTimeout (circuitBreaker.config (view breaker w)))%Z) :
  requests (B := B) (snd (guarded client breaker operation body w)) = requests w /\
  exists e, fst (guarded client breaker operation body w) = Err e /\
    error_exists (is_circuit_open client) e = true.
Proof.
  revert Hsoon.
  enough (wp (guarded client breaker operation body) (fun r w' =>
    (Sub (clock w') (circuitBreaker.lastStateChange (view breaker w)) <=
       CircuitBreakerConfig.ResetTimeout (circuitBreaker.config (view breaker w)))%Z ->
    requests (B := B) w' = requests w /\
    exists e, r = Err e /\ error_exists (is_circuit_open client) e = true) w) by done.
  unfold guarded. apply wp_bind.
  assert (Hq : wp time_Now (fun _ w' => requests (B := B) w' = requests w /\
                                        view breaker w' = view breaker w) w).
  { unfold wp. split; [by apply no_request_run, time_Now_sends|apply (time_Now_keeps (B := B))]. }
  eapply wp_mono; [exact Hq|]. intros t w1 [Hr1 Hv1]. rewrite <-Hv1 in Hopen |- *. apply wp_bind.
  eapply wp_mono; [by apply checkCircuitBreaker_open|]. intros blocked w2 [_ Hb].
  destruct blocked as [e|].
  - apply wp_bind.
    assert (Hm : wp (recordAPIMetrics client breaker operation t (Some e))
                   (fun _ w' => requests (B := B) w' = requests w2) w2)
      by (unfold wp; by apply no_request_run, recordAPIMetrics_sends).
    eapply wp_mono; [apply wp_and; [apply recordAPIMetrics_frame|exact Hm]|].
    intros u w3 [[_ [Hc3 _]] Hr3]. apply wp_ret. intros Hle.
    destruct Hb as (Hr2 & text & [= ->]); [unfold Sub in *; lia|].
    split; [congruence|]. eexists. split; [done|]. cbn. by rewrite bool_decide_true.
  - eapply wp_mono; [by apply recorded_frame|]. intros r w3 [_ [Hc3 _]] Hle.
    destruct Hb as (_ & text & [=]). unfold Sub in *. lia.
Qed.
End Circuit.

#[export] Instance vast_breaker_owned {W : Type} `{Env W} `{HttpClient W VastPayload} `{HasVast W}
  `{!Owned VastPayload vast} : Owned VastPayload vast_breaker.
Proof.
  split.
  - intros w. cbn. by rewrite (time_Now_keeps (l := vast)).
  - intros d w. cbn. by rewrite (wait_keeps (l := vast)).
  - intros e w. cbn. by rewrite (emit_keeps (l := vast)).
  - intros r w. cbn. by rewrite (Do_keeps (l := vast)).
  - intros w. cbn. by rewrite (limiter_keeps (l := vast)).
Qed.

(** ** Offers *)
Section Offers.
Context {W : Type} `{Env W} `{HttpClient W VastPayload} `{VastDecoder} `{MapRange} `{HasVast W}
  `{Ghost W} `{!LensLaws vast} `{!Owned VastPayload vast}.
Context (baseURL : string).

(** The cached bundles, the part of the state a search adds to. *)
Definition cached (w : W) : gmap Z Bundle.t := VastState.bundles (view vast w).
Definition cached_lens : lens W (gmap Z Bundle.t) := mk_lens cached (fun _ w => w).

Lemma keeps_cached {A} (m : M W A) : keeps vast m -> keeps cached_lens m.
Proof. intros Hm w. cbn. unfold cached. by rewrite Hm. Qed.

Lemma write_breaker_cached c : keeps cached_lens (write vast_breaker c).
Proof. intros w. cbn. unfold cached. by rewrite view_set. Qed.

Lemma time_Now_cached : keeps cached_lens time_Now.
Proof. apply keeps_cached, (time_Now_keeps (B := VastPayload)). Qed.
Lemma emit_cached e : keeps cached_lens (emit e).
Proof. apply keeps_cached, (emit_keeps (B := VastPayload)). Qed.

Lemma recordAPIResult_cached err : keeps cached_lens (recordAPIResult vast_breaker err).
Proof. apply recordAPIResult_keeps; [apply time_Now_cached|apply write_breaker_cached]. Qed.

Lemma recordAPIMetrics_cached op t err :
  keeps cached_lens (recordAPIMetrics "vastai" vast_breaker op t err).
Proof. apply recordAPIMetrics_keeps; [apply time_Now_cached|apply emit_cached]. Qed.

(** What a guarded method returns is what its body returned, the cache included. *)
Lemma wp_guarded_ok {A} op (body : M W (result A)) (Q : A -> gmap Z Bundle.t -> Prop) :
  (forall v, wp body (fun r v' => forall a, r = Ok a -> Q a (cached v')) v) ->
  forall w, wp (vast_guarded op body) (fun r w' => forall a, r = Ok a -> Q a (cached w')) w.
Proof.
  intros Hb w. unfold vast_guarded, guarded. apply wp_bind, wp_true. intros t w1.
  apply wp_bind, wp_true. intros [e|] w2.
  - apply wp_bind, wp_true. intros u w3. apply wp_ret. by intros a [=].
  - unfold recorded. apply wp_bind. eapply wp_mono; [apply Hb|]. intros r w3 Hr.
    apply wp_bind. unfold wp at 1. pose proof (recordAPIResult_cached (error_of r) w3) as Hk1.
    destruct (recordAPIResult _ _ w3) as [u1 w4]. cbn in *.
    apply wp_bind. unfold wp at 1. pose proof (recordAPIMetrics_cached op t (error_of r) w4) as Hk2.
    destruct (recordAPIMetrics _ _ _ _ _ w4) as [u2 w5]. cbn in *.
    apply wp_ret. intros a Ha. rewrite Hk2, Hk1. by apply Hr.
Qed.

Lemma wp_rateLimited {A} (k : M W (result A)) (Q : A -> gmap Z Bundle.t -> Prop) :
  (forall v, wp k (fun r v' => forall a, r = Ok a -> Q a (cached v')) v) ->
  forall w, wp (rateLimited k) (fun r w' => forall a, r = Ok a -> Q a (cached w')) w.
Proof.
  intros Hk w. unfold rateLimited. apply wp_bind, wp_true. intros [e|] w1; [|apply Hk].
  apply wp_ret. by intros a [=].
Qed.

Lemma wp_exchange {A} transport req (k : Response.t -> M W (result A)) (Q : A -> gmap Z Bundle.t -> Prop) :
  (forall resp v, wp (k resp) (fun r v' => forall a, r = Ok a -> Q a (cached v')) v) ->
  forall w, wp (exchange transport req k) (fun r w' => forall a, r = Ok a -> Q a (cached w')) w.
Proof.
  intros Hk w. unfold exchange. destruct (NewRequest_error req) as [e|].
  - apply wp_ret. by intros a [=].
  - apply wp_bind, wp_true. intros [r|e] w1; [apply Hk|]. apply wp_ret. by intros a [=].
Qed.

Lemma wp_convert filter l w :
  wp (convert_bundles filter l) (fun offers w' => cached w' = cached w /\
    forall o, o ∈ offers -> OfferFilter.MatchesFilter o filter = true /\
      exists t b, o = ToGPUOffer t b /\ b ∈ l) w.
Proof.
  revert w. induction l as [|b l IH]; intros w; cbn [convert_bundles].
  { apply wp_ret. split; [done|]. intros o Ho. by apply not_elem_of_nil in Ho. }
  apply wp_bind. unfold wp at 1. pose proof (time_Now_cached w) as Ht.
  destruct (time_Now w) as [t w1]. cbn in *. apply wp_bind. eapply wp_mono; [apply IH|].
  intros rest w2 [Hc Hr]. apply wp_ret. split; [congruence|]. intros o Ho.
  assert (o = ToGPUOffer t b /\ OfferFilter.MatchesFilter o filter = true \/ o ∈ rest) as Hcases.
  { destruct (OfferFilter.MatchesFilter (ToGPUOffer t b) filter) eqn:Hm; [|by right].
    apply elem_of_cons in Ho as [->|Ho]; [by left|by right]. }
  destruct Hcases as [[-> Hm]|Hin].
  - split; [done|]. exists t, b. split; [done|by left].
  - destruct (Hr o Hin) as (Hm & t' & b' & -> & Hb). split; [done|]. exists t', b'. split; [done|by right].
Qed.

Lemma cached_after l (m : gmap Z Bundle.t) b : b ∈ l ->
  is_Some (fold_left (fun m b => <[Bundle.ID b := b]> m) l m !! Bundle.ID b).
Proof.
  assert (forall (l : list Bundle.t) (m : gmap Z Bundle.t) k, is_Some (m !! k) ->
            is_Some (fold_left (fun m b => <[Bundle.ID b := b]> m) l m !! k)) as Hkeep.
  { clear. induction l as [|x l IH]; intros m k Hm; [done|]. apply IH.
    rewrite lookup_insert_is_Some'. by right. }
  revert m. induction l as [|x l IH]; intros m; [by intros ?%not_elem_of_nil|].
  intros [->|Hin]%elem_of_cons; cbn; [|by apply IH]. apply Hkeep. by rewrite lookup_insert_eq.
Qed.

(** Every offer a search returns satisfies the filter, was made of a bundle of the
    answer, and that bundle is in the cache afterwards, so that asking for the offer's
    compatible templates needs no second search. *)
Theorem ListOffers_matches_and_caches (filter : OfferFilter.t) (w : W) :
  wp (Vast_ListOffers baseURL filter) (fun r w' => forall offers, r = Ok offers ->
    forall o, o ∈ offers -> OfferFilter.MatchesFilter o filter = true /\
      exists t b, o = ToGPUOffer t b /\ is_Some (VastState.bundles (view vast w') !! Bundle.ID b)) w.
Proof.
  unfold Vast_ListOffers.
  set (Q := fun (offers : list GPUOffer.t) (c : gmap Z Bundle.t) => forall o, o ∈ offers ->
    OfferFilter.MatchesFilter o filter = true /\
    exists t b, o = ToGPUOffer t b /\ is_Some (c !! Bundle.ID b)).
  apply (wp_guarded_ok _ _ Q). apply (wp_rateLimited _ Q). intros v. cbv zeta.
  destruct (marshal_query _) as [e|]; [apply wp_ret; by intros a [=]|].
  apply (wp_exchange _ _ _ Q). clear v. intros resp v.
  destruct (negb _); [apply wp_ret; by intros a [=]|]. unfold decoded.
  destruct (decode_bundles resp) as [bundles|e]; [|apply wp_ret; by intros a [=]].
  apply wp_bind. unfold cache_bundles, read, write, pure_state. unfold wp at 1, bind.
  destruct (time_Now v) as [t v1]. cbn. apply wp_bind. eapply wp_mono; [apply wp_convert|].
  intros offers v2 [Hc Ho]. apply wp_ret. intros ? [= <-] o Hin.
  destruct (Ho o Hin) as (Hm & t' & b & -> & Hb). split; [done|]. exists t', b. split; [done|].
  rewrite Hc. unfold cached. rewrite view_set. cbn. by apply cached_after.
Qed.

(** The listed instances carry the session's tag and nothing else. *)
Definition only_session_tag (i : ProviderInstance.t) : Prop :=
  exists id, ProviderInstance.Tags i = InstanceTags.mk id "" zero_time "".

Lemma labelled_only_session l : Forall only_session_tag (omap labelled_instance l).
Proof.
  apply Forall_forall. intros i (x & _ & Hx)%list_elem_of_omap. unfold labelled_instance in Hx.
  destruct (InstanceTags.ParseLabel _) as [id [|]]; [|done]. injection Hx as <-. by exists id.
Qed.

Lemma ListAllInstances_tags w l :
  fst (Vast_ListAllInstances baseURL w) = Ok l -> Forall only_session_tag l.
Proof.
  set (Q := fun (l : list ProviderInstance.t) (_ : gmap Z Bundle.t) => Forall only_session_tag l).
  enough (wp (Vast_ListAllInstances baseURL) (fun r w' => forall a, r = Ok a -> Q a (cached w')) w) as Hq
    by (intros Hl; by eapply Hq).
  unfold Vast_ListAllInstances. apply (wp_guarded_ok _ _ Q), (wp_rateLimited _ Q). intros v.
  apply (wp_exchange _ _ _ Q). clear v. intros resp v.
  destruct (negb _); [apply wp_ret; by intros a [=]|]. unfold decoded.
  destruct (decode_instances resp); apply wp_ret; [|by intros a [=]].
  intros ? [= <-]. apply labelled_only_session.
Qed.
End Offers.

(** Listing instances keeps whatever the clock, the sinks, the transport and the state of
    the client keep. *)
Lemma ListAllInstances_keeps {W S : Type} `{Env W} `{HttpClient W VastPayload} `{VastDecoder} `{HasVast W}
    (l : lens W S) (baseURL : string) :
  keeps l time_Now -> (forall e, keeps l (emit e)) -> (forall s, keeps l (write vast s)) ->
  keeps l limiter_Wait -> (forall r, keeps l (Do r)) -> keeps l (Vast_ListAllInstances baseURL).
Proof.
  intros Ht He Hv Hl Hd. apply guarded_keeps; [done|done| |].
  - intros c w. apply (Hv (VastState.set_circuit c (view vast w))).
  - unfold rateLimited, exchange, decoded.
    repeat first [apply keeps_seq; [done|intros] | case_match]; done.
Qed.

(** ** The reconciler over this client *)
Section Blind.
Context {W : Type} `{SessionStore W} `{Env W} `{HttpClient W VastPayload} `{VastDecoder} `{MapRange}
  `{HasVast W} `{Ghost W} `{CallLog W}.
Context (cfg : ReconcilerConfig.t) (registry : gmap string (Provider.t W)) (baseURL : string).
Context `{!StoreLaws W} `{!EnvLaws W} `{!MapRangeLaws} `{!ProviderLaws W registry}.
Context `{!CallLogLaws W registry} `{!LensLaws vast} `{!Owned VastPayload vast}.

Lemma untagged_not_ours l i : ReconcilerConfig.deploymentID cfg <> "" ->
  Forall only_session_tag l -> ~ listed cfg l i.
Proof.
  intros Hd Hl (p & Hp & Ho & _). rewrite Forall_forall in Hl. destruct (Hl p Hp) as [id Ht].
  revert Ho. unfold ours, ProviderInstance.IsOurs. rewrite Ht.
  rewrite (bool_decide_false (ReconcilerConfig.deploymentID cfg = "")) by done. cbn.
  rewrite (bool_decide_true ("" = "")) by done. cbn. case_bool_decide; congruence.
Qed.

(** C13.  With a deployment identifier configured, reconciling the Vast.ai account is
    blind: the client gives the listed instances no deployment tag, so the pass destroys
    no orphan, and it stops every running session old enough whose instance is alive and
    listed (one session per instance, on a healthy database). *)
Theorem vast_reconciliation_blind (prov : Provider.t W) (l : list ProviderInstance.t) (w : W)
    (Hdep : ReconcilerConfig.deploymentID cfg <> "")
    (Hreg : registry !! "vastai" = Some prov)
    (Hlist : Provider.ListAllInstances prov = Vast_ListAllInstances baseURL)
    (Hok : fst (Vast_ListAllInstances baseURL w) = Ok l) :
  wp (reconcileProvider cfg registry "vastai") (fun e w' => e = None ->
    destroy_calls w' = destroy_calls w /\
    (healthy w -> forall s, stands_alone "vastai" w s ->
       exists s', sess_view w' !! Session.ID s = Some s' /\ Session.Status s' = StatusStopped)) w.
Proof.
  apply (reconcile_unlisted cfg registry "vastai" prov l); [done|done|by rewrite Hlist|].
  intros i. by eapply untagged_not_ours, ListAllInstances_tags.
Qed.
End Blind.
