(* ===== verification/BlueLobster.v ===== *)
(** [internal/provider/bluelobster/client.go] and [types.go]: the client of the Blue
    Lobster marketplace.  Its state is the circuit breaker; launching an instance is a
    request and then a loop that polls a task.  Decoders and the RFC 3339 text of an
    instant are parameters ([BLDecoder], [RFC3339]). *)
From S2P Require Import Prelude GoFloat GoLib GoStrings Models Errors Interfaces.
From S2P Require Import CircuitBreaker ApiClient.
From Stdlib Require Import Ascii.

Module BlueLobster.
Definition defaultTemplate : string := "UBUNTU-22-04-NV".
Definition defaultSSHUser : string := "ubuntu".
Definition defaultSSHPort : Z := 22.
Definition taskPollInterval : duration := (3 * Second)%Z.
Definition taskPollTimeout : duration := (5 * Minute)%Z.
Definition BlueLobsterAvailabilityConfidence : f64 := f1.
Definition maxInstanceIDLength : nat := 128.

(** ** The data of the API *)
Module Region.
Record t := mk { Name : string; Description : string; City : string; State : string; Country : string }.
End Region.

(** [GPUModel] is the raw JSON of the field. *)
Module InstanceSpec.
Record t := mk { VCPUs : Z; MemoryGiB : Z; StorageGiB : Z; GPUs : Z; GPUModel : string }.
End InstanceSpec.

Module InstanceType.
Record t := mk {
  Name : string;
  Description : string;
  GPUDescription : string;
  PriceCentsPerHour : Z;
  Specs : InstanceSpec.t
}.
End InstanceType.

Module AvailableInstance.
Record t := mk { ID : string; InstanceType : InstanceType.t; Regions : list Region.t }.
End AvailableInstance.

Module LaunchInstanceRequest.
Record t := mk {
  Region : string;
  InstanceType : string;
  Username : string;
  SSHKey : string;
  Name : string;
  TemplateName : string;
  Metadata : gmap string string
}.
End LaunchInstanceRequest.

Module LaunchInstanceResponse.
Record t := mk { TaskID : string; VMUUID : string; AssignedIP : string; Status : string }.
Definition zero : t := mk "" "" "" "".
End LaunchInstanceResponse.

(** [VMUUID] is [Params.VMUUID]. *)
Module TaskResponse.
Record t := mk {
  TaskID : string;
  Status : string;
  Operation : string;
  Message : string;
  VMUUID : string;
  CreatedAt : string;
  UpdatedAt : string
}.
Definition zero : t := mk "" "" "" "" "" "" "".
End TaskResponse.

(** A nil [Metadata] and an empty one read the same. *)
Module VMInstance.
Record t := mk {
  UUID : string;
  Name : string;
  HostID : string;
  Region : string;
  IPAddress : string;
  InternalIP : string;
  CPUCores : Z;
  Memory : Z;
  Storage : Z;
  GPUCount : Z;
  GPUModel : string;
  PowerStatus : string;
  CreatedAt : string;
  Metadata : gmap string string;
  InstanceType : string;
  PriceCentsPerHour : Z;
  VMUsername : string
}.
Definition zero : t := mk "" "" "" "" "" "" 0 0 0 0 "" "" "" ∅ "" 0 "".
End VMInstance.

(** The fields of [ErrorResponse]; [Errors] holds the pairs of field and message. *)
Module ErrorResponse.
Record t := mk { Error : string; Message : string; Errors : list (string * string) }.
End ErrorResponse.

Inductive payload := NoBody | LaunchBody (r : LaunchInstanceRequest.t).

Class BLDecoder := {
  (** [io.ReadAll] of the first 10 MB *)
  read_body : Response.t -> result string;
  decode_available : string -> result (list AvailableInstance.t);
  decode_vms : string -> result (list VMInstance.t);
  decode_vm : string -> result VMInstance.t;
  decode_launch : string -> result LaunchInstanceResponse.t;
  decode_task : string -> result TaskResponse.t;
  (** the field [detail] of the body, and the body itself *)
  decode_detail : string -> result ErrorResponse.t;
  decode_error : string -> result ErrorResponse.t;
  raw_string : string -> result string;
  raw_strings : string -> result (list string)
}.

(** [time.Parse(time.RFC3339, s)] and [t.Format(time.RFC3339)]. *)
Class RFC3339 := { parse_time : string -> option time; format_time : time -> string }.

(** ** Texts *)
Definition gpu_prefixes : list string := ["NVIDIA "; "GeForce "; "Quadro "].
Definition normalizeGPUName (name : string) : string :=
  fold_left TrimPrefix gpu_prefixes (TrimSpace name).

Definition knownGPUVRAM : gmap string Z :=
  list_to_map [("RTX 2080 Ti", 11%Z); ("RTX A4000", 16%Z); ("RTX A5000", 24%Z);
               ("RTX A6000", 48%Z); ("RTX 8000", 48%Z); ("RTX 5090", 32%Z)].
Definition lookupVRAM (normalizedGPU : string) : Z := default 0%Z (knownGPUVRAM !! normalizedGPU).

Definition name_byte (c : ascii) : bool :=
  let n := nat_of_ascii c in
  ((97 <=? n) && (n <=? 122)) || ((65 <=? n) && (n <=? 90)) || ((48 <=? n) && (n <=? 57)) || (n =? 45).

Definition sanitizeInstanceName (name : string) : string :=
  let name := TrimByte "-" (filter_bytes name_byte name) in
  if String.length name <? 2 then "shopper-instance" else name.

Definition parseOfferID (offerID : string) : result (string * string) :=
  match SplitN offerID ":" 3 with
  | [provider; instanceType; region] =>
      if bool_decide (provider = "bluelobster") then Ok (instanceType, region)
      else Err (EOpaque ("invalid Blue Lobster offer ID: " +:+ offerID))
  | _ => Err (EOpaque ("invalid Blue Lobster offer ID: " +:+ offerID))
  end.

Definition invalid_id (detail : string) : option error := Some (EDetail ErrInvalidInstanceID detail).

Definition validateInstanceID (instanceID : string) : option error :=
  let has := Contains instanceID in
  if bool_decide (instanceID = "") then invalid_id "empty instance ID"
  else if maxInstanceIDLength <? String.length instanceID
  then invalid_id "instance ID too long (max 128 characters)"
  else if has "/" || has "\" then invalid_id "instance ID contains invalid characters"
  else if has "%2f" || has "%2F" || has "%5c" || has "%5C"
  then invalid_id "instance ID contains invalid characters"
  else None.

Definition validPrefixes : list string := ["ssh-rsa "; "ssh-ed25519 "; "ecdsa-sha2-"; "ssh-dss "].
Definition validateSSHPublicKey (key : string) : option error :=
  let key := TrimSpace key in
  if bool_decide (key = "") then Some (EDetail ErrInvalidSSHKey "empty key")
  else if negb (existsb (HasPrefix key) validPrefixes)
  then Some (EDetail ErrInvalidSSHKey "unrecognized key type")
  else None.

(** The name an instance is launched under: the session's label and the first eight bytes
    of the deployment. *)
Definition instance_name (tags : InstanceTags.t) : string :=
  let name := sanitizeInstanceName (InstanceTags.ToLabel tags) in
  if bool_decide (InstanceTags.ShopperDeploymentID tags = "") then name
  else
    let depID := sanitizeInstanceName (InstanceTags.ShopperDeploymentID tags) in
    let depID := if 8 <? String.length depID then take_string 8 depID else depID in
    name +:+ "-deploy-" +:+ depID.

Section Conversions.
Context `{BLDecoder} `{RFC3339}.

Definition ParseGPUModel (s : InstanceSpec.t) : string :=
  let raw := InstanceSpec.GPUModel s in
  if bool_decide (raw = "") then ""
  else match raw_string raw with
       | Ok model => model
       | Err _ =>
           match raw_strings raw with
           | Ok (model :: _) => model
           | _ => ""
           end
       end.

Definition ToMap (tags : InstanceTags.t) : gmap string string :=
  list_to_map [("shopper_session_id", InstanceTags.ShopperSessionID tags);
               ("shopper_deployment_id", InstanceTags.ShopperDeploymentID tags);
               ("shopper_expires_at", format_time (InstanceTags.ShopperExpiresAt tags));
               ("shopper_consumer_id", InstanceTags.ShopperConsumerID tags)].

Definition cents (n : Z) : f64 := fdiv (f64_of_Z n) (f64_of_Z 100).

(** [now] is the instant [FetchedAt] reads. *)
Definition ToGPUOffer (now : time) (a : AvailableInstance.t) (region : Region.t) : GPUOffer.t :=
  let typ := AvailableInstance.InstanceType a in
  let gpuName := normalizeGPUName (ParseGPUModel (InstanceType.Specs typ)) in
  let location := Region.City region in
  let location := if bool_decide (Region.State region = "") then location
                  else location +:+ ", " +:+ Region.State region in
  let location := if bool_decide (Region.Country region = "") then location
                  else location +:+ ", " +:+ Region.Country region in
  GPUOffer.mk ("bluelobster:" +:+ InstanceType.Name typ +:+ ":" +:+ Region.Name region)
    "bluelobster" (AvailableInstance.ID a) gpuName (InstanceSpec.GPUs (InstanceType.Specs typ))
    (lookupVRAM gpuName) (cents (InstanceType.PriceCentsPerHour typ)) location f0 true 0 now
    BlueLobsterAvailabilityConfidence f0 "" false f0.

(** BL-008: "running" is inferred from an address when the API gives no power status. *)
Definition power_status (vm : VMInstance.t) : string :=
  if bool_decide (VMInstance.PowerStatus vm = "") && negb (bool_decide (VMInstance.IPAddress vm = ""))
  then "running" else VMInstance.PowerStatus vm.

Definition ssh_user (vm : VMInstance.t) : string :=
  if bool_decide (VMInstance.VMUsername vm = "") then defaultSSHUser else VMInstance.VMUsername vm.

Definition time_or_zero (s : string) : time :=
  if bool_decide (s = "") then zero_time else default zero_time (parse_time s).

Definition meta (vm : VMInstance.t) (key : string) : string :=
  default "" (VMInstance.Metadata vm !! key).

(** The tags of a listed machine: its metadata, else its name (BL-007). *)
Definition vm_session (vm : VMInstance.t) : string :=
  let tag := meta vm "shopper_session_id" in
  if bool_decide (tag = "") then
    let (sessionID, ok) := InstanceTags.ParseLabel (VMInstance.Name vm) in
    if ok then
      match LastIndex sessionID "-deploy-" with
      | Some idx => take_string idx sessionID
      | None => sessionID
      end
    else ""
  else tag.

Definition vm_deployment (vm : VMInstance.t) : string :=
  let tag := meta vm "shopper_deployment_id" in
  if bool_decide (tag = "") then
    match LastIndex (VMInstance.Name vm) "-deploy-" with
    | Some idx => drop_string (idx + String.length "-deploy-") (VMInstance.Name vm)
    | None => ""
    end
  else tag.

Definition listed_vm (vm : VMInstance.t) : option ProviderInstance.t :=
  let (_, isShopper) := InstanceTags.ParseLabel (VMInstance.Name vm) in
  let tags := InstanceTags.mk (vm_session vm) (vm_deployment vm)
                (time_or_zero (meta vm "shopper_expires_at")) (meta vm "shopper_consumer_id") in
  if negb isShopper && bool_decide (InstanceTags.ShopperSessionID tags = "") then None
  else Some (ProviderInstance.mk (VMInstance.UUID vm) (VMInstance.Name vm) (power_status vm)
               (time_or_zero (VMInstance.CreatedAt vm)) tags (cents (VMInstance.PriceCentsPerHour vm))).

Definition vm_status (vm : VMInstance.t) : InstanceStatus.t :=
  InstanceStatus.mk (power_status vm) (bool_decide (power_status vm = "running"))
    (time_or_zero (VMInstance.CreatedAt vm)) "" (VMInstance.IPAddress vm) defaultSSHPort
    (ssh_user vm) (VMInstance.IPAddress vm) ∅.

Definition vm_info (vm : VMInstance.t) : InstanceInfo.t :=
  InstanceInfo.mk (VMInstance.UUID vm) (VMInstance.IPAddress vm) defaultSSHPort (ssh_user vm)
    (power_status vm) (cents (VMInstance.PriceCentsPerHour vm)) "" 0 ∅.

(** ** Errors *)
Definition mapHTTPError (statusCode : Z) (message operation : string) : error :=
  let baseErr :=
    if (statusCode =? 401)%Z || (statusCode =? 403)%Z then ErrProviderAuth
    else if (statusCode =? 404)%Z then ErrInstanceNotFound
    else if (statusCode =? 409)%Z then ErrOfferUnavailable
    else if (statusCode =? 429)%Z then ErrProviderRateLimit
    else ErrProviderError in
  ProviderError "bluelobster" operation statusCode message (Some baseErr).

(** The message of [ErrorResponse], over the raw body. *)
Definition response_message (body : string) (e : ErrorResponse.t) : string :=
  let message := if bool_decide (ErrorResponse.Message e = "") then body else ErrorResponse.Message e in
  let message :=
    if bool_decide (ErrorResponse.Error e = "") then message
    else if bool_decide (message = ErrorResponse.Error e) then ErrorResponse.Error e
    else ErrorResponse.Error e +:+ ": " +:+ message in
  fold_left (fun m fe => m +:+ " [" +:+ fst fe +:+ ": " +:+ snd fe +:+ "]") (ErrorResponse.Errors e) message.

(** The text of [detail], when it has one. *)
Definition detail_message (body : string) : option string :=
  match decode_detail body with
  | Ok d =>
      if bool_decide (ErrorResponse.Message d = "") then None
      else Some (if bool_decide (ErrorResponse.Error d = "") then ErrorResponse.Message d
                 else ErrorResponse.Error d +:+ ": " +:+ ErrorResponse.Message d)
  | Err _ => None
  end.

Definition error_message (body : string) : string :=
  match detail_message body with
  | Some m => m
  | None =>
      match decode_error body with
      | Ok e =>
          if bool_decide (ErrorResponse.Message e = "") && bool_decide (ErrorResponse.Error e = "")
          then body else response_message body e
      | Err _ => body
      end
  end.

Definition parseError (statusCode : Z) (body operation : string) : error :=
  mapHTTPError statusCode (error_message body) operation.
End Conversions.

(** ** The client *)
Class HasBlueLobster (W : Type) := breaker : lens W circuitBreaker.t.

Section Client.
Context {W : Type} `{Env W} `{HttpClient W payload} `{BLDecoder} `{RFC3339} `{HasBlueLobster W}.
(** the configured base URL and operating system template *)
Context (baseURL template : string).

(** Every method records what it returns, [bluelobster/client.go] has the same helpers. *)
Definition BL_recorded {A} (operation : string) (err : A -> option error) (body : M W A) : M W A :=
  let! startTime := time_Now in
  recorded "bluelobster" breaker operation startTime err body.

Definition doRequest {A} (method path : string) (body : payload) (zero : A)
    (decode : string -> result A) : M W (result A) :=
  let! blocked := checkCircuitBreaker "bluelobster" breaker in
  match blocked with
  | Some e => ret (Err e)
  | None =>
      let! err := limiter_Wait in
      match err with
      | Some e => ret (Err (EWrap "rate limit wait" e))
      | None =>
          let req := Request.mk method (baseURL +:+ path) body in
          match NewRequest_error req with
          | Some e => ret (Err (EWrap "failed to create request" e))
          | None =>
              let! resp := Do req in
              match resp with
              | Err e => ret (Err (EWrap "request failed" e))
              | Ok resp =>
                  ret match read_body resp with
                      | Err e => Err (EWrap "failed to read response body" e)
                      | Ok respBody =>
                          if (400 <=? Response.StatusCode resp)%Z
                          then Err (parseError (Response.StatusCode resp) respBody
                                      (method +:+ " " +:+ path))
                          else if bool_decide (respBody = "") then Ok zero
                          else match decode respBody with
                               | Err e => Err (EWrap "failed to decode response" e)
                               | Ok a => Ok a
                               end
                      end
              end
          end
      end
  end.

Definition wrap (operation : string) (e : error) : error := EWrap ("bluelobster: " +:+ operation) e.

(** The loop over the regions of one instance type. *)
Fixpoint region_offers (filter : OfferFilter.t) (a : AvailableInstance.t) (l : list Region.t)
    : M W (list GPUOffer.t) :=
  match l with
  | [] => ret []
  | region :: l' =>
      let! t := time_Now in
      let offer := ToGPUOffer t a region in
      let! rest := region_offers filter a l' in
      ret (if OfferFilter.MatchesFilter offer filter then offer :: rest else rest)
  end.

Fixpoint available_offers (filter : OfferFilter.t) (l : list AvailableInstance.t)
    : M W (list GPUOffer.t) :=
  match l with
  | [] => ret []
  | a :: l' =>
      if (InstanceSpec.GPUs (InstanceType.Specs (AvailableInstance.InstanceType a)) =? 0)%Z
      then available_offers filter l'
      else
        let! here := region_offers filter a (AvailableInstance.Regions a) in
        let! rest := available_offers filter l' in
        ret (here ++ rest)
  end.

Definition ListOffers (filter : OfferFilter.t) : M W (result (list GPUOffer.t)) :=
  BL_recorded "ListOffers" error_of (
    let! resp := doRequest "GET" "/instances/available" NoBody [] decode_available in
    match resp with
    | Err e => ret (Err (wrap "ListOffers" e))
    | Ok data => let! offers := available_offers filter data in ret (Ok offers)
    end).

Definition ListAllInstances : M W (result (list ProviderInstance.t)) :=
  BL_recorded "ListAllInstances" error_of (
    let! vms := doRequest "GET" "/instances" NoBody [] decode_vms in
    match vms with
    | Err e => ret (Err (wrap "ListAllInstances" e))
    | Ok vms => ret (Ok (omap listed_vm vms))
    end).

Definition getInstanceInfo (instanceID : string) : M W (result InstanceInfo.t) :=
  match validateInstanceID instanceID with
  | Some e => ret (Err (wrap "getInstanceInfo" e))
  | None =>
      let! vm := doRequest "GET" ("/instances/" +:+ instanceID) NoBody VMInstance.zero decode_vm in
      match vm with
      | Err e => ret (Err (wrap "getInstanceInfo" e))
      | Ok vm => ret (Ok (vm_info vm))
      end
  end.

(** What one answered poll of the task decides; [None] polls on. *)
Definition task_decision (launch : LaunchInstanceResponse.t) (task : TaskResponse.t)
    : option (M W (result InstanceInfo.t)) :=
  if bool_decide (TaskResponse.Status task = "COMPLETED") then
    let instanceID := TaskResponse.VMUUID task in
    let instanceID := if bool_decide (instanceID = "") then LaunchInstanceResponse.VMUUID launch
                      else instanceID in
    Some (if bool_decide (instanceID = "")
          then ret (Err (EOpaque "bluelobster: CreateInstance: task completed but no instance ID found"))
          else getInstanceInfo instanceID)
  else if bool_decide (TaskResponse.Status task = "FAILED") then
    let msg := if bool_decide (TaskResponse.Message task = "") then "task failed"
               else TaskResponse.Message task in
    Some (ret (Err (ProviderError "bluelobster" "CreateInstance" 0 msg (Some ErrProviderError))))
  else None.

(** The polling loop, [n] iterations at most: [None] when they do not end it. *)
Fixpoint poll_task (n : nat) (pollDeadline : time) (launch : LaunchInstanceResponse.t)
    : M W (option (result InstanceInfo.t)) :=
  match n with
  | O => ret None
  | S n' =>
      let! t := time_Now in
      if After t pollDeadline then
        ret (Some (Err (EOpaque ("bluelobster: CreateInstance: task poll timeout after " +:+
                                 Duration_String taskPollTimeout +:+ " (vm_uuid=" +:+
                                 LaunchInstanceResponse.VMUUID launch +:+ ")"))))
      else
        let! stop := wait taskPollInterval in
        match stop with
        | Some e => ret (Some (Err e))
        | None =>
            let! task := doRequest "GET" ("/tasks/" +:+ LaunchInstanceResponse.TaskID launch) NoBody
                           TaskResponse.zero decode_task in
            match task with
            | Err _ => poll_task n' pollDeadline launch
            | Ok task =>
                match task_decision launch task with
                | Some finish => let! r := finish in ret (Some r)
                | None => poll_task n' pollDeadline launch
                end
            end
        end
  end.

(** A poll takes [taskPollInterval]: enough iterations for the timeout, one more that
    meets the deadline. *)
Definition poll_fuel : nat := Z.to_nat (taskPollTimeout / taskPollInterval) + 2.

Definition launch_request (req : CreateInstanceRequest.t) (instanceType region : string)
    : LaunchInstanceRequest.t :=
  LaunchInstanceRequest.mk region instanceType defaultSSHUser
    (TrimSpace (CreateInstanceRequest.SSHPublicKey req))
    (instance_name (CreateInstanceRequest.Tags req)) template (ToMap (CreateInstanceRequest.Tags req)).

Definition launch (req : CreateInstanceRequest.t) : M W (result LaunchInstanceResponse.t) :=
  match parseOfferID (CreateInstanceRequest.OfferID req) with
  | Err e => ret (Err (wrap "CreateInstance" e))
  | Ok (instanceType, region) =>
      match validateSSHPublicKey (CreateInstanceRequest.SSHPublicKey req) with
      | Some e => ret (Err (wrap "CreateInstance" e))
      | None =>
          let! resp := doRequest "POST" "/instances/launch-instance"
                         (LaunchBody (launch_request req instanceType region))
                         LaunchInstanceResponse.zero decode_launch in
          match resp with
          | Err e => ret (Err (wrap "CreateInstance" e))
          | Ok r =>
              if bool_decide (LaunchInstanceResponse.TaskID r = "")
              then ret (Err (EOpaque "bluelobster: CreateInstance: no task_id in launch response"))
              else ret (Ok r)
          end
      end
  end.

Definition out_of_fuel : error := GoPanic "the polling loop goes on".

Definition create_body (fuel : nat) (req : CreateInstanceRequest.t) : M W (result InstanceInfo.t) :=
  let! launched := launch req in
  match launched with
  | Err e => ret (Err e)
  | Ok r =>
      let! t := time_Now in
      let! polled := poll_task fuel (Add t taskPollTimeout) r in
      ret (default (Err out_of_fuel) polled)
  end.

Definition CreateInstance (req : CreateInstanceRequest.t) : M W (result InstanceInfo.t) :=
  BL_recorded "CreateInstance" error_of (create_body poll_fuel req).

Definition DestroyInstance (instanceID : string) : M W (option error) :=
  BL_recorded "DestroyInstance" (fun e => e)
    match validateInstanceID instanceID with
    | Some e => ret (Some (wrap "DestroyInstance" e))
    | None =>
        let! r := doRequest "DELETE" ("/instances/" +:+ instanceID) NoBody tt (fun _ => Ok tt) in
        ret match r with
            | Ok _ => None
            | Err e => if IsNotFoundError e then None else Some (wrap "DestroyInstance" e)
            end
    end.

Definition GetInstanceStatus (instanceID : string) : M W (result InstanceStatus.t) :=
  BL_recorded "GetInstanceStatus" error_of
    match validateInstanceID instanceID with
    | Some e => ret (Err (wrap "GetInstanceStatus" e))
    | None =>
        let! vm := doRequest "GET" ("/instances/" +:+ instanceID) NoBody VMInstance.zero decode_vm in
        ret match vm with
            | Err e => Err (wrap "GetInstanceStatus" e)
            | Ok vm => Ok (vm_status vm)
            end
    end.

Definition BL_Provider : Provider.t W :=
  Provider.mk W "bluelobster" ListOffers ListAllInstances CreateInstance DestroyInstance
    GetInstanceStatus None.
End Client.
End BlueLobster.
