(* ===== verification/BlueLobsterFacts.v ===== *)
(** What the Blue Lobster client guarantees: the provider interface's promises, an end to
    its polling, names that lead back to session and deployment, offer identifiers that
    lead back to instance types, and the classes of its errors. *)
From S2P Require Import Prelude GoFloat GoLib GoStrings Models Errors Interfaces.
From S2P Require Import CircuitBreaker ApiClient BlueLobster.
From Stdlib Require Import Ascii.
Import BlueLobster.

(** A wait that is not cut short takes its time. *)
Class WaitLaws (W : Type) `{Env W} `{Ghost W} : Prop :=
  wait_advances : forall d w, wp (wait d) (fun e w' => e = None -> (clock w + d <= clock w')%Z) w.

Section Frames.
Context {W : Type} `{Env W} `{HttpClient W payload} `{RequestLog W payload} `{Ghost W}.
Context `{BLDecoder} `{RFC3339} `{HasBlueLobster W}.
Context `{!EnvLaws W} `{!HttpLaws W payload} `{!LensLaws breaker}.
Context (baseURL template : string).

#[local] Hint Resolve frame_ret frame_read Do_frame limiter_frame wait_frame time_Now_frame : frame.

Ltac frames :=
  repeat match goal with
  | |- frame (bind _ _) => apply frame_bind; [|intros]
  | |- frame (match ?x with _ => _ end) => destruct x
  | |- frame (let _ := _ in _) => cbv zeta
  | |- frame _ => solve [eauto with frame]
  end.

Lemma check_frame : frame (checkCircuitBreaker "bluelobster" breaker).
Proof. apply checkCircuitBreaker_frame, _. Qed.
#[local] Hint Resolve check_frame : frame.

Lemma doRequest_frame {A} m p b (zero : A) d : frame (doRequest baseURL m p b zero d).
Proof. unfold doRequest. frames. Qed.
#[local] Hint Resolve doRequest_frame : frame.

Lemma BL_recorded_frame {A} op (err : A -> option error) (body : M W A) :
  frame body -> frame (BL_recorded op err body).
Proof.
  intros Hb. unfold BL_recorded. apply frame_bind; [apply time_Now_frame|]. intros t.
  apply recorded_frame; [apply _|done].
Qed.

Lemma region_offers_frame f a l : frame (region_offers f a l).
Proof. induction l as [|r l IH]; cbn [region_offers]; frames. Qed.
#[local] Hint Resolve region_offers_frame : frame.

Lemma available_offers_frame f l : frame (available_offers f l).
Proof. induction l as [|a l IH]; cbn [available_offers]; frames. Qed.
#[local] Hint Resolve available_offers_frame : frame.

Lemma getInstanceInfo_frame i : frame (getInstanceInfo baseURL i).
Proof. unfold getInstanceInfo. frames. Qed.
#[local] Hint Resolve getInstanceInfo_frame : frame.

Lemma task_decision_frame l t m : task_decision baseURL l t = Some m -> frame m.
Proof. unfold task_decision. intros Hm. repeat case_match; try done; injection Hm as <-; frames. Qed.

Lemma poll_task_frame n d l : frame (poll_task baseURL n d l).
Proof.
  induction n as [|n IH]; cbn [poll_task]; [apply frame_ret|].
  apply frame_bind; [apply time_Now_frame|]. intros t. destruct (After t d); [apply frame_ret|].
  apply frame_bind; [apply wait_frame|]. intros [e|]; [apply frame_ret|].
  apply frame_bind; [apply doRequest_frame|]. intros [task|e]; [|done].
  destruct (task_decision baseURL l task) as [m|] eqn:Hm; [|done].
  apply frame_bind; [by eapply task_decision_frame|]. intros. apply frame_ret.
Qed.
#[local] Hint Resolve poll_task_frame : frame.

Lemma launch_frame req : frame (launch baseURL template req).
Proof. unfold launch. frames. Qed.
#[local] Hint Resolve launch_frame : frame.

Lemma create_body_frame n req : frame (create_body baseURL template n req).
Proof. unfold create_body. frames. Qed.

(** The client keeps the promise of the provider interface that the services are
    proved against: whatever the API answers, no call touches a stored session or turns
    the clock back. *)
Theorem BlueLobster_provider_laws :
  ProviderLaws W (Registry.NewSimpleProviderRegistry [BL_Provider baseURL template]).
Proof.
  split. intros n p. unfold Registry.NewSimpleProviderRegistry. cbn.
  rewrite lookup_insert_Some, lookup_empty. intros [[_ <-]|[_ [=]]]. cbn.
  split_and!; try done; intros; apply BL_recorded_frame; frames; apply create_body_frame.
Qed.

(** *** The polling loop *)
Context `{!WaitLaws W}.

Lemma poll_task_ends_in n d l w :
  (d - clock w < Z.of_nat n * taskPollInterval)%Z ->
  exists r, forall m, S n <= m -> fst (poll_task baseURL m d l w) = Some r /\
    snd (poll_task baseURL m d l w) = snd (poll_task baseURL (S n) d l w).
Proof.
  revert w. induction n as [|n IH]; intros w Hn.
  - destruct (time_Now_spec w) as [_ [Ht _]].
    assert (After (fst (time_Now w)) d = true) as Ha by (apply Z.ltb_lt; lia).
    eexists. intros [|m] Hm; [lia|]. cbn [poll_task]. unfold bind.
    destruct (time_Now w) as [t w1]. cbn [fst] in Ha. by rewrite Ha.
  - pose proof (time_Now_spec w) as [[_ [Hc1 _]] [Ht _]].
    assert (exists f : nat -> option (result InstanceInfo.t) * W,
      (forall m, poll_task baseURL (S m) d l w = f m) /\
      exists r, forall m, S n <= m -> fst (f m) = Some r /\ snd (f m) = snd (f (S n))) as (f & Hf & r & Hr).
    2: { exists r. intros [|m] Hm; [lia|]. rewrite !Hf. apply Hr. lia. }
    eexists. split; [intros m; cbn [poll_task]; unfold bind; reflexivity|].
    destruct (time_Now w) as [t w1]. cbn in Hc1, Ht. destruct (After t d); [by eexists|].
    pose proof (wait_advances taskPollInterval w1) as Hw. unfold wp in Hw.
    destruct (wait taskPollInterval w1) as [[e|] w2]; [by eexists|]. specialize (Hw eq_refl). cbn in Hw.
    pose proof (doRequest_frame "GET" ("/tasks/" +:+ LaunchInstanceResponse.TaskID l) NoBody
                  TaskResponse.zero decode_task w2) as [_ [Hc3 _]].
    destruct (doRequest _ _ _ _ _ _ w2) as [task w3]. cbn in Hc3.
    destruct (IH w3) as (r & Hr); [lia|].
    destruct task as [task|e]; [|by exists r; intros m Hm; apply Hr].
    destruct (task_decision baseURL l task) as [m|]; [|by exists r; intros k Hk; apply Hr].
    destruct (m w3) as [x w4]. by eexists.
Qed.

(** Polling a task ends: with the five minutes of the code as deadline, the loop has
    an answer after at most [poll_fuel] = 102 rounds, and allowing more rounds changes
    neither the answer nor the state. *)
Theorem poll_task_ends (l : LaunchInstanceResponse.t) (t : time) (w : W) :
  (t <= clock w)%Z ->
  exists r, forall m, poll_fuel <= m ->
    fst (poll_task baseURL m (Add t taskPollTimeout) l w) = Some r /\
    snd (poll_task baseURL m (Add t taskPollTimeout) l w) =
      snd (poll_task baseURL poll_fuel (Add t taskPollTimeout) l w).
Proof.
  intros Ht. change poll_fuel with (S 101). apply poll_task_ends_in.
  unfold Add. change taskPollTimeout with (100 * taskPollInterval)%Z.
  assert (0 < taskPollInterval)%Z by done. lia.
Qed.
End Frames.

(** ** Names *)

(** Made of the bytes the API allows, and not empty; no hyphen at the end. *)
Fixpoint last_byte (s : string) : option ascii :=
  match s with
  | EmptyString => None
  | String c s' => match s' with EmptyString => Some c | _ => last_byte s' end
  end.

Definition clean (s : string) : Prop :=
  all_bytes name_byte s = true /\ exists c, last_byte s = Some c /\ c <> "-"%char.

Lemma filter_bytes_id s : all_bytes name_byte s = true -> filter_bytes name_byte s = s.
Proof.
  induction s as [|c s IH]; [done|]. cbn. rewrite andb_true_iff. intros [-> Hs]. by rewrite IH.
Qed.

Lemma TrimRightByte_id d s c : last_byte s = Some c -> c <> d -> TrimRightByte d s = s.
Proof.
  intros Hl Hc. induction s as [|x s IH]; [done|]. cbn [TrimRightByte]. destruct s as [|y s].
  - injection Hl as ->. cbn. by destruct (Ascii.eqb_spec c d).
  - rewrite IH by done. done.
Qed.

Lemma last_byte_app s t c : last_byte t = Some c -> last_byte (s +:+ t) = Some c.
Proof.
  intros Ht. induction s as [|x s IH]; [done|]. change (last_byte (String x (s +:+ t)) = Some c).
  cbn [last_byte]. destruct (s +:+ t) as [|y u]; [done|]. done.
Qed.

(** A clean name that begins with no hyphen is its own sanitized form. *)
Lemma sanitize_clean c s : c <> "-"%char -> clean (String c s) -> 2 <= String.length (String c s) ->
  sanitizeInstanceName (String c s) = String c s.
Proof.
  intros Hc (Hb & e & Hl & He) Hlen. unfold sanitizeInstanceName.
  rewrite filter_bytes_id by done. unfold TrimByte. cbn [TrimLeftByte].
  destruct (Ascii.eqb_spec c "-"); [done|]. rewrite (TrimRightByte_id _ _ e) by done.
  destruct (Nat.ltb_spec (String.length (String c s)) 2); [lia|done].
Qed.

Lemma LastIndex_short s sub : String.length s < String.length sub -> LastIndex s sub = None.
Proof.
  assert (forall s p, String.length s < String.length p -> HasPrefix s p = false) as Hp.
  { clear. intros s p. revert s. induction p as [|c p IH]; intros [|d s] Hl; try (cbn in Hl; lia); [done|].
    cbn in Hl |- *. rewrite IH by lia. apply andb_false_r. }
  induction s as [|c s IH]; intros Hl; cbn [LastIndex]; [by rewrite Hp|].
  rewrite IH by (cbn in Hl; lia). by rewrite Hp.
Qed.

Lemma LastIndex_app s t sub i : LastIndex t sub = Some i -> LastIndex (s +:+ t) sub = Some (String.length s + i).
Proof.
  intros Ht. induction s as [|c s IH]; [done|].
  change (LastIndex (String c (s +:+ t)) sub = Some (S (String.length s) + i)). cbn [LastIndex].
  by rewrite IH.
Qed.

(** The separator is found where it was put, before a deployment prefix [d] of at most
    eight bytes that begins neither with a hyphen nor with "deploy-". *)
Lemma LastIndex_separator d : String.length d <= 8 -> HasPrefix d "-" = false ->
  HasPrefix d "deploy-" = false -> LastIndex ("-deploy-" +:+ d) "-deploy-" = Some 0.
Proof.
  intros Hl Hh Hd.
  assert (LastIndex d "-deploy-" = None) as Hn.
  { destruct d as [|c d]; [done|]. cbn [LastIndex]. rewrite LastIndex_short by (cbn in *; lia).
    cbn [HasPrefix] in Hh |- *. destruct (Ascii.eqb "-" c); [|done]. by destruct d. }
  change ("-deploy-" +:+ d) with (String "-" (String "d" (String "e" (String "p" (String "l"
    (String "o" (String "y" (String "-" d)))))))).
  cbn [LastIndex]. rewrite Hn.
  assert (HasPrefix (String "-" d) "-deploy-" = false) as ->.
  { cbn [HasPrefix]. by rewrite Hd. }
  cbn. by destruct d.
Qed.

(** The name in its three parts. *)
Lemma instance_name_parts tags c D :
  clean (InstanceTags.ShopperSessionID tags) ->
  InstanceTags.ShopperDeploymentID tags = String c D -> c <> "-"%char -> D <> "" -> clean (String c D) ->
  instance_name tags =
    "shopper-" +:+ InstanceTags.ShopperSessionID tags +:+ "-deploy-" +:+ take_string 8 (String c D).
Proof.
  intros [Hb (e & Hl & He)] HD Hc HDne Hclean. unfold instance_name, InstanceTags.ToLabel. rewrite HD.
  rewrite bool_decide_false by done.
  change ("shopper-" +:+ InstanceTags.ShopperSessionID tags)
    with (String "s" ("hopper-" +:+ InstanceTags.ShopperSessionID tags)).
  rewrite sanitize_clean; [|done| |cbn [String.length]; rewrite length_app_string; cbn; lia].
  2: { split; [cbn; exact Hb|]. exists e. split; [|done].
       apply (last_byte_app "shopper-"). done. }
  rewrite sanitize_clean; [|done|done|destruct D; [done|cbn; lia]].
  change (String "s" ("hopper-" +:+ InstanceTags.ShopperSessionID tags))
    with ("shopper-" +:+ InstanceTags.ShopperSessionID tags).
  rewrite !append_assoc. do 3 f_equal.
  destruct (Nat.ltb_spec 8 (String.length (String c D))) as [|Hle]; [done|].
  assert (forall n s, String.length s <= n -> take_string n s = s) as Ht.
  { clear. induction n as [|n IH]; intros [|c s] Hl; try done; [cbn in Hl; lia|].
    cbn. by rewrite IH by (cbn in Hl; lia). }
  by rewrite Ht.
Qed.

(** The name an instance is launched under, at most 24 bytes longer than the session
    identifier (64 is the API's limit), leads a later listing back to the session and to
    this deployment: the machine is listed with the session's tag and counts as ours.
    Session and deployment are made of the API's bytes and do not end in a hyphen; the
    deployment has two bytes or more and does not begin with a hyphen or "deploy-". *)
Theorem instance_name_leads_back `{RFC3339} (tags : InstanceTags.t) (vm : VMInstance.t)
    (c : ascii) (D : string)
    (Hsession : clean (InstanceTags.ShopperSessionID tags))
    (Hdeployment : InstanceTags.ShopperDeploymentID tags = String c D)
    (Hfirst : c <> "-"%char) (Hlong : D <> "") (Hclean : clean (String c D))
    (Hprefix : HasPrefix (String c D) "deploy-" = false)
    (Hname : VMInstance.Name vm = instance_name tags) (Hmeta : VMInstance.Metadata vm = ∅) :
  String.length (instance_name tags) <= String.length (InstanceTags.ShopperSessionID tags) + 24 /\
  exists p, listed_vm vm = Some p /\
    InstanceTags.ShopperSessionID (ProviderInstance.Tags p) = InstanceTags.ShopperSessionID tags /\
    ProviderInstance.IsOurs p (InstanceTags.ShopperDeploymentID tags) = true.
Proof.
  pose proof (instance_name_parts tags c D Hsession Hdeployment Hfirst Hlong Hclean) as Hparts.
  set (session := InstanceTags.ShopperSessionID tags) in *. set (d := take_string 8 (String c D)) in *.
  assert (Hd8 : String.length d <= 8) by (unfold d; rewrite length_take_string; lia).
  split.
  { rewrite Hparts, !length_app_string. change (String.length "shopper-") with 8.
    change (String.length "-deploy-") with 8. lia. }
  assert (Hsep : LastIndex ("-deploy-" +:+ d) "-deploy-" = Some 0).
  { apply LastIndex_separator; [done|unfold d; cbn [take_string HasPrefix];
      by rewrite (proj2 (Ascii.eqb_neq "-" c)) by congruence|].
    revert Hprefix. unfold d.
    assert (forall s p n, String.length p <= n -> HasPrefix s p = false -> HasPrefix (take_string n s) p = false) as Ht.
    { clear. intros s p n Hn Hf. apply not_true_iff_false. intros [t Ht]%HasPrefix_spec.
      apply not_true_iff_false in Hf. apply Hf. pose proof (HasPrefix_take_string n s) as [u Hu]%HasPrefix_spec.
      apply HasPrefix_spec. exists (t +:+ u). by rewrite <-append_assoc, <-Ht. }
    apply Ht. cbn. lia. }
  assert (Hlabel : InstanceTags.ParseLabel (instance_name tags) = (session +:+ "-deploy-" +:+ d, true)).
  { unfold InstanceTags.ParseLabel. rewrite Hparts, HasPrefix_app.
    assert (String.length "shopper-" <? String.length ("shopper-" +:+ session +:+ "-deploy-" +:+ d) = true) as ->.
    { apply Nat.ltb_lt. rewrite !length_app_string. change (String.length "shopper-") with 8.
      change (String.length "-deploy-") with 8. lia. }
    cbn [andb]. by f_equal. }
  assert (Hs : vm_session vm = session).
  { unfold vm_session, meta. rewrite Hmeta, Hname, Hlabel, lookup_empty. cbn [default].
    rewrite bool_decide_true by done. rewrite (LastIndex_app _ _ _ 0 Hsep).
    rewrite Nat.add_0_r. apply take_app_string. }
  assert (Hdep : vm_deployment vm = d).
  { unfold vm_deployment, meta. rewrite Hmeta, Hname, lookup_empty. cbn [default].
    rewrite bool_decide_true by done. rewrite Hparts, <-append_assoc, (LastIndex_app _ _ _ 0 Hsep).
    rewrite Nat.add_0_r, <-length_app_string, <-append_assoc. apply drop_app_string. }
  unfold listed_vm. rewrite Hname, Hlabel. cbn [negb andb].
  eexists. split; [done|]. cbn. split; [done|]. rewrite Hdep, Hdeployment.
  unfold ProviderInstance.IsOurs. cbn [ProviderInstance.Tags InstanceTags.ShopperDeploymentID].
  rewrite bool_decide_false by done. rewrite (bool_decide_false (String c D = "")) by done. cbn [orb].
  unfold d. destruct (Nat.leb_spec (String.length (take_string 8 (String c D))) (String.length (String c D))) as [_|Hlt].
  - apply HasPrefix_take_string.
  - rewrite length_take_string in Hlt. lia.
Qed.

(** A deployment identifier that begins with "deploy-" does not survive: the listing cuts
    the name at the wrong place, and the machine is neither ours nor the session's. *)
Lemma deploy_prefix_lost `{RFC3339} (vm : VMInstance.t) :
  VMInstance.Name vm = instance_name (InstanceTags.mk "s1" "deploy-abcdef12" zero_time "") ->
  VMInstance.Metadata vm = ∅ ->
  exists p, listed_vm vm = Some p /\
    InstanceTags.ShopperSessionID (ProviderInstance.Tags p) = "s1-deploy" /\
    InstanceTags.ShopperDeploymentID (ProviderInstance.Tags p) = "a" /\
    ProviderInstance.IsOurs p "deploy-abcdef12" = false.
Proof.
  intros Hn Hm. unfold listed_vm, vm_session, vm_deployment, meta. rewrite Hn, Hm. cbn [default].
  rewrite !lookup_empty. by eexists.
Qed.

(** ** Offers *)
Lemma Index_app s sep t : free_of sep s = true -> Index (s +:+ String sep t) (String sep "") = Some (String.length s).
Proof.
  induction s as [|c s IH]; intros Hf.
  - change ("" +:+ String sep t) with (String sep t). cbn. rewrite Ascii.eqb_refl. by destruct t.
  - change (String c s +:+ String sep t) with (String c (s +:+ String sep t)).
    cbn in Hf. apply andb_true_iff in Hf as [Hc%negb_true_iff Hf].
    cbn [Index HasPrefix]. rewrite Ascii.eqb_sym, Hc. cbn [andb]. by rewrite IH.
Qed.

Lemma SplitN_app s sep t n : free_of sep s = true ->
  SplitN (s +:+ String sep t) sep (S (S n)) = s :: SplitN t sep (S n).
Proof.
  intros Hf. cbn [SplitN]. rewrite Index_app by done. rewrite take_app_string. f_equal.
  replace (drop_string (S (String.length s)) (s +:+ String sep t)) with t; [done|].
  clear. induction s as [|c s IH]; [by destruct t|]. exact IH.
Qed.

(** The identifier of a listed offer leads a launch back to its instance type and
    region, when the name of the type has no colon. *)
Theorem bluelobster_offer_roundtrip `{BLDecoder} (t : time) (a : AvailableInstance.t) (r : Region.t)
    (Hname : free_of ":" (InstanceType.Name (AvailableInstance.InstanceType a)) = true) :
  parseOfferID (GPUOffer.ID (ToGPUOffer t a r)) =
    Ok (InstanceType.Name (AvailableInstance.InstanceType a), Region.Name r).
Proof.
  unfold parseOfferID, ToGPUOffer. cbv zeta. cbn [GPUOffer.ID].
  change ("bluelobster:" +:+ ?n) with ("bluelobster" +:+ String ":" n).
  rewrite SplitN_app by done.
  change (?n +:+ ":" +:+ Region.Name r) with (n +:+ String ":" (Region.Name r)).
  rewrite SplitN_app by done. cbn [SplitN]. by rewrite bool_decide_true.
Qed.

(** ** Errors *)

(** The class of a refused call: as for the other providers, and a conflict (409)
    sends the caller to another offer. *)
Theorem mapHTTPError_classified (code : Z) (message operation : string) :
  let e := mapHTTPError code message operation in
  (IsRateLimitError e = true <-> code = 429%Z) /\
  (IsAuthError e = true <-> (code = 401 \/ code = 403)%Z) /\
  (IsNotFoundError e = true <-> code = 404%Z) /\
  (ShouldRetryWithDifferentOffer e = true <-> code = 409%Z).
Proof.
  cbv zeta. unfold mapHTTPError, IsRateLimitError, IsAuthError, IsNotFoundError,
    ShouldRetryWithDifferentOffer, IsStaleInventoryError, status_of.
  destruct (Z.eqb_spec code 401); destruct (Z.eqb_spec code 403); destruct (Z.eqb_spec code 404);
    destruct (Z.eqb_spec code 409); destruct (Z.eqb_spec code 429); try lia; cbn;
    repeat match goal with
           | |- context [(code =? ?k)%Z] => destruct (Z.eqb_spec code k); try lia
           end; intuition (try lia; try congruence).
Qed.

Section Destroy.
Context {W : Type} `{Env W} `{HttpClient W payload} `{BLDecoder} `{HasBlueLobster W}.
Context (baseURL : string).

(** Recording does not change what a method returns. *)
Lemma BL_recorded_fst {A} op (err : A -> option error) (body : M W A) w :
  fst (BL_recorded op err body w) = fst (body (snd (time_Now w))).
Proof.
  unfold BL_recorded, recorded, bind. destruct (time_Now w) as [t w1]. cbn [snd].
  destruct (body w1) as [r w2]. destruct (recordAPIResult breaker (err r) w2) as [u w3].
  by destruct (recordAPIMetrics "bluelobster" breaker op t (err r) w3).
Qed.

(** Destroying an instance succeeds exactly when the API accepts the deletion or says
    that the instance is gone; an identifier that would leave the path of the URL is
    refused before anything is sent. *)
Theorem DestroyInstance_idempotent (id : string) (w : W) :
  fst (DestroyInstance baseURL id w) = None <->
  validateInstanceID id = None /\
  let r := fst (doRequest baseURL "DELETE" ("/instances/" +:+ id) NoBody tt (fun _ => Ok tt)
                  (snd (time_Now w))) in
  r = Ok tt \/ exists e, r = Err e /\ IsNotFoundError e = true.
Proof.
  unfold DestroyInstance. rewrite BL_recorded_fst. set (w1 := snd (time_Now w)).
  destruct (validateInstanceID id) as [e|]; [cbn; split; [done|by intros [[=] _]]|].
  unfold bind. destruct (doRequest _ _ _ _ _ _ w1) as [[[]|e] w2]; cbn.
  - split; [|done]. intros _. split; [done|by left].
  - destruct (IsNotFoundError e) eqn:He.
    + split; [|done]. intros _. split; [done|right; by exists e].
    + split; [done|]. intros [_ [[=]|(e' & [= <-] & He')]]. congruence.
Qed.
End Destroy.

(** An accepted identifier stays inside one segment of the path ... *)
Lemma valid_id_one_segment id : validateInstanceID id = None -> id <> "" /\ free_of "/" id = true.
Proof.
  unfold validateInstanceID. case_bool_decide; [done|]. case_match; [done|].
  destruct (Contains id "/") eqn:Hc; [done|]. intros _. split; [done|]. clear -Hc.
  induction id as [|c id IH]; [done|]. cbn [Contains] in Hc. apply orb_false_iff in Hc as [Hp Hc].
  cbn [free_of]. rewrite IH by done. rewrite andb_true_r, negb_true_iff.
  cbn [HasPrefix] in Hp. rewrite Ascii.eqb_sym. destruct (Ascii.eqb "/" c); [by destruct id|done].
Qed.

(** ... but may be the parent directory, or end the path early. *)
Example odd_ids_accepted : validateInstanceID ".." = None /\ validateInstanceID "x?y" = None.
Proof. done. Qed.
