(* ===== verification/TensorDock.v ===== *)
(** [internal/provider/tensordock/client.go] and [types.go]: the client of the TensorDock
    marketplace.  Its state is the circuit breaker and the success statistics of the
    locations.  Decoders and the SSH key parser are parameters ([TDDecoder]); timeouts of
    contexts are left to the transport, which may fail; debug logging is left out, the
    redaction of its messages is not. *)
From S2P Require Import Prelude GoFloat GoLib GoStrings Models Errors Interfaces.
From S2P Require Import CircuitBreaker ApiClient.
From Stdlib Require Import Ascii.

Module TensorDock.
Definition defaultImageName : string := "ubuntu2204".
Definition TensorDockAvailabilityConfidence : f64 := f64_lit 3 10.
Definition defaultVCPUs : Z := 8.
Definition defaultRAMGB : Z := 32.
Definition defaultStorageGB : Z := 100.
Definition maxErrorMessageLength : nat := 1000.
Definition maxInstanceIDLength : nat := 128.

(** ** The statistics of the locations *)
Module locationStats.
Record t := mk {
  attempts : gmap string Z;
  successes : gmap string Z;
  lastAttempt : gmap string time;
  lastWasSuccess : gmap string bool;
  decayAfter : duration
}.
Definition newLocationStats : t := mk ∅ ∅ ∅ ∅ (30 * Minute)%Z.
End locationStats.

Definition count (m : gmap string Z) (id : string) : Z := default 0%Z (m !! id).

(** The reset of a location whose last attempt is long ago, [t] being the instant
    [time.Since] reads. *)
Definition decayed (t : time) (locationID : string) (ls : locationStats.t) : locationStats.t :=
  match locationStats.lastAttempt ls !! locationID with
  | Some lastTime =>
      if (locationStats.decayAfter ls <? Sub t lastTime)%Z then
        locationStats.mk (<[locationID := 0%Z]> (locationStats.attempts ls))
          (<[locationID := 0%Z]> (locationStats.successes ls)) (locationStats.lastAttempt ls)
          (delete locationID (locationStats.lastWasSuccess ls)) (locationStats.decayAfter ls)
      else ls
  | None => ls
  end.

(** [recordAttempt]: [t'] is the instant [time.Now] reads at its end. *)
Definition recordAttempt (t t' : time) (locationID : string) (success : bool) (ls : locationStats.t)
    : locationStats.t :=
  let ls := decayed t locationID ls in
  let attempts := <[locationID := wrap64 (count (locationStats.attempts ls) locationID + 1)]>
                    (locationStats.attempts ls) in
  let successes := if success
    then <[locationID := wrap64 (count (locationStats.successes ls) locationID + 1)]>
           (locationStats.successes ls)
    else locationStats.successes ls in
  locationStats.mk attempts successes (<[locationID := t']> (locationStats.lastAttempt ls))
    (<[locationID := success]> (locationStats.lastWasSuccess ls)) (locationStats.decayAfter ls).

Definition minConfidence : f64 := f64_lit 5 100.
Definition maxConfidence : f64 := f1.

Definition getConfidenceLocked (ls : locationStats.t) (locationID : string) : f64 :=
  let attempts := count (locationStats.attempts ls) locationID in
  if (attempts =? 0)%Z then TensorDockAvailabilityConfidence
  else
    let successes := count (locationStats.successes ls) locationID in
    let rate := fdiv (f64_of_Z successes) (f64_of_Z attempts) in
    let rate := match locationStats.lastWasSuccess ls !! locationID with
                | Some false => fmul rate (f64_lit 1 2)
                | _ => rate
                end in
    if fltb rate minConfidence then minConfidence
    else if fgtb rate maxConfidence then maxConfidence
    else rate.

Definition getStats (ls : locationStats.t) (locationID : string) : Z * Z * f64 :=
  (count (locationStats.attempts ls) locationID, count (locationStats.successes ls) locationID,
   getConfidenceLocked ls locationID).

(** ** The data of the API *)
Module LocationGPU.
Record t := mk {
  V0Name : string;
  DisplayName : string;
  MaxCount : Z;
  PricePerHr : f64;
  MaxVCPUs : Z;
  MaxRAMGb : Z;
  MaxStorageGb : Z;
  DedicatedIPAvailable : bool;
  PortForwardingAvailable : bool;
  NetworkStorageAvailable : bool;
  PerVCPUHr : f64;
  PerGBRAMHr : f64;
  PerGBStorageHr : f64
}.
End LocationGPU.

Module Location.
Record t := mk {
  ID : string;
  City : string;
  StateProvince : string;
  Country : string;
  Tier : Z;
  GPUs : list LocationGPU.t
}.
End Location.

Module Instance.
Record t := mk {
  ID : string;
  Name : string;
  Status : string;
  IPAddress : string;
  GPUModel : string;
  GPUCount : Z;
  VCPUs : Z;
  RAMGb : Z;
  StorageGb : Z;
  PricePerHour : f64;
  CreatedAt : time;
  LocationID : string
}.
End Instance.

Module PortForward.
Record t := mk { Protocol : string; InternalPort : Z; ExternalPort : Z }.
End PortForward.

Module InstanceResponse.
Record t := mk {
  Type_ : string;
  ID : string;
  Name : string;
  Status : string;
  IPAddress : string;
  PortForwards : list PortForward.t;
  RateHourly : f64
}.
End InstanceResponse.

Module CloudInit.
Record t := mk { RunCmd : list string }.
End CloudInit.

(** The attributes of a create request, their resources included. *)
Module CreateAttributes.
Record t := mk {
  Name : string;
  Type_ : string;
  Image : string;
  LocationID : string;
  VCPUCount : Z;
  RAMGb : Z;
  StorageGb : Z;
  GPUs : gmap string Z;
  PortForwards : list PortForward.t;
  UseDedicatedIP : bool;
  SSHKey : string;
  CloudInit : option CloudInit.t
}.
End CreateAttributes.

Module CreateInstanceResponse.
Record t := mk { Type_ : string; ID : string; Name : string; Status : string }.
End CreateInstanceResponse.

(** [AuthQuery]: the credentials travel in the query. *)
Inductive payload := NoBody | AuthQuery | CreateBody (a : CreateAttributes.t).

Class TDDecoder := {
  read_body : Response.t -> result string;
  decode_locations : Response.t -> result (list Location.t);
  (** the raw text of the field [data] *)
  raw_data : string -> result string;
  decode_array : string -> result (list Instance.t);
  decode_nested : string -> result (list Instance.t);
  decode_instance : string -> result InstanceResponse.t;
  decode_created : string -> result CreateInstanceResponse.t;
  (** the messages of an array of validation errors *)
  decode_validation : string -> result (list string);
  (** the fields [status] and [error] *)
  decode_status : string -> result (Z * string);
  (** the error of [ssh.ParseAuthorizedKey] *)
  parse_authorized_key : string -> option error
}.

(** ** Names of GPUs *)

(** The blanks of a regular expression. *)
Definition re_space (c : ascii) : bool :=
  let n := nat_of_ascii c in (n =? 32) || (n =? 9) || (n =? 10) || (n =? 12) || (n =? 13).
Fixpoint skip_spaces (s : string) : string :=
  match s with
  | String c s' => if re_space c then skip_spaces s' else s
  | EmptyString => ""
  end.

(** [\s*PCIe\s*\d+GB$] at the head of the string. *)
Definition match_pcie (s : string) : bool :=
  let s := skip_spaces s in
  if HasPrefix s "PCIe" then
    match digits (skip_spaces (drop_string 4 s)) 0 0 with
    | (_, S _, rest) => bool_decide (rest = "GB")
    | _ => false
    end
  else false.

(** The text before the leftmost match. *)
Fixpoint cut_pcie (s : string) : string :=
  if match_pcie s then ""
  else match s with
       | EmptyString => ""
       | String c s' => String c (cut_pcie s')
       end.

Definition gpu_prefixes : list string := ["NVIDIA "; "GeForce "; "Tesla "].
Definition normalizeGPUName (name : string) : string :=
  cut_pcie (fold_left TrimPrefix gpu_prefixes (TrimSpace name)).

(** The digits of the leftmost match of [(?i)(\d+)\s*GB]. *)
Definition head_digits (s : string) : string :=
  take_string (String.length s - String.length (snd (digits s 0 0))) s.
Fixpoint match_vram (s : string) : option string :=
  match s with
  | EmptyString => None
  | String c s' =>
      let '(_, n, rest) := digits s 0 0 in
      if (0 <? n) && HasPrefix (ToLower (skip_spaces rest)) "gb" then Some (head_digits s)
      else match_vram s'
  end.

Definition parseVRAMFromName (name : string) : Z :=
  match match_vram name with
  | Some d => match Atoi d with Ok vram => vram | Err _ => 0%Z end
  | None => 0%Z
  end.

(** ** Redaction of debug messages *)

(** The scan for [prefix], [n] bytes left at most; [value] rewrites what follows it: the
    text to write and the rest to scan. *)
Fixpoint redact_loop (n : nat) (prefix : string) (value : string -> string * string) (s : string) : string :=
  match n with
  | O => s
  | S n' =>
      match Index s prefix with
      | None => s
      | Some idx =>
          let '(written, rest) := value (drop_string (idx + String.length prefix) s) in
          take_string (idx + String.length prefix) s +:+ written +:+ redact_loop n' prefix value rest
      end
  end.

Definition redact (prefix : string) (value : string -> string * string) (s : string) : string :=
  redact_loop (S (String.length s)) prefix value s.

Definition param_value (s : string) : string * string :=
  match Index s "&" with
  | None => ("REDACTED", "")
  | Some valueEnd => ("REDACTED", drop_string valueEnd s)
  end.
Definition redactQueryParam (s param : string) : string := redact (param +:+ "=") param_value s.

Fixpoint findJSONStringEnd (s : string) (escaped : bool) (i : nat) : option nat :=
  match s with
  | EmptyString => None
  | String c s' =>
      if escaped then findJSONStringEnd s' false (S i)
      else if Ascii.eqb c "\" then findJSONStringEnd s' true (S i)
      else if nat_of_ascii c =? 34 then Some i
      else findJSONStringEnd s' false (S i)
  end.

Definition json_value (s : string) : string * string :=
  match findJSONStringEnd s false 0 with
  | None => ("REDACTED" +:+ s, "")
  | Some valueEnd => ("REDACTED", drop_string valueEnd s)
  end.
Definition redactJSONField (s fieldName : string) : string :=
  redact (dquote +:+ fieldName +:+ dquote +:+ ":" +:+ dquote) json_value s.

Definition echo_value (s : string) : string * string :=
  match Index s "'" with
  | None => ("", s)
  | Some endQuote =>
      let afterQuote := drop_string endQuote s in
      if HasPrefix afterQuote "' | base64" then ("REDACTED", afterQuote) else ("", s)
  end.
Definition redactBase64EchoCommand (s : string) : string := redact "echo '" echo_value s.

Definition redactCredentials (s : string) : string :=
  let s := redactQueryParam s "api_key" in
  let s := redactQueryParam s "api_token" in
  let s := redactJSONField s "ssh_key" in
  redactBase64EchoCommand s.

(** ** Errors *)

(** "\n" and "\r". *)
Definition newline : string := String (ascii_of_nat 10) "".
Definition carriage_return : string := String (ascii_of_nat 13) "".

Definition sanitizeErrorMessage (message : string) : string :=
  let message := if maxErrorMessageLength <? String.length message
                 then take_string maxErrorMessageLength message +:+ "... [truncated]" else message in
  ReplaceAll (ReplaceAll message newline " ") carriage_return " ".

Definition handleError (resp : Response.t) (operation : string) : error :=
  let code := Response.StatusCode resp in
  let baseErr :=
    if (code =? 429)%Z then ErrProviderRateLimit
    else if (code =? 401)%Z || (code =? 403)%Z then ErrProviderAuth
    else if (code =? 404)%Z then ErrInstanceNotFound
    else ErrProviderError in
  ProviderError "tensordock" operation code (sanitizeErrorMessage (Response.Body resp)) (Some baseErr).

Definition staleIndicators : list string :=
  ["no available nodes"; "insufficient capacity"; "not enough capacity"; "resource unavailable";
   "out of stock"; "no nodes available"; "nodes unavailable"; "gpu unavailable"; "gpu not available";
   "no gpus available"; "requested gpu"; "gpu capacity"; "no matching gpu"; "gpu is not available";
   "datacenter unavailable"; "location unavailable"; "temporarily unavailable"; "under maintenance";
   "region unavailable"; "site unavailable"; "high demand"; "sold out"; "fully allocated";
   "at capacity"; "no capacity"; "capacity limit"; "cannot allocate"; "allocation failed";
   "resource limit"; "quota exceeded"; "limit reached"; "maximum"; "no available public ips";
   "no available public ip"; "no public ip"].
Definition isStaleInventoryErrorMessage (msg : string) : bool :=
  existsb (Contains (ToLower msg)) staleIndicators.

Definition invalid_id (detail : string) : option error := Some (EDetail ErrInvalidInstanceID detail).
Definition ValidateInstanceID (instanceID : string) : option error :=
  let has := Contains instanceID in
  if bool_decide (instanceID = "") then invalid_id "empty instance ID"
  else if maxInstanceIDLength <? String.length instanceID
  then invalid_id "instance ID too long (max 128 characters)"
  else if has "/" || has "\" then invalid_id "instance ID contains invalid characters"
  else if has "%2f" || has "%2F" || has "%5c" || has "%5C"
  then invalid_id "instance ID contains invalid characters"
  else None.

(** [strings.Count(s, "-")]. *)
Fixpoint count_hyphens (s : string) : nat :=
  match s with
  | EmptyString => 0
  | String c s' => if Ascii.eqb c "-" then S (count_hyphens s') else count_hyphens s'
  end.

Definition bad_offer (offerID detail : string) : result (string * string) :=
  Err (EOpaque ("invalid offer ID format: '" +:+ offerID +:+ "' " +:+ detail)).

Definition parseOfferID (offerID : string) : result (string * string) :=
  let offerID := TrimSpace offerID in
  if negb (HasPrefix (ToLower offerID) "tensordock-") then
    if (String.length offerID =? 36) && (count_hyphens offerID =? 4)
    then bad_offer offerID ("appears to be a bare UUID. " +:+
      "TensorDock offer IDs must be in format 'tensordock-{locationUUID}-{gpuName}'. " +:+
      "Use 'gpu-shopper inventory' to get valid offer IDs")
    else bad_offer offerID ("is missing required 'tensordock-' prefix. " +:+
      "Expected format: 'tensordock-{locationUUID}-{gpuName}'. " +:+
      "Example: 'tensordock-1a779525-4c04-4f2c-aa45-58b47d54bb38-geforcertx3090-pcie-24gb'")
  else
    let remainder := drop_string 11 offerID in
    if String.length remainder <? 38
    then bad_offer offerID ("is too short. Expected format: 'tensordock-{locationUUID}-{gpuName}'. " +:+
      "The location UUID should be 36 characters followed by a GPU name")
    else Ok (take_string 36 remainder, drop_string 37 remainder).

(** ** Cloud-init *)
Definition shellEscapeSingleQuote (s : string) : string := ReplaceAll s "'" "'\''".

Definition echo_key (key file : string) : string :=
  "echo '" +:+ shellEscapeSingleQuote key +:+ "' > " +:+ file.

Definition key_commands (publicKey : string) : list string :=
  ["mkdir -p /root/.ssh";
   "chmod 700 /root/.ssh";
   echo_key publicKey "/root/.ssh/authorized_keys";
   "chmod 600 /root/.ssh/authorized_keys";
   "chown root:root /root/.ssh/authorized_keys";
   "mkdir -p /home/user/.ssh";
   "chmod 700 /home/user/.ssh";
   "chown user:user /home/user/.ssh";
   echo_key publicKey "/home/user/.ssh/authorized_keys";
   "chmod 600 /home/user/.ssh/authorized_keys";
   "chown user:user /home/user/.ssh/authorized_keys"].

Definition driver_commands : list string :=
  ["systemctl stop unattended-upgrades 2>/dev/null || true";
   "killall -9 unattended-upgrades 2>/dev/null || true";
   "while fuser /var/lib/dpkg/lock-frontend >/dev/null 2>&1; do sleep 2; done";
   "DEBIAN_FRONTEND=noninteractive dpkg --configure -a";
   "if ! nvidia-smi > /dev/null 2>&1; then " +:+
     "echo 'nvidia-smi failed, attempting driver fix...' >> /var/log/cloud-init-nvidia.log && " +:+
     "if dpkg -l nvidia-dkms-* 2>/dev/null | grep -q '^.i'; then " +:+
     "NVIDIA_VER=$(dpkg -l nvidia-dkms-* 2>/dev/null | grep '^.i' | awk '{print $3}' | head -1 | cut -d- -f1) && " +:+
     "dkms build nvidia/$NVIDIA_VER >> /var/log/cloud-init-nvidia.log 2>&1 && " +:+
     "dkms install nvidia/$NVIDIA_VER >> /var/log/cloud-init-nvidia.log 2>&1 && " +:+
     "modprobe nvidia >> /var/log/cloud-init-nvidia.log 2>&1; " +:+
     "else " +:+
     "apt-get update -o DPkg::Lock::Timeout=120 >> /var/log/cloud-init-nvidia.log 2>&1 && " +:+
     "DEBIAN_FRONTEND=noninteractive apt-get install -y -o DPkg::Lock::Timeout=120 nvidia-driver-550 >> /var/log/cloud-init-nvidia.log 2>&1 && " +:+
     "modprobe nvidia >> /var/log/cloud-init-nvidia.log 2>&1; " +:+
     "fi && " +:+
     "echo 'Driver fix complete.' >> /var/log/cloud-init-nvidia.log; " +:+
     "fi"].

Definition buildCloudInit (publicKey : string) (installNvidiaDrivers : bool) : CloudInit.t :=
  CloudInit.mk (key_commands publicKey ++ if installNvidiaDrivers then driver_commands else []).
Definition buildSSHKeyCloudInit (publicKey : string) : CloudInit.t := buildCloudInit publicKey true.

(** [now] is the instant [FetchedAt] reads. *)
Definition locationGPUToOffer (now : time) (loc : Location.t) (gpu : LocationGPU.t) : GPUOffer.t :=
  let reliability := fdiv (f64_of_Z (Location.Tier loc)) (f64_of_Z 3) in
  let reliability := if fgtb reliability f1 then f1 else reliability in
  GPUOffer.mk ("tensordock-" +:+ Location.ID loc +:+ "-" +:+ LocationGPU.V0Name gpu) "tensordock"
    (Location.ID loc) (normalizeGPUName (LocationGPU.DisplayName gpu)) (LocationGPU.MaxCount gpu)
    (parseVRAMFromName (LocationGPU.DisplayName gpu)) (LocationGPU.PricePerHr gpu)
    (Location.City loc +:+ ", " +:+ Location.StateProvince loc +:+ ", " +:+ Location.Country loc)
    reliability true 0 now TensorDockAvailabilityConfidence f0 "" false f0.

(** A listed machine that carries the program's label. *)
Definition labelled_instance (inst : Instance.t) : option ProviderInstance.t :=
  let (sessionID, ok) := InstanceTags.ParseLabel (Instance.Name inst) in
  if ok then
    Some (ProviderInstance.mk (Instance.ID inst) (Instance.Name inst) (Instance.Status inst)
            (Instance.CreatedAt inst) (InstanceTags.mk sessionID "" zero_time "")
            (Instance.PricePerHour inst))
  else None.
Definition instancesToProviderInstances (l : list Instance.t) : list ProviderInstance.t :=
  omap labelled_instance l.

(** The SSH port and the mapping of all ports. *)
Definition ssh_port (l : list PortForward.t) : Z :=
  fold_left (fun p pf => if (PortForward.InternalPort pf =? 22)%Z then PortForward.ExternalPort pf else p)
    l 22%Z.
Definition port_mappings (l : list PortForward.t) : gmap Z Z :=
  fold_left (fun m pf => <[PortForward.InternalPort pf := PortForward.ExternalPort pf]> m) l ∅.

Definition instance_status (r : InstanceResponse.t) : InstanceStatus.t :=
  InstanceStatus.mk (InstanceResponse.Status r) (bool_decide (InstanceResponse.Status r = "running"))
    zero_time "" (InstanceResponse.IPAddress r) (ssh_port (InstanceResponse.PortForwards r)) "user"
    (InstanceResponse.IPAddress r) (port_mappings (InstanceResponse.PortForwards r)).

(** ** The client *)
Module TDState.
Record t := mk { circuit : circuitBreaker.t; stats : locationStats.t }.
Definition NewClient : t :=
  mk (newCircuitBreaker DefaultCircuitBreakerConfig) locationStats.newLocationStats.
End TDState.

Class HasTensorDock (W : Type) := tensordock : lens W TDState.t.

Section Client.
Context {W : Type} `{Env W} `{HttpClient W payload} `{TDDecoder} `{HasTensorDock W}.
(** the configured base URL and image *)
Context (baseURL image : string).

Definition td_breaker : lens W circuitBreaker.t :=
  mk_lens (fun w => TDState.circuit (view tensordock w))
          (fun c w => set tensordock (TDState.mk c (TDState.stats (view tensordock w))) w).

Definition td_guarded {A} (operation : string) (body : M W (result A)) : M W (result A) :=
  guarded "tensordock" td_breaker operation body.

(** [rateLimit], then the rest. *)
Definition rateLimited {A} (k : M W (result A)) : M W (result A) :=
  let! err := limiter_Wait in
  match err with
  | Some e => ret (Err (EWrap "rate limit wait" e))
  | None => k
  end.

Definition exchange {A} (method path : string) (body : payload) (k : Response.t -> result A)
    : M W (result A) :=
  let req := Request.mk method (baseURL +:+ path) body in
  match NewRequest_error req with
  | Some e => ret (Err (EWrap "failed to create request" e))
  | None =>
      let! resp := Do req in
      match resp with
      | Err e => ret (Err (EWrap "request failed" e))
      | Ok r => ret (k r)
      end
  end.

Definition code_in (codes : list Z) (r : Response.t) : bool :=
  existsb (Z.eqb (Response.StatusCode r)) codes.

Definition wrapped {A B} (text : string) (r : result A) (k : A -> result B) : result B :=
  match r with
  | Err e => Err (EWrap text e)
  | Ok a => k a
  end.

(** The offers of one location, the confidence read for each. *)
Fixpoint location_offers (filter : OfferFilter.t) (loc : Location.t) (l : list LocationGPU.t)
    : M W (list GPUOffer.t) :=
  match l with
  | [] => ret []
  | gpu :: l' =>
      let! t := time_Now in
      let! s := read tensordock in
      let offer := GPUOffer.set_AvailabilityConfidence
                     (getConfidenceLocked (TDState.stats s) (Location.ID loc))
                     (locationGPUToOffer t loc gpu) in
      let! rest := location_offers filter loc l' in
      ret (if OfferFilter.MatchesFilter offer filter then offer :: rest else rest)
  end.

Fixpoint all_offers (filter : OfferFilter.t) (l : list Location.t) : M W (list GPUOffer.t) :=
  match l with
  | [] => ret []
  | loc :: l' =>
      let! here := location_offers filter loc (Location.GPUs loc) in
      let! rest := all_offers filter l' in
      ret (here ++ rest)
  end.

Definition ListOffers (filter : OfferFilter.t) : M W (result (list GPUOffer.t)) :=
  td_guarded "ListOffers" (rateLimited (
    let! locations := exchange "GET" "/locations" AuthQuery (fun resp =>
      if negb (code_in [200%Z] resp) then Err (handleError resp "ListOffers")
      else wrapped "failed to decode response" (decode_locations resp) Ok) in
    match locations with
    | Err e => ret (Err e)
    | Ok locations => let! offers := all_offers filter locations in ret (Ok offers)
    end)).

(** The two formats of the list. *)
Definition starts_with_bracket (s : string) : bool :=
  match s with String c _ => Ascii.eqb c "[" | EmptyString => false end.

Definition decode_instances (respBody : string) : result (list ProviderInstance.t) :=
  let nested := wrapped "failed to decode response" (decode_nested respBody)
                  (fun l => Ok (instancesToProviderInstances l)) in
  match raw_data respBody with
  | Ok data =>
      if starts_with_bracket data
      then wrapped "failed to decode instances array" (decode_array data)
             (fun l => Ok (instancesToProviderInstances l))
      else nested
  | Err _ => nested
  end.

Definition list_of_response (resp : Response.t) : result (list ProviderInstance.t) :=
  if negb (code_in [200%Z] resp) then
    if code_in [401%Z; 403%Z] resp then Err (handleError resp "ListAllInstances") else Ok []
  else wrapped "failed to read response" (read_body resp) decode_instances.

Definition ListAllInstances : M W (result (list ProviderInstance.t)) :=
  td_guarded "ListAllInstances" (rateLimited (exchange "GET" "/instances" NoBody list_of_response)).

(** [ValidateSSHPublicKey]. *)
Definition ValidateSSHPublicKey (publicKey : string) : option error :=
  if bool_decide (publicKey = "") then Some (EDetail ErrInvalidSSHKey "empty key")
  else match parse_authorized_key (TrimSpace publicKey) with
       | Some e => Some (EDetail ErrInvalidSSHKey (Error e))
       | None => None
       end.

Definition create_attributes (req : CreateInstanceRequest.t) (locationID gpuName : string)
    : CreateAttributes.t :=
  let key := CreateInstanceRequest.SSHPublicKey req in
  let cloudInit :=
    if bool_decide (key = "") then None
    else
      let runCmd := CloudInit.RunCmd (buildSSHKeyCloudInit key) in
      let cmd := CreateInstanceRequest.OnStartCmd req in
      Some (CloudInit.mk (if bool_decide (cmd = "") then runCmd else runCmd ++ [cmd])) in
  CreateAttributes.mk (InstanceTags.ToLabel (CreateInstanceRequest.Tags req)) "virtualmachine" image
    locationID defaultVCPUs defaultRAMGB defaultStorageGB {[gpuName := 1%Z]} [] true key cloudInit.

Definition parseCreateError (body : string) (statusCode : Z) : error :=
  let fail msg := ProviderError "tensordock" "CreateInstance" statusCode (sanitizeErrorMessage msg)
                    (Some ErrProviderError) in
  match decode_validation body with
  | Ok (m :: ms) => fail (Join (m :: ms) "; ")
  | _ => fail body
  end.

Definition checkBodyForError (body : string) : option error :=
  match decode_status body with
  | Ok (status, text) =>
      if (400 <=? status)%Z then
        let msg := sanitizeErrorMessage text in
        if isStaleInventoryErrorMessage text
        then Some (ProviderError "tensordock" "CreateInstance" status msg (Some ErrOfferStaleInventory))
        else Some (EOpaque ("TensorDock CreateInstance failed: " +:+ msg))
      else None
  | Err _ => None
  end.

Definition created_of_response (resp : Response.t) : result InstanceInfo.t :=
  wrapped "failed to read response" (read_body resp) (fun respBody =>
    if negb (code_in [200%Z; 201%Z] resp)
    then Err (parseCreateError respBody (Response.StatusCode resp))
    else match checkBodyForError respBody with
         | Some e => Err e
         | None =>
             match decode_created respBody with
             | Err e => Err (ESuffix (EWrap "failed to decode response" e) (" (body: " +:+ respBody +:+ ")"))
             | Ok r =>
                 if bool_decide (CreateInstanceResponse.ID r = "")
                 then Err (EOpaque ("TensorDock returned empty instance ID (body: " +:+ respBody +:+ ")"))
                 else Ok (InstanceInfo.mk (CreateInstanceResponse.ID r) "" 22 "user"
                            (CreateInstanceResponse.Status r) f0 "" 0 ∅)
             end
         end).

(** The request itself, its offer parsed. *)
Definition create_at (req : CreateInstanceRequest.t) (locationID gpuName : string)
    : M W (result InstanceInfo.t) :=
  let key := CreateInstanceRequest.SSHPublicKey req in
  match (if bool_decide (key = "") then None else ValidateSSHPublicKey key) with
  | Some e => ret (Err (EWrap "SSH key validation failed" e))
  | None =>
      exchange "POST" "/instances" (CreateBody (create_attributes req locationID gpuName))
        created_of_response
  end.

Definition provisioned (r : result InstanceInfo.t) : bool :=
  match r with
  | Ok info => negb (bool_decide (InstanceInfo.ProviderInstanceID info = ""))
  | Err _ => false
  end.

(** [c.locationStats.recordAttempt]. *)
Definition record_location (locationID : string) (success : bool) : M W unit :=
  let! t := time_Now in
  let! t' := time_Now in
  let! s := read tensordock in
  write tensordock (TDState.mk (TDState.circuit s) (recordAttempt t t' locationID success (TDState.stats s))).

Definition CreateInstance (req : CreateInstanceRequest.t) : M W (result InstanceInfo.t) :=
  td_guarded "CreateInstance" (rateLimited (
    match parseOfferID (CreateInstanceRequest.OfferID req) with
    | Err e => ret (Err e)
    | Ok (locationID, gpuName) =>
        let! r := create_at req locationID gpuName in
        do! record_location locationID (provisioned r) in
        ret r
    end)).

Definition destroyed_of_response (resp : Response.t) : result unit :=
  if code_in [404%Z] resp then Ok tt
  else if negb (code_in [200%Z; 204%Z] resp) then Err (handleError resp "DestroyInstance")
  else Ok tt.

Definition DestroyInstance (instanceID : string) : M W (option error) :=
  match ValidateInstanceID instanceID with
  | Some e => ret (Some e)
  | None =>
      let! r := td_guarded "DestroyInstance" (rateLimited (
        exchange "DELETE" ("/instances/" +:+ instanceID) NoBody destroyed_of_response)) in
      ret (error_of r)
  end.

Definition status_of_response (resp : Response.t) : result InstanceStatus.t :=
  if code_in [404%Z] resp then Err ErrInstanceNotFound
  else if negb (code_in [200%Z] resp) then Err (handleError resp "GetInstanceStatus")
  else wrapped "failed to read response" (read_body resp) (fun respBody =>
    wrapped "failed to decode response" (decode_instance respBody) (fun r => Ok (instance_status r))).

Definition GetInstanceStatus (instanceID : string) : M W (result InstanceStatus.t) :=
  match ValidateInstanceID instanceID with
  | Some e => ret (Err e)
  | None =>
      td_guarded "GetInstanceStatus" (rateLimited (
        exchange "GET" ("/instances/" +:+ instanceID) NoBody status_of_response))
  end.

Definition TD_Provider : Provider.t W :=
  Provider.mk W "tensordock" ListOffers ListAllInstances CreateInstance DestroyInstance
    GetInstanceStatus None.
End Client.
End TensorDock.
