(* ===== verification/TensorDockFacts.v ===== *)
(** What the TensorDock client guarantees, and what it does not: the provider interface's
    promises, statistics kept per location, redaction that hides the secret, keys that
    survive the shell; and an outage of its list that stops every session. *)
From S2P Require Import Prelude GoFloat GoLib GoStrings Models Errors Interfaces CreateSession.
From S2P Require Import CircuitBreaker ApiClient Reconciler TensorDock.
From Stdlib Require Import Ascii.
Import TensorDock.

(** ** The provider interface *)
Section Frames.
Context {W : Type} `{Env W} `{HttpClient W payload} `{RequestLog W payload} `{Ghost W}.
Context `{TDDecoder} `{HasTensorDock W}.
Context `{!EnvLaws W} `{!HttpLaws W payload} `{!LensLaws tensordock}.
Context (baseURL image : string).

#[export] Instance td_breaker_laws : LensLaws td_breaker.
Proof.
  split; [|intros s w; apply (set_quiet (l := tensordock))]. intros s w. cbn. by rewrite view_set.
Qed.

#[local] Hint Resolve frame_ret frame_read Do_frame limiter_frame wait_frame time_Now_frame : frame.

Lemma frame_write_td s : frame (write tensordock s).
Proof. by apply frame_write. Qed.
#[local] Hint Resolve frame_write_td : frame.

Ltac frames :=
  repeat match goal with
  | |- frame (bind _ _) => apply frame_bind; [|intros]
  | |- frame (match ?x with _ => _ end) => destruct x
  | |- frame (let _ := _ in _) => cbv zeta
  | |- frame _ => solve [eauto with frame]
  end.

Lemma td_guarded_frame {A} op (body : M W (result A)) : frame body -> frame (td_guarded op body).
Proof. intros Hb. apply guarded_frame; [apply _|done]. Qed.

Lemma td_rateLimited_frame {A} (k : M W (result A)) : frame k -> frame (rateLimited k).
Proof. intros Hk. unfold rateLimited. frames. Qed.

Lemma td_exchange_frame {A} m p b (k : Response.t -> result A) : frame (exchange baseURL m p b k).
Proof. unfold exchange. frames. Qed.

Lemma location_offers_frame f loc l : frame (location_offers f loc l).
Proof. induction l as [|g l IH]; cbn [location_offers]; frames. Qed.
#[local] Hint Resolve td_exchange_frame location_offers_frame : frame.

Lemma all_offers_frame f l : frame (all_offers f l).
Proof. induction l as [|loc l IH]; cbn [all_offers]; frames. Qed.

Lemma record_location_frame id ok : frame (record_location id ok).
Proof. unfold record_location. frames. Qed.

Lemma create_at_frame req l g : frame (create_at baseURL image req l g).
Proof. unfold create_at. frames. Qed.
#[local] Hint Resolve all_offers_frame record_location_frame create_at_frame : frame.

(** The client keeps the promise of the provider interface. *)
Lemma TensorDock_provider_laws :
  ProviderLaws W (Registry.NewSimpleProviderRegistry [TD_Provider baseURL image]).
Proof.
  split. intros n p. unfold Registry.NewSimpleProviderRegistry. cbn.
  rewrite lookup_insert_Some, lookup_empty. intros [[_ <-]|[_ [=]]]. cbn.
  split_and!; intros; try done;
    unfold ListOffers, ListAllInstances, CreateInstance, DestroyInstance, GetInstanceStatus;
    repeat first [apply td_guarded_frame | apply td_rateLimited_frame | progress frames].
Qed.
End Frames.

(** ** The statistics of the locations *)

(** One attempt: the instants it reads, the location, the outcome. *)
Definition attempt : Type := time * time * string * bool.
Definition run_attempts (h : list attempt) : locationStats.t :=
  fold_left (fun ls '(t, t', id, ok) => recordAttempt t t' id ok ls) h locationStats.newLocationStats.

(** One location by itself: attempts, successes, and the last attempt. *)
Record tally := mk_tally { tries : Z; wins : Z; last : option (time * bool) }.
Definition tally_step (s : tally) (x : attempt) : tally :=
  let '(t, t', _, ok) := x in
  let fresh := match last s with
               | Some (u, _) => (30 * Minute <? Sub t u)%Z
               | None => false
               end in
  let s := if fresh then mk_tally 0 0 None else s in
  mk_tally (wrap64 (tries s + 1)) (if ok then wrap64 (wins s + 1) else wins s) (Some (t', ok)).
Definition tally_of (id : string) (h : list attempt) : tally :=
  fold_left tally_step (List.filter (fun x => bool_decide (x.1.2 = id)) h) (mk_tally 0 0 None).

Definition agrees (ls : locationStats.t) (id : string) (s : tally) : Prop :=
  count (locationStats.attempts ls) id = tries s /\ count (locationStats.successes ls) id = wins s /\
  locationStats.lastAttempt ls !! id = fst <$> last s /\
  locationStats.lastWasSuccess ls !! id = snd <$> last s /\
  locationStats.decayAfter ls = (30 * Minute)%Z.

Lemma count_insert m id n : count (<[id := n]> m) id = n.
Proof. unfold count. by rewrite lookup_insert_eq. Qed.
Lemma count_insert_ne m id j n : id <> j -> count (<[id := n]> m) j = count m j.
Proof. intros Hne. unfold count. by rewrite lookup_insert_ne. Qed.

Lemma recordAttempt_same ls id s x : x.1.2 = id -> agrees ls id s ->
  agrees (let '(t, t', i, ok) := x in recordAttempt t t' i ok ls) id (tally_step s x).
Proof.
  destruct x as [[[t t'] i] ok]. cbn [fst snd]. intros -> (Ha & Hw & Hl & Hs & Hd).
  unfold recordAttempt, decayed, tally_step. rewrite Hl.
  destruct (last s) as [[u b]|]; cbn [fmap option_map option_fmap fst]; [rewrite Hd; destruct (30 * Minute <? Sub t u)%Z|];
    split_and!; cbn -[count]; destruct ok; by rewrite ?count_insert, ?lookup_insert_eq, ?Ha, ?Hw.
Qed.

Lemma recordAttempt_other ls id s x : x.1.2 <> id -> agrees ls id s ->
  agrees (let '(t, t', i, ok) := x in recordAttempt t t' i ok ls) id s.
Proof.
  destruct x as [[[t t'] i] ok]. cbn [fst snd]. intros Hne (Ha & Hw & Hl & Hs & Hd).
  unfold recordAttempt, decayed.
  destruct (locationStats.lastAttempt ls !! i) as [u|]; [destruct (_ <? _)%Z|];
    split_and!; cbn -[count]; destruct ok;
    repeat first [rewrite count_insert_ne by done | rewrite lookup_insert_ne by done
                 | rewrite lookup_delete_ne by done]; done.
Qed.

Lemma clamp_bounds rate :
  let c := if fltb rate minConfidence then minConfidence
           else if fgtb rate maxConfidence then maxConfidence else rate in
  fltb c minConfidence = false /\ fltb maxConfidence c = false.
Proof.
  cbv zeta. destruct (fltb rate minConfidence) eqn:Hlo; [split; vm_compute; reflexivity|].
  unfold fgtb. destruct (fltb maxConfidence rate) eqn:Hhi; [split; vm_compute; reflexivity|done].
Qed.

(** The statistics answer for each location as a tally of that location's own
    attempts, started afresh by an attempt more than thirty minutes after the one before;
    the confidence of a location is never below 0.05 nor above 1. *)
Theorem locationStats_tally (h : list attempt) (id : string) :
  agrees (run_attempts h) id (tally_of id h) /\
  fltb (getConfidenceLocked (run_attempts h) id) minConfidence = false /\
  fltb maxConfidence (getConfidenceLocked (run_attempts h) id) = false.
Proof.
  split.
  - unfold run_attempts, tally_of.
    induction h as [|x h IH] using rev_ind; [by split_and!|].
    rewrite fold_left_app, List.filter_app, fold_left_app. cbn [fold_left List.filter].
    destruct (bool_decide_reflect (x.1.2 = id)) as [He|Hne].
    + pose proof (recordAttempt_same _ _ _ x He IH) as Hs. by destruct x as [[[t t'] i] ok].
    + pose proof (recordAttempt_other _ _ _ x Hne IH) as Hs. by destruct x as [[[t t'] i] ok].
  - unfold getConfidenceLocked. destruct (_ =? 0)%Z; [split; vm_compute; reflexivity|]. cbv zeta.
    apply clamp_bounds.
Qed.

(** ** Redaction *)
Section Redaction.
Lemma HasPrefix_app_l s t p : HasPrefix s p = true -> HasPrefix (s +:+ t) p = true.
Proof. intros [u ->]%HasPrefix_spec. apply HasPrefix_spec. exists (u +:+ t). by rewrite append_assoc. Qed.

Lemma HasPrefix_length s p : HasPrefix s p = true -> String.length p <= String.length s.
Proof.
  revert s. induction p as [|c p IH]; intros [|d s]; cbn; try done; [lia|].
  rewrite andb_true_iff. intros [_ Hs%IH]. lia.
Qed.

Lemma HasPrefix_app_iff s t p : String.length p <= String.length s ->
  HasPrefix (s +:+ t) p = HasPrefix s p.
Proof.
  revert s. induction p as [|c p IH]; intros [|d s] Hl; cbn in Hl; try lia.
  - by destruct t.
  - done.
  - change (Ascii.eqb c d && HasPrefix (s +:+ t) p = Ascii.eqb c d && HasPrefix s p).
    by rewrite IH by lia.
Qed.

Lemma Index_length s p i : Index s p = Some i -> i + String.length p <= String.length s.
Proof.
  revert i. induction s as [|c s IH]; intros i; cbn [Index].
  - destruct (HasPrefix "" p) eqn:Hp; [|done]. intros [= <-]. by apply HasPrefix_length in Hp.
  - destruct (HasPrefix (String c s) p) eqn:Hp.
    + intros [= <-]. by apply HasPrefix_length in Hp.
    + destruct (Index s p) as [j|] eqn:Hj; [|done]. cbn. intros [= <-]. specialize (IH j eq_refl). lia.
Qed.

(** More text at the end does not move the first occurrence. *)
Lemma Index_stable s t p i : Index s p = Some i -> Index (s +:+ t) p = Some i.
Proof.
  revert i. induction s as [|c s IH]; intros i Hi.
  - cbn [Index] in Hi. destruct (HasPrefix "" p) eqn:Hp; [|done]. injection Hi as <-.
    apply (HasPrefix_app_l _ t) in Hp. change ("" +:+ t) with t in *. destruct t; cbn [Index]; by rewrite Hp.
  - pose proof (Index_length _ _ _ Hi) as Hl.
    change (String c s +:+ t) with (String c (s +:+ t)). cbn [Index] in Hi |- *.
    change (String c (s +:+ t)) with (String c s +:+ t). rewrite HasPrefix_app_iff by lia.
    destruct (HasPrefix (String c s) p); [done|]. destruct (Index s p) as [j|]; [|done].
    injection Hi as <-. by rewrite (IH j).
Qed.

Lemma length_drop n s : String.length (drop_string n s) = String.length s - n.
Proof. revert s. induction n as [|n IH]; intros [|c s]; try done. cbn. apply IH. Qed.

(** Enough fuel is enough: the scan consumes at least the prefix in every round. *)
Lemma redact_fuel p value n m s :
  p <> "" -> (forall t, String.length (snd (value t)) <= String.length t) ->
  String.length s < n -> String.length s < m -> redact_loop n p value s = redact_loop m p value s.
Proof.
  intros Hp Hv. revert m s. induction n as [|n IH]; intros m s Hn Hm; [lia|].
  destruct m as [|m]; [lia|]. cbn [redact_loop].
  destruct (Index s p) as [i|] eqn:Hi; [|done]. pose proof (Index_length _ _ _ Hi) as Hl.
  pose proof (Hv (drop_string (i + String.length p) s)) as Hr.
  destruct (value _) as [w r]. cbn in Hr. rewrite length_drop in Hr.
  assert (0 < String.length p) by (destruct p; [done|cbn; lia]).
  do 2 f_equal. apply IH; lia.
Qed.

Lemma param_value_shrinks t : String.length (snd (param_value t)) <= String.length t.
Proof. unfold param_value. destruct (Index t "&"); cbn; [rewrite length_drop|]; lia. Qed.

Lemma Index_byte v c rest : free_of c v = true ->
  Index (v +:+ String c rest) (String c "") = Some (String.length v).
Proof.
  induction v as [|d v IH]; intros Hf.
  - change ("" +:+ String c rest) with (String c rest). cbn. rewrite Ascii.eqb_refl. by destruct rest.
  - cbn in Hf. apply andb_true_iff in Hf as [Hd%negb_true_iff Hf].
    change (String d v +:+ String c rest) with (String d (v +:+ String c rest)).
    cbn [Index HasPrefix]. rewrite Ascii.eqb_sym, Hd. cbn [andb]. by rewrite IH.
Qed.

(** Redaction hides the value of a query parameter: after any text [pre] in which the
    parameter does not occur yet, two messages that differ only in the parameter's value
    are redacted to the same text. *)
Theorem redactQueryParam_hides (param pre v1 v2 post : string)
    (Hfirst : Index (pre +:+ param +:+ "=") (param +:+ "=") = Some (String.length pre))
    (Hv1 : free_of "&" v1 = true) (Hv2 : free_of "&" v2 = true) :
  redactQueryParam (pre +:+ param +:+ "=" +:+ v1 +:+ "&" +:+ post) param =
  redactQueryParam (pre +:+ param +:+ "=" +:+ v2 +:+ "&" +:+ post) param.
Proof.
  set (p := param +:+ "=") in *.
  assert (Hp : p <> "") by (unfold p; by destruct param).
  assert (forall v, free_of "&" v = true ->
    redactQueryParam (pre +:+ param +:+ "=" +:+ v +:+ "&" +:+ post) param =
    (pre +:+ p) +:+ "REDACTED" +:+ redact p param_value ("&" +:+ post)) as Hgen.
  2: { by rewrite !Hgen. }
  intros v Hv. unfold redactQueryParam. fold p.
  assert (pre +:+ param +:+ "=" +:+ v +:+ "&" +:+ post = (pre +:+ p) +:+ v +:+ "&" +:+ post) as ->
    by (unfold p; by rewrite !append_assoc).
  unfold redact at 1. cbn [redact_loop]. rewrite (Index_stable _ _ _ _ Hfirst).
  rewrite <-length_app_string, drop_app_string, take_app_string.
  unfold param_value at 1. change ("&" +:+ post) with (String "&" post).
  rewrite Index_byte by done. rewrite drop_app_string. do 2 f_equal.
  apply redact_fuel; [done|apply param_value_shrinks| |lia].
  rewrite !length_app_string. destruct p; [done|cbn; lia].
Qed.
End Redaction.

(** ** Keys through the shell *)
Lemma replace_quotes n s : String.length s <= n -> replace_from n s "'" "'\''" = escape_quotes s.
Proof.
  revert s. induction n as [|n IH]; intros [|c s] Hl; try done; [cbn in Hl; lia|].
  cbn [replace_from HasPrefix]. rewrite Ascii.eqb_sym. cbn [escape_quotes].
  destruct (Ascii.eqb c "'"); cbn [andb].
  - assert (HasPrefix s "" = true) as -> by by destruct s. change (drop_string _ (String c s)) with s.
    rewrite IH by (cbn in Hl; lia). done.
  - rewrite IH by (cbn in Hl; lia). done.
Qed.

(** The cloud-init commands write the caller's key as it is: in each of the two
    commands that do, the shell reads what follows [echo] as one word, the key. *)
Theorem cloud_init_writes_key (key : string) (drivers : bool) :
  Forall (fun file =>
    echo_key key file ∈ CloudInit.RunCmd (buildCloudInit key drivers) /\
    sh_word false (drop_string 5 (echo_key key file)) = Some (key, " > " +:+ file))
  ["/root/.ssh/authorized_keys"; "/home/user/.ssh/authorized_keys"].
Proof.
  assert (forall file, sh_word false (drop_string 5 (echo_key key file)) = Some (key, " > " +:+ file)) as Hw.
  { intros file. unfold echo_key, shellEscapeSingleQuote, ReplaceAll. rewrite replace_quotes by done.
    change (drop_string 5 ("echo '" +:+ ?x)) with ("'" +:+ x).
    change (sh_word true (escape_quotes key +:+ "'" +:+ (" > " +:+ file)) = Some (key, " > " +:+ file)).
    apply sh_word_escape. right. by exists ("> " +:+ file). }
  repeat constructor; try apply Hw; cbn [buildCloudInit CloudInit.RunCmd];
    apply elem_of_app; left; unfold key_commands; rewrite !elem_of_cons; tauto.
Qed.

(** ** Offers *)
Definition no_space (s : string) : Prop := all_bytes (fun c => negb (is_space c)) s = true.

(** The identifier of a listed offer leads [CreateInstance] back to the location and
    the GPU, when the location is named by 36 bytes (a UUID), the GPU by one at least, and
    neither has blanks. *)
Theorem tensordock_offer_roundtrip (t : time) (loc : Location.t) (gpu : LocationGPU.t)
    (Huuid : String.length (Location.ID loc) = 36) (Hgpu : LocationGPU.V0Name gpu <> "")
    (Hloc : no_space (Location.ID loc)) (Hname : no_space (LocationGPU.V0Name gpu)) :
  parseOfferID (GPUOffer.ID (locationGPUToOffer t loc gpu)) =
    Ok (Location.ID loc, LocationGPU.V0Name gpu).
Proof.
  unfold locationGPUToOffer. cbv zeta. cbn [GPUOffer.ID]. unfold parseOfferID.
  set (id := Location.ID loc) in *. set (name := LocationGPU.V0Name gpu) in *.
  rewrite TrimSpace_id.
  2: { rewrite all_bytes_app, (all_bytes_app _ id), (all_bytes_app _ "-"). unfold no_space in *.
       by rewrite Hloc, Hname. }
  assert (HasPrefix (ToLower ("tensordock-" +:+ id +:+ "-" +:+ name)) "tensordock-" = true) as ->.
  { apply HasPrefix_spec. by exists (ToLower (id +:+ "-" +:+ name)). }
  cbn [negb]. change (drop_string 11 ("tensordock-" +:+ id +:+ "-" +:+ name)) with (id +:+ "-" +:+ name).
  assert (String.length (id +:+ "-" +:+ name) <? 38 = false) as ->.
  { apply Nat.ltb_ge. rewrite !length_app_string, Huuid. cbn. destruct name; [done|cbn; lia]. }
  rewrite <-Huuid, take_app_string. do 2 f_equal.
  change (drop_string (S (String.length id)) (id +:+ "-" +:+ name) = name).
  clear. induction id as [|c id IH]; [by destruct name|]. exact IH.
Qed.

(** The video memory is read back from a name that ends in a number and "GB", whatever
    blanks are between them, when no digit comes earlier. *)
Lemma digits_free s acc : all_bytes (fun c => negb (is_digit c)) s = true -> digits s acc 0 = (acc, 0, s).
Proof. destruct s as [|c s]; [done|]. cbn. by destruct (is_digit c). Qed.

Lemma match_vram_skip s t : all_bytes (fun c => negb (is_digit c)) s = true ->
  match_vram (s +:+ t) = match_vram t.
Proof.
  induction s as [|c s IH]; [done|]. cbn [all_bytes]. rewrite andb_true_iff, negb_true_iff.
  intros [Hc Hs]. change (String c s +:+ t) with (String c (s +:+ t)).
  cbn [match_vram digits]. rewrite Hc. cbn [Nat.ltb andb]. by apply IH.
Qed.

Lemma digits_Itoa_app n rest : (0 < n)%Z -> all_bytes (fun c => negb (is_digit c)) rest = true ->
  exists k, digits (Itoa n +:+ rest) 0 0 = (n, S k, rest).
Proof.
  intros Hn Hr. rewrite Itoa_pos, pretty_N_go_app by done.
  destruct (digits_pretty_go (Z.to_N n) ("" +:+ rest)) as (k & Hk & ->).
  change ("" +:+ rest) with rest.
  destruct k as [|k]; [specialize (Hk ltac:(lia)); lia|]. exists k. rewrite Z2N.id by lia.
  assert (forall acc m, digits rest acc m = (acc, m, rest)) as Hd.
  { intros acc m. destruct rest as [|c rest]; [done|]. cbn in Hr |- *. by destruct (is_digit c). }
  rewrite Hd. f_equal; lia.
Qed.

Lemma parseVRAMFromName_reads s n (Hs : all_bytes (fun c => negb (is_digit c)) s = true)
    (Hn : (0 < n <= max_int64)%Z) : parseVRAMFromName (s +:+ Itoa n +:+ "GB") = n.
Proof.
  unfold parseVRAMFromName. rewrite match_vram_skip by done.
  destruct (digits_Itoa_app n "GB") as [k Hk]; [lia|done|].
  destruct (Itoa_head n) as (c & d & Hi & _); [lia|].
  assert (match_vram (Itoa n +:+ "GB") = Some (head_digits (Itoa n +:+ "GB"))) as ->.
  { revert Hk. rewrite Hi. change (String c d +:+ "GB") with (String c (d +:+ "GB")).
    cbn [match_vram]. intros ->. done. }
  unfold head_digits. rewrite Hk, length_app_string. cbn [snd].
  rewrite Nat.add_sub, take_app_string, Atoi_Itoa; [done|]. unfold in_int64, min_int64. lia.
Qed.

(** ** Errors *)
Section Errors.
Context `{TDDecoder}.

(** A refused creation sends the caller to another offer exactly when the API said so
    with a successful status code: an error object in the body, of status 400 or more and
    a text of the list.  A refusal with an error status never does, whatever its text (the
    errors of reading and decoding the body aside). *)
Theorem create_error_retries (resp : Response.t) (body : string) (e : error)
    (Hread : read_body resp = Ok body)
    (Hdec : forall e', decode_created body = Err e' -> ShouldRetryWithDifferentOffer e' = false)
    (He : created_of_response resp = Err e) :
  ShouldRetryWithDifferentOffer e = true <->
  (Response.StatusCode resp = 200 \/ Response.StatusCode resp = 201)%Z /\
  exists status text, decode_status body = Ok (status, text) /\ (400 <= status)%Z /\
    isStaleInventoryErrorMessage text = true.
Proof.
  revert He. unfold created_of_response, wrapped, code_in. rewrite Hread. cbn [existsb]. rewrite orb_false_r.
  assert (Hcode : (Response.StatusCode resp =? 200)%Z || (Response.StatusCode resp =? 201)%Z = true <->
    (Response.StatusCode resp = 200 \/ Response.StatusCode resp = 201)%Z)
    by by rewrite orb_true_iff, !Z.eqb_eq.
  destruct (_ || _); cbn [negb].
  2: { intros [= <-]. unfold parseCreateError. split.
       - destruct (decode_validation body) as [[|m ms]|]; done.
       - by intros [Hc%Hcode _]. }
  assert (Hok := proj1 Hcode eq_refl). unfold checkBodyForError.
  destruct (decode_status body) as [[status text]|e'] eqn:Hs.
  - destruct (Z.leb_spec 400 status) as [Hle|Hlt].
    + destruct (isStaleInventoryErrorMessage text) eqn:Hst; intros [= <-].
      * split; [|done]. intros _. split; [done|]. by exists status, text.
      * split; [done|]. intros (_ & s & x & [= <- <-] & _ & Hx). congruence.
    + intros Hr. split; [|intros (_ & s & x & [= <- <-] & Hx & _); lia].
      destruct (decode_created body) as [r|e'] eqn:Hd; [case_bool_decide; [by injection Hr as <-|done]|].
      injection Hr as <-. intros Hx. change (ShouldRetryWithDifferentOffer e' = true) in Hx.
      by rewrite (Hdec e' eq_refl) in Hx.
  - intros Hr. split; [|by intros (_ & s & x & [=] & _)].
    destruct (decode_created body) as [r|e''] eqn:Hd; [case_bool_decide; [by injection Hr as <-|done]|].
    injection Hr as <-. intros Hx. change (ShouldRetryWithDifferentOffer e'' = true) in Hx.
    by rewrite (Hdec e'' eq_refl) in Hx.
Qed.

(** A plain refusal that the code means to retry elsewhere is not. *)
Lemma refusal_not_retried resp body :
  read_body resp = Ok body -> decode_validation body = Err (EOpaque "not an array") ->
  Response.StatusCode resp = 500%Z -> Contains (ToLower body) "no available nodes" = true ->
  exists e, created_of_response resp = Err e /\ ShouldRetryWithDifferentOffer e = false.
Proof.
  intros Hr Hv Hc _. unfold created_of_response, wrapped, code_in, parseCreateError. rewrite Hr, Hv, Hc.
  by eexists.
Qed.
End Errors.

(** One GPU is asked for, whatever the number the offer was listed with. *)
Lemma create_asks_one_gpu image req loc gpu :
  CreateAttributes.GPUs (create_attributes image req loc gpu) = {[gpu := 1%Z]} /\
  CreateAttributes.StorageGb (create_attributes image req loc gpu) = 100%Z.
Proof. done. Qed.

(** The list and the destruction keep whatever the clock, the sinks, the transport and the
    state of the client keep. *)
Section Keeps.
Context {W S : Type} `{Env W} `{HttpClient W payload} `{TDDecoder} `{HasTensorDock W} (l : lens W S).
Hypothesis clock_keeps : keeps l time_Now.
Hypothesis sinks_keep : forall e, keeps l (emit e).
Hypothesis state_keeps : forall s, keeps l (write tensordock s).
Hypothesis limiter_keeps : keeps l limiter_Wait.
Hypothesis transport_keeps : forall r, keeps l (Do r).

Lemma td_guarded_keeps {A} op (body : M W (result A)) : keeps l body -> keeps l (td_guarded op body).
Proof.
  intros Hb. apply guarded_keeps; [done|done| |done].
  intros c w. apply (state_keeps (TDState.mk c (TDState.stats (view tensordock w)))).
Qed.

Lemma call_keeps {A} base m p b (k : Response.t -> result A) :
  keeps l (rateLimited (exchange base m p b k)).
Proof.
  unfold rateLimited, exchange. apply keeps_seq; [done|]. intros [e|]; [done|]. case_match; [done|].
  apply keeps_seq; [done|]. intros [r|e]; done.
Qed.

Lemma td_list_keeps base : keeps l (ListAllInstances base).
Proof. apply td_guarded_keeps, call_keeps. Qed.

Lemma td_destroy_keeps base i : keeps l (DestroyInstance base i).
Proof.
  unfold DestroyInstance. case_match; [done|].
  apply keeps_seq; [apply td_guarded_keeps, call_keeps|done].
Qed.
End Keeps.

(** ** The reconciler over this client *)
Section Outage.
Context {W : Type} `{SessionStore W} `{Env W} `{HttpClient W payload} `{TDDecoder} `{MapRange}
  `{HasTensorDock W} `{Ghost W} `{CallLog W}.
Context (cfg : ReconcilerConfig.t) (registry : gmap string (Provider.t W)) (baseURL : string).
Context `{!StoreLaws W} `{!EnvLaws W} `{!MapRangeLaws} `{!ProviderLaws W registry}.
Context `{!CallLogLaws W registry} `{!Owned payload tensordock}.

Definition list_request : Request.t payload := Request.mk "GET" (baseURL +:+ "/instances") NoBody.

(** The list call of the state [w] passes the circuit and the limiter, and the API answers
    [resp]. *)
Definition list_answered (w : W) (resp : Response.t) : Prop :=
  let w1 := snd (time_Now w) in
  circuitBreaker.state (view td_breaker w) = CircuitClosed /\
  fst (limiter_Wait w1) = None /\ NewRequest_error list_request = None /\
  fst (Do list_request (snd (limiter_Wait w1))) = Ok resp.

Lemma ListAllInstances_answer w resp : list_answered w resp ->
  fst (ListAllInstances baseURL w) = list_of_response resp.
Proof.
  intros (Hc & Hl & Hn & Hd). unfold ListAllInstances, td_guarded. rewrite guarded_closed.
  2: { cbn in *. by rewrite (time_Now_keeps (B := payload)). }
  set (w1 := snd (time_Now w)) in *. unfold rateLimited, exchange, bind.
  fold list_request. rewrite Hn. destruct (limiter_Wait w1) as [e w2]. cbn [fst snd] in *. rewrite Hl.
  destruct (Do list_request w2) as [r w3]. cbn [fst] in Hd. by rewrite Hd.
Qed.

(** C14.  When TensorDock answers the list with a server error, the client reports an empty
    list and no error, so that one reconciliation pass stops every running session of the
    provider that is old enough, though nothing is known of the instances, and destroys
    none of them. *)
Theorem tensordock_outage_stops_sessions (prov : Provider.t W) (resp : Response.t) (w : W)
    (Hreg : registry !! "tensordock" = Some prov)
    (Hlist : Provider.ListAllInstances prov = ListAllInstances baseURL)
    (Hanswer : list_answered w resp) (Hcode : (500 <= Response.StatusCode resp < 600)%Z) :
  wp (reconcileProvider cfg registry "tensordock") (fun e w' => e = None ->
    destroy_calls w' = destroy_calls w /\
    (healthy w -> forall s, stands_alone "tensordock" w s ->
       exists s', sess_view w' !! Session.ID s = Some s' /\ Session.Status s' = StatusStopped)) w.
Proof.
  apply (reconcile_unlisted cfg registry "tensordock" prov []); [done|done| |].
  - rewrite Hlist, (ListAllInstances_answer w resp) by done. unfold list_of_response, code_in.
    cbn [existsb].
    rewrite !(proj2 (Z.eqb_neq (Response.StatusCode resp) _)) by lia. done.
  - intros i (p & Hp & _). by apply not_elem_of_nil in Hp.
Qed.
End Outage.
