(* ===== verification/Api.v ===== *)
(** [internal/api/handlers.go] and the middleware of [server.go]: what the HTTP API
    answers.  A handler is a function of the parsed request; a response is its status code
    and a typed body (the value that is encoded as JSON).  The services behind the server
    are the class [Backend].  Gin's binding of bodies and queries, and
    [strconv.ParseFloat], are parameters ([Gin], [FloatText]).

    A run-time panic of a service ([GoPanic]) unwinds the handler: [recoveryMiddleware]
    answers it. *)
From S2P Require Import Prelude GoFloat GoLib GoStrings FailureTracker Models Errors Interfaces Template.
From Stdlib Require Import Ascii.

(** ** Requests *)
Module HttpRequest.
Record t := mk {
  (** the first value of each query parameter *)
  query : gmap string string;
  (** the path parameter *)
  id : string;
  body : string;
  (** what [requestIDMiddleware] has set *)
  request_id : string
}.
(** [c.Query]. *)
Definition Query (name : string) (r : t) : string := default "" (query r !! name).
End HttpRequest.

Module ApiCreateRequest.
Record t := mk {
  ConsumerID : string;
  OfferID : string;
  WorkloadType : string;
  ReservationHrs : Z;
  IdleThreshold : Z;
  StoragePolicy : string;
  LaunchMode : string;
  DockerImage : string;
  ModelID : string;
  ExposedPorts : list Z;
  Quantization : string;
  TemplateHashID : string;
  DiskGB : Z;
  AutoRetry : bool;
  MaxRetries : Z;
  RetryScope : string;
  OnStartCmd : string;
  SSHTimeoutMinutes : Z
}.
End ApiCreateRequest.

Module CostQueryParams.
Record t := mk {
  ConsumerID : string;
  SessionID : string;
  StartDate : string;
  EndDate : string;
  Period : string
}.
End CostQueryParams.

(** An error of the binding: the validator's list of fields with their tags, or any other. *)
Module FieldError.
Record t := mk { Field : string; Tag : string; Param : string }.
End FieldError.
Inductive bind_error := ValidationErrors (l : list FieldError.t) | BindError (e : error).

Class Gin := {
  bind_create : string -> res bind_error ApiCreateRequest.t;
  bind_extend : string -> res bind_error Z;
  bind_sessions : gmap string string -> result SessionListFilter.t;
  bind_costs : gmap string string -> result CostQueryParams.t;
  bind_templates : gmap string string -> result TemplateFilter.t
}.

(** What the tags of the bound fields require. *)
Definition create_tags (r : ApiCreateRequest.t) : Prop :=
  ApiCreateRequest.ConsumerID r <> "" /\ ApiCreateRequest.OfferID r <> "" /\
  ApiCreateRequest.WorkloadType r <> "" /\ (1 <= ApiCreateRequest.ReservationHrs r <= 12)%Z.
Class GinLaws `{Gin} : Prop := {
  bind_create_tags : forall body r, bind_create body = Ok r -> create_tags r;
  bind_extend_tags : forall body h, bind_extend body = Ok h -> (1 <= h <= 12)%Z
}.

(** [strconv.ParseFloat(s, 64)], and the verb [%v] of a [float64]. *)
Class FloatText := { ParseFloat : string -> result f64; fmt_v : f64 -> string }.

(** ** Responses *)
Module SessionDiagnosticsResponse.
Record t := mk {
  SessionID : string;
  Status : SessionStatus;
  Provider : string;
  GPUType : string;
  GPUCount : Z;
  SSHHost : string;
  SSHPort : Z;
  SSHUser : string;
  LaunchMode : string;
  APIEndpoint : string;
  CreatedAt : time;
  ExpiresAt : time;
  Uptime : string;
  TimeToExpiry : string;
  SSHAvailable : bool
}.
End SessionDiagnosticsResponse.

Inductive Body :=
| ErrorResponse (Error : string)
| HealthResponse (Status : string) (Timestamp : time) (Services : gmap string string)
| ReadyResponse (Ready : bool) (Timestamp : time)
| OffersBody (offers : list GPUOffer.t) (count total : Z)
| OfferBody (offer : GPUOffer.t)
| InsufficientDiskBody (error : string) (requested_gb minimum_gb recommended_gb : Z)
    (breakdown : option DiskEstimation.t)
| StaleInventoryBody (error offer_id provider : string)
| ProvisionErrorBody (error error_type : string) (retry_suggested : bool)
| CreateSessionResponse (Session : SessionResponse.t) (SSHPrivateKey : string) (RetriesAttempted : Z)
| SessionsBody (sessions : list SessionResponse.t) (count : Z)
| SessionBody (s : SessionResponse.t)
| MessageBody (message session_id : string) (new_expires_at : option time)
| SessionCostBody (session_id : string) (total_cost : f64)
| SummaryBody (s : CostSummary.t)
| DiagnosticsBody (d : SessionDiagnosticsResponse.t)
| OfferHealthBody (offers : list OfferHealthInfo.t) (gpu_types : list GPUTypeHealthInfo.t) (count : Z)
| TemplatesBody (templates : list VastTemplate.t) (count : Z)
| TemplateBody (t : VastTemplate.t)
| NoTemplatesBody (offer_id provider : string)
| CompatibleTemplatesBody (l : list CompatibleTemplate.t) (count : Z) (offer_id gpu_type : string)
    (vram_gb : Z).

(** [request_id] is that of error responses. *)
Module HttpResponse.
Record t := mk { Code : Z; body : Body; request_id : string }.
End HttpResponse.

(** ** The services *)
Class Backend (W : Type) := {
  server_ready : M W bool;
  lifecycle_IsRunning : M W bool;
  inventory_ListOffers : OfferFilter.t -> M W (result (list GPUOffer.t));
  inventory_GetOffer : string -> M W (result GPUOffer.t);
  inventory_GetAllOfferHealth : M W (list OfferHealthInfo.t * list GPUTypeHealthInfo.t);
  inventory_GetTemplateProvider : string -> result (TemplateProvider.t W);
  provisioner_CreateSession : CreateSessionRequest.t -> GPUOffer.t -> M W (result Session.t);
  provisioner_GetSession : string -> M W (result Session.t);
  provisioner_ListSessions : SessionListFilter.t -> M W (result (list Session.t));
  provisioner_DestroySession : string -> M W (option error);
  lifecycle_SignalDone : string -> M W (option error);
  lifecycle_ExtendSession : string -> Z -> M W (option error);
  costs_GetSessionCost : string -> M W (result f64);
  costs_GetSummary : CostQuery.t -> M W (result CostSummary.t);
  costs_GetDailySummary : string -> M W (result CostSummary.t);
  costs_GetMonthlySummary : string -> M W (result CostSummary.t)
}.

(** ** Texts *)
Definition hours_of (d : duration) : Z := int_of_f64 (Hours d) (Z_of_f64_trunc (Hours d)).
(** [d.Minutes()]. *)
Definition Minutes (d : duration) : f64 :=
  fadd (f64_of_Z (Z.quot d Minute)) (fdiv (f64_of_Z (Z.rem d Minute)) (f64_of_Z Minute)).

Definition formatDuration (d : duration) : string :=
  if (d <? 0)%Z then "expired"
  else
    let hours := hours_of d in
    let minutes := Z.rem (int_of_f64 (Minutes d) (Z_of_f64_trunc (Minutes d))) 60 in
    if (0 <? hours)%Z then Itoa hours +:+ "h " +:+ Itoa minutes +:+ "m"
    else Itoa minutes +:+ "m".

(** The runes [sanitizeInput] drops. *)
Definition unsafe_rune (c : ascii) : bool :=
  (nat_of_ascii c <? 32) || Ascii.eqb c "<" || Ascii.eqb c ">".
Definition sanitizeInput (s : string) (maxLen : nat) : string :=
  filter_runes unsafe_rune 0 (if maxLen <? String.length s then take_string maxLen s else s).

Definition classifyProvisionError (err : option error) : string * bool :=
  match err with
  | None => ("none", false)
  | Some e =>
      let has := Contains (ToLower (Error e)) in
      if has "ssh" || has "timeout" then ("ssh_timeout", true)
      else if has "stopped" || has "terminated" then ("instance_stopped", true)
      else if has "connection refused" then ("provider_unavailable", true)
      else if has "not found" || has "invalid" then ("invalid_request", false)
      else ("provision_failed", true)
  end.

Definition fieldMappings : gmap string string :=
  list_to_map [("ConsumerID", "consumer_id"); ("OfferID", "offer_id"); ("WorkloadType", "workload_type");
    ("ReservationHrs", "reservation_hours"); ("IdleThreshold", "idle_threshold_minutes");
    ("StoragePolicy", "storage_policy"); ("LaunchMode", "launch_mode"); ("DockerImage", "docker_image");
    ("ModelID", "model_id"); ("ExposedPorts", "exposed_ports"); ("Quantization", "quantization");
    ("AdditionalHours", "additional_hours")].

Definition is_upper (c : ascii) : bool := byte_in 65 90 c.
Definition is_lower_digit (c : ascii) : bool := byte_in 97 122 c || is_digit c.
(** [ReplaceAllString(s, "${1}_${2}")] of [([a-z0-9])([A-Z])]: matches do not overlap. *)
Fixpoint insert_underscores (s : string) : string :=
  match s with
  | String c (String d s' as rest) =>
      if is_lower_digit c && is_upper d then String c (String "_" (String d (insert_underscores s')))
      else String c (insert_underscores rest)
  | _ => s
  end.
Definition toSnakeCase (s : string) : string :=
  match fieldMappings !! s with
  | Some mapped => mapped
  | None => ToLower (insert_underscores s)
  end.

Definition field_message (fe : FieldError.t) : string :=
  let name := toSnakeCase (FieldError.Field fe) in
  let tag := FieldError.Tag fe in
  if bool_decide (tag = "required") then name +:+ " is required"
  else if bool_decide (tag = "min") then name +:+ " must be at least " +:+ FieldError.Param fe
  else if bool_decide (tag = "max") then name +:+ " must be at most " +:+ FieldError.Param fe
  else name +:+ " failed validation (" +:+ tag +:+ ")".
Definition sanitizeValidationError (err : bind_error) : string :=
  match err with
  | BindError e => Error e
  | ValidationErrors l => Join (map field_message l) "; "
  end.

(** ** Query parameters *)

(** A parameter that is absent, well formed, or refused with a message. *)
Section Params.
Context `{FloatText}.

Definition int_param (name : string) (bad : Z -> bool) (rule : string) (r : HttpRequest.t)
    : res string (option Z) :=
  let text := HttpRequest.Query name r in
  if bool_decide (text = "") then Ok None
  else match Atoi text with
       | Err _ => Err ("invalid " +:+ name +:+ ": must be a valid integer, got " +:+ Quote text)
       | Ok v =>
           if bad v then Err ("invalid " +:+ name +:+ ": must be " +:+ rule +:+ ", got " +:+ Itoa v)
           else Ok (Some v)
       end.

Definition float_param (name : string) (bad : f64 -> bool) (rule : string) (r : HttpRequest.t)
    : res string (option f64) :=
  let text := HttpRequest.Query name r in
  if bool_decide (text = "") then Ok None
  else match ParseFloat text with
       | Err _ => Err ("invalid " +:+ name +:+ ": must be a valid number, got " +:+ Quote text)
       | Ok v =>
           if bad v then Err ("invalid " +:+ name +:+ ": must be " +:+ rule +:+ ", got " +:+ fmt_v v)
           else Ok (Some v)
       end.

Definition negative (v : Z) : bool := (v <? 0)%Z.
Definition fnegative (v : f64) : bool := fltb v f0.
Definition not_unit (v : f64) : bool := fltb v f0 || fgtb v f1.

Definition res_bind {E A B} (x : res E A) (k : A -> res E B) : res E B :=
  match x with Ok a => k a | Err e => Err e end.
Notation "'let?' x ':=' m 'in' k" := (res_bind m (fun x => k))
  (at level 10, x name, m at level 100, k at level 200).

(** The filter of [handleListInventory], before the template. *)
Definition offer_filter (r : HttpRequest.t) : res string OfferFilter.t :=
  let? minVRAM := int_param "min_vram" negative "non-negative" r in
  let? maxPrice := float_param "max_price" fnegative "non-negative" r in
  let? gpuCount := int_param "gpu_count" negative "non-negative" r in
  let? minGPUCount := int_param "min_gpu_count" negative "non-negative" r in
  let? minReliability := float_param "min_reliability" not_unit "between 0 and 1" r in
  let? minConfidence := float_param "min_availability_confidence" not_unit "between 0 and 1" r in
  let? minCUDA := float_param "min_cuda" fnegative "non-negative" r in
  Ok (OfferFilter.mk (HttpRequest.Query "provider" r) (HttpRequest.Query "gpu_type" r)
        (default 0%Z minVRAM) (default f0 maxPrice) (HttpRequest.Query "location" r)
        (default f0 minReliability)
        (match minGPUCount with Some v => v | None => default 0%Z gpuCount end)
        (default f0 minConfidence) (default f0 minCUDA)).

(** [limit] and [offset], 0 when absent. *)
Definition page_params (r : HttpRequest.t) : res string (Z * Z) :=
  let? limit := int_param "limit" (fun v => (v <=? 0)%Z) "positive" r in
  let? offset := int_param "offset" negative "non-negative" r in
  Ok (default 0%Z limit, default 0%Z offset).
End Params.

(** The slices of the pagination: [offers[offset:]] and [offers[:limit]], in range by the
    guards. *)
Definition paginate (limit offset : Z) (offers : list GPUOffer.t) : list GPUOffer.t :=
  let len := Z.of_nat (length offers) in
  let offers :=
    if (0 <? offset)%Z then if (len <=? offset)%Z then [] else drop (Z.to_nat offset) offers
    else offers in
  if (0 <? limit)%Z && (limit <? Z.of_nat (length offers))%Z
  then take (Z.to_nat limit) offers else offers.

(** ** Templates as constraints on offers *)
Definition with_cuda (v : f64) (f : OfferFilter.t) : OfferFilter.t :=
  OfferFilter.mk (OfferFilter.Provider f) (OfferFilter.GPUType f) (OfferFilter.MinVRAM f)
    (OfferFilter.MaxPrice f) (OfferFilter.Location f) (OfferFilter.MinReliability f)
    (OfferFilter.MinGPUCount f) (OfferFilter.MinAvailabilityConfidence f) v.
Definition with_vram (v : Z) (f : OfferFilter.t) : OfferFilter.t :=
  OfferFilter.mk (OfferFilter.Provider f) (OfferFilter.GPUType f) v (OfferFilter.MaxPrice f)
    (OfferFilter.Location f) (OfferFilter.MinReliability f) (OfferFilter.MinGPUCount f)
    (OfferFilter.MinAvailabilityConfidence f) (OfferFilter.MinCUDAVersion f).
Definition with_provider (v : string) (f : OfferFilter.t) : OfferFilter.t :=
  OfferFilter.mk v (OfferFilter.GPUType f) (OfferFilter.MinVRAM f) (OfferFilter.MaxPrice f)
    (OfferFilter.Location f) (OfferFilter.MinReliability f) (OfferFilter.MinGPUCount f)
    (OfferFilter.MinAvailabilityConfidence f) (OfferFilter.MinCUDAVersion f).

(** [if bound != nil && filter.MinCUDAVersion < bound + step]. *)
Definition raise_cuda (bound : option f64) (step : f64 -> f64) (f : OfferFilter.t) : OfferFilter.t :=
  match bound with
  | Some b => if fltb (OfferFilter.MinCUDAVersion f) (step b) then with_cuda (step b) f else f
  | None => f
  end.
(** [int(math.Ceil(mb / 1024))]. *)
Definition ceil_gb (mb : f64) : Z :=
  let x := fdiv mb (f64_of_Z 1024) in int_of_f64 x (Z_of_f64_ceil x).

Definition apply_template (l : ExtraFilters) (f : OfferFilter.t) : OfferFilter.t :=
  let f :=
    match l !! "cuda_max_good" with
    | Some c => raise_cuda (ExtraFilter.Gt c) (fun b => fadd b (f64_lit 1 10))
                  (raise_cuda (ExtraFilter.Gte c) (fun b => b) f)
    | None => f
    end in
  match l !! "gpu_total_ram" with
  | Some v =>
      let vramGB := match ExtraFilter.Gte v with Some b => ceil_gb b | None => 0%Z end in
      let vramGB := match ExtraFilter.Gt v with Some b => wrap64 (ceil_gb b + 1) | None => vramGB end in
      if (OfferFilter.MinVRAM f <? vramGB)%Z then with_vram vramGB f else f
  | None => f
  end.

(** ** Creating a session *)
Definition storage_policy (s : string) : string :=
  if bool_decide (s = "preserve") then StoragePreserve else StorageDestroy.
Definition launch_mode (s : string) : string :=
  if bool_decide (s = "entrypoint") then LaunchModeEntrypoint else LaunchModeSSH.

(** BUG-005: the override of the caller, between 1 and 30 minutes. *)
Definition ssh_timeout_override (minutes : Z) (template : duration) : duration :=
  if (0 <? minutes)%Z then
    let mins := if (30 <? minutes)%Z then 30%Z else minutes in
    let mins := if (mins <? 1)%Z then 1%Z else mins in
    dur_mul mins Minute
  else template.

(** The request handed to the provisioner; [disk] and [timeout] are the template's. *)
Definition session_request (r : ApiCreateRequest.t) (disk : Z) (timeout : duration)
    : CreateSessionRequest.t :=
  CreateSessionRequest.mk (ApiCreateRequest.ConsumerID r) (ApiCreateRequest.OfferID r)
    (ApiCreateRequest.WorkloadType r) (ApiCreateRequest.ReservationHrs r)
    (ApiCreateRequest.IdleThreshold r) (storage_policy (ApiCreateRequest.StoragePolicy r))
    (launch_mode (ApiCreateRequest.LaunchMode r)) (ApiCreateRequest.DockerImage r)
    (ApiCreateRequest.ModelID r) (ApiCreateRequest.ExposedPorts r) (ApiCreateRequest.Quantization r)
    (ApiCreateRequest.TemplateHashID r) (ApiCreateRequest.DiskGB r) (ApiCreateRequest.AutoRetry r)
    (ApiCreateRequest.MaxRetries r) (ApiCreateRequest.RetryScope r) (ApiCreateRequest.OnStartCmd r)
    (ApiCreateRequest.SSHTimeoutMinutes r) disk
    (ssh_timeout_override (ApiCreateRequest.SSHTimeoutMinutes r) timeout).

Definition is_duplicate (e : error) : bool :=
  match e with DuplicateSessionError _ _ _ _ => true | _ => false end.
Definition is_terminal (e : error) : bool :=
  match e with SessionTerminalError _ _ => true | _ => false end.
Definition is_hard_max (e : error) : bool :=
  match e with HardMaxExceededError _ _ _ _ => true | _ => false end.
Definition is_provider_not_found (e : error) : bool :=
  match e with ProviderNotFoundError _ => true | _ => false end.
Definition is_session_not_found (e : error) : bool :=
  match e with SessionNotFoundError _ => true | _ => false end.
Definition is_template_not_found (e : error) : bool :=
  match e with ErrTemplateNotFound => true | _ => false end.

(** [errors.As] of a typed error: the first of the tree that [f] accepts. *)
Fixpoint error_find {A} (f : error -> option A) (e : error) : option A :=
  match f e with
  | Some a => Some a
  | None =>
      match e with
      | ProviderError _ _ _ _ (Some e') => error_find f e'
      | StaleInventoryError _ _ e' => error_find f e'
      | AllProvidersFailed es =>
          fold_right (fun x acc => match error_find f x with Some r => Some r | None => acc end) None es
      | EWrap _ e' | ESuffix e' _ => error_find f e'
      | _ => None
      end
  end.
Definition disk_error (e : error) : option (Z * Z * Z * option DiskEstimation.t) :=
  match e with InsufficientDiskError a b c d => Some (a, b, c, d) | _ => None end.
Definition stale_error (e : error) : option (string * string) :=
  match e with StaleInventoryError o p _ => Some (o, p) | _ => None end.

Section Respond.
Context (rid : string).

(** [c.JSON(code, body)]; bodies other than errors carry no request id. *)
Definition json (code : Z) (b : Body) : HttpResponse.t := HttpResponse.mk code b rid.
Definition fail_with (code : Z) (text : string) : HttpResponse.t := json code (ErrorResponse text).
(** [recoveryMiddleware]. *)
Definition internal_server_error : HttpResponse.t := fail_with 500 "internal server error".
(** What follows a call that returned the error [e]. *)
Definition on_error (e : error) (k : HttpResponse.t) : HttpResponse.t :=
  match e with GoPanic _ => internal_server_error | _ => k end.

(** How [handleCreateSession] answers an error of [CreateSession]. *)
Definition creation_failed (e : error) : HttpResponse.t :=
  if error_exists is_duplicate e then fail_with 409 (Error e)
  else match error_find disk_error e with
       | Some (requested, minimum, recommended, est) =>
           json 400 (InsufficientDiskBody (Error e) requested minimum recommended est)
       | None =>
           match error_find stale_error e with
           | Some (offer, provider) => json 503 (StaleInventoryBody (Error e) offer provider)
           | None =>
               let (errorType, retrySuggested) := classifyProvisionError (Some e) in
               json 500 (ProvisionErrorBody (Error e) errorType retrySuggested)
           end
       end.

Definition creation_answer (r : result Session.t) : HttpResponse.t :=
  match r with
  | Err e => on_error e (creation_failed e)
  | Ok s =>
      json 201 (CreateSessionResponse (SessionResponse.of_session s) (Session.SSHPrivateKey s)
                  (Session.RetryCount s))
  end.

(** The status codes of the other session operations. *)
Definition done_status (e : error) : Z :=
  if error_exists is_not_found e then 404
  else if error_exists is_terminal e then 409 else 500.
Definition extend_status (e : error) : Z :=
  if error_exists is_not_found e then 404
  else if error_exists is_hard_max e then 400
  else if error_exists is_terminal e then 409 else 500.
End Respond.

(** ** Handlers *)
Section Handlers.
Context {W : Type} `{Env W} {B : Backend W} `{Gin} `{FloatText} `{FilterDecoder} `{MapRange}.

Definition handler : Type := HttpRequest.t -> M W HttpResponse.t.

Definition handleHealth : handler := fun r =>
  let rid := HttpRequest.request_id r in
  let! t := time_Now in
  let! running := lifecycle_IsRunning in
  let! ready := server_ready in
  let services : gmap string string :=
    <["inventory" := "ok"]> {["lifecycle" := if running then "running" else "stopped"]} in
  ret (if ready then json rid 200 (HealthResponse "ok" t (<["ready" := "true"]> services))
       else json rid 503 (HealthResponse "unavailable" t (<["ready" := "false"]> services))).

Definition handleReady : handler := fun r =>
  let rid := HttpRequest.request_id r in
  let! ready := server_ready in
  let! t := time_Now in
  ret (json rid (if ready then 200 else 503) (ReadyResponse ready t)).

(** The template of [handleListInventory]: its constraints on the filter, or the response. *)
Definition template_filter (r : HttpRequest.t) (filter : OfferFilter.t)
    : M W (res HttpResponse.t OfferFilter.t) :=
  let rid := HttpRequest.request_id r in
  let hash := HttpRequest.Query "template_hash_id" r in
  if bool_decide (hash = "") then ret (Ok filter)
  else match inventory_GetTemplateProvider "vastai" with
       | Err e => ret (Err (fail_with rid 400 ("template filtering requires Vast.ai provider: " +:+ Error e)))
       | Ok p =>
           let! t := TemplateProvider.GetTemplate p hash in
           match t with
           | Err e => ret (Err (on_error rid e (fail_with rid 404 ("template not found: " +:+ sanitizeInput hash 128))))
           | Ok tmpl =>
               let filter := match ParseExtraFilters tmpl with
                             | Ok (Some l) => apply_template l filter
                             | _ => filter
                             end in
               ret (Ok (if bool_decide (OfferFilter.Provider filter = "")
                        then with_provider "vastai" filter else filter))
           end
       end.

Definition handleListInventory : handler := fun r =>
  let rid := HttpRequest.request_id r in
  match offer_filter r with
  | Err text => ret (fail_with rid 400 text)
  | Ok filter =>
      let! f := template_filter r filter in
      match f with
      | Err resp => ret resp
      | Ok filter =>
          match page_params r with
          | Err text => ret (fail_with rid 400 text)
          | Ok (limit, offset) =>
              let! offers := inventory_ListOffers filter in
              match offers with
              | Err e =>
                  ret (on_error rid e (fail_with rid
                         (if error_exists is_provider_not_found e then 400 else 500) (Error e)))
              | Ok offers =>
                  let page := paginate limit offset offers in
                  ret (json rid 200 (OffersBody page (Z.of_nat (length page)) (Z.of_nat (length offers))))
              end
          end
      end
  end.

Definition handleGetOffer : handler := fun r =>
  let rid := HttpRequest.request_id r in
  let! offer := inventory_GetOffer (HttpRequest.id r) in
  match offer with
  | Ok o => ret (json rid 200 (OfferBody o))
  | Err e =>
      let code := match e with OfferNotFoundError _ => 404%Z | _ => 500%Z end in
      ret (on_error rid e (fail_with rid code (Error e)))
  end.

(** The template's recommended disk size and SSH timeout, when the lookup succeeds. *)
Definition template_defaults (hash : string) : M W (Z * duration) :=
  if bool_decide (hash = "") then ret (0%Z, 0%Z)
  else match inventory_GetTemplateProvider "vastai" with
       | Err _ => ret (0%Z, 0%Z)
       | Ok p =>
           let! t := TemplateProvider.GetTemplate p hash in
           ret match t with
               | Ok tmpl => (VastTemplate.RecommendedDiskSpace tmpl, GetRecommendedSSHTimeout tmpl)
               | Err _ => (0%Z, 0%Z)
               end
       end.

(** The checks on a bound request. *)
Definition refuse_request (req : ApiCreateRequest.t) : option string :=
  let scope := ApiCreateRequest.RetryScope req in
  if negb (WorkloadType_IsValid (ApiCreateRequest.WorkloadType req)) then
    Some ("invalid workload_type: must be one of: llm, llm_vllm, llm_tgi, training, batch, " +:+
          "interactive, inference, ssh, benchmark")
  else if ApiCreateRequest.AutoRetry req && negb (bool_decide (scope = "")) && negb (IsValidRetryScope scope)
  then Some "invalid retry_scope: must be one of: same_gpu, same_vram, any"
  else None.

Definition handleCreateSession : handler := fun r =>
  let rid := HttpRequest.request_id r in
  match bind_create (HttpRequest.body r) with
  | Err e => ret (fail_with rid 400 (sanitizeValidationError e))
  | Ok req =>
      match refuse_request req with
      | Some text => ret (fail_with rid 400 text)
      | None =>
          let! offer := inventory_GetOffer (ApiCreateRequest.OfferID req) in
          match offer with
          | Err e =>
              ret (on_error rid e (fail_with rid 404
                     ("offer not found: " +:+ sanitizeInput (ApiCreateRequest.OfferID req) 128)))
          | Ok offer =>
              let! tmpl := template_defaults (ApiCreateRequest.TemplateHashID req) in
              let! session := provisioner_CreateSession (session_request req (fst tmpl) (snd tmpl)) offer in
              ret (creation_answer rid session)
          end
      end
  end.

Definition handleListSessions : handler := fun r =>
  let rid := HttpRequest.request_id r in
  match bind_sessions (HttpRequest.query r) with
  | Err e => ret (fail_with rid 400 (Error e))
  | Ok filter =>
      let! sessions := provisioner_ListSessions filter in
      match sessions with
      | Err e => ret (on_error rid e (fail_with rid 500 "failed to list sessions"))
      | Ok l =>
          ret (json rid 200 (SessionsBody (map SessionResponse.of_session l) (Z.of_nat (length l))))
      end
  end.

Definition handleGetSession : handler := fun r =>
  let rid := HttpRequest.request_id r in
  let! session := provisioner_GetSession (HttpRequest.id r) in
  match session with
  | Ok s => ret (json rid 200 (SessionBody (SessionResponse.of_session s)))
  | Err e =>
      ret (on_error rid e (if error_exists is_not_found e then fail_with rid 404 (Error e)
                           else fail_with rid 500 "failed to get session"))
  end.

Definition handleSessionDone : handler := fun r =>
  let rid := HttpRequest.request_id r in
  let! e := lifecycle_SignalDone (HttpRequest.id r) in
  match e with
  | Some e => ret (on_error rid e (fail_with rid (done_status e) (Error e)))
  | None => ret (json rid 200 (MessageBody "session shutdown initiated" (HttpRequest.id r) None))
  end.

Definition handleExtendSession : handler := fun r =>
  let rid := HttpRequest.request_id r in
  let id := HttpRequest.id r in
  match bind_extend (HttpRequest.body r) with
  | Err e => ret (fail_with rid 400 (sanitizeValidationError e))
  | Ok additionalHours =>
      let! e := lifecycle_ExtendSession id additionalHours in
      match e with
      | Some e => ret (on_error rid e (fail_with rid (extend_status e) (Error e)))
      | None =>
          let! session := provisioner_GetSession id in
          match session with
          | Err e => ret (on_error rid e (json rid 200 (MessageBody "session extended" id None)))
          | Ok s => ret (json rid 200 (MessageBody "session extended" id (Some (Session.ExpiresAt s))))
          end
      end
  end.

Definition handleDeleteSession : handler := fun r =>
  let rid := HttpRequest.request_id r in
  let id := HttpRequest.id r in
  let! e := provisioner_DestroySession id in
  match e with
  | Some e =>
      ret (on_error rid e
        (if error_exists is_session_not_found e || error_exists is_not_found e
         then fail_with rid 404 ("session not found: " +:+ sanitizeInput id 128)
         else fail_with rid 500 (Error e)))
  | None => ret (json rid 200 (MessageBody "session destroyed" id None))
  end.

(** *** Costs *)

(** The custom period of [handleGetCosts]: missing ends follow from the other one, both
    from the present month; [Err] is the refusal. *)
Definition cost_period (p : CostQueryParams.t) : M W (res string (time * time)) :=
  let refused name text := Err ("invalid " +:+ name +:+ " format, expected YYYY-MM-DD: " +:+ text) in
  let start := CostQueryParams.StartDate p in
  let end_ := CostQueryParams.EndDate p in
  let date text := if bool_decide (text = "") then Some zero_time else ParseDate text in
  match date start, date end_ with
  | None, _ => ret (refused "start_date" start)
  | _, None => ret (refused "end_date" end_)
  | Some startTime, Some endTime =>
      if bool_decide (start = "") && bool_decide (end_ = "") then
        let! now := time_Now in ret (Ok (startOfMonth now, nextMonth now))
      else if bool_decide (start = "") then ret (Ok (startOfMonth endTime, endTime))
      else if bool_decide (end_ = "") then ret (Ok (startTime, nextMonth startTime))
      else ret (Ok (startTime, endTime))
  end.

Definition summary_response (rid : string) (s : result CostSummary.t) : HttpResponse.t :=
  match s with
  | Err e => on_error rid e (fail_with rid 500 (Error e))
  | Ok s => json rid 200 (SummaryBody s)
  end.

Definition session_cost (rid id : string) : M W HttpResponse.t :=
  let! session := provisioner_GetSession id in
  match session with
  | Err e =>
      ret (on_error rid e
        (if error_exists is_not_found e then fail_with rid 404 ("session not found: " +:+ sanitizeInput id 128)
         else fail_with rid 500 (Error e)))
  | Ok _ =>
      let! cost := costs_GetSessionCost id in
      ret match cost with
          | Err e => on_error rid e (fail_with rid 500 (Error e))
          | Ok cost => json rid 200 (SessionCostBody id cost)
          end
  end.

Definition handleGetCosts : handler := fun r =>
  let rid := HttpRequest.request_id r in
  match bind_costs (HttpRequest.query r) with
  | Err e => ret (fail_with rid 400 (Error e))
  | Ok params =>
      let consumer := CostQueryParams.ConsumerID params in
      if negb (bool_decide (CostQueryParams.SessionID params = ""))
      then session_cost rid (CostQueryParams.SessionID params)
      else if bool_decide (CostQueryParams.Period params = "daily")
      then let! s := costs_GetDailySummary consumer in ret (summary_response rid s)
      else if bool_decide (CostQueryParams.Period params = "monthly")
      then let! s := costs_GetMonthlySummary consumer in ret (summary_response rid s)
      else
        let! period := cost_period params in
        match period with
        | Err text => ret (fail_with rid 400 text)
        | Ok (startTime, endTime) =>
            let! s := costs_GetSummary (CostQuery.mk consumer "" "" startTime endTime) in
            ret (summary_response rid s)
        end
  end.

Definition handleGetCostSummary : handler := fun r =>
  let! s := costs_GetMonthlySummary (HttpRequest.Query "consumer_id" r) in
  ret (summary_response (HttpRequest.request_id r) s).

(** *** Diagnostics and health of offers *)
Definition diagnostics (now : time) (s : Session.t) : SessionDiagnosticsResponse.t :=
  SessionDiagnosticsResponse.mk (Session.ID s) (Session.Status s) (Session.Provider s)
    (Session.GPUType s) (Session.GPUCount s) (Session.SSHHost s) (Session.SSHPort s)
    (Session.SSHUser s) (Session.LaunchMode s) (Session.APIEndpoint s) (Session.CreatedAt s)
    (Session.ExpiresAt s) (formatDuration (Sub now (Session.CreatedAt s)))
    (formatDuration (Sub (Session.ExpiresAt s) now))
    (negb (bool_decide (Session.SSHHost s = "")) && (0 <? Session.SSHPort s)%Z).

Definition handleGetSessionDiagnostics : handler := fun r =>
  let rid := HttpRequest.request_id r in
  let! session := provisioner_GetSession (HttpRequest.id r) in
  match session with
  | Err e => ret (on_error rid e (fail_with rid 404 (Error e)))
  | Ok s =>
      if negb (bool_decide (Session.Status s = StatusRunning)) then
        ret (fail_with rid 400 "session is not running; diagnostics only available for running sessions")
      else
        let! now := time_Now in
        ret (json rid 200 (DiagnosticsBody (diagnostics now s)))
  end.

Definition matches_health (provider gpuType : string) (o : OfferHealthInfo.t) : bool :=
  (bool_decide (provider = "") || bool_decide (OfferHealthInfo.Provider o = provider)) &&
  (bool_decide (gpuType = "") || bool_decide (OfferHealthInfo.GPUType o = gpuType)).

Definition handleOfferHealth : handler := fun r =>
  let! health := inventory_GetAllOfferHealth in
  let offers := List.filter (matches_health (HttpRequest.Query "provider" r) (HttpRequest.Query "gpu_type" r))
                  (fst health) in
  ret (json (HttpRequest.request_id r) 200
         (OfferHealthBody offers (snd health) (Z.of_nat (length offers)))).

(** *** Templates *)
Definition handleListTemplates : handler := fun r =>
  let rid := HttpRequest.request_id r in
  match bind_templates (HttpRequest.query r) with
  | Err e => ret (fail_with rid 400 (Error e))
  | Ok filter =>
      match inventory_GetTemplateProvider "vastai" with
      | Err e => ret (fail_with rid 500 ("template provider not available: " +:+ Error e))
      | Ok p =>
          let! l := TemplateProvider.ListTemplates p filter in
          ret match l with
              | Err e => on_error rid e (fail_with rid 500 ("failed to list templates: " +:+ Error e))
              | Ok l => json rid 200 (TemplatesBody l (Z.of_nat (length l)))
              end
      end
  end.

Definition handleGetTemplate : handler := fun r =>
  let rid := HttpRequest.request_id r in
  match inventory_GetTemplateProvider "vastai" with
  | Err e => ret (fail_with rid 500 ("template provider not available: " +:+ Error e))
  | Ok p =>
      let! t := TemplateProvider.GetTemplate p (HttpRequest.id r) in
      ret match t with
          | Ok t => json rid 200 (TemplateBody t)
          | Err e =>
              on_error rid e
                (if error_exists is_template_not_found e then fail_with rid 404 (Error e)
                 else fail_with rid 500 ("failed to get template: " +:+ Error e))
          end
  end.

Definition handleGetCompatibleTemplates : handler := fun r =>
  let rid := HttpRequest.request_id r in
  let offerID := HttpRequest.id r in
  let! offer := inventory_GetOffer offerID in
  match offer with
  | Err e => ret (on_error rid e (fail_with rid 404 ("offer not found: " +:+ sanitizeInput offerID 128)))
  | Ok offer =>
      if negb (bool_decide (GPUOffer.Provider offer = "vastai")) then
        ret (json rid 200 (NoTemplatesBody offerID (GPUOffer.Provider offer)))
      else match inventory_GetTemplateProvider "vastai" with
           | Err e => ret (fail_with rid 500 ("template provider not available: " +:+ Error e))
           | Ok p =>
               let! l := TemplateProvider.GetCompatibleTemplates p offerID in
               ret match l with
                   | Err e => on_error rid e
                                (fail_with rid 500 ("failed to get compatible templates: " +:+ Error e))
                   | Ok l => json rid 200 (CompatibleTemplatesBody l (Z.of_nat (length l)) offerID
                                             (GPUOffer.GPUType offer) (GPUOffer.VRAM offer))
                   end
           end
  end.

(** ** The server *)

(** [validRequestIDRegex]: [^[a-zA-Z0-9._-]{1,128}$]. *)
Definition request_id_byte (c : ascii) : bool :=
  byte_in 97 122 c || is_upper c || is_digit c || Ascii.eqb c "." || Ascii.eqb c "_" || Ascii.eqb c "-".
Definition isValidRequestID (id : string) : bool :=
  negb (bool_decide (id = "")) && (String.length id <=? 128) && all_bytes request_id_byte id.

(** [requestIDMiddleware]: the identifier of a request with this [X-Request-ID]. *)
Definition requestID (header : string) : M W string :=
  if isValidRequestID header then ret header else new_uuid.

(** The routes of [setupRouter], the benchmarks' aside. *)
Inductive Route :=
| GET_health | GET_ready
| GET_inventory | GET_inventory_id | GET_inventory_id_compatible_templates
| GET_templates | GET_templates_hash_id
| POST_sessions | GET_sessions | GET_sessions_id | GET_sessions_id_diagnostics
| POST_sessions_id_done | POST_sessions_id_extend | DELETE_sessions_id
| GET_costs | GET_costs_summary | GET_offer_health.

Definition handle (route : Route) : handler :=
  match route with
  | GET_health => handleHealth
  | GET_ready => handleReady
  | GET_inventory => handleListInventory
  | GET_inventory_id => handleGetOffer
  | GET_inventory_id_compatible_templates => handleGetCompatibleTemplates
  | GET_templates => handleListTemplates
  | GET_templates_hash_id => handleGetTemplate
  | POST_sessions => handleCreateSession
  | GET_sessions => handleListSessions
  | GET_sessions_id => handleGetSession
  | GET_sessions_id_diagnostics => handleGetSessionDiagnostics
  | POST_sessions_id_done => handleSessionDone
  | POST_sessions_id_extend => handleExtendSession
  | DELETE_sessions_id => handleDeleteSession
  | GET_costs => handleGetCosts
  | GET_costs_summary => handleGetCostSummary
  | GET_offer_health => handleOfferHealth
  end.

(** A request through the middleware; the metrics record route, status and duration. *)
Definition serve (route : Route) (path method header : string) (query : gmap string string)
    (id body : string) : M W HttpResponse.t :=
  let! rid := requestID header in
  let! start := time_Now in
  let! resp := handle route (HttpRequest.mk query id body rid) in
  let! t := time_Now in
  do! emit (Prom "RecordHTTPRequest"
              [method; path; Itoa (HttpResponse.Code resp); Duration_String (Sub t start)]) in
  ret resp.
End Handlers.
