(* ===== verification/ApiFacts.v ===== *)
(** What the HTTP API promises, against the interface [Backend] of the services: reading
    requests change no session, the statuses tell what a creation has stored, input is
    validated before it is used. *)
From S2P Require Import Prelude GoFloat GoLib GoStrings FailureTracker Models Errors Interfaces Provisioner Disk CreateSession Template Api.
From Stdlib Require Import Ascii.

(** ** What the handlers rely on from the services *)
Class BackendLaws (W : Type) `{Backend W} `{Ghost W} : Prop := {
  ready_frame : frame server_ready;
  running_frame : frame lifecycle_IsRunning;
  list_offers_frame : forall f, frame (inventory_ListOffers f);
  offer_frame : forall id, frame (inventory_GetOffer id);
  health_frame : frame inventory_GetAllOfferHealth;
  templates_frame : forall name p, inventory_GetTemplateProvider name = Ok p ->
    (forall f, frame (TemplateProvider.ListTemplates p f)) /\
    (forall h, frame (TemplateProvider.GetTemplate p h)) /\
    (forall o, frame (TemplateProvider.GetCompatibleTemplates p o));
  create_law : forall req offer w,
    wp (provisioner_CreateSession req offer) (created w 6 req) w;
  create_refuses : forall req offer id x w,
    healthy w -> sess_view w !! id = Some x ->
    active_for (CreateSessionRequest.ConsumerID req) (CreateSessionRequest.OfferID req) x ->
    wp (provisioner_CreateSession req offer) (fun r w' => quiet w w' /\
      exists y, sess_view w !! Session.ID y = Some y /\
        active_for (CreateSessionRequest.ConsumerID req) (CreateSessionRequest.OfferID req) y /\
        r = Err (DuplicateSessionError (CreateSessionRequest.ConsumerID req)
                   (CreateSessionRequest.OfferID req) (Session.ID y)
                   (status_string (Session.Status y)))) w;
  session_law : forall id w,
    wp (provisioner_GetSession id) (fun r w' => quiet w w' /\
      match r with
      | Ok s => sess_view w !! id = Some s
      | Err e => (healthy w -> e = ErrNotFound) /\
                 (error_exists is_not_found e = true -> sess_view w !! id = None)
      end) w;
  sessions_frame : forall f, frame (provisioner_ListSessions f);
  session_cost_law : forall id, frame (costs_GetSessionCost id);
  summary_law : forall q, frame (costs_GetSummary q);
  daily_frame : forall c, frame (costs_GetDailySummary c);
  monthly_frame : forall c, frame (costs_GetMonthlySummary c)
}.

#[export] Hint Resolve ready_frame running_frame list_offers_frame offer_frame health_frame
  sessions_frame session_cost_law summary_law daily_frame monthly_frame : frame.

(** ** Texts *)
Definition safe_byte (c : ascii) : bool :=
  (32 <=? nat_of_ascii c) && negb (bool_decide (c ∈ ["<"; ">"]%char)).

Lemma high_byte_safe c : 128 <= nat_of_ascii c -> safe_byte c = true.
Proof. destruct c as [[] [] [] [] [] [] [] []]; (by vm_compute) || (vm_compute; lia). Qed.

Lemma unsafe_byte c : unsafe_rune c = negb (safe_byte c).
Proof. destruct c as [[] [] [] [] [] [] [] []]; by vm_compute. Qed.

(** What is echoed of the caller's text in an answer holds no control character and no
    angle bracket, and its length is bounded, whatever the text, valid UTF-8 or not; and a
    plain ASCII text within the limit is echoed as it is. *)
Theorem sanitizeInput_safe s maxLen :
  all_bytes safe_byte (sanitizeInput s maxLen) = true /\
  String.length (sanitizeInput s maxLen) <= 3 * maxLen /\
  (String.length s <= maxLen -> all_bytes (fun c => byte_in 0 127 c && safe_byte c) s = true ->
   sanitizeInput s maxLen = s).
Proof.
  unfold sanitizeInput. split_and!.
  - apply filter_runes_bytes; [apply high_byte_safe| |done].
    intros c Hc. rewrite unsafe_byte in Hc. by apply negb_false_iff.
  - etrans; [apply filter_runes_length|]. destruct (Nat.ltb_spec maxLen (String.length s)).
    + rewrite length_take_string. lia.
    + lia.
  - intros Hl Hs. rewrite (proj2 (Nat.ltb_ge _ _) Hl). apply filter_runes_ascii.
    eapply all_bytes_mono; [|exact Hs]. intros c [Hc Hk]%andb_true_iff. by rewrite Hc, unsafe_byte, Hk.
Qed.

(** ** Pages *)
Lemma paginate_slice limit k offers :
  (0 < limit)%Z ->
  paginate limit (Z.of_nat k * limit) offers = take (Z.to_nat limit) (drop (k * Z.to_nat limit) offers).
Proof.
  intros Hl. unfold paginate. cbv zeta.
  assert (Z.to_nat (Z.of_nat k * limit) = k * Z.to_nat limit) as Hk by nia.
  set (rest := if (0 <? _)%Z then _ else _).
  assert (rest = drop (k * Z.to_nat limit) offers) as ->.
  { subst rest. rewrite Hk. destruct (Z.ltb_spec 0 (Z.of_nat k * limit)).
    - destruct (Z.leb_spec (Z.of_nat (length offers)) (Z.of_nat k * limit)); [|done].
      rewrite drop_ge; [done|nia].
    - assert (k = 0) as -> by nia. done. }
  rewrite (proj2 (Z.ltb_lt _ _) Hl). cbn [andb].
  destruct (Z.ltb_spec limit (Z.of_nat (length (drop (k * Z.to_nat limit) offers)))); [done|].
  rewrite take_ge; [done|lia].
Qed.

Lemma concat_slices {A} (n m : nat) (l : list A) :
  concat ((fun k => take m (drop (k * m) l)) <$> seq 0 n) = take (n * m) l.
Proof.
  induction n as [|n IH]; [done|].
  rewrite seq_S, fmap_app, concat_app, IH. cbn [fmap list_fmap concat]. rewrite app_nil_r.
  rewrite take_take_drop. f_equal. lia.
Qed.

(** Walking the pages with offsets 0, [limit], [2 * limit], ... gives every offer once, in
    order, as soon as the pages are enough for the number of offers. *)
Theorem pages_cover limit n offers :
  (0 < limit)%Z -> length offers <= n * Z.to_nat limit ->
  concat ((fun k : nat => paginate limit (Z.of_nat k * limit) offers) <$> seq 0 n) = offers.
Proof.
  intros Hl Hn. rewrite (list_fmap_ext _ (fun k => take (Z.to_nat limit) (drop (k * Z.to_nat limit) offers))).
  - rewrite concat_slices. by apply take_ge.
  - intros i k _. by apply paginate_slice.
Qed.

(** ** Parameters *)
Section ParamFacts.
Context `{FloatText}.

Lemma int_param_ok name bad rule r o :
  int_param name bad rule r = Ok o -> forall v, o = Some v -> bad v = false.
Proof.
  unfold int_param. case_bool_decide; [by intros [= <-]|].
  destruct (Atoi _) as [v|]; [|done]. destruct (bad v) eqn:Hb; [done|]. by intros [= <-] ? [= <-].
Qed.

Lemma float_param_ok name bad rule r o :
  float_param name bad rule r = Ok o -> forall v, o = Some v -> bad v = false.
Proof.
  unfold float_param. case_bool_decide; [by intros [= <-]|].
  destruct (ParseFloat _) as [v|]; [|done]. destruct (bad v) eqn:Hb; [done|]. by intros [= <-] ? [= <-].
Qed.

Lemma int_param_default name rule r o :
  int_param name negative rule r = Ok o -> (0 <= default 0%Z o)%Z.
Proof. intros Hv. destruct o as [v|]; [|done]. apply Z.ltb_ge.
  exact (int_param_ok _ _ _ _ _ Hv v eq_refl).
Qed.

Lemma float_param_default name bad rule r o :
  bad f0 = false -> float_param name bad rule r = Ok o -> bad (default f0 o) = false.
Proof. intros Hz Hv. destruct o as [v|]; [|done]. exact (float_param_ok _ _ _ _ _ Hv v eq_refl). Qed.

Lemma res_bind_ok {E A B} (m : res E A) (k : A -> res E B) b :
  res_bind m k = Ok b -> exists a, m = Ok a /\ k a = Ok b.
Proof. destruct m as [a|e]; [by exists a|done]. Qed.

(** The parameters of [GET /inventory] that pass: no count and no amount of memory is
    negative, nor the size and the start of a page, and no float is below zero, nor a share
    above one.  ([NaN] is neither.) *)
Theorem inventory_params_bounds r filter limit offset :
  offer_filter r = Ok filter -> page_params r = Ok (limit, offset) ->
  (0 <= OfferFilter.MinVRAM filter)%Z /\ (0 <= OfferFilter.MinGPUCount filter)%Z /\
  (0 <= limit)%Z /\ (0 <= offset)%Z /\
  fnegative (OfferFilter.MaxPrice filter) = false /\
  not_unit (OfferFilter.MinReliability filter) = false /\
  not_unit (OfferFilter.MinAvailabilityConfidence filter) = false /\
  fnegative (OfferFilter.MinCUDAVersion filter) = false.
Proof.
  unfold offer_filter, page_params. intros Hf Hp.
  apply res_bind_ok in Hf as (vram & Hv%int_param_default & Hf).
  apply res_bind_ok in Hf as (price & Hpr%float_param_default & Hf); [|done].
  apply res_bind_ok in Hf as (count & Hc%int_param_default & Hf).
  apply res_bind_ok in Hf as (mincount & Hm%int_param_default & Hf).
  apply res_bind_ok in Hf as (rel & Hr%float_param_default & Hf); [|done].
  apply res_bind_ok in Hf as (conf & Ha%float_param_default & Hf); [|done].
  apply res_bind_ok in Hf as (cuda & Hcu%float_param_default & [= <-]); [|done].
  apply res_bind_ok in Hp as (l & Hl & Hp).
  apply res_bind_ok in Hp as (o & Ho%int_param_default & [= <- <-]).
  split_and!; try done.
  - cbn. by destruct mincount.
  - pose proof (int_param_ok _ _ _ _ _ Hl) as Hb. destruct l as [v|]; [|done].
    specialize (Hb v eq_refl). apply Z.leb_gt in Hb. cbn. lia.
Qed.
End ParamFacts.

(** ** Answers *)

Lemma not_created : 201%Z ∉ [400; 404; 500]%Z.
Proof. by_dec. Qed.
Lemma not_created' : 201%Z ∉ [409; 400; 503; 500]%Z.
Proof. by_dec. Qed.

(** A failed creation is never answered 201, and a disk size below the minimum with 400. *)
Lemma creation_failed_code rid e :
  HttpResponse.Code (on_error rid e (creation_failed rid e)) ∈ [409; 400; 503; 500]%Z.
Proof.
  assert (HttpResponse.Code (creation_failed rid e) ∈ [409; 400; 503; 500]%Z) as Hc.
  { unfold creation_failed. destruct (error_exists is_duplicate e); [by_dec|].
    destruct (error_find disk_error e) as [[[[??]?]?]|]; [by_dec|].
    destruct (error_find stale_error e) as [[??]|]; [by_dec|].
    destruct (classifyProvisionError (Some e)). by_dec. }
  destruct e; try exact Hc. by_dec.
Qed.

Lemma choose_disk_code rid req e :
  choose_disk req = Err e -> HttpResponse.Code (creation_answer rid (Err e)) = 400%Z.
Proof.
  unfold choose_disk. destruct (EstimateDiskRequirements _ _ _ _) as [est|]; cbv zeta.
  - destruct (0 <? _)%Z; [|done]. unfold ValidateDiskSpace.
    destruct (_ =? 0)%Z; [done|]. destruct (_ <? _)%Z; [|done]. by intros [= <-].
  - by destruct (0 <? _)%Z.
Qed.

(** The routes that answer GET. *)
Definition reads (route : Route) : bool :=
  match route with
  | POST_sessions | POST_sessions_id_done | POST_sessions_id_extend | DELETE_sessions_id => false
  | _ => true
  end.

Section ApiProofs.
Context {W : Type} `{Env W} `{Backend W} `{Gin} `{FloatText} `{FilterDecoder} `{MapRange} `{Ghost W}.
Context `{!EnvLaws W} `{!BackendLaws W}.

Lemma time_frame : frame time_Now.
Proof. intros w. eapply wp_mono; [apply time_Now_spec|]. by intros ?? []. Qed.
Lemma session_frame id : frame (provisioner_GetSession id).
Proof. intros w. eapply wp_mono; [apply session_law|]. by intros ?? []. Qed.
#[local] Hint Resolve time_frame session_frame : frame.

(** A computation whose steps are quiet, whatever branch its results take. *)
Ltac frames :=
  repeat first
    [ apply frame_ret
    | solve [eauto with frame]
    | apply frame_bind; [solve [eauto with frame]|intros ?]
    | case_match ].

Lemma frame_template_filter r f : frame (template_filter r f).
Proof.
  unfold template_filter. case_bool_decide; [apply frame_ret|].
  destruct (inventory_GetTemplateProvider "vastai") as [p|e] eqn:Hp; [|apply frame_ret].
  destruct (templates_frame _ _ Hp) as (_ & Hg & _). apply frame_bind; [apply Hg|].
  intros [t|e]; frames.
Qed.

Lemma frame_template_defaults hash : frame (template_defaults hash).
Proof.
  unfold template_defaults. case_bool_decide; [apply frame_ret|].
  destruct (inventory_GetTemplateProvider "vastai") as [p|e] eqn:Hp; [|apply frame_ret].
  destruct (templates_frame _ _ Hp) as (_ & Hg & _). apply frame_bind; [apply Hg|].
  intros [t|e]; frames.
Qed.

Lemma frame_cost_period p : frame (cost_period p).
Proof. unfold cost_period. frames. Qed.

Lemma frame_session_cost rid id : frame (session_cost rid id).
Proof. unfold session_cost. frames. Qed.

#[local] Hint Resolve frame_template_filter frame_template_defaults frame_cost_period
  frame_session_cost : frame.

Lemma frame_handle route r : reads route = true -> frame (handle route r).
Proof.
  destruct route; intros Hr; try discriminate Hr; cbn [handle];
    unfold handleHealth, handleReady, handleListInventory, handleGetOffer, handleListSessions,
      handleGetSession, handleGetSessionDiagnostics, handleGetCosts, handleGetCostSummary,
      handleOfferHealth; cbv zeta; try solve [frames].
  - unfold handleGetCompatibleTemplates. cbv zeta.
    apply frame_bind; [auto with frame|]. intros [offer|e]; [|apply frame_ret].
    case_match; [apply frame_ret|].
    destruct (inventory_GetTemplateProvider "vastai") as [p|e] eqn:Hp; [|apply frame_ret].
    apply frame_bind; [by apply templates_frame in Hp as (_ & _ & Hf)|]. intros [l|e]; apply frame_ret.
  - unfold handleListTemplates. cbv zeta. case_match; [|apply frame_ret].
    destruct (inventory_GetTemplateProvider "vastai") as [p|e] eqn:Hp; [|apply frame_ret].
    apply frame_bind; [by apply templates_frame in Hp as (Hf & _ & _)|]. intros [l|e]; apply frame_ret.
  - unfold handleGetTemplate. cbv zeta.
    destruct (inventory_GetTemplateProvider "vastai") as [p|e] eqn:Hp; [|apply frame_ret].
    apply frame_bind; [by apply templates_frame in Hp as (_ & Hf & _)|]. intros [l|e]; apply frame_ret.
Qed.

Lemma frame_requestID header : frame (requestID header).
Proof. unfold requestID. case_match; [apply frame_ret|apply uuid_frame]. Qed.

(** A request that answers GET changes no session: whatever the route, the parameters
    and the answers of the services, the stored sessions are the same afterwards. *)
Theorem get_requests_read_only route path method header query id body w :
  reads route = true ->
  wp (serve route path method header query id body) (fun _ w' => sess_view w' = sess_view w) w.
Proof.
  intros Hr. assert (frame (serve route path method header query id body)) as Hf.
  { apply frame_bind; [apply frame_requestID|]. intros rid.
    apply frame_bind; [apply time_frame|]. intros start.
    apply frame_bind; [by apply frame_handle|]. intros resp. eauto with frame. }
  eapply wp_mono; [apply Hf|]. by intros _ w' [].
Qed.

(** ** Creation *)

(** The handler answers by itself: the body does not bind, or is refused, or its offer is
    not found. *)
Definition turned_away (r : HttpRequest.t) (w : W) : Prop :=
  match bind_create (HttpRequest.body r) with
  | Err _ => True
  | Ok req => refuse_request req <> None \/
              exists e, fst (inventory_GetOffer (ApiCreateRequest.OfferID req) w) = Err e
  end.

Lemma wp_handleCreateSession r (Q : HttpResponse.t -> W -> Prop) w :
  (forall code text v, turned_away r w -> quiet w v -> code ∈ [400; 404; 500]%Z ->
     Q (fail_with (HttpRequest.request_id r) code text) v) ->
  (forall req offer disk timeout v,
     bind_create (HttpRequest.body r) = Ok req -> refuse_request req = None -> quiet w v ->
     wp (provisioner_CreateSession (session_request req disk timeout) offer)
       (fun res v' => Q (creation_answer (HttpRequest.request_id r) res) v') v) ->
  wp (handleCreateSession r) Q w.
Proof.
  intros Hfail Hcreate. unfold handleCreateSession, turned_away in *. cbv zeta.
  destruct (bind_create (HttpRequest.body r)) as [req|e]; [|apply wp_ret, Hfail; [done|done|by_dec]].
  destruct (refuse_request req) eqn:Hr; [apply wp_ret, Hfail; [by left|done|by_dec]|].
  apply wp_bind. unfold wp at 1. pose proof (offer_frame (ApiCreateRequest.OfferID req) w) as Hq.
  unfold wp in Hq. destruct (fst (inventory_GetOffer _ w)) as [offer|e] eqn:Ho.
  - apply (wp_quiet_seq w); [auto with frame|done|]. intros tmpl v Hv.
    apply wp_bind. eapply wp_mono; [by apply Hcreate|]. intros res v' HQ. by apply wp_ret.
  - apply wp_ret. destruct e; (apply Hfail; [right; by eexists|done|by_dec]).
Qed.

(** C4.  The caller of [POST /sessions] learns what was stored.  Every session there was is
    left as it is and at most six are added.  With status 201 the response carries a new
    session of the caller's, provisioning, and it is stored.  And on a database that
    answers, every other added session is failed, or pending for a disk size that was
    refused, which status 400 says: no session that may cost money stays behind a
    response that does not name it. *)
Theorem creation_status_tells r w :
  wp (handleCreateSession r) (fun resp w' =>
    grows w w' /\ size (sess_view w') <= size (sess_view w) + 6 /\
    (HttpResponse.Code resp = 201%Z ->
     exists req s, bind_create (HttpRequest.body r) = Ok req /\
       HttpResponse.body resp = CreateSessionResponse (SessionResponse.of_session s)
                                  (Session.SSHPrivateKey s) (Session.RetryCount s) /\
       sess_view w !! Session.ID s = None /\ Session.Status s = StatusProvisioning /\
       Session.ConsumerID s = ApiCreateRequest.ConsumerID req /\
       exists p, sess_view w' !! Session.ID s = Some (Session.set_PricePerHour p (persisted s))) /\
    (healthy w -> forall j x, sess_view w !! j = None -> sess_view w' !! j = Some x ->
       (exists s, HttpResponse.Code resp = 201%Z /\ j = Session.ID s /\
          HttpResponse.body resp = CreateSessionResponse (SessionResponse.of_session s)
                                     (Session.SSHPrivateKey s) (Session.RetryCount s)) \/
       Session.Status x = StatusFailed \/
       (Session.Status x = StatusPending /\ HttpResponse.Code resp = 400%Z))) w.
Proof.
  apply wp_handleCreateSession.
  - intros code text v _ Hq Hc. cbn. destruct Hq as [Hv Hl]. split_and!.
    + by apply quiet_grows.
    + rewrite Hv. lia.
    + intros ->. by apply not_created in Hc.
    + intros _ j x Hj. rewrite Hv. congruence.
  - intros req offer disk timeout v Hb _ [Hv Hl].
    eapply wp_mono; [apply create_law|]. intros res v' [Hg Hs Hok Hr]. rewrite Hv in Hs, Hok, Hr.
    assert (grows w v) as Hwv by (by apply quiet_grows).
    split_and!; [by etrans|exact Hs| |].
    + destruct res as [s|e]; cbn.
      * intros _. destruct (Hok s eq_refl) as (Hn & Hst & Hc & Hp). by exists req, s.
      * pose proof (creation_failed_code (HttpRequest.request_id r) e) as Hc.
        intros Heq. rewrite Heq in Hc. by apply not_created' in Hc.
    + intros Hw j x Hj Hx. destruct (Hr (proj2 Hl Hw) j x Hj Hx) as [(s & -> & ->)|[?|(Hp & e & He & ->)]].
      * left. by exists s.
      * right. by left.
      * right. right. split; [done|]. by eapply choose_disk_code.
Qed.

(** C18.  While a consumer has an active session for an offer, asking for another is answered
    409 with the identifier and status of an active one, unless the request is turned
    away before; no session is stored either way. *)
Theorem duplicate_request_conflicts r req id x w :
  bind_create (HttpRequest.body r) = Ok req ->
  healthy w -> sess_view w !! id = Some x ->
  active_for (ApiCreateRequest.ConsumerID req) (ApiCreateRequest.OfferID req) x ->
  wp (handleCreateSession r) (fun resp w' => sess_view w' = sess_view w /\
    (turned_away r w /\ HttpResponse.Code resp ∈ [400; 404; 500]%Z \/
     exists y, sess_view w !! Session.ID y = Some y /\
       active_for (ApiCreateRequest.ConsumerID req) (ApiCreateRequest.OfferID req) y /\
       resp = fail_with (HttpRequest.request_id r) 409
                (Error (DuplicateSessionError (ApiCreateRequest.ConsumerID req)
                   (ApiCreateRequest.OfferID req) (Session.ID y)
                   (status_string (Session.Status y)))))) w.
Proof.
  intros Hb Hw Hx Ha. apply wp_handleCreateSession.
  - intros code text v Ht [Hv _] Hc. split; [done|]. by left.
  - intros req' offer disk timeout v Hb' _ [Hv Hl]. rewrite Hb in Hb'. injection Hb' as <-.
    eapply wp_mono; [eapply create_refuses; [by apply Hl|by rewrite Hv|exact Ha]|].
    intros res v' [[Hv' _] (y & Hy & Hya & ->)]. rewrite Hv in Hy.
    split; [congruence|]. right. by exists y.
Qed.
End ApiProofs.

(** ** What the provisioner is asked for *)

(** A request the provisioner is meant to get. *)
Definition well_formed (q : CreateSessionRequest.t) : bool :=
  negb (bool_decide (CreateSessionRequest.ConsumerID q = "")) &&
  negb (bool_decide (CreateSessionRequest.OfferID q = "")) &&
  WorkloadType_IsValid (CreateSessionRequest.WorkloadType q) &&
  (1 <=? CreateSessionRequest.ReservationHrs q)%Z && (CreateSessionRequest.ReservationHrs q <=? 12)%Z &&
  bool_decide (CreateSessionRequest.StoragePolicy q ∈ [StoragePreserve; StorageDestroy]) &&
  bool_decide (CreateSessionRequest.LaunchMode q ∈ [LaunchModeSSH; LaunchModeEntrypoint]) &&
  (negb (CreateSessionRequest.AutoRetry q) || IsValidRetryScope (CreateSessionRequest.RetryScope q)).

Lemma storage_policy_valid s : storage_policy s ∈ [StoragePreserve; StorageDestroy].
Proof. unfold storage_policy. case_bool_decide; by_dec. Qed.
Lemma launch_mode_valid s : launch_mode s ∈ [LaunchModeSSH; LaunchModeEntrypoint].
Proof. unfold launch_mode. case_bool_decide; by_dec. Qed.

Lemma session_request_wellformed req disk timeout :
  create_tags req -> refuse_request req = None -> well_formed (session_request req disk timeout) = true.
Proof.
  intros (Hc & Ho & _ & Hh) Hr. unfold refuse_request in Hr.
  destruct (negb (WorkloadType_IsValid _)) eqn:Hw; [done|]. apply negb_false_iff in Hw.
  destruct (ApiCreateRequest.AutoRetry req && _ && _) eqn:Hs; [done|].
  unfold well_formed. cbn [session_request CreateSessionRequest.ConsumerID CreateSessionRequest.OfferID
    CreateSessionRequest.WorkloadType CreateSessionRequest.ReservationHrs CreateSessionRequest.StoragePolicy
    CreateSessionRequest.LaunchMode CreateSessionRequest.AutoRetry CreateSessionRequest.RetryScope].
  rewrite (bool_decide_false _ Hc), (bool_decide_false _ Ho), Hw.
  rewrite (bool_decide_true _ (storage_policy_valid _)), (bool_decide_true _ (launch_mode_valid _)).
  destruct Hh as [Hl%Z.leb_le Hu%Z.leb_le]. rewrite Hl, Hu. cbn [negb andb].
  destruct (ApiCreateRequest.AutoRetry req); [|done]. cbn [negb andb orb] in *.
  unfold IsValidRetryScope in *. case_bool_decide; [done|]. cbn [negb andb] in Hs.
  by apply negb_false_iff in Hs.
Qed.

Section Checked.
Context {W : Type} `{Env W} {B : Backend W} `{Gin} `{FloatText} `{FilterDecoder} `{MapRange} `{!GinLaws}.

(** The same services with a provisioner that panics on any other request. *)
Definition checked_backend : Backend W := {|
  server_ready := server_ready;
  lifecycle_IsRunning := lifecycle_IsRunning;
  inventory_ListOffers := inventory_ListOffers;
  inventory_GetOffer := inventory_GetOffer;
  inventory_GetAllOfferHealth := inventory_GetAllOfferHealth;
  inventory_GetTemplateProvider := inventory_GetTemplateProvider;
  provisioner_CreateSession q offer :=
    if well_formed q then provisioner_CreateSession q offer else ret (Err (GoPanic "malformed request"));
  provisioner_GetSession := provisioner_GetSession;
  provisioner_ListSessions := provisioner_ListSessions;
  provisioner_DestroySession := provisioner_DestroySession;
  lifecycle_SignalDone := lifecycle_SignalDone;
  lifecycle_ExtendSession := lifecycle_ExtendSession;
  costs_GetSessionCost := costs_GetSessionCost;
  costs_GetSummary := costs_GetSummary;
  costs_GetDailySummary := costs_GetDailySummary;
  costs_GetMonthlySummary := costs_GetMonthlySummary
|}.

(** C19.  The provisioner is only asked for well-formed sessions: a consumer and an offer, one
    to twelve hours, a known workload, storage policy and launch mode, and a known scope
    when retries are on.  A provisioner that panics on any other request gives the same
    answers and the same states. *)
Theorem handleCreateSession_asks_wellformed r w :
  handleCreateSession (B := checked_backend) r w = handleCreateSession (B := B) r w.
Proof.
  unfold handleCreateSession. cbv zeta.
  destruct (bind_create (HttpRequest.body r)) as [req|e] eqn:Hb; [|done].
  destruct (refuse_request req) eqn:Hr; [done|].
  apply bind_ext. intros [offer|e] v; [|done].
  apply bind_ext. intros tmpl v'. cbn [provisioner_CreateSession checked_backend].
  by rewrite session_request_wellformed by eauto using bind_create_tags.
Qed.
End Checked.
