(* ===== verification/Server.v ===== *)
(** [cmd/server/main.go]: the services behind the API wired together, and what a request
    does to the whole.  [services] is the interface [Backend] of the handlers over the
    inventory, the provisioner, the lifecycle manager and the cost tracker. *)
From S2P Require Import Prelude GoFloat GoLib GoStrings FailureTracker Models Errors Interfaces Lifecycle Provisioner Disk CreateSession CostTracker Inventory InventoryFacts Template Api ApiFacts.

(** The readiness flag of the server and the [running] flag of the lifecycle manager. *)
Module ServerState.
Record t := mk { ready : bool; lifecycle_running : bool }.
Definition set_ready (v : bool) (s : t) : t := mk v (lifecycle_running s).
End ServerState.
Class HasServer (W : Type) := server : lens W ServerState.t.

(** A provider client, and its templates when it has any ([p.(provider.TemplateProvider)]). *)
Definition client (W : Type) : Type := Provider.t W * option (TemplateProvider.t W).

Section Server.
Context {W : Type} `{SessionStore W} `{Env W} `{Random W} `{CostStore W} `{HasInventory W} `{Runtime W}
  `{HasServer W}.

(** The configuration read at the start, as the services keep it. *)
Context (prov_cfg : Service.t) (inv_cfg : InvConfig.t) (life_cfg : Config.t).
Context (clients : list (client W)).

Definition SetReady (ready : bool) : M W unit :=
  fun w => (tt, set server (ServerState.set_ready ready (view server w)) w).
Definition IsReady : M W bool := pure_state (fun w => ServerState.ready (view server w)).
Definition IsRunning : M W bool := pure_state (fun w => ServerState.lifecycle_running (view server w)).

(** The first client of that name. *)
Fixpoint find_client (name : string) (l : list (client W)) : option (client W) :=
  match l with
  | [] => None
  | c :: l' => if bool_decide (Provider.Name c.1 = name) then Some c else find_client name l'
  end.
Definition GetTemplateProvider (providerName : string) : result (TemplateProvider.t W) :=
  match find_client providerName clients with
  | Some (_, Some templates) => Ok templates
  | Some (_, None) => Err (ProviderNotFoundError (providerName +:+ " (does not support templates)"))
  | None => Err (ProviderNotFoundError providerName)
  end.

Definition providers : list (Provider.t W) := clients.*1.
Definition registry : gmap string (Provider.t W) := Registry.NewSimpleProviderRegistry providers.
#[local] Instance recorder : CostRecorder W := Some Tracker_RecordFinalCost.
#[local] Instance destroyer : SessionDestroyer W := provisioner_destroyer prov_cfg registry.

Definition services : Backend W := {|
  server_ready := IsReady;
  lifecycle_IsRunning := IsRunning;
  inventory_ListOffers := ListOffers inv_cfg providers;
  inventory_GetOffer := GetOffer inv_cfg providers;
  inventory_GetAllOfferHealth := GetAllOfferHealth;
  inventory_GetTemplateProvider := GetTemplateProvider;
  provisioner_CreateSession :=
    CreateSession prov_cfg registry (Some (inventory_finder inv_cfg providers));
  provisioner_GetSession := Get;
  provisioner_ListSessions := List;
  provisioner_DestroySession := Provisioner.DestroySession prov_cfg registry;
  lifecycle_SignalDone := SignalDone;
  lifecycle_ExtendSession := ExtendSession life_cfg;
  costs_GetSessionCost := Tracker_GetSessionCost;
  costs_GetSummary := Tracker_GetSummary;
  costs_GetDailySummary := GetDailySummary;
  costs_GetMonthlySummary := GetMonthlySummary
|}.
End Server.

Section Proofs.
Context {W : Type} `{SessionStore W} `{Env W} `{Random W} `{CostStore W} `{HasInventory W} `{Runtime W}
  `{HasServer W} `{Ghost W} `{Bill W}.
Context `{!StoreLaws W} `{!EnvLaws W} `{!RandomLaws W} `{!CostStoreLaws W} `{!InvLaws W} `{!RuntimeLaws W}.
Context (prov_cfg : Service.t) (inv_cfg : InvConfig.t) (life_cfg : Config.t).
Context (clients : list (client W)).

(** The clients leave the sessions alone. *)
Class ClientLaws : Prop := {
  client_provider : ProviderLaws W (registry clients);
  client_offers : forall c f, c ∈ clients -> frame (Provider.ListOffers c.1 f);
  client_templates : forall c t, c ∈ clients -> c.2 = Some t ->
    (forall f, frame (TemplateProvider.ListTemplates t f)) /\
    (forall h, frame (TemplateProvider.GetTemplate t h)) /\
    (forall o, frame (TemplateProvider.GetCompatibleTemplates t o))
}.
Context `{!ClientLaws}.
#[local] Existing Instance client_provider.
#[local] Instance wired : Backend W := services prov_cfg inv_cfg life_cfg clients.
#[local] Existing Instance recorder.

Lemma find_client_in name (l : list (client W)) c :
  find_client name l = Some c -> c ∈ l.
Proof.
  induction l as [|d l IH]; [done|]. cbn. case_bool_decide.
  - intros [= ->]. by left.
  - intros Hc. right. auto.
Qed.

Lemma recorder_laws : CostRecorderLaws W.
Proof. intros record s [= <-]. apply Tracker_RecordFinalCost_frame. Qed.
#[local] Existing Instance recorder_laws.

Lemma finder_frames p f : p ∈ providers clients -> frame (Provider.ListOffers p f).
Proof. intros (c & -> & Hc)%list_elem_of_fmap. by apply client_offers. Qed.

Lemma finder_laws inv : Some (inventory_finder inv_cfg (providers clients)) = Some inv -> InventoryLaws W inv.
Proof. intros [= <-]. by apply inventory_finder_laws, finder_frames. Qed.

(** The services keep what the handlers rely on. *)
Lemma wired_laws : BackendLaws W.
Proof.
  pose proof finder_frames as Hf.
  pose proof (inventory_finder_laws inv_cfg (providers clients) Hf) as Hinv.
  split; cbn [server_ready lifecycle_IsRunning inventory_ListOffers inventory_GetOffer
    inventory_GetAllOfferHealth inventory_GetTemplateProvider provisioner_CreateSession
    provisioner_GetSession provisioner_ListSessions costs_GetSessionCost costs_GetSummary
    costs_GetDailySummary costs_GetMonthlySummary wired services].
  - by intros w.
  - by intros w.
  - intros f. by apply frame_ListOffers.
  - intros id. apply (get_offer_frame (inv := inventory_finder inv_cfg (providers clients))).
  - apply frame_tracker_read.
  - intros name t. unfold GetTemplateProvider. destruct (find_client name clients) as [[p [u|]]|] eqn:Hc; [|done|done].
    intros [= ->]. by apply (client_templates (p, Some t)); [eapply find_client_in|].
  - intros req offer w. apply wp_CreateSession; [apply client_provider|apply finder_laws].
  - intros req offer id x w Hw Hx Ha.
    eapply wp_mono; [eapply CreateSession_refuses_duplicate; [..|exact Hw|exact Hx|exact Ha]; try apply _; apply finder_laws|].
    intros r w' (Hq & _ & y & Hy & Hv & ->). split; [done|]. by exists y.
  - intros id w. apply Get_spec.
  - intros f w. eapply wp_mono; [apply List_spec|]. by intros ?? [].
  - intros id. apply session_cost_frame.
  - intros q. apply summary_frame.
  - intros c. apply frame_bind; [apply frame_now|]. intros t. apply summary_frame.
  - intros c. apply frame_bind; [apply frame_now|]. intros t. apply summary_frame.
Qed.

(** ** Requests on one session, from the route to the store *)
Context `{Gin}.

(** Reading a session on a database that answers. *)
Lemma wp_get id (Q : result Session.t -> W -> Prop) w :
  healthy w ->
  (forall w', quiet w w' ->
     Q (match sess_view w !! id with Some s => Ok s | None => Err ErrNotFound end) w') ->
  wp (Get id) Q w.
Proof.
  intros Hw HQ. eapply wp_mono; [apply Get_spec|]. intros [s|e] w' [Hq Hr].
  - specialize (HQ w' Hq). by rewrite Hr in HQ.
  - destruct Hr as [He Hn]. specialize (HQ w' Hq). rewrite (He Hw) in Hn |- *.
    by rewrite (Hn eq_refl) in HQ.
Qed.

(** C12.  [POST /sessions/:id/extend] with [h] more hours, on a database that answers.  An
    unknown session is answered 404, one that is terminal or stopping 409, one whose age
    plus the hours asked for exceeds the maximum, and has no override, 400, and nothing is
    stored; in every other case exactly the expiry and the reserved hours of that session
    grow by [h], and the answer is 200 with the new expiry. *)
Theorem extend_request_decides r h w :
  bind_extend (HttpRequest.body r) = Ok h -> healthy w ->
  let id := HttpRequest.id r in
  wp (handleExtendSession r) (fun resp w' =>
    match sess_view w !! id with
    | None => HttpResponse.Code resp = 404%Z /\ sess_view w' = sess_view w
    | Some s =>
        (cannot_extend s /\ HttpResponse.Code resp = 409%Z /\ sess_view w' = sess_view w) \/
        exists t, (clock w <= t <= clock w')%Z /\ ~ cannot_extend s /\
          if negb (Session.HardMaxOverride s) && (hardMaxDuration life_cfg <? total_duration t h s)%Z
          then HttpResponse.Code resp = 400%Z /\ sess_view w' = sess_view w
          else sess_view w' = <[id := extended h s]> (sess_view w) /\
               resp = json (HttpRequest.request_id r) 200
                        (MessageBody "session extended" id (Some (Session.ExpiresAt (extended h s))))
    end) w.
Proof.
  intros Hb Hw id. unfold handleExtendSession. fold id. rewrite Hb. cbv zeta. apply wp_bind.
  cbn [lifecycle_ExtendSession provisioner_GetSession wired services].
  destruct (sess_view w !! id) as [s|] eqn:Hs.
  2: { apply wp_bind, wp_get; [done|]. intros v [Hv _]. rewrite Hs. by apply wp_ret, wp_ret. }
  eapply wp_mono; [by apply wp_ExtendSession|]. intros e v (Hl & t & Ht & Hx). revert Hx.
  unfold extension. pose proof (cannot_extend_dec s) as Hce.
  destruct (Session.IsTerminal s || _).
  { intros [= -> Hv]. apply wp_ret. left. split_and!; [by apply Hce|done|done]. }
  assert (~ cannot_extend s) as Hn by (intros Hx%Hce; done).
  destruct (negb _ && _) eqn:Hmax; intros [= -> Hv].
  - apply wp_ret. right. exists t. by rewrite Hmax.
  - apply wp_bind, wp_get; [by apply Hl|]. intros v' [Hv' [Hc _]].
    rewrite Hv, lookup_insert_eq. apply wp_ret. right. exists t. rewrite Hmax, Hv', Hv.
    split_and!; [lia|lia|done..].
Qed.

(** C3.  [DELETE /sessions/:id] on a database that answers.  An unknown session is answered
    404.  For a session that is pending, provisioning or running, status 200 means that it
    is stopped, and that it had no provider instance or its provider confirmed that the
    instance is gone; with any other status it is left stopping.  No other session changes.
    A session that is already stopping is answered 200 and left as it is, its instance
    confirmed gone or not. *)
Theorem delete_request_confirms r w :
  healthy w ->
  let id := HttpRequest.id r in
  wp (handleDeleteSession r) (fun resp w' =>
    (forall j, j <> id -> sess_view w' !! j = sess_view w !! j) /\
    match sess_view w !! id with
    | None => HttpResponse.Code resp = 404%Z /\ sess_view w' !! id = None
    | Some s =>
        (Session.IsActive s = true -> exists s', sess_view w' !! id = Some s' /\
           if (HttpResponse.Code resp =? 200)%Z
           then (exists t, (clock w <= t <= clock w')%Z /\ s' = stopped_at t s) /\
                (Session.ProviderID s = "" \/
                 exists p v, registry clients !! Session.Provider s = Some p /\
                             confirmed_gone p (Session.ProviderID s) v)
           else s' = Session.set_Status StatusStopping s) /\
        (Session.Status s = StatusStopping ->
           HttpResponse.Code resp = 200%Z /\ sess_view w' !! id = Some s)
    end) w.
Proof.
  intros Hw id. unfold handleDeleteSession. cbv zeta. fold id. apply wp_bind.
  cbn [provisioner_DestroySession wired services].
  destruct (sess_view w !! id) as [s|] eqn:Hs.
  2: { apply wp_bind, wp_get; [done|]. intros v [Hv _]. rewrite Hs.
       apply wp_ret, wp_ret. rewrite Hv. by split. }
  eapply wp_mono; [apply wp_DestroySession; apply client_provider|].
  intros e v (_ & Ho & Hr). fold id in Hr. rewrite Hs in Hr. destruct Hr as (s' & Hs' & _ & Hh).
  destruct (Hh Hw) as (Ha & _ & Hi).
  destruct e as [e|]; apply wp_ret; (split; [done|]); split.
  - intros Hact. exists s'. split; [done|]. specialize (Ha Hact).
    by rewrite (proj2 (Z.eqb_neq _ 200)) by (destruct e; cbn; try done; by case_match).
  - intros Hst. destruct Hi as [? _]; [|intros [??]|]; try done; [|congruence].
    unfold Session.IsActive. by rewrite Hst.
  - intros Hact. exists s'. split; [done|]. exact (Ha Hact).
  - intros Hst. destruct Hi as [_ ->]; [|intros [??]; congruence|done].
    unfold Session.IsActive. by rewrite Hst.
Qed.

(** The services with another answer to the question whether the server is ready. *)
Definition with_ready (ready : M W bool) (B : Backend W) : Backend W := {|
  server_ready := ready;
  lifecycle_IsRunning := lifecycle_IsRunning;
  inventory_ListOffers := inventory_ListOffers;
  inventory_GetOffer := inventory_GetOffer;
  inventory_GetAllOfferHealth := inventory_GetAllOfferHealth;
  inventory_GetTemplateProvider := inventory_GetTemplateProvider;
  provisioner_CreateSession := provisioner_CreateSession;
  provisioner_GetSession := provisioner_GetSession;
  provisioner_ListSessions := provisioner_ListSessions;
  provisioner_DestroySession := provisioner_DestroySession;
  lifecycle_SignalDone := lifecycle_SignalDone;
  lifecycle_ExtendSession := lifecycle_ExtendSession;
  costs_GetSessionCost := costs_GetSessionCost;
  costs_GetSummary := costs_GetSummary;
  costs_GetDailySummary := costs_GetDailySummary;
  costs_GetMonthlySummary := costs_GetMonthlySummary
|}.

(** Readiness gates no request: on every route but [/health] and [/ready], which report
    it, the server answers and acts the same whether it is ready or not. *)
Theorem readiness_gates_nothing `{FloatText} `{FilterDecoder} `{MapRange} ready route path method header q id body :
  route <> GET_health -> route <> GET_ready ->
  serve (B := with_ready ready wired) route path method header q id body =
  serve (B := wired) route path method header q id body.
Proof. by destruct route. Qed.
End Proofs.
