(* ===== verification/Tables.v ===== *)
(** Tables beyond those of [internal/storage]: the benchmark packages keep theirs in the
    same database, each behind a store of its own, and give every statement a context. *)
From S2P Require Import Prelude GoFloat GoLib Models Errors Interfaces Database.

(** The first eight characters of a fresh identifier. *)
Definition short_uuid {W} `{Env W} (prefix : string) : M W string :=
  let! id := new_uuid in ret (prefix +:+ take_string 8 id).

(** ** Contexts: the background, or the one the caller was given (that of the run in a worker,
    that of the request in a handler) *)
Inductive Ctx := Background | RunCtx.
Class RunContext (W : Type) := ctx_Err : M W (option error).
Definition ctx_error {W} `{RunContext W} (c : Ctx) : M W (option error) :=
  match c with Background => ret None | RunCtx => ctx_Err end.

Section Tables.
Context {W S : Type} `{HasDB W} `{RunContext W}.

(** A statement under a context: an ended context and the driver refuse it. *)
Definition table_sql {A} (table : lens W S) (c : Ctx) (stmt : S -> A * S) : M W (result A) :=
  let! done := ctx_error c in
  match done with
  | Some e => ret (Err e)
  | None =>
      let! r := sql (fun d => (Ok tt, d)) in
      match r with
      | Err e => ret (Err e)
      | Ok _ => fun w => let (a, tbl) := stmt (view table w) in (Ok a, set table tbl w)
      end
  end.

Definition error_only {A} (m : M W (result A)) : M W (option error) :=
  let! r := m in ret match r with Ok _ => None | Err e => Some e end.

(** A table is a part of the state of its own. *)
Class TableLaws (table : lens W S) : Prop := {
  table_view_set : forall t w, view table (set table t w) = t;
  db_table : forall d w, view table (set_db d w) = view table w;
  ctx_table : forall w, wp ctx_Err (fun _ w' => view table w' = view table w) w
}.
(** The clock and the generator of identifiers do not write it. *)
Class TableEnv (table : lens W S) `{Env W} : Prop := {
  time_table : forall w, wp time_Now (fun _ w' => view table w' = view table w) w;
  uuid_table : forall w, wp new_uuid (fun _ w' => view table w' = view table w) w
}.

Context (table : lens W S) `{!TableLaws table}.

Lemma table_ctx_error c w : wp (ctx_error c) (fun _ w' => view table w' = view table w) w.
Proof. destruct c; [done|apply ctx_table]. Qed.

(** A statement is refused and changes nothing, or takes effect. *)
Lemma wp_table_sql {A} c (stmt : S -> A * S) (Q : result A -> W -> Prop) w :
  (forall e w', view table w' = view table w -> Q (Err e) w') ->
  (forall w', view table w' = snd (stmt (view table w)) ->
     Q (Ok (fst (stmt (view table w)))) w') ->
  wp (table_sql table c stmt) Q w.
Proof.
  intros He Ho. apply wp_bind. eapply wp_mono; [apply table_ctx_error|].
  intros [e|] w1 Hv1; [by apply wp_ret, He|].
  apply wp_bind, wp_sql; cbn.
  - intros msg _. apply wp_ret, He. by rewrite db_table.
  - unfold wp. rewrite db_table, Hv1.
    destruct (stmt (view table w)) as [a tbl] eqn:Hs; cbn.
    specialize (Ho (set table tbl (set_db (DB.pop_fault (get_db w1)) w1))).
    apply Ho. by rewrite table_view_set.
Qed.

Lemma wp_error_only {A} (m : M W (result A)) Q w :
  wp m (fun r w' => Q match r with Ok _ => None | Err e => Some e end w') w -> wp (error_only m) Q w.
Proof. intros Hm. apply wp_bind. eapply wp_mono; [exact Hm|]. intros r w'. by rewrite wp_ret. Qed.

(** The identifier and the time a record is given. *)
Lemma wp_stamp {A} (b : bool) (m : M W A) (x : A) w :
  wp m (fun _ w' => view table w' = view table w) w ->
  wp (if b then m else ret x) (fun _ w' => view table w' = view table w) w.
Proof. by destruct b. Qed.

Lemma wp_short_uuid `{Env W} `{!TableEnv table} prefix w : wp (short_uuid prefix) (fun _ w' => view table w' = view table w) w.
Proof. apply wp_bind. eapply wp_mono; [apply uuid_table|]. intros id w'. by rewrite wp_ret. Qed.
End Tables.
Create HintDb tables.
#[export] Hint Resolve time_table uuid_table ctx_table wp_short_uuid wp_stamp : tables.
