(* ===== verification/Manifest.v ===== *)
(** [internal/benchmark/manifest.go]: the entries of benchmark runs, one row each, and the
    statements with which workers claim and settle them. *)
From S2P Require Import Prelude GoFloat GoLib GoStrings Models Errors Interfaces Database CostTable Tables.

(** ** Entries *)
Definition ManifestStatusPending : string := "pending".
Definition ManifestStatusRunning : string := "running".
Definition ManifestStatusSuccess : string := "success".
Definition ManifestStatusFailed : string := "failed".
Definition ManifestStatusTimeout : string := "timeout".
Definition ManifestStatusSkipped : string := "skipped".

(** Only the two last times have columns that are ever NULL, so a row is its entry. *)
Module ManifestEntry.
Record t := mk {
  ID : string;
  RunID : string;
  GPUType : string;
  Provider : string;
  Model : string;
  Status : string;
  Priority : Z;
  WorkerID : string;
  OutputFile : string;
  SessionID : string;
  OfferID : string;
  PriceHour : f64;
  BenchmarkID : string;
  TokensPerSecond : f64;
  TotalCost : f64;
  FailureReason : string;
  FailureStage : string;
  CreatedAt : time;
  StartedAt : option time;
  CompletedAt : option time
}.

Definition set_created (id status : string) (at_ : time) (e : t) : t :=
  mk id (RunID e) (GPUType e) (Provider e) (Model e) status (Priority e) (WorkerID e) (OutputFile e)
    (SessionID e) (OfferID e) (PriceHour e) (BenchmarkID e) (TokensPerSecond e) (TotalCost e)
    (FailureReason e) (FailureStage e) at_ (StartedAt e) (CompletedAt e).
Definition set_Status (v : string) (e : t) : t := set_created (ID e) v (CreatedAt e) e.
Definition set_SessionID (v : string) (e : t) : t :=
  mk (ID e) (RunID e) (GPUType e) (Provider e) (Model e) (Status e) (Priority e) (WorkerID e) (OutputFile e)
    v (OfferID e) (PriceHour e) (BenchmarkID e) (TokensPerSecond e) (TotalCost e)
    (FailureReason e) (FailureStage e) (CreatedAt e) (StartedAt e) (CompletedAt e).
Definition set_offer (id : string) (price : f64) (e : t) : t :=
  mk (ID e) (RunID e) (GPUType e) (Provider e) (Model e) (Status e) (Priority e) (WorkerID e) (OutputFile e)
    (SessionID e) id price (BenchmarkID e) (TokensPerSecond e) (TotalCost e)
    (FailureReason e) (FailureStage e) (CreatedAt e) (StartedAt e) (CompletedAt e).

(** The columns that each [UPDATE] sets. *)
Definition claimed (workerID outputFile : string) (now : time) (e : t) : t :=
  mk (ID e) (RunID e) (GPUType e) (Provider e) (Model e) ManifestStatusRunning (Priority e) workerID
    outputFile (SessionID e) (OfferID e) (PriceHour e) (BenchmarkID e) (TokensPerSecond e) (TotalCost e)
    (FailureReason e) (FailureStage e) (CreatedAt e) (Some now) (CompletedAt e).
Definition succeeded (benchmarkID : string) (tps cost : f64) (now : time) (e : t) : t :=
  mk (ID e) (RunID e) (GPUType e) (Provider e) (Model e) ManifestStatusSuccess (Priority e) (WorkerID e)
    (OutputFile e) (SessionID e) (OfferID e) (PriceHour e) benchmarkID tps cost
    (FailureReason e) (FailureStage e) (CreatedAt e) (StartedAt e) (Some now).
Definition ended (status reason stage : string) (now : time) (e : t) : t :=
  mk (ID e) (RunID e) (GPUType e) (Provider e) (Model e) status (Priority e) (WorkerID e)
    (OutputFile e) (SessionID e) (OfferID e) (PriceHour e) (BenchmarkID e) (TokensPerSecond e)
    (TotalCost e) reason stage (CreatedAt e) (StartedAt e) (Some now).
Definition written (n old : t) : t :=
  mk (ID old) (RunID old) (GPUType old) (Provider old) (Model old) (Status n) (Priority old) (WorkerID n)
    (OutputFile n) (SessionID n) (OfferID n) (PriceHour n) (BenchmarkID n) (TokensPerSecond n)
    (TotalCost n) (FailureReason n) (FailureStage n) (CreatedAt old) (StartedAt n) (CompletedAt n).
End ManifestEntry.

(** ** The table *)
Class HasManifest (W : Type) := manifest : lens W (gmap string ManifestEntry.t).

(** [ORDER BY priority ASC, created_at ASC]. *)
Definition dispatch_le (a b : ManifestEntry.t) : Prop :=
  (ManifestEntry.Priority a < ManifestEntry.Priority b)%Z \/
  (ManifestEntry.Priority a = ManifestEntry.Priority b /\
   (ManifestEntry.CreatedAt a <= ManifestEntry.CreatedAt b)%Z).
#[export] Instance dispatch_le_dec : RelDecision dispatch_le.
Proof. intros a b. unfold dispatch_le. apply _. Defined.
#[export] Instance dispatch_le_total : Total dispatch_le.
Proof. intros a b. unfold dispatch_le. lia. Qed.
#[export] Instance dispatch_le_trans : Transitive dispatch_le.
Proof. intros a b c. unfold dispatch_le. lia. Qed.

Definition entries_of (p : ManifestEntry.t -> bool) (tbl : gmap string ManifestEntry.t)
    : list ManifestEntry.t :=
  List.filter p (map_to_list tbl).*2.
Definition of_run (runID : string) (e : ManifestEntry.t) : bool :=
  bool_decide (ManifestEntry.RunID e = runID).
Definition has_status (status : string) (e : ManifestEntry.t) : bool :=
  bool_decide (ManifestEntry.Status e = status).
Definition count_status (runID status : string) (tbl : gmap string ManifestEntry.t) : Z :=
  Z.of_nat (length (entries_of (fun e => of_run runID e && has_status status e) tbl)).

Section Store.
Context {W : Type} `{HasDB W} `{Env W} `{HasManifest W} `{RunContext W} `{CostEngine}.

Definition manifest_sql {A} (c : Ctx)
    (stmt : gmap string ManifestEntry.t -> A * gmap string ManifestEntry.t) : M W (result A) :=
  table_sql manifest c stmt.

(** [Create]: the entry as the caller's pointer holds it afterwards, and the error. *)
Definition Manifest_Create (c : Ctx) (entry : ManifestEntry.t) : M W (option error * ManifestEntry.t) :=
  let! id := if bool_decide (ManifestEntry.ID entry = "") then short_uuid "manifest-"
             else ret (ManifestEntry.ID entry) in
  let! at_ := if IsZero (ManifestEntry.CreatedAt entry) then time_Now else ret (ManifestEntry.CreatedAt entry) in
  let status := if bool_decide (ManifestEntry.Status entry = "") then ManifestStatusPending
                else ManifestEntry.Status entry in
  let entry := ManifestEntry.set_created id status at_ entry in
  let! r := manifest_sql c (fun tbl =>
    match tbl !! id with
    | Some _ => (Some (EOpaque "UNIQUE constraint failed: benchmark_manifest.id"), tbl)
    | None => (None, <[id := entry]> tbl)
    end) in
  ret (match r with Ok e => e | Err e => Some e end, entry).

(** An [UPDATE] of the row [id] where [guard] holds; the number of rows. *)
Definition update_where (c : Ctx) (id : string) (guard : ManifestEntry.t -> bool)
    (f : ManifestEntry.t -> ManifestEntry.t) : M W (result Z) :=
  manifest_sql c (fun tbl =>
    match tbl !! id with
    | Some old => if guard old then (1%Z, <[id := f old]> tbl) else (0%Z, tbl)
    | None => (0%Z, tbl)
    end).

Definition Manifest_Update (c : Ctx) (entry : ManifestEntry.t) : M W (option error) :=
  error_only (update_where c (ManifestEntry.ID entry) (fun _ => true) (ManifestEntry.written entry)).

Definition Manifest_Get (c : Ctx) (id : string) : M W (result (option ManifestEntry.t)) :=
  manifest_sql c (fun tbl => (tbl !! id, tbl)).

Definition ListByRun (c : Ctx) (runID : string) : M W (result (list ManifestEntry.t)) :=
  manifest_sql c (fun tbl => (merge_sort dispatch_le (entries_of (of_run runID) tbl), tbl)).

Definition GetPendingByPriority (c : Ctx) (runID : string) (n : nat) : M W (result (list ManifestEntry.t)) :=
  manifest_sql c (fun tbl =>
    (take n (merge_sort dispatch_le
       (entries_of (fun e => of_run runID e && has_status ManifestStatusPending e) tbl)), tbl)).

Definition GetRunning (c : Ctx) (runID : string) : M W (result (list ManifestEntry.t)) :=
  manifest_sql c (fun tbl =>
    (entries_of (fun e => of_run runID e && has_status ManifestStatusRunning e) tbl, tbl)).

(** The map from a status to its count; an absent status reads as 0. *)
Definition Manifest_GetSummary (c : Ctx) (runID : string) : M W (result (string -> Z)) :=
  manifest_sql c (fun tbl => (fun status => count_status runID status tbl, tbl)).

(** [SELECT SUM(total_cost) ... AND total_cost > 0]; no row gives 0. *)
Definition run_cost (runID : string) (tbl : gmap string ManifestEntry.t) : f64 :=
  match entries_of (fun e => of_run runID e && fgtb (ManifestEntry.TotalCost e) f0) tbl with
  | [] => f0
  | l => sum_amounts (ManifestEntry.TotalCost <$> l)
  end.
Definition GetTotalCost (c : Ctx) (runID : string) : M W (result f64) :=
  manifest_sql c (fun tbl => (run_cost runID tbl, tbl)).

Definition not_pending (id : string) : error := ESuffix (EOpaque "entry is not in pending state") (": entry " +:+ id).

Definition MarkRunning (c : Ctx) (id workerID outputFile : string) : M W (option error) :=
  let! now := time_Now in
  let! r := update_where c id (has_status ManifestStatusPending)
              (ManifestEntry.claimed workerID outputFile now) in
  ret match r with
      | Err e => Some e
      | Ok n => if (n =? 0)%Z then Some (not_pending id) else None
      end.

Definition MarkSuccess (c : Ctx) (id benchmarkID : string) (tps cost : f64) : M W (option error) :=
  let! now := time_Now in
  error_only (update_where c id (fun _ => true) (ManifestEntry.succeeded benchmarkID tps cost now)).
Definition MarkFailed (c : Ctx) (id reason stage : string) : M W (option error) :=
  let! now := time_Now in
  error_only (update_where c id (fun _ => true) (ManifestEntry.ended ManifestStatusFailed reason stage now)).
Definition MarkTimeout (c : Ctx) (id stage : string) : M W (option error) :=
  let! now := time_Now in
  error_only (update_where c id (fun _ => true) (ManifestEntry.ended ManifestStatusTimeout "timeout" stage now)).
End Store.

(** ** Facts *)
Section Facts.
Context {W : Type} `{HasDB W} `{Env W} `{HasManifest W} `{RunContext W} `{CostEngine} `{!TableLaws manifest} `{!TableEnv manifest}.

Lemma wp_MarkRunning c id worker out w :
  wp (MarkRunning c id worker out) (fun r w' =>
    match r with
    | None => exists old now, view manifest w !! id = Some old /\
        ManifestEntry.Status old = ManifestStatusPending /\
        view manifest w' = <[id := ManifestEntry.claimed worker out now old]> (view manifest w)
    | Some _ => view manifest w' = view manifest w
    end) w.
Proof.
  apply wp_bind. eapply wp_mono; [eapply time_table|]. intros now w1 Hv1.
  apply wp_bind, (wp_table_sql _).
  - intros e w2 Hv2. apply wp_ret. congruence.
  - intros w2. rewrite Hv1. destruct (view manifest w !! id) as [old|] eqn:Ho; cbn.
    + destruct (has_status ManifestStatusPending old) eqn:Hp; cbn; intros Hv2.
      * exists old, now. apply bool_decide_eq_true in Hp. done.
      * done.
    + done.
Qed.

Definition pending_in (id : string) (w : W) : Prop :=
  exists e, view manifest w !! id = Some e /\ ManifestEntry.Status e = ManifestStatusPending.

(** An entry is claimed once: of two calls of [MarkRunning] for it at most one succeeds,
    whatever runs between them, as long as that does not make the entry pending again; and
    the first leaves the entry running for its own worker. *)
Theorem entry_claimed_once {A} c1 c2 id worker1 worker2 out1 out2 (m : M W A) w :
  (forall v, wp m (fun _ v' => pending_in id v' -> pending_in id v) v) ->
  wp (let! first := MarkRunning c1 id worker1 out1 in
      let! x := m in
      let! second := MarkRunning c2 id worker2 out2 in
      ret (first, second))
    (fun r _ => r.1 = None -> r.2 <> None) w.
Proof.
  intros Hm. apply wp_bind. eapply wp_mono; [apply wp_MarkRunning|].
  intros [e|] w1 Hr1; apply wp_bind.
  - eapply wp_true. intros x w2. apply wp_bind, wp_true. intros r w3. by apply wp_ret.
  - eapply wp_mono; [apply Hm|]. intros x w2 Hback. apply wp_bind.
    eapply wp_mono; [apply wp_MarkRunning|]. intros [e|] w3 Hr3; apply wp_ret; [done|].
    destruct Hr1 as (old & now & Hold & _ & Hv1). destruct Hr3 as (old2 & now2 & Hold2 & Hp2 & _).
    destruct Hback as (e & He & Hp); [by exists old2|].
    rewrite Hv1, lookup_insert_eq in He. injection He as <-. discriminate Hp.
Qed.

(** [Update] writes the entry as the caller holds it: an entry that was read while it was
    pending and is written back erases the worker and the start that [MarkRunning] has
    recorded since. *)
Theorem update_erases_claim c1 c2 id worker out old s w :
  view manifest w !! id = Some old -> ManifestEntry.ID old = id ->
  ManifestEntry.WorkerID old = "" -> ManifestEntry.StartedAt old = None ->
  wp (let! first := MarkRunning c1 id worker out in
      let! second := Manifest_Update c2 (ManifestEntry.set_SessionID s
                       (ManifestEntry.set_Status ManifestStatusRunning old)) in
      ret (first, second))
    (fun r w' => r = (None, None) -> exists e, view manifest w' !! id = Some e /\
       ManifestEntry.Status e = ManifestStatusRunning /\ ManifestEntry.SessionID e = s /\
       ManifestEntry.WorkerID e = "" /\ ManifestEntry.StartedAt e = None) w.
Proof.
  intros Hold Hid Hw Hs. apply wp_bind. eapply wp_mono; [apply wp_MarkRunning|].
  intros [e|] w1 Hr1; apply wp_bind.
  - apply wp_true. intros r w2. by apply wp_ret.
  - destruct Hr1 as (old' & now & Hold' & _ & Hv1). rewrite Hold in Hold'. injection Hold' as <-.
    apply wp_bind, (wp_table_sql _); [intros e w2 _; by apply wp_ret, wp_ret|].
    intros w2. change (ManifestEntry.ID (ManifestEntry.set_SessionID _ _)) with (ManifestEntry.ID old).
    rewrite Hid, Hv1, lookup_insert_eq. cbn. intros Hv2. apply wp_ret, wp_ret. intros _.
    rewrite Hv2, lookup_insert_eq. eexists. by split_and!.
Qed.
End Facts.
