(* ===== verification/BenchStore.v ===== *)
(** [internal/benchmark/models.go] and [store.go]: benchmark results and the table that
    keeps them, each row with the encoded result.  JSON and the engine's averages are
    parameters. *)
From S2P Require Import Prelude GoFloat GoLib GoStrings Models Errors Interfaces Database Tables.
From Stdlib Require Import Ascii.

(** ** Results *)
Module HardwareInfo.
Record t := mk {
  GPUName : string;
  GPUMemoryMiB : Z;
  GPUCount : Z;
  DriverVersion : string;
  CUDAVersion : string;
  CPUModel : string;
  CPUCores : Z;
  RAMGiB : Z
}.
End HardwareInfo.

Module ModelInfo.
Record t := mk {
  Name : string;
  Family : string;
  ParameterCount : string;
  Quantization : string;
  SizeGB : f64;
  Runtime : string;
  RuntimeVersion : string
}.
End ModelInfo.

Module TestConfig.
Record t := mk {
  DurationMinutes : Z;
  MaxTokens : Z;
  PromptTypes : list string;
  ConcurrentReqs : Z;
  WarmupRequests : Z
}.
End TestConfig.

Module PerformanceResults.
Record t := mk {
  TotalRequests : Z;
  TotalTokens : Z;
  TotalPromptTokens : Z;
  TotalErrors : Z;
  DurationSeconds : f64;
  AvgTokensPerSecond : f64;
  MinTokensPerSecond : f64;
  MaxTokensPerSecond : f64;
  P50TokensPerSecond : f64;
  P95TokensPerSecond : f64;
  P99TokensPerSecond : f64;
  AvgLatencyMs : f64;
  MinLatencyMs : f64;
  MaxLatencyMs : f64;
  P50LatencyMs : f64;
  P95LatencyMs : f64;
  P99LatencyMs : f64;
  RequestsPerMinute : f64;
  AvgTokensPerRequest : f64;
  ErrorRate : f64;
  AvgTTFTMs : f64;
  P50TTFTMs : f64;
  P95TTFTMs : f64;
  MatchRate : f64;
  PromptsWithExpected : Z;
  PromptsMatching : Z
}.
Definition zero : t :=
  mk 0 0 0 0 f0 f0 f0 f0 f0 f0 f0 f0 f0 f0 f0 f0 f0 f0 f0 f0 f0 f0 f0 f0 0 0.
End PerformanceResults.

Module GPUStats.
Record t := mk {
  AvgUtilizationPct : f64;
  MaxUtilizationPct : f64;
  AvgMemoryUsedMiB : Z;
  MaxMemoryUsedMiB : Z;
  AvgTemperatureC : f64;
  MaxTemperatureC : f64;
  AvgPowerDrawW : f64;
  MaxPowerDrawW : f64
}.
Definition zero : t := mk f0 f0 0 0 f0 f0 f0 f0.
End GPUStats.

Module BenchmarkResult.
Record t := mk {
  ID : string;
  Timestamp : time;
  Hardware : HardwareInfo.t;
  Model : ModelInfo.t;
  TestConfig : TestConfig.t;
  Results : PerformanceResults.t;
  GPUStats : GPUStats.t;
  Provider : string;
  Location : string;
  PricePerHour : f64
}.
Definition stamped (id : string) (at_ : time) (r : t) : t :=
  mk id at_ (Hardware r) (Model r) (TestConfig r) (Results r) (GPUStats r) (Provider r) (Location r)
    (PricePerHour r).
End BenchmarkResult.

Module HardwareRecommendation.
Record t := mk {
  Model : string;
  MinVRAMGiB : Z;
  RecommendedGPUs : list string;
  ExpectedTPS : f64;
  EstimatedCost : f64;
  Notes : string
}.
End HardwareRecommendation.

(** ** The table *)

(** A row: the columns are those of the result that was stored, and its encoding. *)
Module BenchRow.
Record t := mk { columns : BenchmarkResult.t; full_result_json : string }.
Definition model_name (r : t) : string := ModelInfo.Name (BenchmarkResult.Model (columns r)).
Definition gpu_name (r : t) : string := HardwareInfo.GPUName (BenchmarkResult.Hardware (columns r)).
Definition timestamp (r : t) : time := BenchmarkResult.Timestamp (columns r).
Definition avg_tps (r : t) : f64 :=
  PerformanceResults.AvgTokensPerSecond (BenchmarkResult.Results (columns r)).
Definition price (r : t) : f64 := BenchmarkResult.PricePerHour (columns r).
(** [avg_tokens_per_second / price_per_hour]. *)
Definition per_dollar (r : t) : f64 := fdiv (avg_tps r) (price r).
End BenchRow.

Class HasBenchmarks (W : Type) := benchmarks : lens W (gmap string BenchRow.t).

(** [encoding/json], and what the engine computes of a group of rows: [AVG] of a column, and
    the row that a bare column is taken from. *)
Class BenchEngine := {
  json_Marshal : BenchmarkResult.t -> result string;
  json_Unmarshal : string -> result BenchmarkResult.t;
  avg_column : list f64 -> f64;
  bare_row : BenchRow.t -> list BenchRow.t -> BenchRow.t
}.

(** [LIKE]: [%] any bytes, [_] one, letters without regard to case. *)
Fixpoint like (pattern s : string) : bool :=
  match pattern with
  | EmptyString => match s with EmptyString => true | _ => false end
  | String c p =>
      if Ascii.eqb c "%"%char then
        (fix any (s : string) : bool :=
           like p s || match s with String _ s' => any s' | EmptyString => false end) s
      else match s with
           | String d s' =>
               (Ascii.eqb c "_"%char || Ascii.eqb (ascii_lower c) (ascii_lower d)) && like p s'
           | EmptyString => false
           end
  end.

(** [ORDER BY ... DESC]. *)
Definition newer_result (a b : BenchRow.t) : Prop := (BenchRow.timestamp b <= BenchRow.timestamp a)%Z.
Definition faster (a b : BenchRow.t) : Prop := fltb (BenchRow.avg_tps a) (BenchRow.avg_tps b) = false.
Definition better_value (a b : BenchRow.t) : Prop :=
  fltb (BenchRow.per_dollar a) (BenchRow.per_dollar b) = false.
#[export] Instance newer_result_dec : RelDecision newer_result.
Proof. intros a b. unfold newer_result. apply _. Defined.
#[export] Instance faster_dec : RelDecision faster.
Proof. intros a b. unfold faster. apply _. Defined.
#[export] Instance better_value_dec : RelDecision better_value.
Proof. intros a b. unfold better_value. apply _. Defined.

Definition rows_where (p : BenchRow.t -> bool) (tbl : gmap string BenchRow.t) : list BenchRow.t :=
  List.filter p (map_to_list tbl).*2.

Section Store.
Context {W : Type} `{HasDB W} `{Env W} `{HasBenchmarks W} `{RunContext W} `{BenchEngine}.

Definition bench_sql {A} (c : Ctx) (stmt : gmap string BenchRow.t -> A * gmap string BenchRow.t)
    : M W (result A) :=
  table_sql benchmarks c stmt.

(** [Save]: the result as the caller's pointer holds it afterwards, and the error. *)
Definition Save (c : Ctx) (result : BenchmarkResult.t) : M W (option error * BenchmarkResult.t) :=
  let! id := if bool_decide (BenchmarkResult.ID result = "") then new_uuid
             else ret (BenchmarkResult.ID result) in
  let! at_ := if IsZero (BenchmarkResult.Timestamp result) then time_Now
              else ret (BenchmarkResult.Timestamp result) in
  let result := BenchmarkResult.stamped id at_ result in
  match json_Marshal result with
  | Err e => ret (Some (EWrap "failed to marshal result" e), result)
  | Ok fullJSON =>
      let! r := bench_sql c (fun tbl =>
        match tbl !! id with
        | Some _ => (Some (EOpaque "UNIQUE constraint failed: benchmarks.id"), tbl)
        | None => (None, <[id := BenchRow.mk result fullJSON]> tbl)
        end) in
      ret (match r with Ok e => e | Err e => Some e end, result)
  end.

Definition Bench_Get (c : Ctx) (id : string) : M W (result (option BenchmarkResult.t)) :=
  let! r := bench_sql c (fun tbl => (tbl !! id, tbl)) in
  ret match r with
      | Err e => Err e
      | Ok None => Ok None
      | Ok (Some row) =>
          match json_Unmarshal (BenchRow.full_result_json row) with
          | Err e => Err e
          | Ok x => Ok (Some x)
          end
      end.

(** [query]: the rows decoded one by one; the first that does not decode ends it. *)
Fixpoint decode_rows (rows : list BenchRow.t) : result (list BenchmarkResult.t) :=
  match rows with
  | [] => Ok []
  | row :: rows' =>
      match json_Unmarshal (BenchRow.full_result_json row) with
      | Err e => Err e
      | Ok x => match decode_rows rows' with Ok l => Ok (x :: l) | Err e => Err e end
      end
  end.
Definition query (c : Ctx) (select : gmap string BenchRow.t -> list BenchRow.t)
    : M W (result (list BenchmarkResult.t)) :=
  let! r := bench_sql c (fun tbl => (select tbl, tbl)) in
  ret match r with Err e => Err e | Ok rows => decode_rows rows end.

Definition of_model (modelName : string) (r : BenchRow.t) : bool :=
  bool_decide (BenchRow.model_name r = modelName).

Definition ListByModel (c : Ctx) (modelName : string) : M W (result (list BenchmarkResult.t)) :=
  query c (fun tbl => merge_sort newer_result (rows_where (of_model modelName) tbl)).
Definition ListByGPU (c : Ctx) (gpuName : string) : M W (result (list BenchmarkResult.t)) :=
  query c (fun tbl => merge_sort newer_result
    (rows_where (fun r => like ("%" +:+ gpuName +:+ "%") (BenchRow.gpu_name r)) tbl)).
(** A negative [LIMIT] is no limit. *)
Definition sql_limit {A} (limit : Z) (l : list A) : list A :=
  if (limit <? 0)%Z then l else take (Z.to_nat limit) l.
Definition ListRecent (c : Ctx) (limit : Z) : M W (result (list BenchmarkResult.t)) :=
  query c (fun tbl => sql_limit limit (merge_sort newer_result (rows_where (fun _ => true) tbl))).

Definition first_result (r : result (list BenchmarkResult.t)) : result (option BenchmarkResult.t) :=
  match r with Err e => Err e | Ok l => Ok (head l) end.
Definition GetBestForModel (c : Ctx) (modelName : string) : M W (result (option BenchmarkResult.t)) :=
  let! r := query c (fun tbl => sql_limit 1 (merge_sort faster (rows_where (of_model modelName) tbl))) in
  ret (first_result r).
Definition eligible (modelName : string) (minTPS : f64) (r : BenchRow.t) : bool :=
  of_model modelName r && fleb minTPS (BenchRow.avg_tps r) && fltb f0 (BenchRow.price r).
Definition GetCheapestForModel (c : Ctx) (modelName : string) (minTPS : f64)
    : M W (result (option BenchmarkResult.t)) :=
  let! r := query c (fun tbl =>
    sql_limit 1 (merge_sort better_value (rows_where (eligible modelName minTPS) tbl))) in
  ret (first_result r).

(** ** Recommendations *)
(** [total_errors < total_requests * 0.1]. *)
Definition reliable (r : BenchRow.t) : bool :=
  let p := BenchmarkResult.Results (BenchRow.columns r) in
  fltb (f64_of_Z (PerformanceResults.TotalErrors p))
       (fmul (f64_of_Z (PerformanceResults.TotalRequests p)) (f64_lit 1 10)).

(** A group: name, memory, average speed, average price and size. *)
Definition gpu_group (gpu : string) (rows : list BenchRow.t) : string * Z * f64 * f64 * nat :=
  let group := List.filter (fun r => bool_decide (BenchRow.gpu_name r = gpu)) rows in
  (gpu,
   match group with
   | [] => 0%Z
   | r :: rest =>
       HardwareInfo.GPUMemoryMiB (BenchmarkResult.Hardware (BenchRow.columns (bare_row r rest)))
   end,
   avg_column (BenchRow.avg_tps <$> group), avg_column (BenchRow.price <$> group), length group).
Definition faster_group (a b : string * Z * f64 * f64 * nat) : Prop :=
  fltb a.1.1.2 b.1.1.2 = false.
#[local] Instance faster_group_dec : RelDecision faster_group.
Proof. intros a b. unfold faster_group. apply _. Defined.

Definition recommendation (modelName : string) (g : string * Z * f64 * f64 * nat)
    : HardwareRecommendation.t :=
  let '(gpu, memory, tps, price, n) := g in
  HardwareRecommendation.mk modelName (Z.quot memory 1024) [gpu] tps price
    ("Based on " +:+ Itoa (Z.of_nat n) +:+ " benchmark(s)").

Definition GetModelRecommendations (c : Ctx) (modelName : string)
    : M W (result (list HardwareRecommendation.t)) :=
  bench_sql c (fun tbl =>
    let rows := rows_where (fun r => of_model modelName r && reliable r) tbl in
    let groups := (fun gpu => gpu_group gpu rows) <$> remove_dups (BenchRow.gpu_name <$> rows) in
    (recommendation modelName <$> merge_sort faster_group groups, tbl)).
End Store.

(** ** Facts *)

(** A list sorted by a relation that is transitive on its elements. *)
Lemma Sorted_head_min {A} (R : relation A) (P : A -> Prop) x l :
  (forall a b c, P a -> P b -> P c -> R a b -> R b c -> R a c) ->
  Sorted R (x :: l) -> Forall P (x :: l) -> Forall (R x) l.
Proof.
  intros Htrans. revert x. induction l as [|y l IH]; intros x Hs HP; [done|].
  apply Sorted_inv in Hs as [Hs Hhd]. apply HdRel_inv in Hhd.
  apply Forall_cons in HP as [Hx HP]. pose proof HP as [Hy Hl]%Forall_cons.
  constructor; [done|]. specialize (IH y Hs HP). rewrite Forall_forall in IH, Hl |- *.
  intros z Hz. eauto.
Qed.

#[export] Instance faster_total : Total faster.
Proof.
  intros a b. unfold faster.
  destruct (is_nan (BenchRow.avg_tps a)) eqn:Ha; [left; by apply fltb_nan_l|].
  destruct (is_nan (BenchRow.avg_tps b)) eqn:Hb; [right; by apply fltb_nan_l|].
  destruct (fltb (BenchRow.avg_tps a) (BenchRow.avg_tps b)) eqn:Hlt; [right|by left].
  by apply fltb_asym.
Qed.

(** The fastest row: what [sql_limit 1] of the sorted rows keeps. *)
Lemma fastest_first rows x :
  Forall (fun r => is_nan (BenchRow.avg_tps r) = false) rows ->
  sql_limit 1 (merge_sort faster rows) = [x] ->
  x ∈ rows /\ Forall (fun r => fltb (BenchRow.avg_tps x) (BenchRow.avg_tps r) = false) rows.
Proof.
  intros Hnum Hx. pose proof (merge_sort_Permutation faster rows) as Hp.
  pose proof (Sorted_merge_sort faster rows) as Hs.
  destruct (merge_sort faster rows) as [|y l]; [done|]. cbn in Hx. injection Hx as ->.
  rewrite <-Hp in Hnum |- *. split; [by left|].
  assert (Forall (faster x) l) as Hall.
  { eapply Sorted_head_min; [|exact Hs|exact Hnum]. unfold faster. intros a b c Ha Hb Hc Hab Hbc.
    apply not_true_iff_false. intros Hac. rewrite <-not_true_iff_false in Hab, Hbc.
    rewrite fltb_key in * by done. unfold key_lt in *.
    destruct (fkey (BenchRow.avg_tps a)) as [[? ?] ?], (fkey (BenchRow.avg_tps b)) as [[? ?] ?],
      (fkey (BenchRow.avg_tps c)) as [[? ?] ?]. lia. }
  apply Forall_cons. apply Forall_cons in Hnum as [Hx _]. split; [by apply fltb_irrefl|exact Hall].
Qed.

(** Every row has a speed that is a number, and its text decodes to its columns. *)
Definition encoded `{BenchEngine} (tbl : gmap string BenchRow.t) : Prop :=
  map_Forall (fun _ r => is_nan (BenchRow.avg_tps r) = false /\
    json_Unmarshal (BenchRow.full_result_json r) = Ok (BenchRow.columns r)) tbl.

Section Facts.
Context {W : Type} `{HasDB W} `{Env W} `{HasBenchmarks W} `{RunContext W} `{BenchEngine}.
Context `{!TableLaws benchmarks} `{!TableEnv benchmarks}.

Lemma wp_bench_read {A} c (f : gmap string BenchRow.t -> A) (Q : result A -> W -> Prop) w :
  (forall r w', view benchmarks w' = view benchmarks w ->
     match r with Ok a => a = f (view benchmarks w) | Err _ => True end -> Q r w') ->
  wp (bench_sql c (fun tbl => (f tbl, tbl))) Q w.
Proof. intros HQ. apply (wp_table_sql _); intros; by apply HQ. Qed.

(** [Save] refuses or adds one row, the encoding of what the caller then holds. *)
Lemma wp_Save c result w :
  wp (Save c result) (fun r w' =>
    match r.1 with
    | Some _ => view benchmarks w' = view benchmarks w
    | None => exists text, json_Marshal r.2 = Ok text /\
        view benchmarks w !! BenchmarkResult.ID r.2 = None /\
        view benchmarks w' = <[BenchmarkResult.ID r.2 := BenchRow.mk r.2 text]> (view benchmarks w)
    end) w.
Proof.
  apply wp_bind. eapply wp_mono; [by eauto with tables|]. cbv beta. intros id w1 Hv1.
  apply wp_bind. eapply wp_mono; [by eauto with tables|]. cbv beta. intros at_ w2 Hv2. cbv zeta.
  destruct (json_Marshal (BenchmarkResult.stamped id at_ result)) as [text|e] eqn:Hj;
    [|apply wp_ret; cbn; congruence].
  apply wp_bind, (wp_table_sql _); [intros e w3 Hv3; apply wp_ret; cbn; congruence|].
  rewrite Hv2, Hv1. intros w3 Hv3. apply wp_ret.
  destruct (view benchmarks w !! id) as [old|] eqn:Hid; cbn in *; [exact Hv3|by exists text].
Qed.

(** A stored result is read back, under the identifier [Save] chose, as the decoding of its
    encoding. *)
Theorem Save_Get c c' result w :
  wp (let! saved := Save c result in
      let! got := Bench_Get c' (BenchmarkResult.ID saved.2) in
      ret (saved, got))
    (fun r _ => r.1.1 = None -> exists text, json_Marshal r.1.2 = Ok text /\
       (r.2 = Ok None -> False) /\
       (forall x, r.2 = Ok (Some x) -> json_Unmarshal text = Ok x)) w.
Proof.
  apply wp_bind. eapply wp_mono; [apply wp_Save|]. intros [[e|] saved] w1 Hs; cbn in Hs.
  - apply wp_bind, wp_true. intros got w2. by apply wp_ret.
  - destruct Hs as (text & Hj & _ & Hv). apply wp_bind, wp_bind, wp_bench_read. cbn.
    intros [row|e] w2 _ Hrow; apply wp_ret, wp_ret; cbn; intros _; exists text; [|done].
    rewrite Hv, lookup_insert_eq in Hrow. subst row. cbn.
    destruct (json_Unmarshal text) as [y|e]; split_and!; try done. by intros x [= <-].
Qed.

(** The best result of a model is one that was stored for it, and none stored for it is
    faster. *)
Theorem GetBestForModel_best c modelName w :
  encoded (view benchmarks w) ->
  wp (GetBestForModel c modelName) (fun r _ =>
    match r with
    | Err _ => True
    | Ok None => rows_where (of_model modelName) (view benchmarks w) = []
    | Ok (Some best) =>
        (exists row, row ∈ rows_where (of_model modelName) (view benchmarks w) /\
           BenchRow.columns row = best) /\
        Forall (fun row => fltb (PerformanceResults.AvgTokensPerSecond (BenchmarkResult.Results best))
                                (BenchRow.avg_tps row) = false)
          (rows_where (of_model modelName) (view benchmarks w))
    end) w.
Proof.
  intros Henc. apply wp_bind, wp_bind, wp_bench_read. intros [rows|e] w1 _ Hrows; apply wp_ret, wp_ret; [|done].
  set (all := rows_where (of_model modelName) (view benchmarks w)) in *.
  assert (Forall (fun r => is_nan (BenchRow.avg_tps r) = false /\
            json_Unmarshal (BenchRow.full_result_json r) = Ok (BenchRow.columns r)) all) as Hall.
  { apply Forall_filter_bool, Forall_forall. intros r ([id r'] & -> & Hin)%list_elem_of_fmap.
    apply elem_of_map_to_list in Hin. exact (Henc _ _ Hin). }
  assert (Forall (fun r => is_nan (BenchRow.avg_tps r) = false) all) as Hnum
    by (eapply Forall_impl; [exact Hall|]; by intros r [? _]).
  subst rows. pose proof (merge_sort_Permutation faster all) as Hp.
  destruct (merge_sort faster all) as [|best rest] eqn:Hsort; [by apply Permutation_nil in Hp|].
  destruct (fastest_first all best Hnum) as [Hin Hmax]; [by rewrite Hsort|].
  pose proof Hin as Hin'. rewrite Forall_forall in Hall. apply Hall in Hin' as [_ Hdec].
  change (sql_limit 1 (best :: rest)) with [best]. cbn [decode_rows]. rewrite Hdec. cbn. split; [by exists best|exact Hmax].
Qed.
End Facts.
