(* ===== verification/BenchParser.v ===== *)
(** [internal/benchmark/parser.go]: the statistics of a benchmark, computed from the log of
    its requests and from the samples of the GPU.  Reading the files, JSON and CSV are
    parameters. *)
From S2P Require Import Prelude GoFloat GoLib GoStrings GoText Models Errors BenchStore.
From Stdlib Require Import Ascii.

Module RequestResult.
Record t := mk {
  Timestamp : Z;
  RequestNum : Z;
  Tokens : Z;
  TokensPerSec : f64;
  DurationSec : f64;
  Error : bool;
  ErrorMsg : string
}.
End RequestResult.

Module GPUSample.
Record t := mk {
  Timestamp : Z;
  Utilization : f64;
  MemoryUsed : Z;
  MemoryTotal : Z;
  Temperature : f64;
  PowerDraw : f64
}.
End GPUSample.

Module CostAnalysis.
Record t := mk {
  TokensPerDollar : f64;
  CostPerMillionTokens : f64;
  CostPerHour : f64;
  EstimatedMonthly : f64
}.
Definition zero : t := mk f0 f0 f0 f0.
End CostAnalysis.

(** ** Order statistics *)

(** [sort.Float64s], on lists without NaN. *)
Definition fle (a b : f64) : Prop := fltb b a = false.
#[export] Instance fle_dec : RelDecision fle.
Proof. intros a b. unfold fle. apply _. Defined.
Definition Float64s (l : list f64) : list f64 := merge_sort fle l.

Definition fsum (l : list f64) : f64 := fold_left fadd l f0.

(** [percentile] of a sorted slice; [None] is an index out of range. *)
Definition percentile (sorted : list f64) (p : Z) : option f64 :=
  match sorted with
  | [] => Some f0
  | _ => sorted !! Z.to_nat (Z.quot ((Z.of_nat (length sorted) - 1) * p) 100)
  end.

(** Minimum, maximum, the three percentiles and the mean of the values; zeros when there
    are none. *)
Module Stats.
Record t := mk { Min : f64; Max : f64; P50 : f64; P95 : f64; P99 : f64; Avg : f64 }.
Definition zero : t := mk f0 f0 f0 f0 f0 f0.
End Stats.
Definition at_percentile (sorted : list f64) (p : Z) : f64 := default f0 (percentile sorted p).
Definition stats_of (values : list f64) : option Stats.t :=
  match values with
  | [] => None
  | _ =>
      let sorted := Float64s values in
      Some (Stats.mk (default f0 (head sorted)) (default f0 (last sorted)) (at_percentile sorted 50)
              (at_percentile sorted 95) (at_percentile sorted 99)
              (fdiv (fsum sorted) (f64_of_Z (Z.of_nat (length sorted)))))
  end.

(** ** [AnalyzeResults] *)
Definition succeeded_requests (results : list RequestResult.t) : list RequestResult.t :=
  List.filter (fun r => negb (RequestResult.Error r)) results.
Definition total_tokens (results : list RequestResult.t) : Z :=
  fold_left (fun n r => wrap64 (n + RequestResult.Tokens r)) (succeeded_requests results) 0%Z.
Definition total_errors (results : list RequestResult.t) : Z :=
  Z.of_nat (length (List.filter RequestResult.Error results)).
Definition tps_values (results : list RequestResult.t) : list f64 :=
  List.filter (fun x => fgtb x f0) (RequestResult.TokensPerSec <$> succeeded_requests results).
(** In milliseconds. *)
Definition durations (results : list RequestResult.t) : list f64 :=
  (fun x => fmul x (f64_of_Z 1000)) <$>
    List.filter (fun x => fgtb x f0) (RequestResult.DurationSec <$> succeeded_requests results).
(** From the first to the last time of the log. *)
Definition log_seconds (results : list RequestResult.t) : f64 :=
  match head results, last results with
  | Some first, Some last =>
      if (2 <=? length results)
      then f64_of_Z (wrap64 (RequestResult.Timestamp last - RequestResult.Timestamp first)) else f0
  | _, _ => f0
  end.

Definition AnalyzeResults (results : list RequestResult.t) : PerformanceResults.t :=
  match results with
  | [] => PerformanceResults.zero
  | _ =>
      let n := Z.of_nat (length results) in
      let tokens := f64_of_Z (total_tokens results) in
      let errors := total_errors results in
      let seconds := log_seconds results in
      let tps := stats_of (tps_values results) in
      let latency := default Stats.zero (stats_of (durations results)) in
      let avg_tps := match tps with
        | Some s => Stats.Avg s
        | None => if fgtb seconds f0 then fdiv tokens seconds else f0
        end in
      let tps := default Stats.zero tps in
      let rpm := if fgtb seconds f0 then fdiv (fmul (f64_of_Z n) (f64_of_Z 60)) seconds else f0 in
      PerformanceResults.mk n (total_tokens results) 0 errors seconds
        avg_tps (Stats.Min tps) (Stats.Max tps) (Stats.P50 tps) (Stats.P95 tps) (Stats.P99 tps)
        (Stats.Avg latency) (Stats.Min latency) (Stats.Max latency) (Stats.P50 latency)
        (Stats.P95 latency) (Stats.P99 latency)
        rpm (fdiv tokens (f64_of_Z (n - errors))) (fdiv (f64_of_Z errors) (f64_of_Z n))
        f0 f0 f0 f0 0 0
  end.

(** ** [AnalyzeGPUStats] *)
Definition fmax_from (l : list f64) : f64 := fold_left (fun m x => if fgtb x m then x else m) l f0.
Definition AnalyzeGPUStats (samples : list GPUSample.t) : GPUStats.t :=
  match samples with
  | [] => GPUStats.zero
  | _ =>
      let n := f64_of_Z (Z.of_nat (length samples)) in
      GPUStats.mk
        (fdiv (fsum (GPUSample.Utilization <$> samples)) n) (fmax_from (GPUSample.Utilization <$> samples))
        0 (fold_left Z.max (GPUSample.MemoryUsed <$> samples) 0%Z)
        (fdiv (fsum (GPUSample.Temperature <$> samples)) n) (fmax_from (GPUSample.Temperature <$> samples))
        (fdiv (fsum (GPUSample.PowerDraw <$> samples)) n) (fmax_from (GPUSample.PowerDraw <$> samples))
  end.

(** ** Costs *)
Definition CalculateCostAnalysis (result : BenchmarkResult.t) : CostAnalysis.t :=
  let price := BenchmarkResult.PricePerHour result in
  let tps := PerformanceResults.AvgTokensPerSecond (BenchmarkResult.Results result) in
  if fleb price f0 || fleb tps f0 then CostAnalysis.zero
  else
    let tokensPerHour := fmul tps (f64_of_Z 3600) in
    let tokensPerDollar := fdiv tokensPerHour price in
    CostAnalysis.mk tokensPerDollar (fdiv (f64_of_Z 1000000) tokensPerDollar) price
      (fmul (fmul price (f64_of_Z 24)) (f64_of_Z 30)).

(** [FormatBenchmarkSummary]. *)
Definition newline : string := String (ascii_of_nat 10) "".
Definition summary_rule : string := "═══════════════════════════════════════════════════════════════".
Definition percent (x : f64) : string := fmt_fixed 1 x +:+ "%".
Definition summary_lines (r : BenchmarkResult.t) : list string :=
  let cost := CalculateCostAnalysis r in
  let h := BenchmarkResult.Hardware r in
  let m := BenchmarkResult.Model r in
  let p := BenchmarkResult.Results r in
  let g := BenchmarkResult.GPUStats r in
  [""; summary_rule; "                    BENCHMARK RESULTS"; summary_rule; ""; "Hardware";
   "  GPU:              " +:+ HardwareInfo.GPUName h +:+ " (" +:+ Itoa (HardwareInfo.GPUMemoryMiB h) +:+ " MiB)";
   "  Driver:           " +:+ HardwareInfo.DriverVersion h;
   "  CUDA:             " +:+ HardwareInfo.CUDAVersion h; ""; "Model";
   "  Name:             " +:+ ModelInfo.Name m;
   "  Size:             " +:+ fmt_fixed 1 (ModelInfo.SizeGB m) +:+ " GB";
   "  Runtime:          " +:+ ModelInfo.Runtime m; ""; "Performance";
   "  Avg Tokens/sec:   " +:+ fmt_fixed 2 (PerformanceResults.AvgTokensPerSecond p);
   "  P50 Tokens/sec:   " +:+ fmt_fixed 2 (PerformanceResults.P50TokensPerSecond p);
   "  P95 Tokens/sec:   " +:+ fmt_fixed 2 (PerformanceResults.P95TokensPerSecond p);
   "  Requests:         " +:+ Itoa (PerformanceResults.TotalRequests p);
   "  Total Tokens:     " +:+ Itoa (PerformanceResults.TotalTokens p);
   "  Errors:           " +:+ Itoa (PerformanceResults.TotalErrors p) +:+ " (" +:+
     percent (fmul (PerformanceResults.ErrorRate p) (f64_of_Z 100)) +:+ ")";
   "  Duration:         " +:+ fmt_fixed 1 (fdiv (PerformanceResults.DurationSeconds p) (f64_of_Z 60)) +:+ " minutes";
   ""; "GPU Utilization";
   "  Avg Utilization:  " +:+ percent (GPUStats.AvgUtilizationPct g);
   "  Avg Temperature:  " +:+ fmt_fixed 1 (GPUStats.AvgTemperatureC g) +:+ "°C";
   "  Max Temperature:  " +:+ fmt_fixed 1 (GPUStats.MaxTemperatureC g) +:+ "°C";
   "  Avg Power:        " +:+ fmt_fixed 1 (GPUStats.AvgPowerDrawW g) +:+ " W";
   "  Peak VRAM:        " +:+ Itoa (GPUStats.MaxMemoryUsedMiB g) +:+ " MiB"; ""; "Cost Analysis";
   "  Price/Hour:       $" +:+ fmt_fixed 3 (CostAnalysis.CostPerHour cost);
   "  Tokens/Dollar:    " +:+ fmt_fixed 0 (CostAnalysis.TokensPerDollar cost);
   "  $/Million Tokens: $" +:+ fmt_fixed 4 (CostAnalysis.CostPerMillionTokens cost);
   "  Monthly (24x7):   $" +:+ fmt_fixed 2 (CostAnalysis.EstimatedMonthly cost); ""; summary_rule; ""].
Definition FormatBenchmarkSummary (r : BenchmarkResult.t) : string := Join (summary_lines r) newline.

(** ** The directory of a run *)

(** [metadata.json]; the summary is not used. *)
Module BenchmarkMetadata.
Record t := mk {
  Hardware : HardwareInfo.t;
  ModelName : string;
  Runtime : string;
  RuntimeVersion : string;
  Size : string;
  DurationSeconds : Z;
  MaxTokens : Z;
  Prompts : list string
}.
End BenchmarkMetadata.

Section Directory.
(** The files of the directory, with their lines and records, [encoding/json] on one line,
    [encoding/csv], and [strconv]; a number that does not parse reads as the value that
    [ParseInt], [ParseFloat] and [Atoi] return with the error. *)
Context (metadata_json : res error BenchmarkMetadata.t).
Context (results_jsonl : res error (list string)).
Context (gpu_csv : res error (list (res error (list string)))).
Context (decode_request : string -> option RequestResult.t).
Context (ParseFloat : string -> f64 * bool) (ParseInt : string -> Z).

(** Malformed lines are skipped. *)
Definition ParseResultsJSONL : res error (list RequestResult.t) :=
  match results_jsonl with Err e => Err e | Ok lines => Ok (omap decode_request lines) end.

Definition gpu_sample (record : list string) : option GPUSample.t :=
  match record with
  | ts :: util :: used :: total :: temp :: power :: _ =>
      Some (GPUSample.mk (ParseInt ts) (ParseFloat util).1 (ParseInt used) (ParseInt total)
              (ParseFloat temp).1 (ParseFloat power).1)
  | _ => None
  end.
(** The first record is the header; records that do not read or are too short are skipped. *)
Definition ParseGPUCSV : res error (list GPUSample.t) :=
  match gpu_csv with
  | Err e => Err e
  | Ok [] => Err (EOpaque "EOF")
  | Ok (Err e :: _) => Err e
  | Ok (Ok _ :: records) =>
      Ok (omap (fun r => match r with Ok record => gpu_sample record | Err _ => None end) records)
  end.

(** ["19GB"] is 19. *)
Definition size_gb (size : string) : f64 :=
  if bool_decide (size = "") || bool_decide (size = "unknown") then f0
  else
    let sizeStr := TrimSuffix (TrimSuffix (ToUpper size) "GB") "B" in
    let (v, ok) := ParseFloat sizeStr in
    if ok then v else f0.

(** ["deepseek-r1:32b"]: family and parameter count. *)
Definition family_and_count (name : string) : string * string :=
  match Split name ":"%char with
  | family :: count :: _ => (family, ToUpper count)
  | _ => (name, "")
  end.

Definition model_info (m : BenchmarkMetadata.t) : ModelInfo.t :=
  let (family, count) := family_and_count (BenchmarkMetadata.ModelName m) in
  ModelInfo.mk (BenchmarkMetadata.ModelName m) family count "" (size_gb (BenchmarkMetadata.Size m))
    (BenchmarkMetadata.Runtime m) (BenchmarkMetadata.RuntimeVersion m).
Definition test_config (m : BenchmarkMetadata.t) : TestConfig.t :=
  TestConfig.mk (Z.quot (BenchmarkMetadata.DurationSeconds m) 60) (BenchmarkMetadata.MaxTokens m)
    (BenchmarkMetadata.Prompts m) 1 0.

Definition BuildBenchmarkResult (results : list RequestResult.t) (gpuSamples : list GPUSample.t)
    (hardware : HardwareInfo.t) (model : ModelInfo.t) (testConfig : TestConfig.t)
    (provider location : string) (pricePerHour : f64) (now : time) : BenchmarkResult.t :=
  BenchmarkResult.mk "" now hardware model testConfig (AnalyzeResults results)
    (AnalyzeGPUStats gpuSamples) provider location pricePerHour.

Definition LoadBenchmarkFromDirectory (provider location : string) (pricePerHour : f64) (now : time)
    : res error BenchmarkResult.t :=
  match metadata_json with
  | Err e => Err (EWrap "parsing metadata" e)
  | Ok meta =>
      match ParseResultsJSONL with
      | Err e => Err (EWrap "parsing results" e)
      | Ok results =>
          match ParseGPUCSV with
          | Err e => Err (EWrap "parsing GPU stats" e)
          | Ok gpuSamples =>
              Ok (BuildBenchmarkResult results gpuSamples (BenchmarkMetadata.Hardware meta) (model_info meta)
                    (test_config meta) provider location pricePerHour now)
          end
      end
  end.
End Directory.

(** ** Facts *)
#[export] Instance fle_total : Total fle.
Proof.
  intros a b. unfold fle.
  destruct (is_nan a) eqn:Ha; [right; by apply fltb_nan_l|].
  destruct (is_nan b) eqn:Hb; [left; by apply fltb_nan_l|].
  destruct (fltb b a) eqn:Hlt; [right|by left]. by apply fltb_asym.
Qed.

Definition numeric (x : f64) : Prop := is_nan x = false.

Lemma fle_trans a b c : numeric a -> numeric b -> numeric c -> fle a b -> fle b c -> fle a c.
Proof.
  unfold fle, numeric. intros Ha Hb Hc. rewrite <-!not_true_iff_false, !fltb_key by done.
  unfold key_lt. destruct (fkey a) as [[? ?] ?], (fkey b) as [[? ?] ?], (fkey c) as [[? ?] ?]. lia.
Qed.
Lemma fle_refl a : numeric a -> fle a a.
Proof. apply fltb_irrefl. Qed.

Lemma Float64s_perm l : Float64s l ≡ₚ l.
Proof. apply merge_sort_Permutation. Qed.

(** In the sorted list an element comes after no greater one. *)
Lemma sorted_lookup l i j x y :
  Sorted fle l -> Forall numeric l -> i <= j -> l !! i = Some x -> l !! j = Some y -> fle x y.
Proof.
  revert i j. induction l as [|z l IH]; intros i j Hs Hn Hij Hi Hj; [done|].
  destruct i as [|i]; [|destruct j as [|j]; [lia|]].
  - injection Hi as ->. destruct j as [|j]; [injection Hj as ->; apply fle_refl; by apply Forall_cons in Hn as [? _]|].
    pose proof (Sorted_head_min fle numeric x l fle_trans Hs Hn) as Hmin.
    rewrite Forall_forall in Hmin. eapply Hmin, list_elem_of_lookup_2, Hj.
  - apply Forall_cons in Hn as [_ Hn]. apply Sorted_inv in Hs as [Hs _]. eapply (IH i j); eauto. lia.
Qed.

Lemma percentile_index n p :
  (0 < n)%Z -> (0 <= p <= 100)%Z -> (0 <= Z.quot ((n - 1) * p) 100 <= n - 1)%Z.
Proof.
  intros Hn Hp. rewrite Z.quot_div_nonneg by nia. split; [apply Z.div_pos; nia|].
  apply Z.div_le_upper_bound; nia.
Qed.

(** No index is out of range. *)
Lemma percentile_total l p : (0 <= p <= 100)%Z -> is_Some (percentile l p).
Proof.
  intros Hp. unfold percentile. destruct l as [|x l]; [by eexists|]. apply lookup_lt_is_Some.
  pose proof (percentile_index (Z.of_nat (length (x :: l))) p ltac:(cbn; lia) Hp). lia.
Qed.

Lemma percentile_monotone l p q x y :
  Sorted fle l -> Forall numeric l -> l <> [] -> (0 <= p <= q)%Z -> (q <= 100)%Z ->
  percentile l p = Some x -> percentile l q = Some y -> fle x y.
Proof.
  unfold percentile. destruct l as [|z l]; [done|]. intros Hs Hn _ Hpq Hq Hx Hy.
  eapply sorted_lookup; [exact Hs|exact Hn| |exact Hx|exact Hy].
  clear Hs Hn Hx Hy. set (n := Z.of_nat (length (z :: l))). assert (1 <= n)%Z by (subst n; cbn; lia). clearbody n.
  rewrite !Z.quot_div_nonneg by nia. apply Z2Nat.inj_le; [apply Z.div_pos; nia..|].
  apply Z.div_le_mono; nia.
Qed.

Lemma at_percentile_some l p : (0 <= p <= 100)%Z -> percentile l p = Some (at_percentile l p).
Proof. intros Hp. unfold at_percentile. by destruct (percentile_total l p Hp) as [x ->]. Qed.

Lemma at_percentile_ends l :
  l <> [] -> at_percentile l 0 = default f0 (head l) /\ at_percentile l 100 = default f0 (last l).
Proof.
  destruct l as [|x l]; [done|]. intros _. unfold at_percentile, percentile.
  rewrite Z.mul_0_r. split; [done|]. rewrite Z.quot_mul by done. f_equal.
  rewrite last_lookup. f_equal. cbn. lia.
Qed.

(** C37.  The statistics are values of the sample, in order: minimum, median, 95th and 99th
    percentile, maximum; and the minimum and the maximum bound every value. *)
Theorem stats_of_ordered values s :
  Forall numeric values -> stats_of values = Some s ->
  Forall (fun x => fle (Stats.Min s) x /\ fle x (Stats.Max s)) values /\
  fle (Stats.Min s) (Stats.P50 s) /\ fle (Stats.P50 s) (Stats.P95 s) /\
  fle (Stats.P95 s) (Stats.P99 s) /\ fle (Stats.P99 s) (Stats.Max s) /\
  Forall (fun x => x ∈ values) [Stats.Min s; Stats.P50 s; Stats.P95 s; Stats.P99 s; Stats.Max s].
Proof.
  intros Hn Hs. pose proof (Float64s_perm values) as Hp.
  pose proof (Sorted_merge_sort fle values) as Hsort. change (merge_sort fle values) with (Float64s values) in Hsort.
  unfold stats_of in Hs. destruct values as [|v values]; [done|]. injection Hs as <-.
  set (l := Float64s (v :: values)) in *.
  assert (l <> []) as Hl by (intros Hl; rewrite Hl in Hp; by apply Permutation_nil_l in Hp).
  rewrite <-Hp in Hn. destruct (at_percentile_ends l Hl) as [<- <-].
  cbn [Stats.Min Stats.Max Stats.P50 Stats.P95 Stats.P99].
  assert (forall p q, (0 <= p <= q)%Z -> (q <= 100)%Z -> fle (at_percentile l p) (at_percentile l q)) as Hmono.
  { intros p q Hpq Hq. eapply percentile_monotone; [done..|apply at_percentile_some; lia|apply at_percentile_some; lia]. }
  assert (forall p, (0 <= p <= 100)%Z -> at_percentile l p ∈ v :: values) as Hin.
  { intros p Hp'. rewrite <-Hp. pose proof (at_percentile_some l p Hp') as Hsome.
    unfold percentile in Hsome. destruct l as [|x l']; [done|]. by eapply list_elem_of_lookup_2. }
  split; [|split_and!; [apply Hmono; lia..|]].
  - rewrite <-Hp. apply Forall_forall. intros x [i Hi]%list_elem_of_lookup.
    destruct (at_percentile_ends l Hl) as [-> ->]. pose proof (lookup_lt_Some _ _ _ Hi) as Hlt. split.
    + eapply (sorted_lookup l 0 i); [done..|lia| |exact Hi]. destruct l as [|y l']; done.
    + eapply (sorted_lookup l i (pred (length l))); [done..|lia|exact Hi|]. rewrite <-last_lookup.
      destruct (last l) eqn:E; [done|]. by apply last_None in E.
  - rewrite !Forall_cons, Forall_nil. split_and!; [apply Hin; lia..|done].
Qed.

(** When every request failed, the mean of the tokens per request is 0/0, which JSON cannot
    encode: the result cannot be stored. *)
Theorem all_failed_is_nan results :
  results <> [] -> Forall (fun r => RequestResult.Error r = true) results ->
  PerformanceResults.AvgTokensPerRequest (AnalyzeResults results) = S754_nan.
Proof.
  intros Hne Hall. unfold AnalyzeResults. destruct results as [|r results]; [done|].
  cbn [PerformanceResults.AvgTokensPerRequest]. set (l := r :: results) in *.
  assert (List.filter RequestResult.Error l = l) as Hf.
  { clear Hne. clearbody l. induction Hall as [|x l' Hx _ IH]; cbn; [done|]. by rewrite Hx, IH. }
  assert (succeeded_requests l = []) as Hg.
  { clear Hne Hf. clearbody l. unfold succeeded_requests. induction Hall as [|x l' Hx _ IH]; cbn; [done|]. by rewrite Hx. }
  unfold total_errors, total_tokens. rewrite Hf, Hg, Z.sub_diag. reflexivity.
Qed.

(** The cost analysis is all zeros unless the benchmark has a speed and a price above zero,
    and then the tokens per dollar are the tokens of an hour over its price. *)
Lemma CalculateCostAnalysis_zero r :
  fleb (BenchmarkResult.PricePerHour r) f0 = true \/
  fleb (PerformanceResults.AvgTokensPerSecond (BenchmarkResult.Results r)) f0 = true ->
  CalculateCostAnalysis r = CostAnalysis.zero.
Proof. intros Hz. unfold CalculateCostAnalysis. apply orb_true_iff in Hz. by rewrite Hz. Qed.
