(* ===== verification/Runner.v ===== *)
(** [internal/service/benchmark/runner.go]: benchmark runs.  A run is a dispatcher that
    claims the entries of its manifest and starts a worker for each; a worker rents a
    machine, runs the script on it and stores the result.  Both are programs over the
    effects below ([Programs.v]); SSH, the tickers and JSON are parameters. *)
From S2P Require Import Prelude GoFloat GoLib GoStrings Models Errors Interfaces Database CostTable CreateSession Inventory Template Api Tables Manifest BenchStore Programs.

(** ** Runs *)
Module BenchmarkRunRequest.
Record t := mk {
  Models : list string;
  GPUTypes : list string;
  Providers : list string;
  MaxBudget : f64;
  Priority : Z;
  Location : string
}.
End BenchmarkRunRequest.

Definition RunStatusPending : string := "pending".
Definition RunStatusRunning : string := "running".
Definition RunStatusCompleted : string := "completed".
Definition RunStatusCancelled : string := "cancelled".
Definition RunStatusFailed : string := "failed".

Module BenchmarkRun.
Record t := mk {
  ID : string;
  Status : string;
  Request : BenchmarkRunRequest.t;
  CreatedAt : time;
  UpdatedAt : time;
  TotalEntries : Z;
  Completed : Z;
  Failed : Z;
  Running : Z;
  Pending : Z;
  TotalCost : f64
}.
Definition set_status (v : string) (now : time) (r : t) : t :=
  mk (ID r) v (Request r) (CreatedAt r) now (TotalEntries r) (Completed r) (Failed r) (Running r)
    (Pending r) (TotalCost r).
Definition set_counts (pending running completed failed : Z) (r : t) : t :=
  mk (ID r) (Status r) (Request r) (CreatedAt r) (UpdatedAt r) (TotalEntries r) completed failed running
    pending (TotalCost r).
Definition set_cost (v : f64) (r : t) : t :=
  mk (ID r) (Status r) (Request r) (CreatedAt r) (UpdatedAt r) (TotalEntries r) (Completed r) (Failed r)
    (Running r) (Pending r) v.
End BenchmarkRun.

(** ** Effects *)

(** Where a machine is reached. *)
Module SSHTarget.
Record t := mk { Host : string; Port : Z; User : string; Key : string }.
End SSHTarget.

Inductive runnerE : Type -> Type :=
(* the runtime *)
| Now : runnerE time
| Uuid (prefix : string) : runnerE string
| Sleep (d : duration) : runnerE unit
| IntN : runnerE (Z -> Z)
| Panic : runnerE Empty_set
(** whether the context of the run has ended *)
| CtxDone : runnerE bool
(** [case <-ctx.Done()] against [case <-time.After(d)]: whether the context ends first *)
| Stagger (d : duration) : runnerE bool
(** the ticks of that period that are received before the timeout, or the end of the run *)
| Ticks (timeout period : duration) : runnerE nat
(** the provisioning gate, [false] when the context of the run ends first *)
| AcquireGate : runnerE bool
| ReleaseGate : runnerE unit
| StartWorker (entry : ManifestEntry.t) : runnerE unit
| WaitWorkers : runnerE unit
(* the services *)
| ListOffers (filter : OfferFilter.t) : runnerE (result (list GPUOffer.t))
| HasTemplates (provider : string) : runnerE bool
| CompatibleTemplates (provider offerID : string) : runnerE (result (list CompatibleTemplate.t))
| RecordOfferFailure (offerID provider gpuType failureType reason : string) : runnerE unit
| EvictOffer (offerID : string) : runnerE unit
| CreateSession (req : CreateSessionRequest.t) (offer : GPUOffer.t) : runnerE (result Session.t)
| GetSession (id : string) : runnerE (result Session.t)
| DestroySession (id : string) : runnerE (option error)
(* the manifest and the results *)
| CreateEntry (entry : ManifestEntry.t) : runnerE (option error)
| GetPending (runID : string) (limit : nat) : runnerE (result (list ManifestEntry.t))
| ListEntries (c : Ctx) (runID : string) : runnerE (result (list ManifestEntry.t))
| Summary (c : Ctx) (runID : string) : runnerE (result (string -> Z))
| TotalCost (c : Ctx) (runID : string) : runnerE (result f64)
| Claim (id workerID outputFile : string) : runnerE (option error)
| UpdateEntry (entry : ManifestEntry.t) : runnerE (option error)
| Succeed (id benchmarkID : string) (tps cost : f64) : runnerE (option error)
| FailEntry (c : Ctx) (id reason stage : string) : runnerE (option error)
| TimeOut (id stage : string) : runnerE (option error)
| SaveResult (result : BenchmarkResult.t) : runnerE (option error * BenchmarkResult.t)
(* SSH *)
| SCPWrite (to : SSHTarget.t) (path content : string) : runnerE (option error)
| RunCommand (to : SSHTarget.t) (command : string) : runnerE (result string)
(* the run, shared with the methods that look at it and cancel it *)
| ReadRun (runID : string) : runnerE (option BenchmarkRun.t)
| WriteRun (runID : string) (f : BenchmarkRun.t -> BenchmarkRun.t) : runnerE unit
| AddRun (run : BenchmarkRun.t) : runnerE unit
| AddCancel (runID : string) : runnerE unit
| StartProcess (runID : string) : runnerE unit
(** under the lock: whether the function that ends the context is known, and the run *)
| FindRun (runID : string) : runnerE (bool * option BenchmarkRun.t)
| CancelContext (runID : string) : runnerE unit
(** under the lock: end the context if it is known, and forget it *)
| EndRun (runID : string) : runnerE unit.

Definition program (A : Type) : Type := prog runnerE A.
Abbreviation perform := (@trigger runnerE _).

(** An effect whose error is only logged. *)
Definition log_error (e : runnerE (option error)) : program unit :=
  let* _ := perform e in Return tt.
Definition panic {A} : program A := let* x := perform Panic in match x : Empty_set with end.

(** ** Choosing an offer *)
Section Runner.
Context `{BenchEngine}.
(** [sort.Slice], and the script read when the runner was made. *)
Context (sort_Slice : (GPUOffer.t -> GPUOffer.t -> bool) -> list GPUOffer.t -> list GPUOffer.t).
Context (scriptContent : string).

Definition ollamaTemplateHash : string := "38a9dab633743d43107eb9a80d4ada9e".

Definition excludes (failedOfferIDs failedMachineIDs : list string) (o : GPUOffer.t) : bool :=
  bool_decide (GPUOffer.ID o ∈ failedOfferIDs) ||
  (negb (bool_decide (GPUOffer.MachineID o = "")) &&
   bool_decide (GPUOffer.MachineID o ∈ failedMachineIDs)).
Definition exclude_failed (failedOfferIDs failedMachineIDs : list string) (offers : list GPUOffer.t)
    : list GPUOffer.t :=
  List.filter (fun o => negb (excludes failedOfferIDs failedMachineIDs o)) offers.

Fixpoint compatible_offers (provider : string) (offers : list GPUOffer.t) : program (list GPUOffer.t) :=
  match offers with
  | [] => Return []
  | o :: offers' =>
      let* r := perform (CompatibleTemplates provider (GPUOffer.ID o)) in
      let* rest := compatible_offers provider offers' in
      Return match r with
             | Err _ => rest
             | Ok templates =>
                 if existsb (fun t => bool_decide (CompatibleTemplate.HashID t = ollamaTemplateHash)) templates
                 then o :: rest else rest
             end
  end.
(** Vast.ai: the offers compatible with the template, if there are any. *)
Definition prefer_compatible (provider : string) (offers : list GPUOffer.t) : program (list GPUOffer.t) :=
  if negb (bool_decide (provider = "vastai")) then Return offers
  else
    let* templates := perform (HasTemplates "vastai") in
    if negb templates then Return offers
    else
      let* compatible := compatible_offers "vastai" offers in
      Return match compatible with [] => offers | _ => compatible end.

Definition prefer_single (offers : list GPUOffer.t) : list GPUOffer.t :=
  match List.filter (fun o => (GPUOffer.GPUCount o =? 1)%Z) offers with
  | [] => offers
  | singleGPU => singleGPU
  end.
Definition cheaper (a b : GPUOffer.t) : bool := fltb (GPUOffer.PricePerHour a) (GPUOffer.PricePerHour b).

(** [SelectFromTopN(offers, 5, 1.5)]; a nil offer is dereferenced at once. *)
Definition pick_offer (offers : list GPUOffer.t) : program GPUOffer.t :=
  let* draw := perform IntN in
  match SelectFromTopN draw (sort_Slice cheaper (prefer_single offers)) 5 (f64_lit 3 2) with
  | SelOffer o => Return o
  | SelNil | SelPanic => panic
  end.

Definition create_request (entry : ManifestEntry.t) (attempt : Z) (offer : GPUOffer.t)
    : CreateSessionRequest.t :=
  let vast := bool_decide (ManifestEntry.Provider entry = "vastai") in
  let blue := bool_decide (ManifestEntry.Provider entry = "bluelobster") in
  CreateSessionRequest.mk ("bench-" +:+ ManifestEntry.ID entry +:+ "-" +:+ Itoa attempt)
    (GPUOffer.ID offer) "benchmark" 1 0 "" "" "" "" [] ""
    (if vast then ollamaTemplateHash else "") (if vast || blue then 64 else 0)%Z
    true 2 "same_gpu" "" 0 0 0%Z.

(** ** One attempt *)

(** [success, shouldRetry, machineID] and the entry as the attempt leaves it. *)
Definition attempt_result : Type := bool * bool * string * ManifestEntry.t.

Definition cleanupSession (sessionID : string) : program unit := log_error (DestroySession sessionID).

Definition reportOfferFailure (offerID provider gpuType failureType reason : string) : program unit :=
  if bool_decide (offerID = "") then Return tt
  else
    do* perform (RecordOfferFailure offerID provider gpuType failureType reason) in
    perform (EvictOffer offerID).

Definition no_offers (entry : ManifestEntry.t) : string :=
  "no offers available for " +:+ ManifestEntry.GPUType entry +:+ " on " +:+ ManifestEntry.Provider entry.
Definition none_remaining (n : nat) (entry : ManifestEntry.t) : string :=
  "no offers remaining after excluding " +:+ Itoa (Z.of_nat n) +:+ " failed offers for " +:+
  ManifestEntry.GPUType entry +:+ " on " +:+ ManifestEntry.Provider entry.

(** Step 1: the offers to choose from, or why there are none. *)
Definition find_offers (location : string) (entry : ManifestEntry.t)
    (failedOfferIDs failedMachineIDs : list string) : program (res string (list GPUOffer.t)) :=
  let* r := perform (ListOffers (OfferFilter.mk (ManifestEntry.Provider entry) (ManifestEntry.GPUType entry)
                                   0 f0 location f0 0 f0 f0)) in
  match r with
  | Err e => Return (Err (Error e))
  | Ok [] => Return (Err (no_offers entry))
  | Ok offers =>
      match exclude_failed failedOfferIDs failedMachineIDs offers with
      | [] => Return (Err (none_remaining (length failedOfferIDs) entry))
      | remaining => let* offers := prefer_compatible (ManifestEntry.Provider entry) remaining in Return (Ok offers)
      end
  end.

(** The session in the way of a duplicate request. *)
Definition duplicate_of (e : error) : option string :=
  error_find (fun x => match x with DuplicateSessionError _ _ sid _ => Some sid | _ => None end) e.

(** Steps 1 and 2, with the gate held: the outcome when it fails, or session and offer. *)
Definition provision (location : string) (entry : ManifestEntry.t) (attempt : Z)
    (failedOfferIDs failedMachineIDs : list string)
    : program (attempt_result + Session.t * GPUOffer.t * ManifestEntry.t) :=
  let* found := find_offers location entry failedOfferIDs failedMachineIDs in
  match found with
  | Err reason =>
      do* log_error (FailEntry RunCtx (ManifestEntry.ID entry) reason "find_offer") in
      Return (inl (false, false, "", entry))
  | Ok offers =>
      let* offer := pick_offer offers in
      let entry := ManifestEntry.set_offer (GPUOffer.ID offer) (GPUOffer.PricePerHour offer) entry in
      let* r := perform (CreateSession (create_request entry attempt offer) offer) in
      match r with
      | Err e =>
          do* match duplicate_of e with Some id => cleanupSession id | None => Return tt end in
          do* log_error (FailEntry RunCtx (ManifestEntry.ID entry) (Error e) "provision") in
          Return (inl (false, true, GPUOffer.MachineID offer, entry))
      | Ok session =>
          let entry := ManifestEntry.set_SessionID (Session.ID session) entry in
          do* log_error (UpdateEntry entry) in
          Return (inr (session, offer, entry))
      end
  end.

Definition Seconds (n : Z) : duration := dur_mul n Second.
Definition Minutes_ (n : Z) : duration := dur_mul n Minute.

Section Benchmark.
(** The session that was rented, its offer, and the entry. *)
Context (session : Session.t) (offer : GPUOffer.t) (entry : ManifestEntry.t).

Definition is_bluelobster : bool := bool_decide (ManifestEntry.Provider entry = "bluelobster").

(** The attempt has failed: the entry is marked, the offer reported when [report] says what
    for, and the session destroyed. *)
Definition fail_attempt (mark : runnerE (option error)) (report : option (string * string))
    : program unit :=
  do* log_error mark in
  do* match report with
      | Some (failureType, reason) =>
          reportOfferFailure (GPUOffer.ID offer) (ManifestEntry.Provider entry)
            (ManifestEntry.GPUType entry) failureType reason
      | None => Return tt
      end in
  cleanupSession (Session.ID session).
Definition mark_failed (reason stage : string) : runnerE (option error) :=
  FailEntry RunCtx (ManifestEntry.ID entry) reason stage.
Definition mark_timeout (stage : string) : runnerE (option error) := TimeOut (ManifestEntry.ID entry) stage.

(** Step 3: [Some] machine when the session runs and can be reached. *)
Fixpoint wait_running (ticks : nat) : program (option SSHTarget.t) :=
  match ticks with
  | O =>
      do* fail_attempt (mark_timeout "ssh_wait") (Some ("ssh_timeout", "benchmark SSH wait timeout")) in
      Return None
  | S ticks' =>
      let* r := perform (GetSession (Session.ID session)) in
      match r with
      | Err _ => wait_running ticks'
      | Ok s =>
          if bool_decide (Session.Status s = StatusFailed) then
            do* fail_attempt (mark_failed (Session.Error s) "provision")
                  (Some ("session_failed", Session.Error s)) in
            Return None
          else if bool_decide (Session.Status s = StatusRunning) &&
                  negb (bool_decide (Session.SSHHost s = "")) then
            Return (Some (SSHTarget.mk (Session.SSHHost s) (Session.SSHPort s) (Session.SSHUser s)
                            (Session.SSHPrivateKey session)))
          else wait_running ticks'
      end
  end.

(** Step 3.5: [waitForSystemReady]. *)
Definition readiness_command : string :=
  "fuser /var/lib/dpkg/lock-frontend >/dev/null 2>&1 && echo LOCKED || " +:+
  "(nvidia-smi --query-gpu=name --format=csv,noheader 2>/dev/null | head -1 | grep -q '[A-Za-z]' && echo READY || echo NOT_READY)".
Definition readiness_timeout : error := EOpaque "system readiness timeout after 30 minutes".
Fixpoint poll_ready (to : SSHTarget.t) (ticks : nat) : program (option error) :=
  match ticks with
  | O => Return (Some readiness_timeout)
  | S ticks' =>
      let* r := perform (RunCommand to readiness_command) in
      match r with
      | Ok output => if bool_decide (TrimSpace output = "READY") then Return None else poll_ready to ticks'
      | Err _ => poll_ready to ticks'
      end
  end.
Definition waitForSystemReady (to : SSHTarget.t) : program (option error) :=
  if negb is_bluelobster then Return None
  else let* ticks := perform (Ticks (Minutes_ 30) (Seconds 30)) in poll_ready to ticks.

(** Step 4: the script is copied, with retries; the error of the last attempt. *)
Definition upload_once (to : SSHTarget.t) : program (option error) :=
  let* e := perform (SCPWrite to "/tmp/gpu-benchmark.sh" scriptContent) in
  match e with
  | Some e => Return (Some e)
  | None =>
      let* r := perform (RunCommand to "chmod +x /tmp/gpu-benchmark.sh") in
      Return match r with Err e => Some e | Ok _ => None end
  end.
Fixpoint upload (to : SSHTarget.t) (backoff uploadAttempt : Z) (left : nat) (last : option error)
    : program (option error) :=
  match left with
  | O => Return last
  | S left' =>
      do* (if (1 <? uploadAttempt)%Z then perform (Sleep (Seconds (uploadAttempt * backoff))) else Return tt) in
      let* e := upload_once to in
      match e with
      | None => Return None
      | Some e => upload to backoff (uploadAttempt + 1) left' (Some e)
      end
  end.
Definition upload_script (to : SSHTarget.t) : program (option error) :=
  if is_bluelobster then upload to 15 1 5 None else upload to 10 1 3 None.

Definition buildBenchmarkOnStartCmd (model sessionID : string) (pricePerHour : f64) (provider location : string)
    : string :=
  "nohup /tmp/gpu-benchmark.sh " +:+ shellQuote model +:+ " " +:+ shellQuote sessionID +:+ " " +:+
  fmt_fixed 4 pricePerHour +:+ " " +:+ shellQuote provider +:+ " " +:+ shellQuote location +:+
  " > /tmp/benchmark.log 2>&1 &".

(** The machine gets the script and starts it; whether that worked. *)
Definition deploy (to : SSHTarget.t) : program bool :=
  let* e := waitForSystemReady to in
  match e with
  | Some e =>
      do* fail_attempt (mark_failed ("system not ready: " +:+ Error e) "readiness")
            (Some ("readiness_timeout", "system not ready: " +:+ Error e)) in
      Return false
  | None =>
      if bool_decide (scriptContent = "") then
        do* fail_attempt (mark_failed "benchmark script not loaded" "deploy") None in Return false
      else
        let* e := upload_script to in
        match e with
        | Some e =>
            do* fail_attempt (mark_failed ("script upload failed: " +:+ Error e) "deploy")
                  (Some ("deploy_failed", "script upload failed: " +:+ Error e)) in
            Return false
        | None =>
            let* r := perform (RunCommand to (buildBenchmarkOnStartCmd (ManifestEntry.Model entry)
                        (Session.ID session) (GPUOffer.PricePerHour offer) (ManifestEntry.Provider entry)
                        (GPUOffer.Location offer))) in
            match r with
            | Err e =>
                do* fail_attempt (mark_failed ("deploy failed: " +:+ Error e) "deploy") None in Return false
            | Ok _ => Return true
            end
        end
  end.

(** Step 5: the text of the result. *)
Fixpoint collect_results (to : SSHTarget.t) (ticks : nat) : program (option string) :=
  match ticks with
  | O => do* fail_attempt (mark_timeout "result_collection") None in Return None
  | S ticks' =>
      let* failed := perform (RunCommand to "test -f /tmp/benchmark_failed && cat /tmp/benchmark_failed") in
      match match failed with
            | Ok out => if bool_decide (TrimSpace out = "") then None else Some (TrimSpace out)
            | Err _ => None
            end with
      | Some out => do* fail_attempt (mark_failed ("script crashed: " +:+ out) "script_crash") None in Return None
      | None =>
          let* r := perform (RunCommand to "test -f /tmp/benchmark_complete && cat /tmp/benchmark_result.json") in
          match r with
          | Err _ =>
              do* perform (RunCommand to "tail -1 /tmp/benchmark.log 2>/dev/null || echo 'no log yet'") in
              collect_results to ticks'
          | Ok output =>
              if bool_decide (TrimSpace output = "") then collect_results to ticks'
              else Return (Some (TrimSpace output))
          end
      end
  end.

(** Steps 6 and 7: the result is stored and the entry marked; whether that worked. *)
Definition store_result (resultJSON : string) : program bool :=
  match json_Unmarshal resultJSON with
  | Err e =>
      do* fail_attempt (mark_failed ("invalid result JSON: " +:+ Error e) "parse") None in Return false
  | Ok result =>
      let* saved := perform (SaveResult result) in
      match saved.1 with
      | Some e => do* fail_attempt (mark_failed ("save failed: " +:+ Error e) "save") None in Return false
      | None =>
          let* now := perform Now in
          let totalCost := fmul (Hours (Sub now (Session.CreatedAt session))) (GPUOffer.PricePerHour offer) in
          do* log_error (Succeed (ManifestEntry.ID entry) (BenchmarkResult.ID saved.2)
                (PerformanceResults.AvgTokensPerSecond (BenchmarkResult.Results saved.2)) totalCost) in
          do* cleanupSession (Session.ID session) in
          Return true
      end
  end.

(** Steps 3 to 7: whether the attempt succeeded. *)
Definition benchmark : program bool :=
  let* ticks := perform (Ticks (Minutes_ 15) (Seconds 30)) in
  let* machine := wait_running ticks in
  match machine with
  | None => Return false
  | Some to =>
      let* deployed := deploy to in
      if negb deployed then Return false
      else
        let* ticks := perform (Ticks (if is_bluelobster then Minutes_ 60 else Minutes_ 30) (Seconds 30)) in
        let* resultJSON := collect_results to ticks in
        match resultJSON with None => Return false | Some text => store_result text end
  end.
End Benchmark.

Definition processEntryOnce (location : string) (entry : ManifestEntry.t) (attempt : Z)
    (failedOfferIDs failedMachineIDs : list string) : program attempt_result :=
  let* held := perform AcquireGate in
  if negb held then Return (false, false, "", entry)
  else
    let* r := provision location entry attempt failedOfferIDs failedMachineIDs in
    do* perform ReleaseGate in
    match r with
    | inl outcome => Return outcome
    | inr (session, offer, entry) =>
        let* success := benchmark session offer entry in
        Return (success, true, GPUOffer.MachineID offer, entry)
    end.

(** ** A worker *)
Definition maxAttempts : nat := 2.

(** Before a retry: the session of the last attempt is destroyed and forgotten. *)
Definition prepare_retry (entry : ManifestEntry.t) : program ManifestEntry.t :=
  do* (if bool_decide (ManifestEntry.SessionID entry = "") then Return tt
       else cleanupSession (ManifestEntry.SessionID entry)) in
  let entry := ManifestEntry.set_offer "" (ManifestEntry.PriceHour entry)
                 (ManifestEntry.set_SessionID "" entry) in
  do* perform (Sleep (Seconds 10)) in Return entry.

Definition noted (id : string) (ids : list string) : list string :=
  if bool_decide (id = "") then ids else ids ++ [id].

Fixpoint attempts (location : string) (entry : ManifestEntry.t) (attempt : Z) (left : nat)
    (failedOfferIDs failedMachineIDs : list string) : program unit :=
  match left with
  | O =>
      log_error (FailEntry Background (ManifestEntry.ID entry)
        ("all " +:+ Itoa (Z.of_nat maxAttempts) +:+ " attempts failed") "retry_exhausted")
  | S left' =>
      let* entry := if (1 <? attempt)%Z then prepare_retry entry else Return entry in
      let* r := processEntryOnce location entry attempt failedOfferIDs failedMachineIDs in
      let '(success, shouldRetry, lastMachineID, entry) := r in
      if success then Return tt
      else
        let failedOfferIDs := noted (ManifestEntry.OfferID entry) failedOfferIDs in
        let failedMachineIDs := noted lastMachineID failedMachineIDs in
        if negb shouldRetry then Return tt
        else
          let* done := perform CtxDone in
          if done then
            log_error (FailEntry Background (ManifestEntry.ID entry) "run cancelled" "cancelled")
          else attempts location entry (attempt + 1) left' failedOfferIDs failedMachineIDs
  end.
Definition processEntry (location : string) (entry : ManifestEntry.t) : program unit :=
  attempts location entry 1 maxAttempts [] [].
End Runner.
