(* ===== verification/BenchRuns.v ===== *)
(** The rest of [internal/service/benchmark/runner.go]: the dispatcher of a run and the
    methods of the runner, and what the effects do to the services. *)
From S2P Require Import Prelude GoFloat GoLib GoStrings Models Errors Interfaces Database CostTable Inventory Template Api Tables Manifest BenchStore Programs Runner.

Section Runs.
(** The run: its identifier and request, which nothing changes. *)
Context (runID : string) (req : BenchmarkRunRequest.t).

Definition orElse {A} (default : A) (r : result A) : A :=
  match r with Ok a => a | Err _ => default end.

(** ** The end of a run *)
Definition settled_status (r : BenchmarkRun.t) : string :=
  if ((BenchmarkRun.Pending r =? 0) && (BenchmarkRun.Running r =? 0))%Z then
    if ((0 <? BenchmarkRun.Failed r) && (BenchmarkRun.Completed r =? 0))%Z
    then RunStatusFailed else RunStatusCompleted
  else BenchmarkRun.Status r.
Definition refreshed (summary : string -> Z) (cost : f64) (now : time) (r : BenchmarkRun.t) : BenchmarkRun.t :=
  let r := BenchmarkRun.set_counts (summary ManifestStatusPending) (summary ManifestStatusRunning)
             (Z.max (summary ManifestStatusSuccess) (BenchmarkRun.Completed r))
             (Z.max (summary ManifestStatusFailed + summary ManifestStatusTimeout) (BenchmarkRun.Failed r)) r in
  let r := if fgtb cost (BenchmarkRun.TotalCost r) then BenchmarkRun.set_cost cost r else r in
  BenchmarkRun.set_status (settled_status r) now r.

Definition updateRunStatus : program unit :=
  let* run := perform (ReadRun runID) in
  match run with
  | None => Return tt
  | Some run =>
      if bool_decide (BenchmarkRun.Status run = RunStatusCancelled) then Return tt
      else
        let* summary := perform (Summary Background runID) in
        let* cost := perform (TotalCost Background runID) in
        let* now := perform Now in
        perform (WriteRun runID (refreshed (orElse (fun _ => 0%Z) summary) (orElse f0 cost) now))
  end.

Definition cleanup_entry (entry : ManifestEntry.t) : program unit :=
  if bool_decide (ManifestEntry.SessionID entry = "") then Return tt
  else
    let* r := perform (GetSession (ManifestEntry.SessionID entry)) in
    match r with
    | Err _ => Return tt
    | Ok s =>
        if bool_decide (Session.Status s = StatusRunning) || bool_decide (Session.Status s = StatusProvisioning)
        then cleanupSession (ManifestEntry.SessionID entry) else Return tt
    end.
Definition each {A} (body : A -> program unit) (x : A) : program (option unit) :=
  do* body x in Return None.
Definition cleanupRunSessions : program unit :=
  let* r := perform (ListEntries Background runID) in
  match r with
  | Err _ => Return tt
  | Ok entries => do* pfor entries (each cleanup_entry) in Return tt
  end.

(** The deferred function of [processRun]. *)
Definition finish_run : program unit :=
  do* perform (EndRun runID) in cleanupRunSessions.

(** ** The dispatcher *)

(** [for i, entry := range entries]: whether the context ended on the way. *)
Fixpoint dispatch (entries : list ManifestEntry.t) : program bool :=
  match entries with
  | [] => Return false
  | entry :: rest =>
      let* workerID := perform (Uuid "worker-") in
      let* e := perform (Claim (ManifestEntry.ID entry) workerID "") in
      match e with
      | Some _ => dispatch rest
      | None =>
          let* ended := perform CtxDone in
          if ended then Return true
          else
            do* perform (StartWorker (ManifestEntry.set_Status ManifestStatusRunning entry)) in
            match rest with
            | [] => Return false
            | _ =>
                let* ended := perform (Stagger (500 * 1000000)%Z) in
                if ended then Return true else dispatch rest
            end
      end
  end.

Definition over_budget : program bool :=
  if fgtb (BenchmarkRunRequest.MaxBudget req) f0 then
    let* cost := perform (TotalCost RunCtx runID) in
    Return (fgeb (orElse f0 cost) (BenchmarkRunRequest.MaxBudget req))
  else Return false.

(** One round of the loop: go on, break, or return at once because the context ended,
    with or without an update of the status. *)
Inductive Round := Again | Break | Ended | EndedQuietly.
Definition next_round : program Round :=
  let* ended := perform CtxDone in
  if ended then do* perform WaitWorkers in Return EndedQuietly
  else
    let* r := perform (GetPending runID 1000) in
    match r with
    | Err _ => Return Break
    | Ok [] =>
        do* perform WaitWorkers in
        let* remaining := perform (GetPending runID 1) in
        Return match orElse [] remaining with [] => Break | _ => Again end
    | Ok entries =>
        let* exhausted := over_budget in
        if exhausted then Return Break
        else
          let* ended := dispatch entries in
          if ended then do* perform WaitWorkers in Return Ended else Return Again
    end.

(** [fuel] bounds the rounds; [false] when they were not enough. *)
Fixpoint rounds (fuel : nat) : program bool :=
  match fuel with
  | O => Return false
  | S fuel' =>
      let* r := next_round in
      match r with
      | Again => rounds fuel'
      | Break => do* perform WaitWorkers in do* updateRunStatus in Return true
      | Ended => do* updateRunStatus in Return true
      | EndedQuietly => Return true
      end
  end.
Definition processRun (fuel : nat) : program bool :=
  let* now := perform Now in
  do* perform (WriteRun runID (BenchmarkRun.set_status RunStatusRunning now)) in
  let* finished := rounds fuel in
  if finished then do* finish_run in Return true else Return false.
End Runs.

(** ** The methods *)
Definition run_not_found (runID : string) : error := EOpaque ("run not found: " +:+ runID).

(** The GPU types of the offers, each once, in the order of its first offer. *)
Fixpoint distinct (seen : list string) (l : list string) : list string :=
  match l with
  | [] => []
  | x :: l' => if bool_decide (x ∈ seen) then distinct seen l' else x :: distinct (x :: seen) l'
  end.

Definition default_providers : list string := ["vastai"; "bluelobster"; "tensordock"].
Definition new_entry (runID : string) (req : BenchmarkRunRequest.t) (model gpu prov : string) : ManifestEntry.t :=
  ManifestEntry.mk "" runID gpu prov model "" (BenchmarkRunRequest.Priority req) "" "" "" "" f0 "" f0 f0 "" ""
    zero_time None None.
Definition run_entries (runID : string) (req : BenchmarkRunRequest.t) (gpuTypes : list string)
    : list ManifestEntry.t :=
  let providers := match BenchmarkRunRequest.Providers req with [] => default_providers | l => l end in
  model ← BenchmarkRunRequest.Models req; gpu ← gpuTypes; prov ← providers; [new_entry runID req model gpu prov].

Definition create_entry (entry : ManifestEntry.t) : program (option error) := perform (CreateEntry entry).

Definition StartRun (req : BenchmarkRunRequest.t) : program (result BenchmarkRun.t) :=
  match BenchmarkRunRequest.Models req with
  | [] => Return (Err (EOpaque "at least one model is required"))
  | _ =>
      let* runID := perform (Uuid "run-") in
      let* now := perform Now in
      let* gpuTypes :=
        match BenchmarkRunRequest.GPUTypes req with
        | [] =>
            let* r := perform (ListOffers OfferFilter.empty) in
            Return match r with
                   | Err e => Err (EWrap "failed to list offers" e)
                   | Ok offers => Ok (distinct [] (GPUOffer.GPUType <$> offers))
                   end
        | l => Return (Ok l)
        end in
      match gpuTypes with
      | Err e => Return (Err e)
      | Ok gpuTypes =>
          let entries := run_entries runID req gpuTypes in
          let* failed := pfor entries create_entry in
          match failed with
          | Some e => Return (Err (EWrap "failed to create manifest entry" e))
          | None =>
              let n := Z.of_nat (length entries) in
              let run := BenchmarkRun.mk runID RunStatusPending req now now n 0 0 0 n f0 in
              do* perform (AddRun run) in
              do* perform (AddCancel runID) in
              do* perform (StartProcess runID) in
              Return (Ok run)
          end
      end
  end.

Definition GetRun (runID : string) : program (result BenchmarkRun.t) :=
  let* run := perform (ReadRun runID) in
  match run with
  | None => Return (Err (run_not_found runID))
  | Some snapshot =>
      let* summary := perform (Summary RunCtx runID) in
      let snapshot := match summary with
        | Ok c => BenchmarkRun.set_counts (c ManifestStatusPending) (c ManifestStatusRunning)
                    (c ManifestStatusSuccess) (c ManifestStatusFailed + c ManifestStatusTimeout) snapshot
        | Err _ => snapshot
        end in
      let* cost := perform (TotalCost RunCtx runID) in
      Return (Ok match cost with Ok c => BenchmarkRun.set_cost c snapshot | Err _ => snapshot end)
  end.

Definition GetRunEntries (runID : string) : program (result (list ManifestEntry.t)) :=
  perform (ListEntries RunCtx runID).

Definition CancelRun (runID : string) : program (option error) :=
  let* found := perform (FindRun runID) in
  if negb found.1 then Return (Some (run_not_found runID))
  else
    do* perform (CancelContext runID) in
    do* match found.2 with
        | Some _ =>
            let* now := perform Now in
            perform (WriteRun runID (BenchmarkRun.set_status RunStatusCancelled now))
        | None => Return tt
        end in
    Return None.
