(* ===== verification/RunnerFacts.v ===== *)
(** What the workers of a benchmark run do, whatever the services and the machines answer:
    every machine they rent is given back, one of them rents at a time, and every entry
    they are given is settled. *)
From S2P Require Import Prelude GoFloat GoLib GoStrings Models Errors Interfaces Database CostTable CreateSession Inventory Template Api Tables Manifest BenchStore Programs Runner.

(** ** What an event says *)
(** The session that was rented. *)
Definition opened (x : event runnerE) : option string :=
  match x with
  | Ev e b =>
      match e in runnerE B return B -> option string with
      | CreateSession _ _ => fun r => match r with Ok s => Some (Session.ID s) | Err _ => None end
      | _ => fun _ => None
      end b
  end.
(** The session whose destruction was asked for. *)
Definition closed (x : event runnerE) : option string :=
  match x with Ev (DestroySession id) _ => Some id | _ => None end.
(** The sessions that were rented and whose destruction was not asked for since; one is
    rented only when there is none. *)
Definition rented : monitor runnerE (list string) :=
  mk_monitor
    (fun x live =>
       match opened x, closed x with
       | Some id, _ => id :: live
       | None, Some id => List.filter (fun i => negb (bool_decide (i = id))) live
       | None, None => live
       end)
    (fun x live => opened x <> None -> live = [])
    (fun _ _ => True).

(** The gate. *)
Definition takes_gate (x : event runnerE) : bool :=
  match x with
  | Ev e b => match e in runnerE B return B -> bool with AcquireGate => fun held => held | _ => fun _ => false end b
  end.
Definition gives_gate (x : event runnerE) : bool :=
  match x with Ev ReleaseGate _ => true | _ => false end.
(** Looking for an offer and renting a machine. *)
Definition rents (x : event runnerE) : bool :=
  match x with Ev (ListOffers _) _ | Ev (CreateSession _ _) _ => true | _ => false end.

Definition gate : monitor runnerE bool := lock_monitor takes_gate gives_gate rents.

(** The status a statement that was accepted has written to the entry. *)
Definition wrote (id : string) (x : event runnerE) : option string :=
  match x with
  | Ev e b =>
      match e in runnerE B return B -> option string with
      | FailEntry _ i _ _ => fun r => if bool_decide (i = id /\ r = None) then Some ManifestStatusFailed else None
      | TimeOut i _ => fun r => if bool_decide (i = id /\ r = None) then Some ManifestStatusTimeout else None
      | Succeed i _ _ _ => fun r => if bool_decide (i = id /\ r = None) then Some ManifestStatusSuccess else None
      | UpdateEntry entry => fun r =>
          if bool_decide (ManifestEntry.ID entry = id /\ r = None) then Some (ManifestEntry.Status entry) else None
      | _ => fun _ => None
      end b
  end.
(** The result was stored. *)
Definition stored (x : event runnerE) : bool :=
  match x with
  | Ev e b =>
      match e in runnerE B return B -> bool with
      | SaveResult _ => fun r => bool_decide (r.1 = None)
      | _ => fun _ => false
      end b
  end.
(** The gate is granted, and the database accepts the statements on the manifest. *)
Definition served (x : event runnerE) : Prop :=
  match x with
  | Ev e b =>
      match e in runnerE B return B -> Prop with
      | AcquireGate => fun held => held = true
      | FailEntry _ _ _ _ | TimeOut _ _ | Succeed _ _ _ _ | UpdateEntry _ => fun r => r = None
      | _ => fun _ => True
      end b
  end.
(** What is recorded of the entry [id]: its status, and whether its result was stored. *)
Definition recorded (id : string) : monitor runnerE (option string * bool) :=
  mk_monitor
    (fun x s => (match wrote id x with Some status => Some status | None => s.1 end, s.2 || stored x))
    (fun _ _ => True)
    (fun x _ => served x).

(** Not yet stored; or stored and marked as a success. *)
Definition unstored (s : option string * bool) : Prop := s.2 = false.
Definition succeeded (s : option string * bool) : Prop := s = (Some ManifestStatusSuccess, true).
Definition given_up (s : option string * bool) : Prop := s = (Some ManifestStatusFailed, false).

(** ** Stepping through a program *)
Ltac monitor_red :=
  cbn [next allowed assumed rented opened closed gate lock_monitor takes_gate gives_gate rents
       recorded served stored fst snd].
Ltac watch_event :=
  apply watch_trigger; monitor_red; intros ? ?; split; [by intros|];
  repeat match goal with u : unit |- _ => destruct u end.
Ltac watch_step :=
  match goal with
  | |- watch _ (pbind _ _) _ _ => apply watch_bind
  | |- watch _ (Return _) _ _ => apply watch_ret
  | |- watch _ (trigger _) _ _ => watch_event
  | |- watch _ (log_error _) _ _ => apply watch_bind; watch_event; apply watch_ret
  | |- watch _ (match ?x with _ => _ end) _ _ => destruct x eqn:?
  | |- watch _ (let _ := _ in _) _ _ => cbv zeta
  end.

Section Workers.
Context `{BenchEngine}.
Context (sort_Slice : (GPUOffer.t -> GPUOffer.t -> bool) -> list GPUOffer.t -> list GPUOffer.t).
Context (scriptContent : string).

(** ** What the parts of an attempt perform *)

(** Effects on the machine, and waiting. *)
Definition remote (B : Type) (e : runnerE B) : bool :=
  match e with SCPWrite _ _ _ | RunCommand _ _ | Ticks _ _ | Sleep _ => true | _ => false end.
(** The choice of an offer. *)
Definition chooses (B : Type) (e : runnerE B) : bool :=
  match e with
  | ListOffers _ | HasTemplates _ | CompatibleTemplates _ _ | IntN | Panic => true
  | _ => false
  end.

(** What a worker does without the gate: all but looking for offers, renting and the gate. *)
Definition ungated (B : Type) (e : runnerE B) : bool :=
  match e with AcquireGate | ReleaseGate | ListOffers _ | CreateSession _ _ => false | _ => true end.
(** All but the gate. *)
Definition gated (B : Type) (e : runnerE B) : bool :=
  match e with AcquireGate | ReleaseGate => false | _ => true end.
(** All but storing a result, or marking an entry as successful. *)
Definition unsaved (B : Type) (e : runnerE B) : bool :=
  match e with SaveResult _ => false | _ => true end.
Definition milder (P Q : forall B, runnerE B -> bool) : Prop := forall B e, P B e = true -> Q B e = true.

Ltac only_step :=
  match goal with
  | x : Empty_set |- _ => destruct x
  | |- only _ (pbind _ _) => apply only_bind; [|intros ?]
  | |- only _ (Return _) => exact I
  | |- only _ (trigger _) => apply only_trigger; solve [done|auto]
  | |- only _ (match ?x with _ => _ end) => destruct x
  | |- only _ (let _ := _ in _) => cbv zeta
  end.

Lemma remote_poll_ready to ticks : only remote (poll_ready to ticks).
Proof. induction ticks as [|ticks IH]; cbn [poll_ready]; by repeat only_step. Qed.
Lemma remote_waitForSystemReady entry to : only remote (waitForSystemReady entry to).
Proof. unfold waitForSystemReady. repeat only_step. apply remote_poll_ready. Qed.
Lemma remote_upload entry to : only remote (upload_script scriptContent entry to).
Proof.
  assert (forall backoff n left last, only remote (upload scriptContent to backoff n left last)) as Hup.
  { intros backoff n left. revert n. induction left as [|left IH]; intros n last; cbn [upload]; unfold upload_once;
      by repeat only_step. }
  unfold upload_script. destruct (is_bluelobster entry); apply Hup.
Qed.

Lemma chooses_compatible provider offers : only chooses (compatible_offers provider offers).
Proof. induction offers as [|o offers IH]; cbn [compatible_offers]; by repeat only_step. Qed.
Lemma chooses_find location entry ids machines : only chooses (find_offers location entry ids machines).
Proof.
  unfold find_offers, prefer_compatible. repeat only_step; apply chooses_compatible.
Qed.
Lemma chooses_pick offers : only chooses (pick_offer sort_Slice offers).
Proof. unfold pick_offer, panic. by repeat only_step. Qed.

Lemma remote_ungated : milder remote ungated.
Proof. by intros B []. Qed.
Lemma remote_unsaved : milder remote unsaved.
Proof. by intros B []. Qed.

(** The steps after the renting perform only effects that include those on the machine, the
    marking of the entry and the giving back. *)
Section Steps.
Context (P : forall B, runnerE B -> bool) (session : Session.t) (offer : GPUOffer.t) (entry : ManifestEntry.t).
Hypothesis Premote : milder remote P.
Hypothesis Pfail : forall c i r s, P _ (FailEntry c i r s) = true.
Hypothesis Ptimeout : forall i s, P _ (TimeOut i s) = true.
Hypothesis Pdestroy : forall i, P _ (DestroySession i) = true.
Hypothesis Pget : forall i, P _ (GetSession i) = true.
Hypothesis Preport : forall a b c d e, P _ (RecordOfferFailure a b c d e) = true.
Hypothesis Pevict : forall i, P _ (EvictOffer i) = true.

Lemma only_fail mark report : P _ mark = true -> only P (fail_attempt session offer entry mark report).
Proof.
  intros Hm. unfold fail_attempt, cleanupSession, log_error, reportOfferFailure. by repeat only_step.
Qed.
Lemma only_failed {A} mark report (a : A) :
  P _ mark = true -> only P (do* fail_attempt session offer entry mark report in Return a).
Proof. intros Hm. apply only_bind; [by apply only_fail|done]. Qed.
Ltac only_failed_here := apply only_failed; solve [apply Pfail | apply Ptimeout].

Lemma only_wait ticks : only P (wait_running session offer entry ticks).
Proof.
  induction ticks as [|ticks IH]; cbn [wait_running]; [only_failed_here|].
  apply only_bind; [apply only_trigger; auto|]. intros [s|e]; [|done].
  destruct (bool_decide _); [only_failed_here|]. by repeat only_step.
Qed.
Lemma only_machine {A} (p : program A) : only remote p -> only P p.
Proof. by apply only_weaken. Qed.
Lemma only_command to c : only P (perform (RunCommand to c)).
Proof. by apply only_machine, only_trigger. Qed.
Lemma only_deploy to : only P (deploy scriptContent session offer entry to).
Proof.
  unfold deploy. apply only_bind; [apply only_machine, remote_waitForSystemReady|].
  intros [e|]; [only_failed_here|]. destruct (bool_decide _); [only_failed_here|].
  apply only_bind; [apply only_machine, remote_upload|]. intros [e|]; [only_failed_here|].
  apply only_bind; [apply only_command|]. intros [x|e]; [done|only_failed_here].
Qed.
Lemma only_collect to ticks : only P (collect_results session offer entry to ticks).
Proof.
  induction ticks as [|ticks IH]; cbn [collect_results]; [only_failed_here|].
  apply only_bind; [apply only_command|]. intros failed.
  destruct (match failed with Ok _ => _ | Err _ => _ end); [only_failed_here|].
  apply only_bind; [apply only_command|]. intros [out|e]; [by repeat only_step|].
  apply only_bind; [apply only_command|done].
Qed.
Lemma only_store text :
  (forall r, P _ (SaveResult r) = true) -> (forall i b t c, P _ (Succeed i b t c) = true) -> P _ Now = true ->
  only P (store_result session offer entry text).
Proof.
  intros Hs Hu Hn. unfold store_result. destruct (json_Unmarshal text); [|only_failed_here].
  apply only_bind; [apply only_trigger; auto|]. intros saved.
  destruct (saved.1); [only_failed_here|]. unfold cleanupSession, log_error. by repeat only_step.
Qed.
End Steps.

(** ** Every machine is given back *)
Section Rented.
Context (session : Session.t) (offer : GPUOffer.t) (entry : ManifestEntry.t).
Abbreviation id := (Session.ID session).

Lemma given_back Q : Q tt [] -> watch rented (cleanupSession id) Q [id].
Proof.
  intros HQ. unfold cleanupSession. watch_step. cbn. by rewrite bool_decide_true.
Qed.
Lemma given_back_none sid Q : Q tt [] -> watch rented (cleanupSession sid) Q [].
Proof. intros HQ. unfold cleanupSession. by watch_step. Qed.

Lemma rented_report oid p g t r l Q : Q tt l -> watch rented (reportOfferFailure oid p g t r) Q l.
Proof. intros HQ. unfold reportOfferFailure. by repeat watch_step. Qed.

(** Marking an entry rents nothing and gives nothing back. *)
Definition marks (e : runnerE (option error)) : Prop :=
  forall b, opened (Ev e b) = None /\ closed (Ev e b) = None.
Lemma rented_fail mark report Q :
  marks mark -> Q tt [] -> watch rented (fail_attempt session offer entry mark report) Q [id].
Proof.
  intros Hm HQ. apply watch_bind, watch_bind, watch_trigger. intros b _. destruct (Hm b) as [Ho Hc].
  cbn [rented allowed next]. rewrite Ho, Hc. split; [done|]. apply watch_ret, watch_bind.
  destruct report as [[t r]|]; [apply rented_report|apply watch_ret]; by apply given_back.
Qed.

Lemma marks_failed c i reason stage : marks (FailEntry c i reason stage).
Proof. done. Qed.
Lemma marks_timeout i stage : marks (TimeOut i stage).
Proof. done. Qed.

(** Live is the session while the steps go on, and nothing once one has failed. *)
Definition while (goes_on : bool) : list string := if goes_on then [id] else [].
Abbreviation Rest T := (fun (m : option T) l => l = while (bool_decide (is_Some m))).
Abbreviation Goes := (fun (b : bool) l => l = while b).

Lemma rented_failed {A} mark report (a : A) (Q : A -> list string -> Prop) :
  marks mark -> Q a [] ->
  watch rented (do* fail_attempt session offer entry mark report in Return a) Q [id].
Proof. intros Hm HQ. by apply watch_bind, rented_fail. Qed.

Ltac failed_here := first [by apply rented_failed | by apply rented_fail].

Lemma rented_wait ticks :
  watch rented (wait_running session offer entry ticks) (Rest _) [id].
Proof.
  induction ticks as [|ticks IH]; cbn [wait_running]; [failed_here|].
  repeat watch_step; [failed_here|done|exact IH|exact IH].
Qed.

(** The steps on the machine. *)
Lemma rented_remote {A} (p : program A) l :
  only remote p -> watch rented p (fun _ l' => l' = l) l.
Proof. intros Hp. apply (only_watch remote); [|done|done]. intros B [] b s ? ? ->; try discriminate; cbn; split; by intros.
Qed.

Lemma rented_deploy to : watch rented (deploy scriptContent session offer entry to) Goes [id].
Proof.
  unfold deploy. eapply watch_seq; [apply rented_remote, remote_waitForSystemReady|]. intros [e|] l ->; [failed_here|].
  watch_step; [failed_here|].
  eapply watch_seq; [apply rented_remote, remote_upload|]. intros [e|] l ->; [failed_here|].
  repeat watch_step; [done|failed_here].
Qed.

Lemma rented_collect to ticks : watch rented (collect_results session offer entry to ticks) (Rest _) [id].
Proof.
  induction ticks as [|ticks IH]; cbn [collect_results]; [failed_here|].
  do 2 watch_step. watch_step; [failed_here|]. repeat watch_step; done.
Qed.

Lemma rented_store text : watch rented (store_result session offer entry text) (fun _ l => l = []) [id].
Proof.
  unfold store_result. watch_step; [|failed_here].
  do 2 watch_step. watch_step; [failed_here|]. do 2 watch_step. do 2 watch_step.
  watch_step. by apply given_back.
Qed.

Lemma rented_benchmark :
  watch rented (benchmark scriptContent session offer entry) (fun _ l => l = []) [id].
Proof.
  unfold benchmark. do 2 watch_step. eapply watch_seq; [apply rented_wait|]. intros [to|] l ->; [|done].
  eapply watch_seq; [apply rented_deploy|]. intros [|] l ->; [|done]. cbn [negb]. do 2 watch_step.
  eapply watch_seq; [apply rented_collect|]. intros [text|] l ->; [|done]. apply rented_store.
Qed.
End Rented.

Lemma rented_chooses {A} (p : program A) l :
  only chooses p -> watch rented p (fun _ l' => l' = l) l.
Proof.
  intros Hp. apply (only_watch chooses); [|done|done].
  intros B [] b s ? ? ->; try discriminate; cbn; split; by intros.
Qed.

Lemma rented_provision location entry attempt ids machines :
  watch rented (provision sort_Slice location entry attempt ids machines)
    (fun r l => l = match r with inl _ => [] | inr (session, _, _) => [Session.ID session] end) [].
Proof.
  unfold provision. eapply watch_seq; [apply rented_chooses, chooses_find|].
  intros [offers|reason] l ->; [|by repeat watch_step].
  eapply watch_seq; [apply rented_chooses, chooses_pick|]. intros offer l ->.
  do 2 watch_step. watch_step.
  - by repeat watch_step.
  - watch_step. destruct (duplicate_of e) as [sid|].
    + apply given_back_none. by repeat watch_step.
    + by repeat watch_step.
Qed.

Lemma rented_attempt location entry attempt ids machines :
  watch rented (processEntryOnce sort_Slice scriptContent location entry attempt ids machines)
    (fun _ l => l = []) [].
Proof.
  unfold processEntryOnce. do 2 watch_step. watch_step; [done|].
  eapply watch_seq; [apply rented_provision|]. intros [out|[[session offer] entry']] l ->; [by repeat watch_step|].
  do 2 watch_step. eapply watch_seq; [apply rented_benchmark|]. by intros success l ->.
Qed.

Lemma rented_attempts location entry attempt left ids machines :
  watch rented (attempts sort_Slice scriptContent location entry attempt left ids machines)
    (fun _ l => l = []) [].
Proof.
  revert entry attempt ids machines. induction left as [|left IH]; intros entry attempt ids machines;
    cbn [attempts]; [by repeat watch_step|].
  eapply (watch_seq _ (fun _ l => l = [])).
  { destruct (1 <? attempt)%Z; [|done]. unfold prepare_retry. watch_step.
    destruct (bool_decide _); [by repeat watch_step|]. apply given_back_none. by repeat watch_step. }
  intros entry' l ->. eapply watch_seq; [apply rented_attempt|]. intros [[[success retry] machine] entry''] l ->.
  watch_step; [done|]. cbv zeta. watch_step; [done|]. do 2 watch_step.
  watch_step; [by repeat watch_step|]. apply IH.
Qed.

(** C25.  A worker gives back every machine it rents: it rents one only after asking for the
    destruction of the one before, and when it ends it has asked for the destruction of
    every session that was created for it, whichever step failed. *)
Theorem processEntry_gives_back location entry :
  watch rented (processEntry sort_Slice scriptContent location entry) (fun _ live => live = []) [].
Proof. apply rented_attempts. Qed.

(** ** One worker rents at a time *)
Lemma gate_ungated {A} (p : program A) held :
  only ungated p -> watch gate p (fun _ held' => held' = held) held.
Proof.
  intros Hp. apply (only_watch ungated); [|done|done].
  intros B [] b s ? ? ->; try discriminate; cbn; by split_and!.
Qed.
Lemma gate_gated {A} (p : program A) : only gated p -> watch gate p (fun _ held => held = true) true.
Proof.
  intros Hp. apply (only_watch gated); [|done|done].
  intros B [] b s ? ? ->; try discriminate; cbn; by split_and!.
Qed.

Lemma ungated_benchmark session offer entry : only ungated (benchmark scriptContent session offer entry).
Proof.
  unfold benchmark. apply only_bind; [by apply only_trigger|]. intros ticks.
  apply only_bind; [by apply only_wait|]. intros [to|]; [|done].
  apply only_bind; [by apply only_deploy; [apply remote_ungated|..]|]. intros [|]; [|done]. cbn [negb].
  apply only_bind; [by apply only_trigger|]. intros ticks'.
  apply only_bind; [by apply only_collect; [apply remote_ungated|..]|]. intros [text|]; [|done].
  by apply only_store.
Qed.
Lemma gated_provision location entry attempt ids machines :
  only gated (provision sort_Slice location entry attempt ids machines).
Proof.
  assert (milder chooses gated) as Hc by by intros B [].
  unfold provision. apply only_bind; [eapply only_weaken; [exact Hc|apply chooses_find]|].
  intros [offers|reason]; [|by repeat only_step].
  apply only_bind; [eapply only_weaken; [exact Hc|apply chooses_pick]|].
  intros offer. unfold cleanupSession, log_error. by repeat only_step.
Qed.
Lemma ungated_retry entry : only ungated (prepare_retry entry).
Proof. unfold prepare_retry, cleanupSession, log_error. by repeat only_step. Qed.

Lemma gate_attempts location entry attempt left ids machines :
  watch gate (attempts sort_Slice scriptContent location entry attempt left ids machines)
    (fun _ held => held = false) false.
Proof.
  revert entry attempt ids machines. induction left as [|left IH]; intros entry attempt ids machines;
    cbn [attempts]; [by repeat watch_step|].
  eapply (watch_seq _ (fun _ held => held = false)).
  { destruct (1 <? attempt)%Z; [apply gate_ungated, ungated_retry|done]. }
  intros entry' held ->. eapply (watch_seq _ (fun _ held => held = false)).
  - unfold processEntryOnce. apply watch_bind, watch_trigger. intros held _. monitor_red.
    split; [by split_and!|]. destruct held; [|done]. cbn [negb].
    eapply watch_seq; [apply gate_gated, gated_provision|]. intros r held ->.
    apply watch_bind, watch_trigger. intros u _. monitor_red. split; [by split_and!|].
    destruct r as [out|[[session offer] entry'']]; [done|].
    eapply watch_seq; [apply gate_ungated, ungated_benchmark|]. by intros b held ->.
  - intros [[[success retry] machine] entry''] held ->.
    watch_step; [done|]. cbv zeta. watch_step; [done|]. do 2 watch_step.
    watch_step; [by repeat watch_step|]. apply IH.
Qed.

(** C26.  However the workers of a runner are interleaved: the one that looks for an offer or
    rents a machine holds the provisioning gate, and no other worker does. *)
Theorem one_worker_rents jobs s s' i x :
  rtc (some_step takes_gate gives_gate rents)
    ((fun j => mk_thread (processEntry sort_Slice scriptContent j.1 j.2) false) <$> jobs, false) s ->
  thread_step takes_gate gives_gate rents i x s s' -> rents x = true ->
  exists worker, s.1 !! i = Some worker /\ holders s.1 = [worker].
Proof.
  intros Hs Hstep Hx. eapply only_holder; [|exact Hstep|exact Hx].
  eapply locked_inv_reachable; [exact Hs|].
  pose proof (list_fmap_compose (fun j => processEntry sort_Slice scriptContent j.1 j.2)
                (fun p => mk_thread p false) jobs) as Hjobs.
  unfold compose in Hjobs. rewrite Hjobs. apply locked_inv_start, Forall_fmap, Forall_forall. intros j _. apply gate_attempts.
Qed.

(** ** Every entry is settled *)
Section Recorded.
Context (i : string).

Lemma recorded_unsaved {A} (p : program A) s :
  only unsaved p -> unstored s -> watch (recorded i) p (fun _ => unstored) s.
Proof.
  intros Hp Hs. apply (only_watch unsaved); [|done|done].
  unfold unstored. intros B [] b s' ? ? Hs'; try discriminate; cbn; by rewrite Hs'.
Qed.

(** A failure the database accepts. *)
Lemma recorded_fail_entry c reason stage (Q : unit -> option string * bool -> Prop) s :
  unstored s -> (forall s', given_up s' -> Q tt s') ->
  watch (recorded i) (log_error (FailEntry c i reason stage)) Q s.
Proof.
  intros Hs HQ. apply watch_bind, watch_trigger. intros b Hb. cbn in Hb. subst b. split; [done|].
  apply watch_ret, HQ. cbn. rewrite bool_decide_true by done. unfold given_up. by rewrite Hs.
Qed.
End Recorded.

Lemma unsaved_benchmark_steps session offer entry to ticks ticks' :
  only unsaved (wait_running session offer entry ticks) /\
  only unsaved (deploy scriptContent session offer entry to) /\
  only unsaved (collect_results session offer entry to ticks').
Proof.
  split_and!; [by apply only_wait|by apply only_deploy; [apply remote_unsaved|..]|
               by apply only_collect; [apply remote_unsaved|..]].
Qed.

Lemma recorded_store session offer entry text s :
  unstored s ->
  watch (recorded (ManifestEntry.ID entry)) (store_result session offer entry text)
    (fun success => if success then succeeded else unstored) s.
Proof.
  intros Hs. unfold store_result. destruct (json_Unmarshal text) as [result|e];
    [|apply watch_bind; eapply watch_mono; [apply recorded_unsaved; [by apply only_fail|exact Hs]|done]].
  apply watch_bind, watch_trigger. intros saved _. split; [done|].
  monitor_red. rewrite Hs. cbn [orb]. destruct (saved.1) as [e|] eqn:He.
  - rewrite bool_decide_false by done. apply watch_bind.
    eapply watch_mono; [apply recorded_unsaved; [by apply only_fail|done]|done].
  - rewrite bool_decide_true by done. apply watch_bind, watch_trigger. intros now _. split; [done|].
    apply watch_bind, watch_bind, watch_trigger. intros b Hb. cbn in Hb. subst b. split; [done|].
    apply watch_ret, watch_bind, watch_bind, watch_trigger. intros b _. split; [done|].
    apply watch_ret, watch_ret. unfold succeeded. cbn. by rewrite bool_decide_true.
Qed.

Lemma recorded_benchmark session offer entry s :
  unstored s ->
  watch (recorded (ManifestEntry.ID entry)) (benchmark scriptContent session offer entry)
    (fun success => if success then succeeded else unstored) s.
Proof.
  intros Hs. pose proof (unsaved_benchmark_steps session offer entry) as Hu. unfold benchmark.
  eapply watch_seq; [apply recorded_unsaved; [by apply only_trigger|exact Hs]|]. intros ticks s1 Hs1.
  eapply watch_seq; [apply recorded_unsaved; [eapply (Hu (SSHTarget.mk "" 0 "" "") ticks 0)|exact Hs1]|].
  intros [to|] s2 Hs2; [|exact Hs2].
  eapply watch_seq; [apply recorded_unsaved; [eapply (Hu to 0 0)|exact Hs2]|]. intros [|] s3 Hs3; [|exact Hs3].
  cbn [negb]. eapply watch_seq; [apply recorded_unsaved; [by apply only_trigger|exact Hs3]|]. intros ticks' s4 Hs4.
  eapply watch_seq; [apply recorded_unsaved; [eapply (Hu to 0 ticks')|exact Hs4]|].
  intros [text|] s5 Hs5; [by apply recorded_store|exact Hs5].
Qed.

(** An attempt leaves a success, or nothing stored; without a retry, a failure. *)
Lemma recorded_provision location entry attempt ids machines s :
  unstored s ->
  watch (recorded (ManifestEntry.ID entry)) (provision sort_Slice location entry attempt ids machines)
    (fun r s' => match r with
       | inl (success, retry, _, entry') =>
           success = false /\ ManifestEntry.ID entry' = ManifestEntry.ID entry /\
           if retry : bool then unstored s' else given_up s'
       | inr (_, _, entry') => ManifestEntry.ID entry' = ManifestEntry.ID entry /\ unstored s'
       end) s.
Proof.
  assert (milder chooses unsaved) as Hc by by intros B [].
  intros Hs. unfold provision.
  eapply watch_seq; [apply recorded_unsaved; [eapply only_weaken; [exact Hc|apply chooses_find]|exact Hs]|].
  intros [offers|reason] s1 Hs1; [|by apply watch_bind, recorded_fail_entry].
  eapply watch_seq; [apply recorded_unsaved; [eapply only_weaken; [exact Hc|apply chooses_pick]|exact Hs1]|].
  intros offer s2 Hs2. cbv zeta.
  eapply watch_seq; [apply recorded_unsaved; [by apply only_trigger|exact Hs2]|]. intros [session|e] s3 Hs3.
  - eapply watch_seq; [apply recorded_unsaved; [by unfold log_error; repeat only_step|exact Hs3]|]. by intros u s4 Hs4.
  - eapply watch_seq; [apply recorded_unsaved; [|exact Hs3]|].
    { unfold cleanupSession, log_error. by repeat only_step. }
    intros u s4 Hs4. eapply watch_seq; [apply recorded_unsaved; [by unfold log_error; repeat only_step|exact Hs4]|].
    by intros u' s5 Hs5.
Qed.

Lemma recorded_attempt location entry attempt ids machines s :
  unstored s ->
  watch (recorded (ManifestEntry.ID entry))
    (processEntryOnce sort_Slice scriptContent location entry attempt ids machines)
    (fun r s' => ManifestEntry.ID r.2 = ManifestEntry.ID entry /\
       if r.1.1.1 then succeeded s' else if r.1.1.2 then unstored s' else given_up s') s.
Proof.
  intros Hs. unfold processEntryOnce. apply watch_bind, watch_trigger. intros held Hheld. cbn in Hheld. subst held.
  split; [done|]. cbn [negb].
  eapply watch_seq; [apply (recorded_provision location entry attempt ids machines)|].
  { unfold unstored. cbn. by rewrite Hs. }
  intros r s1 Hr. apply watch_bind, watch_trigger. intros u _. split; [done|].
  destruct r as [[[[success retry] machine] entry']|[[session offer] entry']].
  - destruct Hr as (-> & Hid & Hr). apply watch_ret. cbn [fst snd]. split; [done|].
    destruct s1 as [status saved], retry; monitor_red; cbn [fst snd]; rewrite orb_false_r; exact Hr.
  - destruct Hr as [Hid Hr]. rewrite <-Hid.
    eapply watch_seq; [apply recorded_benchmark; unfold unstored; monitor_red; by rewrite Hr|].
    intros success s2 Hs2. apply watch_ret. cbn [fst snd]. split; [done|]. by destruct success.
Qed.

Lemma unsaved_retry (first : bool) entry :
  only unsaved (if first then prepare_retry entry else Return entry).
Proof. destruct first; [|done]. unfold prepare_retry, cleanupSession, log_error. by repeat only_step. Qed.
Lemma retry_same_entry mon (first : bool) entry (s : option string * bool) :
  (forall x s, allowed mon x s) ->
  watch mon (if first then prepare_retry entry else Return entry)
    (fun entry' _ => ManifestEntry.ID entry' = ManifestEntry.ID entry) s.
Proof.
  intros Hall. destruct first; [|done]. unfold prepare_retry. apply watch_bind.
  eapply watch_mono; [apply (watch_stable _ (fun _ => True)); [by split|done]|]. intros u s' _.
  apply watch_bind, watch_trigger. intros b _. by split.
Qed.

Lemma recorded_attempts location entry attempt left ids machines s :
  unstored s ->
  watch (recorded (ManifestEntry.ID entry))
    (attempts sort_Slice scriptContent location entry attempt left ids machines)
    (fun _ s' => succeeded s' \/ given_up s') s.
Proof.
  revert entry attempt ids machines s. induction left as [|left IH]; intros entry attempt ids machines s Hs;
    cbn [attempts]; [apply recorded_fail_entry; [exact Hs|by right]|].
  eapply watch_seq.
  { apply watch_and; [by apply recorded_unsaved, Hs; apply unsaved_retry|by apply retry_same_entry]. }
  intros entry' s1 [Hs1 Hid]. rewrite <-Hid.
  eapply watch_seq; [apply recorded_attempt, Hs1|].
  intros [[[success retry] machine] entry2] s2 [Hid2 Hs2]. cbn [fst snd] in *.
  destruct success; [by left|]. cbv zeta. destruct retry; [|by right]. cbn [negb].
  eapply watch_seq; [apply recorded_unsaved; [by apply only_trigger|exact Hs2]|].
  rewrite <-Hid2. intros ended s3 Hs3. destruct ended; [|by apply IH].
  apply recorded_fail_entry; [exact Hs3|by right].
Qed.

(** C29.  While the gate is granted and the database accepts the statements on the manifest, a
    worker settles its entry: when it ends, the entry is recorded as a success and its
    result is stored, or it is recorded as failed and no result was stored for it. *)
Theorem processEntry_settles location entry status :
  watch (recorded (ManifestEntry.ID entry)) (processEntry sort_Slice scriptContent location entry)
    (fun _ s => succeeded s \/ given_up s) (status, false).
Proof. by apply recorded_attempts. Qed.
End Workers.
