(* ===== verification/BenchRunsFacts.v ===== *)
(** What the dispatcher of a benchmark run does: it starts each entry once, ends after as
    many rounds as there are entries, and what it does when claims are refused, when the
    budget is spent and when the run is cancelled early. *)
From S2P Require Import Prelude GoFloat GoLib GoStrings Models Errors Interfaces Database CostTable Inventory Template Api Tables Manifest BenchStore Programs Runner BenchRuns.
#[local] Set Warnings "-clear-no-such-hyp".

(** The entry of an accepted claim, and of a worker that is started. *)
Definition claims (x : event runnerE) : option string :=
  match x with
  | Ev e b =>
      match e in runnerE B return B -> option string with
      | Claim id _ _ => fun r => match r with None => Some id | Some _ => None end
      | _ => fun _ => None
      end b
  end.
Definition starts (x : event runnerE) : option string :=
  match x with Ev (StartWorker entry) _ => Some (ManifestEntry.ID entry) | _ => None end.

(** ** Every entry is started once *)

(** The entries claimed and the entries started.  No entry is claimed twice
    ([Manifest.entry_claimed_once]); one is started only once, after it was claimed. *)
Definition dispatching : monitor runnerE (gset string * gset string) :=
  mk_monitor
    (fun x s =>
       (match claims x with Some id => {[id]} ∪ s.1 | None => s.1 end,
        match starts x with Some id => {[id]} ∪ s.2 | None => s.2 end))
    (fun x s => match starts x with Some id => id ∈ s.1 /\ id ∉ s.2 | None => True end)
    (fun x s => match claims x with Some id => id ∉ s.1 | None => True end).

Definition only_claimed (s : gset string * gset string) : Prop := s.2 ⊆ s.1.

(** Effects other than claiming and starting. *)
Definition plain (B : Type) (e : runnerE B) : bool :=
  match e with Claim _ _ _ | StartWorker _ => false | _ => true end.

Ltac plain_step :=
  match goal with
  | |- only _ (pbind _ _) => apply only_bind; [|intros ?]
  | |- only _ (Return _) => exact I
  | |- only _ (trigger _) => by apply only_trigger
  | |- only _ (match ?x with _ => _ end) => destruct x
  | |- only _ (let _ := _ in _) => cbv zeta
  end.

Lemma plain_dispatching {A} (p : program A) s :
  only plain p -> only_claimed s -> watch dispatching p (fun _ => only_claimed) s.
Proof.
  intros Hp Hs. apply (only_watch plain); [|done|done].
  by intros B [] b s' ? ? Hs'; try discriminate.
Qed.

Lemma only_pfor {A R} P (body : A -> program (option R)) l :
  (forall x, only P (body x)) -> only P (pfor l body).
Proof. intros Hb. induction l as [|x l IH]; cbn; [done|]. apply only_bind; [apply Hb|]. by intros []. Qed.

Lemma plain_over_budget runID req : only plain (over_budget runID req).
Proof. unfold over_budget. by repeat plain_step. Qed.
Lemma plain_updateRunStatus runID : only plain (updateRunStatus runID).
Proof. unfold updateRunStatus. by repeat plain_step. Qed.
Lemma plain_finish runID : only plain (finish_run runID).
Proof.
  unfold finish_run, cleanupRunSessions. apply only_bind; [by apply only_trigger|]. intros u.
  apply only_bind; [by apply only_trigger|]. intros [entries|e]; [|done]. apply only_bind; [|done].
  apply only_pfor. intros entry. unfold each, cleanup_entry, cleanupSession, log_error. by repeat plain_step.
Qed.

Lemma dispatching_dispatch entries s :
  only_claimed s -> watch dispatching (dispatch entries) (fun _ => only_claimed) s.
Proof.
  revert s. induction entries as [|entry rest IH]; intros s Hs; cbn [dispatch]; [done|].
  eapply watch_seq; [by apply plain_dispatching, Hs; apply only_trigger|]. intros worker s1 Hs1.
  apply watch_bind, watch_trigger. intros [e|] Hnew; cbn [dispatching claims assumed] in Hnew.
  - split; [done|]. apply IH. exact Hs1.
  - split; [done|]. cbn [next dispatching claims starts].
    set (s2 := ({[ManifestEntry.ID entry]} ∪ s1.1, s1.2)).
    apply watch_bind, watch_trigger. intros ended _. split; [done|]. cbn [next dispatching claims starts].
    unfold only_claimed in Hs1.
    destruct ended; [apply watch_ret; unfold only_claimed; cbn; set_solver|].
    apply watch_bind, watch_trigger. intros u _. cbn [dispatching next allowed claims starts].
    split; [unfold s2; cbn [fst snd ManifestEntry.ID ManifestEntry.set_Status ManifestEntry.set_created]; set_solver|].
    assert (only_claimed ({[ManifestEntry.ID entry]} ∪ s1.1, {[ManifestEntry.ID entry]} ∪ s1.2)) as Hs3
      by (unfold only_claimed; cbn; set_solver).
    destruct rest as [|entry' rest]; [exact Hs3|].
    apply watch_bind, watch_trigger. intros ended _. split; [done|].
    destruct ended; [exact Hs3|]. apply IH, Hs3.
Qed.

Lemma dispatching_round runID req s :
  only_claimed s -> watch dispatching (next_round runID req) (fun _ => only_claimed) s.
Proof.
  intros Hs. unfold next_round.
  eapply watch_seq; [by apply plain_dispatching, Hs; apply only_trigger|]. intros [|] s1 Hs1.
  { eapply watch_mono; [apply plain_dispatching, Hs1; by repeat plain_step|done]. }
  eapply watch_seq; [by apply plain_dispatching, Hs1; apply only_trigger|]. intros [[|entry entries]|e] s2 Hs2; [| |done].
  - eapply watch_mono; [apply plain_dispatching, Hs2; by repeat plain_step|done].
  - eapply watch_seq; [apply plain_dispatching, Hs2; apply plain_over_budget|]. intros [|] s3 Hs3; [done|].
    eapply watch_seq; [apply dispatching_dispatch, Hs3|]. intros [|] s4 Hs4; [|done].
    eapply watch_mono; [apply plain_dispatching, Hs4; by repeat plain_step|done].
Qed.

Lemma dispatching_rounds runID req fuel s :
  only_claimed s -> watch dispatching (rounds runID req fuel) (fun _ => only_claimed) s.
Proof.
  revert s. induction fuel as [|fuel IH]; intros s Hs; cbn [rounds]; [done|].
  eapply watch_seq; [apply dispatching_round, Hs|]. intros [] s1 Hs1; [by apply IH|..].
  - apply plain_dispatching; [|exact Hs1]. repeat plain_step. apply plain_updateRunStatus.
  - apply plain_dispatching; [|exact Hs1]. repeat plain_step. apply plain_updateRunStatus.
  - exact Hs1.
Qed.

(** C27.  The dispatcher starts a worker only for an entry it has claimed, and never a second one:
    whatever is cancelled, refused or fails on the way. *)
Theorem processRun_starts_once runID req fuel :
  watch dispatching (processRun runID req fuel) (fun _ => only_claimed) (∅, ∅).
Proof.
  unfold processRun. eapply watch_seq; [by apply plain_dispatching; [apply only_trigger|]|]. intros now s1 Hs1.
  eapply watch_seq; [by apply plain_dispatching, Hs1; apply only_trigger|]. intros u s2 Hs2.
  eapply watch_seq; [apply dispatching_rounds, Hs2|]. intros [|] s3 Hs3; [|exact Hs3].
  apply plain_dispatching; [|exact Hs3]. repeat plain_step. apply plain_finish.
Qed.

(** ** The dispatcher ends *)

(** The pending entries of the run.  A query that succeeds answers with pending entries, and
    with none only when there is none; a claim succeeds exactly on a pending entry; workers
    never make an entry pending again. *)
Definition pending : monitor runnerE (gset string) :=
  mk_monitor
    (fun x s => match claims x with Some id => s ∖ {[id]} | None => s end)
    (fun _ _ => True)
    (fun x s =>
       match x with
       | Ev e b =>
           match e in runnerE B return B -> Prop with
           | GetPending _ _ => fun r =>
               match r with
               | Ok l => Forall (fun entry => ManifestEntry.ID entry ∈ s) l /\ (l = [] -> s = ∅)
               | Err _ => True
               end
           | Claim id _ _ => fun r => r = None <-> id ∈ s
           | _ => fun _ => True
           end b
       end).

Lemma plain_pending {A} (p : program A) s s0 :
  only plain p -> s = s0 -> watch pending p (fun _ s' => s' = s0) s.
Proof.
  intros Hp Hs. apply (only_watch plain); [|done|done]. by intros B [] b s' ? ? Hs'; try discriminate.
Qed.

Lemma pending_dispatch entries s :
  watch pending (dispatch entries)
    (fun _ s' => s' ⊆ s /\ forall entry, head entries = Some entry -> ManifestEntry.ID entry ∉ s') s.
Proof.
  revert s. induction entries as [|entry rest IH]; intros s; cbn [dispatch]; [done|].
  apply watch_bind, watch_trigger. intros worker _. split; [done|].
  apply watch_bind, watch_trigger. intros r Hr. split; [done|]. cbn [pending assumed] in Hr.
  destruct r as [e|]; cbn [pending next claims] in *.
  - eapply watch_mono; [apply IH|]. intros ended s' [Hs' _]. split; [exact Hs'|]. intros x [= <-] Hx.
    assert (ManifestEntry.ID entry ∈ s) as Hin by set_solver. apply Hr in Hin. discriminate Hin.
  - assert (forall s', s' ⊆ s ∖ {[ManifestEntry.ID entry]} ->
        s' ⊆ s /\ forall x, head (entry :: rest) = Some x -> ManifestEntry.ID x ∉ s') as Hdone.
    { intros s' Hs'. split; [set_solver|]. intros x [= <-]. set_solver. }
    apply watch_bind, watch_trigger. intros ended _. split; [done|]. cbn [pending next claims].
    destruct ended; [by apply Hdone|].
    apply watch_bind, watch_trigger. intros u _. split; [done|]. cbn [pending next claims].
    destruct rest as [|entry' rest]; [by apply Hdone|].
    apply watch_bind, watch_trigger. intros ended _. split; [done|]. cbn [pending next claims].
    destruct ended; [by apply Hdone|].
    eapply watch_mono; [apply IH|]. intros ended s' [Hs' _]. by apply Hdone.
Qed.

Lemma pending_round runID req s :
  watch pending (next_round runID req) (fun r s' => r = Again -> size s' < size s) s.
Proof.
  unfold next_round. apply watch_bind, watch_trigger. intros ended _. split; [done|]. cbn [pending next claims].
  destruct ended; [apply watch_bind, watch_trigger; intros u _; by split|].
  apply watch_bind, watch_trigger. intros r Hr. split; [done|]. cbn [pending next claims assumed] in *.
  destruct r as [[|entry entries]|e]; [| |done].
  - destruct Hr as [_ ->]; [|done].
    apply watch_bind, watch_trigger. intros u _. split; [done|]. cbn [pending next claims].
    apply watch_bind, watch_trigger. intros r Hr. split; [done|]. cbn [pending next claims assumed] in *.
    apply watch_ret. destruct r as [[|entry l]|e]; [done| |done].
    destruct Hr as [Hr _]. apply Forall_cons in Hr as [Hr _]. set_solver.
  - destruct Hr as [Hr _]. apply Forall_cons in Hr as [Hin _].
    eapply watch_seq; [apply plain_pending; [apply plain_over_budget|done]|]. intros exhausted s1 ->.
    destruct exhausted; [done|].
    eapply watch_seq; [apply pending_dispatch|]. intros ended s2 [Hs2 Hhead].
    specialize (Hhead _ eq_refl).
    destruct ended; [apply watch_bind, watch_trigger; intros u _; by split|].
    apply watch_ret. intros _. apply subset_size. set_solver.
Qed.

Lemma pending_rounds runID req fuel s :
  size s < fuel -> watch pending (rounds runID req fuel) (fun finished _ => finished = true) s.
Proof.
  revert s. induction fuel as [|fuel IH]; intros s Hs; [lia|]. cbn [rounds].
  eapply watch_seq; [apply pending_round|]. intros [] s1 Hs1.
  - apply IH. specialize (Hs1 eq_refl). lia.
  - eapply watch_seq; [by apply plain_pending; [apply only_trigger|]|]. intros u s2 ->.
    eapply watch_seq; [apply plain_pending; [apply plain_updateRunStatus|done]|done].
  - eapply watch_seq; [apply plain_pending; [apply plain_updateRunStatus|done]|done].
  - done.
Qed.

(** C28.  The dispatcher of a run ends after at most one round more than there are pending
    entries, whatever fails or is cancelled on the way, as long as the database claims the
    entries it reports as pending. *)
Theorem processRun_ends runID req fuel s :
  size s < fuel -> watch pending (processRun runID req fuel) (fun finished _ => finished = true) s.
Proof.
  intros Hs. unfold processRun.
  eapply watch_seq; [by apply plain_pending; [apply only_trigger|]|]. intros now s1 ->.
  eapply watch_seq; [by apply plain_pending; [apply only_trigger|]|]. intros u s2 ->.
  eapply watch_seq; [apply pending_rounds, Hs|]. intros finished s3 ->.
  eapply watch_seq; [apply plain_pending; [apply plain_finish|done]|done].
Qed.

(** ** Claims that are refused *)

(** The database keeps reporting pending entries and refuses every claim. *)
Definition refusing : monitor runnerE unit :=
  mk_monitor (fun _ _ => tt)
    (fun x _ => match x with Ev (Sleep _) _ | Ev (Stagger _) _ | Ev WaitWorkers _ => False | _ => True end)
    (fun x _ =>
       match x with
       | Ev e b =>
           match e in runnerE B return B -> Prop with
           | CtxDone => fun ended => ended = false
           | GetPending _ _ => fun r => match r with Ok l => l <> [] | Err _ => False end
           | Claim _ _ _ => fun r => r <> None
           | _ => fun _ => True
           end b
       end).

Lemma refusing_dispatch entries s : watch refusing (dispatch entries) (fun ended _ => ended = false) s.
Proof.
  revert s. induction entries as [|entry rest IH]; intros s; cbn [dispatch]; [done|].
  apply watch_bind, watch_trigger. intros worker _. split; [done|].
  apply watch_bind, watch_trigger. intros [e|] Hr; [|by destruct Hr]. split; [done|]. apply IH.
Qed.

(** When every claim is refused, the dispatcher goes round for ever, and never waits. *)
Theorem refused_claims_spin runID req fuel :
  BenchmarkRunRequest.MaxBudget req = f0 ->
  watch refusing (rounds runID req fuel) (fun finished _ => finished = false) tt.
Proof.
  intros Hb. generalize tt. induction fuel as [|fuel IH]; intros s; cbn [rounds]; [done|].
  eapply (watch_seq _ (fun r _ => r = Again)); [|by intros r s' ->; apply IH].
  unfold next_round. apply watch_bind, watch_trigger. intros ended Hended. cbn in Hended. subst ended. split; [done|].
  apply watch_bind, watch_trigger. intros [[|entry entries]|e] Hr; cbn [refusing assumed] in Hr; [done| |done].
  split; [done|]. unfold over_budget. rewrite Hb. cbn [fgtb fltb SFltb f0]. 
  apply watch_bind, watch_ret. eapply watch_seq; [apply refusing_dispatch|]. by intros ended s' ->.
Qed.

(** ** The budget *)

(** The entries started, in order; nobody asks for the cost. *)
Definition spending : monitor runnerE (list string) :=
  mk_monitor
    (fun x s => match starts x with Some id => s ++ [id] | None => s end)
    (fun x _ => match x with Ev (TotalCost _ _) _ => False | _ => True end)
    (fun x _ =>
       match x with
       | Ev e b =>
           match e in runnerE B return B -> Prop with
           | CtxDone | Stagger _ => fun ended => ended = false
           | Claim _ _ _ => fun r => r = None
           | _ => fun _ => True
           end b
       end).

(** Within a round, which takes up to 1000 entries, every entry is started whatever the ones
    before have cost: the budget is compared with the cost only before the first. *)
Theorem round_ignores_budget entries started :
  watch spending (dispatch entries)
    (fun ended s => ended = false /\ s = started ++ (ManifestEntry.ID <$> entries)) started.
Proof.
  revert started. induction entries as [|entry rest IH]; intros started; cbn [dispatch].
  { apply watch_ret. split; [done|]. by rewrite app_nil_r. }
  apply watch_bind, watch_trigger. intros worker _. split; [done|].
  apply watch_bind, watch_trigger. intros r Hr. cbn in Hr. subst r. split; [done|].
  apply watch_bind, watch_trigger. intros ended Hended. cbn in Hended. subst ended. split; [done|].
  apply watch_bind, watch_trigger. intros u _. split; [done|]. cbn [spending next starts].
  change (ManifestEntry.ID (ManifestEntry.set_Status _ entry)) with (ManifestEntry.ID entry).
  destruct rest as [|entry' rest]; [done|].
  apply watch_bind, watch_trigger. intros ended Hended. cbn in Hended. subst ended. split; [done|].
  cbn [spending next starts]. eapply watch_mono; [apply IH|]. intros ended s [Hended ->].
  split; [exact Hended|]. by rewrite <-app_assoc.
Qed.

(** ** Cancelling *)

(** The run, whose context has ended. *)
Definition cancelled_run : monitor runnerE BenchmarkRun.t :=
  mk_monitor
    (fun x r => match x with Ev (WriteRun _ f) _ => f r | _ => r end)
    (fun _ _ => True)
    (fun x r =>
       match x with
       | Ev e b => match e in runnerE B return B -> Prop with CtxDone => fun ended => ended = true | _ => fun _ => True end b
       end).

Definition unwritten (B : Type) (e : runnerE B) : bool := match e with WriteRun _ _ => false | _ => true end.
Lemma unwritten_cancelled {A} (p : program A) (P : BenchmarkRun.t -> Prop) r :
  only unwritten p -> P r -> watch cancelled_run p (fun _ => P) r.
Proof.
  intros Hp Hr. apply (only_watch unwritten); [|done|done]. by intros B [] b r' ? ? Hr'; try discriminate.
Qed.
Lemma unwritten_finish runID : only unwritten (finish_run runID).
Proof.
  unfold finish_run, cleanupRunSessions. apply only_bind; [by apply only_trigger|]. intros u.
  apply only_bind; [by apply only_trigger|]. intros [entries|e]; [|done]. apply only_bind; [|done].
  apply only_pfor. intros entry. unfold each, cleanup_entry, cleanupSession, log_error. by repeat plain_step.
Qed.

(** A run that is cancelled before its dispatcher starts is shown as running from then on:
    the dispatcher overwrites the status, and leaves without an update. *)
Theorem early_cancel_lost runID req fuel run :
  watch cancelled_run (processRun runID req (S fuel))
    (fun finished r => finished = true /\ BenchmarkRun.Status r = RunStatusRunning) run.
Proof.
  unfold processRun. apply watch_bind, watch_trigger. intros now _. split; [done|].
  apply watch_bind, watch_trigger. intros u _. split; [done|]. cbn [cancelled_run next rounds].
  set (r := BenchmarkRun.set_status RunStatusRunning now run).
  assert (BenchmarkRun.Status r = RunStatusRunning) as Hr by done.
  apply watch_bind, watch_bind. unfold next_round.
  apply watch_bind, watch_trigger. intros ended Hended. cbn in Hended. subst ended. split; [done|].
  apply watch_bind, watch_trigger. intros u' _. split; [done|]. apply watch_ret, watch_ret.
  eapply watch_seq; [apply (unwritten_cancelled _ (fun r => BenchmarkRun.Status r = RunStatusRunning));
    [apply unwritten_finish|exact Hr]|].
  by intros u'' r' Hr'.
Qed.

(** ** The summary never goes back *)
Lemma refreshed_monotone summary cost now r :
  (BenchmarkRun.Completed r <= BenchmarkRun.Completed (refreshed summary cost now r))%Z /\
  (BenchmarkRun.Failed r <= BenchmarkRun.Failed (refreshed summary cost now r))%Z /\
  (fltb (BenchmarkRun.TotalCost (refreshed summary cost now r)) (BenchmarkRun.TotalCost r) = true ->
   is_nan (BenchmarkRun.TotalCost r) = false -> is_nan cost = false -> False).
Proof.
  unfold refreshed. cbn [BenchmarkRun.set_counts BenchmarkRun.TotalCost].
  destruct (fgtb cost (BenchmarkRun.TotalCost r)) eqn:Hc; cbn; split_and!; try lia.
  - intros Hlt Hr Hn. unfold fgtb in Hc. by rewrite (fltb_asym _ _ Hr Hn Hc) in Hlt.
  - intros Hlt Hr _. by rewrite fltb_irrefl in Hlt.
Qed.
