(* ===== verification/BenchService.v ===== *)
(** What the effects of the benchmark runner do: the provisioner and the inventory behind
    the API's interface, the manifest and the results in the database, the runs in memory,
    and SSH and the Go runtime as parameters. *)
From S2P Require Import Prelude GoFloat GoLib Models Errors Interfaces Database CostTable Inventory Template Api Tables Manifest BenchStore Programs Runner BenchRuns RunnerFacts.

(** The runs of the runner, and the runs whose context can be ended. *)
Module RunnerState.
Record t := mk { runs : gmap string BenchmarkRun.t; cancels : gset string }.
Definition set_runs (v : gmap string BenchmarkRun.t) (s : t) : t := mk v (cancels s).
Definition set_cancels (v : gset string) (s : t) : t := mk (runs s) v.
End RunnerState.
Class HasRunner (W : Type) := runner : lens W RunnerState.t.

(** Goroutines, timers, contexts and SSH. *)
Class RunnerRuntime (W : Type) := {
  rt_Sleep : duration -> M W unit;
  rt_IntN : M W (Z -> Z);
  rt_Stagger : duration -> M W bool;
  rt_Ticks : duration -> duration -> M W nat;
  rt_AcquireGate : M W bool;
  rt_ReleaseGate : M W unit;
  rt_StartWorker : ManifestEntry.t -> M W unit;
  rt_WaitWorkers : M W unit;
  rt_StartProcess : string -> M W unit;
  rt_CancelContext : string -> M W unit;
  rt_SCPWrite : SSHTarget.t -> string -> string -> M W (option error);
  rt_RunCommand : SSHTarget.t -> string -> M W (result string)
}.

Section Service.
Context {W : Type} `{HasDB W} `{Env W} `{HasManifest W} `{HasBenchmarks W} `{RunContext W} `{HasRunner W}
  `{CostEngine} `{BenchEngine} `{Backend W} `{RunnerRuntime W}.
(** [RecordOfferFailure] and [EvictOffer] of the inventory. *)
Context (finder : InventoryFinder.t W).

Definition modify_runner (f : RunnerState.t -> RunnerState.t) : M W unit :=
  fun w => (tt, set runner (f (view runner w)) w).
Definition find_run (runID : string) : M W (option BenchmarkRun.t) :=
  pure_state (fun w => RunnerState.runs (view runner w) !! runID).
Definition has_templates (provider : string) : bool :=
  match inventory_GetTemplateProvider provider with Ok _ => true | Err _ => false end.
Definition EndRun_locked (runID : string) : M W unit :=
  let! known := pure_state (fun w => bool_decide (runID ∈ RunnerState.cancels (view runner w))) in
  do! when known (rt_CancelContext runID) in
  modify_runner (fun s => RunnerState.set_cancels (RunnerState.cancels s ∖ {[runID]}) s).

Definition perform_effect (B : Type) (e : runnerE B) : W -> option (B * W) :=
  match e in runnerE B return W -> option (B * W) with
  | Now => fun w => Some (time_Now w)
  | Uuid prefix => fun w => Some (short_uuid prefix w)
  | Sleep d => fun w => Some (rt_Sleep d w)
  | IntN => fun w => Some (rt_IntN w)
  | Panic => fun _ => None
  | CtxDone => fun w => Some ((let! e := ctx_Err in ret (bool_decide (is_Some e))) w)
  | Stagger d => fun w => Some (rt_Stagger d w)
  | Ticks timeout period => fun w => Some (rt_Ticks timeout period w)
  | AcquireGate => fun w => Some (rt_AcquireGate w)
  | ReleaseGate => fun w => Some (rt_ReleaseGate w)
  | StartWorker entry => fun w => Some (rt_StartWorker entry w)
  | WaitWorkers => fun w => Some (rt_WaitWorkers w)
  | Runner.ListOffers filter => fun w => Some (inventory_ListOffers filter w)
  | HasTemplates provider => fun w => Some (has_templates provider, w)
  | CompatibleTemplates provider offerID => fun w =>
      match inventory_GetTemplateProvider provider with
      | Ok t => Some (TemplateProvider.GetCompatibleTemplates t offerID w)
      | Err e => Some (Err e, w)
      end
  | Runner.RecordOfferFailure offerID provider gpuType failureType reason => fun w =>
      Some (InventoryFinder.RecordOfferFailure finder offerID provider gpuType failureType reason w)
  | Runner.EvictOffer offerID => fun w => Some (InventoryFinder.EvictOffer finder offerID w)
  | CreateSession req offer => fun w => Some (provisioner_CreateSession req offer w)
  | GetSession id => fun w => Some (provisioner_GetSession id w)
  | DestroySession id => fun w => Some (provisioner_DestroySession id w)
  | CreateEntry entry => fun w => Some ((let! r := Manifest_Create RunCtx entry in ret r.1) w)
  | GetPending runID limit => fun w => Some (GetPendingByPriority RunCtx runID limit w)
  | ListEntries c runID => fun w => Some (ListByRun c runID w)
  | Summary c runID => fun w => Some (Manifest_GetSummary c runID w)
  | TotalCost c runID => fun w => Some (GetTotalCost c runID w)
  | Claim id workerID outputFile => fun w => Some (MarkRunning RunCtx id workerID outputFile w)
  | UpdateEntry entry => fun w => Some (Manifest_Update RunCtx entry w)
  | Succeed id benchmarkID tps cost => fun w => Some (MarkSuccess RunCtx id benchmarkID tps cost w)
  | FailEntry c id reason stage => fun w => Some (MarkFailed c id reason stage w)
  | TimeOut id stage => fun w => Some (MarkTimeout RunCtx id stage w)
  | SaveResult result => fun w => Some (Save RunCtx result w)
  | SCPWrite to path content => fun w => Some (rt_SCPWrite to path content w)
  | RunCommand to command => fun w => Some (rt_RunCommand to command w)
  | ReadRun runID => fun w => Some (find_run runID w)
  | WriteRun runID f => fun w =>
      Some (modify_runner (fun s => RunnerState.set_runs (alter f runID (RunnerState.runs s)) s) w)
  | AddRun run => fun w =>
      Some (modify_runner (fun s =>
              RunnerState.set_runs (<[BenchmarkRun.ID run := run]> (RunnerState.runs s)) s) w)
  | AddCancel runID => fun w =>
      Some (modify_runner (fun s => RunnerState.set_cancels ({[runID]} ∪ RunnerState.cancels s) s) w)
  | StartProcess runID => fun w => Some (rt_StartProcess runID w)
  | FindRun runID => fun w =>
      Some ((bool_decide (runID ∈ RunnerState.cancels (view runner w)),
             RunnerState.runs (view runner w) !! runID), w)
  | CancelContext runID => fun w => Some (rt_CancelContext runID w)
  | EndRun runID => fun w => Some (EndRun_locked runID w)
  end.

Definition run_on {A} (p : program A) (w : W) : option (A * list (event runnerE) * W) :=
  run perform_effect p [] w.

(** The runner on the services: when a worker ends, the destruction of every session it
    created has been asked for. *)
Lemma worker_on_services sort_Slice script location entry w h w' :
  run_on (processEntry sort_Slice script location entry) w = Some (tt, h, w') ->
  foldr (next rented) [] h = [].
Proof.
  intros Hr. eapply (run_watch _ rented _ (fun _ live => live = []) [] []); [done| |exact Hr].
  apply rented_attempts.
Qed.
End Service.
