(* ===== verification/Scheduler.v ===== *)
(** [internal/service/benchmark/scheduler.go]: recurring benchmark runs.  The table of the
    schedules, the simplified cron expressions, and the check that is made every minute. *)
From S2P Require Import Prelude GoFloat GoLib GoStrings GoText Models Errors Interfaces Database Tables Manifest Programs Runner BenchRuns.
From Stdlib Require Import Ascii.

Module Schedule.
Record t := mk {
  ID : string;
  Name : string;
  CronExpr : string;
  Request : BenchmarkRunRequest.t;
  Enabled : bool;
  LastRunID : string;
  LastRunAt : option time;
  CreatedAt : time;
  UpdatedAt : time
}.
Definition set_ID (id : string) (created : time) (s : t) : t :=
  mk id (Name s) (CronExpr s) (Request s) (Enabled s) (LastRunID s) (LastRunAt s) created (UpdatedAt s).
Definition set_UpdatedAt (v : time) (s : t) : t :=
  mk (ID s) (Name s) (CronExpr s) (Request s) (Enabled s) (LastRunID s) (LastRunAt s) (CreatedAt s) v.
Definition set_last_run (id : string) (at_ : time) (s : t) : t :=
  mk (ID s) (Name s) (CronExpr s) (Request s) (Enabled s) id (Some at_) (CreatedAt s) (UpdatedAt s).
Definition set_Enabled (v : bool) (s : t) : t :=
  mk (ID s) (Name s) (CronExpr s) (Request s) v (LastRunID s) (LastRunAt s) (CreatedAt s) (UpdatedAt s).
End Schedule.

(** ** The table *)

(** A row, without its key. *)
Module ScheduleRow.
Record t := mk {
  name : string;
  cron_expr : string;
  run_request_json : string;
  enabled : bool;
  last_run_id : option string;
  last_run_at : option time;
  created_at : time;
  updated_at : time
}.
End ScheduleRow.

Class HasSchedules (W : Type) := schedules : lens W (gmap string ScheduleRow.t).
(** [encoding/json] on the request of a run. *)
Class RequestJSON := {
  marshal_request : BenchmarkRunRequest.t -> result string;
  unmarshal_request : string -> result BenchmarkRunRequest.t
}.

(** [ORDER BY name ASC], bytewise. *)
Definition by_name (a b : string * ScheduleRow.t) : Prop :=
  String.leb (ScheduleRow.name a.2) (ScheduleRow.name b.2) = true.
#[local] Instance by_name_dec : RelDecision by_name.
Proof. intros a b. unfold by_name. apply _. Defined.

Section Store.
Context {W : Type} `{HasDB W} `{Env W} `{HasSchedules W} `{RunContext W} `{RequestJSON}.

Definition schedule_of_row (id : string) (r : ScheduleRow.t) : result Schedule.t :=
  match unmarshal_request (ScheduleRow.run_request_json r) with
  | Err e => Err e
  | Ok req =>
      Ok (Schedule.mk id (ScheduleRow.name r) (ScheduleRow.cron_expr r) req (ScheduleRow.enabled r)
            (default "" (ScheduleRow.last_run_id r)) (ScheduleRow.last_run_at r) (ScheduleRow.created_at r)
            (ScheduleRow.updated_at r))
  end.

(** Another schedule has the name. *)
Definition name_taken (id name : string) (tbl : gmap string ScheduleRow.t) : bool :=
  existsb (fun kv => negb (bool_decide (kv.1 = id)) && bool_decide (ScheduleRow.name kv.2 = name))
    (map_to_list tbl).
Definition unique_name : error := EOpaque "UNIQUE constraint failed: benchmark_schedules.name".

(** [Create]: the error, and the schedule as the caller's pointer holds it afterwards. *)
Definition Schedule_Create (c : Ctx) (sched : Schedule.t) : M W (option error * Schedule.t) :=
  let! id := if bool_decide (Schedule.ID sched = "") then short_uuid "sched-" else ret (Schedule.ID sched) in
  let! created := if IsZero (Schedule.CreatedAt sched) then time_Now else ret (Schedule.CreatedAt sched) in
  let! updated := time_Now in
  let sched := Schedule.set_UpdatedAt updated (Schedule.set_ID id created sched) in
  match marshal_request (Schedule.Request sched) with
  | Err e => ret (Some (EWrap "failed to marshal run request" e), sched)
  | Ok reqJSON =>
      let! r := table_sql schedules c (fun tbl =>
        match tbl !! id with
        | Some _ => (Some (EOpaque "UNIQUE constraint failed: benchmark_schedules.id"), tbl)
        | None =>
            if name_taken id (Schedule.Name sched) tbl then (Some unique_name, tbl)
            else (None, <[id := ScheduleRow.mk (Schedule.Name sched) (Schedule.CronExpr sched) reqJSON
                            (Schedule.Enabled sched) None None created updated]> tbl)
        end) in
      ret (match r with Ok e => e | Err e => Some e end, sched)
  end.

(** [Update]: a schedule that is not there is not an error. *)
Definition Schedule_Update (c : Ctx) (sched : Schedule.t) : M W (option error * Schedule.t) :=
  let! updated := time_Now in
  let sched := Schedule.set_UpdatedAt updated sched in
  match marshal_request (Schedule.Request sched) with
  | Err e => ret (Some (EWrap "failed to marshal run request" e), sched)
  | Ok reqJSON =>
      let! r := table_sql schedules c (fun tbl =>
        match tbl !! Schedule.ID sched with
        | None => (None, tbl)
        | Some old =>
            if name_taken (Schedule.ID sched) (Schedule.Name sched) tbl then (Some unique_name, tbl)
            else (None, <[Schedule.ID sched :=
                    ScheduleRow.mk (Schedule.Name sched) (Schedule.CronExpr sched) reqJSON
                      (Schedule.Enabled sched) (Some (Schedule.LastRunID sched)) (Schedule.LastRunAt sched)
                      (ScheduleRow.created_at old) updated]> tbl)
        end) in
      ret (match r with Ok e => e | Err e => Some e end, sched)
  end.

Definition Schedule_Get (c : Ctx) (id : string) : M W (result (option Schedule.t)) :=
  let! r := table_sql schedules c (fun tbl => (tbl !! id, tbl)) in
  ret match r with
      | Err e => Err e
      | Ok None => Ok None
      | Ok (Some row) => match schedule_of_row id row with Ok s => Ok (Some s) | Err e => Err e end
      end.

Fixpoint schedules_of_rows (rows : list (string * ScheduleRow.t)) : result (list Schedule.t) :=
  match rows with
  | [] => Ok []
  | (id, row) :: rows' =>
      match schedule_of_row id row with
      | Err e => Err e
      | Ok s => match schedules_of_rows rows' with Ok l => Ok (s :: l) | Err e => Err e end
      end
  end.
Definition select_schedules (c : Ctx) (p : ScheduleRow.t -> bool) : M W (result (list Schedule.t)) :=
  let! r := table_sql schedules c (fun tbl =>
    (merge_sort by_name (List.filter (fun kv => p kv.2) (map_to_list tbl)), tbl)) in
  ret match r with Err e => Err e | Ok rows => schedules_of_rows rows end.
Definition Schedule_List (c : Ctx) : M W (result (list Schedule.t)) := select_schedules c (fun _ => true).
Definition ListEnabled (c : Ctx) : M W (result (list Schedule.t)) := select_schedules c ScheduleRow.enabled.

Definition Schedule_Delete (c : Ctx) (id : string) : M W (option error) :=
  let! r := table_sql schedules c (fun tbl => (bool_decide (is_Some (tbl !! id)), delete id tbl)) in
  ret match r with
      | Err e => Some e
      | Ok true => None
      | Ok false => Some (EOpaque "schedule not found")
      end.
End Store.

(** ** Cron expressions *)

(** ["*"], ["N"] or ["*/N"]. *)
Definition matchCronField (field : string) (value : Z) : bool :=
  if bool_decide (field = "*") then true
  else if HasPrefix field "*/" then
    match Atoi (TrimPrefix field "*/") with
    | Err _ => false
    | Ok divisor => if (divisor <=? 0)%Z then false else (Z.rem value divisor =? 0)%Z
    end
  else match Atoi field with Err _ => false | Ok expected => (value =? expected)%Z end.

Section ShouldRun.
(** The offset of the server's time zone from UTC at an instant. *)
Context (zone : time -> duration).

Definition local (t : time) : time := (t + zone t)%Z.
Definition cron_matches (parts : list string) (now : time) : bool :=
  let t := local now in
  match parts with
  | [minute; hour; day; month; weekday] =>
      matchCronField minute (TimeMinute t) && matchCronField hour (TimeHour t) &&
      matchCronField day (MonthDay t) && matchCronField month (TimeMonth t) &&
      matchCronField weekday (TimeWeekday t)
  | _ => false
  end.
Definition ran_recently (sched : Schedule.t) (now : time) : bool :=
  match Schedule.LastRunAt sched with
  | Some last => (Sub now last <? 2 * Minute)%Z
  | None => false
  end.
Definition shouldRun (sched : Schedule.t) (now : time) : bool :=
  if ran_recently sched now then false else cron_matches (Fields (Schedule.CronExpr sched)) now.

(** ** The check *)

(** The effects of the scheduler besides those of the runner. *)
Inductive scheduleE : Type -> Type :=
| EnabledSchedules : scheduleE (result (list Schedule.t))
| WriteSchedule (sched : Schedule.t) : scheduleE (option error)
| SchedulerNow : scheduleE time.
Definition scheduler_program (A : Type) : Type := prog (either scheduleE runnerE) A.
Definition ask {B} (e : scheduleE B) : scheduler_program B := trigger (Left e).

Definition check_schedule (now : time) (sched : Schedule.t) : scheduler_program unit :=
  if shouldRun sched now then
    let* r := inject (StartRun (Schedule.Request sched)) in
    match r with
    | Err _ => Return tt
    | Ok run =>
        let* nowT := ask SchedulerNow in
        let* _ := ask (WriteSchedule (Schedule.set_last_run (BenchmarkRun.ID run) nowT sched)) in
        Return tt
    end
  else Return tt.
Fixpoint check_each (now : time) (l : list Schedule.t) : scheduler_program unit :=
  match l with
  | [] => Return tt
  | sched :: l' => do* check_schedule now sched in check_each now l'
  end.
Definition checkSchedules : scheduler_program unit :=
  let* r := ask EnabledSchedules in
  match r with
  | Err _ => Return tt
  | Ok scheds => let* now := ask SchedulerNow in check_each now scheds
  end.
(** [run]: one check for each tick of a minute until the context ends. *)
Fixpoint scheduler_run (ticks : nat) : scheduler_program unit :=
  match ticks with O => Return tt | S ticks' => do* checkSchedules in scheduler_run ticks' end.
End ShouldRun.

(** ** [Start] and [Stop]

    The contexts of the loops are numbered in the order of the calls of [Start]. *)
Inductive SchedulerCall := CallStart | CallStop.
Module SchedulerLoops.
Record t := mk {
  (** the context that the field [cancel] ends *)
  cancel : option nat;
  (** the contexts that have ended *)
  ended : gset nat;
  started : nat
}.
Definition init : t := mk None ∅ 0.
Definition Start (s : t) : t := mk (Some (started s)) (ended s) (S (started s)).
Definition Stop (s : t) : t :=
  match cancel s with Some n => mk (cancel s) ({[n]} ∪ ended s) (started s) | None => s end.
Definition call (s : t) (c : SchedulerCall) : t := match c with CallStart => Start s | CallStop => Stop s end.
(** The loops that go on checking the schedules. *)
Definition looping (s : t) : gset nat := set_seq 0 (started s) ∖ ended s.
End SchedulerLoops.
