(* ===== verification/SchedulerFacts.v ===== *)
(** What a cron expression means to the scheduler, and what the schedule store keeps. *)
From S2P Require Import Prelude GoFloat GoLib GoStrings GoText Models Errors Interfaces Database Tables Manifest Programs Runner BenchRuns Scheduler.
From Stdlib Require Import Ascii.
#[local] Set Warnings "-clear-no-such-hyp".

(** ** Expressions *)

(** The supported fields. *)
Inductive CronField := AnyValue | Exactly (n : Z) | Every (n : Z).
Definition print_field (f : CronField) : string :=
  match f with AnyValue => "*" | Exactly n => Itoa n | Every n => "*/" +:+ Itoa n end.
Definition supported (f : CronField) : Prop :=
  match f with AnyValue => True | Exactly n => in_int64 n | Every n => in_int64 n /\ (0 < n)%Z end.
(** The values a field stands for. *)
Definition field_holds (f : CronField) (v : Z) : bool :=
  match f with
  | AnyValue => true
  | Exactly n => (v =? n)%Z
  | Every n => (v mod n =? 0)%Z
  end.

Lemma Itoa_not_star n s : Itoa n <> String "*" s.
Proof. intros He. pose proof (Itoa_bytes n) as Hb. by rewrite He in Hb. Qed.
Lemma Itoa_no_step n : HasPrefix (Itoa n) "*/" = false.
Proof.
  destruct (HasPrefix (Itoa n) "*/") eqn:Hp; [|done]. apply HasPrefix_spec in Hp as [t Ht].
  by apply Itoa_not_star in Ht.
Qed.

Lemma matchCronField_print f v :
  supported f -> (0 <= v)%Z -> matchCronField (print_field f) v = field_holds f v.
Proof.
  intros Hf Hv. unfold matchCronField. destruct f as [|n|n]; cbn [print_field].
  - done.
  - rewrite bool_decide_false by apply Itoa_not_star.
    rewrite Itoa_no_step.
    by rewrite Atoi_Itoa.
  - destruct Hf as [Hin Hpos]. rewrite bool_decide_false by done.
    unfold TrimPrefix. rewrite HasPrefix_app, drop_app_string.
    rewrite Atoi_Itoa by done. destruct (Z.leb_spec n 0); [lia|]. by rewrite Z.rem_mod_nonneg.
Qed.

Lemma print_word f : word (print_field f).
Proof.
  assert (forall n, all_bytes (fun c => negb (is_space c)) (Itoa n) = true) as Hw.
  { intros n. eapply all_bytes_mono; [apply number_byte_not_space|apply Itoa_bytes]. }
  destruct f as [|n|n]; cbn [print_field]; [by split|split; [apply Itoa_nonempty|apply Hw]|].
  split; [done|]. rewrite all_bytes_app. apply andb_true_iff. split; [done|apply Hw].
Qed.

Section Zone.
Context (zone : time -> duration).

Lemma local_fields t :
  (0 <= TimeMinute t)%Z /\ (0 <= TimeHour t)%Z /\ (0 <= MonthDay t)%Z /\ (0 <= TimeMonth t)%Z /\ (0 <= TimeWeekday t)%Z.
Proof.
  unfold TimeMinute, TimeHour, TimeWeekday. pose proof (MonthDay_range t).
  split_and!; [apply Z.mod_pos_bound; done|apply Z.mod_pos_bound; done|lia| |apply Z.mod_pos_bound; done].
  unfold TimeMonth. set (z := (t / Day + 306)%Z). clearbody z.
  set (doe := (z mod 146097)%Z). assert (0 <= doe < 146097)%Z as Hdoe by (apply Z.mod_pos_bound; done). clearbody doe.
  set (yoe := ((doe - doe / 1460 + doe / 36524 - doe / 146096) / 365)%Z).
  set (doy := (doe - (365 * yoe + yoe / 4 - yoe / 100))%Z).
  assert (0 <= doy)%Z as Hdoy.
  { subst doy yoe. pose proof (Z.div_mod doe 1460). pose proof (Z.mod_pos_bound doe 1460).
    pose proof (Z.div_mod doe 36524). pose proof (Z.mod_pos_bound doe 36524).
    pose proof (Z.div_mod doe 146096). pose proof (Z.mod_pos_bound doe 146096).
    set (x := (doe - doe / 1460 + doe / 36524 - doe / 146096)%Z) in *.
    pose proof (Z.div_mod x 365). pose proof (Z.mod_pos_bound x 365).
    pose proof (Z.div_mod (x / 365) 4). pose proof (Z.mod_pos_bound (x / 365) 4).
    pose proof (Z.div_mod (x / 365) 100). pose proof (Z.mod_pos_bound (x / 365) 100). lia. }
  clearbody doy. assert (0 <= (5 * doy + 2) / 153)%Z by (apply Z.div_pos; lia).
  destruct (Z.ltb_spec ((5 * doy + 2) / 153) 10); lia.
Qed.

(** The printed expression of five supported fields. *)
Definition cron (minute hour day month weekday : CronField) : string :=
  Join (print_field <$> [minute; hour; day; month; weekday]) " ".

(** C38.  An expression of supported fields is read as what it stands for: the schedule runs at
    the instants whose local minute, hour, day, month and weekday all satisfy their fields,
    unless it ran less than two minutes before. *)
Theorem cron_means_fields minute hour day month weekday sched now :
  Forall supported [minute; hour; day; month; weekday] ->
  Schedule.CronExpr sched = cron minute hour day month weekday ->
  shouldRun zone sched now =
    negb (ran_recently sched now) &&
    (let t := local zone now in
     field_holds minute (TimeMinute t) && field_holds hour (TimeHour t) && field_holds day (MonthDay t) &&
     field_holds month (TimeMonth t) && field_holds weekday (TimeWeekday t)).
Proof.
  intros Hs Hc. unfold shouldRun. destruct (ran_recently sched now); [done|]. cbn [negb andb].
  rewrite Hc. unfold cron. rewrite Fields_Join by (apply Forall_fmap, Forall_true; intros; apply print_word).
  cbn [fmap list_fmap cron_matches]. cbv zeta.
  destruct (local_fields (local zone now)) as (? & ? & ? & ? & ?).
  rewrite !Forall_cons in Hs. destruct Hs as (? & ? & ? & ? & ? & _).
  by rewrite !matchCronField_print.
Qed.

(** A field with a byte that is no digit, sign, star or slash, a list or a range of values for
    instance, matches nothing. *)
Definition cron_byte (c : ascii) : bool :=
  is_number_byte c || Ascii.eqb c "+" || Ascii.eqb c "*" || Ascii.eqb c "/".

Lemma atoi_digits_all neg s v : atoi_digits neg s = Ok v -> all_bytes is_digit s = true.
Proof.
  unfold atoi_digits. destruct (digits s 0 0) as [[w k] rest] eqn:Hd. destruct k as [|k]; [done|].
  destruct rest as [|c rest]; [|done]. intros _. by eapply digits_all.
Qed.
Lemma digit_cron s : all_bytes is_digit s = true -> all_bytes cron_byte s = true.
Proof. apply all_bytes_mono. intros c Hc. unfold cron_byte, is_number_byte. by rewrite Hc. Qed.
Lemma Atoi_bytes s v : Atoi s = Ok v -> all_bytes cron_byte s = true.
Proof.
  destruct s as [|c s]; [done|]. unfold Atoi.
  destruct (Ascii.eqb_spec c "-") as [->|_]; [intros Ha%atoi_digits_all%digit_cron; exact Ha|].
  destruct (Ascii.eqb_spec c "+") as [->|_]; [intros Ha%atoi_digits_all%digit_cron; exact Ha|].
  intros Ha%atoi_digits_all. by apply digit_cron.
Qed.
Lemma matchCronField_bytes field v : matchCronField field v = true -> all_bytes cron_byte field = true.
Proof.
  unfold matchCronField. destruct (bool_decide_reflect (field = "*")) as [->|_]; [done|].
  destruct (HasPrefix field "*/") eqn:Hp.
  - apply HasPrefix_spec in Hp as [t ->]. unfold TrimPrefix. rewrite HasPrefix_app, drop_app_string.
    destruct (Atoi t) as [d|e] eqn:Ha; [|done]. intros _. rewrite all_bytes_app.
    apply andb_true_iff. split; [done|by eapply Atoi_bytes].
  - destruct (Atoi field) as [d|e] eqn:Ha; [|done]. intros _. by eapply Atoi_bytes.
Qed.

(** A schedule whose expression uses a list, a range or a name is accepted and never runs. *)
Theorem unsupported_never_runs sched now field :
  field ∈ Fields (Schedule.CronExpr sched) -> all_bytes cron_byte field = false ->
  shouldRun zone sched now = false.
Proof.
  intros Hin Hb. unfold shouldRun. destruct (ran_recently sched now); [done|].
  destruct (cron_matches zone (Fields (Schedule.CronExpr sched)) now) eqn:Hm; [|done].
  exfalso. unfold cron_matches in Hm.
  destruct (Fields (Schedule.CronExpr sched)) as [|a [|b [|c [|d [|e [|f l]]]]]]; try done.
  cbv zeta in Hm. rewrite !andb_true_iff in Hm. destruct Hm as ((((Ha & Hb') & Hc) & Hd) & He).
  apply matchCronField_bytes in Ha, Hb', Hc, Hd, He.
  rewrite !elem_of_cons, elem_of_nil in Hin. destruct Hin as [->|[->|[->|[->|[->|[]]]]]]; congruence.
Qed.
End Zone.

(** The expression that is to run every minute runs every other minute. *)
Example every_minute_runs_every_other :
  let sched := Schedule.mk "s" "n" "* * * * *" (BenchmarkRunRequest.mk [] [] [] f0 0 "") true "" (Some (10 * Minute)%Z)
                 0%Z 0%Z in
  shouldRun (fun _ => 0%Z) sched (11 * Minute)%Z = false /\ shouldRun (fun _ => 0%Z) sched (12 * Minute)%Z = true.
Proof. by vm_compute. Qed.

(** ** The store *)
Class RequestJSONLaws `{RequestJSON} : Prop :=
  request_roundtrip : forall req text, marshal_request req = Ok text -> unmarshal_request text = Ok req.

Section Store.
Context {W : Type} `{HasDB W} `{Env W} `{HasSchedules W} `{RunContext W} `{RequestJSON}.
Context `{!TableLaws schedules} `{!TableEnv schedules} `{!RequestJSONLaws}.

(** The name of a schedule is its own. *)
Definition names_unique (tbl : gmap string ScheduleRow.t) : Prop :=
  forall i j r r', tbl !! i = Some r -> tbl !! j = Some r' -> ScheduleRow.name r = ScheduleRow.name r' -> i = j.

Lemma name_free id name tbl j r :
  name_taken id name tbl = false -> tbl !! j = Some r -> ScheduleRow.name r = name -> j = id.
Proof.
  intros Hn Hj Hname. destruct (decide (j = id)) as [|Hne]; [done|]. exfalso.
  apply not_true_iff_false in Hn. apply Hn, existsb_exists. exists (j, r). cbn.
  rewrite (bool_decide_false (j = id)), bool_decide_true by done. split; [|done].
  apply list_elem_of_In. by apply elem_of_map_to_list.
Qed.

Lemma names_unique_insert id row tbl :
  name_taken id (ScheduleRow.name row) tbl = false -> names_unique tbl -> names_unique (<[id := row]> tbl).
Proof.
  intros Hfree Hu i j r r' Hi Hj Hname.
  apply lookup_insert_Some in Hi as [[<- <-]|[Hni Hi]]; apply lookup_insert_Some in Hj as [[<- <-]|[Hnj Hj]]; [done|..].
  - symmetry. eapply name_free; [exact Hfree|exact Hj|done].
  - eapply name_free; [exact Hfree|exact Hi|done].
  - eapply Hu; eauto.
Qed.

(** What a creation does to the table. *)
Lemma wp_Schedule_Create c sched w :
  wp (Schedule_Create c sched) (fun r w' =>
    match r.1 with
    | Some _ => view schedules w' = view schedules w
    | None => exists text, marshal_request (Schedule.Request r.2) = Ok text /\
        Schedule.Request r.2 = Schedule.Request sched /\ Schedule.Name r.2 = Schedule.Name sched /\
        name_taken (Schedule.ID r.2) (Schedule.Name sched) (view schedules w) = false /\
        view schedules w' = <[Schedule.ID r.2 :=
          ScheduleRow.mk (Schedule.Name r.2) (Schedule.CronExpr r.2) text (Schedule.Enabled r.2) None None
            (Schedule.CreatedAt r.2) (Schedule.UpdatedAt r.2)]> (view schedules w)
    end) w.
Proof.
  apply wp_bind. eapply wp_mono; [by eauto with tables|]. cbv beta. intros id w1 Hv1.
  apply wp_bind. eapply wp_mono; [by eauto with tables|]. cbv beta. intros created w2 Hv2.
  apply wp_bind. eapply wp_mono; [by eauto with tables|]. cbv beta. intros updated w3 Hv3. cbv zeta.
  change (Schedule.Request (Schedule.set_UpdatedAt updated (Schedule.set_ID id created sched)))
    with (Schedule.Request sched).
  destruct (marshal_request (Schedule.Request sched)) as [text|e] eqn:Hj; [|apply wp_ret; cbn; congruence].
  apply wp_bind, (wp_table_sql _); [intros e w4 Hv4; apply wp_ret; cbn; congruence|].
  rewrite Hv3, Hv2, Hv1. intros w4 Hv4. apply wp_ret. cbn in *.
  destruct (view schedules w !! id) as [old|]; [exact Hv4|].
  destruct (name_taken id (Schedule.Name sched) (view schedules w)) eqn:Hn; [exact Hv4|]. by exists text.
Qed.

(** Creating keeps the names unique. *)
Lemma Schedule_Create_unique c sched w :
  names_unique (view schedules w) ->
  wp (Schedule_Create c sched) (fun _ w' => names_unique (view schedules w')) w.
Proof.
  intros Hu. eapply wp_mono; [apply wp_Schedule_Create|]. intros [[e|] r] w' Hr; cbn in *; [by rewrite Hr|].
  destruct Hr as (text & _ & _ & Hname & Hfree & ->). rewrite <-Hname in Hfree. by apply names_unique_insert.
Qed.

(** A schedule that was created is read back as the caller holds it, without a last run. *)
Theorem Schedule_Create_Get c c' sched w :
  wp (let! made := Schedule_Create c sched in
      let! got := Schedule_Get c' (Schedule.ID made.2) in
      ret (made, got))
    (fun r _ => r.1.1 = None ->
       match r.2 with
       | Ok got => got = Some (Schedule.mk (Schedule.ID r.1.2) (Schedule.Name r.1.2) (Schedule.CronExpr r.1.2)
             (Schedule.Request r.1.2) (Schedule.Enabled r.1.2) "" None (Schedule.CreatedAt r.1.2)
             (Schedule.UpdatedAt r.1.2))
       | Err _ => True
       end) w.
Proof.
  apply wp_bind. eapply wp_mono; [apply wp_Schedule_Create|]. intros [[e|] made] w1 Hs; cbn in Hs.
  - apply wp_bind, wp_true. intros got w2. by apply wp_ret.
  - destruct Hs as (text & Hj & _ & _ & _ & Hv). apply wp_bind, wp_bind, (wp_table_sql _).
    + intros e w2 _. by apply wp_ret, wp_ret.
    + intros w2 _. apply wp_ret, wp_ret. intros _. cbn [fst snd].
      rewrite Hv, lookup_insert_eq. unfold schedule_of_row. cbn. by rewrite (request_roundtrip _ _ Hj).
Qed.
End Store.

(** ** The loops *)

(** The calls of [Start], from number [n] on, that no [Stop] follows before the next one. *)
Fixpoint unstopped (n : nat) (calls : list SchedulerCall) : gset nat :=
  match calls with
  | [] => ∅
  | CallStart :: rest =>
      match rest with CallStop :: _ => unstopped (S n) rest | _ => {[n]} ∪ unstopped (S n) rest end
  | CallStop :: rest => unstopped n rest
  end.

Lemma loops_of calls s :
  (forall n, n ∈ SchedulerLoops.ended s -> n < SchedulerLoops.started s) ->
  (forall n, SchedulerLoops.cancel s = Some n -> n < SchedulerLoops.started s) ->
  SchedulerLoops.looping (fold_left SchedulerLoops.call calls s) =
    SchedulerLoops.looping (match calls with CallStop :: _ => SchedulerLoops.Stop s | _ => s end) ∪
    unstopped (SchedulerLoops.started s) calls.
Proof.
  revert s. induction calls as [|[] calls IH]; intros s He Hc; cbn [fold_left SchedulerLoops.call unstopped].
  - set_solver.
  - rewrite IH; cbn [SchedulerLoops.Start SchedulerLoops.started SchedulerLoops.cancel SchedulerLoops.ended].
    2: { intros n Hn. specialize (He n Hn). lia. }
    2: { intros n [= <-]. lia. }
    assert (SchedulerLoops.looping (SchedulerLoops.Start s) = {[SchedulerLoops.started s]} ∪ SchedulerLoops.looping s) as Hs.
    { apply set_eq. intros n. unfold SchedulerLoops.looping, SchedulerLoops.Start.
      cbn [SchedulerLoops.started SchedulerLoops.ended].
      rewrite elem_of_union, elem_of_singleton, !elem_of_difference, !elem_of_set_seq.
      split; [|intros [->|[Hn Hd]]]; [|split; [lia|intros Hd; specialize (He _ Hd); lia]|split; [lia|done]].
      intros [Hn Hd]. destruct (decide (n = SchedulerLoops.started s)); [by left|]. right. split; [lia|done]. }
    destruct calls as [|[] calls]; [rewrite Hs; set_solver..|].
    f_equal. apply set_eq. intros n. unfold SchedulerLoops.looping, SchedulerLoops.Stop, SchedulerLoops.Start.
    cbn [SchedulerLoops.started SchedulerLoops.ended SchedulerLoops.cancel].
    rewrite !elem_of_difference, elem_of_union, elem_of_singleton, !elem_of_set_seq.
    split; [|intros [Hn Hd]; split; [lia|intros [->|?]; [lia|done]]].
    intros [Hn Hd]. split; [|tauto]. destruct (decide (n = SchedulerLoops.started s)); [tauto|lia].
  - rewrite IH.
    + assert (SchedulerLoops.started (SchedulerLoops.Stop s) = SchedulerLoops.started s) as ->
        by (unfold SchedulerLoops.Stop; by destruct (SchedulerLoops.cancel s)).
      f_equal. destruct calls as [|[] calls]; [done..|]. unfold SchedulerLoops.Stop.
      destruct (SchedulerLoops.cancel s) eqn:E; cbn; rewrite ?E; [|done].
      unfold SchedulerLoops.looping. cbn. set_solver.
    + unfold SchedulerLoops.Stop. destruct (SchedulerLoops.cancel s) as [c|] eqn:E; [|exact He]. cbn.
      intros n [->%elem_of_singleton|Hn]%elem_of_union; [by apply Hc|by apply He].
    + unfold SchedulerLoops.Stop. destruct (SchedulerLoops.cancel s) as [c|] eqn:E; cbn; [|by rewrite E].
      intros n Hn. by apply Hc.
Qed.

(** After any calls of [Start] and [Stop] the loops that go on are those of the calls of
    [Start] that no [Stop] followed before the next [Start]: a second [Start] makes the first
    loop one that nothing can stop. *)
Theorem unstopped_loops calls :
  SchedulerLoops.looping (fold_left SchedulerLoops.call calls SchedulerLoops.init) = unstopped 0 calls.
Proof.
  rewrite loops_of; [|set_solver|done].
  replace (match calls with CallStop :: _ => _ | _ => _ end) with SchedulerLoops.init by by destruct calls as [|[] calls].
  assert (SchedulerLoops.looping SchedulerLoops.init = ∅) as -> by (vm_compute; reflexivity).
  apply (left_id_L ∅ (∪)).
Qed.
