(* ===== verification/BenchApi.v ===== *)
(** [internal/api/benchmark_handlers.go]: the benchmark routes of the API, as programs over
    the results store, the schedule store and the effects of the runner.  Binding and the
    encoding of bodies are parameters. *)
From S2P Require Import Prelude GoFloat GoLib GoStrings Models Errors Interfaces Template Api Tables Manifest BenchStore BenchParser Programs Runner BenchRuns Scheduler.

(** ** Requests and responses *)
Module BenchmarkQuery.
Record t := mk { Model : string; GPU : string; Provider : string; Runtime : string; Limit : Z }.
End BenchmarkQuery.

(** The body of an update: an omitted field is empty. *)
Module ScheduleUpdate.
Record t := mk {
  Name : string;
  Cron : string;
  Request : option BenchmarkRunRequest.t;
  Enabled : option bool
}.
End ScheduleUpdate.

Module ComparisonEntry.
Record t := mk {
  Result : BenchmarkResult.t;
  SpeedupFactor : f64;
  CostEfficiency : f64;
  MemoryEfficiency : f64
}.
End ComparisonEntry.

Class BenchGin := {
  bind_benchmark_query : gmap string string -> result BenchmarkQuery.t;
  bind_benchmark : string -> result BenchmarkResult.t;
  bind_run : string -> result BenchmarkRunRequest.t;
  bind_schedule : string -> result Schedule.t;
  bind_update : string -> result ScheduleUpdate.t
}.

Inductive BenchBody :=
| BenchError (Error : string)
| BenchmarksBody (benchmarks : list BenchmarkResult.t) (count : Z)
| BenchmarkBody (benchmark : BenchmarkResult.t) (cost_analysis : CostAnalysis.t)
| RecommendationsBody (model : string) (recommendations : list HardwareRecommendation.t) (count : Z)
| BenchmarkComparison (Baseline : BenchmarkResult.t) (Comparisons : list ComparisonEntry.t)
| RunBody (run : BenchmarkRun.t)
| RunEntriesBody (run : BenchmarkRun.t) (entries : list ManifestEntry.t)
| StatusBody (status : string)
| ScheduleBody (schedule : Schedule.t)
| SchedulesBody (schedules : list Schedule.t) (count : Z).

Module BenchResponse.
Record t := mk { Code : Z; body : BenchBody; request_id : string }.
End BenchResponse.

(** ** Effects *)
Inductive benchE : Type -> Type :=
| BenchByModel (model : string) : benchE (result (list BenchmarkResult.t))
| BenchByGPU (gpu : string) : benchE (result (list BenchmarkResult.t))
| BenchRecent (limit : Z) : benchE (result (list BenchmarkResult.t))
| BenchGet (id : string) : benchE (result (option BenchmarkResult.t))
| BenchBest (model : string) : benchE (result (option BenchmarkResult.t))
| BenchCheapest (model : string) (minTPS : f64) : benchE (result (option BenchmarkResult.t))
| BenchRecommend (model : string) : benchE (result (list HardwareRecommendation.t))
| BenchSave (result : BenchmarkResult.t) : benchE (option error * BenchmarkResult.t)
| SchedCreate (sched : Schedule.t) : benchE (option error * Schedule.t)
| SchedList : benchE (result (list Schedule.t))
| SchedGet (id : string) : benchE (result (option Schedule.t))
| SchedUpdate (sched : Schedule.t) : benchE (option error * Schedule.t)
| SchedDelete (id : string) : benchE (option error).

Definition api_program (A : Type) : Type := prog (either benchE runnerE) A.
Definition query_store {B} (e : benchE B) : api_program B := trigger (Left e).

Section Handlers.
Context `{BenchGin} `{FloatText}.
(** What the server was made with. *)
Context (has_store has_runner has_scheduler : bool).

Definition bench_handler : Type := HttpRequest.t -> api_program BenchResponse.t.

Definition answer (r : HttpRequest.t) (code : Z) (b : BenchBody) : BenchResponse.t :=
  BenchResponse.mk code b (HttpRequest.request_id r).
Definition refuse (r : HttpRequest.t) (code : Z) (text : string) : api_program BenchResponse.t :=
  Return (answer r code (BenchError text)).

(** The guard at the start of every handler. *)
Definition guarded (available : bool) (what : string) (k : bench_handler) : bench_handler := fun r =>
  if available then k r else refuse r 503 (what +:+ " not available").
Definition with_store : bench_handler -> bench_handler := guarded has_store "benchmark service".
Definition with_runner : bench_handler -> bench_handler := guarded has_runner "benchmark runner".
Definition with_scheduler : bench_handler -> bench_handler := guarded has_scheduler "benchmark scheduler".

(** ** Results *)
Definition list_limit (limit : Z) : Z :=
  let limit := if (limit <=? 0)%Z then 50%Z else limit in
  if (200 <? limit)%Z then 200%Z else limit.

Definition handleListBenchmarks : bench_handler := with_store (fun r =>
  match bind_benchmark_query (HttpRequest.query r) with
  | Err e => refuse r 400 ("invalid query parameters: " +:+ Error e)
  | Ok query =>
      let limit := list_limit (BenchmarkQuery.Limit query) in
      let* results := query_store
        (if negb (bool_decide (BenchmarkQuery.Model query = "")) then BenchByModel (BenchmarkQuery.Model query)
         else if negb (bool_decide (BenchmarkQuery.GPU query = "")) then BenchByGPU (BenchmarkQuery.GPU query)
         else BenchRecent limit) in
      match results with
      | Err e => refuse r 500 ("failed to fetch benchmarks: " +:+ Error e)
      | Ok results =>
          let results := if (limit <? Z.of_nat (length results))%Z then take (Z.to_nat limit) results else results in
          Return (answer r 200 (BenchmarksBody results (Z.of_nat (length results))))
      end
  end).

Definition benchmark_body (b : BenchmarkResult.t) : BenchBody := BenchmarkBody b (CalculateCostAnalysis b).

(** The answer to a query for one benchmark. *)
Definition one_benchmark (r : HttpRequest.t) (missing : string) (e : benchE (result (option BenchmarkResult.t)))
    : api_program BenchResponse.t :=
  let* result := query_store e in
  match result with
  | Err e => refuse r 500 ("failed to fetch benchmark: " +:+ Error e)
  | Ok None => refuse r 404 missing
  | Ok (Some b) => Return (answer r 200 (benchmark_body b))
  end.
Definition none_for (model : string) : string := "no benchmarks found for model: " +:+ sanitizeInput model 128.

Definition handleGetBenchmark : bench_handler := with_store (fun r =>
  one_benchmark r "benchmark not found" (BenchGet (HttpRequest.id r))).

Definition with_model (k : string -> bench_handler) : bench_handler := fun r =>
  let model := HttpRequest.Query "model" r in
  if bool_decide (model = "") then refuse r 400 "model parameter is required" else k model r.

Definition handleGetBestBenchmark : bench_handler := with_store (with_model (fun model r =>
  one_benchmark r (none_for model) (BenchBest model))).

Definition handleGetCheapestBenchmark : bench_handler := with_store (with_model (fun model r =>
  let minTPSStr := HttpRequest.Query "min_tps" r in
  match (if bool_decide (minTPSStr = "") then Ok f0 else ParseFloat minTPSStr) with
  | Err _ => refuse r 400 "invalid min_tps value"
  | Ok minTPS => one_benchmark r (none_for model) (BenchCheapest model minTPS)
  end)).

Definition handleGetHardwareRecommendations : bench_handler := with_store (with_model (fun model r =>
  let* recs := query_store (BenchRecommend model) in
  match recs with
  | Err e => refuse r 500 ("failed to get recommendations: " +:+ Error e)
  | Ok recs => Return (answer r 200 (RecommendationsBody model recs (Z.of_nat (length recs))))
  end)).

Definition handleCreateBenchmark : bench_handler := with_store (fun r =>
  match bind_benchmark (HttpRequest.body r) with
  | Err e => refuse r 400 ("invalid benchmark data: " +:+ Error e)
  | Ok result =>
      let* saved := query_store (BenchSave result) in
      match saved.1 with
      | Some e => refuse r 500 ("failed to save benchmark: " +:+ Error e)
      | None => Return (answer r 201 (benchmark_body saved.2))
      end
  end).

(** *** Comparison *)
Definition speed (b : BenchmarkResult.t) : f64 :=
  PerformanceResults.AvgTokensPerSecond (BenchmarkResult.Results b).
Definition memory_mib (b : BenchmarkResult.t) : Z := HardwareInfo.GPUMemoryMiB (BenchmarkResult.Hardware b).
(** Tokens per second and GB of memory. *)
Definition memory_speed (b : BenchmarkResult.t) : f64 :=
  fdiv (speed b) (fdiv (f64_of_Z (memory_mib b)) (f64_of_Z 1024)).
Definition ratio (base this : f64) : f64 := if fgtb base f0 then fdiv this base else f0.
Definition compare (best r : BenchmarkResult.t) : ComparisonEntry.t :=
  ComparisonEntry.mk r (ratio (speed best) (speed r))
    (ratio (CostAnalysis.TokensPerDollar (CalculateCostAnalysis best))
           (CostAnalysis.TokensPerDollar (CalculateCostAnalysis r)))
    (if (0 <? memory_mib best)%Z && (0 <? memory_mib r)%Z then ratio (memory_speed best) (memory_speed r) else f0).
Definition comparisons (best : BenchmarkResult.t) (results : list BenchmarkResult.t) : list ComparisonEntry.t :=
  compare best <$> List.filter (fun r => negb (bool_decide (BenchmarkResult.ID r = BenchmarkResult.ID best))) results.

Definition handleCompareBenchmarks : bench_handler := with_store (with_model (fun model r =>
  let* results := query_store (BenchByModel model) in
  match results with
  | Err e => refuse r 500 ("failed to fetch benchmarks: " +:+ Error e)
  | Ok [] => refuse r 404 (none_for model)
  | Ok (first :: _ as results) =>
      let* best := query_store (BenchBest model) in
      let best := match best with Ok (Some b) => b | _ => first end in
      Return (answer r 200 (BenchmarkComparison best (comparisons best results)))
  end)).

(** ** Runs *)
Definition on_runner {A} (p : program A) : api_program A := inject p.

Definition handleStartBenchmarkRun : bench_handler := with_runner (fun r =>
  match bind_run (HttpRequest.body r) with
  | Err e => refuse r 400 ("invalid request: " +:+ Error e)
  | Ok req =>
      match BenchmarkRunRequest.Models req with
      | [] => refuse r 400 "at least one model is required"
      | _ =>
          let* run := on_runner (StartRun req) in
          match run with
          | Err e => refuse r 500 ("failed to start benchmark run: " +:+ Error e)
          | Ok run => Return (answer r 201 (RunBody run))
          end
      end
  end).

Definition unknown_run (r : HttpRequest.t) : api_program BenchResponse.t :=
  refuse r 404 ("run not found: " +:+ sanitizeInput (HttpRequest.id r) 128).

Definition handleGetBenchmarkRun : bench_handler := with_runner (fun r =>
  let* run := on_runner (GetRun (HttpRequest.id r)) in
  match run with
  | Err _ => unknown_run r
  | Ok run =>
      let* entries := on_runner (GetRunEntries (HttpRequest.id r)) in
      Return (answer r 200 (RunEntriesBody run (orElse [] entries)))
  end).

Definition handleCancelBenchmarkRun : bench_handler := with_runner (fun r =>
  let* e := on_runner (CancelRun (HttpRequest.id r)) in
  match e with
  | Some _ => unknown_run r
  | None => Return (answer r 200 (StatusBody "cancelled"))
  end).

(** ** Schedules *)
Definition unknown_schedule (r : HttpRequest.t) : api_program BenchResponse.t :=
  refuse r 404 ("schedule not found: " +:+ sanitizeInput (HttpRequest.id r) 128).

Definition handleCreateBenchmarkSchedule : bench_handler := with_scheduler (fun r =>
  match bind_schedule (HttpRequest.body r) with
  | Err e => refuse r 400 ("invalid request: " +:+ Error e)
  | Ok sched =>
      if bool_decide (Schedule.Name sched = "") || bool_decide (Schedule.CronExpr sched = "")
      then refuse r 400 "name and cron expression are required"
      else
        let* made := query_store (SchedCreate (Schedule.set_Enabled true sched)) in
        match made.1 with
        | Some e => refuse r 500 ("failed to create schedule: " +:+ Error e)
        | None => Return (answer r 201 (ScheduleBody made.2))
        end
  end).

Definition handleListBenchmarkSchedules : bench_handler := with_scheduler (fun r =>
  let* l := query_store SchedList in
  match l with
  | Err e => refuse r 500 ("failed to list schedules: " +:+ Error e)
  | Ok l => Return (answer r 200 (SchedulesBody l (Z.of_nat (length l))))
  end).

(** Only the fields that are given. *)
Definition merge_update (u : ScheduleUpdate.t) (s : Schedule.t) : Schedule.t :=
  Schedule.mk (Schedule.ID s)
    (if bool_decide (ScheduleUpdate.Name u = "") then Schedule.Name s else ScheduleUpdate.Name u)
    (if bool_decide (ScheduleUpdate.Cron u = "") then Schedule.CronExpr s else ScheduleUpdate.Cron u)
    (match ScheduleUpdate.Request u with
     | Some req => match BenchmarkRunRequest.Models req with [] => Schedule.Request s | _ => req end
     | None => Schedule.Request s
     end)
    (default (Schedule.Enabled s) (ScheduleUpdate.Enabled u))
    (Schedule.LastRunID s) (Schedule.LastRunAt s) (Schedule.CreatedAt s) (Schedule.UpdatedAt s).

Definition handleUpdateBenchmarkSchedule : bench_handler := with_scheduler (fun r =>
  let* found := query_store (SchedGet (HttpRequest.id r)) in
  match found with
  | Err _ | Ok None => unknown_schedule r
  | Ok (Some existing) =>
      match bind_update (HttpRequest.body r) with
      | Err e => refuse r 400 ("invalid request: " +:+ Error e)
      | Ok update =>
          let* written := query_store (SchedUpdate (merge_update update existing)) in
          match written.1 with
          | Some e => refuse r 500 ("failed to update schedule: " +:+ Error e)
          | None => Return (answer r 200 (ScheduleBody written.2))
          end
      end
  end).

Definition handleDeleteBenchmarkSchedule : bench_handler := with_scheduler (fun r =>
  let* e := query_store (SchedDelete (HttpRequest.id r)) in
  match e with
  | Some _ => unknown_schedule r
  | None => Return (answer r 200 (StatusBody "deleted"))
  end).

(** ** Routes *)
Inductive BenchRoute :=
| GET_benchmarks | GET_benchmarks_id | POST_benchmarks | GET_benchmarks_best | GET_benchmarks_cheapest
| GET_benchmarks_compare | GET_benchmarks_recommendations
| POST_benchmark_runs | GET_benchmark_runs_id | DELETE_benchmark_runs_id
| POST_benchmark_schedules | GET_benchmark_schedules | PUT_benchmark_schedules_id
| DELETE_benchmark_schedules_id.

Definition handle_bench (route : BenchRoute) : bench_handler :=
  match route with
  | GET_benchmarks => handleListBenchmarks
  | GET_benchmarks_id => handleGetBenchmark
  | POST_benchmarks => handleCreateBenchmark
  | GET_benchmarks_best => handleGetBestBenchmark
  | GET_benchmarks_cheapest => handleGetCheapestBenchmark
  | GET_benchmarks_compare => handleCompareBenchmarks
  | GET_benchmarks_recommendations => handleGetHardwareRecommendations
  | POST_benchmark_runs => handleStartBenchmarkRun
  | GET_benchmark_runs_id => handleGetBenchmarkRun
  | DELETE_benchmark_runs_id => handleCancelBenchmarkRun
  | POST_benchmark_schedules => handleCreateBenchmarkSchedule
  | GET_benchmark_schedules => handleListBenchmarkSchedules
  | PUT_benchmark_schedules_id => handleUpdateBenchmarkSchedule
  | DELETE_benchmark_schedules_id => handleDeleteBenchmarkSchedule
  end.

(** ** Facts *)

(** The effects a request may have on its method's account: GET only reads; DELETE of a run
    ends its context and marks it, and no request destroys a session or removes a result. *)
Definition is_get (route : BenchRoute) : bool :=
  match route with
  | GET_benchmarks | GET_benchmarks_id | GET_benchmarks_best | GET_benchmarks_cheapest
  | GET_benchmarks_compare | GET_benchmarks_recommendations | GET_benchmark_runs_id
  | GET_benchmark_schedules => true
  | _ => false
  end.
Definition reads (B : Type) (e : either benchE runnerE B) : bool :=
  match e with
  | Left (BenchSave _) | Left (SchedCreate _) | Left (SchedUpdate _) | Left (SchedDelete _) => false
  | Left _ => true
  | Right (ReadRun _) | Right (Summary _ _) | Right (TotalCost _ _) | Right (ListEntries _ _) => true
  | Right _ => false
  end.
Lemma only_inject {E F : Type -> Type} (P : forall B, either E F B -> bool) {A} (p : prog F A) :
  only (fun B e => P B (Right e)) p -> only P (inject p).
Proof. induction p as [a|B e k IH]; cbn; [done|]. intros [He Hk]. auto. Qed.

Ltac api_step :=
  match goal with
  | |- only _ (pbind _ _) => apply only_bind; [|intros ?]
  | |- only _ (Return _) => exact I
  | |- only _ (trigger (Left (if ?b then _ else _))) => destruct b
  | |- only _ (trigger _) => by apply only_trigger
  | |- only _ (inject _) => apply only_inject
  | |- only _ (match ?x with _ => _ end) => destruct x
  | |- only _ (let _ := _ in _) => cbv zeta
  end.

(** A GET request changes nothing. *)
Theorem bench_get_read_only route r : is_get route = true -> only reads (handle_bench route r).
Proof.
  destruct route; try done; intros _; cbn [handle_bench];
    unfold handleListBenchmarks, handleGetBenchmark, handleGetBestBenchmark, handleGetCheapestBenchmark,
      handleCompareBenchmarks, handleGetHardwareRecommendations, handleGetBenchmarkRun,
      handleListBenchmarkSchedules, with_store, with_runner, with_scheduler, with_model, guarded,
      one_benchmark, unknown_run, refuse, query_store, on_runner, GetRun, GetRunEntries;
    by repeat api_step.
Qed.

(** Without a scheduler, which the server is never given, every schedule route answers 503. *)
Theorem schedules_unavailable route r :
  has_scheduler = false ->
  match route with
  | POST_benchmark_schedules | GET_benchmark_schedules | PUT_benchmark_schedules_id
  | DELETE_benchmark_schedules_id =>
      handle_bench route r = refuse r 503 "benchmark scheduler not available"
  | _ => True
  end.
Proof.
  intros Hs.
  destruct route; try done; cbn [handle_bench];
    unfold handleCreateBenchmarkSchedule, handleListBenchmarkSchedules, handleUpdateBenchmarkSchedule,
      handleDeleteBenchmarkSchedule, with_scheduler, guarded; by rewrite Hs.
Qed.
End Handlers.
