(* ===== verification/Config.v ===== *)
(** [internal/config/config.go]: the configuration, its validation, and how it is loaded.  The
    configuration library (viper) is a class of the calls the code makes, and [ViperLaws] is
    what its documentation says of them. *)
From S2P Require Import Prelude GoLib Models Errors Interfaces.

Module ServerConfig.
Record t := mk { Host : string; Port : Z }.
End ServerConfig.
Module VastAIConfig.
Record t := mk { APIKey : string; Enabled : bool }.
End VastAIConfig.
Module BlueLobsterConfig.
Record t := mk { APIKey : string; Enabled : bool; DefaultTemplate : string }.
End BlueLobsterConfig.
Module TensorDockConfig.
Record t := mk { AuthID : string; APIToken : string; Enabled : bool; DefaultImage : string }.
End TensorDockConfig.
Module ProvidersConfig.
Record t := mk { VastAI : VastAIConfig.t; BlueLobster : BlueLobsterConfig.t; TensorDock : TensorDockConfig.t }.
End ProvidersConfig.
Module InventoryConfig.
Record t := mk { DefaultCacheTTL : duration; BackoffCacheTTL : duration; TensorDockCacheTTL : duration }.
End InventoryConfig.
Module LifecycleConfig.
Record t := mk {
  CheckInterval : duration;
  HardMaxHours : Z;
  OrphanGracePeriod : duration;
  ReconciliationInterval : duration;
  StartupSweepEnabled : bool;
  StartupSweepTimeout : duration;
  ShutdownTimeout : duration;
  DeploymentID : string
}.
End LifecycleConfig.
Module SSHConfig.
Record t := mk { VerifyTimeout : duration; CheckInterval : duration }.
End SSHConfig.
Module LoggingConfig.
Record t := mk { Level : string; Format : string }.
End LoggingConfig.

Module Config.
Record t := mk {
  Server : ServerConfig.t;
  DatabasePath : string;
  Providers : ProvidersConfig.t;
  Inventory : InventoryConfig.t;
  Lifecycle : LifecycleConfig.t;
  SSH : SSHConfig.t;
  Logging : LoggingConfig.t
}.

(** What [setDefaults] sets; the keys without a default are empty. *)
Definition defaults : t :=
  mk (ServerConfig.mk "0.0.0.0" 8080) "./data/gpu-shopper.db"
    (ProvidersConfig.mk (VastAIConfig.mk "" true) (BlueLobsterConfig.mk "" true "UBUNTU-22-04-NV")
       (TensorDockConfig.mk "" "" true "ubuntu2204"))
    (InventoryConfig.mk Minute (5 * Minute)%Z (30 * Second)%Z)
    (LifecycleConfig.mk Minute 12 (15 * Minute)%Z (5 * Minute)%Z true (2 * Minute)%Z (60 * Second)%Z "")
    (SSHConfig.mk (10 * Minute)%Z (15 * Second)%Z)
    (LoggingConfig.mk "info" "json").

Definition Validate (c : t) : option error :=
  let vast := ProvidersConfig.VastAI (Providers c) in
  let lobster := ProvidersConfig.BlueLobster (Providers c) in
  let dock := ProvidersConfig.TensorDock (Providers c) in
  if negb (VastAIConfig.Enabled vast) && negb (BlueLobsterConfig.Enabled lobster) &&
     negb (TensorDockConfig.Enabled dock)
  then Some (EOpaque "at least one provider must be enabled")
  else if VastAIConfig.Enabled vast && bool_decide (VastAIConfig.APIKey vast = "")
  then Some (EOpaque "VASTAI_API_KEY is required when Vast.ai is enabled")
  else if BlueLobsterConfig.Enabled lobster && bool_decide (BlueLobsterConfig.APIKey lobster = "")
  then Some (EOpaque "BLUELOBSTER_API_KEY is required when Blue Lobster is enabled")
  else if TensorDockConfig.Enabled dock then
    if bool_decide (TensorDockConfig.AuthID dock = "")
    then Some (EOpaque "TENSORDOCK_AUTH_ID is required when TensorDock is enabled")
    else if bool_decide (TensorDockConfig.APIToken dock = "")
    then Some (EOpaque "TENSORDOCK_API_TOKEN is required when TensorDock is enabled")
    else None
  else None.
End Config.

(** The defaults enable every provider, so that they are valid only with all the keys. *)
Example defaults_alone_invalid :
  Config.Validate Config.defaults = Some (EOpaque "VASTAI_API_KEY is required when Vast.ai is enabled").
Proof. reflexivity. Qed.

(** ** Loading *)
Inductive value := VString (s : string) | VInt (z : Z) | VBool (b : bool) | VDuration (d : duration).

(** [V]: an instance of the library, with the files and the environment it reads. *)
Class Viper (V : Type) := {
  viper_New : V;
  SetDefault : string -> value -> V -> V;
  SetConfigFile : string -> V -> V;
  SetConfigType : string -> V -> V;
  (** the error, and whether it is a [ConfigFileNotFoundError] *)
  ReadInConfig : V -> option (error * bool) * V;
  AutomaticEnv : V -> V;
  SetEnvKeyReplacer : list (string * string) -> V -> V;
  BindEnv : string -> string -> V -> option error * V;
  GetString : string -> V -> string;
  viper_Set : string -> value -> V -> V;
  Unmarshal : V -> result Config.t
}.

(** ** The tables of the code *)
Definition default_values : list (string * value) :=
  [("server.host", VString "0.0.0.0"); ("server.port", VInt 8080);
   ("database.path", VString "./data/gpu-shopper.db");
   ("providers.vastai.enabled", VBool true); ("providers.bluelobster.enabled", VBool true);
   ("providers.bluelobster.default_template", VString "UBUNTU-22-04-NV");
   ("providers.tensordock.enabled", VBool true); ("providers.tensordock.default_image", VString "ubuntu2204");
   ("inventory.default_cache_ttl", VDuration Minute); ("inventory.backoff_cache_ttl", VDuration (5 * Minute)%Z);
   ("inventory.tensordock_cache_ttl", VDuration (30 * Second)%Z);
   ("lifecycle.check_interval", VDuration Minute); ("lifecycle.hard_max_hours", VInt 12);
   ("lifecycle.orphan_grace_period", VDuration (15 * Minute)%Z);
   ("lifecycle.reconciliation_interval", VDuration (5 * Minute)%Z);
   ("lifecycle.startup_sweep_enabled", VBool true); ("lifecycle.startup_sweep_timeout", VDuration (2 * Minute)%Z);
   ("lifecycle.shutdown_timeout", VDuration (60 * Second)%Z);
   ("ssh.verify_timeout", VDuration (10 * Minute)%Z); ("ssh.check_interval", VDuration (15 * Second)%Z);
   ("logging.level", VString "info"); ("logging.format", VString "json")].

Definition mappings : gmap string string := list_to_map
  [("vastai_api_key", "providers.vastai.api_key"); ("bluelobster_api_key", "providers.bluelobster.api_key");
   ("tensordock_auth_id", "providers.tensordock.auth_id"); ("tensordock_api_token", "providers.tensordock.api_token");
   ("tensordock_default_image", "providers.tensordock.default_image"); ("database_path", "database.path");
   ("server_host", "server.host"); ("server_port", "server.port"); ("log_level", "logging.level");
   ("log_format", "logging.format"); ("deployment_id", "lifecycle.deployment_id")].

Definition bindings : list (string * string) :=
  [("providers.vastai.api_key", "VASTAI_API_KEY"); ("providers.bluelobster.api_key", "BLUELOBSTER_API_KEY");
   ("providers.tensordock.auth_id", "TENSORDOCK_AUTH_ID"); ("providers.tensordock.api_token", "TENSORDOCK_API_TOKEN");
   ("providers.tensordock.default_image", "TENSORDOCK_DEFAULT_IMAGE"); ("database.path", "DATABASE_PATH");
   ("server.host", "SERVER_HOST"); ("server.port", "SERVER_PORT"); ("logging.level", "LOG_LEVEL");
   ("logging.format", "LOG_FORMAT"); ("lifecycle.deployment_id", "DEPLOYMENT_ID")].

(** ** The functions *)
Section Load.
Context {V : Type} `{Viper V} `{MapRange}.

Definition setDefaults (v : V) : V := fold_left (fun v kv => SetDefault kv.1 kv.2 v) default_values v.

(** One round of the loop over the map; its iteration order is that of [range_map]. *)
Definition map_key (v : V) (m : string * string) : V :=
  let val := GetString m.1 v in
  if bool_decide (val = "") then v else viper_Set m.2 (VString val) v.
Definition mapEnvFileKeys (v : V) : V := fold_left map_key (range_map _ mappings) v.

(** An error of [BindEnv] is only logged. *)
Definition bindEnvVars (v : V) : V := fold_left (fun v kv => (BindEnv kv.1 kv.2 v).2) bindings v.

(** From the environment on, which the two functions share. *)
Definition from_environment (v : V) : result Config.t :=
  match Unmarshal (bindEnvVars (SetEnvKeyReplacer [(".", "_")] (AutomaticEnv v))) with
  | Ok cfg => Ok cfg
  | Err e => Err (EWrap "failed to unmarshal config" e)
  end.

Definition Load (configPath : string) : result Config.t :=
  let v := setDefaults viper_New in
  if bool_decide (configPath = "") then from_environment v
  else match ReadInConfig (SetConfigFile configPath v) with
  | (Some (e, false), _) => Err (EWrap "failed to read config file" e)
  | (_, v) => from_environment v
  end.

(** The instance that [LoadFromEnv] has filled when it turns to the environment. *)
Definition env_file_read : V :=
  mapEnvFileKeys (ReadInConfig (SetConfigType "env" (SetConfigFile ".env" (setDefaults viper_New)))).2.
Definition LoadFromEnv : result Config.t := from_environment env_file_read.
End Load.

(** ** The documented precedence

    A value that was set explicitly comes before the environment, the environment before the
    file that was read, and the file before the default. *)
Module Layer.
Record t := mk { explicit : option value; env : option string; file : option string; fallback : option value }.
Definition none : t := mk None None None None.
End Layer.

(** The text of a value, as [GetString] casts it. *)
Class ValueText := value_text : value -> string.
Definition winner `{ValueText} (l : Layer.t) : string :=
  match Layer.explicit l with
  | Some v => value_text v
  | None =>
      match Layer.env l, Layer.file l, Layer.fallback l with
      | Some s, _, _ | None, Some s, _ => s
      | None, None, Some v => value_text v
      | None, None, None => ""
      end
  end.

(** [keys]: the keys that the code names, none of which is a part of another. *)
Definition keys : list string :=
  default_values.*1 ++ (map_to_list mappings).*1 ++ (map_to_list mappings).*2 ++ bindings.*1.

Class ViperLaws (V : Type) `{Viper V} `{ValueText} := {
  layer : V -> string -> Layer.t;
  value_text_string : forall s, value_text (VString s) = s;
  New_layer : forall k, layer viper_New k = Layer.none;
  SetDefault_layer : forall k x v k', k ∈ keys -> k' ∈ keys ->
    layer (SetDefault k x v) k' =
    if bool_decide (k = k')
    then Layer.mk (Layer.explicit (layer v k')) (Layer.env (layer v k')) (Layer.file (layer v k')) (Some x)
    else layer v k';
  Set_layer : forall k x v k', k ∈ keys -> k' ∈ keys ->
    layer (viper_Set k x v) k' =
    if bool_decide (k = k')
    then Layer.mk (Some x) (Layer.env (layer v k')) (Layer.file (layer v k')) (Layer.fallback (layer v k'))
    else layer v k';
  SetConfigFile_layer : forall p v k, layer (SetConfigFile p v) k = layer v k;
  SetConfigType_layer : forall p v k, layer (SetConfigType p v) k = layer v k;
  (** what a file holds is in the layer of the file *)
  ReadInConfig_layer : forall v k, exists f, layer (ReadInConfig v).2 k =
    Layer.mk (Layer.explicit (layer v k)) (Layer.env (layer v k)) f (Layer.fallback (layer v k));
  (** what concerns the environment is in its layer *)
  AutomaticEnv_layer : forall v k, exists e, layer (AutomaticEnv v) k =
    Layer.mk (Layer.explicit (layer v k)) e (Layer.file (layer v k)) (Layer.fallback (layer v k));
  Replacer_layer : forall r v k, exists e, layer (SetEnvKeyReplacer r v) k =
    Layer.mk (Layer.explicit (layer v k)) e (Layer.file (layer v k)) (Layer.fallback (layer v k));
  BindEnv_layer : forall k' name v k, exists e, layer (BindEnv k' name v).2 k =
    Layer.mk (Layer.explicit (layer v k)) e (Layer.file (layer v k)) (Layer.fallback (layer v k));
  GetString_layer : forall k v, k ∈ keys -> GetString k v = winner (layer v k);
  (** decoding takes a text from the key that the field's tag names; some of the fields *)
  Unmarshal_layer : forall v cfg, Unmarshal v = Ok cfg ->
    ServerConfig.Host (Config.Server cfg) = GetString "server.host" v /\
    Config.DatabasePath cfg = GetString "database.path" v /\
    VastAIConfig.APIKey (ProvidersConfig.VastAI (Config.Providers cfg)) = GetString "providers.vastai.api_key" v /\
    LifecycleConfig.DeploymentID (Config.Lifecycle cfg) = GetString "lifecycle.deployment_id" v
}.

#[local] Opaque keys.

Section Precedence.
Context {V : Type} `{ViperLaws V} `{MapRangeLaws}.

Lemma map_key_layer v m k :
  m.2 ∈ keys -> k ∈ keys -> k <> m.2 -> layer (map_key v m) k = layer v k.
Proof.
  intros Hm Hk Hne. unfold map_key. cbv zeta. case_bool_decide; [done|].
  rewrite Set_layer by assumption. by rewrite bool_decide_false by congruence.
Qed.
Lemma map_keys_other l v k :
  Forall (fun m => m.2 ∈ keys) l -> k ∈ keys -> k ∉ l.*2 -> layer (fold_left map_key l v) k = layer v k.
Proof.
  intros Hl Hk. revert v. induction Hl as [|m l Hm Hl IH]; intros v Hn; [done|].
  rewrite fmap_cons, not_elem_of_cons in Hn. destruct Hn. cbn [fold_left].
  rewrite IH by assumption. by apply map_key_layer.
Qed.

(** The keys of the loop do not meet: no nested key is set twice, or read. *)
Definition separate (l : list (string * string)) : Prop :=
  Forall (fun m => m.1 ∈ keys) l /\ Forall (fun m => m.2 ∈ keys) l /\ NoDup l.*2 /\
  Forall (fun m => m.1 ∉ l.*2) l.

Lemma separate_cons x l :
  separate (x :: l) ->
  x.1 ∈ keys /\ x.2 ∈ keys /\ x.2 ∉ l.*2 /\ separate l /\ forall m, m ∈ l -> m.1 <> x.2 /\ m.2 <> x.2.
Proof.
  intros (Hk1 & Hk2 & Hn & Hs). rewrite Forall_cons in Hk1, Hk2, Hs. rewrite fmap_cons, NoDup_cons in Hn.
  destruct Hk1 as [Hx1 Hk1], Hk2 as [Hx2 Hk2], Hn as [Hx Hn], Hs as [_ Hs].
  setoid_rewrite not_elem_of_cons in Hs. split_and!; [done..| |].
  - split_and!; [done..|]. eapply Forall_impl; [exact Hs|]. by intros m [].
  - intros m Hm. rewrite Forall_forall in Hs. destruct (Hs m Hm) as [Hne _]. split; [done|].
    intros Heq. apply Hx. rewrite <-Heq. by apply list_elem_of_fmap_2.
Qed.

Lemma map_keys_explicit l v m :
  separate l -> m ∈ l -> GetString m.1 v <> "" ->
  Layer.explicit (layer (fold_left map_key l v) m.2) = Some (VString (GetString m.1 v)).
Proof.
  revert v. induction l as [|x l IH]; intros v Hs Hm Hv; [by apply elem_of_nil in Hm|].
  apply separate_cons in Hs as (Hx1 & Hx2 & Hx & Hs & Hne). cbn [fold_left].
  apply elem_of_cons in Hm as [->|Hm].
  - rewrite map_keys_other by (assumption || apply Hs). unfold map_key. cbv zeta. rewrite bool_decide_false by done.
    rewrite Set_layer by assumption. by rewrite bool_decide_true.
  - destruct (Hne m Hm) as [Hn1 Hn2]. pose proof Hs as (Hk & _). rewrite Forall_forall in Hk. specialize (Hk m Hm).
    assert (GetString m.1 (map_key v x) = GetString m.1 v) as Hg.
    { rewrite !GetString_layer by assumption. by rewrite map_key_layer by assumption. }
    rewrite <-Hg. apply IH; [assumption..|by rewrite Hg].
Qed.

Lemma separate_perm l l' : l' ≡ₚ l -> separate l' -> separate l.
Proof.
  intros Hp (Hk1 & Hk2 & Hn & Hs). assert (l'.*2 ≡ₚ l.*2) as Hp2 by (by apply Permutation_map).
  split; [exact (Permutation_Forall Hp Hk1)|]. split; [exact (Permutation_Forall Hp Hk2)|].
  split; [exact (proj1 (NoDup_Permutation_proper _ _ Hp2) Hn)|].
  apply (Permutation_Forall Hp). eapply Forall_impl; [exact Hs|].
  intros m Hm Hin. apply Hm. exact (proj2 (elem_of_Permutation_proper m.1 _ _ Hp2) Hin).
Qed.
Lemma mappings_separate : separate (range_map _ mappings).
Proof.
  apply (separate_perm _ (map_to_list mappings)); [symmetry; apply range_map_perm|].
  split_and!; apply (bool_decide_unpack _); vm_compute; exact I.
Qed.

(** The environment leaves what is set. *)
Lemma bound_explicit l (v : V) k : Layer.explicit (layer (fold_left (fun v kv => (BindEnv kv.1 kv.2 v).2) l v) k) = Layer.explicit (layer v k).
Proof.
  revert v. induction l as [|kv l IH]; intros v; [done|]. cbn [fold_left]. rewrite IH.
  by destruct (BindEnv_layer kv.1 kv.2 v k) as [e ->].
Qed.

(** The [.env] file as it was read. *)
Definition env_file : V := (ReadInConfig (SetConfigType "env" (SetConfigFile ".env" (setDefaults viper_New)))).2.

Lemma env_file_wins cfg flat nested :
  LoadFromEnv = Ok cfg -> mappings !! flat = Some nested -> GetString flat env_file <> "" ->
  exists v : V, Unmarshal v = Ok cfg /\ GetString nested v = GetString flat env_file.
Proof.
  intros Hl Hm Hv. unfold LoadFromEnv, from_environment in Hl.
  destruct (Unmarshal _) as [cfg'|e] eqn:Hu; [|done]. injection Hl as ->. eexists. split; [exact Hu|].
  pose proof mappings_separate as Hs. assert ((flat, nested) ∈ range_map _ mappings) as Hin.
  { rewrite range_map_perm. by apply elem_of_map_to_list. }
  rewrite GetString_layer.
  2: { destruct Hs as (_ & Hk & _). rewrite Forall_forall in Hk. exact (Hk _ Hin). }
  unfold winner, bindEnvVars. rewrite bound_explicit.
  destruct (Replacer_layer [(".", "_")] (AutomaticEnv env_file_read) nested) as [e1 ->].
  destruct (AutomaticEnv_layer env_file_read nested) as [e2 ->]. cbn [Layer.explicit].
  unfold env_file_read, mapEnvFileKeys. fold env_file.
  rewrite (map_keys_explicit _ env_file (flat, nested)) by done. cbn [fst]. apply value_text_string.
Qed.

(** A value of the [.env] file comes before the environment, the variable of the same name
    included, for every order in which the loop visits the map. *)
Theorem env_file_overrides cfg :
  LoadFromEnv = Ok cfg ->
  (GetString "deployment_id" env_file <> "" ->
     LifecycleConfig.DeploymentID (Config.Lifecycle cfg) = GetString "deployment_id" env_file) /\
  (GetString "database_path" env_file <> "" ->
     Config.DatabasePath cfg = GetString "database_path" env_file) /\
  (GetString "vastai_api_key" env_file <> "" ->
     VastAIConfig.APIKey (ProvidersConfig.VastAI (Config.Providers cfg)) = GetString "vastai_api_key" env_file).
Proof.
  intros Hl. split_and!; intros Hv; (edestruct (env_file_wins cfg) as (v & Hu & <-); [done| |exact Hv|];
    [by vm_compute|by apply Unmarshal_layer in Hu as (_ & ? & ? & ?)]).
Qed.
End Precedence.
