(* ===== verification/Cleanup.v ===== *)
(** [cmd/cli/cmd/cleanup_orphans.go]: the command that lists the instances of all providers
    and destroys them.  It is a program over the provider clients, the terminal and the
    environment. *)
From S2P Require Import Prelude GoFloat GoLib GoStrings Models Errors Interfaces Config Programs.

(** ** Clients *)
Inductive client :=
| VastAI (apiKey : string)
| BlueLobster (apiKey : string)
| TensorDock (authID apiToken : string) (defaultImage : option string).
Definition Name (c : client) : string :=
  match c with VastAI _ => "vastai" | BlueLobster _ => "bluelobster" | TensorDock _ _ _ => "tensordock" end.

Section Providers.
Context (cfg : Config.t) (providerFilter : string).

Definition wanted (name : string) : bool :=
  bool_decide (providerFilter = "") || bool_decide (providerFilter = name).
Definition vast : VastAIConfig.t := ProvidersConfig.VastAI (Config.Providers cfg).
Definition lobster : BlueLobsterConfig.t := ProvidersConfig.BlueLobster (Config.Providers cfg).
Definition dock : TensorDockConfig.t := ProvidersConfig.TensorDock (Config.Providers cfg).
Definition vast_configured : bool := negb (bool_decide (VastAIConfig.APIKey vast = "")).
Definition lobster_configured : bool := negb (bool_decide (BlueLobsterConfig.APIKey lobster = "")).
Definition dock_configured : bool :=
  negb (bool_decide (TensorDockConfig.AuthID dock = "")) && negb (bool_decide (TensorDockConfig.APIToken dock = "")).

Definition clients : list client :=
  (if vast_configured && wanted "vastai" then [VastAI (VastAIConfig.APIKey vast)] else []) ++
  (if lobster_configured && wanted "bluelobster" then [BlueLobster (BlueLobsterConfig.APIKey lobster)] else []) ++
  (if dock_configured && wanted "tensordock" then
     [TensorDock (TensorDockConfig.AuthID dock) (TensorDockConfig.APIToken dock)
        (if bool_decide (TensorDockConfig.DefaultImage dock = "") then None
         else Some (TensorDockConfig.DefaultImage dock))]
   else []).
Definition validProviders : list string :=
  (if vast_configured then ["vastai"] else []) ++ (if lobster_configured then ["bluelobster"] else []) ++
  (if dock_configured then ["tensordock"] else []).

Definition initializeProviders : result (list client) :=
  match clients with
  | [] =>
      if bool_decide (providerFilter = "") then Ok []
      else Err (EOpaque ("provider " +:+ Quote providerFilter +:+ " not configured; " +:+
                         match validProviders with
                         | [] => "no providers have credentials set"
                         | l => "available providers: " +:+ Join l ", "
                         end))
  | l => Ok l
  end.
End Providers.

Definition truncateString (s : string) (maxLen : nat) : string :=
  if String.length s <=? maxLen then s
  else if maxLen <=? 3 then take_string maxLen s
  else take_string (maxLen - 3) s +:+ "...".

(** ** What is printed *)
Module OrphanInstance.
Record t := mk {
  Provider : string;
  InstanceID : string;
  Name : string;
  Status : string;
  PricePerHour : f64;
  StartedAt : time
}.
End OrphanInstance.

(** A row of the table; the instant is [unknown] when it is zero. *)
Module Row.
Record t := mk { provider : string; id : string; name : string; status : string; price : string;
                 started : option time }.
End Row.
Inductive output :=
| Line (s : string)
| Table (rows : list Row.t).

(** The effects of the command. *)
Inductive cleanupE : Type -> Type :=
| LoadFromEnv : cleanupE (result Config.t)
| ListAllInstances (c : client) : cleanupE (result (list ProviderInstance.t))
| DestroyInstance (c : client) (id : string) : cleanupE (option error)
| Say (o : output) : cleanupE unit
(** [encoder.Encode] of the instances, their number, their cost and [dry_run] *)
| EncodeReport (orphans : list OrphanInstance.t) (count : Z) (total : f64) (dry_run : bool)
    : cleanupE (option error)
(** [ReadString('\n')] *)
| ReadLine : cleanupE (result string).
Definition cleanup (A : Type) : Type := prog cleanupE A.
Definition say (s : string) : cleanup unit := trigger (Say (Line s)).

(** ** The command *)
Definition found (c : client) (inst : ProviderInstance.t) : OrphanInstance.t :=
  OrphanInstance.mk (Name c) (ProviderInstance.ID inst) (ProviderInstance.Name inst)
    (ProviderInstance.Status inst) (ProviderInstance.PricePerHour inst) (ProviderInstance.StartedAt inst).

(** Every instance of every provider that answers, and the sum of their prices. *)
Fixpoint scan (providers : list client) (orphans : list OrphanInstance.t) (totalCost : f64)
    : cleanup (list OrphanInstance.t * f64) :=
  match providers with
  | [] => Return (orphans, totalCost)
  | p :: providers' =>
      do* say ("Checking " +:+ Name p +:+ "...") in
      let* r := trigger (ListAllInstances p) in
      match r with
      | Err e =>
          do* say ("  Warning: failed to list instances from " +:+ Name p +:+ ": " +:+ Error e) in
          scan providers' orphans totalCost
      | Ok instances =>
          do* say ("  Found " +:+ Itoa (Z.of_nat (length instances)) +:+ " shopper-managed instances") in
          scan providers' (orphans ++ (found p <$> instances))
            (fold_left (fun total inst => fadd total (ProviderInstance.PricePerHour inst)) instances totalCost)
      end
  end.

Definition row (o : OrphanInstance.t) : Row.t :=
  Row.mk (OrphanInstance.Provider o) (OrphanInstance.InstanceID o) (truncateString (OrphanInstance.Name o) 30)
    (OrphanInstance.Status o) ("$" +:+ fmt_fixed 3 (OrphanInstance.PricePerHour o))
    (if IsZero (OrphanInstance.StartedAt o) then None else Some (OrphanInstance.StartedAt o)).

(** One instance: whether it was destroyed. *)
Definition destroy_one (providers : list client) (o : OrphanInstance.t) : cleanup bool :=
  match List.find (fun p => bool_decide (Name p = OrphanInstance.Provider o)) providers with
  | None =>
      do* say ("  ERROR: provider " +:+ OrphanInstance.Provider o +:+ " not found for instance " +:+
               OrphanInstance.InstanceID o) in Return false
  | Some target =>
      do* say ("  Destroying " +:+ OrphanInstance.Provider o +:+ "/" +:+ OrphanInstance.InstanceID o +:+ "...") in
      let* err := trigger (DestroyInstance target (OrphanInstance.InstanceID o)) in
      match err with
      | Some e => do* say (" FAILED: " +:+ Error e) in Return false
      | None => do* say " OK" in Return true
      end
  end.
Fixpoint destroy_all (providers : list client) (orphans : list OrphanInstance.t) (destroyed failed : Z)
    : cleanup (Z * Z) :=
  match orphans with
  | [] => Return (destroyed, failed)
  | o :: orphans' =>
      let* ok := destroy_one providers o in
      if ok then destroy_all providers orphans' (destroyed + 1) failed
      else destroy_all providers orphans' destroyed (failed + 1)
  end.

Definition destroying (providers : list client) (orphans : list OrphanInstance.t) : cleanup (option error) :=
  do* say "Destroying instances..." in
  let* r := destroy_all providers orphans 0 0 in
  let '(destroyed, failed) := r in
  do* say ("Cleanup complete: " +:+ Itoa destroyed +:+ " destroyed, " +:+ Itoa failed +:+ " failed") in
  Return (if (0 <? failed)%Z then Some (EOpaque (Itoa failed +:+ " instance(s) failed to destroy")) else None).

Section Command.
(** The flags [--execute], [--force] and [--provider], and the output format. *)
Context (cleanupExecute cleanupForce : bool) (cleanupProvider outputFormat : string).

(** The prompt: [Some r] ends the command with [r]. *)
Definition confirm (count : Z) : cleanup (option (option error)) :=
  if cleanupForce then Return None
  else
    do* say ("WARNING: You are about to destroy " +:+ Itoa count +:+ " instance(s).") in
    do* say "Type 'yes' to confirm: " in
    let* input := trigger ReadLine in
    match input with
    | Err e => Return (Some (Some (EWrap "failed to read confirmation" e)))
    | Ok input =>
        if bool_decide (TrimSpace input = "yes") then Return None
        else do* say "Aborted." in Return (Some None)
    end.

Definition no_providers : error :=
  EOpaque "no providers configured; set VASTAI_API_KEY, BLUELOBSTER_API_KEY, or TENSORDOCK_AUTH_ID/TENSORDOCK_API_TOKEN".

Definition runCleanupOrphans : cleanup (option error) :=
  let* cfg := trigger LoadFromEnv in
  match cfg with
  | Err e => Return (Some (EWrap "failed to load config" e))
  | Ok cfg =>
      match initializeProviders cfg cleanupProvider with
      | Err e => Return (Some e)
      | Ok [] => Return (Some no_providers)
      | Ok providers =>
          do* say "Scanning for orphan instances..." in
          let* r := scan providers [] f0 in
          let '(orphans, totalCost) := r in
          let count := Z.of_nat (length orphans) in
          match orphans with
          | [] => do* say "No shopper-managed instances found." in Return None
          | _ =>
              if bool_decide (outputFormat = "json") then
                trigger (EncodeReport orphans count totalCost (negb cleanupExecute))
              else
                do* trigger (Say (Table (row <$> orphans))) in
                do* say ("Total: " +:+ Itoa count +:+ " instances, $" +:+ fmt_fixed 3 totalCost +:+
                         "/hr combined cost") in
                if negb cleanupExecute then
                  do* say "This was a dry-run. To actually destroy these instances, run:" in
                  do* say "  gpu-shopper cleanup-orphans --execute" in
                  Return None
                else
                  let* stop := confirm count in
                  match stop with
                  | Some r => Return r
                  | None => destroying providers orphans
                  end
          end
      end
  end.
End Command.
