(* ===== verification/CleanupFacts.v ===== *)
(** What the clean-up command destroys, on every execution. *)
From S2P Require Import Prelude GoFloat GoLib GoStrings Models Errors Interfaces Config Programs Cleanup.
From Stdlib Require Import Ascii.

(** The clients of a run have different names. *)
Lemma find_client cfg f c : c ∈ clients cfg f -> List.find (fun p => bool_decide (Name p = Name c)) (clients cfg f) = Some c.
Proof.
  unfold clients.
  destruct (vast_configured cfg && wanted f "vastai"), (lobster_configured cfg && wanted f "bluelobster"),
    (dock_configured cfg && wanted f "tensordock"); cbn [app];
    rewrite ?elem_of_cons, ?elem_of_nil; intros Hc; destruct_or?; by subst.
Qed.
Lemma initialized cfg f l : initializeProviders cfg f = Ok l -> l = clients cfg f.
Proof. unfold initializeProviders. destruct (clients cfg f); [|by intros [= <-]]. case_bool_decide; by intros [= <-]. Qed.

(** ** What is watched *)
Module Seen.
Record t := mk {
  (** the instances that were listed, and the client that listed them *)
  listed : list (client * string);
  (** the destructions that were asked for, and their answers *)
  asked : list (client * string * option error);
  (** the answer to the prompt was yes *)
  yes : bool
}.
Definition none : t := mk [] [] false.
End Seen.

Section Command.
Context (cleanupExecute cleanupForce : bool) (cleanupProvider outputFormat : string).

Definition may_destroy (s : Seen.t) : bool :=
  cleanupExecute && negb (bool_decide (outputFormat = "json")) && (cleanupForce || Seen.yes s).

Definition see (x : event cleanupE) (s : Seen.t) : Seen.t :=
  match x with
  | Ev e b =>
      match e in cleanupE B return B -> Seen.t with
      | ListAllInstances c => fun r =>
          match r with
          | Ok l => Seen.mk (Seen.listed s ++ ((fun i => (c, ProviderInstance.ID i)) <$> l)) (Seen.asked s) (Seen.yes s)
          | Err _ => s
          end
      | DestroyInstance c id => fun e => Seen.mk (Seen.listed s) (Seen.asked s ++ [(c, id, e)]) (Seen.yes s)
      | ReadLine => fun r =>
          match r with
          | Ok input => Seen.mk (Seen.listed s) (Seen.asked s) (bool_decide (TrimSpace input = "yes"))
          | Err _ => s
          end
      | _ => fun _ => s
      end b
  end.
(** A destruction is the next one of those that were listed, and was asked for. *)
Definition in_turn (x : event cleanupE) (s : Seen.t) : Prop :=
  match x with
  | Ev (DestroyInstance c id) _ =>
      may_destroy s = true /\ (Seen.asked s).*1 ++ [(c, id)] `prefix_of` Seen.listed s
  | _ => True
  end.
Definition destructions : monitor cleanupE Seen.t := mk_monitor see in_turn (fun _ _ => True).

Ltac see_red := cbn [next allowed assumed destructions see in_turn].
Ltac see_step := apply watch_bind, watch_trigger; see_red; intros ? _; split; [done|].

(** ** Listing *)
Definition comes_from (providers : list client) (o : OrphanInstance.t) (x : client * string) : Prop :=
  x.1 ∈ providers /\ OrphanInstance.Provider o = Name x.1 /\ OrphanInstance.InstanceID o = x.2.

Lemma scan_lists all providers orphans total s :
  providers ⊆ all -> Forall2 (comes_from all) orphans (Seen.listed s) -> Seen.asked s = [] -> Seen.yes s = false ->
  watch destructions (scan providers orphans total)
    (fun r s' => Forall2 (comes_from all) r.1 (Seen.listed s') /\ Seen.asked s' = [] /\ Seen.yes s' = false) s.
Proof.
  revert orphans total s. induction providers as [|p providers IH]; intros orphans total s Hsub Hl Ha Hy; [done|].
  assert (p ∈ all /\ providers ⊆ all) as [Hp Hsub'] by set_solver.
  cbn [scan]. see_step. see_step. destruct b0 as [l|e]; see_step; [|by apply IH].
  apply IH; cbn; [done|..|done|done]. apply Forall2_app; [done|].
  rewrite Forall2_fmap. apply Forall_Forall2_diag, Forall_true. by intros i.
Qed.

(** ** Destroying *)
Definition asked_of (x : client * string * option error) : bool := bool_decide (x.2 = None).
Definition not_destroyed (l : list (client * string * option error)) : list (client * string * option error) :=
  List.filter (fun x => negb (asked_of x)) l.

Lemma destroy_all_asks cfg f s orphans todo destroyed failed :
  let providers := clients cfg f in
  may_destroy s = true -> Seen.listed s = (Seen.asked s).*1 ++ todo ->
  Forall2 (comes_from providers) orphans todo -> failed = Z.of_nat (length (not_destroyed (Seen.asked s))) ->
  watch destructions (destroy_all providers orphans destroyed failed)
    (fun r s' => may_destroy s' = true /\ (Seen.asked s').*1 = Seen.listed s' /\
                 r.2 = Z.of_nat (length (not_destroyed (Seen.asked s')))) s.
Proof.
  cbv zeta. intros Hm Hl Ho Hf. revert s destroyed failed Hm Hl Hf.
  induction Ho as [|o x orphans todo (Hx & Hn & Hi) Ho IH]; intros s destroyed failed Hm Hl Hf.
  - apply watch_ret. split; [done|]. split; [by rewrite Hl, app_nil_r|done].
  - cbn [destroy_all]. unfold destroy_one. rewrite Hn, Hi.
    rewrite (find_client cfg f x.1 Hx). apply watch_bind. see_step.
    apply watch_bind, watch_trigger. see_red. intros r _. split.
    { split; [done|]. rewrite Hl. apply prefix_app. by exists todo; destruct x. }
    set (s' := Seen.mk _ _ _).
    assert (Seen.listed s' = (Seen.asked s').*1 ++ todo) as Hl'.
    { unfold s'. cbn. rewrite fmap_app, <-app_assoc, Hl. by destruct x. }
    destruct r as [e|]; see_step; apply watch_ret; cbn [negb].
    + apply IH; [done..|]. unfold not_destroyed in *. unfold s'. cbn [Seen.asked].
      rewrite List.filter_app, length_app. cbn. lia.
    + apply IH; [done..|]. unfold not_destroyed in *. unfold s'. cbn [Seen.asked].
      rewrite List.filter_app, length_app. cbn. lia.
Qed.

(** What the command has done when it returns. *)
Definition cleaned (r : option error) (s : Seen.t) : Prop :=
  if may_destroy s then
    (Seen.asked s).*1 = Seen.listed s /\
    (Seen.listed s <> [] -> r = None <-> Forall (fun x => x.2 = None) (Seen.asked s))
  else Seen.asked s = [].

Lemma not_destroyed_nil l : (0 <? Z.of_nat (length (not_destroyed l)))%Z = false <-> Forall (fun x => x.2 = None) l.
Proof.
  unfold not_destroyed. induction l as [|[x e] l IH]; cbn.
  - split; [by constructor|done].
  - rewrite Forall_cons, <-IH. cbn. unfold asked_of. cbn. destruct e; cbn; [|tauto].
    rewrite Z.ltb_ge. split; [lia|]. by intros [? ?].
Qed.

Lemma destroying_cleans cfg f orphans s :
  may_destroy s = true -> Seen.asked s = [] -> Forall2 (comes_from (clients cfg f)) orphans (Seen.listed s) ->
  watch destructions (destroying (clients cfg f) orphans) cleaned s.
Proof.
  intros Hm Ha Ho. unfold destroying. see_step.
  eapply watch_seq; [eapply (destroy_all_asks cfg f s orphans (Seen.listed s)); rewrite ?Ha; done|].
  intros [destroyed failed] s' (Hm' & Hl & Hf). cbn in Hf. see_step. apply watch_ret.
  unfold cleaned. rewrite Hm'. split; [exact Hl|]. intros _. rewrite <-not_destroyed_nil, Hf.
  by destruct (0 <? _)%Z.
Qed.

Lemma nothing_asked r s : Seen.asked s = [] -> may_destroy s = false \/ Seen.listed s = [] -> cleaned r s.
Proof.
  intros Ha Hs. unfold cleaned. destruct (may_destroy s); [|done].
  destruct Hs as [|Hl]; [done|]. rewrite Ha, Hl. by split.
Qed.

(** C8.  On every execution: the command asks for destructions only with [--execute], not with
    JSON output, and after the prompt was answered with yes unless [--force] is set; then it
    asks once for each instance that a provider listed, in that order, whether or not a
    session still uses it, and returns an error exactly when one of them failed. *)
Theorem cleanup_destroys_listed :
  watch destructions (runCleanupOrphans cleanupExecute cleanupForce cleanupProvider outputFormat) cleaned Seen.none.
Proof.
  unfold runCleanupOrphans. see_step. destruct b as [cfg|e]; [|apply watch_ret, nothing_asked; [done|by right]].
  destruct (initializeProviders cfg cleanupProvider) as [l|e] eqn:Hi;
    [|apply watch_ret, nothing_asked; [done|by right]].
  apply initialized in Hi as ->. destruct (clients cfg cleanupProvider) as [|c cs] eqn:Hc;
    [apply watch_ret, nothing_asked; [done|by right]|]. rewrite <-Hc.
  see_step. eapply watch_seq; [by apply (scan_lists (clients cfg cleanupProvider))|].
  intros [orphans total] s (Hl & Ha & Hy). cbn [fst] in Hl. cbv zeta.
  destruct orphans as [|o orphans].
  { see_step. apply watch_ret, nothing_asked; [done|]. right. by inversion Hl. }
  case_bool_decide as Hj.
  { apply watch_trigger. intros r _. split; [done|]. apply nothing_asked; [done|]. left.
    unfold may_destroy. by rewrite (bool_decide_true _ Hj), andb_false_r. }
  see_step. see_step. destruct cleanupExecute eqn:He; cbn [negb].
  2: { see_step. see_step. apply watch_ret, nothing_asked; [done|]. left. unfold may_destroy. by rewrite He. }
  assert (forall s', may_destroy s' = cleanupForce || Seen.yes s') as Hmay.
  { intros s'. unfold may_destroy. by rewrite He, (bool_decide_false _ Hj). }
  unfold confirm. destruct cleanupForce eqn:Hforce.
  - apply destroying_cleans; [by rewrite Hmay|done..].
  - apply watch_bind. see_step. see_step. apply watch_bind, watch_trigger. see_red. intros [input|e] _; (split; [done|]).
    + case_bool_decide.
      * apply watch_ret, destroying_cleans; [|done..]. by rewrite Hmay.
      * see_step. apply watch_ret, nothing_asked; [done|]. left. by rewrite Hmay.
    + apply watch_ret, nothing_asked; [done|]. left. rewrite Hmay. cbn. by rewrite Hy.
Qed.
End Command.

(** ** Two runs *)
Section Runs.
Context (list_answer : result (list ProviderInstance.t)).

(** An account of Vast.ai, which answers a list with [list_answer]; the state is what was
    printed last, and the instances destroyed. *)
Definition account (B : Type) (e : cleanupE B) (w : string * list string) : option (B * (string * list string)) :=
  match e in cleanupE B return option (B * (string * list string)) with
  | LoadFromEnv =>
      Some (Ok (Config.mk (Config.Server Config.defaults) "" (ProvidersConfig.mk (VastAIConfig.mk "key" true)
                  (BlueLobsterConfig.mk "" true "") (TensorDockConfig.mk "" "" true "")) (Config.Inventory Config.defaults)
                  (Config.Lifecycle Config.defaults) (Config.SSH Config.defaults) (Config.Logging Config.defaults)), w)
  | ListAllInstances _ => Some (list_answer, w)
  | DestroyInstance _ id => Some (None, (w.1, w.2 ++ [id]))
  | Say (Line s) => Some (tt, (s, w.2))
  | Say (Table _) => Some (tt, w)
  | EncodeReport _ _ _ _ => Some (None, w)
  | ReadLine => Some (Ok ("yes" +:+ String "010" ""), w)
  end.
Definition cleaned_up (outputFormat : string) : option (option error * (string * list string)) :=
  (fun r => (r.1.1, r.2)) <$> run account (runCleanupOrphans true false "" outputFormat) [] ("", []).
End Runs.

(** The account cannot be listed: the command finds no instances, and succeeds. *)
Example unlisted_account_is_clean :
  cleaned_up (Err (EOpaque "502")) "table" = Some (None, ("No shopper-managed instances found.", [])).
Proof. vm_compute. reflexivity. Qed.

Definition rented : ProviderInstance.t :=
  ProviderInstance.mk "i-1" "shopper-s-1" "running" zero_time (InstanceTags.mk "s-1" "" zero_time "") f1.
(** With [--execute] an instance is destroyed whose session is in use; with JSON output
    nothing is. *)
Example execute_destroys :
  cleaned_up (Ok [rented]) "table" = Some (None, ("Cleanup complete: 1 destroyed, 0 failed", ["i-1"])) /\
  cleaned_up (Ok [rented]) "json" = Some (None, ("  Found 1 shopper-managed instances", [])).
Proof. split; vm_compute; reflexivity. Qed.
