(* ===== verification/FileTransfer.v ===== *)
(** [internal/filetransfer/transfer.go]: files copied to and from a machine over SFTP, as
    programs over the file system, the SSH client and the SFTP client. *)
From S2P Require Import Prelude GoLib GoStrings Models Errors Programs.
From Stdlib Require Import Ascii.

Abbreviation result := (res error).

(** ** Paths ([path/filepath]) *)

(** One element of a path onto those before it, the last one first. *)
Definition push_element (rooted : bool) (stack : list string) (e : string) : list string :=
  if bool_decide (e = "") || bool_decide (e = ".") then stack
  else if bool_decide (e = "..") then
    match stack with
    | top :: rest => if bool_decide (top = "..") then e :: stack else rest
    | [] => if rooted then [] else [e]
    end
  else e :: stack.
Definition Clean (path : string) : string :=
  let rooted := HasPrefix path "/" in
  let elements := rev (fold_left (push_element rooted) (Split path "/"%char) []) in
  let text := (if rooted then "/" else "") +:+ Join elements "/" in
  if bool_decide (text = "") then "." else text.
(** Everything up to the last slash. *)
Fixpoint upto_slash (s : string) : string :=
  match s with
  | EmptyString => ""
  | String c s' =>
      match upto_slash s' with
      | EmptyString => if Ascii.eqb c "/" then "/" else ""
      | t => String c t
      end
  end.
Definition Dir (path : string) : string := Clean (upto_slash path).

Example dirs :
  Dir "/data/a/../b.txt" = "/data" /\ Dir "b.txt" = "." /\ Dir "/b.txt" = "/" /\ Dir "a//./b" = "a" /\
  Dir "../x" = ".." /\ Dir "a/b/" = "a/b" /\ Dir "/../x" = "/".
Proof. by repeat split. Qed.

(** ** Credentials *)
Module Credentials.
Record t := mk { Host : string; Port : Z; User : string; PrivateKey : string }.
Definition Validate (c : t) : option error :=
  if bool_decide (Host c = "") then Some (EOpaque "host cannot be empty")
  else if (Port c <=? 0)%Z || (65535 <? Port c)%Z then Some (EOpaque "port must be between 1 and 65535")
  else if bool_decide (User c = "") then Some (EOpaque "user cannot be empty")
  else if bool_decide (PrivateKey c = "") then Some (EOpaque "private key cannot be empty")
  else None.
End Credentials.
Module Transfer.
Record t := mk { creds : Credentials.t; connectTimeout : duration }.
Definition DefaultConnectTimeout : duration := (30 * Second)%Z.
Definition New (creds : Credentials.t) : t := mk creds DefaultConnectTimeout.
Definition WithConnectTimeout (d : duration) (t : t) : Transfer.t := mk (creds t) d.
End Transfer.

(** ** Effects *)
(** What a [Stat] on the machine tells. *)
Inductive stat_answer := Exists_ | NotExist | StatFailed (e : error).

Inductive transferE : Type -> Type :=
(** [os.Stat]: is it a directory *)
| StatLocal (path : string) : transferE (result bool)
| OpenLocal (path : string) : transferE (result nat)
| CreateLocal (path : string) : transferE (result nat)
| MkdirAllLocal (path : string) : transferE (option error)
| RemoveLocal (path : string) : transferE (option error)
| CloseLocal (file : nat) : transferE (option error)
| ParsePrivateKey (key : string) : transferE (option error)
| CtxErr : transferE (option error)
| Dial (addr user key : string) (timeout : duration) : transferE (result nat)
| CloseClient (client : nat) : transferE (option error)
| NewSFTP (client : nat) : transferE (result nat)
| CloseSFTP (sftp : nat) : transferE (option error)
| MkdirAllRemote (sftp : nat) (path : string) : transferE (option error)
| CreateRemote (sftp : nat) (path : string) : transferE (result nat)
| OpenRemote (sftp : nat) (path : string) : transferE (result nat)
| CloseRemote (file : nat) : transferE (option error)
| ReadDir (sftp : nat) (path : string) : transferE (result (list string))
| StatRemote (sftp : nat) (path : string) : transferE stat_answer
(** [io.Copy] in a goroutine against [ctx.Done]: [None] when the context ends first *)
| CopyToRemote (remote local : nat) : transferE (option (option error))
| CopyToLocal (local remote : nat) : transferE (option (option error)).
Definition transfer (A : Type) : Type := prog transferE A.
Definition call {A} (e : transferE A) : transfer A := trigger e.

(** What is opened is closed when [body] returns; [fail] wraps the error. *)
Definition deferred {A} (open : transferE (result nat)) (close : nat -> transferE (option error))
    (what : string) (fail : error -> A) (body : nat -> transfer A) : transfer A :=
  let* r := call open in
  match r with
  | Err e => Return (fail (EWrap what e))
  | Ok n => let* a := body n in do* call (close n) in Return a
  end.

Section Transfer.
Context (t : Transfer.t).
Definition address : string :=
  Credentials.Host (Transfer.creds t) +:+ ":" +:+ Itoa (Credentials.Port (Transfer.creds t)).

(** [connect], and the deferred close of the client. *)
Definition connect : transfer (result nat) :=
  let creds := Transfer.creds t in
  match Credentials.Validate creds with
  | Some e => Return (Err (EWrap "invalid credentials" e))
  | None =>
      let* bad := call (ParsePrivateKey (Credentials.PrivateKey creds)) in
      match bad with
      | Some e => Return (Err (EWrap "failed to parse private key" e))
      | None =>
          let* done := call CtxErr in
          match done with
          | Some e => Return (Err e)
          | None =>
              let* r := call (Dial address (Credentials.User creds) (Credentials.PrivateKey creds)
                                (Transfer.connectTimeout t)) in
              Return match r with
                     | Ok c => Ok c
                     | Err e => Err (EWrap ("failed to dial " +:+ address) e)
                     end
          end
      end
  end.
Definition connected {A} (fail : error -> A) (body : nat -> transfer A) : transfer A :=
  let* r := connect in
  match r with
  | Err e => Return (fail (EWrap "failed to connect" e))
  | Ok client =>
      let* a := deferred (NewSFTP client) CloseSFTP "failed to create sftp client" fail body in
      do* call (CloseClient client) in Return a
  end.

Definition cancelled (what : string) : transfer error :=
  let* e := call CtxErr in Return (EWrap what (default (EContext "context canceled") e)).

(** The parent directories on the machine; an error is ignored. *)
Definition make_remote_dir (sftp : nat) (remotePath : string) : transfer unit :=
  let dir := Dir remotePath in
  if bool_decide (dir = "") || bool_decide (dir = ".") || bool_decide (dir = "/") then Return tt
  else do* call (MkdirAllRemote sftp dir) in Return tt.

Definition Upload (localPath remotePath : string) : transfer (option error) :=
  if bool_decide (localPath = "") then Return (Some (EOpaque "local path cannot be empty"))
  else if bool_decide (remotePath = "") then Return (Some (EOpaque "remote path cannot be empty"))
  else
    let* info := call (StatLocal localPath) in
    match info with
    | Err e => Return (Some (EWrap "failed to stat local file" e))
    | Ok true => Return (Some (EOpaque "local path is a directory, not a file"))
    | Ok false =>
        connected Some (fun sftp =>
          deferred (OpenLocal localPath) CloseLocal "failed to open local file" Some (fun localFile =>
            do* make_remote_dir sftp remotePath in
            deferred (CreateRemote sftp remotePath) CloseRemote "failed to create remote file" Some (fun remoteFile =>
              let* copied := call (CopyToRemote remoteFile localFile) in
              match copied with
              | Some (Some e) => Return (Some (EWrap "failed to copy file" e))
              | Some None => Return None
              | None => let* e := cancelled "upload cancelled" in Return (Some e)
              end)))
    end.

Definition make_local_dir (localPath : string) : transfer (option error) :=
  let dir := Dir localPath in
  if bool_decide (dir = "") || bool_decide (dir = ".") then Return None
  else
    let* e := call (MkdirAllLocal dir) in
    Return match e with Some e => Some (EWrap "failed to create local directory" e) | None => None end.

(** The partial file is closed and removed. *)
Definition drop_partial (localFile : nat) (localPath : string) : transfer unit :=
  do* call (CloseLocal localFile) in do* call (RemoveLocal localPath) in Return tt.

Definition Download (remotePath localPath : string) : transfer (option error) :=
  if bool_decide (remotePath = "") then Return (Some (EOpaque "remote path cannot be empty"))
  else if bool_decide (localPath = "") then Return (Some (EOpaque "local path cannot be empty"))
  else
    connected Some (fun sftp =>
      deferred (OpenRemote sftp remotePath) CloseRemote "failed to open remote file" Some (fun remoteFile =>
        let* e := make_local_dir localPath in
        match e with
        | Some e => Return (Some e)
        | None =>
            deferred (CreateLocal localPath) CloseLocal "failed to create local file" Some (fun localFile =>
              let* copied := call (CopyToLocal localFile remoteFile) in
              match copied with
              | Some None => Return None
              | Some (Some e) =>
                  do* drop_partial localFile localPath in
                  Return (Some (EWrap "failed to copy file" e))
              | None =>
                  do* drop_partial localFile localPath in
                  let* e := cancelled "download cancelled" in Return (Some e)
              end)
        end)).

Definition ListRemoteDir (remotePath : string) : transfer (result (list string)) :=
  if bool_decide (remotePath = "") then Return (Err (EOpaque "remote path cannot be empty"))
  else
    connected Err (fun sftp =>
      let* r := call (ReadDir sftp remotePath) in
      Return match r with Ok l => Ok l | Err e => Err (EWrap "failed to read remote directory" e) end).

Definition RemoteFileExists (remotePath : string) : transfer (result bool) :=
  if bool_decide (remotePath = "") then Return (Err (EOpaque "remote path cannot be empty"))
  else
    connected Err (fun sftp =>
      let* r := call (StatRemote sftp remotePath) in
      Return match r with
             | Exists_ => Ok true
             | NotExist => Ok false
             | StatFailed e => Err (EWrap "failed to stat remote file" e)
             end).
End Transfer.
