(* ===== verification/FileTransferFacts.v ===== *)
(** What the file transfers leave behind, on every execution. *)
From S2P Require Import Prelude GoLib GoStrings Models Errors Programs FileTransfer.
#[local] Set Warnings "-clear-no-such-hyp".

(** ** Clients and files are closed *)
Inductive kind := AClient | AnSFTP | ALocalFile | ARemoteFile.
#[export] Instance kind_eq_dec : EqDecision kind.
Proof. solve_decision. Defined.
#[export] Instance kind_countable : Countable kind.
Proof.
  refine (inj_countable' (fun k => match k with AClient => 0 | AnSFTP => 1 | ALocalFile => 2 | ARemoteFile => 3 end)
    (fun n => match n with 0 => AClient | 1 => AnSFTP | 2 => ALocalFile | _ => ARemoteFile end) _).
  by intros [].
Defined.

Definition opened (k : kind) (r : result nat) : option (kind * nat) :=
  match r with Ok n => Some (k, n) | Err _ => None end.
Definition opens (x : event transferE) : option (kind * nat) :=
  match x with
  | Ev e b =>
      match e in transferE B return B -> option (kind * nat) with
      | Dial _ _ _ _ => opened AClient
      | NewSFTP _ => opened AnSFTP
      | OpenLocal _ | CreateLocal _ => opened ALocalFile
      | CreateRemote _ _ | OpenRemote _ _ => opened ARemoteFile
      | _ => fun _ => None
      end b
  end.
Definition closes (x : event transferE) : option (kind * nat) :=
  match x with
  | Ev (CloseClient n) _ => Some (AClient, n)
  | Ev (CloseSFTP n) _ => Some (AnSFTP, n)
  | Ev (CloseLocal n) _ => Some (ALocalFile, n)
  | Ev (CloseRemote n) _ => Some (ARemoteFile, n)
  | _ => None
  end.
(** A file of the machine may be closed twice. *)
Definition uses (x : event transferE) : list (kind * nat) :=
  match x with
  | Ev (NewSFTP n) _ | Ev (CloseClient n) _ => [(AClient, n)]
  | Ev (MkdirAllRemote n _) _ | Ev (CreateRemote n _) _ | Ev (OpenRemote n _) _ | Ev (ReadDir n _) _
  | Ev (StatRemote n _) _ | Ev (CloseSFTP n) _ => [(AnSFTP, n)]
  | Ev (CopyToRemote remote local) _ | Ev (CopyToLocal local remote) _ => [(ARemoteFile, remote); (ALocalFile, local)]
  | Ev (CloseRemote n) _ => [(ARemoteFile, n)]
  | _ => []
  end.
Abbreviation neat := (tidy opens closes uses).

Lemma neat_deferred {A} k (open : transferE (result nat)) close what (fail : error -> A) body s :
  (forall r, opens (Ev open r) = opened k r /\ closes (Ev open r) = None /\
             Forall (fun x => x ∈ s) (uses (Ev open r))) ->
  (forall n x, opens (Ev (close n) x) = None /\ closes (Ev (close n) x) = Some (k, n)) ->
  (forall n, (k, n) ∉ s ->
     watch (resources opens closes uses) (body n)
       (fun _ s' => s' ∖ {[(k, n)]} = s /\ forall x, Forall (fun r => r ∈ s') (uses (Ev (close n) x))) ({[(k, n)]} ∪ s)) ->
  neat (deferred open close what fail body) s.
Proof.
  intros Ho Hc Hbody. unfold deferred. apply watch_bind, watch_trigger. intros r Hr.
  destruct (Ho r) as (Hor & Hcr & Hur). split; [exact Hur|]. cbn [assumed next resources] in *. rewrite Hor in *.
  destruct r as [n|e]; cbn [opened] in *; [|by rewrite Hcr].
  apply tidy_close; [apply Hc|exact Hr|by apply Hbody].
Qed.
(** The usual case: the resource stays open in [body]. *)
Lemma neat_inside {A} k (close : nat -> transferE (option error)) n (body : transfer A) s :
  (forall x, uses (Ev (close n) x) = [(k, n)] \/ uses (Ev (close n) x) = []) ->
  (k, n) ∉ s -> neat body ({[(k, n)]} ∪ s) ->
  watch (resources opens closes uses) body
    (fun _ s' => s' ∖ {[(k, n)]} = s /\ forall x, Forall (fun r => r ∈ s') (uses (Ev (close n) x))) ({[(k, n)]} ∪ s).
Proof.
  intros Hu Hnew Hb. apply tidy_inside; [done| |done]. intros x.
  destruct (Hu x) as [->| ->]; repeat constructor.
Qed.

Ltac neat_call := apply tidy_bind; [by apply tidy_effect; intros b; split_and!; try done; repeat constructor; set_solver|].
Ltac neat_scope k :=
  apply (neat_deferred k); [intros r; split_and!; [done..|]; repeat constructor; set_solver|done|].
Ltac neat_in := intros ? ?; apply neat_inside; [intros x; by left|done|].
Ltac neat_done := repeat first [done | case_match].

Lemma neat_connected {A} t (fail : error -> A) body s :
  (forall sftp s', (AnSFTP, sftp) ∈ s' -> neat (body sftp) s') -> neat (connected t fail body) s.
Proof.
  intros Hbody. unfold connected, connect. destruct (Credentials.Validate _) as [e|]; [done|].
  apply watch_bind, watch_bind, watch_trigger. intros [e|] _; (split; [by constructor|]); [done|].
  apply watch_bind, watch_trigger. intros [e|] _; (split; [by constructor|]); [done|].
  apply watch_bind, watch_trigger. intros [c|e] Hc; (split; [by constructor|]); [|done].
  cbn [assumed resources opens opened] in Hc. cbn [next resources opens opened]. apply watch_ret.
  apply tidy_close; [done|done|]. apply (neat_inside AClient CloseClient); [by left|done|].
  neat_scope AnSFTP. neat_in. apply Hbody. set_solver.
Qed.

Lemma neat_cancelled what s : neat (cancelled what) s.
Proof. unfold cancelled. by neat_call. Qed.

(** Every client, SFTP session and file that is opened is closed when the method returns, and
    none is used that is not open: whatever fails, and whenever the context ends. *)
Theorem transfer_closes t s :
  (forall localPath remotePath, neat (Upload t localPath remotePath) s) /\
  (forall remotePath localPath, neat (Download t remotePath localPath) s) /\
  (forall remotePath, neat (ListRemoteDir t remotePath) s) /\
  (forall remotePath, neat (RemoteFileExists t remotePath) s).
Proof.
  split_and!.
  - intros localPath remotePath. unfold Upload. do 2 (case_bool_decide; [done|]). neat_call. intros [[]|e]; [done| |done].
    apply neat_connected. intros sftp s1 H1.
    neat_scope ALocalFile. intros local Hlocal. apply neat_inside; [by right|done|].
    apply tidy_bind. { unfold make_remote_dir. case_match; [done|]. by neat_call. }
    intros u. neat_scope ARemoteFile. neat_in. neat_call. intros [[e|]|]; [done..|].
    apply tidy_bind; [apply neat_cancelled|done].
  - intros remotePath localPath. unfold Download. do 2 (case_bool_decide; [done|]).
    apply neat_connected. intros sftp s1 H1. neat_scope ARemoteFile. neat_in.
    apply tidy_bind. { unfold make_local_dir. case_match; [done|]. by neat_call. }
    intros [e|]; [done|]. neat_scope ALocalFile. intros local Hlocal.
    set (s2 := {[(ARemoteFile, n)]} ∪ s1) in *.
    assert (forall (A : Type) (p : transfer A), neat p s2 ->
              watch (resources opens closes uses) (do* drop_partial local localPath in p)
                (fun _ s' => s' ∖ {[(ALocalFile, local)]} = s2 /\ forall x, Forall (fun r => r ∈ s') (uses (Ev (CloseLocal local) x)))
                ({[(ALocalFile, local)]} ∪ s2)) as Hdrop.
    { intros A p Hp. unfold drop_partial. apply watch_bind, watch_bind, watch_trigger. intros r _. split; [by constructor|].
      apply watch_bind, watch_trigger. intros r' _. split; [by constructor|]. apply watch_ret. cbn.
      replace (({[(ALocalFile, local)]} ∪ s2) ∖ {[(ALocalFile, local)]}) with s2 by set_solver.
      eapply watch_mono; [exact Hp|]. intros a s' ->. split; [set_solver|by constructor]. }
    apply watch_bind, watch_trigger. intros [[e|]|] _; (split; [repeat constructor; set_solver|]).
    + by apply (Hdrop _ (Return _)).
    + apply watch_ret. split; [set_solver|by constructor].
    + apply (Hdrop _ (let* e := cancelled _ in Return (Some e))). apply tidy_bind; [apply neat_cancelled|done].
  - intros remotePath. unfold ListRemoteDir. case_bool_decide; [done|]. apply neat_connected. intros sftp s1 H1. by neat_call.
  - intros remotePath. unfold RemoteFileExists. case_bool_decide; [done|]. apply neat_connected. intros sftp s1 H1. by neat_call.
Qed.

(** ** What a download leaves *)
Module Local.
(** the file the download made is there; it holds the whole remote file; a removal of it
    was asked for and refused *)
Record t := mk { present : bool; whole : bool; refused : bool }.
End Local.
(** The local file [path].  It is gone only when its removal was answered with success. *)
Definition file_at (path : string) (x : event transferE) (s : Local.t) : Local.t :=
  match x with
  | Ev e b =>
      match e in transferE B return B -> Local.t with
      | CreateLocal p => fun r =>
          match r with
          | Ok _ => if bool_decide (p = path) then Local.mk true false false else s
          | Err _ => s
          end
      | CopyToLocal _ _ => fun r =>
          match r with Some None => Local.mk (Local.present s) true (Local.refused s) | _ => s end
      | RemoveLocal p => fun r =>
          if bool_decide (p = path) then
            match r with
            | None => Local.mk false (Local.whole s) (Local.refused s)
            | Some _ => Local.mk (Local.present s) (Local.whole s) true
            end
          else s
      | _ => fun _ => s
      end b
  end.
Definition local_file (path : string) : monitor transferE Local.t :=
  mk_monitor (file_at path) (fun _ _ => True) (fun _ _ => True).

(** Success means the whole file; after a failure no file of the download is there, or its
    removal was asked for and was itself refused. *)
Definition settled (r : option error) (s : Local.t) : Prop :=
  match r with
  | None => s = Local.mk true true false
  | Some _ => Local.present s = false \/ Local.refused s = true
  end.

(** The effects that do not touch the local file. *)
Definition elsewhere (B : Type) (e : transferE B) : bool :=
  match e with CreateLocal _ | CopyToLocal _ _ | RemoveLocal _ => false | _ => true end.
Lemma elsewhere_same path {A} (p : transfer A) s :
  only elsewhere p -> watch (local_file path) p (fun _ s' => s' = s) s.
Proof. intros Hp. apply (only_watch elsewhere); [|done|done]. by intros B [] b s' ? ? ->. Qed.
Lemma settled_deferred path {A} open close what (fail : error -> A) body (Q : A -> Local.t -> Prop) s :
  elsewhere _ open = true -> (forall n, elsewhere _ (close n) = true) ->
  (forall e, Q (fail (EWrap what e)) s) -> (forall n, watch (local_file path) (body n) Q s) ->
  watch (local_file path) (deferred open close what fail body) Q s.
Proof.
  intros Ho Hc Hf Hb. unfold deferred. eapply watch_seq; [apply elsewhere_same, only_trigger, Ho|].
  intros [n|e] s' ->; [|apply watch_ret, Hf]. eapply watch_seq; [apply Hb|]. intros a s' Ha.
  eapply watch_seq; [apply elsewhere_same, only_trigger, Hc|]. by intros x s'' ->.
Qed.
Lemma only_connect t : only elsewhere (connect t).
Proof.
  unfold connect. destruct (Credentials.Validate _); [done|]. apply only_bind; [by apply only_trigger|].
  intros [e|]; [done|]. apply only_bind; [by apply only_trigger|]. intros [e|]; [done|].
  by apply only_bind; [apply only_trigger|].
Qed.

(** C32.  A download that succeeds has copied the whole file; one that fails leaves no local file
    of its own, whatever happens in between, unless the removal of the partial file, which it
    always asks for, is itself refused (an error [os.Remove] reports and the code ignores). *)
Theorem Download_settles t remotePath localPath :
  watch (local_file localPath) (Download t remotePath localPath) settled (Local.mk false false false).
Proof.
  unfold Download. do 2 (case_bool_decide; [by left|]). unfold connected.
  eapply watch_seq; [apply elsewhere_same, only_connect|]. intros [client|e] s ->; [|by left].
  eapply watch_seq; [|intros r s Hr; eapply watch_seq; [by apply elsewhere_same, only_trigger|by intros x s' ->]].
  apply settled_deferred; [done|done|by left|]. intros sftp. apply settled_deferred; [done|done|by left|]. intros remoteFile.
  eapply watch_seq; [apply elsewhere_same; unfold make_local_dir; case_match; [done|]; by apply only_bind; [apply only_trigger|]|].
  intros [e|] s ->; [by left|]. unfold deferred. apply watch_bind, watch_trigger. intros [localFile|e] _; (split; [done|]); [|by left].
  cbn [next local_file file_at]. rewrite bool_decide_true by done.
  eapply watch_seq; [|intros r s Hr; eapply watch_seq; [by apply elsewhere_same, only_trigger|intros x s' ->; exact Hr]].
  assert (forall A (p : transfer A) (Q : A -> Local.t -> Prop),
            watch (local_file localPath) p Q (Local.mk false false false) ->
            watch (local_file localPath) p Q (Local.mk true false true) ->
            watch (local_file localPath) (do* drop_partial localFile localPath in p) Q (Local.mk true false false)) as Hdrop.
  { intros A p Q Hgone Hkept. unfold drop_partial. apply watch_bind, watch_bind, watch_trigger.
    intros r _. split; [done|]. apply watch_bind, watch_trigger. intros r' _. split; [done|].
    cbn [next local_file file_at]. rewrite bool_decide_true by done. by destruct r'. }
  apply watch_bind, watch_trigger. intros [[e|]|] _; (split; [done|]).
  - apply (Hdrop _ (Return _)); apply watch_ret; [by left|by right].
  - done.
  - apply (Hdrop _ (let* e := cancelled _ in Return (Some e)));
      (eapply watch_seq; [apply elsewhere_same; by apply only_bind; [apply only_trigger|]|]);
      intros e s ->; [by left|by right].
Qed.
