(* ===== verification/Cli.v ===== *)
(** What the commands of [cmd/cli/cmd] that talk to the server share: a request names the
    route of the server it reaches, an answer holds what decoding its body gives.  What an id
    pasted into a URL reaches ([sessions.go], [shutdown.go], [transfer.go]), the
    selection of an offer ([provision.go]) and the parts of the file transfer command
    ([transfer.go]). *)
From S2P Require Import Prelude GoFloat GoLib GoStrings Models Errors Interfaces Api Programs FileTransfer.
From Stdlib Require Import Ascii.

(** A value of a JSON object that a command sends. *)
Inductive field := Text (s : string) | Number (n : Z).
Module Request.
Record t := mk {
  route : Route;
  id : string;
  query : list (string * string);
  payload : list (string * field)
}.
End Request.
(** The status, the body, and what decoding the body gives; [Err] when it is not JSON. *)
Module Answer.
Record t := mk { StatusCode : Z; text : string; content : result Body }.
Definition ok (a : t) : bool := (StatusCode a =? 200)%Z.
End Answer.

(** ** A session id in a URL

    The commands paste the id into [serverURL/api/v1/sessions/<id>] as it is, followed by
    nothing, [/done] or [/extend]; the client parses the text ([net/url]), and the router
    matches the path. *)

(** [strings.Cut] at a byte. *)
Fixpoint Cut (sep : ascii) (s : string) : string * option string :=
  match s with
  | EmptyString => ("", None)
  | String c s' =>
      if Ascii.eqb c sep then ("", Some s') else let (a, b) := Cut sep s' in (String c a, b)
  end.
Definition hex_value (c : ascii) : option nat :=
  let n := nat_of_ascii c in
  if byte_in 48 57 c then Some (n - 48)
  else if byte_in 97 102 c then Some (n - 87)
  else if byte_in 65 70 c then Some (n - 55)
  else None.
(** The percent escapes of a path or a fragment; [None] for one that is not two hexadecimal
    digits. *)
Fixpoint unescape (s : string) : option string :=
  match s with
  | EmptyString => Some ""
  | String c s' =>
      if Ascii.eqb c "%" then
        match s' with
        | String a (String b s'') =>
            match hex_value a, hex_value b with
            | Some hi, Some lo => String (ascii_of_nat (16 * hi + lo)) <$> unescape s''
            | _, _ => None
            end
        | _ => None
        end
      else String c <$> unescape s'
  end.
(** A control byte: below the space, or DEL. *)
Definition is_control (c : ascii) : bool := byte_in 0 31 c || byte_in 127 127 c.
Definition no_control (s : string) : bool := all_bytes (fun c => negb (is_control c)) s.

(** [url.Parse], of what follows [serverURL/api/v1/sessions/]: the fragment and the query are
    cut off, and the path is unescaped.  An address of the server that parses is assumed. *)
Definition parse_path (s : string) : result string :=
  let (u, fragment) := Cut "#" s in
  if negb (no_control u) then Err (EOpaque "net/url: invalid control character in URL")
  else
    match unescape (Cut "?" u).1, unescape (default "" fragment) with
    | Some path, Some _ => Ok path
    | _, _ => Err (EOpaque "invalid URL escape")
    end.

Inductive Method := GET | POST | DELETE.
(** What a request reaches: a route of the server, or a path for which the router has no
    handler of its own ([path] is what follows [/api/v1/sessions/]). *)
Inductive Target :=
| AtRoute (r : Request.t)
| NoRoute (m : Method) (path : string).
(** The routes below [/api/v1/sessions/]; [:id] is one segment of the path. *)
Definition session_route (m : Method) (path : string) : option (Route * string) :=
  let (id, rest) := Cut "/" path in
  if bool_decide (id = "") then None
  else
    match m, rest with
    | GET, None => Some (GET_sessions_id, id)
    | DELETE, None => Some (DELETE_sessions_id, id)
    | GET, Some last => if bool_decide (last = "diagnostics") then Some (GET_sessions_id_diagnostics, id) else None
    | POST, Some last =>
        if bool_decide (last = "done") then Some (POST_sessions_id_done, id)
        else if bool_decide (last = "extend") then Some (POST_sessions_id_extend, id)
        else None
    | _, _ => None
    end.
(** The request for the pasted id; [Err] is the error of [http.NewRequest]. *)
Definition session_target (m : Method) (sessionID suffix : string) (payload : list (string * field)) : result Target :=
  match parse_path (sessionID +:+ suffix) with
  | Err e => Err e
  | Ok path =>
      Ok match session_route m path with
         | Some (route, id) => AtRoute (Request.mk route id [] payload)
         | None => NoRoute m path
         end
  end.

(** *** An id that the client sends unchanged *)

(** The unreserved bytes of a URL, those of the identifiers that the server gives. *)
Definition plain_byte (c : ascii) : bool :=
  byte_in 48 57 c || byte_in 65 90 c || byte_in 97 122 c ||
  Ascii.eqb c "-" || Ascii.eqb c "_" || Ascii.eqb c "." || Ascii.eqb c "~".
Definition plain (id : string) : bool := negb (bool_decide (id = "")) && all_bytes plain_byte id.

Lemma Cut_none sep s : all_bytes (fun c => negb (Ascii.eqb c sep)) s = true -> Cut sep s = (s, None).
Proof.
  induction s as [|c s IH]; [done|]. cbn. rewrite andb_true_iff, negb_true_iff. intros [-> Hs]. by rewrite IH.
Qed.
Lemma Cut_here sep s t :
  all_bytes (fun c => negb (Ascii.eqb c sep)) s = true -> Cut sep (s +:+ String sep t) = (s, Some t).
Proof.
  induction s as [|c s IH].
  - intros _. change (Cut sep (String sep t) = ("", Some t)). cbn [Cut]. by rewrite Ascii.eqb_refl.
  - change (String c s +:+ String sep t) with (String c (s +:+ String sep t)). cbn [all_bytes Cut].
    rewrite andb_true_iff, negb_true_iff. intros [-> Hs]. by rewrite IH.
Qed.
Lemma unescape_plain s : all_bytes (fun c => negb (Ascii.eqb c "%")) s = true -> unescape s = Some s.
Proof.
  induction s as [|c s IH]; [done|]. cbn [all_bytes unescape]. rewrite andb_true_iff, negb_true_iff.
  intros [-> Hs]. by rewrite IH.
Qed.

(** A byte that is plain is none of those that mean something in a URL. *)
Lemma plain_byte_other c d : plain_byte d = false -> plain_byte c = true -> negb (Ascii.eqb c d) = true.
Proof. intros Hd Hc. destruct (Ascii.eqb_spec c d) as [->|]; [congruence|done]. Qed.
Lemma plain_not_control c : plain_byte c = true -> negb (is_control c) = true.
Proof. destruct c as [[] [] [] [] [] [] [] []]; by vm_compute. Qed.

Lemma plain_target m id suffix payload route :
  plain id = true -> all_bytes (fun c => plain_byte c || Ascii.eqb c "/") suffix = true ->
  session_route m (id +:+ suffix) = Some (route, id) ->
  session_target m id suffix payload = Ok (AtRoute (Request.mk route id [] payload)).
Proof.
  intros Hid Hsuf Hr. apply andb_true_iff in Hid as [_ Hid]. unfold session_target, parse_path.
  assert (forall d, plain_byte d = false -> d <> "/"%char ->
    all_bytes (fun c => negb (Ascii.eqb c d)) (id +:+ suffix) = true) as Hno.
  { intros d Hd Hs. rewrite all_bytes_app, andb_true_iff. split.
    - eapply all_bytes_mono; [|exact Hid]. intros c. by apply plain_byte_other.
    - eapply all_bytes_mono; [|exact Hsuf]. intros c [Hc|Hc%Ascii.eqb_eq]%orb_true_iff; [by apply plain_byte_other|].
      subst c. apply negb_true_iff, Ascii.eqb_neq. congruence. }
  assert (no_control (id +:+ suffix) = true) as Hctl.
  { unfold no_control. rewrite all_bytes_app, andb_true_iff. split.
    - eapply all_bytes_mono; [|exact Hid]. exact plain_not_control.
    - eapply all_bytes_mono; [|exact Hsuf]. intros c [Hc|Hc%Ascii.eqb_eq]%orb_true_iff;
        [by apply plain_not_control|by subst c]. }
  rewrite (Cut_none "#") by by apply Hno. cbn [negb]. rewrite Hctl. cbn [negb default].
  rewrite (Cut_none "?") by by apply Hno. cbn [fst].
  rewrite unescape_plain by by apply Hno. cbn [unescape]. by rewrite Hr.
Qed.
Lemma plain_no_slash id : plain id = true -> all_bytes (fun c => negb (Ascii.eqb c "/")) id = true.
Proof.
  intros [_ Hid]%andb_true_iff. eapply all_bytes_mono; [|exact Hid]. intros c. by apply plain_byte_other.
Qed.
Lemma plain_nonempty id : plain id = true -> bool_decide (id = "") = false.
Proof. intros [Hid _]%andb_true_iff. by destruct (bool_decide _). Qed.

(** ** Decoding into the structs of the commands

    A member that the object does not have keeps its zero value. *)
Definition offers_member (b : Body) : list GPUOffer.t := match b with OffersBody l _ _ => l | _ => [] end.
Definition count_member (b : Body) : Z :=
  match b with
  | OffersBody _ n _ | SessionsBody _ n | OfferHealthBody _ _ n | TemplatesBody _ n
  | CompatibleTemplatesBody _ n _ _ _ => n
  | _ => 0
  end.
(** The member [session]. *)
Definition session_member (b : Body) : option SessionResponse.t :=
  match b with CreateSessionResponse s _ _ => Some s | _ => None end.
Definition member_ID (b : Body) : string := default "" (SessionResponse.ID <$> session_member b).
Definition member_Status (b : Body) : string := default "" ((fun s => status_string (SessionResponse.Status s)) <$> session_member b).
Definition member_SSHHost (b : Body) : string := default "" (SessionResponse.SSHHost <$> session_member b).
Definition member_SSHPort (b : Body) : Z := default 0%Z (SessionResponse.SSHPort <$> session_member b).
Definition member_Error (b : Body) : string := default "" (SessionResponse.Error <$> session_member b).

(** ** [selectCheapestOffer] *)
Definition cheapest_request (gpuType : string) : Request.t :=
  Request.mk GET_inventory "" [("gpu_type", gpuType)] [].
Definition selectCheapestOffer (gpuType : string) (r : result Answer.t) : result GPUOffer.t :=
  match r with
  | Err e => Err e
  | Ok a =>
      if negb (Answer.ok a) then Err (EOpaque ("inventory request failed: " +:+ Answer.text a))
      else
        match Answer.content a with
        | Err e => Err e
        | Ok b =>
            match offers_member b with
            | [] => Err (EOpaque ("no offers found for GPU type " +:+ gpuType))
            | o :: _ => Ok o
            end
        end
  end.

(** ** [transfer.go] *)
Definition parseSessionPath (s : string) : result (string * string) :=
  match SplitN s ":" 2 with
  | [sessionID; path] =>
      let sessionID := TrimSpace sessionID in
      let path := TrimSpace path in
      if bool_decide (sessionID = "") then Err (EOpaque "session ID cannot be empty")
      else if bool_decide (path = "") then Err (EOpaque "path cannot be empty")
      else Ok (sessionID, path)
  | _ => Err (EOpaque ("invalid format, expected <session-id>:<path>, got " +:+ Quote s))
  end.

(** The session as [GET /sessions/:id] answers it, at the top level of the object. *)
Definition getSessionDetails (sessionID : string) (r : result Answer.t) : result (option SessionResponse.t) :=
  match r with
  | Err e => Err (EWrap "failed to connect to server" e)
  | Ok a =>
      if (Answer.StatusCode a =? 404)%Z then Err (EOpaque ("session not found: " +:+ sessionID))
      else if negb (Answer.ok a)
      then Err (EOpaque ("server error (" +:+ Itoa (Answer.StatusCode a) +:+ "): " +:+ Answer.text a))
      else match Answer.content a with
           | Err e => Err (EWrap "failed to parse response" e)
           | Ok b => Ok (match b with SessionBody s => Some s | _ => None end)
           end
  end.

(** [None] is a session whose members are all missing. *)
Definition createTransfer (session : option SessionResponse.t) (keyData : string) : result Transfer.t :=
  match session with
  | None => Err (EOpaque "session has no SSH host (status: )")
  | Some s =>
      let status := status_string (SessionResponse.Status s) in
      if bool_decide (SessionResponse.SSHHost s = "")
      then Err (EOpaque ("session has no SSH host (status: " +:+ status +:+ ")"))
      else if (SessionResponse.SSHPort s =? 0)%Z then Err (EOpaque "session has no SSH port")
      else if bool_decide (SessionResponse.SSHUser s = "") then Err (EOpaque "session has no SSH user")
      else if negb (bool_decide (SessionResponse.Status s = StatusRunning))
      then Err (EOpaque ("session is not running (status: " +:+ status +:+ ")"))
      else Ok (Transfer.WithConnectTimeout (30 * Second)%Z
                 (Transfer.New (Credentials.mk (SessionResponse.SSHHost s) (SessionResponse.SSHPort s)
                                  (SessionResponse.SSHUser s) keyData)))
  end.

Inductive cliE : Type -> Type :=
| Fetch (t : Target) : cliE (result Answer.t)
| ReadFile (path : string) : cliE (result string)
(** [os.IsNotExist] of the error of [os.Stat] *)
| Missing (path : string) : cliE bool.
Definition command (A : Type) : Type := prog (either cliE transferE) A.
Definition cli {A} (e : cliE A) : command A := trigger (Left e).
(** The key, the session, and the transfer over its machine. *)
Definition with_session (keyFile sessionID : string) (what : string) (use : Transfer.t -> transfer (option error))
    : command (option error) :=
  let* key := cli (ReadFile keyFile) in
  match key with
  | Err e => Return (Some (EWrap "failed to read private key file" e))
  | Ok keyData =>
      let* r := match session_target GET sessionID "" [] with
                | Err e => Return (Err e)
                | Ok t => cli (Fetch t)
                end in
      match getSessionDetails sessionID r with
      | Err e => Return (Some e)
      | Ok session =>
          match createTransfer session keyData with
          | Err e => Return (Some e)
          | Ok t =>
              let* e := inject (use t) in
              Return match e with Some e => Some (EWrap what e) | None => None end
          end
      end
  end.
Definition runUpload (keyFile localPath sessionPath : string) : command (option error) :=
  match parseSessionPath sessionPath with
  | Err e => Return (Some (EWrap "invalid destination" e))
  | Ok (sessionID, remotePath) =>
      let* missing := cli (Missing localPath) in
      if missing : bool then Return (Some (EOpaque ("local file does not exist: " +:+ localPath)))
      else with_session keyFile sessionID "upload failed" (fun t => Upload t localPath remotePath)
  end.
Definition runDownload (keyFile sessionPath localPath : string) : command (option error) :=
  match parseSessionPath sessionPath with
  | Err e => Return (Some (EWrap "invalid source" e))
  | Ok (sessionID, remotePath) =>
      with_session keyFile sessionID "download failed" (fun t => Download t remotePath localPath)
  end.
