(* ===== verification/Orchestrator.v ===== *)
(** [cmd/cli/cmd/orchestrator.go]: the command that runs benchmarks by asking the server for
    machines.  The main loop and its workers are programs over the effects below; they share
    the workers' states, guarded by one mutex but for two reads.  What is printed is left out. *)
From S2P Require Import Prelude GoFloat GoLib GoStrings Models Errors Interfaces Api Programs SshOutput FileTransfer Cli.
From Stdlib Require Import Ascii.

(** ** Data *)
Module TestSpec.
Record t := mk { Priority : Z; GPUType : string; Provider : string; Model : string; MaxPrice : f64; MinVRAM : Z }.
End TestSpec.

(** What the loop keeps of a worker, and what it never changes; [ref] is its address. *)
Module Worker.
Record t := mk { ref : nat; ID : string; Test : TestSpec.t; OutputFile : string; StartTime : time }.
End Worker.

Definition getDefaultTestMatrix : list TestSpec.t :=
  let spec p gpu prov model vram := TestSpec.mk p gpu prov model f0 vram in
  [spec 0%Z "H100 SXM" "vastai" "llama3:70b" 48%Z; spec 0%Z "RTX 5090" "vastai" "llama3:8b" 8%Z;
   spec 0%Z "RTX 4090" "vastai" "mistral:7b" 8%Z;
   spec 1%Z "RTX 5080" "vastai" "llama3:8b" 8%Z; spec 1%Z "RTX 5070 Ti" "vastai" "phi3:mini" 4%Z;
   spec 1%Z "RTX 4090" "tensordock" "mistral:7b" 8%Z;
   spec 2%Z "L40S" "tensordock" "codellama:34b" 24%Z; spec 2%Z "RTX 3090" "vastai" "llama3:8b" 8%Z;
   spec 2%Z "H200 NVL" "vastai" "llama3:70b" 80%Z].

(** ** Effects *)
Inductive tick := Watcher | Timeout.

Inductive orchE : Type -> Type :=
| Now : orchE time
| Sleep (d : duration) : orchE unit
| Fetch (r : Request.t) : orchE (result Answer.t)
| MkdirAll (path : string) : orchE (option error)
(** the log of a worker: [os.Create], a line, its close, and its lines *)
| CreateLog (path : string) : orchE (option error)
| WriteLog (path line : string) : orchE unit
| CloseLog (path : string) : orchE unit
| ReadLog (path : string) : orchE (result (list string))
(** the mutex, and the fields it guards *)
| Lock : orchE unit
| Unlock : orchE unit
| GetStatus (w : nat) : orchE string
| SetStatus (w : nat) (status : string) : orchE unit
| GetProgress (w : nat) : orchE time
| SetProgress (w : nat) (t : time) : orchE unit
| GetSession (w : nat) : orchE string
| SetSession (w : nat) (id : string) : orchE unit
| GetCost (w : nat) : orchE f64
| SetCost (w : nat) (tps cost : f64) : orchE unit
| SetTPS (w : nat) (text : string) : orchE unit
(** a new [WorkerState] with the status starting, and [go runWorker] on it *)
| NewWorker (id : string) (test : TestSpec.t) (start progress : time) : orchE nat
| Go (w : Worker.t) : orchE unit
(** the [select] on the two tickers *)
| NextTick : orchE tick.
Definition orch (A : Type) : Type := prog orchE A.
Definition call {A} (e : orchE A) : orch A := trigger e.

(** [mu.Lock(); ...; mu.Unlock()]. *)
Definition locked {A} (p : orch A) : orch A :=
  do* call Lock in
  let* a := p in
  do* call Unlock in Return a.

(** ** Requests *)
Definition inventory_request (test : TestSpec.t) (limit : list (string * string)) : Request.t :=
  Request.mk GET_inventory ""
    ([("gpu_type", TestSpec.GPUType test); ("provider", TestSpec.Provider test);
      ("min_vram", Itoa (TestSpec.MinVRAM test))] ++ limit) [].
Definition provision_request (runID workerID offerID : string) : Request.t :=
  Request.mk POST_sessions "" []
    [("consumer_id", Text ("benchmark-" +:+ runID +:+ "-" +:+ workerID)); ("offer_id", Text offerID);
     ("workload_type", Text "interactive"); ("reservation_hours", Number 2)].
Definition status_request (id : string) : Request.t := Request.mk GET_sessions_id id [] [].
Definition done_request (id : string) : Request.t := Request.mk POST_sessions_id_done id [] [].

Definition cleanupSession (sessionID : string) : orch unit :=
  let* _ := call (Fetch (done_request sessionID)) in Return tt.

(** ** [runWorker] *)
Section Worker.
Context (orchRunID : string).

(** The log of the error, and the status. *)
Definition fail_worker (w : Worker.t) (stage message : string) : orch unit :=
  do* call (WriteLog (Worker.OutputFile w) ("ERROR: stage=" +:+ stage +:+ " message=" +:+ Quote message)) in
  locked (call (SetStatus (Worker.ref w) "failed")).

Definition maxWait : duration := (10 * Minute)%Z.
Definition pollInterval : duration := (15 * Second)%Z.

(** The wait for the session to run, one iteration per unit of fuel: did the worker give up;
    [None] when the fuel is spent. *)
Fixpoint wait_ready (fuel : nat) (w : Worker.t) (sessionID : string) (deadline : time) : orch (option bool) :=
  match fuel with
  | O => Return None
  | S fuel' =>
      let* now := call Now in
      if negb (Before now deadline) then Return (Some false)
      else
        let* r := call (Fetch (status_request sessionID)) in
        match r with
        | Err _ => do* call (Sleep pollInterval) in wait_ready fuel' w sessionID deadline
        | Ok a =>
            match Answer.content a with
            | Err _ => do* call (Sleep pollInterval) in wait_ready fuel' w sessionID deadline
            | Ok b =>
                if bool_decide (member_Status b = "running") then
                  do* call (WriteLog (Worker.OutputFile w)
                              ("STATUS: SSH_READY host=" +:+ member_SSHHost b +:+ " port=" +:+ Itoa (member_SSHPort b))) in
                  do* locked (do* call (SetStatus (Worker.ref w) "ssh_ready") in
                              let* now := call Now in call (SetProgress (Worker.ref w) now)) in
                  Return (Some false)
                else if bool_decide (member_Status b = "failed") then
                  do* fail_worker w "provision" (member_Error b) in Return (Some true)
                else do* call (Sleep pollInterval) in wait_ready fuel' w sessionID deadline
            end
        end
  end.

(** From the session on: wait, and close it.  The worker reads its own session and its own
    cost back without the mutex. *)
Definition use_session (fuel : nat) (w : Worker.t) (sessionID : string) (price : f64) : orch (option unit) :=
  let log := Worker.OutputFile w in
  do* locked (do* call (SetSession (Worker.ref w) sessionID) in call (SetStatus (Worker.ref w) "waiting_ssh")) in
  do* call (WriteLog log ("STATUS: PROVISIONING session_id=" +:+ sessionID)) in
  let* now := call Now in
  let* gave_up := wait_ready fuel w sessionID (now + maxWait)%Z in
  match gave_up with
  | None => Return None
  | Some true => Return (Some tt)
  | Some false =>
      do* call Lock in
      let* status := call (GetStatus (Worker.ref w)) in
      if negb (bool_decide (status = "ssh_ready")) then
        do* call (SetStatus (Worker.ref w) "timeout") in
        do* call Unlock in
        do* call (WriteLog log ("ERROR: stage=ssh_wait message=" +:+ Quote "timeout waiting for SSH")) in
        let* own := call (GetSession (Worker.ref w)) in
        do* cleanupSession own in Return (Some tt)
      else
        do* call Unlock in
        do* call (WriteLog log "STATUS: BENCHMARK_SIMULATED (SSH execution not implemented in CLI)") in
        do* call (WriteLog log "NOTE: Use Claude agent for full benchmark execution with SSH") in
        do* locked (do* call (SetStatus (Worker.ref w) "completed") in
                    call (SetCost (Worker.ref w) f0 (fmul price (f64_lit 5 100)))) in
        let* cost := call (GetCost (Worker.ref w)) in
        do* call (WriteLog log ("STATUS: COMPLETED cost=" +:+ fmt_fixed 2 cost)) in
        do* cleanupSession sessionID in
        do* call (WriteLog log ("STATUS: CLEANUP session_id=" +:+ sessionID)) in
        Return (Some tt)
  end.

Definition created (a : Answer.t) : bool := (Answer.StatusCode a =? 201)%Z || (Answer.StatusCode a =? 200)%Z.

(** From the offer on. *)
Definition provision (fuel : nat) (w : Worker.t) (selectedOffer : GPUOffer.t) : orch (option unit) :=
  do* locked (call (SetStatus (Worker.ref w) "provisioning")) in
  let* r := call (Fetch (provision_request orchRunID (Worker.ID w) (GPUOffer.ID selectedOffer))) in
  match r with
  | Err e => do* fail_worker w "provision" (Error e) in Return (Some tt)
  | Ok a =>
      if negb (created a) then do* fail_worker w "provision" (Answer.text a) in Return (Some tt)
      else match Answer.content a with
           | Err e => do* fail_worker w "provision" (Error e) in Return (Some tt)
           | Ok b => use_session fuel w (member_ID b) (GPUOffer.PricePerHour selectedOffer)
           end
  end.

Definition find_and_use (fuel : nat) (w : Worker.t) : orch (option unit) :=
  do* call (WriteLog (Worker.OutputFile w)
              ("STATUS: STARTING gpu=" +:+ TestSpec.GPUType (Worker.Test w) +:+ " model=" +:+
               TestSpec.Model (Worker.Test w) +:+ " worker=" +:+ Worker.ID w)) in
  do* locked (call (SetStatus (Worker.ref w) "querying")) in
  let* r := call (Fetch (inventory_request (Worker.Test w) [("limit", "5")])) in
  match r with
  | Err e => do* fail_worker w "inventory" (Error e) in Return (Some tt)
  | Ok a =>
      match Answer.content a with
      | Err _ => do* fail_worker w "inventory" "no offers found" in Return (Some tt)
      | Ok b =>
          match offers_member b with
          | [] => do* fail_worker w "inventory" "no offers found" in Return (Some tt)
          | o :: rest =>
              do* call (WriteLog (Worker.OutputFile w)
                          ("STATUS: INVENTORY_QUERY offers_found=" +:+ Itoa (Z.of_nat (S (length rest))) +:+
                           " selected=" +:+ GPUOffer.ID o +:+ " price=" +:+ fmt_fixed 2 (GPUOffer.PricePerHour o))) in
              provision fuel w o
          end
      end
  end.

Definition runWorker (fuel : nat) (w : Worker.t) : orch (option unit) :=
  let* bad := call (CreateLog (Worker.OutputFile w)) in
  match bad with
  | Some _ => do* locked (call (SetStatus (Worker.ref w) "failed")) in Return (Some tt)
  | None =>
      let* r := find_and_use fuel w in
      do* call (CloseLog (Worker.OutputFile w)) in Return r
  end.
End Worker.

(** ** The main loop *)

(** What the loop keeps in its variables. *)
Module Loop.
Record t := mk {
  active : gmap string Worker.t;
  queue : list TestSpec.t;
  completed : list TestSpec.t;
  failed : list TestSpec.t;
  spent : f64
}.
Definition start (tests : list TestSpec.t) : t := mk ∅ tests [] [] f0.
Definition set_active (v : gmap string Worker.t) (l : t) : t := mk v (queue l) (completed l) (failed l) (spent l).
Definition add_completed (x : TestSpec.t) (l : t) : t := mk (active l) (queue l) (completed l ++ [x]) (failed l) (spent l).
Definition add_failed (x : TestSpec.t) (l : t) : t := mk (active l) (queue l) (completed l) (failed l ++ [x]) (spent l).
Definition add_spent (v : f64) (l : t) : t := mk (active l) (queue l) (completed l) (failed l) (fadd (spent l) v).
Definition drop (id : string) (l : t) : t := set_active (base.delete id (active l)) l.
End Loop.

(** A loop over the workers that changes the variables. *)
Fixpoint each (l : list (string * Worker.t)) (body : string -> Worker.t -> Loop.t -> orch Loop.t) (s : Loop.t)
    : orch Loop.t :=
  match l with
  | [] => Return s
  | (id, w) :: l' => let* s := body id w s in each l' body s
  end.

(** [STATUS:\s+(\w+)] and [tps=([\d.]+)]. *)
Definition word_char (c : ascii) : bool := is_digit c || is_upper c || is_lower c || Ascii.eqb c "_".
Definition status_match (s : string) : option string :=
  s ← lit "STATUS:" s; '(_, s) ← some_of re_space s; '(word, _) ← some_of word_char s; Some word.
Definition tps_match (s : string) : option string :=
  s ← lit "tps=" s; '(n, _) ← some_of (fun c => is_digit c || Ascii.eqb c ".") s; Some n.

Definition is_over (status : string) : bool :=
  bool_decide (status = "completed") || bool_decide (status = "failed") || bool_decide (status = "timeout").

Definition read_log (w : Worker.t) : orch unit :=
  let* r := call (ReadLog (Worker.OutputFile w)) in
  match r with
  | Err _ => Return tt
  | Ok lines =>
      let lastLine := List.last lines "" in
      if bool_decide (lastLine = "") then Return tt
      else
        let* now := call Now in
        do* call (SetProgress (Worker.ref w) now) in
        do* (match first_match status_match lastLine with
             | Some m => call (SetStatus (Worker.ref w) (ToLower m))
             | None => Return tt
             end) in
        match first_match tps_match lastLine with
        | Some m => call (SetTPS (Worker.ref w) m)
        | None => Return tt
        end
  end.
Definition check_progress (id : string) (w : Worker.t) (s : Loop.t) : orch Loop.t :=
  let* status := call (GetStatus (Worker.ref w)) in
  if is_over status then
    let* cost := call (GetCost (Worker.ref w)) in
    let s := Loop.add_spent cost s in
    let s := if bool_decide (status = "completed") then Loop.add_completed (Worker.Test w) s
             else Loop.add_failed (Worker.Test w) s in
    Return (Loop.drop id s)
  else do* read_log w in Return s.

Definition maxIdleTime : duration := (5 * Minute)%Z.
Definition maxTotalTime : duration := (25 * Minute)%Z.
Definition time_out (id : string) (w : Worker.t) (s : Loop.t) : orch Loop.t :=
  do* call (SetStatus (Worker.ref w) "timeout") in
  let* sid := call (GetSession (Worker.ref w)) in
  do* (if bool_decide (sid = "") then Return tt else cleanupSession sid) in
  Return (Loop.drop id (Loop.add_failed (Worker.Test w) s)).
Definition check_timeout (now : time) (id : string) (w : Worker.t) (s : Loop.t) : orch Loop.t :=
  let* progress := call (GetProgress (Worker.ref w)) in
  if (maxIdleTime <? Sub now progress)%Z then time_out id w s
  else if (maxTotalTime <? Sub now (Worker.StartTime w))%Z then time_out id w s
  else Return s.

Section Loop.
(** The flags, and the order in which [range] visits the workers. *)
Context `{MapRange} (orchMaxParallel : Z) (orchBudget : f64) (orchOutputDir : string).

Definition checkWorkerProgress (s : Loop.t) : orch Loop.t := each (range_map _ (Loop.active s)) check_progress s.
Definition checkTimeouts (s : Loop.t) : orch Loop.t :=
  let* now := call Now in each (range_map _ (Loop.active s)) (check_timeout now) s.

(** [filepath.Join] of two elements. *)
Definition join_path (dir file : string) : string :=
  if bool_decide (dir = "") then Clean file else Clean (dir +:+ "/" +:+ file).
Definition UnixNano (t : time) : Z := wrap64 (t - Unix 0).
Definition workerID (now : time) : string := "w" +:+ Itoa (Z.rem (UnixNano now) 10000).
Definition launch (test : TestSpec.t) : orch Worker.t :=
  let* now := call Now in
  let id := workerID now in
  let* start := call Now in
  let* progress := call Now in
  let* ref := call (NewWorker id test start progress) in
  Return (Worker.mk ref id test (join_path orchOutputDir ("worker_" +:+ id +:+ ".log")) start).

(** Workers for the tests of the queue while there is room. *)
Fixpoint launch_all (queue : list TestSpec.t) (active : gmap string Worker.t)
    : orch (list TestSpec.t * gmap string Worker.t) :=
  match queue with
  | [] => Return ([], active)
  | test :: queue' =>
      if (Z.of_nat (size active) <? orchMaxParallel)%Z then
        let* w := launch test in
        do* call (Go w) in
        launch_all queue' (<[Worker.ID w := w]> active)
      else Return (queue, active)
  end.

Definition busy (s : Loop.t) : bool :=
  negb (bool_decide (Loop.queue s = [])) || negb (bool_decide (Loop.active s = ∅)).

(** One iteration: the variables after it, and whether the budget ended the loop. *)
Definition iteration (s : Loop.t) : orch (bool * Loop.t) :=
  do* call Lock in
  if fgeb (Loop.spent s) orchBudget then do* call Unlock in Return (true, s)
  else
    let* r := launch_all (Loop.queue s) (Loop.active s) in
    let s := Loop.mk r.2 r.1 (Loop.completed s) (Loop.failed s) (Loop.spent s) in
    do* call Unlock in
    let* t := call NextTick in
    let* s := locked (match t with Watcher => checkWorkerProgress s | Timeout => checkTimeouts s end) in
    Return (false, s).

(** [None] when the fuel is spent; otherwise the variables, and whether the budget was
    exhausted. *)
Fixpoint orchestration (fuel : nat) (s : Loop.t) : orch (option (bool * Loop.t)) :=
  match fuel with
  | O => Return None
  | S fuel' =>
      if busy s then
        let* r := iteration s in
        if r.1 : bool then Return (Some r) else orchestration fuel' r.2
      else Return (Some (false, s))
  end.
Definition runBenchmarkOrchestration (fuel : nat) (tests : list TestSpec.t) : orch (option (bool * Loop.t)) :=
  orchestration fuel (Loop.start tests).

(** ** The command *)

(** The tests for which the server lists an offer. *)
Fixpoint validateInventory (tests : list TestSpec.t) : orch (list TestSpec.t) :=
  match tests with
  | [] => Return []
  | test :: tests' =>
      let* r := call (Fetch (inventory_request test [])) in
      let* valid := validateInventory tests' in
      Return (match r with
              | Ok a =>
                  if Answer.ok a then
                    match Answer.content a with
                    | Ok b => if (count_member b =? 0)%Z then valid else test :: valid
                    | Err _ => valid
                    end
                  else valid
              | Err _ => valid
              end)
  end.
Definition estimateTotalCost (tests : list TestSpec.t) : f64 :=
  fmul (fmul (f64_of_Z (Z.of_nat (length tests))) f1) (f64_lit 33 100).

(** [Err] is the error of the command; the loop is what ended it otherwise, if it ran. *)
Definition runOrchestrator (orchDryRun : bool) (fuel : nat) : orch (option (result (option (bool * Loop.t)))) :=
  let* bad := call (MkdirAll orchOutputDir) in
  match bad with
  | Some e => Return (Some (Err (EWrap "failed to create output directory" e)))
  | None =>
      let* validTests := validateInventory getDefaultTestMatrix in
      match validTests with
      | [] => Return (Some (Ok None))
      | _ =>
          if orchDryRun then Return (Some (Ok None))
          else
            let* r := runBenchmarkOrchestration fuel validTests in
            Return match r with Some r => Some (Ok (Some r)) | None => None end
      end
  end.
End Loop.
