(* ===== verification/OrchestratorFacts.v ===== *)
(** What the orchestrator of the command line does on every execution: its workers against
    the server, its loop, and the mutex between them. *)
From S2P Require Import Prelude GoFloat GoLib GoStrings Models Errors Interfaces Api Programs SshOutput FileTransfer Cli Orchestrator.
From Stdlib Require Import Ascii.
#[local] Set Warnings "-clear-no-such-hyp".

(** ** A worker and the server *)

(** No answer to [GET /sessions/:id] has a member [session]: the session is at the top. *)
Lemma get_session_bodies `{Backend W} r w :
  wp (handleGetSession r) (fun resp _ => session_member (HttpResponse.body resp) = None) w.
Proof.
  unfold handleGetSession. apply wp_bind, wp_true. intros [s|e] w'; apply wp_ret; [done|].
  unfold on_error. by repeat case_match; simplify_eq.
Qed.

(** What is watched of a worker: the status it set last, the lines of its log, the session in
    its state, the sessions created for it and those it asked to be closed. *)
Module Progress.
Record t := mk { status : string; lines : list string; own : string; sessions : list string; closed : list string }.
Definition start : t := mk "starting" [] "" [] [].
End Progress.

Definition see_worker (x : event orchE) (s : Progress.t) : Progress.t :=
  match x with
  | Ev e b =>
      match e in orchE B return B -> Progress.t with
      | SetStatus _ v => fun _ =>
          Progress.mk v (Progress.lines s) (Progress.own s) (Progress.sessions s) (Progress.closed s)
      | SetSession _ id => fun _ =>
          Progress.mk (Progress.status s) (Progress.lines s) id (Progress.sessions s) (Progress.closed s)
      | WriteLog _ l => fun _ =>
          Progress.mk (Progress.status s) (l :: Progress.lines s) (Progress.own s) (Progress.sessions s) (Progress.closed s)
      | Fetch r => fun a =>
          match Request.route r, a with
          | POST_sessions, Ok a =>
              match created a, Answer.content a with
              | true, Ok b =>
                  Progress.mk (Progress.status s) (Progress.lines s) (Progress.own s) (member_ID b :: Progress.sessions s) (Progress.closed s)
              | _, _ => s
              end
          | POST_sessions_id_done, _ =>
              Progress.mk (Progress.status s) (Progress.lines s) (Progress.own s) (Progress.sessions s) (Request.id r :: Progress.closed s)
          | _, _ => s
          end
      | _ => fun _ => s
      end b
  end.
(** What the loop writes into the status: the last one in the log, or [timeout]. *)
Definition written (lines : list string) (status : string) : Prop :=
  status = "timeout" \/
  exists line m, line ∈ lines /\ first_match status_match line = Some m /\ status = ToLower m.
(** The answers are those of the server; a status is the worker's own or the loop's; and the
    session is the one the worker set, since no one else writes that field
    ([worker_states_guarded]). *)
Definition by_server (x : event orchE) (s : Progress.t) : Prop :=
  match x with
  | Ev e b =>
      match e in orchE B return B -> Prop with
      | Fetch r => fun a =>
          match Request.route r, a with
          | GET_sessions_id, Ok a => forall b, Answer.content a = Ok b -> session_member b = None
          | _, _ => True
          end
      | GetStatus _ => fun v => v = Progress.status s \/ written (Progress.lines s) v
      | GetSession _ => fun v => v = Progress.own s
      | _ => fun _ => True
      end b
  end.
Definition never_completed (x : event orchE) (_ : Progress.t) : Prop :=
  match x with Ev (SetStatus _ v) _ => v <> "completed" | _ => True end.
Definition against_server : monitor orchE Progress.t := mk_monitor see_worker never_completed by_server.

Ltac srv_red :=
  cbn [next allowed assumed against_server see_worker never_completed by_server
       Progress.status Progress.lines Progress.own Progress.sessions Progress.closed].
Ltac srv := apply watch_bind, watch_trigger; srv_red; intros ? ?; split; [done|].

(** The lines a worker writes before its machine runs. *)
Definition quiet_line (l : string) : Prop :=
  forall m, first_match status_match l = Some m -> ToLower m <> "ssh_ready".
(** Where a worker ends. *)
Definition given_up (s : Progress.t) : Prop :=
  (Progress.status s = "failed" \/ Progress.status s = "timeout") /\
  Forall (fun id => id ∈ Progress.closed s) (Progress.sessions s).


Lemma srv_locked {A} (p : orch A) Q s : watch against_server p Q s -> watch against_server (locked p) Q s.
Proof. intros Hp. unfold locked. srv. apply watch_bind. eapply watch_mono; [exact Hp|]. intros a s' Hs'. by srv. Qed.
(** The status set under the mutex. *)
Ltac srv_set := apply watch_bind, srv_locked, watch_trigger; srv_red; intros ? _; split; [done|].

Lemma fail_worker_ends w stage message s :
  Forall (fun id => id ∈ Progress.closed s) (Progress.sessions s) ->
  watch against_server (fail_worker w stage message) (fun _ => given_up) s.
Proof. intros Hs. unfold fail_worker. srv. apply srv_locked, watch_trigger. intros ? _. split; [done|]. split; [by left|done]. Qed.
Lemma fail_worker_ret {A} (a : A) (Q : A -> Progress.t -> Prop) w stage message s :
  Forall (fun id => id ∈ Progress.closed s) (Progress.sessions s) -> (forall s', given_up s' -> Q a s') ->
  watch against_server (do* fail_worker w stage message in Return a) Q s.
Proof. intros Hs HQ. eapply watch_seq; [by apply fail_worker_ends|]. intros u s' Hs'. by apply HQ. Qed.

(** Polled from the server, a session never runs and never fails. *)
Lemma wait_ready_waits w sessionID deadline fuel s :
  watch against_server (wait_ready fuel w sessionID deadline)
    (fun r s' => s' = s /\ (r = None \/ r = Some false)) s.
Proof.
  induction fuel as [|fuel IH]; cbn [wait_ready]; [split; [done|by left]|].
  srv. destruct (Before b deadline); cbn [negb]; [|split; [done|by right]].
  apply watch_bind, watch_trigger. srv_red. cbn [Request.route status_request]. intros [a|e] Ha; (split; [done|]).
  - destruct (Answer.content a) as [b'|e] eqn:Hb; [|srv; exact IH].
    unfold member_Status. rewrite (Ha b' eq_refl). cbn [fmap option_fmap option_map default from_option].
    rewrite !bool_decide_false by done. srv. exact IH.
  - srv. exact IH.
Qed.

Lemma use_session_ends fuel w sessionID price s :
  Forall quiet_line (Progress.lines s) -> Progress.sessions s = [sessionID] ->
  watch against_server (use_session fuel w sessionID price) (fun r s' => r = None \/ given_up s') s.
Proof.
  intros Hq Hs. unfold use_session. cbv zeta. apply watch_bind, srv_locked. srv. apply watch_trigger. srv_red. intros ? _. split; [done|].
  srv. srv. eapply watch_seq; [apply wait_ready_waits|].
  intros r s' [-> [->| ->]]; [by left|]. srv.
  apply watch_bind, watch_trigger. srv_red. intros v Hv. split; [done|].
  assert (v <> "ssh_ready") as Hne.
  { destruct Hv as [->|[->|(line & m & Hl & Hm & ->)]]; [done..|].
    apply elem_of_cons in Hl as [->|Hl].
    - vm_compute in Hm. injection Hm as <-. done.
    - rewrite Forall_forall in Hq. by apply (Hq line Hl). }
  rewrite bool_decide_false by done. cbn [negb]. srv. srv. srv. apply watch_bind, watch_trigger. srv_red. intros sid ->. split; [done|].
  unfold cleanupSession. apply watch_bind. srv. apply watch_ret. right.
  split; [by right|]. cbn. rewrite Hs. repeat constructor.
Qed.

Lemma provision_ends runID fuel w o s :
  Forall quiet_line (Progress.lines s) -> Progress.sessions s = [] ->
  watch against_server (provision runID fuel w o) (fun r s' => r = None \/ given_up s') s.
Proof.
  intros Hq Hs. unfold provision. srv_set.
  assert (Forall (fun id => id ∈ Progress.closed s) (Progress.sessions s)) as Hc by (rewrite Hs; constructor).
  apply watch_bind, watch_trigger. srv_red. cbn [Request.route provision_request]. intros [a|e] _; (split; [done|]).
  - destruct (created a) eqn:Hca; cbn [negb]; [|apply fail_worker_ret; [exact Hc|by right]].
    destruct (Answer.content a) as [b'|e] eqn:Hb; [|apply fail_worker_ret; [exact Hc|by right]].
    apply use_session_ends; [exact Hq|]. cbn. by rewrite Hs.
  - apply fail_worker_ret; [exact Hc|by right].
Qed.

(** C9.  Whatever its fuel, and whatever the loop does meanwhile: against this server a worker
    never completes.  If it returns it has failed or timed out, and it has asked the server
    to close every session that was created for it. *)
Theorem worker_never_completes {W} `{Backend W} orchRunID fuel w :
  (forall r v, wp (handleGetSession r) (fun resp _ => session_member (HttpResponse.body resp) = None) v) /\
  watch against_server (runWorker orchRunID fuel w) (fun r s => r = None \/ given_up s) Progress.start.
Proof.
  split; [intros r v; apply get_session_bodies|]. unfold runWorker.
  srv. destruct b as [e|].
  { srv_set. apply watch_ret. right. split; [by left|by constructor]. }
  apply (watch_seq _ (fun r s => r = None \/ given_up s)).
  - unfold find_and_use. srv. srv_set.
    apply watch_bind, watch_trigger. srv_red. cbn [Request.route inventory_request]. intros [a|e] _; (split; [done|]).
    2: { apply fail_worker_ret; [by constructor|by right]. }
    destruct (Answer.content a) as [b'|e]; [|apply fail_worker_ret; [by constructor|by right]].
    destruct (offers_member b') as [|o rest]; [apply fail_worker_ret; [by constructor|by right]|].
    srv. apply provision_ends; [|done]. repeat constructor; intros m Hm; vm_compute in Hm; injection Hm as <-; done.
  - intros r s Hr. srv. apply watch_ret. exact Hr.
Qed.

(** ** A worker returns *)

(** The clock does not go back, and a sleep lasts as long as it was asked to. *)
Definition passing : monitor orchE time :=
  mk_monitor
    (fun x t =>
       match x with
       | Ev e b =>
           match e in orchE B return B -> time with
           | Now => fun now => now
           | Sleep d => fun _ => (t + d)%Z
           | _ => fun _ => t
           end b
       end)
    (fun _ _ => True)
    (fun x t =>
       match x with
       | Ev e b => match e in orchE B return B -> Prop with Now => fun now => (t <= now)%Z | _ => fun _ => True end b
       end).
Ltac pass := apply watch_bind, watch_trigger; cbn [passing next allowed assumed]; intros ? ?; split; [done|].

(** Whatever else it does, it returns. *)
Definition returns {A} (p : orch (option A)) (t : time) : Prop := watch passing p (fun r _ => is_Some r) t.
Lemma returns_seq {A B} (p : orch A) (q : A -> orch (option B)) t :
  (forall a t', returns (q a) t') -> returns (pbind p q) t.
Proof.
  intros Hq. eapply (watch_seq _ (fun _ _ => True)); [|intros a t' _; apply Hq].
  by apply (watch_stable passing (fun _ => True)).
Qed.
Ltac go_as x := apply returns_seq; intros x ?.
Ltac go_on := let u := fresh in go_as u.

Lemma wait_ready_returns w sessionID deadline fuel t :
  1 <= fuel -> (deadline - t <= pollInterval * (Z.of_nat fuel - 1))%Z ->
  returns (wait_ready fuel w sessionID deadline) t.
Proof.
  revert t. induction fuel as [|fuel IH]; intros t Hf Ht; [lia|]. unfold returns. cbn [wait_ready]. pass.
  unfold Before. destruct (b <? deadline)%Z eqn:Hb; cbn [negb]; [|by eexists]. apply Z.ltb_lt in Hb.
  assert (forall u, watch passing (do* call (Sleep pollInterval) in wait_ready fuel w sessionID deadline)
                      (fun r _ => is_Some r) u \/ (u < b)%Z) as Hsleep.
  { intros u. destruct (decide (u < b)%Z); [by right|]. left. pass. apply IH.
    - destruct fuel; [|lia]. unfold pollInterval in *. lia.
    - unfold pollInterval in *. lia. }
  pass. assert (watch passing (do* call (Sleep pollInterval) in wait_ready fuel w sessionID deadline)
                  (fun r _ => is_Some r) b) as Hgo by (destruct (Hsleep b); [done|lia]).
  destruct b0 as [a|e]; [|exact Hgo]. destruct (Answer.content a) as [c|e]; [|exact Hgo].
  case_bool_decide; [by repeat go_on; eexists|]. case_bool_decide; [by repeat go_on; eexists|exact Hgo].
Qed.

Lemma worker_returns_fuel orchRunID fuel w t : 41 <= fuel -> returns (runWorker orchRunID fuel w) t.
Proof.
  intros Hfuel. unfold runWorker. go_as bad. destruct bad as [e|]; [go_on; by eexists|].
  apply (watch_seq _ (fun r _ => is_Some r)); [|intros r t1 Hr; by pass].
  unfold find_and_use. do 2 go_on. go_as a. destruct a as [a|e]; [|go_on; by eexists].
  destruct (Answer.content a) as [b|e]; [|go_on; by eexists].
  destruct (offers_member b) as [|o rest]; [go_on; by eexists|]. go_on.
  unfold provision. go_on. go_as r. destruct r as [r|e]; [|go_on; by eexists].
  destruct (created r); cbn [negb]; [|go_on; by eexists].
  destruct (Answer.content r) as [b'|e]; [|go_on; by eexists].
  unfold use_session. do 2 go_on. unfold returns. pass.
  eapply watch_seq; [apply wait_ready_returns; [lia|]; unfold maxWait, pollInterval, Minute, Second; lia|].
  intros gave_up t1 [g ->]. destruct g; [by eexists|].
  do 2 go_on. destruct (negb _); repeat go_on; by eexists.
Qed.

(** Forty-one polls are enough for the ten minutes that a worker waits: it returns, as long as
    the clock does not go back and the sleeps are not cut short. *)
Theorem worker_returns orchRunID w t : returns (runWorker orchRunID 41 w) t.
Proof. apply worker_returns_fuel. lia. Qed.

(** ** The tests of a run *)

(** What is watched of the loop: the ids of its workers, the tests they were started for, and
    the workers in flight, by address: those it has made and neither seen over nor given up
    (it reads the session of a worker only to give it up).  The tests of the others are
    completed or failed by the status it saw last, and their costs add up. *)
Module Launched.
Record t := mk {
  ids : list string;
  tests : list TestSpec.t;
  flight : gmap nat TestSpec.t;
  completed : list TestSpec.t;
  failed : list TestSpec.t;
  spent : f64
}.
Definition start : t := mk [] [] ∅ [] [] f0.
(** The worker at [r] is over: its test is completed or failed. *)
Definition land (r : nat) (ok : bool) (s : t) : t :=
  match flight s !! r with
  | Some test =>
      mk (ids s) (tests s) (base.delete r (flight s))
         (if ok then completed s ++ [test] else completed s) (if ok then failed s else failed s ++ [test]) (spent s)
  | None => s
  end.
(** Every test started is completed, failed or in flight. *)
Definition balanced (s : t) : Prop := completed s ++ failed s ++ (map_to_list (flight s)).*2 ≡ₚ tests s.
End Launched.

Definition see_launch (x : event orchE) (s : Launched.t) : Launched.t :=
  match x with
  | Ev e b =>
      match e in orchE B return B -> Launched.t with
      | NewWorker id test _ _ => fun r =>
          Launched.mk (id :: Launched.ids s) (Launched.tests s) (<[r := test]> (Launched.flight s))
            (Launched.completed s) (Launched.failed s) (Launched.spent s)
      | Go w => fun _ =>
          Launched.mk (Launched.ids s) (Launched.tests s ++ [Worker.Test w]) (Launched.flight s)
            (Launched.completed s) (Launched.failed s) (Launched.spent s)
      | GetStatus r => fun v => if is_over v then Launched.land r (bool_decide (v = "completed")) s else s
      | GetSession r => fun _ => Launched.land r false s
      | GetCost _ => fun c =>
          Launched.mk (Launched.ids s) (Launched.tests s) (Launched.flight s)
            (Launched.completed s) (Launched.failed s) (fadd (Launched.spent s) c)
      | _ => fun _ => s
      end b
  end.

Section Loop.
Context `{MapRangeLaws} (orchMaxParallel : Z) (orchBudget : f64) (orchOutputDir : string) (tests : list TestSpec.t).

(** A worker is made only while fewer than allowed are in flight and the costs so far are
    below the budget; it is started for the next test of the list; and between two
    iterations every test started is completed, failed or in flight. *)
Definition launch_allowed (x : event orchE) (s : Launched.t) : Prop :=
  match x with
  | Ev (NewWorker _ _ _ _) _ =>
      (Z.of_nat (size (Launched.flight s)) < orchMaxParallel)%Z /\ fgeb (Launched.spent s) orchBudget = false
  | Ev (Go w) _ =>
      Launched.tests s ++ [Worker.Test w] `prefix_of` tests /\
      Launched.flight s !! Worker.ref w = Some (Worker.Test w)
  | Ev NextTick _ => Launched.balanced s
  | _ => True
  end.
(** No two workers of a run have the same id: the instants of their launches differ modulo
    ten microseconds.  A new worker has an address of its own. *)
Definition launch_assumed (x : event orchE) (s : Launched.t) : Prop :=
  match x with
  | Ev e b =>
      match e in orchE B return B -> Prop with
      | NewWorker id _ _ _ => fun r => id ∉ Launched.ids s /\ Launched.flight s !! r = None
      | _ => fun _ => True
      end b
  end.
Definition launches : monitor orchE Launched.t := mk_monitor see_launch launch_allowed launch_assumed.

Definition keeps_launched (B : Type) (e : orchE B) : bool :=
  match e with NewWorker _ _ _ _ | Go _ | GetStatus _ | GetSession _ | GetCost _ | NextTick => false | _ => true end.
Lemma launches_same {A} (p : orch A) s : only keeps_launched p -> watch launches p (fun _ s' => s' = s) s.
Proof. intros Hp. apply (only_watch keeps_launched); [|done|done]. by intros B [] b s' ? ? ->. Qed.

(** The variables of the loop are what was watched. *)
Record accounted (s : Loop.t) (m : Launched.t) : Prop := mk_accounted {
  in_order : Launched.tests m ++ Loop.queue s = tests;
  each_once : Launched.balanced m;
  same_completed : Loop.completed s = Launched.completed m;
  same_failed : Loop.failed s = Launched.failed m;
  same_spent : Loop.spent s = Launched.spent m;
  known_ids : forall id w, Loop.active s !! id = Some w -> id ∈ Launched.ids m;
  in_flight : forall id w, Loop.active s !! id = Some w -> Launched.flight m !! Worker.ref w = Some (Worker.Test w);
  own_refs : forall id id' w w', Loop.active s !! id = Some w -> Loop.active s !! id' = Some w' ->
    Worker.ref w = Worker.ref w' -> id = id';
  as_many : size (Loop.active s) = size (Launched.flight m)
}.

(** A worker leaves the running ones for the completed or the failed. *)
Lemma dropped_accounted s m id w (ok : bool) (cost : option f64) s' :
  accounted s m -> Loop.active s !! id = Some w -> Loop.queue s' = Loop.queue s ->
  Loop.active s' = base.delete id (Loop.active s) ->
  Loop.completed s' = (if ok then Loop.completed s ++ [Worker.Test w] else Loop.completed s) ->
  Loop.failed s' = (if ok then Loop.failed s else Loop.failed s ++ [Worker.Test w]) ->
  Loop.spent s' = match cost with Some c => fadd (Loop.spent s) c | None => Loop.spent s end ->
  let m' := Launched.land (Worker.ref w) ok m in
  accounted s' (Launched.mk (Launched.ids m') (Launched.tests m') (Launched.flight m') (Launched.completed m')
                  (Launched.failed m') (match cost with Some c => fadd (Launched.spent m') c | None => Launched.spent m' end)).
Proof.
  intros [Ho He Hc Hf Hs Hk Hfl Hr Hn] Hw Hq Ha Hc' Hf' Hs'. unfold Launched.land. rewrite (Hfl _ _ Hw). cbn.
  split; cbn.
  - by rewrite Hq.
  - unfold Launched.balanced in *. cbn. rewrite <-He.
    rewrite <-(map_to_list_delete (Launched.flight m) _ _ (Hfl _ _ Hw)). cbn.
    destruct ok; [rewrite <-!(assoc_L (++)); cbn; by rewrite <-!Permutation_middle|].
    rewrite <-!(assoc_L (++)). cbn. by rewrite <-!Permutation_middle.
  - rewrite Hc', Hc. by destruct ok.
  - rewrite Hf', Hf. by destruct ok.
  - rewrite Hs', Hs. by destruct cost.
  - intros id' w'. rewrite Ha. intros [_ Hw']%lookup_delete_Some. by eapply Hk.
  - intros id' w'. rewrite Ha. intros [Hne Hw']%lookup_delete_Some. rewrite lookup_delete_ne; [by eapply Hfl|].
    intros Heq. by apply Hne, (Hr id id' w w').
  - intros id1 id2 w1 w2. rewrite Ha. intros [_ ?]%lookup_delete_Some [_ ?]%lookup_delete_Some. by apply Hr.
  - rewrite Ha, !map_size_delete_Some by eauto. lia.
Qed.

(** What the body of a loop over the workers does with the worker [w]: it drops none but that
    one. *)
Definition body_ok (body : Loop.t -> orch Loop.t) (id : string) (w : Worker.t) : Prop :=
  forall s m, accounted s m -> Loop.active s !! id = Some w ->
    watch launches (body s)
      (fun s' m' => accounted s' m' /\ forall id', id' <> id -> Loop.active s' !! id' = Loop.active s !! id') m.

Lemma each_accounted body l s m :
  (forall id w, body_ok (body id w) id w) ->
  NoDup l.*1 -> (forall id w, (id, w) ∈ l -> Loop.active s !! id = Some w) -> accounted s m ->
  watch launches (each l body s) accounted m.
Proof.
  intros Hbody. revert s m. induction l as [|[id w] l IH]; intros s m Hnd Hl Hs; [done|]. cbn [each].
  apply NoDup_cons in Hnd as [Hid Hnd]. eapply watch_seq; [apply Hbody; [done|apply Hl; by left]|].
  intros s' m' (Hs' & Hsame). apply IH; [done| |done]. intros id' w' Hin. rewrite Hsame; [by apply Hl; right|].
  intros ->. apply Hid. apply list_elem_of_fmap. by exists (id, w').
Qed.
Lemma range_accounted body s m :
  (forall id w, body_ok (body id w) id w) ->
  accounted s m -> watch launches (each (range_map _ (Loop.active s)) body s) accounted m.
Proof.
  intros Hbody Hs. pose proof (range_map_perm Worker.t (Loop.active s)) as Hperm. apply each_accounted; [done| | |done].
  - rewrite Hperm. apply NoDup_fst_map_to_list.
  - intros id w. rewrite Hperm. by rewrite elem_of_map_to_list.
Qed.

Lemma read_log_keeps w : only keeps_launched (read_log w).
Proof.
  unfold read_log. apply only_bind; [by apply only_trigger|]. intros [lines|e]; [|done]. cbv zeta.
  case_bool_decide; [done|]. do 2 (apply only_bind; [by apply only_trigger|]; intros ?).
  apply only_bind; [by destruct (first_match status_match _); [apply only_trigger|]|]. intros u.
  by destruct (first_match tps_match _); [apply only_trigger|].
Qed.

Lemma check_progress_accounted id w : body_ok (check_progress id w) id w.
Proof.
  intros s m Hs Hw. unfold check_progress. apply watch_bind, watch_trigger. intros status _. split; [done|].
  cbn [next launches see_launch]. destruct (is_over status).
  - apply watch_bind, watch_trigger. intros cost _. split; [done|]. cbn [next launches see_launch].
    apply watch_ret. destruct (bool_decide (status = "completed")) eqn:Hok;
      (split; [|intros id' Hne; by apply lookup_delete_ne]).
    + by apply (dropped_accounted s m id w true (Some cost)).
    + by apply (dropped_accounted s m id w false (Some cost)).
  - eapply watch_seq; [apply launches_same, read_log_keeps|]. intros u m' ->. by apply watch_ret.
Qed.

Lemma time_out_accounted id w : body_ok (time_out id w) id w.
Proof.
  intros s m Hs Hw. unfold time_out. apply watch_bind, watch_trigger. intros u _. split; [done|].
  cbn [next launches see_launch]. apply watch_bind, watch_trigger. intros sid _. split; [done|].
  cbn [next launches see_launch]. eapply watch_seq.
  { apply launches_same. case_bool_decide; [done|]. unfold cleanupSession. by apply only_bind; [apply only_trigger|]. }
  intros u' m' ->. apply watch_ret. split; [|intros id' Hne; by apply lookup_delete_ne].
  pose proof (dropped_accounted s m id w false None (Loop.drop id (Loop.add_failed (Worker.Test w) s)) Hs Hw
                eq_refl eq_refl eq_refl eq_refl eq_refl) as Hd.
  by destruct (Launched.land (Worker.ref w) false m).
Qed.
Lemma check_timeout_accounted now id w : body_ok (check_timeout now id w) id w.
Proof.
  intros s m Hs Hw. unfold check_timeout. apply watch_bind, watch_trigger. intros progress _. split; [done|].
  cbn [next launches see_launch]. repeat case_match; [by apply time_out_accounted..|by apply watch_ret].
Qed.

Lemma launch_all_accounted queue active completed failed spent m :
  fgeb spent orchBudget = false ->
  accounted (Loop.mk active queue completed failed spent) m ->
  watch launches (launch_all orchMaxParallel orchOutputDir queue active)
    (fun r m' => accounted (Loop.mk r.2 r.1 completed failed spent) m') m.
Proof.
  intros Hb. revert active m. induction queue as [|test queue IH]; intros active m Hs; [done|]. cbn [launch_all].
  destruct (Z.of_nat (size active) <? orchMaxParallel)%Z eqn:Hroom; [|by apply watch_ret]. apply Z.ltb_lt in Hroom.
  destruct Hs as [Ho He Hc Hf Hs Hk Hfl Hr Hn]. cbn in Ho, Hc, Hf, Hs, Hk, Hfl, Hr, Hn.
  unfold launch. apply watch_bind. do 3 (apply watch_bind, watch_trigger; intros ? _; split; [done|]; cbn [next launches see_launch]).
  apply watch_bind, watch_trigger. intros ref [Hnew Href]. split; [cbn; by rewrite <-Hs, <-Hn|]. apply watch_ret.
  assert (active !! workerID b = None) as Hfree.
  { destruct (active !! workerID b) as [w|] eqn:Hw; [|done]. by apply Hk in Hw. }
  apply watch_bind, watch_trigger. intros u _. cbn [next launches see_launch allowed launch_allowed]. split.
  { cbn. rewrite lookup_insert_eq. split; [|done]. exists queue. by rewrite <-(assoc_L (++)). }
  apply IH. split; cbn; [| |done|done|done| | | |].
  - by rewrite <-(assoc_L (++)).
  - unfold Launched.balanced in *. cbn. rewrite (map_to_list_insert _ _ _ Href). cbn. rewrite <-He.
    rewrite !(assoc_L (++)). by rewrite <-Permutation_middle, Permutation_cons_append.
  - intros id w [[<- _]|[_ Hw]]%lookup_insert_Some; [by left|]. right. by eapply Hk.
  - intros id w [[<- <-]|[_ Hw]]%lookup_insert_Some; cbn; [by rewrite lookup_insert_eq|].
    rewrite lookup_insert_ne; [by eapply Hfl|]. intros ->. apply Hfl in Hw. congruence.
  - assert (forall id w, active !! id = Some w -> Worker.ref w <> ref) as Hother.
    { intros id w Hw <-. apply Hfl in Hw. congruence. }
    intros id1 id2 w1 w2 [[<- <-]|[_ Hw1]]%lookup_insert_Some [[<- <-]|[_ Hw2]]%lookup_insert_Some; cbn; intros Heq; [done| | |].
    + by destruct (Hother _ _ Hw2).
    + by destruct (Hother _ _ Hw1).
    + by eapply Hr.
  - rewrite !map_size_insert_None by done. lia.
Qed.

(** Where the loop ends, or is when the fuel is spent. *)
Definition accounted_for (r : option (bool * Loop.t)) (m : Launched.t) : Prop :=
  Launched.balanced m /\ Launched.tests m `prefix_of` tests /\
  match r with
  | None => True
  | Some (stopped, s) =>
      Loop.completed s = Launched.completed m /\ Loop.failed s = Launched.failed m /\
      Loop.spent s = Launched.spent m /\
      if stopped then fgeb (Launched.spent m) orchBudget = true
      else Launched.tests m = tests /\ Launched.flight m = ∅
  end.

Lemma accounted_at s m r :
  accounted s m ->
  match r with
  | None => True
  | Some (stopped, s') => s' = s /\
      if stopped : bool then fgeb (Loop.spent s) orchBudget = true else Loop.queue s = [] /\ Loop.active s = ∅
  end -> accounted_for r m.
Proof.
  intros [Ho He Hc Hf Hs _ _ _ Hn] Hr. split; [exact He|]. split; [by exists (Loop.queue s)|].
  destruct r as [[stopped s']|]; [|done]. destruct Hr as [-> Hr]. split_and!; [done..|]. destruct stopped; [by rewrite <-Hs|].
  destruct Hr as [Hq Ha]. rewrite Hq, app_nil_r in Ho. split; [done|].
  rewrite Ha, map_size_empty in Hn. by apply map_size_empty_iff.
Qed.

Lemma orchestration_accounted fuel s m :
  accounted s m -> watch launches (orchestration orchMaxParallel orchBudget orchOutputDir fuel s) accounted_for m.
Proof.
  revert s m. induction fuel as [|fuel IH]; intros s m Hs; cbn [orchestration]; [by apply (accounted_at s)|].
  destruct (busy s) eqn:Hb.
  2: { apply watch_ret, (accounted_at s); [exact Hs|]. unfold busy in Hb. apply orb_false_iff in Hb as [Hq Ha].
       apply negb_false_iff, bool_decide_eq_true in Hq, Ha. by split. }
  apply (watch_seq _ (fun r m' => if r.1 : bool then accounted_for (Some r) m' else accounted r.2 m')).
  - unfold iteration. apply watch_bind, watch_trigger. intros u _. split; [done|]. cbn [next launches see_launch].
    destruct (fgeb (Loop.spent s) orchBudget) eqn:Hspent.
    + apply watch_bind, watch_trigger. intros u' _. split; [done|]. apply watch_ret. cbn [fst]. by apply (accounted_at s).
    + eapply watch_seq;
        [apply (launch_all_accounted (Loop.queue s) _ (Loop.completed s) (Loop.failed s) (Loop.spent s)); [done|by destruct s]|]. intros [q a] m1 Hs1. cbn [fst snd] in Hs1.
      apply watch_bind, watch_trigger. intros u' _. split; [done|]. cbn [next launches see_launch].
      apply watch_bind, watch_trigger. intros t _. split; [apply Hs1|]. cbn [next launches see_launch].
      apply (watch_seq _ accounted); [|intros s' m' Hs'; by apply watch_ret].
      unfold locked. apply watch_bind, watch_trigger. intros v _. split; [done|]. cbn [next launches see_launch].
      apply (watch_seq _ accounted).
      * destruct t; [|apply watch_bind, watch_trigger; intros now _; split; [done|]];
          (apply range_accounted; [intros id w|exact Hs1]).
        -- apply check_progress_accounted.
        -- apply check_timeout_accounted.
      * intros s' m' Hs'. by apply watch_bind, watch_trigger.
  - intros [[|] s'] m' Hr; [exact Hr|]. by apply IH.
Qed.

(** C10.  As long as no two workers get the same id, and at every point of the run, however
    long it gets: a worker is made only while fewer than allowed are in flight and the costs
    added up are below the budget; it is started for the next test of the list, so the tests
    are started in order and each at most once; and between two iterations every test started
    is completed, failed or in flight.  When the loop ends, its lists are the tests of the
    workers it saw completed and of those it saw failed or timed out, in that order, its
    total is the sum of their costs; and then all tests are over or the budget is reached. *)
Theorem tests_accounted_for fuel :
  watch launches (runBenchmarkOrchestration orchMaxParallel orchBudget orchOutputDir fuel tests)
    accounted_for Launched.start.
Proof.
  apply orchestration_accounted. split; cbn; try done.
  unfold Launched.balanced. cbn. by rewrite map_to_list_empty.
Qed.
End Loop.

(** ** The mutex *)
Definition takes_mu (x : event orchE) : bool := match x with Ev Lock _ => true | _ => false end.
Definition gives_mu (x : event orchE) : bool := match x with Ev Unlock _ => true | _ => false end.
(** The fields of a worker's state that both sides use, and the accesses of an event. *)
Inductive field := FStatus | FProgress | FSession | FCost | FTPS.
#[export] Instance field_eq_dec : EqDecision field.
Proof. solve_decision. Defined.
Definition reads (x : event orchE) : list (nat * field) :=
  match x with
  | Ev (GetStatus w) _ => [(w, FStatus)]
  | Ev (GetProgress w) _ => [(w, FProgress)]
  | Ev (GetSession w) _ => [(w, FSession)]
  | Ev (GetCost w) _ => [(w, FCost)]
  | _ => []
  end.
Definition writes (x : event orchE) : list (nat * field) :=
  match x with
  | Ev (SetStatus w _) _ => [(w, FStatus)]
  | Ev (SetProgress w _) _ => [(w, FProgress)]
  | Ev (SetSession w _) _ => [(w, FSession)]
  | Ev (SetCost w _ _) _ => [(w, FTPS); (w, FCost)]
  | Ev (SetTPS w _) _ => [(w, FTPS)]
  | _ => []
  end.
(** Two accesses to one field, one of them a write. *)
Definition conflict (x y : event orchE) : Prop :=
  exists c, (c ∈ writes x /\ c ∈ reads y ++ writes y) \/ (c ∈ reads x /\ c ∈ writes y).

Definition shared (B : Type) (e : orchE B) : bool :=
  match e with
  | GetStatus _ | SetStatus _ _ | GetProgress _ | SetProgress _ _ | GetSession _ | SetSession _ _
  | GetCost _ | SetCost _ _ _ | SetTPS _ _ => true
  | _ => false
  end.
(** The reads of the fields that the worker alone writes. *)
Definition own_read (B : Type) (e : orchE B) : bool :=
  match e with GetSession _ | GetCost _ => true | _ => false end.
(** What needs the mutex: every access, those reads included when [strict]. *)
Definition needs_mu (strict : bool) (x : event orchE) : bool :=
  match x with Ev e _ => shared _ e && (strict || negb (own_read _ e)) end.

Ltac only_step := first [done | by apply only_trigger | apply only_bind; [|intros ?] | progress case_match | progress cbv zeta].

Section Mutex.
Context (strict : bool).
Abbreviation mutex := (lock_monitor takes_mu gives_mu (needs_mu strict)).

Definition free {A} (p : orch A) : Prop := watch mutex p (fun _ held => held = false) false.
Definition inside {A} (p : orch A) : Prop := watch mutex p (fun _ held => held = true) true.
Definition not_mutex (B : Type) (e : orchE B) : bool := match e with Lock | Unlock => false | _ => true end.
Definition private (B : Type) (e : orchE B) : bool :=
  not_mutex B e && negb (shared B e && (strict || negb (own_read B e))).

Lemma inside_only {A} (p : orch A) : only not_mutex p -> inside p.
Proof. intros Hp. apply (only_watch not_mutex); [|done|done]. by intros B [] b s' ? ? ->. Qed.
Lemma free_only {A} (p : orch A) : only private p -> free p.
Proof. intros Hp. apply (only_watch private); [|done|done]. unfold private. by destruct strict; intros B [] b s' ? ? ->. Qed.
Lemma free_bind {A B} (p : orch A) (q : A -> orch B) : free p -> (forall a, free (q a)) -> free (pbind p q).
Proof. intros Hp Hq. eapply watch_seq; [exact Hp|]. intros a s' ->. apply Hq. Qed.
Lemma free_call {A B} (e : orchE A) (q : A -> orch B) : private _ e = true -> (forall a, free (q a)) -> free (pbind (call e) q).
Proof. intros He Hq. apply free_bind; [by apply free_only, only_trigger|done]. Qed.
Lemma free_locked {A} (p : orch A) : only not_mutex p -> free (locked p).
Proof.
  intros Hp. unfold locked, free. apply watch_bind, watch_trigger. intros u _. split; [done|].
  eapply watch_seq; [apply inside_only, Hp|]. intros a s' ->. apply watch_bind, watch_trigger. intros v _. by split.
Qed.
(** A critical section that ends in several places. *)
Lemma free_section {A B} (p : orch A) (q : A -> orch B) :
  only not_mutex p -> (forall a, watch mutex (q a) (fun _ held => held = false) true) ->
  free (do* call Lock in let* a := p in q a).
Proof.
  intros Hp Hq. apply watch_bind, watch_trigger. intros u _. split; [done|].
  eapply watch_seq; [apply inside_only, Hp|]. intros a s' ->. apply Hq.
Qed.
Lemma unlock_then {A} (q : orch A) : free q -> watch mutex (do* call Unlock in q) (fun _ held => held = false) true.
Proof. intros Hq. apply watch_bind, watch_trigger. intros u _. by split. Qed.

Ltac free_step :=
  first [done | apply free_call; [done|intros ?] | apply free_bind; [|intros ?]
        | apply free_locked; by repeat only_step | by apply free_only; repeat only_step | progress case_match].

Lemma free_fail w stage message : free (fail_worker w stage message).
Proof. unfold fail_worker. by repeat free_step. Qed.
Lemma free_cleanup sid : free (cleanupSession sid).
Proof. unfold cleanupSession. by repeat free_step. Qed.
Lemma free_wait fuel w sid deadline : free (wait_ready fuel w sid deadline).
Proof.
  induction fuel as [|fuel IH]; [done|]. cbn [wait_ready]. apply free_call; [done|intros now].
  destruct (negb _); [done|]. apply free_call; [done|intros [a|e]]; [|by apply free_call].
  destruct (Answer.content a); [|by apply free_call]. case_bool_decide; [by repeat free_step|].
  case_bool_decide; [apply free_bind; [apply free_fail|done]|by apply free_call].
Qed.
Lemma free_use_session fuel w sid price : strict = false -> free (use_session fuel w sid price).
Proof.
  intros Hown. unfold use_session. cbv zeta. apply free_bind; [apply free_locked; by repeat only_step|intros u1].
  apply free_call; [done|intros u2]. apply free_call; [done|intros now].
  apply free_bind; [apply free_wait|intros [[]|]]; [done| |done].
  apply (free_section (call (GetStatus (Worker.ref w)))
           (fun status => if negb (bool_decide (status = "ssh_ready")) then _ else _)); [by apply only_trigger|].
  intros status. case_bool_decide; cbn [negb].
  - apply unlock_then. do 2 (apply free_call; [done|intros ?]). apply free_bind; [apply free_locked; by repeat only_step|intros u3].
    apply free_call; [by unfold private; rewrite Hown|intros cost]. apply free_call; [done|intros u4].
    apply free_bind; [apply free_cleanup|intros u5]. by apply free_call.
  - apply watch_bind, watch_trigger. intros u3 _. split; [done|]. apply unlock_then.
    apply free_call; [done|intros u4]. apply free_call; [by unfold private; rewrite Hown|intros own].
    by apply free_bind; [apply free_cleanup|].
Qed.
Lemma free_worker orchRunID fuel w : strict = false -> free (runWorker orchRunID fuel w).
Proof.
  intros Hown. unfold runWorker. apply free_call; [done|intros [e|]]; [by repeat free_step|]. apply free_bind; [|intros r; by apply free_call].
  unfold find_and_use. apply free_call; [done|intros u]. apply free_bind; [apply free_locked; by repeat only_step|intros v].
  apply free_call; [done|intros [a|e]]; [|by apply free_bind; [apply free_fail|]].
  destruct (Answer.content a) as [b|e]; [|by apply free_bind; [apply free_fail|]].
  destruct (offers_member b) as [|o rest]; [by apply free_bind; [apply free_fail|]|]. apply free_call; [done|intros u'].
  unfold provision. apply free_bind; [apply free_locked; by repeat only_step|intros v'].
  apply free_call; [done|intros [r|e]]; [|by apply free_bind; [apply free_fail|]].
  destruct (negb _); [by apply free_bind; [apply free_fail|]|].
  destruct (Answer.content r); [by apply free_use_session|by apply free_bind; [apply free_fail|]].
Qed.

Section Main.
Context `{MapRange} (orchMaxParallel : Z) (orchBudget : f64) (orchOutputDir : string).

Lemma only_each body l s : (forall id w s, only not_mutex (body id w s)) -> only not_mutex (each l body s).
Proof.
  intros Hb. revert s. induction l as [|[id w] l IH]; intros s; [done|]. cbn [each].
  apply only_bind; [apply Hb|intros s'; apply IH].
Qed.
Lemma only_checks t s :
  only not_mutex (match t with Watcher => checkWorkerProgress s | Timeout => checkTimeouts s end).
Proof.
  destruct t; [|apply only_bind; [by apply only_trigger|intros now]]; apply only_each; intros id w s'.
  - unfold check_progress, read_log. by repeat only_step.
  - unfold check_timeout, time_out, cleanupSession. by repeat only_step.
Qed.
Lemma only_launch_all queue active : only not_mutex (launch_all orchMaxParallel orchOutputDir queue active).
Proof.
  revert active. induction queue as [|test queue IH]; intros active; [done|]. cbn [launch_all].
  destruct (_ <? _)%Z; [|done]. apply only_bind; [unfold launch; by repeat only_step|intros w].
  apply only_bind; [by apply only_trigger|intros u; apply IH].
Qed.
Lemma free_main fuel tests : free (runBenchmarkOrchestration orchMaxParallel orchBudget orchOutputDir fuel tests).
Proof.
  unfold runBenchmarkOrchestration. generalize (Loop.start tests) as s.
  induction fuel as [|fuel IH]; intros s; [done|]. cbn [orchestration]. destruct (busy s); [|done].
  apply free_bind; [|intros [[] s']; [done|apply IH]]. unfold iteration. apply watch_bind, watch_trigger. intros u _. split; [done|].
  cbn [next lock_monitor takes_mu]. destruct (fgeb _ _); [by apply unlock_then|].
  eapply watch_seq; [apply inside_only, only_launch_all|]. intros r s' ->. cbv zeta. apply unlock_then.
  apply free_call; [done|intros t]. by apply free_bind; [apply free_locked, only_checks|].
Qed.

End Main.
End Mutex.

(** What the loop and a worker keep to: the loop writes neither sessions nor costs, and a
    worker accesses the state at its own address. *)
Definition by_loop (B : Type) (e : orchE B) : bool :=
  match e with SetSession _ _ | SetCost _ _ _ => false | _ => true end.
Definition by_worker (r : nat) (B : Type) (e : orchE B) : bool :=
  match e with
  | GetStatus w | SetStatus w _ | GetProgress w | SetProgress w _ | GetSession w | SetSession w _
  | GetCost w | SetCost w _ _ | SetTPS w _ => bool_decide (w = r)
  | _ => true
  end.

Ltac only_own :=
  first [done | apply only_trigger; by (cbn; rewrite ?bool_decide_true by done) | apply only_bind; [|intros ?]
        | progress case_match | progress cbv zeta].
Lemma worker_own orchRunID fuel w : only (by_worker (Worker.ref w)) (runWorker orchRunID fuel w).
Proof.
  assert (forall sid deadline, only (by_worker (Worker.ref w)) (wait_ready fuel w sid deadline)) as Hwait.
  { intros sid deadline. induction fuel as [|n IH]; [done|]. cbn [wait_ready]. unfold fail_worker, locked.
    repeat first [exact IH | only_own]. }
  unfold runWorker, find_and_use, provision, use_session, fail_worker, locked, cleanupSession.
  repeat first [apply Hwait | only_own].
Qed.

Section Races.
Context `{MapRange} (orchMaxParallel : Z) (orchBudget : f64) (orchOutputDir : string).

Lemma loop_own fuel tests :
  only by_loop (runBenchmarkOrchestration orchMaxParallel orchBudget orchOutputDir fuel tests).
Proof.
  assert (forall body l s, (forall id w s, only by_loop (body id w s)) -> only by_loop (each l body s)) as Heach.
  { intros body l s Hb. revert s. induction l as [|[id w] l IH]; intros s; [done|]. cbn [each].
    apply only_bind; [apply Hb|intros s'; apply IH]. }
  assert (forall queue active, only by_loop (launch_all orchMaxParallel orchOutputDir queue active)) as Hlaunch.
  { intros queue. induction queue as [|test queue IH]; intros active; [done|]. cbn [launch_all].
    destruct (_ <? _)%Z; [|done]. apply only_bind; [unfold launch; by repeat only_step|intros w].
    apply only_bind; [by apply only_trigger|intros u; apply IH]. }
  unfold runBenchmarkOrchestration. generalize (Loop.start tests) as s.
  induction fuel as [|fuel IH]; intros s; [done|]. cbn [orchestration]. destruct (busy s); [|done].
  apply only_bind; [|intros [[] s']; [done|apply IH]]. unfold iteration, locked, checkWorkerProgress, checkTimeouts.
  repeat first [apply Hlaunch | apply Heach; intros ? ? ?; unfold check_progress, check_timeout, time_out, read_log, cleanupSession
               | only_step].
Qed.

Context (orchRunID : string) (fuel loopfuel : nat) (tests : list TestSpec.t) (workers : list Worker.t).
Abbreviation step_of := (thread_step takes_mu gives_mu (needs_mu false)).

(** The loop and its workers; the loop is the first thread. *)
Definition goroutines : list (thread (E := orchE)) * bool :=
  ((fun p => mk_thread p false) <$>
     ((let* _ := runBenchmarkOrchestration orchMaxParallel orchBudget orchOutputDir loopfuel tests in Return tt) ::
      ((fun w => let* _ := runWorker orchRunID fuel w in Return tt) <$> workers)), false).
Definition reachable : list (thread (E := orchE)) * bool -> Prop :=
  rtc (some_step takes_mu gives_mu (needs_mu false)) goroutines.

(** The thread holds the mutex, and no other does. *)
Definition holding (s : list (thread (E := orchE)) * bool) (i : nat) : Prop :=
  exists t, s.1 !! i = Some t /\ holders s.1 = [t].

Definition keeps_to (i : nat) (x : event orchE) (held : bool) : Prop :=
  match i with
  | O => (needs_mu true x = true -> held = true) /\ match x with Ev e _ => by_loop _ e = true end
  | S k => (needs_mu false x = true -> held = true) /\
      exists w, workers !! k = Some w /\ match x with Ev e _ => by_worker (Worker.ref w) _ e = true end
  end.

Lemma goroutines_keep s i x s' :
  reachable s -> step_of i x s s' -> locked_inv takes_mu gives_mu (needs_mu false) s /\
    exists t, s.1 !! i = Some t /\ keeps_to i x (holds t).
Proof.
  intros Hs Hstep. split.
  - eapply locked_inv_reachable; [exact Hs|]. apply locked_inv_start. constructor.
    + apply free_bind; [apply free_main|done].
    + apply Forall_fmap, Forall_true. intros w. apply free_bind; [by apply free_worker|done].
  - eapply (confined_step _ _ _ keeps_to); [|exact Hstep]. eapply confined_reachable; [exact Hs|].
    intros j t (p & -> & Hp)%list_lookup_fmap_Some. destruct j as [|k].
    + injection Hp as <-. eapply (confined_only _ _ _ (needs_mu true) by_loop).
      * apply free_bind; [apply free_main|done].
      * apply only_bind; [apply loop_own|done].
      * intros B e b held Hok Hn. by split.
    + apply list_lookup_fmap_Some in Hp as (w & -> & Hk).
      eapply (confined_only _ _ _ (needs_mu false) (by_worker (Worker.ref w))).
      * apply free_bind; [by apply free_worker|done].
      * apply only_bind; [apply worker_own|done].
      * intros B e b held Hok Hn. split; [done|]. by exists w.
Qed.

(** An access without the mutex is a worker's read of its own session or cost. *)
Definition reads_own (i : nat) (x : event orchE) : Prop :=
  writes x = [] /\ exists k w, i = S k /\ workers !! k = Some w /\
    (reads x = [(Worker.ref w, FSession)] \/ reads x = [(Worker.ref w, FCost)]).

Lemma access_guarded s i x s' :
  reachable s -> step_of i x s s' -> reads x ++ writes x <> [] -> holding s i \/ reads_own i x.
Proof.
  intros Hs Hstep Hx. destruct (goroutines_keep _ _ _ _ Hs Hstep) as (Hinv & t & Ht & Hk).
  assert (holds t = true -> holding s i) as Hheld by (intros Hh; exists t; split; [done|by eapply holds_alone]).
  destruct x as [B e b]. destruct i as [|k].
  - left. apply Hheld, Hk. by destruct e.
  - destruct Hk as (Hn & w & Hw & Ho).
    destruct (needs_mu false (Ev e b)) eqn:Hneed; [by left; apply Hheld, Hn|right].
    destruct e; try done; cbn in Ho; apply bool_decide_eq_true in Ho as ->;
      (split; [done|]); exists k, w; auto.
Qed.

(** Nobody else writes what a worker reads of its own without the mutex. *)
Lemma own_reads_alone s i x s' s2 j y s2' :
  NoDup (Worker.ref <$> workers) -> reachable s -> step_of i x s s' -> reachable s2 -> step_of j y s2 s2' ->
  reads_own i x -> conflict x y -> j = i.
Proof.
  intros Hnd Hs Hx Hs2 Hy (Hwx & k & w & -> & Hw & Hr) (c & Hc).
  destruct (goroutines_keep _ _ _ _ Hs2 Hy) as (_ & t & _ & Hk).
  rewrite Hwx in Hc. destruct Hc as [[[]%elem_of_nil _]|[Hcx Hcy]].
  assert (exists f, c = (Worker.ref w, f) /\ (f = FSession \/ f = FCost)) as (f & -> & Hf).
  { destruct Hr as [Hr|Hr]; rewrite Hr in Hcx; apply list_elem_of_singleton in Hcx as ->; eauto. }
  destruct y as [B e b]. destruct j as [|k'].
  - destruct Hk as [_ Hk]. exfalso. destruct e; cbn in Hcy, Hk; try done; set_solver.
  - destruct Hk as (_ & w' & Hw' & Ho). f_equal.
    assert (Worker.ref w' = Worker.ref w) as Heq.
    { destruct e; cbn in Hcy, Ho; try (by set_solver); apply bool_decide_eq_true in Ho; set_solver. }
    eapply NoDup_lookup; [exact Hnd| |]; rewrite list_lookup_fmap; [by rewrite Hw'|rewrite Hw; cbn; by rewrite Heq].
Qed.

(** C30.  No data race on the states of the workers, however the loop and the workers (each
    with a state of its own) are interleaved: who accesses a field of such a state holds the
    mutex, and no other does, except for a worker that reads its own session or its own cost;
    and when two different goroutines access one field, one of them to write it, both hold the
    mutex when they do. *)
Theorem worker_states_guarded :
  NoDup (Worker.ref <$> workers) ->
  (forall s i x s', reachable s -> step_of i x s s' -> reads x ++ writes x <> [] ->
     holding s i \/ reads_own i x) /\
  (forall s i x s' s2 j y s2', reachable s -> step_of i x s s' -> reachable s2 -> step_of j y s2 s2' ->
     i <> j -> conflict x y -> holding s i /\ holding s2 j).
Proof.
  intros Hnd. split; [exact access_guarded|]. intros s i x s' s2 j y s2' Hs Hx Hs2 Hy Hne Hc.
  assert (conflict y x) as Hc'.
  { destruct Hc as (c & [[Hcx Hcy]|[Hcx Hcy]]); exists c; [|left; split; [done|by apply elem_of_app; left]].
    apply elem_of_app in Hcy as [Hcy|Hcy]; [by right|]. left. split; [done|by apply elem_of_app; right]. }
  assert (reads x ++ writes x <> [] /\ reads y ++ writes y <> []) as [Hnx Hny].
  { destruct Hc as (c & [[Hcx Hcy]|[Hcx Hcy]]); split; intros Hnil; apply app_nil in Hnil as [Hr Hw];
      rewrite ?Hr, ?Hw in *; cbn in *; set_solver. }
  split.
  - destruct (access_guarded _ _ _ _ Hs Hx Hnx) as [|Hown]; [done|].
    by destruct Hne; symmetry; eapply own_reads_alone; [exact Hnd|exact Hs|exact Hx|exact Hs2|exact Hy| |].
  - destruct (access_guarded _ _ _ _ Hs2 Hy Hny) as [|Hown]; [done|].
    by destruct Hne; eapply own_reads_alone; [exact Hnd|exact Hs2|exact Hy|exact Hs|exact Hx| |].
Qed.
End Races.
