(* ===== verification/Commands.v ===== *)
(** The commands of [cmd/cli/cmd] that ask the server and print its answer: [inventory.go],
    [provision.go], [sessions.go], [shutdown.go], [costs.go], [benchmark.go] and [config.go],
    as programs over the server, the terminal and the file system. *)
From S2P Require Import Prelude GoFloat GoLib GoStrings Models Errors Interfaces Api Programs.
From S2P Require Import BenchStore BenchParser BenchApi FileTransfer Cli.
From Stdlib Require Import Ascii.

Module BenchAnswer.
Record t := mk { StatusCode : Z; text : string; content : result BenchBody }.
End BenchAnswer.

(** ** Effects *)
Inductive shellE : Type -> Type :=
| Ask (r : Request.t) : shellE (result Answer.t)
(** a request for which the router has no handler of its own *)
| AskOther (m : Method) (path : string) : shellE (result Answer.t)
| AskBench (route : BenchRoute) (query : list (string * string)) : shellE (result BenchAnswer.t)
| Println (line : string) : shellE unit
(** the rows of a [tabwriter], flushed *)
| PrintTable (rows : list (list string)) : shellE unit
(** [encoder.Encode] of what was decoded, on the standard output *)
| PrintJSON (b : Body) : shellE (option error)
| PrintBenchJSON (b : BenchBody) : shellE (option error)
(** [os.WriteFile] with mode 0600 *)
| WriteKey (path key : string) : shellE (option error)
| Warn (line : string) : shellE unit
| Getenv (name : string) : shellE string.
Definition shell (A : Type) : Type := prog shellE A.
Abbreviation sh := (@trigger shellE _).

(** The lines of a text, one after another. *)
Fixpoint print_lines (l : list string) : shell unit :=
  match l with [] => Return tt | x :: l' => do* sh (Println x) in print_lines l' end.
Definition print_when (b : bool) (l : list string) : shell unit := if b then print_lines l else Return tt.

(** [outputFormat]. *)
Inductive Format := FormatJSON | FormatTable.

(** [fmt.Sprintf("$%.2f", x)]. *)
Definition dollars (x : f64) : string := "$" +:+ fmt_fixed 2 x.

(** A query parameter that is set when it is not empty. *)
Definition param (name value : string) : list (string * string) :=
  if bool_decide (value = "") then [] else [(name, value)].

(** ** What the commands share *)
Definition cannot_connect (e : error) : error := EWrap "failed to connect to server" e.

(** The answer to a request, refused when its status is not [code]. *)
Definition answering (a : result Answer.t) (code : Z) (what : string) (k : Answer.t -> shell (option error))
    : shell (option error) :=
  match a with
  | Err e => Return (Some (cannot_connect e))
  | Ok a =>
      if (Answer.StatusCode a =? code)%Z then k a
      else Return (Some (EOpaque (what +:+ ": " +:+ Answer.text a)))
  end.
Definition asking (r : Request.t) (code : Z) (what : string) (k : Answer.t -> shell (option error))
    : shell (option error) :=
  let* a := sh (Ask r) in answering a code what k.

(** A request for a session, its id pasted into the URL. *)
Definition ask_target (t : Target) : shell (result Answer.t) :=
  match t with AtRoute r => sh (Ask r) | NoRoute m path => sh (AskOther m path) end.
(** [req, _ := http.NewRequest(...)] and [Do]: when the URL does not parse the request is nil,
    and [Do] dereferences it. *)
Definition nil_request : error := GoPanic "invalid memory address or nil pointer dereference".
Definition doing (t : result Target) (what : string) (k : Answer.t -> shell (option error)) : shell (option error) :=
  match t with
  | Err _ => Return (Some nil_request)
  | Ok t => let* a := ask_target t in answering a 200 what k
  end.
Definition decoding (a : Answer.t) (k : Body -> shell (option error)) : shell (option error) :=
  match Answer.content a with
  | Err e => Return (Some (EWrap "failed to parse response" e))
  | Ok b => k b
  end.
(** As JSON, or as text by [human]. *)
Definition presenting (f : Format) (b : Body) (human : shell unit) : shell (option error) :=
  match f with
  | FormatJSON => sh (PrintJSON b)
  | FormatTable => do* human in Return None
  end.
Definition asking_for (f : Format) (r : Request.t) (human : Body -> shell unit) : shell (option error) :=
  asking r 200 "server error" (fun a => decoding a (fun b => presenting f b (human b))).

(** ** [inventory.go] *)
Module InventoryFlags.
Record t := mk { Provider : string; GPUType : string; MaxPrice : f64; MinVRAM : Z; MinGPUCount : Z }.
End InventoryFlags.
Definition inventory_query (f : InventoryFlags.t) : list (string * string) :=
  param "provider" (InventoryFlags.Provider f) ++
  param "gpu_type" (InventoryFlags.GPUType f) ++
  (if fgtb (InventoryFlags.MaxPrice f) f0 then [("max_price", fmt_fixed 2 (InventoryFlags.MaxPrice f))] else []) ++
  (if (0 <? InventoryFlags.MinVRAM f)%Z then [("min_vram", Itoa (InventoryFlags.MinVRAM f))] else []) ++
  (if (0 <? InventoryFlags.MinGPUCount f)%Z then [("min_gpu_count", Itoa (InventoryFlags.MinGPUCount f))] else []).
Definition offer_row (o : GPUOffer.t) : list string :=
  [GPUOffer.ID o; GPUOffer.Provider o; GPUOffer.GPUType o; Itoa (GPUOffer.GPUCount o);
   Itoa (GPUOffer.VRAM o) +:+ "GB"; dollars (GPUOffer.PricePerHour o); GPUOffer.Location o].
Definition print_offers (b : Body) : shell unit :=
  match offers_member b with
  | [] => sh (Println "No offers found matching criteria.")
  | l =>
      do* sh (PrintTable (["ID"; "PROVIDER"; "GPU"; "COUNT"; "VRAM"; "PRICE/HR"; "LOCATION"] ::
                          ["--"; "--------"; "---"; "-----"; "----"; "--------"; "--------"] :: (offer_row <$> l))) in
      sh (Println ("Total: " +:+ Itoa (count_member b) +:+ " offers"))
  end.
Definition runInventory (f : Format) (flags : InventoryFlags.t) : shell (option error) :=
  asking_for f (Request.mk GET_inventory "" (inventory_query flags) []) print_offers.

(** ** [types.go]: a session with its times as text *)
Module CliSession.
Record t := mk {
  ID : string; ConsumerID : string; Provider : string; GPUType : string; GPUCount : Z; Status : string;
  Error : string; SSHHost : string; SSHPort : Z; SSHUser : string; WorkloadType : string;
  PricePerHour : f64; CreatedAt : string; ExpiresAt : string
}.
Definition zero : t := mk "" "" "" "" 0 "" "" "" 0 "" "" f0 "" "".
End CliSession.

(** The flags of [provision.go]. *)
Module ProvisionFlags.
Record t := mk {
  ConsumerID : string; OfferID : string; Workload : string; Hours : Z; IdleTimeout : Z; Storage : string;
  SaveKey : string; GPUType : string
}.
End ProvisionFlags.

(** ** [costs.go]: the data *)

(** [Time]: the zero time counts as absent. *)
Module CliTime.
Record t := mk { text : string; isZero : bool }.
Definition UnmarshalJSON (s : option string) : t :=
  match s with
  | None => mk "" true
  | Some s => if bool_decide (s = "") || bool_decide (s = "0001-01-01T00:00:00Z") then mk "" true else mk s false
  end.
Definition IsZero (x : t) : bool := isZero x || bool_decide (text x = "").
Definition Format (x : t) : string := text x.
End CliTime.

Module CliCosts.
Record t := mk {
  ConsumerID : string; TotalCost : f64; SessionCount : Z; HoursUsed : f64; ByProvider : list (string * f64);
  ByGPUType : list (string * f64); PeriodStart : CliTime.t; PeriodEnd : CliTime.t
}.
End CliCosts.
Section Sessions.
(** [time.RFC3339Nano], as [encoding/json] writes a time. *)
Context (rfc3339 : time -> string).

Definition decode_session (s : SessionResponse.t) : CliSession.t :=
  CliSession.mk (SessionResponse.ID s) (SessionResponse.ConsumerID s) (SessionResponse.Provider s)
    (SessionResponse.GPUType s) (SessionResponse.GPUCount s) (status_string (SessionResponse.Status s))
    (SessionResponse.Error s) (SessionResponse.SSHHost s) (SessionResponse.SSHPort s) (SessionResponse.SSHUser s)
    (SessionResponse.WorkloadType s) (SessionResponse.PricePerHour s)
    (rfc3339 (SessionResponse.CreatedAt s)) (rfc3339 (SessionResponse.ExpiresAt s)).
Definition sessions_member (b : Body) : list CliSession.t :=
  match b with SessionsBody l _ => decode_session <$> l | _ => [] end.
Definition as_session (b : Body) : CliSession.t :=
  match b with SessionBody s => decode_session s | _ => CliSession.zero end.

(** ** [sessions.go] *)
Definition session_row (s : CliSession.t) : list string :=
  [CliSession.ID s; CliSession.ConsumerID s; CliSession.Provider s; CliSession.GPUType s; CliSession.Status s;
   dollars (CliSession.PricePerHour s); CliSession.ExpiresAt s].
Definition print_sessions (b : Body) : shell unit :=
  match sessions_member b with
  | [] => sh (Println "No sessions found.")
  | l =>
      do* sh (PrintTable (["ID"; "CONSUMER"; "PROVIDER"; "GPU"; "STATUS"; "PRICE/HR"; "EXPIRES"] ::
                          ["--"; "--------"; "--------"; "---"; "------"; "--------"; "-------"] :: (session_row <$> l))) in
      sh (Println ("Total: " +:+ Itoa (count_member b) +:+ " sessions"))
  end.
Definition runSessionsList (f : Format) (consumerID status : string) : shell (option error) :=
  asking_for f (Request.mk GET_sessions "" (param "consumer_id" consumerID ++ param "status" status) [])
    print_sessions.

Definition print_session (s : CliSession.t) : shell unit :=
  do* print_lines
    ["Session ID:     " +:+ CliSession.ID s; "Consumer ID:    " +:+ CliSession.ConsumerID s;
     "Provider:       " +:+ CliSession.Provider s; "GPU Type:       " +:+ CliSession.GPUType s;
     "GPU Count:      " +:+ Itoa (CliSession.GPUCount s); "Status:         " +:+ CliSession.Status s;
     "Workload Type:  " +:+ CliSession.WorkloadType s;
     "Price/Hour:     " +:+ dollars (CliSession.PricePerHour s);
     "Created At:     " +:+ CliSession.CreatedAt s; "Expires At:     " +:+ CliSession.ExpiresAt s] in
  do* print_when (negb (bool_decide (CliSession.SSHHost s = "")))
    [""; "SSH Connection:";
     "  ssh -p " +:+ Itoa (CliSession.SSHPort s) +:+ " " +:+ CliSession.SSHUser s +:+ "@" +:+ CliSession.SSHHost s] in
  print_when (negb (bool_decide (CliSession.Error s = ""))) [""; "Error: " +:+ CliSession.Error s].
Definition runSessionsGet (f : Format) (sessionID : string) : shell (option error) :=
  let* a := match session_target GET sessionID "" [] with
            | Err e => Return (Err e)
            | Ok t => ask_target t
            end in
  match a with
  | Err e => Return (Some (cannot_connect e))
  | Ok a =>
      if (Answer.StatusCode a =? 404)%Z then Return (Some (EOpaque ("session not found: " +:+ sessionID)))
      else if negb (Answer.ok a) then Return (Some (EOpaque ("server error: " +:+ Answer.text a)))
      else decoding a (fun b => presenting f b (print_session (as_session b)))
  end.

Definition done_target (sessionID : string) : result Target := session_target POST sessionID "/done" [].
Definition delete_target (sessionID : string) : result Target := session_target DELETE sessionID "" [].
Definition runSessionsDone (sessionID : string) : shell (option error) :=
  doing (done_target sessionID) "failed to signal done" (fun _ =>
    do* sh (Println ("Session " +:+ sessionID +:+ " shutdown initiated.")) in Return None).
Definition runSessionsExtend (sessionID : string) (extendHours : Z) : shell (option error) :=
  let* a := match session_target POST sessionID "/extend" [("additional_hours", Number extendHours)] with
            | Err e => Return (Err e)
            | Ok t => ask_target t
            end in
  answering a 200 "failed to extend session" (fun a =>
    do* sh (Println ("Session " +:+ sessionID +:+ " extended by " +:+ Itoa extendHours +:+ " hours.")) in
    do* match Answer.content a with
        | Ok (MessageBody _ _ (Some t)) => sh (Println ("New expiration: " +:+ rfc3339 t))
        | _ => Return tt
        end in
    Return None).
Definition runSessionsDelete (sessionID : string) : shell (option error) :=
  doing (delete_target sessionID) "failed to delete session" (fun _ =>
    do* sh (Println ("Session " +:+ sessionID +:+ " destroyed.")) in Return None).

(** ** [shutdown.go] *)
Definition runShutdown (force : bool) (sessionID : string) : shell (option error) :=
  doing (if force then delete_target sessionID else done_target sessionID) "shutdown failed" (fun _ =>
    do* print_lines
      (if force then ["Session " +:+ sessionID +:+ " forcefully destroyed."]
       else ["Session " +:+ sessionID +:+ " shutdown initiated."; "The session will terminate gracefully."]) in
    Return None).

(** ** [provision.go] *)
Definition validWorkloads : list string := ["llm"; "llm_vllm"; "llm_tgi"; "training"; "batch"; "interactive"].
Definition provision_payload (f : ProvisionFlags.t) (offerID : string) : list (string * field) :=
  [("consumer_id", Text (ProvisionFlags.ConsumerID f)); ("offer_id", Text offerID);
   ("workload_type", Text (ProvisionFlags.Workload f)); ("reservation_hours", Number (ProvisionFlags.Hours f));
   ("storage_policy", Text (ProvisionFlags.Storage f))] ++
  (if (0 <? ProvisionFlags.IdleTimeout f)%Z
   then [("idle_threshold_minutes", Number (ProvisionFlags.IdleTimeout f))] else []).

(** The member [session], and the private key. *)
Definition created_session (b : Body) : CliSession.t :=
  match b with CreateSessionResponse s _ _ => decode_session s | _ => CliSession.zero end.
Definition key_member (b : Body) : string := match b with CreateSessionResponse _ k _ => k | _ => "" end.

Definition show_key (key : string) : list string :=
  ["SSH Private Key (save this, shown only once):"; "---BEGIN---"; key; "---END---"].
Definition deliver_key (saveKey key : string) : shell unit :=
  if bool_decide (saveKey = "") then print_lines (show_key key)
  else
    let* e := sh (WriteKey saveKey key) in
    match e with
    | Some e => sh (Warn ("Warning: failed to save SSH key: " +:+ Error e))
    | None => sh (Println ("SSH private key saved to: " +:+ saveKey))
    end.
Definition print_provisioned (saveKey : string) (b : Body) : shell unit :=
  let s := created_session b in
  do* print_lines
    ["Session provisioned successfully!"; ""; "Session ID:    " +:+ CliSession.ID s;
     "Provider:      " +:+ CliSession.Provider s; "GPU Type:      " +:+ CliSession.GPUType s;
     "Status:        " +:+ CliSession.Status s; "Price/Hour:    " +:+ dollars (CliSession.PricePerHour s);
     "Expires At:    " +:+ CliSession.ExpiresAt s; ""] in
  do* print_when (negb (bool_decide (CliSession.SSHHost s = "")))
    ["SSH Connection:"; "  Host: " +:+ CliSession.SSHHost s; "  Port: " +:+ Itoa (CliSession.SSHPort s);
     "  User: " +:+ CliSession.SSHUser s; ""] in
  do* (if bool_decide (key_member b = "") then Return tt
       else do* deliver_key saveKey (key_member b) in sh (Println "")) in
  print_lines ["Note: The session is provisioning. Check status with:"; "  gpu-shopper sessions get " +:+ CliSession.ID s].

(** The offer of the flags, or the one that is selected for the type of GPU. *)
Definition chosen_offer (f : ProvisionFlags.t) : shell (result string) :=
  if bool_decide (ProvisionFlags.OfferID f = "") && negb (bool_decide (ProvisionFlags.GPUType f = "")) then
    let* a := sh (Ask (cheapest_request (ProvisionFlags.GPUType f))) in
    match selectCheapestOffer (ProvisionFlags.GPUType f) a with
    | Err e => Return (Err (EWrap "failed to auto-select offer" e))
    | Ok o =>
        do* sh (Println ("Auto-selected offer " +:+ GPUOffer.ID o +:+ " (" +:+ GPUOffer.GPUType o +:+ ", " +:+
                         dollars (GPUOffer.PricePerHour o) +:+ "/hr)")) in
        Return (Ok (GPUOffer.ID o))
    end
  else Return (Ok (ProvisionFlags.OfferID f)).

Definition runProvision (out : Format) (f : ProvisionFlags.t) : shell (option error) :=
  if negb (bool_decide (ProvisionFlags.Workload f ∈ validWorkloads)) then
    Return (Some (EOpaque ("invalid workload type " +:+ Quote (ProvisionFlags.Workload f) +:+
                           ", valid types: llm, llm_vllm, llm_tgi, training, batch, interactive")))
  else
    let* offer := chosen_offer f in
    match offer with
    | Err e => Return (Some e)
    | Ok offerID =>
        if bool_decide (offerID = "") then Return (Some (EOpaque "either --offer or --gpu must be provided"))
        else
          asking (Request.mk POST_sessions "" [] (provision_payload f offerID)) 201 "provisioning failed" (fun a =>
            decoding a (fun b => presenting out b (print_provisioned (ProvisionFlags.SaveKey f) b)))
    end.

(** ** [costs.go] *)

(** The order of [range] over a map. *)
Context (range : gmap string f64 -> list (string * f64)).
Definition as_costs (b : Body) : CliCosts.t :=
  match b with
  | SummaryBody s =>
      CliCosts.mk (CostSummary.ConsumerID s) (CostSummary.TotalCost s) (CostSummary.SessionCount s)
        (f64_of_Z (CostSummary.HoursUsed s)) (range (CostSummary.ByProvider s)) (range (CostSummary.ByGPUType s))
        (CliTime.UnmarshalJSON (Some (rfc3339 (CostSummary.PeriodStart s))))
        (CliTime.UnmarshalJSON (Some (rfc3339 (CostSummary.PeriodEnd s))))
  | SessionCostBody _ total => CliCosts.mk "" total 0 f0 [] [] (CliTime.mk "" false) (CliTime.mk "" false)
  | _ => CliCosts.mk "" f0 0 f0 [] [] (CliTime.mk "" false) (CliTime.mk "" false)
  end.
Definition print_costs_by (title : string) (l : list (string * f64)) : shell unit :=
  match l with
  | [] => Return tt
  | _ =>
      do* print_lines [""; title] in
      sh (PrintTable ((fun x => ["  " +:+ x.1; dollars x.2]) <$> l))
  end.
Definition printCostSummary (s : CliCosts.t) : shell unit :=
  do* print_lines ["Cost Summary"; "============"; ""] in
  do* print_when (negb (bool_decide (CliCosts.ConsumerID s = ""))) ["Consumer:      " +:+ CliCosts.ConsumerID s] in
  do* print_lines ["Total Cost:    " +:+ dollars (CliCosts.TotalCost s);
                   "Sessions:      " +:+ Itoa (CliCosts.SessionCount s);
                   "Hours Used:    " +:+ fmt_fixed 1 (CliCosts.HoursUsed s)] in
  do* print_when (negb (CliTime.IsZero (CliCosts.PeriodStart s)) && negb (CliTime.IsZero (CliCosts.PeriodEnd s)))
    ["Period:        " +:+ CliTime.Format (CliCosts.PeriodStart s) +:+ " to " +:+ CliTime.Format (CliCosts.PeriodEnd s)] in
  do* print_costs_by "By Provider:" (CliCosts.ByProvider s) in
  print_costs_by "By GPU Type:" (CliCosts.ByGPUType s).
Definition costs_query (consumerID sessionID period start end_ : string) : list (string * string) :=
  param "consumer_id" consumerID ++ param "session_id" sessionID ++ param "period" period ++
  param "start_date" start ++ param "end_date" end_.
Definition runCosts (f : Format) (consumerID sessionID period start end_ : string) : shell (option error) :=
  asking_for f (Request.mk GET_costs "" (costs_query consumerID sessionID period start end_) [])
    (fun b => printCostSummary (as_costs b)).
Definition runCostsSummary (f : Format) (consumerID : string) : shell (option error) :=
  asking_for f (Request.mk GET_costs_summary "" (param "consumer_id" consumerID) [])
    (fun b => printCostSummary (as_costs b)).
End Sessions.

(** ** [benchmark.go] *)
Definition asking_bench (route : BenchRoute) (query : list (string * string))
    (k : BenchAnswer.t -> shell (option error)) : shell (option error) :=
  let* a := sh (AskBench route query) in
  match a with
  | Err e => Return (Some (cannot_connect e))
  | Ok a =>
      if (BenchAnswer.StatusCode a =? 200)%Z then k a
      else Return (Some (EOpaque ("server error: " +:+ BenchAnswer.text a)))
  end.
Definition asking_bench_for (f : Format) (route : BenchRoute) (query : list (string * string))
    (human : BenchBody -> shell unit) : shell (option error) :=
  asking_bench route query (fun a =>
    match BenchAnswer.content a with
    | Err e => Return (Some (EWrap "failed to parse response" e))
    | Ok b =>
        match f with
        | FormatJSON => sh (PrintBenchJSON b)
        | FormatTable => do* human b in Return None
        end
    end).

Definition benchmark_row (b : BenchmarkResult.t) : list string :=
  [ModelInfo.Name (BenchmarkResult.Model b); HardwareInfo.GPUName (BenchmarkResult.Hardware b);
   fmt_fixed 1 (PerformanceResults.AvgTokensPerSecond (BenchmarkResult.Results b));
   fmt_fixed 1 (PerformanceResults.P95TokensPerSecond (BenchmarkResult.Results b));
   dollars (BenchmarkResult.PricePerHour b); BenchmarkResult.Provider b].
Definition printBenchmarkList (l : list BenchmarkResult.t) : shell unit :=
  match l with
  | [] => sh (Println "No benchmarks found")
  | _ =>
      do* print_lines ["Found " +:+ Itoa (Z.of_nat (length l)) +:+ " benchmarks"; ""] in
      sh (PrintTable (["MODEL"; "GPU"; "AVG TPS"; "P95 TPS"; "$/HR"; "PROVIDER"] ::
                      ["-----"; "---"; "-------"; "-------"; "----"; "--------"] :: (benchmark_row <$> l)))
  end.
Definition benchmarks_member (b : BenchBody) : list BenchmarkResult.t :=
  match b with BenchmarksBody l _ => l | _ => [] end.
Definition runBenchmarks (f : Format) (model gpu : string) (limit : Z) : shell (option error) :=
  asking_bench_for f GET_benchmarks (param "model" model ++ param "gpu" gpu ++ [("limit", Itoa limit)])
    (fun b => printBenchmarkList (benchmarks_member b)).

Definition hardware_lines (h : HardwareInfo.t) : list string :=
  ["Hardware";
   "  GPU:              " +:+ HardwareInfo.GPUName h +:+ " (" +:+ Itoa (HardwareInfo.GPUMemoryMiB h) +:+ " MiB)";
   "  Count:            " +:+ Itoa (HardwareInfo.GPUCount h);
   "  CUDA:             " +:+ HardwareInfo.CUDAVersion h; ""].
Definition model_lines (m : ModelInfo.t) : list string :=
  ["Model"; "  Name:             " +:+ ModelInfo.Name m] ++
  (if bool_decide (ModelInfo.Family m = "") then [] else ["  Family:           " +:+ ModelInfo.Family m]) ++
  (if bool_decide (ModelInfo.Quantization m = "") then []
   else ["  Quantization:     " +:+ ModelInfo.Quantization m]) ++
  ["  Size:             " +:+ fmt_fixed 1 (ModelInfo.SizeGB m) +:+ " GB";
   "  Runtime:          " +:+ ModelInfo.Runtime m; ""].
Definition performance_lines (r : PerformanceResults.t) : list string :=
  ["Performance";
   "  Avg Tokens/sec:   " +:+ fmt_fixed 2 (PerformanceResults.AvgTokensPerSecond r);
   "  P50 Tokens/sec:   " +:+ fmt_fixed 2 (PerformanceResults.P50TokensPerSecond r);
   "  P95 Tokens/sec:   " +:+ fmt_fixed 2 (PerformanceResults.P95TokensPerSecond r);
   "  Total Requests:   " +:+ Itoa (PerformanceResults.TotalRequests r);
   "  Total Tokens:     " +:+ Itoa (PerformanceResults.TotalTokens r);
   "  Errors:           " +:+ Itoa (PerformanceResults.TotalErrors r) +:+ " (" +:+
     fmt_fixed 1 (fmul (PerformanceResults.ErrorRate r) (f64_of_Z 100)) +:+ "%)";
   "  Duration:         " +:+ fmt_fixed 1 (fdiv (PerformanceResults.DurationSeconds r) (f64_of_Z 60)) +:+ " minutes"; ""].
Definition gpu_lines (g : GPUStats.t) : list string :=
  ["GPU Utilization";
   "  Avg Utilization:  " +:+ fmt_fixed 1 (GPUStats.AvgUtilizationPct g) +:+ "%";
   "  Max Utilization:  " +:+ fmt_fixed 1 (GPUStats.MaxUtilizationPct g) +:+ "%";
   "  Avg Temperature:  " +:+ fmt_fixed 1 (GPUStats.AvgTemperatureC g) +:+ "°C";
   "  Max Temperature:  " +:+ fmt_fixed 1 (GPUStats.MaxTemperatureC g) +:+ "°C";
   "  Avg Power:        " +:+ fmt_fixed 1 (GPUStats.AvgPowerDrawW g) +:+ " W";
   "  Peak VRAM:        " +:+ Itoa (GPUStats.MaxMemoryUsedMiB g) +:+ " MiB"; ""].
Definition cost_lines (c : option CostAnalysis.t) : list string :=
  match c with
  | None => []
  | Some c =>
      ["Cost Analysis";
       "  Price/Hour:       $" +:+ fmt_fixed 3 (CostAnalysis.CostPerHour c);
       "  Tokens/Dollar:    " +:+ fmt_fixed 0 (CostAnalysis.TokensPerDollar c);
       "  $/Million Tokens: $" +:+ fmt_fixed 4 (CostAnalysis.CostPerMillionTokens c);
       "  Monthly (24x7):   $" +:+ fmt_fixed 2 (CostAnalysis.EstimatedMonthly c); ""]
  end.
Definition printBenchmarkDetail (b : option BenchmarkResult.t) (cost : option CostAnalysis.t) : shell unit :=
  match b with
  | None => sh (Println "No benchmark found")
  | Some b =>
      print_lines ([summary_rule; "                    BENCHMARK RESULT"; summary_rule; ""] ++
        hardware_lines (BenchmarkResult.Hardware b) ++ model_lines (BenchmarkResult.Model b) ++
        performance_lines (BenchmarkResult.Results b) ++ gpu_lines (BenchmarkResult.GPUStats b) ++
        cost_lines cost ++ [summary_rule])
  end.
Definition print_benchmark_body (b : BenchBody) : shell unit :=
  match b with
  | BenchmarkBody b c => printBenchmarkDetail (Some b) (Some c)
  | _ => printBenchmarkDetail None None
  end.
Definition runBenchmarkBest (f : Format) (model : string) : shell (option error) :=
  asking_bench_for f GET_benchmarks_best [("model", model)] print_benchmark_body.
Definition runBenchmarkCheapest (f : Format) (model : string) (minTPS : f64) : shell (option error) :=
  asking_bench_for f GET_benchmarks_cheapest
    (("model", model) :: (if fgtb minTPS f0 then [("min_tps", fmt_fixed 2 minTPS)] else []))
    print_benchmark_body.

Definition recommendation_row (r : HardwareRecommendation.t) : list string :=
  [match HardwareRecommendation.RecommendedGPUs r with [] => "" | g :: _ => g end;
   Itoa (HardwareRecommendation.MinVRAMGiB r) +:+ "GB"; fmt_fixed 1 (HardwareRecommendation.ExpectedTPS r);
   dollars (HardwareRecommendation.EstimatedCost r); HardwareRecommendation.Notes r].
Definition printRecommendations (model : string) (recs : list HardwareRecommendation.t) : shell unit :=
  do* print_lines ["Hardware Recommendations for " +:+ model; "========================================"; ""] in
  match recs with
  | [] => sh (Println "No recommendations available (no benchmarks for this model)")
  | _ => sh (PrintTable (["GPU"; "VRAM"; "EXP TPS"; "$/HR"; "NOTES"] :: ["---"; "----"; "-------"; "----"; "-----"] ::
                         (recommendation_row <$> recs)))
  end.
Definition runBenchmarkRecommend (f : Format) (model : string) : shell (option error) :=
  asking_bench_for f GET_benchmarks_recommendations [("model", model)] (fun b =>
    match b with
    | RecommendationsBody m l _ => printRecommendations m l
    | _ => printRecommendations "" []
    end).
(** As JSON the body is printed as it came. *)
Definition runBenchmarkCompare (f : Format) (model : string) : shell (option error) :=
  asking_bench GET_benchmarks_compare [("model", model)] (fun a =>
    match f with
    | FormatJSON => do* sh (Println (BenchAnswer.text a)) in Return None
    | FormatTable =>
        match BenchAnswer.content a with
        | Err e => Return (Some (EWrap "failed to parse response" e))
        | Ok b => do* print_lines ["Benchmark Comparison"; "===================="] in sh (PrintBenchJSON b)
        end
    end).

(** ** [config.go] *)
Definition format_text (f : Format) : string := match f with FormatJSON => "json" | FormatTable => "table" end.
Definition runConfigShow (serverURL : string) (f : Format) : shell (option error) :=
  do* print_lines ["GPU Shopper CLI Configuration"; "=============================="; "";
                   "Server URL:     " +:+ serverURL; "Output Format:  " +:+ format_text f; ""; "Environment Variables:"] in
  let* url := sh (Getenv "GPU_SHOPPER_URL") in
  do* sh (Println (if bool_decide (url = "") then "  GPU_SHOPPER_URL (not set, using default)"
                   else "  GPU_SHOPPER_URL=" +:+ url)) in
  Return None.
Definition runConfigSet (key value : string) : shell (option error) :=
  if bool_decide (key = "server") then
    do* print_lines ["To set the server URL, use the environment variable:"; "  export GPU_SHOPPER_URL=" +:+ value; "";
                     "Or use the --server flag with each command."] in
    Return None
  else Return (Some (EOpaque ("unknown configuration key: " +:+ key))).
