(* ===== verification/CommandsFacts.v ===== *)
(** What the commands say against what the server did: the filter of the inventory command,
    the reports of the session commands, and the private key of a new session. *)
From S2P Require Import Prelude GoFloat GoLib GoStrings Models Errors Interfaces Api Programs.
From S2P Require Import Cli Commands Template BenchStore BenchParser BenchApi.
From Stdlib Require Import Ascii.
#[local] Set Warnings "-clear-no-such-hyp".

(** ** The filter of the inventory command *)

(** [c.Query] of a query that is sent as a list. *)
Definition sent (name : string) (l : list (string * string)) : string :=
  default "" ((list_to_map l : gmap string string) !! name).
Definition silent (name : string) (l : list (string * string)) : Prop :=
  (list_to_map l : gmap string string) !! name = None.

Lemma lookup_sent (l1 l2 : list (string * string)) name :
  (list_to_map (l1 ++ l2) : gmap string string) !! name =
  match (list_to_map l1 : gmap string string) !! name with
  | Some v => Some v
  | None => (list_to_map l2 : gmap string string) !! name
  end.
Proof.
  rewrite list_to_map_app, lookup_union.
  by destruct ((list_to_map l1 : gmap _ _) !! name), ((list_to_map l2 : gmap _ _) !! name).
Qed.
Lemma sent_app_r name l1 l2 : silent name l1 -> sent name (l1 ++ l2) = sent name l2.
Proof. unfold silent, sent. rewrite lookup_sent. by intros ->. Qed.
Lemma sent_app_l name l1 l2 : silent name l2 -> sent name (l1 ++ l2) = sent name l1.
Proof. unfold silent, sent. rewrite lookup_sent. intros ->. by destruct (_ !! name). Qed.
Lemma silent_app name l1 l2 : silent name l1 -> silent name l2 -> silent name (l1 ++ l2).
Proof. unfold silent. rewrite lookup_sent. by intros -> ->. Qed.
Lemma silent_keys name l : Forall (fun x => x.1 <> name) l -> silent name l.
Proof.
  intros Hl. apply not_elem_of_list_to_map_1. rewrite list_elem_of_fmap. intros (x & -> & Hx).
  rewrite Forall_forall in Hl. by apply (Hl x).
Qed.
Lemma silent_param name n v : n <> name -> silent name (param n v).
Proof. intros Hn. apply silent_keys. unfold param. case_bool_decide; by repeat constructor. Qed.
Lemma silent_if name n v (b : bool) : n <> name -> silent name (if b then [(n, v)] else []).
Proof. intros Hn. apply silent_keys. destruct b; by repeat constructor. Qed.
Lemma sent_param name v : sent name (param name v) = v.
Proof. unfold param, sent. case_bool_decide as Hv; cbn; [done|]. by rewrite lookup_insert_eq. Qed.
Lemma sent_if name v (b : bool) : sent name (if b then [(name, v)] else []) = if b then v else "".
Proof. unfold sent. destruct b; cbn; [by rewrite lookup_insert_eq|done]. Qed.

Lemma silent_sent name l : silent name l -> sent name l = "".
Proof. unfold silent, sent. by intros ->. Qed.
Ltac quiet := repeat apply silent_app; first [by apply silent_param|by apply silent_if].
Ltac sent_step := first [rewrite sent_app_r by quiet|rewrite sent_app_l by quiet].

Lemma fmt_nonempty d x : fmt_fixed d x <> "".
Proof.
  assert (forall neg d n, fmt_decimal neg d n <> "") as Hf.
  { intros neg d' n Hn. unfold fmt_decimal in Hn. destruct neg; [done|]. cbn in Hn.
    destruct (pretty (n / 10 ^ Z.of_nat d')%Z : string) eqn:Hs; [|done]. by apply (Itoa_nonempty (n / 10 ^ Z.of_nat d')). }
  unfold fmt_fixed. destruct x as [s|[]| |s m e]; try done; by apply Hf.
Qed.

Section Filter.
Context `{FloatText}.

Lemma int_param_none name bad rule r : HttpRequest.Query name r = "" -> int_param name bad rule r = Ok None.
Proof. unfold int_param. by intros ->. Qed.
Lemma float_param_none name bad rule r : HttpRequest.Query name r = "" -> float_param name bad rule r = Ok None.
Proof. unfold float_param. by intros ->. Qed.
(** A flag that is sent when it is positive reads as itself, or as 0. *)
Lemma int_param_flag name rule r (n : Z) :
  in_int64 n -> HttpRequest.Query name r = (if (0 <? n)%Z then Itoa n else "") ->
  exists x, int_param name negative rule r = Ok x /\ default 0%Z x = Z.max 0 n /\ (x = None -> (n <= 0)%Z).
Proof.
  intros Hn Hq. destruct (Z.ltb_spec 0 n) as [Hpos|Hneg].
  - exists (Some n). unfold int_param, negative. destruct (Itoa_head n Hpos) as (c & s & Hs & _).
    rewrite Hq, bool_decide_false by by rewrite Hs.
    rewrite Atoi_Itoa by done. destruct (Z.ltb_spec n 0); [lia|]. cbn. split; [done|]. split; [lia|done].
  - exists None. rewrite int_param_none by done. cbn. split; [done|]. split; [lia|done].
Qed.

(** The server's filter for the inventory command is what the flags say: an empty or
    non-positive flag does not constrain the offers, and the maximal price is the one that
    its text with two decimals reads as. *)
Theorem inventory_filter_agrees (flags : InventoryFlags.t) (price : f64) r :
  HttpRequest.query r = list_to_map (inventory_query flags) ->
  in_int64 (InventoryFlags.MinVRAM flags) -> in_int64 (InventoryFlags.MinGPUCount flags) ->
  (fgtb (InventoryFlags.MaxPrice flags) f0 = true ->
     ParseFloat (fmt_fixed 2 (InventoryFlags.MaxPrice flags)) = Ok price /\ fltb price f0 = false) ->
  offer_filter r =
    Ok (OfferFilter.mk (InventoryFlags.Provider flags) (InventoryFlags.GPUType flags)
          (Z.max 0 (InventoryFlags.MinVRAM flags))
          (if fgtb (InventoryFlags.MaxPrice flags) f0 then price else f0) "" f0
          (Z.max 0 (InventoryFlags.MinGPUCount flags)) f0 f0).
Proof.
  intros Hquery Hvram Hcount Hprice.
  assert (forall name, HttpRequest.Query name r = sent name (inventory_query flags)) as Hq
    by (intros name; unfold HttpRequest.Query, sent; by rewrite Hquery).
  unfold inventory_query in Hq.
  assert (HttpRequest.Query "provider" r = InventoryFlags.Provider flags) as Hprov
    by (rewrite Hq; repeat sent_step; apply sent_param).
  assert (HttpRequest.Query "gpu_type" r = InventoryFlags.GPUType flags) as Hgpu
    by (rewrite Hq; repeat sent_step; apply sent_param).
  assert (forall name, name ∉ ["provider"; "gpu_type"; "max_price"; "min_vram"; "min_gpu_count"] ->
            HttpRequest.Query name r = "") as Hnone.
  { intros name Hn. rewrite Hq. apply silent_sent.
    repeat apply silent_app; first [apply silent_param|apply silent_if]; set_solver. }
  destruct (int_param_flag "min_vram" "non-negative" r (InventoryFlags.MinVRAM flags) Hvram) as (v & Hv & Hv' & _);
    [rewrite Hq; repeat sent_step; apply sent_if|].
  destruct (int_param_flag "min_gpu_count" "non-negative" r (InventoryFlags.MinGPUCount flags) Hcount)
    as (n & Hc & Hc' & _); [rewrite Hq; repeat sent_step; apply sent_if|].
  assert (float_param "max_price" fnegative "non-negative" r =
            Ok (if fgtb (InventoryFlags.MaxPrice flags) f0 then Some price else None)) as Hp.
  { assert (HttpRequest.Query "max_price" r =
              if fgtb (InventoryFlags.MaxPrice flags) f0 then fmt_fixed 2 (InventoryFlags.MaxPrice flags) else "") as Hm
      by (rewrite Hq; repeat sent_step; apply sent_if).
    destruct (fgtb _ f0); [|by apply float_param_none].
    destruct (Hprice eq_refl) as [Hread Hneg]. unfold float_param, fnegative.
    by rewrite Hm, bool_decide_false, Hread, Hneg by apply fmt_nonempty. }
  unfold offer_filter. rewrite Hv, Hp. cbn [res_bind].
  rewrite (int_param_none "gpu_count"), Hc by (apply Hnone; set_solver). cbn [res_bind].
  rewrite !float_param_none by (apply Hnone; set_solver). cbn [res_bind default].
  rewrite Hprov, Hgpu, (Hnone "location") by set_solver. rewrite Hv'.
  replace (match n with Some v => v | None => _ end) with (Z.max 0 (InventoryFlags.MinGPUCount flags)) by (by destruct n).
  by destruct (fgtb _ f0).
Qed.
End Filter.

(** ** Commands against the server

    The terminal and the disk do what they are asked; the transport delivers. *)
Section Served.
Context {W : Type} `{Env W} `{Backend W} `{Gin} `{FloatText} `{FilterDecoder} `{MapRange}.
(** The encodings of an answer and of the object that a command sends, the request's id, and
    what the router answers for a path that is not one of its routes. *)
Context (encode : Body -> string) (encode_json : list (string * field) -> string) (rid : string).
Context (other : Method -> string -> M W (result Answer.t)).
Context (rfc3339 : time -> string).

Definition serve_ask (r : Request.t) : M W (result Answer.t) :=
  let! resp := handle (Request.route r)
                 (HttpRequest.mk (list_to_map (Request.query r)) (Request.id r) (encode_json (Request.payload r)) rid) in
  ret (Ok (Answer.mk (HttpResponse.Code resp) (encode (HttpResponse.body resp)) (Ok (HttpResponse.body resp)))).
Definition served (A : Type) (e : shellE A) : M W A :=
  match e in shellE A return M W A with
  | Ask r => serve_ask r
  | AskOther m path => other m path
  | AskBench _ _ => ret (Err (EOpaque "not served here"))
  | Println _ | PrintTable _ | Warn _ => skip
  | PrintJSON _ | PrintBenchJSON _ | WriteKey _ _ => ret None
  | Getenv _ => ret ""
  end.
(** The error that a command ends with. *)
Definition outcome (p : shell (option error)) (w : W) : option error := fst (interp served p w).

Lemma outcome_lines l (k : shell (option error)) w : outcome (do* print_lines l in k) w = outcome k w.
Proof. induction l as [|x l IH]; [done|]. exact IH. Qed.

(** A command that says so when its request succeeded. *)
Lemma outcome_answering r what (k : Answer.t -> shell (option error)) w :
  (forall a v, outcome (k a) v = None) ->
  outcome (let* a := ask_target (AtRoute r) in answering a 200 what k) w = None <->
  HttpResponse.Code (fst (handle (Request.route r)
    (HttpRequest.mk (list_to_map (Request.query r)) (Request.id r) (encode_json (Request.payload r)) rid) w)) = 200%Z.
Proof.
  intros Hk. unfold outcome, answering, ask_target. cbn [pbind trigger interp served]. unfold serve_ask, bind at 1 2.
  destruct (handle _ _ w) as [resp v]. cbn [fst ret Answer.StatusCode].
  destruct (Z.eqb_spec (HttpResponse.Code resp) 200) as [Hc|Hc]; [|by split].
  split; [done|]. intros _. apply Hk.
Qed.

(** The requests of the commands, for an id that the client sends unchanged. *)
Lemma delete_target_plain id :
  plain id = true -> delete_target id = Ok (AtRoute (Request.mk DELETE_sessions_id id [] [])).
Proof.
  intros Hid. apply plain_target; [done..|]. unfold session_route. rewrite append_empty, Cut_none by by apply plain_no_slash.
  by rewrite plain_nonempty.
Qed.
Lemma post_target_plain id last route payload :
  plain id = true -> all_bytes (fun c => plain_byte c || Ascii.eqb c "/") last = true ->
  (forall i, i <> "" -> session_route POST (i +:+ String "/" last) = Some (route, i) \/
                        all_bytes (fun c => negb (Ascii.eqb c "/")) i = false) ->
  session_target POST id (String "/" last) payload = Ok (AtRoute (Request.mk route id [] payload)).
Proof.
  intros Hid Hl Hr. apply plain_target; [done|by cbn|]. destruct (Hr id) as [|Hno]; [|done|].
  - intros ->. by apply plain_nonempty in Hid.
  - by rewrite plain_no_slash in Hno.
Qed.
Lemma post_route id last route :
  last = "done" /\ route = POST_sessions_id_done \/ last = "extend" /\ route = POST_sessions_id_extend ->
  id <> "" -> session_route POST (id +:+ String "/" last) = Some (route, id) \/
              all_bytes (fun c => negb (Ascii.eqb c "/")) id = false.
Proof.
  intros Hl Hid. destruct (all_bytes _ id) eqn:Hs; [left|by right]. unfold session_route.
  rewrite Cut_here by done. rewrite bool_decide_false by done. by destruct Hl as [[-> ->]|[-> ->]].
Qed.

Lemma on_error_code e rid' (r : HttpResponse.t) :
  HttpResponse.Code r <> 200%Z -> HttpResponse.Code (on_error rid' e r) <> 200%Z.
Proof. by destruct e. Qed.

(** The three operations that answer 200 exactly when the service had no error. *)
Lemma delete_answers q id body w :
  HttpResponse.Code (fst (handleDeleteSession (HttpRequest.mk q id body rid) w)) = 200%Z <->
  fst (provisioner_DestroySession id w) = None.
Proof.
  unfold handleDeleteSession, bind. cbn [HttpRequest.id HttpRequest.request_id].
  destruct (provisioner_DestroySession id w) as [[e|] v]; cbn; [|done]. split; [|done].
  intros Hc. exfalso. revert Hc. apply on_error_code. by destruct (_ || _).
Qed.
Lemma done_answers q id body w :
  HttpResponse.Code (fst (handleSessionDone (HttpRequest.mk q id body rid) w)) = 200%Z <->
  fst (lifecycle_SignalDone id w) = None.
Proof.
  unfold handleSessionDone, bind. cbn [HttpRequest.id HttpRequest.request_id].
  destruct (lifecycle_SignalDone id w) as [[e|] v]; cbn; [|done]. split; [|done].
  intros Hc. exfalso. revert Hc. apply on_error_code. cbn. unfold done_status. by repeat case_match.
Qed.
Lemma extend_answers q id body h w :
  bind_extend body = Ok h ->
  HttpResponse.Code (fst (handleExtendSession (HttpRequest.mk q id body rid) w)) = 200%Z ->
  fst (lifecycle_ExtendSession id h w) = None.
Proof.
  intros Hb. unfold handleExtendSession, bind. cbn [HttpRequest.id HttpRequest.request_id HttpRequest.body].
  rewrite Hb. destruct (lifecycle_ExtendSession id h w) as [[e|] v]; cbn; [|done].
  intros Hc. exfalso. revert Hc. apply on_error_code. cbn. unfold extend_status. by repeat case_match.
Qed.

(** C39.  For an id of unreserved bytes, as the server gives them: the commands that end a
    session report success exactly when the server's service did: [sessions delete] and
    [shutdown --force] when the provisioner destroyed the session, [sessions done] and
    [shutdown] when the lifecycle manager took the signal; [sessions extend] reports success
    only when the lifecycle manager extended the session.  An id with other bytes is pasted
    into the URL unescaped: see [delete_cuts_id] and [bad_escape_panics]. *)
Theorem session_commands_report id hours force w :
  plain id = true ->
  (outcome (runSessionsDelete id) w = None <-> fst (provisioner_DestroySession id w) = None) /\
  (outcome (runSessionsDone id) w = None <-> fst (lifecycle_SignalDone id w) = None) /\
  (outcome (runShutdown force id) w = None <->
     fst ((if force : bool then provisioner_DestroySession id else lifecycle_SignalDone id) w) = None) /\
  (forall h, bind_extend (encode_json [("additional_hours", Number hours)]) = Ok h ->
     outcome (runSessionsExtend rfc3339 id hours) w = None -> fst (lifecycle_ExtendSession id h w) = None).
Proof.
  intros Hid. pose proof (delete_target_plain id Hid) as Hdel.
  assert (done_target id = Ok (AtRoute (Request.mk POST_sessions_id_done id [] []))) as Hdone
    by (apply post_target_plain; [done..|]; intros i; apply post_route; auto).
  split_and!.
  - unfold runSessionsDelete, doing. rewrite Hdel, outcome_answering by done. apply delete_answers.
  - unfold runSessionsDone, doing. rewrite Hdone, outcome_answering by done. apply done_answers.
  - unfold runShutdown, doing. destruct force.
    + rewrite Hdel, outcome_answering by done. apply delete_answers.
    + rewrite Hdone, outcome_answering by done. apply done_answers.
  - intros h Hb. unfold runSessionsExtend.
    rewrite (post_target_plain id "extend" POST_sessions_id_extend) by
      (first [done|intros i; apply post_route; auto]).
    rewrite outcome_answering; [by apply extend_answers|].
    intros a v. unfold outcome. cbn [pbind trigger interp served]. unfold bind at 1. cbn.
    destruct (Answer.content a) as [[]|]; try done. by destruct new_expires_at.
Qed.

(** What follows a [#] is not sent: [sessions delete S#x] destroys the session [S] and says
    that [S#x] is destroyed. *)
Theorem delete_cuts_id id rest w :
  plain id = true -> unescape rest <> None ->
  outcome (runSessionsDelete (id +:+ "#" +:+ rest)) w = None <-> fst (provisioner_DestroySession id w) = None.
Proof.
  intros Hid Hrest.
  assert (delete_target (id +:+ "#" +:+ rest) = Ok (AtRoute (Request.mk DELETE_sessions_id id [] []))) as Hdel.
  { pose proof (delete_target_plain id Hid) as Hd. revert Hd. unfold delete_target, session_target, parse_path.
    rewrite !append_empty. change (id +:+ "#" +:+ rest) with (id +:+ String "#" rest). rewrite (Cut_none "#" id), (Cut_here "#" id rest).
    - change (unescape (default "" (Some rest))) with (unescape rest). destruct (no_control id); [|by intros [=]].
      destruct (unescape (Cut "?" id).1); [|by intros [=]]. by destruct (unescape rest).
    - eapply all_bytes_mono; [|by apply andb_true_iff in Hid as [_ Hid]]. intros c. by apply plain_byte_other.
    - eapply all_bytes_mono; [|by apply andb_true_iff in Hid as [_ Hid]]. intros c. by apply plain_byte_other. }
  unfold runSessionsDelete, doing. rewrite Hdel, outcome_answering by done. apply delete_answers.
Qed.
(** A percent sign that is not followed by two hexadecimal digits: the commands that drop the
    error of [http.NewRequest] panic, the others report it. *)
Theorem bad_escape_panics w :
  outcome (runSessionsDelete "S%zz") w = Some nil_request /\
  outcome (runSessionsDone "S%zz") w = Some nil_request /\
  (forall force, outcome (runShutdown force "S%zz") w = Some nil_request) /\
  (forall hours, outcome (runSessionsExtend rfc3339 "S%zz" hours) w = Some (cannot_connect (EOpaque "invalid URL escape"))).
Proof. split_and!; [done|done|by intros []|done]. Qed.
End Served.

(** ** The private key of a new session *)

(** It is printed, or saved to the file, or could not be saved. *)
Definition key_handled (saveKey key : string) (h : list (event shellE)) : Prop :=
  if bool_decide (saveKey = "") then Ev (Println key) tt ∈ h
  else exists e, Ev (WriteKey saveKey key) e ∈ h.

Lemma watch_print_lines l (h : list (event shellE)) :
  watch recorder (print_lines l) (fun _ h' => (forall x, x ∈ h -> x ∈ h') /\ forall x, x ∈ l -> Ev (Println x) tt ∈ h') h.
Proof.
  revert h. induction l as [|x l IH]; intros h; cbn [print_lines].
  { apply watch_ret. split; [done|]. intros x Hx. by apply not_elem_of_nil in Hx. }
  apply watch_bind, watch_trigger. intros [] _. split; [done|].
  eapply watch_mono; [apply IH|]. cbn. intros _ h' [Hh Hl]. split; [set_solver|].
  intros y [->|Hy]%elem_of_cons; [apply Hh, list_elem_of_here|by apply Hl].
Qed.

(** What has happened has happened. *)
Lemma watch_after {A} (p : shell A) (P : list (event shellE) -> Prop) h :
  (forall x h, P h -> P (x :: h)) -> P h -> watch recorder p (fun _ h' => P h') h.
Proof. intros HP Hh. apply watch_stable; [|exact Hh]. intros x h' _ Hh'. split; [done|by apply HP]. Qed.

Lemma key_handled_after saveKey key x h : key_handled saveKey key h -> key_handled saveKey key (x :: h).
Proof. unfold key_handled. case_bool_decide; [set_solver|]. intros [e He]. exists e. set_solver. Qed.

Lemma watch_deliver_key saveKey key h :
  watch recorder (deliver_key saveKey key) (fun _ h' => key_handled saveKey key h') h.
Proof.
  unfold deliver_key, key_handled. case_bool_decide.
  - eapply watch_mono; [apply watch_print_lines|]. intros _ h' [_ Hl]. apply Hl. unfold show_key. set_solver.
  - apply watch_bind, watch_trigger. intros e _. split; [done|].
    apply (watch_after _ (fun h => exists e, Ev (WriteKey saveKey key) e ∈ h)).
    + intros x h' [e' He]. exists e'. set_solver.
    + exists e. apply list_elem_of_here.
Qed.

Section Provision.
Context (rfc3339 : time -> string).

Lemma watch_print_provisioned saveKey b h :
  watch recorder (print_provisioned rfc3339 saveKey b)
    (fun _ h' => key_member b <> "" -> key_handled saveKey (key_member b) h') h.
Proof.
  unfold print_provisioned. cbv zeta.
  do 2 (eapply watch_seq; [apply (watch_after _ (fun _ => True)); done|intros _ ? _]).
  case_bool_decide as Hk.
  { apply watch_bind, watch_ret. by apply (watch_after _ (fun _ => key_member b <> "" -> _)); [done|intros []]. }
  apply watch_bind, watch_bind. eapply watch_mono; [apply watch_deliver_key|]. intros [] h2 Hh2.
  eapply watch_mono; [apply (watch_after _ (key_handled saveKey (key_member b)) _ (key_handled_after _ _) Hh2)|].
  intros u h3 Hh3. eapply watch_mono; [apply (watch_after _ (key_handled saveKey (key_member b)) _ (key_handled_after _ _) Hh3)|].
  by intros u' h4 Hh4 _.
Qed.

(** The session that the command asked for: the answer, and the offer it named. *)
Definition created (f : ProvisionFlags.t) (offerID : string) (b : Body) (h : list (event shellE)) : Prop :=
  exists a, Ev (Ask (Request.mk POST_sessions "" [] (provision_payload f offerID))) (Ok a) ∈ h /\
    Answer.StatusCode a = 201%Z /\ Answer.content a = Ok b.
Lemma created_after f o b x h : created f o b h -> created f o b (x :: h).
Proof. intros (a & Ha & Hrest). exists a. split; [set_solver|exact Hrest]. Qed.

(** When [provision] succeeds the server created a session for the request of the flags
    with a named offer, and its answer was either written as JSON or its private key, when it
    has one, was printed, or handed to the file of [--save-key]. *)
Theorem provision_delivers_key out f h :
  watch recorder (runProvision rfc3339 out f)
    (fun r h' => r = None -> exists offerID b, offerID <> "" /\ created f offerID b h' /\
       match out with
       | FormatJSON => Ev (PrintJSON b) None ∈ h'
       | FormatTable => key_member b <> "" -> key_handled (ProvisionFlags.SaveKey f) (key_member b) h'
       end) h.
Proof.
  unfold runProvision. destruct (negb _); [by apply watch_ret|].
  eapply watch_seq; [apply (watch_after _ (fun _ => True)); done|]. intros [offerID|e] h1 _; [|by apply watch_ret].
  case_bool_decide as Ho; [by apply watch_ret|]. unfold asking, answering. apply watch_bind, watch_trigger.
  intros [a|e] _; (split; [done|]); [|by apply watch_ret].
  destruct (Z.eqb_spec (Answer.StatusCode a) 201) as [Hc|]; [|by apply watch_ret].
  unfold decoding. destruct (Answer.content a) as [b|e] eqn:Hb; [|by apply watch_ret].
  cbn [next recorder].
  match goal with |- watch _ _ _ ?l => assert (created f offerID b l) as Hnew
    by (exists a; split; [apply list_elem_of_here|done]) end.
  unfold presenting. destruct out.
  - apply watch_trigger. intros e _. split; [done|]. intros ->. exists offerID, b.
    split; [done|]. split; [by apply created_after|apply list_elem_of_here].
  - apply watch_bind. eapply watch_mono.
    { apply watch_and; [apply watch_print_provisioned|].
      apply (watch_after _ (created f offerID b) _ (created_after _ _ _) Hnew). }
    cbn beta. intros _ h' [Hkey Hcr]. apply watch_ret. intros _. by exists offerID, b.
Qed.

(** With JSON as the output [--save-key] is ignored. *)
Definition unwritten (B : Type) (e : shellE B) : bool := match e with WriteKey _ _ => false | _ => true end.
Theorem json_saves_nothing f : only unwritten (runProvision rfc3339 FormatJSON f).
Proof.
  unfold runProvision. destruct (negb _); [done|]. apply only_bind.
  - unfold chosen_offer. destruct (_ && _); [|done]. apply only_bind; [by apply only_trigger|]. intros a.
    destruct (selectCheapestOffer _ a); [|done]. apply only_bind; [by apply only_trigger|done].
  - intros [offerID|e]; [|done]. case_bool_decide; [done|]. unfold asking, answering.
    apply only_bind; [by apply only_trigger|]. intros [a|e]; [|done]. destruct (Answer.StatusCode a =? 201)%Z; [|done].
    unfold decoding. destruct (Answer.content a); [|done]. by apply only_trigger.
Qed.
End Provision.
