(* ===== verification/Metrics.v ===== *)
(** The metrics of [internal/metrics/metrics.go] over a registry of metric families, the
    count of sessions they start from ([storage/sessions.go] and [cmd/server/main.go]), and
    the gauge of sessions: what each service tells it of the sessions it writes, and that it
    says what the table holds. *)
From S2P Require Import Prelude GoFloat GoLib GoStrings Models Errors Interfaces Database SessionTable.
From S2P Require Import Lifecycle Provisioner Disk CreateSession Verify Reconciler.
#[local] Set Warnings "-clear-no-such-hyp".

(** ** The Prometheus client

    A series is a family with the values of its labels.  [add] is [Inc], [Dec] and [Add] of a
    whole number, [set] is [Set]; amounts and observations that are not whole numbers are
    [add_amount], [set_amount] and [observe]. *)
Class Prometheus (G : Type) := {
  add : string -> list string -> Z -> G -> G;
  set : string -> list string -> Z -> G -> G;
  add_amount : string -> list string -> f64 -> G -> G;
  set_amount : string -> list string -> f64 -> G -> G;
  observe : string -> list string -> f64 -> G -> G;
  (** the value of a counter or gauge, 0 before its first use *)
  value : string -> list string -> G -> Z
}.
Class PrometheusLaws (G : Type) `{Prometheus G} : Prop := {
  value_add : forall m l n g, value m l (add m l n g) = (value m l g + n)%Z;
  value_add_ne : forall m l m' l' n g, (m, l) <> (m', l') -> value m l (add m' l' n g) = value m l g;
  value_set : forall m l n g, value m l (set m l n g) = n;
  value_set_ne : forall m l m' l' n g, (m, l) <> (m', l') -> value m l (set m' l' n g) = value m l g
}.

(** [SessionCount]. *)
Module SessionCount.
Record t := mk { Provider : string; Status : string; Count : Z }.
End SessionCount.

(** The families, by their names. *)
Definition SessionsActive : string := "gpu_sessions_active".
Definition ReconciliationMismatches : string := "gpu_reconciliation_mismatches_total".

Section Metrics.
Context {G : Type} `{Prometheus G}.

Definition inc (family : string) (labels : list string) : G -> G := add family labels 1.
Definition dec (family : string) (labels : list string) : G -> G := add family labels (-1).
(** [d.Seconds()]. *)
Definition in_seconds (d : duration) : f64 :=
  fadd (f64_of_Z (Z.quot d Second)) (fdiv (f64_of_Z (Z.rem d Second)) (f64_of_Z Second)).
Definition seconds (family : string) (labels : list string) (d : duration) : G -> G :=
  observe family labels (in_seconds d).

Definition RecordSessionCreated (provider : string) : G -> G := inc "gpu_sessions_created_total" [provider].
Definition RecordSessionDestroyed (provider reason : string) : G -> G :=
  inc "gpu_sessions_destroyed_total" [provider; reason].
Definition RecordOrphanDetected (g : G) : G :=
  inc ReconciliationMismatches [] (inc "gpu_orphans_detected_total" [] g).
Definition RecordGhostDetected (g : G) : G :=
  inc ReconciliationMismatches [] (inc "gpu_ghosts_detected_total" [] g).
Definition RecordDestroyFailure : G -> G := inc "gpu_destroy_failures_total" [].
Definition RecordProviderError (provider operation : string) : G -> G :=
  inc "gpu_provider_api_errors_total" [provider; operation].
Definition UpdateSessionStatus (provider oldStatus newStatus : string) (g : G) : G :=
  let g := if bool_decide (oldStatus = "") then g else dec SessionsActive [provider; oldStatus] g in
  if bool_decide (newStatus = "") then g else inc SessionsActive [provider; newStatus] g.
Definition RecordSSHVerifyDuration (provider : string) : duration -> G -> G :=
  seconds "gpu_ssh_verify_duration_seconds" [provider].
Definition RecordSSHVerifyFailure : G -> G := inc "gpu_ssh_verify_failures_total" [].
Definition RecordSSHVerifyAttempts (provider : string) (attempts : Z) : G -> G :=
  observe "gpu_ssh_verify_attempts" [provider] (f64_of_Z attempts).
Definition RecordSSHVerifyError (provider errorType : string) : G -> G :=
  inc "gpu_ssh_verify_errors_by_type" [provider; errorType].
Definition RecordHardMaxEnforced : G -> G := inc "gpu_hard_max_enforced_total" [].
Definition RecordCost (provider : string) (amount : f64) : G -> G := add_amount "gpu_cost_accrued_usd" [provider] amount.
Definition RecordBudgetAlert (alertType : string) : G -> G := inc "gpu_budget_alerts_total" [alertType].
Definition RecordAPIVerifyDuration (provider : string) : duration -> G -> G :=
  seconds "gpu_api_verify_duration_seconds" [provider].
Definition RecordAPIVerifyFailure : G -> G := inc "gpu_api_verify_failures_total" [].
Definition RecordProvisioningDuration (provider : string) : duration -> G -> G :=
  seconds "gpu_provisioning_duration_seconds" [provider].
Definition RecordProviderAPIResponseTime (provider operation : string) : duration -> G -> G :=
  seconds "gpu_provider_api_response_time_seconds" [provider; operation].
Definition RecordProviderAPICall (provider operation status : string) : G -> G :=
  inc "gpu_provider_api_calls_total" [provider; operation; status].
Definition UpdateProviderCircuitBreakerState (provider : string) (state : Z) : G -> G :=
  set "gpu_provider_circuit_breaker_state" [provider] state.
Definition RecordHTTPRequest (method path status : string) (d : duration) (g : G) : G :=
  inc "http_requests_total" [method; path; status] (seconds "http_request_duration_seconds" [method; path; status] d g).
Definition RecordRetryAttempt (provider scope reason : string) : G -> G :=
  inc "gpu_session_retry_attempts_total" [provider; scope; reason].
Definition RecordRetrySuccess (provider scope : string) : G -> G :=
  inc "gpu_session_retry_successes_total" [provider; scope].
Definition RecordRetryExhausted (provider scope : string) : G -> G :=
  inc "gpu_session_retry_exhausted_total" [provider; scope].
Definition RecordDiskAvailable (provider : string) (gb : f64) : G -> G :=
  set_amount "gpu_session_disk_available_gb" [provider] gb.
Definition RecordOfferFailure (provider gpuType failureType : string) : G -> G :=
  inc "gpu_offer_failures_total" [provider; gpuType; failureType].

Definition InitializeSessionMetrics (counts : list SessionCount.t) (g : G) : G :=
  fold_left (fun g c =>
    set SessionsActive [SessionCount.Provider c; SessionCount.Status c] (SessionCount.Count c) g) counts g.

(** What the services report as effects, those whose series say something of sessions. *)
Definition report (e : Effect) : G -> G :=
  match e with
  | Prom name [provider; old; new] => if bool_decide (name = "UpdateSessionStatus") then UpdateSessionStatus provider old new else id
  | Prom name [provider; reason] => if bool_decide (name = "RecordSessionDestroyed") then RecordSessionDestroyed provider reason else id
  | Prom name [provider] => if bool_decide (name = "RecordSessionCreated") then RecordSessionCreated provider else id
  | _ => id
  end.
Definition reports (l : list Effect) (g : G) : G := fold_left (fun g e => report e g) l g.
End Metrics.

(** ** The counts that the server starts from *)

(** The statuses that [CountSessionsByProviderAndStatus] leaves out. *)
Definition uncounted (s : SessionStatus) : bool := bool_decide (s = StatusStopped) || bool_decide (s = StatusFailed).
Definition key_of (r : SessionRow.t) : string * SessionStatus := (SessionRow.provider r, SessionRow.status r).
(** The entries with a provider and a status. *)
Definition count_by {A} (key : A -> string * SessionStatus) (tbl : gmap string A) (k : string * SessionStatus) : Z :=
  Z.of_nat (size (filter (fun x : string * A => key x.2 = k) tbl)).
(** The number of rows of a provider with a status. *)
Definition tally : gmap string SessionRow.t -> string * SessionStatus -> Z := count_by key_of.
(** [GROUP BY provider, status]. *)
Definition groups (tbl : gmap string SessionRow.t) : list (string * SessionStatus) :=
  remove_dups (key_of <$> List.filter (fun r => negb (uncounted (SessionRow.status r))) (map_to_list tbl).*2).

Section Counts.
Context {W : Type} `{HasDB W}.
Definition CountSessionsByProviderAndStatus : M W (result (list SessionCount.t)) :=
  let! r := sql (fun d =>
    (Ok ((fun k => SessionCount.mk k.1 (status_string k.2) (tally (DB.sessions d) k)) <$> groups (DB.sessions d)), d)) in
  ret match r with
      | Ok l => Ok l
      | Err e => Err (EWrap "failed to count sessions" e)
      end.
(** [main]: the gauge is set from the counts; without them it stays as it is. *)
Definition initialize_metrics {G} `{Prometheus G} (g : G) : M W G :=
  let! counts := CountSessionsByProviderAndStatus in
  ret match counts with Ok l => InitializeSessionMetrics l g | Err _ => g end.
End Counts.

(** ** The gauge of sessions *)
Section Gauge.
Context {G : Type} `{Prometheus G} `{!PrometheusLaws G}.

Lemma status_string_inj : Inj (=) (=) status_string.
Proof. by intros [] []. Qed.
#[local] Existing Instance status_string_inj.

(** The gauge of a provider and a status. *)
Definition gauge (k : string * SessionStatus) (g : G) : Z := value SessionsActive [k.1; status_string k.2] g.

Lemma gauge_add k k' n g :
  gauge k (add SessionsActive [k'.1; status_string k'.2] n g) = (gauge k g + if decide (k = k') then n else 0)%Z.
Proof.
  unfold gauge. destruct (decide (k = k')) as [->|Hk]; [apply value_add|].
  rewrite value_add_ne; [lia|]. intros [= Hp Hs%(inj _)]. by destruct k, k'; cbn in *; subst.
Qed.
Lemma gauge_set k k' n g :
  gauge k (set SessionsActive [k'.1; status_string k'.2] n g) = if decide (k = k') then n else gauge k g.
Proof.
  unfold gauge. destruct (decide (k = k')) as [->|Hk]; [apply value_set|].
  apply value_set_ne. intros [= Hp Hs%(inj _)]. by destruct k, k'; cbn in *; subst.
Qed.

Definition status_name (s : option SessionStatus) : string := default "" (status_string <$> s).
Definition unit_at (k : string * SessionStatus) (p : string) (s : option SessionStatus) : Z :=
  match s with Some st => if decide ((p, st) = k) then 1 else 0 | None => 0 end.
Lemma gauge_update k p old new g :
  gauge k (UpdateSessionStatus p (status_name old) (status_name new) g) =
  (gauge k g - unit_at k p old + unit_at k p new)%Z.
Proof.
  unfold UpdateSessionStatus, inc, dec, unit_at.
  assert (forall n x g, gauge k (if bool_decide (status_name x = "") then g
      else add SessionsActive [p; status_name x] n g) =
      (gauge k g + n * match x with Some st => if decide ((p, st) = k) then 1 else 0 | None => 0 end)%Z) as Hstep.
  { intros n [s|] g'.
    - change (status_name (Some s)) with (status_string s). rewrite bool_decide_false by by destruct s.
      pose proof (gauge_add k (p, s) n g') as Ha. cbn [fst snd] in Ha. rewrite Ha.
      do 2 case_decide; try lia; congruence.
    - change (status_name None) with "". rewrite bool_decide_true by done. lia. }
  rewrite !Hstep. lia.
Qed.

(** *** The count of a table *)
Lemma count_new {A} (key : A -> string * SessionStatus) tbl id r k :
  tbl !! id = None -> count_by key (<[id := r]> tbl) k = (count_by key tbl k + if decide (key r = k) then 1 else 0)%Z.
Proof.
  intros Hid. unfold count_by. rewrite map_filter_insert. cbn. destruct (decide (key r = k)).
  - rewrite map_size_insert_None by (by apply map_lookup_filter_None_2; left). lia.
  - rewrite delete_id by done. lia.
Qed.
Lemma count_moved {A} (key : A -> string * SessionStatus) tbl id old r k :
  tbl !! id = Some old ->
  count_by key (<[id := r]> tbl) k =
  (count_by key tbl k + (if decide (key r = k) then 1 else 0) - (if decide (key old = k) then 1 else 0))%Z.
Proof.
  intros Hid. rewrite <-(insert_delete_eq tbl).
  replace (count_by key tbl k) with (count_by key (<[id := old]> (delete id tbl)) k) by by rewrite insert_delete_id.
  rewrite !count_new by apply lookup_delete_eq. lia.
Qed.

(** *** At the start *)
Lemma gauge_initialize (l : list (string * SessionStatus)) (count : string * SessionStatus -> Z) g k :
  gauge k (InitializeSessionMetrics ((fun k => SessionCount.mk k.1 (status_string k.2) (count k)) <$> l) g) =
  if decide (k ∈ l) then count k else gauge k g.
Proof.
  unfold InitializeSessionMetrics. revert g. induction l as [|x l IH]; intros g; cbn [fmap list_fmap fold_left].
  { by rewrite decide_False by set_solver. }
  rewrite IH. cbn [SessionCount.Provider SessionCount.Status SessionCount.Count]. rewrite gauge_set.
  destruct (decide (k ∈ l)) as [Hk|Hk], (decide (k = x)) as [->|Hx].
  - by rewrite decide_True by set_solver.
  - by rewrite decide_True by set_solver.
  - by rewrite decide_True by set_solver.
  - by rewrite decide_False by set_solver.
Qed.

Lemma elem_of_groups tbl k : k ∈ groups tbl <-> uncounted k.2 = false /\ exists id r, tbl !! id = Some r /\ key_of r = k.
Proof.
  unfold groups. rewrite elem_of_remove_dups, list_elem_of_fmap. setoid_rewrite list_elem_of_In.
  setoid_rewrite filter_In. setoid_rewrite <-list_elem_of_In. setoid_rewrite list_elem_of_fmap. split.
  - intros (r & -> & ([id r'] & -> & Hr%elem_of_map_to_list) & Hs). cbn in *.
    split; [by destruct (uncounted _)|]. by exists id, r'.
  - intros (Hs & id & r & Hr & <-). exists r. split; [done|]. cbn in Hs. split; [|by rewrite Hs].
    exists (id, r). split; [done|]. by apply elem_of_map_to_list.
Qed.
Lemma tally_zero tbl k : (forall id r, tbl !! id = Some r -> key_of r <> k) -> tally tbl k = 0%Z.
Proof.
  intros Hno. unfold tally, count_by. rewrite map_empty_filter_2; [by rewrite map_size_empty|].
  intros id r Hr. by apply (Hno id).
Qed.

(** From an empty registry the gauges of the counted statuses show the table. *)
Lemma gauge_start tbl g k :
  gauge k g = 0%Z -> uncounted k.2 = false ->
  gauge k (InitializeSessionMetrics
    ((fun k => SessionCount.mk k.1 (status_string k.2) (tally tbl k)) <$> groups tbl) g) = tally tbl k.
Proof.
  intros Hg Hu. rewrite gauge_initialize, Hg. case_decide as Hk; [done|]. rewrite tally_zero; [done|].
  intros id r Hr Hkr. apply Hk, elem_of_groups. split; [done|]. by exists id, r.
Qed.
End Gauge.

(** ** The calls of [UpdateSessionStatus] *)

(** Its calls so far, in order: the provider, the old status and the new one. *)
Definition change : Type := string * string * string.
Class ReportLog (W : Type) := status_reports : W -> list change.

Definition unreported {W A} `{ReportLog W} (m : M W A) : Prop :=
  forall w, wp m (fun _ w' => status_reports w' = status_reports w) w.
Definition status_report (e : Effect) : list change :=
  match e with
  | Prom name [provider; old; new] => if bool_decide (name = "UpdateSessionStatus") then [(provider, old, new)] else []
  | _ => []
  end.

(** The services report with [emit]; what they call does not. *)
Class ReportLaws (W : Type) `{ReportLog W} `{SessionStore W} `{Env W} `{Random W} `{CostRecorder W} `{Verifiers W}
    (reg : gmap string (Provider.t W)) (inventory : option (InventoryFinder.t W)) : Prop := {
  emit_reports : forall e w,
    wp (emit e) (fun _ w' => status_reports w' = status_reports w ++ status_report e) w;
  store_unreported :
    (forall s, unreported (Create s)) /\ (forall id, unreported (Get id)) /\ (forall s, unreported (Update s)) /\
    (forall f, unreported (ListInternal f)) /\ (forall c o, unreported (GetActiveSessionByConsumerAndOffer c o));
  env_unreported :
    unreported now /\ unreported time_Now /\ (forall d, unreported (wait d)) /\ unreported new_uuid /\
    unreported generateSSHKeyPair /\ unreported rand_IntN;
  cost_unreported : forall record s, RecordFinalCost = Some record -> unreported (record s);
  verifiers_unreported : (forall h p u k, unreported (VerifyOnce h p u k)) /\ (forall u, unreported (CheckHealth u));
  providers_unreported : forall n p, reg !! n = Some p ->
    unreported (Provider.ListAllInstances p) /\ (forall r, unreported (Provider.CreateInstance p r)) /\
    (forall i, unreported (Provider.DestroyInstance p i)) /\ (forall i, unreported (Provider.GetInstanceStatus p i)) /\
    (forall m, Provider.GetAccountBalance p = Some m -> unreported m);
  inventory_unreported : forall inv, inventory = Some inv ->
    (forall o sc ids ms, unreported (InventoryFinder.FindComparableOffers inv o sc ids ms)) /\
    (forall id, unreported (InventoryFinder.GetOffer inv id)) /\
    (forall a b c d e, unreported (InventoryFinder.RecordOfferFailure inv a b c d e)) /\
    (forall id, unreported (InventoryFinder.EvictOffer inv id))
}.

Section Services.
Context {G : Type} `{Prometheus G} `{!PrometheusLaws G} (g0 : G).
Context {W : Type} `{SessionStore W} `{Env W} `{Random W} `{CostRecorder W} `{Verifiers W} `{MapRange} `{Ghost W}.
Context `{!StoreLaws W} `{!EnvLaws W} `{!RandomLaws W} `{!CostRecorderLaws W} `{!VerifierLaws W} `{!MapRangeLaws}.
Context (reg : gmap string (Provider.t W)) (inventory : option (InventoryFinder.t W)) `{!ProviderLaws W reg}.
Context `{Hinv : !forall inv, inventory = Some inv -> InventoryLaws W inv}.
Context `{!ReportLog W} `{!ReportLaws W reg inventory}.

(** The registry after the calls; the gauge of a provider and a status; the number of the
    sessions it is of. *)
Definition told (w : W) : G :=
  fold_left (fun g '(provider, old, new) => UpdateSessionStatus provider old new g) (status_reports w) g0.
Definition level (w : W) (k : string * SessionStatus) : Z := gauge k (told w).
Definition session_key (s : Session.t) : string * SessionStatus := (Session.Provider s, Session.Status s).
Definition held (w : W) : string * SessionStatus -> Z := count_by session_key (sess_view w).

(** ** Operations that neither write sessions nor report *)
Definition hush (w w' : W) : Prop := quiet w w' /\ status_reports w' = status_reports w.
#[local] Instance hush_preorder : PreOrder hush.
Proof.
  split; [by split|]. intros u v w [Hu Hlu] [Hv Hlv]. split; [by etrans|congruence].
Qed.
Definition still {A} (m : M W A) : Prop := forall w, wp m (fun _ w' => hush w w') w.

Lemma still_intro {A} (m : M W A) : frame m -> unreported m -> still m.
Proof. intros Hf Hu w. eapply wp_mono; [apply wp_and; [apply Hf|apply Hu]|]. by intros a w' []. Qed.
Lemma still_ret {A} (a : A) : still (ret a).
Proof. intros w. by apply wp_ret. Qed.
Lemma still_bind {A B} (m : M W A) (k : A -> M W B) : still m -> (forall a, still (k a)) -> still (bind m k).
Proof.
  intros Hm Hk w. apply wp_bind. eapply wp_mono; [apply Hm|]. intros a v Hv.
  eapply wp_mono; [apply Hk|]. intros b u Hu. by trans v.
Qed.
Lemma still_when b (m : M W unit) : still m -> still (when b m).
Proof. intros Hm. destruct b; [done|apply still_ret]. Qed.
Lemma still_emit e : status_report e = [] -> still (emit e).
Proof.
  intros He. apply still_intro; [apply emit_frame|]. intros w. eapply wp_mono; [apply emit_reports|].
  intros u w' Hr. by rewrite Hr, He, app_nil_r.
Qed.
Lemma still_now : still now.
Proof. apply still_intro; [apply frame_now|apply env_unreported]. Qed.
Lemma still_Get id : still (Get id).
Proof.
  apply still_intro; [|apply store_unreported]. intros w. eapply wp_mono; [apply Get_spec|]. by intros r w' [].
Qed.
Lemma still_list f : still (ListInternal f).
Proof.
  apply still_intro; [|apply store_unreported]. intros w. eapply wp_mono; [apply List_spec|]. by intros r w' [].
Qed.
Lemma still_active c o : still (GetActiveSessionByConsumerAndOffer c o).
Proof.
  apply still_intro; [|apply store_unreported]. intros w. eapply wp_mono; [apply GetActive_spec|]. by intros r w' [].
Qed.
Lemma still_provider n p : reg !! n = Some p ->
  still (Provider.ListAllInstances p) /\ (forall r, still (Provider.CreateInstance p r)) /\
  (forall i, still (Provider.DestroyInstance p i)) /\ (forall i, still (Provider.GetInstanceStatus p i)) /\
  (forall m, Provider.GetAccountBalance p = Some m -> still m).
Proof.
  intros Hp. destruct (prov_frame _ _ Hp) as (_ & Hl & Hc & Hd & Hg & Hb).
  destruct (providers_unreported _ _ Hp) as (Ul & Uc & Ud & Ug & Ub).
  split_and!; intros; apply still_intro; auto.
Qed.
Lemma still_destroy n p i : reg !! n = Some p -> still (Provider.DestroyInstance p i).
Proof. intros Hp. by destruct (still_provider _ _ Hp) as (_ & _ & Hd & _). Qed.
Lemma wp_still {A B} (m : M W A) (k : A -> M W B) Q w :
  still m -> (forall a v, hush w v -> wp (k a) Q v) -> wp (bind m k) Q w.
Proof. intros Hm Hk. apply wp_bind. eapply wp_mono; [apply Hm|]. exact Hk. Qed.

(** ** The difference of a gauge and its sessions *)
Definition gap (w : W) (k : string * SessionStatus) : Z := (level w k - held w k)%Z.
(** It stays for the counted statuses, unless the database fails. *)
Definition in_step (w w' : W) : Prop :=
  later w w' /\ (healthy w -> forall k, uncounted k.2 = false -> gap w' k = gap w k).
#[local] Instance in_step_preorder : PreOrder in_step.
Proof.
  split; [by split|]. intros u v w [Hl Hg] [Hl' Hg']. split; [by trans v|]. intros Hu k Hk.
  rewrite Hg' by (done || by apply Hl). auto.
Qed.
Lemma gap_hush w w' k : hush w w' -> gap w' k = gap w k.
Proof. intros [[Hv _] Hr]. unfold gap, level, told, held. by rewrite Hv, Hr. Qed.
Lemma hush_in_step w w' : hush w w' -> in_step w w'.
Proof. intros Hh. split; [apply Hh|]. intros _ k _. by apply gap_hush. Qed.

(** A session went from one status to another, and the gauge is still to be told. *)
Definition moving (w : W) (p : string) (old new : option SessionStatus) (w' : W) : Prop :=
  later w w' /\ (healthy w -> forall k, uncounted k.2 = false ->
    gap w' k = (gap w k + unit_at k p old - unit_at k p new)%Z).
Lemma moving_hush w p old new v v' : moving w p old new v -> hush v v' -> moving w p old new v'.
Proof.
  intros [Hl Hg] Hh. split; [trans v; [done|apply Hh]|]. intros Hw k Hk. rewrite (gap_hush v) by done. auto.
Qed.
Lemma moving_same w p st v : moving w p st st v -> in_step w v.
Proof. intros [Hl Hg]. split; [done|]. intros Hw k Hk. rewrite Hg by done. lia. Qed.
Lemma moving_uncounted w p old new v :
  uncounted old = true -> uncounted new = true -> moving w p (Some old) (Some new) v -> in_step w v.
Proof.
  intros Ho Hn [Hl Hg]. split; [done|]. intros Hw k Hk. rewrite Hg by done. unfold unit_at.
  rewrite !decide_False by (intros <-; cbn in Hk; congruence). lia.
Qed.
Lemma wp_tell w p old new v :
  moving w p old new v ->
  wp (emit (Prom "UpdateSessionStatus" [p; status_name old; status_name new]))
    (fun _ v' => quiet v v' /\ in_step w v') v.
Proof.
  intros [Hl Hg]. eapply wp_mono; [apply wp_and; [apply emit_frame|apply emit_reports]|].
  intros u v' [Hq Hr]. split; [done|]. split; [trans v; [done|apply Hq]|]. intros Hw k Hk.
  assert (level v' k = (level v k - unit_at k p old + unit_at k p new)%Z) as Hlev.
  { unfold level, told. rewrite Hr, fold_left_app. cbn. apply gauge_update. }
  assert (held v' k = held v k) as Hheld by (unfold held; by rewrite (proj1 Hq)).
  specialize (Hg Hw k Hk). unfold gap in *. lia.
Qed.

(** ** A stored session *)

(** The stored session has the provider and, unless the database fails, the status of [s]. *)
Definition row (w0 w : W) (s : Session.t) : Prop :=
  exists x, sess_view w !! Session.ID s = Some x /\ Session.Provider x = Session.Provider s /\
    (healthy w0 -> Session.Status x = Session.Status s).
Lemma row_hush w0 w w' s : row w0 w s -> hush w w' -> row w0 w' s.
Proof. intros Hr [[Hv _] _]. unfold row. by rewrite Hv. Qed.
Lemma row_stored w0 w s : sess_view w !! Session.ID s = Some s -> row w0 w s.
Proof. intros Hs. by exists s. Qed.

Definition others (s : Session.t) (w w' : W) : Prop :=
  forall j, j <> Session.ID s -> sess_view w' !! j = sess_view w !! j.

Lemma wp_update w0 s0 s (Q : option error -> W -> Prop) w :
  in_step w0 w -> row w0 w s0 -> Session.ID s = Session.ID s0 -> Session.Provider s = Session.Provider s0 ->
  (Session.IsActive s = true -> Session.IsActive s0 = true) ->
  (forall r w', moving w0 (Session.Provider s) (Some (Session.Status s0)) (Some (Session.Status s)) w' ->
     row w0 w' s -> others s w w' -> (r = None \/ ~ healthy w0) -> Q r w') ->
  wp (Update s) Q w.
Proof.
  intros [Hl Hg] (x & Hx & Hp & Hst) Hid Hprov Hact HQ.
  eapply wp_mono; [apply wp_and; [apply Update_spec|apply store_unreported]|].
  rewrite <-Hid in Hx. intros r w' [[Hl' Hr] Hrep]. destruct r as [e|].
  - destruct Hr as [Hv Hh].
    assert (~ healthy w0) as Hsick.
    { intros Hw. destruct (Hh (proj2 Hl Hw) x Hx) as [Hi Ha%Hact].
      revert Hi Ha. unfold Session.IsActive. rewrite (Hst Hw). by intros ->. }
    apply HQ; [by split; [trans w|]| |intros j _; by rewrite Hv|by right].
    exists x. rewrite Hv, Hprov. done.
  - destruct Hr as (old & Hold & Hv). assert (old = x) as -> by congruence.
    apply HQ; [|exists (updated_by x s); by rewrite Hv, lookup_insert_eq, Hprov
               |intros j Hj; by rewrite Hv, lookup_insert_ne|by left].
    split; [by trans w|]. intros Hw k Hk. rewrite <-(Hg Hw k Hk).
    unfold gap, level, told, held. rewrite Hrep, Hv, (count_moved _ _ _ x) by done.
    change (session_key (updated_by x s)) with (Session.Provider x, Session.Status s).
    unfold session_key, unit_at. rewrite (Hst Hw), Hp, Hprov. lia.
Qed.
(** The write of a session, and the report of its status. *)
Lemma wp_move {A} w0 s0 s (k : M W A) (Q : A -> W -> Prop) w :
  in_step w0 w -> row w0 w s0 -> Session.ID s = Session.ID s0 -> Session.Provider s = Session.Provider s0 ->
  (Session.IsActive s = true -> Session.IsActive s0 = true) ->
  (forall w', in_step w0 w' -> row w0 w' s -> others s w w' -> wp k Q w') ->
  wp (do! Update s in
      do! emit (Prom "UpdateSessionStatus"
            [Session.Provider s; status_string (Session.Status s0); status_string (Session.Status s)]) in k) Q w.
Proof.
  intros Hs Hr Hid Hp Ha Hk. apply wp_bind, (wp_update w0 s0); [done..|]. intros r v Hm Hrow Ho _.
  apply wp_bind. eapply wp_mono; [exact (wp_tell _ _ _ _ _ Hm)|]. intros u v' [Hq Hst].
  apply Hk; [done| |].
  - destruct Hrow as (x & Hx & Hrest). exists x. by rewrite (proj1 Hq).
  - intros j Hj. rewrite (proj1 Hq). by apply Ho.
Qed.
(** A read of the session: what it returns is stored. *)
Lemma wp_read {A} id (k : result Session.t -> M W A) (Q : A -> W -> Prop) w :
  (forall e v, hush w v -> wp (k (Err e)) Q v) ->
  (forall s v, hush w v -> Session.ID s = id -> row w v s -> wp (k (Ok s)) Q v) ->
  wp (let! r := Get id in k r) Q w.
Proof.
  intros He Hs. apply wp_bind. eapply wp_mono; [apply wp_and; [apply still_Get|apply Get_spec]|].
  intros [s|e] v [Hh [_ Hr]]; [|by apply He]. pose proof (view_id _ _ _ Hr) as Hid.
  apply Hs; [done|done|]. exists s. by rewrite (proj1 (proj1 Hh)), Hid.
Qed.
Lemma wp_end {A} (a : A) w0 w : in_step w0 w -> wp (ret a) (fun _ w' => in_step w0 w') w.
Proof. intros Hs. by apply wp_ret. Qed.
(** The end of a computation that is still. *)
Lemma wp_still_end {A} (m : M W A) w0 w : still m -> in_step w0 w -> wp m (fun _ w' => in_step w0 w') w.
Proof. intros Hm Hs. eapply wp_mono; [apply Hm|]. intros a v Hv. trans w; [done|by apply hush_in_step]. Qed.

(** ** The provisioner *)
Section Provisioner.
Context (cfg : Service.t).

Lemma still_destroy_attempts n p s k a : reg !! n = Some p -> still (destroy_attempts cfg s p k a).
Proof.
  intros Hp. destruct (still_provider _ _ Hp) as (_ & _ & Hd & Hst & _). revert a.
  induction k as [|k IH]; intros a; cbn [destroy_attempts].
  { apply still_bind; [by apply still_emit|intros; apply still_ret]. }
  apply still_bind; [apply Hd|intros e].
  apply still_bind; [apply still_intro; [apply wait_frame|apply env_unreported]|intros [c|]; [apply still_ret|]].
  apply still_bind; [apply Hst|intros r]. destruct (gone r); [apply still_ret|apply IH].
Qed.
Lemma still_destroyWithVerification n p s : reg !! n = Some p -> still (destroyWithVerification cfg s p).
Proof.
  intros Hp. unfold destroyWithVerification. case_bool_decide; [apply still_ret|by eapply still_destroy_attempts].
Qed.

Lemma in_step_cleanup_failed w0 w s :
  Session.Status s = StatusFailed -> in_step w0 w -> row w0 w s ->
  wp (cleanup_failed reg s) (fun _ w' => in_step w0 w') w.
Proof.
  intros Hf Hst Hrow. unfold cleanup_failed. cbv zeta. apply wp_still.
  { unfold Registry.Get. destruct (reg !! Session.Provider s) as [p|] eqn:Hp; [|apply still_ret].
    apply still_bind; [by eapply still_destroy|intros; apply still_ret]. }
  intros u v Hv. apply wp_still; [apply still_now|]. intros t v1 Hv1.
  assert (hush w v1) as Hh by (by trans v).
  apply wp_bind, (wp_update w0 s); [trans w; [done|by apply hush_in_step]|by eapply row_hush|done..|].
  intros r v2 Hm _ _ _. apply wp_end. eapply moving_uncounted; [..|exact Hm]; [by rewrite Hf|done].
Qed.

Lemma in_step_destroy_live w0 w s :
  in_step w0 w -> row w0 w s -> wp (destroy_live cfg reg s) (fun _ w' => in_step w0 w') w.
Proof.
  intros Hst Hrow. unfold destroy_live. cbv zeta.
  apply (wp_move w0 s (Session.set_Status StatusStopping s)); [done..|]. intros w1 Hst1 Hrow1 _.
  unfold Registry.Get. cbn [Session.Provider Session.set_Status].
  destruct (reg !! Session.Provider s) as [p|] eqn:Hp; [|by apply wp_end].
  apply wp_still; [by eapply still_destroyWithVerification|]. intros [e|] w2 Hh2.
  { apply wp_end. trans w1; [done|by apply hush_in_step]. }
  apply wp_still; [apply still_now|]. intros t w3 Hh3. assert (hush w1 w3) as Hh by (by trans w2).
  apply wp_bind, (wp_update w0 (Session.set_Status StatusStopping s));
    [trans w1; [done|by apply hush_in_step]|by eapply row_hush|done..|].
  intros r w4 Hm _ _ _. do 2 (apply wp_still; [by apply still_emit|]; intros ? ? ?).
  apply wp_bind. eapply wp_mono.
  - eapply (wp_tell w0 _ (Some StatusStopping) (Some StatusStopped)). eapply moving_hush; [|done].
    eapply moving_hush; [exact Hm|done].
  - intros u w5 [_ Hst5]. by apply wp_end.
Qed.

Lemma in_step_DestroySession id w : wp (Provisioner.DestroySession cfg reg id) (fun _ w' => in_step w w') w.
Proof.
  unfold Provisioner.DestroySession. apply wp_read; [intros; by apply wp_end, hush_in_step|].
  intros s v Hh <- Hrow. pose proof (hush_in_step _ _ Hh) as Hst.
  destruct (_ || _); [|by apply in_step_destroy_live]. apply wp_bind.
  apply (wp_mono _ (fun _ v' => in_step w v')); [|intros u v' Hs; by apply wp_end]. unfold when.
  case_bool_decide as Hf; cbn [andb]; [|by apply wp_end]. case_bool_decide; cbn [negb]; [by apply wp_end|].
  by apply in_step_cleanup_failed.
Qed.

(** What [failSession] returns is the session as failed, and stored as such. *)
Lemma in_step_failSession w0 w s reason :
  in_step w0 w -> row w0 w s ->
  wp (failSession reg s reason) (fun s' w' => in_step w0 w' /\ row w0 w' s' /\
    Session.ID s' = Session.ID s /\ Session.Provider s' = Session.Provider s /\ Session.Status s' = StatusFailed) w.
Proof.
  intros Hst Hrow. unfold failSession. apply wp_still.
  { apply still_when. unfold Registry.Get. destruct (reg !! Session.Provider s) as [p|] eqn:Hp; [|apply still_ret].
    apply still_bind; [by eapply still_destroy|]. intros [e|]; [apply still_ret|by apply still_emit]. }
  intros u w1 Hh1. cbv zeta. apply wp_still; [apply still_now|]. intros t w2 Hh2.
  assert (hush w w2) as Hh by (by trans w1).
  apply (wp_move w0 s (Session.set_StoppedAt t (Session.set_Error reason (Session.set_Status StatusFailed s))));
    [trans w; [done|by apply hush_in_step]|by eapply row_hush|done..|].
  intros w3 Hst3 Hrow3 _. destruct RecordFinalCost as [record|] eqn:Hr; [|by apply wp_ret].
  apply wp_still; [apply still_intro; [by apply record_cost_frame|by apply cost_unreported]|]. intros e w4 Hh4.
  apply wp_ret. split; [trans w3; [done|by apply hush_in_step]|]. split; [by eapply row_hush|done].
Qed.
(** *** [CreateSession] *)
Lemma row_grows w0 w w' s : row w0 w s -> grows w w' -> row w0 w' s.
Proof. intros (x & Hx & Hrest) [_ Hg]. by exists x; split; [apply Hg|]. Qed.

Lemma still_check_balance p : still (check_balance reg p).
Proof.
  apply still_intro; [exact (frame_check_balance reg p)|]. unfold check_balance, Registry.Get.
  destruct (reg !! p) as [prov|] eqn:Hp; [|by intros w; apply wp_ret].
  destruct (providers_unreported _ _ Hp) as (_ & _ & _ & _ & Hb).
  destruct (Provider.GetAccountBalance prov) eqn:Hm; [|by intros w; apply wp_ret].
  intros w. apply wp_bind. eapply wp_mono; [by apply Hb|]. intros r v Hv. by apply wp_ret.
Qed.
Lemma still_check_existing req rc : still (check_existing req rc).
Proof.
  unfold check_existing. case_match; [|apply still_ret]. apply still_bind; [apply still_active|].
  intros [x|e]; [apply still_ret|]. case_match; apply still_ret.
Qed.
Lemma still_blame_offer a b c d e : still (blame_offer inventory a b c d e).
Proof.
  apply still_intro; [by apply frame_blame_offer|]. unfold blame_offer, on_inventory.
  destruct inventory as [inv|] eqn:Hi; [|by intros w; apply wp_ret].
  destruct (inventory_unreported inv eq_refl) as (_ & _ & Hr & He). intros w. apply wp_bind.
  eapply wp_mono; [apply Hr|]. intros u v Hv. eapply wp_mono; [apply He|]. intros u' v' Hv'. congruence.
Qed.
Lemma still_select l : still (select_alternative l).
Proof.
  apply still_intro; [apply frame_select|]. intros w. apply wp_bind. eapply wp_mono; [apply env_unreported|].
  intros f v Hv. by apply wp_ret.
Qed.

Lemma wp_create req s Q w :
  (forall e v, hush w v -> Q (Some e) v) ->
  (forall v, moving w (Session.Provider s) None (Some (Session.Status s)) v -> row w v s -> Q None v) ->
  wp (create_record req s) Q w.
Proof.
  intros He Hn. unfold create_record. apply wp_bind.
  eapply wp_mono; [apply wp_and; [apply Create_spec|apply store_unreported]|]. intros [e|] v [[Hl Hr] Hrep].
  - assert (hush w v) as Hh by done. destruct (error_exists _ _); [|by apply wp_ret, He].
    apply wp_still; [apply still_active|]. intros [x|e'] v' Hh'; apply wp_ret, He; by trans v.
  - destruct Hr as (Hnone & Hv & _). apply wp_ret, Hn.
    + split; [done|]. intros Hw k Hk. unfold gap, level, told, held. rewrite Hrep, Hv, count_new by done.
      change (session_key (persisted s)) with (Session.Provider s, Session.Status s). unfold unit_at. lia.
    + exists (persisted s). by rewrite Hv, lookup_insert_eq.
Qed.

Definition retry_keeps_step (retry : option (retry_call (W := W))) : Prop :=
  forall f, retry = Some f -> forall req offer fo fm rc parent w,
    wp (f req offer fo fm rc parent) (fun _ w' => in_step w w' /\ grows w w') w.

Lemma in_step_retry_or_fail retry req offer fo fm rc s err w0 w :
  retry_keeps_step retry -> in_step w0 w -> row w0 w s -> Session.Status s = StatusFailed ->
  wp (retry_or_fail inventory retry req offer fo fm rc s err) (fun _ w' => in_step w0 w') w.
Proof.
  intros Hretry Hst Hrow Hf. unfold retry_or_fail.
  remember inventory as oinv eqn:Hi in |- *. symmetry in Hi. destruct oinv as [inv|]; [|by apply wp_end]. case_match; [|by apply wp_end]. cbv zeta.
  apply wp_still; [by apply still_emit|]. intros u w1 Hh1.
  destruct (inventory_unreported inv Hi) as (Hc & _). destruct (Hinv inv Hi) as [Hcf _ _ _].
  apply wp_still; [by apply still_intro|]. intros found w2 Hh2.
  assert (hush w w2) as Hh by (by trans w1). assert (in_step w0 w2) as Hst2 by (trans w; [done|by apply hush_in_step]).
  assert (forall e, status_report e = [] -> wp (do! emit e in ret (Err (creation_error offer err) : result Session.t))
            (fun _ w' => in_step w0 w') w2) as Hex.
  { intros e He. apply wp_still_end; [|done]. apply still_bind; [by apply still_emit|intros; apply still_ret]. }
  destruct found as [[|o os]|e]; [by apply Hex| |by apply Hex]. destruct retry as [f|]; [|by apply Hex].
  apply wp_still; [apply still_select|]. intros [next|panic] w3 Hh3;
    [|apply wp_end; trans w2; [done|by apply hush_in_step]].
  apply wp_bind. eapply wp_mono; [by apply Hretry|]. intros r w4 [Hst4 Hg4].
  assert (in_step w0 w4) as Hst0 by (trans w3; [trans w2; [done|by apply hush_in_step]|done]).
  destruct r as [child|e]; [|by apply wp_end].
  apply wp_bind, (wp_update w0 s); [done| |done..|].
  { eapply row_grows; [|exact Hg4]. eapply row_hush; [exact Hrow|]. by trans w2. }
  intros r w5 Hm _ _ _. cbn [Session.Status Session.set_FailedOffers Session.set_RetryChildID] in Hm.
  apply wp_still_end; [apply still_bind; [by apply still_emit|intros; apply still_ret]|by eapply moving_same].
Qed.

Lemma in_step_record_instance n prov req i s w0 w :
  reg !! n = Some prov -> in_step w0 w -> row w0 w s -> Session.IsActive s = true ->
  wp (record_instance cfg req prov i s) (fun _ w' => in_step w0 w') w.
Proof.
  intros Hp Hst Hrow Ha. unfold record_instance. cbv zeta.
  assert (Session.Provider (with_instance i s) = Session.Provider s) as Hprov
    by (unfold with_instance; by destruct (fgtb _ _)).
  destruct (with_instance_same i s) as (Hid & Hs & _).
  apply wp_bind, (wp_update w0 s); [done..|]. intros r v Hm _ _ _. rewrite Hs in Hm. apply moving_same in Hm.
  destruct r as [e|]; (apply wp_still_end; [|done]).
  - apply still_bind; [by eapply still_destroy|intros d].
    apply still_bind; [by apply still_when, still_emit|intros; apply still_ret].
  - do 3 (apply still_bind; [by apply still_emit|intros ?]). apply still_ret.
Qed.

Lemma in_step_provision retry req offer fo fm rc s w0 w :
  retry_keeps_step retry -> in_step w0 w -> row w0 w s -> Session.Status s = StatusPending ->
  wp (provision cfg reg inventory retry req offer fo fm rc s) (fun _ w' => in_step w0 w') w.
Proof.
  intros Hretry Hst Hrow Hp. unfold provision, Registry.Get.
  destruct (reg !! GPUOffer.Provider offer) as [prov|] eqn:Hprov.
  2: { apply wp_bind. eapply wp_mono; [by apply (in_step_failSession w0)|]. intros s' v (Hv & _). by apply wp_end. }
  destruct (choose_disk req) as [disk|err]; [|by apply wp_end]. cbv zeta.
  assert (Session.IsActive s = true) as Ha by (unfold Session.IsActive; by rewrite Hp).
  pose proof (fun k => wp_move (A := result Session.t) w0 s (provisioning req disk s) k) as Hmove. rewrite Hp in Hmove.
  apply Hmove; [done..|]. clear Hmove. intros w1 Hst1 Hrow1 _.
  destruct (still_provider _ _ Hprov) as (_ & Hc & _). apply wp_still; [apply Hc|]. intros [i|err] w2 Hh2.
  - eapply (in_step_record_instance _ _ _ _ _ w0); [exact Hprov|trans w1; [done|by apply hush_in_step]|by eapply row_hush|done].
  - apply wp_bind. eapply wp_mono.
    { apply (in_step_failSession w0); [trans w1; [done|by apply hush_in_step]|by eapply row_hush]. }
    intros s' w3 (Hst3 & Hrow3 & _ & _ & Hf). apply wp_still; [apply still_blame_offer|]. intros u w4 Hh4.
    apply in_step_retry_or_fail; [done|trans w3; [done|by apply hush_in_step]|by eapply row_hush|done].
Qed.

Lemma in_step_attempt retry req offer fo fm rc parent w :
  retry_keeps_step retry ->
  wp (attempt cfg reg inventory retry req offer fo fm rc parent) (fun _ w' => in_step w w') w.
Proof.
  intros Hretry. unfold attempt.
  apply wp_still; [apply still_check_balance|]. intros u w1 Hh1.
  apply wp_still; [apply still_check_existing|]. intros d w2 Hh2. assert (hush w w2) as Hh by (by trans w1).
  destruct d as [e|]; [by apply wp_end, hush_in_step|].
  apply wp_still; [apply still_intro; [apply keys_frame|apply env_unreported]|]. intros keys w3 Hh3.
  destruct keys as [[priv pub]|e]; [|by apply wp_end, hush_in_step; trans w2].
  apply wp_still; [apply still_now|]. intros t w4 Hh4.
  apply wp_still; [apply still_intro; [apply uuid_frame|apply env_unreported]|]. intros id w5 Hh5.
  assert (in_step w w5) as Hst by (apply hush_in_step; trans w2; [done|]; trans w3; [done|]; by trans w4).
  cbv zeta. apply wp_bind, wp_create.
  { intros e v Hv. apply wp_end. trans w5; [done|by apply hush_in_step]. }
  intros v Hm Hrow. set (s := new_session _ _ _ _ _ _ _ _ _) in *.
  apply wp_bind. eapply wp_mono; [exact (wp_tell _ _ _ _ _ Hm)|]. intros u' v' [Hq Hst'].
  eapply wp_mono; [apply (in_step_provision _ _ _ _ _ _ s w5); [done|done| |done]|].
  - destruct Hrow as (x & Hx & Hrest). exists x. by rewrite (proj1 Hq).
  - intros r v2 Hv2. by trans w5.
Qed.
Lemma in_step_createSessionWithRetry fuel req offer fo fm rc parent w :
  wp (createSessionWithRetry cfg reg inventory fuel req offer fo fm rc parent) (fun _ w' => in_step w w' /\ grows w w') w.
Proof.
  apply wp_and; [|by eapply wp_mono; [apply wp_createSessionWithRetry; eauto|intros r w' []]].
  revert req offer fo fm rc parent w. induction fuel as [|fuel IH]; intros; cbn [createSessionWithRetry];
    apply in_step_attempt; [by intros f|]. intros f [= <-] req' offer' fo' fm' rc' parent' w'.
  apply wp_and; [apply IH|]. by eapply wp_mono; [apply wp_createSessionWithRetry; eauto|intros r v []].
Qed.
Lemma in_step_CreateSession req offer w :
  wp (CreateSession cfg reg inventory req offer) (fun _ w' => in_step w w') w.
Proof. eapply wp_mono; [apply in_step_createSessionWithRetry|]. by intros r w' []. Qed.

(** *** The verification: each poll, each timeout and the retry as a step of its own *)
Lemma in_step_triggerAsyncRetry inv failed req w0 w :
  inventory = Some inv -> in_step w0 w -> row w0 w failed -> Session.Status failed = StatusFailed ->
  wp (triggerAsyncRetry cfg reg inventory inv failed req) (fun _ w' => in_step w0 w') w.
Proof.
  intros Hi Hst Hrow Hf. unfold triggerAsyncRetry. cbv zeta.
  destruct (inventory_unreported inv Hi) as (Uc & Ug & _). destruct (Hinv inv Hi) as [Hcf Hgf _ _].
  apply wp_still; [by apply still_emit|]. intros u w1 Hh1.
  apply wp_still; [by apply still_intro|]. intros o w2 Hh2.
  apply wp_still; [by apply still_intro|]. intros found w3 Hh3.
  assert (hush w w3) as Hh by (trans w2; [by trans w1|done]).
  assert (in_step w0 w3) as Hst3 by (trans w; [done|by apply hush_in_step]).
  assert (forall e, status_report e = [] -> wp (do! emit e in ret (None : option error))
            (fun _ w' => in_step w0 w') w3) as Hex.
  { intros e He. apply wp_still_end; [|done]. apply still_bind; [by apply still_emit|intros; apply still_ret]. }
  destruct found as [[|x xs]|e]; [by apply Hex| |by apply Hex].
  apply wp_still; [apply still_select|]. intros next w4 Hh4.
  assert (in_step w0 w4) as Hst4 by (trans w3; [done|by apply hush_in_step]).
  destruct next as [nextOffer|panic]; [|by apply wp_end].
  apply wp_bind. eapply wp_mono; [apply in_step_createSessionWithRetry|]. intros r w5 [Hst5 Hg5].
  assert (in_step w0 w5) as Hst0 by (by trans w4).
  destruct r as [child|e]; [|by destruct e; apply wp_end].
  apply wp_bind, (wp_update w0 failed); [done| |done..|].
  { eapply row_grows; [|exact Hg5]. eapply row_hush; [exact Hrow|]. by trans w3. }
  intros r w6 Hm _ _ _. cbn [Session.Status Session.set_FailedOffers Session.set_RetryChildID] in Hm.
  apply wp_still_end; [apply still_bind; [by apply still_emit|intros; apply still_ret]|by eapply moving_same].
Qed.

(** The session fails, and something is said of it. *)
Lemma in_step_fail {A} (k : Session.t -> M W A) reason s w0 w :
  in_step w0 w -> row w0 w s -> (forall s', still (k s')) ->
  wp (let! s' := failSession reg s reason in k s') (fun _ w' => in_step w0 w') w.
Proof.
  intros Hst Hrow Hk. apply wp_bind. eapply wp_mono; [by apply (in_step_failSession w0)|].
  intros s' v (Hv & _). by apply wp_still_end.
Qed.
Lemma still_blame_session s a b : still (blame_session inventory s a b).
Proof. apply still_blame_offer. Qed.
(** Tells of the session that has failed. *)
Ltac say := repeat first
  [apply still_ret | apply still_bind; [first [by apply still_emit|apply still_blame_session]|intros ?]
  | by apply still_emit | apply still_blame_session].

Lemma in_step_try_ssh needed key st s w0 w :
  in_step w0 w -> row w0 w s -> Session.IsActive s = true ->
  wp (try_ssh reg inventory needed key st s) (fun _ w' => in_step w0 w') w.
Proof.
  intros Hst Hrow Ha. unfold try_ssh. apply wp_still; [apply still_intro; [apply verify_frame|apply verifiers_unreported]|].
  intros e w1 Hh1. assert (in_step w0 w1) as Hst1 by (trans w; [done|by apply hush_in_step]).
  pose proof (row_hush _ _ _ _ Hrow Hh1) as Hrow1. cbv zeta. destruct e as [err|].
  - apply wp_still; [by apply still_emit|]. intros u w2 Hh2.
    assert (in_step w0 w2) as Hst2 by (trans w1; [done|by apply hush_in_step]).
    destruct (_ && _); [|apply wp_still_end; [|done]; unfold again; destruct (Backoff.Next _); apply still_ret].
    apply in_step_fail; [done| |intros s'; say].
    destruct (row_hush _ _ _ _ Hrow1 Hh2) as (x & Hx).
    exists x. unfold add_failed_offer. by repeat case_match.
  - destruct (_ <? _)%Z; [by apply wp_end|].
    apply (wp_move w0 s (Session.set_Status StatusRunning s)); [done..|].
    intros w2 Hst2 _ _. apply wp_still_end; [say|done].
Qed.

Lemma with_ssh_info_provider status s :
  Session.ID (with_ssh_info status s) = Session.ID s /\ Session.Provider (with_ssh_info status s) = Session.Provider s /\
  Session.Status (with_ssh_info status s) = Session.Status s.
Proof. unfold with_ssh_info. by repeat case_match. Qed.

(** The SSH details are stored: the status stays. *)
Lemma wp_ssh_info status s w0 w (Q : option error -> W -> Prop) :
  in_step w0 w -> row w0 w s ->
  (forall r w', in_step w0 w' -> row w0 w' (with_ssh_info status s) -> Q r w') ->
  wp (Update (with_ssh_info status s)) Q w.
Proof.
  intros Hst Hrow HQ. destruct (with_ssh_info_provider status s) as (Hid & Hp & Hs).
  apply (wp_update w0 s); [done..| |].
  - unfold Session.IsActive. by rewrite Hs.
  - intros r v Hm Hrow' _ _. apply HQ; [|done]. rewrite Hs in Hm. by eapply moving_same.
Qed.
Lemma active_same s s' : Session.Status s' = Session.Status s -> Session.IsActive s = true -> Session.IsActive s' = true.
Proof. unfold Session.IsActive. by intros ->. Qed.
Lemma not_ended_active s :
  Session.Status s <> StatusStopping -> Session.IsTerminal s = false -> Session.IsActive s = true.
Proof. unfold Session.IsTerminal, Session.IsActive. by destruct (Session.Status s). Qed.

Lemma in_step_try_connect needed key st s w0 w :
  in_step w0 w -> row w0 w s -> Session.IsActive s = true ->
  wp (try_connect reg inventory needed key st s) (fun _ w' => in_step w0 w') w.
Proof.
  intros Hst Hrow Ha. unfold try_connect. destruct (_ && _); [by apply in_step_try_ssh|].
  unfold again. destruct (Backoff.Next _). by apply wp_end.
Qed.
Lemma in_step_ssh_poll n prov id key needed st w :
  reg !! n = Some prov -> (forall s, sess_view w !! id = Some s -> Session.Status s <> StatusStopping) ->
  wp (ssh_poll reg inventory id key prov needed st) (fun _ w' => in_step w w') w.
Proof.
  intros Hp Hns. unfold ssh_poll. cbv zeta.
  assert (forall st v, in_step w v -> wp (again (W := W) st) (fun _ w' => in_step w w') v) as Hagain
    by (intros st' v Hv; unfold again; destruct (Backoff.Next _); by apply wp_end).
  apply wp_bind. eapply wp_mono; [apply wp_and; [apply still_Get|apply Get_spec]|].
  intros [s|e] w1 [Hh1 [_ Hr]]; [|by apply Hagain, hush_in_step].
  pose proof (hush_in_step _ _ Hh1) as Hst1. pose proof (view_id _ _ _ Hr) as Hid.
  assert (row w w1 s) as Hrow1 by (exists s; by rewrite (proj1 (proj1 Hh1)), Hid).
  destruct (Session.IsTerminal s) eqn:Ht; [by apply wp_end|].
  assert (Session.IsActive s = true) as Ha by (apply not_ended_active; [by apply Hns|done]).
  destruct (_ && _); [|by apply in_step_try_connect].
  destruct (still_provider _ _ Hp) as (_ & _ & Hd & Hs & _). apply wp_still; [apply Hs|]. intros r w2 Hh2.
  assert (in_step w w2) as Hst2 by (trans w1; [done|by apply hush_in_step]).
  pose proof (row_hush _ _ _ _ Hrow1 Hh2) as Hrow2. destruct r as [status|e].
  - destruct (_ && _); [|destruct (_ && _); [|by apply in_step_try_connect]].
    + apply wp_still; [apply Hd|]. intros d w3 Hh3.
      apply in_step_fail; [trans w2; [done|by apply hush_in_step]|by eapply row_hush|intros s'; say].
    + apply wp_bind, (wp_ssh_info _ _ w); [done..|]. intros r w3 Hst3 Hrow3.
      apply in_step_try_connect; [done..|]. eapply active_same; [|exact Ha]. apply with_ssh_info_provider.
  - destruct (error_exists _ _); [|by apply Hagain]. apply in_step_fail; [done..|intros s'; say].
Qed.
Lemma still_last_destroy n prov s :
  reg !! n = Some prov ->
  still (when (negb (bool_decide (Session.ProviderID s = "")))
           (do! Provider.DestroyInstance prov (Session.ProviderID s) in skip)).
Proof. intros Hp. apply still_when, still_bind; [by eapply still_destroy|intros; apply still_ret]. Qed.
Lemma in_step_ssh_timeout n prov id w :
  reg !! n = Some prov -> wp (ssh_timeout reg inventory id prov) (fun _ w' => in_step w w') w.
Proof.
  intros Hp. unfold ssh_timeout. apply wp_read; [intros; by apply wp_end, hush_in_step|].
  intros s w1 Hh1 _ Hrow1. apply wp_still; [by eapply still_last_destroy|]. intros u w2 Hh2.
  apply in_step_fail; [apply hush_in_step; by trans w1|by eapply row_hush|intros s'; say].
Qed.

Lemma in_step_try_api s w0 w :
  in_step w0 w -> row w0 w s -> Session.IsActive s = true -> wp (try_api s) (fun _ w' => in_step w0 w') w.
Proof.
  intros Hst Hrow Ha. unfold try_api. destruct (_ && _); [|by apply wp_end].
  apply wp_still; [apply still_intro; [apply health_frame|apply verifiers_unreported]|]. intros [e|] w1 Hh1;
    (assert (in_step w0 w1) as Hst1 by (trans w; [done|by apply hush_in_step])); [by apply wp_end|]. cbv zeta.
  apply (wp_move w0 s (Session.set_APIEndpoint (health_url (Session.set_Status StatusRunning s))
    (Session.set_Status StatusRunning s))); [done|by eapply row_hush|done..|].
  intros w2 Hst2 _ _. apply wp_still_end; [say|done].
Qed.
Lemma in_step_api_poll n prov id w :
  reg !! n = Some prov -> (forall s, sess_view w !! id = Some s -> Session.Status s <> StatusStopping) ->
  wp (api_poll id prov) (fun _ w' => in_step w w') w.
Proof.
  intros Hp Hns. unfold api_poll. apply wp_bind.
  eapply wp_mono; [apply wp_and; [apply still_Get|apply Get_spec]|].
  intros [s|e] w1 [Hh1 [_ Hr]]; [|by apply wp_end, hush_in_step].
  pose proof (hush_in_step _ _ Hh1) as Hst1. pose proof (view_id _ _ _ Hr) as Hid.
  assert (row w w1 s) as Hrow1 by (exists s; by rewrite (proj1 (proj1 Hh1)), Hid).
  destruct (Session.IsTerminal s) eqn:Ht; [by apply wp_end|].
  assert (Session.IsActive s = true) as Ha by (apply not_ended_active; [by apply Hns|done]).
  destruct (_ && _); [|by apply in_step_try_api].
  destruct (still_provider _ _ Hp) as (_ & _ & _ & Hs & _). apply wp_still; [apply Hs|]. intros r w2 Hh2.
  assert (in_step w w2) as Hst2 by (trans w1; [done|by apply hush_in_step]).
  pose proof (row_hush _ _ _ _ Hrow1 Hh2) as Hrow2. destruct r as [status|e]; [|by apply wp_end].
  case_bool_decide; [by apply in_step_try_api|]. cbv zeta.
  apply wp_bind, (wp_ssh_info _ _ w); [done..|]. intros r w3 Hst3 Hrow3.
  apply in_step_try_api; [done..|]. eapply active_same; [|exact Ha]. apply with_ssh_info_provider.
Qed.
Lemma in_step_api_timeout n prov id w :
  reg !! n = Some prov -> wp (api_timeout reg id prov) (fun _ w' => in_step w w') w.
Proof.
  intros Hp. unfold api_timeout. apply wp_read; [intros; by apply wp_end, hush_in_step|].
  intros s w1 Hh1 _ Hrow1. apply wp_still; [by eapply still_last_destroy|]. intros u w2 Hh2.
  apply in_step_fail; [apply hush_in_step; by trans w1|by eapply row_hush|intros s'; say].
Qed.

(** ** The reconciler and the lifecycle manager *)
Section Loops.
Context (rcfg : ReconcilerConfig.t) (mcfg : Lifecycle.Config.t).

(** The sessions of a query. *)
Lemma wp_listed {A} f (k : result (list Session.t) -> M W A) (Q : A -> W -> Prop) w :
  (forall e v, hush w v -> wp (k (Err e)) Q v) ->
  (forall l v, hush w v -> NoDup (Session.ID <$> l) -> (forall s, s ∈ l -> row w v s) -> wp (k (Ok l)) Q v) ->
  wp (let! r := ListInternal f in k r) Q w.
Proof.
  intros He Hl. apply wp_bind. eapply wp_mono; [apply wp_and; [apply still_list|apply List_spec]|].
  intros [l|e] v [Hh [_ Hr]]; [|by apply He]. destruct Hr as (Hnd & Hs & _). apply Hl; [done|done|].
  intros s Hin. exists s. rewrite (proj1 (proj1 Hh)). by destruct (Hs s Hin).
Qed.

(** A loop over distinct sessions whose body writes no other one. *)
Lemma in_step_loop {A} (entry : A -> Session.t) (body : A -> M W unit) l w0 w :
  NoDup (Session.ID <$> (entry <$> l)) -> in_step w0 w -> (forall x, x ∈ l -> row w0 w (entry x)) ->
  (forall x v, x ∈ l -> in_step w0 v -> row w0 v (entry x) ->
     wp (body x) (fun _ v' => in_step w0 v' /\ others (entry x) v v') v) ->
  wp (for_each l body) (fun _ w' => in_step w0 w') w.
Proof.
  revert w. induction l as [|x l IH]; intros w Hnd Hst Hrow Hbody; [by apply wp_end|].
  cbn [fmap list_fmap] in Hnd. apply NoDup_cons in Hnd as [Hx Hnd]. cbn [for_each].
  apply wp_bind. eapply wp_mono; [apply Hbody; [by left|done|apply Hrow; by left]|].
  intros u v [Hst' Ho]. apply IH; [done|done| |intros; apply Hbody; [by right|done..]].
  intros y Hy. destruct (Hrow y ltac:(by right)) as (r & Hr & Hrest). exists r. split; [|done].
  rewrite Ho; [done|]. intros Heq. apply Hx. rewrite <-Heq. by do 2 apply list_elem_of_fmap_2.
Qed.

Lemma moving_sick {A} w0 p o n v (a : A) s w :
  moving w0 p o n v -> ~ healthy w0 -> others s w v -> wp (ret a) (fun _ v' => in_step w0 v' /\ others s w v') v.
Proof. intros [Hl _] Hsick Ho. by apply wp_ret. Qed.
Lemma wp_hush_others {A} (m : M W A) w0 s w v :
  still m -> in_step w0 v -> others s w v -> wp m (fun _ v' => in_step w0 v' /\ others s w v') v.
Proof.
  intros Hm Hst Ho. eapply wp_mono; [apply Hm|]. intros a v' Hh. split; [trans v; [done|by apply hush_in_step]|].
  intros j Hj. rewrite (proj1 (proj1 Hh)). by apply Ho.
Qed.
(** The state after a write that is to be told later. *)
Lemma wp_told {A} w0 s p old new (m : M W A) w v :
  moving w0 p (Some old) (Some new) v -> others s w v -> still m ->
  wp (do! emit (Prom "UpdateSessionStatus" [p; status_string old; status_string new]) in m)
    (fun _ v' => in_step w0 v' /\ others s w v') v.
Proof.
  intros Hm Ho Hk. apply wp_bind. eapply wp_mono; [exact (wp_tell _ _ (Some old) (Some new) _ Hm)|].
  intros u v' [Hq Hst]. apply wp_hush_others; [done|done|]. intros j Hj. rewrite (proj1 Hq). by apply Ho.
Qed.

Lemma in_step_handleGhost s w0 w :
  in_step w0 w -> row w0 w s -> wp (handleGhost s) (fun _ v' => in_step w0 v' /\ others s w v') w.
Proof.
  intros Hst Hrow. unfold handleGhost. destruct (_ && _); [by apply wp_ret|].
  apply wp_still; [apply still_now|]. intros t w1 Hh1. destruct (_ <? _)%Z.
  { apply wp_hush_others; [apply still_ret|trans w; [done|by apply hush_in_step]|]. intros j _. by rewrite (proj1 (proj1 Hh1)). }
  do 4 (apply wp_still; [by apply still_emit|]; intros ? ? ?). apply wp_still; [apply still_now|]. intros t' w6 Hh6.
  assert (hush w w6) as Hh by (repeat (eassumption || (etransitivity; [eassumption|]))).
  apply wp_bind, (wp_update w0 s); [trans w; [done|by apply hush_in_step]|by eapply row_hush|done..|].
  intros r w7 Hm _ Ho Hr.
  assert (others s w w7) as Ho' by (intros j Hj; rewrite (Ho j Hj); by rewrite (proj1 (proj1 Hh))).
  destruct r as [e|]; [eapply moving_sick; [exact Hm|by destruct Hr|done]|].
  apply wp_still; [by apply still_emit|]. intros u w8 Hh8.
  apply (wp_told _ _ (Session.Provider s) (Session.Status s) StatusStopped);
    [by eapply moving_hush| |by apply still_emit].
  intros j Hj. rewrite (proj1 (proj1 Hh8)). by apply Ho'.
Qed.
Lemma still_handleOrphan n prov pid i : reg !! n = Some prov -> still (handleOrphan rcfg prov pid i).
Proof.
  intros Hp. unfold handleOrphan. do 4 (apply still_bind; [by apply still_emit|intros ?]).
  destruct (ReconcilerConfig.autoDestroyOrphans _); [|apply still_ret].
  apply still_bind; [by eapply still_destroy|]. intros [e|]; [by apply still_emit|].
  apply still_bind; [by apply still_emit|intros; by apply still_emit].
Qed.
Lemma still_for_each {A} (l : list A) body : (forall x, still (body x)) -> still (for_each l body).
Proof.
  intros Hb. induction l as [|x l IH]; [apply still_ret|]. apply still_bind; [apply Hb|intros; apply IH].
Qed.
Lemma in_step_reconcileProvider name w :
  wp (reconcileProvider rcfg reg name) (fun _ w' => in_step w w') w.
Proof.
  unfold reconcileProvider, Registry.Get. destruct (reg !! name) as [prov|] eqn:Hp; [|by apply wp_end].
  destruct (still_provider _ _ Hp) as (Hl & _). apply wp_still; [apply Hl|]. intros [is_|e] w1 Hh1;
    [|by apply wp_end, hush_in_step]. unfold GetActiveSessionsByProvider.
  apply wp_listed; [intros e v Hv; apply wp_end, hush_in_step; by trans w1|].
  intros l w2 Hh2 Hnd Hrows. cbv zeta. assert (in_step w w2) as Hst2 by (apply hush_in_step; by trans w1).
  apply wp_still.
  { apply still_for_each. intros kv. case_bool_decide; [by eapply still_handleOrphan|apply still_ret]. }
  intros u w3 Hh3. apply wp_bind. eapply wp_mono.
  { apply (in_step_loop snd); [by eapply NoDup_ghosts; [|apply range_map_perm]|trans w2; [done|by apply hush_in_step]| |].
    - intros [i s] Hin. rewrite range_map_perm, elem_of_map_to_list in Hin.
      apply localMap_Some in Hin as (Hs & _). eapply row_hush; [|exact Hh3].
      destruct (Hrows s Hs) as (x & Hx & Hpr & Hst). exists x. split; [done|]. split; [done|].
      intros Hw. by apply Hst, Hh1.
    - intros [i s] v _ Hv Hr. cbn [fst snd] in *. case_bool_decide; [by apply in_step_handleGhost|by apply wp_ret]. }
  intros u' w4 Hst4. by apply wp_end.
Qed.

Lemma in_step_checkStuckSessions w : wp (checkStuckSessions mcfg) (fun _ w' => in_step w w') w.
Proof.
  unfold checkStuckSessions, GetSessionsByStatus.
  apply wp_listed; [intros e v Hv; by apply wp_end, hush_in_step|]. intros l w1 Hh1 Hnd Hrows.
  apply wp_still; [apply still_now|]. intros t w2 Hh2.
  apply (in_step_loop id); [by rewrite list_fmap_id|apply hush_in_step; by trans w1| |].
  { intros s Hs. eapply row_hush; [by apply Hrows|done]. }
  intros s v _ Hst Hrow. unfold stuck_body. destruct (_ <? _)%Z; [|by apply wp_ret].
  apply wp_bind, (wp_update w s); [done..|]. intros r v1 Hm _ Ho Hr.
  destruct r as [e|]; [eapply moving_sick; [exact Hm|by destruct Hr|done]|].
  apply wp_still; [by apply still_emit|]. intros u v2 Hh.
  eapply wp_mono; [refine (wp_tell w (Session.Provider s) (Some (Session.Status s)) (Some StatusFailed) v2 _)|].
  { by eapply moving_hush. }
  intros u' v3 [Hq Hst3]. split; [done|]. intros j Hj. rewrite (proj1 Hq), (proj1 (proj1 Hh)). by apply Ho.
Qed.

(** A write that keeps the status. *)
Lemma in_step_rewrite s0 s w0 w :
  in_step w0 w -> row w0 w s0 -> Session.ID s = Session.ID s0 -> Session.Provider s = Session.Provider s0 ->
  Session.Status s = Session.Status s0 -> wp (Update s) (fun _ w' => in_step w0 w') w.
Proof.
  intros Hst Hrow Hid Hp Hs. apply (wp_update w0 s0); [done..|by apply active_same|].
  intros r v Hm _ _ _. rewrite Hs in Hm. by eapply moving_same.
Qed.
#[local] Instance destroyer : SessionDestroyer W := provisioner_destroyer cfg reg.
Lemma in_step_ExtendSession id h w : wp (ExtendSession mcfg id h) (fun _ w' => in_step w w') w.
Proof.
  unfold ExtendSession. apply wp_read; [intros; by apply wp_end, hush_in_step|]. intros s w1 Hh1 _ Hrow.
  destruct (_ || _); [by apply wp_end, hush_in_step|]. apply wp_still; [apply still_now|]. intros t w2 Hh2.
  assert (in_step w w2) as Hst2 by (apply hush_in_step; by trans w1). cbv zeta.
  destruct (_ && _); [by apply wp_end|]. apply (in_step_rewrite s); [done|by eapply row_hush|done..].
Qed.
Lemma in_step_SetHardMaxOverride id b w : wp (SetHardMaxOverride id b) (fun _ w' => in_step w w') w.
Proof.
  unfold SetHardMaxOverride. apply wp_read; [intros; by apply wp_end, hush_in_step|]. intros s w1 Hh1 _ Hrow.
  destruct (Session.IsTerminal s); [by apply wp_end, hush_in_step|]. by apply (in_step_rewrite s); [apply hush_in_step|..].
Qed.
Lemma in_step_SignalDone id w : wp (SignalDone id) (fun _ w' => in_step w w') w.
Proof.
  unfold SignalDone. apply wp_read; [intros; by apply wp_end, hush_in_step|]. intros s w1 Hh1 _ _.
  destruct (Session.IsTerminal s); [by apply wp_end, hush_in_step|].
  eapply wp_mono; [apply in_step_DestroySession|]. intros r w2 Hst. trans w1; [by apply hush_in_step|done].
Qed.
Lemma in_step_checkFailedDestroys w : wp checkFailedDestroys (fun _ w' => in_step w w') w.
Proof.
  unfold checkFailedDestroys, GetFailedSessionsWithInstances.
  apply wp_listed; [intros e v Hv; by apply wp_end, hush_in_step|]. intros l w1 Hh1 _ _.
  apply (wp_for_each_inv (fun v => in_step w v)); [by apply hush_in_step|]. intros s v _ Hv.
  unfold failed_destroy_body. apply wp_bind. eapply wp_mono; [apply in_step_DestroySession|].
  intros [e|] v1 Hv1; (assert (in_step w v1) as Hst by (by trans v)); [by apply wp_end|].
  apply wp_still_end; [|done]. apply still_bind; [by apply still_emit|intros; by apply still_emit].
Qed.

(** ** What the server does, call by call

    Each runs on its own; [srv_other] is anything that neither writes sessions nor reports.
    A poll on a session that is being destroyed is left out: see [poll_while_stopping].  So are
    [RecoverStuckSessions] and the checks of the hard maximum and the reservation when the
    destruction fails: they do not report what they write. *)
Inductive served (w : W) : W -> Prop :=
| srv_create req offer : served w (snd (CreateSession cfg reg inventory req offer w))
| srv_ssh_poll n prov id key needed st :
    reg !! n = Some prov -> (forall s, sess_view w !! id = Some s -> Session.Status s <> StatusStopping) ->
    served w (snd (ssh_poll reg inventory id key prov needed st w))
| srv_ssh_timeout n prov id : reg !! n = Some prov -> served w (snd (ssh_timeout reg inventory id prov w))
| srv_retry inv failed req :
    inventory = Some inv -> sess_view w !! Session.ID failed = Some failed -> Session.Status failed = StatusFailed ->
    served w (snd (triggerAsyncRetry cfg reg inventory inv failed req w))
| srv_api_poll n prov id :
    reg !! n = Some prov -> (forall s, sess_view w !! id = Some s -> Session.Status s <> StatusStopping) ->
    served w (snd (api_poll id prov w))
| srv_api_timeout n prov id : reg !! n = Some prov -> served w (snd (api_timeout reg id prov w))
| srv_destroy id : served w (snd (Provisioner.DestroySession cfg reg id w))
| srv_done id : served w (snd (SignalDone id w))
| srv_extend id hours : served w (snd (ExtendSession mcfg id hours w))
| srv_override id b : served w (snd (SetHardMaxOverride id b w))
| srv_reconcile name : served w (snd (reconcileProvider rcfg reg name w))
| srv_stuck : served w (snd (checkStuckSessions mcfg w))
| srv_failed_destroys : served w (snd (checkFailedDestroys w))
| srv_other w' : hush w w' -> served w w'.

Lemma in_step_served w w' : served w w' -> in_step w w'.
Proof.
  intros []; [..|by apply hush_in_step].
  - apply in_step_CreateSession.
  - by eapply in_step_ssh_poll.
  - by eapply in_step_ssh_timeout.
  - by apply in_step_triggerAsyncRetry; [|done|exists failed|].
  - by eapply in_step_api_poll.
  - by eapply in_step_api_timeout.
  - apply in_step_DestroySession.
  - apply in_step_SignalDone.
  - apply in_step_ExtendSession.
  - apply in_step_SetHardMaxOverride.
  - apply in_step_reconcileProvider.
  - apply in_step_checkStuckSessions.
  - apply in_step_checkFailedDestroys.
Qed.
Lemma in_step_served_all w w' : rtc served w w' -> in_step w w'.
Proof.
  induction 1 as [|w1 w2 w3 H12 _ IH]; [done|]. trans w2; [by apply in_step_served|done].
Qed.
End Loops.
End Provisioner.
End Services.

(** ** From the start *)
Section Start.
Context {G : Type} `{Prometheus G} `{!PrometheusLaws G}.
Context {W : Type} `{HDB : HasDB W} `{!HasDBLaws W} `{Driver} `{Env W} `{Random W} `{CostRecorder W} `{Verifiers W} `{MapRange}.
Context `{!EnvLaws W} `{!RandomLaws W} `{!CostRecorderLaws W} `{!VerifierLaws W} `{!MapRangeLaws}.
Context (reg : gmap string (Provider.t W)) (inventory : option (InventoryFinder.t W)) `{!ProviderLaws W reg}.
Context `{Hinv : !forall inv, inventory = Some inv -> InventoryLaws W inv}.
Context `{!ReportLog W} `{!ReportLaws W reg inventory}.
Context (cfg : Service.t) (rcfg : ReconcilerConfig.t) (mcfg : Lifecycle.Config.t).

Lemma tally_held (w : W) k : tally (DB.sessions (get_db w)) k = held w k.
Proof.
  unfold held. cbn [sess_view table_ghost]. induction (DB.sessions (get_db w)) as [|id r tbl Hid IH] using map_ind.
  - by rewrite map_imap_empty.
  - rewrite (map_imap_insert_Some _ _ _ _ _ eq_refl). unfold tally in *. rewrite !count_new, IH; [done| |done].
    by rewrite map_lookup_imap, Hid.
Qed.
Lemma initialize_sets (g : G) w :
  healthy w ->
  healthy (snd (initialize_metrics g w)) /\ sess_view (snd (initialize_metrics g w)) = sess_view w /\
  forall k, gauge k g = 0%Z -> uncounted k.2 = false -> gauge k (fst (initialize_metrics g w)) = held w k.
Proof.
  intros [Hf Hu]. unfold initialize_metrics, CountSessionsByProviderAndStatus, bind, sql.
  assert (DB.sessions (DB.pop_fault (get_db w)) = DB.sessions (get_db w)) as Hs by done.
  assert (DB.faults (DB.pop_fault (get_db w)) = []) as Hf' by (cbn; by rewrite Hf).
  rewrite Hf. cbn [head fst snd ret]. cbn [healthy sess_view table_ghost]. rewrite get_set_db, Hs, Hf'.
  split_and!; [done..|]. intros k Hg Hk. rewrite <-tally_held. by apply gauge_start.
Qed.

(** C31.  The gauge of active sessions, on a healthy database: set from the database into an
    empty registry as the server starts, and then told by the services as they run, one call
    after another (creations with their retries, polls and timeouts of the verification,
    destructions, the signal, extensions and overrides, reconciliation, the checks of stuck
    sessions and of failed destructions), it shows for each provider and each status other
    than stopped and failed the number of the sessions stored with it; so it is never
    negative. *)
Theorem gauge_counts_sessions (g : G) (w w' : W) (k : string * SessionStatus) :
  healthy w -> gauge k g = 0%Z -> uncounted k.2 = false ->
  status_reports (snd (initialize_metrics g w)) = [] ->
  rtc (served reg inventory cfg rcfg mcfg) (snd (initialize_metrics g w)) w' ->
  gauge k (told (fst (initialize_metrics g w)) w') = held w' k /\ (0 <= held w' k)%Z.
Proof.
  intros Hw Hg Hk Hnone Hrun. destruct (initialize_sets g w Hw) as (Hw1 & Hv1 & Hstart).
  destruct (in_step_served_all (fst (initialize_metrics g w)) _ _ _ _ _ _ _ Hrun) as [_ Hgap].
  specialize (Hgap Hw1 k Hk). unfold gap, level in Hgap. unfold told at 2 in Hgap. rewrite Hnone in Hgap.
  cbn [fold_left] in Hgap. rewrite (Hstart k Hg Hk) in Hgap.
  assert (held (snd (initialize_metrics g w)) k = held w k) as Hh by (unfold held; by rewrite Hv1).
  split; [lia|]. unfold held, count_by. lia.
Qed.
End Start.
