(* ===== verification/Deployment.v ===== *)
(** [cmd/server/main.go]: the services as the configuration builds them, through the options
    of their packages, and what the server does before it is ready and when it stops. *)
From S2P Require Import Prelude GoFloat GoLib GoStrings FailureTracker Models Errors Interfaces Database.
From S2P Require Import Lifecycle Provisioner CreateSession CostTracker FailureTable Inventory Reconciler Startup.
From S2P Require Import Api ApiFacts Server Metrics.
From S2P Require Config.

(** ** The options of the services

    Those that set a value, each a function on what it sets, as in the code; loggers, clocks and
    the other services are the instances that the definitions of the services take. *)
Module ProvisionerOption.
Definition t : Type := Service.t -> Service.t.
Definition WithDeploymentID (id : string) : t := fun '(Service.mk _ vt ci mi bm avt aci dr lb) =>
  Service.mk id vt ci mi bm avt aci dr lb.
Definition WithSSHVerifyTimeout (d : duration) : t := fun '(Service.mk id _ ci mi bm avt aci dr lb) =>
  Service.mk id d ci mi bm avt aci dr lb.
Definition WithSSHCheckInterval (d : duration) : t := fun '(Service.mk id vt _ mi bm avt aci dr lb) =>
  Service.mk id vt d mi bm avt aci dr lb.
Definition WithSSHMaxInterval (d : duration) : t := fun '(Service.mk id vt ci _ bm avt aci dr lb) =>
  Service.mk id vt ci d bm avt aci dr lb.
Definition WithSSHBackoffMultiplier (m : f64) : t := fun '(Service.mk id vt ci mi _ avt aci dr lb) =>
  Service.mk id vt ci mi m avt aci dr lb.
Definition WithDestroyRetries (n : Z) : t := fun '(Service.mk id vt ci mi bm avt aci _ lb) =>
  Service.mk id vt ci mi bm avt aci n lb.
Definition WithAPIVerifyTimeout (d : duration) : t := fun '(Service.mk id vt ci mi bm _ aci dr lb) =>
  Service.mk id vt ci mi bm d aci dr lb.
Definition WithAPICheckInterval (d : duration) : t := fun '(Service.mk id vt ci mi bm avt _ dr lb) =>
  Service.mk id vt ci mi bm avt d dr lb.
(** [provisioner.New], with the identifier it generates. *)
Definition New (uuid : string) (opts : list t) : Service.t := fold_left (fun s opt => opt s) opts (Service.New uuid).
End ProvisionerOption.

(** [lifecycle.Manager]: the settings of its checks, and the period of its ticker. *)
Module ManagerOption.
Record settings := mk { checkInterval : duration; checks : Lifecycle.Config.t }.
Definition default : settings := mk Minute Lifecycle.Config.default.
Definition t : Type := settings -> settings.
Definition on_checks (f : Lifecycle.Config.t -> Lifecycle.Config.t) : t := fun m => mk (checkInterval m) (f (checks m)).
Definition WithCheckInterval (d : duration) : t := fun m => mk d (checks m).
Definition WithHardMaxHours (hours : Z) : t := on_checks (fun '(Lifecycle.Config.mk _ og st he ex hi) =>
  Lifecycle.Config.mk hours og st he ex hi).
Definition WithOrphanGracePeriod (d : duration) : t := on_checks (fun '(Lifecycle.Config.mk hm _ st he ex hi) =>
  Lifecycle.Config.mk hm d st he ex hi).
Definition WithStuckSessionTimeout (d : duration) : t := on_checks (fun '(Lifecycle.Config.mk hm og _ he ex hi) =>
  Lifecycle.Config.mk hm og d he ex hi).
(** [executor]: that it is not nil. *)
Definition WithSSHExecutor (executor : bool) : t := on_checks (fun '(Lifecycle.Config.mk hm og st he _ hi) =>
  Lifecycle.Config.mk hm og st he executor hi).
Definition WithSSHHealthCheck (enabled : bool) : t := on_checks (fun '(Lifecycle.Config.mk hm og st _ ex hi) =>
  Lifecycle.Config.mk hm og st enabled ex hi).
Definition WithSSHHealthCheckInterval (d : duration) : t := on_checks (fun '(Lifecycle.Config.mk hm og st he ex _) =>
  Lifecycle.Config.mk hm og st he ex d).
Definition New (opts : list t) : settings := fold_left (fun m opt => opt m) opts default.
End ManagerOption.

Module ReconcilerOption.
Record settings := mk { reconcileInterval : duration; config : ReconcilerConfig.t }.
Definition default : settings := mk (2 * Minute)%Z ReconcilerConfig.default.
Definition t : Type := settings -> settings.
Definition WithReconcileInterval (d : duration) : t := fun r => mk d (config r).
Definition WithDeploymentID (id : string) : t := fun r =>
  mk (reconcileInterval r) (ReconcilerConfig.mk id (ReconcilerConfig.autoDestroyOrphans (config r))).
Definition WithAutoDestroyOrphans (enabled : bool) : t := fun r =>
  mk (reconcileInterval r) (ReconcilerConfig.mk (ReconcilerConfig.deploymentID (config r)) enabled).
Definition NewReconciler (opts : list t) : settings := fold_left (fun r opt => opt r) opts default.
End ReconcilerOption.

Module StartupOption.
Record settings := mk { startupSweepTimeout : duration; shutdownTimeout : duration }.
Definition default : settings := mk (2 * Minute)%Z (120 * Second)%Z.
Definition t : Type := settings -> settings.
Definition WithStartupSweepTimeout (d : duration) : t := fun m => mk d (shutdownTimeout m).
Definition WithShutdownTimeout (d : duration) : t := fun m => mk (startupSweepTimeout m) d.
Definition NewStartupShutdownManager (opts : list t) : settings := fold_left (fun m opt => opt m) opts default.
End StartupOption.

(** The cost tracker. *)
Module TrackerOption.
Record settings := mk { aggregationInterval : duration; thresholds : Tracker.t }.
Definition default : settings := mk Hour Tracker.default.
Definition t : Type := settings -> settings.
Definition WithAggregationInterval (d : duration) : t := fun x => mk d (thresholds x).
Definition WithBudgetWarningThreshold (threshold : f64) : t := fun '(mk i (Tracker.mk _ e)) => mk i (Tracker.mk threshold e).
Definition WithBudgetExceededThreshold (threshold : f64) : t := fun '(mk i (Tracker.mk w _)) => mk i (Tracker.mk w threshold).
Definition New (opts : list t) : settings := fold_left (fun x opt => opt x) opts default.
End TrackerOption.

(** ** The services of a configuration *)
Module Deployment.
Record t := mk {
  (** the names of the clients that are built, in their order *)
  providers : list string;
  inventory : InvConfig.t;
  provisioner : Service.t;
  manager : ManagerOption.settings;
  reconciler : ReconcilerOption.settings;
  startup : StartupOption.settings;
  costs : TrackerOption.settings
}.
End Deployment.

Definition given (s : string) : bool := negb (bool_decide (s = "")).

(** The clients: by their keys, and for Blue Lobster by its flag as well. *)
Definition configured_providers (c : Config.ProvidersConfig.t) : list string :=
  let lobster := Config.ProvidersConfig.BlueLobster c in
  let dock := Config.ProvidersConfig.TensorDock c in
  (if given (Config.VastAIConfig.APIKey (Config.ProvidersConfig.VastAI c)) then ["vastai"] else []) ++
  (if Config.BlueLobsterConfig.Enabled lobster && given (Config.BlueLobsterConfig.APIKey lobster)
   then ["bluelobster"] else []) ++
  (if given (Config.TensorDockConfig.AuthID dock) && given (Config.TensorDockConfig.APIToken dock)
   then ["tensordock"] else []).

Definition inventory_options (c : Config.InventoryConfig.t) : InvConfig.t :=
  let base := InvConfig.WithBackoffTTL (Config.InventoryConfig.BackoffCacheTTL c)
                (InvConfig.WithCacheTTL (Config.InventoryConfig.DefaultCacheTTL c) InvConfig.default) in
  if (0 <? Config.InventoryConfig.TensorDockCacheTTL c)%Z
  then InvConfig.WithProviderCacheTTL "tensordock" (Config.InventoryConfig.TensorDockCacheTTL c) base
  else base.

Definition provisioner_options (c : Config.Config.t) : list ProvisionerOption.t :=
  let id := Config.LifecycleConfig.DeploymentID (Config.Config.Lifecycle c) in
  [ProvisionerOption.WithSSHVerifyTimeout (Config.SSHConfig.VerifyTimeout (Config.Config.SSH c));
   ProvisionerOption.WithSSHCheckInterval (Config.SSHConfig.CheckInterval (Config.Config.SSH c))] ++
  (if given id then [ProvisionerOption.WithDeploymentID id] else []).
Definition manager_options (c : Config.LifecycleConfig.t) : list ManagerOption.t :=
  [ManagerOption.WithCheckInterval (Config.LifecycleConfig.CheckInterval c);
   ManagerOption.WithHardMaxHours (Config.LifecycleConfig.HardMaxHours c);
   ManagerOption.WithOrphanGracePeriod (Config.LifecycleConfig.OrphanGracePeriod c)].
Definition reconciler_options (c : Config.LifecycleConfig.t) : list ReconcilerOption.t :=
  let id := Config.LifecycleConfig.DeploymentID c in
  [ReconcilerOption.WithReconcileInterval (Config.LifecycleConfig.ReconciliationInterval c);
   ReconcilerOption.WithAutoDestroyOrphans true] ++
  (if given id then [ReconcilerOption.WithDeploymentID id] else []).
Definition startup_options (c : Config.LifecycleConfig.t) : list StartupOption.t :=
  [StartupOption.WithStartupSweepTimeout (Config.LifecycleConfig.StartupSweepTimeout c);
   StartupOption.WithShutdownTimeout (Config.LifecycleConfig.ShutdownTimeout c)].

(** [uuid]: the identifier that [provisioner.New] generates. *)
Definition deploy (uuid : string) (c : Config.Config.t) : Deployment.t :=
  let lifecycle := Config.Config.Lifecycle c in
  Deployment.mk (configured_providers (Config.Config.Providers c))
    (inventory_options (Config.Config.Inventory c))
    (ProvisionerOption.New uuid (provisioner_options c))
    (ManagerOption.New (manager_options lifecycle))
    (ReconcilerOption.NewReconciler (reconciler_options lifecycle))
    (StartupOption.NewStartupShutdownManager (startup_options lifecycle))
    (TrackerOption.New []).

(** ** The database

    The statements of [Migrate], by their names in the code. *)
Inductive migration :=
| Sessions | Costs | Consumers | Indexes
| DropAgentEndpoint | DropAgentToken | DropLastHeartbeat | DropLastIdleSeconds
| AddAutoRetry | AddMaxRetries | AddRetryScope | AddRetryCount | AddRetryParentID | AddRetryChildID | AddFailedOffers
| OfferFailures | OfferFailuresIndex | OfferSuppressions
| DuplicatePrevention | CostDeduplication.

Section Migrate.
(** [ExecContext] of one of them. *)
Context {W : Type} (exec : migration -> M W (option error)).

(** Statements of which the first that fails ends the migration, with its number from [i]. *)
Fixpoint required (message : nat -> string) (i : nat) (l : list migration) : M W (option error) :=
  match l with
  | [] => ret None
  | m :: l' =>
      let! e := exec m in
      match e with
      | Some e => ret (Some (EWrap (message i) e))
      | None => required message (i + 1) l'
      end
  end.
(** Statements whose errors are ignored. *)
Definition optional (l : list migration) : M W unit := for_each l (fun m => let! _e := exec m in skip).

Definition migrations : list migration := [Sessions; Costs; Consumers; Indexes].
Definition dropColumnMigrations : list migration :=
  [DropAgentEndpoint; DropAgentToken; DropLastHeartbeat; DropLastIdleSeconds].
Definition retryMigrations : list migration :=
  [AddAutoRetry; AddMaxRetries; AddRetryScope; AddRetryCount; AddRetryParentID; AddRetryChildID; AddFailedOffers].
Definition failureMigrations : list migration := [OfferFailures; OfferFailuresIndex; OfferSuppressions].
Definition indexMigrations : list migration := [DuplicatePrevention; CostDeduplication].
Definition Migrate : M W (option error) :=
  let! e := required (fun i => "migration " +:+ Itoa (Z.of_nat i) +:+ " failed") 1 migrations in
  match e with
  | Some e => ret (Some e)
  | None =>
      do! optional dropColumnMigrations in
      do! optional retryMigrations in
      let! e := required (fun _ => "offer failure migration failed") 1 failureMigrations in
      match e with
      | Some e => ret (Some e)
      | None => do! optional indexMigrations in ret None
      end
  end.
End Migrate.

(** ** Before and after serving *)
Section Main.
Context {W : Type} `{HasDB W} `{SessionStore W} `{Env W} `{HasInventory W} `{Runtime W} `{HasServer W} `{MapRange}.

Definition stored_failure (r : FailureRow.t) : StoredFailure.t :=
  StoredFailure.mk (FailureRow.offer_id r) (FailureRow.provider r) (FailureRow.gpu_type r)
    (FailureRow.failure_type r) (FailureRow.reason r) (FailureRow.created_at r).
Definition stored_suppression (r : string * SuppressionRow.t) : StoredSuppression.t :=
  StoredSuppression.mk r.1 (SuppressionRow.provider r.2) (SuppressionRow.gpu_type r.2) (SuppressionRow.suppressed_at r.2).

(** The failures and suppressions of the database, given to the inventory; a failure of the
    second query leaves the failures without suppressions. *)
Definition restore_failures : M W unit :=
  let! t := time_Now in
  let! failures := LoadRecentFailures (Add t (- FailureDecayPeriod)%Z) in
  match failures with
  | Err _ => skip
  | Ok failures =>
      let! t := time_Now in
      let! suppressions := LoadActiveSuppressions (Add t (- SuppressionCooldown)%Z) in
      let suppressions := match suppressions with Ok l => stored_suppression <$> l | Err _ => [] end in
      LoadFailureData (stored_failure <$> failures) suppressions
  end.

Context (reg : gmap string (Provider.t W)) (d : Deployment.t).

(** From the failures to the readiness of the server; errors of the sweep are only logged. *)
Definition start_up (sweep : bool) : M W unit :=
  do! restore_failures in
  do! when sweep (let! _e := RunStartupSweep (ReconcilerOption.config (Deployment.reconciler d)) reg in skip) in
  SetReady true.
(** On a signal, before the loops and the listener are stopped. *)
Definition shut_down (timing : Session.t -> finish) (order : list Session.t -> list Session.t)
    : M W (option error) :=
  do! SetReady false in GracefulShutdown reg timing order.
End Main.

(** ** What the configuration means *)

(** The instances that the deployed provisioner creates carry the identifier by which the
    deployed reconciler knows its own, when one is configured; without one the reconciler,
    which destroys what no session names, takes every instance of the account for its own. *)
Lemma deployed_ids uuid c :
  let id := Config.LifecycleConfig.DeploymentID (Config.Config.Lifecycle c) in
  let d := deploy uuid c in
  Service.deploymentID (Deployment.provisioner d) = (if given id then id else uuid) /\
  ReconcilerOption.config (Deployment.reconciler d) = ReconcilerConfig.mk id true.
Proof.
  cbv zeta. unfold deploy, given, provisioner_options, reconciler_options, ProvisionerOption.New, ReconcilerOption.NewReconciler.
  cbn [Deployment.provisioner Deployment.reconciler].
  destruct (Config.LifecycleConfig.DeploymentID (Config.Config.Lifecycle c)) as [|a s]; cbn; done.
Qed.

Theorem deployment_agrees uuid c sessionID consumerID expiresAt p :
  let id := Config.LifecycleConfig.DeploymentID (Config.Config.Lifecycle c) in
  let d := deploy uuid c in
  ReconcilerConfig.autoDestroyOrphans (ReconcilerOption.config (Deployment.reconciler d)) = true /\
  (id = "" -> ours (ReconcilerOption.config (Deployment.reconciler d)) p = true) /\
  (id <> "" ->
     ProviderInstance.Tags p = buildInstanceTags (Deployment.provisioner d) sessionID consumerID expiresAt ->
     ours (ReconcilerOption.config (Deployment.reconciler d)) p = true).
Proof.
  cbv zeta. destruct (deployed_ids uuid c) as [Hp Hr]. cbv zeta in Hp, Hr. rewrite Hr.
  cbn [ReconcilerConfig.autoDestroyOrphans]. split; [done|]. unfold ours. cbn [ReconcilerConfig.deploymentID]. split.
  - intros ->. done.
  - intros Hid Htags. unfold ProviderInstance.IsOurs. rewrite Htags. unfold buildInstanceTags.
    cbn [InstanceTags.ShopperDeploymentID]. rewrite Hp. unfold given. rewrite bool_decide_false by done. cbn [negb].
    rewrite bool_decide_false by done. cbn [orb]. rewrite Nat.leb_refl.
    apply HasPrefix_spec. exists "". by rewrite append_empty.
Qed.

(** The flags of Vast.ai and TensorDock do not count: a client is built for their keys. *)
Lemma disabled_providers_built v l t :
  configured_providers (Config.ProvidersConfig.mk v l t) =
  configured_providers (Config.ProvidersConfig.mk (Config.VastAIConfig.mk (Config.VastAIConfig.APIKey v) false) l
    (Config.TensorDockConfig.mk (Config.TensorDockConfig.AuthID t) (Config.TensorDockConfig.APIToken t) false
       (Config.TensorDockConfig.DefaultImage t))).
Proof. done. Qed.

(** A valid configuration may have intervals that a ticker does not take: the service is
    built with them, and its loop panics as it starts. *)
Lemma zero_interval_valid uuid :
  exists c, Config.Config.Validate c = None /\
    ManagerOption.checkInterval (Deployment.manager (deploy uuid c)) = 0%Z.
Proof.
  exists (Config.Config.mk (Config.ServerConfig.mk "" 0) ""
    (Config.ProvidersConfig.mk (Config.VastAIConfig.mk "key" true) (Config.BlueLobsterConfig.mk "" false "")
       (Config.TensorDockConfig.mk "" "" false ""))
    (Config.InventoryConfig.mk 0 0 0)
    (Config.LifecycleConfig.mk 0 12 0 0 true 0 0 "") (Config.SSHConfig.mk 0 0) (Config.LoggingConfig.mk "" ""))%Z.
  done.
Qed.

(** ** What a migration that succeeds shows *)

(** A database that answers each statement as [answer] says, and remembers them. *)
Definition remember (answer : migration -> option error) (m : migration) : M (list migration) (option error) :=
  fun done => (answer m, done ++ [m]).

Lemma required_answers answer message i l done :
  (fst (required (remember answer) message i l done) = None <-> Forall (fun m => answer m = None) l) /\
  (Forall (fun m => answer m = None) l -> snd (required (remember answer) message i l done) = done ++ l).
Proof.
  revert i done. induction l as [|m l IH]; intros i done; cbn; [by rewrite app_nil_r; split; [split; [constructor|]|]|].
  unfold bind. change (remember answer m done) with (answer m, done ++ [m]). rewrite Forall_cons.
  destruct (answer m) as [e|]; cbn [fst snd]; [split; [split; [done|by intros []]|by intros []]|].
  destruct (IH (i + 1) (done ++ [m])) as [Hf Hs]. split; [rewrite Hf; tauto|].
  intros [_ Hl]. by rewrite (Hs Hl), <-app_assoc.
Qed.
Lemma optional_runs answer l done : snd (optional (remember answer) l done) = done ++ l.
Proof.
  revert done. induction l as [|m l IH]; intros done; [cbn; by rewrite app_nil_r|].
  specialize (IH (done ++ [m])). unfold optional in IH |- *. cbn [for_each]. unfold bind, remember, skip, ret in *. cbn in *.
  by rewrite IH, <-app_assoc.
Qed.

(** A migration succeeds exactly when the tables and their indexes, and the tables of the
    failures, could be made; then every statement was tried. *)
Theorem migrate_required answer :
  let r := Migrate (remember answer) [] in
  (fst r = None <-> Forall (fun m => answer m = None) (migrations ++ failureMigrations)) /\
  (fst r = None ->
     snd r = migrations ++ dropColumnMigrations ++ retryMigrations ++ failureMigrations ++ indexMigrations).
Proof.
  cbv zeta. unfold Migrate, bind.
  destruct (required_answers answer (fun i => "migration " +:+ Itoa (Z.of_nat i) +:+ " failed") 1 migrations []) as [Hf Hs].
  destruct (required _ _ 1 migrations []) as [[e|] v]; cbn [fst snd] in *.
  { rewrite Forall_app, <-Hf. split; [split; [done|by intros []]|done]. }
  rewrite (Hs (proj1 Hf eq_refl)). clear Hs. rewrite Forall_app, <-Hf.
  pose proof (optional_runs answer dropColumnMigrations ([] ++ migrations)) as Ho.
  destruct (optional _ dropColumnMigrations _) as [[] v1]. cbn [snd] in Ho. subst v1.
  pose proof (optional_runs answer retryMigrations (([] ++ migrations) ++ dropColumnMigrations)) as Ho.
  destruct (optional _ retryMigrations _) as [[] v1]. cbn [snd] in Ho. subst v1.
  match goal with |- context [required _ ?msg 1 failureMigrations ?v0] =>
    destruct (required_answers answer msg 1 failureMigrations v0) as [Hf2 Hs2];
    destruct (required (remember answer) msg 1 failureMigrations v0) as [[e|] v2]
  end; cbn [fst snd] in *; [rewrite <-Hf2; split; [split; [done|by intros []]|done]|].
  rewrite (Hs2 (proj1 Hf2 eq_refl)).
  match goal with |- context [optional _ indexMigrations ?v0] => pose proof (optional_runs answer indexMigrations v0) as Ho;
    destruct (optional (remember answer) indexMigrations v0) as [[] v3] end.
  cbn [fst snd] in *. subst v3. rewrite <-Hf2. split; [tauto|done].
Qed.

(** The index that keeps a consumer from having two active sessions for an offer may be
    missing after a migration that succeeded: a table that has such sessions refuses it. *)
Example migrate_without_index :
  fst (Migrate (remember (fun m => match m with
    | DuplicatePrevention => Some (EOpaque "UNIQUE constraint failed: sessions.consumer_id, sessions.offer_id")
    | _ => None
    end)) []) = None.
Proof. reflexivity. Qed.
