(* ===== verification/Loader.v ===== *)
(** [cmd/benchmark-loader/main.go]: the command that stores the benchmark results it finds
    under a directory. *)
From S2P Require Import Prelude GoFloat GoLib GoStrings GoText Models Errors Interfaces Database Tables BenchStore BenchParser.

(** An entry of the directory, with its three files: those that are there, as opening and
    decoding them answers. *)
Module RunEntry.
Record t := mk {
  Name : string;
  IsDir : bool;
  metadata : option (result BenchmarkMetadata.t);
  results : option (result (list string));
  gpu : option (result (list (result (list string))))
}.
End RunEntry.

(** [os.Open] or [os.ReadFile], and what follows. *)
Definition opened {A} (path : string) (file : option (result A)) : result A :=
  match file with Some r => r | None => Err (EOpaque ("open " +:+ path +:+ ": no such file or directory")) end.

Section Loader.
Context {W : Type} `{HasDB W} `{Env W} `{HasBenchmarks W} `{RunContext W} `{BenchEngine}.
Context (decode_request : string -> option RequestResult.t) (ParseFloat : string -> f64 * bool) (ParseInt : string -> Z).
(** The flags. *)
Context (dataDir provider location : string) (pricePerHour : f64).

Definition file_of (entry : RunEntry.t) (name : string) : string := dataDir +:+ "/" +:+ RunEntry.Name entry +:+ "/" +:+ name.
Definition result_of (entry : RunEntry.t) (now : time) : result BenchmarkResult.t :=
  LoadBenchmarkFromDirectory (opened (file_of entry "metadata.json") (RunEntry.metadata entry))
    (opened (file_of entry "results.jsonl") (RunEntry.results entry))
    (opened (file_of entry "gpu.csv") (RunEntry.gpu entry))
    decode_request ParseFloat ParseInt provider location pricePerHour now.

Definition loaded_line (r : BenchmarkResult.t) : string :=
  "Loaded: " +:+ ModelInfo.Name (BenchmarkResult.Model r) +:+ " - " +:+
  HardwareInfo.GPUName (BenchmarkResult.Hardware r) +:+ " on " +:+ BenchmarkResult.Provider r +:+ " (" +:+
  fmt_fixed 1 (PerformanceResults.AvgTokensPerSecond (BenchmarkResult.Results r)) +:+ " TPS)".

(** The body of the loop: the line it prints when it has stored the entry; what it skips or
    cannot store is only logged. *)
Definition load_entry (entry : RunEntry.t) : M W (option string) :=
  if negb (RunEntry.IsDir entry) || negb (HasPrefix (RunEntry.Name entry) "benchmark_") then ret None
  else match RunEntry.metadata entry with
  | None => ret None
  | Some _ =>
      let! now := time_Now in
      match result_of entry now with
      | Err _ => ret None
      | Ok result =>
          match RunEntry.results entry with
          | None => ret None
          | Some _ =>
              let! saved := Save Background result in
              ret match saved.1 with
                  | Some _ => None
                  | None => Some (loaded_line saved.2)
                  end
          end
      end
  end.

Fixpoint load_all (entries : list RunEntry.t) : M W (list string) :=
  match entries with
  | [] => ret []
  | entry :: rest =>
      let! line := load_entry entry in
      let! lines := load_all rest in
      ret (option_list line ++ lines)
  end.

(** [main]: what it prints, or the error it ends with.  [database], [store] and [dir] are the
    answers of [sql.Open], [NewStore] and [os.ReadDir]. *)
Definition main (database store : option error) (dir : result (list RunEntry.t)) : M W (result (list string)) :=
  if bool_decide (dataDir = "") then ret (Err (EOpaque "--dir is required"))
  else match database, store, dir with
  | Some e, _, _ => ret (Err (EWrap "Failed to open database" e))
  | None, Some e, _ => ret (Err (EWrap "Failed to create store" e))
  | None, None, Err e => ret (Err (EWrap "Failed to read directory" e))
  | None, None, Ok entries =>
      let! lines := load_all entries in
      ret (Ok (lines ++ ["Loaded " +:+ Itoa (Z.of_nat (length lines)) +:+ " benchmarks"]))
  end.
End Loader.

(** ** What it stores *)
Section Facts.
Context {W : Type} `{HasDB W} `{Env W} `{HasBenchmarks W} `{RunContext W} `{BenchEngine}.
Context `{!TableLaws benchmarks} `{!TableEnv benchmarks}.
Context (decode_request : string -> option RequestResult.t) (ParseFloat : string -> f64 * bool) (ParseInt : string -> Z).
Context (dataDir provider location : string) (pricePerHour : f64).
Local Abbreviation load_entry := (load_entry decode_request ParseFloat ParseInt dataDir provider location pricePerHour).
Local Abbreviation load_all := (load_all decode_request ParseFloat ParseInt dataDir provider location pricePerHour).

(** A directory of which no file is missing. *)
Definition complete (entry : RunEntry.t) : Prop :=
  RunEntry.IsDir entry = true /\ HasPrefix (RunEntry.Name entry) "benchmark_" = true /\
  is_Some (RunEntry.metadata entry) /\ is_Some (RunEntry.results entry) /\ is_Some (RunEntry.gpu entry).

(** The rows of a table with some more, which are as many as the lines printed. *)
Definition grown (n : nat) (before after : gmap string BenchRow.t) : Prop :=
  before ⊆ after /\ size after = (size before + n)%nat.
Lemma grown_trans n k a b c : grown n a b -> grown k b c -> grown (n + k) a c.
Proof. intros [Hab Hs] [Hbc Hs']. split; [by etrans|lia]. Qed.

Lemma result_of_complete entry now r :
  result_of decode_request ParseFloat ParseInt dataDir provider location pricePerHour entry now = Ok r ->
  is_Some (RunEntry.metadata entry) /\ is_Some (RunEntry.results entry) /\ is_Some (RunEntry.gpu entry).
Proof.
  unfold result_of, LoadBenchmarkFromDirectory, ParseResultsJSONL, ParseGPUCSV, opened.
  destruct (RunEntry.metadata entry), (RunEntry.results entry), (RunEntry.gpu entry); repeat case_match; by eauto.
Qed.

Lemma wp_load_entry entry w :
  wp (load_entry entry) (fun line w' =>
    grown (length (option_list line)) (view benchmarks w) (view benchmarks w') /\
    (is_Some line -> complete entry)) w.
Proof.
  assert (forall w', view benchmarks w' = view benchmarks w ->
            grown (length (option_list (@None string))) (view benchmarks w) (view benchmarks w') /\
            (is_Some (@None string) -> complete entry)) as Hno.
  { intros w' ->. split; [by split; [|cbn; lia]|by intros []]. }
  unfold Loader.load_entry. destruct (RunEntry.IsDir entry) eqn:Hd; [|by apply wp_ret, Hno].
  destruct (HasPrefix (RunEntry.Name entry) "benchmark_") eqn:Hp; [|by apply wp_ret, Hno]. cbn [negb orb].
  destruct (RunEntry.metadata entry) eqn:Hm; [|by apply wp_ret, Hno].
  apply wp_bind. eapply wp_mono; [by eauto with tables|]. cbv beta. intros now w1 Hv1.
  destruct (result_of _ _ _ _ _ _ _ entry now) as [loaded|e] eqn:Hr; [|by apply wp_ret, Hno].
  apply result_of_complete in Hr. destruct (RunEntry.results entry) eqn:Hres; [|by apply wp_ret, Hno].
  apply wp_bind. eapply wp_mono; [apply wp_Save|]. intros [[e|] saved] w2 Hs; cbn [fst snd] in *; apply wp_ret.
  { apply Hno. congruence. }
  destruct Hs as (text & _ & Hid & ->). rewrite Hv1 in *. split.
  - split; [by apply insert_subseteq|]. rewrite map_size_insert, Hid. cbn. lia.
  - intros _. rewrite Hm in Hr. unfold complete. rewrite Hm, Hres. tauto.
Qed.

(** The command keeps what was stored, adds one row for each line it prints, and prints no
    more lines than there are complete directories: one without [gpu.csv], about which it
    means to warn only, is not stored. *)
Theorem loader_stores entries w :
  wp (load_all entries) (fun lines w' =>
    grown (length lines) (view benchmarks w) (view benchmarks w') /\
    exists stored, stored `sublist_of` entries /\ Forall complete stored /\ length stored = length lines) w.
Proof.
  revert w. induction entries as [|entry rest IH]; intros w; cbn [Loader.load_all].
  { apply wp_ret. split; [by split; [|cbn; lia]|]. by exists []. }
  apply wp_bind. eapply wp_mono; [apply wp_load_entry|]. intros line w1 [Hg Hc].
  apply wp_bind. eapply wp_mono; [apply IH|]. intros lines w2 [Hg' (stored & Hs & Hf & Hl)]. apply wp_ret.
  rewrite length_app. split; [by eapply grown_trans|].
  destruct line as [line|]; cbn [option_list length].
  - exists (entry :: stored). split_and!; [by constructor|constructor; [apply Hc; by exists line|done]|cbn; lia].
  - exists stored. split_and!; [by constructor|done|cbn; lia].
Qed.
End Facts.
