(* ===== verification/Logging.v ===== *)
(** [internal/logging/logging.go]: what is written to the log, and with which attributes. *)
From S2P Require Import Prelude GoLib GoStrings.

(** ** Contexts *)
Module LogContext.
Record t := mk { request_id : option string; session_id : option string; consumer_id : option string }.
Definition Background : t := mk None None None.
End LogContext.
Definition WithRequestID (id : string) (c : LogContext.t) : LogContext.t :=
  LogContext.mk (Some id) (LogContext.session_id c) (LogContext.consumer_id c).
Definition WithSessionID (id : string) (c : LogContext.t) : LogContext.t :=
  LogContext.mk (LogContext.request_id c) (Some id) (LogContext.consumer_id c).
Definition WithConsumerID (id : string) (c : LogContext.t) : LogContext.t :=
  LogContext.mk (LogContext.request_id c) (LogContext.session_id c) (Some id).

Inductive attr_value := AttrString (s : string) | AttrBool (b : bool).
Definition attrs : Type := list (string * attr_value).
Definition id_attr (name : string) (id : option string) : attrs :=
  match id with
  | Some s => if bool_decide (s = "") then [] else [(name, AttrString s)]
  | None => []
  end.
(** The identifiers of a context that are there. *)
Definition context_attrs (c : LogContext.t) : attrs :=
  id_attr "request_id" (LogContext.request_id c) ++ id_attr "session_id" (LogContext.session_id c) ++
  id_attr "consumer_id" (LogContext.consumer_id c).

(** ** [log/slog] *)
Inductive Level := LevelDebug | LevelInfo | LevelWarn | LevelError.
Definition level_number (l : Level) : Z :=
  match l with LevelDebug => -4 | LevelInfo => 0 | LevelWarn => 4 | LevelError => 8 end.
Inductive LogFormat := TextHandler | JSONHandler.

(** A handler of the library with the attributes it was given, and whether [ContextHandler] is
    around it; a logger is its handler. *)
Module Logger.
Record t := mk { level : Level; format : LogFormat; addSource : bool; given : attrs; wrapped : bool }.
End Logger.
Module LogRecord.
Record t := mk { level : Level; message : string; attributes : attrs }.
End LogRecord.

(** [Handle] of the library's handler: what was given comes first. *)
Definition handle (l : Logger.t) (r : LogRecord.t) : LogRecord.t :=
  LogRecord.mk (LogRecord.level r) (LogRecord.message r) (Logger.given l ++ LogRecord.attributes r).
(** [ContextHandler.Handle]: the identifiers are added to the record. *)
Definition ContextHandler_Handle (ctx : LogContext.t) (l : Logger.t) (r : LogRecord.t) : LogRecord.t :=
  handle l (LogRecord.mk (LogRecord.level r) (LogRecord.message r) (LogRecord.attributes r ++ context_attrs ctx)).
(** [Logger.With]: [ContextHandler] has no [WithAttrs] of its own, so that the handler inside
    it answers, without the wrapper. *)
Definition With (l : Logger.t) (more : attrs) : Logger.t :=
  match more with
  | [] => l
  | _ => Logger.mk (Logger.level l) (Logger.format l) (Logger.addSource l) (Logger.given l ++ more) false
  end.
(** [Logger.Log]: nothing below the level is written. *)
Definition Log (ctx : LogContext.t) (l : Logger.t) (level : Level) (msg : string) (args : attrs) : option LogRecord.t :=
  if (level_number level <? level_number (Logger.level l))%Z then None
  else
    let r := LogRecord.mk level msg args in
    Some (if Logger.wrapped l then ContextHandler_Handle ctx l r else handle l r).

(** ** The package *)
Definition parse_level (s : string) : Level :=
  let s := ToLower s in
  if bool_decide (s = "debug") then LevelDebug
  else if bool_decide (s = "info") then LevelInfo
  else if bool_decide (s = "warn") || bool_decide (s = "warning") then LevelWarn
  else if bool_decide (s = "error") then LevelError
  else LevelInfo.
(** [Setup]; the logger becomes the default one. *)
Definition Setup (level format : string) : Logger.t :=
  let l := parse_level level in
  Logger.mk l (if bool_decide (ToLower format = "text") then TextHandler else JSONHandler)
    (match l with LevelDebug => true | _ => false end) [] true.

Section Package.
(** [slog.Default()]. *)
Context (default_logger : Logger.t).

(** [Logger]. *)
Definition Logger_of (ctx : LogContext.t) : Logger.t :=
  match context_attrs ctx with [] => default_logger | l => With default_logger l end.

(** The methods of a logger without a context use the background. *)
Definition log_at (level : Level) (ctx : LogContext.t) (msg : string) (args : attrs) : option LogRecord.t :=
  Log LogContext.Background (Logger_of ctx) level msg args.
Definition Debug : LogContext.t -> string -> attrs -> option LogRecord.t := log_at LevelDebug.
Definition Info : LogContext.t -> string -> attrs -> option LogRecord.t := log_at LevelInfo.
Definition Warn : LogContext.t -> string -> attrs -> option LogRecord.t := log_at LevelWarn.
Definition Error : LogContext.t -> string -> attrs -> option LogRecord.t := log_at LevelError.

Definition Audit (ctx : LogContext.t) (operation : string) (more : attrs) : option LogRecord.t :=
  Log LogContext.Background default_logger LevelInfo "AUDIT"
    ([("audit", AttrBool true); ("operation", AttrString operation)] ++ context_attrs ctx ++ more).
End Package.

(** ** What is written *)

(** A message carries the identifiers of its context once, before its own attributes,
    whichever of them are there, exactly when its level is enabled. *)
Theorem messages_carry_ids level format at_ ctx msg args :
  log_at (Setup level format) at_ ctx msg args =
  if (level_number at_ <? level_number (parse_level level))%Z then None
  else Some (LogRecord.mk at_ msg (context_attrs ctx ++ args)).
Proof.
  unfold log_at, Logger_of, Log, Setup. cbv zeta. destruct (context_attrs ctx) as [|x l] eqn:Hc; cbn;
    destruct (_ <? _)%Z; try done. unfold ContextHandler_Handle, handle. cbn. by rewrite app_nil_r.
Qed.

(** An audit record is written exactly when messages of the level info are: with the level
    warn or error there is none, although it is meant to be written always. *)
Theorem audit_follows_level level format ctx operation more :
  Audit (Setup level format) ctx operation more = None <->
  parse_level level = LevelWarn \/ parse_level level = LevelError.
Proof. unfold Audit, Log, Setup. cbv zeta. cbn [Logger.level]. destruct (parse_level level); cbn; split; (done || (by intros [|]) || (intros _; tauto)). Qed.

(** A logger that was given an attribute no longer looks at contexts. *)
Lemma with_loses_context level format ctx x msg :
  Log ctx (With (Setup level format) [x]) LevelError msg [] = Some (LogRecord.mk LevelError msg [x]).
Proof. unfold Log, With, Setup. cbv zeta. cbn. by destruct (parse_level level). Qed.

Example audit_lost : Audit (Setup "WARN" "json") LogContext.Background "session_created" [] = None.
Proof. reflexivity. Qed.
