(* ===== verification/Simulation.v ===== *)
(** A concrete outside world in which the services run: the SQLite-backed store over
    an in-memory database, a clock that only [wait] and the context advance, numbered
    identifiers, a log of effects, and one scripted provider account.  It satisfies
    every law the theorems assume, so they apply to it, and it evaluates. *)
From S2P Require Import Prelude GoFloat GoLib Models Errors Interfaces Database SessionTable.
From S2P Require Import FailureTracker Lifecycle Provisioner CreateSession Verify Programs SshExec SshVerifier CostTable CostTracker.
From S2P Require Import FailureTable Inventory InventoryFacts Reconciler Startup.
From S2P Require Import Template CircuitBreaker ApiClient VastTypes Vast VastFacts BlueLobster BlueLobsterFacts.

From S2P Require Import TensorDock TensorDockFacts.

(** The network: the answers to the next requests, the requests sent to each marketplace,
    and the state of the clients. *)
Module Net.
Record t := mk {
  answers : list (result Response.t);
  vast_sent : list (Request.t VastPayload);
  bl_sent : list (Request.t BlueLobster.payload);
  td_sent : list (Request.t TensorDock.payload);
  vast_state : VastState.t;
  bl_breaker : circuitBreaker.t;
  td_state : TensorDock.TDState.t
}.
Definition init (l : list (result Response.t)) : t :=
  mk l [] [] [] VastState.NewClient (newCircuitBreaker DefaultCircuitBreakerConfig)
    TensorDock.TDState.NewClient.
Definition set_vast v n :=
  mk (answers n) (vast_sent n) (bl_sent n) (td_sent n) v (bl_breaker n) (td_state n).
Definition set_bl c n :=
  mk (answers n) (vast_sent n) (bl_sent n) (td_sent n) (vast_state n) c (td_state n).
Definition set_td s n :=
  mk (answers n) (vast_sent n) (bl_sent n) (td_sent n) (vast_state n) (bl_breaker n) s.
(** One answer less, the requests sent more. *)
Definition sending lv lb lt n :=
  mk (tail (answers n)) (vast_sent n ++ lv) (bl_sent n ++ lb) (td_sent n ++ lt) (vast_state n)
    (bl_breaker n) (td_state n).
End Net.

Module Sim.
Record t := mk {
  db : DB.t;
  clk : time;
  effects : list Effect;
  next_id : Z;
  (** the instances of the account: running or not *)
  instances : gmap string bool;
  (** instances that stay running whatever [DestroyInstance] is asked *)
  stubborn : gset string;
  (** the errors of the next [CreateInstance] calls; [None] succeeds *)
  create_script : list (option error);
  (** the context ends at this instant *)
  deadline : time;
  (** the ids [DestroyInstance] has been called with *)
  calls : gset string;
  inv : InvState.t;
  net : Net.t
}.

Definition set_db (d : DB.t) (w : t) : t :=
  mk d (clk w) (effects w) (next_id w) (instances w) (stubborn w) (create_script w)
    (deadline w) (calls w) (inv w) (net w).
Definition set_clk (c : time) (w : t) : t :=
  mk (db w) c (effects w) (next_id w) (instances w) (stubborn w) (create_script w) (deadline w)
    (calls w) (inv w) (net w).
Definition log (e : Effect) (w : t) : t :=
  mk (db w) (clk w) (effects w ++ [e]) (next_id w) (instances w) (stubborn w) (create_script w)
    (deadline w) (calls w) (inv w) (net w).
Definition bump (w : t) : t :=
  mk (db w) (clk w) (effects w) (next_id w + 1) (instances w) (stubborn w) (create_script w)
    (deadline w) (calls w) (inv w) (net w).
Definition set_instances (i : gmap string bool) (w : t) : t :=
  mk (db w) (clk w) (effects w) (next_id w) i (stubborn w) (create_script w) (deadline w)
    (calls w) (inv w) (net w).
Definition pop_create (w : t) : t :=
  mk (db w) (clk w) (effects w) (next_id w) (instances w) (stubborn w) (tail (create_script w))
    (deadline w) (calls w) (inv w) (net w).
Definition call (i : string) (w : t) : t :=
  mk (db w) (clk w) (effects w) (next_id w) (instances w) (stubborn w) (create_script w)
    (deadline w) ({[i]} ∪ calls w) (inv w) (net w).
Definition set_inv (s : InvState.t) (w : t) : t :=
  mk (db w) (clk w) (effects w) (next_id w) (instances w) (stubborn w) (create_script w)
    (deadline w) (calls w) s (net w).
Definition set_net (n : Net.t) (w : t) : t :=
  mk (db w) (clk w) (effects w) (next_id w) (instances w) (stubborn w) (create_script w)
    (deadline w) (calls w) (inv w) n.
End Sim.

#[export] Instance sim_db : HasDB Sim.t := {
  get_db := Sim.db; set_db := Sim.set_db; db_clock := Sim.clk
}.
#[export] Instance sim_db_laws : HasDBLaws Sim.t.
Proof. by split. Qed.

#[export] Instance sim_driver : Driver := {
  text_unique_id := "UNIQUE constraint failed: sessions.id";
  text_unique_active := "UNIQUE constraint failed: sessions.consumer_id, sessions.offer_id"
}.

(** The clock reads the instant; a wait moves it on, to the deadline at most. *)
#[export] Instance sim_env : Env Sim.t := {
  now := fun w => (Sim.clk w, w);
  time_Now := fun w => (Sim.clk w, w);
  wait := fun d w =>
    let c := (Sim.clk w + Z.max 0 d)%Z in
    if (Sim.deadline w <? c)%Z
    then (Some (EContext "context deadline exceeded"),
          Sim.set_clk (Z.max (Sim.clk w) (Sim.deadline w)) w)
    else (None, Sim.set_clk c w);
  new_uuid := fun w => (pretty (Sim.next_id w), Sim.bump w);
  emit := fun e w => (tt, Sim.log e w)
}.

#[export] Instance sim_env_laws : EnvLaws Sim.t.
Proof.
  split.
  - intros w. unfold wp. cbn. split; [done|lia].
  - intros w. unfold wp. cbn. split; [done|lia].
  - intros d w. unfold wp. cbn. destruct (Z.ltb _ _); cbn; (split; [done|split; [cbn; lia|done]]).
  - intros w. by unfold wp.
  - intros e w. by unfold wp.
Qed.

(** The scripted provider. *)
Definition sim_provider (name : string) (offers : list GPUOffer.t) : Provider.t Sim.t :=
  Provider.mk Sim.t name
    (fun f w => (Ok (List.filter (fun o => OfferFilter.MatchesFilter o f) offers), w))
    (fun w => (Ok ((fun x => ProviderInstance.mk (fst x) "" "running" (Sim.clk w)
                               (InstanceTags.mk "" "deploy-1" zero_time "") f0) <$> map_to_list (Sim.instances w)), w))
    (fun r w =>
       match Sim.create_script w with
       | Some e :: _ => (Err e, Sim.pop_create w)
       | _ =>
           let id := "inst-" +:+ pretty (Sim.next_id w) in
           (Ok (InstanceInfo.mk id "10.0.0.1" 22 "" "running" f0 "" 0 ∅),
            Sim.bump (Sim.set_instances (<[id := true]> (Sim.instances w)) (Sim.pop_create w)))
       end)
    (fun i w =>
       if bool_decide (i ∈ Sim.stubborn w) then (None, Sim.call i w)
       else (None, Sim.call i (Sim.set_instances (delete i (Sim.instances w)) w)))
    (fun i w =>
       match Sim.instances w !! i : option bool with
       | Some b => (Ok (InstanceStatus.mk (if b then "running" else "exited") b zero_time "" "10.0.0.1" 22 "" "" ∅), w)
       | None => (Err ErrInstanceNotFound, w)
       end)
    None.

Definition sim_registry : gmap string (Provider.t Sim.t) :=
  Registry.NewSimpleProviderRegistry [sim_provider "vastai" []].

Lemma sim_provider_frames name offers :
  let p := sim_provider name offers in
  (forall f, frame (Provider.ListOffers p f)) /\ frame (Provider.ListAllInstances p) /\
  (forall r, frame (Provider.CreateInstance p r)) /\ (forall i, frame (Provider.DestroyInstance p i)) /\
  (forall i, frame (Provider.GetInstanceStatus p i)) /\
  (forall m, Provider.GetAccountBalance p = Some m -> frame m).
Proof.
  split_and!; [intros f w|intros w|intros r w|intros i w|intros i w|done]; unfold wp; cbn;
    try done.
  - by destruct (Sim.create_script w) as [|[e|] l].
  - by case_bool_decide.
  - by destruct (Sim.instances w !! i).
Qed.

#[export] Instance sim_provider_laws : ProviderLaws Sim.t sim_registry.
Proof.
  split. intros n p Hp.
  assert (p = sim_provider "vastai" []) as ->.
  { revert Hp. unfold sim_registry, Registry.NewSimpleProviderRegistry. cbn.
    rewrite lookup_insert_Some, lookup_empty. by intros [[_ <-]|[_ [=]]]. }
  apply sim_provider_frames.
Qed.

#[export] Instance sim_destroyer : SessionDestroyer Sim.t :=
  Provisioner.DestroySession (Service.New "deploy-1") sim_registry.
#[export] Instance sim_destroyer_laws : DestroyerLaws Sim.t.
Proof. apply provisioner_destroyer_laws, _. Qed.

(** ** The other interfaces *)
#[export] Instance sim_random : Random Sim.t := {
  generateSSHKeyPair := fun w => (Ok ("private", "ssh-rsa AAAA"), w);
  rand_IntN := fun w => (fun n => 0%Z, w)
}.
#[export] Instance sim_random_laws : RandomLaws Sim.t.
Proof.
  split.
  - intros w. by unfold wp.
  - intros w. unfold wp. cbn. split; [done|lia].
Qed.

#[export] Instance sim_cost_engine : CostEngine := {
  text_cost_id := "UNIQUE constraint failed: costs.id";
  text_foreign_key := "FOREIGN KEY constraint failed";
  sum_amounts := fun l => fold_left fadd l f0
}.
#[export] Instance sim_env_db : EnvDB (W := Sim.t).
Proof. by split. Qed.

(** The provisioner's cost recorder is the cost tracker. *)
#[export] Instance sim_cost_recorder : CostRecorder Sim.t := Some Tracker_RecordFinalCost.
#[export] Instance sim_cost_recorder_laws : CostRecorderLaws Sim.t.
Proof. intros record s [= <-]. apply Tracker_RecordFinalCost_frame. Qed.

(** Of a [select], the case that is ready first, the context before the timeout before the
    timer. *)
Definition sim_select (ctx timeout : time) (d : duration) (w : Sim.t) : Event * Sim.t :=
  let t := (Sim.clk w + Z.max 0 d)%Z in
  if ((ctx <=? t) && (ctx <=? timeout))%Z then (EvCancelled, Sim.set_clk (Z.max (Sim.clk w) ctx) w)
  else if (timeout <=? t)%Z then (EvTimeout, Sim.set_clk (Z.max (Sim.clk w) timeout) w)
  else (EvPoll, Sim.set_clk t w).

(** Machines accept the generated key and answer to commands. *)
#[export] Instance sim_network : Network Sim.t := {
  ssh_do := fun A e =>
    match e in sshE A return M Sim.t A with
    | ParsePrivateKey _ => ret None
    | Dial _ _ => ret (Ok 0)
    | NewClientConn _ _ _ key => ret (if bool_decide (key = "private") then None else Some (EOpaque "connection refused"))
    | CloseConn _ => ret None
    | NewSession _ => ret (Ok 0)
    | CloseSession _ | SignalKill _ | RecordDiskAvailable _ _ => skip
    | RunSession _ _ _ => ret (Some ("ok" +:+ String (Ascii.ascii_of_nat 10) "", "", None))
    | CtxErr => ret None
    | HasDeadline => ret false
    | SshNow => time_Now
    | WaitOrDone d => let! ended := wait d in ret (bool_decide (ended <> None))
    end;
  new_request := fun _ => None;
  http_get := fun _ => ret (Ok 200%Z)
}.
#[export] Instance sim_network_laws : NetworkLaws Sim.t.
Proof.
  split; [|intros url w; by apply wp_ret].
  intros A []; cbn [ssh_do sim_network]; try apply frame_ret.
  - intros w. eapply wp_mono; [apply time_Now_spec|]. by intros t w' [].
  - apply frame_bind; [apply wait_frame|]. intros. apply frame_ret.
Qed.
#[export] Instance sim_verifiers : Verifiers Sim.t := network_verifiers (Service.New "deploy-1").
#[export] Instance sim_verifier_laws : VerifierLaws Sim.t := network_verifier_laws (Service.New "deploy-1").

#[export] Instance sim_timers : Timers Sim.t := {
  after_or_done := fun ctx d w =>
    let t := (Sim.clk w + Z.max 0 d)%Z in
    if (ctx <=? t)%Z then (false, Sim.set_clk (Z.max (Sim.clk w) ctx) w) else (true, Sim.set_clk t w);
  select_event := sim_select;
  select_tick := sim_select
}.

Lemma sim_select_spec ctx timeout d w :
  wp (sim_select ctx timeout d) (fun ev w' => quiet w w' /\
      match ev with
      | EvPoll => (clock w < ctx /\ clock w < timeout /\ clock w + d <= clock w')%Z
      | EvTimeout => (timeout <= clock w')%Z
      | EvCancelled => (ctx <= clock w')%Z
      end) w.
Proof.
  unfold wp, sim_select. cbv zeta. case_match; [|case_match]; cbn;
    (split; [split; [done|split; [cbn; lia|done]]|]); lia.
Qed.

#[export] Instance sim_timer_laws : TimerLaws Sim.t.
Proof.
  split.
  - intros ctx t d w. eapply wp_mono; [apply sim_select_spec|]. by intros ? ? [].
  - intros ctx d w. unfold wp. cbn. case_match; cbn;
      (split; [split; [done|split; [cbn; lia|done]]|]); lia.
  - apply sim_select_spec.
Qed.

#[export] Instance sim_inventory : HasInventory Sim.t := {
  get_inv := Sim.inv; set_inv := Sim.set_inv
}.
#[export] Instance sim_inv_laws : InvLaws Sim.t.
Proof. by split. Qed.

(** Go's insertion sort, what [sort.Slice] does on short slices. *)
Fixpoint insert_sorted (less : GPUOffer.t -> GPUOffer.t -> bool) (x : GPUOffer.t)
    (l : list GPUOffer.t) : list GPUOffer.t :=
  match l with
  | [] => [x]
  | y :: l' => if less y x then y :: insert_sorted less x l' else x :: l
  end.

#[export] Instance sim_runtime : Runtime Sim.t := {
  range_cache := map_to_list;
  arrival := fun ps => ps;
  sort_Slice := fun less l => fold_right (insert_sorted less) [] l
}.

Lemma insert_sorted_perm less x l : insert_sorted less x l ≡ₚ x :: l.
Proof.
  induction l as [|y l IH]; [done|]. cbn. destruct (less y x); [|done]. rewrite IH. constructor.
Qed.

Lemma sort_Slice_perm less l : fold_right (insert_sorted less) [] l ≡ₚ l.
Proof. induction l as [|x l IH]; [done|]. cbn. by rewrite insert_sorted_perm, IH. Qed.

Lemma strict_weak_incl less l l' :
  (forall x, x ∈ l' -> x ∈ l) -> strict_weak_on less l -> strict_weak_on less l'.
Proof.
  intros Hs (Hi & Ht & Hn). split; [auto|]. split.
  - intros a b c Ha Hb Hc. apply Ht; auto.
  - intros a b c Ha Hb Hc. apply Hn; auto.
Qed.

Lemma insert_sorted_sorted less x l : strict_weak_on less (x :: l) ->
  StronglySorted (fun a b => less b a = false) l ->
  StronglySorted (fun a b => less b a = false) (insert_sorted less x l).
Proof.
  intros Hw Hs. induction Hs as [|y l Hs IH Hy]; [by repeat constructor|]. cbn.
  assert (Hwl : strict_weak_on less (x :: l)) by (eapply strict_weak_incl; [|exact Hw]; intros z; rewrite !elem_of_cons; tauto).
  destruct Hw as (Hirr & Htr & Hinc).
  assert (Hmem : forall z, z ∈ l -> z ∈ x :: y :: l) by (intros z; rewrite !elem_of_cons; tauto).
  assert (Hx : x ∈ x :: y :: l) by by left. assert (Hyl : y ∈ x :: y :: l) by (right; by left).
  rewrite Forall_forall in Hy. destruct (less y x) eqn:Hyx.
  - constructor; [auto|]. apply Forall_forall. intros z. rewrite insert_sorted_perm, elem_of_cons.
    intros [->|Hz]; [|auto]. apply not_true_iff_false. intros Hxy.
    assert (Hyy : less y y = true) by by apply (Htr y x y). by rewrite (Hirr y Hyl) in Hyy.
  - constructor; [by constructor; [|apply Forall_forall]|]. apply Forall_forall. intros z.
    rewrite elem_of_cons. intros [->|Hz]; [done|]. specialize (Hy z Hz).
    apply not_true_iff_false. intros Hzx.
    destruct (less x y) eqn:Hxy.
    + assert (Hzy : less z y = true) by (apply (Htr z x y); auto). congruence.
    + destruct (less y z) eqn:Hyz.
      * assert (Hyx' : less y x = true) by (apply (Htr y z x); auto). congruence.
      * destruct (Hinc z y x) as [Hzx' _]; auto. congruence.
Qed.

#[export] Instance sim_runtime_laws : RuntimeLaws Sim.t.
Proof.
  split; [intros m; cbn; reflexivity|intros ps; cbn; reflexivity|exact sort_Slice_perm|]. intros less l Hw.
  induction l as [|x l IH]; [constructor|]. cbn. apply insert_sorted_sorted.
  - eapply strict_weak_incl; [|exact Hw]. intros z. cbn. by rewrite !elem_of_cons, sort_Slice_perm.
  - apply IH. eapply strict_weak_incl; [|exact Hw]. intros z Hz. by right.
Qed.

#[export] Instance sim_map_range : MapRange := fun A m => map_to_list m.
#[export] Instance sim_map_range_laws : MapRangeLaws.
Proof. intros A m. reflexivity. Qed.

#[export] Instance sim_call_log : CallLog Sim.t := Sim.calls.
#[export] Instance sim_call_log_laws : CallLogLaws Sim.t sim_registry.
Proof.
  assert (Hprov : forall n p, sim_registry !! n = Some p -> p = sim_provider "vastai" []).
  { intros n p. unfold sim_registry, Registry.NewSimpleProviderRegistry. cbn.
    rewrite lookup_insert_Some, lookup_empty. by intros [[_ <-]|[_ [=]]]. }
  split.
  - intros f w. unfold ListInternal. cbn. apply wp_bind, wp_sql; intros; by apply wp_ret.
  - intros s w. unfold Update. cbn. apply wp_bind. apply wp_sql; intros; by apply wp_ret.
  - by intros w.
  - by intros e w.
  - intros n p ->%Hprov. by intros w.
  - intros n p ->%Hprov i w. unfold wp. cbn. by case_bool_decide.
Qed.

#[export] Instance sim_status_silent : StatusSilent Sim.t sim_registry.
Proof.
  intros n p Hp i w.
  assert (p = sim_provider "vastai" []) as ->.
  { revert Hp. unfold sim_registry, Registry.NewSimpleProviderRegistry. cbn.
    rewrite lookup_insert_Some, lookup_empty. by intros [[_ <-]|[_ [=]]]. }
  unfold wp. cbn. by destruct (Sim.instances w !! i).
Qed.

#[export] Instance sim_destroy_silent : DestroySilent Sim.t.
Proof.
  split.
  - intros id w. unfold Get. cbn. apply wp_bind, wp_sql; intros; by apply wp_ret.
  - intros d w. unfold wp. cbn. by case_match.
Qed.

(** The inventory service over the scripted provider, as the provisioner sees it. *)
Definition sim_finder (offers : list GPUOffer.t) : InventoryFinder.t Sim.t :=
  inventory_finder InvConfig.default [sim_provider "vastai" offers].
Lemma sim_finder_laws offers inv : Some (sim_finder offers) = Some inv -> InventoryLaws Sim.t inv.
Proof.
  intros [= <-]. apply inventory_finder_laws. intros p f ->%list_elem_of_singleton w. by unfold wp.
Qed.

(** ** Deciding that a world is healthy *)
Definition unique_check (v : gmap string Session.t) : bool :=
  forallb (fun x => forallb (fun y =>
      bool_decide (x.1 = y.1) ||
      negb (Session.IsActive x.2 && Session.IsActive y.2 &&
            bool_decide (Session.ConsumerID x.2 = Session.ConsumerID y.2) &&
            bool_decide (Session.OfferID x.2 = Session.OfferID y.2)))
    (map_to_list v)) (map_to_list v).

Definition healthy_check (w : Sim.t) : bool :=
  match DB.faults (Sim.db w) with [] => unique_check (sess_view w) | _ => false end.

Lemma unique_check_sound v : unique_check v = true -> unique_active v.
Proof.
  unfold unique_check. intros Hc c o i j a b Hi Hj (<- & <- & Ha) (Hcb & Hob & Hb).
  rewrite forallb_forall in Hc. specialize (Hc (i, a)).
  rewrite <-list_elem_of_In, elem_of_map_to_list, forallb_forall in Hc.
  specialize (Hc Hi (j, b)). rewrite <-list_elem_of_In, elem_of_map_to_list in Hc.
  specialize (Hc Hj). cbn in Hc. rewrite Ha, Hb, Hcb, Hob in Hc.
  destruct (bool_decide_reflect (i = j)) as [|Hne]; [done|].
  by rewrite !bool_decide_true in Hc.
Qed.

Lemma healthy_check_sound w : healthy_check w = true -> healthy w.
Proof.
  unfold healthy_check. destruct (DB.faults (Sim.db w)) eqn:Hf; [|done].
  intros Hu%unique_check_sound. by split.
Qed.

Ltac sim_healthy := apply healthy_check_sound; vm_compute; reflexivity.

(** ** The network *)
Definition on_net (f : Net.t -> Net.t) (w : Sim.t) : Sim.t := Sim.set_net (f (Sim.net w)) w.
Definition sim_vast : lens Sim.t VastState.t :=
  mk_lens (fun w => Net.vast_state (Sim.net w)) (fun v => on_net (Net.set_vast v)).
Definition sim_bl : lens Sim.t circuitBreaker.t :=
  mk_lens (fun w => Net.bl_breaker (Sim.net w)) (fun c => on_net (Net.set_bl c)).
Definition sim_td : lens Sim.t TensorDock.TDState.t :=
  mk_lens (fun w => Net.td_state (Sim.net w)) (fun s => on_net (Net.set_td s)).
#[export] Instance sim_has_vast : HasVast Sim.t := sim_vast.
#[export] Instance sim_has_bl : BlueLobster.HasBlueLobster Sim.t := sim_bl.
#[export] Instance sim_has_td : TensorDock.HasTensorDock Sim.t := sim_td.
#[export] Instance sim_td_laws : LensLaws (W := Sim.t) TensorDock.tensordock.
Proof. by split. Qed.
#[export] Instance sim_vast_laws : LensLaws (W := Sim.t) vast.
Proof. by split. Qed.
#[export] Instance sim_bl_laws : LensLaws (W := Sim.t) BlueLobster.breaker.
Proof. by split. Qed.

Definition next_answer (w : Sim.t) : result Response.t :=
  match Net.answers (Sim.net w) with r :: _ => r | [] => Err (EOpaque "connection refused") end.

#[export] Instance sim_http_vast : HttpClient Sim.t VastPayload := {
  NewRequest_error := fun _ => None;
  Do := fun r w => (next_answer w, on_net (Net.sending [r] [] []) w);
  limiter_Wait := ret None
}.
#[export] Instance sim_http_bl : HttpClient Sim.t BlueLobster.payload := {
  NewRequest_error := fun _ => None;
  Do := fun r w => (next_answer w, on_net (Net.sending [] [r] []) w);
  limiter_Wait := ret None
}.
#[export] Instance sim_http_td : HttpClient Sim.t TensorDock.payload := {
  NewRequest_error := fun _ => None;
  Do := fun r w => (next_answer w, on_net (Net.sending [] [] [r]) w);
  limiter_Wait := ret None
}.
#[export] Instance sim_log_td : RequestLog Sim.t TensorDock.payload := fun w => Net.td_sent (Sim.net w).
#[export] Instance sim_log_vast : RequestLog Sim.t VastPayload := fun w => Net.vast_sent (Sim.net w).
#[export] Instance sim_log_bl : RequestLog Sim.t BlueLobster.payload := fun w => Net.bl_sent (Sim.net w).

Ltac no_req := intros; intros ?; exists []; split; [rewrite app_nil_r|]; try done; cbn; by case_match.
#[export] Instance sim_http_vast_laws : HttpLaws Sim.t VastPayload.
Proof.
  split; try no_req; try (intros; intros ?; by unfold wp). intros r w. by exists [r].
Qed.
#[export] Instance sim_http_bl_laws : HttpLaws Sim.t BlueLobster.payload.
Proof.
  split; try no_req; try (intros; intros ?; by unfold wp). intros r w. by exists [r].
Qed.
#[export] Instance sim_http_td_laws : HttpLaws Sim.t TensorDock.payload.
Proof.
  split; try no_req; try (intros; intros ?; by unfold wp). intros r w. by exists [r].
Qed.
#[export] Instance sim_td_owned : Owned (W := Sim.t) TensorDock.payload TensorDock.tensordock.
Proof. split; intros; intros w; cbn; try done. by case_match. Qed.
#[export] Instance sim_vast_owned : Owned (W := Sim.t) VastPayload vast.
Proof. split; intros; intros w; cbn; try done. by case_match. Qed.
#[export] Instance sim_wait_laws : WaitLaws Sim.t.
Proof. intros d w. unfold wp. cbn. case_match; [done|]. intros _. cbn. lia. Qed.
