(* ===== verification/Scenarios.v ===== *)
(** Concrete runs in the simulated world: each applies a theorem of the library at
    an input where its hypotheses hold. *)
From S2P Require Import Prelude GoFloat GoLib Models Errors Interfaces Database SessionTable.
From S2P Require Import FailureTracker Lifecycle Provisioner Disk CreateSession Verify CostTable CostTracker.
From S2P Require Import FailureTable Inventory InventoryFacts Reconciler Startup ModelsFacts SshVerifier Simulation DestroyLocks.
From Stdlib Require Import Ascii.

Module Scn.
Definition T0 : time := (63900000000 * Second)%Z.

(** A session of consumer [c] for offer [o], created at [T0] for four hours. *)
Definition session (id c o pid : string) (st : SessionStatus) : Session.t :=
  Session.mk id c "vastai" pid o "RTX4090" 1 st "" "10.0.0.1" 22 "root" "" "ssh-rsa AAAA"
    "" "" 0 "" "" "" [] "" "" 0 false 3 "same_gpu" 0 "" "" "" "llm" 4 false 0 "destroy"
    (f64_lit 5 1) T0 (T0 + 4 * Hour)%Z zero_time.

Definition table (l : list Session.t) : gmap string SessionRow.t :=
  list_to_map ((fun s => (Session.ID s, insert_row s)) <$> l).

Definition world (clk : time) (l : list Session.t) (inst : list string) (stuck : list string) : Sim.t :=
  Sim.mk (DB.mk (table l) [] [] ∅ []) clk [] 1
    (list_to_map ((fun i => (i, true)) <$> inst)) (list_to_set stuck) [] (clk + 24 * Hour)%Z ∅
    (InvState.mk ∅ false OfferFailureTracker.new) (Net.init []).

Definition running := session "s-run" "alice" "vastai-1" "inst-1" StatusRunning.
Definition pending := session "s-pend" "bob" "vastai-2" "" StatusPending.
Definition stopping := session "s-stop" "carol" "vastai-3" "inst-3" StatusStopping.
Definition failed := session "s-fail" "dave" "vastai-4" "inst-4" StatusFailed.
Definition all : list Session.t := [running; pending; stopping; failed].

(** Thirteen hours after creation; every instance obeys but the failed session's. *)
Definition late : Sim.t :=
  world (T0 + 13 * Hour)%Z all ["inst-1"; "inst-3"; "inst-4"] ["inst-4"].
End Scn.

Lemma checkHardMax_enforces_witness :
  exists s', sess_view (snd (checkHardMax Config.default Scn.late)) !! "s-run" = Some s' /\
    (Session.IsActive s' = false \/
     destroy_failed_note "hard max duration exceeded" Scn.running s').
Proof.
  apply (proj1 (checkHardMax_enforces Config.default Scn.late)).
  - sim_healthy.
  - vm_compute. reflexivity.
  - split; [reflexivity|]. split; [reflexivity|]. vm_compute. reflexivity.
Defined.

Lemma checkReservationExpiry_enforces_witness :
  exists s', sess_view (snd (checkReservationExpiry Scn.late)) !! "s-run" = Some s' /\
    (Session.IsActive s' = false \/
     destroy_failed_note "reservation expired" Scn.running s').
Proof.
  assert (0 < clock Scn.late)%Z as Hpos by (vm_compute; reflexivity).
  apply (proj1 (checkReservationExpiry_enforces Scn.late Hpos)).
  - sim_healthy.
  - vm_compute. reflexivity.
  - split; [reflexivity|]. vm_compute. reflexivity.
Defined.

Lemma checkStuckSessions_fails_stuck_witness :
  exists t, (clock Scn.late <= t)%Z /\
    sess_view (snd (checkStuckSessions Config.default Scn.late)) !! "s-stop" =
      Some (stuck_failed t Scn.stopping).
Proof.
  assert (healthy Scn.late) as Hh by sim_healthy.
  destruct (proj1 (checkStuckSessions_fails_stuck Config.default Scn.late) Hh
              "s-stop" Scn.stopping) as (t & [Ht _] & Hs).
  - vm_compute. reflexivity.
  - split; [left; reflexivity|vm_compute; reflexivity].
  - exists t. split; [exact Ht|exact Hs].
Defined.

Lemma runChecks_keeps_unchecked_witness :
  sess_view (snd (runChecks Config.default zero_time Scn.late)) !! "s-pend" = Some Scn.pending.
Proof.
  apply (runChecks_keeps_unchecked Config.default "s-pend" Scn.pending zero_time Scn.late).
  - vm_compute. reflexivity.
  - left. reflexivity.
Defined.

(** An extension by 12 hours at the instant of creation, of a four-hour session. *)
Definition early : Sim.t := Scn.world Scn.T0 Scn.all ["inst-1"; "inst-3"; "inst-4"] ["inst-4"].

Lemma ExtendSession_extends_witness :
  fst (ExtendSession Config.default "s-run" 12 early) = None /\
  exists t, (clock early <= t)%Z /\
    sess_view (snd (ExtendSession Config.default "s-run" 12 early)) =
      <["s-run" := extended 12 Scn.running]> (sess_view early).
Proof.
  assert (fst (ExtendSession Config.default "s-run" 12 early) = None) as Hr
    by (vm_compute; reflexivity).
  split; [exact Hr|].
  assert (healthy early) as Hh by sim_healthy.
  assert (sess_view early !! "s-run" = Some Scn.running) as Hs by (vm_compute; reflexivity).
  pose proof (ExtendSession_extends Config.default "s-run" 12 Scn.running early Hs Hh) as Hx.
  unfold wp in Hx. rewrite Hr in Hx. destruct Hx as (t & [Ht _] & _ & _ & Hv).
  exists t. split; [exact Ht|exact Hv].
Defined.

Lemma DestroySession_confirms_witness :
  let w' := snd (Provisioner.DestroySession (Service.New "deploy-1") sim_registry "s-run" Scn.late) in
  (exists s', sess_view w' !! "s-run" = Some s' /\ destroyed sim_registry Scn.running s' None Scn.late w') /\
  destroy_calls w' = {["inst-1"]} ∪ destroy_calls Scn.late.
Proof.
  assert (healthy Scn.late) as Hh by sim_healthy.
  assert (fst (Provisioner.DestroySession (Service.New "deploy-1") sim_registry "s-run" Scn.late)
          = None) as Hr by (vm_compute; reflexivity).
  assert (sess_view Scn.late !! "s-run" = Some Scn.running) as Hs by (vm_compute; reflexivity).
  pose proof (DestroySession_confirms (Service.New "deploy-1") sim_registry "s-run" Scn.late Hh)
    as [_ Hx].
  rewrite Hs, Hr in Hx. destruct (proj1 Hx eq_refl) as [Hd [[_ Hn]|[Ha _]]]; [|split; [exact Hd|exact Ha]].
  specialize (Hn eq_refl). discriminate Hn.
Defined.

(** The stubborn instance of the failed session is still running afterwards. *)
Lemma DestroySession_forgets_instance_witness :
  (exists t, sess_view (snd (Provisioner.DestroySession (Service.New "deploy-1") sim_registry
                              "s-fail" Scn.late)) !! "s-fail" = Some (cleaned_at t Scn.failed)) /\
  Sim.instances (snd (Provisioner.DestroySession (Service.New "deploy-1") sim_registry
                        "s-fail" Scn.late)) !! "inst-4" = Some true.
Proof.
  split; [|vm_compute; reflexivity].
  assert (healthy Scn.late) as Hh by sim_healthy.
  assert (sess_view Scn.late !! "s-fail" = Some Scn.failed) as Hs by (vm_compute; reflexivity).
  assert (needs_cleanup Scn.failed) as Hc by (split; [reflexivity|discriminate]).
  destruct (DestroySession_forgets_instance (Service.New "deploy-1") sim_registry "s-fail"
              Scn.failed Scn.late Hh Hs Hc) as (_ & t & _ & Hv).
  exists t. exact Hv.
Defined.

(** The simulated environment without a deadline, and a provider whose instances
    never stop. *)
Definition patient_env : Env Sim.t :=
  {| now := now; time_Now := time_Now; new_uuid := new_uuid; emit := emit;
     wait := fun d w => (None, Sim.set_clk (Sim.clk w + Z.max 0 d)%Z w) |}.

Definition undead_provider : Provider.t Sim.t :=
  Provider.mk Sim.t "vastai" (fun _ w => (Ok [], w)) (fun w => (Ok [], w))
    (fun _ w => (Err ErrOfferUnavailable, w)) (fun _ w => (None, w))
    (fun _ w => (Ok (InstanceStatus.mk "running" true zero_time "" "10.0.0.1" 22 "" "" ∅), w)) None.

Lemma destroyWithVerification_gives_up_witness :
  fst (@destroyWithVerification _ patient_env (Service.New "deploy-1") Scn.running
         undead_provider Scn.late) =
    Some (DestroyVerificationError "s-run" "inst-1" 10).
Proof.
  apply (@destroyWithVerification_gives_up _ patient_env (Service.New "deploy-1")
           undead_provider Scn.running Scn.late).
  - discriminate.
  - reflexivity.
  - reflexivity.
Defined.

(** ** The store *)
Lemma store_keeps_one_active_witness :
  wp (Create Scn.pending) (fun _ w' => unique_active (sess_view w')) Scn.late /\
  wp (Update Scn.pending) (fun _ w' => unique_active (sess_view w')) Scn.late.
Proof.
  apply (store_keeps_one_active Scn.pending Scn.late).
  apply unique_check_sound. vm_compute. reflexivity.
Defined.

(** ** Costs *)

(** The running session's hour is recorded a second time, at another price. *)
Definition again : CostRecord.t :=
  CostRecord.mk "" "s-run" "alice" "vastai" "RTX4090" Scn.T0 (f64_of_Z 7) "USD".
Definition billed_once : Sim.t :=
  Sim.set_db (DB.set_costs [CostRecord.mk "c1" "s-run" "alice" "vastai" "RTX4090" Scn.T0 (f64_of_Z 5) "USD"]
                (Sim.db Scn.late)) Scn.late.

Lemma Record_upserts_witness :
  length (DB.costs (get_db (snd (Record_cost again billed_once)))) = 1 /\
  bill (snd (Record_cost again billed_once)) =
    <[("s-run", Scn.T0) := entry_of again]> (bill billed_once).
Proof.
  split; [vm_compute; reflexivity|].
  assert (NoDup (cost_key <$> DB.costs (get_db billed_once))) as Hnd by by_dec.
  assert (fst (Record_cost again billed_once) = None) as Hr by (vm_compute; reflexivity).
  pose proof (Record_upserts again billed_once Hnd) as (_ & _ & Hb). rewrite Hr in Hb. exact Hb.
Defined.

(** Stopped two hours and a half after its creation on the hour: three hours. *)
Definition stopped_later : Session.t :=
  Session.set_StoppedAt (Scn.T0 + 150 * Minute)%Z
    (Session.set_Status StatusStopped Scn.running).

Lemma RecordFinalCost_bills_hours_witness :
  bill (snd (Tracker_RecordFinalCost stopped_later Scn.late)) !! ("s-run", (Truncate Scn.T0 Hour + Hour)%Z) =
    Some (hourly stopped_later).
Proof.
  pose proof (RecordFinalCost_bills_hours stopped_later Scn.late) as Hx.
  assert (fleb (Session.PricePerHour stopped_later) f0 = false) as Hp by (vm_compute; reflexivity).
  assert (0 < Session.CreatedAt stopped_later < Session.StoppedAt stopped_later)%Z as Ht
    by (split; vm_compute; reflexivity).
  apply (Hx Hp Ht ("s-run", (Truncate Scn.T0 Hour + Hour)%Z)). right.
  split; [vm_compute; reflexivity|]. split; [reflexivity|].
  split; [split; vm_compute; discriminate|vm_compute; reflexivity].
Defined.

Lemma aggregation_bills_running_witness :
  billed_running Scn.late (snd (recordCostsForRunningSessions Scn.late)) /\
  size (bill (snd (recordCostsForRunningSessions Scn.late))) = 1.
Proof.
  split; [|vm_compute; reflexivity]. apply (aggregation_bills_running Scn.late).
Defined.

(** ** Creating sessions *)
Definition offer (id : string) (price : Z) (confidence : f64) : GPUOffer.t :=
  GPUOffer.mk id "vastai" id "RTX4090" 1 24 (f64_of_Z price) "US" (f64_lit 99 100) true 0 Scn.T0
    confidence (f64_of_Z 12) ("machine-" +:+ id) false f0.
Definition offers : list GPUOffer.t := [offer "vastai-8" 5 f1; offer "vastai-9" 5 f1; offer "vastai-7" 4 (f64_lit 1 2)].

Definition request (consumer offerID : string) (retry : bool) : CreateSessionRequest.t :=
  CreateSessionRequest.mk consumer offerID "llm" 4 0 "destroy" "" "" "" [] "" "" 50 retry 3 "same_gpu" "" 0 0 0%Z.

Definition deploy : Service.t := Service.New "deploy-1".

(** The provider refuses the first offer as stale; the second attempt, with another
    offer, succeeds. *)
Definition stale_once : Sim.t :=
  Sim.mk (Sim.db early) (Sim.clk early) [] 1 (Sim.instances early) ∅ [Some ErrOfferStaleInventory] (Sim.deadline early) ∅
    (Sim.inv early) (Sim.net early).

Lemma CreateSession_adds_witness :
  exists s, fst (CreateSession deploy sim_registry (Some (sim_finder offers))
                   (request "erin" "vastai-8" true) (offer "vastai-8" 5 f1) stale_once) = Ok s /\
    Session.OfferID s = "vastai-9" /\ Session.Status s = StatusProvisioning /\
    grows stale_once (snd (CreateSession deploy sim_registry (Some (sim_finder offers))
                   (request "erin" "vastai-8" true) (offer "vastai-8" 5 f1) stale_once)).
Proof.
  pose proof (CreateSession_adds deploy sim_registry (Some (sim_finder offers))
                (Hinv := sim_finder_laws offers)
                (request "erin" "vastai-8" true) (offer "vastai-8" 5 f1) stale_once) as (Hg & _ & Hs & _).
  eexists. split; [vm_compute; reflexivity|]. split; [vm_compute; reflexivity|].
  split; [vm_compute; reflexivity|exact Hg].
Defined.

Lemma CreateSession_refuses_duplicate_witness :
  refused "alice" "vastai-1" early
    (fst (CreateSession deploy sim_registry (Some (sim_finder offers)) (request "alice" "vastai-1" true)
            (offer "vastai-1" 5 f1) early))
    (snd (CreateSession deploy sim_registry (Some (sim_finder offers)) (request "alice" "vastai-1" true)
            (offer "vastai-1" 5 f1) early)).
Proof.
  apply (CreateSession_refuses_duplicate deploy sim_registry (Some (sim_finder offers))
           (request "alice" "vastai-1" true) (offer "vastai-1" 5 f1) "s-run" Scn.running early).
  - sim_healthy.
  - vm_compute. reflexivity.
  - split; [reflexivity|]. split; vm_compute; reflexivity.
Defined.

Lemma createSessionWithRetry_fuel_witness :
  createSessionWithRetry deploy sim_registry (Some (sim_finder offers)) 7
    (request "erin" "vastai-8" true) (offer "vastai-8" 5 f1) [] [] 0%Z "" stale_once =
  createSessionWithRetry deploy sim_registry (Some (sim_finder offers)) 3
    (request "erin" "vastai-8" true) (offer "vastai-8" 5 f1) [] [] 0%Z "" stale_once.
Proof.
  apply (createSessionWithRetry_fuel deploy sim_registry (Some (sim_finder offers))
           (Hinv := sim_finder_laws offers) 7 (request "erin" "vastai-8" true)
           (offer "vastai-8" 5 f1) [] [] 0%Z "" stale_once).
  apply Nat.leb_le. vm_compute. reflexivity.
Defined.

Lemma shellQuote_one_word_witness :
  sh_word false (shellQuote "it's $HOME" +:+ " tail") = Some ("it's $HOME", " tail").
Proof.
  apply (shellQuote_one_word "it's $HOME" " tail"). right. exists "tail". reflexivity.
Defined.

(** ** Disk space *)
Lemma roundUpTo5_least_witness : (roundUpTo5 41 = 45)%Z /\ (roundUpTo5 41 <= 50)%Z.
Proof.
  split; [reflexivity|]. apply (roundUpTo5_least 41); [lia|vm_compute; discriminate|reflexivity|lia].
Defined.

Lemma ValidateDiskSpace_estimate_witness :
  exists e, EstimateDiskRequirements "meta-llama/Llama-3.1-70B" "" "" 40 = Some e /\
    ValidateDiskSpace 20 (Some e) =
      Some (InsufficientDiskError 20 (DiskEstimation.MinimumGB e) (DiskEstimation.RecommendedGB e) (Some e)).
Proof.
  pose proof (ValidateDiskSpace_estimate "meta-llama/Llama-3.1-70B" "" "" 40 20 eq_refl) as Hx.
  destruct (EstimateDiskRequirements "meta-llama/Llama-3.1-70B" "" "" 40) as [e|] eqn:He.
  - exists e. split; [reflexivity|]. destruct Hx as (_ & _ & _ & Hx). apply Hx.
    assert (Some (DiskEstimation.MinimumGB e) = Some 225%Z) as [= ->]; [|reflexivity].
    transitivity (option_map DiskEstimation.MinimumGB (Some e)); [reflexivity|]. rewrite <-He.
    vm_compute. reflexivity.
  - exfalso. revert He. vm_compute. discriminate.
Defined.

Lemma parseParamCount_reads_witness : parseParamCount "Mixtral-8x7B-v0" = fmul (f64_of_Z 8) (f64_of_Z 7).
Proof.
  apply (parseParamCount_reads "Mixtral" 8 7 "x"%char "B"%char "-v0"); vm_compute; reflexivity.
Defined.

(** ** Verification *)
Definition sim_vastai : Provider.t Sim.t := sim_provider "vastai" [].

Definition provisioning : Session.t :=
  Session.set_Status StatusProvisioning (Scn.session "s-new" "erin" "vastai-8" "inst-9" StatusRunning).
Definition verifying : Sim.t := Scn.world Scn.T0 [provisioning; Scn.failed] ["inst-9"; "inst-4"] [].

(** SSH answers: the session is running afterwards. *)
Definition default_intervals : list duration :=
  (Z.mul 1000000 <$> [15000; 22500; 33750; 50625; 60000])%Z.

(** Eight minutes of verification, the context a little longer. *)
Definition verify_new : bool * Sim.t :=
  waitForSSHVerifyAsyncWithTimeout deploy sim_registry (Some (sim_finder offers)) 100
    (Sim.clk verifying + 8 * Minute + 5 * Second)%Z "s-new" "private" sim_vastai (8 * Minute)%Z verifying.

Lemma ssh_verification_outcome_witness :
  fst verify_new = true /\
  Session.Status <$> sess_view (snd verify_new) !! "s-new" = Some StatusRunning /\
  sess_view (snd verify_new) !! "s-fail" = Some Scn.failed.
Proof.
  assert (0 < 5 * Second <= 5 * Second)%Z as Hlo by (vm_compute; split; [reflexivity|discriminate]).
  assert (Backoff.bounded (5 * Second)%Z default_intervals (Backoff.NewProgressiveBackoff
    (Service.sshCheckInterval deploy) (Service.sshMaxInterval deploy)
    (Service.sshBackoffMultiplier deploy))) as Hb by (unfold Backoff.bounded; by_dec).
  assert (sim_registry !! "vastai" = Some sim_vastai) as Hr by reflexivity.
  assert (sess_view verifying !! "s-new" = Some provisioning) as Hs by (vm_compute; reflexivity).
  assert (polls (5 * Second)%Z (8 * Minute)%Z < 100) as Hf by (vm_compute; lia).
  destruct (ssh_verification_outcome deploy sim_registry (Some (sim_finder offers))
    (Hinv := sim_finder_laws offers) 100 (Sim.clk verifying + 8 * Minute + 5 * Second)%Z "vastai"
    sim_vastai "s-new" "private" (8 * Minute)%Z (5 * Second)%Z default_intervals
    provisioning verifying Hlo Hb Hr Hs Hf) as (Hret & Ho & _).
  split; [exact Hret|]. split; [vm_compute; reflexivity|].
  assert (sess_view verifying !! "s-fail" = Some Scn.failed) as Hfail by (vm_compute; reflexivity).
  rewrite <-Hfail. apply Ho. discriminate.
Defined.

Lemma api_verification_never_succeeds_witness :
  let ctx := (Sim.clk verifying + 10 * Minute + 5 * Second)%Z in
  exists s', sess_view (snd (waitForAPIVerifyAsync deploy sim_registry 3 ctx "s-new" sim_vastai verifying)) !! "s-new" = Some s' /\
    (Session.Status s' = StatusProvisioning \/ Session.Status s' = StatusFailed).
Proof.
  cbv zeta.
  apply (api_verification_never_succeeds deploy sim_registry 3 (Sim.clk verifying + 10 * Minute + 5 * Second)%Z
           "vastai" sim_vastai "s-new" provisioning verifying).
  - reflexivity.
  - vm_compute. reflexivity.
Defined.

(** The timeout finds a session that has been stopped meanwhile. *)
Definition stopped : Session.t := Scn.session "s-done" "erin" "vastai-8" "" StatusStopped.
Definition after_stop : Sim.t := Scn.world Scn.T0 [stopped] [] [].

Lemma ssh_timeout_fails_any_witness :
  exists t, (clock after_stop <= t <= clock (snd (ssh_timeout sim_registry (Some (sim_finder offers)) "s-done" sim_vastai after_stop)))%Z /\
    sess_view (snd (ssh_timeout sim_registry (Some (sim_finder offers)) "s-done" sim_vastai after_stop)) !! "s-done" =
      Some (Session.set_StoppedAt t
              (Session.set_Error "SSH verification timeout" (Session.set_Status StatusFailed stopped))).
Proof.
  apply (ssh_timeout_fails_any sim_registry (Some (sim_finder offers)) (Hinv := sim_finder_laws offers)
           "vastai" sim_vastai "s-done" stopped after_stop).
  - reflexivity.
  - vm_compute. reflexivity.
  - sim_healthy.
Defined.

(** ** Failure tracking *)
Definition failure (n : Z) : Spec.event :=
  Spec.Event "vastai-8" "vastai" "RTX4090" "ssh_timeout" "SSH verification timeout" (Scn.T0 + n * Minute)%Z.
Definition history : list Spec.event := [failure 0; failure 5; failure 10].

Lemma tracker_refines_history_witness :
  IsSuppressed (run_tracker OfferFailureTracker.new history) "vastai-8" (Scn.T0 + 20 * Minute)%Z = true /\
  Spec.is_suppressed (Spec.run history) "vastai-8" (Scn.T0 + 20 * Minute)%Z = true.
Proof.
  split; [vm_compute; reflexivity|].
  assert (in_order 0%Z history) as Hi by (repeat split; vm_compute; (reflexivity || discriminate)).
  assert (Forall (fun e => Spec.at_ e <= Scn.T0 + 20 * Minute)%Z history) as Ha by by_dec.
  assert (0 <= Scn.T0 + 20 * Minute)%Z as Hp by (vm_compute; discriminate).
  destruct (tracker_refines_history history (Scn.T0 + 20 * Minute)%Z Hi Ha Hp) as [Hs _].
  rewrite <-Hs. vm_compute. reflexivity.
Defined.

Definition two_failures : tracker := run_tracker OfferFailureTracker.new [failure 0; failure 5].

Lemma RecordFailure_suppresses_witness :
  IsSuppressed (fst (RecordFailure two_failures "vastai-8" "vastai" "RTX4090" "ssh_timeout" "" (Scn.T0 + 10 * Minute)%Z))
    "vastai-8" (Scn.T0 + 39 * Minute)%Z = true.
Proof.
  apply (RecordFailure_suppresses two_failures "vastai-8" "vastai" "RTX4090" "ssh_timeout" ""
           (Scn.T0 + 10 * Minute)%Z (Scn.T0 + 39 * Minute)%Z).
  - vm_compute. reflexivity.
  - vm_compute. reflexivity.
  - apply Nat.leb_le. vm_compute. reflexivity.
  - split; vm_compute; (reflexivity || discriminate).
Defined.

(** Three more failures in the minutes after the cooldown leave the offer in the
    listings: the first of them only clears the old suppression. *)
Definition cooled_down : tracker := run_tracker OfferFailureTracker.new history.

Lemma expired_suppression_shields_witness :
  IsSuppressed (fst (RecordFailure cooled_down "vastai-8" "vastai" "RTX4090" "ssh_timeout" "" (Scn.T0 + 41 * Minute)%Z))
    "vastai-8" (Scn.T0 + 42 * Minute)%Z = false.
Proof.
  apply (expired_suppression_shields cooled_down "vastai-8" "vastai" "RTX4090" "ssh_timeout" ""
           (Scn.T0 + 41 * Minute)%Z (Scn.T0 + 42 * Minute)%Z).
  vm_compute. reflexivity.
Defined.

Lemma multiplier_range_witness :
  fleb (f64_lit 5 100) (GetConfidenceMultiplier two_failures "vastai-8" "RTX4090" "vastai" (Scn.T0 + 6 * Minute)%Z) = true.
Proof.
  assert (length (recent_events (events two_failures "vastai-8") (Scn.T0 + 6 * Minute - SuppressionWindow)%Z) <= 100) as Hl
    by (apply Nat.leb_le; vm_compute; reflexivity).
  pose proof (multiplier_range two_failures "vastai-8" "RTX4090" "vastai" (Scn.T0 + 6 * Minute)%Z Hl) as Hx.
  assert (IsSuppressed two_failures "vastai-8" (Scn.T0 + 6 * Minute)%Z = false) as Hs by (vm_compute; reflexivity).
  rewrite Hs in Hx. apply Hx.
Defined.

(** The server stops a quarter of an hour after the third failure and restarts. *)
Definition standing : list StoredSuppression.t :=
  [StoredSuppression.mk "vastai-8" "vastai" "RTX4090" (Scn.T0 + 10 * Minute)%Z].

Lemma restart_agrees_witness :
  IsSuppressed (fst (LoadFromStore OfferFailureTracker.new
      (stored <$> since (Scn.T0 - 45 * Minute)%Z history) standing (Scn.T0 + 15 * Minute)%Z))
    "vastai-8" (Scn.T0 + 16 * Minute)%Z =
  IsSuppressed (run_tracker OfferFailureTracker.new history) "vastai-8" (Scn.T0 + 16 * Minute)%Z.
Proof.
  apply (restart_agrees history standing (Scn.T0 - 45 * Minute)%Z (Scn.T0 + 15 * Minute)%Z (Scn.T0 + 16 * Minute)%Z).
  - repeat split; vm_compute; (reflexivity || discriminate).
  - by_dec.
  - vm_compute. reflexivity.
  - by_dec.
  - vm_compute. discriminate.
  - split; vm_compute; discriminate.
Defined.

Lemma prune_keeps_recent_witness :
  recent_rows Scn.T0 (snd (run_store_task (PruneStore ["vastai-8"] Scn.T0) Scn.late)) = recent_rows Scn.T0 Scn.late.
Proof.
  apply (prune_keeps_recent ["vastai-8"] Scn.T0 Scn.T0 Scn.late). lia.
Defined.

(** Three goroutines; the first is in the body of [DestroySession], the others wait. *)
Lemma destroy_mutex_exclusive_witness :
  exists s, rtc Locks.step (Locks.start 3) s /\
    Locks.threads s !! 0 = Some (Destroying 0) /\ Locks.threads s !! 1 = Some (Waiting 0) /\
    forall j, Locks.threads s !! j = Some (Destroying 0) -> 0 = j.
Proof.
  eexists.
  assert (rtc Locks.step (Locks.start 3)
    (Locks.set_thread 1 (Waiting 0) (Locks.set_thread 0 (Destroying 0)
       (Locks.Lock 0 (Locks.set_thread 0 (Waiting 0)
          (Locks.mk (Some 0) ∅ (Locks.threads (Locks.start 3)) 1)))))) as Hr.
  { eapply rtc_l; [by apply (Locks.step_get 0)|].
    eapply rtc_l; [by apply (Locks.step_lock 0 0)|].
    eapply rtc_l; [by apply (Locks.step_get 1)|]. apply rtc_refl. }
  split; [exact Hr|]. split; [reflexivity|]. split; [reflexivity|].
  intros j Hj.
  eapply (destroy_mutex_exclusive 3 _ 0 j); [exact Hr|reflexivity|exact Hj|reflexivity|reflexivity].
Defined.
