(* ===== verification/FleetScenarios.v ===== *)
(** Concrete runs of the inventory, the reconciler, the startup manager and the offer
    choice in the simulated world. *)
From S2P Require Import Prelude GoFloat GoLib FailureTracker Models Errors Interfaces Database SessionTable.
From S2P Require Import Lifecycle Provisioner CreateSession Verify Inventory InventoryFacts Reconciler Startup.
From S2P Require Import ModelsFacts Simulation Scenarios.

(** ** The inventory *)
Definition cfg : InvConfig.t := InvConfig.default.
Definition vastai : Provider.t Sim.t := sim_provider "vastai" offers.
Definition by_gpu : OfferFilter.t := OfferFilter.mk "vastai" "RTX4090" 0 f0 "" f0 0 f0 f0.

Definition entry (l : list GPUOffer.t) : providerCache.t := fetched_entry cfg "vastai" l Scn.T0.
(** Two entries hold offer [vastai-8]. *)
Definition cached : Sim.t :=
  Sim.set_inv (InvState.mk
    (<["vastai" := entry offers]> (<["vastai:gpu=RTX4090" := entry [offer "vastai-8" 5 f1]]> ∅))
    false two_failures) (Scn.world (Scn.T0 + 50 * Second)%Z Scn.all [] []).

Lemma list_offers_frame p f : p ∈ [vastai] -> frame (Provider.ListOffers p f).
Proof. intros ->%list_elem_of_singleton w. by unfold wp. Qed.

Lemma cfg_is_ok : cfg_ok cfg.
Proof.
  split; [|vm_compute; discriminate]. intros name. split; vm_compute; discriminate.
Qed.

Lemma cached_is_ok : cache_ok (get_inv cached).
Proof.
  unfold cache_ok. cbn. apply map_Forall_insert_2; [|apply map_Forall_insert_2; [|apply map_Forall_empty]];
    (split; [split; vm_compute; discriminate|reflexivity]).
Qed.

Lemma filterAndSort_ranks_witness :
  ranked (fst (filterAndSort offers by_gpu cached)) /\
  GPUOffer.ID <$> fst (filterAndSort offers by_gpu cached) = ["vastai-9"; "vastai-7"; "vastai-8"].
Proof.
  destruct (filterAndSort_ranks offers by_gpu cached) as (_ & _ & _ & Hr).
  split; [|vm_compute; reflexivity]. apply Hr. vm_compute. repeat constructor.
Defined.

Lemma cache_stays_ok_witness :
  cache_ok (get_inv (snd (for_each [OpListOffers OfferFilter.empty; OpEvict "vastai-8"; OpRefresh 0 by_gpu;
                                    OpInvalidate "vastai"] (run_op cfg [vastai]) cached))).
Proof.
  apply (cache_stays_ok cfg [vastai] cfg_is_ok).
  - intros p f ->%list_elem_of_singleton w Hw. exact Hw.
  - exact cached_is_ok.
Defined.

Lemma getOffersWithCache_serves_witness :
  exists c, InvState.cache (get_inv (snd (getOffersWithCache cfg vastai OfferFilter.empty cached))) !! "vastai" = Some c /\
    fst (getOffersWithCache cfg vastai OfferFilter.empty cached) = answer c.
Proof.
  assert (frame (Provider.ListOffers vastai OfferFilter.empty)) as Hf by (apply list_offers_frame; by left).
  destruct (getOffersWithCache_serves cfg vastai OfferFilter.empty cached cached_is_ok Hf)
    as (_ & c & Hc & Hr & _).
  exists c. split; [exact Hc|exact Hr].
Defined.

(** A provider in backoff: its error is served. *)
Definition backing_off : Sim.t :=
  Sim.set_inv (InvState.mk (<["vastai" := backoff_entry cfg ErrProviderRateLimit Scn.T0]> ∅) false
                 OfferFailureTracker.new) cached.

Lemma fresh_entry_asks_nobody_witness :
  getOffersWithCache cfg vastai OfferFilter.empty backing_off = (Err ErrProviderRateLimit, backing_off).
Proof.
  rewrite (fresh_entry_asks_nobody cfg vastai OfferFilter.empty (backoff_entry cfg ErrProviderRateLimit Scn.T0) backing_off).
  - reflexivity.
  - reflexivity.
  - vm_compute. reflexivity.
Defined.

(** The other entry still holds the evicted offer. *)
Lemma EvictOffer_evicts_one_witness :
  quiet cached (snd (EvictOffer "vastai-8" cached)) /\
  is_Some (cached_offer (InvState.cache (get_inv (snd (EvictOffer "vastai-8" cached)))) "vastai-8").
Proof.
  split; [apply (EvictOffer_evicts_one "vastai-8" cached)|].
  vm_compute. by eexists.
Defined.

Lemma FindComparableOffers_best_witness :
  exists l, fst (FindComparableOffers cfg [vastai] (Some (offer "vastai-8" 5 f1)) "any" [] ["machine-vastai-7"] cached) = Ok l /\
    GPUOffer.ID <$> l = ["vastai-9"] /\
    Forall (comparable (offer "vastai-8" 5 f1) "any" [] ["machine-vastai-7"]) l.
Proof.
  pose proof (FindComparableOffers_best cfg [vastai] (offer "vastai-8" 5 f1) "any" []
                ["machine-vastai-7"] cached) as Hx.
  assert (fst (FindComparableOffers cfg [vastai] (Some (offer "vastai-8" 5 f1)) "any" []
                 ["machine-vastai-7"] cached) = Ok [offer "vastai-9" 5 f1]) as Hr by (vm_compute; reflexivity).
  unfold wp in Hx. rewrite Hr in Hx. destruct Hx as (rest & Hf & _).
  exists [offer "vastai-9" 5 f1]. split; [exact Hr|]. split; [reflexivity|].
  apply Forall_app in Hf as [Hf _]. exact Hf.
Defined.

Lemma unset_confidence_not_degraded_witness :
  exists x, consider two_failures by_gpu (offer "vastai-8" 5 f0) (Scn.T0 + 6 * Minute - 5 * Minute)%Z
              (Scn.T0 + 6 * Minute)%Z (Scn.T0 + 6 * Minute)%Z = Some x /\
    GPUOffer.GetEffectiveAvailabilityConfidence x = f1.
Proof.
  eexists. split; [vm_compute; reflexivity|].
  apply (unset_confidence_not_degraded two_failures by_gpu (offer "vastai-8" 5 f0) _
           (Scn.T0 + 6 * Minute - 5 * Minute)%Z (Scn.T0 + 6 * Minute)%Z (Scn.T0 + 6 * Minute)%Z).
  - reflexivity.
  - vm_compute. reflexivity.
  - apply Nat.leb_le. vm_compute. reflexivity.
  - vm_compute. reflexivity.
Defined.

Lemma SelectFromTopN_picks_witness :
  exists o n, SelectFromTopN (fun n => n - 1)%Z offers 3 (f64_lit 13 10) = SelOffer o /\ offers !! n = Some o /\
    (Z.of_nat n < 3)%Z /\
    (n <> 0 -> within (fmul (f64_of_Z 5) (f64_lit 13 10)) o = true).
Proof.
  apply (SelectFromTopN_picks (fun n => n - 1)%Z offers 3 (f64_lit 13 10) (offer "vastai-8" 5 f1)).
  - intros n Hn. lia.
  - reflexivity.
  - reflexivity.
  - vm_compute. reflexivity.
Defined.

(** ** The reconciler *)
Definition rcfg : ReconcilerConfig.t := ReconcilerConfig.mk "deploy-1" true.

(** The provider lists ["inst-1"] of the running session, ["inst-9"] of nobody; the
    instance of the provisioning session is gone. *)
Definition lost : Session.t :=
  Session.set_Status StatusProvisioning (Scn.session "s-new" "erin" "vastai-8" "inst-7" StatusRunning).
Definition drifted : Sim.t := Scn.world (Scn.T0 + Hour)%Z [Scn.running; lost] ["inst-1"; "inst-9"] [].
Definition drifted_instances : list ProviderInstance.t :=
  match fst (Provider.ListAllInstances sim_vastai drifted) with Ok l => l | Err _ => [] end.

Lemma drifted_listed : fst (Provider.ListAllInstances sim_vastai drifted) = Ok drifted_instances.
Proof. reflexivity. Qed.

Lemma reconcileProvider_destroys_orphans_witness :
  "inst-9" ∈ destroy_calls (snd (reconcileProvider rcfg sim_registry "vastai" drifted)) /\
  "inst-1" ∉ destroy_calls (snd (reconcileProvider rcfg sim_registry "vastai" drifted)).
Proof.
  assert ("vastai" <> "") as Hn by discriminate.
  assert (sim_registry !! "vastai" = Some sim_vastai) as Hr by reflexivity.
  assert (fst (reconcileProvider rcfg sim_registry "vastai" drifted) = None) as He by (vm_compute; reflexivity).
  destruct (reconcileProvider_destroys_orphans rcfg sim_registry "vastai" sim_vastai drifted_instances drifted
              Hn Hr drifted_listed) as [_ Hx].
  specialize (Hx He). split; [by_dec|]. intros Hc. apply (Hx "inst-1") in Hc as [Hc|(_ & _ & Hc)].
  - revert Hc. apply (bool_decide_unpack _). vm_compute. exact I.
  - apply Hc. exists "s-run", Scn.running. split; [vm_compute; reflexivity|].
    split; [reflexivity|]. split; [reflexivity|]. split; [reflexivity|discriminate].
Defined.

Lemma reconcileProvider_stops_ghosts_witness :
  exists s', sess_view (snd (reconcileProvider rcfg sim_registry "vastai" drifted)) !! "s-new" = Some s' /\
    exists t t', (clock drifted <= t <= t')%Z /\ s' = ghost_stopped t' lost.
Proof.
  assert ("vastai" <> "") as Hn by discriminate.
  assert (sim_registry !! "vastai" = Some sim_vastai) as Hr by reflexivity.
  assert (fst (reconcileProvider rcfg sim_registry "vastai" drifted) = None) as He by (vm_compute; reflexivity).
  assert (sess_view drifted !! "s-new" = Some lost) as Hs by (vm_compute; reflexivity).
  destruct (reconcileProvider_stops_ghosts rcfg sim_registry "vastai" sim_vastai drifted_instances drifted
              Hn Hr drifted_listed He lost Hs) as (s' & Hs' & _ & Hx).
  exists s'. split; [exact Hs'|].
  destruct Hx as (t & t' & Ht & _ & Hst).
  - sim_healthy.
  - split; [reflexivity|]. split; [discriminate|]. split; [|split; [right; reflexivity|vm_compute; discriminate]].
    intros (p & Hp & _ & Hid).
    assert (Forall (fun p => ProviderInstance.ID p <> "inst-7") drifted_instances) as Hf by by_dec.
    rewrite Forall_forall in Hf. by apply (Hf p Hp).
  - intros x Hx _ _ Hpid.
    assert (map_Forall (fun id y => Session.ProviderID y = "inst-7" -> id = "s-new") (sess_view drifted)) as Hall by by_dec.
    specialize (Hall _ _ Hx Hpid). rewrite Hall, Hs in Hx. congruence.
  - exists t, t'. split; [exact Ht|exact Hst].
Defined.

(** A crash left one session provisioning with its instance up, one stopping and one
    failed with an instance. *)
Definition crashed : Sim.t :=
  Scn.world (Scn.T0 + Hour)%Z [provisioning; Scn.stopping; Scn.failed] ["inst-9"; "inst-4"] [].

Lemma RecoverStuckSessions_settles_witness :
  exists s' d, sess_view (snd (RecoverStuckSessions sim_registry crashed)) !! "s-new" = Some s' /\
    recovered sim_registry crashed provisioning s' d /\ Session.Status s' = StatusRunning.
Proof.
  assert (healthy crashed) as Hh by sim_healthy.
  assert (sess_view crashed !! "s-new" = Some provisioning) as Hs by (vm_compute; reflexivity).
  destruct (RecoverStuckSessions_settles sim_registry crashed Hh) as (_ & Hx & _).
  destruct (Hx provisioning Hs) as (s' & d & Hs' & Hst & _). exists s', d. split; [exact Hs'|]. split; [exact Hst|].
  assert (Session.Status <$> Some s' = Some StatusRunning) as [= ->]; [|reflexivity].
  assert (Session.ID provisioning = "s-new") as Hid by reflexivity. rewrite Hid in Hs'.
  rewrite <-Hs'. vm_compute. reflexivity.
Defined.

(** ** The shutdown *)
Lemma GracefulShutdown_honest_witness :
  "inst-1" ∈ destroy_calls (snd (GracefulShutdown sim_registry (fun _ => Late) (fun l => l) Scn.late)).
Proof.
  assert (fst (GracefulShutdown sim_registry (fun _ => Late) (fun l => l) Scn.late) = None) as He
    by (vm_compute; reflexivity).
  pose proof (GracefulShutdown_honest sim_registry (fun _ => Late) (fun l => l) Scn.late
                (fun l => Permutation_refl l)) as Hx.
  unfold wp in Hx. rewrite He in Hx.
  destruct (Hx Scn.running) as [Hc|Hc]; [vm_compute; reflexivity|reflexivity|discriminate Hc|exact Hc].
Defined.

(** ** Runs that end where the code's comments say they should not *)

(** The running session expires four hours after its creation; extended by twelve at
    that instant it expires sixteen hours after it, past the twelve of the hard max. *)
Lemma ExtendSession_past_hard_max :
  fst (ExtendSession Config.default "s-run" 12 early) = None /\
  exists s, sess_view (snd (ExtendSession Config.default "s-run" 12 early)) !! "s-run" = Some s /\
    (hardMaxDuration Config.default < Session.ExpiresAt s - Session.CreatedAt s)%Z.
Proof.
  split; [vm_compute; reflexivity|]. eexists. split; [vm_compute; reflexivity|vm_compute; reflexivity].
Qed.

(** While [CreateInstance] has returned on the provider's side but its session does not
    name the instance yet, a reconciliation takes the instance for an orphan. *)
Definition between_create_and_update : Sim.t :=
  Scn.world Scn.T0 [Session.set_ProviderID "" provisioning] ["inst-9"] [].

Lemma reconcile_destroys_new_instance :
  fst (reconcileProvider rcfg sim_registry "vastai" between_create_and_update) = None /\
  "inst-9" ∈ destroy_calls (snd (reconcileProvider rcfg sim_registry "vastai" between_create_and_update)) /\
  Session.Status <$> sess_view (snd (reconcileProvider rcfg sim_registry "vastai" between_create_and_update)) !! "s-new" =
    Some StatusProvisioning.
Proof. split; [vm_compute; reflexivity|]. split; [by_dec|vm_compute; reflexivity]. Qed.

(** A provider that limits the rate of status calls during the recovery. *)
Definition limited : Provider.t Sim.t :=
  Provider.mk Sim.t "vastai" (fun _ w => (Ok [], w)) (Provider.ListAllInstances sim_vastai)
    (fun _ w => (Err ErrProviderRateLimit, w)) (Provider.DestroyInstance sim_vastai)
    (fun _ w => (Err ErrProviderRateLimit, w)) None.

(** The session's instance runs on, no destroy was asked for, and nothing names it any
    more. *)
Lemma recovery_forgets_instance :
  let registry := Registry.NewSimpleProviderRegistry [limited] in
  let w := snd (RecoverStuckSessions registry crashed) in
  fst (RecoverStuckSessions registry crashed) = None /\
  (fun s => (Session.Status s, Session.ProviderID s)) <$> sess_view w !! "s-new" = Some (StatusFailed, "") /\
  Sim.instances w !! "inst-9" = Some true /\ destroy_calls w = ∅.
Proof. cbv zeta. split; [|split; [|split]]; vm_compute; reflexivity. Qed.

(** A request of a given disk size. *)
Definition small_disk (disk : Z) : CreateSessionRequest.t :=
  CreateSessionRequest.mk "erin" "vastai-8" "llm" 4 0 "destroy" "" "" "meta-llama/Llama-3.1-70B" [] "" "" disk
    false 3 "same_gpu" "" 0 0 0%Z.

(** Verification over SSH of a session whose instance never answers: at a provider
    without an initial delay the timeout fails it and destroys the instance; at TensorDock
    the context, which ends five seconds after the timeout counted from the start, always
    ends before the timer, which is set after ninety seconds: the session stays
    provisioning and the instance runs on. *)
Definition unreachable (provider : string) : Sim.t * Sim.t :=
  let registry := Registry.NewSimpleProviderRegistry [sim_provider provider []] in
  let w := Scn.world Scn.T0 [Session.mk "s-new" "erin" provider "inst-9" "vastai-8" "RTX4090" 1
    StatusProvisioning "" "10.0.0.1" 22 "root" "" "ssh-rsa AAAA" "" "" 0 "" "" "" [] "" "" 0 false 3 "same_gpu"
    0 "" "" "" "llm" 4 false 0 "destroy" (f64_lit 5 1) Scn.T0 (Scn.T0 + 4 * Hour)%Z zero_time] ["inst-9"] [] in
  (w, snd (verify_ssh deploy registry None 100 "s-new" "wrong key" (sim_provider provider [])
             (8 * Minute)%Z (small_disk 0) w)).

Lemma tensordock_verification_never_times_out :
  let (_, vastai) := unreachable "vastai" in
  let (w, tensordock) := unreachable "tensordock" in
  Session.Status <$> sess_view vastai !! "s-new" = Some StatusFailed /\ destroy_calls vastai = {["inst-9"]} /\
  Session.Status <$> sess_view tensordock !! "s-new" = Some StatusProvisioning /\
  destroy_calls tensordock = ∅ /\ (clock w + 8 * Minute + 5 * Second <= clock tensordock)%Z.
Proof. cbv zeta. split_and!; vm_compute; first [reflexivity|discriminate]. Qed.

(** A request whose disk is too small is refused after its session was stored, and the
    stored session blocks the corrected request. *)
Lemma small_disk_leaves_pending :
  let create disk := CreateSession deploy sim_registry None (small_disk disk) (offer "vastai-8" 5 f1) in
  let w := snd (create 20%Z early) in
  (exists e, fst (create 20%Z early) = Err e) /\
  (exists s, sess_view w !! "1" = Some s /\ Session.Status s = StatusPending) /\
  fst (create 500%Z w) = Err (DuplicateSessionError "erin" "vastai-8" "1" "pending").
Proof.
  cbv zeta. split; [eexists; vm_compute; reflexivity|]. split; [|vm_compute; reflexivity].
  eexists. split; vm_compute; reflexivity.
Qed.
