(* ===== verification/ProviderScenarios.v ===== *)
(** Concrete runs of the marketplace clients in the simulated world: the network answers
    from a script, and a body is decoded by its text. *)
From S2P Require Import Prelude GoFloat GoLib GoStrings Models Errors Interfaces Database SessionTable.
From S2P Require Import Reconciler.
From S2P Require Import Template CircuitBreaker ApiClient VastTypes Vast VastFacts.
From S2P Require Import BlueLobster BlueLobsterFacts CreateSession TensorDock TensorDockFacts Simulation Scenarios.
From Stdlib Require Import Ascii.

(** ** What the marketplaces answer *)
Definition bundle (id : Z) (price : f64) : Bundle.t :=
  Bundle.mk id 0 0 7 0 "NVIDIA GeForce RTX 4090" (f64_of_Z 24576) (f64_of_Z 24576) 1 f1 "" 890
    "" 16 f0 f0 0 "amd64" (f64_of_Z 100) "" f0 f0 f0 f0 f0 price price f0 f0 "US" 0 true false
    (f64_lit 99 100) "550" "" (f64_lit 126 10) true "" true "" f0 f0 f0.

(** The instance of the running session, alive at the marketplace. *)
Definition ports : gmap string (list PortBinding.t) :=
  list_to_map [("8000/tcp", [PortBinding.mk "0.0.0.0" "33526"]); ("22/tcp", [])].
Definition instance : Instance.t :=
  Instance.mk 4242 7 0 "shopper-s-live" "running" "running" "" "1.2.3.4" 22022 "1.2.3.4"
    (Some ports) 0 0 0 "RTX 4090" 1 f0 f1 (f64_of_Z 1700000000) f0 "" "" "" "".
Definition foreign : Instance.t :=
  Instance.mk 4243 7 0 "someone else" "running" "running" "" "" 0 "" None 0 0 0 "" 1 f0 f1 f0 f0 "" "" "" "".
Definition template (filters : string) : ApiTemplate.t :=
  ApiTemplate.mk 1 "hash-1" "vLLM" "vllm/vllm-openai" "" "" "" "ssh" "" true true true f0 filters 0 f0 0.

#[local] Instance decoder : VastDecoder := {
  decode_bundles := fun _ => Ok [bundle 10 f1; bundle 11 (f64_of_Z 9)];
  decode_instances := fun _ => Ok [instance; foreign];
  decode_created := fun _ => Ok (CreateInstanceResponse.mk true 77 "");
  decode_instance := fun r => if bool_decide (Response.Body r = "null") then Ok None else Ok (Some instance);
  decode_templates := fun _ => Ok [template ""; template "cuda"];
  decode_credit := fun _ => Ok f1
}.
(** The text "cuda" stands for a filter on [cuda_max_good]. *)
Definition cuda_filter : ExtraFilter.t := ExtraFilter.mk VNil VNil None (Some (f64_lit 129 10)) None None [] [].
#[local] Instance filters : FilterDecoder :=
  fun s => if bool_decide (s = "cuda") then Ok (Some {["cuda_max_good" := cuda_filter]})
           else Err (EOpaque "bad").

Definition ok (body : string) : result Response.t := Ok (Response.mk 200 body).
Definition status (code : Z) (body : string) : result Response.t := Ok (Response.mk code body).
Definition online (l : list (result Response.t)) (w : Sim.t) : Sim.t := Sim.set_net (Net.init l) w.

(** ** Templates *)
Lemma MatchesHost_decides_witness :
  MatchesHost {["cuda_max_good" := cuda_filter]} (ToHostProperties (bundle 10 f1)) = Some false.
Proof.
  destruct (MatchesHost_decides {["cuda_max_good" := cuda_filter]} (ToHostProperties (bundle 10 f1)))
    as (b & Hb & Hspec).
  - apply host_properties_scalar.
  - rewrite Hb. f_equal. destruct b; [|reflexivity]. exfalso.
    pose proof (proj1 Hspec eq_refl "cuda_max_good" cuda_filter (VFloat64 (f64_lit 126 10))
                  ltac:(reflexivity) ltac:(vm_compute; reflexivity)) as Hm.
    vm_compute in Hm. discriminate.
Defined.

Definition heavy : VastTemplate.t := ToModel (template "").
Lemma IsHeavyImage_patterns_witness :
  IsHeavyImage heavy = true /\ (DefaultSSHTimeout <= GetRecommendedSSHTimeout heavy <= 15 * Minute)%Z.
Proof.
  destruct (IsHeavyImage_patterns heavy) as [Hp Hb]. split; [|exact Hb].
  apply Hp. exists "vllm", (15 * Minute)%Z. split; vm_compute; reflexivity.
Defined.

(** An image that matches two patterns: the timeout depends on the order of the map. *)
Definition both : VastTemplate.t :=
  ToModel (ApiTemplate.mk 1 "h" "" "nvcr.io/nvidia/tritonserver:24.05-vllm-python-py3" "" "" "" "" "" true
             true true f0 "" 0 f0 0).
Lemma recommended_timeout_depends_on_order :
  @GetRecommendedSSHTimeout (fun A m => map_to_list m) both <>
  @GetRecommendedSSHTimeout (fun A m => rev (map_to_list m)) both.
Proof. vm_compute. discriminate. Qed.

(** ** The circuit breaker *)
Definition five_failures : list event :=
  [EvSuccess 0%Z; EvFailure 1%Z 1%Z; EvFailure 2%Z 2%Z; EvFailure 3%Z 3%Z; EvFailure 4%Z 4%Z; EvFailure 5%Z 5%Z].

Lemma refusal_has_reason_witness :
  fst (cb_allow 9%Z 9%Z (run DefaultCircuitBreakerConfig five_failures)) = false /\
  exists u u', EvFailure u u' ∈ five_failures /\ (Sub 9%Z u' <= 30 * Second)%Z.
Proof.
  assert (fst (cb_allow 9%Z 9%Z (run DefaultCircuitBreakerConfig five_failures)) = false) as Hno by reflexivity.
  split; [exact Hno|].
  destruct (refusal_has_reason DefaultCircuitBreakerConfig five_failures 9%Z 9%Z Hno) as [_ Hx]. exact Hx.
Defined.

Definition waiting (n : Z) : circuitBreaker.t :=
  circuitBreaker.mk CircuitOpen 5 zero_time zero_time DefaultCircuitBreakerConfig n.
Lemma getBackoff_doubles_witness : cb_getBackoff (waiting 4) = (8 * Second)%Z.
Proof. rewrite (getBackoff_doubles (waiting 4)); [reflexivity|split; reflexivity|reflexivity]. Defined.

(** ** Vast.ai *)
Definition base : string := "https://console.vast.ai/api/v0".
Definition destroy_request : Request.t VastPayload := Request.mk "DELETE" (base +:+ "/instances/4242/") NoPayload.
Definition busy : Sim.t := online [status 429 ""; status 429 ""; ok ""] early.

Lemma doWithRetry_attempts_witness :
  exists k, 1 <= k <= 5 /\ requests (snd (doWithRetry destroy_request busy)) = replicate k destroy_request.
Proof.
  destruct (doWithRetry_attempts destroy_request busy) as (k & Hk & Hr & _). exists k. split; [exact Hk|exact Hr].
Defined.

Lemma status_not_found_witness :
  status_of_response (Response.mk 200 "null") = Err ErrInstanceNotFound /\
  IsNotFoundError ErrInstanceNotFound = true.
Proof.
  assert (status_of_response (Response.mk 200 "null") = Err ErrInstanceNotFound) as He by reflexivity.
  split; [exact He|]. apply (status_not_found _ _ He). right. split; [reflexivity|]. left. reflexivity.
Defined.

Lemma offer_id_roundtrip_witness :
  parseOfferID (GPUOffer.ID (ToGPUOffer 0%Z (bundle 10 f1))) = Ok 10%Z.
Proof. apply (offer_id_roundtrip 0%Z (bundle 10 f1)). split; discriminate. Defined.

Lemma ParsePortMappings_binds_witness : is_Some (ParsePortMappings instance !! 8000%Z).
Proof.
  destruct (ParsePortMappings_binds instance ports eq_refl) as [_ Hc].
  apply (Hc 8000%Z 33526%Z). exists "8000/tcp", (PortBinding.mk "0.0.0.0" "33526"), [].
  split; [vm_compute; reflexivity|]. split; [reflexivity|]. split; [reflexivity|]. split; reflexivity.
Defined.

Lemma compatible_templates_total_witness :
  exists cs, compatible_templates (ToHostProperties (bundle 10 f1)) (map ToModel [template ""; template "cuda"]) = Ok cs /\
    CompatibleTemplate.HashID <$> cs = ["hash-1"].
Proof.
  destruct (compatible_templates_total (bundle 10 f1) (map ToModel [template ""; template "cuda"]))
    as (cs & Hc & Hids).
  exists cs. split; [exact Hc|]. rewrite Hids. vm_compute. reflexivity.
Defined.

(** The circuit has just opened. *)
Definition open_now (w : Sim.t) : Sim.t :=
  set vast_breaker (circuitBreaker.mk CircuitOpen 5 (Sim.clk w) (Sim.clk w) DefaultCircuitBreakerConfig 1) w.
Definition balance_of : M Sim.t (result AccountBalance.t) := Vast_GetAccountBalance base.
Definition blocked : Sim.t := open_now (online [ok ""] early).

Lemma open_circuit_sends_nothing_witness :
  requests (B := VastPayload) (snd (guarded "vastai" vast_breaker "GetAccountBalance" balance_of blocked)) = [] /\
  exists e, fst (guarded "vastai" vast_breaker "GetAccountBalance" balance_of blocked) = Err e.
Proof.
  destruct (open_circuit_sends_nothing (B := VastPayload) "vastai" vast_breaker "GetAccountBalance" balance_of blocked)
    as (Hr & e & He & _).
  - apply Vast_GetAccountBalance_frame.
  - reflexivity.
  - vm_compute. discriminate.
  - split; [exact Hr|]. exists e. exact He.
Defined.

Definition cheap : OfferFilter.t := OfferFilter.mk "" "" 0 (f64_of_Z 2) "" f0 0 f0 f0.
Definition searching : Sim.t := online [ok "offers"] early.
Lemma ListOffers_matches_and_caches_witness :
  exists o, fst (Vast_ListOffers base cheap searching) = Ok [o] /\
    OfferFilter.MatchesFilter o cheap = true.
Proof.
  destruct (fst (Vast_ListOffers base cheap searching)) as [[|o [|]]|e] eqn:Ho;
    try (vm_compute in Ho; discriminate).
  exists o. split; [reflexivity|].
  destruct (ListOffers_matches_and_caches base cheap searching [o] Ho o) as [Hm _]; [by left|exact Hm].
Defined.

(** ** The reconciler over the Vast.ai client *)

(** A client, with the calls of [DestroyInstance] recorded for the statements. *)
Definition logged (p : Provider.t Sim.t) : Provider.t Sim.t :=
  Provider.mk Sim.t (Provider.Name p) (Provider.ListOffers p) (Provider.ListAllInstances p)
    (Provider.CreateInstance p)
    (fun i => let! e := Provider.DestroyInstance p i in fun w => (e, Sim.call i w))
    (Provider.GetInstanceStatus p) (Provider.GetAccountBalance p).
Definition calls_lens : lens Sim.t (gset string) := mk_lens Sim.calls (fun _ w => w).
Definition alone (p : Provider.t Sim.t) : gmap string (Provider.t Sim.t) :=
  Registry.NewSimpleProviderRegistry [p].

Lemma alone_lookup p n q : alone p !! n = Some q -> n = Provider.Name p /\ q = p.
Proof.
  unfold alone, Registry.NewSimpleProviderRegistry. cbn.
  rewrite lookup_insert_Some, lookup_empty. by intros [[<- <-]|[_ [=]]].
Qed.
Lemma alone_name p : alone p !! Provider.Name p = Some p.
Proof. apply lookup_insert_eq. Qed.

Lemma logged_laws p : ProviderLaws Sim.t (alone p) -> ProviderLaws Sim.t (alone (logged p)).
Proof.
  intros [Hp]. destruct (Hp _ _ (alone_name p)) as (Ho & Ha & Hc & Hd & Hs & Hb).
  split. intros n q [_ ->]%alone_lookup. cbn. split_and!; try done.
  intros i. apply frame_bind; [apply Hd|]. intros e w. by unfold wp.
Qed.

Lemma logged_calls p : keeps calls_lens (Provider.ListAllInstances p) ->
  (forall i, keeps calls_lens (Provider.DestroyInstance p i)) -> CallLogLaws Sim.t (alone (logged p)).
Proof.
  intros Hl Hd. split.
  - apply (list_silent (CallLogLaws := sim_call_log_laws)).
  - apply (update_silent (CallLogLaws := sim_call_log_laws)).
  - apply (now_silent (CallLogLaws := sim_call_log_laws)).
  - apply (emit_silent (CallLogLaws := sim_call_log_laws)).
  - intros n q [_ ->]%alone_lookup w. apply Hl.
  - intros n q [_ ->]%alone_lookup i w. unfold wp. cbn. unfold bind.
    pose proof (Hd i w) as Hk. destruct (Provider.DestroyInstance p i w) as [e v].
    cbn in *. unfold destroy_calls, sim_call_log. cbn. by rewrite Hk.
Qed.

Definition vast_registry : gmap string (Provider.t Sim.t) := alone (logged (Vast_Provider base)).
#[local] Instance vast_registry_laws : ProviderLaws Sim.t vast_registry.
Proof.
  apply logged_laws. split. intros n p [_ ->]%alone_lookup. cbn. split_and!; intros.
  - apply Vast_ListOffers_frame.
  - apply Vast_ListAllInstances_frame.
  - apply Vast_CreateInstance_frame.
  - apply Vast_DestroyInstance_frame.
  - apply Vast_GetInstanceStatus_frame.
  - match goal with Hm : Some _ = Some _ |- _ => injection Hm as <- end. apply Vast_GetAccountBalance_frame.
Qed.

(** The Vast.ai client leaves the recorded calls alone. *)
Lemma vast_destroy_calls i : keeps calls_lens (Vast_DestroyInstance base i).
Proof.
  unfold Vast_DestroyInstance. apply keeps_seq; [|done].
  apply guarded_keeps; [done|done|done|]. unfold rateLimited, exchange, doWithRetry.
  assert (forall n a r, keeps calls_lens (retry_loop n a r)) as Hloop.
  { induction n as [|n IH]; intros a r; cbn [retry_loop]; [done|].
    apply keeps_seq; [case_match; [|done]; intros w; cbn; by case_match|]. intros [e|]; [done|].
    apply keeps_seq; [done|]. intros [x|e]; [|done]. case_match; [apply IH|done]. }
  apply keeps_seq; [done|]. intros [e|]; [done|]. case_match; [done|].
  apply keeps_seq; [apply Hloop|]. intros [x|e]; [case_match|]; done.
Qed.

#[local] Instance vast_call_log_laws : CallLogLaws Sim.t vast_registry.
Proof.
  apply logged_calls; [|exact vast_destroy_calls]. by apply (ListAllInstances_keeps calls_lens).
Qed.

(** A session whose instance is alive and listed, eleven minutes after its creation. *)
Definition live : Session.t := Scn.session "s-live" "erin" "vastai-4242" "4242" StatusRunning.
Definition eleven : Sim.t :=
  online [ok "instances"] (Scn.world (Scn.T0 + 11 * Minute)%Z [live] [] []).
Definition deployed : ReconcilerConfig.t := ReconcilerConfig.mk "deploy-1" true.

Lemma eleven_listed : exists l, fst (Vast_ListAllInstances base eleven) = Ok l /\
  ProviderInstance.ID <$> l = ["4242"] /\ ProviderInstance.Status <$> l = ["running"].
Proof. eexists. split; [vm_compute; reflexivity|]. by split. Qed.

Lemma eleven_alone : stands_alone "vastai" eleven live.
Proof.
  assert (sess_view eleven !! "s-live" = Some live) as Hlive by (vm_compute; reflexivity).
  split; [exact Hlive|]. split; [done|]. split; [done|]. split; [by left|].
  split; [vm_compute; discriminate|]. intros x Hx _ _ _.
  assert (map_Forall (fun id _ => id = "s-live") (sess_view eleven)) as Hall by by_dec.
  pose proof (Hall _ _ Hx) as Hid. rewrite Hid, Hlive in Hx. congruence.
Qed.

Lemma vast_reconciliation_blind_witness :
  exists s', sess_view (snd (reconcileProvider deployed vast_registry "vastai" eleven)) !! "s-live" = Some s' /\
    Session.Status s' = StatusStopped.
Proof.
  destruct eleven_listed as (l & Hl & _).
  assert (fst (reconcileProvider deployed vast_registry "vastai" eleven) = None) as He by (vm_compute; reflexivity).
  destruct (vast_reconciliation_blind deployed vast_registry base (logged (Vast_Provider base)) l eleven
              ltac:(discriminate) ltac:(reflexivity) ltac:(reflexivity) Hl He) as [_ Hs].
  apply (Hs ltac:(sim_healthy) live). apply eleven_alone.
Defined.

(** ** Blue Lobster *)
#[local] Instance bl_decoder : BlueLobster.BLDecoder := {
  BlueLobster.read_body := fun r => Ok (Response.Body r);
  BlueLobster.decode_available := fun _ => Ok [];
  BlueLobster.decode_vms := fun _ => Ok [];
  BlueLobster.decode_vm := fun _ => Ok BlueLobster.VMInstance.zero;
  BlueLobster.decode_launch := fun _ => Ok (BlueLobster.LaunchInstanceResponse.mk "task-1" "vm-1" "" "");
  BlueLobster.decode_task := fun s => Ok (BlueLobster.TaskResponse.mk "task-1" s "" "" "" "" "");
  BlueLobster.decode_detail := fun _ => Err (EOpaque "no detail");
  BlueLobster.decode_error := fun _ => Err (EOpaque "no error");
  BlueLobster.raw_string := fun s => Ok s;
  BlueLobster.raw_strings := fun _ => Ok []
}.
#[local] Instance rfc3339 : BlueLobster.RFC3339 := {
  BlueLobster.parse_time := fun _ => None; BlueLobster.format_time := fun t => Itoa t
}.
Definition bl_base : string := "https://api.bluelobster.ai/api/v1".
Definition bl_client : Provider.t Sim.t := BlueLobster.BL_Provider bl_base BlueLobster.defaultTemplate.

Lemma BlueLobster_provider_laws_witness : frame (Provider.ListAllInstances bl_client).
Proof.
  destruct (BlueLobster_provider_laws (W := Sim.t) bl_base BlueLobster.defaultTemplate) as [Hl].
  apply (Hl "bluelobster" bl_client). reflexivity.
Defined.

Definition launched : BlueLobster.LaunchInstanceResponse.t :=
  BlueLobster.LaunchInstanceResponse.mk "task-1" "vm-1" "" "".
Definition slow : Sim.t := online [ok "PENDING"; status 500 ""; ok "COMPLETED"; ok "vm"] early.
Lemma poll_task_ends_witness :
  exists r, fst (BlueLobster.poll_task bl_base BlueLobster.poll_fuel
                   (Add (Sim.clk slow) BlueLobster.taskPollTimeout) launched slow) = Some r.
Proof.
  destruct (poll_task_ends bl_base launched (Sim.clk slow) slow) as (r & Hr); [vm_compute; discriminate|].
  exists r. apply (Hr BlueLobster.poll_fuel). apply Nat.le_refl.
Defined.

Definition tags : InstanceTags.t := InstanceTags.mk "6f1c2d" "prod-eu-1" zero_time "".
Definition vm : BlueLobster.VMInstance.t :=
  BlueLobster.VMInstance.mk "vm-1" (BlueLobster.instance_name tags) "" "" "1.2.3.4" "" 0 0 0 1 "" "" "" ∅ "" 90 "".
Lemma instance_name_leads_back_witness :
  BlueLobster.instance_name tags = "shopper-6f1c2d-deploy-prod-eu-" /\
  exists p, BlueLobster.listed_vm vm = Some p /\ ProviderInstance.IsOurs p "prod-eu-1" = true.
Proof.
  split; [vm_compute; reflexivity|].
  destruct (instance_name_leads_back tags vm "p"%char "rod-eu-1") as (_ & p & Hp & _ & Ho).
  - split; [reflexivity|]. exists "d"%char. split; [reflexivity|discriminate].
  - reflexivity.
  - discriminate.
  - discriminate.
  - split; [reflexivity|]. exists "1"%char. split; [reflexivity|discriminate].
  - reflexivity.
  - reflexivity.
  - reflexivity.
  - exists p. split; [exact Hp|exact Ho].
Defined.

Definition offered : BlueLobster.AvailableInstance.t :=
  BlueLobster.AvailableInstance.mk "gpu_1x_a5000"
    (BlueLobster.InstanceType.mk "gpu_1x_a5000" "" "" 90 (BlueLobster.InstanceSpec.mk 8 32 100 1 "NVIDIA RTX A5000")) [].
Definition region : BlueLobster.Region.t := BlueLobster.Region.mk "igl" "" "Wilmington" "DE" "USA".
Lemma bluelobster_offer_roundtrip_witness :
  BlueLobster.parseOfferID "bluelobster:gpu_1x_a5000:igl" = Ok ("gpu_1x_a5000", "igl").
Proof. apply (bluelobster_offer_roundtrip 0%Z offered region). reflexivity. Defined.

(** The launch, polled to the end: the machine's data come back. *)
Definition key_request : CreateInstanceRequest.t :=
  CreateInstanceRequest.mk "bluelobster:gpu_1x_a5000:igl" "6f1c2d" "ssh-rsa AAAA" "" ∅ "" tags "" [] None "" f0 0.
Definition launching : Sim.t := online [ok "launched"; ok "PENDING"; status 500 ""; ok "COMPLETED"; ok "vm"] early.
Example launch_completes :
  fst (Provider.CreateInstance bl_client key_request launching) = Ok (BlueLobster.vm_info BlueLobster.VMInstance.zero).
Proof. vm_compute. reflexivity. Qed.

(** ** TensorDock *)
#[local] Instance td_decoder : TensorDock.TDDecoder := {
  TensorDock.read_body := fun r => Ok (Response.Body r);
  TensorDock.decode_locations := fun _ => Ok [];
  TensorDock.raw_data := fun _ => Err (EOpaque "no data");
  TensorDock.decode_array := fun _ => Ok [];
  TensorDock.decode_nested := fun _ => Ok [];
  TensorDock.decode_instance := fun _ => Err (EOpaque "no instance");
  TensorDock.decode_created := fun _ => Err (EOpaque "no data");
  TensorDock.decode_validation := fun _ => Err (EOpaque "not an array");
  TensorDock.decode_status := fun s =>
    if bool_decide (s = "taken") then Ok (400%Z, "No available nodes") else Err (EOpaque "no status");
  TensorDock.parse_authorized_key := fun _ => None
}.
Definition td_base : string := "https://dashboard.tensordock.com/api/v2".
Definition td_client : Provider.t Sim.t := TensorDock.TD_Provider td_base TensorDock.defaultImageName.

Lemma redactQueryParam_hides_witness :
  TensorDock.redactQueryParam "/locations?api_key=one&api_token=two" "api_key" =
  TensorDock.redactQueryParam "/locations?api_key=three&api_token=two" "api_key".
Proof.
  apply (redactQueryParam_hides "api_key" "/locations?" "one" "three" "api_token=two"); reflexivity.
Defined.

Definition location : TensorDock.Location.t :=
  TensorDock.Location.mk "1a779525-4c04-4f2c-aa45-58b47d54bb38" "Joplin" "Missouri" "United States" 2 [].
Definition rtx3090 : TensorDock.LocationGPU.t :=
  TensorDock.LocationGPU.mk "geforcertx3090-pcie-24gb" "NVIDIA GeForce RTX 3090 PCIe 24GB" 8 f1 64 256 1000
    true true false f0 f0 f0.
Lemma tensordock_offer_roundtrip_witness :
  TensorDock.parseOfferID "tensordock-1a779525-4c04-4f2c-aa45-58b47d54bb38-geforcertx3090-pcie-24gb" =
    Ok ("1a779525-4c04-4f2c-aa45-58b47d54bb38", "geforcertx3090-pcie-24gb").
Proof.
  apply (tensordock_offer_roundtrip 0%Z location rtx3090); [reflexivity|discriminate|reflexivity|reflexivity].
Defined.
Example rtx3090_named :
  TensorDock.normalizeGPUName (TensorDock.LocationGPU.DisplayName rtx3090) = "RTX 3090" /\
  TensorDock.parseVRAMFromName (TensorDock.LocationGPU.DisplayName rtx3090) = 24%Z.
Proof. by vm_compute. Qed.

Definition taken : error :=
  ProviderError "tensordock" "CreateInstance" 400 "No available nodes" (Some ErrOfferStaleInventory).
Lemma create_error_retries_witness :
  TensorDock.created_of_response (Response.mk 200 "taken") = Err taken /\
  ShouldRetryWithDifferentOffer taken = true.
Proof.
  assert (TensorDock.created_of_response (Response.mk 200 "taken") = Err taken) as He by (vm_compute; reflexivity).
  split; [exact He|]. apply (create_error_retries (Response.mk 200 "taken") "taken" taken).
  - reflexivity.
  - intros e' He'. injection He' as <-. reflexivity.
  - exact He.
  - split; [left; reflexivity|]. exists 400%Z, "No available nodes".
    split; [reflexivity|]. split; [discriminate|reflexivity].
Defined.

Definition td_registry : gmap string (Provider.t Sim.t) := alone (logged td_client).
#[local] Instance td_registry_laws : ProviderLaws Sim.t td_registry.
Proof. apply logged_laws, TensorDock_provider_laws. Qed.
#[local] Instance td_call_log_laws : CallLogLaws Sim.t td_registry.
Proof. apply logged_calls; [by apply TensorDockFacts.td_list_keeps|intros i; by apply TensorDockFacts.td_destroy_keeps]. Qed.

Definition dock : Session.t :=
  Session.mk "s-dock" "frank" "tensordock" "6f1c" "tensordock-loc-gpu" "RTX4090" 1 StatusRunning "" "10.0.0.1"
    22 "user" "" "ssh-rsa AAAA" "" "" 0 "" "" "" [] "" "" 0 false 3 "same_gpu" 0 "" "" "" "llm" 4 false 0 "destroy"
    (f64_lit 5 1) Scn.T0 (Scn.T0 + 4 * Hour)%Z zero_time.
Definition outage : Sim.t :=
  online [status 502 "bad gateway"] (Scn.world (Scn.T0 + 11 * Minute)%Z [dock] [] []).

Lemma dock_alone : stands_alone "tensordock" outage dock.
Proof.
  assert (sess_view outage !! "s-dock" = Some dock) as Hdock by (vm_compute; reflexivity).
  split; [exact Hdock|]. split; [done|]. split; [done|]. split; [by left|].
  split; [vm_compute; discriminate|]. intros x Hx _ _ _.
  assert (map_Forall (fun id _ => id = "s-dock") (sess_view outage)) as Hall by by_dec.
  pose proof (Hall _ _ Hx) as Hid. rewrite Hid, Hdock in Hx. congruence.
Qed.

Lemma tensordock_outage_stops_sessions_witness :
  exists s', sess_view (snd (reconcileProvider deployed td_registry "tensordock" outage)) !! "s-dock" = Some s' /\
    Session.Status s' = StatusStopped.
Proof.
  assert (fst (reconcileProvider deployed td_registry "tensordock" outage) = None) as He by (vm_compute; reflexivity).
  assert (list_answered td_base outage (Response.mk 502 "bad gateway")) as Ha
    by (split; [reflexivity|]; split; [reflexivity|]; split; reflexivity).
  destruct (tensordock_outage_stops_sessions deployed td_registry td_base (logged td_client)
              (Response.mk 502 "bad gateway") outage eq_refl eq_refl Ha ltac:(split; [discriminate|reflexivity]) He)
    as [_ Hs].
  apply (Hs ltac:(sim_healthy) dock). apply dock_alone.
Defined.
