(* ===== verification/ApiScenarios.v ===== *)
(** Requests against the wired server in the simulated world: each theorem on the API at a
    concrete request, runs that exhibit what the code does on odd inputs, and the session
    commands against this server. *)
From S2P Require Import Prelude GoFloat GoLib GoStrings FailureTracker Models Errors Interfaces Database SessionTable.
From S2P Require Import Lifecycle Provisioner Disk CreateSession CostTable CostTracker Inventory InventoryFacts Template.
From S2P Require Import Simulation Scenarios Api ApiFacts Server.
From Stdlib Require Import Ascii.

(** A decoder of two bodies, and decimal integers as floats. *)
Definition body_of (consumer offer : string) : ApiCreateRequest.t :=
  ApiCreateRequest.mk consumer offer "llm" 4 0 "" "" "" "" [] "" "" 0 false 0 "" "" 0.
#[local] Instance gin : Gin := {
  bind_create := fun body =>
    if bool_decide (body = "again") then Ok (body_of "alice" "vastai-1")
    else if bool_decide (body = "new") then Ok (body_of "erin" "vastai-9")
    else Err (ValidationErrors [FieldError.mk "ConsumerID" "required" ""]);
  bind_extend := fun body =>
    match Atoi body with
    | Ok h => if bool_decide (1 <= h <= 12)%Z then Ok h else Err (ValidationErrors [FieldError.mk "AdditionalHours" "max" "12"])
    | Err _ => Err (BindError (EOpaque "invalid body"))
    end;
  bind_sessions := fun _ => Ok (SessionListFilter.mk "" "" "" 0);
  bind_costs := fun _ => Ok (CostQueryParams.mk "" "" "" "" "");
  bind_templates := fun _ => Err (EOpaque "no templates")
}.
#[local] Instance gin_laws : GinLaws.
Proof.
  split.
  - intros body r. cbn. repeat case_bool_decide; intros [= <-]; repeat split; by_dec.
  - intros body h. cbn. destruct (Atoi body); [|done]. case_bool_decide; [|done]. by intros [= <-].
Qed.
#[local] Instance float_text : FloatText := {
  ParseFloat := fun s =>
    if bool_decide (s = "NaN") then Ok S754_nan
    else match Atoi s with Ok n => Ok (f64_of_Z n) | Err _ => Err (EOpaque "syntax") end;
  fmt_v := fun _ => "?"
}.
#[local] Instance no_filters : FilterDecoder := fun _ => Ok None.
#[local] Instance sim_server : HasServer Sim.t :=
  mk_lens (fun _ => ServerState.mk true true) (fun _ w => w).

(** One provider with two offers and no templates. *)
Definition offer (id : string) : GPUOffer.t :=
  GPUOffer.mk id "vastai" id "RTX4090" 1 24 (f64_lit 5 1) "US" f1 true 4 Scn.T0 f1 f0 "" true f0.
Definition sim_clients : list (client Sim.t) :=
  [(sim_provider "vastai" [offer "vastai-1"; offer "vastai-9"], None)].
#[local] Instance server9 : Backend Sim.t :=
  wired (Service.New "deploy-1") InvConfig.default Config.default sim_clients.
#[local] Instance client_laws : ClientLaws sim_clients.
Proof.
  split.
  - split. intros n p Hp. assert (p = sim_provider "vastai" [offer "vastai-1"; offer "vastai-9"]) as ->.
    { revert Hp. unfold registry, Registry.NewSimpleProviderRegistry. cbn.
      rewrite lookup_insert_Some, lookup_empty. by intros [[_ <-]|[_ [=]]]. }
    apply sim_provider_frames.
  - intros c f ->%list_elem_of_singleton. by apply sim_provider_frames.
  - by intros c t ->%list_elem_of_singleton.
Qed.
#[local] Instance server_laws : BackendLaws Sim.t := wired_laws (Service.New "deploy-1") InvConfig.default Config.default sim_clients.

Definition request (id body : string) (query : list (string * string)) : HttpRequest.t :=
  HttpRequest.mk (list_to_map query) id body "r-1".

(** ** The theorems at concrete requests *)
Lemma get_requests_read_only_witness :
  HttpResponse.Code (fst (serve GET_inventory "/api/v1/inventory" "GET" "r-1" ∅ "" "" early)) = 200%Z /\
  sess_view (snd (serve GET_inventory "/api/v1/inventory" "GET" "r-1" ∅ "" "" early)) = sess_view early.
Proof.
  split; [vm_compute; reflexivity|].
  apply (get_requests_read_only GET_inventory "/api/v1/inventory" "GET" "r-1" ∅ "" "" early).
  reflexivity.
Defined.

Lemma creation_status_tells_witness :
  let w' := snd (handleCreateSession (request "" "new" []) early) in
  HttpResponse.Code (fst (handleCreateSession (request "" "new" []) early)) = 201%Z /\
  grows early w' /\ size (sess_view w') <= size (sess_view early) + 6.
Proof.
  pose proof (creation_status_tells (request "" "new" []) early) as [Hg [Hs _]].
  split; [vm_compute; reflexivity|]. split; [exact Hg|exact Hs].
Defined.

Lemma duplicate_request_conflicts_witness :
  HttpResponse.Code (fst (handleCreateSession (request "" "again" []) early)) = 409%Z /\
  sess_view (snd (handleCreateSession (request "" "again" []) early)) = sess_view early.
Proof.
  split; [vm_compute; reflexivity|].
  apply (duplicate_request_conflicts (request "" "again" []) (body_of "alice" "vastai-1") "s-run" Scn.running early).
  - reflexivity.
  - sim_healthy.
  - vm_compute. reflexivity.
  - split; [reflexivity|]. split; reflexivity.
Defined.

Definition listing : HttpRequest.t :=
  request "" "" [("limit", "10"); ("offset", "20"); ("min_vram", "24"); ("max_price", "2")].
Lemma inventory_params_bounds_witness :
  exists f, offer_filter listing = Ok f /\ page_params listing = Ok (10, 20)%Z /\
    (0 <= OfferFilter.MinVRAM f)%Z /\ fnegative (OfferFilter.MaxPrice f) = false.
Proof.
  exists (OfferFilter.mk "" "" 24 (f64_of_Z 2) "" f0 0 f0 f0).
  assert (offer_filter listing = Ok (OfferFilter.mk "" "" 24 (f64_of_Z 2) "" f0 0 f0 f0)) as Hf
    by (vm_compute; reflexivity).
  assert (page_params listing = Ok (10, 20)%Z) as Hp by (vm_compute; reflexivity).
  destruct (inventory_params_bounds listing _ _ _ Hf Hp) as (Hv & _ & _ & _ & Hm & _).
  split; [exact Hf|]. split; [exact Hp|]. split; [exact Hv|exact Hm].
Defined.

Definition three : list GPUOffer.t := [offer "a"; offer "b"; offer "c"].
Lemma pages_cover_witness :
  concat ((fun k : nat => paginate 2 (Z.of_nat k * 2) three) <$> seq 0 2) = three.
Proof.
  apply (pages_cover 2 2 three).
  - reflexivity.
  - vm_compute. lia.
Defined.

Lemma handleCreateSession_asks_wellformed_witness :
  handleCreateSession (B := checked_backend) (request "" "new" []) early =
  handleCreateSession (B := server9) (request "" "new" []) early.
Proof. exact (handleCreateSession_asks_wellformed (request "" "new" []) early). Defined.

Lemma extend_request_decides_witness :
  HttpResponse.Code (fst (handleExtendSession (request "s-run" "6" []) early)) = 200%Z /\
  sess_view (snd (handleExtendSession (request "s-run" "6" []) early)) =
    <["s-run" := extended 6 Scn.running]> (sess_view early).
Proof.
  assert (HttpResponse.Code (fst (handleExtendSession (request "s-run" "6" []) early)) = 200%Z) as Hc
    by (vm_compute; reflexivity).
  split; [exact Hc|].
  assert (healthy early) as Hh by sim_healthy.
  pose proof (extend_request_decides (Service.New "deploy-1") InvConfig.default Config.default sim_clients
                (request "s-run" "6" []) 6 early eq_refl Hh) as Hx.
  unfold wp in Hx. change (wired _ _ _ _) with server9 in Hx.
  assert (sess_view early !! HttpRequest.id (request "s-run" "6" []) = Some Scn.running) as Hs
    by (vm_compute; reflexivity).
  rewrite Hs in Hx. destruct Hx as [(_ & H409 & _)|(t & _ & _ & Hx)].
  - exfalso. rewrite Hc in H409. discriminate H409.
  - destruct (_ && _); destruct Hx as [Hx Hv]; [|exact Hx].
    exfalso. rewrite Hc in Hx. discriminate Hx.
Defined.

Lemma delete_request_confirms_witness :
  HttpResponse.Code (fst (handleDeleteSession (request "s-run" "" []) early)) = 200%Z /\
  exists s', sess_view (snd (handleDeleteSession (request "s-run" "" []) early)) !! "s-run" = Some s' /\
    Session.Status s' = StatusStopped.
Proof.
  assert (HttpResponse.Code (fst (handleDeleteSession (request "s-run" "" []) early)) = 200%Z) as Hc
    by (vm_compute; reflexivity).
  split; [exact Hc|].
  assert (healthy early) as Hh by sim_healthy.
  pose proof (delete_request_confirms (Service.New "deploy-1") InvConfig.default Config.default sim_clients
                (request "s-run" "" []) early Hh) as [_ Hx].
  assert (sess_view early !! HttpRequest.id (request "s-run" "" []) = Some Scn.running) as Hs
    by (vm_compute; reflexivity).
  rewrite Hs in Hx. destruct Hx as [Ha _]. destruct (Ha eq_refl) as (s' & Hs' & Hr).
  exists s'. split; [exact Hs'|]. change (wired _ _ _ _) with server9 in Hr.
  rewrite Hc in Hr. destruct Hr as [(t & _ & ->) _]. reflexivity.
Defined.

Lemma readiness_gates_nothing_witness :
  HttpResponse.Code (fst (serve (B := with_ready (ret false) server9) POST_sessions
    "/api/v1/sessions" "POST" "r-1" ∅ "" "new" early)) = 201%Z.
Proof.
  pose proof (readiness_gates_nothing (Service.New "deploy-1") InvConfig.default Config.default sim_clients
             (ret false) POST_sessions "/api/v1/sessions" "POST" "r-1" ∅ "" "new") as Hx.
  change (wired _ _ _ _) with server9 in Hx. rewrite Hx; [|discriminate|discriminate].
  vm_compute. reflexivity.
Defined.

(** ** What odd inputs do *)

(** A second DELETE of a session whose destruction failed is answered 200, while its
    instance still runs. *)
Example delete_again_lies :
  let w := Scn.world Scn.T0 Scn.all ["inst-1"; "inst-3"; "inst-4"] ["inst-1"] in
  let first := handleDeleteSession (request "s-run" "" []) w in
  let second := handleDeleteSession (request "s-run" "" []) (snd first) in
  HttpResponse.Code (fst first) = 500%Z /\ HttpResponse.Code (fst second) = 200%Z /\
  Session.Status <$> sess_view (snd second) !! "s-run" = Some StatusStopping /\
  Sim.instances (snd second) !! "inst-1" = Some true.
Proof. by vm_compute. Qed.

(** [NaN] passes the checks of a price and of a reliability. *)
Example nan_passes :
  is_nan <$> match offer_filter (request "" "" [("max_price", "NaN"); ("min_reliability", "NaN")]) with
             | Ok f => [OfferFilter.MaxPrice f; OfferFilter.MinReliability f]
             | Err _ => [] end = [true; true].
Proof. by vm_compute. Qed.

(** An error about the caller's own SSH key is reported as a timeout to retry. *)
Example ssh_error_misread :
  classifyProvisionError (Some (EOpaque "SSH key validation failed: invalid SSH public key")) =
    ("ssh_timeout", true).
Proof. reflexivity. Qed.

(** Only an end date, the first of a month: the period is empty. *)
Example end_date_alone :
  fst (cost_period (CostQueryParams.mk "" "" "" "2024-03-01" "") early) =
    Ok (Date 2024 3 1, Date 2024 3 1).
Proof. by vm_compute. Qed.

(** ** The session commands against this server

    Integers are sent as their text; the router answers 404 for what is not a route. *)
From S2P Require Import Programs Cli Commands CommandsFacts.
Definition sent_json (payload : list (string * Cli.field)) : string :=
  match payload with [(_, Cli.Number n)] => Itoa n | _ => "" end.
Definition shown (b : Body) : string := "".
Definition not_routed (m : Method) (path : string) : M Sim.t (result Answer.t) :=
  ret (Ok (Answer.mk 404 "404 page not found" (Err (EOpaque "invalid character")))).
Definition ends_with (p : shell (option error)) (w : Sim.t) : option error :=
  outcome shown sent_json "r-1" not_routed p w.

(** [sessions delete s-run] reports success, and the provisioner destroyed the session. *)
Lemma session_commands_report_witness :
  ends_with (runSessionsDelete "s-run") early = None /\ fst (provisioner_DestroySession "s-run" early) = None.
Proof.
  assert (fst (provisioner_DestroySession "s-run" early) = None) as Hd by (vm_compute; reflexivity).
  split; [|exact Hd].
  apply (proj1 (session_commands_report shown sent_json "r-1" not_routed (fun _ => "") "s-run" 6 false early eq_refl)).
  exact Hd.
Defined.
(** [sessions delete s-run#9] says that the session [s-run#9], which does not exist, is
    destroyed: it destroyed [s-run]. *)
Example another_session_destroyed :
  ends_with (runSessionsDelete "s-run#9") early = None /\
  fst (provisioner_DestroySession "s-run#9" early) <> None /\
  fst (provisioner_DestroySession "s-run" early) = None.
Proof. split; [vm_compute; reflexivity|split; [vm_compute; congruence|vm_compute; reflexivity]]. Qed.
(** An id with a slash reaches no route. *)
Example slash_is_refused :
  ends_with (runSessionsDelete "a/b") early = Some (EOpaque "failed to delete session: 404 page not found").
Proof. vm_compute. reflexivity. Qed.
