(* ===== verification/BenchScenarios.v ===== *)
(** Concrete runs of the benchmark packages: a world with their tables, a worker whose
    machine does what it is asked, and the theorems on them at concrete inputs. *)
From S2P Require Import Prelude GoFloat GoLib GoStrings GoText Models Errors Interfaces Database CostTable Template Tables Manifest BenchStore BenchParser Programs Runner BenchRuns RunnerFacts BenchRunsFacts Scheduler SchedulerFacts.

Module BenchWorld.
Record t := mk {
  db : DB.t;
  clk : time;
  next_id : Z;
  entries : gmap string ManifestEntry.t;
  results : gmap string BenchRow.t
}.
End BenchWorld.

Module Bench.
Definition T0 : time := (63900000000 * Second)%Z.

(** ** Data *)
Definition entry (id status : string) : ManifestEntry.t :=
  ManifestEntry.mk id "run-1" "RTX 4090" "tensordock" "llama3.1:8b" status 0 "" "" "" "" f0 "" f0 f0 "" ""
    T0 None None.
Definition benchmark (id : string) (tps : Z) : BenchmarkResult.t :=
  BenchmarkResult.mk id T0 (HardwareInfo.mk "RTX 4090" 24564 1 "" "" "" 0 0)
    (ModelInfo.mk "llama3.1:8b" "llama3.1" "8B" "" f0 "ollama" "") (TestConfig.mk 5 256 [] 1 0)
    (PerformanceResults.mk 10 1000 0 0 (f64_of_Z 60) (f64_of_Z tps) f0 f0 f0 f0 f0 f0 f0 f0 f0 f0 f0 f0 f0 f0
       f0 f0 f0 f0 0 0)
    GPUStats.zero "tensordock" "US" (f64_lit 5 10).
Definition fast := benchmark "b-fast" 90.
Definition slow := benchmark "b-slow" 40.
Definition row (r : BenchmarkResult.t) : BenchRow.t := BenchRow.mk r (BenchmarkResult.ID r).

Definition world : BenchWorld.t :=
  BenchWorld.mk (DB.mk ∅ [] [] ∅ []) T0 1
    {["e-1" := entry "e-1" ManifestStatusPending]} {["b-slow" := row slow; "b-fast" := row fast]}.

(** A result is encoded as its identifier. *)
#[export] Instance engine : BenchEngine := {
  json_Marshal := fun r => Ok (BenchmarkResult.ID r);
  json_Unmarshal := fun text =>
    if bool_decide (text = "b-fast") then Ok fast
    else if bool_decide (text = "b-slow") then Ok slow else Err (EOpaque "invalid character");
  avg_column := fun l => fdiv (fsum l) (f64_of_Z (Z.of_nat (length l)));
  bare_row := fun r _ => r
}.

#[export] Instance bench_db : HasDB BenchWorld.t := {
  get_db := BenchWorld.db;
  set_db := fun d w => BenchWorld.mk d (BenchWorld.clk w) (BenchWorld.next_id w) (BenchWorld.entries w)
                         (BenchWorld.results w);
  db_clock := BenchWorld.clk
}.
#[export] Instance bench_env : Env BenchWorld.t := {
  now := fun w => (BenchWorld.clk w, w);
  time_Now := fun w => (BenchWorld.clk w, w);
  wait := fun _ w => (None, w);
  new_uuid := fun w =>
    (pretty (BenchWorld.next_id w),
     BenchWorld.mk (BenchWorld.db w) (BenchWorld.clk w) (BenchWorld.next_id w + 1) (BenchWorld.entries w)
       (BenchWorld.results w));
  emit := fun _ w => (tt, w)
}.
#[export] Instance bench_manifest : HasManifest BenchWorld.t :=
  mk_lens BenchWorld.entries
    (fun m w => BenchWorld.mk (BenchWorld.db w) (BenchWorld.clk w) (BenchWorld.next_id w) m
                  (BenchWorld.results w)).
#[export] Instance bench_results : HasBenchmarks BenchWorld.t :=
  mk_lens BenchWorld.results
    (fun m w => BenchWorld.mk (BenchWorld.db w) (BenchWorld.clk w) (BenchWorld.next_id w)
                  (BenchWorld.entries w) m).
#[export] Instance bench_ctx : RunContext BenchWorld.t := fun w => (None, w).

#[export] Instance manifest_laws : TableLaws (manifest : lens BenchWorld.t _).
Proof. by split. Qed.
#[export] Instance manifest_env : TableEnv (manifest : lens BenchWorld.t _).
Proof. by split. Qed.
#[export] Instance results_laws : TableLaws (benchmarks : lens BenchWorld.t _).
Proof. by split. Qed.
#[export] Instance results_env : TableEnv (benchmarks : lens BenchWorld.t _).
Proof. by split. Qed.
End Bench.
Import Bench.

(** ** The manifest *)
Lemma failed_not_pending id reason stage (v : BenchWorld.t) :
  wp (MarkFailed Background id reason stage) (fun _ v' => pending_in id v' -> pending_in id v) v.
Proof.
  apply wp_bind. unfold wp at 1. cbn [time_Now bench_env fst snd]. apply wp_error_only, (wp_table_sql _).
  - intros e v' Hv (old & Ho & Hp). exists old. by rewrite <-Hv.
  - intros v' Hv (old & Ho & Hp). rewrite Hv in Ho.
    destruct (view manifest v !! id) as [e|] eqn:He; cbn [snd] in Ho; [|congruence].
    rewrite lookup_insert_eq in Ho. by simplify_eq.
Qed.

Lemma entry_claimed_once_witness :
  let calls := let! first := MarkRunning Background "e-1" "worker-1" "" in
               let! x := MarkFailed Background "e-1" "no offers" "find_offer" in
               let! second := MarkRunning Background "e-1" "worker-2" "" in
               ret (first, second) in
  (calls world).1.1 = None /\ (calls world).1.2 <> None.
Proof.
  cbv zeta. split; [vm_compute; reflexivity|].
  apply (entry_claimed_once Background Background "e-1" "worker-1" "worker-2" "" ""
           (MarkFailed Background "e-1" "no offers" "find_offer") world).
  - intros v. apply failed_not_pending.
  - vm_compute. reflexivity.
Defined.

(** ** The results *)
Lemma GetBestForModel_best_witness :
  (GetBestForModel Background "llama3.1:8b" world).1 = Ok (Some fast) /\
  wp (GetBestForModel Background "llama3.1:8b") (fun r _ =>
    match r with
    | Err _ => True
    | Ok None => rows_where (of_model "llama3.1:8b") (view benchmarks world) = []
    | Ok (Some best) =>
        (exists row, row ∈ rows_where (of_model "llama3.1:8b") (view benchmarks world) /\
           BenchRow.columns row = best) /\
        Forall (fun row => fltb (PerformanceResults.AvgTokensPerSecond (BenchmarkResult.Results best))
                                (BenchRow.avg_tps row) = false)
          (rows_where (of_model "llama3.1:8b") (view benchmarks world))
    end) world.
Proof.
  split; [vm_compute; reflexivity|]. apply GetBestForModel_best.
  apply map_Forall_insert_2; [split; vm_compute; reflexivity|].
  apply map_Forall_singleton. split; vm_compute; reflexivity.
Defined.

Lemma stats_of_ordered_witness :
  exists s, stats_of (f64_of_Z <$> [30; 10; 20]%Z) = Some s /\ Stats.P50 s = f64_of_Z 20 /\
    fle (Stats.Min s) (Stats.P50 s).
Proof.
  eexists. split; [reflexivity|]. split; [vm_compute; reflexivity|].
  apply (stats_of_ordered (f64_of_Z <$> [30; 10; 20]%Z)); [|reflexivity].
  repeat constructor; vm_compute; reflexivity.
Defined.

(** ** Cron *)
Definition quarter_hours : Schedule.t :=
  Schedule.mk "s-1" "nightly" "*/15 3 * * 1" (BenchmarkRunRequest.mk [] [] [] f0 0 "") true "" None T0 T0.
(** A Monday at a quarter past three. *)
Definition monday : time := (T0 + 2 * Day - 5 * Hour + 15 * Minute)%Z.
Lemma cron_means_fields_witness : shouldRun (fun _ => 0%Z) quarter_hours monday = true.
Proof.
  rewrite (cron_means_fields (fun _ => 0%Z) (Every 15) (Exactly 3) AnyValue AnyValue (Exactly 1) quarter_hours monday).
  - vm_compute. reflexivity.
  - rewrite !Forall_cons, Forall_nil. cbn. unfold in_int64, min_int64, max_int64. split_and!; lia.
  - vm_compute. reflexivity.
Defined.

(** ** A worker *)
Definition machine_offer : GPUOffer.t :=
  GPUOffer.mk "o-1" "tensordock" "" "RTX 4090" 1 24 (f64_lit 5 10) "US" f0 true 0 T0 f0 f0 "m-1" false f0.
Definition machine_session : Session.t :=
  Session.mk "s-1" "bench-e-1-1" "tensordock" "inst-1" "o-1" "RTX 4090" 1 StatusRunning "" "10.0.0.1" 22 "root" ""
    "KEY" "" "" 0 "" "" "" [] "" "" 0 true 2 "same_gpu" 0 "" "" "" "benchmark" 1 false 0 ""
    (f64_lit 5 10) T0 (T0 + Hour)%Z zero_time.

(** The services and the machine: one offer; a session that runs at once; an upload that
    works or not; and a script that has its result ready. *)
Definition answers (uploads : bool) (B : Type) (e : runnerE B) : unit -> option (B * unit) :=
  fun w =>
  match e in runnerE B return option (B * unit) with
  | Now => Some ((T0 + 2 * Hour)%Z, w)
  | Uuid prefix => Some (prefix +:+ "1", w)
  | IntN => Some (fun _ => 0%Z, w)
  | Panic => None
  | CtxDone | Stagger _ => Some (false, w)
  | Ticks _ _ => Some (2, w)
  | AcquireGate => Some (true, w)
  | ListOffers _ => Some (Ok [machine_offer], w)
  | HasTemplates _ => Some (false, w)
  | CompatibleTemplates _ _ => Some (Ok [], w)
  | CreateSession _ _ | GetSession _ => Some (Ok machine_session, w)
  | SCPWrite _ _ _ => Some (if uploads then None else Some (EOpaque "connection refused"), w)
  | RunCommand _ command =>
      Some (if HasPrefix command "test -f /tmp/benchmark_failed" then Err (EOpaque "exit status 1")
            else if HasPrefix command "test -f /tmp/benchmark_complete" then Ok "b-fast" else Ok "", w)
  | SaveResult r => Some ((None, r), w)
  | GetPending _ _ | ListEntries _ _ => Some (Ok [], w)
  | Summary _ _ => Some (Ok (fun _ => 0%Z), w)
  | TotalCost _ _ => Some (Ok f0, w)
  | ReadRun _ => Some (None, w)
  | FindRun _ => Some ((false, None), w)
  | DestroySession _ | CreateEntry _ | Claim _ _ _ | UpdateEntry _ | Succeed _ _ _ _ | FailEntry _ _ _ _
  | TimeOut _ _ => Some (None, w)
  | Sleep _ | ReleaseGate | StartWorker _ | WaitWorkers | RecordOfferFailure _ _ _ _ _ | EvictOffer _
  | WriteRun _ _ | AddRun _ | AddCancel _ | StartProcess _ | CancelContext _ | EndRun _ => Some (tt, w)
  end.

Definition by_insertion (less : GPUOffer.t -> GPUOffer.t -> bool) : list GPUOffer.t -> list GPUOffer.t :=
  foldr (fun o l =>
    (fix insert l := match l with
       | [] => [o]
       | x :: l' => if less x o then x :: insert l' else o :: l
       end) l) [].
Definition worker : program unit := processEntry by_insertion "#!/bin/bash" "US" (entry "e-1" ManifestStatusRunning).
Definition history (uploads : bool) : list (event runnerE) :=
  match run (answers uploads) worker [] tt with Some (_, h, _) => h | None => [] end.

(** The benchmark succeeds: the entry is a success, its result is stored, nothing is left
    rented. *)
Example worker_succeeds :
  foldr (next (recorded "e-1")) (Some ManifestStatusRunning, false) (history true) =
    (Some ManifestStatusSuccess, true) /\
  foldr (next rented) [] (history true) = [] /\ history true <> [].
Proof. vm_compute. done. Qed.

(** The script cannot be uploaded: the machine is given back, the second attempt finds no
    other offer, and the entry has failed. *)
Example worker_gives_up :
  foldr (next (recorded "e-1")) (Some ManifestStatusRunning, false) (history false) =
    (Some ManifestStatusFailed, false) /\
  foldr (next rented) [] (history false) = [] /\ history false <> [].
Proof. vm_compute. done. Qed.

(** ** Workers *)
Definition jobs : list (string * ManifestEntry.t) :=
  [("US", entry "e-1" ManifestStatusRunning); ("US", entry "e-2" ManifestStatusRunning)].
Definition started : list (@thread runnerE) * bool :=
  ((fun j => mk_thread (processEntry by_insertion "#!/bin/bash" j.1 j.2) false) <$> jobs, false).

(** The first worker takes the gate and looks for offers. *)
Lemma one_worker_rents_witness :
  exists s s' x, thread_step takes_gate gives_gate rents 0 x s s' /\ rents x = true /\
    exists worker, s.1 !! 0 = Some worker /\ holders s.1 = [worker].
Proof.
  assert (exists s s' x, rtc (some_step takes_gate gives_gate rents) started s /\
            thread_step takes_gate gives_gate rents 0 x s s' /\ rents x = true) as (s & s' & x & Hs & Hx & Hr).
  { eexists _, _, _. split; [|split].
    - eapply rtc_l; [|apply rtc_refl]. exists 0, (Ev AcquireGate true).
      eapply (step_thread _ _ _ 0 _ _ _ AcquireGate); [reflexivity|reflexivity|done].
    - eapply (step_thread _ _ _ 0 _ _ _ (ListOffers _) _ _ (Ok [machine_offer])); [reflexivity|reflexivity|done].
    - reflexivity. }
  exists s, s', x. split; [exact Hx|]. split; [exact Hr|].
  exact (one_worker_rents by_insertion "#!/bin/bash" jobs s s' 0 x Hs Hx Hr).
Defined.

(** ** The dispatcher *)
Lemma processRun_ends_witness :
  watch BenchRunsFacts.pending
    (processRun "run-1" (BenchmarkRunRequest.mk ["llama3.1:8b"] [] [] f0 0 "") 3)
    (fun finished _ => finished = true) {["e-1"; "e-2"]}.
Proof. apply processRun_ends. vm_compute. lia. Defined.
