(* ===== verification/SshScenarios.v ===== *)
(** Concrete runs of [internal/ssh]: the default verifier, and what two GPUs print. *)
From S2P Require Import Prelude GoFloat GoLib GoStrings Errors Programs SshOutput SshOutputFacts SshExec SshFacts.
From Stdlib Require Import Ascii.

(** The default verifier is done after twenty-two rounds. *)
Lemma Verify_ends_witness :
  watch passing (Verify Verifier.NewVerifier "10.0.0.1" 22 "root" "key" 22) (fun r _ => is_Some r) 0%Z.
Proof.
  apply (Verify_ends Verifier.NewVerifier); [split; vm_compute; congruence|lia|vm_compute; congruence].
Defined.

Definition watts (s : string) : res error f64 :=
  if bool_decide (s = "65.05") then Ok (f64_lit 6505 100)
  else if bool_decide (s = "312.5") then Ok (f64_lit 3125 10) else Err (EOpaque "invalid syntax").
Definition two_gpus : list (GPUStatus.t * string) :=
  [(GPUStatus.mk "NVIDIA A100-SXM4-80GB" 70123 81920 98 64 312, "312.5");
   (GPUStatus.mk "NVIDIA A100-SXM4-80GB" 4 81920 0 31 65, "65.05")].
Example two_gpus_printed :
  Join (smi_line <$> two_gpus) " / " =
  "NVIDIA A100-SXM4-80GB, 70123, 81920, 98, 64, 312.5 / NVIDIA A100-SXM4-80GB, 4, 81920, 0, 31, 65.05".
Proof. vm_compute. reflexivity. Qed.
Lemma nvidia_smi_roundtrip_witness :
  ParseMultiGPUNvidiaSMI watts (Join (smi_line <$> two_gpus) (String "010" "") +:+ String "010" "") =
    Ok two_gpus.*1.
Proof.
  apply nvidia_smi_roundtrip; [discriminate|].
  assert (forall s, s <> "" -> trim_left s = s -> trim_right s = s -> free_of "," s = true ->
            free_of "010" s = true -> plain s) as Hp by done.
  repeat apply Forall_cons_2; [..|constructor].
  - split; [by apply Hp|]. split; [by apply Hp|].
    split; [repeat constructor; vm_compute; congruence|]. intros what. vm_compute. reflexivity.
  - split; [by apply Hp|]. split; [by apply Hp|].
    split; [repeat constructor; vm_compute; congruence|]. intros what. vm_compute. reflexivity.
Defined.
