(* ===== verification/CliScenarios.v ===== *)
(** Concrete runs of the orchestrator and of the commands that ask a server; and the
    configuration that a file and an environment give together. *)
From S2P Require Import Prelude GoFloat GoLib GoStrings Models Errors Interfaces Api Programs Cli Orchestrator OrchestratorFacts Inventory Simulation Scenarios FleetScenarios.

Definition spec (gpu : string) : TestSpec.t := TestSpec.mk 0 gpu "vastai" "llama3:8b" f0 8.
Definition two_specs : list TestSpec.t := [spec "RTX 4090"; spec "RTX 5090"].
Definition worker_1 : Worker.t := Worker.mk 1 "w1" (spec "RTX 4090") "/tmp/bench_workers/worker_w1.log" zero_time.

(** ** The mutex *)

(** The worker cannot create its log, takes the mutex and sets its status: it holds the
    mutex, alone. *)
Definition two_goroutines : list (thread (E := orchE)) * bool :=
  goroutines 3 f1 "/tmp" "run-1" 41 2 two_specs [worker_1].
Abbreviation orch_step := (thread_step takes_mu gives_mu (needs_mu false)).
Lemma worker_states_guarded_witness :
  exists s s' x, rtc (some_step takes_mu gives_mu (needs_mu false)) two_goroutines s /\ orch_step 1 x s s' /\
    (1, FStatus) ∈ writes x /\ holding s 1.
Proof.
  assert (exists s s' x,
    rtc (some_step takes_mu gives_mu (needs_mu false)) two_goroutines s /\ orch_step 1 x s s' /\
    (1, FStatus) ∈ writes x) as (s & s' & x & Hs & Hx & Hw).
  { eexists _, _, _. split; [|split].
    - eapply rtc_l; [|eapply rtc_l; [|apply rtc_refl]].
      + exists 1, (Ev (CreateLog (Worker.OutputFile worker_1)) (Some (EOpaque "permission denied"))).
        eapply (step_thread _ _ _ 1 _ _ _ (CreateLog (Worker.OutputFile worker_1))); [reflexivity|reflexivity|done].
      + exists 1, (Ev Lock tt). eapply (step_thread _ _ _ 1 _ _ _ Lock); [reflexivity|reflexivity|done].
    - eapply (step_thread _ _ _ 1 _ _ _ (SetStatus (Worker.ref worker_1) "failed") _ _ tt); [reflexivity|reflexivity|done].
    - by left. }
  exists s, s', x. split; [exact Hs|]. split; [exact Hx|]. split; [exact Hw|].
  assert (NoDup (Worker.ref <$> [worker_1])) as Hnd by (apply NoDup_singleton).
  destruct (worker_states_guarded 3 f1 "/tmp" "run-1" 41 2 two_specs [worker_1] Hnd) as [Hg _].
  destruct (Hg s 1 x s' Hs Hx) as [Hh|[Hnone _]]; [|exact Hh|].
  - intros Hnil. apply app_nil in Hnil as [_ Hnil]. rewrite Hnil in Hw. inversion Hw.
  - rewrite Hnone in Hw. inversion Hw.
Defined.

(** ** The tests *)
Lemma tests_accounted_for_witness :
  watch (launches 3 (f64_of_Z 15) two_specs)
    (runBenchmarkOrchestration 3 (f64_of_Z 15) "/tmp/bench_workers" 100 two_specs)
    (accounted_for (f64_of_Z 15) two_specs) Launched.start.
Proof. apply tests_accounted_for. Defined.

(** A world for the loop: the clock and its step, and the statuses of the workers; the first
    has cost twenty dollars. *)
Definition answer (statuses : nat -> string) (step : Z) (B : Type) (e : orchE B) (w : Z * nat) : option (B * (Z * nat)) :=
  match e in orchE B return option (B * (Z * nat)) with
  | Now => Some (w.1, ((w.1 + step)%Z, w.2))
  | Sleep d => Some (tt, ((w.1 + d)%Z, w.2))
  | Fetch _ => Some (Err (EOpaque "offline"), w)
  | MkdirAll _ | CreateLog _ => Some (None, w)
  | WriteLog _ _ | CloseLog _ | Lock | Unlock | SetStatus _ _ | SetProgress _ _ | SetSession _ _ | SetCost _ _ _
  | SetTPS _ _ | Go _ => Some (tt, w)
  | ReadLog _ => Some (Ok [], w)
  | GetStatus r => Some (statuses r, w)
  | GetProgress _ => Some (w.1, w)
  | GetSession _ => Some ("s-1", w)
  | GetCost _ => Some (f64_of_Z 20, w)
  | NewWorker _ _ _ _ => Some (w.2, (w.1, S w.2))
  | NextTick => Some (Watcher, w)
  end.
Definition loop_run (statuses : nat -> string) (step : Z) :
    option (option (bool * Loop.t) * list (event orchE) * (Z * nat)) :=
  run (answer statuses step) (runBenchmarkOrchestration 3 (f64_of_Z 15) "/tmp" 10 two_specs) []
    ((Scn.T0 : Z), 0).
Definition fetches (h : list (event orchE)) : list (event orchE) :=
  List.filter (fun x => match x with Ev (Fetch _) _ => true | _ => false end) h.

(** Two workers that are started at the same instant have the same id, and the first one is
    forgotten. *)
Example same_id_loses_test :
  match loop_run (fun _ => "completed") 0 with
  | Some (Some (stopped, s), _, _) => Loop.completed s = [spec "RTX 5090"] /\ Loop.failed s = []
  | _ => False
  end.
Proof. vm_compute. done. Qed.

(** The budget is exhausted while the second worker has a machine: the loop ends, and asks
    the server for nothing. *)
Example budget_abandons_sessions :
  match loop_run (fun r => match r with O => "completed" | _ => "ssh_ready" end) 7 with
  | Some (Some (stopped, s), h, _) =>
      stopped = true /\ (Worker.Test <$> (map_to_list (Loop.active s)).*2) = [spec "RTX 5090"] /\ fetches h = []
  | _ => False
  end.
Proof. vm_compute. done. Qed.

(** ** The cheapest offer *)

(** The server ranks its offers by confidence before price, and the command takes the first:
    it costs five dollars, the second one four. *)
Example cheapest_is_not :
  let l := fst (filterAndSort offers by_gpu cached) in
  selectCheapestOffer "RTX4090" (Ok (Answer.mk 200 "" (Ok (OffersBody l (Z.of_nat (length l)) (Z.of_nat (length l)))))) =
    Ok (offer "vastai-9" 5 f1) /\
  (GPUOffer.PricePerHour <$> l) !! 1 = Some (f64_of_Z 4).
Proof. split; vm_compute; reflexivity. Qed.

(** ** The commands that ask the server *)
From S2P Require Import Commands CommandsFacts.

#[local] Instance prices : FloatText := {
  ParseFloat := fun s =>
    if bool_decide (s = "0.50") then Ok (f64_lit 1 2)
    else if bool_decide (s = "0.00") then Ok f0 else Err (EOpaque "invalid syntax");
  fmt_v := fmt_fixed 2
}.
Definition with_price (p : f64) : InventoryFlags.t := InventoryFlags.mk "vastai" "RTX4090" p 24 0.
Definition inventory_request (flags : InventoryFlags.t) : HttpRequest.t :=
  HttpRequest.mk (list_to_map (inventory_query flags)) "" "" "".

(** At most fifty cents an hour, at least 24 GB. *)
Lemma inventory_filter_agrees_witness :
  offer_filter (inventory_request (with_price (f64_lit 499 1000))) =
    Ok (OfferFilter.mk "vastai" "RTX4090" 24 (f64_lit 1 2) "" f0 0 f0 f0).
Proof.
  rewrite (inventory_filter_agrees (with_price (f64_lit 499 1000)) (f64_lit 1 2)); [vm_compute; reflexivity|..].
  - reflexivity.
  - split; vm_compute; congruence.
  - split; vm_compute; congruence.
  - intros _. split; vm_compute; reflexivity.
Defined.

(** A maximal price below half a cent is sent as 0.00, which does not limit the price. *)
Example tiny_price_is_no_limit :
  inventory_query (with_price (f64_lit 4 1000)) =
    [("provider", "vastai"); ("gpu_type", "RTX4090"); ("max_price", "0.00"); ("min_vram", "24")] /\
  (match offer_filter (inventory_request (with_price (f64_lit 4 1000))) with
   | Ok f => OfferFilter.MaxPrice f = f0
   | Err _ => False
   end).
Proof. split; vm_compute; reflexivity. Qed.

(** ** The private key *)
Definition instant (t : time) : string := Itoa t.
Definition flags (saveKey : string) : ProvisionFlags.t :=
  ProvisionFlags.mk "erin" "vastai-9" "llm" 2 0 "destroy" saveKey "".
Definition new_session : Body :=
  CreateSessionResponse (SessionResponse.of_session
    (Session.mk "s-1" "erin" "vastai" "" "vastai-9" "RTX4090" 1 StatusProvisioning "" "" 0 "" "" "" "" "" 0 "" ""
       "" [] "" "" 0 false 3 "same_gpu" 0 "" "" "" "llm" 2 false 0 "destroy" f1 zero_time zero_time zero_time))
    "PRIVATE KEY" 0.
(** A server that creates the session, and a disk that [saves] or does not. *)
Definition shell_run (saves : bool) (A : Type) (e : shellE A) (_ : unit) : option (A * unit) :=
  match e in shellE A return option (A * unit) with
  | Ask _ => Some (Ok (Answer.mk 201 "" (Ok new_session)), tt)
  | AskOther _ _ => Some (Ok (Answer.mk 404 "404 page not found" (Err (EOpaque "invalid character"))), tt)
  | AskBench _ _ => None
  | Println _ | PrintTable _ | Warn _ => Some (tt, tt)
  | PrintJSON _ | PrintBenchJSON _ => Some (None, tt)
  | WriteKey _ _ => Some (if saves then None else Some (EOpaque "permission denied"), tt)
  | Getenv _ => Some ("", tt)
  end.
Definition provision (saves : bool) (saveKey : string) : option (option error * list (event shellE) * unit) :=
  run (shell_run saves) (runProvision instant FormatTable (flags saveKey)) [] tt.
(** Whether the key appears on the terminal. *)
Definition printed (key : string) (h : list (event shellE)) : bool :=
  existsb (fun x => match x with Ev (Println l) _ => bool_decide (l = key) | _ => false end) h.

Example key_printed :
  match provision true "" with Some (e, h, _) => e = None /\ printed "PRIVATE KEY" h = true | None => False end.
Proof. vm_compute. done. Qed.
(** The file cannot be written: the command succeeds with a warning, and the key, which the
    server gives only once, is lost. *)
Example key_lost :
  match provision false "/root/key" with
  | Some (e, h, _) => e = None /\ printed "PRIVATE KEY" h = false
  | None => False
  end.
Proof. vm_compute. done. Qed.

(** ** Costs *)

(** The cost of a session is shown as that of no sessions and no hours. *)
Example session_cost_without_hours :
  let s := as_costs instant map_to_list (SessionCostBody "s-1" (f64_lit 5 1)) in
  dollars (CliCosts.TotalCost s) = "$5.00" /\ CliCosts.SessionCount s = 0%Z /\ CliCosts.HoursUsed s = f0.
Proof. vm_compute. done. Qed.

From S2P Require Import Config.
(** ** A configuration library

    One that keeps the documented layers; [dotenv] is the file, [environ] the environment. *)
Module LayeredViper.
Record t := mk { explicit : gmap string value; bound : gmap string string; read : gmap string string;
                 defaults : gmap string value }.
End LayeredViper.
Section LayeredViper.
Context (dotenv environ : gmap string string).
#[export] Instance text_of_value : ValueText := fun v =>
  match v with VString s => s | VInt z => Itoa z | VBool b => if b then "true" else "false" | VDuration d => Duration_String d end.
Definition layers (v : LayeredViper.t) (k : string) : Layer.t :=
  Layer.mk (LayeredViper.explicit v !! k) (LayeredViper.bound v !! k ≫= fun name => environ !! name)
    (LayeredViper.read v !! k) (LayeredViper.defaults v !! k).
Definition text_at (v : LayeredViper.t) (k : string) : string := winner (layers v k).
Definition decode_config (v : LayeredViper.t) : Config.t :=
  let d := Config.Lifecycle Config.defaults in
  Config.mk (ServerConfig.mk (text_at v "server.host") 8080) (text_at v "database.path")
    (ProvidersConfig.mk (VastAIConfig.mk (text_at v "providers.vastai.api_key") true)
       (Config.ProvidersConfig.BlueLobster (Config.Providers Config.defaults))
       (Config.ProvidersConfig.TensorDock (Config.Providers Config.defaults)))
    (Config.Inventory Config.defaults)
    (LifecycleConfig.mk (LifecycleConfig.CheckInterval d) (LifecycleConfig.HardMaxHours d) (LifecycleConfig.OrphanGracePeriod d)
       (LifecycleConfig.ReconciliationInterval d) (LifecycleConfig.StartupSweepEnabled d)
       (LifecycleConfig.StartupSweepTimeout d) (LifecycleConfig.ShutdownTimeout d) (text_at v "lifecycle.deployment_id"))
    (Config.SSH Config.defaults) (Config.Logging Config.defaults).
Instance layered_viper : Viper LayeredViper.t := {|
  viper_New := LayeredViper.mk ∅ ∅ ∅ ∅;
  SetDefault k x v := LayeredViper.mk (LayeredViper.explicit v) (LayeredViper.bound v) (LayeredViper.read v)
                        (<[k := x]> (LayeredViper.defaults v));
  SetConfigFile _ v := v;
  SetConfigType _ v := v;
  ReadInConfig v := (None, LayeredViper.mk (LayeredViper.explicit v) (LayeredViper.bound v) dotenv (LayeredViper.defaults v));
  AutomaticEnv v := v;
  SetEnvKeyReplacer _ v := v;
  BindEnv k name v := (None, LayeredViper.mk (LayeredViper.explicit v) (<[k := name]> (LayeredViper.bound v))
                               (LayeredViper.read v) (LayeredViper.defaults v));
  GetString k v := text_at v k;
  viper_Set k x v := LayeredViper.mk (<[k := x]> (LayeredViper.explicit v)) (LayeredViper.bound v) (LayeredViper.read v)
                       (LayeredViper.defaults v);
  Unmarshal v := Ok (decode_config v)
|}.
Instance layered_laws : ViperLaws LayeredViper.t.
Proof.
  refine {| layer := layers |}; try done.
  - intros k x v k' _ _. unfold layers. cbn. case_bool_decide as Hk; [subst; by rewrite lookup_insert_eq|].
    by rewrite lookup_insert_ne.
  - intros k x v k' _ _. unfold layers. cbn. case_bool_decide as Hk; [subst; by rewrite lookup_insert_eq|].
    by rewrite lookup_insert_ne.
  - intros v k. by eexists.
  - intros v k. by eexists.
  - intros r v k. by eexists.
  - intros k' name v k. by eexists.
  - intros v cfg [= <-]. done.
Defined.
End LayeredViper.

Definition a_dotenv : gmap string string := {["deployment_id" := "from-the-file"]}.
Definition an_environ : gmap string string := {["DEPLOYMENT_ID" := "from-the-environment"; "DATABASE_PATH" := "/data/db"]}.

(** The identifier comes from the file although the environment sets it; the path, which the
    file does not set, from the environment. *)
Lemma env_file_overrides_witness :
  let V := layered_viper a_dotenv an_environ in
  exists cfg, @LoadFromEnv _ V _ = Ok cfg /\
    LifecycleConfig.DeploymentID (Config.Lifecycle cfg) = "from-the-file" /\ Config.DatabasePath cfg = "/data/db".
Proof.
  cbv zeta. destruct (@LoadFromEnv _ (layered_viper a_dotenv an_environ) _) as [cfg|e] eqn:Hl.
  - exists cfg. split; [done|].
    destruct (@env_file_overrides _ _ _ (layered_laws a_dotenv an_environ) _ _ cfg Hl) as (Hid & _).
    split; [rewrite Hid; [by vm_compute|by vm_compute]|].
    revert Hl. vm_compute. by intros [= <-].
  - exfalso. revert Hl. by vm_compute.
Defined.
