(* ===== verification/MetricsScenarios.v ===== *)
(** Concrete runs of the metrics: a registry of series, and what the services report to it. *)
From S2P Require Import Prelude GoFloat GoLib GoStrings Models Errors Interfaces Database SessionTable.
From S2P Require Import Lifecycle Provisioner CreateSession Verify Reconciler Programs SshExec SshVerifier CostTable CostTracker.
From S2P Require Import Metrics Simulation Scenarios FleetScenarios.

(** The series with whole values, and the amounts and observations in order. *)
Module Series.
Record t := mk { values : gmap (string * list string) Z; floats : list (string * list string * f64) }.
Definition get (m : string) (l : list string) (s : t) : Z := default 0%Z (values s !! (m, l)).
Definition put (m : string) (l : list string) (n : Z) (s : t) : t := mk (<[(m, l) := n]> (values s)) (floats s).
Definition note (m : string) (l : list string) (x : f64) (s : t) : t := mk (values s) (floats s ++ [(m, l, x)]).
End Series.
#[local] Instance series : Prometheus Series.t := {
  add := fun m l n s => Series.put m l (Series.get m l s + n)%Z s;
  set := Series.put;
  add_amount := Series.note;
  set_amount := Series.note;
  observe := Series.note;
  value := Series.get
}.
#[local] Instance series_laws : PrometheusLaws Series.t.
Proof.
  split; intros; cbn; unfold Series.get, Series.put; cbn;
    [by rewrite lookup_insert_eq|by rewrite lookup_insert_ne by congruence
    |by rewrite lookup_insert_eq|by rewrite lookup_insert_ne by congruence].
Qed.
Definition empty : Series.t := Series.mk ∅ [].

(** ** What the simulated world has been told *)
#[local] Instance sim_report_log : ReportLog Sim.t := fun w => concat (status_report <$> Sim.effects w).

Lemma unreported_ret {A} (a : A) : unreported (ret a : M Sim.t A).
Proof. intros w. by apply wp_ret. Qed.
Lemma unreported_bind {A B} (m : M Sim.t A) (k : A -> M Sim.t B) :
  unreported m -> (forall a, unreported (k a)) -> unreported (bind m k).
Proof.
  intros Hm Hk w. apply wp_bind. eapply wp_mono; [apply Hm|]. intros a v Hv.
  eapply wp_mono; [apply Hk|]. intros b u Hu. by rewrite <-Hv, <-Hu.
Qed.
Lemma unreported_sql {A} (stmt : DB.t -> result A * DB.t) : unreported (sql stmt : M Sim.t (result A)).
Proof. intros w. by apply wp_sql. Qed.
Lemma unreported_emit e : status_report e = [] -> unreported (emit e : M Sim.t unit).
Proof.
  intros He w. unfold wp, status_reports, sim_report_log. cbn. by rewrite fmap_app, concat_app, fmap_cons, He, app_nil_r.
Qed.
Ltac unreported_step :=
  first [apply unreported_ret | apply unreported_sql | by apply unreported_emit | apply unreported_bind; [|intros ?]
        | by intros ? | progress case_match].

Lemma sim_select_unreported ctx t d : unreported (sim_select ctx t d).
Proof. intros w. unfold wp, sim_select. cbv zeta. by repeat case_match. Qed.
Lemma record_hours_unreported fuel s t u : unreported (record_hours fuel s t u : M Sim.t (option error)).
Proof.
  revert t. induction fuel as [|fuel IH]; intros t; cbn [record_hours]; [apply unreported_ret|].
  case_match; [apply unreported_ret|]. apply unreported_bind; [unfold Record_cost; cbn; unfold table_Record; by repeat unreported_step|].
  intros [e|]; [apply unreported_ret|]. apply unreported_bind; [by apply unreported_emit|intros; apply IH].
Qed.
Lemma interp_unreported {A} (p : prog sshE A) : unreported (interp (ssh_do (W := Sim.t)) p).
Proof.
  induction p as [a|B e k IH]; cbn [interp]; [apply unreported_ret|]. apply unreported_bind; [|exact IH].
  destruct e; cbn; try apply unreported_ret; try by intros w.
  apply unreported_bind; [|intros; apply unreported_ret]. intros w. unfold wp. cbn. by case_match.
Qed.
#[local] Instance sim_report_laws : ReportLaws Sim.t sim_registry None.
Proof.
  split.
  - intros e w. unfold wp, status_reports, sim_report_log. cbn. by rewrite fmap_app, concat_app; cbn; rewrite app_nil_r.
  - unfold Create, Get, Update, ListInternal, GetActiveSessionByConsumerAndOffer. cbn.
    unfold table_Create, table_Get, table_Update, table_ListInternal, table_GetActive.
    split_and!; intros; by repeat unreported_step.
  - split_and!; try by intros w. intros d w. unfold wp. cbn. by case_match.
  - intros record s [= <-]. unfold Tracker_RecordFinalCost. repeat first [apply record_hours_unreported | unreported_step].
  - split; [intros; apply interp_unreported|]. intros url. cbn. unfold DefaultHTTPVerifier_CheckHealth. by repeat unreported_step.
  - intros n p Hp. assert (p = sim_provider "vastai" []) as ->.
    { revert Hp. unfold sim_registry, Registry.NewSimpleProviderRegistry. cbn.
      rewrite lookup_insert_Some, lookup_empty. by intros [[_ <-]|[_ [=]]]. }
    split_and!; [intros w|intros r w|intros i w|intros i w|done]; unfold wp; cbn; try done.
    + by destruct (Sim.create_script w) as [|[e|] l].
    + by case_bool_decide.
    + by destruct (Sim.instances w !! i).
  - done.
Qed.

(** ** The gauge in a run

    The server starts; a session is created, its verification succeeds at the first poll, and
    a session that was running before the start is destroyed. *)
Definition service : Service.t := Service.New "deploy-1".
Definition set_up : Series.t := fst (initialize_metrics empty early).
Definition begun : Sim.t := snd (initialize_metrics empty early).
Definition after_create : Sim.t :=
  snd (CreateSession service sim_registry None (Scenarios.request "erin" "vastai-8" false) (Scenarios.offer "vastai-8" 5 f1) begun).
Definition after_poll : Sim.t :=
  snd (ssh_poll sim_registry None "1" "private" sim_vastai 1 (ssh_start service) after_create).
Definition after_destroy : Sim.t := snd (Provisioner.DestroySession service sim_registry "s-run" after_poll).
Lemma gauge_counts_sessions_witness :
  gauge ("vastai", StatusRunning) (told set_up after_destroy) = 1%Z /\
  gauge ("vastai", StatusProvisioning) (told set_up after_destroy) = 0%Z /\
  gauge ("vastai", StatusStopping) (told set_up after_destroy) = 1%Z.
Proof.
  assert (healthy early) as Hh by sim_healthy.
  assert (rtc (served sim_registry None service ReconcilerConfig.default Lifecycle.Config.default) begun after_destroy) as Hrun.
  { eapply rtc_l; [apply srv_create|]. eapply rtc_l; [|apply rtc_once, srv_destroy].
    apply (srv_ssh_poll _ _ _ _ _ _ "vastai" sim_vastai); [reflexivity|]. vm_compute. by intros s' [= <-]. }
  assert (forall k, uncounted k.2 = false -> gauge k (told set_up after_destroy) = held after_destroy k) as Hk.
  { intros k Hk. refine (proj1 (gauge_counts_sessions sim_registry None (Hinv := ltac:(done)) service ReconcilerConfig.default
      Lifecycle.Config.default empty early after_destroy k Hh eq_refl Hk _ Hrun)). vm_compute. reflexivity. }
  split; [|split]; (rewrite Hk by reflexivity); vm_compute; reflexivity.
Defined.

(** ** Where the gauge drifts *)

(** A session that is being destroyed is found reachable by a poll of its verification, while
    the consumer has another active session for the offer: the write is refused and its error
    dropped, and the gauge is told that the session runs. *)
Example poll_while_stopping :
  let w := Scn.world Scn.T0 [Scn.session "s-old" "ann" "vastai-1" "inst-1" StatusStopping;
                             Scn.session "s-new" "ann" "vastai-1" "inst-2" StatusRunning] ["inst-1"; "inst-2"] [] in
  let w' := snd (ssh_poll sim_registry None "s-old" "private" sim_vastai 1 (ssh_start service) w) in
  healthy_check w = true /\ sess_view w' = sess_view w /\
  status_reports w' = [("vastai", "stopping", "running")].
Proof. split; [vm_compute; reflexivity|split; [by apply map_eq; vm_compute|vm_compute; reflexivity]]. Qed.
(** The hard maximum is enforced on an instance that does not stop: the session was told to be
    stopping, and is stored as running again. *)
Example failed_destroy_written_back :
  let w := Scn.world (Scn.T0 + 13 * Hour)%Z [Scn.running] ["inst-1"] ["inst-1"] in
  let w' := snd (checkHardMax Lifecycle.Config.default w) in
  Session.Status <$> sess_view w' !! "s-run" = Some StatusRunning /\
  status_reports w' = [("vastai", "running", "stopping")].
Proof. split; vm_compute; reflexivity. Qed.

(** ** The recovery at startup is not reported

    The server crashed while a session was provisioning.  At the start the gauges are set from
    the database, then the recovery finds the instance up and makes the session running,
    without a word to the gauge; when the session is destroyed the gauge of running sessions
    goes below zero, and the one of provisioning sessions stays. *)
Example recovered_session_goes_negative :
  let g := fst (initialize_metrics empty crashed) in
  let w1 := snd (RecoverStuckSessions sim_registry crashed) in
  let w2 := snd (Provisioner.DestroySession (Service.New "deploy-1") sim_registry "s-new" w1) in
  let g2 := reports (Sim.effects w2) g in
  gauge ("vastai", StatusProvisioning) g = 1%Z /\
  Session.Status <$> sess_view w1 !! "s-new" = Some StatusRunning /\
  Session.Status <$> sess_view w2 !! "s-new" = Some StatusStopped /\
  gauge ("vastai", StatusRunning) g2 = (-1)%Z /\ gauge ("vastai", StatusProvisioning) g2 = 1%Z.
Proof. vm_compute. done. Qed.

(** A failed session with an instance is destroyed: the database says stopped, the gauge
    still counts it as it was. *)
Example failed_cleanup_unreported :
  let w := Scn.world Scn.T0 [Scn.failed] ["inst-4"] [] in
  let w' := snd (Provisioner.DestroySession (Service.New "deploy-1") sim_registry "s-fail" w) in
  Session.Status <$> sess_view w' !! "s-fail" = Some StatusStopped /\
  gauge ("vastai", StatusStopped) (reports (Sim.effects w') empty) = 0%Z.
Proof. vm_compute. done. Qed.
